(* ===== verification/_CoqProject ===== *)
-Q . S2P
Prelude.v
Decimal.v
CoinBalance.v
WalletConfig.v
Points.v
Withdrawal.v
PointsExpiry.v
CoinPricing.v
PaymentStatus.v
CoinPurchase.v
CoinConfig.v
Subscriptions.v
SubscriptionGift.v
Gifting.v
Phone.v
Charging.v
Renewal.v
Prizes.v
Campaigns.v
Calendar.v
Eligibility.v
SmsGateway.v
SmsQueue.v
Cache.v
PaymentOtp.v
LoginOtp.v
Engagement.v
BoostPricing.v
Boost.v
BoostRun.v
StableSort.v
Binary64.v
Winners.v
Selection.v
Leaderboard.v
Scoring.v
SyncOrder.v
SmsSubscription.v
SyncEndpoint.v
Accounts.v
SignIn.v
SignInRun.v
AccountRun.v
UssdSubscription.v
SuperApp.v
TelebirrSoap.v
DirectDebit.v
