(* ===== verification/Prelude.v ===== *)
(** * FlipStar backend: a verified model

    FlipStar is a Django backend for short-video contests.  People buy coins
    (Telebirr, airtime), subscribe, give coins and gifts to creators, and
    creators turn the points they earn into birr.  This library models the
    part of it where a mistake costs somebody money, and proves what that code
    does -- also where it does something other than it means to.

    ** The parts, and the code they model

    - [Prelude] (this file): exceptions, the state-and-error monad, strings,
      dates, sums over lists and over finite maps, the tactics.
    - [Decimal]: Python's [decimal] as the code uses it.
    - [CoinBalance] ([api/models/contest.py]): [UserCoinBalance], a user's
      four buckets of coins with the totals kept beside them, and
      [CoinTransaction], the ledger.  Everything below that moves coins goes
      through it.
    - [WalletConfig] ([api/models/wallet.py]): the rates and limits, and the
      conversions between coins, points and birr.
    - [Points] ([api/models/core.py], [api/models/wallet.py]): a profile's
      points and coins and their ledger.
    - [Withdrawal] ([api/views/wallet.py], [api/views/direct_debit.py]):
      points to birr over Telebirr B2C, review, cancellation, reinvestment.
    - [PointsExpiry] ([api/services/points_expiry.py]): points of accounts
      without activity for 180 days.
    - [CoinPricing] ([api/services/coin_pricing.py], [coin_packages.py]): what
      an amount of birr buys.
    - [PaymentStatus] ([api/services/payment_status.py]): a provider's status
      in the code's own vocabulary.
    - [CoinPurchase] ([api/views/wallet.py]): buying coins, by H5 order and by
      USSD push, and the webhooks that credit them.
    - [CoinConfig] ([api/services/coin_config.py],
      [api/models/coin_config.py]): campaign budgets and the rewards paid from
      them.
    - [Subscriptions] ([api/models/subscription.py],
      [api/services/subscription_access.py]): plans, periods, the once-only
      bonus, who counts as a subscriber.
    - [SubscriptionGift] ([api/services/subscription_daily_gift.py],
      [subscription_gift.py]): the coins a paid period gives back, day by day.
    - [Gifting] ([api/views/gift.py], [api/views/contest.py],
      [api/services/contribution_limits.py]): coin gifts and catalogue gifts.
    - [Phone] ([common/validators/phone.py]): Ethiopian mobile numbers.
    - [Charging] ([api/services/timwe_charging.py], [api/models/timwe.py],
      [api/integrations/timwe/charge.py]): charging a number's airtime, once.
    - [Renewal] ([api/services/subscription_renewal.py]): the charge that
      renews a lapsed short-code plan, and the hourly sweep.
    - [Prizes] ([api/services/prize_structure.py], [prize_delivery.py]): what
      a competition pays, and delivering it.
    - [Campaigns] ([api/services/realms.py], [campaign_workflow.py],
      [api/views/organization_campaigns.py]): accounts and their scope, and
      the maker/checker workflow.
    - [Calendar]: the months of the Gregorian calendar, for
    - [Eligibility] ([api/services/campaign_eligibility.py]): who may compete.
    - [SmsGateway] ([api/services/sms/segments.py], [api/integrations/smpp/]):
      the length of a message, delivery receipts, one session of the SMPP
      link.
    - [SmsQueue] ([api/services/sms/dispatch.py], [api/models/sms.py],
      [api/tasks/sms.py]): messages from the queue to their receipts.
    - [Cache]: what Django's cache promises, as a class, with a finite map for
      an instance.
    - [PaymentOtp] ([api/services/payment_otp.py],
      [api/views/payment_verification.py]): the code that authorises a push.
    - [LoginOtp] ([api/services/otp.py]): the code that proves a number.
    - [Engagement] ([api/services/campaign_charges.py], [post_pricing.py],
      [api/views/core.py], [api/tasks/media.py]): what likes, comments, shares
      and posts cost.
    - [BoostPricing] ([api/services/boost_tiers.py], [api/models/boost.py]):
      the prices of a boost.
    - [Boost] ([api/views/boost.py], [api/models/boost.py],
      [api/tasks/boost.py], [api/views/contest.py]): selling, serving,
      pausing, cancelling and ending a boost; [BoostRun] runs those requests
      one after another.
    - [StableSort]: Python's stable sort.  [Binary64]: Python's [float].
    - [Winners] ([api/services/scoring/engine.py],
      [api/models/campaign_extended.py], [api/tasks/leaderboards.py]): boards,
      who may win how often, selecting and rewarding winners; [Selection] says
      what a selection does, alone and after others.
    - [Leaderboard] ([api/services/scoring/leaderboard.py]): counting
      engagement over a campaign, and the ranking.
    - [Scoring] ([api/services/scoring/engine.py]): the scores of the tiers.
    - [SyncOrder] ([api/integrations/timwe/datasync.py],
      [api/services/subscription_tiers.py]): reading the aggregator's
      notifications, and the tier they are about.
    - [SmsSubscription] ([api/services/sms_subscription.py]): subscribing and
      unsubscribing by text message; [SyncEndpoint] ([api/views/timwe.py]):
      the notifications that do it.
    - [Accounts] ([common/security/pin_policy.py],
      [api/services/usernames.py], [api/signals.py]): PINs, usernames, and
      what comes with a new account.
    - [SignIn] ([api/views/core.py], [common/throttling.py]): registering,
      signing in, codes and forgotten PINs; [SignInRun] runs those requests
      one after another, and [AccountRun] with those that delete and edit
      accounts.
    - [UssdSubscription] ([api/views/subscription.py], [wallet.py],
      [api/services/subscription_access.py], [telebirr_subscription_sms.py]):
      a plan bought by a push to the handset, and its two webhooks.
    - [SuperApp] ([api/views/subscription.py],
      [api/services/superapp_sms_service.py]): a plan bought by an H5 order,
      its notification, and the query that repairs it.
    - [TelebirrSoap] ([api/integrations/telebirr/direct_debit.py],
      [api/views/direct_debit.py]): the requests to Telebirr as they are
      written, and what is read of answers and results.
    - [DirectDebit] ([api/models/direct_debit.py],
      [api/views/direct_debit.py]): mandates and payments of one debit, from
      the request to the webhook, over [TelebirrSoap], with requests that
      overlap.

    ** How the code is represented

    A table is a [gmap] from its key, or a list in insertion order where order
    matters; a row is a record with the model's columns.  A method or handler
    is a function in [M S], a state monad over the store [S] with exceptions
    as values.  [atomic] restores the store when its body raises, as a
    database transaction does; [catch] is [except]; what raises outside a
    transaction keeps the writes made before it.  [zoom] runs an operation of
    one component on its part of another's store, which is how handlers call
    models.

    A Python object loaded from the database is a value of the row's type, and
    may be stale by the time a method runs on it.  So methods take the copy
    they run on as an argument ([self]), a locked re-read is a lookup, and a
    [save] writes the columns the code writes, all of them when it names none.
    Handlers that read, leave the transaction and write later are split into
    the steps between which other requests can run; the theorems about
    interleavings quantify over lists of such steps.

    Integers are unbounded, as Python's are; the width of a database column is
    modelled only for the money columns of a boost.  Instants are
    microseconds; calendar days are taken from them where the code takes them.
    Two-place decimals are cents; floats are the binary64 numbers of the
    Standard Library.  Answers of Telebirr, the SMS gateway and the clock are
    arguments.  A response is its status and its message.

    Recursion is structural, with three bounds on numbers.  In [Decimal] the
    digits of a numeral are counted with one unit of fuel per bit
    ([ndigits_lower] and [ndigits_upper] show the count is exact), and
    trailing zeros are stripped with one unit per place ([strip_zeros_spec]
    shows it stops only where the reference algorithm does).  In [Eligibility]
    the loop over months has one unit for each month
    ([month_periods_partition] shows that it ends before they are used up).

    ** What is proved

    - The wallet (C1-C2).  Whatever order the methods of [UserCoinBalance] are
      interleaved in, and however stale the copies they run on, buckets stay
      non-negative, totals agree, and the balance is the sum of the ledger.
      What each spend takes, and from which bucket.  C1 is about those
      methods; other code inserts ledger rows on its own, and C10 shows one
      such place breaking the agreement.
    - Points and withdrawals (C3-C4).  Every handler of [Withdrawal] refines
      an abstract request automaton; points are conserved as long as B2C
      answers in time, and what happens when it does not.  Expiry takes
      exactly what is stale, and its sweep can starve.
    - Buying coins (C5).  Quotes; a purchase is paid at most once over any
      interleaving.
    - Campaign rewards (C6).  Budgets and caps hold, an engagement is paid
      once.  Proved over any wallet satisfying the [CoinWallet] class;
      [CoinBalance] is an instance.
    - Subscriptions (C7-C8).  The bonus, paid once and once more for every
      release of its stamp; the daily schedule and its idempotency.
    - Gifting (C9-C10).  Coin gifts never go through; the daily limit counts
      nothing; a catalogue gift is all or nothing, at the stored rate and fee.
    - Airtime (C11).  A charge is billed and fulfilled at most once over any
      interleaving; a renewal is charged only when it is due and applied once;
      the spellings of a number.
    - Prizes (C12).  Deliveries that do not overlap pay a prize at most once;
      awarding records one.
    - Campaigns (C13-C16).  Profiles, isolation of organizations, the approval
      automaton with separation of duties; the months of a season.
    - Messages (C17-C18).  A receipt is read back as it was written, but for
      the keys that the message it quotes spells itself; a message leaves at
      most once unless a worker dies while sending it; the retry after a
      broken link never sends.
    - Codes (C19-C20).  A push is authorised only for the payment its session
      was opened for and by a code that was sent; how many codes, tries and
      pushes a session is good for; the login code's life.
    - Engagement (C21).  A like, comment or share and its price happen
      together or not at all; a post is charged what was quoted, once; a
      campaign entry is charged nothing.
    - Boosts (C22).  A boost is sold or nothing happens; coin balances are
      down by exactly what was sold, a refund is paid at most once when
      requests do not overlap, and to the profile rather than the balance; a
      viral boost cannot reach its guarantee.
    - Winners and boards (C23-C24).  A selection takes the best of those that
      qualify, pays each the points stored for the tier and records the wins;
      daily and weekly wins are thirty days apart; counting a whole campaign
      at once agrees with counting post by post, the ranking does not depend
      on the order of rows, and the streak is the longest run of days.
    - Text-message subscriptions (C25-C27).  A notification is read as it was
      written; it starts one period with one payment; repeated it is applied
      once, unless copies overlap; a subscriber has one plan.
    - Accounts (C28-C30).  Whatever requests come, deletions and edits among
      them, names and numbers stay unique, and an account is lost, renamed or
      without its number only by the request that does it; a PIN changes and a
      number is attached only by a request that shows what the theorem says,
      and both lists have an entry they should not; failures are counted.
    - Plans bought over USSD (C31-C33).  A push is sent only against a
      verification, which it spends, and to whom nothing runs or waits; every
      step activates exactly the plan whose payment it completes; one that is
      confirmed at a price still on offer is not lost.
    - Plans bought in the SuperApp (C34-C35).  Whatever comes first or
      overlaps, an order is placed, then activated once or lost, and nothing
      more; the verified notification that an account's order was paid, in one
      of the two spellings, serves it, and one of a visitor without an account
      always is.
    - Direct debits (C36-C40).  A command names the address, operator and
      short code of the account it bills, and reads nothing of the other; a
      mandate follows its life through overlapping requests, gives coins once,
      by a result that reports success, and belongs to one plan; what an
      accepted activation gives, and that a command that was not answered is
      taken for refused.

    ** What is not modelled

    Views that only read, serializers, the admin site, media, messaging,
    moderation and CRM hold no balance; the other integrations are network
    clients, whose answers are arguments here; migrations, settings and
    deployment are not programs.  Not modelled: the other views, which list
    rows or write request data to them; media processing, feeds, messaging,
    moderation and the CRM, which are queries, storage and network calls
    around rules too few to state; the seasons' screens; DRF's serializers,
    permissions and request throttles.  The components of the manifest name
    each with its reason. *)

From Stdlib Require Import ZArith Lia.
From Stdlib Require Export Ascii.
From Stdlib Require String.
From stdpp Require Export base gmap strings list pretty.

#[global] Open Scope Z_scope.

(** ** Exceptions

    The exception classes the modelled code raises or catches.  A class
    carries the arguments its constructor stores. *)

Inductive exn : Type :=
| ValueError (msg : string)
| ValidationError (msg : string)
| IntegrityError (constraint : string)
| DatabaseError (msg : string)
| DoesNotExist (model : string)
| PermissionDenied (msg : string)
| CoinConfigError (msg code : string)
| InsufficientCoins (required available : Z) (msg : string)
| RealmValidationError (msg : string)
| WorkflowError (msg code : string)
| CoinPricingError (msg code : string)
| InvalidOperation
| DecimalError (condition : string)
| TypeError (msg : string)
| AttributeError (msg : string)
| TimweError (class msg : string)
| OtpRefused (class msg code : string) (detail : option Z)
| SmsNotQueued (msg : string)
| UnknownSmsProvider (msg : string)
| SmppError (class msg code_label : string)
| Http404 (msg : string)
| MultipleObjectsReturned (model : string).

#[export] Instance exn_eq_dec : EqDecision exn.
Proof. solve_decision. Defined.

(** [except ValueError]: the class itself and its subclasses in the code. *)
Definition is_value_error (e : exn) : bool :=
  match e with
  | ValueError _ | RealmValidationError _ | CoinPricingError _ _ => true
  | _ => false
  end.

(** [str(exc)]. *)
Definition exn_str (e : exn) : string :=
  match e with
  | ValueError m | ValidationError m | IntegrityError m | DatabaseError m | DoesNotExist m
  | PermissionDenied m | RealmValidationError m => m
  | CoinConfigError m _ | WorkflowError m _ | CoinPricingError m _ => m
  | InsufficientCoins _ _ m | TypeError m | AttributeError m => m
  | TimweError _ m | OtpRefused _ m _ _ | Http404 m => m
  | SmsNotQueued m | UnknownSmsProvider m | SmppError _ m _ => m
  | InvalidOperation => "[<class 'decimal.InvalidOperation'>]"
  | DecimalError c => "[<class 'decimal." +:+ c +:+ "'>]"
  | MultipleObjectsReturned m => m
  end.

(** ** State and exceptions

    [M S A] is Python code over a store [S]: it may raise, and what it wrote
    before raising stays written unless a [transaction.atomic] block rolls it
    back. *)

Definition M (S A : Type) : Type := S → (exn + A) * S.

#[export] Instance M_ret {S} : MRet (M S) := λ A a s, (inr a, s).
#[export] Instance M_bind {S} : MBind (M S) := λ A B k m s,
  match m s with
  | (inr a, s') => k a s'
  | (inl e, s') => (inl e, s')
  end.

Definition raise {S A} (e : exn) : M S A := λ s, (inl e, s).
Definition get {S} : M S S := λ s, (inr s, s).
Definition gets {S A} (f : S → A) : M S A := λ s, (inr (f s), s).
Definition put {S} (s : S) : M S unit := λ _, (inr tt, s).
Definition modify {S} (f : S → S) : M S unit := λ s, (inr tt, f s).
Definition assert_or {S} (b : bool) (e : exn) : M S unit :=
  if b then mret tt else raise e.
Definition when {S} (b : bool) (m : M S unit) : M S unit :=
  if b then m else mret tt.

(** [with transaction.atomic():] -- an exception that leaves the block rolls
    the block's writes back. *)
Definition atomic {S A} (m : M S A) : M S A := λ s,
  match m s with
  | (inl e, _) => (inl e, s)
  | r => r
  end.

(** [try: m / except C: h], for the classes [h] answers. *)
Definition catch {S A} (m : M S A) (h : exn → option (M S A)) : M S A := λ s,
  match m s with
  | (inl e, s') => match h e with Some k => k s' | None => (inl e, s') end
  | r => r
  end.

(** [for x in l: f x]. *)
Fixpoint for_each {S A} (f : A → M S unit) (l : list A) : M S unit :=
  match l with
  | [] => mret tt
  | x :: l' => f x ≫= λ _, for_each f l'
  end.

(** Running code on a part of the store. *)
Definition zoom {S T A} (view : S → T) (upd : T → S → S) (m : M T A) : M S A := λ s,
  let '(r, t) := m (view s) in (r, upd t s).

(** ** Reasoning about runs *)

Lemma bind_run {S A B} (m : M S A) (k : A → M S B) s :
  (m ≫= k) s = match m s with
               | (inr a, s') => k a s'
               | (inl e, s') => (inl e, s')
               end.
Proof. reflexivity. Qed.

Lemma bind_ok {S A B} (m : M S A) (k : A → M S B) s b s' :
  (m ≫= k) s = (inr b, s') ↔ ∃ a s1, m s = (inr a, s1) ∧ k a s1 = (inr b, s').
Proof.
  rewrite bind_run. destruct (m s) as [[e|a] s1]; naive_solver.
Qed.

Lemma bind_err {S A B} (m : M S A) (k : A → M S B) s e s' :
  (m ≫= k) s = (inl e, s') ↔
  m s = (inl e, s') ∨ ∃ a s1, m s = (inr a, s1) ∧ k a s1 = (inl e, s').
Proof.
  rewrite bind_run. destruct (m s) as [[e1|a] s1]; naive_solver.
Qed.

(** A block that raised left the store as it found it. *)
Lemma atomic_err {S A} (m : M S A) s e s' :
  atomic m s = (inl e, s') → s' = s.
Proof. unfold atomic. destruct (m s) as [[?|?] ?]; congruence. Qed.

Lemma atomic_ok {S A} (m : M S A) s a s' :
  atomic m s = (inr a, s') → m s = (inr a, s').
Proof. unfold atomic. destruct (m s) as [[?|?] ?]; congruence. Qed.

Lemma atomic_run_ok {S A} (m : M S A) s a s' :
  m s = (inr a, s') → atomic m s = (inr a, s').
Proof. unfold atomic. by intros ->. Qed.

Lemma assert_or_ok {S} b e (s : S) u s' :
  assert_or b e s = (inr u, s') ↔ b = true ∧ s' = s.
Proof. unfold assert_or, mret, M_ret, raise. destruct b, u; naive_solver. Qed.

Lemma assert_or_err {S} b e (s : S) e' s' :
  assert_or b e s = (inl e', s') ↔ b = false ∧ e' = e ∧ s' = s.
Proof. unfold assert_or, mret, M_ret, raise. destruct b; naive_solver. Qed.

Lemma gets_run {S A} (f : S → A) s : gets f s = (inr (f s), s).
Proof. reflexivity. Qed.

(** Code that only raises having written nothing. *)
Definition clean {S A} (m : M S A) : Prop :=
  ∀ s e s', m s = (inl e, s') → s' = s.

Lemma clean_ret {S A} (a : A) : clean (mret a : M S A).
Proof. by intros ???. Qed.
Lemma clean_raise {S A} e : clean (raise e : M S A).
Proof. by intros ??? [= _ <-]. Qed.
Lemma clean_atomic {S A} (m : M S A) : clean (atomic m).
Proof. intros s e s'. apply atomic_err. Qed.
Lemma clean_gets {S A} (f : S → A) : clean (gets f).
Proof. by intros ???. Qed.

(** The invariant [I] survives [m], whether or not it raises. *)
Definition preserves {S A} (I : S → Prop) (m : M S A) : Prop :=
  ∀ s, I s → I (m s).2.

Lemma preserves_bind {S A B} I (m : M S A) (k : A → M S B) :
  preserves I m → (∀ a, preserves I (k a)) → preserves I (m ≫= k).
Proof.
  intros Hm Hk s Hs. rewrite bind_run. specialize (Hm s Hs).
  destruct (m s) as [[e|a] s1]; [done|]. by apply Hk.
Qed.

Lemma preserves_atomic {S A} I (m : M S A) : preserves I m → preserves I (atomic m).
Proof.
  intros Hm s Hs. unfold atomic. specialize (Hm s Hs).
  by destruct (m s) as [[e|a] s1].
Qed.

(** Under [atomic] only the successful runs matter. *)
Lemma preserves_atomic_ok {S A} (I : S → Prop) (m : M S A) :
  (∀ s a s', I s → m s = (inr a, s') → I s') → preserves I (atomic m).
Proof.
  intros Hm s Hs. unfold atomic. destruct (m s) as [[e|a] s1] eqn:E; [done|]. by eapply Hm.
Qed.

Lemma preserves_ret {S A} I (a : A) : preserves I (mret a : M S A).
Proof. by intros s Hs. Qed.
Lemma preserves_raise {S A} I e : preserves I (raise e : M S A).
Proof. by intros s Hs. Qed.
Lemma preserves_get {S} I : preserves I (get : M S S).
Proof. by intros s Hs. Qed.
Lemma preserves_gets {S A} I (f : S → A) : preserves I (gets f).
Proof. by intros s Hs. Qed.
Lemma preserves_modify {S} (I : S → Prop) f : (∀ s, I s → I (f s)) → preserves I (modify f).
Proof. by intros Hf s Hs; apply Hf. Qed.
Lemma preserves_when {S} (I : S → Prop) b m : preserves I m → preserves I (when b m).
Proof. intros Hm. destruct b; [done|apply preserves_ret]. Qed.

Lemma preserves_catch {S A} (I : S → Prop) (m : M S A) h :
  preserves I m → (∀ e k, h e = Some k → preserves I k) → preserves I (catch m h).
Proof.
  intros Hm Hh s Hs. unfold catch. specialize (Hm s Hs).
  destruct (m s) as [[e|a] s1]; [|done]. destruct (h e) as [k|] eqn:E; [|done].
  by apply (Hh e k E).
Qed.

(** A zoomed run changes only its part of the store. *)
Lemma zoom_run {S T A} (view : S → T) upd (m : M T A) s :
  zoom view upd m s = ((m (view s)).1, upd (m (view s)).2 s).
Proof. unfold zoom. by destruct (m (view s)). Qed.

Lemma catch_clean {S A} (m : M S A) h s :
  clean m → (∀ e k s, h e = Some k → (k s).2 = s) →
  (catch m h s).2 = (m s).2 ∨ (catch m h s).2 = s.
Proof.
  intros Hm Hh. unfold catch. destruct (m s) as [[e|a] s1] eqn:E; [|by left].
  rewrite (Hm _ _ _ E). destruct (h e) eqn:Eh; [right; eauto|by right].
Qed.

Create HintDb prog.
#[export] Hint Resolve preserves_ret preserves_raise preserves_get preserves_gets
  preserves_when : prog.
#[export] Hint Resolve clean_ret clean_raise clean_atomic clean_gets
  preserves_bind preserves_atomic : prog.

(** [run_simpl] exposes the next step of a run in the goal or a hypothesis. *)
Ltac run_unfold :=
  unfold gets, get, put, modify, raise, assert_or, when, mret, M_ret in *.

Ltac run_inv H :=
  let a := fresh "a" in
  let s1 := fresh "s" in
  let H1 := fresh H in
  match type of H with
  | (_ ≫= _) _ = (inr _, _) =>
      apply bind_ok in H as (a & s1 & H1 & H); run_inv H1; run_inv H
  | atomic _ _ = (inr _, _) => apply atomic_ok in H; run_inv H
  | assert_or _ _ _ = (inr _, _) => apply assert_or_ok in H as [H ->]
  | mret _ _ = _ => injection H as <- <-
  | get _ = _ => injection H as <- <-
  | gets _ _ = _ => injection H as <- <-
  | put _ _ = _ => injection H as _ <-
  | modify _ _ = _ => injection H as _ <-
  | raise _ _ = (inr _, _) => discriminate H
  | _ => idtac
  end.

(** ** Postconditions

    [post m s Q]: run from [s], [m] ends with a result and a store that satisfy
    [Q].  One rule for each way of building a program; [advance] applies them
    and splits cases, down to what the leaves must satisfy. *)

Definition post {S A} (m : M S A) (s : S) (Q : exn + A → S → Prop) : Prop := Q (m s).1 (m s).2.

Section Post.
Context {S : Type}.
Implicit Types s : S.

Lemma post_ret {A} (a : A) s (Q : exn + A → S → Prop) : Q (inr a) s → post (mret a) s Q.
Proof. done. Qed.
Lemma post_raise {A} e s (Q : exn + A → S → Prop) : Q (inl e) s → post (raise e) s Q.
Proof. done. Qed.
Lemma post_get s (Q : exn + S → S → Prop) : Q (inr s) s → post get s Q.
Proof. done. Qed.
Lemma post_put s s' (Q : exn + unit → S → Prop) : Q (inr tt) s' → post (put s') s Q.
Proof. done. Qed.
Lemma post_modify f s (Q : exn + unit → S → Prop) : Q (inr tt) (f s) → post (modify f) s Q.
Proof. done. Qed.

Lemma post_bind {A B} (m : M S A) (k : A → M S B) s (Q : exn + B → S → Prop) :
  post m s (λ r s', match r with inl e => Q (inl e) s' | inr a => post (k a) s' Q end) → post (m ≫= k) s Q.
Proof. unfold post. rewrite bind_run. by destruct (m s) as [[e|a] s']. Qed.

Lemma post_atomic {A} (m : M S A) s (Q : exn + A → S → Prop) :
  post m s (λ r s', match r with inl e => Q (inl e) s | inr a => Q (inr a) s' end) → post (atomic m) s Q.
Proof. unfold post, atomic. by destruct (m s) as [[e|a] s']. Qed.

Lemma post_catch {A} (m : M S A) h s (Q : exn + A → S → Prop) :
  post m s (λ r s', match r with
                    | inl e => match h e with Some k => post k s' Q | None => Q (inl e) s' end
                    | inr a => Q (inr a) s'
                    end) → post (catch m h) s Q.
Proof. unfold post, catch. destruct (m s) as [[e|a] s']; cbn; [|done]. by destruct (h e). Qed.

Lemma post_when b (m : M S unit) s (Q : exn + unit → S → Prop) :
  (b = true → post m s Q) → (b = false → Q (inr tt) s) → post (when b m) s Q.
Proof. intros H1 H2. destruct b; [by apply H1|by apply H2]. Qed.

Lemma post_zoom {T A} (view : S → T) upd (m : M T A) s (Q : exn + A → S → Prop) :
  post m (view s) (λ r t, Q r (upd t s)) → post (zoom view upd m) s Q.
Proof. unfold post. by rewrite zoom_run. Qed.

Lemma post_conseq {A} (m : M S A) s (P Q : exn + A → S → Prop) :
  post m s P → (∀ r s', P r s' → Q r s') → post m s Q.
Proof. unfold post. auto. Qed.

(** A loop keeps what each round keeps. *)
Lemma post_for_each {A} (f : A → M S unit) l (I : S → Prop) s :
  I s → (∀ x s, I s → post (f x) s (λ _ s', I s')) → post (for_each f l) s (λ _ s', I s').
Proof.
  intros Hs Hf. revert s Hs. induction l as [|x l IH]; intros s Hs; [done|]. cbn [for_each].
  apply post_bind. eapply post_conseq; [by apply Hf|]. intros [e|[]] s' Hs'; [done|by apply IH].
Qed.

End Post.

Ltac advance_with t :=
  lazymatch goal with
  | |- post (mret _) _ _ => apply post_ret
  | |- post (raise _) _ _ => apply post_raise
  | |- post get _ _ => apply post_get
  | |- post (put _) _ _ => apply post_put
  | |- post (modify _) _ _ => apply post_modify
  | |- post (_ ≫= _) _ _ => apply post_bind
  | |- post (atomic _) _ _ => apply post_atomic
  | |- post (catch _ _) _ _ => apply post_catch
  | |- post (when _ _) _ _ => apply post_when; intros ?
  | |- post (zoom _ _ _) _ _ => apply post_zoom
  | |- post (match ?x with _ => _ end) _ _ => destruct x eqn:?
  | |- post (let '(_, _) := ?x in _) _ _ => destruct x eqn:?
  | |- post _ _ _ => t
  end; cbv beta iota.

(** Programs with a specification of their own are left to [t]. *)
Tactic Notation "advance" "by" tactic3(t) := repeat advance_with t.
Tactic Notation "advance" := repeat advance_with fail.

(** ** Python values *)

(** [x or d] on an integer: zero is falsy (and a stored integer is never
    NULL in the columns the model keeps). *)
Definition or_int (x d : Z) : Z := if Z.eqb x 0 then d else x.

Lemma or_int_0 x : or_int x 0 = x.
Proof. unfold or_int. by destruct (Z.eqb_spec x 0). Qed.

(** [s or d] on a string: the empty string is falsy. *)
Definition or_str (s d : string) : string := if String.eqb s "" then d else s.

Create HintDb pyint.
#[export] Hint Rewrite or_int_0 : pyint.

(** [str(n)]. *)
Definition str_int (n : Z) : string := pretty n.

(** ** Python strings, as byte strings *)

Definition on_chars (f : list ascii → list ascii) (s : string) : string :=
  String.string_of_list_ascii (f (String.list_ascii_of_string s)).

(** ASCII white space, as [str.strip] and [\s] see it. *)
Definition is_space (c : ascii) : bool :=
  let n := nat_of_ascii c in ((9 <=? n) && (n <=? 13) || (28 <=? n) && (n <=? 32))%nat.

Fixpoint drop_while {A} (p : A → bool) (l : list A) : list A :=
  match l with
  | [] => []
  | x :: l' => if p x then drop_while p l' else l
  end.
Definition strip_list {A} (p : A → bool) (l : list A) : list A :=
  reverse (drop_while p (reverse (drop_while p l))).
Definition strip : string → string := on_chars (strip_list is_space).

Definition lower_char (c : ascii) : ascii :=
  let n := nat_of_ascii c in
  if ((65 <=? n) && (n <=? 90))%nat then ascii_of_nat (n + 32) else c.
Definition upper_char (c : ascii) : ascii :=
  let n := nat_of_ascii c in
  if ((97 <=? n) && (n <=? 122))%nat then ascii_of_nat (n - 32) else c.
Definition lower : string → string := on_chars (fmap lower_char).
Definition upper : string → string := on_chars (fmap upper_char).

(** [s[:n]]. *)
Definition prefix_of (n : nat) : string → string := on_chars (firstn n).

Lemma drop_while_head {A} (p : A → bool) l x l' : drop_while p l = x :: l' → p x = false.
Proof. induction l as [|y l IH]; cbn; [done|]. destruct (p y) eqn:E; [auto|naive_solver]. Qed.

Lemma drop_while_id {A} (p : A → bool) l :
  (∀ x l', l = x :: l' → p x = false) → drop_while p l = l.
Proof. destruct l as [|x l]; [done|]. intros H. cbn. by rewrite (H x l). Qed.

Lemma drop_while_idemp {A} (p : A → bool) l : drop_while p (drop_while p l) = drop_while p l.
Proof. apply drop_while_id. intros x l'. apply drop_while_head. Qed.

Lemma drop_while_last {A} (p : A → bool) l x l' :
  l = l' ++ [x] → p x = false → ∃ l'', drop_while p l = l'' ++ [x].
Proof.
  intros -> Hx. induction l' as [|y l' [l'' IH]]; cbn.
  - rewrite Hx. by exists [].
  - destruct (p y); [eauto|]. by exists (y :: l').
Qed.

Lemma strip_list_idemp {A} (p : A → bool) l : strip_list p (strip_list p l) = strip_list p l.
Proof.
  unfold strip_list. set (m := drop_while p l).
  assert (drop_while p (reverse (drop_while p (reverse m))) = reverse (drop_while p (reverse m)))
    as ->; [|by rewrite reverse_involutive, drop_while_idemp].
  destruct m as [|x m'] eqn:E; [done|].
  pose proof (drop_while_head p l x m' E) as Hx.
  destruct (drop_while_last p (reverse (x :: m')) x (reverse m')) as [l'' ->];
    [by rewrite reverse_cons|done|].
  rewrite reverse_app. cbn. by rewrite Hx.
Qed.

Lemma strip_idemp s : strip (strip s) = strip s.
Proof.
  unfold strip, on_chars. by rewrite String.list_ascii_of_string_of_list_ascii, strip_list_idemp.
Qed.

(** ** Time

    Instants are microseconds since the epoch, UTC; a date is a day number.
    [settings.TIME_ZONE] is Africa/Addis_Ababa, three hours ahead of UTC all
    year: ORM [__date] lookups read an instant's date there, while
    [timezone.now().date()] reads it in UTC. *)

Definition second : Z := 1000000.
Definition minute : Z := 60 * second.
Definition hour : Z := 60 * minute.
Definition day : Z := 24 * hour.

Definition utc_date (t : Z) : Z := t / day.
Definition local_date (t : Z) : Z := (t + 3 * hour) / day.

(** The civil date of a day number (days since 1970-01-01), in the proleptic
    Gregorian calendar, and its [isoformat()] for the years 1000 to 9999. *)
Definition civil (d : Z) : Z * Z * Z :=
  let z := d + 719468 in
  let era := z / 146097 in
  let doe := z mod 146097 in
  let yoe := (doe - doe / 1460 + doe / 36524 - doe / 146096) / 365 in
  let doy := doe - (365 * yoe + yoe / 4 - yoe / 100) in
  let mp := (5 * doy + 2) / 153 in
  let m := if mp <? 10 then mp + 3 else mp - 9 in
  (yoe + era * 400 + (if m <=? 2 then 1 else 0), m, doy - (153 * mp + 2) / 5 + 1).

Definition pad2 (n : Z) : string := if n <? 10 then "0" +:+ str_int n else str_int n.

Definition isoformat (d : Z) : string :=
  let '(y, m, dd) := civil d in str_int y +:+ "-" +:+ pad2 m +:+ "-" +:+ pad2 dd.

Example isoformat_epoch : isoformat 0 = "1970-01-01".
Proof. reflexivity. Qed.
Example isoformat_leap : isoformat 19782 = "2024-02-29".
Proof. reflexivity. Qed.

(** ** HTTP answers: a status code and the error code or message text *)

Record response := Resp { r_status : Z; r_text : string }.
Definition bad (m : string) : response := Resp 400 m.

(** ** Sums over lists *)

Definition sumZ {A} (f : A → Z) (l : list A) : Z := foldr (λ x n, f x + n) 0 l.
#[global] Arguments sumZ : simpl never.

Lemma sumZ_app {A} (f : A → Z) l1 l2 : sumZ f (l1 ++ l2) = sumZ f l1 + sumZ f l2.
Proof. induction l1 as [|x l1 IH]; unfold sumZ in *; cbn in *; lia. Qed.

Lemma sumZ_nil {A} (f : A → Z) : sumZ f [] = 0.
Proof. reflexivity. Qed.

Lemma sumZ_cons {A} (f : A → Z) x l : sumZ f (x :: l) = f x + sumZ f l.
Proof. reflexivity. Qed.

Lemma sumZ_nonneg {A} (f : A → Z) l : (∀ x, x ∈ l → 0 <= f x) → 0 <= sumZ f l.
Proof.
  induction l as [|x l IH]; intros H; [done|]. rewrite sumZ_cons.
  assert (0 <= f x) by (apply H; left).
  assert (0 <= sumZ f l) by (apply IH; intros y Hy; apply H; by right). lia.
Qed.

Create HintDb sums.
#[export] Hint Rewrite @sumZ_app @sumZ_cons @sumZ_nil : sums.

(** Sums over the values of a table. *)
Definition sum_map {A} (f : A → Z) (m : gmap Z A) : Z := sumZ (λ kv, f kv.2) (map_to_list m).

Lemma sumZ_perm {A} (f : A → Z) l1 l2 : l1 ≡ₚ l2 → sumZ f l1 = sumZ f l2.
Proof. induction 1; rewrite ?sumZ_cons; lia. Qed.

Lemma sum_map_empty {A} (f : A → Z) : sum_map f ∅ = 0.
Proof. unfold sum_map. by rewrite map_to_list_empty. Qed.

Lemma sum_map_insert {A} (f : A → Z) (m : gmap Z A) k v :
  m !! k = None → sum_map f (<[k := v]> m) = f v + sum_map f m.
Proof.
  intros Hk. unfold sum_map.
  by rewrite (sumZ_perm _ _ _ (map_to_list_insert m k v Hk)), sumZ_cons.
Qed.

Lemma sum_map_update {A} (f : A → Z) (m : gmap Z A) k v0 v :
  m !! k = Some v0 → sum_map f (<[k := v]> m) = sum_map f m - f v0 + f v.
Proof.
  intros Hk. rewrite <- (insert_id m k v0) at 2 by done.
  rewrite <- (insert_delete_eq m k v), <- (insert_delete_eq m k v0).
  rewrite !sum_map_insert by apply lookup_delete_eq. lia.
Qed.

Lemma sumZ_zero {A} (f : A → Z) l : (∀ x, x ∈ l → f x = 0) → sumZ f l = 0.
Proof.
  induction l as [|x l IH]; intros H; [done|]. rewrite sumZ_cons, (H x), IH by (try left; intros; apply H; by right).
  done.
Qed.

(** Boolean comparisons become propositions. *)
Ltac bool_prop :=
  repeat match goal with
  | H : (_ && _)%bool = true |- _ => apply andb_true_iff in H as [? ?]
  | H : (_ || _)%bool = false |- _ => apply orb_false_iff in H as [? ?]
  | H : negb _ = true |- _ => apply negb_true_iff in H
  | H : negb _ = false |- _ => apply negb_false_iff in H
  | H : (_ <? _) = true |- _ => apply Z.ltb_lt in H
  | H : (_ <? _) = false |- _ => apply Z.ltb_ge in H
  | H : (_ <=? _) = true |- _ => apply Z.leb_le in H
  | H : (_ <=? _) = false |- _ => apply Z.leb_gt in H
  | H : (_ >? _) = true |- _ => rewrite Z.gtb_ltb in H
  | H : (_ >? _) = false |- _ => rewrite Z.gtb_ltb in H
  | H : (_ =? _) = true |- _ => apply Z.eqb_eq in H
  | H : (_ =? _) = false |- _ => apply Z.eqb_neq in H
  | H : String.eqb _ _ = true |- _ => apply String.eqb_eq in H
  | H : String.eqb _ _ = false |- _ => apply String.eqb_neq in H
  end.
