(* ===== verification/Decimal.v ===== *)
(** * Decimal: Python's [decimal] as the code uses it

    Finite decimals [coef * 10 ^ exp] under the default context (28
    significant digits, ROUND_HALF_EVEN), following the standard library's
    reference algorithms for [+], [-], [*], [/], [quantize] and
    [to_integral_value].  The sign of zero and the traps on exponents beyond
    ten to the millionth are outside the values the code handles. *)

From Stdlib Require Import ZArith Lia.
From S2P Require Import Prelude.

Record dec := Dec { coef : Z; dexp : Z }.

#[export] Instance dec_eq_dec : EqDecision dec.
Proof. solve_decision. Defined.

Definition prec : Z := 28.

(** [len(str(n))] for [n >= 0]; at most [log2 n + 1] digits. *)
Fixpoint ndigits_go (fuel : nat) (n : Z) : Z :=
  match fuel with
  | O => 1
  | S fuel => if n <? 10 then 1 else 1 + ndigits_go fuel (n / 10)
  end.
Definition ndigits (n : Z) : Z := ndigits_go (Z.to_nat (Z.log2 (Z.abs n) + 1)) (Z.abs n).

(** [n / d] rounded half to even, [d > 0]. *)
Definition round_half_even (n d : Z) : Z :=
  let q := n / d in
  let r := n mod d in
  if 2 * r <? d then q
  else if d <? 2 * r then q + 1
  else if Z.even q then q else q + 1.

(** [Decimal._fix]: at most [prec] significant digits. *)
Definition dec_fix (d : dec) : dec :=
  let k := ndigits (coef d) - prec in
  if k <=? 0 then d
  else
    let c := round_half_even (coef d) (10 ^ k) in
    if prec <? ndigits c then Dec (c / 10) (dexp d + k + 1) else Dec c (dexp d + k).

Definition of_int (n : Z) : dec := Dec n 0.
(** A two-place [DecimalField] value, held in cents. *)
Definition of_cents (n : Z) : dec := Dec n (-2).

(** The coefficient of [d] at the exponent [e <= dexp d]. *)
Definition scale_to (e : Z) (d : dec) : Z := coef d * 10 ^ (dexp d - e).

Definition dec_add (a b : dec) : dec :=
  let e := Z.min (dexp a) (dexp b) in dec_fix (Dec (scale_to e a + scale_to e b) e).
Definition dec_sub (a b : dec) : dec :=
  let e := Z.min (dexp a) (dexp b) in dec_fix (Dec (scale_to e a - scale_to e b) e).
Definition dec_mul (a b : dec) : dec := dec_fix (Dec (coef a * coef b) (dexp a + dexp b)).

(** An exact quotient is brought back towards the ideal exponent. *)
Fixpoint strip_zeros (fuel : nat) (c e ideal : Z) : dec :=
  match fuel with
  | O => Dec c e
  | S fuel => if (e <? ideal) && (c mod 10 =? 0) then strip_zeros fuel (c / 10) (e + 1) ideal
              else Dec c e
  end.

(** [Decimal.__truediv__], for a positive divisor (the code divides by
    prices, rates and percentages it has checked to be positive). *)
Definition dec_div (a b : dec) : dec :=
  let ideal := dexp a - dexp b in
  if coef a =? 0 then Dec 0 ideal
  else
    let shift := ndigits (coef b) - ndigits (coef a) + prec + 1 in
    let e := ideal - shift in
    let num := Z.abs (coef a) * 10 ^ Z.max 0 shift in
    let den := coef b * 10 ^ Z.max 0 (- shift) in
    let c := num / den in
    let sign := Z.sgn (coef a) in
    if num mod den =? 0 then
      let d := strip_zeros (Z.to_nat (ideal - e)) c e ideal in
      dec_fix (Dec (sign * coef d) (dexp d))
    else
      let c := if c mod 5 =? 0 then c + 1 else c in
      dec_fix (Dec (sign * c) e).

Definition dec_cmp (a b : dec) : comparison :=
  let e := Z.min (dexp a) (dexp b) in scale_to e a ?= scale_to e b.
Definition dec_ltb (a b : dec) : bool := match dec_cmp a b with Lt => true | _ => false end.
Definition dec_leb (a b : dec) : bool := match dec_cmp a b with Gt => false | _ => true end.
Definition dec_eqb (a b : dec) : bool := match dec_cmp a b with Eq => true | _ => false end.
(** [min(a, b)]: the first of equal ones. *)
Definition dec_min (a b : dec) : dec := if dec_ltb b a then b else a.

(** [d.quantize(Decimal('0.01'))], the result in cents. *)
Definition quantize2 (d : dec) : Z :=
  if -2 <=? dexp d then coef d * 10 ^ (dexp d + 2)
  else round_half_even (coef d) (10 ^ (-2 - dexp d)).

(** [int(d.to_integral_value(rounding=ROUND_DOWN))] and [int(d)]: truncation. *)
Definition to_integral_down (d : dec) : Z :=
  if 0 <=? dexp d then coef d * 10 ^ dexp d else Z.quot (coef d) (10 ^ (- dexp d)).

(** [str] of a two-place decimal held in cents. *)
Definition money_str (cents : Z) : string :=
  let a := Z.abs cents in
  (if cents <? 0 then "-" else "") +:+ str_int (a / 100) +:+ "."
  +:+ str_int (a mod 100 / 10) +:+ str_int (a mod 10).

(** ** Facts *)

Lemma ndigits_go_bound fuel n k :
  0 <= k → 0 <= n < 10 ^ k → ndigits_go fuel n <= Z.max 1 k.
Proof.
  revert n k. induction fuel as [|fuel IH]; intros n k Hk Hn; cbn [ndigits_go]; [lia|].
  destruct (Z.ltb_spec n 10); [lia|].
  destruct (Z.eq_dec k 0) as [->|]; [cbn in Hn; lia|].
  replace k with (Z.succ (k - 1)) in Hn by lia. rewrite Z.pow_succ_r in Hn by lia.
  assert (ndigits_go fuel (n / 10) <= Z.max 1 (k - 1)).
  { apply IH; [lia|]. split; [apply Z.div_pos; lia|apply Z.div_lt_upper_bound; lia]. }
  destruct (Z.eq_dec k 1) as [->|]; [cbn in Hn; lia|]. lia.
Qed.

Lemma ndigits_bound n k : 0 < k → Z.abs n < 10 ^ k → ndigits n <= k.
Proof.
  intros Hk Hn. unfold ndigits.
  pose proof (ndigits_go_bound (Z.to_nat (Z.log2 (Z.abs n) + 1)) (Z.abs n) k). lia.
Qed.

(** A coefficient within the precision is not rounded. *)
Lemma dec_fix_exact c e : Z.abs c < 10 ^ prec → dec_fix (Dec c e) = Dec c e.
Proof.
  intros H. unfold dec_fix. cbn [coef].
  pose proof (ndigits_bound c prec ltac:(done) H).
  destruct (Z.leb_spec (ndigits c - prec) 0); [done|lia].
Qed.

(** Half-even rounding is within half a unit. *)
Lemma round_half_even_error n d :
  0 < d → 2 * Z.abs (round_half_even n d * d - n) <= d.
Proof.
  intros Hd. unfold round_half_even.
  pose proof (Z.div_mod n d ltac:(lia)) as Hdm.
  pose proof (Z.mod_pos_bound n d Hd) as Hr.
  set (q := n / d) in *. set (r := n mod d) in *.
  destruct (Z.ltb_spec (2 * r) d); [nia|].
  destruct (Z.ltb_spec d (2 * r)); [nia|].
  destruct (Z.even q); nia.
Qed.

Lemma round_half_even_nonneg n d : 0 < d → 0 <= n → 0 <= round_half_even n d.
Proof.
  intros Hd Hn. unfold round_half_even. pose proof (Z.div_pos n d Hn Hd).
  repeat case_match; lia.
Qed.

Lemma round_half_even_mono n m d : 0 < d → n <= m → round_half_even n d <= round_half_even m d.
Proof.
  intros Hd Hnm. unfold round_half_even.
  pose proof (Z.div_mod n d ltac:(lia)) as Hn. pose proof (Z.mod_pos_bound n d Hd) as Hrn.
  pose proof (Z.div_mod m d ltac:(lia)) as Hm. pose proof (Z.mod_pos_bound m d Hd) as Hrm.
  pose proof (Z.div_le_mono n m d Hd Hnm).
  set (q := n / d) in *. set (r := n mod d) in *.
  set (q' := m / d) in *. set (r' := m mod d) in *.
  destruct (Z.eq_dec q q') as [->|].
  - assert (r <= r') by nia.
    destruct (Z.ltb_spec (2 * r) d), (Z.ltb_spec (2 * r') d), (Z.ltb_spec d (2 * r)),
      (Z.ltb_spec d (2 * r')), (Z.even q'); lia.
  - repeat case_match; lia.
Qed.

(** Multiplying and rounding down a whole rate by an amount in cents is exact. *)
Lemma to_integral_down_cents c :
  0 <= c → to_integral_down (of_cents c) = c / 100.
Proof.
  intros Hc. unfold to_integral_down, of_cents. cbn [coef dexp].
  change (0 <=? -2) with false. change (10 ^ (- -2)) with 100.
  by rewrite Z.quot_div_nonneg by lia.
Qed.

Lemma quantize2_cents c : quantize2 (of_cents c) = c.
Proof.
  unfold quantize2, of_cents. cbn [coef dexp].
  change (-2 <=? -2) with true. change (10 ^ (-2 + 2)) with 1. cbn. lia.
Qed.

Lemma dec_cmp_cents a b : dec_cmp (of_cents a) (of_cents b) = (a ?= b).
Proof.
  unfold dec_cmp, scale_to, of_cents. cbn [coef dexp].
  change (10 ^ (-2 - Z.min (-2) (-2))) with 1. f_equal; lia.
Qed.

Lemma dec_ltb_cents a b : dec_ltb (of_cents a) (of_cents b) = (a <? b).
Proof. unfold dec_ltb. rewrite dec_cmp_cents. done. Qed.

Lemma dec_leb_cents a b : dec_leb (of_cents a) (of_cents b) = (a <=? b).
Proof. unfold dec_leb. rewrite dec_cmp_cents. done. Qed.

Create HintDb decs.
#[export] Hint Rewrite quantize2_cents dec_cmp_cents dec_ltb_cents dec_leb_cents : decs.

Example div_third : dec_div (of_int 1) (of_int 3)
  = Dec 3333333333333333333333333333 (-28).
Proof. reflexivity. Qed.
Example div_exact : dec_div (of_int 105) (of_int 10) = Dec 105 (-1).
Proof. reflexivity. Qed.

(** ** Exact quotients *)

Lemma ndigits_go_lower fuel n : 0 < n → 10 ^ (ndigits_go fuel n - 1) <= n.
Proof.
  revert n. induction fuel as [|fuel IH]; intros n Hn; cbn [ndigits_go].
  - change (10 ^ (1 - 1)) with 1. lia.
  - destruct (Z.ltb_spec n 10); [change (10 ^ (1 - 1)) with 1; lia|].
    assert (0 < n / 10) as Hq by (apply Z.div_str_pos; lia).
    specialize (IH (n / 10) Hq).
    assert (1 <= ndigits_go fuel (n / 10)) as H1.
    { destruct fuel; cbn; [lia|]. case_match; [lia|].
      assert (0 <= ndigits_go fuel (n / 10 / 10)); [|lia].
      generalize (n / 10 / 10). clear. induction fuel as [|f IH]; intros x; cbn; [lia|].
      case_match; [lia|]. specialize (IH (x / 10)). lia. }
    replace (1 + ndigits_go fuel (n / 10) - 1) with (Z.succ (ndigits_go fuel (n / 10) - 1)) by lia.
    rewrite Z.pow_succ_r by lia. pose proof (Z.mul_div_le n 10). lia.
Qed.

Lemma ndigits_lower n : n ≠ 0 → 10 ^ (ndigits n - 1) <= Z.abs n.
Proof. intros Hn. apply ndigits_go_lower. lia. Qed.

Lemma ndigits_go_upper fuel n :
  0 <= n < 10 ^ (Z.of_nat fuel + 1) → n < 10 ^ ndigits_go fuel n.
Proof.
  revert n. induction fuel as [|fuel IH]; intros n Hn; cbn [ndigits_go].
  - cbn in Hn. lia.
  - destruct (Z.ltb_spec n 10); [lia|].
    replace (Z.of_nat (S fuel) + 1) with (Z.succ (Z.of_nat fuel + 1)) in Hn by lia.
    rewrite Z.pow_succ_r in Hn by lia.
    assert (n / 10 < 10 ^ ndigits_go fuel (n / 10)) as H1.
    { apply IH. split; [apply Z.div_pos; lia|apply Z.div_lt_upper_bound; lia]. }
    assert (0 <= ndigits_go fuel (n / 10)).
    { destruct (Z_lt_le_dec (ndigits_go fuel (n / 10)) 0) as [Hlt|]; [|done].
      rewrite (Z.pow_neg_r 10) in H1 by done. pose proof (Z.div_pos n 10). lia. }
    replace (1 + ndigits_go fuel (n / 10)) with (Z.succ (ndigits_go fuel (n / 10))) by lia.
    rewrite Z.pow_succ_r by lia.
    pose proof (Z.mod_pos_bound n 10). pose proof (Z.div_mod n 10). lia.
Qed.

Lemma ndigits_upper n : Z.abs n < 10 ^ ndigits n.
Proof.
  unfold ndigits. apply ndigits_go_upper. split; [lia|].
  pose proof (Z.log2_nonneg (Z.abs n)).
  rewrite Z2Nat.id by lia.
  destruct (Z.eq_dec (Z.abs n) 0) as [->|Hn]; [done|].
  apply Z.lt_le_trans with (2 ^ Z.succ (Z.log2 (Z.abs n))).
  - apply Z.log2_spec. lia.
  - transitivity (10 ^ Z.succ (Z.log2 (Z.abs n))).
    + apply Z.pow_le_mono_l. lia.
    + apply Z.pow_le_mono_r; lia.
Qed.

Lemma strip_zeros_spec fuel c e ideal :
  0 <= c → Z.of_nat fuel = ideal - e → 0 <= ideal - e →
  ∃ j, 0 <= j <= ideal - e
    ∧ strip_zeros fuel c e ideal = Dec (c / 10 ^ j) (e + j)
    ∧ c / 10 ^ j * 10 ^ j = c
    ∧ (j = ideal - e ∨ (c / 10 ^ j) mod 10 ≠ 0).
Proof.
  revert c e. induction fuel as [|fuel IH]; intros c e Hc Hf He.
  - exists 0. rewrite Z.pow_0_r, Z.div_1_r. cbn. split_and!; try lia. f_equal; lia.
  - cbn [strip_zeros].
    destruct (Z.ltb_spec e ideal) as [Hlt|]; [cbn [andb]|lia].
    destruct (Z.eqb_spec (c mod 10) 0) as [Hm|Hm].
    + destruct (IH (c / 10) (e + 1)) as (j & Hj & Heq & Hex & Hstop); [apply Z.div_pos; lia|lia|lia|].
      pose proof (Z.pow_pos_nonneg 10 j).
      exists (j + 1). rewrite Z.pow_add_r, Z.pow_1_r, (Z.mul_comm (10 ^ j)), <- Z.div_div by lia.
      split; [lia|]. split; [rewrite Heq; f_equal; lia|]. split; [|destruct Hstop; [left; lia|by right]].
      assert (10 * (c / 10) = c) by (rewrite (Z.div_mod c 10) at 2 by lia; lia).
      rewrite Z.mul_assoc, (Z.mul_comm _ 10), <- Z.mul_assoc. lia.
    + exists 0. rewrite Z.pow_0_r, Z.div_1_r. split_and!; try lia. f_equal; lia.
Qed.

(** If [a / b = m * 10^(ideal - k)] with [m] within the precision, the quotient
    is exact: some [Dec c e] with [c * 10^(e - (ideal - k)) = m]. *)
Lemma dec_div_exact a b m k :
  0 <= coef a → 0 < coef b → 0 <= k → 0 <= m < 10 ^ prec →
  coef b * m = coef a * 10 ^ k →
  ∃ c e, dec_div a b = Dec c e ∧ dexp a - dexp b - k <= e ∧ 0 <= c
    ∧ c * 10 ^ (e - (dexp a - dexp b - k)) = m.
Proof.
  intros Ha Hb Hk Hm Hex. set (ideal := dexp a - dexp b).
  pose proof (Z.pow_pos_nonneg 10 k) as Hpk.
  unfold dec_div. fold ideal. destruct (Z.eqb_spec (coef a) 0) as [H0|H0].
  { assert (m = 0) as -> by (rewrite H0, Z.mul_0_l in Hex; nia).
    exists 0, ideal. split_and!; [done|lia|done|lia]. }
  assert (0 < m) by nia.
  set (shift := ndigits (coef b) - ndigits (coef a) + prec + 1).
  assert (k < shift) as Hks.
  { pose proof (ndigits_lower (coef a) H0) as Hl. pose proof (ndigits_upper (coef b)) as Hu.
    assert (0 <= ndigits (coef b)) as Hnb.
    { destruct (Z_lt_le_dec (ndigits (coef b)) 0) as [Hn|]; [|done].
      rewrite (Z.pow_neg_r 10) in Hu by done. lia. }
    assert (1 <= ndigits (coef a)) as Hna.
    { pose proof (ndigits_upper (coef a)) as Hu'.
      destruct (Z_le_gt_dec 1 (ndigits (coef a))); [done|].
      assert (10 ^ ndigits (coef a) <= 1); [|lia].
      destruct (Z.eq_dec (ndigits (coef a)) 0) as [->|]; [done|].
      rewrite Z.pow_neg_r by lia. lia. }
    destruct (Z_lt_le_dec k shift) as [|Hle]; [done|exfalso].
    assert (10 ^ prec * 10 ^ ndigits (coef b) <= 10 ^ k * 10 ^ (ndigits (coef a) - 1)).
    { rewrite <- !Z.pow_add_r by (unfold prec; lia). apply Z.pow_le_mono_r; unfold shift in *; lia. }
    assert (coef b * m < 10 ^ prec * 10 ^ ndigits (coef b)) by nia.
    nia. }
  rewrite Z.max_r, (Z.max_l 0 (- shift)), Z.pow_0_r, Z.mul_1_r by lia.
  rewrite Z.abs_eq, Z.sgn_pos by lia.
  assert (coef a * 10 ^ shift = m * 10 ^ (shift - k) * coef b) as Hnum.
  { replace shift with (k + (shift - k)) at 1 by lia. rewrite Z.pow_add_r by lia. nia. }
  rewrite Hnum, Z.div_mul, Z.mod_mul by lia. cbn [Z.eqb].
  assert (0 <= m * 10 ^ (shift - k)) as Hc0
    by (pose proof (Z.pow_pos_nonneg 10 (shift - k)); nia).
  destruct (strip_zeros_spec (Z.to_nat (ideal - (ideal - shift))) (m * 10 ^ (shift - k))
              (ideal - shift) ideal) as (j & Hj & -> & Hcj & Hstop); [done|lia|lia|].
  cbn [coef dexp]. set (c := m * 10 ^ (shift - k) / 10 ^ j) in *.
  assert (shift - k <= j) as Hkj.
  { destruct (Z_le_gt_dec (shift - k) j) as [|Hgt]; [done|]. destruct Hstop as [->|Hs]; [lia|].
    exfalso. apply Hs. unfold c.
    replace (shift - k) with (1 + (shift - k - j - 1) + j) by lia.
    rewrite !Z.pow_add_r, Z.pow_1_r by lia.
    rewrite !Z.mul_assoc, Z.div_mul by (pose proof (Z.pow_pos_nonneg 10 j); lia).
    rewrite (Z.mul_comm m 10), <- Z.mul_assoc, Z.mul_comm, Z.mod_mul; lia. }
  assert (c * 10 ^ (j - (shift - k)) = m) as Hcm.
  { assert (10 ^ j = 10 ^ (j - (shift - k)) * 10 ^ (shift - k)) as Hsplit
      by (rewrite <- Z.pow_add_r by lia; f_equal; lia).
    rewrite Hsplit, Z.mul_assoc in Hcj.
    apply (Z.mul_reg_r _ _ (10 ^ (shift - k))); [|done].
    pose proof (Z.pow_pos_nonneg 10 (shift - k)). lia. }
  pose proof (Z.pow_pos_nonneg 10 (j - (shift - k))).
  exists c, (ideal - shift + j).
  assert (0 <= c) by (apply Z.div_pos; [lia|apply Z.pow_pos_nonneg; lia]).
  rewrite Z.mul_1_l, dec_fix_exact by nia.
  split_and!; [done|lia|done|].
  by replace (ideal - shift + j - (ideal - k)) with (j - (shift - k)) by lia.
Qed.

(** ** Values at a common scale *)

(** The integer [d * 10^s], for [s] at least [- dexp d]. *)
Definition at_scale (s : Z) (d : dec) : Z := coef d * 10 ^ (dexp d + s).

Lemma at_scale_bound s d n :
  0 <= dexp d + s → Z.abs (at_scale s d) < n → Z.abs (coef d) < n.
Proof.
  intros Hs. unfold at_scale. pose proof (Z.pow_pos_nonneg 10 (dexp d + s)).
  rewrite Z.abs_mul, (Z.abs_eq (10 ^ _)) by lia. nia.
Qed.

Lemma dec_mul_exact a b sa sb :
  0 <= dexp a + sa → 0 <= dexp b + sb →
  Z.abs (at_scale sa a * at_scale sb b) < 10 ^ prec →
  0 <= dexp (dec_mul a b) + (sa + sb)
  ∧ at_scale (sa + sb) (dec_mul a b) = at_scale sa a * at_scale sb b.
Proof.
  intros Ha Hb Hlt.
  assert (at_scale (sa + sb) (Dec (coef a * coef b) (dexp a + dexp b))
          = at_scale sa a * at_scale sb b) as Heq.
  { unfold at_scale. cbn [coef dexp].
    replace (dexp a + dexp b + (sa + sb)) with ((dexp a + sa) + (dexp b + sb)) by lia.
    rewrite Z.pow_add_r by lia. lia. }
  unfold dec_mul. rewrite dec_fix_exact; [cbn [dexp]; split; [lia|done]|].
  apply (at_scale_bound (sa + sb) (Dec (coef a * coef b) (dexp a + dexp b)));
    [cbn; lia|]. by rewrite Heq.
Qed.

Lemma scale_to_at s e d :
  e <= dexp d → 0 <= e + s → at_scale s (Dec (scale_to e d) e) = at_scale s d.
Proof.
  intros He Hs. unfold at_scale, scale_to. cbn [coef dexp].
  rewrite <- Z.mul_assoc, <- Z.pow_add_r by lia. do 2 f_equal. lia.
Qed.

Lemma dec_sub_exact a b s :
  0 <= dexp a + s → 0 <= dexp b + s →
  Z.abs (at_scale s a - at_scale s b) < 10 ^ prec →
  at_scale s (dec_sub a b) = at_scale s a - at_scale s b.
Proof.
  intros Ha Hb Hlt. unfold dec_sub. set (e := Z.min (dexp a) (dexp b)).
  assert (at_scale s (Dec (scale_to e a - scale_to e b) e) = at_scale s a - at_scale s b) as Heq.
  { rewrite <- (scale_to_at s e a), <- (scale_to_at s e b) by lia.
    unfold at_scale. cbn [coef dexp]. lia. }
  rewrite dec_fix_exact; [done|].
  apply (at_scale_bound s (Dec (scale_to e a - scale_to e b) e)); [cbn; lia|]. by rewrite Heq.
Qed.

Lemma dec_div_at_scale a b m k :
  0 <= coef a → 0 < coef b → 0 <= k → 0 <= m < 10 ^ prec →
  coef b * m = coef a * 10 ^ k →
  0 <= dexp (dec_div a b) + (k + dexp b - dexp a)
  ∧ at_scale (k + dexp b - dexp a) (dec_div a b) = m.
Proof.
  intros Ha Hb Hk Hm Hex.
  destruct (dec_div_exact a b m k) as (c & e & -> & He & _ & Hc); try done.
  cbn [dexp]. split; [lia|]. transitivity (c * 10 ^ (e - (dexp a - dexp b - k))); [|done].
  unfold at_scale. cbn [coef dexp]. do 2 f_equal. lia.
Qed.

(** Truncating a non-negative value known at a finer scale. *)
Lemma to_integral_down_at_scale s d v :
  0 <= s → 0 <= dexp d + s → 0 <= at_scale s d → at_scale s d = v →
  to_integral_down d = v / 10 ^ s.
Proof.
  intros Hs Hd Hpos <-. unfold to_integral_down, at_scale in *.
  destruct (Z.leb_spec 0 (dexp d)).
  - rewrite Z.pow_add_r by lia. rewrite Z.mul_assoc, Z.div_mul by (pose proof (Z.pow_pos_nonneg 10 s); lia).
    done.
  - replace (10 ^ s) with (10 ^ (dexp d + s) * 10 ^ (- dexp d))
      by (rewrite <- Z.pow_add_r by lia; f_equal; lia).
    pose proof (Z.pow_pos_nonneg 10 (dexp d + s)). pose proof (Z.pow_pos_nonneg 10 (- dexp d)).
    rewrite <- Z.div_div by lia. rewrite Z.div_mul by lia. apply Z.quot_div_nonneg; nia.
Qed.

(** ** Signs *)

Lemma round_half_even_exact m d : 0 < d → round_half_even (m * d) d = m.
Proof.
  intros Hd. unfold round_half_even. rewrite Z.div_mul, Z.mod_mul by lia.
  by rewrite (proj2 (Z.ltb_lt (2 * 0) d)) by lia.
Qed.

Lemma round_half_even_le n m d : 0 < d → n <= m * d → round_half_even n d <= m.
Proof.
  intros Hd Hn. rewrite <- (round_half_even_exact m d) at 1 by done. by apply round_half_even_mono.
Qed.

Lemma dec_fix_nonneg d : 0 <= coef d → 0 <= coef (dec_fix d).
Proof.
  intros H. unfold dec_fix. destruct (Z.leb_spec (ndigits (coef d) - prec) 0) as [Hk|Hk]; [done|]. cbn zeta.
  assert (0 < 10 ^ (ndigits (coef d) - prec)) by (apply Z.pow_pos_nonneg; lia).
  assert (0 <= round_half_even (coef d) (10 ^ (ndigits (coef d) - prec))) by (apply round_half_even_nonneg; lia).
  destruct (prec <? _); cbn [coef]; [apply Z.div_pos; lia|done].
Qed.

Lemma dec_fix_nonpos d : coef d <= 0 → coef (dec_fix d) <= 0.
Proof.
  intros H. unfold dec_fix. destruct (Z.leb_spec (ndigits (coef d) - prec) 0) as [Hk|Hk]; [done|]. cbn zeta.
  assert (0 < 10 ^ (ndigits (coef d) - prec)) by (apply Z.pow_pos_nonneg; lia).
  assert (round_half_even (coef d) (10 ^ (ndigits (coef d) - prec)) <= 0) by (apply round_half_even_le; lia).
  destruct (prec <? _); cbn [coef]; [|done]. apply Z.div_le_upper_bound; lia.
Qed.

Lemma dec_mul_nonneg a b : 0 <= coef a → 0 <= coef b → 0 <= coef (dec_mul a b).
Proof. intros Ha Hb. apply dec_fix_nonneg. cbn. nia. Qed.

Lemma dec_mul_nonpos a b : coef a <= 0 → 0 <= coef b → coef (dec_mul a b) <= 0.
Proof. intros Ha Hb. apply dec_fix_nonpos. cbn. nia. Qed.

Lemma scale_to_nonneg e d : 0 <= coef d → 0 <= scale_to e d.
Proof. intros H. unfold scale_to. pose proof (Z.pow_nonneg 10 (dexp d - e)). nia. Qed.

Lemma dec_add_nonneg a b : 0 <= coef a → 0 <= coef b → 0 <= coef (dec_add a b).
Proof.
  intros Ha Hb. apply dec_fix_nonneg. cbn [coef].
  pose proof (scale_to_nonneg (Z.min (dexp a) (dexp b)) a Ha).
  pose proof (scale_to_nonneg (Z.min (dexp a) (dexp b)) b Hb). lia.
Qed.

Lemma strip_zeros_nonneg fuel c e i : 0 <= c → 0 <= coef (strip_zeros fuel c e i).
Proof.
  revert c e. induction fuel as [|fuel IH]; intros c e H; cbn [strip_zeros]; [done|].
  destruct (_ && _); [|done]. apply IH. apply Z.div_pos; lia.
Qed.

Lemma dec_div_nonneg a b : 0 <= coef a → 0 < coef b → 0 <= coef (dec_div a b).
Proof.
  intros Ha Hb. unfold dec_div. destruct (_ =? 0); [done|]. cbn zeta.
  set (num := Z.abs (coef a) * _). set (den := coef b * _).
  assert (0 <= num / den).
  { assert (0 <= num) by (subst num; pose proof (Z.pow_nonneg 10 (Z.max 0 (ndigits (coef b) - ndigits (coef a) + prec + 1))); nia).
    assert (0 < den) by (subst den; pose proof (Z.pow_pos_nonneg 10 (Z.max 0 (- (ndigits (coef b) - ndigits (coef a) + prec + 1)))); nia).
    by apply Z.div_pos. }
  assert (0 <= Z.sgn (coef a)) by lia.
  destruct (_ =? 0); apply dec_fix_nonneg; cbn [coef]; apply Z.mul_nonneg_nonneg; try done.
  - by apply strip_zeros_nonneg.
  - destruct (_ =? 0); lia.
Qed.
