(* ===== verification/CoinBalance.v ===== *)
(** * CoinBalance: the coin wallet

    Models [UserCoinBalance] and [CoinTransaction] of
    [src/api/models/contest.py]: the four coin buckets, the legacy totals kept
    in step with them, the ledger, and every method that moves a balance.

    A row's integer columns are named by [col], because the code itself names
    them by string ([setattr], [update_fields], [_BUCKET_FIELDS]).  A method
    takes the caller's in-memory [self], which may be stale: it is only read
    for its key, and is refreshed by [copy_from] at the end. *)

From Stdlib Require Import ZArith Lia.
From S2P Require Import Prelude.

Module CoinBalance.

(** ** Data *)

Inductive col :=
| balance | earned_balance | telebirr_purchased_balance
| airtime_purchased_balance | bonus_balance | purchased_balance
| total_earned | total_spent | total_purchased | total_telebirr_purchased
| total_airtime_purchased | total_bonus_granted | total_withdrawn.

#[export] Instance col_eq_dec : EqDecision col.
Proof. solve_decision. Defined.

(** A row of [user_coin_balances]; one per user, keyed by the user. *)
Record ucb := Ucb {
  u_user : Z;
  u_balance : Z; u_earned : Z; u_telebirr : Z; u_airtime : Z; u_bonus : Z;
  u_purchased : Z;
  u_total_earned : Z; u_total_spent : Z; u_total_purchased : Z;
  u_total_telebirr : Z; u_total_airtime : Z; u_total_bonus : Z;
  u_total_withdrawn : Z;
  u_updated_at : Z
}.

Definition new_row (user now : Z) : ucb :=
  Ucb user 0 0 0 0 0 0 0 0 0 0 0 0 0 now.

(** [getattr(row, c)]. *)
Definition getc (c : col) (r : ucb) : Z :=
  match c with
  | balance => u_balance r | earned_balance => u_earned r
  | telebirr_purchased_balance => u_telebirr r
  | airtime_purchased_balance => u_airtime r
  | bonus_balance => u_bonus r | purchased_balance => u_purchased r
  | total_earned => u_total_earned r | total_spent => u_total_spent r
  | total_purchased => u_total_purchased r
  | total_telebirr_purchased => u_total_telebirr r
  | total_airtime_purchased => u_total_airtime r
  | total_bonus_granted => u_total_bonus r
  | total_withdrawn => u_total_withdrawn r
  end.

(** [setattr(row, c, v)]. *)
Definition setc (c : col) (v : Z) (r : ucb) : ucb :=
  let '(Ucb us b e t a bo p te ts tp ttp ta tb tw up) := r in
  match c with
  | balance => Ucb us v e t a bo p te ts tp ttp ta tb tw up
  | earned_balance => Ucb us b v t a bo p te ts tp ttp ta tb tw up
  | telebirr_purchased_balance => Ucb us b e v a bo p te ts tp ttp ta tb tw up
  | airtime_purchased_balance => Ucb us b e t v bo p te ts tp ttp ta tb tw up
  | bonus_balance => Ucb us b e t a v p te ts tp ttp ta tb tw up
  | purchased_balance => Ucb us b e t a bo v te ts tp ttp ta tb tw up
  | total_earned => Ucb us b e t a bo p v ts tp ttp ta tb tw up
  | total_spent => Ucb us b e t a bo p te v tp ttp ta tb tw up
  | total_purchased => Ucb us b e t a bo p te ts v ttp ta tb tw up
  | total_telebirr_purchased => Ucb us b e t a bo p te ts tp v ta tb tw up
  | total_airtime_purchased => Ucb us b e t a bo p te ts tp ttp v tb tw up
  | total_bonus_granted => Ucb us b e t a bo p te ts tp ttp ta v tw up
  | total_withdrawn => Ucb us b e t a bo p te ts tp ttp ta tb v up
  end.

(** [locked.c = (locked.c or 0) + n]. *)
Definition addc (c : col) (n : Z) (r : ucb) : ucb :=
  setc c (or_int (getc c r) 0 + n) r.

(** Saving [update_fields] (always with [updated_at], which is [auto_now]):
    the listed columns of the in-memory row overwrite the stored ones. *)
Definition save_fields (cs : list col) (mem : ucb) (now : Z) (row : ucb) : ucb :=
  let r := fold_right (λ c r, setc c (getc c mem) r) row cs in
  Ucb (u_user r) (u_balance r) (u_earned r) (u_telebirr r) (u_airtime r)
    (u_bonus r) (u_purchased r) (u_total_earned r) (u_total_spent r)
    (u_total_purchased r) (u_total_telebirr r) (u_total_airtime r)
    (u_total_bonus r) (u_total_withdrawn r) now.
#[global] Arguments save_fields : simpl never.

(** [CoinTransaction].  Decimal columns with two places are in cents. *)
Record coin_tx := CoinTx {
  ct_user : Z;
  ct_type : string;
  ct_coins : Z;
  ct_package : option Z;
  ct_payment_method : string;
  ct_payment_reference : string;
  ct_recipient : option Z;
  ct_reel : option Z;
  ct_fee_amount : Z;
  ct_quoted_coins : option Z;
  ct_amount_etb : option Z;
  ct_description : string;
  ct_is_successful : bool;
  ct_payment_state : string;
  ct_payment_reason : string;
  ct_provider_conversation_id : string;
  ct_created_at : Z
}.

(** The keyword arguments callers pass through [**kwargs]. *)
Record tx_kwargs := TxKwargs {
  kw_package : option Z;
  kw_payment_reference : string;
  kw_recipient : option Z;
  kw_reel : option Z;
  kw_fee_amount : Z;
  kw_description : string
}.

Definition no_kwargs : tx_kwargs := TxKwargs None "" None None 0 "".
Definition descr (d : string) : tx_kwargs := TxKwargs None "" None None 0 d.

(** A new row: the fields the methods set, the keyword arguments, and the
    model's defaults ([is_successful=True], [payment_state='SUCCESS']). *)
Definition new_tx (user : Z) (ty : string) (coins : Z) (pm : string)
    (kw : tx_kwargs) (now : Z) : coin_tx :=
  CoinTx user ty coins (kw_package kw) pm (kw_payment_reference kw)
    (kw_recipient kw) (kw_reel kw) (kw_fee_amount kw) None None
    (kw_description kw) true "SUCCESS" "" "" now.

(** [CoinTransaction.mark_payment_state]. *)
Definition mark_payment_state (state : string) (reason : option string) (t : coin_tx) : coin_tx :=
  CoinTx (ct_user t) (ct_type t) (ct_coins t) (ct_package t)
    (ct_payment_method t) (ct_payment_reference t) (ct_recipient t) (ct_reel t)
    (ct_fee_amount t) (ct_quoted_coins t) (ct_amount_etb t) (ct_description t)
    (String.eqb state "SUCCESS") state (default "" reason)
    (ct_provider_conversation_id t) (ct_created_at t).

(** ** The store *)

Record wallet := Wallet {
  w_rows : gmap Z ucb;
  w_txs : list coin_tx
}.

Definition no_wallets : wallet := Wallet ∅ [].

(** The partial unique constraints of [CoinTransaction.Meta]: whether an
    existing row [t] clashes with the new row [n]. *)
Definition pending_reference_clash (n t : coin_tx) : bool :=
  String.eqb (ct_payment_method t) (ct_payment_method n)
  && String.eqb (ct_payment_reference t) (ct_payment_reference n)
  && negb (String.eqb (ct_payment_reference n) "")
  && negb (ct_is_successful t) && negb (ct_is_successful n).

Definition one_per_payment_clash (ty : string) (n t : coin_tx) : bool :=
  String.eqb (ct_type t) ty && String.eqb (ct_type n) ty
  && String.eqb (ct_payment_reference t) (ct_payment_reference n).

Definition clash (n t : coin_tx) : bool :=
  pending_reference_clash n t
  || one_per_payment_clash "subscription_gift" n t
  || one_per_payment_clash "ondemand_allocation" n t.

(** [CoinTransaction.objects.create]. *)
Definition create_tx (n : coin_tx) : M wallet coin_tx :=
  w ← get;
  if existsb (clash n) (w_txs w)
  then raise (IntegrityError "coin_transactions")
  else put (Wallet (w_rows w) (w_txs w ++ [n])) ≫= λ _, mret n.

(** [UserCoinBalance.objects.select_for_update().get(pk=...)]. *)
Definition get_locked (user : Z) : M wallet ucb :=
  w ← get;
  match w_rows w !! user with
  | Some r => mret r
  | None => raise (DoesNotExist "UserCoinBalance")
  end.

Definition save_row (cs : list col) (mem : ucb) (now : Z) : M wallet unit :=
  modify (λ w, Wallet (alter (save_fields cs mem now) (u_user mem) (w_rows w)) (w_txs w)).

(** [UserCoinBalance.objects.get_or_create(user=...)]. *)
Definition get_or_create (user now : Z) : M wallet ucb :=
  w ← get;
  match w_rows w !! user with
  | Some r => mret r
  | None =>
      put (Wallet (<[user := new_row user now]> (w_rows w)) (w_txs w)) ≫= λ _,
      mret (new_row user now)
  end.

(** ** The methods of [UserCoinBalance] *)

Definition sync_balance (r : ucb) : ucb :=
  let r := setc purchased_balance
    (or_int (getc telebirr_purchased_balance r) 0
     + or_int (getc airtime_purchased_balance r) 0) r in
  setc balance
    (or_int (getc earned_balance r) 0 + or_int (getc bonus_balance r) 0
     + getc purchased_balance r) r.

Definition giftable_balance (r : ucb) : Z :=
  or_int (getc telebirr_purchased_balance r) 0.

Definition non_giftable_balance (r : ucb) : Z :=
  or_int (getc earned_balance r) 0 + or_int (getc bonus_balance r) 0
  + or_int (getc airtime_purchased_balance r) 0.

(** [_copy_from]: every balance column, not [updated_at]. *)
Definition copied_cols : list col :=
  [earned_balance; bonus_balance; telebirr_purchased_balance;
   airtime_purchased_balance; purchased_balance; balance; total_earned;
   total_purchased; total_telebirr_purchased; total_airtime_purchased;
   total_bonus_granted; total_spent; total_withdrawn].

Definition copy_from (other self : ucb) : ucb :=
  fold_left (λ r c, setc c (getc c other) r) copied_cols self.

Definition positive_amount (amount : Z) : M wallet unit :=
  assert_or (negb (amount <=? 0)) (ValueError "Amount must be positive").

Definition add_earned (self : ucb) (amount : Z) (ty : string) (kw : tx_kwargs)
    (now : Z) : M wallet (coin_tx * ucb) :=
  positive_amount amount ≫= λ _,
  '(t, locked) ← atomic (
    locked ← get_locked (u_user self);
    let locked := addc earned_balance amount locked in
    let locked := addc total_earned amount locked in
    let locked := sync_balance locked in
    save_row [earned_balance; balance; total_earned] locked now ≫= λ _,
    t ← create_tx (new_tx (u_user locked) ty amount "" kw now);
    mret (t, locked));
  mret (t, copy_from locked self).

Definition add_bonus (self : ucb) (amount : Z) (ty : string) (kw : tx_kwargs)
    (now : Z) : M wallet (coin_tx * ucb) :=
  positive_amount amount ≫= λ _,
  '(t, locked) ← atomic (
    locked ← get_locked (u_user self);
    let locked := addc bonus_balance amount locked in
    let locked := addc total_bonus_granted amount locked in
    let locked := sync_balance locked in
    save_row [bonus_balance; balance; total_bonus_granted] locked now ≫= λ _,
    t ← create_tx (new_tx (u_user locked) ty amount "" kw now);
    mret (t, locked));
  mret (t, copy_from locked self).

Definition add_purchased (self : ucb) (amount : Z) (ty pm : string)
    (kw : tx_kwargs) (now : Z) : M wallet (coin_tx * ucb) :=
  positive_amount amount ≫= λ _,
  '(t, locked) ← atomic (
    locked ← get_locked (u_user self);
    let locked :=
      if String.eqb pm "airtime"
      then addc total_airtime_purchased amount
             (addc airtime_purchased_balance amount locked)
      else addc total_telebirr_purchased amount
             (addc telebirr_purchased_balance amount locked) in
    let locked := addc total_purchased amount locked in
    let locked := sync_balance locked in
    save_row [telebirr_purchased_balance; airtime_purchased_balance;
              purchased_balance; balance; total_purchased;
              total_telebirr_purchased; total_airtime_purchased] locked now ≫= λ _,
    t ← create_tx (new_tx (u_user locked) ty amount pm kw now);
    mret (t, locked));
  mret (t, copy_from locked self).

(** [add_coins]: purchases route to [add_purchased] with its default
    [payment_method='telebirr'], anything else to [add_earned]. *)
Definition add_coins (self : ucb) (amount : Z) (ty : string) (kw : tx_kwargs)
    (now : Z) : M wallet (coin_tx * ucb) :=
  if String.eqb ty "purchase"
  then add_purchased self amount ty "telebirr" kw now
  else add_earned self amount ty kw now.

Definition bonus_not_giftable_msg (giftable bonus amount : Z) : string :=
  "Subscription bonus coins cannot be used to send gifts. You have "
  +:+ str_int giftable +:+ " giftable coins and " +:+ str_int bonus
  +:+ " bonus coins, and this gift costs " +:+ str_int amount
  +:+ ". Please use purchased coins.".

Definition insufficient_giftable_msg (giftable amount : Z) : string :=
  "Insufficient giftable coins. Have " +:+ str_int giftable
  +:+ " Telebirr coins, need " +:+ str_int amount
  +:+ ". Reward and airtime-purchased coins cannot be used for gifting. Top up via Telebirr.".

(** The gift branch of [spend_coins]: Telebirr coins only. *)
Definition spend_giftable (amount : Z) (locked : ucb) : M wallet ucb :=
  if giftable_balance locked <? amount then
    if or_int (getc bonus_balance locked) 0 >? 0
    then raise (ValueError (bonus_not_giftable_msg (giftable_balance locked)
                              (getc bonus_balance locked) amount))
    else raise (ValueError (insufficient_giftable_msg (giftable_balance locked) amount))
  else mret (setc telebirr_purchased_balance
               (getc telebirr_purchased_balance locked - amount) locked).

(** The other branch: bonus, then earned, then airtime, then telebirr. *)
Definition spend_any (amount : Z) (locked : ucb) : M wallet ucb :=
  let total := or_int (getc bonus_balance locked) 0
               + or_int (getc earned_balance locked) 0
               + or_int (getc airtime_purchased_balance locked) 0
               + or_int (getc telebirr_purchased_balance locked) 0 in
  if total <? amount
  then raise (ValueError ("Insufficient balance. Have " +:+ str_int total
                            +:+ ", need " +:+ str_int amount))
  else
    let from_bonus := Z.min (or_int (getc bonus_balance locked) 0) amount in
    let remaining := amount - from_bonus in
    let from_earned := Z.min (or_int (getc earned_balance locked) 0) remaining in
    let remaining := remaining - from_earned in
    let from_airtime := Z.min (or_int (getc airtime_purchased_balance locked) 0) remaining in
    let remaining := remaining - from_airtime in
    let from_telebirr := remaining in
    let locked := setc bonus_balance (getc bonus_balance locked - from_bonus) locked in
    let locked := setc earned_balance (getc earned_balance locked - from_earned) locked in
    let locked := setc airtime_purchased_balance
                    (getc airtime_purchased_balance locked - from_airtime) locked in
    mret (setc telebirr_purchased_balance
            (getc telebirr_purchased_balance locked - from_telebirr) locked).

Definition spend_coins (self : ucb) (amount : Z) (ty : string)
    (restrict_earned : bool) (kw : tx_kwargs) (now : Z) : M wallet (coin_tx * ucb) :=
  positive_amount amount ≫= λ _,
  '(t, locked) ← atomic (
    locked ← get_locked (u_user self);
    locked ← (if restrict_earned then spend_giftable amount locked
              else spend_any amount locked);
    let locked := addc total_spent amount locked in
    let locked := sync_balance locked in
    save_row [earned_balance; bonus_balance; telebirr_purchased_balance;
              airtime_purchased_balance; purchased_balance; balance; total_spent]
      locked now ≫= λ _,
    t ← create_tx (new_tx (u_user locked) ty (- amount) "" kw now);
    mret (t, locked));
  mret (t, copy_from locked self).

(** [_BUCKET_FIELDS]. *)
Definition bucket_field (bucket : string) : option col :=
  if String.eqb bucket "earned" then Some earned_balance
  else if String.eqb bucket "purchased" then Some telebirr_purchased_balance
  else if String.eqb bucket "telebirr" then Some telebirr_purchased_balance
  else if String.eqb bucket "airtime" then Some airtime_purchased_balance
  else if String.eqb bucket "bonus" then Some bonus_balance
  else None.

Definition deduct_from_bucket (self : ucb) (bucket : string) (amount : Z)
    (ty : string) (kw : tx_kwargs) (now : Z) : M wallet (coin_tx * ucb) :=
  positive_amount amount ≫= λ _,
  match bucket_field bucket with
  | None => raise (ValueError "bucket must be one of ['airtime', 'bonus', 'earned', 'purchased', 'telebirr']")
  | Some field =>
      '(t, locked) ← atomic (
        locked ← get_locked (u_user self);
        let current := or_int (getc field locked) 0 in
        if current <? amount
        then raise (ValueError ("Insufficient " +:+ bucket +:+ " balance. Have "
                                  +:+ str_int current +:+ ", need " +:+ str_int amount))
        else
          let locked := setc field (current - amount) locked in
          let locked := addc total_spent amount locked in
          let locked := sync_balance locked in
          save_row [field; purchased_balance; balance; total_spent] locked now ≫= λ _,
          t ← create_tx (new_tx (u_user locked) ty (- amount) "" kw now);
          mret (t, locked));
      mret (t, copy_from locked self)
  end.

Definition withdraw_to_birr (self : ucb) (amount now : Z) : M wallet (coin_tx * ucb) :=
  positive_amount amount ≫= λ _,
  '(t, locked) ← atomic (
    locked ← get_locked (u_user self);
    if or_int (getc earned_balance locked) 0 <? amount
    then raise (ValueError ("Insufficient earned coins. Have "
                              +:+ str_int (getc earned_balance locked) +:+ ", need "
                              +:+ str_int amount))
    else
      let locked := setc earned_balance (getc earned_balance locked - amount) locked in
      let locked := addc total_withdrawn amount locked in
      let locked := sync_balance locked in
      save_row [earned_balance; balance; total_withdrawn] locked now ≫= λ _,
      t ← create_tx (new_tx (u_user locked) "withdrawal" (- amount) ""
                       (descr "Withdrawal to Birr (pending review)") now);
      mret (t, locked));
  mret (t, copy_from locked self).

(** ** Shape of the methods

    Every method is one row-locked transaction: read the row under the lock,
    compute the new row ([decide], which writes nothing), save some columns,
    append one ledger entry. *)

Definition locked_txn (user : Z) (decide : ucb → M wallet ucb) (cs : list col)
    (mk : ucb → coin_tx) (now : Z) : M wallet (coin_tx * ucb) :=
  atomic (
    locked ← get_locked user;
    locked ← decide locked;
    save_row cs locked now ≫= λ _,
    t ← create_tx (mk locked);
    mret (t, locked)).

Definition refresh (self : ucb) (m : M wallet (coin_tx * ucb)) : M wallet (coin_tx * ucb) :=
  '(t, locked) ← m; mret (t, copy_from locked self).

(** [decide] only reads. *)
Definition reads (decide : ucb → M wallet ucb) : Prop :=
  ∀ r w, (decide r w).2 = w.

Lemma create_tx_ok n w t w' :
  create_tx n w = (inr t, w') →
  t = n ∧ existsb (clash n) (w_txs w) = false
  ∧ w' = Wallet (w_rows w) (w_txs w ++ [n]).
Proof.
  unfold create_tx. rewrite bind_run. cbn.
  destruct (existsb (clash n) (w_txs w)) eqn:E; cbn; [done|].
  by intros [= <- <-].
Qed.

Lemma get_locked_ok user w r w' :
  get_locked user w = (inr r, w') → w_rows w !! user = Some r ∧ w' = w.
Proof.
  unfold get_locked. rewrite bind_run. cbn.
  destruct (w_rows w !! user); [by intros [= <- <-]|done].
Qed.

Lemma locked_txn_ok user decide cs mk now w t l w' :
  reads decide →
  locked_txn user decide cs mk now w = (inr (t, l), w') →
  ∃ r, w_rows w !! user = Some r ∧ decide r w = (inr l, w) ∧ t = mk l
    ∧ existsb (clash t) (w_txs w) = false
    ∧ w' = Wallet (alter (save_fields cs l now) (u_user l) (w_rows w)) (w_txs w ++ [t]).
Proof.
  intros Hd H. unfold locked_txn in H. run_inv H.
  apply get_locked_ok in H0 as [Hr ->].
  match goal with H : decide ?r _ = (_, ?w1) |- _ =>
    pose proof (Hd r w) as Hw; rewrite H in Hw; cbn in Hw; subst w1 end.
  match goal with H : save_row _ _ _ _ = _ |- _ => injection H as _ <- end.
  match goal with H : create_tx _ _ = _ |- _ => apply create_tx_ok in H as (-> & ? & ->) end.
  eauto 10.
Qed.

(** ** Row invariant and movements *)

Definition row_ok (r : ucb) : Prop :=
  0 <= u_earned r ∧ 0 <= u_telebirr r ∧ 0 <= u_airtime r ∧ 0 <= u_bonus r
  ∧ u_purchased r = u_telebirr r + u_airtime r
  ∧ u_balance r = u_earned r + u_bonus r + u_purchased r
  ∧ u_total_purchased r = u_total_telebirr r + u_total_airtime r
  ∧ u_balance r = u_total_earned r + u_total_bonus r + u_total_purchased r
                  - u_total_spent r - u_total_withdrawn r.

(** [r'] is [r] after a movement of [n] coins. *)
Definition moves (r r' : ucb) (n : Z) : Prop :=
  u_user r' = u_user r ∧ (row_ok r → row_ok r' ∧ u_balance r' = u_balance r + n).

Ltac row_solve :=
  repeat match goal with r : ucb |- _ => destruct r end;
  unfold moves, row_ok, save_fields, sync_balance, addc, giftable_balance,
    non_giftable_balance in *; cbn in *;
  autorewrite with pyint in *; cbn in *; lia.

(** The row each method computes under the lock. *)
Definition decide_earned (amount : Z) (r : ucb) : M wallet ucb :=
  mret (sync_balance (addc total_earned amount (addc earned_balance amount r))).
Definition decide_bonus (amount : Z) (r : ucb) : M wallet ucb :=
  mret (sync_balance (addc total_bonus_granted amount (addc bonus_balance amount r))).
Definition decide_purchased (pm : string) (amount : Z) (r : ucb) : M wallet ucb :=
  mret (sync_balance (addc total_purchased amount
    (if String.eqb pm "airtime"
     then addc total_airtime_purchased amount (addc airtime_purchased_balance amount r)
     else addc total_telebirr_purchased amount (addc telebirr_purchased_balance amount r)))).
Definition decide_spend (restrict : bool) (amount : Z) (r : ucb) : M wallet ucb :=
  l ← (if restrict then spend_giftable amount r else spend_any amount r);
  mret (sync_balance (addc total_spent amount l)).
Definition decide_deduct (bucket : string) (field : col) (amount : Z) (r : ucb) : M wallet ucb :=
  if or_int (getc field r) 0 <? amount
  then raise (ValueError ("Insufficient " +:+ bucket +:+ " balance. Have "
                +:+ str_int (or_int (getc field r) 0) +:+ ", need " +:+ str_int amount))
  else mret (sync_balance (addc total_spent amount
               (setc field (or_int (getc field r) 0 - amount) r))).
Definition decide_withdraw (amount : Z) (r : ucb) : M wallet ucb :=
  if or_int (getc earned_balance r) 0 <? amount
  then raise (ValueError ("Insufficient earned coins. Have "
                +:+ str_int (getc earned_balance r) +:+ ", need " +:+ str_int amount))
  else mret (sync_balance (addc total_withdrawn amount
               (setc earned_balance (getc earned_balance r - amount) r))).

Lemma reads_mret (f : ucb → ucb) : reads (λ r, mret (f r)).
Proof. done. Qed.

Lemma reads_spend restrict amount : reads (decide_spend restrict amount).
Proof.
  intros r w. unfold decide_spend, spend_giftable, spend_any.
  destruct restrict; repeat case_match; done.
Qed.

Lemma reads_deduct bucket field amount : reads (decide_deduct bucket field amount).
Proof. intros r w. unfold decide_deduct. by case_match. Qed.

Lemma reads_withdraw amount : reads (decide_withdraw amount).
Proof. intros r w. unfold decide_withdraw. by case_match. Qed.

#[local] Hint Resolve reads_mret reads_spend reads_deduct reads_withdraw : core.

(** The columns each method saves. *)
Definition cols_earned := [earned_balance; balance; total_earned].
Definition cols_bonus := [bonus_balance; balance; total_bonus_granted].
Definition cols_purchased :=
  [telebirr_purchased_balance; airtime_purchased_balance; purchased_balance;
   balance; total_purchased; total_telebirr_purchased; total_airtime_purchased].
Definition cols_spend :=
  [earned_balance; bonus_balance; telebirr_purchased_balance;
   airtime_purchased_balance; purchased_balance; balance; total_spent].
Definition cols_deduct (field : col) := [field; purchased_balance; balance; total_spent].
Definition cols_withdraw := [earned_balance; balance; total_withdrawn].

(** Whatever was saved, a movement of the ledger's amount took place. *)
Lemma moves_earned amount now r l w w' :
  0 < amount → decide_earned amount r w = (inr l, w') →
  moves r (save_fields cols_earned l now r) amount.
Proof. intros Ha [= <- _]. row_solve. Qed.

Lemma moves_bonus amount now r l w w' :
  0 < amount → decide_bonus amount r w = (inr l, w') →
  moves r (save_fields cols_bonus l now r) amount.
Proof. intros Ha [= <- _]. row_solve. Qed.

Lemma moves_purchased pm amount now r l w w' :
  0 < amount → decide_purchased pm amount r w = (inr l, w') →
  moves r (save_fields cols_purchased l now r) amount.
Proof.
  intros Ha [= <- _]. destruct (String.eqb pm "airtime"); row_solve.
Qed.

Lemma moves_spend restrict amount now r l w w' :
  0 < amount → decide_spend restrict amount r w = (inr l, w') →
  moves r (save_fields cols_spend l now r) (- amount).
Proof.
  intros Ha. unfold decide_spend, spend_giftable, spend_any.
  destruct restrict; repeat case_match; try done; intros [= <- _]; bool_prop; row_solve.
Qed.

Lemma moves_deduct bucket field amount now r l w w' :
  bucket_field bucket = Some field →
  0 < amount → decide_deduct bucket field amount r w = (inr l, w') →
  moves r (save_fields (cols_deduct field) l now r) (- amount).
Proof.
  intros Hf Ha. unfold decide_deduct. case_match; [done|]. intros [= <- _]. bool_prop.
  unfold bucket_field in Hf. repeat case_match; simplify_eq; row_solve.
Qed.

Lemma moves_withdraw amount now r l w w' :
  0 < amount → decide_withdraw amount r w = (inr l, w') →
  moves r (save_fields cols_withdraw l now r) (- amount).
Proof.
  intros Ha. unfold decide_withdraw. case_match; [done|]. intros [= <- _]. bool_prop.
  row_solve.
Qed.


(** ** The wallet invariant

    For every user: the row satisfies [row_ok], and its total is the sum of
    that user's ledger entries.  The entries of a user without a row add up to
    nothing (purchases still unpaid). *)

Definition ledger_of (user : Z) (ts : list coin_tx) : list coin_tx :=
  filter (λ t, ct_user t = user) ts.
#[global] Arguments ledger_of : simpl never.

Definition wallet_ok (w : wallet) : Prop :=
  (∀ u r, w_rows w !! u = Some r →
     u_user r = u ∧ row_ok r
     ∧ u_balance r = sumZ ct_coins (ledger_of u (w_txs w)))
  ∧ (∀ u, w_rows w !! u = None → sumZ ct_coins (ledger_of u (w_txs w)) = 0).

Lemma ledger_snoc u ts t :
  ledger_of u (ts ++ [t]) =
  ledger_of u ts ++ (if decide (ct_user t = u) then [t] else []).
Proof. unfold ledger_of. rewrite filter_app. f_equal. Qed.

(** A locked transaction whose saved row is a movement of its ledger entry
    keeps the invariant. *)
Lemma wallet_ok_txn w user r l cs now t :
  wallet_ok w → w_rows w !! user = Some r → u_user l = user → ct_user t = user →
  moves r (save_fields cs l now r) (ct_coins t) →
  wallet_ok (Wallet (alter (save_fields cs l now) user (w_rows w)) (w_txs w ++ [t])).
Proof.
  intros [Hrows Hnone] Hr Hl Ht [Hu Hmv].
  destruct (Hrows user r Hr) as (Hru & Hrok & Hrb). destruct (Hmv Hrok) as [Hok' Hb'].
  split; cbn; intros u.
  - intros r'. rewrite ledger_snoc, sumZ_app.
    destruct (decide (u = user)) as [->|Hne].
    + rewrite lookup_alter_eq, Hr. intros [= <-].
      rewrite decide_True by done. autorewrite with sums.
      split; [congruence|]. split; [done|lia].
    + rewrite lookup_alter_ne by done. intros Hr'. destruct (Hrows u r' Hr') as (? & ? & ?).
      rewrite decide_False by congruence. autorewrite with sums.
      split_and!; [done..|lia].
  - intros Hn. destruct (decide (u = user)) as [->|Hne].
    + by rewrite lookup_alter_eq, Hr in Hn.
    + rewrite lookup_alter_ne in Hn by done. rewrite ledger_snoc, sumZ_app, (Hnone _ Hn).
      by rewrite decide_False by congruence.
Qed.

Lemma wallet_ok_empty : wallet_ok no_wallets.
Proof. by split. Qed.

Lemma get_or_create_spec user now w :
  ∃ r w', get_or_create user now w = (inr r, w')
    ∧ w_rows w' !! user = Some r ∧ w_txs w' = w_txs w
    ∧ (∀ u, u ≠ user → w_rows w' !! u = w_rows w !! u)
    ∧ (w_rows w !! user = Some r ∨ w_rows w !! user = None ∧ r = new_row user now).
Proof.
  unfold get_or_create. rewrite bind_run. cbn.
  destruct (w_rows w !! user) as [r|] eqn:Hr.
  - exists r, w. naive_solver.
  - exists (new_row user now), (Wallet (<[user:=new_row user now]> (w_rows w)) (w_txs w)).
    cbn. rewrite lookup_insert_eq. split_and!; try done.
    + intros u Hu. by rewrite lookup_insert_ne.
    + by right.
Qed.

Lemma wallet_ok_get_or_create user now : preserves wallet_ok (get_or_create user now).
Proof.
  intros w [Hrows Hnone].
  destruct (get_or_create_spec user now w) as (r & w' & -> & Hr & Ht & Hother & Hcase).
  cbn. split.
  - intros u r' Hr'. rewrite Ht. destruct (decide (u = user)) as [->|Hne].
    + assert (r' = r) as -> by congruence. destruct Hcase as [Hold|[Hold ->]]; [by apply Hrows|].
      rewrite (Hnone _ Hold). by split_and!.
    + apply Hrows. by rewrite <- Hother.
  - intros u Hn. rewrite Ht. destruct (decide (u = user)) as [->|Hne]; [congruence|].
    apply Hnone. by rewrite <- Hother.
Qed.

(** ** Operations and reachable wallets *)

Inductive op :=
| OpGetOrCreate (user : Z)
| OpAddEarned (amount : Z) (ty : string) (kw : tx_kwargs)
| OpAddBonus (amount : Z) (ty : string) (kw : tx_kwargs)
| OpAddPurchased (amount : Z) (ty pm : string) (kw : tx_kwargs)
| OpAddCoins (amount : Z) (ty : string) (kw : tx_kwargs)
| OpSpend (amount : Z) (ty : string) (restrict : bool) (kw : tx_kwargs)
| OpDeduct (bucket : string) (amount : Z) (ty : string) (kw : tx_kwargs)
| OpWithdraw (amount : Z).

(** Running an operation with the caller's in-memory copy [self]. *)
Definition exec (self : ucb) (now : Z) (o : op) : M wallet unit :=
  match o with
  | OpGetOrCreate u => get_or_create u now ≫= λ _, mret tt
  | OpAddEarned n ty kw => add_earned self n ty kw now ≫= λ _, mret tt
  | OpAddBonus n ty kw => add_bonus self n ty kw now ≫= λ _, mret tt
  | OpAddPurchased n ty pm kw => add_purchased self n ty pm kw now ≫= λ _, mret tt
  | OpAddCoins n ty kw => add_coins self n ty kw now ≫= λ _, mret tt
  | OpSpend n ty r kw => spend_coins self n ty r kw now ≫= λ _, mret tt
  | OpDeduct b n ty kw => deduct_from_bucket self b n ty kw now ≫= λ _, mret tt
  | OpWithdraw n => withdraw_to_birr self n now ≫= λ _, mret tt
  end.

(** Any client, holding any copy of any row however stale, may run any
    operation next; row locks make each one a single step. *)
Inductive step : wallet → wallet → Prop :=
| step_op self now o w : step w (exec self now o w).2.

Definition reachable (w : wallet) : Prop := rtc step no_wallets w.

(** A method as guard, locked transaction, refresh of [self]. *)
Definition locked_method (self : ucb) (amount : Z) (decide : ucb → M wallet ucb)
    (cs : list col) (mk : ucb → coin_tx) (now : Z) : M wallet (coin_tx * ucb) :=
  positive_amount amount ≫= λ _, refresh self (locked_txn (u_user self) decide cs mk now).

Lemma locked_method_err self amount decide cs mk now w e w' :
  locked_method self amount decide cs mk now w = (inl e, w') → w' = w.
Proof.
  intros H. apply bind_err in H as [H|(? & ? & H1 & H)].
  - by apply assert_or_err in H as (_ & _ & ->).
  - apply assert_or_ok in H1 as [_ ->].
    apply bind_err in H as [H|([? ?] & ? & _ & [=])]. by apply atomic_err in H.
Qed.

Lemma locked_method_ok self amount decide cs mk now w x w' :
  reads decide →
  locked_method self amount decide cs mk now w = (inr x, w') →
  0 < amount ∧ ∃ r l, w_rows w !! u_user self = Some r ∧ decide r w = (inr l, w)
    ∧ existsb (clash (mk l)) (w_txs w) = false
    ∧ x = (mk l, copy_from l self)
    ∧ w' = Wallet (alter (save_fields cs l now) (u_user l) (w_rows w)) (w_txs w ++ [mk l]).
Proof.
  intros Hd H. apply bind_ok in H as (? & ? & Hp & H).
  apply assert_or_ok in Hp as [Hp ->]. bool_prop.
  apply bind_ok in H as ([t l] & ? & H & [= <- <-]).
  apply locked_txn_ok in H as (r & ? & ? & -> & ? & ->); [|done]. eauto 10.
Qed.

(** What makes a method keep the invariant: its row computation keeps the
    owner and moves what its ledger entry says. *)
Lemma wallet_ok_method self amount decide cs mk now n :
  reads decide →
  (∀ r l w w', decide r w = (inr l, w') → u_user l = u_user r) →
  (∀ r l w w', 0 < amount → decide r w = (inr l, w') → moves r (save_fields cs l now r) n) →
  (∀ l, ct_user (mk l) = u_user l ∧ ct_coins (mk l) = n) →
  preserves wallet_ok (locked_method self amount decide cs mk now).
Proof.
  intros Hd Hown Hmv Hmk w Hw.
  destruct (locked_method self amount decide cs mk now w) as [[e|x] w'] eqn:H; cbn.
  - by rewrite (locked_method_err _ _ _ _ _ _ _ _ _ H).
  - apply locked_method_ok in H as (Hp & r & l & Hr & Hdl & _ & _ & ->); [|done].
    assert (u_user r = u_user self) as Hru by (by apply Hw).
    assert (u_user l = u_user self) as Hlu by (rewrite (Hown _ _ _ _ Hdl); done).
    rewrite Hlu. destruct (Hmk l) as [Hmu Hmc].
    apply (wallet_ok_txn w (u_user self) r); try done; [congruence|].
    rewrite Hmc. eapply Hmv; eauto.
Qed.

(** Each method is its [locked_method], definitionally. *)
Definition earned_method self amount ty kw now :=
  locked_method self amount (decide_earned amount) cols_earned
    (λ l, new_tx (u_user l) ty amount "" kw now) now.
Definition bonus_method self amount ty kw now :=
  locked_method self amount (decide_bonus amount) cols_bonus
    (λ l, new_tx (u_user l) ty amount "" kw now) now.
Definition purchased_method self amount ty pm kw now :=
  locked_method self amount (decide_purchased pm amount) cols_purchased
    (λ l, new_tx (u_user l) ty amount pm kw now) now.
Definition spend_method self amount ty restrict kw now :=
  locked_method self amount (decide_spend restrict amount) cols_spend
    (λ l, new_tx (u_user l) ty (- amount) "" kw now) now.
Definition deduct_method self bucket field amount ty kw now :=
  locked_method self amount (decide_deduct bucket field amount) (cols_deduct field)
    (λ l, new_tx (u_user l) ty (- amount) "" kw now) now.
Definition withdraw_method self amount now :=
  locked_method self amount (decide_withdraw amount) cols_withdraw
    (λ l, new_tx (u_user l) "withdrawal" (- amount) ""
            (descr "Withdrawal to Birr (pending review)") now) now.

Lemma add_earned_eq self amount ty kw now :
  add_earned self amount ty kw now = earned_method self amount ty kw now.
Proof. reflexivity. Qed.
Lemma add_bonus_eq self amount ty kw now :
  add_bonus self amount ty kw now = bonus_method self amount ty kw now.
Proof. reflexivity. Qed.
Lemma add_purchased_eq self amount ty pm kw now :
  add_purchased self amount ty pm kw now = purchased_method self amount ty pm kw now.
Proof. reflexivity. Qed.

(** The branching methods agree with theirs at every store. *)
Lemma spend_coins_eq self amount ty restrict kw now w :
  spend_coins self amount ty restrict kw now w = spend_method self amount ty restrict kw now w.
Proof.
  unfold spend_coins, spend_method, locked_method, refresh, locked_txn, decide_spend.
  rewrite !bind_run. destruct (positive_amount amount w) as [[e|u] w1]; [done|].
  rewrite !bind_run. unfold atomic. rewrite !bind_run.
  destruct (get_locked (u_user self) w1) as [[e|r] w2]; [done|].
  rewrite !bind_run. destruct restrict.
  - destruct (spend_giftable amount r w2) as [[e|l] w3]; done.
  - destruct (spend_any amount r w2) as [[e|l] w3]; done.
Qed.

Lemma deduct_from_bucket_eq self bucket field amount ty kw now w :
  bucket_field bucket = Some field →
  deduct_from_bucket self bucket amount ty kw now w
  = deduct_method self bucket field amount ty kw now w.
Proof.
  intros Hf. unfold deduct_from_bucket, deduct_method, locked_method, refresh,
    locked_txn, decide_deduct. rewrite Hf.
  rewrite !bind_run. destruct (positive_amount amount w) as [[e|u] w1]; [done|].
  rewrite !bind_run. unfold atomic. rewrite !bind_run.
  destruct (get_locked (u_user self) w1) as [[e|r] w2]; [done|].
  rewrite !bind_run. by destruct (or_int (getc field r) 0 <? amount).
Qed.

Lemma withdraw_to_birr_eq self amount now w :
  withdraw_to_birr self amount now w = withdraw_method self amount now w.
Proof.
  unfold withdraw_to_birr, withdraw_method, locked_method, refresh, locked_txn, decide_withdraw.
  rewrite !bind_run. destruct (positive_amount amount w) as [[e|u] w1]; [done|].
  rewrite !bind_run. unfold atomic. rewrite !bind_run.
  destruct (get_locked (u_user self) w1) as [[e|r] w2]; [done|].
  rewrite !bind_run. by destruct (or_int (getc earned_balance r) 0 <? amount).
Qed.

Lemma decide_spend_owner restrict amount r l w w' :
  decide_spend restrict amount r w = (inr l, w') → u_user l = u_user r.
Proof.
  unfold decide_spend, spend_giftable, spend_any. destruct restrict; repeat case_match;
    try done; intros [= <- _]; by destruct r.
Qed.

Lemma decide_deduct_owner bucket field amount r l w w' :
  decide_deduct bucket field amount r w = (inr l, w') → u_user l = u_user r.
Proof.
  unfold decide_deduct. case_match; [done|]. intros [= <- _]. destruct r, field; done.
Qed.

Lemma decide_withdraw_owner amount r l w w' :
  decide_withdraw amount r w = (inr l, w') → u_user l = u_user r.
Proof. unfold decide_withdraw. case_match; [done|]. intros [= <- _]. by destruct r. Qed.

Lemma decide_purchased_owner pm amount r l w w' :
  decide_purchased pm amount r w = (inr l, w') → u_user l = u_user r.
Proof. intros [= <- _]. destruct r; by case_match. Qed.

Lemma preserves_ext {S A} I (m1 m2 : M S A) :
  (∀ s, m1 s = m2 s) → preserves I m2 → preserves I m1.
Proof. intros Heq H s Hs. rewrite Heq. by apply H. Qed.

Lemma earned_preserves self amount ty kw now :
  preserves wallet_ok (add_earned self amount ty kw now).
Proof.
  rewrite add_earned_eq. apply wallet_ok_method with amount; try done.
  - intros r l w w' [= <- _]. by destruct r.
  - intros. by eapply moves_earned.
Qed.

Lemma bonus_preserves self amount ty kw now :
  preserves wallet_ok (add_bonus self amount ty kw now).
Proof.
  rewrite add_bonus_eq. apply wallet_ok_method with amount; try done.
  - intros r l w w' [= <- _]. by destruct r.
  - intros. by eapply moves_bonus.
Qed.

Lemma purchased_preserves self amount ty pm kw now :
  preserves wallet_ok (add_purchased self amount ty pm kw now).
Proof.
  rewrite add_purchased_eq. apply wallet_ok_method with amount; try done.
  - intros. by eapply decide_purchased_owner.
  - intros. by eapply moves_purchased.
Qed.

Lemma spend_preserves self amount ty restrict kw now :
  preserves wallet_ok (spend_coins self amount ty restrict kw now).
Proof.
  apply (preserves_ext _ _ _ (spend_coins_eq self amount ty restrict kw now)).
  apply wallet_ok_method with (- amount); eauto using decide_spend_owner, moves_spend.
Qed.

Lemma deduct_preserves self bucket amount ty kw now :
  preserves wallet_ok (deduct_from_bucket self bucket amount ty kw now).
Proof.
  destruct (bucket_field bucket) as [field|] eqn:Hf.
  - apply (preserves_ext _ _ (deduct_method self bucket field amount ty kw now)).
    { intros w. by apply deduct_from_bucket_eq. }
    apply wallet_ok_method with (- amount); eauto using decide_deduct_owner, moves_deduct.
  - unfold deduct_from_bucket. rewrite Hf. intros w Hw. rewrite bind_run.
    unfold positive_amount, assert_or. by destruct (amount <=? 0).
Qed.

Lemma withdraw_preserves self amount now :
  preserves wallet_ok (withdraw_to_birr self amount now).
Proof.
  apply (preserves_ext _ _ _ (withdraw_to_birr_eq self amount now)).
  apply wallet_ok_method with (- amount); eauto using decide_withdraw_owner, moves_withdraw.
Qed.

#[export] Hint Resolve wallet_ok_get_or_create earned_preserves bonus_preserves
  purchased_preserves spend_preserves deduct_preserves withdraw_preserves : prog.

Lemma exec_preserves self now o : preserves wallet_ok (exec self now o).
Proof.
  destruct o; cbn; (apply preserves_bind; [|by intros ???]); auto with prog.
  unfold add_coins. case_match; auto with prog.
Qed.

(** Every method only appends to the ledger, and only finished rows: the rows
    that wait for a payment are none of its business. *)
Definition finished (t : coin_tx) : Prop :=
  ct_is_successful t = true ∧ ct_payment_state t = "SUCCESS" ∧ ct_quoted_coins t = None.
Definition grows (w w' : wallet) : Prop :=
  ∃ l, w_txs w' = w_txs w ++ l ∧ Forall finished l.

Lemma grows_refl w : grows w w.
Proof. exists []. by rewrite app_nil_r. Qed.

Lemma method_grows w0 self amount decide cs mk now :
  reads decide → (∀ l, finished (mk l)) →
  preserves (grows w0) (locked_method self amount decide cs mk now).
Proof.
  intros Hd Hmk w (l0 & Hl & Hs).
  destruct (locked_method self amount decide cs mk now w) as [[e|x] w'] eqn:H; cbn.
  - rewrite (locked_method_err _ _ _ _ _ _ _ _ _ H). by exists l0.
  - apply locked_method_ok in H as (_ & r & l & _ & _ & _ & _ & ->); [|done].
    exists (l0 ++ [mk l]). cbn. rewrite Hl, app_assoc. split; [done|].
    apply Forall_app. split; [done|]. by apply Forall_singleton.
Qed.

Lemma exec_grows w0 self now o : preserves (grows w0) (exec self now o).
Proof.
  destruct o; cbn; (apply preserves_bind; [|by intros ???]).
  - intros w (l & Hl & Hs). unfold get_or_create. rewrite bind_run. cbn.
    destruct (w_rows w !! user); by exists l.
  - rewrite add_earned_eq. by apply method_grows; [apply reads_mret|].
  - rewrite add_bonus_eq. by apply method_grows; [apply reads_mret|].
  - rewrite add_purchased_eq. by apply method_grows; [apply reads_mret|].
  - unfold add_coins. case_match; rewrite ?add_purchased_eq, ?add_earned_eq;
      (by apply method_grows; [apply reads_mret|]).
  - apply (preserves_ext _ _ _ (spend_coins_eq self amount ty restrict kw now)).
    by apply method_grows; [apply reads_spend|].
  - destruct (bucket_field bucket) as [field|] eqn:Hf.
    + apply (preserves_ext _ _ (deduct_method self bucket field amount ty kw now)).
      { intros s. by apply deduct_from_bucket_eq. }
      by apply method_grows; [apply reads_deduct|].
    + intros w Hw. unfold deduct_from_bucket. rewrite Hf, bind_run.
      unfold positive_amount, assert_or. by destruct (negb (amount <=? 0)).
  - apply (preserves_ext _ _ _ (withdraw_to_birr_eq self amount now)).
    by apply method_grows; [apply reads_withdraw|].
Qed.

(** ** Specifications *)

(** Taking [n] from a list of buckets, first bucket first. *)
Fixpoint drain (bs : list Z) (n : Z) : list Z :=
  match bs with
  | [] => []
  | b :: bs' => (b - Z.min b n) :: drain bs' (n - Z.min b n)
  end.

(** The buckets in the order an ordinary spend empties them. *)
Definition spend_order (r : ucb) : list Z := [u_bonus r; u_earned r; u_airtime r; u_telebirr r].

(** Ordinary ledger entries never clash: only rows still pending, or of the
    two once-per-payment types, are constrained. *)
Definition ordinary_type (ty : string) : bool :=
  negb (String.eqb ty "subscription_gift") && negb (String.eqb ty "ondemand_allocation").

Lemma clash_ordinary user ty n pm kw now ts :
  ordinary_type ty = true → existsb (clash (new_tx user ty n pm kw now)) ts = false.
Proof.
  intros Hty. induction ts as [|t ts IH]; [done|]. cbn [existsb]. rewrite IH, orb_false_r.
  unfold ordinary_type in Hty. unfold clash, pending_reference_clash, one_per_payment_clash.
  cbn. bool_prop. do 2 match goal with H : ty ≠ _ |- _ => apply String.eqb_neq in H; rewrite H end.
  by rewrite !andb_false_r.
Qed.

(** Running a locked method when the row is there and nothing clashes. *)
Lemma locked_method_run self amount decide cs mk now w r :
  reads decide → 0 < amount → w_rows w !! u_user self = Some r →
  (∀ l, existsb (clash (mk l)) (w_txs w) = false) →
  locked_method self amount decide cs mk now w =
  match (decide r w).1 with
  | inl e => (inl e, w)
  | inr l => (inr (mk l, copy_from l self),
              Wallet (alter (save_fields cs l now) (u_user l) (w_rows w)) (w_txs w ++ [mk l]))
  end.
Proof.
  intros Hd Hp Hr Hc. unfold locked_method, positive_amount, assert_or.
  rewrite (proj2 (Z.leb_gt amount 0)) by lia. cbn [negb]. rewrite bind_run. cbn.
  unfold refresh, locked_txn, atomic. rewrite !bind_run.
  assert (get_locked (u_user self) w = (inr r, w)) as -> by
    (unfold get_locked; rewrite bind_run; cbn; by rewrite Hr).
  rewrite bind_run. pose proof (Hd r w) as Hw.
  destruct (decide r w) as [[e|l] w1]; cbn in Hw; subst w1; [done|].
  rewrite !bind_run. cbn. unfold create_tx. rewrite !bind_run. cbn. by rewrite Hc.
Qed.

(** ** Crediting a user

    What the grants elsewhere share: [get_or_create], then one of the adding
    methods.  The ledger entry either clashes with one already there, and
    nothing but the empty row stays, or the user's row moves by its amount. *)

Definition row_of (user now : Z) (w : wallet) : ucb := default (new_row user now) (w_rows w !! user).

(** What the user holds. *)
Definition total_of (user : Z) (w : wallet) : Z :=
  match w_rows w !! user with Some r => u_balance r | None => 0 end.

Definition giftable_of (user : Z) (w : wallet) : Z :=
  match w_rows w !! user with Some r => giftable_balance r | None => 0 end.

Definition credited (user : Z) (r' : ucb) (t : coin_tx) (w : wallet) : wallet :=
  Wallet (<[user := r']> (w_rows w)) (w_txs w ++ [t]).

Lemma with_row_of user now w :
  get_or_create user now w
  = (inr (row_of user now w), Wallet (<[user := row_of user now w]> (w_rows w)) (w_txs w)).
Proof.
  unfold get_or_create, row_of. rewrite bind_run. cbn. destruct (w_rows w !! user) as [r|] eqn:Hr.
  - cbn. rewrite insert_id by done. by destruct w.
  - done.
Qed.

Lemma row_of_ok user now w : wallet_ok w → u_user (row_of user now w) = user ∧ row_ok (row_of user now w).
Proof.
  intros [Hrows _]. unfold row_of. destruct (w_rows w !! user) as [r|] eqn:Hr; cbn.
  - by destruct (Hrows _ _ Hr) as (? & ? & _).
  - by split_and!.
Qed.

(** [get_or_create] and one adding method in a row. *)
Definition credit_method (user n now : Z) (f : ucb → M wallet ucb) (cs : list col)
    (mk : ucb → coin_tx) : M wallet (coin_tx * ucb) :=
  self ← get_or_create user now; locked_method self n f cs mk now.

Lemma credit_run user n now f cs mk w l :
  wallet_ok w → 0 < n → (∀ r w, f r w = (inr (l r), w)) →
  (∀ r, u_user (l r) = u_user r) →
  let r := row_of user now w in
  credit_method user n now f cs mk w =
  if existsb (clash (mk (l r))) (w_txs w)
  then (inl (IntegrityError "coin_transactions"), Wallet (<[user := r]> (w_rows w)) (w_txs w))
  else (inr (mk (l r), copy_from (l r) r),
        credited user (save_fields cs (l r) now r) (mk (l r)) w).
Proof.
  intros Hw Hn Hdec Huser r. destruct (row_of_ok user now w Hw) as [Hu _]. fold r in Hu.
  unfold credit_method. rewrite bind_run, with_row_of. fold r.
  unfold locked_method, positive_amount, assert_or.
  rewrite (proj2 (Z.leb_gt n 0)) by lia. cbn [negb]. rewrite bind_run. cbn [mret M_ret].
  unfold refresh, locked_txn, atomic. rewrite !bind_run.
  unfold get_locked. rewrite bind_run. cbn [get w_rows]. rewrite Hu, lookup_insert_eq. cbn [mret M_ret].
  rewrite bind_run, Hdec, bind_run. unfold save_row, modify. rewrite bind_run.
  unfold create_tx. rewrite bind_run. cbn [get w_rows w_txs].
  rewrite Huser, Hu. destruct (existsb _ _); [done|]. cbn. unfold credited.
  assert (alter (save_fields cs (l r) now) user (<[user := r]> (w_rows w))
          = <[user := save_fields cs (l r) now r]> (w_rows w)) as ->; [|done].
  apply map_eq. intros u. destruct (decide (u = user)) as [->|Hne].
  - by rewrite lookup_alter_eq, !lookup_insert_eq.
  - by rewrite lookup_alter_ne, !lookup_insert_ne.
Qed.

(** A credit keeps the invariant and moves only its user's total. *)
Lemma credited_ok user n now r' t w :
  wallet_ok w → let r := row_of user now w in
  moves r r' n → ct_user t = user → ct_coins t = n →
  wallet_ok (credited user r' t w)
  ∧ ∀ u, total_of u (credited user r' t w) = total_of u w + if decide (u = user) then n else 0.
Proof.
  intros Hw r [Hmu Hmv] Hu Hn. destruct (row_of_ok user now w Hw) as [Hru Hrok].
  fold r in Hru, Hrok. destruct (Hmv Hrok) as [Hok' Hb']. destruct Hw as [Hrows Hnone].
  assert (u_balance r = total_of user w) as Htot.
  { unfold r, row_of, total_of. by destruct (w_rows w !! user). }
  assert (u_balance r = sumZ ct_coins (ledger_of user (w_txs w))) as Hsum.
  { rewrite Htot. unfold total_of. destruct (w_rows w !! user) as [r0|] eqn:Hr0.
    - by apply Hrows. - by rewrite Hnone. }
  split; [split|]; cbn.
  - intros u x. rewrite ledger_snoc, sumZ_app. destruct (decide (u = user)) as [->|Hne].
    + rewrite lookup_insert_eq. intros [= <-]. rewrite decide_True by done. autorewrite with sums.
      split; [congruence|]. split; [done|lia].
    + rewrite lookup_insert_ne by done. intros Hx. destruct (Hrows u x Hx) as (? & ? & ?).
      rewrite decide_False by congruence. autorewrite with sums. split_and!; [done..|lia].
  - intros u. destruct (decide (u = user)) as [->|Hne]; [by rewrite lookup_insert_eq|].
    rewrite lookup_insert_ne by done. intros Hx. rewrite ledger_snoc, sumZ_app, (Hnone _ Hx).
    by rewrite decide_False by congruence.
  - intros u. unfold total_of at 1. cbn. destruct (decide (u = user)) as [->|Hne].
    + rewrite lookup_insert_eq. lia.
    + rewrite lookup_insert_ne by done. unfold total_of. lia.
Qed.

Lemma credit_with m user n now f cs ty kw w l :
  wallet_ok w → 0 < n → (∀ r w, f r w = (inr (l r), w)) → (∀ r, u_user (l r) = u_user r) →
  (∀ self w, m self w = locked_method self n f cs (λ l, new_tx (u_user l) ty n "" kw now) now w) →
  let r := row_of user now w in
  let t := new_tx user ty n "" kw now in
  (get_or_create user now ≫= λ self, m self ≫= λ _, mret tt) w
  = if existsb (clash t) (w_txs w)
    then (inl (IntegrityError "coin_transactions"), Wallet (<[user := r]> (w_rows w)) (w_txs w))
    else (inr tt, credited user (save_fields cs (l r) now r) t w).
Proof.
  intros Hw Hn Hf Hl Hm r t. destruct (row_of_ok user now w Hw) as [Hu _]. fold r in Hu.
  pose proof (credit_run user n now f cs (λ l, new_tx (u_user l) ty n "" kw now) w l Hw Hn Hf Hl) as Hrun.
  cbv zeta beta in Hrun. fold r in Hrun. rewrite Hl, Hu in Hrun. fold t in Hrun.
  unfold credit_method in Hrun. rewrite bind_run, with_row_of. rewrite bind_run, with_row_of in Hrun.
  rewrite bind_run, Hm, Hrun. by destruct (existsb _ _).
Qed.

(** The two adding methods the grants use. *)
Lemma add_earned_credit user n ty kw now w :
  wallet_ok w → 0 < n →
  let r := row_of user now w in
  let t := new_tx user ty n "" kw now in
  ∃ r', (get_or_create user now ≫= λ self, add_earned self n ty kw now ≫= λ _, mret tt) w
    = (if existsb (clash t) (w_txs w)
       then (inl (IntegrityError "coin_transactions"), Wallet (<[user := r]> (w_rows w)) (w_txs w))
       else (inr tt, credited user r' t w))
    ∧ moves r r' n ∧ giftable_balance r' = giftable_balance r.
Proof.
  intros Hw Hn r t. destruct (row_of_ok user now w Hw) as [_ Hok]. fold r in Hok.
  set (l := λ r, sync_balance (addc total_earned n (addc earned_balance n r))).
  exists (save_fields cols_earned (l r) now r). split; [|split].
  - apply (credit_with _ user n now (decide_earned n) cols_earned); try done. by intros [].
  - eapply (moves_earned n now r (l r) w w); done.
  - unfold l. row_solve.
Qed.

Lemma add_bonus_credit user n ty kw now w :
  wallet_ok w → 0 < n →
  let r := row_of user now w in
  let t := new_tx user ty n "" kw now in
  ∃ r', (get_or_create user now ≫= λ self, add_bonus self n ty kw now ≫= λ _, mret tt) w
    = (if existsb (clash t) (w_txs w)
       then (inl (IntegrityError "coin_transactions"), Wallet (<[user := r]> (w_rows w)) (w_txs w))
       else (inr tt, credited user r' t w))
    ∧ moves r r' n ∧ giftable_balance r' = giftable_balance r.
Proof.
  intros Hw Hn r t. destruct (row_of_ok user now w Hw) as [_ Hok]. fold r in Hok.
  set (l := λ r, sync_balance (addc total_bonus_granted n (addc bonus_balance n r))).
  exists (save_fields cols_bonus (l r) now r). split; [|split].
  - apply (credit_with _ user n now (decide_bonus n) cols_bonus); try done. by intros [].
  - eapply (moves_bonus n now r (l r) w w); done.
  - unfold l. row_solve.
Qed.

(** Only Telebirr coins can be gifted, so what airtime buys cannot. *)
Lemma add_purchased_credit user n ty pm kw now w :
  wallet_ok w → 0 < n → ordinary_type ty = true →
  let r := row_of user now w in
  let t := new_tx user ty n pm kw now in
  ∃ r' l, (get_or_create user now ≫= λ self, add_purchased self n ty pm kw now) w
    = (inr (t, l), credited user r' t w)
    ∧ moves r r' n
    ∧ giftable_balance r' = giftable_balance r + if String.eqb pm "airtime" then 0 else n.
Proof.
  intros Hw Hn Hty r t. destruct (row_of_ok user now w Hw) as [Hu Hok]. fold r in Hu, Hok.
  set (l := λ r, sync_balance (addc total_purchased n
    (if String.eqb pm "airtime"
     then addc total_airtime_purchased n (addc airtime_purchased_balance n r)
     else addc total_telebirr_purchased n (addc telebirr_purchased_balance n r)))).
  assert (∀ x, u_user (l x) = u_user x) as Hl by (intros []; unfold l; by destruct (String.eqb pm "airtime")).
  pose proof (credit_run user n now (decide_purchased pm n) cols_purchased
    (λ l, new_tx (u_user l) ty n pm kw now) w l Hw Hn (λ r w, eq_refl) Hl) as Hrun.
  cbv zeta beta in Hrun. fold r in Hrun. rewrite Hl, Hu, clash_ordinary in Hrun by done.
  exists (save_fields cols_purchased (l r) now r). eexists. split; [exact Hrun|]. split.
  - eapply (moves_purchased pm n now r (l r) w w); done.
  - unfold l. destruct (String.eqb pm "airtime"); row_solve.
Qed.

(** ** Properties *)

Lemma step_ok w w' : step w w' → wallet_ok w → wallet_ok w'.
Proof. intros []. by apply exec_preserves. Qed.

Lemma reachable_ok w : reachable w → wallet_ok w.
Proof.
  intros H. assert (∀ w0, rtc step w0 w → wallet_ok w0 → wallet_ok w) as Hi.
  { intros w0 H0. induction H0; eauto using step_ok. }
  apply (Hi no_wallets H), wallet_ok_empty.
Qed.

(** C1.  In every reachable wallet -- whatever operations any number of
    clients ran, in whatever order and with however stale copies of the row --
    each user's buckets are non-negative, [purchased_balance] and [balance]
    are the sums of their buckets, [balance] is what came in over the user's
    lifetime minus what went out, and it is the sum of the user's ledger. *)
Theorem reachable_wallet_conservation w u r :
  reachable w → w_rows w !! u = Some r →
  0 <= u_earned r ∧ 0 <= u_bonus r ∧ 0 <= u_airtime r ∧ 0 <= u_telebirr r
  ∧ u_purchased r = u_telebirr r + u_airtime r
  ∧ u_balance r = u_earned r + u_bonus r + u_airtime r + u_telebirr r
  ∧ u_balance r = giftable_balance r + non_giftable_balance r
  ∧ u_balance r = u_total_earned r + u_total_bonus r + u_total_purchased r
                  - u_total_spent r - u_total_withdrawn r
  ∧ u_balance r = sumZ ct_coins (ledger_of u (w_txs w)).
Proof.
  intros Hw Hr. destruct (proj1 (reachable_ok w Hw) u r Hr) as (_ & Hok & Hsum).
  rewrite <- Hsum. split_and!; row_solve.
Qed.

(** The example wallet: user 7 earns, buys, gets a bonus, and spends. *)
Definition stale7 : ucb := new_row 7 0.
Definition example_ops : list op :=
  [OpGetOrCreate 7; OpAddEarned 40 "reward" no_kwargs;
   OpAddPurchased 100 "purchase" "telebirr" no_kwargs;
   OpAddPurchased 25 "purchase" "airtime" no_kwargs;
   OpAddBonus 10 "subscription_bonus" no_kwargs;
   OpSpend 60 "boost" false no_kwargs].
Definition example_wallet : wallet :=
  fold_left (λ w o, (exec stale7 5 o w).2) example_ops no_wallets.

Lemma reachable_steps os w :
  reachable w → reachable (fold_left (λ w o, (exec stale7 5 o w).2) os w).
Proof.
  revert w. induction os as [|o os IH]; intros w Hw; [done|]. cbn. apply IH.
  eapply rtc_r; [exact Hw|constructor].
Qed.

Lemma reachable_wallet_conservation_witness :
  ∃ r, w_rows example_wallet !! 7 = Some r ∧ u_balance r = 115
    ∧ u_balance r = sumZ ct_coins (ledger_of 7 (w_txs example_wallet)).
Proof.
  eexists. split; [vm_compute; reflexivity|]. split; [reflexivity|].
  apply (reachable_wallet_conservation example_wallet 7).
  - apply reachable_steps. apply rtc_refl.
  - vm_compute; reflexivity.
Defined.

(** C2.  An ordinary spend succeeds exactly when the total covers it; then it
    empties bonus, earned, airtime and telebirr coins in that order, records
    one ledger entry, touches nobody else's row, and leaves the caller's copy
    showing the new balances.  Otherwise it raises and nothing changes. *)
Theorem spend_coins_waterfall self amount ty kw now w r :
  wallet_ok w → w_rows w !! u_user self = Some r → 0 < amount →
  ordinary_type ty = true →
  match spend_coins self amount ty false kw now w with
  | (inr (t, self'), w') =>
      amount <= u_balance r ∧ ct_coins t = - amount ∧ w_txs w' = w_txs w ++ [t]
      ∧ (∃ r', w_rows w' !! u_user self = Some r'
          ∧ spend_order r' = drain (spend_order r) amount
          ∧ u_balance r' = u_balance r - amount
          ∧ u_total_spent r' = u_total_spent r + amount
          ∧ (∀ c, getc c self' = getc c r'))
      ∧ (∀ v, v ≠ u_user self → w_rows w' !! v = w_rows w !! v)
  | (inl e, w') =>
      u_balance r < amount ∧ w' = w
      ∧ e = ValueError ("Insufficient balance. Have " +:+ str_int (u_balance r)
                          +:+ ", need " +:+ str_int amount)
  end.
Proof.
  intros [Hrows _] Hr Hp Hty. destruct (Hrows _ _ Hr) as (Hu & Hok & _).
  rewrite spend_coins_eq. unfold spend_method.
  rewrite (locked_method_run _ _ _ _ _ _ _ r); auto using clash_ordinary.
  unfold decide_spend, spend_any.
  destruct self as [us b' e' t' a' bo' p' x1 x2 x3 x4 x5 x6 x7 x8].
  destruct r as [ru b e t a bo p te ts tp tt ta tb tw up].
  unfold row_ok in Hok. cbn in *. autorewrite with pyint. subst ru.
  destruct (Z.ltb_spec (bo + e + a + t) amount) as [Hlt|Hge]; cbn.
  - split; [lia|]. split; [done|]. do 2 f_equal. f_equal. f_equal. lia.
  - split; [lia|]. split; [done|]. split; [done|]. split.
    + eexists. split; [cbn; rewrite lookup_alter_eq, Hr; reflexivity|].
      unfold save_fields, spend_order. cbn. autorewrite with pyint.
      split_and!; [|lia|lia|intros []; cbn; autorewrite with pyint; lia].
      repeat (f_equal; try lia).
    + intros v Hv. cbn. by rewrite lookup_alter_ne.
Qed.

Lemma spend_coins_waterfall_witness :
  ∃ t self' w', spend_coins stale7 70 "boost" false no_kwargs 9 example_wallet
                  = (inr (t, self'), w')
    ∧ spend_order self' = [0; 0; 0; 45] ∧ 70 <= 115.
Proof.
  assert (Hok : wallet_ok example_wallet)
    by (apply reachable_ok, reachable_steps, rtc_refl).
  destruct (w_rows example_wallet !! 7) as [r|] eqn:Hr; [|vm_compute in Hr; discriminate].
  pose proof (spend_coins_waterfall stale7 70 "boost" no_kwargs 9 example_wallet r Hok Hr
                ltac:(lia) eq_refl) as H.
  vm_compute in Hr. injection Hr as <-.
  destruct (spend_coins stale7 70 "boost" false no_kwargs 9 example_wallet) as [[e|[t self']] w'] eqn:E.
  - vm_compute in E. discriminate.
  - exists t, self', w'. split; [reflexivity|]. destruct H as (H & _). split; [|exact H].
    vm_compute in E. injection E as _ <- _. reflexivity.
Defined.

(** A gift is paid with Telebirr coins only: it succeeds exactly when the
    giftable balance covers it, takes the whole amount from that bucket and
    leaves every non-giftable coin where it was; otherwise it raises -- with
    the bonus-coin explanation if and only if the user holds bonus coins --
    and nothing changes. *)
Theorem gift_spends_only_giftable self amount ty kw now w r :
  wallet_ok w → w_rows w !! u_user self = Some r → 0 < amount →
  ordinary_type ty = true →
  match spend_coins self amount ty true kw now w with
  | (inr (t, self'), w') =>
      amount <= giftable_balance r ∧ w_txs w' = w_txs w ++ [t]
      ∧ ∃ r', w_rows w' !! u_user self = Some r'
          ∧ giftable_balance r' = giftable_balance r - amount
          ∧ non_giftable_balance r' = non_giftable_balance r
          ∧ u_earned r' = u_earned r ∧ u_bonus r' = u_bonus r ∧ u_airtime r' = u_airtime r
  | (inl e, w') =>
      giftable_balance r < amount ∧ w' = w
      ∧ e = ValueError (if u_bonus r >? 0
                        then bonus_not_giftable_msg (giftable_balance r) (u_bonus r) amount
                        else insufficient_giftable_msg (giftable_balance r) amount)
  end.
Proof.
  intros [Hrows _] Hr Hp Hty. destruct (Hrows _ _ Hr) as (Hu & Hok & _).
  rewrite spend_coins_eq. unfold spend_method.
  rewrite (locked_method_run _ _ _ _ _ _ _ r); auto using clash_ordinary.
  unfold decide_spend, spend_giftable.
  destruct (Z.ltb_spec (giftable_balance r) amount) as [Hlt|Hge].
  - autorewrite with pyint. destruct r as [ru b e t a bo p te ts tp tt ta tb tw up]. cbn in *.
    destruct (bo >? 0); cbn; done.
  - destruct r as [ru b e t a bo p te ts tp tt ta tb tw up]. cbn in *. subst ru.
    split; [lia|]. split; [done|].
    eexists. split; [cbn; rewrite lookup_alter_eq, Hr; reflexivity|].
    unfold save_fields, giftable_balance, non_giftable_balance. cbn. autorewrite with pyint. lia.
Qed.

Lemma gift_spends_only_giftable_witness :
  ∃ e, spend_coins stale7 101 "gift_sent" true no_kwargs 9 example_wallet
         = (inl e, example_wallet) ∧ 100 < 101.
Proof.
  assert (Hok : wallet_ok example_wallet)
    by (apply reachable_ok, reachable_steps, rtc_refl).
  destruct (w_rows example_wallet !! 7) as [r|] eqn:Hr; [|vm_compute in Hr; discriminate].
  pose proof (gift_spends_only_giftable stale7 101 "gift_sent" no_kwargs 9 example_wallet r Hok Hr
                ltac:(lia) eq_refl) as H.
  vm_compute in Hr. injection Hr as <-.
  destruct (spend_coins stale7 101 "gift_sent" true no_kwargs 9 example_wallet) as [[e|[t self']] w'] eqn:E.
  - exists e. destruct H as (H & -> & _). split; [reflexivity|exact H].
  - exfalso. destruct H as (H & _). apply H. reflexivity.
Defined.

Lemma exec_err self now o w e w' : exec self now o w = (inl e, w') → w' = w.
Proof.
  destruct o; cbn; intros H; apply bind_err in H as [H|(? & ? & _ & [=])].
  - exfalso. destruct (get_or_create_spec user now w) as (? & ? & Hg & _). congruence.
  - rewrite add_earned_eq in H. by eapply locked_method_err.
  - rewrite add_bonus_eq in H. by eapply locked_method_err.
  - rewrite add_purchased_eq in H. by eapply locked_method_err.
  - unfold add_coins in H. case_match; [rewrite add_purchased_eq in H|rewrite add_earned_eq in H];
      by eapply locked_method_err.
  - rewrite spend_coins_eq in H. by eapply locked_method_err.
  - destruct (bucket_field bucket) as [field|] eqn:Hf.
    + rewrite (deduct_from_bucket_eq _ _ field) in H by done. by eapply locked_method_err.
    + unfold deduct_from_bucket in H. rewrite Hf in H.
      apply bind_err in H as [H|(? & ? & Hp & H)].
      * by apply assert_or_err in H as (_ & _ & ->).
      * apply assert_or_ok in Hp as [_ ->]. by injection H as _ <-.
  - rewrite withdraw_to_birr_eq in H. by eapply locked_method_err.
Qed.

Lemma discard_ext {A} (m1 m2 : M wallet A) w :
  m1 w = m2 w → (m1 ≫= λ _, mret tt) w = (m2 ≫= λ _ : A, mret tt) w.
Proof. intros H. by rewrite !bind_run, H. Qed.

(** What a method leaves in the store, and whether it raised, read nothing of
    the caller's copy but its key. *)
Lemma locked_method_self self1 self2 amount decide cs mk now w :
  u_user self1 = u_user self2 →
  (locked_method self1 amount decide cs mk now ≫= λ _, mret tt) w
  = (locked_method self2 amount decide cs mk now ≫= λ _, mret tt) w.
Proof.
  intros Hs. unfold locked_method, refresh. rewrite Hs, !bind_run.
  destruct (positive_amount amount w) as [[?|?] w1]; [done|]. rewrite !bind_run.
  by destruct (locked_txn (u_user self2) decide cs mk now w1) as [[?|[? ?]] ?].
Qed.

Lemma exec_self self1 self2 now o w :
  u_user self1 = u_user self2 → exec self1 now o w = exec self2 now o w.
Proof.
  intros Hs. destruct o; cbn; [done|..].
  - rewrite !add_earned_eq. by apply locked_method_self.
  - rewrite !add_bonus_eq. by apply locked_method_self.
  - rewrite !add_purchased_eq. by apply locked_method_self.
  - unfold add_coins. case_match; [rewrite !add_purchased_eq|rewrite !add_earned_eq];
      by apply locked_method_self.
  - rewrite !(discard_ext _ _ w (spend_coins_eq _ amount ty restrict kw now w)).
    by apply locked_method_self.
  - destruct (bucket_field bucket) as [field|] eqn:Hf.
    + rewrite !(discard_ext _ _ w (deduct_from_bucket_eq _ bucket field amount ty kw now w Hf)).
      by apply locked_method_self.
    + unfold deduct_from_bucket. by rewrite Hf.
  - rewrite !(discard_ext _ _ w (withdraw_to_birr_eq _ amount now w)).
    by apply locked_method_self.
Qed.

(** No lost updates and no partial writes: what an operation does to the
    store does not depend on the caller's in-memory copy of the row (only on
    its key), and an operation that raises leaves the store exactly as it
    was. *)
Theorem stale_copies_and_errors_harmless self1 self2 now o w :
  u_user self1 = u_user self2 →
  exec self1 now o w = exec self2 now o w
  ∧ (∀ e w', exec self1 now o w = (inl e, w') → w' = w).
Proof. split; [by apply exec_self|]. intros e w'. apply exec_err. Qed.

Lemma stale_copies_and_errors_harmless_witness :
  (exec stale7 3 (OpSpend 1000 "boost" false no_kwargs) example_wallet).2 = example_wallet.
Proof.
  destruct (stale_copies_and_errors_harmless stale7
    (Ucb 7 999 999 999 999 999 999 0 0 0 0 0 0 0 0) 3
    (OpSpend 1000 "boost" false no_kwargs) example_wallet eq_refl) as [Heq Herr].
  destruct (exec stale7 3 (OpSpend 1000 "boost" false no_kwargs) example_wallet)
    as [[e|[]] w'] eqn:E.
  - exact (Herr e w' eq_refl).
  - vm_compute in E. discriminate.
Defined.

End CoinBalance.
