(* ===== verification/WalletConfig.v ===== *)
(** * WalletConfig: the coin economy's settings

    Models [WalletConfig] of [src/api/models/wallet.py]: the singleton row,
    with the defaults it is created with, and its conversions between coins,
    points and birr.  Two-place decimal columns are in cents (for
    [withdrawal_fee_percent], hundredths of a percent). *)

From Stdlib Require Import ZArith Lia.
From S2P Require Import Prelude Decimal.

Module WalletConfig.

Record config := Config {
  welcome_bonus : Z;
  daily_login_day1 : Z;
  daily_login_day2 : Z;
  daily_login_day3 : Z;
  daily_login_day4 : Z;
  daily_login_day5 : Z;
  daily_login_day6 : Z;
  daily_login_day7 : Z;
  daily_post_bonus : Z;
  campaign_join_reward : Z;
  receive_like_reward : Z;
  receive_like_daily_cap : Z;
  quality_comment_reward : Z;
  quality_comment_daily_cap : Z;
  profile_complete_reward : Z;
  referral_reward : Z;
  campaign_winner_reward : Z;
  max_like_reward : Z;
  max_comment_reward : Z;
  max_share_reward : Z;
  max_gift_reward : Z;
  cost_post_create : Z;
  cost_like : Z;
  cost_comment : Z;
  cost_share : Z;
  cost_gift : Z;
  cost_join_campaign : Z;
  cost_extra_campaign_entry : Z;
  cost_boost_1hr : Z;
  cost_boost_2hr : Z;
  cost_boost_24hr : Z;
  cost_trending_1hr : Z;
  cost_trending_24hr : Z;
  cost_post_create_long_video : Z;
  cost_post_create_non_campaign : Z;
  cost_like_non_campaign : Z;
  cost_comment_non_campaign : Z;
  cost_share_non_campaign : Z;
  cost_gift_non_campaign : Z;
  cost_boost_1hr_non_campaign : Z;
  cost_boost_2hr_non_campaign : Z;
  cost_boost_24hr_non_campaign : Z;
  cost_trending_1hr_non_campaign : Z;
  cost_trending_24hr_non_campaign : Z;
  cost_post_create_long_video_non_campaign : Z;
  min_balance_to_post : Z;
  min_balance_to_join_campaign : Z;
  custom_purchase_min_etb : Z;
  custom_purchase_max_etb : Z;
  withdrawal_enabled : bool;
  withdrawal_min_coins : Z;
  withdrawal_max_coins_per_request : Z;
  coins_per_birr : Z;
  withdrawal_fee_percent : Z;
  withdrawal_processing_days : Z;
  coins_to_points_conversion : Z;
  points_per_birr : Z;
  withdrawal_min_points : Z;
  withdrawal_max_points_per_request : Z;
  daily_winner_points : Z;
  weekly_winner_points : Z;
  monthly_winner_points : Z;
  grand_finalist_points : Z;
  grand_winner_points : Z;
  earned_coins_giftable : bool;
  purchased_coins_giftable : bool;
  earned_coins_withdrawable : bool;
  purchased_coins_withdrawable : bool;
  gift_min_points_per_transaction : Z;
  gift_max_points_per_transaction : Z;
  gift_max_points_to_recipient_per_day : Z;
  gift_max_total_points_sent_per_day : Z;
  earned_coins_expire_days : Z;
  updated_at : Z;
  updated_by : option Z
}.

(** The row [get_or_create(pk=1)] creates. *)
Definition default_config (now : Z) : config := {|
  welcome_bonus := 100;
  daily_login_day1 := 5;
  daily_login_day2 := 10;
  daily_login_day3 := 15;
  daily_login_day4 := 20;
  daily_login_day5 := 25;
  daily_login_day6 := 30;
  daily_login_day7 := 50;
  daily_post_bonus := 20;
  campaign_join_reward := 30;
  receive_like_reward := 1;
  receive_like_daily_cap := 100;
  quality_comment_reward := 2;
  quality_comment_daily_cap := 20;
  profile_complete_reward := 50;
  referral_reward := 100;
  campaign_winner_reward := 500;
  max_like_reward := 10;
  max_comment_reward := 20;
  max_share_reward := 50;
  max_gift_reward := 100;
  cost_post_create := 2;
  cost_like := 1;
  cost_comment := 2;
  cost_share := 5;
  cost_gift := 0;
  cost_join_campaign := 50;
  cost_extra_campaign_entry := 100;
  cost_boost_1hr := 100;
  cost_boost_2hr := 200;
  cost_boost_24hr := 800;
  cost_trending_1hr := 150;
  cost_trending_24hr := 1200;
  cost_post_create_long_video := 98;
  cost_post_create_non_campaign := 2;
  cost_like_non_campaign := 1;
  cost_comment_non_campaign := 2;
  cost_share_non_campaign := 5;
  cost_gift_non_campaign := 0;
  cost_boost_1hr_non_campaign := 100;
  cost_boost_2hr_non_campaign := 200;
  cost_boost_24hr_non_campaign := 800;
  cost_trending_1hr_non_campaign := 150;
  cost_trending_24hr_non_campaign := 1200;
  cost_post_create_long_video_non_campaign := 98;
  min_balance_to_post := 0;
  min_balance_to_join_campaign := 50;
  custom_purchase_min_etb := 100;
  custom_purchase_max_etb := 100000;
  withdrawal_enabled := true;
  withdrawal_min_coins := 1000;
  withdrawal_max_coins_per_request := 100000;
  coins_per_birr := 100;
  withdrawal_fee_percent := 2000;
  withdrawal_processing_days := 3;
  coins_to_points_conversion := 1;
  points_per_birr := 10;
  withdrawal_min_points := 1000;
  withdrawal_max_points_per_request := 50000;
  daily_winner_points := 500;
  weekly_winner_points := 2000;
  monthly_winner_points := 10000;
  grand_finalist_points := 5000;
  grand_winner_points := 50000;
  earned_coins_giftable := false;
  purchased_coins_giftable := true;
  earned_coins_withdrawable := true;
  purchased_coins_withdrawable := false;
  gift_min_points_per_transaction := 10;
  gift_max_points_per_transaction := 5000;
  gift_max_points_to_recipient_per_day := 5000;
  gift_max_total_points_sent_per_day := 10000;
  earned_coins_expire_days := 0;
  updated_at := now;
  updated_by := None
|}.

(** The table holds at most the row with [pk=1], because [save] forces it. *)
Definition config_table : Type := option config.

(** [WalletConfig.get_config]. *)
Definition get_config (now : Z) : M config_table config :=
  t ← Prelude.get;
  match t with
  | Some c => mret c
  | None => put (Some (default_config now)) ≫= λ _, mret (default_config now)
  end.

(** [WalletConfig.save]. *)
Definition save (c : config) : M config_table unit := put (Some c).

Definition coins_to_birr (c : config) (coins : Z) : dec :=
  if coins_per_birr c <=? 0 then of_int 0
  else dec_div (of_int coins) (of_int (coins_per_birr c)).

Definition points_to_birr (c : config) (points : Z) : dec :=
  if points_per_birr c <=? 0 then of_int 0
  else dec_div (of_int points) (of_int (points_per_birr c)).

Definition coins_to_points (c : config) (coins : Z) : Z :=
  if coins_to_points_conversion c <=? 0 then 0
  else coins / coins_to_points_conversion c.

(** The breakdown both withdrawal calculations return. *)
Record breakdown := Breakdown {
  b_amount : Z;
  gross_birr : dec;
  fee_birr : dec;
  net_birr : dec;
  fee_percent : dec
}.

Definition breakdown_of (c : config) (amount : Z) (gross : dec) : breakdown :=
  let fee := dec_mul gross (dec_div (of_cents (withdrawal_fee_percent c)) (of_int 100)) in
  Breakdown amount gross fee (dec_sub gross fee) (of_cents (withdrawal_fee_percent c)).

Definition calculate_withdrawal (c : config) (coins : Z) : breakdown :=
  breakdown_of c coins (coins_to_birr c coins).

Definition calculate_points_withdrawal (c : config) (points : Z) : breakdown :=
  breakdown_of c points (points_to_birr c points).

(** ** Properties *)

(** When [amount] converts to [m / 10^k] birr exactly, the fee and the net
    amount are exact too, for any fee between 0% and 100%. *)
Lemma breakdown_of_exact c amount gross k m :
  0 <= dexp gross + k → 0 <= k → at_scale k gross = m → 0 <= m < 10 ^ 20 →
  0 <= withdrawal_fee_percent c <= 10000 →
  let b := breakdown_of c amount gross in
  at_scale (k + 4) (gross_birr b) = m * 10 ^ 4
  ∧ at_scale (k + 4) (fee_birr b) = m * withdrawal_fee_percent c
  ∧ at_scale (k + 4) (net_birr b) = m * (10000 - withdrawal_fee_percent c).
Proof.
  intros Hg Hk Hm Hmb Hpct. unfold breakdown_of. cbn [gross_birr fee_birr net_birr].
  set (pct := withdrawal_fee_percent c) in *.
  destruct (dec_div_at_scale (of_cents pct) (of_int 100) pct 2) as [Hr Hrv];
    unfold of_cents, of_int in *; cbn [coef dexp] in *; try lia.
  { unfold prec. lia. }
  set (rate := dec_div _ _) in *. change (2 + 0 - -2) with 4 in *.
  assert (m * 10000 < 10 ^ prec) as Hbig.
  { unfold prec. lia. }
  destruct (dec_mul_exact gross rate k 4) as [Hf Hfv]; [done..| |].
  { rewrite Hm, Hrv, Z.abs_eq by nia. nia. }
  rewrite Hm, Hrv in Hfv.
  assert (at_scale (k + 4) gross = m * 10 ^ 4) as Hgv.
  { rewrite <- Hm. unfold at_scale.
    replace (dexp gross + (k + 4)) with ((dexp gross + k) + 4) by lia.
    rewrite Z.pow_add_r by lia. lia. }
  split_and!; [done..|].
  rewrite dec_sub_exact, Hfv, Hgv; [lia|lia|done|].
  rewrite Hfv, Hgv. change (10 ^ 4) with 10000. rewrite Z.abs_eq by nia. nia.
Qed.

(** A withdrawal's birr breakdown loses nothing: whenever the amount
    converts to a terminating decimal [m / 10^k], the gross is that value, the
    fee is exactly the configured percentage of it, and fee and net amount add
    up to the gross, neither of them negative -- for points and for coins. *)
Theorem withdrawal_breakdown_exact c amount rate k m :
  0 <= amount → 0 < rate → 0 <= k → 0 <= m < 10 ^ 20 → rate * m = amount * 10 ^ k →
  0 <= withdrawal_fee_percent c <= 10000 →
  let spec b :=
    at_scale (k + 4) (gross_birr b) = m * 10 ^ 4
    ∧ at_scale (k + 4) (fee_birr b) = m * withdrawal_fee_percent c
    ∧ at_scale (k + 4) (net_birr b) = m * (10000 - withdrawal_fee_percent c)
    ∧ at_scale (k + 4) (fee_birr b) + at_scale (k + 4) (net_birr b)
      = at_scale (k + 4) (gross_birr b) in
  (points_per_birr c = rate → spec (calculate_points_withdrawal c amount))
  ∧ (coins_per_birr c = rate → spec (calculate_withdrawal c amount)).
Proof.
  intros Ha Hr Hk Hm Hex Hpct spec.
  assert (Hb : spec (breakdown_of c amount (dec_div (of_int amount) (of_int rate)))).
  { destruct (dec_div_at_scale (of_int amount) (of_int rate) m k) as [Hd Hv];
      unfold of_int in *; cbn [coef dexp] in *; try lia.
    { unfold prec. lia. }
    replace (k + 0 - 0) with k in * by lia.
    destruct (breakdown_of_exact c amount (dec_div (Dec amount 0) (Dec rate 0)) k m)
      as (H1 & H2 & H3); try done.
    unfold spec. rewrite H1, H2, H3. split_and!; try done. lia. }
  assert (rate <=? 0 = false) as Hz by (by apply Z.leb_gt).
  split; intros E;
    [unfold calculate_points_withdrawal, points_to_birr|unfold calculate_withdrawal, coins_to_birr];
    rewrite E, Hz; exact Hb.
Qed.

(** 1,234 points at the default 10 points per birr and 20% fee: 123.4 birr
    gross, 24.68 fee, 98.72 net. *)
Lemma withdrawal_breakdown_exact_witness :
  let b := calculate_points_withdrawal (default_config 0) 1234 in
  at_scale 5 (gross_birr b) = 12340000 ∧ at_scale 5 (fee_birr b) = 2468000
  ∧ at_scale 5 (net_birr b) = 9872000.
Proof.
  destruct (withdrawal_breakdown_exact (default_config 0) 1234 10 1 1234
    ltac:(lia) ltac:(lia) ltac:(lia) ltac:(lia) eq_refl
    ltac:(change (0 <= 2000 <= 10000); lia)) as [H _].
  destruct (H eq_refl) as (H1 & H2 & H3 & _). cbn zeta.
  split; [exact H1|split; [exact H2|exact H3]].
Defined.

End WalletConfig.
