(* ===== verification/Points.v ===== *)
(** * Points: creator points and profile coins

    Models the balances of [UserProfile] in [src/api/models/core.py]
    ([_apply_delta] and the four methods over it) and their ledger
    [PointTransaction] in [src/api/models/wallet.py]. *)

From Stdlib Require Import ZArith Lia.
From S2P Require Import Prelude.

Module Points.

(** The balance and lifetime-total columns [_apply_delta] names. *)
Inductive pcol :=
| points | points_earned_total | points_withdrawn_total
| coins | coins_earned_total | coins_spent_total.

#[export] Instance pcol_eq_dec : EqDecision pcol.
Proof. solve_decision. Defined.

Record profile := Profile {
  p_user : Z;
  p_points : Z; p_points_earned : Z; p_points_withdrawn : Z;
  p_coins : Z; p_coins_earned : Z; p_coins_spent : Z;
  p_last_login_date : option Z;
  p_phone_number : string
}.

Definition new_profile (user : Z) : profile := Profile user 0 0 0 0 0 0 None "".

Definition getp (c : pcol) (p : profile) : Z :=
  match c with
  | points => p_points p | points_earned_total => p_points_earned p
  | points_withdrawn_total => p_points_withdrawn p
  | coins => p_coins p | coins_earned_total => p_coins_earned p
  | coins_spent_total => p_coins_spent p
  end.

Definition setp (c : pcol) (v : Z) (p : profile) : profile :=
  let '(Profile u po pe pw co ce cs ll ph) := p in
  match c with
  | points => Profile u v pe pw co ce cs ll ph
  | points_earned_total => Profile u po v pw co ce cs ll ph
  | points_withdrawn_total => Profile u po pe v co ce cs ll ph
  | coins => Profile u po pe pw v ce cs ll ph
  | coins_earned_total => Profile u po pe pw co v cs ll ph
  | coins_spent_total => Profile u po pe pw co ce v ll ph
  end.

Definition pcol_name (c : pcol) : string :=
  match c with
  | points => "points" | points_earned_total => "points_earned_total"
  | points_withdrawn_total => "points_withdrawn_total"
  | coins => "coins" | coins_earned_total => "coins_earned_total"
  | coins_spent_total => "coins_spent_total"
  end.

(** [PointTransaction]: positive points are a credit. *)
Record point_tx := PointTx {
  pt_user : Z;
  pt_type : string;
  pt_points : Z;
  pt_balance_after : Z;
  pt_description : string;
  pt_created_at : Z
}.

Record points_db := PointsDb {
  pd_profiles : gmap Z profile;
  pd_ledger : list point_tx
}.

Definition get_locked (user : Z) : M points_db profile :=
  d ← get;
  match pd_profiles d !! user with
  | Some p => mret p
  | None => raise (DoesNotExist "UserProfile")
  end.

(** [locked.save(update_fields=cs)]. *)
Definition save_fields (cs : list pcol) (mem : profile) (p : profile) : profile :=
  fold_right (λ c p, setp c (getp c mem) p) p cs.
#[global] Arguments save_fields : simpl never.

Definition save_profile (cs : list pcol) (mem : profile) : M points_db unit :=
  modify (λ d, PointsDb (alter (save_fields cs mem) (p_user mem) (pd_profiles d)) (pd_ledger d)).

Definition create_point_tx (t : point_tx) : M points_db unit :=
  modify (λ d, PointsDb (pd_profiles d) (pd_ledger d ++ [t])).

Definition set_opt (c : option pcol) (f : Z → Z) (p : profile) : profile :=
  match c with Some c => setp c (f (getp c p)) p | None => p end.

(** [_apply_delta]; the result is [self] with the columns it refreshed. *)
Definition apply_delta (self : profile) (field : pcol) (delta : Z)
    (total_field : option pcol) (reason : option string) (description : string)
    (now : Z) : M points_db profile :=
  if delta =? 0 then raise (ValueError "delta must not be zero")
  else
    locked ← atomic (
      locked ← get_locked (p_user self);
      let current := or_int (getp field locked) 0 in
      let new_value := current + delta in
      if new_value <? 0
      then raise (ValueError ("Insufficient " +:+ pcol_name field +:+ ". Have "
                    +:+ str_int current +:+ ", need " +:+ str_int (- delta)))
      else
        let locked := setp field new_value locked in
        let locked := set_opt total_field (λ v, or_int v 0 + Z.abs delta) locked in
        save_profile (field :: option_list total_field) locked ≫= λ _,
        when (bool_decide (field = points))
          (create_point_tx (PointTx (p_user locked)
             (or_str (default "" reason) "admin_adjustment") delta new_value description now))
        ≫= λ _, mret locked);
    let self := setp field (getp field locked) self in
    mret (match total_field with
          | Some c => setp c (getp c locked) self
          | None => self
          end).

Definition positive_amount (amount : Z) : M points_db unit :=
  assert_or (negb (amount <=? 0)) (ValueError "Amount must be positive").

Definition add_points (self : profile) (amount : Z) (total_field : option pcol)
    (reason : option string) (description : string) (now : Z) : M points_db profile :=
  positive_amount amount ≫= λ _,
  apply_delta self points amount total_field reason description now.

Definition deduct_points (self : profile) (amount : Z) (total_field : option pcol)
    (reason : option string) (description : string) (now : Z) : M points_db profile :=
  positive_amount amount ≫= λ _,
  apply_delta self points (- amount) total_field reason description now.

(** [add_coins] and [deduct_coins], with their default totals. *)
Definition add_coins (self : profile) (amount now : Z) : M points_db profile :=
  positive_amount amount ≫= λ _,
  apply_delta self coins amount (Some coins_earned_total) None "" now.

Definition deduct_coins (self : profile) (amount now : Z) : M points_db profile :=
  positive_amount amount ≫= λ _,
  apply_delta self coins (- amount) (Some coins_spent_total) None "" now.

(** ** The ledger invariant *)

Definition ledger_of (user : Z) (ts : list point_tx) : list point_tx :=
  filter (λ t, pt_user t = user) ts.
#[global] Arguments ledger_of : simpl never.

(** Each row's [balance_after] is the balance before it plus its points, and
    is never negative. *)
Fixpoint chain (b : Z) (ts : list point_tx) : Prop :=
  match ts with
  | [] => True
  | t :: ts' =>
      pt_balance_after t = b + pt_points t ∧ 0 <= pt_balance_after t
      ∧ chain (pt_balance_after t) ts'
  end.

Definition profile_ok (d : points_db) (u : Z) (p : profile) : Prop :=
  p_user p = u ∧ 0 <= p_points p ∧ 0 <= p_coins p
  ∧ chain 0 (ledger_of u (pd_ledger d))
  ∧ p_points p = sumZ pt_points (ledger_of u (pd_ledger d)).

Definition points_ok (d : points_db) : Prop :=
  (∀ u p, pd_profiles d !! u = Some p → profile_ok d u p)
  ∧ (∀ u, pd_profiles d !! u = None → ledger_of u (pd_ledger d) = []).

Lemma chain_snoc b ts t :
  chain b ts → pt_balance_after t = b + sumZ pt_points ts + pt_points t →
  0 <= pt_balance_after t → chain b (ts ++ [t]).
Proof.
  revert b. induction ts as [|t' ts IH]; intros b; cbn [app chain].
  - rewrite sumZ_nil. intros _ H1 H2. split_and!; [lia|done|done].
  - rewrite sumZ_cons. intros (H1 & H2 & H3) H4 H5. split_and!; [done..|].
    apply IH; [done| |done]. lia.
Qed.

Lemma points_ledger_snoc u ts t :
  ledger_of u (ts ++ [t]) = ledger_of u ts ++ (if decide (pt_user t = u) then [t] else []).
Proof. unfold ledger_of. rewrite filter_app. f_equal. Qed.

(** The two kinds of store change: a profile update that leaves points (and
    the owner) alone, and a points movement with its ledger row. *)
Lemma points_ok_update d u p p' :
  points_ok d → pd_profiles d !! u = Some p →
  p_user p' = u → p_points p' = p_points p → 0 <= p_coins p' →
  points_ok (PointsDb (<[u := p']> (pd_profiles d)) (pd_ledger d)).
Proof.
  intros [Hp Hn] Hu Hus Hpts Hc. split; cbn; intros v.
  - intros q. destruct (decide (v = u)) as [->|Hne].
    + rewrite lookup_insert_eq. intros [= <-]. destruct (Hp _ _ Hu) as (_ & ? & _ & ? & ?).
      split_and!; cbn; [done|lia|done|done|lia].
    + rewrite lookup_insert_ne by done. apply Hp.
  - destruct (decide (v = u)) as [->|Hne]; [by rewrite lookup_insert_eq|].
    rewrite lookup_insert_ne by done. apply Hn.
Qed.

Lemma points_ok_move d u p p' t :
  points_ok d → pd_profiles d !! u = Some p →
  p_user p' = u → 0 <= p_coins p' → pt_user t = u →
  p_points p' = p_points p + pt_points t → pt_balance_after t = p_points p' →
  0 <= p_points p' →
  points_ok (PointsDb (<[u := p']> (pd_profiles d)) (pd_ledger d ++ [t])).
Proof.
  intros [Hp Hn] Hu Hus Hc Ht Hpts Hba Hpos. split; cbn; intros v.
  - intros q. destruct (decide (v = u)) as [->|Hne].
    + rewrite lookup_insert_eq. intros [= <-]. destruct (Hp _ _ Hu) as (_ & ? & _ & Hch & Hs).
      unfold profile_ok. cbn [pd_ledger]. rewrite points_ledger_snoc, decide_True by done.
      autorewrite with sums. split_and!; [done..| |lia].
      apply chain_snoc; [done|lia|lia].
    + rewrite lookup_insert_ne by done. intros Hq.
      unfold profile_ok. cbn [pd_ledger]. rewrite points_ledger_snoc, decide_False by congruence.
      rewrite app_nil_r. by apply Hp.
  - destruct (decide (v = u)) as [->|Hne]; [by rewrite lookup_insert_eq|].
    rewrite lookup_insert_ne by done. intros Hv.
    rewrite points_ledger_snoc, (Hn _ Hv), decide_False by congruence. done.
Qed.

Lemma alter_lookup_insert {V} (f : V → V) (m : gmap Z V) k v :
  m !! k = Some v → alter f k m = <[k := f v]> m.
Proof.
  intros H. apply map_eq. intros i. destruct (decide (i = k)) as [->|].
  - by rewrite lookup_alter_eq, lookup_insert_eq, H.
  - by rewrite lookup_alter_ne, lookup_insert_ne.
Qed.

(** [_apply_delta] at a profile that exists, in one equation. *)
Definition applied (field : pcol) (delta : Z) (total_field : option pcol) (p : profile) : profile :=
  let locked := set_opt total_field (λ v, or_int v 0 + Z.abs delta)
                  (setp field (getp field p + delta) p) in
  save_fields (field :: option_list total_field) locked p.

Definition delta_ledger (u : Z) (field : pcol) (delta : Z) (reason : option string)
    (description : string) (now new_value : Z) : list point_tx :=
  if bool_decide (field = points)
  then [PointTx u (or_str (default "" reason) "admin_adjustment") delta new_value description now]
  else [].

Lemma apply_delta_run self field delta total reason description now d p :
  pd_profiles d !! p_user self = Some p → p_user p = p_user self →
  (apply_delta self field delta total reason description now d).2
  = (if (delta =? 0) || (getp field p + delta <? 0) then d
     else PointsDb (<[p_user self := applied field delta total p]> (pd_profiles d))
            (pd_ledger d ++ delta_ledger (p_user self) field delta reason description now
                               (getp field p + delta)))
  ∧ (is_Some (match (apply_delta self field delta total reason description now d).1 with
              | inl _ => None | inr x => Some x end)
     ↔ (delta =? 0) || (getp field p + delta <? 0) = false).
Proof.
  intros Hp Hu. unfold apply_delta. destruct (delta =? 0); cbn [orb].
  { cbn. split; [done|]. split; [by intros []|done]. }
  rewrite bind_run. unfold atomic. rewrite bind_run.
  assert (get_locked (p_user self) d = (inr p, d)) as ->
    by (unfold get_locked; rewrite bind_run; cbn; by rewrite Hp).
  rewrite or_int_0. destruct (getp field p + delta <? 0).
  { cbn. split; [done|]. split; [by intros []|done]. }
  rewrite bind_run. cbn [save_profile modify]. unfold save_profile, modify.
  assert (p_user (set_opt total (λ v, or_int v 0 + Z.abs delta)
            (setp field (getp field p + delta) p)) = p_user self) as Hown.
  { rewrite <- Hu. destruct p, field, total as [[]|]; reflexivity. }
  rewrite Hown, (alter_lookup_insert _ _ _ p) by done.
  unfold delta_ledger, when. rewrite bind_run.
  destruct (bool_decide (field = points)); cbn; (split; [|done]); [done|].
  by rewrite app_nil_r.
Qed.

(** The same as a rule for [add_points] of a positive amount. *)
Lemma post_add_points self amount total reason description now d p (Q : exn + profile → points_db → Prop) :
  pd_profiles d !! p_user self = Some p → p_user p = p_user self →
  (∀ e, Q (inl e) d) →
  (∀ x, 0 < amount →
     Q (inr x) (PointsDb (<[p_user self := applied points amount total p]> (pd_profiles d))
                  (pd_ledger d ++ delta_ledger (p_user self) points amount reason description now
                                    (p_points p + amount)))) →
  post (add_points self amount total reason description now) d Q.
Proof.
  intros Hp Hu Herr Hok. unfold add_points, positive_amount, assert_or. advance; [|apply Herr].
  apply negb_true_iff, Z.leb_gt in Heqb.
  destruct (apply_delta_run self points amount total reason description now d p Hp Hu) as [H2 H1].
  unfold post. cbn [getp] in H1, H2. rewrite H2.
  destruct (apply_delta _ _ _ _ _ _ _ _) as [[e|x] d']; cbn [fst snd] in *.
  - destruct ((amount =? 0) || (p_points p + amount <? 0)); [apply Herr|]. by destruct (proj2 H1 eq_refl) as [? [=]].
  - destruct ((amount =? 0) || (p_points p + amount <? 0)); [discriminate (proj1 H1 (mk_is_Some _ _ eq_refl))|].
    by apply Hok.
Qed.

Lemma apply_delta_preserves self field delta total reason description now :
  field = points ∨ field = coins → total ≠ Some points → total ≠ Some coins →
  preserves points_ok (apply_delta self field delta total reason description now).
Proof.
  intros Hf Ht1 Ht2 d Hd. destruct (pd_profiles d !! p_user self) as [p|] eqn:Hp.
  - destruct (proj1 Hd _ _ Hp) as (Hu & Hpt & Hc & _).
    destruct (apply_delta_run self field delta total reason description now d p) as [-> _];
      [done..|].
    destruct ((delta =? 0) || (getp field p + delta <? 0)) eqn:E; [done|]. bool_prop.
    unfold delta_ledger. destruct Hf as [-> | ->].
    + rewrite bool_decide_true by done.
      apply (points_ok_move d _ p); try done; destruct p, total as [[]|]; cbn in *; done || lia.
    + rewrite bool_decide_false by done. rewrite app_nil_r.
      apply (points_ok_update d _ p); try done; destruct p, total as [[]|]; cbn in *; done || lia.
  - unfold apply_delta. destruct (delta =? 0); [done|].
    rewrite bind_run. unfold atomic. rewrite bind_run.
    assert (get_locked (p_user self) d = (inl (DoesNotExist "UserProfile"), d)) as ->
      by (unfold get_locked; rewrite bind_run; cbn; by rewrite Hp).
    done.
Qed.

(** What a points movement does to the store, on both of its outcomes. *)
Lemma apply_delta_points self delta total reason description now d :
  points_ok d →
  let r := apply_delta self points delta total reason description now d in
  ((∃ e, r.1 = inl e) ∧ r.2 = d) ∨
  ((∃ p, r.1 = inr p)
   ∧ is_Some (pd_profiles r.2 !! p_user self)
   ∧ (∀ u, is_Some (pd_profiles d !! u) → is_Some (pd_profiles r.2 !! u))
   ∧ ∃ v, pd_ledger r.2 = pd_ledger d ++
       [PointTx (p_user self) (or_str (default "" reason) "admin_adjustment") delta v
          description now]).
Proof.
  intros Hd r. destruct (pd_profiles d !! p_user self) as [p|] eqn:Hp.
  - destruct (proj1 Hd _ _ Hp) as (Hu & _).
    destruct (apply_delta_run self points delta total reason description now d p)
      as [H2 H1]; [done..|]. fold r in H1, H2.
    destruct ((delta =? 0) || (getp points p + delta <? 0)).
    + left. split; [|done]. destruct r.1 as [e|q]; [eauto|].
      discriminate (proj1 H1 (mk_is_Some _ q eq_refl)).
    + right. rewrite H2. cbn. split_and!.
      * destruct r.1 as [e|q]; [|eauto]. destruct (proj2 H1 eq_refl) as [? [=]].
      * rewrite lookup_insert_eq. eauto.
      * intros u Hs. destruct (decide (u = p_user self)) as [->|].
        -- rewrite lookup_insert_eq. eauto.
        -- by rewrite lookup_insert_ne.
      * eauto.
  - left. unfold r, apply_delta. destruct (delta =? 0); [cbn; eauto|].
    rewrite bind_run. unfold atomic. rewrite bind_run.
    assert (get_locked (p_user self) d = (inl (DoesNotExist "UserProfile"), d)) as ->
      by (unfold get_locked; rewrite bind_run; cbn; by rewrite Hp).
    cbn. eauto.
Qed.

(** A credit to an existing profile always goes through. *)
Lemma apply_delta_credit self delta total reason description now d p :
  points_ok d → pd_profiles d !! p_user self = Some p → 0 < delta →
  ∃ q, (apply_delta self points delta total reason description now d).1 = inr q.
Proof.
  intros Hd Hp Hpos. destruct (proj1 Hd _ _ Hp) as (Hu & Hnn & _).
  destruct (apply_delta_run self points delta total reason description now d p)
    as [_ H1]; [done..|].
  destruct ((apply_delta self points delta total reason description now d).1) as [e|q]; [|eauto].
  assert (is_Some (@None profile)) as [? [=]]. apply H1. cbn.
  apply orb_false_iff. split; [apply Z.eqb_neq|apply Z.ltb_ge]; lia.
Qed.

(** The totals the code passes. *)
Definition total_allowed (t : option pcol) : Prop := t ≠ Some points ∧ t ≠ Some coins.

Lemma guarded_preserves amount (m : M points_db profile) :
  preserves points_ok m → preserves points_ok (positive_amount amount ≫= λ _, m).
Proof.
  intros Hm d Hd. rewrite bind_run. unfold positive_amount, assert_or.
  destruct (negb (amount <=? 0)); cbn; [by apply Hm|done].
Qed.

Lemma add_points_preserves self n t r de now :
  total_allowed t → preserves points_ok (add_points self n t r de now).
Proof. intros []. by apply guarded_preserves, apply_delta_preserves; [left|..]. Qed.
Lemma deduct_points_preserves self n t r de now :
  total_allowed t → preserves points_ok (deduct_points self n t r de now).
Proof. intros []. by apply guarded_preserves, apply_delta_preserves; [left|..]. Qed.
Lemma add_coins_preserves self n now : preserves points_ok (add_coins self n now).
Proof. by apply guarded_preserves, apply_delta_preserves; [right|..]. Qed.
Lemma deduct_coins_preserves self n now : preserves points_ok (deduct_coins self n now).
Proof. by apply guarded_preserves, apply_delta_preserves; [right|..]. Qed.

#[export] Hint Resolve add_points_preserves deduct_points_preserves
  add_coins_preserves deduct_coins_preserves : prog.

End Points.
