(* ===== verification/Withdrawal.v ===== *)
(** * Withdrawal: points to birr, and back

    Models [WithdrawalRequest] of [src/api/models/wallet.py] and the handlers
    that move it: [request_withdrawal], [reinvest_points],
    [cancel_withdrawal], [admin_withdrawal_action] and [admin_adjust_balance]
    of [src/api/views/wallet.py], and the withdrawal branch of the B2C result
    webhook of [src/api/views/direct_debit.py].

    The Telebirr call inside [request_withdrawal] runs outside any lock, so
    the handler is two transactions with the call's answer, an argument here,
    between them: [request_create] and [request_finish].  Any other handler may
    run in that gap. *)

From Stdlib Require Import ZArith Lia.
From S2P Require Import Prelude Decimal WalletConfig CoinBalance Points.

Module Withdrawal.
Import WalletConfig.

Inductive wstatus := pending | approved | processing | completed | rejected | cancelled | failed.

#[export] Instance wstatus_eq_dec : EqDecision wstatus.
Proof. solve_decision. Defined.

Definition status_str (s : wstatus) : string :=
  match s with
  | pending => "pending" | approved => "approved" | processing => "processing"
  | completed => "completed" | rejected => "rejected" | cancelled => "cancelled"
  | failed => "failed"
  end.

Record withdrawal := Wd {
  wd_id : Z;
  wd_user : Z;
  wd_coin_amount : Z;
  wd_point_amount : Z;
  wd_gross : dec; wd_fee : dec; wd_net : dec;
  wd_conversion_rate : Z;
  wd_payout_method : string;
  wd_payout_account : string;
  wd_payout_account_name : string;
  wd_status : wstatus;
  wd_admin_notes : string;
  wd_rejection_reason : string;
  wd_payout_reference : string;
  wd_originator : string;
  wd_conversation : string;
  wd_telebirr_tx : string;
  wd_created_at : Z;
  wd_reviewed_at : option Z;
  wd_reviewed_by : option Z;
  wd_completed_at : option Z
}.

Definition payout_methods : list string := ["telebirr"; "bank_transfer"; "cbe_birr"; "mpesa"].

Record store := Store {
  s_config : config_table;
  s_points : Points.points_db;
  s_coins : CoinBalance.wallet;
  s_withdrawals : gmap Z withdrawal;
  s_next_id : Z
}.

Definition in_points {A} : M Points.points_db A → M store A :=
  zoom s_points (λ p s, Store (s_config s) p (s_coins s) (s_withdrawals s) (s_next_id s)).
Definition in_coins {A} : M CoinBalance.wallet A → M store A :=
  zoom s_coins (λ c s, Store (s_config s) (s_points s) c (s_withdrawals s) (s_next_id s)).
Definition in_config {A} : M config_table A → M store A :=
  zoom s_config (λ c s, Store c (s_points s) (s_coins s) (s_withdrawals s) (s_next_id s)).

(** The partial unique constraint on [originator_conversation_id]. *)
Definition originator_clash (w : withdrawal) (rows : gmap Z withdrawal) : bool :=
  negb (String.eqb (wd_originator w) "")
  && existsb (λ kw, negb (kw.1 =? wd_id w) && String.eqb (wd_originator kw.2) (wd_originator w))
       (map_to_list rows).

Definition put_withdrawal (w : withdrawal) (s : store) : store :=
  Store (s_config s) (s_points s) (s_coins s) (<[wd_id w := w]> (s_withdrawals s)) (s_next_id s).

Definition save_withdrawal (w : withdrawal) : M store unit :=
  s ← get;
  if originator_clash w (s_withdrawals s)
  then raise (IntegrityError "uniq_withdrawal_originator_conversation_id")
  else put (put_withdrawal w s).

Definition get_withdrawal (id : Z) : M store (option withdrawal) :=
  gets (λ s, s_withdrawals s !! id).

Definition profile_of (user : Z) : M store Points.profile :=
  in_points (Points.get_locked user).

(** ** Setters for the columns the handlers assign *)

Definition set_status (st : wstatus) (w : withdrawal) : withdrawal :=
  Wd (wd_id w) (wd_user w) (wd_coin_amount w) (wd_point_amount w) (wd_gross w) (wd_fee w)
    (wd_net w) (wd_conversion_rate w) (wd_payout_method w) (wd_payout_account w)
    (wd_payout_account_name w) st (wd_admin_notes w) (wd_rejection_reason w)
    (wd_payout_reference w) (wd_originator w) (wd_conversation w) (wd_telebirr_tx w)
    (wd_created_at w) (wd_reviewed_at w) (wd_reviewed_by w) (wd_completed_at w).

Definition set_review (at_ : option Z) (by_ : option Z) (w : withdrawal) : withdrawal :=
  Wd (wd_id w) (wd_user w) (wd_coin_amount w) (wd_point_amount w) (wd_gross w) (wd_fee w)
    (wd_net w) (wd_conversion_rate w) (wd_payout_method w) (wd_payout_account w)
    (wd_payout_account_name w) (wd_status w) (wd_admin_notes w) (wd_rejection_reason w)
    (wd_payout_reference w) (wd_originator w) (wd_conversation w) (wd_telebirr_tx w)
    (wd_created_at w) at_ by_ (wd_completed_at w).

Definition set_notes (notes reason : string) (w : withdrawal) : withdrawal :=
  Wd (wd_id w) (wd_user w) (wd_coin_amount w) (wd_point_amount w) (wd_gross w) (wd_fee w)
    (wd_net w) (wd_conversion_rate w) (wd_payout_method w) (wd_payout_account w)
    (wd_payout_account_name w) (wd_status w) notes reason
    (wd_payout_reference w) (wd_originator w) (wd_conversation w) (wd_telebirr_tx w)
    (wd_created_at w) (wd_reviewed_at w) (wd_reviewed_by w) (wd_completed_at w).

Definition set_payout (reference originator conversation telebirr_tx : string)
    (completed_at : option Z) (w : withdrawal) : withdrawal :=
  Wd (wd_id w) (wd_user w) (wd_coin_amount w) (wd_point_amount w) (wd_gross w) (wd_fee w)
    (wd_net w) (wd_conversion_rate w) (wd_payout_method w) (wd_payout_account w)
    (wd_payout_account_name w) (wd_status w) (wd_admin_notes w) (wd_rejection_reason w)
    reference originator conversation telebirr_tx
    (wd_created_at w) (wd_reviewed_at w) (wd_reviewed_by w) completed_at.

(** The two-place columns store their amounts rounded; the object in memory
    keeps what it was given. *)
Definition round_money (w : withdrawal) : withdrawal :=
  let cents d := of_cents (quantize2 d) in
  Wd (wd_id w) (wd_user w) (wd_coin_amount w) (wd_point_amount w) (cents (wd_gross w))
    (cents (wd_fee w)) (cents (wd_net w)) (wd_conversion_rate w) (wd_payout_method w)
    (wd_payout_account w) (wd_payout_account_name w) (wd_status w) (wd_admin_notes w)
    (wd_rejection_reason w) (wd_payout_reference w) (wd_originator w) (wd_conversation w)
    (wd_telebirr_tx w) (wd_created_at w) (wd_reviewed_at w) (wd_reviewed_by w) (wd_completed_at w).

(** ** Methods of [WithdrawalRequest] *)

Definition can_cancel (w : withdrawal) : bool := bool_decide (wd_status w = pending).

(** [mark_completed]. *)
Definition mark_completed (w : withdrawal) (admin : Z) (payout_reference : string) (now : Z)
    : M store withdrawal :=
  let w := set_status completed w in
  let w := set_review (wd_reviewed_at w) (Some admin) w in
  let w := set_payout (if String.eqb payout_reference "" then wd_payout_reference w
                       else payout_reference)
             (wd_originator w) (wd_conversation w) (wd_telebirr_tx w) (Some now) w in
  save_withdrawal w ≫= λ _, mret w.

(** [refund_to_user]: the points and coins put back. *)
Definition refund_to_user (w : withdrawal) (reason : string) (now : Z) : M store (Z * Z) :=
  let note := "Refund for " +:+ reason +:+ " withdrawal #" +:+ str_int (wd_id w) in
  pts ← (if wd_point_amount w =? 0 then mret 0
         else
           profile ← profile_of (wd_user w);
           in_points (Points.add_points profile (wd_point_amount w) None
                        (Some "withdrawal_refund") note now) ≫= λ _,
           mret (wd_point_amount w));
  cns ← (if wd_coin_amount w =? 0 then mret 0
         else
           balance ← in_coins (CoinBalance.get_or_create (wd_user w) now);
           in_coins (CoinBalance.add_earned balance (wd_coin_amount w) "refund"
                       (CoinBalance.descr note) now) ≫= λ _,
           mret (wd_coin_amount w));
  mret (pts, cns).

(** [mark_rejected]. *)
Definition mark_rejected (w : withdrawal) (admin : Z) (reason : string) (now : Z)
    : M store (Z * Z) :=
  let w := set_status rejected w in
  let w := set_review (Some now) (Some admin) w in
  let w := set_notes (wd_admin_notes w) reason w in
  save_withdrawal w ≫= λ _, refund_to_user w "rejected" now.

(** ** [request_withdrawal] *)

Record request_body := Body {
  q_point_amount : option Z;   (** [None] when [int(...)] would raise *)
  q_payout_method : string;
  q_payout_account : string;   (** already stripped *)
  q_payout_account_name : string
}.

(** The checks before any write, in the handler's order; the payout account
    they settle on. *)
Definition request_checks (c : config) (profile : Points.profile) (q : request_body)
    : response + (Z * string) :=
  if negb (withdrawal_enabled c) then inl (bad "Withdrawals are currently disabled")
  else match q_point_amount q with
  | None => inl (bad "Invalid point_amount")
  | Some amount =>
      let account :=
        if String.eqb (q_payout_method q) "telebirr" && String.eqb (q_payout_account q) ""
           && negb (String.eqb (Points.p_phone_number profile) "")
        then Points.p_phone_number profile else q_payout_account q in
      if amount <? withdrawal_min_points c
      then inl (bad ("Minimum withdrawal is " +:+ str_int (withdrawal_min_points c) +:+ " points"))
      else if amount >? withdrawal_max_points_per_request c
      then inl (bad ("Maximum per request is "
                       +:+ str_int (withdrawal_max_points_per_request c) +:+ " points"))
      else if negb (bool_decide (q_payout_method q ∈ payout_methods))
      then inl (bad "Invalid payout method")
      else if String.eqb account ""
      then inl (bad "payout_account is required (phone or bank account number)")
      else if Points.p_points profile <? amount
      then inl (bad ("Insufficient points. You have "
                       +:+ str_int (Points.p_points profile) +:+ " points."))
      else inr (amount, account)
  end.

(** The first transaction: deduct the points and create the request. *)
Definition request_create (user : Z) (q : request_body) (now : Z)
    : M store (response + withdrawal) :=
  c ← in_config (get_config now);
  profile ← profile_of user;
  match request_checks c profile q with
  | inl r => mret (inl r)
  | inr (amount, account) =>
      let b := calculate_points_withdrawal c amount in
      catch
        (atomic (
           in_points (Points.deduct_points profile amount
             (Some Points.points_withdrawn_total) (Some "withdrawal") "" now) ≫= λ _,
           id ← gets s_next_id;
           let w := Wd id user 0 amount (gross_birr b) (fee_birr b) (net_birr b)
             (points_per_birr c) (q_payout_method q) account (q_payout_account_name q)
             pending "" "" "" "" "" "" now None None None in
           modify (λ s, Store (s_config s) (s_points s) (s_coins s)
                          (<[id := round_money w]> (s_withdrawals s)) (id + 1)) ≫= λ _,
           mret (inr w)))
        (λ e, if is_value_error e then Some (mret (inl (bad (exn_str e)))) else None)
  end.

(** What [initiate_b2c_payment] answers. *)
Record b2c_result := B2c {
  b2c_success : bool;
  b2c_originator : string;
  b2c_conversation : string;
  b2c_error : string
}.

(** The MSISDN the payout is sent to. *)
Definition is_prefix (p s : string) : bool := String.prefix p s.
Fixpoint lstrip_zeros (s : string) : string :=
  match s with
  | String "0"%char s' => lstrip_zeros s'
  | _ => s
  end.
Definition receiver_msisdn (account : string) : string :=
  if is_prefix "251" account then account else "251" +:+ lstrip_zeros account.

(** The second transaction, once Telebirr has answered. *)
Definition request_finish (id : Z) (b : b2c_result) (now : Z) : M store response :=
  if b2c_success b then
    atomic (
      ow ← get_withdrawal id;
      match ow with
      | None => raise (DoesNotExist "WithdrawalRequest")
      | Some w =>
          let w := set_payout (wd_payout_reference w) (b2c_originator b) (b2c_conversation b)
                     (wd_telebirr_tx w) (wd_completed_at w) w in
          save_withdrawal (set_status processing w)
      end) ≫= λ _,
    mret (Resp 201 "Withdrawal request submitted successfully")
  else
    atomic (
      ow ← get_withdrawal id;
      match ow with
      | None => raise (DoesNotExist "WithdrawalRequest")
      | Some w =>
          if bool_decide (wd_status w = pending) then
            let w := set_notes (wd_admin_notes w) ("B2C payment failed: " +:+ b2c_error b)
                       (set_status failed w) in
            save_withdrawal w ≫= λ _, refund_to_user w "failed" now ≫= λ _, mret tt
          else mret tt
      end) ≫= λ _,
    mret (bad "B2C payment initiation failed").

(** The whole handler when nothing runs in between; [b2c] is the answer
    Telebirr gives for an MSISDN and a net amount. *)
Definition request_withdrawal (b2c : string → dec → b2c_result) (user : Z)
    (q : request_body) (now : Z) : M store response :=
  r ← request_create user q now;
  match r with
  | inl r => mret r
  | inr w =>
      if String.eqb (wd_payout_method w) "telebirr"
      then request_finish (wd_id w)
             (b2c (receiver_msisdn (wd_payout_account w)) (wd_net w)) now
      else mret (Resp 201 "Withdrawal request submitted successfully")
  end.

(** ** The other handlers *)

Definition cancel_withdrawal (user id now : Z) : M store response :=
  ow ← get_withdrawal id;
  match ow with
  | Some w0 =>
      if negb (wd_user w0 =? user) then mret (Resp 404 "Withdrawal request not found")
      else if negb (can_cancel w0)
      then mret (bad ("Cannot cancel a " +:+ status_str (wd_status w0) +:+ " withdrawal"))
      else
        r ← atomic (
          ow ← get_withdrawal id;
          match ow with
          | None => raise (DoesNotExist "WithdrawalRequest")
          | Some w =>
              if negb (can_cancel w)
              then mret (Some (bad ("Cannot cancel a " +:+ status_str (wd_status w)
                                      +:+ " withdrawal")))
              else
                let w := set_status cancelled w in
                save_withdrawal w ≫= λ _,
                refund_to_user w "cancelled" now ≫= λ _,
                mret None
          end);
        match r with
        | Some resp => mret resp
        | None =>
            in_coins (CoinBalance.get_or_create user now) ≫= λ _,
            mret (Resp 200 "Withdrawal cancelled and your balance returned")
        end
  | None => mret (Resp 404 "Withdrawal request not found")
  end.

Inductive admin_action := approve | reject | mark_processing_ | mark_completed_.

(** [(action or '').lower()], one of the four. *)
Definition parse_action (action : string) : option admin_action :=
  let s := lower action in
  if String.eqb s "approve" then Some approve
  else if String.eqb s "reject" then Some reject
  else if String.eqb s "mark_processing" then Some mark_processing_
  else if String.eqb s "mark_completed" then Some mark_completed_
  else None.

Definition with_notes (notes : string) (w : withdrawal) : withdrawal :=
  if String.eqb notes "" then w else set_notes notes (wd_rejection_reason w) w.

(** The locked part; [None] is success. *)
Definition admin_transition (admin : Z) (a : admin_action) (notes payout_reference : string)
    (w : withdrawal) (now : Z) : M store (option response) :=
  match a with
  | approve =>
      if negb (bool_decide (wd_status w = pending))
      then mret (Some (bad ("Cannot approve a " +:+ status_str (wd_status w) +:+ " withdrawal")))
      else save_withdrawal (with_notes notes (set_review (Some now) (Some admin)
                                                (set_status approved w))) ≫= λ _, mret None
  | reject =>
      if negb (bool_decide (wd_status w ∈ [pending; approved]))
      then mret (Some (bad ("Cannot reject a " +:+ status_str (wd_status w) +:+ " withdrawal")))
      else mark_rejected w admin notes now ≫= λ _, mret None
  | mark_processing_ =>
      if negb (bool_decide (wd_status w ∈ [approved]))
      then mret (Some (bad "Must be approved before processing"))
      else save_withdrawal (with_notes notes (set_status processing w)) ≫= λ _, mret None
  | mark_completed_ =>
      if negb (bool_decide (wd_status w ∈ [approved; processing]))
      then mret (Some (bad "Must be approved/processing first"))
      else if String.eqb payout_reference ""
      then mret (Some (bad "payout_reference is required"))
      else
        w ← mark_completed w admin payout_reference now;
        when (negb (String.eqb notes "")) (save_withdrawal (with_notes notes w)) ≫= λ _,
        mret None
  end.

Definition admin_withdrawal_action (admin id : Z) (action notes payout_reference : string)
    (now : Z) : M store response :=
  match parse_action action with
  | None => mret (bad "Invalid action")
  | Some a =>
      catch
        (r ← atomic (
           ow ← get_withdrawal id;
           match ow with
           | None => raise (DoesNotExist "WithdrawalRequest")
           | Some w => admin_transition admin a notes payout_reference w now
           end);
         mret (default (Resp 200 ("Withdrawal " +:+ lower action +:+ " successful")) r))
        (λ e, match e with
              | DoesNotExist "WithdrawalRequest" => Some (mret (Resp 404 "Withdrawal not found"))
              | _ => None
              end)
  end.

(** The webhook's last branch: a payout correlated by the withdrawal's own
    [originator_conversation_id].  It always answers 200; an exception is
    logged and the transaction rolled back. *)
Definition find_by_originator (oid : string) (s : store) : option withdrawal :=
  snd <$> head (filter (λ kw, String.eqb (wd_originator kw.2) oid = true)
                  (map_to_list (s_withdrawals s))).

Definition webhook_outcome (result_code : string) (result_type : option string) : bool :=
  String.eqb result_code "0"
  && match result_type with None => true | Some t => String.eqb t "0" end.

Definition b2c_webhook_withdrawal (oid result_code : string) (result_type : option string)
    (result_desc transaction_id : string) (now : Z) : M store unit :=
  catch
    (atomic (
      ow ← gets (find_by_originator oid);
      match ow with
      | None => mret tt
      | Some w =>
          if negb (bool_decide (wd_status w = processing)) then mret tt
          else if webhook_outcome result_code result_type then
            save_withdrawal (set_payout transaction_id (wd_originator w) (wd_conversation w)
                               transaction_id (Some now) (set_status completed w))
          else
            let w := set_notes (wd_admin_notes w)
              ("B2C payment failed: " +:+ or_str result_desc ("ResultCode=" +:+ result_code))
              (set_status failed w) in
            let w := if String.eqb transaction_id "" then w
                     else set_payout (wd_payout_reference w) (wd_originator w)
                            (wd_conversation w) transaction_id (wd_completed_at w) w in
            save_withdrawal w ≫= λ _, refund_to_user w "failed" now ≫= λ _, mret tt
      end))
    (λ _, Some (mret tt)).

(** [reinvest_points]: points back to coins, one for one. *)
Definition reinvest_points (user : Z) (amount : option Z) (now : Z) : M store response :=
  match amount with
  | None => mret (bad "Invalid points amount")
  | Some n =>
      if n <? 1 then mret (bad "Minimum 1 point required")
      else
        profile ← profile_of user;
        if Points.p_points profile <? n
        then mret (bad ("Insufficient points. You have "
                          +:+ str_int (Points.p_points profile) +:+ " points."))
        else
          balance ← in_coins (CoinBalance.get_or_create user now);
          catch
            (atomic (
               in_points (Points.deduct_points profile n None (Some "swap") "" now) ≫= λ _,
               in_coins (CoinBalance.add_earned balance n "reinvest"
                 (CoinBalance.descr ("Converted " +:+ str_int n +:+ " points to coins")) now))
             ≫= λ _, mret (Resp 200 "Successfully converted points to coins"))
            (λ e, if is_value_error e then Some (mret (bad (exn_str e))) else None)
  end.

(** [admin_adjust_balance], for an existing user. *)
Definition admin_adjust_balance (user amount : Z) (bucket reason : string) (now : Z)
    : M store response :=
  if negb (bool_decide (bucket ∈ ["earned"; "purchased"; "points"]))
  then mret (bad "bucket must be earned, purchased, or points")
  else if String.eqb bucket "points" then
    profile ← profile_of user;
    catch
      ((if 0 <=? amount
        then in_points (Points.add_points profile amount (Some Points.points_earned_total)
                          (Some "admin_adjustment") "" now)
        else in_points (Points.deduct_points profile (Z.abs amount)
                          (Some Points.points_withdrawn_total) (Some "admin_adjustment") "" now))
       ≫= λ _, mret (Resp 200 "points adjusted"))
      (λ e, if is_value_error e then Some (mret (bad (exn_str e))) else None)
  else
    balance ← in_coins (CoinBalance.get_or_create user now);
    catch
      ((if 0 <=? amount
        then if String.eqb bucket "earned"
             then in_coins (CoinBalance.add_earned balance amount "admin_adjustment"
                              (CoinBalance.descr reason) now)
             else in_coins (CoinBalance.add_purchased balance amount "admin_adjustment" "telebirr"
                              (CoinBalance.descr reason) now)
        else in_coins (CoinBalance.deduct_from_bucket balance bucket (Z.abs amount)
                         "admin_adjustment" (CoinBalance.descr reason) now))
       ≫= λ _, mret (Resp 200 "balance adjusted"))
      (λ e, if is_value_error e then Some (mret (bad (exn_str e))) else None).

(** ** Events

    Every way the store moves; the answer of Telebirr to an accepted request
    is an event of its own. *)

Inductive event :=
| ERequest (user : Z) (q : request_body) (now : Z)
| EB2c (id : Z) (b : b2c_result) (now : Z)
| ECancel (user id now : Z)
| EAdmin (admin id : Z) (action notes payout_reference : string) (now : Z)
| EWebhook (oid result_code : string) (result_type : option string)
    (result_desc transaction_id : string) (now : Z)
| EReinvest (user : Z) (amount : option Z) (now : Z)
| EAdjust (user amount : Z) (bucket reason : string) (now : Z).

Definition exec (e : event) : M store unit :=
  match e with
  | ERequest u q now => request_create u q now ≫= λ _, mret tt
  | EB2c id b now => request_finish id b now ≫= λ _, mret tt
  | ECancel u id now => cancel_withdrawal u id now ≫= λ _, mret tt
  | EAdmin a id act notes ref now =>
      admin_withdrawal_action a id act notes ref now ≫= λ _, mret tt
  | EWebhook oid rc rt rd tx now => b2c_webhook_withdrawal oid rc rt rd tx now
  | EReinvest u n now => reinvest_points u n now ≫= λ _, mret tt
  | EAdjust u n b r now => admin_adjust_balance u n b r now ≫= λ _, mret tt
  end.

Definition step (s : store) (e : event) : store := (exec e s).2.
Definition run (s : store) (es : list event) : store := fold_left step es s.

(** ** The abstract request

    A request holds its points from its creation until it ends unpaid, when
    they are put back. *)

Definition outstanding (st : wstatus) : bool :=
  bool_decide (st ∈ [pending; approved; processing; completed]).

Definition held (u : Z) (w : withdrawal) : Z :=
  if (wd_user w =? u) && outstanding (wd_status w) then wd_point_amount w else 0.

(** Points a user's ledger shows moved by withdrawals and their refunds. *)
Definition wrow (u : Z) (t : Points.point_tx) : Z :=
  if (Points.pt_user t =? u) && bool_decide (Points.pt_type t ∈ ["withdrawal"; "withdrawal_refund"])
  then Points.pt_points t else 0.
Definition wflow (u : Z) (s : store) : Z := sumZ (wrow u) (Points.pd_ledger (s_points s)).

(** The status changes an event may make, and on which request.  An accepted
    B2C payout moves its request to processing whatever it was. *)
Definition edge (e : event) (w0 : withdrawal) (b : wstatus) : bool :=
  match e with
  | EB2c id r _ => (wd_id w0 =? id) &&
      (if b2c_success r then bool_decide (b = processing)
       else bool_decide (wd_status w0 = pending ∧ b = failed))
  | ECancel user id _ => (wd_id w0 =? id) && (wd_user w0 =? user)
      && bool_decide (wd_status w0 = pending ∧ b = cancelled)
  | EAdmin _ id action _ _ _ => (wd_id w0 =? id) &&
      match parse_action action, wd_status w0, b with
      | Some approve, pending, approved => true
      | Some reject, (pending | approved), rejected => true
      | Some mark_processing_, approved, processing => true
      | Some mark_completed_, (approved | processing), completed => true
      | _, _, _ => false
      end
  | EWebhook oid rc rt _ _ _ => String.eqb (wd_originator w0) oid
      && bool_decide (wd_status w0 = processing
                      ∧ b = if webhook_outcome rc rt then completed else failed)
  | _ => false
  end.

(** Only a request that holds its points can end unpaid. *)
Lemma edge_ends e w0 b : edge e w0 b = true → outstanding b = false → outstanding (wd_status w0) = true.
Proof.
  destruct e; cbn; try done; intros He Hb; rewrite ?andb_true_iff in He.
  - destruct He as [_ He]. destruct (b2c_success _); case_bool_decide as H; try done.
    + by subst.
    + by destruct H as [-> _].
  - destruct He as [_ He]. case_bool_decide as H; [by destruct H as [-> _]|done].
  - destruct He as [_ He]. by destruct (parse_action _) as [[]|], (wd_status w0).
  - destruct He as [_ He]. case_bool_decide as H; [by destruct H as [-> _]|done].
Qed.

(** Only an accepted payout can bring back a request that ended unpaid. *)
Lemma edge_late e w0 b :
  edge e w0 b = true → outstanding (wd_status w0) = false → 
  ∃ r now, e = EB2c (wd_id w0) r now ∧ b2c_success r = true.
Proof.
  destruct e as [|id r now| | | | |]; cbn; try done; intros He Hb; rewrite ?andb_true_iff in He.
  - destruct He as [<-%Z.eqb_eq He]. destruct (b2c_success r) eqn:Hr; [eauto|].
    case_bool_decide as H; [destruct H as [H _]; by rewrite H in Hb|done].
  - destruct He as [_ He]. case_bool_decide as H; [destruct H as [H _]; by rewrite H in Hb|done].
  - destruct He as [_ He]. by destruct (parse_action _) as [[]|], (wd_status w0).
  - destruct He as [_ He]. case_bool_decide as H; [destruct H as [H _]; by rewrite H in Hb|done].
Qed.

Definition creates (e : event) (w : withdrawal) : Prop :=
  match e with
  | ERequest user _ _ => wd_user w = user ∧ wd_status w = pending
  | _ => False
  end.

Definition same_core (w0 w : withdrawal) : Prop :=
  wd_id w = wd_id w0 ∧ wd_user w = wd_user w0
  ∧ wd_point_amount w = wd_point_amount w0 ∧ wd_coin_amount w = wd_coin_amount w0
  ∧ wd_gross w = wd_gross w0 ∧ wd_fee w = wd_fee w0 ∧ wd_net w = wd_net w0.

(** One abstract step: nothing, a new pending request whose points leave the
    ledger, or one edge of the graph, which refunds exactly when the request
    stops holding its points. *)
Inductive moves (e : event) (s s' : store) : Prop :=
| M_quiet : s_withdrawals s' = s_withdrawals s → (∀ u, wflow u s' = wflow u s) → moves e s s'
| M_create w : creates e w → s_withdrawals s !! wd_id w = None →
    s_withdrawals s' = <[wd_id w := w]> (s_withdrawals s) →
    (∀ u, wflow u s' = wflow u s - held u w) → moves e s s'
| M_status w0 w : s_withdrawals s !! wd_id w0 = Some w0 → same_core w0 w →
    edge e w0 (wd_status w) = true →
    s_withdrawals s' = <[wd_id w0 := w]> (s_withdrawals s) →
    (∀ u, wflow u s' = wflow u s
          + (if outstanding (wd_status w) then 0 else held u w0)) → moves e s s'.

(** What every store satisfies: the two wallets' own invariants, and requests
    stored under their id, for points only, of users who have a profile. *)
Definition row_ok (s : store) (id : Z) (w : withdrawal) : Prop :=
  wd_id w = id ∧ id < s_next_id s ∧ 0 < wd_point_amount w ∧ wd_coin_amount w = 0
  ∧ is_Some (Points.pd_profiles (s_points s) !! wd_user w).

Record frame (s : store) : Prop := Frame {
  fr_points : Points.points_ok (s_points s);
  fr_coins : CoinBalance.wallet_ok (s_coins s);
  fr_rows : ∀ id w, s_withdrawals s !! id = Some w → row_ok s id w
}.

(** [quiet s0] holds of the stores that differ from [s0] in nothing a
    withdrawal owns. *)
Definition quiet (s0 s : store) : Prop :=
  frame s ∧ s_withdrawals s = s_withdrawals s0 ∧ s_next_id s = s_next_id s0
  ∧ (∀ u, wflow u s = wflow u s0).

Lemma quiet_refl s : frame s → quiet s s.
Proof. intros H. by split_and!. Qed.

Lemma in_coins_quiet {A} s0 (m : M CoinBalance.wallet A) :
  preserves CoinBalance.wallet_ok m → preserves (quiet s0) (in_coins m).
Proof.
  intros Hm s ([Hp Hc Hr] & Hw & Hn & Hf). unfold in_coins. rewrite zoom_run. cbn.
  split_and!; try done. constructor; [done|by apply Hm|done].
Qed.

Lemma in_config_quiet {A} s0 (m : M config_table A) : preserves (quiet s0) (in_config m).
Proof.
  intros s ([Hp Hc Hr] & Hw & Hn & Hf). unfold in_config. rewrite zoom_run. cbn.
  by split_and!; try constructor.
Qed.

Lemma profile_of_pure user s r s' : profile_of user s = (r, s') → s' = s.
Proof.
  unfold profile_of, in_points. rewrite zoom_run. unfold Points.get_locked. rewrite bind_run. cbn.
  destruct (_ !! user); cbn; intros [= _ <-]; by destruct s.
Qed.

Lemma profile_of_quiet s0 user : preserves (quiet s0) (profile_of user).
Proof.
  intros s Hs. destruct (profile_of user s) as [r s'] eqn:E.
  by rewrite (profile_of_pure _ _ _ _ E).
Qed.

(** A points movement inside the store. *)
Lemma in_points_delta s self delta total reason description now :
  frame s → Points.total_allowed total →
  let r := in_points (Points.apply_delta self Points.points delta total reason description now) s in
  ((∃ e, r.1 = inl e) ∧ r.2 = s) ∨
  ((∃ p, r.1 = inr p) ∧ frame r.2 ∧ s_withdrawals r.2 = s_withdrawals s
   ∧ s_next_id r.2 = s_next_id s ∧ is_Some (Points.pd_profiles (s_points r.2) !! Points.p_user self)
   ∧ ∀ u, wflow u r.2 = wflow u s
       + (if (Points.p_user self =? u)
             && bool_decide (or_str (default "" reason) "admin_adjustment"
                               ∈ ["withdrawal"; "withdrawal_refund"])
          then delta else 0)).
Proof.
  intros [Hp Hc Hr] [Ht1 Ht2] r.
  pose proof (Points.apply_delta_preserves self Points.points delta total reason description now
    (or_introl eq_refl) Ht1 Ht2 (s_points s) Hp) as Hok.
  pose proof (Points.apply_delta_points self delta total reason description now _ Hp) as H.
  unfold r, in_points in *. rewrite zoom_run. cbn [fst snd].
  destruct H as [[He ->]|(He & Hme & Hd & v & Hl)]; [left; by destruct s|right].
  split_and!; [done| |done|done|done|].
  - constructor; cbn; [done|done|]. intros id w Hw.
    destruct (Hr _ _ Hw) as (?&?&?&?&?). split_and!; try done. cbn. auto.
  - intros u. unfold wflow. cbn [s_points]. rewrite Hl. autorewrite with sums.
    unfold wrow at 2. cbn. lia.
Qed.

Definition internal (reason : option string) : Prop :=
  or_str (default "" reason) "admin_adjustment" ∉ ["withdrawal"; "withdrawal_refund"].

Lemma points_quiet s0 self delta total reason description now :
  Points.total_allowed total → internal reason →
  preserves (quiet s0)
    (in_points (Points.apply_delta self Points.points delta total reason description now)).
Proof.
  intros Ht Hi s (Hf & Hw & Hn & Hq).
  destruct (in_points_delta s self delta total reason description now Hf Ht)
    as [[_ ->]|(_ & Hf' & Hw' & Hn' & _ & Hq')]; [by split_and!|].
  split_and!; [done|congruence|congruence|]. intros u. rewrite Hq', Hq.
  rewrite bool_decide_false by done. rewrite andb_false_r. lia.
Qed.

Lemma in_points_guard {A} amount (m : M Points.points_db A) s :
  in_points (Points.positive_amount amount ≫= λ _, m) s
  = if negb (amount <=? 0) then in_points m s
    else (inl (ValueError "Amount must be positive"), s).
Proof.
  unfold in_points. rewrite !zoom_run, bind_run.
  unfold Points.positive_amount, assert_or. destruct (negb (amount <=? 0)); cbn; [done|].
  by destruct s.
Qed.

Lemma add_points_quiet s0 self n total reason description now :
  Points.total_allowed total → internal reason →
  preserves (quiet s0) (in_points (Points.add_points self n total reason description now)).
Proof.
  intros Ht Hi s Hs. unfold Points.add_points. rewrite in_points_guard.
  destruct (negb _); [by apply points_quiet|done].
Qed.

Lemma deduct_points_quiet s0 self n total reason description now :
  Points.total_allowed total → internal reason →
  preserves (quiet s0) (in_points (Points.deduct_points self n total reason description now)).
Proof.
  intros Ht Hi s Hs. unfold Points.deduct_points. rewrite in_points_guard.
  destruct (negb _); [by apply points_quiet|done].
Qed.

(** ** Saving and refunding a request *)

Lemma save_withdrawal_ok w s u s' :
  save_withdrawal w s = (inr u, s') → s' = put_withdrawal w s.
Proof.
  unfold save_withdrawal. rewrite bind_run. cbn.
  destruct (originator_clash _ _); unfold raise, put; [discriminate|by intros [= _ <-]].
Qed.

Lemma frame_put s w0 w :
  frame s → s_withdrawals s !! wd_id w0 = Some w0 → same_core w0 w → frame (put_withdrawal w s).
Proof.
  intros [Hp Hc Hr] H0 (Hid & Hu & Hpt & Hcn & _). constructor; [done|done|].
  intros id w'. cbn. rewrite Hid. destruct (decide (id = wd_id w0)) as [->|Hne].
  - rewrite lookup_insert_eq. intros [= <-]. destruct (Hr _ _ H0) as (?&?&?&?&?).
    unfold row_ok. rewrite Hid, Hpt, Hcn, Hu. by split_and!.
  - rewrite lookup_insert_ne by done. apply Hr.
Qed.

(** A refund of a points request goes through and puts its points back. *)
Lemma refund_run s w reason now :
  frame s → 0 < wd_point_amount w → wd_coin_amount w = 0 →
  is_Some (Points.pd_profiles (s_points s) !! wd_user w) →
  ∃ s', refund_to_user w reason now s = (inr (wd_point_amount w, 0), s')
    ∧ frame s' ∧ s_withdrawals s' = s_withdrawals s
    ∧ ∀ u, wflow u s' = wflow u s + (if wd_user w =? u then wd_point_amount w else 0).
Proof.
  intros Hf Hpos Hcn [p Hp]. unfold refund_to_user. rewrite Hcn. cbn [Z.eqb].
  destruct (Z.eqb_spec (wd_point_amount w) 0) as [|_]; [lia|].
  rewrite !bind_run. assert (profile_of (wd_user w) s = (inr p, s)) as ->.
  { unfold profile_of, in_points. rewrite zoom_run. unfold Points.get_locked.
    rewrite bind_run. cbn. rewrite Hp. by destruct s. }
  rewrite !bind_run. unfold Points.add_points. rewrite in_points_guard.
  destruct (Z.leb_spec (wd_point_amount w) 0) as [|_]; [lia|]. cbn [negb].
  destruct (proj1 (fr_points _ Hf) _ _ Hp) as (Hown & _).
  set (desc := _ +:+ _). clearbody desc.
  pose proof (Points.apply_delta_credit p (wd_point_amount w) None (Some "withdrawal_refund")
    desc now _ p (fr_points _ Hf) ltac:(by rewrite Hown) Hpos) as [q Hq].
  destruct (in_points_delta s p (wd_point_amount w) None (Some "withdrawal_refund") desc now Hf)
    as [[[e He] _]|(_ & Hf' & Hw' & _ & _ & Hq')]; [done| |].
  { unfold in_points in He. rewrite zoom_run in He. cbn in He. congruence. }
  unfold in_points in *. rewrite zoom_run in *. cbn [fst snd] in *. rewrite Hq. cbn.
  eexists. split_and!; [done|done|done|]. intros u. rewrite Hq', Hown.
  rewrite bool_decide_true by (cbn; set_solver). by rewrite andb_true_r.
Qed.

(** ** Code that makes at most one abstract step *)

Section Generic.
Context {ev : event}.

Definition moved_at {A} (s : store) (m : M store A) : Prop :=
  frame (m s).2 ∧ moves ev s (m s).2.
Definition moved {A} (m : M store A) : Prop := ∀ s, frame s → moved_at s m.

Lemma moves_quiet_l s s1 s2 : quiet s s1 → moves ev s1 s2 → moves ev s s2.
Proof.
  intros (_ & Hw & _ & Hf) [Hw' Hf'|w Hp Hn Hw' Hf'|w0 w Hl Hc He Hw' Hf'].
  - apply M_quiet; [congruence|]. intros u. by rewrite Hf', Hf.
  - apply (M_create _ _ _ w); [done|congruence|congruence|]. intros u. by rewrite Hf', Hf.
  - apply (M_status _ _ _ w0 w); [congruence|done|done|congruence|]. intros u. by rewrite Hf', Hf.
Qed.

Lemma moves_quiet_r s s1 s2 : moves ev s s1 → quiet s1 s2 → moves ev s s2.
Proof.
  intros [Hw' Hf'|w Hp Hn Hw' Hf'|w0 w Hl Hc He Hw' Hf'] (_ & Hw & _ & Hf).
  - apply M_quiet; [congruence|]. intros u. by rewrite Hf, Hf'.
  - apply (M_create _ _ _ w); [done|done|congruence|]. intros u. by rewrite Hf, Hf'.
  - apply (M_status _ _ _ w0 w); [done|done|done|congruence|]. intros u. by rewrite Hf, Hf'.
Qed.

Lemma quiet_moved {A} (m : M store A) : (∀ s0, preserves (quiet s0) m) → moved m.
Proof.
  intros H s Hs. destruct (H s s (quiet_refl _ Hs)) as (Hf & Hw & _ & Hq).
  split; [done|by apply M_quiet].
Qed.

Lemma moved_at_then_quiet {A B} (m : M store A) (k : A → M store B) s :
  moved_at s m → (∀ a s0, preserves (quiet s0) (k a)) → moved_at s (m ≫= k).
Proof.
  intros [Hf Hmv] Hk. unfold moved_at. rewrite bind_run.
  destruct (m s) as [[e|a] s1]; [done|]. cbn in *.
  pose proof (Hk a s1 s1 (quiet_refl _ Hf)) as Hq.
  split; [apply Hq|by eapply moves_quiet_r].
Qed.

Lemma moved_then_quiet {A B} (m : M store A) (k : A → M store B) :
  moved m → (∀ a s0, preserves (quiet s0) (k a)) → moved (m ≫= k).
Proof. intros Hm Hk s Hs. apply moved_at_then_quiet; auto. Qed.

Lemma quiet_then_moved {A B} (m : M store A) (k : A → M store B) :
  (∀ s0, preserves (quiet s0) m) → (∀ a, moved (k a)) → moved (m ≫= k).
Proof.
  intros Hm Hk s Hs. unfold moved_at. rewrite bind_run.
  pose proof (Hm s s (quiet_refl _ Hs)) as Hq.
  destruct (m s) as [[e|a] s1]; cbn in *.
  - destruct Hq as (Hf & Hw & _ & Hfl). split; [done|by apply M_quiet].
  - destruct (Hk a s1 (proj1 Hq)) as [Hf Hmv]. split; [done|by eapply moves_quiet_l].
Qed.

Lemma moved_at_atomic {A} (m : M store A) s :
  frame s → (∀ a s', m s = (inr a, s') → frame s' ∧ moves ev s s') → moved_at s (atomic m).
Proof.
  intros Hs Hm. unfold moved_at, atomic. destruct (m s) as [[e|a] s1] eqn:E; cbn.
  - split; [done|by apply M_quiet].
  - by eapply Hm.
Qed.

Lemma moved_atomic {A} (m : M store A) :
  (∀ s a s', frame s → m s = (inr a, s') → frame s' ∧ moves ev s s') → moved (atomic m).
Proof. intros Hm s Hs. apply moved_at_atomic; eauto. Qed.

Lemma moved_catch {A} (m : M store A) h :
  moved m → (∀ e k, h e = Some k → ∃ a, k = mret a) → moved (catch m h).
Proof.
  intros Hm Hh s Hs. destruct (Hm s Hs) as [Hf Hmv]. unfold moved_at, catch.
  destruct (m s) as [[e|a] s1]; [|done]. cbn in *.
  destruct (h e) as [k|] eqn:E; [|done]. by destruct (Hh _ _ E) as [a ->].
Qed.

Lemma moved_ret {A} (a : A) : moved (mret a).
Proof. intros s Hs. split; [done|by apply M_quiet]. Qed.

Lemma frame_lookup s id w :
  frame s → s_withdrawals s !! id = Some w →
  wd_id w = id ∧ 0 < wd_point_amount w ∧ wd_coin_amount w = 0
  ∧ is_Some (Points.pd_profiles (s_points s) !! wd_user w).
Proof. intros Hf Hw. by destruct (fr_rows _ Hf _ _ Hw) as (?&?&?&?&?). Qed.

(** A save along an edge that keeps holding the points. *)
Lemma put_moves s w0 w :
  frame s → s_withdrawals s !! wd_id w0 = Some w0 → same_core w0 w →
  edge ev w0 (wd_status w) = true → outstanding (wd_status w) = true →
  frame (put_withdrawal w s) ∧ moves ev s (put_withdrawal w s).
Proof.
  intros Hf H0 Hc He Ho. split; [by eapply frame_put|].
  apply (M_status _ _ _ w0 w); try done.
  - cbn. by rewrite (proj1 Hc).
  - intros v. rewrite Ho. unfold wflow. cbn. lia.
Qed.

Lemma save_moves s w0 w u s' :
  frame s → s_withdrawals s !! wd_id w0 = Some w0 → same_core w0 w →
  edge ev w0 (wd_status w) = true → outstanding (wd_status w) = true →
  save_withdrawal w s = (inr u, s') → frame s' ∧ moves ev s s'.
Proof. intros Hf H0 Hc He Ho ->%save_withdrawal_ok. by eapply put_moves. Qed.

(** A save along an edge that ends the request unpaid, with its refund. *)
Lemma save_refund_moves s w0 w reason now r s' :
  frame s → s_withdrawals s !! wd_id w0 = Some w0 → same_core w0 w →
  edge ev w0 (wd_status w) = true → outstanding (wd_status w) = false →
  (save_withdrawal w ≫= λ _, refund_to_user w reason now) s = (inr r, s') →
  frame s' ∧ moves ev s s'.
Proof.
  intros Hf H0 Hc He Ho (? & s1 & ->%save_withdrawal_ok & Hr)%bind_ok.
  pose proof Hc as (Hid & Hu & Hpt & Hcn & _).
  destruct (frame_lookup _ _ _ Hf H0) as (_ & Hpos & Hz & Hpr).
  destruct (refund_run (put_withdrawal w s) w reason now) as (s2 & Hrun & Hf2 & Hw2 & Hfl);
    [by eapply frame_put|congruence|congruence|by rewrite Hu|].
  rewrite Hrun in Hr. injection Hr as <- <-. split; [done|].
  apply (M_status _ _ _ w0 w); try done.
  - rewrite Hw2. cbn. by rewrite Hid.
  - intros v. rewrite Hfl, Ho, Hpt, Hu. unfold wflow. cbn [put_withdrawal s_points].
    assert (outstanding (wd_status w0) = true) as Hout
      by (by eapply edge_ends).
    unfold held. rewrite Hout. destruct (wd_user w0 =? v); cbn; lia.
Qed.

(** The runs of a locked body: its request, then its writes. *)
Lemma get_withdrawal_ok id s ow s' :
  get_withdrawal id s = (inr ow, s') → s' = s ∧ ow = s_withdrawals s !! id.
Proof. by intros [= <- <-]. Qed.

Lemma mret_ok {S A} (a : A) (s : S) b s' : (mret a : M S A) s = (inr b, s') → s' = s.
Proof. by intros [= _ <-]. Qed.

Lemma bind_mret_ok {A B} (m : M store A) (b : B) s c s' :
  (m ≫= λ _, mret b) s = (inr c, s') → ∃ a, m s = (inr a, s').
Proof. intros (a & s1 & Hm & ->%mret_ok)%bind_ok. eauto. Qed.

Lemma unchanged_moves s : frame s → frame s ∧ moves ev s s.
Proof. intros Hs. split; [done|by apply M_quiet]. Qed.

Lemma save_refund_ret {A} (x : A) s w0 w reason now r s' :
  frame s → s_withdrawals s !! wd_id w0 = Some w0 → same_core w0 w →
  edge ev w0 (wd_status w) = true → outstanding (wd_status w) = false →
  (save_withdrawal w ≫= λ _, refund_to_user w reason now ≫= λ _, mret x) s = (inr r, s') →
  frame s' ∧ moves ev s s'.
Proof.
  intros Hf H0 Hc He Ho (u & s1 & H1 & (v & s2 & H2 & ->%mret_ok)%bind_ok)%bind_ok.
  eapply save_refund_moves; [done..|]. apply bind_ok. eauto.
Qed.

Lemma save_ret {A} (x : A) s w0 w r s' :
  frame s → s_withdrawals s !! wd_id w0 = Some w0 → same_core w0 w →
  edge ev w0 (wd_status w) = true → outstanding (wd_status w) = true →
  (save_withdrawal w ≫= λ _, mret x) s = (inr r, s') → frame s' ∧ moves ev s s'.
Proof.
  intros Hf H0 Hc He Ho (u & s1 & H1 & ->%mret_ok)%bind_ok. by eapply save_moves.
Qed.

End Generic.

#[global] Arguments moved_at ev {A} s m : rename.
#[global] Arguments moved ev {A} m : rename.

(** ** The handlers *)

(** [except ValueError] answers with a response. *)
Ltac value_handler :=
  let e := fresh "e" in let k := fresh "k" in
  intros e k; destruct (is_value_error e); [intros [= <-]; eauto|done].

Lemma profile_then_moved {A} user ev (k : Points.profile → M store A) :
  (∀ pf, Points.p_user pf = user → moved ev (k pf)) → moved ev (profile_of user ≫= k).
Proof.
  intros Hk s Hs. unfold moved_at. rewrite bind_run. destruct (profile_of user s) as [[e|pf] s1] eqn:E;
    pose proof (profile_of_pure _ _ _ _ E) as ->; [by apply moved_ret with (a := tt)|].
  apply Hk; [|done]. unfold profile_of, in_points in E. rewrite zoom_run in E.
  unfold Points.get_locked in E. rewrite bind_run in E. cbn in E.
  destruct (_ !! user) as [p|] eqn:Hp; cbn in E; [|done]. injection E as [= <-].
  by destruct (proj1 (fr_points _ Hs) _ _ Hp).
Qed.

Lemma request_create_moved user q now :
  moved (ERequest user q now) (request_create user q now).
Proof.
  unfold request_create.
  apply quiet_then_moved; [intros; apply in_config_quiet|intros c].
  apply profile_then_moved. intros pf Hown.
  destruct (request_checks c pf q) as [|[n acc]]; [apply moved_ret|].
  apply moved_catch; [|value_handler].
  apply moved_atomic. intros s a s' Hs (p & s1 & Hd & H)%bind_ok.
  unfold Points.deduct_points in Hd. rewrite in_points_guard in Hd.
  destruct (Z.leb_spec n 0) as [|Hpos]; [discriminate|]. cbn [negb] in Hd.
  destruct (in_points_delta s pf (- n) (Some Points.points_withdrawn_total) (Some "withdrawal")
    "" now Hs) as [[[e He] _]|(_ & Hf & Hw & Hn & Hme & Hq)]; [done|by rewrite Hd in He|].
  rewrite Hd in Hf, Hw, Hn, Hme, Hq. cbn [snd] in *. run_inv H.
  assert (s_withdrawals s1 !! s_next_id s1 = None) as Hfresh.
  { destruct (s_withdrawals s1 !! _) as [w'|] eqn:E; [|done].
    destruct (fr_rows _ Hf _ _ E) as (_ & ? & _). lia. }
  split.
  - destruct Hf as [Hp Hc Hr]. constructor; [done|done|]. cbn. intros id w.
    destruct (decide (id = s_next_id s1)) as [->|Hne].
    + rewrite lookup_insert_eq. intros [= <-]. rewrite Hown in Hme. split_and!; cbn; done || lia.
    + rewrite lookup_insert_ne by done. intros Hw'.
      destruct (Hr _ _ Hw') as (?&?&?&?&?). split_and!; cbn; done || lia.
  - match goal with |- moves _ _ (Store _ _ _ (<[_ := ?w]> _) _) => apply (M_create _ _ _ w) end;
      [done|cbn; by rewrite <- Hw|cbn; by rewrite Hw|].
    intros u. unfold wflow, held in *. cbn [s_points wd_user wd_status wd_point_amount round_money].
    rewrite Hq, Hown. rewrite bool_decide_true by (cbn; set_solver).
    change (outstanding pending) with true.
    rewrite !andb_true_r. destruct (user =? u); lia.
Qed.

Ltac get_row H :=
  apply bind_ok in H as (? & ? & [-> ->]%get_withdrawal_ok & H).

(** The label's conditions, from the facts the branch has established. *)
Ltac edge_tac :=
  cbn; rewrite ?Z.eqb_refl, ?String.eqb_refl; cbn [andb];
  repeat match goal with
  | H : wd_status ?w = _ |- context [wd_status ?w] => rewrite H
  end; first [done | by rewrite bool_decide_true].

Lemma request_finish_moved id b now :
  moved (EB2c id b now) (request_finish id b now).
Proof.
  unfold request_finish. destruct (b2c_success b) eqn:Hb.
  all: apply moved_then_quiet; [|intros; apply preserves_ret].
  all: apply moved_atomic; intros s a s' Hs H; get_row H.
  all: destruct (s_withdrawals s !! id) as [w|] eqn:Hw; [|discriminate].
  all: destruct (frame_lookup _ _ _ Hs Hw) as [<- _].
  - refine (save_moves _ _ _ _ _ Hs Hw _ _ _ H); [by split_and!| |done].
    cbn. rewrite Hb. edge_tac.
  - case_bool_decide as Hst; [|apply mret_ok in H as ->; by apply unchanged_moves].
    refine (save_refund_ret _ _ _ _ _ _ _ _ Hs Hw _ _ _ H); [by split_and!| |done].
    cbn. rewrite Hb. edge_tac.
Qed.

Lemma cancel_withdrawal_moved user id now :
  moved (ECancel user id now) (cancel_withdrawal user id now).
Proof.
  unfold cancel_withdrawal. intros s Hs. unfold moved_at at 1. rewrite bind_run. cbn.
  destruct (s_withdrawals s !! id) as [w|] eqn:Hw; [|by apply moved_ret].
  destruct (Z.eqb_spec (wd_user w) user) as [Hu|]; cbn [negb]; [|by apply moved_ret].
  destruct (negb (can_cancel w)); [by apply moved_ret|].
  apply moved_at_then_quiet.
  - apply moved_at_atomic; [done|]. intros a s' H. get_row H. rewrite Hw in H.
    destruct (frame_lookup _ _ _ Hs Hw) as [<- _].
    unfold can_cancel in H. case_bool_decide as Hst; cbn [negb] in H.
    + refine (save_refund_ret _ _ _ _ _ _ _ _ Hs Hw _ _ _ H); [by split_and!| |done].
      cbn. rewrite Hu. edge_tac.
    + apply mret_ok in H as ->. by apply unchanged_moves.
  - intros [r|] s0; [apply preserves_ret|].
    apply preserves_bind; [apply in_coins_quiet, CoinBalance.wallet_ok_get_or_create|].
    intros ?. apply preserves_ret.
Qed.

Lemma with_notes_fields notes w :
  wd_status (with_notes notes w) = wd_status w ∧ same_core w (with_notes notes w).
Proof. unfold with_notes. by destruct (String.eqb notes ""). Qed.

Lemma same_core_trans w0 w1 w2 : same_core w0 w1 → same_core w1 w2 → same_core w0 w2.
Proof. unfold same_core. intuition congruence. Qed.

Lemma put_put w1 w2 s :
  wd_id w1 = wd_id w2 → put_withdrawal w2 (put_withdrawal w1 s) = put_withdrawal w2 s.
Proof. intros E. unfold put_withdrawal. cbn. by rewrite E, insert_insert_eq. Qed.

Lemma admin_transition_moved admin action act notes ref w now s r s' :
  let ev := EAdmin admin (wd_id w) action notes ref now in
  parse_action action = Some act → frame s → s_withdrawals s !! wd_id w = Some w →
  admin_transition admin act notes ref w now s = (inr r, s') → frame s' ∧ moves ev s s'.
Proof.
  intros ev Hact Hs Hw H.
  assert (∀ x : option response, (mret x : M store _) s = (inr r, s') → frame s' ∧ moves ev s s')
    as Hret by (intros x ->%mret_ok; by apply unchanged_moves).
  destruct act; cbn in H; (case_bool_decide as Hst; cbn [negb] in H; [|by eapply Hret]).
  - set (w1 := set_review _ _ _) in H. destruct (with_notes_fields notes w1) as [Est Ecore].
    refine (save_ret _ _ _ _ _ _ Hs Hw _ _ _ H);
      [by apply (same_core_trans _ w1)|rewrite Est|by rewrite Est].
    cbn. rewrite Hact. edge_tac.
  - apply bind_mret_ok in H as [x H].
    refine (save_refund_moves _ _ _ _ _ _ _ Hs Hw _ _ _ H); [by split_and!| |done].
    cbn. rewrite Hact, Z.eqb_refl. by destruct (wd_status w); try (exfalso; set_solver).
  - destruct (with_notes_fields notes (set_status processing w)) as [Est Ecore].
    refine (save_ret _ _ _ _ _ _ Hs Hw _ _ _ H); [done|rewrite Est|by rewrite Est].
    cbn. rewrite Hact, Z.eqb_refl. by destruct (wd_status w); try (exfalso; set_solver).
  - destruct (String.eqb ref ""); [by eapply Hret|]. unfold mark_completed in H.
    apply bind_ok in H as (w1 & s1 & (? & s2 & ->%save_withdrawal_ok & [= <- <-])%bind_ok & H).
    apply bind_mret_ok in H as [u H].
    set (w1 := set_payout _ _ _ _ _ _) in H.
    assert (same_core w w1 ∧ edge ev w (wd_status w1) = true) as [Hc He].
    { split; [by split_and!|]. cbn. rewrite Hact, Z.eqb_refl.
      by destruct (wd_status w); try (exfalso; set_solver). }
    unfold when in H. destruct (negb (String.eqb notes "")).
    + apply save_withdrawal_ok in H as ->. destruct (with_notes_fields notes w1) as [Est Ecore].
      rewrite put_put by (symmetry; apply Ecore).
      apply (put_moves _ w); [done|done|by eapply same_core_trans|by rewrite Est|by rewrite Est].
    + apply mret_ok in H as ->. by apply (put_moves _ w).
Qed.

Lemma admin_action_moved admin id action notes ref now :
  moved (EAdmin admin id action notes ref now)
    (admin_withdrawal_action admin id action notes ref now).
Proof.
  unfold admin_withdrawal_action. destruct (parse_action action) as [act|] eqn:Hact;
    [|apply moved_ret].
  apply moved_catch.
  - apply moved_then_quiet; [|intros; apply preserves_ret].
    apply moved_atomic; intros s a s' Hs H; get_row H.
    destruct (s_withdrawals s !! id) as [w|] eqn:Hw; [|discriminate].
    destruct (frame_lookup _ _ _ Hs Hw) as [<- _]. by eapply admin_transition_moved.
  - intros e k. repeat case_match; intros [= <-]; eauto.
Qed.

Lemma find_by_originator_row oid s w :
  frame s → find_by_originator oid s = Some w →
  s_withdrawals s !! wd_id w = Some w ∧ wd_originator w = oid.
Proof.
  intros Hf H. unfold find_by_originator in H.
  destruct (filter _ _) as [|[k w'] l] eqn:E; [done|]. injection H as ->.
  assert ((k, w) ∈ (k, w) :: l) as Hin by left. rewrite <- E in Hin.
  apply list_elem_of_filter in Hin as [Ho%String.eqb_eq Hin%elem_of_map_to_list].
  by destruct (frame_lookup _ _ _ Hf Hin) as [<- _].
Qed.

Lemma webhook_moved oid rc rt rd tx now :
  moved (EWebhook oid rc rt rd tx now) (b2c_webhook_withdrawal oid rc rt rd tx now).
Proof.
  unfold b2c_webhook_withdrawal. apply moved_catch; [|intros e k [= <-]; eauto].
  apply moved_atomic. intros s a s' Hs (ow & s1 & [= <- <-] & H)%bind_ok.
  destruct (find_by_originator oid s) as [w|] eqn:Hw;
    [|apply mret_ok in H as ->; by apply unchanged_moves].
  destruct (find_by_originator_row _ _ _ Hs Hw) as [Hrow Ho]. clear Hw. rename Hrow into Hw.
  case_bool_decide as Hst; cbn [negb] in H;
    [|apply mret_ok in H as ->; by apply unchanged_moves].
  destruct (webhook_outcome rc rt) eqn:Hout.
  - refine (save_moves _ _ _ _ _ Hs Hw _ _ _ H); [by split_and!| |done].
    cbn. rewrite Ho, Hout. edge_tac.
  - destruct (String.eqb tx "");
      (refine (save_refund_ret _ _ _ _ _ _ _ _ Hs Hw _ _ _ H); [by split_and!| |done]);
      cbn; rewrite Ho, Hout; edge_tac.
Qed.

Lemma preserves_catch_ret {S A} (I : S → Prop) (m : M S A) h :
  preserves I m → (∀ e k, h e = Some k → ∃ a, k = mret a) → preserves I (catch m h).
Proof.
  intros Hm Hh. apply preserves_catch; [done|]. intros e k Ek.
  destruct (Hh _ _ Ek) as [a ->]. apply preserves_ret.
Qed.

Lemma internal_swap : internal (Some "swap").
Proof. unfold internal. cbn. set_solver. Qed.
Lemma internal_adjust : internal (Some "admin_adjustment").
Proof. unfold internal. cbn. set_solver. Qed.

#[local] Hint Resolve internal_swap internal_adjust add_points_quiet deduct_points_quiet
  in_coins_quiet profile_of_quiet preserves_bind preserves_atomic preserves_catch_ret : prog.
#[local] Hint Resolve CoinBalance.wallet_ok_get_or_create CoinBalance.earned_preserves
  CoinBalance.purchased_preserves CoinBalance.deduct_preserves : prog.
#[local] Hint Extern 1 (Points.total_allowed _) => (by split) : prog.
#[local] Hint Extern 1 (preserves _ (if _ then _ else _)) => case_match : prog.

Lemma reinvest_moved user n now :
  moved (EReinvest user n now) (reinvest_points user n now).
Proof.
  apply quiet_moved. intros s0. unfold reinvest_points.
  destruct n as [n|]; [|apply preserves_ret]. destruct (n <? 1); [apply preserves_ret|].
  apply preserves_bind; [auto with prog|intros p]. destruct (_ <? n); [apply preserves_ret|].
  apply preserves_bind; [auto with prog|intros b].
  apply preserves_catch_ret; [|value_handler].
  apply preserves_bind; [|intros; apply preserves_ret].
  apply preserves_atomic, preserves_bind; auto 6 with prog.
Qed.

Lemma adjust_moved user n bucket reason now :
  moved (EAdjust user n bucket reason now) (admin_adjust_balance user n bucket reason now).
Proof.
  apply quiet_moved. intros s0. unfold admin_adjust_balance.
  destruct (negb _); [apply preserves_ret|].
  destruct (String.eqb bucket "points").
  all: apply preserves_bind; [auto with prog|intros x].
  all: apply preserves_catch_ret; [|value_handler].
  all: apply preserves_bind; [|intros; apply preserves_ret].
  all: destruct (0 <=? n); auto 6 with prog.
Qed.

Lemma exec_moved e : moved e (exec e).
Proof.
  destruct e; cbn [exec];
    try (apply moved_then_quiet; [|intros; apply preserves_ret]).
  - apply request_create_moved.
  - apply request_finish_moved.
  - apply cancel_withdrawal_moved.
  - apply admin_action_moved.
  - apply webhook_moved.
  - apply reinvest_moved.
  - apply adjust_moved.
Qed.

(** ** Conservation *)

Definition held_total (u : Z) (s : store) : Z := sum_map (held u) (s_withdrawals s).

Definition conserved (s : store) : Prop := frame s ∧ ∀ u, wflow u s + held_total u s = 0.

(** B2C accepts a payout while its request still holds its points. *)
Definition timely (s : store) (e : event) : Prop :=
  match e with
  | EB2c id b _ => b2c_success b = true →
      ∀ w, s_withdrawals s !! id = Some w → outstanding (wd_status w) = true
  | _ => True
  end.

Fixpoint timely_run (s : store) (es : list event) : Prop :=
  match es with
  | [] => True
  | e :: es' => timely s e ∧ timely_run (step s e) es'
  end.

Lemma conserved_step s e : conserved s → timely s e → conserved (step s e).
Proof.
  intros [Hf Hc] Ht. destruct (exec_moved e s Hf) as [Hf' Hm]. split; [done|].
  intros u. specialize (Hc u). unfold held_total, step in *.
  destruct Hm as [Hw Hq|w Hp Hn Hw Hq|w0 w Hl Hco He Hw Hq]; rewrite Hw, Hq.
  - done.
  - rewrite sum_map_insert by done. lia.
  - rewrite (sum_map_update _ _ _ _ _ Hl). destruct Hco as (_ & Hus & Hpt & _).
    destruct (outstanding (wd_status w)) eqn:Ho.
    + assert (outstanding (wd_status w0) = true) as Ho0.
      { destruct (outstanding (wd_status w0)) eqn:Ho0; [done|].
        destruct (edge_late _ _ _ He Ho0) as (r & now & -> & Hr).
        rewrite (Ht Hr _ Hl) in Ho0. done. }
      assert (held u w = held u w0) as -> by (unfold held; by rewrite Ho, Ho0, Hus, Hpt). lia.
    + assert (held u w = 0) as -> by (unfold held; by rewrite Ho, andb_false_r). lia.
Qed.

(** A user with 5,000 points, one row in the ledger. *)
Definition funded_user : Points.profile :=
  Points.Profile 1 5000 0 0 0 0 0 None "0911223344".
Definition funded_store : store :=
  Store None
    (Points.PointsDb {[ 1 := funded_user ]} [Points.PointTx 1 "admin_adjustment" 5000 5000 "" 0])
    (CoinBalance.Wallet ∅ []) ∅ 1.

Lemma funded_conserved : conserved funded_store.
Proof.
  split; [constructor|].
  - split; cbn; intros u.
    + intros p. destruct (decide (u = 1)) as [->|Hne].
      * rewrite lookup_singleton_eq. intros [= <-]. vm_compute. intuition discriminate.
      * by rewrite lookup_singleton_ne.
    + destruct (decide (u = 1)) as [->|Hne]; [by rewrite lookup_singleton_eq|].
      intros _. unfold Points.ledger_of. rewrite filter_cons_False; [done|cbn; congruence].
  - apply CoinBalance.wallet_ok_empty.
  - intros id w. cbn. by rewrite lookup_empty.
  - intros u. unfold wflow, held_total. cbn. rewrite sum_map_empty.
    rewrite sumZ_cons, sumZ_nil. unfold wrow. cbn [Points.pt_user Points.pt_type].
    rewrite bool_decide_false by set_solver. by rewrite andb_false_r.
Qed.

Definition sample_body : request_body := Body (Some 2000) "telebirr" "" "Abebe".
Definition accepted : b2c_result := B2c true "ORIG-1" "CONV-1" "".

(** C3.  The withdrawal handlers refine an abstract request.  From any store
    that satisfies the frame (the wallet invariants, well-formed rows), every
    event -- a user's request or cancellation, an administrator's action, B2C's
    answer, its webhook, a reinvestment, a balance adjustment -- keeps the
    frame and makes at most one abstract step: nothing; a new pending request
    of that user, whose points leave the ledger; or one change of status that
    the event is allowed to make on that one request, amounts untouched, which
    puts the points back exactly when the request ends unpaid. *)
Theorem withdrawal_events_refine e s :
  frame s → frame (step s e) ∧ moves e s (step s e).
Proof. intros Hs. exact (exec_moved e s Hs). Qed.

Lemma withdrawal_events_refine_witness :
  frame (step funded_store (ERequest 1 sample_body 10))
  ∧ moves (ERequest 1 sample_body 10) funded_store (step funded_store (ERequest 1 sample_body 10)).
Proof. exact (withdrawal_events_refine _ funded_store (proj1 funded_conserved)). Defined.

(** C4.  Points are conserved by any interleaving of the events in which B2C
    accepts a payout only while its request still holds its points: for every
    user, what the ledger shows taken by withdrawals, less their refunds, is
    exactly the points of the requests still open or paid out.  No request is
    refunded twice, and none ends unpaid without its refund. *)
Theorem withdrawal_points_conserved s es :
  conserved s → timely_run s es → conserved (run s es).
Proof.
  revert s. induction es as [|e es IH]; intros s Hs; [done|].
  intros [Ht Hr]. apply IH; [by apply conserved_step|done].
Qed.

Lemma withdrawal_points_conserved_witness :
  let es := [ERequest 1 sample_body 10; EB2c 1 accepted 20;
             EWebhook "ORIG-1" "1" None "no funds" "" 30] in
  conserved (run funded_store es)
  ∧ wd_status <$> (s_withdrawals (run funded_store es) !! 1) = Some failed.
Proof.
  split; [|vm_compute; reflexivity].
  apply (withdrawal_points_conserved funded_store); [exact funded_conserved|].
  split; [exact I|split; [|split; [exact I|exact I]]].
  intros _ w Hw. vm_compute in Hw. injection Hw as <-. vm_compute. reflexivity.
Defined.

(** Without that condition the code pays a refunded request: the branch
    that records B2C's acceptance does not look at the status again, so a
    request its user cancelled (and was refunded for) while the call was on its
    way returns to processing, and the webhook then completes it. *)
Theorem late_acceptance_pays_a_refunded_request :
  let s := run funded_store [ERequest 1 sample_body 10; ECancel 1 1 20; EB2c 1 accepted 30;
                             EWebhook "ORIG-1" "0" None "" "TX9" 40] in
  (wd_status <$> s_withdrawals s !! 1) = Some completed
  ∧ (Points.p_points <$> Points.pd_profiles (s_points s) !! 1) = Some 5000
  ∧ wflow 1 s + held_total 1 s = 2000.
Proof. vm_compute. done. Qed.

End Withdrawal.
