(* ===== verification/PointsExpiry.v ===== *)
(** * PointsExpiry: points left untouched for 180 days

    Models [src/api/services/points_expiry.py] and its daily task
    [src/api/tasks/points.py], over the store of [Withdrawal] (points, coins
    and withdrawal requests) with Django's [User.last_login] beside it. *)

From Stdlib Require Import ZArith Lia.
From S2P Require Import Prelude Decimal WalletConfig CoinBalance Points Withdrawal.

Module PointsExpiry.

Record store := Store {
  st_wallets : Withdrawal.store;
  st_last_login : gmap Z Z
}.

Definition INACTIVITY_DAYS : Z := 180.
Definition MINIMUM_TO_EXPIRE : Z := 1.
Definition BATCH_SIZE : nat := 500.

Definition cutoff (now : Z) : Z := now - INACTIVITY_DAYS * day.

(** [order_by('-created_at').values_list('created_at').first()]. *)
Definition latest (stamps : list Z) : option Z :=
  match stamps with
  | [] => None
  | t :: ts => Some (foldr Z.max t ts)
  end.

(** [make_aware(combine(d, time.max))]: the last microsecond of the local day. *)
Definition end_of_local_day (d : Z) : Z := (d + 1) * day - 3 * hour - 1.

Definition profile_of (user : Z) (s : store) : option Points.profile :=
  Points.pd_profiles (Withdrawal.s_points (st_wallets s)) !! user.

Definition transaction_stamps (user : Z) (s : store) : list Z :=
  CoinBalance.ct_created_at <$>
    filter (λ t, CoinBalance.ct_user t = user)
      (CoinBalance.w_txs (Withdrawal.s_coins (st_wallets s))).

Definition withdrawal_stamps (user : Z) (s : store) : list Z :=
  Withdrawal.wd_created_at <$>
    filter (λ w, Withdrawal.wd_user w = user)
      (snd <$> map_to_list (Withdrawal.s_withdrawals (st_wallets s))).

Definition login_date_stamp (user : Z) (s : store) : option Z :=
  p ← profile_of user s; d ← Points.p_last_login_date p; Some (end_of_local_day d).

(** [last_activity_at]. *)
Definition last_activity_at (user : Z) (s : store) : option Z :=
  latest (option_list (latest (transaction_stamps user s))
          ++ option_list (latest (withdrawal_stamps user s))
          ++ option_list (login_date_stamp user s)
          ++ option_list (st_last_login s !! user)).

Definition is_inactive (user now : Z) (s : store) : bool :=
  match last_activity_at user s with
  | None => false
  | Some last => last <? cutoff now
  end.

Definition expirable_points (user now : Z) (s : store) : Z :=
  let points := match profile_of user s with Some p => Points.p_points p | None => 0 end in
  if points <? MINIMUM_TO_EXPIRE then 0
  else if negb (is_inactive user now s) then 0
  else points.

Definition in_points {A} : M Points.points_db A → M store A :=
  zoom (λ s, Withdrawal.s_points (st_wallets s))
    (λ p s, let w := st_wallets s in
      Store (Withdrawal.Store (Withdrawal.s_config w) p (Withdrawal.s_coins w)
               (Withdrawal.s_withdrawals w) (Withdrawal.s_next_id w)) (st_last_login s)).

Definition expiry_row (user points now : Z) : Points.point_tx :=
  Points.PointTx user "expiry" (- points) 0 "Expired after 180 days without activity" now.

(** [expire_points_for]: the zeroing [UPDATE] and its ledger row. *)
Definition expire_points_for (user now : Z) : M store Z :=
  op ← gets (profile_of user);
  match op with
  | None => mret 0
  | Some _ =>
      atomic (
        olocked ← gets (profile_of user);
        match olocked with
        | None => mret 0
        | Some locked =>
            let points := or_int (Points.p_points locked) 0 in
            if points <? MINIMUM_TO_EXPIRE then mret 0
            else
              inactive ← gets (is_inactive (Points.p_user locked) now);
              if negb inactive then mret 0
              else
                in_points (modify (λ d, Points.PointsDb
                  (alter (Points.setp Points.points 0) user (Points.pd_profiles d))
                  (Points.pd_ledger d))) ≫= λ _,
                in_points (Points.create_point_tx
                  (expiry_row (Points.p_user locked) points now)) ≫= λ _,
                mret points
        end)
  end.

(** [candidates]: the rows the query selects, in an order of the database's
    choosing, an argument of the task. *)
Definition is_candidate (user : Z) (s : store) : bool :=
  match profile_of user s with
  | Some p => MINIMUM_TO_EXPIRE <=? Points.p_points p
  | None => false
  end.

(** [expire_inactive_points]: examined, users and points expired. *)
Fixpoint expire_loop (users : list Z) (now : Z) (acc : Z * Z * Z) : M store (Z * Z * Z) :=
  match users with
  | [] => mret acc
  | u :: us =>
      let '(examined, nu, np) := acc in
      taken ← catch (expire_points_for u now ≫= λ t, mret (Some t)) (λ _, Some (mret None));
      expire_loop us now
        (match taken with
         | Some t => if t =? 0 then (examined + 1, nu, np) else (examined + 1, nu + 1, np + t)
         | None => (examined + 1, nu, np)
         end)
  end.

Definition expire_inactive_points (candidates : list Z) (now : Z) : M store (Z * Z * Z) :=
  expire_loop (firstn BATCH_SIZE candidates) now (0, 0, 0).

(** ** Activity *)

(** [recorded user s t]: the store holds evidence that [user] acted at [t]. *)
Definition recorded (user : Z) (s : store) (t : Z) : Prop :=
  t ∈ transaction_stamps user s ∨ t ∈ withdrawal_stamps user s
  ∨ login_date_stamp user s = Some t ∨ st_last_login s !! user = Some t.

Lemma latest_None l : latest l = None ↔ l = [].
Proof. destruct l; naive_solver. Qed.

Lemma latest_max l m : latest l = Some m → m ∈ l ∧ ∀ x, x ∈ l → x <= m.
Proof.
  destruct l as [|y l]; [done|]. intros [= <-]. induction l as [|z l [IH1 IH2]]; cbn [foldr].
  - split; [left|]. intros x ->%list_elem_of_singleton. lia.
  - split.
    + destruct (Z.max_spec z (foldr Z.max y l)) as [[_ ->]|[_ ->]]; set_solver.
    + intros x [->|[->|Hx]%elem_of_cons]%elem_of_cons; [|lia|].
      * specialize (IH2 y ltac:(left)). lia.
      * specialize (IH2 x ltac:(right; done)). lia.
Qed.

Lemma latest_lt l c : (∃ m, latest l = Some m ∧ m < c) ↔ l ≠ [] ∧ ∀ x, x ∈ l → x < c.
Proof.
  split.
  - intros (m & Hm & Hlt). destruct (latest_max _ _ Hm) as [Hin Hle]. split; [by intros ->|].
    intros x Hx%Hle. lia.
  - intros [Hne Hall]. destruct (latest l) as [m|] eqn:E; [|by apply latest_None in E].
    exists m. split; [done|]. apply Hall, (latest_max _ _ E).
Qed.

Lemma elem_of_latest l x : x ∈ option_list (latest l) → x ∈ l.
Proof. destruct (latest l) eqn:E; cbn; [|set_solver]. intros ->%list_elem_of_singleton. by apply latest_max. Qed.

Lemma is_inactive_spec user now s :
  is_inactive user now s = true ↔
  (∃ t, recorded user s t) ∧ ∀ t, recorded user s t → t < cutoff now.
Proof.
  unfold is_inactive, last_activity_at. set (l := _ ++ _).
  assert (Hsub : ∀ x, x ∈ l → recorded user s x).
  { intros x. unfold l, recorded. rewrite !elem_of_app.
    intros [H%elem_of_latest|[H%elem_of_latest|[H|H]]]; auto.
    - destruct (login_date_stamp user s); set_solver.
    - destruct (st_last_login s !! user); set_solver. }
  assert (Hdom : ∀ x, recorded user s x → ∃ y, y ∈ l ∧ x <= y).
  { intros x Hx. unfold l. destruct Hx as [H|[H|[H|H]]].
    - destruct (latest (transaction_stamps user s)) as [m|] eqn:E;
        [|apply latest_None in E; rewrite E in H; set_solver].
      exists m. split; [set_solver|]. by apply (latest_max _ _ E).
    - destruct (latest (withdrawal_stamps user s)) as [m|] eqn:E;
        [|apply latest_None in E; rewrite E in H; set_solver].
      exists m. split; [set_solver|]. by apply (latest_max _ _ E).
    - exists x. rewrite H. set_solver by lia.
    - exists x. rewrite H. set_solver by lia. }
  clearbody l. transitivity (∃ m, latest l = Some m ∧ m < cutoff now).
  { destruct (latest l); [rewrite Z.ltb_lt|]; naive_solver. }
  rewrite latest_lt. split.
  - intros [Hne Hall]. split.
    + destruct l as [|x l]; [done|]. exists x. apply Hsub. left.
    + intros t (y & Hy & Hle)%Hdom. specialize (Hall y Hy). lia.
  - intros [[t Ht] Hall]. split; [|auto]. intros ->. destruct (Hdom _ Ht) as (? & ? & _). set_solver.
Qed.

(** ** One account *)

(** The store with [user]'s points taken. *)
Definition expired (user now : Z) (p : Points.profile) (s : store) : store :=
  let w := st_wallets s in
  let d := Withdrawal.s_points w in
  Store (Withdrawal.Store (Withdrawal.s_config w)
           (Points.PointsDb (<[user := Points.setp Points.points 0 p]> (Points.pd_profiles d))
              (Points.pd_ledger d ++ [expiry_row user (Points.p_points p) now]))
           (Withdrawal.s_coins w) (Withdrawal.s_withdrawals w) (Withdrawal.s_next_id w))
    (st_last_login s).

Definition expires (user now : Z) (s : store) : bool :=
  match profile_of user s with
  | Some p => (MINIMUM_TO_EXPIRE <=? Points.p_points p) && is_inactive user now s
  | None => false
  end.

Lemma expire_run user now s :
  (∀ p, profile_of user s = Some p → Points.p_user p = user) →
  expire_points_for user now s =
  match profile_of user s with
  | Some p => if expires user now s then (inr (Points.p_points p), expired user now p s)
              else (inr 0, s)
  | None => (inr 0, s)
  end.
Proof.
  intros Hown. unfold expire_points_for, expires. unfold gets.
  rewrite bind_run. destruct (profile_of user s) as [p|] eqn:Hp; [|done].
  unfold atomic. rewrite bind_run. rewrite Hp, or_int_0, Z.ltb_antisym.
  destruct (MINIMUM_TO_EXPIRE <=? Points.p_points p); cbn [negb andb]; [|done].
  rewrite bind_run. rewrite (Hown p) by done.
  destruct (is_inactive user now s); cbn [negb]; [|done].
  rewrite bind_run. unfold in_points. rewrite zoom_run. cbn.
  unfold expired. rewrite (Points.alter_lookup_insert _ _ _ p) by exact Hp. done.
Qed.

Lemma expires_spec user now s p :
  profile_of user s = Some p →
  expires user now s = true ↔
  1 <= Points.p_points p ∧ (∃ t, recorded user s t)
  ∧ ∀ t, recorded user s t → t < now - 180 * day.
Proof.
  intros Hp. unfold expires. rewrite Hp, andb_true_iff, is_inactive_spec, Z.leb_le. done.
Qed.

Definition store_ok (s : store) : Prop := Withdrawal.conserved (st_wallets s).

Lemma store_ok_owner s user p :
  store_ok s → profile_of user s = Some p → Points.p_user p = user.
Proof. intros [[[Hp _] _ _] _] H. by destruct (Hp _ _ H). Qed.

Lemma setp_points_0 p :
  Points.p_user (Points.setp Points.points 0 p) = Points.p_user p
  ∧ Points.p_points (Points.setp Points.points 0 p) = 0
  ∧ Points.p_coins (Points.setp Points.points 0 p) = Points.p_coins p.
Proof. by destruct p. Qed.

Lemma expired_ok user now p s :
  store_ok s → profile_of user s = Some p → store_ok (expired user now p s).
Proof.
  intros Hok Hp. pose proof (store_ok_owner _ _ _ Hok Hp) as Hown.
  destruct Hok as [[Hpts Hc Hr] Hflow]. destruct (setp_points_0 p) as (E1 & E2 & E3).
  destruct (proj1 Hpts _ _ Hp) as (_ & _ & Hcoins & _).
  split; [constructor|].
  - apply (Points.points_ok_move _ user p _ (expiry_row user (Points.p_points p) now) Hpts Hp);
      cbn; rewrite ?E1, ?E2, ?E3; done || lia.
  - exact Hc.
  - intros id w Hw. destruct (Hr _ _ Hw) as (?&?&?&?& Hsome). split_and!; try done. cbn.
    destruct (decide (Withdrawal.wd_user w = user)) as [->|Hne].
    + rewrite lookup_insert_eq. eauto.
    + by rewrite lookup_insert_ne.
  - intros u. specialize (Hflow u). unfold Withdrawal.wflow, Withdrawal.held_total in *. cbn.
    rewrite sumZ_app, sumZ_cons, sumZ_nil.
    assert (Withdrawal.wrow u (expiry_row user (Points.p_points p) now) = 0) as ->; [|lia].
    unfold Withdrawal.wrow. rewrite bool_decide_false by (cbn; set_solver).
    by rewrite andb_false_r.
Qed.

Lemma expire_points_for_ok user now : preserves store_ok (expire_points_for user now).
Proof.
  intros s Hs. rewrite expire_run by (intros p; by apply store_ok_owner).
  destruct (profile_of user s) as [p|] eqn:Hp; [|done].
  destruct (expires user now s); [by apply expired_ok|done].
Qed.

Lemma expire_loop_ok users now acc : preserves store_ok (expire_loop users now acc).
Proof.
  revert acc. induction users as [|u us IH]; intros [[e nu] np]; cbn [expire_loop];
    [apply preserves_ret|].
  apply preserves_bind; [|auto]. apply preserves_catch.
  - apply preserves_bind; [apply expire_points_for_ok|intros; apply preserves_ret].
  - intros x k [= <-]. apply preserves_ret.
Qed.

(** ** The sweep *)

Lemma expired_profile_of user now p s v :
  profile_of v (expired user now p s)
  = if decide (v = user) then Some (Points.setp Points.points 0 p) else profile_of v s.
Proof.
  unfold profile_of. cbn. case_decide as E; [subst; by rewrite lookup_insert_eq|].
  by rewrite lookup_insert_ne.
Qed.

Lemma expired_inactive user now p s v now' :
  profile_of user s = Some p → is_inactive v now' (expired user now p s) = is_inactive v now' s.
Proof.
  intros Hp. unfold is_inactive, last_activity_at.
  assert (login_date_stamp v (expired user now p s) = login_date_stamp v s) as ->; [|done].
  unfold login_date_stamp. rewrite expired_profile_of. case_decide as E; [|done].
  subst. rewrite Hp. by destruct p.
Qed.

Lemma expired_expires user now p s v :
  profile_of user s = Some p →
  expires v now (expired user now p s) = if decide (v = user) then false else expires v now s.
Proof.
  intros Hp. unfold expires. rewrite expired_profile_of. case_decide as E.
  - by rewrite (proj1 (proj2 (setp_points_0 p))).
  - destruct (profile_of v s); [|done]. by rewrite expired_inactive.
Qed.

(** What a sweep leaves of each profile, and what it does not touch. *)
Definition swept (users : list Z) (now : Z) (s s' : store) : Prop :=
  Withdrawal.s_coins (st_wallets s') = Withdrawal.s_coins (st_wallets s)
  ∧ Withdrawal.s_withdrawals (st_wallets s') = Withdrawal.s_withdrawals (st_wallets s)
  ∧ st_last_login s' = st_last_login s
  ∧ ∀ v, profile_of v s' =
      if bool_decide (v ∈ users) && expires v now s
      then Points.setp Points.points 0 <$> profile_of v s else profile_of v s.

Lemma expire_loop_swept users now acc s :
  store_ok s → swept users now s (expire_loop users now acc s).2.
Proof.
  revert acc s. induction users as [|u us IH]; intros [[e nu] np] s Hs; cbn [expire_loop].
  { split_and!; try done. }
  rewrite bind_run. unfold catch. rewrite bind_run.
  rewrite expire_run by (intros q; by apply store_ok_owner).
  destruct (profile_of u s) as [p|] eqn:Hp; [destruct (expires u now s) eqn:Hx|]; cbn -[expired].
  - pose proof (expired_ok u now p s Hs Hp) as Hok.
    set (acc := if Points.p_points p =? 0 then _ else _). clearbody acc.
    destruct (IH acc _ Hok) as (H1 & H2 & H3 & H4).
    split_and!; [done..|]. intros v. rewrite H4, expired_profile_of, expired_expires by done.
    destruct (decide (v = u)) as [->|Hne].
    + rewrite andb_false_r, bool_decide_true, Hx, Hp by left. done.
    + by rewrite (bool_decide_ext (v ∈ u :: us) (v ∈ us)) by set_solver.
  - destruct (IH (e + 1, nu, np) s Hs) as (H1 & H2 & H3 & H4).
    split_and!; [done..|]. intros v. rewrite H4. destruct (decide (v = u)) as [->|Hne].
    + by rewrite Hx, !andb_false_r.
    + by rewrite (bool_decide_ext (v ∈ u :: us) (v ∈ us)) by set_solver.
  - destruct (IH (e + 1, nu, np) s Hs) as (H1 & H2 & H3 & H4).
    split_and!; [done..|]. intros v. rewrite H4. destruct (decide (v = u)) as [->|Hne].
    + rewrite Hp. by destruct (_ && _), (_ && _).
    + by rewrite (bool_decide_ext (v ∈ u :: us) (v ∈ us)) by set_solver.
Qed.

Definition idle (user now : Z) (s : store) (p : Points.profile) : Prop :=
  1 <= Points.p_points p ∧ (∃ t, recorded user s t)
  ∧ ∀ t, recorded user s t → t < now - 180 * day.

(** Expiry takes exactly the points it promises to take: all of an
    account's points, with one ledger row for them, when it holds any, some
    activity of it is on record and every recorded activity (coin movement,
    withdrawal request, login) is more than 180 days old; and nothing in every
    other case, an account with no record at all included.  [expirable_points]
    forecasts the amount, and a second run finds nothing left. *)
Theorem expire_points_for_spec user now s p :
  store_ok s → profile_of user s = Some p →
  (idle user now s p →
     expire_points_for user now s = (inr (Points.p_points p), expired user now p s)
     ∧ ∀ now', expire_points_for user now' (expired user now p s) = (inr 0, expired user now p s))
  ∧ (¬ idle user now s p → expire_points_for user now s = (inr 0, s))
  ∧ (expire_points_for user now s).1 = inr (expirable_points user now s).
Proof.
  intros Hs Hp. pose proof (expires_spec user now s p Hp) as Hspec.
  rewrite expire_run by (intros q; by apply store_ok_owner). rewrite Hp. split_and!.
  - intros Hidle. rewrite (proj2 Hspec Hidle). split; [done|]. intros now'.
    rewrite expire_run by (intros q; by apply store_ok_owner, expired_ok).
    rewrite expired_profile_of, decide_True by done. unfold expires.
    by rewrite expired_profile_of, decide_True, (proj1 (proj2 (setp_points_0 p))).
  - intros Hno. destruct (expires user now s) eqn:E; [|done]. by destruct Hno; apply Hspec.
  - unfold expirable_points, expires. rewrite Hp, Z.ltb_antisym.
    destruct (MINIMUM_TO_EXPIRE <=? Points.p_points p), (is_inactive user now s); done.
Qed.

(** The daily sweep touches points and nothing else: coins, withdrawal
    requests and logins are as they were; the conservation of points between
    ledger, balance and requests still holds; and each account is zeroed
    exactly when it is in the batch and its own activity is stale, whatever the
    sweep did to the accounts before it. *)
Theorem sweep_spec candidates now s :
  store_ok s →
  let s' := (expire_inactive_points candidates now s).2 in
  store_ok s' ∧ swept (firstn BATCH_SIZE candidates) now s s'.
Proof.
  intros Hs s'. split; [by apply expire_loop_ok|by apply expire_loop_swept].
Qed.

(** The sweep may never reach an account: when the first [BATCH_SIZE]
    rows of the candidate query are active accounts the run changes nothing, so
    the next day's query, over the same rows, starts with the same ones. *)
Theorem sweep_starves candidates now s :
  store_ok s → (∀ u, u ∈ firstn BATCH_SIZE candidates → is_inactive u now s = false) →
  (expire_inactive_points candidates now s).2 = s.
Proof.
  unfold expire_inactive_points. generalize (firstn BATCH_SIZE candidates) as us.
  generalize (0, 0, 0). intros acc us Hs. revert acc.
  induction us as [|u us IH]; intros [[e nu] np] H; [done|]. cbn [expire_loop].
  rewrite bind_run. unfold catch. rewrite bind_run.
  rewrite expire_run by (intros q; by apply store_ok_owner).
  assert (expires u now s = false) as ->.
  { unfold expires. destruct (profile_of u s); [|done]. by rewrite H, andb_false_r by left. }
  assert (∀ v, v ∈ us → is_inactive v now s = false) as H' by (intros v Hv; apply H; by right).
  destruct (profile_of u s); cbn; by apply IH.
Qed.

(** The funded user of [Withdrawal], who last logged in on day 0. *)
Definition sleeping_store : store := Store Withdrawal.funded_store {[ 1 := 0 ]}.

Lemma expire_points_for_spec_witness :
  expire_points_for 1 (200 * day) sleeping_store
  = (inr 5000, expired 1 (200 * day) Withdrawal.funded_user sleeping_store).
Proof.
  destruct (expire_points_for_spec 1 (200 * day) sleeping_store Withdrawal.funded_user
    Withdrawal.funded_conserved eq_refl) as [H _].
  refine (proj1 (H _)).
  apply (expires_spec 1 (200 * day) sleeping_store Withdrawal.funded_user eq_refl).
  vm_compute. reflexivity.
Defined.

Lemma sweep_spec_witness :
  let s' := (expire_inactive_points [1] (200 * day) sleeping_store).2 in
  store_ok s' ∧ (Points.p_points <$> profile_of 1 s') = Some 0.
Proof.
  destruct (sweep_spec [1] (200 * day) sleeping_store Withdrawal.funded_conserved) as [H _].
  split; [exact H|vm_compute; reflexivity].
Defined.

Lemma sweep_starves_witness :
  (expire_inactive_points [1] (100 * day) sleeping_store).2 = sleeping_store.
Proof.
  apply sweep_starves; [exact Withdrawal.funded_conserved|].
  intros u Hu. apply list_elem_of_singleton in Hu as ->. vm_compute. reflexivity.
Defined.

End PointsExpiry.
