(* ===== verification/CoinPricing.v ===== *)
(** * CoinPricing: what an amount of birr buys

    Models [src/api/services/coin_pricing.py], the shipped packages of
    [src/api/services/coin_packages.py] and [CoinPackage] of
    [src/api/models/contest.py]. *)

From Stdlib Require Import ZArith Lia.
From stdpp Require Import sorting.
From S2P Require Import Prelude Decimal WalletConfig.

Module CoinPricing.

(** [CoinPackage]; the price in cents. *)
Record package := Package {
  pk_id : Z;
  pk_name : string;
  pk_price_etb : Z;
  pk_coin_amount : Z;
  pk_bonus_coins : Z;
  pk_is_featured : bool;
  pk_sort_order : Z;
  pk_is_active : bool
}.

Definition get_total_coins (p : package) : Z := pk_coin_amount p + pk_bonus_coins p.

(** [Meta.ordering = ['sort_order', 'price_etb']]. *)
Definition package_le (p q : package) : Prop :=
  pk_sort_order p < pk_sort_order q
  ∨ pk_sort_order p = pk_sort_order q ∧ pk_price_etb p <= pk_price_etb q.
#[export] Instance package_le_dec p q : Decision (package_le p q).
Proof. unfold package_le. apply _. Defined.

(** [_active_packages]. *)
Definition active_packages (table : list package) : list package :=
  merge_sort package_le
    (filter (λ p, pk_is_active p = true ∧ ¬ pk_price_etb p <= 0) table).

(** [base_coins_per_birr]: the lowest rate of the packages that price coins. *)
Definition package_rate (p : package) : option dec :=
  if (pk_price_etb p <=? 0) || (pk_coin_amount p =? 0) then None
  else Some (dec_div (of_int (pk_coin_amount p)) (of_cents (pk_price_etb p))).

(** [min(rates)] keeps the first of equal values. *)
Definition min_rate (rates : list dec) : option dec :=
  match rates with
  | [] => None
  | r :: rs => Some (fold_left dec_min rs r)
  end.

Definition base_coins_per_birr (rows : list package) : option dec :=
  min_rate (omap package_rate rows).

Definition limits (c : WalletConfig.config) : Z * Z :=
  (WalletConfig.custom_purchase_min_etb c, WalletConfig.custom_purchase_max_etb c).

(** A buyer's input, as [Decimal(str(raw).strip())] reads it. *)
Inductive raw_amount :=
| RawBlank                (** [None], or only white space *)
| RawUnreadable           (** the constructor raises *)
| RawNotFinite            (** [NaN], [Infinity] *)
| RawNumber (d : dec).

Definition pricing_error {A} (code msg : string) : exn + A := inl (CoinPricingError msg code).

(** [amount.quantize(TWO_PLACES)]: raises when the digits do not fit. *)
Definition quantize_amount (d : dec) : exn + Z :=
  let c := quantize2 d in
  if ndigits c <=? prec then inr c else inl InvalidOperation.

(** [parse_amount], in cents. *)
Definition parse_amount (raw : raw_amount) : exn + Z :=
  match raw with
  | RawBlank => pricing_error "amount_required" "Enter an amount in Birr."
  | RawUnreadable | RawNotFinite =>
      pricing_error "amount_invalid" "Enter a valid amount in Birr."
  | RawNumber d =>
      if dec_leb d (of_int 0)
      then pricing_error "amount_not_positive" "Enter an amount greater than 0."
      else if dexp d <? -2
      then pricing_error "amount_too_precise" "Amounts can have at most 2 decimal places."
      else quantize_amount d
  end.

Record quoted := Quoted {
  qt_amount_etb : Z;
  qt_coins : Z;
  qt_package : option package;
  qt_bonus_coins : Z
}.

(** [quote], for an amount already parsed and within the limits. *)
Definition price_amount (rows : list package) (amount : Z) : exn + quoted :=
  match List.find (λ p, pk_price_etb p =? amount) rows with
  | Some p => inr (Quoted amount (get_total_coins p) (Some p) (pk_bonus_coins p))
  | None =>
      match base_coins_per_birr rows with
      | None =>
          pricing_error "pricing_unavailable"
            "Coin pricing is unavailable right now. Please try again later."
      | Some rate =>
          if coef rate =? 0
          then pricing_error "pricing_unavailable"
                 "Coin pricing is unavailable right now. Please try again later."
          else
            let coins := to_integral_down (dec_mul (of_cents amount) rate) in
            if coins <=? 0
            then pricing_error "below_minimum" (money_str amount +:+ " Birr is too small to buy a coin.")
            else inr (Quoted amount coins None 0)
      end
  end.

Definition quote (raw : raw_amount) (c : WalletConfig.config) (rows : list package)
    : exn + quoted :=
  match parse_amount raw with
  | inl e => inl e
  | inr amount =>
      let '(low, high) := limits c in
      if amount <? low
      then pricing_error "below_minimum" ("The smallest purchase is " +:+ money_str low +:+ " Birr.")
      else if amount >? high
      then pricing_error "above_maximum" ("The largest purchase is " +:+ money_str high +:+ " Birr.")
      else price_amount rows amount
  end.

(** [public_pricing]: enabled, the rate and the two limits as text. *)
Definition public_pricing (c : WalletConfig.config) (table : list package)
    : bool * option dec * string * string :=
  let '(low, high) := limits c in
  let rate := base_coins_per_birr (active_packages table) in
  (bool_decide (is_Some rate), rate, money_str low, money_str high).

(** ** The shipped packages *)

Definition COINS_PER_ETB : Z := 10.

Definition COIN_PACKAGES : list package := [
  Package 1 "Starter Pack" 1000 100 0 false 1 true;
  Package 2 "Most Popular" 5000 500 75 true 2 true;
  Package 3 "Best Deal" 10000 1000 200 false 3 true;
  Package 4 "Premium Package" 25000 2500 625 false 4 true;
  Package 5 "Ultimate Package" 50000 5000 1500 false 5 true ].

(** ** A uniform rate

    [uniform r rows]: every package that prices coins sells [r] per birr. *)

Definition uniform (r : Z) (rows : list package) : Prop :=
  0 < r < 10 ^ 9 ∧ ∀ p, p ∈ rows → 0 < pk_price_etb p → pk_coin_amount p ≠ 0 →
    0 < pk_coin_amount p ∧ pk_price_etb p * r = pk_coin_amount p * 100.

Definition at_rate (r : Z) (d : dec) : Prop := 0 <= dexp d + 0 ∧ at_scale 0 d = r.

Lemma package_rate_uniform r rows p d :
  uniform r rows → p ∈ rows → package_rate p = Some d → at_rate r d.
Proof.
  intros [Hr Hu] Hp. unfold package_rate.
  destruct (Z.leb_spec (pk_price_etb p) 0), (Z.eqb_spec (pk_coin_amount p) 0);
    cbn [orb]; try done. intros [= <-].
  destruct (Hu p Hp) as [Hpos Heq]; [lia|lia|].
  destruct (dec_div_at_scale (of_int (pk_coin_amount p)) (of_cents (pk_price_etb p)) r 2)
    as [H1 H2]; unfold of_int, of_cents in *; cbn [coef dexp] in *; try (unfold prec; lia).
  split; [lia|exact H2].
Qed.

Lemma fold_min_in rs r : fold_left dec_min rs r ∈ r :: rs.
Proof.
  revert r. induction rs as [|q rs IH]; intros r; cbn [fold_left]; [left|].
  specialize (IH (dec_min r q)). unfold dec_min in *. destruct (dec_ltb q r); set_solver.
Qed.

Lemma base_rate_uniform r rows d :
  uniform r rows → base_coins_per_birr rows = Some d → at_rate r d.
Proof.
  intros Hu. unfold base_coins_per_birr, min_rate.
  destruct (omap package_rate rows) as [|q rs] eqn:E; [done|]. intros [= <-].
  assert (fold_left dec_min rs q ∈ omap package_rate rows) as Hin by (rewrite E; apply fold_min_in).
  apply list_elem_of_omap in Hin as (p & Hp & Hrate). by eapply package_rate_uniform.
Qed.

(** The whole coins an amount buys at a rate read as [r] per birr. *)
Lemma coins_at_rate r d a :
  at_rate r d → 0 <= r → 0 <= a → a * r < 10 ^ prec →
  to_integral_down (dec_mul (of_cents a) d) = a * r / 100.
Proof.
  intros [Hs Hv] Hr Ha Hb.
  destruct (dec_mul_exact (of_cents a) d 2 0) as [H1 H2]; [cbn; lia|done| |].
  { rewrite Hv. unfold at_scale, of_cents. cbn [coef dexp]. change (10 ^ (-2 + 2)) with 1.
    rewrite Z.mul_1_r, Z.abs_eq by nia. done. }
  rewrite Hv in H2. unfold at_scale at 2, of_cents in H2. cbn [coef dexp] in H2.
  change (10 ^ (-2 + 2)) with 1 in H2. change (2 + 0) with 2 in *.
  fold (of_cents a) in H2.
  apply to_integral_down_at_scale with (s := 2); [lia|lia|rewrite H2; nia|rewrite H2; lia].
Qed.

Lemma parse_amount_cents a :
  0 < a < 10 ^ prec → parse_amount (RawNumber (of_cents a)) = inr a.
Proof.
  intros Ha. unfold parse_amount. assert (dec_leb (of_cents a) (of_int 0) = false) as ->.
  { unfold dec_leb, dec_cmp, scale_to, of_cents, of_int. cbn [coef dexp].
    change (Z.min (-2) 0) with (-2). change (10 ^ (-2 - -2)) with 1.
    destruct (Z.compare_spec (a * 1) (0 * 10 ^ (0 - -2))); [lia|lia|done]. }
  change (dexp (of_cents a) <? -2) with false. cbn iota.
  unfold quantize_amount. rewrite quantize2_cents.
  pose proof (ndigits_bound a prec ltac:(done)). destruct (Z.leb_spec (ndigits a) prec); [done|lia].
Qed.

(** ** Properties *)

Definition error_code {A} (r : exn + A) : option string :=
  match r with inl (CoinPricingError _ code) => Some code | _ => None end.

Definition package_at (rows : list package) (a : Z) : option package :=
  List.find (λ p, pk_price_etb p =? a) rows.

Lemma price_amount_at_rate rows r d a :
  uniform r rows → base_coins_per_birr rows = Some d → 0 < a < 10 ^ 18 →
  package_at rows a = None →
  price_amount rows a =
    if a * r / 100 <=? 0
    then pricing_error "below_minimum" (money_str a +:+ " Birr is too small to buy a coin.")
    else inr (Quoted a (a * r / 100) None 0).
Proof.
  intros Hu Hd Ha Hp. pose proof (base_rate_uniform _ _ _ Hu Hd) as Hrate.
  unfold price_amount, package_at in *. rewrite Hp, Hd. destruct Hu as [Hr _].
  assert (coef d =? 0 = false) as ->.
  { apply Z.eqb_neq. intros E. destruct Hrate as [_ Hv]. unfold at_scale in Hv. rewrite E in Hv. lia. }
  rewrite (coins_at_rate r) by (done || unfold prec; nia). done.
Qed.

(** While every package prices its base coins at the same whole rate
    [r], a quote for [a] cents does what it says.  Outside the configured
    limits it is refused with the code that names the broken rule; at exactly
    a package's price it is that package, bonus included; anywhere else it is
    the whole coins of [a * r / 100] rounded down and no bonus -- so a custom
    amount never buys a coin that was not paid for, and never loses a whole
    one -- and less than one coin is refused. *)
Theorem quote_at_uniform_rate c rows r d a :
  uniform r rows → base_coins_per_birr rows = Some d → a < 10 ^ 18 →
  let res := quote (RawNumber (of_cents a)) c rows in
  let low := WalletConfig.custom_purchase_min_etb c in
  let high := WalletConfig.custom_purchase_max_etb c in
  (a <= 0 → error_code res = Some "amount_not_positive")
  ∧ (0 < a < low → error_code res = Some "below_minimum")
  ∧ (0 < a → low <= a → high < a → error_code res = Some "above_maximum")
  ∧ (0 < a → low <= a <= high →
      match package_at rows a with
      | Some p => res = inr (Quoted a (get_total_coins p) (Some p) (pk_bonus_coins p))
      | None =>
          (a * r < 100 → error_code res = Some "below_minimum")
          ∧ (100 <= a * r → ∃ n, res = inr (Quoted a n None 0) ∧ 100 * n <= a * r < 100 * (n + 1))
      end).
Proof.
  intros Hu Hd Hbig res low high.
  assert (0 < a → parse_amount (RawNumber (of_cents a)) = inr a) as Hparse
    by (intros; apply parse_amount_cents; unfold prec; lia).
  unfold res, quote, limits. fold low. fold high. split_and!.
  - intros Ha. unfold parse_amount.
    assert (dec_leb (of_cents a) (of_int 0) = true) as ->; [|done].
    unfold dec_leb, dec_cmp, scale_to, of_cents, of_int. cbn [coef dexp].
    change (Z.min (-2) 0) with (-2). change (10 ^ (-2 - -2)) with 1.
    by destruct (Z.compare_spec (a * 1) (0 * 10 ^ (0 - -2))); [| |lia].
  - intros Ha. rewrite Hparse by lia. by destruct (Z.ltb_spec a low); [|lia].
  - intros Ha Hlo Hhi. rewrite Hparse by done. rewrite Z.gtb_ltb.
    destruct (Z.ltb_spec a low); [lia|]. by destruct (Z.ltb_spec high a); [|lia].
  - intros Ha [Hlo Hhi]. rewrite Hparse by done. rewrite Z.gtb_ltb.
    destruct (Z.ltb_spec a low); [lia|]. destruct (Z.ltb_spec high a); [lia|].
    destruct (package_at rows a) as [p|] eqn:Hp.
    + unfold price_amount. unfold package_at in Hp. by rewrite Hp.
    + rewrite (price_amount_at_rate rows r d) by (done || lia).
      pose proof (Z.div_mod (a * r) 100 ltac:(lia)). pose proof (Z.mod_pos_bound (a * r) 100 ltac:(lia)).
      split; intros Hc; destruct (Z.leb_spec (a * r / 100) 0); try lia; [done|].
      eexists. split; [done|]. lia.
Qed.

Lemma shipped_uniform : uniform COINS_PER_ETB COIN_PACKAGES.
Proof.
  split; [unfold COINS_PER_ETB; lia|]. unfold COINS_PER_ETB, COIN_PACKAGES.
  intros p Hp _ _. repeat (apply elem_of_cons in Hp as [->|Hp]; [cbn; lia|]).
  by apply not_elem_of_nil in Hp.
Qed.

(** 37.55 birr at the shipped 10 coins per birr: 375 coins. *)
Lemma quote_at_uniform_rate_witness :
  quote (RawNumber (of_cents 3755)) (WalletConfig.default_config 0) COIN_PACKAGES
  = inr (Quoted 3755 375 None 0).
Proof.
  destruct (quote_at_uniform_rate (WalletConfig.default_config 0) COIN_PACKAGES COINS_PER_ETB
    (Dec 1 1) 3755 shipped_uniform ltac:(vm_compute; reflexivity) ltac:(lia)) as (_ & _ & _ & H).
  destruct (H ltac:(lia) ltac:(vm_compute; split; discriminate)) as [_ H2].
  destruct (H2 ltac:(vm_compute; discriminate)) as (n & -> & Hn).
  do 2 f_equal. unfold COINS_PER_ETB in Hn. lia.
Defined.

(** Reading an amount is not total: a number whose two-place form needs
    more than 28 digits passes every check and then makes [quantize] raise
    [InvalidOperation], which is no [CoinPricingError], whatever the limits
    and the packages. *)
Theorem quote_huge_amount_escapes c rows m k :
  0 < m < 10 ^ prec → 28 <= k →
  quote (RawNumber (Dec m k)) c rows = inl InvalidOperation
  ∧ is_value_error InvalidOperation = false.
Proof.
  intros Hm Hk. split; [|done]. unfold quote, parse_amount.
  assert (10 ^ prec <= 10 ^ k) by (apply Z.pow_le_mono_r; unfold prec; lia).
  assert (dec_leb (Dec m k) (of_int 0) = false) as ->.
  { unfold dec_leb, dec_cmp, scale_to, of_int. cbn [coef dexp]. rewrite Z.min_r by lia.
    rewrite !Z.sub_0_r. destruct (Z.compare_spec (m * 10 ^ k) (0 * 10 ^ 0)); [nia|nia|done]. }
  destruct (Z.ltb_spec (dexp (Dec m k)) (-2)) as [H1|_]; [cbn in H1; lia|].
  unfold quantize_amount, quantize2. cbn [coef dexp].
  destruct (Z.leb_spec (-2) k) as [_|]; [|lia].
  destruct (Z.leb_spec (ndigits (m * 10 ^ (k + 2))) prec) as [Hle|]; [|done]. exfalso.
  pose proof (ndigits_upper (m * 10 ^ (k + 2))) as Hup.
  assert (10 ^ ndigits (m * 10 ^ (k + 2)) <= 10 ^ prec)
    by (apply Z.pow_le_mono_r; lia).
  assert (10 ^ (k + 2) = 10 ^ k * 100) as Hp by (rewrite Z.pow_add_r by lia; done).
  rewrite Z.abs_eq in Hup by nia. nia.
Qed.

Lemma quote_huge_amount_escapes_witness :
  quote (RawNumber (Dec 1 30)) (WalletConfig.default_config 0) COIN_PACKAGES = inl InvalidOperation.
Proof. apply quote_huge_amount_escapes; [unfold prec; lia|lia]. Defined.

(** Away from a whole rate the 28-digit quotient can cost the buyer a
    coin: at 10 coins for 3 birr, 300 birr are worth exactly 1,000 coins, and
    the quote is 999. *)
Theorem quote_can_lose_a_coin :
  let rows := [Package 1 "Odd" 300 10 0 false 1 true] in
  quote (RawNumber (of_cents 30000)) (WalletConfig.default_config 0) rows
  = inr (Quoted 30000 999 None 0)
  ∧ 30000 * 10 = 1000 * 300.
Proof. vm_compute. done. Qed.

End CoinPricing.
