(* ===== verification/PaymentStatus.v ===== *)
(** * PaymentStatus: one vocabulary for what a payment's state is

    Models [src/api/services/payment_status.py].  The provider's wording is
    classified with regular expressions, for which the file has a small
    backtracking matcher ([re.search], without captures). *)

From Stdlib Require Import ZArith Lia.
From S2P Require Import Prelude.

(** ** Regular expressions *)
Module Regex.

Inductive re :=
| Chr (p : ascii → bool)
| Seq (a b : re)
| Alt (a b : re)
| Plus (p : ascii → bool)      (** one or more, a class *)
| Opt (p : ascii → bool)       (** zero or one, a class *)
| Eps
| Bound.                       (** [\b] *)

Definition is_word (c : ascii) : bool :=
  let n := nat_of_ascii c in
  ((48 <=? n) && (n <=? 57) || (65 <=? n) && (n <=? 90) || (n =? 95)
   || (97 <=? n) && (n <=? 122))%nat.

Fixpoint eat (p : ascii → bool) (prev : option ascii) (s : list ascii)
    : list (option ascii * list ascii) :=
  match s with
  | c :: s' => if p c then eat p (Some c) s' ++ [(Some c, s')] else []
  | [] => []
  end.

(** The ways to match [r] at the front of [s], after the character [prev]. *)
Fixpoint matches (r : re) (prev : option ascii) (s : list ascii)
    : list (option ascii * list ascii) :=
  match r with
  | Eps => [(prev, s)]
  | Chr p => match s with c :: s' => if p c then [(Some c, s')] else [] | [] => [] end
  | Seq a b => flat_map (λ r, matches b r.1 r.2) (matches a prev s)
  | Alt a b => matches a prev s ++ matches b prev s
  | Plus p => eat p prev s
  | Opt p => match s with
             | c :: s' => (if p c then [(Some c, s')] else []) ++ [(prev, s)]
             | [] => [(prev, s)]
             end
  | Bound =>
      let before := match prev with Some c => is_word c | None => false end in
      let after := match s with c :: _ => is_word c | [] => false end in
      if xorb before after then [(prev, s)] else []
  end.

Fixpoint search_from (r : re) (prev : option ascii) (s : list ascii) : bool :=
  match matches r prev s with
  | _ :: _ => true
  | [] => match s with c :: s' => search_from r (Some c) s' | [] => false end
  end.

Definition search (r : re) (s : string) : bool := search_from r None (String.list_ascii_of_string s).

Definition lit (s : string) : re :=
  foldr (λ c r, Seq (Chr (Ascii.eqb c)) r) Eps (String.list_ascii_of_string s).
Fixpoint alts (rs : list re) : re :=
  match rs with [] => Chr (λ _, false) | [r] => r | r :: rs' => Alt r (alts rs') end.
Definition spaces : re := Plus is_space.

End Regex.

Module PaymentStatus.
Import Regex.

Definition SUCCESS : string := "SUCCESS".
Definition FAILED : string := "FAILED".
Definition PENDING : string := "PENDING".
Definition CANCELLED : string := "CANCELLED".

Definition TERMINAL_STATES : list string := [SUCCESS; FAILED; CANCELLED].
Definition is_terminal (state : string) : bool := bool_decide (state ∈ TERMINAL_STATES).
Definition grants_value (state : string) : bool := String.eqb state SUCCESS.

Definition INSUFFICIENT_BALANCE : string := "INSUFFICIENT_BALANCE".
Definition WRONG_PIN : string := "WRONG_PIN".
Definition USER_CANCELLED : string := "USER_CANCELLED".
Definition REJECTED : string := "REJECTED".
Definition TIMEOUT : string := "TIMEOUT".
Definition UNKNOWN : string := "UNKNOWN".

Definition REASON_MESSAGES : list (string * string) := [
  (INSUFFICIENT_BALANCE, "Your telebirr balance was not enough to complete this payment. Top up and try again -- you have not been charged.");
  (WRONG_PIN, "The PIN entered was not correct, so the payment was not completed. You have not been charged.");
  (USER_CANCELLED, "The payment was cancelled, so nothing was charged.");
  (REJECTED, "telebirr could not complete this payment. Please try again, or contact telebirr if it keeps happening.");
  (TIMEOUT, "The payment request expired before it was approved. Nothing was charged -- please try again.");
  (UNKNOWN, "The payment was not completed. You have not been charged.") ].

Definition assoc {A} (k : string) (l : list (string * A)) : option A :=
  snd <$> List.find (λ kv, String.eqb kv.1 k) l.

Definition reason_message (reason : option string) : string :=
  default "The payment was not completed. You have not been charged."
    (assoc (or_str (default "" reason) UNKNOWN) REASON_MESSAGES).

Definition REASON_PATTERNS : list (string * re) := [
  (INSUFFICIENT_BALANCE, alts [lit "insufficient"; Seq (lit "not") (Seq spaces (lit "enough"));
     Seq (lit "low") (Seq spaces (lit "balance"));
     Seq (lit "balance") (Seq spaces (Seq (lit "is") (Seq spaces (lit "not"))))]);
  (WRONG_PIN, alts [Seq Bound (Seq (lit "pin") Bound); lit "password"; lit "credential"]);
  (USER_CANCELLED, alts [lit "cancel"; lit "abort"; lit "dismiss";
     Seq (lit "user") (Seq spaces (lit "decline"))]);
  (TIMEOUT, alts [Seq (lit "time") (Seq (Opt (λ c, is_space c || Ascii.eqb c "-"%char)) (lit "out"));
     Seq (lit "timed") (Seq spaces (lit "out")); lit "expire"]);
  (REJECTED, alts [lit "reject"; lit "decline"; lit "refus"; lit "denied";
     Seq (lit "not") (Seq spaces (lit "permitted")); lit "forbidden"]) ].

Definition classify_reason (description : option string) : string :=
  let text := lower (default "" description) in
  if String.eqb (strip text) "" then UNKNOWN
  else default UNKNOWN (fst <$> List.find (λ rp, search rp.2 text) REASON_PATTERNS).

Definition from_ussd_result (result_code result_type description : option string)
    : string * option string :=
  let code := strip (default "" result_code) in
  let rtype := strip (default "" result_type) in
  if String.eqb code "0" && String.eqb rtype "0" then (SUCCESS, None)
  else
    let reason := classify_reason description in
    if String.eqb reason USER_CANCELLED then (CANCELLED, Some reason) else (FAILED, Some reason).

Definition H5_ORDER_STATES : list (string * (string * option string)) := [
  ("PAY_SUCCESS", (SUCCESS, None)); ("SUCCESS", (SUCCESS, None)); ("COMPLETED", (SUCCESS, None));
  ("PAY_FAILED", (FAILED, Some REJECTED)); ("FAILED", (FAILED, Some REJECTED));
  ("CLOSED", (CANCELLED, Some USER_CANCELLED)); ("CANCELLED", (CANCELLED, Some USER_CANCELLED));
  ("CANCELED", (CANCELLED, Some USER_CANCELLED));
  ("PAY_TIMEOUT", (FAILED, Some TIMEOUT)); ("TIMEOUT", (FAILED, Some TIMEOUT));
  ("WAIT_PAY", (PENDING, None)); ("PAYING", (PENDING, None)); ("PENDING", (PENDING, None));
  ("INIT", (PENDING, None)) ].

Definition H5_TRADE_STATES : list (string * (string * option string)) := [
  ("COMPLETED", (SUCCESS, None)); ("SUCCESS", (SUCCESS, None)); ("TRADE_SUCCESS", (SUCCESS, None));
  ("PAY_SUCCESS", (SUCCESS, None)); ("FAILED", (FAILED, Some REJECTED));
  ("CLOSED", (CANCELLED, Some USER_CANCELLED)); ("CANCELLED", (CANCELLED, Some USER_CANCELLED));
  ("TIMEOUT", (FAILED, Some TIMEOUT)); ("WAITING", (PENDING, None)); ("WAIT_PAY", (PENDING, None));
  ("PENDING", (PENDING, None)) ].

(** [(s or '').strip().upper()]. *)
Definition status_key (s : option string) : string := upper (strip (default "" s)).

Definition h5_lookup (order_status trade_status : option string) : option (string * option string) :=
  match assoc (status_key order_status) H5_ORDER_STATES with
  | Some r => Some r
  | None => assoc (status_key trade_status) H5_TRADE_STATES
  end.

Definition from_h5_order (order_status trade_status description : option string)
    : string * option string :=
  match h5_lookup order_status trade_status with
  | None => (PENDING, None)
  | Some (state, reason) =>
      if bool_decide (state ∈ [FAILED; CANCELLED]) && negb (String.eqb (default "" description) "")
      then
        let from_text := classify_reason description in
        if String.eqb from_text UNKNOWN then (state, reason)
        else (if String.eqb from_text USER_CANCELLED then CANCELLED else state, Some from_text)
      else (state, reason)
  end.

(** [payload]: state, is_final, reason, message (absent for a success). *)
Definition payload (state : string) (reason : option string)
    : string * bool * option string * option string :=
  (state, is_terminal state, reason,
   if String.eqb state SUCCESS then None else Some (reason_message reason)).

Example classify_examples :
  map (λ d, classify_reason (Some d))
    ["Balance is  not sufficient"; "Wrong PIN"; "User pinned"; "The request timed out"; "Time-out";
     "User decline"; "Access denied"; "  "]
  = [INSUFFICIENT_BALANCE; WRONG_PIN; UNKNOWN; TIMEOUT; TIMEOUT; USER_CANCELLED; REJECTED; UNKNOWN].
Proof. vm_compute. reflexivity. Qed.

(** ** Properties *)

Lemma assoc_in {A} k (l : list (string * A)) v : assoc k l = Some v → v ∈ l.*2.
Proof.
  unfold assoc. destruct (List.find _ l) as [[k' v']|] eqn:E; [|done]. intros [= <-].
  apply List.find_some in E as [Hin _]. apply list_elem_of_In in Hin.
  apply list_elem_of_fmap. by exists (k', v').
Qed.

(** A successful entry carries no reason, a failed one the reason it is named
    for, and a pending one none. *)
Definition entry_ok (r : string * option string) : bool :=
  bool_decide (r ∈ [(SUCCESS, None); (PENDING, None); (FAILED, Some REJECTED);
                    (FAILED, Some TIMEOUT); (CANCELLED, Some USER_CANCELLED)]).

Lemma h5_entry o t r : h5_lookup o t = Some r → entry_ok r = true.
Proof.
  intros H. assert (r ∈ H5_ORDER_STATES.*2 ∨ r ∈ H5_TRADE_STATES.*2) as Hin.
  { unfold h5_lookup in H. destruct (assoc (status_key o) H5_ORDER_STATES) eqn:E.
    - injection H as <-. left. by eapply assoc_in.
    - right. by eapply assoc_in. }
  assert (Forall (λ r, entry_ok r = true) (H5_ORDER_STATES.*2 ++ H5_TRADE_STATES.*2)) as Hall.
  { repeat constructor. }
  rewrite Forall_forall in Hall. apply Hall. set_solver.
Qed.

Lemma classify_range d :
  classify_reason d ∈ [INSUFFICIENT_BALANCE; WRONG_PIN; USER_CANCELLED; TIMEOUT; REJECTED; UNKNOWN].
Proof.
  unfold classify_reason. destruct (String.eqb _ ""); [set_solver|].
  destruct (List.find _ REASON_PATTERNS) as [[r p]|] eqn:E; [|set_solver].
  apply List.find_some in E as [Hin _]. cbn [fmap option_fmap option_map fst default].
  cbn in Hin. repeat destruct Hin as [[= <- _]|Hin]; set_solver.
Qed.

(** The three shapes an H5 outcome has. *)
Lemma h5_outcome o t d :
  (h5_lookup o t = Some (SUCCESS, None) ∧ from_h5_order o t d = (SUCCESS, None))
  ∨ ((h5_lookup o t = None ∨ h5_lookup o t = Some (PENDING, None))
     ∧ from_h5_order o t d = (PENDING, None))
  ∨ (∃ s r s' r', h5_lookup o t = Some (s, Some r) ∧ from_h5_order o t d = (s', Some r')
     ∧ (s = FAILED ∨ s = CANCELLED) ∧ (s' = FAILED ∨ s' = CANCELLED)).
Proof.
  unfold from_h5_order. destruct (h5_lookup o t) as [[state reason]|] eqn:Hl; [|naive_solver].
  pose proof (h5_entry _ _ _ Hl) as Hok%bool_decide_eq_true. set_unfold in Hok.
  destruct_or! Hok; simplify_eq; [by left|by right; left; auto|..].
  all: right; right; destruct (bool_decide _ && _); [|by eauto 10].
  all: destruct (String.eqb (classify_reason d) UNKNOWN); [by eauto 10|].
  all: destruct (String.eqb (classify_reason d) USER_CANCELLED); by eauto 12.
Qed.

(** Success is never guessed.  A USSD result is a success exactly when
    its code and type both read 0, and otherwise a terminal failure with a
    reason, a cancellation exactly when the wording says so.  An H5 order is a
    success exactly when the provider's own status is a success status --
    whatever the description -- a status the tables do not know is pending, and
    a description can turn a failure into a cancellation but no outcome into a
    success or out of pending. *)
Theorem payment_states_sound :
  (∀ code ty d, let '(state, reason) := from_ussd_result code ty d in
     (grants_value state = true ↔ strip (default "" code) = "0" ∧ strip (default "" ty) = "0")
     ∧ is_terminal state = true
     ∧ (grants_value state = true ↔ reason = None)
     ∧ (state = CANCELLED ↔ reason = Some USER_CANCELLED))
  ∧ (∀ o t d, let '(state, reason) := from_h5_order o t d in
     (grants_value state = true ↔ h5_lookup o t = Some (SUCCESS, None))
     ∧ (is_terminal state = false ↔ h5_lookup o t = None ∨ h5_lookup o t = Some (PENDING, None))
     ∧ (is_Some reason ↔ state ∈ [FAILED; CANCELLED])).
Proof.
  split.
  - intros code ty d. unfold from_ussd_result.
    destruct (String.eqb_spec (strip (default "" code)) "0") as [E1|E1],
      (String.eqb_spec (strip (default "" ty)) "0") as [E2|E2]; cbn [andb].
    { rewrite E1, E2. split_and!; done. }
    all: destruct (String.eqb_spec (classify_reason d) USER_CANCELLED) as [Ec|Ec];
      rewrite ?Ec; (split_and!; try done); (split; [try discriminate; naive_solver|]);
      intros H; try discriminate H; naive_solver.
  - intros o t d.
    destruct (h5_outcome o t d) as [[Hl ->]|[[Hl ->]|(s & r & s' & r' & Hl & -> & Hs & Hs')]].
    + rewrite Hl. split_and!; [done|naive_solver|]. split; [by intros []|set_solver].
    + split_and!; [|done|split; [by intros []|set_solver]].
      split; [done|]. by destruct Hl as [->| ->].
    + rewrite Hl. split_and!.
      * destruct Hs' as [->| ->]; naive_solver.
      * destruct Hs' as [->| ->]; naive_solver.
      * split; [intros _; set_solver|eauto].
Qed.

End PaymentStatus.
