(* ===== verification/CoinPurchase.v ===== *)
(** * CoinPurchase: buying coins with Telebirr

    Models the purchase handlers of [src/api/views/wallet.py] -- the H5 order
    ([telebirr_initiate_payment], [telebirr_callback], [telebirr_query_order],
    [_credit_telebirr_order]) and the USSD push ([telebirr_ussd_purchase],
    [telebirr_ussd_webhook], [_credit_telebirr_ussd_order]) -- with the
    duplicate guard of [src/api/services/coin_packages.py].

    The subscriber check that precedes both initiations and Telebirr's own
    answers are arguments. *)

From Stdlib Require Import ZArith Lia.
From stdpp Require Import sorting.
From S2P Require Import Prelude Decimal WalletConfig CoinBalance CoinPricing PaymentStatus.

Module CoinPurchase.
Import CoinBalance CoinPricing.

Record store := Store {
  s_config : WalletConfig.config_table;
  s_packages : gmap Z package;
  s_wallet : wallet
}.

Definition in_wallet {A} : M wallet A → M store A :=
  zoom s_wallet (λ w s, Store (s_config s) (s_packages s) w).

Definition package_rows (s : store) : list package :=
  active_packages (snd <$> map_to_list (s_packages s)).

(** ** The duplicate guard *)

Definition PENDING_PURCHASE_WINDOW_SECONDS : Z := 10 * 60.

Definition awaiting (user : Z) (pkg : option package) (now : Z) (t : coin_tx) : bool :=
  (ct_user t =? user) && String.eqb (ct_type t) "purchase"
  && String.eqb (ct_payment_method t) "telebirr_ussd"
  && negb (ct_is_successful t)
  && (now - PENDING_PURCHASE_WINDOW_SECONDS * second <=? ct_created_at t)
  && negb (String.eqb (ct_payment_reference t) "")
  && match pkg with
     | Some p => bool_decide (ct_package t = Some (pk_id p))
     | None => true
     end.

(** [order_by('-created_at').first()]. *)
Definition newest (ts : list coin_tx) : option coin_tx :=
  match ts with
  | [] => None
  | t :: ts => Some (fold_left (λ b t, if ct_created_at b <? ct_created_at t then t else b) ts t)
  end.

Definition pending_coin_purchase (user : Z) (pkg : option package) (now : Z) (w : wallet)
    : option coin_tx :=
  newest (filter (λ t, awaiting user pkg now t = true) (w_txs w)).

(** ** What is being bought *)

Record selection := Selection {
  sel_package : option package;
  sel_quoted_coins : option Z;
  sel_amount_etb : option Z
}.

Definition select (package_id : option Z) (raw : option raw_amount) (now : Z)
    : M store (response + selection) :=
  match package_id, raw with
  | Some id, _ =>
      op ← gets (λ s, s_packages s !! id);
      mret (match op with
            | Some p => if pk_is_active p then inr (Selection (Some p) None None)
                        else inl (Resp 404 "Package not found or inactive")
            | None => inl (Resp 404 "Package not found or inactive")
            end)
  | None, Some raw =>
      c ← zoom s_config (λ c s, Store c (s_packages s) (s_wallet s)) (WalletConfig.get_config now);
      rows ← gets package_rows;
      match quote raw c rows with
      | inr q => mret (inr (Selection (qt_package q) (Some (qt_coins q)) (Some (qt_amount_etb q))))
      | inl (CoinPricingError msg code) => mret (inl (bad msg))
      | inl e => raise e
      end
  | None, None => mret (inl (bad "package_id or amount_etb is required"))
  end.

(** The coins the buyer is told, and will be credited. *)
Definition sel_coins (sel : selection) : Z :=
  match sel_package sel with
  | Some p => get_total_coins p
  | None => default 0 (sel_quoted_coins sel)
  end.

Definition sel_amount (sel : selection) : string :=
  match sel_package sel with
  | Some p => money_str (pk_price_etb p)
  | None => money_str (default 0 (sel_amount_etb sel))
  end.

Definition purchase_row (user : Z) (method reference : string) (sel : selection)
    (description state reason : string) (now : Z) : coin_tx :=
  CoinTx user "purchase" 0 (pk_id <$> sel_package sel) method reference None None 0
    (sel_quoted_coins sel) (sel_amount_etb sel) description false state reason reference now.

(** [telebirr_initiate_payment], after the subscriber check; [order] is what
    [create_order_ondemand] answers for an amount and a title. *)
Definition telebirr_initiate_payment (order : string → string → string + string) (user : Z)
    (package_id : option Z) (raw : option raw_amount) (now : Z) : M store response :=
  r ← select package_id raw now;
  match r with
  | inl resp => mret resp
  | inr sel =>
      let title := match sel_package sel with
                   | Some p => pk_name p
                   | None => str_int (sel_coins sel) +:+ " FlipStar coins"
                   end in
      match order (sel_amount sel) title with
      | inl error => mret (bad error)
      | inr merch_order_id =>
          in_wallet (create_tx (purchase_row user "telebirr" merch_order_id sel
            ("Pending Telebirr H5 payment for " +:+ title) PaymentStatus.PENDING "" now)) ≫= λ _,
          mret (Resp 200 (str_int (sel_coins sel)))
      end
  end.

(** [telebirr_ussd_purchase], after the subscriber check; [phone] is the
    number on the buyer's profile and [push] what
    [initiate_ussd_push_payment] answers for an amount and the coins. *)
Definition telebirr_ussd_purchase (push : string → Z → string + string) (phone : option string)
    (user : Z) (package_id : option Z) (raw : option raw_amount) (now : Z) : M store response :=
  r ← select package_id raw now;
  match r with
  | inl resp => mret resp
  | inr sel =>
      match phone with
      | None => mret (Resp 404 "User profile not found")
      | Some "" => mret (bad "Phone number not found in profile")
      | Some _ =>
          existing ← gets (λ s,
            match sel_package sel with
            | Some p => pending_coin_purchase user (Some p) now (s_wallet s)
            | None => None
            end);
          match existing with
          | Some _ => mret (Resp 409 "PURCHASE_PENDING")
          | None =>
              let what := match sel_package sel with
                          | Some p => pk_name p | None => sel_amount sel +:+ " ETB" end in
              match push (sel_amount sel) (sel_coins sel) with
              | inl error =>
                  let t := purchase_row user "telebirr_ussd" "" sel
                    (prefix_of 255 ("Failed USSD Push initiation for " +:+ what +:+ ": " +:+ error))
                    PaymentStatus.FAILED (PaymentStatus.classify_reason (Some error)) now in
                  in_wallet (create_tx t) ≫= λ _, mret (Resp 502 error)
              | inr conversation =>
                  let descr :=
                    match sel_package sel with
                    | Some p => "Pending USSD Push payment for " +:+ pk_name p
                    | None => "Pending USSD Push payment for " +:+ sel_amount sel +:+ " ETB ("
                              +:+ str_int (sel_coins sel) +:+ " coins)"
                    end in
                  in_wallet (create_tx (purchase_row user "telebirr_ussd" conversation sel
                    descr PaymentStatus.PENDING "" now)) ≫= λ _,
                  mret (Resp 200 (str_int (sel_coins sel)))
              end
          end
      end
  end.

(** ** Crediting *)

Definition unpaid (method reference : string) (t : coin_tx) : bool :=
  String.eqb (ct_payment_reference t) reference
  && String.eqb (ct_payment_method t) method && negb (ct_is_successful t).

(** The positions of the rows a [.get(...)] matches. *)
Fixpoint positions {A} (p : A → bool) (l : list A) : list nat :=
  match l with
  | [] => []
  | x :: l' => (if p x then [O] else []) ++ (S <$> positions p l')
  end.

Definition credit_cols : list col :=
  [telebirr_purchased_balance; purchased_balance; balance; total_purchased;
   total_telebirr_purchased].

Definition credited_row (n : Z) (reference description : string) (t : coin_tx) : coin_tx :=
  CoinTx (ct_user t) (ct_type t) n (ct_package t) (ct_payment_method t) reference
    (ct_recipient t) (ct_reel t) (ct_fee_amount t) (ct_quoted_coins t) (ct_amount_etb t)
    description true PaymentStatus.SUCCESS "" (ct_provider_conversation_id t) (ct_created_at t).

(** The coins a paid row is worth. *)
Definition worth (packages : gmap Z package) (t : coin_tx) : Z :=
  match ct_package t ≫= λ id, packages !! id with
  | Some p => get_total_coins p
  | None => or_int (default 0 (ct_quoted_coins t)) 0
  end.

Definition credited_balance (n : Z) (r : ucb) : ucb :=
  sync_balance (addc total_purchased n
    (addc total_telebirr_purchased n (addc telebirr_purchased_balance n r))).

(** [_credit_telebirr_order] and [_credit_telebirr_ussd_order]: the same
    code but for the payment method and the description. *)
Definition credit_order (method : string) (describe : option package → coin_tx → Z → string)
    (reference : string) (payment_id : option string) (now : Z) : M store (bool * Z) :=
  atomic (
    s ← get;
    match positions (unpaid method reference) (w_txs (s_wallet s)) with
    | [] => mret (false, 0)
    | _ :: _ :: _ => raise (MultipleObjectsReturned "CoinTransaction")
    | [i] =>
        match w_txs (s_wallet s) !! i with
        | None => raise (DoesNotExist "CoinTransaction")
        | Some t =>
            let pkg := ct_package t ≫= λ id, s_packages s !! id in
            let total_coins := worth (s_packages s) t in
            balance ← in_wallet (get_locked (ct_user t));
            in_wallet (save_row credit_cols (credited_balance total_coins balance) now) ≫= λ _,
            in_wallet (modify (λ w, Wallet (w_rows w)
              (alter (credited_row total_coins (or_str (default "" payment_id) reference)
                        (describe pkg t total_coins)) i (w_txs w)))) ≫= λ _,
            mret (true, total_coins)
        end
    end).

Definition describe_h5 (pkg : option package) (t : coin_tx) (n : Z) : string :=
  "Successful Telebirr payment for " +:+ match pkg with Some p => pk_name p | None => "Unknown" end.

Definition describe_ussd (pkg : option package) (t : coin_tx) (n : Z) : string :=
  match pkg with
  | Some p => "Successful USSD Push payment for " +:+ pk_name p
  | None => "Successful USSD Push payment for "
      +:+ match ct_amount_etb t with Some a => money_str a | None => "None" end
      +:+ " ETB (" +:+ str_int n +:+ " coins)"
  end.

Definition credit_telebirr_order := credit_order "telebirr" describe_h5.
Definition credit_telebirr_ussd_order := credit_order "telebirr_ussd" describe_ussd.

(** ** Results from the provider *)

Definition settled_row (description state reason : string) (t : coin_tx) : coin_tx :=
  CoinTx (ct_user t) (ct_type t) (ct_coins t) (ct_package t) (ct_payment_method t)
    (ct_payment_reference t) (ct_recipient t) (ct_reel t) (ct_fee_amount t)
    (ct_quoted_coins t) (ct_amount_etb t) description (ct_is_successful t) state reason
    (ct_provider_conversation_id t) (ct_created_at t).

(** [filter(p).update(...)]. *)
Definition update_rows (p : coin_tx → bool) (f : coin_tx → coin_tx) : M store unit :=
  in_wallet (modify (λ w, Wallet (w_rows w) ((λ t, if p t then f t else t) <$> w_txs w))).

Definition h5_waiting (reference : string) (t : coin_tx) : bool :=
  String.eqb (ct_payment_reference t) reference && String.eqb (ct_payment_method t) "telebirr"
  && String.eqb (ct_payment_state t) PaymentStatus.PENDING.

(** [telebirr_callback], for a notification whose signature verified. *)
Definition telebirr_callback (merch_order_id trade_status payment_order_id : option string)
    (now : Z) : M store response :=
  let reference := default "" merch_order_id in
  if String.eqb reference "" then mret (bad "Missing merch_order_id")
  else if String.prefix "SUB" reference then mret (Resp 200 "subscription")
  else
    let '(state, reason) := PaymentStatus.from_h5_order None trade_status None in
    if negb (PaymentStatus.grants_value state) then
      when (PaymentStatus.is_terminal state)
        (update_rows (h5_waiting reference)
           (settled_row (prefix_of 255 ("Failed Telebirr payment: "
                           +:+ default "None" trade_status)) state (default "" reason))) ≫= λ _,
      mret (Resp 200 "received")
    else
      '(handled, n) ← credit_telebirr_order reference payment_order_id now;
      mret (Resp 200 (if handled : bool then "success" else "already processed")).

(** [telebirr_query_order], for an order the provider found. *)
Definition telebirr_query_order (merch_order_id : string)
    (order_status trade_status payment_order_id : option string) (now : Z) : M store response :=
  if String.eqb merch_order_id "" then mret (bad "merch_order_id is required")
  else
    let '(state, reason) := PaymentStatus.from_h5_order order_status trade_status None in
    (if PaymentStatus.grants_value state
     then credit_telebirr_order merch_order_id payment_order_id now ≫= λ _, mret tt
     else when (PaymentStatus.is_terminal state)
       (update_rows (h5_waiting merch_order_id)
          (settled_row (prefix_of 255 ("Failed Telebirr payment: "
             +:+ or_str (default "" order_status) state)) state (default "" reason)))) ≫= λ _,
    mret (Resp 200 state).

Definition ussd_open (reference : string) (t : coin_tx) : bool :=
  unpaid "telebirr_ussd" reference t
  && (String.eqb (ct_payment_state t) PaymentStatus.PENDING
      || String.eqb (ct_payment_state t) PaymentStatus.SUCCESS).

(** [telebirr_ussd_webhook]: the fields are the text of their elements, which
    the parser strips; [None] when the element is absent.  A conversation that
    is no coin purchase goes on to the subscription flow. *)
Definition telebirr_ussd_webhook (conversation result_type result_code result_desc transaction_id
    : option string) (now : Z) : M store response :=
  let conversation := strip <$> conversation in
  let result_type := strip <$> result_type in
  let result_code := strip <$> result_code in
  let result_desc := strip <$> result_desc in
  let transaction_id := strip <$> transaction_id in
  if bool_decide (result_code = Some "0") && bool_decide (result_type = Some "0") then
    match conversation with
    | None => mret (Resp 200 "not found")
    | Some reference =>
        '(handled, n) ← credit_telebirr_ussd_order reference transaction_id now;
        mret (Resp 200 (if handled : bool then "success" else "not found"))
    end
  else
    let '(state, reason) := PaymentStatus.from_ussd_result result_code result_type result_desc in
    match conversation with
    | None => mret tt
    | Some reference =>
        update_rows (ussd_open reference)
          (settled_row (prefix_of 255 ("Failed USSD Push payment: " +:+ default "None" result_desc))
             state (default "" reason))
    end ≫= λ _,
    mret (Resp 200 "received").

(** ** Events *)

(** A package edited or added (its counts are [PositiveIntegerField]s), and
    one removed ([on_delete=SET_NULL]). *)
Definition put_package (p : package) : M store unit :=
  assert_or ((0 <=? pk_coin_amount p) && (0 <=? pk_bonus_coins p))
    (IntegrityError "coin_packages") ≫= λ _,
  modify (λ s, Store (s_config s) (<[pk_id p := p]> (s_packages s)) (s_wallet s)).

Definition without_package (id : Z) (t : coin_tx) : coin_tx :=
  if bool_decide (ct_package t = Some id)
  then CoinTx (ct_user t) (ct_type t) (ct_coins t) None (ct_payment_method t)
         (ct_payment_reference t) (ct_recipient t) (ct_reel t) (ct_fee_amount t)
         (ct_quoted_coins t) (ct_amount_etb t) (ct_description t) (ct_is_successful t)
         (ct_payment_state t) (ct_payment_reason t) (ct_provider_conversation_id t)
         (ct_created_at t)
  else t.

Definition delete_package (id : Z) : M store unit :=
  modify (λ s, Store (s_config s) (delete id (s_packages s))
    (Wallet (w_rows (s_wallet s)) (without_package id <$> w_txs (s_wallet s)))).

Inductive event :=
| EInitiate (order : string → string → string + string) (user : Z) (package_id : option Z)
    (raw : option raw_amount) (now : Z)
| EPush (push : string → Z → string + string) (phone : option string) (user : Z)
    (package_id : option Z) (raw : option raw_amount) (now : Z)
| ENotify (merch_order_id trade_status payment_order_id : option string) (now : Z)
| EQuery (merch_order_id : string) (order_status trade_status payment_order_id : option string)
    (now : Z)
| EWebhook (conversation result_type result_code result_desc transaction_id : option string) (now : Z)
| ECoins (self : ucb) (now : Z) (o : CoinBalance.op)
| EPutPackage (p : package)
| EDeletePackage (id : Z).

Definition exec (e : event) : M store unit :=
  match e with
  | EInitiate order u pid raw now => telebirr_initiate_payment order u pid raw now ≫= λ _, mret tt
  | EPush push ph u pid raw now => telebirr_ussd_purchase push ph u pid raw now ≫= λ _, mret tt
  | ENotify m t p now => telebirr_callback m t p now ≫= λ _, mret tt
  | EQuery m o t p now => telebirr_query_order m o t p now ≫= λ _, mret tt
  | EWebhook c ty code d tx now => telebirr_ussd_webhook c ty code d tx now ≫= λ _, mret tt
  | ECoins self now o => in_wallet (CoinBalance.exec self now o)
  | EPutPackage p => put_package p
  | EDeletePackage id => delete_package id
  end.

Definition step (s : store) (e : event) : store := (exec e s).2.
Definition run (s : store) (es : list event) : store := fold_left step es s.

(** ** The ledger's purchase rows *)

Definition txs (s : store) : list coin_tx := w_txs (s_wallet s).

(** The two columns that say how a payment went agree, a row not yet
    successful is worth nothing, and a quote is never negative. *)
Definition row_wf (t : coin_tx) : Prop :=
  (ct_is_successful t = true ↔ ct_payment_state t = PaymentStatus.SUCCESS)
  ∧ (ct_is_successful t = false → ct_coins t = 0)
  ∧ (∀ q, ct_quoted_coins t = Some q → 0 <= q).

Definition pending_key (t : coin_tx) : option (string * string) :=
  if ct_is_successful t || String.eqb (ct_payment_reference t) "" then None
  else Some (ct_payment_method t, ct_payment_reference t).

Record store_ok (s : store) : Prop := StoreOk {
  ok_wallet : wallet_ok (s_wallet s);
  ok_rows : Forall row_wf (txs s);
  ok_keys : NoDup (omap pending_key (txs s));
  ok_packages : ∀ id p, s_packages s !! id = Some p → 0 <= get_total_coins p
}.

(** What may become of a row: a finished one stays as it is. *)
Definition evolves (t t' : coin_tx) : Prop :=
  ct_user t' = ct_user t ∧ ct_payment_method t' = ct_payment_method t
  ∧ (ct_is_successful t = true →
       ct_is_successful t' = true ∧ ct_coins t' = ct_coins t
       ∧ ct_payment_state t' = ct_payment_state t
       ∧ ct_payment_reference t' = ct_payment_reference t).

Definition history (s s' : store) : Prop :=
  ∀ i t, txs s !! i = Some t → ∃ t', txs s' !! i = Some t' ∧ evolves t t'.

Lemma evolves_refl t : evolves t t.
Proof. by split_and!. Qed.
Lemma evolves_trans t1 t2 t3 : evolves t1 t2 → evolves t2 t3 → evolves t1 t3.
Proof.
  intros (A & B & C) (D & E & F). split_and!; [congruence..|]. intros H.
  destruct (C H) as (C1 & C2 & C3 & C4). destruct (F C1) as (F1 & F2 & F3 & F4).
  split_and!; congruence.
Qed.

#[export] Instance history_preorder : PreOrder history.
Proof.
  split.
  - intros s i t Ht. eauto using evolves_refl.
  - intros s1 s2 s3 H12 H23 i t Ht. destruct (H12 i t Ht) as (t2 & Ht2 & E2).
    destruct (H23 i t2 Ht2) as (t3 & Ht3 & E3). eauto using evolves_trans.
Qed.

(** ** List lemmas *)

Lemma ledger_sum u ts :
  sumZ ct_coins (ledger_of u ts) = sumZ (λ t, if decide (ct_user t = u) then ct_coins t else 0) ts.
Proof.
  induction ts as [|t ts IH]; [done|]. unfold ledger_of in *. rewrite filter_cons, sumZ_cons.
  case_decide; [by rewrite sumZ_cons, IH|lia].
Qed.

Lemma sumZ_alter {A} (f : A → Z) g l i x :
  l !! i = Some x → sumZ f (alter g i l) = sumZ f l - f x + f (g x).
Proof.
  revert i. induction l as [|y l IH]; intros [|i] H; [done|done|..].
  - injection H as ->. cbn [alter list_alter]. rewrite !sumZ_cons. lia.
  - cbn in *. rewrite !sumZ_cons. fold (alter g i l). rewrite (IH i H). lia.
Qed.

Lemma sumZ_fmap_same {A} (f : A → Z) (g : A → A) l :
  (∀ x, x ∈ l → f (g x) = f x) → sumZ f (g <$> l) = sumZ f l.
Proof.
  induction l as [|x l IH]; intros H; [done|]. cbn. rewrite !sumZ_cons, (H x), IH by set_solver. done.
Qed.

Lemma positions_spec {A} (p : A → bool) l i :
  i ∈ positions p l ↔ ∃ x, l !! i = Some x ∧ p x = true.
Proof.
  revert i. induction l as [|x l IH]; intros i; cbn [positions].
  - split; [by intros ?%not_elem_of_nil|by intros (? & ? & _)].
  - rewrite elem_of_app, list_elem_of_fmap. destruct i as [|i].
    + destruct (p x) eqn:E; split.
      * intros _. by exists x.
      * intros _. left. left.
      * intros [H|(y & ? & ?)]; [by apply not_elem_of_nil in H|done].
      * intros (y & [= <-] & ?). congruence.
    + cbn. rewrite <- IH. destruct (p x); set_solver.
Qed.

Lemma omap_key_unique (ts : list coin_tx) i j ti tj k :
  NoDup (omap pending_key ts) → ts !! i = Some ti → ts !! j = Some tj →
  pending_key ti = Some k → pending_key tj = Some k → i = j.
Proof.
  revert i j. induction ts as [|t ts IH]; intros i j Hnd Hi Hj Ki Kj; [done|].
  assert (∀ n t', ts !! n = Some t' → pending_key t' = Some k → k ∈ omap pending_key ts) as Hin.
  { intros n t' Hn Kn. apply list_elem_of_omap. exists t'. split; [|done].
    by eapply list_elem_of_lookup_2. }
  cbn in Hnd. destruct i as [|i], j as [|j]; cbn in Hi, Hj; simplify_eq; [done|..].
  - rewrite Ki in Hnd. destruct (NoDup_cons_1_1 _ _ Hnd). eapply Hin; done.
  - rewrite Kj in Hnd. destruct (NoDup_cons_1_1 _ _ Hnd). eapply Hin; done.
  - f_equal. apply (IH i j); try done. destruct (pending_key t); [exact (NoDup_cons_1_2 _ _ Hnd)|done].
Qed.

Lemma omap_alter_sublist (g : coin_tx → coin_tx) ts i :
  (∀ t, pending_key (g t) = None) → omap pending_key (alter g i ts) `sublist_of` omap pending_key ts.
Proof.
  intros Hg. revert i. induction ts as [|t ts IH]; intros [|i]; cbn; [done|done|..].
  - rewrite Hg. destruct (pending_key t); [by apply sublist_cons|done].
  - destruct (pending_key t); [apply sublist_skip|]; apply IH.
Qed.

(** ** What keeps a store good *)

Definition good (s0 s : store) : Prop := store_ok s ∧ history s0 s.

Lemma good_txs s0 s s' :
  good s0 s → wallet_ok (s_wallet s') → Forall row_wf (txs s') →
  NoDup (omap pending_key (txs s')) →
  (∀ id p, s_packages s' !! id = Some p → 0 <= get_total_coins p) →
  history s s' → good s0 s'.
Proof. intros [_ Hh] H1 H2 H3 H4 H5. split; [by constructor|by transitivity s]. Qed.

Lemma fmap_history s s' g :
  txs s' = g <$> txs s → Forall (λ t, evolves t (g t)) (txs s) → history s s'.
Proof.
  intros E Hg i t Ht. exists (g t). rewrite Forall_lookup in Hg. split; [|by eapply Hg].
  by rewrite E, list_lookup_fmap, Ht.
Qed.

Lemma ledger_fmap u (g : coin_tx → coin_tx) ts :
  (∀ t, ct_user (g t) = ct_user t ∧ ct_coins (g t) = ct_coins t) →
  sumZ ct_coins (ledger_of u (g <$> ts)) = sumZ ct_coins (ledger_of u ts).
Proof.
  intros Hg. rewrite !ledger_sum. apply sumZ_fmap_same. intros t _. destruct (Hg t) as [-> ->]. done.
Qed.

Lemma wallet_ok_fmap w g :
  (∀ t, ct_user (g t) = ct_user t ∧ ct_coins (g t) = ct_coins t) →
  wallet_ok w → wallet_ok (Wallet (w_rows w) (g <$> w_txs w)).
Proof.
  intros Hg [Hr Hn]. split; cbn; intros u; [intros r Hu|intros Hu];
    rewrite ledger_fmap by done; by auto.
Qed.

(** A bulk update that keeps owners, coins and keys. *)
Lemma fmap_good s0 s s' (g : coin_tx → coin_tx) :
  s_wallet s' = Wallet (w_rows (s_wallet s)) (g <$> txs s) →
  s_packages s' ⊆ s_packages s →
  (∀ t, ct_user (g t) = ct_user t ∧ ct_coins (g t) = ct_coins t
        ∧ pending_key (g t) = pending_key t ∧ (row_wf t → row_wf (g t) ∧ evolves t (g t))) →
  good s0 s → good s0 s'.
Proof.
  intros E Epk Hg Hs. assert (txs s' = g <$> txs s) as Et by (unfold txs at 1; by rewrite E).
  pose proof Hs as [[Hw Hr Hk Hp] _]. apply (good_txs s0 s); [done|..].
  - rewrite E. apply wallet_ok_fmap; [|done]. intros t. by destruct (Hg t) as (? & ? & _).
  - rewrite Et, Forall_fmap. eapply Forall_impl; [exact Hr|]. intros t Ht. by apply Hg.
  - rewrite Et. replace (omap pending_key (g <$> txs s)) with (omap pending_key (txs s)); [done|].
    clear -Hg. induction (txs s) as [|t ts IH]; [done|]. cbn.
    destruct (Hg t) as (_ & _ & -> & _). by rewrite IH.
  - intros id p Hpk. apply (Hp id p). by apply (lookup_weaken _ _ _ _ Hpk).
  - apply (fmap_history _ _ g); [done|]. eapply Forall_impl; [exact Hr|]. intros t Ht. by apply Hg.
Qed.

Lemma settled_good s0 p descr state reason :
  (∀ t, p t = true → row_wf t → ct_is_successful t = false) → state ≠ PaymentStatus.SUCCESS →
  preserves (good s0) (update_rows p (settled_row descr state reason)).
Proof.
  intros Hp Hst s Hs. eapply fmap_good; [reflexivity|done| |exact Hs]. intros t. cbn beta.
  destruct (p t) eqn:E; [|by split_and!].
  split_and!; [done..|]. intros Hwf. pose proof (Hp t E Hwf) as Hf. split.
  - destruct Hwf as (_ & Hz & Hq). split_and!; cbn; rewrite ?Hf; [split; [done|]|auto|done].
    intros H. by destruct Hst.
  - split_and!; [done..|]. by rewrite Hf.
Qed.

(** A new pending row. *)
Lemma clash_key n t :
  clash n t = false → pending_key n ≠ None → pending_key t ≠ pending_key n.
Proof.
  unfold clash, pending_reference_clash, pending_key. intros Hc Hn.
  destruct (ct_is_successful n); [done|].
  destruct (String.eqb (ct_payment_reference n) "") eqn:En; [done|].
  destruct (ct_is_successful t); [done|].
  destruct (String.eqb (ct_payment_reference t) ""); [done|].
  intros [= Hm Href]. rewrite Hm, Href, !String.eqb_refl in Hc. done.
Qed.

Lemma create_good s0 n :
  ct_coins n = 0 → ct_is_successful n = false → ct_payment_state n ≠ PaymentStatus.SUCCESS →
  (∀ q, ct_quoted_coins n = Some q → 0 <= q) →
  preserves (good s0) (in_wallet (create_tx n)).
Proof.
  intros Hc Hf Hst Hq s Hs. unfold in_wallet. rewrite zoom_run. cbn [snd].
  destruct (create_tx n (s_wallet s)) as [[e|t] w'] eqn:H.
  { unfold create_tx in H. rewrite bind_run in H. cbn in H.
    destruct (existsb _ _); [|done]. injection H as _ <-. by destruct s. }
  apply create_tx_ok in H as (_ & Hcl & ->). pose proof Hs as [[Hw Hr Hk Hp] _].
  assert (∀ t, t ∈ txs s → clash n t = false) as Hall.
  { intros t' Ht. destruct (clash n t') eqn:E; [|done]. rewrite <- Hcl. symmetry.
    apply existsb_exists. exists t'. split; [by apply list_elem_of_In|done]. }
  set (s' := Store (s_config s) (s_packages s) (Wallet (w_rows (s_wallet s)) (txs s ++ [n]))).
  change (good s0 s'). assert (txs s' = txs s ++ [n]) as Et by done.
  apply (good_txs s0 s); [done|..]; rewrite ?Et.
  - destruct Hw as [Hwr Hwn]. split; cbn; intros u; [intros r Hu|intros Hu];
      rewrite ledger_snoc, sumZ_app; case_decide; autorewrite with sums; rewrite ?Hc.
    all: unfold txs; try (destruct (Hwr _ _ Hu) as (?&?&?); split_and!; [done..|lia]).
    all: by rewrite (Hwn _ Hu).
  - apply Forall_app. split; [done|]. apply Forall_singleton.
    split_and!; rewrite ?Hf; done.
  - rewrite omap_app. cbn. destruct (pending_key n) as [k|] eqn:Ek; [|by rewrite app_nil_r].
    apply NoDup_app. split_and!; [done| |apply NoDup_singleton].
    intros k' (t1 & Ht & Hkt)%list_elem_of_omap ->%list_elem_of_singleton.
    apply (clash_key n t1); [by apply Hall|by rewrite Ek|congruence].
  - exact Hp.
  - intros i t1 Ht. exists t1. split; [|apply evolves_refl].
    rewrite Et. by apply lookup_app_l_Some.
Qed.

(** ** Crediting *)

Definition credited (i : nat) (t : coin_tx) (r : ucb) (n : Z) (reference description : string)
    (now : Z) (s : store) : store :=
  Store (s_config s) (s_packages s)
    (Wallet (alter (save_fields credit_cols (credited_balance n r) now) (ct_user t)
               (w_rows (s_wallet s)))
       (alter (credited_row n reference description) i (txs s))).

Lemma credited_balance_user n r : u_user (credited_balance n r) = u_user r.
Proof. by destruct r. Qed.

Lemma credit_hit method describe reference pid now s i t r :
  positions (unpaid method reference) (txs s) = [i] → txs s !! i = Some t →
  w_rows (s_wallet s) !! ct_user t = Some r → u_user r = ct_user t →
  let n := worth (s_packages s) t in
  credit_order method describe reference pid now s =
  (inr (true, n),
   credited i t r n (or_str (default "" pid) reference)
     (describe (ct_package t ≫= λ id, s_packages s !! id) t n) now s).
Proof.
  intros Hpos Ht Hr Hu n. unfold credit_order, atomic. rewrite bind_run. unfold get at 1.
  unfold txs in *. rewrite Hpos, Ht. rewrite bind_run.
  unfold in_wallet at 1. rewrite zoom_run. unfold get_locked. rewrite bind_run.
  cbn -[credited_balance credited_row worth]. rewrite Hr. cbn -[credited_balance credited_row worth].
  rewrite !bind_run. unfold in_wallet. rewrite !zoom_run. unfold save_row, modify.
  cbn -[credited_balance credited_row worth].
  rewrite credited_balance_user, Hu. done.
Qed.

Lemma credit_moves n r now :
  0 <= n → moves r (save_fields credit_cols (credited_balance n r) now r) n.
Proof. intros Hn. unfold credited_balance, credit_cols. row_solve. Qed.

Lemma worth_nonneg packages t :
  (∀ id p, packages !! id = Some p → 0 <= get_total_coins p) →
  (∀ q, ct_quoted_coins t = Some q → 0 <= q) → 0 <= worth packages t.
Proof.
  intros Hp Hq. unfold worth. destruct (ct_package t) as [id|]; cbn.
  - destruct (packages !! id) as [p|] eqn:E; [by eapply Hp|].
    rewrite or_int_0. destruct (ct_quoted_coins t); [by apply Hq|cbn; lia].
  - rewrite or_int_0. destruct (ct_quoted_coins t); [by apply Hq|cbn; lia].
Qed.

Lemma position_unpaid method reference s i :
  positions (unpaid method reference) (txs s) = [i] →
  ∃ t, txs s !! i = Some t ∧ ct_is_successful t = false
       ∧ ct_payment_method t = method ∧ ct_payment_reference t = reference.
Proof.
  intros Hpos. assert (i ∈ positions (unpaid method reference) (txs s)) as Hi
    by (rewrite Hpos; left).
  apply positions_spec in Hi as (t & Ht & Hu). exists t. unfold unpaid in Hu. by bool_prop.
Qed.

Lemma credited_wallet_ok i t r n reference description now s :
  wallet_ok (s_wallet s) → txs s !! i = Some t → ct_coins t = 0 → 0 <= n →
  w_rows (s_wallet s) !! ct_user t = Some r →
  wallet_ok (s_wallet (credited i t r n reference description now s)).
Proof.
  intros [Hw Hn] Ht Hz Hpos Hr. destruct (Hw _ _ Hr) as (Hu & Hok & Hb).
  destruct (credit_moves n r now Hpos) as [Hmu Hmv]. destruct (Hmv Hok) as [Hok' Hb'].
  assert (∀ u, sumZ ct_coins (ledger_of u (alter (credited_row n reference description) i (txs s)))
    = sumZ ct_coins (ledger_of u (txs s)) + if decide (u = ct_user t) then n else 0) as Hsum.
  { intros u. rewrite !ledger_sum, (sumZ_alter _ _ _ _ t Ht). cbn. rewrite Hz.
    repeat case_decide; simplify_eq; lia. }
  unfold credited. split; cbn; intros u.
  - intros r'. rewrite Hsum. case_decide as E; [subst|].
    + rewrite lookup_alter_eq, Hr. intros [= <-]. unfold txs. split_and!; [congruence|done|lia].
    + rewrite lookup_alter_ne by done. intros Hr'. destruct (Hw _ _ Hr') as (?&?&?).
      unfold txs. split_and!; [done..|lia].
  - intros Hnone. rewrite Hsum. case_decide as E; [subst; by rewrite lookup_alter_eq, Hr in Hnone|].
    rewrite lookup_alter_ne in Hnone by done. unfold txs. rewrite (Hn _ Hnone). done.
Qed.

Lemma Forall_alter_same {A} (P : A → Prop) g i l :
  Forall P l → (∀ x, l !! i = Some x → P x → P (g x)) → Forall P (alter g i l).
Proof.
  intros Hl Hg. apply Forall_lookup. intros j x. rewrite Forall_lookup in Hl.
  destruct (decide (j = i)) as [->|Hne].
  - rewrite list_lookup_alter_eq. destruct (l !! i) eqn:E; [|done]. intros [= <-]. eauto.
  - rewrite list_lookup_alter_ne by done. eauto.
Qed.

Lemma credited_good s0 i t r n reference description now s :
  good s0 s → txs s !! i = Some t → ct_is_successful t = false → 0 <= n →
  w_rows (s_wallet s) !! ct_user t = Some r →
  good s0 (credited i t r n reference description now s).
Proof.
  intros Hs Ht Hf Hpos Hr. pose proof Hs as [[Hw Hrows Hk Hp] _].
  pose proof (proj1 (Forall_lookup _ _) Hrows _ _ Ht) as (_ & Hz & Hq).
  apply (good_txs s0 s); [done|..].
  - apply credited_wallet_ok; auto.
  - apply Forall_alter_same; [done|]. intros x _ (_ & _ & Hqx). by split_and!.
  - eapply sublist_NoDup; [exact Hk|]. by apply omap_alter_sublist.
  - exact Hp.
  - intros j x Hx. unfold txs at 1, credited. cbn [s_wallet w_txs].
    destruct (decide (j = i)) as [->|Hne].
    + rewrite list_lookup_alter_eq, Ht. eexists. split; [done|]. simplify_eq.
      split_and!; [done..|]. by rewrite Hf.
    + rewrite list_lookup_alter_ne by done. eauto using evolves_refl.
Qed.

Lemma credit_miss method describe reference pid now s :
  (∀ i t, positions (unpaid method reference) (txs s) = [i] → txs s !! i = Some t →
     w_rows (s_wallet s) !! ct_user t = None) →
  (credit_order method describe reference pid now s).2 = s.
Proof.
  intros Hno. unfold credit_order, atomic. rewrite bind_run. unfold get at 1.
  destruct (positions (unpaid method reference) (w_txs (s_wallet s))) as [|i [|]] eqn:Hpos; [done| |done].
  destruct (w_txs (s_wallet s) !! i) as [t|] eqn:Ht; [|done]. rewrite bind_run.
  unfold in_wallet at 1. rewrite zoom_run. unfold get_locked. rewrite bind_run. cbn -[worth].
  by rewrite (Hno i t Hpos Ht).
Qed.

(** A credit finds its row and the buyer's wallet, or changes nothing. *)
Lemma credit_cases method describe reference pid now s :
  (∃ i t r, positions (unpaid method reference) (txs s) = [i] ∧ txs s !! i = Some t
     ∧ w_rows (s_wallet s) !! ct_user t = Some r)
  ∨ (credit_order method describe reference pid now s).2 = s.
Proof.
  destruct (positions (unpaid method reference) (txs s)) as [|i [|]] eqn:Hpos.
  - right. apply credit_miss. by rewrite Hpos.
  - destruct (position_unpaid _ _ _ _ Hpos) as (t & Ht & _).
    destruct (w_rows (s_wallet s) !! ct_user t) as [r|] eqn:Hr; [left; eauto 10|].
    right. apply credit_miss. intros i' t'. rewrite Hpos. intros [= <-]. naive_solver.
  - right. apply credit_miss. by rewrite Hpos.
Qed.

Lemma credit_good s0 method describe reference pid now :
  preserves (good s0) (credit_order method describe reference pid now).
Proof.
  intros s Hs. destruct (credit_cases method describe reference pid now s)
    as [(i & t & r & Hpos & Ht & Hr)| ->]; [|exact Hs].
  pose proof Hs as [[Hw Hrows _ Hp] _].
  rewrite (credit_hit _ _ _ _ _ _ i t r) by (done || by apply Hw).
  destruct (position_unpaid _ _ _ _ Hpos) as (t' & Ht' & Hf & _). simplify_eq.
  apply credited_good; [done|done|done| |done].
  pose proof (proj1 (Forall_lookup _ _) Hrows _ _ Ht) as (_ & _ & Hq).
  apply worth_nonneg; auto.
Qed.

(** ** The handlers *)

Lemma quote_nonneg raw c rows q :
  (∀ p, p ∈ rows → 0 <= get_total_coins p) → quote raw c rows = inr q → 0 <= qt_coins q.
Proof.
  intros Hrows. unfold quote. destruct (parse_amount raw) as [|a]; [done|].
  unfold limits. destruct (a <? _); [done|]. destruct (a >? _); [done|].
  unfold price_amount. destruct (List.find _ rows) as [p|] eqn:Hf.
  - intros [= <-]. cbn. apply Hrows. apply List.find_some in Hf as [Hin _].
    by apply list_elem_of_In.
  - destruct (base_coins_per_birr rows) as [rate|]; [|done]. destruct (coef rate =? 0); [done|].
    cbv zeta. destruct (_ <=? 0) eqn:E; [done|]. intros [= <-]. cbn. bool_prop. lia.
Qed.

Lemma package_rows_nonneg s p :
  store_ok s → p ∈ package_rows s → 0 <= get_total_coins p.
Proof.
  intros Hs Hp. unfold package_rows, active_packages in Hp.
  rewrite merge_sort_Permutation in Hp. apply list_elem_of_filter in Hp as [_ Hp].
  apply list_elem_of_fmap in Hp as ([id p'] & -> & Hin%elem_of_map_to_list).
  by apply (ok_packages _ Hs id).
Qed.

(** A selection's quote is never negative. *)
Definition sel_ok (r : response + selection) : Prop :=
  match r with
  | inr sel => ∀ q, sel_quoted_coins sel = Some q → 0 <= q
  | inl _ => True
  end.

Lemma select_good s0 package_id raw now s :
  good s0 s →
  let r := select package_id raw now s in
  good s0 r.2 ∧ match r.1 with inr x => sel_ok x | inl _ => True end.
Proof.
  intros Hs. unfold select. destruct package_id as [id|].
  - rewrite bind_run, gets_run. destruct (s_packages s !! id) as [p|]; [|done].
    by destruct (pk_is_active p).
  - destruct raw as [raw|]; [|done]. rewrite bind_run, zoom_run.
    destruct (WalletConfig.get_config now (s_config s)) as [x t].
    set (s1 := Store t (s_packages s) (s_wallet s)).
    assert (good s0 s1) as Hs1 by (destruct Hs as [[] Hh]; split; [by constructor|exact Hh]).
    destruct x as [e|c]; [split; [exact Hs1|exact I]|].
    cbn -[quote package_rows]. rewrite bind_run, gets_run. fold s1.
    destruct (quote raw c (package_rows s1)) as [e|q] eqn:Eq.
    + by destruct e.
    + split; [exact Hs1|]. cbn. intros n [= <-]. eapply quote_nonneg; [|exact Eq].
      intros p Hp. by apply (package_rows_nonneg s1); [apply Hs1|].
Qed.

Lemma select_then_good s0 {A} package_id raw now (k : response + selection → M store A) :
  (∀ r, sel_ok r → preserves (good s0) (k r)) →
  preserves (good s0) (select package_id raw now ≫= k).
Proof.
  intros Hk s Hs. rewrite bind_run. destruct (select_good s0 package_id raw now s Hs) as [Hg Hok].
  destruct (select package_id raw now s) as [[e|r] s1]; [done|]. by apply Hk.
Qed.

Lemma pending_row_good s0 user method reference sel descr state reason now :
  sel_ok (inr sel) → state ≠ PaymentStatus.SUCCESS →
  preserves (good s0)
    (in_wallet (create_tx (purchase_row user method reference sel descr state reason now))).
Proof. intros Hsel Hst. by apply create_good. Qed.

Lemma initiate_good s0 order user package_id raw now :
  preserves (good s0) (telebirr_initiate_payment order user package_id raw now).
Proof.
  apply select_then_good. intros [resp|sel] Hok; [apply preserves_ret|].
  cbv zeta. destruct (order _ _); [apply preserves_ret|].
  apply preserves_bind; [|intros; apply preserves_ret]. by apply pending_row_good.
Qed.

Lemma push_good s0 push phone user package_id raw now :
  preserves (good s0) (telebirr_ussd_purchase push phone user package_id raw now).
Proof.
  apply select_then_good. intros [resp|sel] Hok; [apply preserves_ret|].
  destruct phone as [[|c ph]|]; [apply preserves_ret| |apply preserves_ret].
  apply preserves_bind; [apply preserves_gets|intros [t|]]; [apply preserves_ret|].
  cbv zeta. destruct (push _ _).
  all: apply preserves_bind; [|intros; apply preserves_ret]; by apply pending_row_good.
Qed.

Lemma not_success state : PaymentStatus.grants_value state = false → state ≠ PaymentStatus.SUCCESS.
Proof. unfold PaymentStatus.grants_value. by intros H%String.eqb_neq. Qed.

Lemma h5_settle_good s0 reference descr state reason b :
  PaymentStatus.grants_value state = false →
  preserves (good s0)
    (when b (update_rows (h5_waiting reference) (settled_row descr state reason))).
Proof.
  intros Hst. apply preserves_when, settled_good; [|by apply not_success].
  intros t Hp [Hwf _]. unfold h5_waiting in Hp. bool_prop.
  destruct (ct_is_successful t); [|done]. by rewrite (proj1 Hwf eq_refl) in *.
Qed.

Lemma notify_good s0 m t p now : preserves (good s0) (telebirr_callback m t p now).
Proof.
  unfold telebirr_callback. cbv zeta. destruct (String.eqb _ ""); [apply preserves_ret|].
  destruct (String.prefix _ _); [apply preserves_ret|].
  destruct (PaymentStatus.from_h5_order _ _ _) as [state reason].
  destruct (PaymentStatus.grants_value state) eqn:Hg; cbn [negb].
  - apply preserves_bind; [apply credit_good|intros [h n]; apply preserves_ret].
  - apply preserves_bind; [by apply h5_settle_good|intros; apply preserves_ret].
Qed.

Lemma query_good s0 m o t p now : preserves (good s0) (telebirr_query_order m o t p now).
Proof.
  unfold telebirr_query_order. destruct (String.eqb m ""); [apply preserves_ret|].
  destruct (PaymentStatus.from_h5_order _ _ _) as [state reason].
  apply preserves_bind; [|intros; apply preserves_ret].
  destruct (PaymentStatus.grants_value state) eqn:Hg.
  - apply preserves_bind; [apply credit_good|intros; apply preserves_ret].
  - by apply h5_settle_good.
Qed.

(** The handler's own test of success agrees with the classifier's, because
    the parser has stripped the fields. *)
Lemma ussd_failure_state code ty d :
  bool_decide (strip <$> code = Some "0") && bool_decide (strip <$> ty = Some "0") = false →
  PaymentStatus.grants_value
    (PaymentStatus.from_ussd_result (strip <$> code) (strip <$> ty) d).1 = false.
Proof.
  intros H. apply not_true_iff_false. intros Hg. unfold PaymentStatus.from_ussd_result in Hg.
  assert (strip (default "" (strip <$> code)) = default "" (strip <$> code)) as E1
    by (destruct code; [apply strip_idemp|done]).
  assert (strip (default "" (strip <$> ty)) = default "" (strip <$> ty)) as E2
    by (destruct ty; [apply strip_idemp|done]).
  rewrite E1, E2 in Hg.
  destruct (String.eqb_spec (default "" (strip <$> code)) "0") as [F1|];
    [|by destruct (String.eqb _ PaymentStatus.USER_CANCELLED)].
  destruct (String.eqb_spec (default "" (strip <$> ty)) "0") as [F2|];
    [|by destruct (String.eqb _ PaymentStatus.USER_CANCELLED)].
  destruct code, ty; try done. cbn in F1, F2. cbn in H. rewrite F1, F2 in H. done.
Qed.

Lemma webhook_good s0 c ty code d tx now :
  preserves (good s0) (telebirr_ussd_webhook c ty code d tx now).
Proof.
  unfold telebirr_ussd_webhook. cbv zeta. destruct (_ && _) eqn:Hok.
  - destruct (strip <$> c); [|apply preserves_ret].
    apply preserves_bind; [apply credit_good|intros [h n]; apply preserves_ret].
  - pose proof (ussd_failure_state code ty (strip <$> d) Hok) as Hst.
    destruct (PaymentStatus.from_ussd_result _ _ _) as [state reason]. cbn in Hst.
    apply preserves_bind; [|intros; apply preserves_ret].
    destruct (strip <$> c); [|apply preserves_ret].
    apply settled_good; [|by apply not_success].
    intros t Hp _. unfold ussd_open, unpaid in Hp. by bool_prop.
Qed.

Lemma coins_good s0 self now o : preserves (good s0) (in_wallet (CoinBalance.exec self now o)).
Proof.
  intros s Hs. unfold in_wallet. rewrite zoom_run. cbn [snd].
  pose proof Hs as [[Hw Hr Hk Hp] _].
  pose proof (CoinBalance.exec_preserves self now o _ Hw) as Hw'.
  destruct (CoinBalance.exec_grows _ self now o _ (grows_refl (s_wallet s))) as (l & Hl & Hfin).
  set (w' := (CoinBalance.exec self now o (s_wallet s)).2) in *.
  apply (good_txs s0 s); [done|done|..]; unfold txs; cbn [s_wallet s_packages]; try rewrite Hl.
  - apply Forall_app. split; [done|]. eapply Forall_impl; [exact Hfin|].
    intros t (H1 & H2 & H3). unfold row_wf. rewrite H1, H2, H3. naive_solver.
  - rewrite omap_app. assert (omap pending_key l = []) as ->; [|by rewrite app_nil_r].
    clear -Hfin. induction Hfin as [|t l (H1 & _) _ IH]; [done|]. cbn.
    unfold pending_key at 1. by rewrite H1.
  - done.
  - intros i t Ht. exists t. split; [|apply evolves_refl]. unfold txs. cbn.
    rewrite Hl. by apply lookup_app_l_Some.
Qed.

Lemma put_package_good s0 p : preserves (good s0) (put_package p).
Proof.
  intros s Hs. unfold put_package. rewrite bind_run. unfold assert_or.
  destruct (_ && _) eqn:Hp; [|exact Hs]. bool_prop. cbn.
  pose proof Hs as [[Hw Hr Hk Hpk] _]. apply (good_txs s0 s); [done..| |].
  - intros id q. cbn. destruct (decide (id = pk_id p)) as [->|Hne].
    + rewrite lookup_insert_eq. intros [= <-]. unfold get_total_coins. lia.
    + rewrite lookup_insert_ne by done. apply Hpk.
  - intros i t Ht. eauto using evolves_refl.
Qed.

Lemma delete_package_good s0 id : preserves (good s0) (delete_package id).
Proof.
  intros s Hs. eapply fmap_good; [reflexivity|apply delete_subseteq| |exact Hs].
  intros t. unfold without_package. case_bool_decide; [|by split_and!].
  split_and!; [done..|]. intros (?&?&?). by split_and!.
Qed.

Lemma exec_good s0 e : preserves (good s0) (exec e).
Proof.
  destruct e; cbn [exec]; try (apply preserves_bind; [|intros; apply preserves_ret]).
  - apply initiate_good.
  - apply push_good.
  - apply notify_good.
  - apply query_good.
  - apply webhook_good.
  - apply coins_good.
  - apply put_package_good.
  - apply delete_package_good.
Qed.

(** ** One unpaid row per reference *)

Lemma positions_NoDup {A} (p : A → bool) l : NoDup (positions p l).
Proof.
  induction l as [|x l IH]; cbn [positions]; [constructor|]. apply NoDup_app. split_and!.
  - destruct (p x); [apply NoDup_singleton|constructor].
  - intros i Hi (j & -> & _)%list_elem_of_fmap. destruct (p x); set_solver.
  - by apply NoDup_fmap_2; [intros ?? [=]|].
Qed.

Lemma unpaid_unique s method reference i j ti tj :
  store_ok s → reference ≠ "" → txs s !! i = Some ti → txs s !! j = Some tj →
  unpaid method reference ti = true → unpaid method reference tj = true → i = j.
Proof.
  intros Hs Href Hi Hj Ui Uj.
  assert (∀ t, unpaid method reference t = true → pending_key t = Some (method, reference)) as Hkey.
  { intros t Ht. unfold unpaid in Ht. unfold pending_key. bool_prop. apply String.eqb_neq in Href.
    match goal with H : ct_is_successful t = false |- _ => rewrite H end.
    subst reference method. by rewrite Href. }
  apply (omap_key_unique (txs s) i j ti tj (method, reference)); auto using ok_keys.
Qed.

Lemma no_positions {A} (p : A → bool) l :
  (∀ i x, l !! i = Some x → p x = false) → positions p l = [].
Proof.
  intros H. destruct (positions p l) as [|i l'] eqn:E; [done|].
  assert (i ∈ positions p l) as (x & Hx & Hp)%positions_spec by (rewrite E; left).
  by rewrite (H _ _ Hx) in Hp.
Qed.

Lemma positions_singleton s method reference i t :
  store_ok s → reference ≠ "" → txs s !! i = Some t → unpaid method reference t = true →
  positions (unpaid method reference) (txs s) = [i].
Proof.
  intros Hs Href Ht Hu.
  assert (∀ j, j ∈ positions (unpaid method reference) (txs s) ↔ j = i) as Hin.
  { intros j. rewrite positions_spec. split; [|intros ->; eauto].
    intros (t' & Ht' & Hu'). by eapply unpaid_unique. }
  pose proof (positions_NoDup (unpaid method reference) (txs s)) as Hnd.
  destruct (positions (unpaid method reference) (txs s)) as [|j [|k l]].
  - by apply (proj2 (Hin i)), not_elem_of_nil in Hin || (exfalso; apply (not_elem_of_nil i), Hin).
  - f_equal. apply Hin. left.
  - exfalso. assert (j = i) as -> by (apply Hin; left).
    assert (k = i) as -> by (apply Hin; right; left). apply (NoDup_cons_1_1 _ _ Hnd). left.
Qed.

Lemma credit_nothing method describe reference pid now s :
  (∀ i t, txs s !! i = Some t → unpaid method reference t = false) →
  credit_order method describe reference pid now s = (inr (false, 0), s).
Proof.
  intros H%no_positions. unfold credit_order, atomic. rewrite bind_run. unfold get at 1.
  unfold txs in H. by rewrite H.
Qed.

(** After the credit no row answers to the reference any more. *)
Lemma credited_no_unpaid s method reference i t r n ref' descr now :
  store_ok s → reference ≠ "" → txs s !! i = Some t → unpaid method reference t = true →
  ∀ j t', txs (credited i t r n ref' descr now s) !! j = Some t' → unpaid method reference t' = false.
Proof.
  intros Hs Href Ht Hu j t'. unfold txs at 1, credited. cbn [s_wallet w_txs].
  destruct (decide (j = i)) as [->|Hne].
  - rewrite list_lookup_alter_eq, Ht. intros [= <-]. unfold unpaid. cbn. apply andb_false_r.
  - rewrite list_lookup_alter_ne by done. intros Ht'. apply not_true_iff_false. intros Hu'.
    apply Hne. by eapply unpaid_unique.
Qed.

(** ** Properties *)


(** Crediting an order pays the buyer exactly once.  For any reference
    the provider names: either no unpaid purchase has it and nothing changes,
    or exactly one has, and then -- when the buyer has a wallet -- that wallet
    and its telebirr bucket grow by what the purchase is worth (its package's
    total, or the quote the server committed to), the row is finished with
    that amount, and a repetition of the same result, with whatever payment
    id, finds nothing left to do. *)
Theorem credit_order_once method describe reference pid now s :
  store_ok s → reference ≠ "" →
  let run pid now s := credit_order method describe reference pid now s in
  ((∀ t, t ∈ txs s → unpaid method reference t = false) ∧ run pid now s = (inr (false, 0), s))
  ∨ ∃ i t, txs s !! i = Some t ∧ unpaid method reference t = true
      ∧ (∀ j t', txs s !! j = Some t' → unpaid method reference t' = true → j = i)
      ∧ match w_rows (s_wallet s) !! ct_user t with
        | None => (run pid now s).2 = s
        | Some r => ∃ s' r' t', let n := worth (s_packages s) t in
            run pid now s = (inr (true, n), s')
            ∧ w_rows (s_wallet s') !! ct_user t = Some r'
            ∧ u_balance r' = u_balance r + n ∧ u_telebirr r' = u_telebirr r + n
            ∧ txs s' !! i = Some t' ∧ ct_coins t' = n ∧ ct_is_successful t' = true
            ∧ ∀ pid' now', run pid' now' s' = (inr (false, 0), s')
        end.
Proof.
  intros Hs Href run. pose proof Hs as [[Hw _] _ _ _].
  destruct (positions (unpaid method reference) (txs s)) as [|i l] eqn:Hpos.
  { left. assert (∀ i t, txs s !! i = Some t → unpaid method reference t = false) as Hno.
    { intros i t Ht. apply not_true_iff_false. intros Hu.
      assert (i ∈ positions (unpaid method reference) (txs s)) as Hin
        by (apply positions_spec; eauto).
      rewrite Hpos in Hin. by apply not_elem_of_nil in Hin. }
    split; [intros t (i & Ht)%list_elem_of_lookup; eauto|by apply credit_nothing]. }
  right. assert (i ∈ positions (unpaid method reference) (txs s)) as (t & Ht & Hu)%positions_spec
    by (rewrite Hpos; left).
  exists i, t. split_and!; [done|done|intros; by eapply unpaid_unique|].
  assert (positions (unpaid method reference) (txs s) = [i]) as Hone by (by eapply positions_singleton).
  destruct (w_rows (s_wallet s) !! ct_user t) as [r|] eqn:Hr.
  - destruct (Hw _ _ Hr) as (Hru & Hrok & _).
    set (n := worth (s_packages s) t).
    eexists (credited i t r n _ _ now s), (save_fields credit_cols (credited_balance n r) now r), _.
    cbv zeta. split_and!.
    + unfold run. by rewrite (credit_hit _ _ _ _ _ _ i t r).
    + cbn. by rewrite lookup_alter_eq, Hr.
    + unfold credit_cols, credited_balance. clear -Hrok. row_solve.
    + unfold credit_cols, credited_balance. clear -Hrok. row_solve.
    + unfold txs at 1. cbn. by rewrite list_lookup_alter_eq, Ht.
    + done.
    + done.
    + intros pid' now'. apply credit_nothing. by eapply credited_no_unpaid.
  - apply credit_miss. intros i' t'. rewrite Hone. intros [= <-]. naive_solver.
Qed.

(** ** A buyer with an empty wallet, and one package on sale *)

Definition starter : package := Package 1 "Starter Pack" 1000 100 0 false 1 true.
Definition shop : store := Store None {[ 1 := starter ]} (Wallet {[ 7 := new_row 7 0 ]} []).

Lemma shop_ok : store_ok shop.
Proof.
  constructor; cbn.
  - split; cbn; intros u; [|done]. intros r. destruct (decide (u = 7)) as [->|Hne].
    + rewrite lookup_singleton_eq. intros [= <-]. by vm_compute.
    + by rewrite lookup_singleton_ne.
  - constructor.
  - constructor.
  - intros id p. destruct (decide (id = 1)) as [->|Hne].
    + rewrite lookup_singleton_eq. intros [= <-]. vm_compute. discriminate.
    + by rewrite lookup_singleton_ne.
Qed.

Definition accepts (reference : string) : string → Z → string + string := λ _ _, inr reference.
Definition refuses (error : string) : string → Z → string + string := λ _ _, inl error.
Definition push_package (answer : string → Z → string + string) (now : Z) : event :=
  EPush answer (Some "251911223344") 7 (Some 1) None now.
Definition confirmed (conversation : string) (now : Z) : event :=
  EWebhook (Some conversation) (Some "0") (Some "0") None (Some "TX1") now.


Lemma credit_order_once_witness :
  let s := run shop [push_package (accepts "C1") 10] in
  ∃ s', credit_telebirr_ussd_order "C1" (Some "TX1") 20 s = (inr (true, 100), s').
Proof.
  cbv zeta. set (s := run shop _).
  assert (store_ok s) as Hs by (apply (exec_good shop); split; [apply shop_ok|reflexivity]).
  destruct (credit_order_once "telebirr_ussd" describe_ussd "C1" (Some "TX1") 20 s Hs
    ltac:(discriminate)) as [[_ H]|(i & t & Ht & Hu & _ & H)].
  - exfalso. vm_compute in H. discriminate.
  - destruct i as [|i]; [|exfalso; clear -Ht; vm_compute in Ht; by destruct i].
    vm_compute in Ht. injection Ht as <-.
    destruct (w_rows (s_wallet s) !! _) as [r|] eqn:Hr; [|exfalso; vm_compute in Hr; discriminate].
    destruct H as (s' & r' & t' & Hrun & _). exists s'. exact Hrun.
Defined.

(** The reference has to be there.  A push that never reached Telebirr
    is recorded with an empty payment reference, and the webhook looks a
    confirmation up by the text of its conversation element: while one such
    row exists, a confirmation whose element is empty credits it. *)
Theorem empty_conversation_credits_a_failed_push :
  let s := run shop [push_package (refuses "Service unavailable") 10] in
  ct_payment_state <$> (txs s !! 0%nat) = Some PaymentStatus.FAILED
  ∧ u_balance <$> (w_rows (s_wallet s) !! 7) = Some 0
  ∧ u_balance <$> (w_rows (s_wallet (run s [confirmed "" 20])) !! 7) = Some 100.
Proof. vm_compute. done. Qed.

(** A push the customer's handset refused still blocks the retry: the guard
    does not look at [payment_state]. *)
Lemma refused_push_blocks_the_retry :
  let s := run shop [push_package (accepts "C1") 10;
    EWebhook (Some "C1") (Some "0") (Some "2006") (Some "Wrong PIN") None 20] in
  ct_payment_state <$> (txs s !! 0%nat) = Some PaymentStatus.FAILED
  ∧ (telebirr_ussd_purchase (accepts "C2") (Some "251911223344") 7 (Some 1) None (minute) s).1
    = inr (Resp 409 "PURCHASE_PENDING").
Proof. vm_compute. done. Qed.

(** A package removed between the push and its confirmation: the buyer has
    paid, the row is marked successful, and nothing is credited. *)
Lemma deleted_package_credits_nothing :
  let s := run shop [push_package (accepts "C1") 10; EDeletePackage 1; confirmed "C1" 20] in
  ct_payment_state <$> (txs s !! 0%nat) = Some PaymentStatus.SUCCESS
  ∧ u_balance <$> (w_rows (s_wallet s) !! 7) = Some 0.
Proof. vm_compute. done. Qed.

End CoinPurchase.
