(* ===== verification/CoinConfig.v ===== *)
(** * CoinConfig: what organizations pay for engagement

    Models [CoinConfiguration], [CoinConfigurationAudit] and
    [CampaignRewardGrant] of [src/api/models/coin_config.py] and the service
    over them, [src/api/services/coin_config.py].

    Paying a reward credits a coin wallet.  The service is modelled over any
    wallet that promises [CoinWallet]; [CoinBalance] keeps the promise (the
    instance at the end of the file). *)

From Stdlib Require Import ZArith Lia.
From S2P Require Import Prelude Decimal WalletConfig CoinBalance.

(** ** What a wallet promises

    [credit] is [get_or_create] followed by [add_earned], on its success
    outcome. *)

Class CoinWallet (W : Type) := {
  wallet_ok : W → Prop;
  wallet_total : Z → W → Z;
  credit : Z → Z → string → string → Z → M W unit;
  credit_spec : ∀ w user n ty descr now,
    wallet_ok w → 0 < n → CoinBalance.ordinary_type ty = true →
    ∃ w', credit user n ty descr now w = (inr tt, w') ∧ wallet_ok w'
      ∧ ∀ u, wallet_total u w' = wallet_total u w + if decide (u = user) then n else 0
}.

Module CoinConfig.

(** ** Data *)

Record rates := Rates {
  like_reward : Z; comment_reward : Z; share_reward : Z; gift_reward : Z;
  participation_reward : Z; completion_reward : Z;
  max_reward_per_user : Z; max_daily_reward_per_user : Z;
  budget : Z;
  rewards_enabled : bool
}.

(** [CoinConfiguration]. *)
Record configuration := Configuration {
  cc_id : Z;
  cc_organization : Z;
  cc_campaign : option Z;
  cc_rates : rates;
  cc_distributed : Z;
  cc_is_active : bool;
  cc_locked_at : option Z
}.

(** [CampaignRewardGrant]. *)
Record grant := Grant {
  g_configuration : Z; g_campaign : Z; g_user : Z;
  g_action : string; g_reference : string; g_coins : Z; g_created_at : Z
}.

(** [CoinConfigurationAudit]. *)
Record audit := Audit {
  a_configuration : Z; a_field : string; a_previous : string; a_new : string;
  a_changed_by : Z; a_reason : string
}.

(** The two columns of [Campaign] the service reads. *)
Record campaign := Campaign { cp_id : Z; cp_organization : option Z }.

(** [PLATFORM_DEFAULTS]. *)
Definition PLATFORM_DEFAULTS : rates := Rates 0 0 0 0 0 0 0 0 0 false.

Record store (W : Type) := Store {
  s_platform : WalletConfig.config_table;
  s_configs : gmap Z configuration;
  s_grants : list grant;
  s_audits : list audit;
  s_next_id : Z;
  s_wallet : W
}.
#[global] Arguments Store {W}.
#[global] Arguments s_platform {W}. #[global] Arguments s_configs {W}.
#[global] Arguments s_grants {W}. #[global] Arguments s_audits {W}.
#[global] Arguments s_next_id {W}. #[global] Arguments s_wallet {W}.

(** [remaining_budget]; [None] when no budget is set. *)
Definition remaining_budget (c : configuration) : option Z :=
  if budget (cc_rates c) =? 0 then None
  else Some (Z.max 0 (budget (cc_rates c) - or_int (cc_distributed c) 0)).

Definition is_exhausted (c : configuration) : bool :=
  negb (budget (cc_rates c) =? 0) && (budget (cc_rates c) <=? or_int (cc_distributed c) 0).

Section Service.
Context {W : Type}.
Notation store := (store W).
Notation M := (M store).

(** ** Resolution *)

Definition find_config (p : configuration → bool) (s : store) : option configuration :=
  List.find p (snd <$> map_to_list (s_configs s)).

Definition default_for_organization (organization : option Z) (s : store) : option configuration :=
  match organization with
  | None => None
  | Some o => find_config (λ c, (cc_organization c =? o) && bool_decide (cc_campaign c = None)) s
  end.

Definition config_for_campaign (c : campaign) (s : store) : option configuration :=
  find_config (λ cc, bool_decide (cc_campaign cc = Some (cp_id c))) s.

Record resolved := Resolved {
  r_rates : rates;
  r_source : string;
  r_configuration_id : option Z
}.

(** [resolve_for_campaign], for a campaign that is given. *)
Definition resolve_for_campaign (c : campaign) (s : store) : resolved :=
  let r := Resolved PLATFORM_DEFAULTS "platform" None in
  let r := match default_for_organization (cp_organization c) s with
           | Some d => if cc_is_active d then Resolved (cc_rates d) "organization" None else r
           | None => r
           end in
  match config_for_campaign c s with
  | Some own => if cc_is_active own then Resolved (cc_rates own) "campaign" (Some (cc_id own)) else r
  | None => r
  end.

(** [resolved.get(f'{action}_reward', 0)]. *)
Definition rate_of (action : string) (r : rates) : Z :=
  if String.eqb action "like" then like_reward r
  else if String.eqb action "comment" then comment_reward r
  else if String.eqb action "share" then share_reward r
  else if String.eqb action "gift" then gift_reward r
  else if String.eqb action "participation" then participation_reward r
  else if String.eqb action "completion" then completion_reward r
  else 0.

(** ** Validation *)

Definition config_error {A} (code msg : string) : M A := raise (CoinConfigError msg code).

Fixpoint check_all (checks : list (bool * exn)) : M unit :=
  match checks with
  | [] => mret tt
  | (ok, e) :: cs => assert_or ok e ≫= λ _, check_all cs
  end.

Definition numbers (r : rates) : list (string * Z) :=
  [("like_reward", like_reward r); ("comment_reward", comment_reward r);
   ("share_reward", share_reward r); ("gift_reward", gift_reward r);
   ("participation_reward", participation_reward r);
   ("completion_reward", completion_reward r);
   ("max_reward_per_user", max_reward_per_user r);
   ("max_daily_reward_per_user", max_daily_reward_per_user r); ("budget", budget r)].

(** [PLATFORM_LIMIT_FIELDS], each reward with its ceiling. *)
Definition platform_limits (r : rates) (p : WalletConfig.config) : list (string * Z * Z) :=
  [("like_reward", like_reward r, WalletConfig.max_like_reward p);
   ("comment_reward", comment_reward r, WalletConfig.max_comment_reward p);
   ("share_reward", share_reward r, WalletConfig.max_share_reward p);
   ("gift_reward", gift_reward r, WalletConfig.max_gift_reward p)].

Definition negative_error (field : string) : exn :=
  CoinConfigError (field +:+ " cannot be negative.") "negative".

Definition limit_checks (r : rates) (platform : WalletConfig.config) : list (bool * exn) :=
  (λ fvl, let '(f, v, limit) := fvl in
    (or_int v 0 <=? limit,
     CoinConfigError (f +:+ " may not exceed the platform maximum of " +:+ str_int limit +:+ ".")
       "exceeds_platform_limit")) <$> platform_limits r platform.

(** [WalletConfig.get_config] on the platform table. *)
Definition get_platform (now : Z) : M WalletConfig.config :=
  zoom s_platform
    (λ p s, Store p (s_configs s) (s_grants s) (s_audits s) (s_next_id s) (s_wallet s))
    (WalletConfig.get_config now).

(** [validate_against_platform_limits]; [except Exception: return] around the
    platform read. *)
Definition validate_against_platform_limits (r : rates) (now : Z) : M unit :=
  check_all ((λ fv, (0 <=? or_int fv.2 0, negative_error fv.1)) <$> numbers r) ≫= λ _,
  platform ← catch (p ← get_platform now; mret (Some p)) (λ _, Some (mret None));
  match platform with
  | None => mret tt
  | Some platform => check_all (limit_checks r platform)
  end.

(** ** Writing rows *)

(** The check constraint [coin_config_distributed_within_budget]. *)
Definition within_budget (c : configuration) : bool :=
  (budget (cc_rates c) =? 0) || (cc_distributed c <=? budget (cc_rates c)).

Definition save_config (c : configuration) : M unit :=
  assert_or (within_budget c) (IntegrityError "coin_config_distributed_within_budget") ≫= λ _,
  modify (λ s, Store (s_platform s) (<[cc_id c := c]> (s_configs s)) (s_grants s) (s_audits s)
                 (s_next_id s) (s_wallet s)).

Definition insert_config (c : Z → configuration) : M configuration :=
  s ← get;
  let c := c (s_next_id s) in
  save_config c ≫= λ _,
  modify (λ s, Store (s_platform s) (s_configs s) (s_grants s) (s_audits s)
                 (s_next_id s + 1) (s_wallet s)) ≫= λ _,
  mret c.

Definition set_rates (r : rates) (c : configuration) : configuration :=
  Configuration (cc_id c) (cc_organization c) (cc_campaign c) r (cc_distributed c)
    (cc_is_active c) (cc_locked_at c).
Definition set_lock (at_ : option Z) (c : configuration) : configuration :=
  Configuration (cc_id c) (cc_organization c) (cc_campaign c) (cc_rates c) (cc_distributed c)
    (cc_is_active c) at_.
Definition add_distributed (n : Z) (c : configuration) : configuration :=
  Configuration (cc_id c) (cc_organization c) (cc_campaign c) (cc_rates c)
    (cc_distributed c + n) (cc_is_active c) (cc_locked_at c).

(** ** [snapshot_for_campaign] *)

(** The organization's numbers, copied and locked, unless already locked. *)
Definition freeze (source : option configuration) (config : configuration) (now : Z)
    : M (option configuration) :=
  match cc_locked_at config with
  | Some _ => mret (Some config)
  | None =>
      let config := match source with
                    | Some d => set_rates (cc_rates d) config
                    | None => config
                    end in
      let config := set_lock (Some now) config in
      save_config config ≫= λ _, mret (Some config)
  end.

Definition snapshot_for_campaign (c : campaign) (now : Z) : M (option configuration) :=
  match cp_organization c with
  | None => mret None
  | Some organization =>
      existing ← gets (config_for_campaign c);
      if match existing with Some e => bool_decide (is_Some (cc_locked_at e)) | None => false end
      then mret existing
      else
          source ← gets (default_for_organization (Some organization));
          atomic (
            existing ← gets (config_for_campaign c);
            config ← match existing with
                     | Some e => mret e
                     | None => insert_config (λ id, Configuration id organization (Some (cp_id c))
                                 (match source with Some d => cc_rates d | None => PLATFORM_DEFAULTS end)
                                 0 true None)
                     end;
            freeze source config now)
  end.

(** ** [award] *)

Definition earned_total (c user : Z) (since : option Z) (s : store) : Z :=
  sumZ g_coins (filter (λ g, ((g_campaign g =? c) && (g_user g =? user)
      && match since with Some d => d <=? local_date (g_created_at g) | None => true end)
      = true) (s_grants s)).

Definition same_engagement (g h : grant) : bool :=
  (g_campaign g =? g_campaign h) && (g_user g =? g_user h)
  && String.eqb (g_action g) (g_action h) && String.eqb (g_reference g) (g_reference h).

(** [CampaignRewardGrant.objects.create], with its unique constraint. *)
Definition create_grant (g : grant) : M unit :=
  s ← get;
  if existsb (same_engagement g) (s_grants s)
  then raise (IntegrityError "one_reward_per_engagement")
  else put (Store (s_platform s) (s_configs s) (s_grants s ++ [g]) (s_audits s)
              (s_next_id s) (s_wallet s)).

(** The amount the locked row still allows; [None] when a rule declines. *)
Definition allowed (locked : configuration) (earned today amount : Z) : option Z :=
  let r := cc_rates locked in
  if negb (rewards_enabled r) || negb (cc_is_active locked) then None
  else
    let remaining := budget r - or_int (cc_distributed locked) 0 in
    if negb (budget r =? 0) && (remaining <=? 0) then None
    else
      let amount := if budget r =? 0 then amount else Z.min amount remaining in
      let headroom := max_reward_per_user r - earned in
      if negb (max_reward_per_user r =? 0) && (headroom <=? 0) then None
      else
        let amount := if max_reward_per_user r =? 0 then amount else Z.min amount headroom in
        let day_headroom := max_daily_reward_per_user r - today in
        if negb (max_daily_reward_per_user r =? 0) && (day_headroom <=? 0) then None
        else
          let amount :=
            if max_daily_reward_per_user r =? 0 then amount else Z.min amount day_headroom in
          if amount <=? 0 then None else Some amount.

Definition bump_distributed (id n : Z) : M unit :=
  s ← get;
  match s_configs s !! id with
  | Some c => save_config (add_distributed n c)
  | None => mret tt
  end.

(** The locked transaction. *)
Definition award_locked `{CoinWallet W} (id : Z) (c : campaign) (user : Z)
    (action reference : string) (amount now : Z) : M Z :=
  atomic (
    s ← get;
    match s_configs s !! id with
    | None => raise (DoesNotExist "CoinConfiguration")
    | Some locked =>
        match allowed locked (earned_total (cp_id c) user None s)
                (earned_total (cp_id c) user (Some (utc_date now)) s) amount with
        | None => mret 0
        | Some amount =>
            create_grant (Grant id (cp_id c) user action reference amount now) ≫= λ _,
            bump_distributed id amount ≫= λ _,
            zoom s_wallet (λ w s, Store (s_platform s) (s_configs s) (s_grants s) (s_audits s)
                                    (s_next_id s) w)
              (credit user amount "reward"
                 (action +:+ " reward for campaign #" +:+ str_int (cp_id c)) now) ≫= λ _,
            mret amount
        end
    end).

(** [award], for a campaign and a signed-in user. *)
Definition award `{CoinWallet W} (c : campaign) (user : Z) (action reference : string)
    (coins : option Z) (now : Z) : M Z :=
  r ← gets (resolve_for_campaign c);
  if negb (rewards_enabled (r_rates r)) then mret 0
  else
    let amount := default (rate_of action (r_rates r)) coins in
    if amount <=? 0 then mret 0
    else
      oid ← match r_configuration_id r with
            | Some id => mret (Some id)
            | None => oc ← snapshot_for_campaign c now; mret (cc_id <$> oc)
            end;
      match oid with
      | None => mret 0
      | Some id =>
          catch (award_locked id c user action reference amount now)
            (λ e, match e with IntegrityError _ => Some (mret 0) | _ => None end)
      end.

(** ** [apply_changes] *)

(** The numeric columns. *)
Inductive number_field :=
| LikeReward | CommentReward | ShareReward | GiftReward
| ParticipationReward | CompletionReward | MaxPerUser | MaxDailyPerUser | Budget.

Definition field_name (f : number_field) : string :=
  match f with
  | LikeReward => "like_reward" | CommentReward => "comment_reward"
  | ShareReward => "share_reward" | GiftReward => "gift_reward"
  | ParticipationReward => "participation_reward"
  | CompletionReward => "completion_reward"
  | MaxPerUser => "max_reward_per_user"
  | MaxDailyPerUser => "max_daily_reward_per_user"
  | Budget => "budget"
  end.

(** One entry of the [changes] dict.  A numeric one carries [None] when
    [int(value)] would raise; [Other] is a key outside [EDITABLE_FIELDS], such
    as [organization], [campaign], [distributed] or [locked_at]. *)
Inductive change :=
| Numeric (field : number_field) (value : option Z)
| Enabled (value : bool)
| Active (value : bool)
| Other (field : string).

(** [field in CoinConfiguration.EDITABLE_FIELDS]. *)
Definition editable (ch : change) : bool :=
  match ch with Other _ => false | _ => true end.

Definition set_number (f : number_field) (v : Z) (r : rates) : rates :=
  let '(Rates li co sh gi pa cm mu md bu en) := r in
  match f with
  | LikeReward => Rates v co sh gi pa cm mu md bu en
  | CommentReward => Rates li v sh gi pa cm mu md bu en
  | ShareReward => Rates li co v gi pa cm mu md bu en
  | GiftReward => Rates li co sh v pa cm mu md bu en
  | ParticipationReward => Rates li co sh gi v cm mu md bu en
  | CompletionReward => Rates li co sh gi pa v mu md bu en
  | MaxPerUser => Rates li co sh gi pa cm v md bu en
  | MaxDailyPerUser => Rates li co sh gi pa cm mu v bu en
  | Budget => Rates li co sh gi pa cm mu md v en
  end.

Definition set_enabled (b : bool) (r : rates) : rates :=
  Rates (like_reward r) (comment_reward r) (share_reward r) (gift_reward r)
    (participation_reward r) (completion_reward r) (max_reward_per_user r)
    (max_daily_reward_per_user r) (budget r) b.

Definition set_active (b : bool) (c : configuration) : configuration :=
  Configuration (cc_id c) (cc_organization c) (cc_campaign c) (cc_rates c) (cc_distributed c)
    b (cc_locked_at c).

Definition get_number (f : number_field) (r : rates) : Z :=
  match f with
  | LikeReward => like_reward r | CommentReward => comment_reward r
  | ShareReward => share_reward r | GiftReward => gift_reward r
  | ParticipationReward => participation_reward r
  | CompletionReward => completion_reward r
  | MaxPerUser => max_reward_per_user r
  | MaxDailyPerUser => max_daily_reward_per_user r
  | Budget => budget r
  end.

Definition apply_one (ch : change) (c : configuration) : configuration :=
  match ch with
  | Numeric f (Some v) => set_rates (set_number f v (cc_rates c)) c
  | Enabled b => set_rates (set_enabled b (cc_rates c)) c
  | Active b => set_active b c
  | Numeric _ None | Other _ => c
  end.

Definition bool_str (b : bool) : string := if b then "True" else "False".

(** The field's name, its value before and the value asked for. *)
Definition described (ch : change) (c : configuration) : string * string * string :=
  match ch with
  | Numeric f v => (field_name f, str_int (get_number f (cc_rates c)), str_int (default 0 v))
  | Enabled b => ("rewards_enabled", bool_str (rewards_enabled (cc_rates c)), bool_str b)
  | Active b => ("is_active", bool_str (cc_is_active c), bool_str b)
  | Other f => (f, "", "")
  end.

(** [previous == value]. *)
Definition same_value (ch : change) (c : configuration) : bool :=
  match ch with
  | Numeric f v => get_number f (cc_rates c) =? default 0 v
  | Enabled b => eqb (rewards_enabled (cc_rates c)) b
  | Active b => eqb (cc_is_active c) b
  | Other _ => true
  end.

Definition check_change (ch : change) : bool * exn :=
  match ch with
  | Numeric f None => (false, CoinConfigError (field_name f +:+ " must be a whole number.") "invalid")
  | Numeric f (Some v) => (0 <=? v, negative_error (field_name f))
  | _ => (true, CoinConfigError "" "")
  end.

(** The loop that assigns: the copy in memory and the audit entries. *)
Definition assign_changes (actor : Z) (reason : string) (proposed : list change)
    (c : configuration) : configuration * list audit * list change :=
  fold_left (λ acc ch, let '(c, entries, changed) := acc in
    if same_value ch c then acc
    else let '(f, prev, new) := described ch c in
         (apply_one ch c, entries ++ [Audit (cc_id c) f prev new actor reason], changed ++ [ch]))
    proposed (c, [], []).

(** [config.save(update_fields=[...])]: the changed columns of the stored row. *)
Definition save_changes (id : Z) (changed : list change) : M unit :=
  s ← get;
  match s_configs s !! id with
  | Some row => save_config (fold_left (λ r ch, apply_one ch r) changed row)
  | None => raise (DoesNotExist "CoinConfiguration")
  end.

(** [apply_changes], on the caller's copy [self] of the row. *)
Definition apply_changes (self : configuration) (changes : list change) (actor : Z)
    (reason : string) (now : Z) : M (list audit) :=
  let proposed := filter (λ ch, editable ch = true) changes in
  match proposed with
  | [] => mret []
  | _ =>
      check_all (check_change <$> proposed) ≫= λ _,
      let candidate := fold_left (λ c ch, apply_one ch c) proposed self in
      validate_against_platform_limits (cc_rates candidate) now ≫= λ _,
      let new_budget := budget (cc_rates candidate) in
      assert_or (negb (negb (new_budget =? 0) && (new_budget <? or_int (cc_distributed self) 0)))
        (CoinConfigError ("Budget cannot be set below the " +:+ str_int (cc_distributed self)
           +:+ " coins already distributed.") "below_distributed") ≫= λ _,
      atomic (
        let '(config, entries, changed) := assign_changes actor reason proposed self in
        match changed with
        | [] => mret []
        | _ =>
            save_changes (cc_id self) changed ≫= λ _,
            modify (λ s, Store (s_platform s) (s_configs s) (s_grants s) (s_audits s ++ entries)
                           (s_next_id s) (s_wallet s)) ≫= λ _,
            mret entries
        end)
  end.

(** [usage_for_campaign]. *)
Definition usage_for_campaign (c : campaign) (s : store) : Z * Z * option Z * bool :=
  match config_for_campaign c s with
  | None => (0, 0, None, false)
  | Some cc => (budget (cc_rates cc), cc_distributed cc, remaining_budget cc, is_exhausted cc)
  end.

(** [usage_for_organization]. *)
Definition usage_for_organization (organization : Z) (s : store) : Z * Z * option Z :=
  let rows := filter (λ c, ((cc_organization c =? organization)
                            && negb (bool_decide (cc_campaign c = None))) = true)
                (snd <$> map_to_list (s_configs s)) in
  let b := sumZ (λ c, budget (cc_rates c)) rows in
  let d := sumZ cc_distributed rows in
  (b, d, if b =? 0 then None else Some (Z.max 0 (b - d))).

(** ** Well-formed stores *)

Definition of_config (id : Z) (g : grant) : Z := if g_configuration g =? id then g_coins g else 0.
Definition engagement (g : grant) : Z * Z * string * string :=
  (g_campaign g, g_user g, g_action g, g_reference g).

Definition config_ok (s : store) (id : Z) (c : configuration) : Prop :=
  cc_id c = id ∧ id < s_next_id s ∧ within_budget c = true
  ∧ cc_distributed c = sumZ (of_config id) (s_grants s).

Record store_ok `{CoinWallet W} (s : store) : Prop := StoreOk {
  ok_configs : ∀ id c, s_configs s !! id = Some c → config_ok s id c;
  ok_absent : ∀ id, s_configs s !! id = None → sumZ (of_config id) (s_grants s) = 0;
  ok_once : NoDup (engagement <$> s_grants s);
  ok_coins : Forall (λ g, 0 < g_coins g) (s_grants s);
  ok_wallet : wallet_ok (s_wallet s)
}.

Lemma same_engagement_eq g h : same_engagement g h = true ↔ engagement g = engagement h.
Proof.
  unfold same_engagement, engagement. rewrite !andb_true_iff, !Z.eqb_eq, !String.eqb_eq.
  split; [intros [[[? ?] ?] ?]; congruence|intros [= ? ? ? ?]; by split_and!].
Qed.

Lemma local_date_ge now : utc_date now <= local_date now.
Proof. unfold utc_date, local_date. apply Z.div_le_mono; unfold day, hour, minute, second; lia. Qed.

(** What [allowed] lets through respects every configured limit. *)
Lemma allowed_spec locked earned today amount n :
  allowed locked earned today amount = Some n →
  0 < n <= amount ∧ rewards_enabled (cc_rates locked) = true ∧ cc_is_active locked = true
  ∧ (budget (cc_rates locked) ≠ 0 → cc_distributed locked + n <= budget (cc_rates locked))
  ∧ (max_reward_per_user (cc_rates locked) ≠ 0 →
       earned + n <= max_reward_per_user (cc_rates locked))
  ∧ (max_daily_reward_per_user (cc_rates locked) ≠ 0 →
       today + n <= max_daily_reward_per_user (cc_rates locked)).
Proof.
  unfold allowed. rewrite or_int_0.
  destruct (rewards_enabled (cc_rates locked)), (cc_is_active locked); cbn [negb orb]; try done.
  destruct (Z.eqb_spec (budget (cc_rates locked)) 0),
    (Z.eqb_spec (max_reward_per_user (cc_rates locked)) 0),
    (Z.eqb_spec (max_daily_reward_per_user (cc_rates locked)) 0); cbn [negb andb];
    intros H; repeat case_match; simplify_eq; bool_prop; split_and!; lia || done.
Qed.

(** The earned totals grow by what a new grant pays. *)
Lemma earned_total_snoc c user since s g P C A N Wl :
  g_campaign g = c → g_user g = user →
  match since with Some d => d <= local_date (g_created_at g) | None => True end →
  earned_total c user since (Store P C (s_grants s ++ [g]) A N Wl)
  = earned_total c user since s + g_coins g.
Proof.
  intros Hc Hu Hd. unfold earned_total. cbn [s_grants]. rewrite filter_app, sumZ_app.
  f_equal. rewrite filter_cons_True; [by rewrite filter_nil, sumZ_cons, sumZ_nil, Z.add_0_r|].
  rewrite Hc, Hu, !Z.eqb_refl. destruct since; [by apply Z.leb_le in Hd as ->|done].
Qed.

End Service.

Section Paying.
Context {W : Type} `{!CoinWallet W}.
Notation store := (store W).

(** The store after a payment. *)
Definition paid (id n : Z) (cc : configuration) (g : grant) (w : W) (s : store) : store :=
  Store (s_platform s) (<[id := add_distributed n cc]> (s_configs s)) (s_grants s ++ [g])
    (s_audits s) (s_next_id s) w.

Lemma save_config_run (c : configuration) (s : store) :
  within_budget c = true →
  save_config c s = (inr tt, Store (s_platform s) (<[cc_id c := c]> (s_configs s)) (s_grants s)
                              (s_audits s) (s_next_id s) (s_wallet s)).
Proof. intros H. unfold save_config. rewrite bind_run. unfold assert_or. by rewrite H. Qed.

Lemma save_config_fail (c : configuration) (s : store) :
  within_budget c = false →
  save_config c s = (inl (IntegrityError "coin_config_distributed_within_budget"), s).
Proof. intros H. unfold save_config. rewrite bind_run. unfold assert_or. by rewrite H. Qed.

(** What the locked transaction of [award] does, at a configuration that
    exists: decline, refuse a repeated engagement, or pay. *)
Lemma award_locked_run id c user action reference amount now (s : store) cc :
  store_ok s → s_configs s !! id = Some cc →
  award_locked id c user action reference amount now s =
  match allowed cc (earned_total (cp_id c) user None s)
          (earned_total (cp_id c) user (Some (utc_date now)) s) amount with
  | None => (inr 0, s)
  | Some n =>
      let g := Grant id (cp_id c) user action reference n now in
      if existsb (same_engagement g) (s_grants s)
      then (inl (IntegrityError "one_reward_per_engagement"), s)
      else match credit user n "reward"
                   (action +:+ " reward for campaign #" +:+ str_int (cp_id c)) now (s_wallet s) with
           | (inr _, w') => (inr n, paid id n cc g w' s)
           | (inl e, _) => (inl e, s)
           end
  end.
Proof.
  intros Hs Hcc. unfold award_locked, atomic, get. rewrite bind_run, Hcc.
  destruct (allowed cc _ _ amount) as [n|] eqn:Ha; [|done].
  destruct (allowed_spec _ _ _ _ _ Ha) as (Hn & _ & _ & Hb & _).
  rewrite bind_run. unfold create_grant, get. rewrite bind_run. cbv zeta.
  destruct (existsb _ (s_grants s)); [done|]. unfold put.
  rewrite bind_run. unfold bump_distributed, get. rewrite bind_run. cbn [s_configs]. rewrite Hcc.
  destruct (ok_configs _ Hs _ _ Hcc) as (Hid & _).
  rewrite save_config_run; cycle 1.
  { unfold within_budget. cbn. destruct (Z.eqb_spec (budget (cc_rates cc)) 0); [done|].
    apply Z.leb_le. by apply Hb. }
  rewrite bind_run, zoom_run. cbn [s_wallet s_platform s_configs s_grants s_audits s_next_id].
  destruct (credit _ _ _ _ _ _) as [[e|u] w']; [done|].
  cbn. unfold paid. by rewrite Hid.
Qed.

Lemma award_locked_cases id c user action reference amount now (s : store) cc :
  store_ok s → s_configs s !! id = Some cc →
  let g n := Grant id (cp_id c) user action reference n now in
  let run := award_locked id c user action reference amount now s in
  let fresh n := existsb (same_engagement (g n)) (s_grants s) in
  run = (inr 0, s)
  ∨ (∃ n, fresh n = true ∧ run = (inl (IntegrityError "one_reward_per_engagement"), s))
  ∨ ∃ n w', allowed cc (earned_total (cp_id c) user None s)
        (earned_total (cp_id c) user (Some (utc_date now)) s) amount = Some n
      ∧ fresh n = false ∧ run = (inr n, paid id n cc (g n) w' s)
      ∧ wallet_ok w'
      ∧ ∀ u, wallet_total u w' = wallet_total u (s_wallet s) + if decide (u = user) then n else 0.
Proof.
  intros Hs Hcc g run fresh. unfold run. rewrite (award_locked_run _ _ _ _ _ _ _ _ cc) by done.
  destruct (allowed cc _ _ amount) as [n|] eqn:Ha; [|by left]. right.
  destruct (allowed_spec _ _ _ _ _ Ha) as (Hn & _). cbv zeta. fold (g n). fold (fresh n).
  destruct (fresh n) eqn:Hf; [left; by exists n|right].
  destruct (credit_spec (s_wallet s) user n "reward"
    (action +:+ " reward for campaign #" +:+ str_int (cp_id c)) now (ok_wallet _ Hs)
    ltac:(lia) eq_refl) as (w' & -> & Hw' & Htot).
  exists n, w'. by split_and!.
Qed.

Lemma paid_ok id n cc c user action reference now w' (s : store) :
  let g := Grant id (cp_id c) user action reference n now in
  store_ok s → s_configs s !! id = Some cc → 0 < n →
  (budget (cc_rates cc) ≠ 0 → cc_distributed cc + n <= budget (cc_rates cc)) →
  existsb (same_engagement g) (s_grants s) = false → wallet_ok w' →
  store_ok (paid id n cc g w' s).
Proof.
  intros g [Hc Ha Ho Hp _] Hcc Hn Hb Hf Hw.
  assert (∀ i, sumZ (of_config i) (s_grants s ++ [g])
    = sumZ (of_config i) (s_grants s) + if decide (i = id) then n else 0) as Hsum.
  { intros i. rewrite sumZ_app, sumZ_cons, sumZ_nil. unfold of_config at 2. cbn.
    destruct (Z.eqb_spec id i), (decide (i = id)); lia || congruence. }
  constructor; cbn [paid s_configs s_grants s_wallet]; [| | | |done].
  - intros i x. destruct (decide (i = id)) as [->|Hne].
    + rewrite lookup_insert_eq. intros [= <-]. destruct (Hc _ _ Hcc) as (H1 & H2 & H3 & H4).
      split_and!; [done|done| |].
      * unfold within_budget. cbn. destruct (Z.eqb_spec (budget (cc_rates cc)) 0); [done|].
        apply Z.leb_le. by apply Hb.
      * cbn. rewrite Hsum, decide_True by done. lia.
    + rewrite lookup_insert_ne by done. intros Hx. destruct (Hc _ _ Hx) as (H1 & H2 & H3 & H4).
      split_and!; [done..|]. cbn. rewrite Hsum, decide_False by done. lia.
  - intros i. destruct (decide (i = id)) as [->|Hne]; [by rewrite lookup_insert_eq|].
    rewrite lookup_insert_ne by done. intros Hi. rewrite Hsum, decide_False, (Ha _ Hi) by done. lia.
  - rewrite fmap_app. apply NoDup_app. split_and!; [done| |apply NoDup_singleton].
    intros k (h & -> & Hh)%list_elem_of_fmap E%list_elem_of_singleton.
    apply not_true_iff_false in Hf. apply Hf, existsb_exists. exists h.
    split; [by apply list_elem_of_In|]. by apply same_engagement_eq.
  - apply Forall_app. split; [done|]. by apply Forall_singleton.
Qed.

(** Keeping the grants and the wallet while writing configuration rows. *)
Definition unpaid_change (s s' : store) : Prop :=
  store_ok s' ∧ s_grants s' = s_grants s ∧ s_wallet s' = s_wallet s.

Lemma put_config_ok (s : store) P A N c :
  store_ok s → within_budget c = true → s_next_id s <= N → cc_id c < N →
  cc_distributed c = sumZ (of_config (cc_id c)) (s_grants s) →
  unpaid_change s (Store P (<[cc_id c := c]> (s_configs s)) (s_grants s) A N (s_wallet s)).
Proof.
  intros [Hc Ha Ho Hp Hw] Hwb HN Hid Hd. split; [|done].
  constructor; cbn [s_configs s_grants s_wallet]; [| |done|done|done].
  - intros i x. destruct (decide (i = cc_id c)) as [->|Hne].
    + rewrite lookup_insert_eq. by intros [= <-].
    + rewrite lookup_insert_ne by done. intros Hx. destruct (Hc _ _ Hx) as (H1 & H2 & H3 & H4).
      split_and!; try done. cbn. lia.
  - intros i. destruct (decide (i = cc_id c)) as [->|Hne]; [by rewrite lookup_insert_eq|].
    rewrite lookup_insert_ne by done. apply Ha.
Qed.

Lemma unpaid_change_refl (s : store) : store_ok s → unpaid_change s s.
Proof. intros Hs. split; [exact Hs|by split]. Qed.
Lemma unpaid_change_trans (s1 s2 s3 : store) :
  unpaid_change s1 s2 → unpaid_change s2 s3 → unpaid_change s1 s3.
Proof. intros (_ & H1 & H2) (H3 & H4 & H5). split; [exact H3|split; congruence]. Qed.

(** Code that may write configuration rows but pays nothing. *)
Definition unpaid {A} (m : M store A) : Prop :=
  ∀ s, store_ok s → unpaid_change s (m s).2.

Lemma unpaid_bind {A B} (m : M store A) (k : A → M store B) :
  unpaid m → (∀ a, unpaid (k a)) → unpaid (m ≫= k).
Proof.
  intros Hm Hk s Hs. rewrite bind_run. pose proof (Hm s Hs) as H1.
  destruct (m s) as [[e|a] s1]; [done|]. eapply unpaid_change_trans; [exact H1|].
  apply Hk, H1.
Qed.
Lemma unpaid_ret {A} (a : A) : unpaid (mret a).
Proof. intros s. apply unpaid_change_refl. Qed.
Lemma unpaid_raise {A} e : unpaid (raise e : M store A).
Proof. intros s. apply unpaid_change_refl. Qed.
Lemma unpaid_gets {A} (f : store → A) : unpaid (gets f).
Proof. intros s. apply unpaid_change_refl. Qed.
Lemma unpaid_assert b e : unpaid (assert_or b e).
Proof. destruct b; [apply unpaid_ret|apply unpaid_raise]. Qed.
Lemma unpaid_atomic {A} (m : M store A) : unpaid m → unpaid (atomic m).
Proof.
  intros Hm s Hs. unfold atomic. pose proof (Hm s Hs) as H1.
  destruct (m s) as [[e|a] s1]; [by apply unpaid_change_refl|done].
Qed.

(** Saving a row that keeps its identity and its spent counter. *)
Lemma unpaid_save (s : store) c0 c :
  store_ok s → s_configs s !! cc_id c0 = Some c0 → cc_id c = cc_id c0 →
  cc_distributed c = cc_distributed c0 →
  unpaid_change s (save_config c s).2.
Proof.
  intros Hs H0 Hid Hd. destruct (ok_configs _ Hs _ _ H0) as (_ & Hlt & _ & Hsum).
  destruct (within_budget c) eqn:Hwb.
  - rewrite save_config_run by done. apply put_config_ok; rewrite ?Hid, ?Hd; (done || lia).
  - rewrite save_config_fail by done. by apply unpaid_change_refl.
Qed.

(** A new row starts with nothing spent. *)
Lemma insert_config_cases mk (s : store) :
  store_ok s → (∀ id, cc_id (mk id) = id ∧ cc_distributed (mk id) = 0) →
  let c := mk (s_next_id s) in
  (∃ e, insert_config mk s = (inl e, s))
  ∨ ∃ s', insert_config mk s = (inr c, s') ∧ unpaid_change s s'
      ∧ s_configs s' !! cc_id c = Some c.
Proof.
  intros Hs Hmk c. destruct (Hmk (s_next_id s)) as [Hid Hz].
  unfold insert_config. rewrite bind_run. unfold get. cbv zeta. fold c. rewrite bind_run.
  destruct (within_budget c) eqn:Hwb.
  - rewrite save_config_run by done. rewrite bind_run. unfold modify. right.
    exists (Store (s_platform s) (<[cc_id c := c]> (s_configs s)) (s_grants s) (s_audits s)
              (s_next_id s + 1) (s_wallet s)).
    split; [done|]. split.
    + apply put_config_ok; [done|done|lia|fold c in Hid; lia|]. fold c in Hid, Hz.
      rewrite Hz, Hid. symmetry. apply (ok_absent _ Hs).
      destruct (s_configs s !! s_next_id s) as [x|] eqn:E; [|done].
      destruct (ok_configs _ Hs _ _ E) as (_ & ? & _). lia.
    + cbn. apply lookup_insert_eq.
  - rewrite save_config_fail by done. left. eauto.
Qed.

Lemma find_config_some p (s : store) c :
  store_ok s → find_config p s = Some c → s_configs s !! cc_id c = Some c ∧ p c = true.
Proof.
  intros Hs H. unfold find_config in H. apply List.find_some in H as [Hin Hp].
  apply list_elem_of_In, list_elem_of_fmap in Hin as ([id c'] & -> & Hin%elem_of_map_to_list).
  cbn in *. destruct (ok_configs _ Hs _ _ Hin) as (-> & _). done.
Qed.

(** The tail of [snapshot_for_campaign]: freezing the row it found or made. *)
Lemma freeze_unpaid (source : option configuration) now (s : store) c0 :
  store_ok s → s_configs s !! cc_id c0 = Some c0 →
  let m := freeze source c0 now in
  unpaid_change s (m s).2
  ∧ ∀ c, (m s).1 = inr (Some c) → cc_id c = cc_id c0 ∧ is_Some (s_configs (m s).2 !! cc_id c).
Proof.
  intros Hs H0 m. unfold m, freeze. destruct (cc_locked_at c0).
  { cbn. split; [by apply unpaid_change_refl|]. intros c [= <-]. eauto. }
  cbv zeta. set (config := set_lock _ _).
  assert (cc_id config = cc_id c0 ∧ cc_distributed config = cc_distributed c0) as [Hid Hd]
    by (by destruct source).
  rewrite bind_run. pose proof (unpaid_save s c0 config Hs H0 Hid Hd) as Hu.
  destruct (within_budget config) eqn:Hwb.
  - rewrite save_config_run in * by done. cbn in *. split; [exact Hu|].
    intros c [= <-]. rewrite lookup_insert_eq. eauto.
  - rewrite save_config_fail in * by done. split; [exact Hu|]. intros c [=].
Qed.

Lemma config_for_campaign_some c (s : store) cc :
  store_ok s → config_for_campaign c s = Some cc → s_configs s !! cc_id cc = Some cc.
Proof. intros Hs H. by destruct (find_config_some _ _ _ Hs H). Qed.

(** A snapshot pays nothing and yields a row that is stored. *)
Lemma snapshot_spec c now (s : store) :
  store_ok s →
  let r := snapshot_for_campaign c now s in
  unpaid_change s r.2 ∧ ∀ cc, r.1 = inr (Some cc) → is_Some (s_configs r.2 !! cc_id cc).
Proof.
  intros Hs r. unfold r, snapshot_for_campaign.
  destruct (cp_organization c) as [organization|]; [|by split; [apply unpaid_change_refl|]].
  rewrite bind_run, gets_run. destruct (match config_for_campaign c s with Some e => _ | None => _ end) eqn:Hl.
  { split; [by apply unpaid_change_refl|]. intros cc [= E]. rewrite E in Hl.
    cbn. rewrite (config_for_campaign_some _ _ _ Hs E). eauto. }
  rewrite bind_run, gets_run. set (source := default_for_organization _ _). clearbody source.
  unfold atomic. rewrite bind_run, gets_run, bind_run.
  assert (∀ s1 e, unpaid_change s s1 → s_configs s1 !! cc_id e = Some e →
    let r := match freeze source e now s1 with (inl x, _) => (inl x, s) | r => r end in
    unpaid_change s r.2 ∧ ∀ cc, r.1 = inr (Some cc) → is_Some (s_configs r.2 !! cc_id cc)) as Hfr.
  { intros s1 e Hs1 He. destruct (freeze_unpaid source now s1 e (proj1 Hs1) He) as [Hu Hc].
    destruct (freeze source e now s1) as [[x|oc] s2]; [by split; [apply unpaid_change_refl|]|].
    split; [by eapply unpaid_change_trans|]. intros cc Ecc. by apply Hc. }
  destruct (config_for_campaign c s) as [e|] eqn:He.
  - apply Hfr; [by apply unpaid_change_refl|by eapply config_for_campaign_some].
  - match goal with |- context [insert_config ?mk s] =>
      destruct (insert_config_cases mk s Hs ltac:(done)) as [[x ->]|(s1 & -> & Hu & Hrow)] end.
    + split; [by apply unpaid_change_refl|done].
    + by apply Hfr.
Qed.

(** What a call of [award] did: nothing, or one payment within the limits. *)
Definition pays_one (c : campaign) (user : Z) (action reference : string) (now n : Z)
    (s s' : store) : Prop :=
  0 < n ∧ ∃ id cc,
    s_configs s' !! id = Some cc
    ∧ s_grants s' = s_grants s ++ [Grant id (cp_id c) user action reference n now]
    ∧ (∀ u, wallet_total u (s_wallet s')
            = wallet_total u (s_wallet s) + if decide (u = user) then n else 0)
    ∧ rewards_enabled (cc_rates cc) = true ∧ cc_is_active cc = true
    ∧ (budget (cc_rates cc) ≠ 0 → cc_distributed cc <= budget (cc_rates cc))
    ∧ (max_reward_per_user (cc_rates cc) ≠ 0 →
         earned_total (cp_id c) user None s' <= max_reward_per_user (cc_rates cc))
    ∧ (max_daily_reward_per_user (cc_rates cc) ≠ 0 →
         earned_total (cp_id c) user (Some (utc_date now)) s'
         <= max_daily_reward_per_user (cc_rates cc)).

Definition awards (c : campaign) (user : Z) (action reference : string) (now : Z)
    (s : store) (r : (exn + Z) * store) : Prop :=
  unpaid_change s r.2 ∧ (∀ n, r.1 = inr n → n = 0)
  ∨ store_ok r.2 ∧ ∃ n, r.1 = inr n ∧ pays_one c user action reference now n s r.2.

Lemma awards_locked id c user action reference amount now (s : store) :
  store_ok s → is_Some (s_configs s !! id) →
  awards c user action reference now s
    (catch (award_locked id c user action reference amount now)
       (λ e, match e with IntegrityError _ => Some (mret 0) | _ => None end) s).
Proof.
  intros Hs [cc Hcc]. unfold catch.
  destruct (award_locked_cases id c user action reference amount now s cc Hs Hcc)
    as [-> | [(n & _ & ->)|(n & w' & Ha & Hf & -> & Hw & Htot)]].
  - left. cbn. split; [by apply unpaid_change_refl|]. by intros n [= <-].
  - left. cbn. split; [by apply unpaid_change_refl|]. by intros m [= <-].
  - right. destruct (allowed_spec _ _ _ _ _ Ha) as (Hn & Hen & Hact & Hb & Hmax & Hday). cbn [fst snd].
    split; [by apply paid_ok; try done; lia|]. exists n. split; [done|]. split; [lia|].
    exists id, (add_distributed n cc). split_and!; try done.
    + cbn. apply lookup_insert_eq.
    + unfold paid. intros Hne. rewrite earned_total_snoc by done. by apply Hmax.
    + unfold paid. intros Hne. rewrite earned_total_snoc by (done || apply local_date_ge).
      by apply Hday.
Qed.

Lemma awards_after_unpaid c user action reference now (s s1 : store) r :
  unpaid_change s s1 → awards c user action reference now s1 r → awards c user action reference now s r.
Proof.
  intros H1 [[H2 Hz]|(Hok & n & Hr & Hn & id & cc & Hcc & Hg & Ht & Hrest)].
  - left. split; [by eapply unpaid_change_trans|done].
  - right. split; [done|]. exists n. split; [done|]. split; [done|]. exists id, cc.
    destruct H1 as (_ & Eg & Ew). rewrite <- Eg, <- Ew. exact (conj Hcc (conj Hg (conj Ht Hrest))).
Qed.

Lemma award_cases c user action reference coins now (s : store) :
  store_ok s →
  awards c user action reference now s (award c user action reference coins now s).
Proof.
  intros Hs. unfold award. rewrite bind_run, gets_run.
  destruct (negb _); [by left; split; [apply unpaid_change_refl|intros n [= <-]]|]. cbv zeta.
  destruct (_ <=? 0); [by left; split; [apply unpaid_change_refl|intros n [= <-]]|].
  rewrite bind_run. destruct (r_configuration_id (resolve_for_campaign c s)) as [id|] eqn:Hid.
  - cbn [mret M_ret]. apply awards_locked; [done|]. unfold resolve_for_campaign in Hid.
    destruct (config_for_campaign c s) as [own|] eqn:Hown.
    + destruct (cc_is_active own); [|by repeat case_match; simplify_eq].
      injection Hid as <-. rewrite (config_for_campaign_some _ _ _ Hs Hown). eauto.
    + by repeat case_match; simplify_eq.
  - rewrite bind_run. destruct (snapshot_spec c now s Hs) as [Hu Hc].
    destruct (snapshot_for_campaign c now s) as [[e|[cc|]] s1]; cbn in Hu, Hc.
    + left. split; [exact Hu|done].
    + apply (awards_after_unpaid _ _ _ _ _ _ s1); [exact Hu|].
      apply awards_locked; [apply Hu|by apply Hc].
    + left. split; [exact Hu|]. by intros n [= <-].
Qed.

(** C6.  [award] pays at most once, within every limit.  In a well-formed
    store a call either pays nothing -- no grant, no coins, whatever it returns
    -- or records exactly one new grant and credits its user exactly that
    amount, nobody else, from a configuration that is enabled and active, with
    the budget not exceeded and the user's total and daily earnings, the new
    grant included, within their caps.  The same engagement never pays again,
    whenever and at whatever rate it is retried. *)
Theorem award_pays_once c user action reference coins now (s : store) :
  store_ok s →
  let s' := (award c user action reference coins now s).2 in
  store_ok s'
  ∧ ((s_grants s' = s_grants s ∧ s_wallet s' = s_wallet s)
     ∨ ∃ n, (award c user action reference coins now s).1 = inr n
         ∧ pays_one c user action reference now n s s'
         ∧ ∀ coins' now', let s2 := (award c user action reference coins' now' s').2 in
             s_grants s2 = s_grants s' ∧ s_wallet s2 = s_wallet s').
Proof.
  intros Hs s'.
  destruct (award_cases c user action reference coins now s Hs) as [[(Hok & Hg & Hw) _]|(Hok & n & Hr & Hp)].
  { by split; [|left]. }
  split; [exact Hok|right]. exists n. split_and!; [done|exact Hp|]. intros coins' now'. cbv zeta.
  destruct (award_cases c user action reference coins' now' s' Hok)
    as [[(_ & Hg2 & Hw2) _]|(Hok2 & n2 & _ & _ & id2 & cc2 & _ & Hg2 & _)]; [done|].
  exfalso. pose proof (ok_once _ Hok2) as Hnd. rewrite Hg2, fmap_app in Hnd.
  destruct Hp as (_ & id & cc & _ & Hg & _). fold s' in Hg. rewrite Hg, fmap_app in Hnd.
  apply NoDup_app in Hnd as (_ & Hno & _). eapply Hno; [apply elem_of_app; right; left|].
  left.
Qed.

(** ** Editing *)

Lemma apply_one_keeps ch c :
  cc_id (apply_one ch c) = cc_id c ∧ cc_organization (apply_one ch c) = cc_organization c
  ∧ cc_campaign (apply_one ch c) = cc_campaign c
  ∧ cc_distributed (apply_one ch c) = cc_distributed c
  ∧ cc_locked_at (apply_one ch c) = cc_locked_at c.
Proof. by destruct ch as [f [v|]| | |]. Qed.

Definition applied (chs : list change) (c : configuration) : configuration :=
  fold_left (λ c ch, apply_one ch c) chs c.

Lemma applied_keeps chs c :
  cc_id (applied chs c) = cc_id c ∧ cc_organization (applied chs c) = cc_organization c
  ∧ cc_campaign (applied chs c) = cc_campaign c
  ∧ cc_distributed (applied chs c) = cc_distributed c
  ∧ cc_locked_at (applied chs c) = cc_locked_at c.
Proof.
  revert c. induction chs as [|ch chs IH]; intros c; [done|].
  change (applied (ch :: chs) c) with (applied chs (apply_one ch c)).
  destruct (IH (apply_one ch c)) as (-> & -> & -> & -> & ->). apply apply_one_keeps.
Qed.

Lemma store_ok_ext (s s' : store) :
  s_configs s' = s_configs s → s_grants s' = s_grants s → s_next_id s' = s_next_id s →
  s_wallet s' = s_wallet s → store_ok s → unpaid_change s s'.
Proof.
  intros E1 E2 E3 E4 [Hc Ha Ho Hp Hw]. split; [|done].
  constructor; rewrite ?E1, ?E2, ?E4; try done.
  intros id c Hid. destruct (Hc id c Hid) as (?&?&?&?). unfold config_ok. rewrite E2, E3. done.
Qed.

Lemma unpaid_check_all checks : unpaid (check_all checks : M store unit).
Proof.
  induction checks as [|[ok e] cs IH]; cbn [check_all]; [apply unpaid_ret|].
  apply unpaid_bind; [apply unpaid_assert|by intros []].
Qed.

Lemma get_platform_run now (s : store) :
  ∃ c p, get_platform now s
    = (inr c, Store p (s_configs s) (s_grants s) (s_audits s) (s_next_id s) (s_wallet s))
  ∧ (WalletConfig.get_config now (s_platform s)).1 = inr c.
Proof.
  unfold get_platform. rewrite zoom_run. unfold WalletConfig.get_config. rewrite bind_run. cbn.
  destruct (s_platform s) as [c|]; cbn; eauto.
Qed.

Lemma unpaid_validate r now : unpaid (validate_against_platform_limits r now : M store unit).
Proof.
  unfold validate_against_platform_limits.
  apply unpaid_bind; [apply unpaid_check_all|intros _].
  apply unpaid_bind; [|intros [p|]; [apply unpaid_check_all|apply unpaid_ret]].
  intros s Hs. destruct (get_platform_run now s) as (c & p & Hrun & _). unfold catch.
  rewrite bind_run, Hrun. by apply store_ok_ext.
Qed.

Lemma unpaid_save_changes id changed : unpaid (save_changes id changed : M store unit).
Proof.
  intros s Hs. unfold save_changes. rewrite bind_run. unfold get.
  destruct (s_configs s !! id) as [row|] eqn:Hrow; [|by apply unpaid_change_refl].
  destruct (ok_configs _ Hs _ _ Hrow) as (Hid & _). subst id.
  destruct (applied_keeps changed row) as (E1 & _ & _ & E2 & _).
  by apply (unpaid_save s row).
Qed.

Lemma apply_changes_unpaid self changes actor reason now :
  unpaid (apply_changes self changes actor reason now : M store (list audit)).
Proof.
  unfold apply_changes. destruct (filter _ changes) as [|ch chs]; [apply unpaid_ret|].
  apply unpaid_bind; [apply unpaid_check_all|intros _]. cbv zeta.
  apply unpaid_bind; [apply unpaid_validate|intros _].
  apply unpaid_bind; [apply unpaid_assert|intros _].
  apply unpaid_atomic. destruct (assign_changes _ _ _ _) as [[config entries] [|c1 changed]];
    [apply unpaid_ret|].
  apply unpaid_bind; [apply unpaid_save_changes|intros _].
  apply unpaid_bind; [|intros; apply unpaid_ret]. intros s Hs. by apply store_ok_ext.
Qed.

(** ** Reachable stores *)

Inductive event :=
| EAward (c : campaign) (user : Z) (action reference : string) (coins : option Z) (now : Z)
| ESnapshot (c : campaign) (now : Z)
| EApply (self : configuration) (changes : list change) (actor : Z) (reason : string) (now : Z).

Definition exec (e : event) : M store unit :=
  match e with
  | EAward c u a r n now => award c u a r n now ≫= λ _, mret tt
  | ESnapshot c now => snapshot_for_campaign c now ≫= λ _, mret tt
  | EApply self chs actor reason now => apply_changes self chs actor reason now ≫= λ _, mret tt
  end.

Definition run (s : store) (es : list event) : store := fold_left (λ s e, (exec e s).2) es s.

Definition granted (u : Z) (s : store) : Z :=
  sumZ (λ g, if g_user g =? u then g_coins g else 0) (s_grants s).

(** [s'] differs from [s] only by grants that were paid out in full. *)
Definition accounted (s s' : store) : Prop :=
  store_ok s' ∧ ∀ u, wallet_total u (s_wallet s') - granted u s'
                     = wallet_total u (s_wallet s) - granted u s.

Lemma bind_ret_state {A B} (m : M store A) (f : A → B) (s : store) :
  ((m ≫= λ a, mret (f a)) s).2 = (m s).2.
Proof. rewrite bind_run. by destruct (m s) as [[e|a] s1]. Qed.

Lemma unpaid_accounted (s s' : store) : unpaid_change s s' → accounted s s'.
Proof. intros (Hok & Hg & Hw). split; [done|]. intros u. unfold granted. by rewrite Hg, Hw. Qed.

Lemma exec_accounted e (s : store) : store_ok s → accounted s (exec e s).2.
Proof.
  intros Hs. destruct e; cbn [exec]; rewrite bind_ret_state.
  - destruct (award_cases c user action reference coins now s Hs)
      as [[Hu _]|(Hok & n & _ & _ & id & cc & _ & Hg & Ht & _)]; [by apply unpaid_accounted|].
    split; [done|]. intros u. unfold granted. rewrite Hg, Ht, sumZ_app, sumZ_cons, sumZ_nil. cbn.
    destruct (decide (u = user)), (Z.eqb_spec user u); lia || congruence.
  - by apply unpaid_accounted, snapshot_spec.
  - by apply unpaid_accounted, apply_changes_unpaid.
Qed.

(** Whatever awards, snapshots and edits happen in whatever order, the
    books balance: each configuration's [distributed] is the sum of the grants
    paid from it and stays within its budget, no engagement is paid twice, and
    each user's wallet has grown by exactly the grants recorded for them. *)
Theorem grants_and_wallets_agree (s : store) es :
  store_ok s →
  let s' := run s es in
  (∀ u, wallet_total u (s_wallet s') - granted u s' = wallet_total u (s_wallet s) - granted u s)
  ∧ (∀ id c, s_configs s' !! id = Some c →
       cc_distributed c = sumZ (of_config id) (s_grants s')
       ∧ (budget (cc_rates c) = 0 ∨ cc_distributed c <= budget (cc_rates c)))
  ∧ NoDup (engagement <$> s_grants s').
Proof.
  intros Hs s'. assert (accounted s s') as [Hok Ht].
  { unfold s'. clear s'. revert s Hs. induction es as [|e es IH]; intros s Hs; [by split|].
    cbn. destruct (exec_accounted e s Hs) as [H1 H2]. destruct (IH _ H1) as [H3 H4].
    split; [done|]. intros u. by rewrite H4. }
  split_and!; [done| |apply Hok].
  intros id c Hc. destruct (ok_configs _ Hok _ _ Hc) as (_ & _ & Hb & Hd). split; [done|].
  unfold within_budget in Hb. destruct (Z.eqb_spec (budget (cc_rates c)) 0); [by left|].
  right. by apply Z.leb_le.
Qed.

(** ** All or nothing *)

Lemma set_get_number f r : set_number f (get_number f r) r = r.
Proof. by destruct r, f. Qed.

Lemma same_value_noop ch c : same_value ch c = true → apply_one ch c = c.
Proof.
  destruct ch as [f [v|]|b|b|f]; cbn; intros Hs; try done.
  - apply Z.eqb_eq in Hs as <-. rewrite set_get_number. by destruct c.
  - apply eqb_prop in Hs as <-. by destruct c as [? ? ? [] ? ? ?].
  - apply eqb_prop in Hs as <-. by destruct c.
Qed.

(** The key of the [changes] dict an entry stands under. *)
Definition key_of (ch : change) : string :=
  match ch with
  | Numeric f _ => field_name f
  | Enabled _ => "rewards_enabled"
  | Active _ => "is_active"
  | Other f => f
  end.

(** What the loop reads of the row for one entry. *)
Definition reading (ch : change) (c : configuration) : (string * string * string) * bool :=
  (described ch c, same_value ch c).

Lemma reading_other a b c : key_of a ≠ key_of b → reading b (apply_one a c) = reading b c.
Proof.
  destruct c as [? ? ? [] ? ? ?]. destruct a as [f [v|]|v|v|f], b as [g w|w|w|g]; try done; intros Hne.
  all: by destruct f; try destruct g.
Qed.

Lemma same_value_applied ch c :
  editable ch = true → (check_change ch).1 = true → same_value ch (apply_one ch c) = true.
Proof.
  destruct c as [? ? ? [] ? ? ?]. destruct ch as [f [v|]|v|v|f]; cbn; intros He Hc; try done.
  - destruct f; apply Z.eqb_refl.
  - apply eqb_reflx.
  - apply eqb_reflx.
Qed.

Lemma reading_applied chs b c :
  key_of b ∉ key_of <$> chs → reading b (applied chs c) = reading b c.
Proof.
  revert c. induction chs as [|a chs IH]; intros c; [done|]. cbn [fmap list_fmap]. intros Hno.
  apply not_elem_of_cons in Hno as [Hne Hno].
  change (reading b (applied chs (apply_one a c)) = reading b c).
  rewrite IH by done. by apply reading_other.
Qed.

(** The entries an edit of [self] deserves: one per value that differs. *)
Definition differs (self : configuration) (ch : change) : bool := negb (same_value ch self).
Definition entry_for (self : configuration) (actor : Z) (reason : string) (ch : change) : audit :=
  let '(f, prev, new) := described ch self in Audit (cc_id self) f prev new actor reason.

Definition assign_step (actor : Z) (reason : string)
    (acc : configuration * list audit * list change) (ch : change) :=
  let '(c, entries, changed) := acc in
  if same_value ch c then acc
  else let '(f, prev, new) := described ch c in
       (apply_one ch c, entries ++ [Audit (cc_id c) f prev new actor reason], changed ++ [ch]).

Lemma assign_fold actor reason self chs :
  NoDup (key_of <$> chs) →
  ∀ c es cg, cc_id c = cc_id self → (∀ ch, ch ∈ chs → reading ch c = reading ch self) →
  fold_left (assign_step actor reason) chs (c, es, cg)
  = (applied chs c,
     es ++ (entry_for self actor reason <$> filter (λ ch, differs self ch = true) chs),
     cg ++ filter (λ ch, differs self ch = true) chs).
Proof.
  induction chs as [|ch chs IH]; intros Hnd c es cg Hid Hr.
  { cbn. by rewrite !app_nil_r. }
  cbn [fmap list_fmap] in Hnd. apply NoDup_cons in Hnd as [Hno Hnd].
  assert (reading ch c = reading ch self) as [= Hdesc Hsame] by (apply Hr; left).
  change (applied (ch :: chs) c) with (applied chs (apply_one ch c)). cbn [fold_left].
  assert (∀ ch', ch' ∈ chs → reading ch' (apply_one ch c) = reading ch' self) as Hr'.
  { intros ch' Hin. rewrite reading_other; [apply Hr; by right|].
    intros E. apply Hno. rewrite E. by apply list_elem_of_fmap_2. }
  unfold assign_step at 2. destruct (same_value ch c) eqn:Hs.
  - rewrite (same_value_noop _ _ Hs) in *. rewrite filter_cons_False.
    + by apply IH.
    + unfold differs. by rewrite <- Hsame.
  - destruct (described ch c) as [[f prev] new] eqn:Hd.
    rewrite IH; [|done|by rewrite (proj1 (apply_one_keeps ch c))|done].
    rewrite filter_cons_True by (unfold differs; by rewrite <- Hsame).
    rewrite fmap_cons, <- !app_assoc.
    assert (entry_for self actor reason ch = Audit (cc_id c) f prev new actor reason) as ->
      by (unfold entry_for; by rewrite <- Hdesc, Hid).
    done.
Qed.

Lemma assign_changes_run actor reason self chs :
  NoDup (key_of <$> chs) →
  assign_changes actor reason chs self
  = (applied chs self, entry_for self actor reason <$> filter (λ ch, differs self ch = true) chs,
     filter (λ ch, differs self ch = true) chs).
Proof. intros Hnd. by apply (assign_fold actor reason self chs Hnd self [] []). Qed.

(** Leaving out the entries that change nothing gives the same row. *)
Lemma applied_differing self chs c :
  NoDup (key_of <$> chs) → (∀ ch, ch ∈ chs → reading ch c = reading ch self) →
  applied (filter (λ ch, differs self ch = true) chs) c = applied chs c.
Proof.
  revert c. induction chs as [|ch chs IH]; intros c Hnd Hr; [done|].
  cbn [fmap list_fmap] in Hnd. apply NoDup_cons in Hnd as [Hno Hnd].
  assert (reading ch c = reading ch self) as [= _ Hsame] by (apply Hr; left).
  change (applied (ch :: chs) c) with (applied chs (apply_one ch c)).
  destruct (differs self ch) eqn:Hd; unfold differs in Hd; rewrite <- Hsame in Hd.
  - rewrite filter_cons_True by (unfold differs; by rewrite <- Hsame).
    change (applied (ch :: ?l) c) with (applied l (apply_one ch c)). apply IH; [done|].
    intros ch' Hin. rewrite reading_other; [apply Hr; by right|].
    intros E. apply Hno. rewrite E. by apply list_elem_of_fmap_2.
  - rewrite filter_cons_False by (unfold differs; by rewrite <- Hsame, Hd).
    rewrite same_value_noop by (by apply negb_false_iff). apply IH; [done|].
    intros ch' Hin. apply Hr. by right.
Qed.

Lemma check_all_run checks (s : store) :
  (check_all checks s = (inr tt, s) ∧ Forall (λ ce, ce.1 = true) checks)
  ∨ ∃ e, check_all checks s = (inl e, s).
Proof.
  induction checks as [|[[] e] cs IH]; cbn [check_all]; [by left|..].
  - rewrite bind_run. cbn. destruct IH as [[-> H]|[x ->]]; [left|right; eauto].
    split; [done|]. by constructor.
  - right. by exists e.
Qed.

(** The rates a validated configuration may hold. *)
Definition within_platform (r : rates) (now : Z) (p : WalletConfig.config_table) : Prop :=
  (∀ f, 0 <= get_number f r)
  ∧ ∃ platform, (WalletConfig.get_config now p).1 = inr platform
      ∧ like_reward r <= WalletConfig.max_like_reward platform
      ∧ comment_reward r <= WalletConfig.max_comment_reward platform
      ∧ share_reward r <= WalletConfig.max_share_reward platform
      ∧ gift_reward r <= WalletConfig.max_gift_reward platform.

(** [s] with another platform table: what validation may leave behind. *)
Definition with_platform (p : WalletConfig.config_table) (s : store) : store :=
  Store p (s_configs s) (s_grants s) (s_audits s) (s_next_id s) (s_wallet s).

Lemma validate_run r now (s : store) :
  ∃ p, (validate_against_platform_limits r now s = (inr tt, with_platform p s)
        ∧ within_platform r now (s_platform s))
     ∨ ∃ e, validate_against_platform_limits r now s = (inl e, with_platform p s).
Proof.
  unfold validate_against_platform_limits. rewrite bind_run.
  assert (with_platform (s_platform s) s = s) as Hself by (by destruct s).
  destruct (check_all_run ((λ fv, (0 <=? or_int fv.2 0, negative_error fv.1)) <$> numbers r) s)
    as [[-> Hpos]|[e ->]]; [|exists (s_platform s); right; exists e; by rewrite Hself].
  destruct (get_platform_run now s) as (platform & p & Hrun & Hget). exists p.
  unfold catch. rewrite !bind_run, Hrun. cbn [mret M_ret].
  match goal with |- context [check_all ?l ?s'] =>
    destruct (check_all_run l s') as [[-> Hlim]|[e ->]] end; [left|right; by exists e].
  split; [done|]. split.
  - intros f. cbn in Hpos. rewrite !Forall_cons in Hpos. cbn in Hpos. rewrite !or_int_0 in Hpos.
    rewrite !Z.leb_le in Hpos. by destruct f; cbn; decompose [and] Hpos.
  - exists platform. cbn in Hlim. rewrite !Forall_cons in Hlim. cbn in Hlim.
    rewrite !or_int_0, !Z.leb_le in Hlim. by decompose [and] Hlim.
Qed.

(** The proposed entries of a [changes] dict. *)
Definition proposed_of (changes : list change) : list change :=
  filter (λ ch, editable ch = true) changes.

(** Everything but the platform table is the same. *)
Definition same_books (s s' : store) : Prop := ∃ p, s' = with_platform p s.

(** An edit that took effect: the row, its audit entries and the limits. *)
Definition edited (self : configuration) (changes : list change) (actor : Z) (reason : string)
    (now : Z) (s s' : store) (entries : list audit) : Prop :=
  let proposed := proposed_of changes in
  let row := applied proposed self in
  entries = entry_for self actor reason <$> filter (λ ch, differs self ch = true) proposed
  ∧ (∃ p, s' = Store p (<[cc_id self := row]> (s_configs s)) (s_grants s)
                 (s_audits s ++ entries) (s_next_id s) (s_wallet s))
  ∧ within_platform (cc_rates row) now (s_platform s)
  ∧ (budget (cc_rates row) ≠ 0 → cc_distributed self <= budget (cc_rates row))
  ∧ ∀ ch, ch ∈ proposed → same_value ch row = true.

Lemma same_value_all chs c :
  NoDup (key_of <$> chs) → Forall (λ ch, editable ch = true ∧ (check_change ch).1 = true) chs →
  ∀ ch, ch ∈ chs → same_value ch (applied chs c) = true.
Proof.
  revert c. induction chs as [|a chs IH]; intros c Hnd Hok ch Hin; [by apply elem_of_nil in Hin|].
  cbn [fmap list_fmap] in Hnd. apply NoDup_cons in Hnd as [Hno Hnd].
  apply Forall_cons in Hok as [[He Hc] Hok].
  change (applied (a :: chs) c) with (applied chs (apply_one a c)).
  apply elem_of_cons in Hin as [->|Hin]; [|by apply IH].
  assert (reading a (applied chs (apply_one a c)) = reading a (apply_one a c)) as [= _ ->]
    by (by apply reading_applied).
  by apply same_value_applied.
Qed.

Lemma keys_proposed changes : NoDup (key_of <$> changes) → NoDup (key_of <$> proposed_of changes).
Proof.
  intros Hnd. eapply sublist_NoDup; [done|]. apply fmap_sublist, sublist_filter.
Qed.

Lemma apply_changes_cases self changes actor reason now (s : store) :
  s_configs s !! cc_id self = Some self → NoDup (key_of <$> changes) →
  let r := apply_changes self changes actor reason now s in
  same_books s r.2 ∧ (∀ es, r.1 = inr es → proposed_of changes = [] ∧ es = [])
  ∨ ∃ es, r.1 = inr es ∧ edited self changes actor reason now s r.2 es.
Proof.
  intros Hrow Hnd%keys_proposed r. unfold r, apply_changes. fold (proposed_of changes).
  assert (same_books s s) as Hsame by (exists (s_platform s); by destruct s).
  assert (Forall (λ ch, editable ch = true) (proposed_of changes)) as Hed
    by (apply Forall_forall; intros ch Hin; by apply list_elem_of_filter in Hin as [? _]).
  remember (proposed_of changes) as proposed eqn:Hprop. destruct proposed as [|c0 cs].
  { left. split; [done|]. by intros es [= <-]. }
  rewrite Hprop in *. clear c0 cs Hprop. set (proposed := proposed_of changes) in *. rewrite bind_run.
  destruct (check_all_run (check_change <$> proposed) s) as [[-> Hchk]|[e ->]]; [|by left].
  cbv zeta. rewrite bind_run. fold (applied proposed self). set (row := applied proposed self).
  destruct (validate_run (cc_rates row) now s) as [p [[-> Hwp]|[e ->]]]; [|left; split; [by exists p|done]].
  rewrite bind_run. destruct (negb _) eqn:Hb; cbn [assert_or raise mret M_ret];
    [|left; split; [by exists p|done]].
  right. unfold atomic. rewrite (assign_changes_run actor reason self proposed Hnd).
  exists (entry_for self actor reason <$> filter (λ ch, differs self ch = true) proposed).
  destruct (applied_keeps proposed self) as (Hid & _ & _ & Hdist & _). fold row in Hid, Hdist.
  rewrite or_int_0 in Hb.
  assert (budget (cc_rates row) ≠ 0 → cc_distributed self <= budget (cc_rates row)) as Hbud.
  { intros Hne. destruct (Z.eqb_spec (budget (cc_rates row)) 0), (Z.ltb_spec (budget (cc_rates row)) (cc_distributed self)); done || lia. }
  assert (∀ ch, ch ∈ proposed → same_value ch row = true) as Hall.
  { apply same_value_all; [done|]. apply Forall_and. split; [done|]. by apply Forall_fmap in Hchk. }
  pose proof (applied_differing self proposed self Hnd ltac:(done)) as Hdiff. fold row in Hdiff.
  destruct (filter _ proposed) as [|d ds] eqn:Hf.
  - split; [done|]. cbn in Hdiff. unfold edited. fold proposed row. split; [by rewrite Hf|]. split; [|exact (conj Hwp (conj Hbud Hall))].
    exists p. cbn. by rewrite app_nil_r, <- Hdiff, insert_id.
  - rewrite bind_run. unfold save_changes. rewrite bind_run. unfold get. cbn [s_configs with_platform].
    rewrite Hrow. change (fold_left _ (d :: ds) self) with (applied (d :: ds) self). rewrite Hdiff.
    rewrite save_config_run; cycle 1.
    { unfold within_budget. rewrite Hdist. destruct (Z.eqb_spec (budget (cc_rates row)) 0); [done|].
      apply Z.leb_le. by apply Hbud. }
    rewrite bind_run. split; [done|]. unfold edited. fold proposed row.
    split; [by rewrite Hf|]. split; [|exact (conj Hwp (conj Hbud Hall))].
    exists p. cbn. by rewrite Hid.
Qed.

Lemma applied_noop chs c :
  (∀ ch, ch ∈ chs → same_value ch c = true) → applied chs c = c.
Proof.
  induction chs as [|a chs IH]; intros H; [done|].
  change (applied (a :: chs) c) with (applied chs (apply_one a c)).
  rewrite same_value_noop by (apply H; left). apply IH. intros ch Hin. apply H. by right.
Qed.

(** [apply_changes] is all or nothing.  On a fresh copy of the row and a
    [changes] dict, a call either leaves every configuration and the audit
    trail as they were (a rejected value, or nothing editable asked for), or it
    writes exactly the row with every proposed value -- no numeric negative,
    rewards within the platform maxima, a budget not below what is spent, and
    the identity, the spent counter and the lock untouched -- and exactly one
    audit entry for each value that really changed, with the value before.
    Submitting the same changes again writes nothing. *)
Theorem apply_changes_all_or_nothing self changes actor reason now (s : store) :
  s_configs s !! cc_id self = Some self → NoDup (key_of <$> changes) →
  let r := apply_changes self changes actor reason now s in
  let row := applied (proposed_of changes) self in
  (same_books s r.2 ∧ (∀ es, r.1 = inr es → proposed_of changes = [] ∧ es = []))
  ∨ (∃ es, r.1 = inr es ∧ edited self changes actor reason now s r.2 es)
    ∧ cc_id row = cc_id self ∧ cc_organization row = cc_organization self
    ∧ cc_campaign row = cc_campaign self ∧ cc_distributed row = cc_distributed self
    ∧ cc_locked_at row = cc_locked_at self
    ∧ ∀ actor' reason' now', same_books r.2 (apply_changes row changes actor' reason' now' r.2).2.
Proof.
  intros Hrow Hnd r row.
  destruct (apply_changes_cases self changes actor reason now s Hrow Hnd) as [?|Hed]; [by left|right].
  split; [done|]. destruct (applied_keeps (proposed_of changes) self) as (Hid & H2 & H3 & H4 & H5).
  fold row in Hid, H2, H3, H4, H5. split_and!; [done..|].
  intros actor' reason' now'. destruct Hed as (es & _ & Hes & [p Hs'] & _ & _ & Hall). fold r row in Hs', Hall.
  assert (s_configs r.2 !! cc_id row = Some row) as Hrow'
    by (rewrite Hs'; cbn; rewrite Hid; apply lookup_insert_eq).
  destruct (apply_changes_cases row changes actor' reason' now' r.2 Hrow' Hnd)
    as [[? _]|(es' & _ & He' & [p' Hs''] & _)]; [done|].
  exists p'. rewrite (applied_noop _ _ Hall), insert_id in Hs'' by done.
  assert (es' = []) as ->; [|by rewrite app_nil_r in Hs''].
  rewrite He'. destruct (filter (λ ch, differs row ch = true) (proposed_of changes)) as [|ch chs] eqn:Hf;
    [done|exfalso].
  assert (ch ∈ ch :: chs) as Hin by left. rewrite <- Hf in Hin.
  apply list_elem_of_filter in Hin as [Hd Hin]. unfold differs in Hd. by rewrite (Hall ch Hin) in Hd.
Qed.

End Paying.

(** ** The coin wallet keeps the promise *)

(** [UserCoinBalance.objects.get_or_create(user=user)], then [add_earned]. *)
Definition credit_earned (user n : Z) (ty descr : string) (now : Z) : M CoinBalance.wallet unit :=
  balance ← CoinBalance.get_or_create user now;
  CoinBalance.add_earned balance n ty (CoinBalance.descr descr) now ≫= λ _, mret tt.

Lemma credit_earned_spec w user n ty descr now :
  CoinBalance.wallet_ok w → 0 < n → CoinBalance.ordinary_type ty = true →
  ∃ w', credit_earned user n ty descr now w = (inr tt, w') ∧ CoinBalance.wallet_ok w'
    ∧ ∀ u, CoinBalance.total_of u w' = CoinBalance.total_of u w + if decide (u = user) then n else 0.
Proof.
  intros Hw Hn Hty.
  destruct (CoinBalance.add_earned_credit user n ty (CoinBalance.descr descr) now w Hw Hn)
    as (r' & Hrun & Hmv & _).
  rewrite CoinBalance.clash_ordinary in Hrun by done.
  assert (credit_earned user n ty descr now w = (inr tt,
    CoinBalance.credited user r' (CoinBalance.new_tx user ty n "" (CoinBalance.descr descr) now) w)) as ->.
  { exact Hrun. }
  eexists. split; [reflexivity|]. by apply (CoinBalance.credited_ok user n now).
Qed.

#[export] Instance coin_wallet : CoinWallet CoinBalance.wallet := {|
  wallet_ok := CoinBalance.wallet_ok;
  wallet_total := CoinBalance.total_of;
  credit := credit_earned;
  credit_spec := credit_earned_spec
|}.

(** ** A concrete campaign *)

Notation coin_store := (store CoinBalance.wallet).

Definition example_rates : rates := Rates 5 2 0 0 0 0 20 8 12 true.
Definition example_campaign : campaign := Campaign 3 (Some 7).
Definition example_configuration : configuration :=
  Configuration 1 7 (Some 3) example_rates 0 true None.
Definition example_store : coin_store :=
  Store None (<[1 := example_configuration]> ∅) [] [] 2 CoinBalance.no_wallets.

Lemma example_store_ok : store_ok example_store.
Proof.
  constructor; cbn; [| |constructor|constructor|apply CoinBalance.wallet_ok_empty].
  - intros id c. destruct (decide (id = 1)) as [->|Hne].
    + rewrite lookup_insert_eq. intros [= <-]. by split_and!.
    + by rewrite lookup_insert_ne, lookup_empty by done.
  - done.
Qed.

Lemma award_pays_once_witness :
  let r := award example_campaign 42 "like" "reel-9" None 1000 example_store in
  r.1 = inr 5 ∧ wallet_total 42 (s_wallet r.2) = 5
  ∧ store_ok r.2
  ∧ (award example_campaign 42 "like" "reel-9" (Some 100) 1000 r.2).1 = inr 0.
Proof.
  pose proof (award_pays_once example_campaign 42 "like" "reel-9" None 1000 example_store
    example_store_ok) as [H _].
  intros r. split; [vm_compute; reflexivity|]. split; [vm_compute; reflexivity|].
  split; [exact H|vm_compute; reflexivity].
Defined.

Definition example_events : list (event) :=
  [EAward example_campaign 42 "like" "reel-9" None 1000;
   EApply example_configuration [Numeric Budget (Some 10)] 1 "trim" 2000;
   EAward example_campaign 42 "like" "reel-9" None 3000;
   EAward example_campaign 43 "like" "reel-9" None 3000;
   EAward example_campaign 43 "comment" "c-1" None 3000].

Lemma grants_and_wallets_agree_witness :
  let s' := run example_store example_events in
  wallet_total 42 (s_wallet s') = 5 ∧ wallet_total 43 (s_wallet s') = 5
  ∧ granted 43 s' = 5
  ∧ wallet_total 43 (s_wallet s') - granted 43 s' = 0 - 0.
Proof.
  pose proof (grants_and_wallets_agree example_store example_events example_store_ok) as (H & _ & _).
  intros s'. split; [vm_compute; reflexivity|]. split; [vm_compute; reflexivity|].
  split; [vm_compute; reflexivity|exact (H 43)].
Defined.

Lemma apply_changes_all_or_nothing_witness :
  let changes := [Numeric LikeReward (Some 9); Numeric CommentReward (Some 2); Active false;
                  Other "locked_at"] in
  let r := apply_changes example_configuration changes 1 "spring" 50 example_store in
  (∃ es, r.1 = inr es ∧ length es = 2%nat)
  ∧ (same_books example_store r.2 ∧ (∀ es, r.1 = inr es → proposed_of changes = [] ∧ es = [])
     ∨ (∃ es, r.1 = inr es ∧ edited example_configuration changes 1 "spring" 50 example_store r.2 es)
       ∧ ∀ n, same_books r.2 (apply_changes (applied (proposed_of changes) example_configuration)
                                 changes 2 "again" n r.2).2).
Proof.
  intros changes r. split; [eexists; split; [vm_compute; reflexivity|reflexivity]|].
  destruct (apply_changes_all_or_nothing example_configuration changes 1 "spring" 50 example_store)
    as [H|(H & _ & _ & _ & _ & _ & H2)].
  - apply lookup_insert_eq.
  - vm_compute. repeat constructor; rewrite ?elem_of_cons, ?elem_of_nil; intuition discriminate.
  - by left.
  - right. split; [exact H|]. intros n. apply H2.
Defined.

End CoinConfig.
