(* ===== verification/Subscriptions.v ===== *)
(** * Subscriptions: plans, their periods and their bonus coins

    Models [SubscriptionTier] and [SubscriptionPlan] of
    [src/api/models/subscription.py] (activation, grace, cancellation, the
    once-only bonus and the flow token), [has_active_subscription] and its
    refusals of [src/api/services/subscription_access.py], the conditional
    update of [src/api/services/concurrency.py] and [notify_system] of
    [src/api/services/notifications.py].

    A method runs on [self], a copy of a row loaded earlier.  [self.save()]
    writes every column of that copy, so how stale it is matters: a worker is
    modelled by the copy it holds. *)

From Stdlib Require Import ZArith Lia.
From S2P Require Import Prelude CoinBalance.

Module Subscriptions.

Inductive pstatus := pending | active | cancelled | expired | failed | grace_period.

#[export] Instance pstatus_eq_dec : EqDecision pstatus.
Proof. solve_decision. Defined.

Record tier := Tier {
  tr_id : Z;
  tr_name : string;
  tr_duration_type : string;
  tr_duration_days : option Z;
  tr_bonus_coins : Z;
  tr_charge_gift_coins : Z;
  tr_price_coins : option Z
}.

Record plan := Plan {
  sp_id : Z;
  sp_user : option Z;
  sp_tier : option Z;
  sp_status : pstatus;
  sp_duration_type : string;
  sp_start : option Z;
  sp_end : option Z;
  sp_next_renewal : option Z;
  sp_auto_renew : bool;
  sp_free_trial_days : Z;
  sp_cancelled_at : option Z;
  sp_cancellation_reason : string;
  sp_grace_started : option Z;
  sp_grace_expires : option Z;
  sp_bonus_granted_at : option Z;
  sp_token : option string;
  sp_token_expires : option Z
}.

(** A senderless [Notification]. *)
Record note := Note { n_recipient : Z; n_type : string; n_message : string }.

Record store := Store {
  s_tiers : gmap Z tier;
  s_plans : gmap Z plan;
  s_legacy : list (Z * option Z);
  s_coins : CoinBalance.wallet;
  s_notes : list note
}.

Definition with_plans (ps : gmap Z plan) (s : store) : store :=
  Store (s_tiers s) ps (s_legacy s) (s_coins s) (s_notes s).
Definition with_coins (w : CoinBalance.wallet) (s : store) : store :=
  Store (s_tiers s) (s_plans s) (s_legacy s) w (s_notes s).
Definition add_note (n : note) (s : store) : store :=
  Store (s_tiers s) (s_plans s) (s_legacy s) (s_coins s) (s_notes s ++ [n]).
Definition in_coins {A} : M CoinBalance.wallet A → M store A := zoom s_coins with_coins.

Definition tier_of (self : plan) (s : store) : option tier :=
  match sp_tier self with Some t => s_tiers s !! t | None => None end.

(** ** Columns *)

Definition set_period (st : pstatus) (start end_ next : option Z) (p : plan) : plan :=
  Plan (sp_id p) (sp_user p) (sp_tier p) st (sp_duration_type p) start end_ next
    (sp_auto_renew p) (sp_free_trial_days p) (sp_cancelled_at p) (sp_cancellation_reason p)
    (sp_grace_started p) (sp_grace_expires p) (sp_bonus_granted_at p) (sp_token p)
    (sp_token_expires p).
Definition set_grace (st : pstatus) (started expires : option Z) (p : plan) : plan :=
  Plan (sp_id p) (sp_user p) (sp_tier p) st (sp_duration_type p) (sp_start p) (sp_end p)
    (sp_next_renewal p) (sp_auto_renew p) (sp_free_trial_days p) (sp_cancelled_at p)
    (sp_cancellation_reason p) started expires (sp_bonus_granted_at p) (sp_token p)
    (sp_token_expires p).
Definition set_cancelled (at_ : option Z) (reason : string) (p : plan) : plan :=
  Plan (sp_id p) (sp_user p) (sp_tier p) cancelled (sp_duration_type p) (sp_start p) (sp_end p)
    (sp_next_renewal p) false (sp_free_trial_days p) at_ reason (sp_grace_started p)
    (sp_grace_expires p) (sp_bonus_granted_at p) (sp_token p) (sp_token_expires p).
Definition set_bonus_granted (at_ : option Z) (p : plan) : plan :=
  Plan (sp_id p) (sp_user p) (sp_tier p) (sp_status p) (sp_duration_type p) (sp_start p)
    (sp_end p) (sp_next_renewal p) (sp_auto_renew p) (sp_free_trial_days p) (sp_cancelled_at p)
    (sp_cancellation_reason p) (sp_grace_started p) (sp_grace_expires p) at_ (sp_token p)
    (sp_token_expires p).
Definition set_token (token : option string) (expires : option Z) (p : plan) : plan :=
  Plan (sp_id p) (sp_user p) (sp_tier p) (sp_status p) (sp_duration_type p) (sp_start p)
    (sp_end p) (sp_next_renewal p) (sp_auto_renew p) (sp_free_trial_days p) (sp_cancelled_at p)
    (sp_cancellation_reason p) (sp_grace_started p) (sp_grace_expires p)
    (sp_bonus_granted_at p) token expires.

(** [self.save()]: every column of the copy. *)
Definition save (self : plan) : M store unit :=
  modify (λ s, with_plans (<[sp_id self := self]> (s_plans s)) s).

(** [self.save(update_fields=...)]: [f] writes the named columns of the row. *)
Definition save_fields (f : plan → plan) (self : plan) : M store unit :=
  modify (λ s, with_plans (alter f (sp_id self) (s_plans s)) s).

(** ** [concurrency.claim_transition]

    One conditional UPDATE: [True] for the caller whose row still satisfied
    [expect]. *)
Definition claim_transition (pk : Z) (expect : plan → bool) (to : plan → plan) : M store bool :=
  s ← get;
  match s_plans s !! pk with
  | Some row =>
      if expect row
      then put (with_plans (<[pk := to row]> (s_plans s)) s) ≫= λ _, mret true
      else mret false
  | None => mret false
  end.

(** ** [notify_system] *)

Definition notify_system (recipient : Z) (ty message : string) : M store unit :=
  modify (add_note (Note recipient ty message)).

(** ** The methods of [SubscriptionPlan] *)

Definition is_active (now : Z) (self : plan) : bool :=
  bool_decide (sp_status self = active)
  && match sp_end self with None => true | Some e => now <? e end.

Definition is_in_grace (now : Z) (self : plan) : bool :=
  if negb (bool_decide (sp_status self = grace_period)) then false
  else match sp_grace_expires self with None => false | Some e => now <? e end.

Definition GRACE_PERIOD_HOURS : Z := 24.

Definition enter_grace (self : plan) (hours : option Z) (now : Z) : M store plan :=
  let h := or_int (default 0 hours) GRACE_PERIOD_HOURS in
  let columns := set_grace grace_period (Some now) (Some (now + h * hour)) in
  save_fields columns self ≫= λ _, mret (columns self).

Definition clear_grace (self : plan) : M store plan :=
  save_fields (λ row, set_grace (sp_status row) None None row) self ≫= λ _,
  mret (set_grace (sp_status self) None None self).

Definition cancel (self : plan) (reason : string) (now : Z) : M store plan :=
  let self := set_cancelled (Some now) reason self in
  save self ≫= λ _, mret self.

Definition clear_bonus_grant (self : plan) : M store plan :=
  save_fields (set_bonus_granted None) self ≫= λ _, mret (set_bonus_granted None self).

(** [token] is what [secrets.token_urlsafe(48)] returned. *)
Definition generate_subscription_token (self : plan) (token : string) (expires_hours now : Z)
    : M store plan :=
  let columns := set_token (Some token) (Some (now + expires_hours * hour)) in
  save_fields columns self ≫= λ _, mret (columns self).

Definition is_subscription_token_valid (self : plan) (token : string) (now : Z) : bool :=
  match sp_token self with
  | None => false
  | Some t =>
      if String.eqb t "" || String.eqb token "" then false
      else if negb (String.eqb t token) then false
      else match sp_token_expires self with Some e => negb (e <? now) | None => true end
  end.

Definition notify_period_started (self : plan) (renewed : bool) : M store unit :=
  match sp_user self with
  | None => mret tt
  | Some u =>
      s ← get;
      let tier_name := match tier_of self s with Some t => tr_name t | None => "FlipStar" end in
      let message := "Your " +:+ tier_name
        +:+ (if renewed then " subscription has been renewed." else " subscription is now active.") in
      let message := match sp_end self with
                     | Some e => message +:+ " It runs until " +:+ isoformat (utc_date e) +:+ "."
                     | None => message
                     end in
      notify_system u (if renewed then "subscription_renewed" else "subscription_activated") message
  end.

Definition bonus_description (t : tier) : CoinBalance.tx_kwargs :=
  CoinBalance.descr (tr_name t +:+ " subscription bonus").

(** [_grant_bonus_coins]. *)
Definition grant_bonus_coins (self : plan) (now : Z) : M store plan :=
  s ← get;
  match tier_of self s with
  | None => mret self
  | Some t =>
      if tr_bonus_coins t =? 0 then mret self
      else match sp_user self with
      | None => mret self
      | Some u =>
          granted ← claim_transition (sp_id self)
            (λ row, bool_decide (sp_bonus_granted_at row = None)) (set_bonus_granted (Some now));
          if negb granted then mret self
          else
            in_coins (balance ← CoinBalance.get_or_create u now;
                      CoinBalance.add_bonus balance (tr_bonus_coins t) "subscription_bonus"
                        (bonus_description t) now ≫= λ _, mret tt) ≫= λ _,
            s ← get;
            mret (match s_plans s !! sp_id self with
                  | Some row => set_bonus_granted (sp_bonus_granted_at row) self
                  | None => self
                  end)
      end
  end.

(** The dates [activate] gives the period: [timedelta(days=...)] only when the
    tier has a length. *)
Definition started (t : option tier) (now : Z) (self : plan) : plan :=
  match t with
  | Some t =>
      match tr_duration_days t with
      | Some d =>
          if d =? 0 then set_period active (Some now) (sp_end self) (sp_next_renewal self) self
          else let e := Some (now + (d + sp_free_trial_days self) * day) in
               set_period active (Some now) e e self
      | None => set_period active (Some now) (sp_end self) (sp_next_renewal self) self
      end
  | None => set_period active (Some now) (sp_end self) (sp_next_renewal self) self
  end.

Definition already_running (self : plan) (now : Z) : bool :=
  bool_decide (sp_status self = active)
  && match sp_end self with Some e => now <? e | None => false end.

Definition activate (self : plan) (now : Z) : M store plan :=
  let running := already_running self now in
  let had_previous_period := bool_decide (is_Some (sp_end self)) in
  s ← get;
  let self := started (tier_of self s) now self in
  save self ≫= λ _,
  if running then mret self
  else
    self ← grant_bonus_coins self now;
    notify_period_started self had_previous_period ≫= λ _, mret self.

(** ** [subscription_access]

    The old [Subscription] rows, of which the signal on a new account makes one
    without an expiry: [expires_at__gt] holds of no null. *)

Definition unexpired (now : Z) (expires_at : option Z) : bool :=
  match expires_at with Some e => now <? e | None => false end.

Definition has_active_subscription (user now : Z) (s : store) : bool :=
  existsb (λ kp, bool_decide (sp_user kp.2 = Some user) && is_active now kp.2)
    (map_to_list (s_plans s))
  || existsb (λ ue, (ue.1 =? user) && unexpired now ue.2) (s_legacy s).

Definition has_ever_subscribed (user : Z) (s : store) : bool :=
  existsb (λ kp, bool_decide (sp_user kp.2 = Some user)) (map_to_list (s_plans s))
  || existsb (λ ue, ue.1 =? user) (s_legacy s).

(** [SUBSCRIBER_ACTIONS.get(action, SUBSCRIBER_ACTIONS['post'])]. *)
Definition subscriber_message (action : string) : string :=
  if String.eqb action "video" then "An active subscription is required to post videos."
  else if String.eqb action "like" then "An active subscription is required to like posts."
  else if String.eqb action "share" then "An active subscription is required to share posts."
  else if String.eqb action "comment" then "An active subscription is required to comment."
  else if String.eqb action "campaign" then "An active subscription is required to enter campaigns."
  else if String.eqb action "gift" then "An active subscription is required to send gifts."
  else if String.eqb action "boost" then "An active subscription is required to boost posts."
  else "An active subscription is required to post.".

Definition subscriber_action_refusal (user : Z) (action : string) (now : Z) (s : store)
    : option string :=
  if has_active_subscription user now s then None else Some (subscriber_message action).

Definition coin_purchase_refusal (user now : Z) (s : store) : option string :=
  if has_active_subscription user now s then None
  else Some "Coins can only be bought with an active FlipStar plan. Please subscribe or renew your plan, then try again.".

(** ** The bonus *)

(** What [activate] credits, decided on the caller's copy: [save] has just
    written that copy's stamp over the row's. *)
Definition bonus_due (self : plan) (now : Z) (s : store) : option (Z * Z) :=
  if already_running self now then None
  else match tier_of self s, sp_user self, sp_bonus_granted_at self with
       | Some t, Some u, None => if tr_bonus_coins t =? 0 then None else Some (u, tr_bonus_coins t)
       | _, _, _ => None
       end.

Definition bonus_to (u : Z) (due : option (Z * Z)) : Z :=
  match due with Some (v, n) => if decide (u = v) then n else 0 | None => 0 end.

Definition tiers_ok (s : store) : Prop := ∀ id t, s_tiers s !! id = Some t → 0 <= tr_bonus_coins t.

Record store_ok (s : store) : Prop := StoreOk {
  ok_tiers : tiers_ok s;
  ok_coins : CoinBalance.wallet_ok (s_coins s);
  ok_ids : ∀ id p, s_plans s !! id = Some p → sp_id p = id
}.

(** [started] changes the status and the dates only. *)
Lemma started_keeps t now self :
  let p := started t now self in
  sp_id p = sp_id self ∧ sp_user p = sp_user self ∧ sp_tier p = sp_tier self
  ∧ sp_bonus_granted_at p = sp_bonus_granted_at self ∧ sp_status p = active.
Proof. unfold started. by repeat case_match. Qed.

Lemma notify_period_run self renewed (s : store) :
  ∃ ns, notify_period_started self renewed s
    = (inr tt, Store (s_tiers s) (s_plans s) (s_legacy s) (s_coins s) ns).
Proof.
  unfold notify_period_started. destruct (sp_user self) as [u|].
  - rewrite bind_run. cbn. unfold notify_system, modify, add_note. eauto.
  - exists (s_notes s). by destruct s.
Qed.

Lemma set_bonus_same p at_ : sp_bonus_granted_at p = at_ → set_bonus_granted at_ p = p.
Proof. intros <-. by destruct p. Qed.

Lemma set_bonus_twice p a b : set_bonus_granted a (set_bonus_granted b p) = set_bonus_granted a p.
Proof. by destruct p. Qed.

(** [_grant_bonus_coins] on the copy [activate] has just saved. *)
Lemma grant_bonus_run self now (s : store) :
  store_ok s → s_plans s !! sp_id self = Some self →
  let due := match tier_of self s, sp_user self, sp_bonus_granted_at self with
             | Some t, Some u, None => if tr_bonus_coins t =? 0 then None else Some (u, tr_bonus_coins t)
             | _, _, _ => None
             end in
  let self' := set_bonus_granted (if due then Some now else sp_bonus_granted_at self) self in
  ∃ w', grant_bonus_coins self now s
    = (inr self', Store (s_tiers s) (<[sp_id self := self']> (s_plans s)) (s_legacy s) w' (s_notes s))
    ∧ CoinBalance.wallet_ok w'
    ∧ ∀ u, CoinBalance.total_of u w' = CoinBalance.total_of u (s_coins s) + bonus_to u due
           ∧ CoinBalance.giftable_of u w' = CoinBalance.giftable_of u (s_coins s).
Proof.
  intros [Htiers Hw Hids] Hrow. cbv zeta.
  assert (∀ e, grant_bonus_coins self now s = e → e = (inr self, s) →
    ∃ w', e = (inr (set_bonus_granted (sp_bonus_granted_at self) self),
       Store (s_tiers s) (<[sp_id self := set_bonus_granted (sp_bonus_granted_at self) self]> (s_plans s))
         (s_legacy s) w' (s_notes s))
    ∧ CoinBalance.wallet_ok w'
    ∧ ∀ u, CoinBalance.total_of u w' = CoinBalance.total_of u (s_coins s) + bonus_to u None
       ∧ CoinBalance.giftable_of u w' = CoinBalance.giftable_of u (s_coins s)) as Hno.
  { intros e _ ->. exists (s_coins s). rewrite set_bonus_same, insert_id by done.
    split; [by destruct s|]. split; [done|]. intros u. cbn. lia. }
  unfold grant_bonus_coins in *. rewrite bind_run in *. cbn [get] in *.
  destruct (tier_of self s) as [t|] eqn:Ht; [|by eapply Hno].
  destruct (Z.eqb_spec (tr_bonus_coins t) 0) as [Hz|Hz].
  { destruct (sp_user self), (sp_bonus_granted_at self); by eapply Hno. }
  destruct (sp_user self) as [u|] eqn:Hu; [|by eapply Hno].
  assert (0 < tr_bonus_coins t) as Hpos.
  { unfold tier_of in Ht. destruct (sp_tier self); [|done]. specialize (Htiers _ _ Ht). lia. }
  rewrite bind_run in *. unfold claim_transition in *. rewrite bind_run in *. cbn [get] in *.
  rewrite Hrow in *. destruct (sp_bonus_granted_at self) as [g|] eqn:Hg.
  { rewrite bool_decide_false in * by done. cbn [mret M_ret negb] in *. by eapply Hno. }
  clear Hno. rewrite bool_decide_true by done. unfold put. rewrite bind_run. cbn [mret M_ret negb].
  rewrite bind_run. unfold in_coins. rewrite zoom_run. cbn [s_coins with_plans].
  destruct (CoinBalance.add_bonus_credit u (tr_bonus_coins t) "subscription_bonus"
    (bonus_description t) now (s_coins s) Hw Hpos) as (r' & -> & Hmv & Hgift).
  rewrite CoinBalance.clash_ordinary by done. cbn [fst snd]. rewrite bind_run. cbn [get].
  unfold with_coins, with_plans. cbn. rewrite lookup_insert_eq. cbn [sp_bonus_granted_at set_bonus_granted].
  eexists. split; [reflexivity|]. split_and!.
  - by eapply CoinBalance.credited_ok.
  - intros v. split.
    + by eapply CoinBalance.credited_ok.
    + unfold CoinBalance.giftable_of at 1, CoinBalance.credited. cbn.
      destruct (decide (v = u)) as [->|Hne].
      * rewrite lookup_insert_eq, Hgift. unfold CoinBalance.row_of, CoinBalance.giftable_of.
        by destruct (CoinBalance.w_rows (s_coins s) !! u).
      * by rewrite lookup_insert_ne by done.
Qed.

(** What [activate] leaves behind: the row, and who is paid. *)
Lemma activate_run self now (s : store) :
  store_ok s →
  let due := bonus_due self now s in
  let self' := set_bonus_granted (if due then Some now else sp_bonus_granted_at self)
                 (started (tier_of self s) now self) in
  ∃ w' ns, activate self now s
    = (inr self', Store (s_tiers s) (<[sp_id self := self']> (s_plans s)) (s_legacy s) w' ns)
    ∧ store_ok (Store (s_tiers s) (<[sp_id self := self']> (s_plans s)) (s_legacy s) w' ns)
    ∧ ∀ u, CoinBalance.total_of u w' = CoinBalance.total_of u (s_coins s) + bonus_to u due
           ∧ CoinBalance.giftable_of u w' = CoinBalance.giftable_of u (s_coins s).
Proof.
  intros Hs due self'. destruct Hs as [Htiers Hw Hids].
  assert (∀ w ns, CoinBalance.wallet_ok w →
    store_ok (Store (s_tiers s) (<[sp_id self := self']> (s_plans s)) (s_legacy s) w ns)) as Hok.
  { intros w ns Hw'. constructor; cbn; [exact Htiers|done|]. intros id p.
    destruct (decide (id = sp_id self)) as [->|Hne].
    - rewrite lookup_insert_eq. intros [= <-]. unfold self', started. by repeat case_match.
    - rewrite lookup_insert_ne by done. apply Hids. }
  unfold activate. rewrite bind_run. cbn [get]. rewrite bind_run. unfold save, modify.
  set (p := started (tier_of self s) now self) in *.
  destruct (started_keeps (tier_of self s) now self) as (Hid & Hu & Ht & Hg & _). fold p in Hid, Hu, Ht, Hg.
  rewrite Hid. destruct (already_running self now) eqn:Hrun.
  - assert (due = None) as Hd by (unfold due, bonus_due; by rewrite Hrun).
    assert (self' = p) as Hp by (unfold self'; rewrite Hd; by apply set_bonus_same).
    exists (s_coins s), (s_notes s). rewrite Hp, Hd in *.
    split; [done|]. split; [by apply Hok|]. intros u. cbn. lia.
  - set (s1 := with_plans (<[sp_id self := p]> (s_plans s)) s). rewrite bind_run.
    assert (store_ok s1) as Hs1.
    { constructor; cbn; [exact Htiers|done|]. intros id q. destruct (decide (id = sp_id self)) as [->|Hne].
      - rewrite lookup_insert_eq. by intros [= <-]. - rewrite lookup_insert_ne by done. apply Hids. }
    assert (tier_of p s1 = tier_of self s) as Htier by (unfold tier_of; by rewrite Ht).
    assert (due = match tier_of p s1, sp_user p, sp_bonus_granted_at p with
                  | Some t, Some u, None => if tr_bonus_coins t =? 0 then None else Some (u, tr_bonus_coins t)
                  | _, _, _ => None
                  end) as Hdue.
    { unfold due, bonus_due. by rewrite Hrun, Htier, Hu, Hg. }
    destruct (grant_bonus_run p now s1 Hs1) as (w' & Hrun' & Hw' & Htot).
    { cbn. rewrite Hid. apply lookup_insert_eq. }
    rewrite <- Hdue, Hg in *.
    change (set_bonus_granted (if due then Some now else sp_bonus_granted_at self) p) with self' in Hrun'.
    rewrite Hrun'.
    destruct (notify_period_run self' (bool_decide (is_Some (sp_end self)))
      (Store (s_tiers s1) (<[sp_id p := self']> (s_plans s1)) (s_legacy s1) w' (s_notes s1))) as [ns Hns].
    exists w', ns. rewrite bind_run, Hns. cbn [s_tiers s_plans s_legacy s_coins s1 with_plans].
    rewrite Hid, insert_insert_eq. split; [done|]. split; [by apply Hok|]. exact Htot.
Qed.

Lemma has_active_spec user now (s : store) :
  has_active_subscription user now s = true ↔
  (∃ id p, s_plans s !! id = Some p ∧ sp_user p = Some user ∧ is_active now p = true)
  ∨ ∃ e, (user, Some e) ∈ s_legacy s ∧ now < e.
Proof.
  unfold has_active_subscription. rewrite orb_true_iff, !existsb_exists. split.
  - intros [[[id p] [Hin H]]|[[u e] [Hin H]]]; cbn in H; apply andb_true_iff in H as [Hu Ha].
    + left. exists id, p. apply list_elem_of_In, elem_of_map_to_list in Hin.
      by apply bool_decide_eq_true in Hu.
    + right. destruct e as [e|]; [|done]. exists e. apply Z.eqb_eq in Hu as ->. apply Z.ltb_lt in Ha.
      split; [by apply list_elem_of_In|done].
  - intros [(id & p & Hp & Hu & Ha)|(e & Hin & He)].
    + left. exists (id, p). split; [by apply list_elem_of_In, elem_of_map_to_list|].
      cbn. rewrite Hu, Ha. by rewrite bool_decide_true.
    + right. exists (user, Some e). split; [by apply list_elem_of_In|]. cbn.
      rewrite Z.eqb_refl. by apply Z.ltb_lt in He as ->.
Qed.

(** [activate] does what it says, on whatever copy of the plan it is
    called on.  It never fails; the stored row becomes the copy, active from
    now, ending after the tier's days plus the free-trial days when the tier
    has a length; the tier's bonus is credited exactly when the copy was not
    already running, carries no grant stamp and has both an owner and a tier
    with a bonus -- to the owner, nobody else, never as giftable coins -- and
    the stamp is set with it.  Until the new end date the owner has access. *)
Theorem activate_spec self now (s : store) :
  store_ok s →
  let due := bonus_due self now s in
  ∃ self' s', activate self now s = (inr self', s') ∧ store_ok s'
    ∧ s_plans s' = <[sp_id self := self']> (s_plans s)
    ∧ sp_status self' = active ∧ sp_start self' = Some now ∧ sp_user self' = sp_user self
    ∧ (∀ t d, tier_of self s = Some t → tr_duration_days t = Some d → d ≠ 0 →
         sp_end self' = Some (now + (d + sp_free_trial_days self) * day)
         ∧ sp_next_renewal self' = sp_end self')
    ∧ sp_bonus_granted_at self' = (if due then Some now else sp_bonus_granted_at self)
    ∧ (∀ u, CoinBalance.total_of u (s_coins s') = CoinBalance.total_of u (s_coins s) + bonus_to u due
            ∧ CoinBalance.giftable_of u (s_coins s') = CoinBalance.giftable_of u (s_coins s))
    ∧ ∀ u t', sp_user self = Some u → (∀ e, sp_end self' = Some e → t' < e) →
        has_active_subscription u t' s' = true.
Proof.
  intros Hs due. destruct (activate_run self now s Hs) as (w' & ns & Hrun & Hok & Htot).
  fold due in Hrun, Hok, Htot. set (self' := set_bonus_granted _ _) in *.
  exists self'. eexists. split; [exact Hrun|]. split; [exact Hok|].
  destruct (started_keeps (tier_of self s) now self) as (Hid & Hu & _ & _ & Hst).
  assert (sp_user self' = sp_user self ∧ sp_status self' = active) as [Hu' Hst'] by done.
  split; [done|]. split; [done|]. split; [|split; [done|]]; [unfold self', started; by repeat case_match|].
  split; [|split; [done|split; [exact Htot|]]].
  - intros t d Ht Hd Hnz. unfold self', started. rewrite Ht, Hd.
    rewrite (proj2 (Z.eqb_neq d 0)) by done. done.
  - intros u t' Hus He. apply has_active_spec. left. exists (sp_id self), self'. cbn.
    rewrite lookup_insert_eq. split; [done|]. split; [congruence|]. unfold is_active.
    rewrite Hst', bool_decide_true by done. destruct (sp_end self') as [e|]; [|done].
    by apply Z.ltb_lt, He.
Qed.

(** ** One bonus in a plan's life *)

(** What a worker may do to a plan after reading its row. *)
Inductive plan_op :=
| OpActivate (now : Z)
| OpEnterGrace (hours : option Z) (now : Z)
| OpClearGrace
| OpCancel (reason : string) (now : Z)
| OpToken (token : string) (hours now : Z)
| OpClearBonus.

Definition run_op (id : Z) (o : plan_op) (s : store) : store :=
  match s_plans s !! id with
  | None => s
  | Some self =>
      match o with
      | OpActivate now => (activate self now s).2
      | OpEnterGrace h now => (enter_grace self h now s).2
      | OpClearGrace => (clear_grace self s).2
      | OpCancel reason now => (cancel self reason now s).2
      | OpToken token h now => (generate_subscription_token self token h now s).2
      | OpClearBonus => (clear_bonus_grant self s).2
      end
  end.

Definition run_ops (id : Z) (os : list plan_op) (s : store) : store :=
  fold_left (λ s o, run_op id o s) os s.

(** The owner and the bonus that could be due to a plan. *)
Definition bonus_of (id : Z) (s : store) : option (Z * Z) :=
  p ← s_plans s !! id; t ← tier_of p s; u ← sp_user p; Some (u, tr_bonus_coins t).

(** How often the stamp is lifted, and how many bonuses a plan is good for as
    it is. *)
Definition clears (os : list plan_op) : nat :=
  length (List.filter (λ o, match o with OpClearBonus => true | _ => false end) os).
Definition owed (id : Z) (s : store) : nat :=
  match s_plans s !! id with Some p => if sp_bonus_granted_at p then 0%nat else 1%nat | None => 0%nat end.

Definition same_totals (s s' : store) : Prop :=
  ∀ u, CoinBalance.total_of u (s_coins s') = CoinBalance.total_of u (s_coins s).

(** One operation on a fresh copy: it keeps the owner and the tier, pays the
    bonus only while stamping the plan, and lifts the stamp only if it is
    meant to. *)
Definition op_effect (lifts : bool) (p p' : plan) (s s' : store) : Prop :=
  sp_user p' = sp_user p ∧ sp_tier p' = sp_tier p ∧ s_tiers s' = s_tiers s
  ∧ match sp_bonus_granted_at p with
    | Some g => (sp_bonus_granted_at p' = Some g ∨ lifts = true) ∧ same_totals s s'
    | None =>
        sp_bonus_granted_at p' = None ∧ same_totals s s'
        ∨ is_Some (sp_bonus_granted_at p')
          ∧ ∃ t u, tier_of p s = Some t ∧ sp_user p = Some u
            ∧ ∀ v, CoinBalance.total_of v (s_coins s')
                   = CoinBalance.total_of v (s_coins s) + bonus_to v (Some (u, tr_bonus_coins t))
    end.

(** Writing columns other than the owner, the tier and, unless it is lifted,
    the stamp. *)
Lemma quiet_write (lifts : bool) id p p' (s : store) :
  store_ok s → s_plans s !! id = Some p → sp_id p' = id →
  sp_user p' = sp_user p → sp_tier p' = sp_tier p →
  sp_bonus_granted_at p' = (if lifts then None else sp_bonus_granted_at p) →
  let s' := with_plans (<[id := p']> (s_plans s)) s in
  store_ok s' ∧ s_plans s' !! id = Some p' ∧ op_effect lifts p p' s s'.
Proof.
  intros [Ht Hw Hids] Hp Hid Hu Htr Hg s'. split; [|split].
  - constructor; cbn; [exact Ht|done|]. intros i q. destruct (decide (i = id)) as [->|Hne].
    + rewrite lookup_insert_eq. by intros [= <-]. + rewrite lookup_insert_ne by done. apply Hids.
  - cbn. apply lookup_insert_eq.
  - split; [done|]. split; [done|]. split; [done|]. rewrite Hg.
    destruct (sp_bonus_granted_at p), lifts; [split; [by right|done]|split; [by left|done]|by left..].
Qed.

Lemma alter_row {A} (f : A → A) (m : gmap Z A) k x :
  m !! k = Some x → alter f k m = <[k := f x]> m.
Proof.
  intros H. apply map_eq. intros i. destruct (decide (i = k)) as [->|Hne].
  - by rewrite lookup_alter_eq, lookup_insert_eq, H.
  - by rewrite lookup_alter_ne, lookup_insert_ne.
Qed.

Lemma run_op_spec id o (s : store) p :
  store_ok s → s_plans s !! id = Some p →
  let s' := run_op id o s in
  let lifts := match o with OpClearBonus => true | _ => false end in
  store_ok s' ∧ ∃ p', s_plans s' !! id = Some p' ∧ op_effect lifts p p' s s'.
Proof.
  intros Hs Hp s' lifts. assert (sp_id p = id) as Hid by (by apply (ok_ids _ Hs)).
  assert (∀ f, sp_id (f p) = id → sp_user (f p) = sp_user p → sp_tier (f p) = sp_tier p →
    sp_bonus_granted_at (f p) = (if lifts then None else sp_bonus_granted_at p) →
    let s'' := with_plans (<[id := f p]> (s_plans s)) s in
    store_ok s'' ∧ ∃ p', s_plans s'' !! id = Some p' ∧ op_effect lifts p p' s s'') as Hquiet.
  { intros f H1 H2 H3 H4 s''. destruct (quiet_write lifts id p (f p) s Hs Hp H1 H2 H3 H4) as (? & ? & ?).
    split; [done|]. by exists (f p). }
  unfold s', run_op. rewrite Hp. destruct o as [now|h now| |reason now|token h now|].
  - destruct (activate_run p now s Hs) as (w' & ns & -> & Hok & Htot). cbn [snd].
    split; [done|]. eexists. rewrite Hid. cbn [s_plans]. split; [apply lookup_insert_eq|].
    destruct (started_keeps (tier_of p s) now p) as (_ & Hu & Ht & Hg & _).
    split; [done|]. split; [done|]. split; [done|]. unfold bonus_due in *.
    destruct (sp_bonus_granted_at p) as [g|] eqn:Hgr; cbn [sp_bonus_granted_at set_bonus_granted].
    + destruct (already_running p now), (tier_of p s), (sp_user p); cbn in *;
        (split; [by left|]); intros v; destruct (Htot v); cbn; lia.
    + destruct (already_running p now); [left|destruct (tier_of p s) as [t|] eqn:Htr;
        [destruct (sp_user p) as [u|] eqn:Hus; [destruct (Z.eqb_spec (tr_bonus_coins t) 0)|]|]].
      1,2,4,5: try left; (split; [done|]); intros v; destruct (Htot v) as [E _]; cbn in *; lia.
      right. split; [done|]. exists t, u. split; [done|]. split; [done|]. intros v. apply Htot.
  - unfold enter_grace, save_fields, modify. rewrite bind_run. cbn [snd mret M_ret].
    rewrite Hid, (alter_row _ _ _ _ Hp). by apply (Hquiet (set_grace _ _ _)).
  - unfold clear_grace, save_fields, modify. rewrite bind_run. cbn [snd mret M_ret].
    rewrite Hid, (alter_row _ _ _ _ Hp). by apply (Hquiet (λ row, set_grace (sp_status row) None None row)).
  - unfold cancel, save, modify. rewrite bind_run. cbn [snd mret M_ret sp_id set_cancelled].
    rewrite Hid. by apply (Hquiet (set_cancelled _ _)).
  - unfold generate_subscription_token, save_fields, modify. rewrite bind_run. cbn [snd mret M_ret].
    rewrite Hid, (alter_row _ _ _ _ Hp). by apply (Hquiet (set_token _ _)).
  - unfold clear_bonus_grant, save_fields, modify. rewrite bind_run. cbn [snd mret M_ret].
    rewrite Hid, (alter_row _ _ _ _ Hp). by apply (Hquiet (set_bonus_granted None)).
Qed.

Lemma bonus_of_same id p p' (s s' : store) : s_plans s !! id = Some p → s_plans s' !! id = Some p' →
  sp_user p' = sp_user p → sp_tier p' = sp_tier p → s_tiers s' = s_tiers s → bonus_of id s' = bonus_of id s.
Proof. intros Hp Hp' Hu Ht Hs. unfold bonus_of. rewrite Hp, Hp'. cbn. unfold tier_of. by rewrite Hu, Ht, Hs. Qed.

(** C7.  One bonus for each time the stamp is lifted.  Whatever workers do to
    a plan one after the other, each on a fresh copy -- activate it for one
    period after another, let it enter and leave grace, cancel it, issue a
    token, release the bonus for the next period ([clear_bonus_grant]) -- the
    owner gets the tier's bonus at most once for a plan that was not stamped
    and once more for every release, and nobody else gets anything.  So a plan
    that is stamped and never released pays nothing more, whether it is
    activated again or renewed; and no code but a test releases it. *)
Theorem one_bonus_per_plan id os (s : store) :
  store_ok s →
  ∃ n : nat, (n ≤ owed id s + clears os)%nat
    ∧ ∀ v, CoinBalance.total_of v (s_coins (run_ops id os s))
           = CoinBalance.total_of v (s_coins s) + Z.of_nat n * bonus_to v (bonus_of id s).
Proof.
  revert s. induction os as [|o os IH]; intros s Hs; [exists 0%nat; split; [lia|intros v; cbn; lia]|].
  cbn [run_ops fold_left]. change (fold_left _ os ?x) with (run_ops id os x).
  assert (clears (o :: os) = (match o with OpClearBonus => 1 | _ => 0 end + clears os)%nat) as -> by by destruct o.
  destruct (s_plans s !! id) as [p|] eqn:Hp.
  2: { assert (run_op id o s = s) as -> by (unfold run_op; by rewrite Hp). destruct (IH s Hs) as (n & Hn & Ht). exists n. split; [lia|done]. }
  destruct (run_op_spec id o s p Hs Hp) as (Hs1 & p1 & Hp1 & Hu & Ht & Htr & He).
  destruct (IH _ Hs1) as (n & Hn & Htot). rewrite (bonus_of_same id p p1 s _ Hp Hp1 Hu Ht Htr) in Htot.
  unfold owed in *. rewrite Hp. rewrite Hp1 in Hn. destruct (sp_bonus_granted_at p) as [g|] eqn:Hg.
  - destruct He as [Hg1 Ht1]. exists n. split; [|intros v; rewrite Htot; by rewrite Ht1].
    destruct Hg1 as [Hg1|Hl]; [rewrite Hg1 in Hn; lia|]. destruct o; try done. destruct (sp_bonus_granted_at p1); lia.
  - destruct He as [[Hg1 Ht1]|([g Hg1] & t & u & Hti & Hus & Ht1)]; rewrite Hg1 in Hn.
    + exists n. split; [lia|]. intros v. rewrite Htot. by rewrite Ht1.
    + exists (S n). split; [lia|]. intros v. rewrite Htot, Ht1. assert (bonus_of id s = Some (u, tr_bonus_coins t)) as ->; [|lia].
      unfold bonus_of. rewrite Hp. cbn. by rewrite Hti, Hus.
Qed.

(** The conditional update does not protect against a stale copy.  Two
    workers that both loaded an unstamped plan before either activated it both
    pay: the second [self.save()] writes its copy's empty stamp back over the
    first one's, and its claim succeeds again.  The owner gets the bonus
    twice. *)
Theorem stale_activation_pays_twice self now1 now2 (s : store) t u :
  store_ok s → s_plans s !! sp_id self = Some self →
  already_running self now1 = false → already_running self now2 = false →
  tier_of self s = Some t → tr_bonus_coins t ≠ 0 → sp_user self = Some u →
  sp_bonus_granted_at self = None →
  let s1 := (activate self now1 s).2 in
  let s2 := (activate self now2 s1).2 in
  CoinBalance.total_of u (s_coins s2)
  = CoinBalance.total_of u (s_coins s) + 2 * tr_bonus_coins t.
Proof.
  intros Hs Hrow Hr1 Hr2 Ht Hb Hu Hg s1 s2.
  assert (∀ s' now, tier_of self s' = Some t → already_running self now = false →
    bonus_due self now s' = Some (u, tr_bonus_coins t)) as Hdue.
  { intros s' now Ht' Hr. unfold bonus_due. rewrite Hr, Ht', Hu, Hg.
    by rewrite (proj2 (Z.eqb_neq _ _)). }
  destruct (activate_run self now1 s Hs) as (w1 & n1 & E1 & Hok1 & Htot1).
  unfold s2, s1. rewrite E1 in *. cbn [snd] in *.
  match type of Hok1 with store_ok ?x => destruct (activate_run self now2 x Hok1) as (w2 & n2 & E2 & _ & Htot2) end.
  rewrite E2. cbn [snd s_coins]. destruct (Htot2 u) as [-> _]. cbn [s_coins]. destruct (Htot1 u) as [-> _].
  rewrite !Hdue by done. unfold bonus_to. rewrite decide_True by done. lia.
Qed.

(** ** A concrete plan *)

Definition example_tier : tier := Tier 1 "Weekly" "weekly" (Some 7) 50 25 None.
Definition example_plan : plan :=
  Plan 4 (Some 9) (Some 1) pending "weekly" None None None false 1 None "" None None None None None.
Definition example_store : store :=
  Store (<[1 := example_tier]> ∅) (<[4 := example_plan]> ∅) [] CoinBalance.no_wallets [].

Lemma example_plans_ok : store_ok example_store.
Proof.
  constructor.
  - intros id t H. unfold example_store in H. simpl s_tiers in H. apply lookup_insert_Some in H as [[<- <-]|[_ [=]]]. done.
  - apply CoinBalance.wallet_ok_empty.
  - intros id p H. unfold example_store in H. simpl s_plans in H. apply lookup_insert_Some in H as [[<- <-]|[_ [=]]]. done.
Qed.

Lemma activate_spec_witness :
  ∃ self' s', activate example_plan 1000 example_store = (inr self', s')
    ∧ sp_end self' = Some (1000 + 8 * day)
    ∧ CoinBalance.total_of 9 (s_coins s') = 50
    ∧ has_active_subscription 9 2000 s' = true.
Proof.
  destruct (activate_spec example_plan 1000 example_store example_plans_ok)
    as (self' & s' & Hrun & _ & _ & _ & _ & _ & Hend & _ & Htot & Hacc).
  exists self', s'. split; [exact Hrun|].
  destruct (Hend example_tier 7) as [He _]; [reflexivity|reflexivity|discriminate|].
  split; [exact He|]. split.
  - destruct (Htot 9) as [H _]. rewrite H. vm_compute. reflexivity.
  - apply Hacc; [reflexivity|]. intros e Ee. rewrite He in Ee. injection Ee as <-. vm_compute. reflexivity.
Defined.

Lemma one_bonus_per_plan_witness :
  let os := [OpActivate 1000; OpEnterGrace None (9 * day); OpActivate (10 * day);
             OpCancel "bye" (20 * day); OpActivate (40 * day); OpClearBonus; OpActivate (60 * day)] in
  CoinBalance.total_of 9 (s_coins (run_ops 4 os example_store)) = 100
  ∧ ∃ n : nat, (n ≤ 2)%nat
    ∧ ∀ v, CoinBalance.total_of v (s_coins (run_ops 4 os example_store))
           = CoinBalance.total_of v (s_coins example_store) + Z.of_nat n * bonus_to v (bonus_of 4 example_store).
Proof.
  intros os. split; [vm_compute; reflexivity|].
  apply (one_bonus_per_plan 4 os example_store example_plans_ok).
Defined.

Lemma stale_activation_pays_twice_witness :
  CoinBalance.total_of 9 (s_coins (activate example_plan 1001 (activate example_plan 1000 example_store).2).2)
  = CoinBalance.total_of 9 (s_coins example_store) + 2 * tr_bonus_coins example_tier.
Proof.
  apply (stale_activation_pays_twice example_plan 1000 1001 example_store example_tier 9 example_plans_ok);
    (reflexivity || discriminate).
Defined.

End Subscriptions.
