(* ===== verification/SubscriptionGift.v ===== *)
(** * SubscriptionGift: the coins a paid subscription gives back

    Models [src/api/services/subscription_daily_gift.py] (a period's gift,
    spread over its days), [src/api/services/subscription_gift.py] (what a
    completed payment pays at once) and the [post_save] receiver of
    [SubscriptionPayment] in [src/api/models/subscription.py], over the plans
    and tiers of [Subscriptions] and the coin ledger of [CoinBalance], whose
    unique constraints are the idempotency keys. *)

From Stdlib Require Import ZArith Lia.
From S2P Require Import Prelude CoinBalance Subscriptions.

Module SubscriptionGift.
Import Subscriptions.

(** [SubscriptionPayment]; [pay_id] is the primary key as a string. *)
Record payment := Payment {
  pay_id : string;
  pay_plan : Z;
  pay_user : option Z;
  pay_status : string;
  pay_start : option Z;
  pay_end : Z
}.

Definition GIFT : string := "subscription_gift".
Definition ALLOCATION : string := "ondemand_allocation".
Definition ONDEMAND : string := "ondemand".

(** ** The schedule *)

(** [FALLBACK_DAYS.get(duration_type, 0)]. *)
Definition fallback_days (ty : string) : Z :=
  if String.eqb ty "daily" then 1 else if String.eqb ty "weekly" then 7
  else if String.eqb ty "monthly" then 30 else 0.

Definition plan_days (t : option tier) : Z :=
  match t with
  | None => 0
  | Some t =>
      if String.eqb (tr_duration_type t) ONDEMAND then 0
      else Z.max 0 (default (fallback_days (tr_duration_type t)) (tr_duration_days t))
  end.

Definition plan_total (t : option tier) : Z :=
  match t with None => 0 | Some t => Z.max 0 (or_int (tr_charge_gift_coins t) 0) end.

Definition daily_schedule (total days : Z) : list Z :=
  if (total <=? 0) || (days <=? 0) then []
  else
    let base := total / days in
    let extra := total mod days in
    (λ d : nat, if Z.of_nat d <? extra then base + 1 else base) <$> seq 0 (Z.to_nat days).

Definition schedule_for (t : option tier) : list Z := daily_schedule (plan_total t) (plan_days t).

Definition coins_for_day (t : option tier) (d : Z) : Z :=
  if d <? 1 then 0
  else if d <=? Z.of_nat (length (schedule_for t))
       then default 0 (schedule_for t !! Z.to_nat (d - 1)) else 0.

(** ** The daily grant *)

Definition plan_of (p : payment) (s : store) : option plan := s_plans s !! pay_plan p.
Definition payment_tier (p : payment) (s : store) : option tier :=
  match plan_of p s with Some pl => tier_of pl s | None => None end.
(** [payment.user_id or plan.user_id]. *)
Definition payee (p : payment) (s : store) : option Z :=
  match pay_user p with
  | Some u => Some u
  | None => match plan_of p s with Some pl => sp_user pl | None => None end
  end.

Definition day_index (p : payment) (now : Z) : Z :=
  match pay_start p with
  | None => 0
  | Some start => if now - start <? 0 then 0 else (now - start) / day + 1
  end.

Definition reference_for (p : payment) (d : Z) : string :=
  "sub-gift:" +:+ pay_id p +:+ ":day:" +:+ str_int d.

Definition granted_as (ty reference : string) (ts : list CoinBalance.coin_tx) : bool :=
  existsb (λ t, String.eqb (CoinBalance.ct_type t) ty
                && String.eqb (CoinBalance.ct_payment_reference t) reference) ts.

Definition already_granted (p : payment) (d : Z) (s : store) : bool :=
  granted_as GIFT (reference_for p d) (CoinBalance.w_txs (s_coins s)).

(** [paid_in_full_by_the_old_rule], and [already_gifted]. *)
Definition paid_in_full_by_the_old_rule (p : payment) (s : store) : bool :=
  granted_as GIFT (pay_id p) (CoinBalance.w_txs (s_coins s)).

Definition gift_kwargs (reference description : string) : CoinBalance.tx_kwargs :=
  CoinBalance.TxKwargs None reference None None 0 description.

(** The transaction every grant runs: [IntegrityError] means paid already. *)
Definition grant_once (credit : M CoinBalance.wallet unit) (coins : Z) : M store Z :=
  catch (atomic (in_coins credit) ≫= λ _, mret coins)
    (λ e, match e with IntegrityError _ => Some (mret 0) | _ => None end).

Definition credit_earned (u n : Z) (reference description : string) (now : Z)
    : M CoinBalance.wallet unit :=
  balance ← CoinBalance.get_or_create u now;
  CoinBalance.add_earned balance n GIFT (gift_kwargs reference description) now ≫= λ _, mret tt.

Definition grant_for_day (p : payment) (d now : Z) : M store Z :=
  s ← get;
  match payment_tier p s with
  | None => mret 0
  | Some t =>
      let coins := coins_for_day (Some t) d in
      if coins =? 0 then mret 0
      else match payee p s with
      | None => mret 0
      | Some u =>
          grant_once (credit_earned u coins (reference_for p d)
            (tr_name t +:+ " subscription gift (day " +:+ str_int d +:+ ")") now) coins
      end
  end.

Fixpoint grant_days (p : payment) (ds : list Z) (now : Z) : M store Z :=
  match ds with
  | [] => mret 0
  | d :: ds => g ← grant_for_day p d now; r ← grant_days p ds now; mret (g + r)
  end.

(** [EARNING_STATUSES]. *)
Definition earning (st : pstatus) : bool :=
  match st with active | grace_period => true | _ => false end.

(** [range(1, n + 1)]. *)
Definition days_to (n : Z) : list Z := (λ d : nat, Z.of_nat d + 1) <$> seq 0 (Z.to_nat n).

Definition grant_due (p : payment) (now : Z) : M store Z :=
  s ← get;
  if negb (String.eqb (pay_status p) "completed") then mret 0
  else if match plan_of p s with Some pl => negb (earning (sp_status pl)) | None => false end
  then mret 0
  else if paid_in_full_by_the_old_rule p s then mret 0
  else if day_index p now <? 1 then mret 0
  else grant_days p
         (days_to (Z.min (day_index p now) (Z.of_nat (length (schedule_for (payment_tier p s)))))) now.

(** [sweep], over the payment table: the payments whose period holds the
    moment, each in its own [try]. *)
Definition swept (payments : list payment) (moment : Z) (s : store) : list payment :=
  filter (λ p, (String.eqb (pay_status p) "completed"
    && match pay_start p with Some st => st <=? moment | None => false end
    && (moment <=? pay_end p)
    && match plan_of p s with
       | Some pl => earning (sp_status pl)
           && match tier_of pl s with
              | Some t => negb (String.eqb (tr_duration_type t) ONDEMAND)
              | None => false
              end
       | None => false
       end) = true) payments.

Fixpoint sweep_payments (ps : list payment) (now paid coins : Z) : M store (Z * Z) :=
  match ps with
  | [] => mret (paid, coins)
  | p :: ps =>
      granted ← catch (grant_due p now) (λ _, Some (mret 0));
      sweep_payments ps now (if granted =? 0 then paid else paid + 1) (coins + granted)
  end.

Definition sweep (payments : list payment) (now : Z) : M store (Z * Z) :=
  s ← get; sweep_payments (swept payments now s) now 0 0.

(** ** What a completed payment pays at once *)

Definition gift_coins_for (t : option tier) : Z := plan_total t.

Definition ondemand_allocation (t : option tier) : Z :=
  match t with
  | Some t =>
      if String.eqb (tr_duration_type t) ONDEMAND
      then Z.max 0 (or_int (default 0 (tr_price_coins t)) 0) else 0
  | None => 0
  end.

Definition credit_bonus (u n : Z) (reference description : string) (now : Z)
    : M CoinBalance.wallet unit :=
  balance ← CoinBalance.get_or_create u now;
  CoinBalance.add_bonus balance n ALLOCATION (gift_kwargs reference description) now ≫= λ _, mret tt.

Definition grant_ondemand_allocation (p : payment) (now : Z) : M store Z :=
  s ← get;
  match payment_tier p s with
  | None => mret 0
  | Some t =>
      let coins := ondemand_allocation (Some t) in
      if coins =? 0 then mret 0
      else match payee p s with
      | None => mret 0
      | Some u =>
          grant_once (credit_bonus u coins (pay_id p)
            (tr_name t +:+ " package: " +:+ str_int coins +:+ " coins") now) coins
      end
  end.

Definition grant_for_payment (p : payment) (now : Z) : M store Z :=
  s ← get;
  if negb (String.eqb (pay_status p) "completed") then mret 0
  else match payment_tier p s with
  | None => mret 0
  | Some t =>
      if String.eqb (tr_duration_type t) ONDEMAND then grant_ondemand_allocation p now
      else if negb (plan_days (Some t) =? 0) then grant_due p now
      else if paid_in_full_by_the_old_rule p s then mret 0
      else
        let coins := gift_coins_for (Some t) in
        if coins =? 0 then mret 0
        else match payee p s with
        | None => mret 0
        | Some u =>
            grant_once (credit_earned u coins (pay_id p) (tr_name t +:+ " subscription gift") now) coins
        end
  end.

(** The [post_save] receiver of [SubscriptionPayment]: never raises. *)
Definition grant_subscription_gift (p : payment) (now : Z) : M store unit :=
  if negb (String.eqb (pay_status p) "completed") then mret tt
  else catch (grant_for_payment p now ≫= λ _, mret tt) (λ _, Some (mret tt)).

(** ** The schedule is exact *)

Lemma schedule_sum base extra n :
  0 <= extra →
  sumZ id ((λ d : nat, if Z.of_nat d <? extra then base + 1 else base) <$> seq 0 n)
  = Z.of_nat n * base + Z.min (Z.of_nat n) extra.
Proof.
  intros He. induction n as [|n IH]; [cbn; rewrite sumZ_nil; lia|].
  rewrite seq_S, fmap_app, sumZ_app, IH. cbn [fmap list_fmap]. rewrite sumZ_cons, sumZ_nil.
  cbn [plus]. unfold id. destruct (Z.ltb_spec (Z.of_nat n) extra); lia.
Qed.

Lemma daily_schedule_eq total days :
  0 < total → 0 < days →
  daily_schedule total days =
  (λ d : nat, if Z.of_nat d <? total mod days then total / days + 1 else total / days)
    <$> seq 0 (Z.to_nat days).
Proof.
  intros Ht Hd. unfold daily_schedule.
  by rewrite (proj2 (Z.leb_gt total 0)), (proj2 (Z.leb_gt days 0)) by done.
Qed.

Lemma daily_schedule_length total days :
  0 < total → 0 < days → length (daily_schedule total days) = Z.to_nat days.
Proof. intros Ht Hd. by rewrite daily_schedule_eq, length_fmap, length_seq. Qed.

Lemma daily_schedule_sum total days :
  0 <= total → 0 < days → sumZ id (daily_schedule total days) = total.
Proof.
  intros Ht Hd. destruct (decide (total = 0)) as [->|Hne]; [done|].
  rewrite daily_schedule_eq by lia. pose proof (Z.mod_pos_bound total days Hd).
  rewrite schedule_sum by lia. rewrite Z2Nat.id by lia.
  pose proof (Z.div_mod total days). lia.
Qed.

Lemma daily_schedule_entries total days i j x y :
  0 < total → 0 < days → (i <= j)%nat →
  daily_schedule total days !! i = Some x → daily_schedule total days !! j = Some y →
  0 <= y ∧ y <= x <= y + 1 ∧ (x = total / days ∨ x = total / days + 1).
Proof.
  intros Ht Hd Hij. rewrite daily_schedule_eq by done.
  pose proof (Z.div_pos total days ltac:(lia) Hd) as Hbase.
  intros (a & -> & [-> _]%lookup_seq)%list_lookup_fmap_Some
    (b & -> & [-> _]%lookup_seq)%list_lookup_fmap_Some.
  destruct (Z.ltb_spec (Z.of_nat (0 + i)) (total mod days)),
    (Z.ltb_spec (Z.of_nat (0 + j)) (total mod days)); lia.
Qed.

(** The daily amounts are exactly the period's gift: one per day, adding
    up to the total, never increasing, and no two of them more than one coin
    apart. *)
Theorem daily_schedule_exact total days :
  0 < total → 0 < days →
  let l := daily_schedule total days in
  length l = Z.to_nat days ∧ sumZ id l = total
  ∧ ∀ i j x y, (i <= j)%nat → l !! i = Some x → l !! j = Some y → 0 <= y ∧ y <= x <= y + 1
               ∧ (x = total / days ∨ x = total / days + 1).
Proof.
  intros Ht Hd l. split; [by apply daily_schedule_length|].
  split; [apply daily_schedule_sum; lia|]. intros i j x y Hij Hx Hy.
  by apply (daily_schedule_entries total days i j).
Qed.

Lemma daily_schedule_exact_witness :
  daily_schedule 25 7 = [4; 4; 4; 4; 3; 3; 3] ∧ sumZ id (daily_schedule 25 7) = 25.
Proof.
  split; [reflexivity|]. apply (daily_schedule_exact 25 7); lia.
Defined.

(** ** Days *)

Lemma plan_total_nonneg t : 0 <= plan_total t.
Proof. destruct t; cbn; lia. Qed.

Lemma schedule_nonneg t x : x ∈ schedule_for t → 0 <= x.
Proof.
  intros [i Hi]%list_elem_of_lookup. unfold schedule_for in Hi.
  destruct (decide (0 < plan_total t)), (decide (0 < plan_days t)).
  - by destruct (daily_schedule_entries (plan_total t) (plan_days t) i i x x).
  - unfold daily_schedule in Hi. rewrite (proj2 (Z.leb_le (plan_days t) 0)), orb_true_r in Hi by lia. done.
  - unfold daily_schedule in Hi. rewrite (proj2 (Z.leb_le (plan_total t) 0)) in Hi by lia. done.
  - unfold daily_schedule in Hi. rewrite (proj2 (Z.leb_le (plan_total t) 0)) in Hi by lia. done.
Qed.

Lemma coins_for_day_nonneg t d : 0 <= coins_for_day t d.
Proof.
  unfold coins_for_day. repeat case_match; try lia.
  destruct (schedule_for t !! Z.to_nat (d - 1)) as [x|] eqn:E; [|done].
  by apply (schedule_nonneg t), list_elem_of_lookup_2 with (Z.to_nat (d - 1)).
Qed.

Lemma days_to_snoc n : 0 <= n → days_to (n + 1) = days_to n ++ [n + 1].
Proof.
  intros Hn. unfold days_to. replace (Z.to_nat (n + 1)) with (S (Z.to_nat n)) by lia.
  rewrite seq_S, fmap_app. cbn. do 2 f_equal. lia.
Qed.

(** The coins of the first [n] days. *)
Definition owed (t : option tier) (n : Z) : Z := sumZ (coins_for_day t) (days_to n).

Lemma owed_snoc t n : 0 <= n → owed t (n + 1) = owed t n + coins_for_day t (n + 1).
Proof.
  intros Hn. unfold owed. rewrite days_to_snoc, sumZ_app, sumZ_cons, sumZ_nil by done. lia.
Qed.

Lemma owed_take t (n : nat) :
  (n <= length (schedule_for t))%nat → owed t (Z.of_nat n) = sumZ id (take n (schedule_for t)).
Proof.
  induction n as [|n IH]; intros Hn; [done|].
  replace (Z.of_nat (S n)) with (Z.of_nat n + 1) by lia. rewrite owed_snoc, IH by lia.
  destruct (lookup_lt_is_Some_2 (schedule_for t) n ltac:(lia)) as [x Hx].
  rewrite (take_S_r _ _ x Hx), sumZ_app, sumZ_cons, sumZ_nil. unfold coins_for_day.
  rewrite (proj2 (Z.ltb_ge _ _)), (proj2 (Z.leb_le _ _)) by lia.
  replace (Z.to_nat (Z.of_nat n + 1 - 1)) with n by lia. rewrite Hx. unfold id. cbn. lia.
Qed.

(** All the days together are the plan's total. *)
Lemma owed_all t :
  0 < plan_days t → owed t (Z.of_nat (length (schedule_for t))) = plan_total t.
Proof.
  intros Hd. rewrite owed_take, firstn_all by lia.
  apply daily_schedule_sum; [apply plan_total_nonneg|done].
Qed.

(** ** References *)

Lemma string_length_app (a b : string) : String.length (a +:+ b) = (String.length a + String.length b)%nat.
Proof. induction a as [|c a IH]; [done|]. change (S (String.length (a +:+ b)) = S (String.length a + String.length b)%nat). by rewrite IH. Qed.

Lemma reference_for_inj p d d' : reference_for p d = reference_for p d' → d = d'.
Proof.
  unfold reference_for. intros H. apply (inj (String.append _)) in H.
  apply (inj (String.append _)) in H. apply (inj (String.append _)) in H.
  by apply pretty_Z_inj in H.
Qed.

Lemma reference_for_not_id p d : reference_for p d ≠ pay_id p.
Proof.
  intros H. apply (f_equal String.length) in H. unfold reference_for in H.
  rewrite !string_length_app in H. cbn in H. lia.
Qed.

Lemma clash_gift u n kw now ts :
  existsb (CoinBalance.clash (CoinBalance.new_tx u GIFT n "" kw now)) ts
  = granted_as GIFT (CoinBalance.kw_payment_reference kw) ts.
Proof.
  unfold granted_as. induction ts as [|x ts IH]; [done|]. cbn [existsb]. rewrite IH. f_equal.
  unfold CoinBalance.clash, CoinBalance.pending_reference_clash, CoinBalance.one_per_payment_clash.
  cbn. by rewrite !andb_false_r, !andb_true_r, orb_false_l, orb_false_r.
Qed.

Lemma clash_allocation u n kw now ts :
  existsb (CoinBalance.clash (CoinBalance.new_tx u ALLOCATION n "" kw now)) ts
  = granted_as ALLOCATION (CoinBalance.kw_payment_reference kw) ts.
Proof.
  unfold granted_as. induction ts as [|x ts IH]; [done|]. cbn [existsb]. rewrite IH. f_equal.
  unfold CoinBalance.clash, CoinBalance.pending_reference_clash, CoinBalance.one_per_payment_clash.
  cbn. by rewrite !andb_false_r, !andb_true_r, !orb_false_l.
Qed.

Lemma granted_as_snoc ty reference ts t :
  granted_as ty reference (ts ++ [t]) = granted_as ty reference ts
    || (String.eqb (CoinBalance.ct_type t) ty && String.eqb (CoinBalance.ct_payment_reference t) reference).
Proof. unfold granted_as. rewrite existsb_app. cbn. by rewrite orb_false_r. Qed.

(** ** One grant *)

(** The wallet after a grant of [n] to [u]: the totals move by [n], and the
    ledger has one more entry, of this type and reference. *)
Definition pays (u n : Z) (ty reference : string) (w w' : CoinBalance.wallet) : Prop :=
  CoinBalance.wallet_ok w'
  ∧ (∀ v, CoinBalance.total_of v w' = CoinBalance.total_of v w + if decide (v = u) then n else 0)
  ∧ ∀ ty' r, granted_as ty' r (CoinBalance.w_txs w')
      = granted_as ty' r (CoinBalance.w_txs w) || (String.eqb ty ty' && String.eqb reference r).

Lemma grant_earned_run u n reference description now (s : store) :
  CoinBalance.wallet_ok (s_coins s) → 0 < n →
  if granted_as GIFT reference (CoinBalance.w_txs (s_coins s))
  then grant_once (credit_earned u n reference description now) n s = (inr 0, s)
  else ∃ w', grant_once (credit_earned u n reference description now) n s = (inr n, with_coins w' s)
       ∧ pays u n GIFT reference (s_coins s) w'.
Proof.
  intros Hw Hn.
  destruct (CoinBalance.add_earned_credit u n GIFT (gift_kwargs reference description) now _ Hw Hn)
    as (r' & Hrun & Hmv & _).
  rewrite clash_gift in Hrun. cbn [CoinBalance.kw_payment_reference gift_kwargs] in Hrun.
  unfold grant_once, catch, atomic, in_coins, credit_earned. rewrite bind_run, zoom_run, Hrun.
  destruct (granted_as _ _ _); [done|]. eexists. split; [reflexivity|].
  destruct (CoinBalance.credited_ok u n now r'
    (CoinBalance.new_tx u GIFT n "" (gift_kwargs reference description) now) _ Hw Hmv eq_refl eq_refl).
  split; [done|]. split; [done|]. intros ty r. apply granted_as_snoc.
Qed.

Lemma grant_allocation_run u n reference description now (s : store) :
  CoinBalance.wallet_ok (s_coins s) → 0 < n →
  if granted_as ALLOCATION reference (CoinBalance.w_txs (s_coins s))
  then grant_once (credit_bonus u n reference description now) n s = (inr 0, s)
  else ∃ w', grant_once (credit_bonus u n reference description now) n s = (inr n, with_coins w' s)
       ∧ pays u n ALLOCATION reference (s_coins s) w'.
Proof.
  intros Hw Hn.
  destruct (CoinBalance.add_bonus_credit u n ALLOCATION (gift_kwargs reference description) now _ Hw Hn)
    as (r' & Hrun & Hmv & _).
  rewrite clash_allocation in Hrun. cbn [CoinBalance.kw_payment_reference gift_kwargs] in Hrun.
  unfold grant_once, catch, atomic, in_coins, credit_bonus. rewrite bind_run, zoom_run, Hrun.
  destruct (granted_as _ _ _); [done|]. eexists. split; [reflexivity|].
  destruct (CoinBalance.credited_ok u n now r'
    (CoinBalance.new_tx u ALLOCATION n "" (gift_kwargs reference description) now) _ Hw Hmv eq_refl eq_refl).
  split; [done|]. split; [done|]. intros ty r. apply granted_as_snoc.
Qed.

(** ** A period's days *)

Section Period.
Context (p : payment) (t : tier) (u : Z).
Notation coins := (coins_for_day (Some t)).

(** [p] paid for a period of [t] that [u] is owed. *)
Record owed_to (s : store) : Prop := OwedTo {
  od_status : pay_status p = "completed";
  od_earning : ∃ pl, plan_of p s = Some pl ∧ earning (sp_status pl) = true;
  od_tier : payment_tier p s = Some t;
  od_payee : payee p s = Some u
}.

(** The days granted so far are those up to [k]. *)
Definition settled (k : Z) (w : CoinBalance.wallet) : Prop :=
  CoinBalance.wallet_ok w
  ∧ (∀ d, granted_as GIFT (reference_for p d) (CoinBalance.w_txs w)
          = (1 <=? d) && (d <=? k) && negb (coins d =? 0))
  ∧ granted_as GIFT (pay_id p) (CoinBalance.w_txs w) = false.

(** [w'] pays [u] [n] more coins than [w]. *)
Definition gained (n : Z) (w w' : CoinBalance.wallet) : Prop :=
  ∀ v, CoinBalance.total_of v w' = CoinBalance.total_of v w + if decide (v = u) then n else 0.

Lemma owed_to_coins (s : store) w : owed_to s → owed_to (with_coins w s).
Proof. by intros [? ? ? ?]. Qed.

Lemma grant_for_day_run d now (s : store) k :
  owed_to s → settled k (s_coins s) → 1 <= d <= k + 1 →
  let n := if d <=? k then 0 else coins d in
  ∃ w', grant_for_day p d now s = (inr n, with_coins w' s)
    ∧ settled (Z.max k d) w' ∧ gained n (s_coins s) w'.
Proof.
  intros [_ _ Htier Hpayee] (Hw & Hset & Hold) Hd n.
  unfold grant_for_day. rewrite bind_run. cbn [get]. rewrite Htier.
  pose proof (coins_for_day_nonneg (Some t) d) as Hnn.
  assert (∀ w, settled k w → (d <=? k = true ∨ coins d = 0) → settled (Z.max k d) w) as Hmax.
  { intros w (H1 & H2 & H3) Hor. split; [done|]. split; [|done]. intros d'. rewrite H2.
    destruct (Z.eqb_spec (coins d') 0); [by rewrite !andb_false_r|].
    destruct (decide (d' = d)) as [->|Hne].
    - destruct Hor as [Hle%Z.leb_le|]; [|done]. by rewrite Z.max_l by lia.
    - f_equal. f_equal. apply eq_true_iff_eq. rewrite !Z.leb_le. lia. }
  destruct (Z.eqb_spec (coins d) 0) as [Hz|Hz].
  { exists (s_coins s). split; [unfold n; destruct (d <=? k); rewrite ?Hz; by destruct s|].
    split; [apply Hmax; [done|by right]|]. intros v.
    unfold n. destruct (d <=? k), (decide (v = u)); lia. }
  rewrite Hpayee.
  pose proof (grant_earned_run u (coins d) (reference_for p d)
    (tr_name t +:+ " subscription gift (day " +:+ str_int d +:+ ")") now s Hw ltac:(lia)) as Hrun.
  rewrite Hset, (proj2 (Z.leb_le 1 d)), (proj2 (Z.eqb_neq (coins d) 0)) in Hrun by (done || lia).
  cbn [andb negb] in Hrun. rewrite andb_true_r in Hrun. unfold n. destruct (Z.leb_spec d k) as [Hle|Hgt].
  - rewrite Hrun. exists (s_coins s). split; [by destruct s|].
    split; [apply Hmax; [done|by left]|]. intros v. destruct (decide (v = u)); lia.
  - destruct Hrun as (w' & -> & Hw' & Htot & Hgr). exists w'. split; [done|]. split; [|exact Htot].
    split; [done|]. split.
    + intros d'. rewrite Hgr, Hset. cbn [String.eqb]. replace (Z.max k d) with d by lia.
      destruct (decide (d' = d)) as [->|Hne].
      * rewrite !String.eqb_refl, orb_true_r. rewrite (proj2 (Z.leb_le 1 d)), Z.leb_refl by lia.
        by rewrite (proj2 (Z.eqb_neq (coins d) 0)).
      * rewrite (proj2 (String.eqb_neq (reference_for p d) (reference_for p d'))),
          andb_false_r, orb_false_r by (intros E; by apply reference_for_inj in E).
        f_equal. f_equal. apply eq_true_iff_eq. rewrite !Z.leb_le. lia.
    + rewrite Hgr, Hold, (proj2 (String.eqb_neq (reference_for p d) (pay_id p))), andb_false_r
        by apply reference_for_not_id. done.
Qed.

Lemma gained_trans n1 n2 w1 w2 w3 : gained n1 w1 w2 → gained n2 w2 w3 → gained (n1 + n2) w1 w3.
Proof. intros H1 H2 v. rewrite H2, H1. destruct (decide (v = u)); lia. Qed.

Lemma grant_days_run m : ∀ a k now (s : store),
  owed_to s → settled k (s_coins s) → 0 <= a <= k →
  let e := a + Z.of_nat m in
  ∃ w', grant_days p ((λ i : nat, Z.of_nat i + 1) <$> seq (Z.to_nat a) m) now s
        = (inr (owed (Some t) (Z.max k e) - owed (Some t) k), with_coins w' s)
    ∧ settled (Z.max k e) w'
    ∧ gained (owed (Some t) (Z.max k e) - owed (Some t) k) (s_coins s) w'.
Proof.
  induction m as [|m IH]; intros a k now s Hs Hset Ha e; unfold e.
  { cbn [seq fmap list_fmap grant_days]. exists (s_coins s).
    replace (Z.max k (a + Z.of_nat 0)) with k by lia. rewrite Z.sub_diag.
    split; [by destruct s|]. split; [done|]. intros v. destruct (decide (v = u)); lia. }
  cbn [seq fmap list_fmap grant_days]. rewrite bind_run. rewrite Z2Nat.id by lia.
  destruct (grant_for_day_run (a + 1) now s k Hs Hset ltac:(lia)) as (w1 & -> & Hset1 & Hg1).
  rewrite bind_run. replace (S (Z.to_nat a)) with (Z.to_nat (a + 1)) by lia.
  destruct (IH (a + 1) (Z.max k (a + 1)) now (with_coins w1 s) (owed_to_coins _ _ Hs) Hset1 ltac:(lia))
    as (w2 & -> & Hset2 & Hg2).
  exists w2. cbn [mret M_ret].
  replace (Z.max (Z.max k (a + 1)) (a + 1 + Z.of_nat m)) with (Z.max k (a + Z.of_nat (S m))) in * by lia.
  set (x := owed (Some t) (Z.max k (a + Z.of_nat (S m)))) in *.
  assert ((if a + 1 <=? k then 0 else coins (a + 1)) + (x - owed (Some t) (Z.max k (a + 1)))
          = x - owed (Some t) k) as Heq.
  { destruct (Z.leb_spec (a + 1) k); [by rewrite Z.max_l by lia|].
    replace (Z.max k (a + 1)) with (k + 1) by lia. rewrite owed_snoc by lia.
    replace (k + 1) with (a + 1) by lia. lia. }
  split; [|split; [done|]].
  - cbn [with_coins]. by rewrite Heq.
  - rewrite <- Heq. by eapply gained_trans.
Qed.

(** The last day a call at [now] pays for. *)
Definition reached (now : Z) : Z :=
  Z.max 0 (Z.min (day_index p now) (Z.of_nat (length (schedule_for (Some t))))).

Lemma grant_due_run now k (s : store) :
  owed_to s → settled k (s_coins s) → 0 <= k →
  let k' := Z.max k (reached now) in
  ∃ w', grant_due p now s = (inr (owed (Some t) k' - owed (Some t) k), with_coins w' s)
    ∧ settled k' w' ∧ gained (owed (Some t) k' - owed (Some t) k) (s_coins s) w'.
Proof.
  intros Hs Hset Hk k'. destruct Hs as [Hst (pl & Hpl & Hea) Htier Hpay]. destruct Hset as (Hw & Hg & Hold).
  unfold grant_due. rewrite bind_run. cbn [get]. rewrite Hst, Hpl, Hea. cbn [String.eqb negb Ascii.eqb eqb].
  unfold paid_in_full_by_the_old_rule. rewrite Hold, Htier.
  destruct (Z.ltb_spec (day_index p now) 1) as [Hlt|Hge].
  - exists (s_coins s). unfold k', reached. replace (Z.max k _) with k by lia. rewrite Z.sub_diag.
    split; [by destruct s|]. split; [done|]. intros v. destruct (decide (v = u)); lia.
  - set (m := Z.min (day_index p now) _).
    destruct (grant_days_run (Z.to_nat m) 0 k now s) as (w' & Hrun & Hset' & Hgain);
      [by constructor; eauto|done|lia|].
    assert (Z.max k (0 + Z.of_nat (Z.to_nat m)) = k') as E by (unfold k', reached; fold m; lia).
    rewrite E in *. exists w'. split; [exact Hrun|]. done.
Qed.

Definition collect (times : list Z) (s : store) : store :=
  fold_left (λ s now, (grant_due p now s).2) times s.
Fixpoint furthest (times : list Z) : Z :=
  match times with [] => 0 | now :: times => Z.max (reached now) (furthest times) end.

Lemma furthest_nonneg times : 0 <= furthest times.
Proof. induction times; cbn; lia. Qed.

Lemma collect_run times : ∀ k (s : store),
  owed_to s → settled k (s_coins s) → 0 <= k →
  let k' := Z.max k (furthest times) in
  ∃ w', collect times s = with_coins w' s ∧ settled k' w'
    ∧ gained (owed (Some t) k' - owed (Some t) k) (s_coins s) w'.
Proof.
  induction times as [|now times IH]; intros k s Hs Hset Hk k'; unfold k'; cbn [collect fold_left furthest].
  - exists (s_coins s). rewrite Z.max_l, Z.sub_diag by lia. split; [by destruct s|].
    split; [done|]. intros v. destruct (decide (v = u)); lia.
  - destruct (grant_due_run now k s Hs Hset Hk) as (w1 & -> & Hset1 & Hg1). cbn [snd].
    destruct (IH _ (with_coins w1 s) (owed_to_coins _ _ Hs) Hset1 ltac:(lia)) as (w2 & Hrun & Hset2 & Hg2).
    fold (collect times (with_coins w1 s)). rewrite Hrun. exists w2.
    rewrite <- Z.max_assoc in Hset2, Hg2. split; [done|]. split; [done|].
    replace (owed (Some t) _ - owed (Some t) k) with
      ((owed (Some t) (Z.max k (reached now)) - owed (Some t) k)
       + (owed (Some t) (Z.max k (Z.max (reached now) (furthest times)))
          - owed (Some t) (Z.max k (reached now)))) by lia.
    by eapply gained_trans.
Qed.

(** C8.  A period pays each of its days once.  However often and whenever the
    sweep, the payment's own signal or a retry asks for what is due, nothing
    is raised, and what the subscriber has gained is exactly the first days'
    coins, up to the furthest day any call reached -- missed days included, no
    day twice -- so a period seen to its last day pays exactly the plan's
    total; asking again pays nothing. *)
Theorem period_pays_each_day_once times (s : store) :
  owed_to s → CoinBalance.wallet_ok (s_coins s) →
  (∀ d, already_granted p d s = false) → paid_in_full_by_the_old_rule p s = false →
  let s' := collect times s in
  gained (owed (Some t) (furthest times)) (s_coins s) (s_coins s')
  ∧ (0 < plan_days (Some t) →
     (∃ now, now ∈ times ∧ Z.of_nat (length (schedule_for (Some t))) <= day_index p now) →
     gained (plan_total (Some t)) (s_coins s) (s_coins s'))
  ∧ ∀ now, ∃ n w', grant_due p now s' = (inr n, with_coins w' s')
      ∧ gained n (s_coins s') w' ∧ (reached now <= furthest times → n = 0).
Proof.
  intros Hs Hw Hnone Hold s'.
  assert (settled 0 (s_coins s)) as H0.
  { split; [done|]. split; [|done]. intros d. etrans; [apply Hnone|].
    destruct (Z.leb_spec 1 d), (Z.leb_spec d 0); done || lia. }
  destruct (collect_run times 0 s Hs H0 ltac:(lia)) as (w' & Hrun & Hset & Hg).
  pose proof (furthest_nonneg times). rewrite Z.max_r in Hset, Hg by lia.
  replace (owed (Some t) 0) with 0 in Hg by done. rewrite Z.sub_0_r in Hg.
  unfold s'. rewrite Hrun. cbn [s_coins with_coins]. split; [exact Hg|]. split.
  - intros Hdays (now & Hin & Hlast). rewrite <- owed_all by done.
    replace (Z.of_nat (length (schedule_for (Some t)))) with (furthest times); [exact Hg|].
    assert (∀ n, n ∈ times → reached n <= furthest times) as Hle.
    { clear. intros n Hin. induction times as [|x times IH]; [by apply elem_of_nil in Hin|].
      cbn. apply elem_of_cons in Hin as [->|Hin]; [lia|]. specialize (IH Hin). lia. }
    specialize (Hle now Hin). unfold reached in Hle.
    assert (furthest times <= Z.of_nat (length (schedule_for (Some t)))).
    { clear. induction times as [|x times IH]; cbn; [lia|]. unfold reached at 1. lia. }
    lia.
  - intros now. destruct (grant_due_run now (furthest times) (with_coins w' s)
      (owed_to_coins _ _ Hs) Hset) as (w2 & Hrun2 & _ & Hg2); [lia|].
    eexists _, w2. split; [exact Hrun2|]. split; [exact Hg2|].
    intros Hr. rewrite Z.max_l by done. lia.
Qed.

End Period.

(** ** The payment's own signal *)

(** A granting step at [s] changes coins only, keeps the wallet well-formed
    and every grant already recorded, leaves [settled_now] true, and where it
    was true already does nothing. *)
Definition grants_at (m : M store Z) (settled_now : store → bool) (s : store) : Prop :=
  ∃ n w', m s = (inr n, with_coins w' s) ∧ CoinBalance.wallet_ok w'
    ∧ (∀ ty r, granted_as ty r (CoinBalance.w_txs (s_coins s)) = true →
         granted_as ty r (CoinBalance.w_txs w') = true)
    ∧ settled_now (with_coins w' s) = true
    ∧ (settled_now s = true → m s = (inr 0, s)).

Definition grants (m : M store Z) (settled_now : store → bool) : Prop :=
  ∀ s, CoinBalance.wallet_ok (s_coins s) → grants_at m settled_now s.

Lemma same_store (s : store) : with_coins (s_coins s) s = s.
Proof. by destruct s. Qed.

Lemma grants_ret (m : M store Z) f (s : store) :
  CoinBalance.wallet_ok (s_coins s) → m s = (inr 0, s) → f s = true → grants_at m f s.
Proof.
  intros Hw Hm Hf. exists 0, (s_coins s). rewrite same_store. by split_and!.
Qed.

Lemma grants_weaken (m m' : M store Z) f g (s : store) :
  m s = m' s → (∀ w, f (with_coins w s) = true → g (with_coins w s) = true) →
  (g s = true → f s = true) → grants_at m' f s → grants_at m g s.
Proof.
  intros Hm Hfg Hgf (n & w' & H1 & H2 & H3 & H4 & H5). exists n, w'. rewrite Hm.
  split_and!; [done..|by apply Hfg|]. intros Hg. by apply H5, Hgf.
Qed.

Definition day_settled (p : payment) (d : Z) (s : store) : bool :=
  match payment_tier p s, payee p s with
  | Some t, Some _ => (coins_for_day (Some t) d =? 0) || already_granted p d s
  | _, _ => true
  end.

Lemma grant_for_day_grants p d now : grants (grant_for_day p d now) (day_settled p d).
Proof.
  intros s Hw. destruct (payment_tier p s) as [t|] eqn:Ht;
    [|apply grants_ret; [done|unfold grant_for_day; rewrite bind_run; cbn [get]; by rewrite Ht|
      unfold day_settled; by rewrite Ht]].
  destruct (Z.eqb_spec (coins_for_day (Some t) d) 0) as [Hz|Hz].
  { apply grants_ret; [done| |unfold day_settled; rewrite Ht, Hz; by destruct (payee p s)].
    unfold grant_for_day. rewrite bind_run. cbn [get]. by rewrite Ht, Hz. }
  destruct (payee p s) as [u|] eqn:Hu; [|apply grants_ret; [done| |unfold day_settled; by rewrite Ht, Hu]].
  2:{ unfold grant_for_day. rewrite bind_run. cbn [get]. rewrite Ht, Hu.
      by rewrite (proj2 (Z.eqb_neq _ _) Hz). }
  pose proof (coins_for_day_nonneg (Some t) d) as Hnn.
  pose proof (grant_earned_run u (coins_for_day (Some t) d) (reference_for p d)
    (tr_name t +:+ " subscription gift (day " +:+ str_int d +:+ ")") now s Hw ltac:(lia)) as Hrun.
  assert (∀ w, day_settled p d (with_coins w s) = granted_as GIFT (reference_for p d) (CoinBalance.w_txs w)) as Hds.
  { intros w. unfold day_settled.
    change (payment_tier p (with_coins w s)) with (payment_tier p s).
    change (payee p (with_coins w s)) with (payee p s). rewrite Ht, Hu.
    by rewrite (proj2 (Z.eqb_neq _ _) Hz). }
  unfold grants_at, grant_for_day. rewrite bind_run. cbn [get]. rewrite Ht, Hu, (proj2 (Z.eqb_neq _ _) Hz).
  pose proof (Hds (s_coins s)) as Hds0. rewrite same_store in Hds0. rewrite Hds0.
  destruct (granted_as GIFT _ (CoinBalance.w_txs (s_coins s))) eqn:Hg.
  - rewrite Hrun. exists 0, (s_coins s). rewrite Hds, same_store. done.
  - destruct Hrun as (w' & -> & Hw' & Htot & Hgr). exists (coins_for_day (Some t) d), w'.
    rewrite Hds. split; [done|]. split; [done|]. split; [intros ty r Hr; by rewrite Hgr, Hr|].
    split; [|done]. by rewrite Hgr, !String.eqb_refl, orb_true_r.
Qed.

(** Recorded grants stay recorded. *)
Definition remembers (s s' : store) : Prop :=
  s' = with_coins (s_coins s') s
  ∧ ∀ ty r, granted_as ty r (CoinBalance.w_txs (s_coins s)) = true →
      granted_as ty r (CoinBalance.w_txs (s_coins s')) = true.

Lemma day_settled_mono p d (s s' : store) :
  remembers s s' → day_settled p d s = true → day_settled p d s' = true.
Proof.
  intros [-> Hm]. unfold day_settled.
  change (payment_tier p (with_coins ?w s)) with (payment_tier p s).
  change (payee p (with_coins ?w s)) with (payee p s).
  destruct (payment_tier p s), (payee p s); try done. rewrite !orb_true_iff.
  intros [H|H]; [by left|right]. by apply Hm.
Qed.

Lemma grant_days_grants p ds now :
  grants (grant_days p ds now) (λ s, forallb (λ d, day_settled p d s) ds).
Proof.
  induction ds as [|d ds IH]; intros s Hw; [by apply grants_ret|]. unfold grants_at. cbn [grant_days].
  destruct (grant_for_day_grants p d now s Hw) as (n & w1 & Hrun & Hw1 & Hm1 & Hset1 & Hno1).
  rewrite bind_run, Hrun. destruct (IH (with_coins w1 s) Hw1) as (r & w2 & Hrun2 & Hw2 & Hm2 & Hset2 & Hno2).
  rewrite bind_run, Hrun2. exists (n + r), w2. split; [done|]. split; [done|].
  split; [intros ty x Hx; by apply Hm2, Hm1|]. split.
  - cbn [forallb]. change (with_coins w2 s) with (with_coins w2 (with_coins w1 s)). rewrite Hset2, andb_true_r.
    by apply (day_settled_mono p d (with_coins w1 s)).
  - cbn [forallb]. intros [Hd Hds]%andb_true_iff. destruct (IH s Hw) as (? & ? & _ & _ & _ & _ & Hno).
    rewrite (Hno1 Hd) in Hrun. injection Hrun as <- Hs. rewrite <- Hs in Hrun2.
    rewrite (Hno Hds) in Hrun2. injection Hrun2 as <- Hs2. cbn [mret M_ret]. by rewrite Z.add_0_r, Hs2.
Qed.

(** When [grant_due] has nothing left to pay at [now]. *)
Definition due_settled (p : payment) (now : Z) (s : store) : bool :=
  negb (String.eqb (pay_status p) "completed")
  || match plan_of p s with Some pl => negb (earning (sp_status pl)) | None => false end
  || paid_in_full_by_the_old_rule p s || (day_index p now <? 1)
  || forallb (λ d, day_settled p d s)
       (days_to (Z.min (day_index p now) (Z.of_nat (length (schedule_for (payment_tier p s)))))).

Lemma grant_due_grants p now : grants (grant_due p now) (due_settled p now).
Proof.
  intros s Hw. set (ds := days_to (Z.min (day_index p now) (Z.of_nat (length (schedule_for (payment_tier p s)))))).
  assert (grant_due p now s
    = if negb (String.eqb (pay_status p) "completed")
         || match plan_of p s with Some pl => negb (earning (sp_status pl)) | None => false end
         || paid_in_full_by_the_old_rule p s || (day_index p now <? 1)
      then (inr 0, s) else grant_days p ds now s) as Hrun.
  { unfold grant_due. rewrite bind_run. cbn [get]. by repeat case_match. }
  assert (due_settled p now s = (negb (String.eqb (pay_status p) "completed")
         || match plan_of p s with Some pl => negb (earning (sp_status pl)) | None => false end
         || paid_in_full_by_the_old_rule p s || (day_index p now <? 1))
         || forallb (λ d, day_settled p d s) ds) as Hset by done.
  destruct (_ || (day_index p now <? 1)).
  - apply grants_ret; [done|done|by rewrite Hset].
  - apply (grants_weaken _ _ (λ s, forallb (λ d, day_settled p d s) ds) _ _ Hrun).
    + intros w Hf. unfold due_settled. change (payment_tier p (with_coins w s)) with (payment_tier p s).
      fold ds. by rewrite Hf, orb_true_r.
    + by rewrite Hset.
    + by apply grant_days_grants.
Qed.

Definition payment_settled (p : payment) (now : Z) (s : store) : bool :=
  negb (String.eqb (pay_status p) "completed")
  || match payment_tier p s with
     | None => true
     | Some t =>
         if String.eqb (tr_duration_type t) ONDEMAND
         then (ondemand_allocation (Some t) =? 0) || negb (bool_decide (is_Some (payee p s)))
              || granted_as ALLOCATION (pay_id p) (CoinBalance.w_txs (s_coins s))
         else if negb (plan_days (Some t) =? 0) then due_settled p now s
         else (gift_coins_for (Some t) =? 0) || negb (bool_decide (is_Some (payee p s)))
              || paid_in_full_by_the_old_rule p s
     end.

(** A single grant keyed on the payment itself. *)
Lemma grants_single (m : M store Z) (f : store → bool) n u ty reference (s : store) (r : M store Z) :
  (∀ w, f (with_coins w s) = granted_as ty reference (CoinBalance.w_txs w)) →
  m s = r s →
  (if granted_as ty reference (CoinBalance.w_txs (s_coins s))
   then r s = (inr 0, s)
   else ∃ w', r s = (inr n, with_coins w' s) ∧ pays u n ty reference (s_coins s) w') →
  CoinBalance.wallet_ok (s_coins s) → grants_at m f s.
Proof.
  intros Hf Hm Hr Hw. pose proof (Hf (s_coins s)) as Hf0. rewrite same_store in Hf0.
  destruct (granted_as ty reference (CoinBalance.w_txs (s_coins s))) eqn:Hg.
  - apply grants_ret; [done|by rewrite Hm, Hr|done].
  - destruct Hr as (w' & Hrun & Hw' & _ & Hgr). exists n, w'. rewrite Hm, Hrun, Hf, Hf0.
    split; [done|]. split; [done|]. split; [intros ty' x Hx; by rewrite Hgr, Hx|].
    split; [by rewrite Hgr, !String.eqb_refl, orb_true_r|done].
Qed.

Lemma grant_for_payment_grants p now : grants (grant_for_payment p now) (payment_settled p now).
Proof.
  intros s Hw. destruct (String.eqb (pay_status p) "completed") eqn:Hst; cycle 1.
  { apply grants_ret; [done| |unfold payment_settled; by rewrite Hst].
    unfold grant_for_payment. rewrite bind_run. cbn [get]. by rewrite Hst. }
  destruct (payment_tier p s) as [t|] eqn:Ht; cycle 1.
  { apply grants_ret; [done| |unfold payment_settled; by rewrite Hst, Ht].
    unfold grant_for_payment. rewrite bind_run. cbn [get]. by rewrite Hst, Ht. }
  destruct (String.eqb (tr_duration_type t) ONDEMAND) eqn:Hod.
  { assert (grant_for_payment p now s = grant_ondemand_allocation p now s) as Hrun
      by (unfold grant_for_payment; rewrite bind_run; cbn [get]; by rewrite Hst, Ht, Hod).
    assert (∀ w, payment_settled p now (with_coins w s)
      = (ondemand_allocation (Some t) =? 0) || negb (bool_decide (is_Some (payee p s)))
        || granted_as ALLOCATION (pay_id p) (CoinBalance.w_txs w)) as Hset.
    { intros w. unfold payment_settled. change (payment_tier p (with_coins w s)) with (payment_tier p s).
      by rewrite Hst, Ht, Hod. }
    unfold grant_ondemand_allocation in Hrun. rewrite bind_run in Hrun. cbn [get] in Hrun. rewrite Ht in Hrun.
    destruct (Z.eqb_spec (ondemand_allocation (Some t)) 0) as [Hz|Hz].
    { apply grants_ret; [done|done|]. specialize (Hset (s_coins s)). by rewrite same_store in Hset. }
    destruct (payee p s) as [u|] eqn:Hu.
    2:{ apply grants_ret; [done|done|]. specialize (Hset (s_coins s)). by rewrite same_store in Hset. }
    eapply (grants_single _ _ _ u ALLOCATION (pay_id p)); [exact Hset|exact Hrun| |done].
    apply grant_allocation_run; [done|]. unfold ondemand_allocation in *. rewrite Hod in *. lia. }
  destruct (plan_days (Some t) =? 0) eqn:Hdays; cycle 1.
  { apply (grants_weaken _ (grant_due p now) (due_settled p now)).
    - unfold grant_for_payment. rewrite bind_run. cbn [get]. by rewrite Hst, Ht, Hod, Hdays.
    - intros w Hd. unfold payment_settled. change (payment_tier p (with_coins w s)) with (payment_tier p s).
      by rewrite Hst, Ht, Hod, Hdays.
    - unfold payment_settled. by rewrite Hst, Ht, Hod, Hdays.
    - by apply grant_due_grants. }
  assert (∀ w, payment_settled p now (with_coins w s)
      = (gift_coins_for (Some t) =? 0) || negb (bool_decide (is_Some (payee p s)))
        || granted_as GIFT (pay_id p) (CoinBalance.w_txs w)) as Hset.
  { intros w. unfold payment_settled. change (payment_tier p (with_coins w s)) with (payment_tier p s).
    by rewrite Hst, Ht, Hod, Hdays. }
  pose proof (Hset (s_coins s)) as Hset0. rewrite same_store in Hset0.
  assert (grant_for_payment p now s
    = if paid_in_full_by_the_old_rule p s then (inr 0, s)
      else if gift_coins_for (Some t) =? 0 then (inr 0, s)
      else match payee p s with
           | None => (inr 0, s)
           | Some u => grant_once (credit_earned u (gift_coins_for (Some t)) (pay_id p)
                         (tr_name t +:+ " subscription gift") now) (gift_coins_for (Some t)) s
           end) as Hrun.
  { unfold grant_for_payment. rewrite bind_run. cbn [get]. rewrite Hst, Ht, Hod, Hdays. cbn [negb].
    by repeat case_match. }
  unfold paid_in_full_by_the_old_rule in Hrun.
  destruct (Z.eqb_spec (gift_coins_for (Some t)) 0) as [Hz|Hz].
  { apply grants_ret; [done| |done]. rewrite Hrun. by destruct (granted_as _ _ _). }
  destruct (payee p s) as [u|] eqn:Hu.
  2:{ apply grants_ret; [done| |done]. rewrite Hrun. by destruct (granted_as _ _ _). }
  pose proof (plan_total_nonneg (Some t)) as Hnn. unfold gift_coins_for in *.
  pose proof (grant_earned_run u (plan_total (Some t)) (pay_id p)
    (tr_name t +:+ " subscription gift") now s Hw ltac:(lia)) as Hg.
  destruct (granted_as GIFT (pay_id p) (CoinBalance.w_txs (s_coins s))) eqn:Hgr.
  { apply grants_ret; [done|done|]. by rewrite Hset0, orb_true_r. }
  eapply (grants_single _ _ _ u GIFT (pay_id p) s
    (grant_once (credit_earned u (plan_total (Some t)) (pay_id p) (tr_name t +:+ " subscription gift") now)
       (plan_total (Some t)))); [exact Hset|exact Hrun| |done].
  rewrite Hgr. exact Hg.
Qed.

(** The receiver always returns, and touches nothing but coins. *)
Lemma signal_run p now (x : Subscriptions.store) :
  CoinBalance.wallet_ok (s_coins x) →
  ∃ w, grant_subscription_gift p now x = (inr tt, with_coins w x) ∧ CoinBalance.wallet_ok w.
Proof.
  intros Hw. unfold grant_subscription_gift. destruct (negb _).
  { exists (s_coins x). by destruct x. }
  destruct (grant_for_payment_grants p now x Hw) as (n & w & Hrun & Hw' & _).
  exists w. split; [|done]. unfold catch. by rewrite bind_run, Hrun.
Qed.

Lemma days_to_mono a b d : a <= b → d ∈ days_to a → d ∈ days_to b.
Proof.
  intros Hab (i & -> & Hi%elem_of_seq)%list_elem_of_fmap. apply list_elem_of_fmap.
  exists i. split; [done|]. apply elem_of_seq. lia.
Qed.

Lemma payment_settled_earlier p now now' (s : store) :
  day_index p now' <= day_index p now → payment_settled p now s = true → payment_settled p now' s = true.
Proof.
  intros Hle. unfold payment_settled. destruct (negb (String.eqb (pay_status p) _)); [done|].
  destruct (payment_tier p s) as [t|] eqn:Ht; [|done]. destruct (String.eqb _ ONDEMAND); [done|].
  destruct (negb _); [|done]. cbn [orb]. unfold due_settled. rewrite !orb_true_iff.
  intros [[[?|?]|H]|H]; [tauto..| |].
  - left. right. apply Z.ltb_lt in H. apply Z.ltb_lt. lia.
  - right. apply forallb_forall. intros d Hd. rewrite forallb_forall in H. apply H.
    apply list_elem_of_In. apply list_elem_of_In in Hd. eapply days_to_mono; [|exact Hd]. lia.
Qed.

(** Saving a payment pays what it is due once.  The receiver never
    raises; after it ran, running it again -- the webhook redelivered, the row
    saved a second time on the same day of its period or with an earlier clock
    -- changes nothing, whether the payment is for an on-demand package, a
    plan paid by the day, or a tier with no length. *)
Theorem payment_signal_pays_once p now now' (s : store) :
  CoinBalance.wallet_ok (s_coins s) → day_index p now' <= day_index p now →
  ∃ s1, grant_subscription_gift p now s = (inr tt, s1)
    ∧ CoinBalance.wallet_ok (s_coins s1) ∧ s1 = with_coins (s_coins s1) s
    ∧ grant_subscription_gift p now' s1 = (inr tt, s1).
Proof.
  intros Hw Hle. unfold grant_subscription_gift.
  destruct (negb (String.eqb (pay_status p) "completed")).
  { exists s. rewrite same_store. by split_and!. }
  destruct (grant_for_payment_grants p now s Hw) as (n & w' & Hrun & Hw' & _ & Hset & _).
  exists (with_coins w' s). unfold catch. rewrite !bind_run, Hrun. cbn [mret M_ret].
  split; [done|]. split; [done|]. split; [by destruct s|].
  destruct (grant_for_payment_grants p now' (with_coins w' s) Hw') as (n2 & w2 & _ & _ & _ & _ & Hno).
  by rewrite Hno by (by apply (payment_settled_earlier p now now')).
Qed.

(** ** A concrete week *)

Definition example_payment : payment :=
  Payment "pay-1" 4 (Some 9) "completed" (Some 0) (7 * day).
Definition paying_store : store :=
  Store (<[1 := example_tier]> ∅)
    (<[4 := set_period active (Some 0) (Some (7 * day)) None example_plan]> ∅) []
    CoinBalance.no_wallets [].

Lemma period_pays_each_day_once_witness :
  let times := [hour; 2 * hour; 3 * day; 3 * day; 7 * day; 9 * day] in
  CoinBalance.total_of 9 (s_coins (collect example_payment times paying_store)) = 25
  ∧ gained 9 (plan_total (Some example_tier)) (s_coins paying_store)
      (s_coins (collect example_payment times paying_store)).
Proof.
  intros times. split; [vm_compute; reflexivity|].
  destruct (period_pays_each_day_once example_payment example_tier 9 times paying_store)
    as (_ & H & _).
  - constructor; [reflexivity|eexists; split; reflexivity|reflexivity|reflexivity].
  - apply CoinBalance.wallet_ok_empty.
  - reflexivity.
  - reflexivity.
  - apply H; [reflexivity|]. exists (7 * day). split; [|vm_compute; discriminate].
    do 4 right. left.
Defined.

Lemma payment_signal_pays_once_witness :
  ∃ s1, grant_subscription_gift example_payment (2 * day) paying_store = (inr tt, s1)
    ∧ CoinBalance.total_of 9 (s_coins s1) = 12
    ∧ grant_subscription_gift example_payment day s1 = (inr tt, s1).
Proof.
  destruct (payment_signal_pays_once example_payment (2 * day) day paying_store)
    as (s1 & H1 & _ & _ & H2).
  - apply CoinBalance.wallet_ok_empty.
  - vm_compute. discriminate.
  - exists s1. split; [exact H1|]. split; [|exact H2]. vm_compute in H1. injection H1 as <-.
    vm_compute. reflexivity.
Defined.

End SubscriptionGift.
