(* ===== verification/Gifting.v ===== *)
(** * Gifting: coins from one user to another

    Models the two coin-gift endpoints of [src/api/views/contest.py]
    ([send_gift], [gift_creator]), the catalogue gift of
    [src/api/views/gift.py] ([send_gift], [update_gift_stats]) and the daily
    limit of [src/api/services/contribution_limits.py].

    The catalogue handler reads its limits first and moves the coins later in
    one transaction; other requests may run in between, so it is two steps
    here, [gift_check] and [gift_commit]. *)

From Stdlib Require Import ZArith Lia.
From S2P Require Import Prelude WalletConfig CoinBalance Points Subscriptions.

Module Gifting.

(** ** Data *)

Record gift := Gift {
  gf_id : Z; gf_name : string; gf_coin_value : Z; gf_is_active : bool; gf_xp_reward : Z
}.

(** The columns of [Reel] the handlers read. *)
Record reel := Reel { rl_id : Z; rl_user : Z; rl_is_campaign_post : bool }.

(** [GiftTransaction].  [combo_multiplier] is kept as its number of tenths. *)
Record gift_tx := GiftTx {
  gt_sender : Z; gt_recipient : Z; gt_gift : Z; gt_reel : option Z;
  gt_quantity : Z; gt_total_coins : Z; gt_is_combo : bool; gt_combo_tenths : Z;
  gt_message : string; gt_created_at : Z
}.

Record combo := Combo {
  cb_user : Z; cb_reel : Z; cb_gift : Z; cb_count : Z; cb_total_coins : Z;
  cb_last_gift_at : Z; cb_is_active : bool
}.

(** [GiftToCreator], without [bonus_points], which every writer sets to 5. *)
Record contribution := Contribution {
  gc_sender : Z; gc_recipient : Z; gc_reel : option Z; gc_coins : Z;
  gc_message : string; gc_created_at : Z
}.

(** The gift counters of [UserProfile]. *)
Record counters := Counters {
  ct_sent_total : Z; ct_sent_today : Z; ct_received_total : Z; ct_received_today : Z; ct_xp : Z
}.
Definition no_counters : counters := Counters 0 0 0 0 0.

(** [UserGiftStats]. *)
Record stats := Stats {
  st_sent : Z; st_coins_sent : Z; st_unique_recipients : Z;
  st_received : Z; st_coins_received : Z; st_unique_senders : Z;
  st_favorite_sent : option Z; st_favorite_received : option Z
}.
Definition no_stats : stats := Stats 0 0 0 0 0 0 None None.

Record note := Note { nt_recipient : Z; nt_sender : Z; nt_type : string; nt_message : string }.

(** What the gift tables hold. *)
Record log := Log {
  l_gifts : list gift_tx;
  l_combos : list combo;
  l_contributions : list contribution;
  l_counters : gmap Z counters;
  l_stats : gmap Z stats;
  l_notes : list note
}.

Record store := Store {
  s_subs : Subscriptions.store;
  s_config : WalletConfig.config_table;
  s_points : Points.points_db;
  s_users : gmap Z string;
  s_gifts : gmap Z gift;
  s_reels : gmap Z reel;
  s_log : log
}.

Definition coins_of (s : store) : CoinBalance.wallet := Subscriptions.s_coins (s_subs s).

Definition with_coins (w : CoinBalance.wallet) (s : store) : store :=
  Store (Subscriptions.with_coins w (s_subs s)) (s_config s) (s_points s) (s_users s) (s_gifts s)
    (s_reels s) (s_log s).
Definition with_config (c : WalletConfig.config_table) (s : store) : store :=
  Store (s_subs s) c (s_points s) (s_users s) (s_gifts s) (s_reels s) (s_log s).
Definition with_points (p : Points.points_db) (s : store) : store :=
  Store (s_subs s) (s_config s) p (s_users s) (s_gifts s) (s_reels s) (s_log s).
Definition with_log (l : log) (s : store) : store :=
  Store (s_subs s) (s_config s) (s_points s) (s_users s) (s_gifts s) (s_reels s) l.

Definition in_coins {A} : M CoinBalance.wallet A → M store A := zoom coins_of with_coins.
Definition in_config {A} : M WalletConfig.config_table A → M store A := zoom s_config with_config.
Definition in_points {A} : M Points.points_db A → M store A := zoom s_points with_points.
Definition on_log (f : log → log) : M store unit := modify (λ s, with_log (f (s_log s)) s).

Definition add_contribution (c : contribution) (l : log) : log :=
  Log (l_gifts l) (l_combos l) (l_contributions l ++ [c]) (l_counters l) (l_stats l) (l_notes l).
Definition add_gift (g : gift_tx) (l : log) : log :=
  Log (l_gifts l ++ [g]) (l_combos l) (l_contributions l) (l_counters l) (l_stats l) (l_notes l).
Definition set_combos (cs : list combo) (l : log) : log :=
  Log (l_gifts l) cs (l_contributions l) (l_counters l) (l_stats l) (l_notes l).
Definition count_user (u : Z) (f : counters → counters) (l : log) : log :=
  Log (l_gifts l) (l_combos l) (l_contributions l)
    (<[u := f (default no_counters (l_counters l !! u))]> (l_counters l)) (l_stats l) (l_notes l).
Definition stat_user (u : Z) (f : stats → stats) (l : log) : log :=
  Log (l_gifts l) (l_combos l) (l_contributions l) (l_counters l)
    (<[u := f (default no_stats (l_stats l !! u))]> (l_stats l)) (l_notes l).
Definition add_note (n : note) (l : log) : log :=
  Log (l_gifts l) (l_combos l) (l_contributions l) (l_counters l) (l_stats l) (l_notes l ++ [n]).

Definition username (u : Z) (s : store) : string := default "" (s_users s !! u).

(** ** [contribution_limits] *)

Definition DAILY_COIN_LIMIT : Z := 500.
Definition POINTS_PER_COIN_GIFTED : Z := 10.
Definition WINDOW : Z := 24 * hour.

Definition window_start (now : Z) : Z := now - WINDOW.

Definition contributed (sender recipient now : Z) (rows : list contribution) : Z :=
  sumZ gc_coins (filter (λ c, ((gc_sender c =? sender) && (gc_recipient c =? recipient)
                               && (window_start now <=? gc_created_at c)) = true) rows).

Definition contributed_coins (sender recipient now : Z) (s : store) : Z :=
  contributed sender recipient now (l_contributions (s_log s)).

Definition contributed_points (sender recipient now : Z) (s : store) : Z :=
  contributed_coins sender recipient now s * POINTS_PER_COIN_GIFTED.

Definition remaining_coins (sender recipient now : Z) (s : store) : Z :=
  Z.max 0 (DAILY_COIN_LIMIT - contributed_coins sender recipient now s).

Definition would_exceed (sender recipient coins now : Z) (s : store) : bool :=
  DAILY_COIN_LIMIT <? contributed_coins sender recipient now s + coins.

(** The numbers and the message of the refusal body. *)
Record refusal_body := Refusal {
  rf_contributed : Z; rf_remaining : Z; rf_requested : Z; rf_error : string
}.

Definition refusal (sender recipient coins now : Z) (s : store) : option refusal_body :=
  let already := contributed_coins sender recipient now s in
  if already + coins <=? DAILY_COIN_LIMIT then None
  else
    let left := Z.max 0 (DAILY_COIN_LIMIT - already) in
    Some (Refusal already left coins
      ("You can give " +:+ str_int DAILY_COIN_LIMIT +:+ " coins to one creator in 24 hours. "
       +:+ (if left =? 0 then "You have reached the limit for this creator today."
            else "You have " +:+ str_int left +:+ " left for this creator today."))).

(** ** The coin gifts of [views/contest.py] *)

(** [sender.coin_balance]. *)
Definition coin_balance (user : Z) : M CoinBalance.wallet CoinBalance.ucb :=
  w ← get;
  match CoinBalance.w_rows w !! user with
  | Some r => mret r
  | None => raise (DoesNotExist "UserCoinBalance")
  end.

(** [recipient_balance.add_coins(amount, 'gift', sender=..., description=...)].
    The type is not ['purchase'], so this is [add_earned] with [sender] among
    its [**kwargs]; [CoinTransaction] has no such field, so constructing the
    ledger entry, last in the locked block, raises. *)
Definition add_coins_with_sender (self : CoinBalance.ucb) (amount now : Z)
    : M CoinBalance.wallet unit :=
  CoinBalance.positive_amount amount ≫= λ _,
  atomic (
    locked ← CoinBalance.get_locked (CoinBalance.u_user self);
    let locked := CoinBalance.addc CoinBalance.earned_balance amount locked in
    let locked := CoinBalance.addc CoinBalance.total_earned amount locked in
    let locked := CoinBalance.sync_balance locked in
    CoinBalance.save_row [CoinBalance.earned_balance; CoinBalance.balance; CoinBalance.total_earned]
      locked now ≫= λ _,
    raise (TypeError "CoinTransaction() got unexpected keyword arguments: 'sender'")).

Definition spend_kwargs (recipient : Z) (reel : option Z) (description : string)
    : CoinBalance.tx_kwargs :=
  CoinBalance.TxKwargs None "" (Some recipient) reel 0 description.

(** [except (UserCoinBalance.DoesNotExist, ValueError)]. *)
Definition spend_error (e : exn) : bool :=
  match e with DoesNotExist m => String.eqb m "UserCoinBalance" | _ => is_value_error e end.

(** The transaction the two endpoints share; [record] is what each writes
    after the credit. *)
Definition coin_gift (sender recipient amount : Z) (reel : option Z) (record : M store unit)
    (now : Z) : M store (option response) :=
  atomic (
    s ← get;
    match refusal sender recipient amount now s with
    | Some body => mret (Some (bad (rf_error body)))
    | None =>
        spent ← catch
          (in_coins (balance ← coin_balance sender;
                     CoinBalance.spend_coins balance amount "gift" false
                       (spend_kwargs recipient reel ("Gift to " +:+ username recipient s)) now) ≫= λ _,
           mret None)
          (λ e, if spend_error e then Some (mret (Some (bad (exn_str e)))) else None);
        match spent with
        | Some resp => mret (Some resp)
        | None =>
            in_coins (balance ← CoinBalance.get_or_create recipient now;
                      add_coins_with_sender balance amount now) ≫= λ _,
            record ≫= λ _, mret None
        end
    end).

Definition bump_received (c : counters) : counters :=
  Counters (ct_sent_total c) (ct_sent_today c) (ct_received_total c + 1)
    (ct_received_today c + 1) (ct_xp c).
Definition bump_sent (c : counters) : counters :=
  Counters (ct_sent_total c + 1) (ct_sent_today c + 1) (ct_received_total c)
    (ct_received_today c) (ct_xp c).

Definition user_named (name : string) (s : store) : option Z :=
  fst <$> List.find (λ ku, String.eqb ku.2 name) (map_to_list (s_users s)).

(** [send_gift] of [views/contest.py]. *)
Definition send_coins (sender : Z) (recipient_username : string) (amount : option Z)
    (message : string) (now : Z) : M store response :=
  s ← get;
  match Subscriptions.subscriber_action_refusal sender "gift" now (s_subs s) with
  | Some m => mret (Resp 403 m)
  | None =>
      if String.eqb recipient_username "" then mret (bad "recipient_username is required")
      else if default 0 amount <=? 0 then mret (bad "amount must be greater than 0")
      else match user_named recipient_username s with
      | None => mret (Resp 404 "Recipient not found")
      | Some recipient =>
          let amount := default 0 amount in
          r ← coin_gift sender recipient amount None
                (on_log (add_contribution (Contribution sender recipient None amount message now)) ≫= λ _,
                 on_log (count_user recipient bump_received) ≫= λ _,
                 on_log (count_user sender bump_sent)) now;
          match r with
          | Some resp => mret resp
          | None =>
              on_log (add_note (Note recipient sender "gift"
                (username sender s +:+ " sent you " +:+ str_int amount +:+ " coins"
                 +:+ (if String.eqb message "" then "" else ": " +:+ message)))) ≫= λ _,
              mret (Resp 200 ("Gift of " +:+ str_int amount +:+ " coins sent to " +:+ recipient_username))
          end
      end
  end.

(** [gift_creator]; [coins] is [request.data.get('coins', 100)]. *)
Definition gift_creator (sender recipient : Z) (coins : Z) (reel : option Z) (now : Z)
    : M store response :=
  s ← get;
  match Subscriptions.subscriber_action_refusal sender "gift" now (s_subs s) with
  | Some m => mret (Resp 403 m)
  | None =>
      match s_users s !! recipient with
      | None => mret (Resp 404 "Recipient not found")
      | Some name =>
          r ← coin_gift sender recipient coins reel
                (on_log (add_contribution (Contribution sender recipient reel coins "" now))) now;
          match r with
          | Some resp => mret resp
          | None => mret (Resp 200 ("Gifted " +:+ str_int coins +:+ " coins to " +:+ name))
          end
      end
  end.

(** ** The catalogue gift of [views/gift.py] *)

(** The validated request body ([SendGiftSerializer]). *)
Record gift_request := GiftRequest {
  rq_gift : Z; rq_recipient : Z; rq_reel : option Z; rq_quantity : Z; rq_message : string
}.

(** What the handler has in hand when it opens its transaction: the rows it
    read, the sender's balance among them. *)
Record order := Order {
  o_gift : gift; o_recipient : Z; o_reel : option reel; o_quantity : Z; o_message : string;
  o_total_cost : Z; o_balance : CoinBalance.ucb
}.

(** [Sum('total_coins')] over the trailing 24 hours. *)
Definition gifted_since (p : gift_tx → bool) (now : Z) (s : store) : Z :=
  sumZ gt_total_coins
    (filter (λ g, (p g && (now - 24 * hour <=? gt_created_at g)) = true) (l_gifts (s_log s))).

Definition reel_id (o : order) : option Z := rl_id <$> o_reel o.

Definition find_reel (id : option Z) (s : store) : option (option reel) :=
  match id with
  | None => Some None
  | Some i => if i =? 0 then Some None else Some <$> s_reels s !! i
  end.

(** The limits read from [WalletConfig], in points. *)
Definition limits_error (c : WalletConfig.config) (points_cost to_recipient sent : Z) : option string :=
  if points_cost <? WalletConfig.gift_min_points_per_transaction c
  then Some ("Minimum " +:+ str_int (WalletConfig.gift_min_points_per_transaction c)
             +:+ " points required per gift transaction")
  else if WalletConfig.gift_max_points_per_transaction c <? points_cost
  then Some ("Maximum " +:+ str_int (WalletConfig.gift_max_points_per_transaction c)
             +:+ " points allowed per gift transaction")
  else if WalletConfig.gift_max_points_to_recipient_per_day c <? to_recipient + points_cost
  then Some ("Maximum " +:+ str_int (WalletConfig.gift_max_points_to_recipient_per_day c)
             +:+ " points can be sent to one recipient per day")
  else if WalletConfig.gift_max_total_points_sent_per_day c <? sent + points_cost
  then Some ("Maximum " +:+ str_int (WalletConfig.gift_max_total_points_sent_per_day c)
             +:+ " points can be sent per day total")
  else None.

(** Everything before the transaction: a refusal, or the order to commit. *)
Definition gift_check (sender : Z) (rq : gift_request) (now : Z) : M store (response + order) :=
  s ← get;
  match Subscriptions.subscriber_action_refusal sender "gift" now (s_subs s) with
  | Some m => mret (inl (Resp 403 m))
  | None =>
  match s_gifts s !! rq_gift rq with
  | None => mret (inl (Resp 404 "Gift not found or not active"))
  | Some g =>
  if negb (gf_is_active g) then mret (inl (Resp 404 "Gift not found or not active"))
  else match s_users s !! rq_recipient rq with
  | None => mret (inl (Resp 404 "Recipient not found"))
  | Some _ =>
  if rq_recipient rq =? sender then mret (inl (bad "Cannot send gifts to yourself"))
  else match find_reel (rq_reel rq) s with
  | None => mret (inl (Resp 404 "Reel not found"))
  | Some reel =>
      c ← in_config (WalletConfig.get_config now);
      balance ← in_coins (CoinBalance.get_or_create sender now);
      s ← get;
      let total_cost := gf_coin_value g * rq_quantity rq in
      let points_cost := WalletConfig.coins_to_points c total_cost in
      let to_recipient := WalletConfig.coins_to_points c
        (gifted_since (λ x, (gt_sender x =? sender) && (gt_recipient x =? rq_recipient rq)) now s) in
      let sent := WalletConfig.coins_to_points c (gifted_since (λ x, gt_sender x =? sender) now s) in
      match limits_error c points_cost to_recipient sent with
      | Some m => mret (inl (bad m))
      | None =>
          if negb (WalletConfig.purchased_coins_giftable c)
          then mret (inl (bad "Purchased coins cannot be used for gifting at this time."))
          else if CoinBalance.giftable_balance balance <? total_cost
          then mret (inl (bad (
                 if 0 <? CoinBalance.u_bonus balance
                 then "Subscription bonus coins cannot be used to send gifts. Please use purchased coins."
                 else "You need " +:+ str_int total_cost +:+ " purchased coins to send this gift and have "
                      +:+ str_int (CoinBalance.giftable_balance balance)
                      +:+ ". Only coins bought via Telebirr can be gifted.")))
          else mret (inr (Order g (rq_recipient rq) reel (rq_quantity rq) (rq_message rq)
                            total_cost balance))
      end
  end end end end.

(** [F('column') + n] on the sender's [UserProfile] row. *)
Definition bump_profile (u : Z) (c : Points.pcol) (n : Z) : M store unit :=
  in_points (modify (λ d, Points.PointsDb
    (alter (λ p, Points.setp c (Points.getp c p + n) p) u (Points.pd_profiles d)) (Points.pd_ledger d))).

Definition same_combo (user reel gift : Z) (c : combo) : bool :=
  (cb_user c =? user) && (cb_reel c =? reel) && (cb_gift c =? gift) && cb_is_active c.

(** [l_combos] is kept newest first, the table's ordering ([-started_at]).
    The first active combo is extended within five seconds, or closed;
    [save] restamps [last_gift_at] either way. *)
Fixpoint extend_combo (user reel gift quantity cost now : Z) (cs : list combo)
    : list combo * option Z :=
  match cs with
  | [] => ([], None)
  | c :: cs =>
      if same_combo user reel gift c then
        if now - cb_last_gift_at c <=? 5 * second then
          (Combo user reel gift (cb_count c + quantity) (cb_total_coins c + cost) now true :: cs,
           Some (cb_count c + quantity))
        else (Combo user reel gift (cb_count c) (cb_total_coins c) now false :: cs, None)
      else let '(cs', r) := extend_combo user reel gift quantity cost now cs in (c :: cs', r)
  end.

(** [is_combo] and the tenths of [combo_multiplier]. *)
Definition combo_step (user gift : Z) (reel : option reel) (quantity cost now : Z) (cs : list combo)
    : list combo * (bool * Z) :=
  match reel with
  | None => (cs, (false, 10))
  | Some r =>
      match extend_combo user (rl_id r) gift quantity cost now cs with
      | (cs', Some n) => (cs', (true, 10 + n))
      | (cs', None) =>
          (Combo user (rl_id r) gift quantity cost now true :: cs',
           if 1 <? quantity then (true, 10 + quantity) else (false, 10))
      end
  end.

(** [update_gift_stats]. *)
Definition distinct (f : gift_tx → Z) (p : gift_tx → bool) (l : log) : Z :=
  Z.of_nat (length (remove_dups (f <$> filter (λ g, p g = true) (l_gifts l)))).
Definition tally (p : gift_tx → bool) (l : log) : Z :=
  Z.of_nat (length (filter (λ g, p g = true) (l_gifts l))).

Definition favorite (current : option Z) (gift : Z) (mine : gift_tx → bool) (l : log) : option Z :=
  match current with
  | Some f =>
      if tally (λ g, mine g && (gt_gift g =? f)) l <? tally (λ g, mine g && (gt_gift g =? gift)) l
      then Some gift else current
  | None => Some gift
  end.

Definition update_gift_stats (sender recipient gift coins : Z) (l : log) : log :=
  let l := stat_user sender (λ st,
    Stats (st_sent st + 1) (st_coins_sent st + coins)
      (distinct gt_recipient (λ g, gt_sender g =? sender) l)
      (st_received st) (st_coins_received st) (st_unique_senders st)
      (favorite (st_favorite_sent st) gift (λ g, gt_sender g =? sender) l)
      (st_favorite_received st)) l in
  stat_user recipient (λ st,
    Stats (st_sent st) (st_coins_sent st) (st_unique_recipients st)
      (st_received st + 1) (st_coins_received st + coins)
      (distinct gt_sender (λ g, gt_recipient g =? recipient) l)
      (st_favorite_sent st)
      (favorite (st_favorite_received st) gift (λ g, gt_recipient g =? recipient) l)) l.

Definition gift_received_tx (o : order) (sender points now : Z) (s : store) : CoinBalance.coin_tx :=
  CoinBalance.new_tx (o_recipient o) "gift_received" points ""
    (spend_kwargs sender (reel_id o)
       ("Received " +:+ gf_name (o_gift o) +:+ " from @" +:+ username sender s)) now.

(** The transaction: the spend, the points, the recipient's activity row, the
    combo and the gift. *)
Definition gift_txn (sender : Z) (o : order) (now : Z)
    : M store (response + CoinBalance.ucb * WalletConfig.config) :=
  atomic (
    s ← get;
    match refusal sender (o_recipient o) (o_total_cost o) now s with
    | Some body => mret (inl (bad (rf_error body)))
    | None =>
        '(_, balance) ← in_coins (CoinBalance.spend_coins (o_balance o) (o_total_cost o) "gift_sent" true
          (spend_kwargs (o_recipient o) (reel_id o)
             ("Sent " +:+ gf_name (o_gift o) +:+ " to @" +:+ username (o_recipient o) s)) now);
        in_points (Points.get_locked sender) ≫= λ _,
        bump_profile sender Points.coins_spent_total (o_total_cost o) ≫= λ _,
        on_log (count_user sender (λ c, Counters (ct_sent_total c + 1) (ct_sent_today c)
                 (ct_received_total c) (ct_received_today c) (ct_xp c))) ≫= λ _,
        c ← in_config (WalletConfig.get_config now);
        let points_received := WalletConfig.coins_to_points c (o_total_cost o) in
        profile ← in_points (Points.get_locked (o_recipient o));
        in_points (Points.add_points profile points_received (Some Points.points_earned_total)
          (Some "gift_received") "" now) ≫= λ _,
        on_log (count_user (o_recipient o) (λ c, Counters (ct_sent_total c) (ct_sent_today c)
                 (ct_received_total c + 1) (ct_received_today c) (ct_xp c))) ≫= λ _,
        in_coins (CoinBalance.create_tx (gift_received_tx o sender points_received now s)) ≫= λ _,
        s ← get;
        let '(cs, (is_combo, tenths)) := combo_step sender (gf_id (o_gift o)) (o_reel o)
          (o_quantity o) (o_total_cost o) now (l_combos (s_log s)) in
        on_log (set_combos cs) ≫= λ _,
        on_log (add_gift (GiftTx sender (o_recipient o) (gf_id (o_gift o)) (reel_id o) (o_quantity o)
          (o_total_cost o) is_combo tenths (o_message o) now)) ≫= λ _,
        mret (inr (balance, c))
    end).

(** The fee on a campaign post, outside the transaction. *)
Definition campaign_fee (sender : Z) (o : order) (balance : CoinBalance.ucb)
    (c : WalletConfig.config) (now : Z) : M store unit :=
  match o_reel o with
  | Some r =>
      if rl_is_campaign_post r && negb (rl_user r =? sender) && (0 <? WalletConfig.cost_gift c)
      then catch (in_coins (CoinBalance.spend_coins balance (WalletConfig.cost_gift c)
                    "campaign_gift_fee" false
                    (CoinBalance.TxKwargs None "" None (Some (rl_id r)) 0
                       ("Campaign gift fee on post #" +:+ str_int (rl_id r))) now) ≫= λ _, mret tt)
             (λ e, if is_value_error e then Some (mret tt) else None)
      else mret tt
  | None => mret tt
  end.

Definition gift_commit (sender : Z) (o : order) (now : Z) : M store response :=
  r ← catch (gift_txn sender o now)
        (λ e, if is_value_error e then Some (mret (inl (bad (exn_str e)))) else None);
  match r with
  | inl resp => mret resp
  | inr (balance, c) =>
      on_log (update_gift_stats sender (o_recipient o) (gf_id (o_gift o)) (o_total_cost o)) ≫= λ _,
      s ← get;
      on_log (add_note (Note (o_recipient o) sender "gift"
        (username sender s +:+ " sent you " +:+ str_int (o_quantity o) +:+ "x "
         +:+ gf_name (o_gift o) +:+ "!"))) ≫= λ _,
      let xp_reward := gf_xp_reward (o_gift o) * o_quantity o in
      when (0 <? xp_reward)
        (on_log (count_user sender (λ c, Counters (ct_sent_total c) (ct_sent_today c)
           (ct_received_total c) (ct_received_today c) (ct_xp c + xp_reward)))) ≫= λ _,
      campaign_fee sender o balance c now ≫= λ _,
      mret (Resp 201 "created")
  end.

(** The whole handler, when nothing runs between its two steps. *)
Definition send_gift (sender : Z) (rq : gift_request) (now : Z) : M store response :=
  r ← gift_check sender rq now;
  match r with
  | inl resp => mret resp
  | inr o => gift_commit sender o now
  end.

(** ** The coin gifts never complete *)

Lemma same_coins (s : store) : with_coins (coins_of s) s = s.
Proof. by destruct s as [[]]. Qed.

Lemma spend_err self n ty restrict kw now w e w' :
  CoinBalance.spend_coins self n ty restrict kw now w = (inl e, w') → w' = w.
Proof. rewrite CoinBalance.spend_coins_eq. apply CoinBalance.locked_method_err. Qed.

Lemma add_coins_with_sender_raises self n now w :
  ∃ e w', add_coins_with_sender self n now w = (inl e, w').
Proof.
  unfold add_coins_with_sender, CoinBalance.positive_amount, assert_or. rewrite bind_run.
  destruct (negb _); cbn [mret M_ret raise]; [|eauto]. unfold atomic. rewrite bind_run.
  destruct (CoinBalance.get_locked _ w) as [[e|r] w1]; [eauto|]. rewrite bind_run. cbn. eauto.
Qed.

(** An exception, or a refusal. *)
Definition refused (r : exn + option response) : Prop :=
  match r with inl _ => True | inr (Some resp) => 400 <= r_status resp | inr None => False end.

Lemma coin_gift_never sender recipient n reel record now (s : store) :
  ∃ r, coin_gift sender recipient n reel record now s = (r, s) ∧ refused r.
Proof.
  unfold coin_gift, atomic. rewrite bind_run. cbn [get].
  destruct (refusal sender recipient n now s) as [body|]; [by eexists|].
  rewrite bind_run. unfold catch. rewrite bind_run. unfold in_coins at 1. rewrite zoom_run, bind_run.
  unfold coin_balance. rewrite bind_run. cbn [get].
  destruct (CoinBalance.w_rows (coins_of s) !! sender) as [r|].
  - cbn [mret M_ret]. destruct (CoinBalance.spend_coins _ _ _ _ _ _ (coins_of s)) as [[e|x] w'] eqn:E; cbn [fst snd].
    + apply spend_err in E as ->. rewrite same_coins. destruct (spend_error e); by eexists.
    + cbn [mret M_ret]. rewrite bind_run. unfold in_coins. rewrite zoom_run, bind_run.
      destruct (CoinBalance.get_or_create recipient now _) as [[e|b] w2]; cbn [fst snd]; [by eexists|].
      destruct (add_coins_with_sender_raises b n now w2) as (e & w3 & ->). by eexists.
  - cbn. rewrite same_coins. by eexists.
Qed.

Lemma refused_run (m : M store (option response)) (k : option response → M store response) (s : store) :
  (∃ r, m s = (r, s) ∧ refused r) → (∀ resp, k (Some resp) = mret resp) →
  ((m ≫= k) s).2 = s ∧ ∀ resp, ((m ≫= k) s).1 = inr resp → 400 <= r_status resp.
Proof.
  intros (r & Hm & Hr) Hk. rewrite bind_run, Hm. destruct r as [e|[x|]]; [done| |done].
  rewrite Hk. split; [done|]. by intros resp [= <-].
Qed.

Lemma endpoints_quiet sender now (s : store) :
  (∀ name amount message, let r := send_coins sender name amount message now s in
     r.2 = s ∧ ∀ resp, r.1 = inr resp → 400 <= r_status resp)
  ∧ ∀ recipient coins reel, let r := gift_creator sender recipient coins reel now s in
     r.2 = s ∧ ∀ resp, r.1 = inr resp → 400 <= r_status resp.
Proof.
  assert (∀ resp, 400 <= r_status resp →
    ((mret resp : M store response) s).2 = s
    ∧ ∀ r, ((mret resp : M store response) s).1 = inr r → 400 <= r_status r) as Hret.
  { intros resp H. split; [done|]. by intros r [= <-]. }
  split.
  - intros name amount message r. unfold r, send_coins. rewrite bind_run. cbn [get].
    destruct (Subscriptions.subscriber_action_refusal _ _ _ _); [by apply Hret|].
    destruct (String.eqb name ""); [by apply Hret|]. destruct (default 0 amount <=? 0); [by apply Hret|].
    destruct (user_named name s) as [recipient|]; [|by apply Hret]. cbv zeta. by apply refused_run; [apply coin_gift_never|].
  - intros recipient coins reel r. unfold r, gift_creator. rewrite bind_run. cbn [get].
    destruct (Subscriptions.subscriber_action_refusal _ _ _ _); [by apply Hret|].
    destruct (s_users s !! recipient); [|by apply Hret]. by apply refused_run; [apply coin_gift_never|].
Qed.

(** C9.  Neither coin-gift endpoint can succeed.  Whatever the request and
    whatever the balances, [send_gift] and [gift_creator] leave the whole
    store as it was and either answer with an error status or end in an
    exception: crediting the recipient passes [sender] to [CoinTransaction],
    which has no such field, so the transaction always rolls back. *)
Theorem coin_gifts_never_complete sender now (s : store) :
  (∀ name amount message, let r := send_coins sender name amount message now s in
     r.2 = s ∧ ∀ resp, r.1 = inr resp → 400 <= r_status resp)
  ∧ ∀ recipient coins reel, let r := gift_creator sender recipient coins reel now s in
     r.2 = s ∧ ∀ resp, r.1 = inr resp → 400 <= r_status resp.
Proof. apply endpoints_quiet. Qed.

(** ** The daily limit counts nothing *)

Inductive event :=
| ESend (sender : Z) (name : string) (amount : option Z) (message : string) (now : Z)
| ECreator (sender recipient coins : Z) (reel : option Z) (now : Z)
| ECheck (sender : Z) (rq : gift_request) (now : Z)
| ECommit (sender : Z) (o : order) (now : Z).

Definition exec (e : event) (s : store) : store :=
  match e with
  | ESend sender name amount message now => (send_coins sender name amount message now s).2
  | ECreator sender recipient coins reel now => (gift_creator sender recipient coins reel now s).2
  | ECheck sender rq now => (gift_check sender rq now s).2
  | ECommit sender o now => (gift_commit sender o now s).2
  end.

Definition run (s : store) (es : list event) : store := fold_left (λ s e, exec e s) es s.

(** No [GiftToCreator] row but those in [rows]. *)
Definition rows_are (rows : list contribution) (s : store) : Prop :=
  l_contributions (s_log s) = rows.

Lemma rows_in_coins {A} rows (m : M CoinBalance.wallet A) : preserves (rows_are rows) (in_coins m).
Proof. intros s H. unfold in_coins. by rewrite zoom_run. Qed.
Lemma rows_in_config {A} rows (m : M WalletConfig.config_table A) : preserves (rows_are rows) (in_config m).
Proof. intros s H. unfold in_config. by rewrite zoom_run. Qed.
Lemma rows_in_points {A} rows (m : M Points.points_db A) : preserves (rows_are rows) (in_points m).
Proof. intros s H. unfold in_points. by rewrite zoom_run. Qed.
Lemma rows_on_log rows f :
  (∀ l, l_contributions (f l) = l_contributions l) → preserves (rows_are rows) (on_log f).
Proof. intros Hf s H. cbn. unfold rows_are. cbn. by rewrite Hf. Qed.

#[local] Hint Resolve rows_in_coins rows_in_config rows_in_points : rows.

Ltac keep_rows :=
  repeat first
    [ progress intros
    | apply preserves_bind
    | apply preserves_atomic
    | apply preserves_catch
    | apply preserves_when
    | apply rows_on_log
    | apply preserves_ret | apply preserves_raise | apply preserves_get
    | progress (auto with rows)
    | match goal with |- preserves _ (match ?x with _ => _ end) => destruct x eqn:? end
    | progress simplify_eq
    | match goal with H : (if ?b then _ else _) = Some _ |- _ => destruct b end
    | reflexivity ].

Lemma rows_check rows sender rq now : preserves (rows_are rows) (gift_check sender rq now).
Proof. unfold gift_check. cbv zeta. keep_rows. Qed.

Lemma rows_commit rows sender o now : preserves (rows_are rows) (gift_commit sender o now).
Proof. unfold gift_commit, gift_txn, campaign_fee, bump_profile. cbv zeta. keep_rows. Qed.

Lemma rows_run es rows (s : store) : rows_are rows s → rows_are rows (run s es).
Proof.
  revert s. induction es as [|e es IH]; intros s Hs; [done|]. cbn [run fold_left].
  apply IH. destruct e as [sender name amount message now|sender recipient coins rl now|sender rq now|sender o now];
    cbn [exec].
  - by rewrite (proj1 (proj1 (endpoints_quiet sender now s) name amount message)).
  - by rewrite (proj1 (proj2 (endpoints_quiet sender now s) recipient coins rl)).
  - by apply rows_check.
  - by apply rows_commit.
Qed.

(** The 500-coin limit never counts a gift.  After any sequence of gift
    requests of any kind, from a store without [GiftToCreator] rows, what a
    sender has given a creator in the last 24 hours is still computed as
    nothing, so any further gift of at most 500 coins passes the check: only
    the coin-gift endpoints write the rows, and they never complete, while the
    catalogue gift writes none. *)
Theorem gifts_are_never_counted es (s : store) :
  l_contributions (s_log s) = [] →
  ∀ sender recipient coins now, let s' := run s es in
    contributed_coins sender recipient now s' = 0
    ∧ (refusal sender recipient coins now s' = None ↔ coins <= DAILY_COIN_LIMIT).
Proof.
  intros Hs sender recipient coins now s'. pose proof (rows_run es [] s Hs) as Hr.
  unfold rows_are in Hr. assert (contributed_coins sender recipient now s' = 0) as Hz
    by (unfold contributed_coins, s'; by rewrite Hr).
  split; [done|]. unfold refusal. rewrite Hz. cbn [plus]. rewrite Z.add_0_l.
  destruct (Z.leb_spec coins DAILY_COIN_LIMIT); split; intros; done || lia.
Qed.

(** ** What a catalogue gift moves *)

(** The balance rows are consistent (the ledger need not add up to them: see
    [catalogue_gift_all_or_nothing]). *)
Definition rows_ok (w : CoinBalance.wallet) : Prop :=
  ∀ u r, CoinBalance.w_rows w !! u = Some r → CoinBalance.u_user r = u ∧ CoinBalance.row_ok r.

(** One spend by [u]: [n] coins off the row, one ledger entry of [u]'s. *)
Definition spent (u n : Z) (w w' : CoinBalance.wallet) : Prop :=
  ∃ r r' t, CoinBalance.w_rows w !! u = Some r
    ∧ w' = CoinBalance.Wallet (<[u := r']> (CoinBalance.w_rows w)) (CoinBalance.w_txs w ++ [t])
    ∧ CoinBalance.moves r r' (- n) ∧ CoinBalance.ct_user t = u.

(** What a spend of [fee] leaves of giftable coins: the other coins go first. *)
Definition after_fee (fee total giftable : Z) : Z := giftable - Z.max 0 (fee - (total - giftable)).

Lemma spend_run self n ty restrict kw now w :
  rows_ok w → is_Some (CoinBalance.w_rows w !! CoinBalance.u_user self) →
  CoinBalance.ordinary_type ty = true →
  match CoinBalance.spend_coins self n ty restrict kw now w with
  | (inl e, w') => w' = w ∧ is_value_error e = true
      ∧ (0 < n → restrict = false → CoinBalance.total_of (CoinBalance.u_user self) w < n)
  | (inr (_, self'), w') =>
      0 < n ∧ spent (CoinBalance.u_user self) n w w'
      ∧ CoinBalance.u_user self' = CoinBalance.u_user self
      ∧ (restrict = true → n <= CoinBalance.giftable_of (CoinBalance.u_user self) w
          ∧ CoinBalance.giftable_of (CoinBalance.u_user self) w'
            = CoinBalance.giftable_of (CoinBalance.u_user self) w - n)
      ∧ (restrict = false → n <= CoinBalance.total_of (CoinBalance.u_user self) w
          ∧ CoinBalance.giftable_of (CoinBalance.u_user self) w'
            = after_fee n (CoinBalance.total_of (CoinBalance.u_user self) w)
                (CoinBalance.giftable_of (CoinBalance.u_user self) w))
  end.
Proof.
  intros Hw [r Hr] Hty. destruct (Hw _ _ Hr) as [Hu Hok].
  rewrite CoinBalance.spend_coins_eq. unfold CoinBalance.spend_method.
  destruct (Z.ltb_spec 0 n) as [Hn|Hn].
  - rewrite (CoinBalance.locked_method_run _ _ _ _ _ _ _ r); auto using CoinBalance.clash_ordinary.
    2: apply CoinBalance.reads_spend.
    destruct (CoinBalance.decide_spend restrict n r w) as [[e|l] w1] eqn:Hd; cbn [fst].
    + split; [done|]. unfold CoinBalance.decide_spend, CoinBalance.spend_giftable, CoinBalance.spend_any in Hd.
      rewrite bind_run in Hd. split; [destruct restrict; cbn in Hd; repeat case_match; unfold raise in *; by simplify_eq|].
      intros _ ->. unfold CoinBalance.total_of. rewrite Hr. cbv zeta in Hd.
      match type of Hd with context [if ?b then _ else _] => destruct b eqn:Hlt end; [|done].
      apply Z.ltb_lt in Hlt. clear -Hok Hlt. CoinBalance.row_solve.
    + pose proof (CoinBalance.moves_spend restrict n now r l w w1 Hn Hd) as Hmv.
      assert (CoinBalance.u_user l = CoinBalance.u_user self) as Hl.
      { rewrite <- Hu. by eapply CoinBalance.decide_spend_owner. }
      rewrite Hl. split; [done|]. split; [|split; [|split]].
      * eexists r, _, _. split; [done|].
        split; [by rewrite (Subscriptions.alter_row _ _ _ _ Hr)|]. split; [exact Hmv|reflexivity].
      * by destruct l, self.
      * intros ->. unfold CoinBalance.giftable_of. cbn. rewrite lookup_alter_eq, Hr. cbn.
        unfold CoinBalance.decide_spend, CoinBalance.spend_giftable in Hd. rewrite bind_run in Hd.
        destruct (CoinBalance.giftable_balance r <? n) eqn:Hlt; [by repeat case_match|].
        apply Z.ltb_ge in Hlt. split; [done|]. injection Hd as <- <-.
        clear -Hok. CoinBalance.row_solve.
      * intros ->. unfold CoinBalance.giftable_of, CoinBalance.total_of, after_fee. cbn. rewrite lookup_alter_eq, Hr. cbn.
        unfold CoinBalance.decide_spend, CoinBalance.spend_any in Hd. rewrite bind_run in Hd. cbv zeta in Hd.
        match type of Hd with context [if ?b then _ else _] => destruct b eqn:Hlt end; [done|].
        apply Z.ltb_ge in Hlt. injection Hd as <- <-. clear -Hok Hlt Hn. CoinBalance.row_solve.
  - unfold CoinBalance.locked_method, CoinBalance.positive_amount, assert_or.
    rewrite (proj2 (Z.leb_le n 0)) by lia. cbn. split; [done|]. split; [done|lia].
Qed.

Definition points_of (u : Z) (d : Points.points_db) : Z :=
  match Points.pd_profiles d !! u with Some p => Points.p_points p | None => 0 end.

Definition profiles_ok (d : Points.points_db) : Prop :=
  ∀ u p, Points.pd_profiles d !! u = Some p → Points.p_user p = u ∧ 0 <= Points.p_points p.

Lemma points_locked u d :
  Points.get_locked u d = match Points.pd_profiles d !! u with
                          | Some p => (inr p, d)
                          | None => (inl (DoesNotExist "UserProfile"), d)
                          end.
Proof. unfold Points.get_locked. rewrite bind_run. cbn. by destruct (Points.pd_profiles d !! u). Qed.

Lemma add_points_run self n now d :
  profiles_ok d → Points.pd_profiles d !! Points.p_user self = Some self →
  match Points.add_points self n (Some Points.points_earned_total) (Some "gift_received") "" now d with
  | (inl e, d') => n <= 0 ∧ is_value_error e = true
  | (inr _, d') => 0 < n ∧ points_of (Points.p_user self) d' = points_of (Points.p_user self) d + n
      ∧ ∀ v, v ≠ Points.p_user self → points_of v d' = points_of v d
  end.
Proof.
  intros Hd Hp. unfold Points.add_points, Points.positive_amount, assert_or. rewrite bind_run.
  destruct (Z.leb_spec n 0) as [Hn|Hn]; [done|]. cbn [negb mret M_ret].
  destruct (Hd _ _ Hp) as [Hu Hpos].
  destruct (Points.apply_delta_run self Points.points n (Some Points.points_earned_total)
    (Some "gift_received") "" now d self Hp eq_refl) as [H2 H1].
  change (Points.getp Points.points self) with (Points.p_points self) in *.
  rewrite (proj2 (Z.eqb_neq n 0)), (proj2 (Z.ltb_ge (Points.p_points self + n) 0)) in H1, H2 by lia.
  destruct (Points.apply_delta _ _ _ _ _ _ _ _) as [[e|x] d']; cbn [fst snd] in *.
  - destruct H1 as [_ H1]. by destruct (H1 eq_refl).
  - subst d'. split; [done|]. unfold points_of. cbn [Points.pd_profiles orb]. split.
    + rewrite lookup_insert_eq, Hp. by destruct self.
    + intros v Hv. by rewrite lookup_insert_ne.
Qed.

(** The stored settings, or the defaults. *)
Definition settings (now : Z) (s : store) : WalletConfig.config :=
  default (WalletConfig.default_config now) (s_config s).

(** A gift of [o] from [sender] that took place between [s] and [s'], leaving
    the sender's copy [balance] and the settings [c]. *)
Record given (sender : Z) (o : order) (now : Z) (s s' : store) (balance : CoinBalance.ucb)
    (c : WalletConfig.config) : Prop := Given {
  gv_settings : c = settings now s;
  gv_cost : 0 < o_total_cost o <= CoinBalance.giftable_of sender (coins_of s);
  gv_coins : ∃ w1 t, spent sender (o_total_cost o) (coins_of s) w1
      ∧ CoinBalance.giftable_of sender w1
        = CoinBalance.giftable_of sender (coins_of s) - o_total_cost o
      ∧ coins_of s' = CoinBalance.Wallet (CoinBalance.w_rows w1) (CoinBalance.w_txs w1 ++ [t])
      ∧ CoinBalance.ct_user t = o_recipient o
      ∧ CoinBalance.ct_coins t = WalletConfig.coins_to_points c (o_total_cost o);
  gv_copy : CoinBalance.u_user balance = sender;
  gv_positive : 0 < WalletConfig.coins_to_points c (o_total_cost o);
  gv_points : ∀ v, points_of v (s_points s') = points_of v (s_points s)
      + if decide (v = o_recipient o) then WalletConfig.coins_to_points c (o_total_cost o) else 0;
  gv_gift : ∃ g, l_gifts (s_log s') = l_gifts (s_log s) ++ [g]
      ∧ gt_sender g = sender ∧ gt_recipient g = o_recipient o
      ∧ gt_total_coins g = o_total_cost o ∧ gt_created_at g = now
}.

Lemma get_config_run now t : ∃ t', WalletConfig.get_config now t = (inr (default (WalletConfig.default_config now) t), t').
Proof. unfold WalletConfig.get_config. rewrite bind_run. cbn. destruct t; cbn; eauto. Qed.

Lemma bump_profile_run u n (s : store) :
  ∃ d, bump_profile u Points.coins_spent_total n s = (inr tt, with_points d s)
    ∧ (∀ v, points_of v d = points_of v (s_points s))
    ∧ (profiles_ok (s_points s) → profiles_ok d)
    ∧ ∀ v, is_Some (Points.pd_profiles (s_points s) !! v) → is_Some (Points.pd_profiles d !! v).
Proof.
  eexists. split; [reflexivity|].
  split; [|split]; cbn.
  - intros v. unfold points_of. cbn. destruct (decide (v = u)) as [->|Hne].
    + rewrite lookup_alter_eq. destruct (Points.pd_profiles (s_points s) !! u) as [[]|]; done.
    + by rewrite lookup_alter_ne by done.
  - intros Hd v p. cbn. destruct (decide (v = u)) as [->|Hne].
    + rewrite lookup_alter_eq. destruct (Points.pd_profiles (s_points s) !! u) as [q|] eqn:Hq; [|done].
      intros [= <-]. destruct (Hd _ _ Hq). by destruct q.
    + rewrite lookup_alter_ne by done. apply Hd.
  - intros v Hv. destruct (decide (v = u)) as [->|Hne].
    + rewrite lookup_alter_eq. by apply fmap_is_Some.
    + by rewrite lookup_alter_ne by done.
Qed.

Lemma create_received_run o sender n now s w :
  CoinBalance.create_tx (gift_received_tx o sender n now s) w
  = (inr (gift_received_tx o sender n now s),
     CoinBalance.Wallet (CoinBalance.w_rows w) (CoinBalance.w_txs w ++ [gift_received_tx o sender n now s])).
Proof.
  unfold CoinBalance.create_tx. rewrite bind_run. cbn [get].
  unfold gift_received_tx at 1. by rewrite CoinBalance.clash_ordinary.
Qed.

Lemma gift_txn_cases sender o now (s : store) :
  rows_ok (coins_of s) → profiles_ok (s_points s) →
  is_Some (CoinBalance.w_rows (coins_of s) !! sender) →
  CoinBalance.u_user (o_balance o) = sender →
  match gift_txn sender o now s with
  | (inl e, s') => s' = s
  | (inr (inl resp), s') => s' = s ∧ 400 <= r_status resp
  | (inr (inr (balance, c)), s') => given sender o now s s' balance c
  end.
Proof.
  intros Hw Hp Hrow Hown. unfold gift_txn, atomic. rewrite bind_run. cbn [get].
  destruct (refusal sender (o_recipient o) (o_total_cost o) now s) as [body|]; [by split|].
  rewrite bind_run. unfold in_coins at 1. rewrite zoom_run.
  pose proof (spend_run (o_balance o) (o_total_cost o) "gift_sent" true
    (spend_kwargs (o_recipient o) (reel_id o)
       ("Sent " +:+ gf_name (o_gift o) +:+ " to @" +:+ username (o_recipient o) s)) now (coins_of s) Hw) as Hsp.
  rewrite Hown in Hsp. specialize (Hsp Hrow eq_refl).
  destruct (CoinBalance.spend_coins _ _ _ _ _ _ _) as [[e|[t0 balance]] w1]; cbn [fst snd]; [done|].
  destruct Hsp as (Hn & Hspent & Hbal & Hgift & _). destruct (Hgift eq_refl) as [Hle Hgift1].
  rewrite bind_run. unfold in_points at 1. rewrite zoom_run, points_locked. cbn [s_points with_coins].
  destruct (Points.pd_profiles (s_points s) !! sender) as [ps|]; cbn [fst snd]; [|done].
  rewrite bind_run.
  match goal with |- context [bump_profile sender _ _ ?x] =>
    destruct (bump_profile_run sender (o_total_cost o) x) as (d1 & -> & Hpts1 & Hok1 & _) end.
  rewrite bind_run. unfold on_log at 1, modify. rewrite bind_run. unfold in_config at 1. rewrite zoom_run.
  cbn [s_config with_points with_log with_coins s_points s_log] in *.
  destruct (get_config_run now (s_config s)) as (t' & ->). cbn [fst snd]. fold (settings now s). set (c := settings now s) in *. cbv zeta.
  rewrite bind_run. unfold in_points at 1. rewrite zoom_run, points_locked.
  cbn [s_points with_config with_log with_points with_coins].
  destruct (Points.pd_profiles d1 !! o_recipient o) as [pr|] eqn:Hpr; cbn [fst snd]; [|done].
  rewrite bind_run. unfold in_points at 1. rewrite zoom_run.
  cbn [s_points with_config with_log with_points with_coins].
  destruct (Hok1 Hp _ _ Hpr) as [Hpu _].
  pose proof (add_points_run pr (WalletConfig.coins_to_points c (o_total_cost o)) now d1 (Hok1 Hp)) as Hadd.
  rewrite Hpu in Hadd. specialize (Hadd Hpr).
  destruct (Points.add_points _ _ _ _ _ _ _) as [[e|pr'] d2]; cbn [fst snd]; [done|].
  destruct Hadd as (Hpos & Hrec & Hoth).
  rewrite bind_run. unfold on_log at 1, modify. rewrite bind_run. unfold in_coins at 1. rewrite zoom_run.
  rewrite create_received_run. cbn [fst snd]. rewrite bind_run. cbn [get]. rewrite ?bind_run.
  destruct (combo_step _ _ _ _ _ _ _) as [cs [is_combo tenths]].
  cbn. constructor.
  - done.
  - by split.
  - exists w1, (gift_received_tx o sender (WalletConfig.coins_to_points c (o_total_cost o)) now s).
    by split_and!.
  - done.
  - done.
  - intros v. cbn. destruct (decide (v = o_recipient o)) as [->|Hne].
    + rewrite Hrec. by rewrite Hpts1.
    + rewrite Hoth, Hpts1 by done. lia.
  - eexists. split; [reflexivity|]. done.
Qed.

Lemma spent_effects u n w w' :
  rows_ok w → spent u n w w' →
  rows_ok w' ∧ CoinBalance.total_of u w' = CoinBalance.total_of u w - n
  ∧ is_Some (CoinBalance.w_rows w' !! u)
  ∧ (∀ v, v ≠ u → CoinBalance.w_rows w' !! v = CoinBalance.w_rows w !! v)
  ∧ ∀ v, v ≠ u → CoinBalance.ledger_of v (CoinBalance.w_txs w')
                 = CoinBalance.ledger_of v (CoinBalance.w_txs w).
Proof.
  intros Hw (r & r' & t & Hr & -> & [Hu Hmv] & Ht). destruct (Hw _ _ Hr) as [Hru Hok].
  destruct (Hmv Hok) as [Hok' Hb]. split; [|split; [|split; [|split]]]; cbn.
  - intros v x. destruct (decide (v = u)) as [->|Hne].
    + cbn. rewrite lookup_insert_eq. intros [= <-]. by rewrite Hu.
    + cbn. rewrite lookup_insert_ne by done. apply Hw.
  - unfold CoinBalance.total_of. cbn. rewrite lookup_insert_eq, Hr. lia.
  - rewrite lookup_insert_eq. eauto.
  - intros v Hv. by rewrite lookup_insert_ne.
  - intros v Hv. rewrite CoinBalance.ledger_snoc, decide_False by congruence. by rewrite app_nil_r.
Qed.

Lemma spend_entry self n ty kw now w x w' :
  CoinBalance.spend_coins self n ty false kw now w = (inr x, w') →
  rows_ok w →
  CoinBalance.w_txs w' = CoinBalance.w_txs w ++ [CoinBalance.new_tx (CoinBalance.u_user self) ty (- n) "" kw now].
Proof.
  intros H Hw. rewrite CoinBalance.spend_coins_eq in H.
  unfold CoinBalance.spend_method, CoinBalance.locked_method in H. run_inv H.
  assert (s = w) as -> by (unfold CoinBalance.positive_amount in H0; by apply assert_or_ok in H0 as [_ ->]).
  unfold CoinBalance.refresh in H. apply bind_ok in H as ([t l] & w1 & H & Hx). injection Hx as _ <-.
  apply CoinBalance.locked_txn_ok in H as (r & Hr & Hd & -> & _ & ->); [|apply CoinBalance.reads_spend].
  apply CoinBalance.decide_spend_owner in Hd. destruct (Hw _ _ Hr) as [Hu _]. cbn. by rewrite Hd, Hu.
Qed.

Lemma total_of_row u n w w' :
  rows_ok w → spent u n w w' →
  rows_ok w' ∧ CoinBalance.total_of u w' = CoinBalance.total_of u w - n
  ∧ ∀ v, v ≠ u → CoinBalance.total_of v w' = CoinBalance.total_of v w.
Proof.
  intros Hw Hs. destruct (spent_effects u n w w' Hw Hs) as (H1 & H2 & _ & H3 & _).
  split_and!; [done|done|]. intros v Hv. unfold CoinBalance.total_of. by rewrite H3.
Qed.

(** The row of a user who has none is a row without coins. *)
Lemma opened_row u now w r w' :
  rows_ok w → CoinBalance.get_or_create u now w = (inr r, w') →
  rows_ok w' ∧ CoinBalance.u_user r = u ∧ CoinBalance.w_rows w' !! u = Some r
  ∧ CoinBalance.w_txs w' = CoinBalance.w_txs w
  ∧ ∀ v, CoinBalance.total_of v w' = CoinBalance.total_of v w.
Proof.
  intros Hw H. destruct (CoinBalance.get_or_create_spec u now w) as (r0 & w0 & E & Hr & Ht & Ho & Hc).
  rewrite H in E. injection E as <- <-.
  assert (CoinBalance.u_user r = u ∧ CoinBalance.row_ok r) as [Hu Hok].
  { destruct Hc as [Hc|[_ ->]]; [by apply Hw|]. by split_and!. }
  split_and!; [|done..|].
  - intros v x Hx. destruct (decide (v = u)) as [->|Hv]; [naive_solver|]. rewrite Ho in Hx by done. by apply Hw.
  - intros v. unfold CoinBalance.total_of. destruct (decide (v = u)) as [->|Hv]; [|by rewrite Ho].
    rewrite Hr. destruct Hc as [->|[-> ->]]; done.
Qed.

(** The caller's copy shows the stored balance. *)
Lemma spend_copy self n ty kw now w t self' w' :
  CoinBalance.spend_coins self n ty false kw now w = (inr (t, self'), w') → rows_ok w →
  CoinBalance.u_balance self' = CoinBalance.total_of (CoinBalance.u_user self) w'.
Proof.
  intros H Hw. rewrite CoinBalance.spend_coins_eq in H.
  unfold CoinBalance.spend_method, CoinBalance.locked_method in H. run_inv H.
  assert (s = w) as -> by (unfold CoinBalance.positive_amount in H0; by apply assert_or_ok in H0 as [_ ->]).
  unfold CoinBalance.refresh in H. apply bind_ok in H as ([t' l] & w1 & H & Hx). injection Hx as <- <- <-.
  apply CoinBalance.locked_txn_ok in H as (r & Hr & Hd & _ & _ & ->); [|apply CoinBalance.reads_spend].
  apply CoinBalance.decide_spend_owner in Hd. destruct (Hw _ _ Hr) as [Hu _].
  unfold CoinBalance.total_of. cbn [CoinBalance.w_rows]. rewrite Hd, Hu, lookup_alter_eq, Hr. cbn.
  by destruct r, l, self.
Qed.

Lemma giftable_le_total u w : rows_ok w → CoinBalance.giftable_of u w <= CoinBalance.total_of u w.
Proof.
  intros Hw. unfold CoinBalance.giftable_of, CoinBalance.total_of. destruct (CoinBalance.w_rows w !! u) as [r|] eqn:E; [|done].
  destruct (Hw _ _ E) as [_ Hok]. clear -Hok. CoinBalance.row_solve.
Qed.

(** What a gift on a campaign post costs beside its price, of [total] coins. *)
Definition fee_of (sender : Z) (o : order) (c : WalletConfig.config) (total : Z) : Z :=
  match o_reel o with
  | Some r => if rl_is_campaign_post r && negb (rl_user r =? sender) && (0 <? WalletConfig.cost_gift c)
                 && (WalletConfig.cost_gift c <=? total) then WalletConfig.cost_gift c else 0
  | None => 0
  end.

Lemma campaign_fee_run sender o balance c now (s : store) :
  rows_ok (coins_of s) → is_Some (CoinBalance.w_rows (coins_of s) !! sender) →
  CoinBalance.u_user balance = sender →
  let total := CoinBalance.total_of sender (coins_of s) in
  ∃ w', campaign_fee sender o balance c now s = (inr tt, with_coins w' s)
    ∧ (w' = coins_of s ∧ fee_of sender o c total = 0
       ∨ spent sender (fee_of sender o c total) (coins_of s) w'
         ∧ CoinBalance.giftable_of sender w' = after_fee (fee_of sender o c total) total (CoinBalance.giftable_of sender (coins_of s))).
Proof.
  intros Hw Hrow Hown total. unfold campaign_fee, fee_of.
  assert (∃ w', (mret tt : M store unit) s = (inr tt, with_coins w' s) ∧ w' = coins_of s) as (w0 & Hno & ->).
  { exists (coins_of s). by rewrite same_coins. }
  destruct (o_reel o) as [r|]; [|exists (coins_of s); by auto].
  destruct (rl_is_campaign_post r && negb (rl_user r =? sender) && (0 <? WalletConfig.cost_gift c)) eqn:Hb; [|exists (coins_of s); by auto].
  apply andb_true_iff in Hb as [_ Hpos%Z.ltb_lt]. clear Hno. unfold catch. rewrite bind_run. unfold in_coins. rewrite zoom_run.
  pose proof (spend_run balance (WalletConfig.cost_gift c) "campaign_gift_fee" false
    (CoinBalance.TxKwargs None "" None (Some (rl_id r)) 0 ("Campaign gift fee on post #" +:+ str_int (rl_id r)))
    now (coins_of s) Hw) as Hsp.
  rewrite Hown in Hsp. specialize (Hsp Hrow eq_refl).
  destruct (CoinBalance.spend_coins _ _ _ _ _ _ _) as [[e|[t b]] w1]; cbn [fst snd].
  - destruct Hsp as (-> & -> & Hlt). eexists. split; [reflexivity|]. left. split; [done|]. by rewrite (proj2 (Z.leb_gt _ _)) by auto.
  - destruct Hsp as (Hn & Hs & _ & _ & Hfee). destruct (Hfee eq_refl) as [Hle Hg]. eexists. split; [reflexivity|]. right.
    by rewrite (proj2 (Z.leb_le _ _)).
Qed.

Definition ledger_sum (u : Z) (w : CoinBalance.wallet) : Z :=
  sumZ CoinBalance.ct_coins (CoinBalance.ledger_of u (CoinBalance.w_txs w)).

(** What a completed gift changed. *)
Definition gift_effects (sender : Z) (o : order) (now : Z) (s s' : store) : Prop :=
  let c := settings now s in
  let n := o_total_cost o in
  let points := WalletConfig.coins_to_points c n in
  let total := CoinBalance.total_of sender (coins_of s) in
  let giftable := CoinBalance.giftable_of sender (coins_of s) in
  let fee := fee_of sender o c (total - n) in
    0 < n <= giftable ∧ 0 < points
    ∧ rows_ok (coins_of s')
    ∧ CoinBalance.total_of sender (coins_of s') = total - n - fee
    ∧ CoinBalance.giftable_of sender (coins_of s') = after_fee fee (total - n) (giftable - n)
    ∧ (∀ v, v ≠ sender → CoinBalance.w_rows (coins_of s') !! v = CoinBalance.w_rows (coins_of s) !! v)
    ∧ (∀ v, points_of v (s_points s') = points_of v (s_points s)
            + if decide (v = o_recipient o) then points else 0)
    ∧ ledger_sum (o_recipient o) (coins_of s') = ledger_sum (o_recipient o) (coins_of s) + points
    ∧ ∃ g, l_gifts (s_log s') = l_gifts (s_log s) ++ [g]
        ∧ gt_sender g = sender ∧ gt_recipient g = o_recipient o
        ∧ gt_total_coins g = n ∧ gt_created_at g = now.

(** C10.  A catalogue gift is all or nothing.  Committing an order either
    changes nothing at all -- an exception, or an error answer -- or it takes
    exactly the gift's cost from the sender's giftable coins, who had that
    much, and then the fee of a campaign post of somebody else -- the stored
    price, if what is left of all coins covers it, and otherwise nothing --
    from the other coins first; gives the recipient exactly the points the
    stored conversion makes of the cost, and nobody else any; leaves every
    other coin balance alone; and records one gift.  The recipient's coin
    ledger nevertheless gains those points as coins, so from then on it no
    longer adds up to the balance. *)
Theorem catalogue_gift_all_or_nothing sender o now (s : store) :
  rows_ok (coins_of s) → profiles_ok (s_points s) →
  is_Some (CoinBalance.w_rows (coins_of s) !! sender) →
  CoinBalance.u_user (o_balance o) = sender → sender ≠ o_recipient o →
  match gift_commit sender o now s with
  | (inl _, s') => s' = s
  | (inr resp, s') => 400 <= r_status resp ∧ s' = s ∨ r_status resp = 201 ∧ gift_effects sender o now s s'
  end.
Proof.
  intros Hw Hp Hrow Hown Hne. unfold gift_commit. rewrite bind_run. unfold catch.
  pose proof (gift_txn_cases sender o now s Hw Hp Hrow Hown) as Hcases.
  destruct (gift_txn sender o now s) as [[e|[resp|[balance c]]] s1].
  { subst s1. destruct (is_value_error e); cbn; [by left|done]. }
  { destruct Hcases as [-> Hst]. cbn. by left. }
  destruct Hcases as [-> Hcost (w1 & t & Hsp & Hg1 & Hc1 & Htu & Htc) Hbal Hpos Hpts Hg]. set (c := settings now s) in *.
  destruct (spent_effects _ _ _ _ Hw Hsp) as (Hw1 & Htot1 & Hrow1 & Hoth1 & Hled1).
  rewrite bind_run. unfold on_log at 1, modify. rewrite bind_run. cbn [get]. rewrite bind_run.
  unfold on_log at 1, modify. cbv zeta. rewrite bind_run.
  assert (∀ s2, ∃ l, when (0 <? gf_xp_reward (o_gift o) * o_quantity o)
    (on_log (count_user sender (λ c, Counters (ct_sent_total c) (ct_sent_today c)
       (ct_received_total c) (ct_received_today c) (ct_xp c + gf_xp_reward (o_gift o) * o_quantity o)))) s2
    = (inr tt, with_log l s2) ∧ l_gifts l = l_gifts (s_log s2)) as Hxp.
  { intros s2. unfold when. destruct (0 <? _); [by eexists|]. exists (s_log s2). by destruct s2. }
  match goal with |- context [when _ _ ?x] => destruct (Hxp x) as (l & -> & Hl) end.
  rewrite bind_run.
  match goal with |- context [campaign_fee _ _ _ _ _ ?x] => set (s2 := x) end.
  assert (coins_of s2 = coins_of s1 ∧ s_points s2 = s_points s1) as [Hs2 Hp2] by done.
  assert (rows_ok (coins_of s2)) as Hw2 by (rewrite Hs2, Hc1; exact Hw1).
  assert (is_Some (CoinBalance.w_rows (coins_of s2) !! sender)) as Hrow2 by (rewrite Hs2, Hc1; exact Hrow1).
  assert (CoinBalance.total_of sender (coins_of s2)
    = CoinBalance.total_of sender (coins_of s) - o_total_cost o) as Ht2
    by (rewrite Hs2, Hc1; exact Htot1).
  assert (CoinBalance.giftable_of sender (coins_of s2)
    = CoinBalance.giftable_of sender (coins_of s) - o_total_cost o) as Hg2
    by (rewrite Hs2, Hc1; exact Hg1).
  destruct (campaign_fee_run sender o balance c now s2 Hw2 Hrow2 Hbal) as (w3 & -> & Hfee).
  rewrite Ht2, Hg2 in Hfee. cbn [mret M_ret]. right. split; [done|].
  assert (l_gifts (s_log s2) = l_gifts (s_log s1)) as Hl2 by (etrans; [exact Hl|reflexivity]).
  assert (ledger_sum (o_recipient o) (coins_of s2)
    = ledger_sum (o_recipient o) (coins_of s) + WalletConfig.coins_to_points c (o_total_cost o)) as Hls.
  { unfold ledger_sum. rewrite Hs2, Hc1. cbn [CoinBalance.w_txs].
    rewrite CoinBalance.ledger_snoc, sumZ_app, decide_True, Hled1, sumZ_cons, sumZ_nil by done. lia. }
  assert (∀ v, v ≠ sender → CoinBalance.w_rows (coins_of s2) !! v = CoinBalance.w_rows (coins_of s) !! v) as Ho2
    by (intros v Hv; rewrite Hs2, Hc1; by apply Hoth1).
  unfold gift_effects. change (s_points (with_coins w3 s2)) with (s_points s1).
  assert (coins_of (with_coins w3 s2) = w3) as -> by done. fold c. cbv zeta.
  destruct Hcost as [Hcp Hcl]. destruct Hg as (g & Hg & Hrest).
  assert (l_gifts (s_log (with_coins w3 s2)) = l_gifts (s_log s) ++ [g]) as Hgl by (etrans; [exact Hl2|exact Hg]).
  destruct Hfee as [[-> ->]|[Hspf Hgf]].
  - split_and!; try done; [lia| |by exists g]. rewrite Hg2. pose proof (giftable_le_total sender (coins_of s) Hw). unfold after_fee. lia.
  - destruct (spent_effects _ _ _ _ Hw2 Hspf) as (Hw4 & Htot4 & _ & Hoth4 & Hled4).
    split_and!; try done; [lia| | |by exists g].
    + intros v Hv. rewrite Hoth4 by done. by apply Ho2.
    + unfold ledger_sum at 1. rewrite Hled4 by done. exact Hls.
Qed.

(** ** Two gifts of 400 coins within a second *)

Definition example_plan : Subscriptions.plan :=
  Subscriptions.Plan 1 (Some 1) None Subscriptions.active "weekly" (Some 0) None None false 0 None ""
    None None None None None.

Definition example_row : CoinBalance.ucb :=
  CoinBalance.Ucb 1 1000 0 1000 0 0 1000 0 0 1000 1000 0 0 0 0.

Definition example_purchase : CoinBalance.coin_tx :=
  CoinBalance.new_tx 1 "purchase" 1000 "telebirr" CoinBalance.no_kwargs 0.

Definition example_store : store :=
  Store (Subscriptions.Store ∅ (<[1 := example_plan]> ∅) []
           (CoinBalance.Wallet (<[1 := example_row]> ∅) [example_purchase]) [])
    None
    (Points.PointsDb (<[1 := Points.new_profile 1]> (<[2 := Points.new_profile 2]> ∅)) [])
    (<[1 := "abebe"]> (<[2 := "sara"]> ∅))
    (<[7 := Gift 7 "Rose" 400 true 3]> ∅) ∅
    (Log [] [] [] ∅ ∅ []).

Definition example_request : gift_request := GiftRequest 7 2 None 1 "".
Definition example_order : order := Order (Gift 7 "Rose" 400 true 3) 2 None 1 "" 400 example_row.

Lemma example_rows_ok : rows_ok (coins_of example_store).
Proof.
  intros u r H. unfold example_store, coins_of in H. simpl in H.
  apply lookup_insert_Some in H as [[<- <-]|[_ [=]]]. split; [done|]. unfold CoinBalance.row_ok. cbn. lia.
Qed.

Lemma example_profiles_ok : profiles_ok (s_points example_store).
Proof.
  intros u p H. unfold example_store in H. simpl in H.
  apply lookup_insert_Some in H as [[<- <-]|[_ H]]; [done|].
  by apply lookup_insert_Some in H as [[<- <-]|[_ [=]]].
Qed.

Lemma gifts_are_never_counted_witness :
  let es := [ECheck 1 example_request 1000; ECommit 1 example_order 1000;
             ECheck 1 example_request 900000; ECommit 1 example_order 900000] in
  let s' := run example_store es in
  gt_total_coins <$> l_gifts (s_log s') = [400; 400]
  ∧ points_of 2 (s_points s') = 800
  ∧ (send_gift 1 example_request 900000 (run example_store (take 2 es))).1 = inr (Resp 201 "created")
  ∧ contributed_coins 1 2 1000000 s' = 0.
Proof.
  intros es s'. split; [vm_compute; reflexivity|]. split; [vm_compute; reflexivity|].
  split; [vm_compute; reflexivity|].
  destruct (gifts_are_never_counted es example_store eq_refl 1 2 100 1000000) as [H _]. exact H.
Defined.

Lemma catalogue_gift_all_or_nothing_witness :
  match gift_commit 1 example_order 1000 example_store with
  | (inl _, s') => s' = example_store
  | (inr resp, s') => 400 <= r_status resp ∧ s' = example_store
                      ∨ r_status resp = 201 ∧ gift_effects 1 example_order 1000 example_store s'
  end
  ∧ (gift_commit 1 example_order 1000 example_store).1 = inr (Resp 201 "created").
Proof.
  split; [|vm_compute; reflexivity].
  apply (catalogue_gift_all_or_nothing 1 example_order 1000 example_store
    example_rows_ok example_profiles_ok); [|reflexivity|discriminate].
  exists example_row. reflexivity.
Defined.

End Gifting.
