(* ===== verification/Phone.v ===== *)
(** * Phone: Ethiopian mobile numbers

    Models [src/common/validators/phone.py].  Strings are byte strings; the
    digit class [\d] and the separators [\s] are their ASCII parts. *)

From Stdlib Require Import ZArith Lia.
From S2P Require Import Prelude.

Module Phone.

#[local] Arguments Ascii.eqb : simpl nomatch.

Definition is_digit (c : ascii) : bool :=
  let n := nat_of_ascii c in ((48 <=? n) && (n <=? 57))%nat.

Definition COUNTRY_CODE : string := "251".

(** [_SEPARATORS]: white space, dash and parentheses. *)
Definition is_separator (c : ascii) : bool :=
  is_space c || Ascii.eqb c "-" || Ascii.eqb c "(" || Ascii.eqb c ")".

Definition chars : string → list ascii := String.list_ascii_of_string.
Definition text : list ascii → string := String.string_of_list_ascii.

Definition without_separators : string → list ascii :=
  λ s, filter (λ c, is_separator c = false) (chars s).

(** [ETHIOPIAN_MOBILE_RE]: nine digits, the first a 9 or a 7. *)
Definition is_subscriber (l : list ascii) : bool :=
  match l with
  | c :: l' => (Ascii.eqb c "9" || Ascii.eqb c "7") && forallb is_digit l' && (length l' =? 8)%nat
  | [] => false
  end.

(** [s[len(p):] if s.startswith(p)]. *)
Fixpoint after (p s : list ascii) : option (list ascii) :=
  match p, s with
  | [], _ => Some s
  | c :: p', d :: s' => if Ascii.eqb c d then after p' s' else None
  | _ :: _, [] => None
  end.

Definition subscriber_chars (s : list ascii) : option (list ascii) :=
  let s := default s (after ["+"%char] s) in
  if existsb (Ascii.eqb "+") s then None
  else
    let s := match after (chars COUNTRY_CODE) s with
             | Some s' => s'
             | None => default s (after ["0"%char] s)
             end in
    if is_subscriber s then Some s else None.

(** [_subscriber_part]; the argument is [None] or [str(raw)]. *)
Definition _subscriber_part (raw : option string) : option string :=
  match raw with
  | None => None
  | Some s =>
      match without_separators s with
      | [] => None
      | s => text <$> subscriber_chars s
      end
  end.

Definition is_valid_ethiopian_mobile (raw : option string) : bool :=
  bool_decide (is_Some (_subscriber_part raw)).

Definition normalize_ethiopian_phone (raw : option string) : option string :=
  (λ part, COUNTRY_CODE +:+ part) <$> _subscriber_part raw.

(** [list(dict.fromkeys(l))]: the first of each. *)
Fixpoint fromkeys (l : list string) : list string :=
  match l with
  | [] => []
  | x :: l' => x :: filter (λ y, y ≠ x) (fromkeys l')
  end.

Definition lookup_variants (raw : option string) : list string :=
  match _subscriber_part raw with
  | None => []
  | Some part => fromkeys [COUNTRY_CODE +:+ part; "+" +:+ COUNTRY_CODE +:+ part; "0" +:+ part; part]
  end.

Definition to_e164 (raw : option string) : option string :=
  (λ part, "+" +:+ COUNTRY_CODE +:+ part) <$> _subscriber_part raw.

Definition to_local (raw : option string) : option string :=
  (λ part, "0" +:+ part) <$> _subscriber_part raw.

(** ** Characters *)

Lemma chars_text l : chars (text l) = l.
Proof. apply String.list_ascii_of_string_of_list_ascii. Qed.
Lemma text_chars s : text (chars s) = s.
Proof. apply String.string_of_list_ascii_of_string. Qed.
Lemma chars_app (a b : string) : chars (a +:+ b) = chars a ++ chars b.
Proof. induction a as [|c a IH]; [done|]. exact (f_equal (cons c) IH). Qed.
#[local] Hint Rewrite chars_text chars_app : chars.

Lemma chars_inj a b : chars a = chars b → a = b.
Proof. intros H. by rewrite <- (text_chars a), H, text_chars. Qed.

Lemma after_spec p s s' : after p s = Some s' ↔ s = p ++ s'.
Proof.
  revert s. induction p as [|c p IH]; intros s; cbn.
  { split; [by intros [= ->]|by intros ->]. }
  destruct s as [|d s]; [done|].
  destruct (Ascii.eqb_spec c d) as [->|Hne].
  - rewrite IH. split; [by intros ->|by intros [= ->]].
  - split; [done|]. intros [= ->]. done.
Qed.

Lemma after_none c p s : (∀ s', s ≠ c :: s') → after (c :: p) s = None.
Proof. intros H. destruct s as [|d s]; cbn; [done|]. destruct (Ascii.eqb_spec c d); naive_solver. Qed.

(** A digit is neither a separator nor a plus. *)
Lemma digit_kept c : is_digit c = true → is_separator c = false ∧ c ≠ "+"%char.
Proof.
  intros H. assert (nat_of_ascii c ∈ seq 48 10) as Hn.
  { apply andb_true_iff in H as [H1%Nat.leb_le H2%Nat.leb_le]. apply elem_of_seq. lia. }
  rewrite <- (ascii_nat_embedding c). cbn in Hn. rewrite !elem_of_cons in Hn.
  repeat destruct Hn as [->|Hn]; [by vm_compute..|by apply elem_of_nil in Hn].
Qed.

Lemma subscriber_digits l : is_subscriber l = true → forallb is_digit l = true ∧ length l = 9%nat.
Proof.
  destruct l as [|c l]; [done|]. cbn. intros [[Hc Hl]%andb_true_iff Hn]%andb_true_iff.
  apply Nat.eqb_eq in Hn. split; [|lia]. rewrite Hl, andb_true_r.
  apply orb_true_iff in Hc as [->%Ascii.eqb_eq| ->%Ascii.eqb_eq]; done.
Qed.

Lemma subscriber_head l : is_subscriber l = true → ∃ c l', l = c :: l' ∧ (c = "9"%char ∨ c = "7"%char).
Proof.
  destruct l as [|c l]; [done|]. cbn. intros [[Hc _]%andb_true_iff _]%andb_true_iff.
  apply orb_true_iff in Hc as [?%Ascii.eqb_eq|?%Ascii.eqb_eq]; eauto.
Qed.

Lemma digits_kept l :
  forallb is_digit l = true → filter (λ c, is_separator c = false) l = l ∧ existsb (Ascii.eqb "+") l = false.
Proof.
  induction l as [|c l IH]; [done|]. cbn [forallb]. intros [Hc Hl]%andb_true_iff.
  destruct (digit_kept c Hc) as [Hs Hp]. destruct (IH Hl) as [IH1 IH2]. split.
  - by rewrite filter_cons_True, IH1.
  - cbn. rewrite IH2. destruct (Ascii.eqb_spec "+" c) as [<-|]; [by destruct Hp|done].
Qed.

(** The spellings of a subscriber number: a country code or a trunk zero or
    neither, and a plus sign or not. *)
Definition prefixes : list (list ascii) :=
  [[]; ["0"%char]; chars COUNTRY_CODE; ["+"%char]; ["+"%char; "0"%char]; "+"%char :: chars COUNTRY_CODE].

Lemma subscriber_spelling pre l :
  pre ∈ prefixes → is_subscriber l = true → subscriber_chars (pre ++ l) = Some l.
Proof.
  intros Hpre Hl. destruct (subscriber_digits l Hl) as [Hd _].
  destruct (digits_kept l Hd) as [_ Hplus].
  destruct (subscriber_head l Hl) as (c & l' & -> & Hc). unfold subscriber_chars.
  repeat (apply elem_of_cons in Hpre as [->|Hpre]; [|]); [..|by apply elem_of_nil in Hpre].
  all: destruct Hc as [-> | ->]; cbn in Hplus, Hl |- *; rewrite Hplus; by rewrite Hl.
Qed.

Lemma subscriber_inv s l :
  subscriber_chars s = Some l → is_subscriber l = true ∧ ∃ pre, pre ∈ prefixes ∧ s = pre ++ l.
Proof.
  unfold subscriber_chars.
  assert (∃ plus, (plus = [] ∨ plus = ["+"%char]) ∧ s = plus ++ default s (after ["+"%char] s)) as (plus & Hplus & Hs).
  { destruct (after ["+"%char] s) as [s'|] eqn:E; cbn [default].
    - apply after_spec in E. eauto.
    - exists []. auto. }
  set (s1 := default s (after ["+"%char] s)) in *. clearbody s1.
  destruct (existsb (Ascii.eqb "+") s1); [done|].
  assert (∃ cc, (cc = [] ∨ cc = ["0"%char] ∨ cc = chars COUNTRY_CODE) ∧
    s1 = cc ++ match after (chars COUNTRY_CODE) s1 with
               | Some s' => s' | None => default s1 (after ["0"%char] s1) end) as (cc & Hcc & Hs1).
  { destruct (after (chars COUNTRY_CODE) s1) as [s'|] eqn:E.
    - apply after_spec in E. eauto.
    - destruct (after ["0"%char] s1) as [s'|] eqn:E0; cbn [default].
      + apply after_spec in E0. eauto.
      + exists []. auto. }
  set (s2 := match after (chars COUNTRY_CODE) s1 with Some s' => s' | None => _ end) in *. clearbody s2.
  destruct (is_subscriber s2) eqn:Hok; [|done]. intros [= ->]. split; [done|].
  exists (plus ++ cc). rewrite <- app_assoc, <- Hs1. split; [|done].
  unfold prefixes. destruct Hplus as [-> | ->], Hcc as [-> | [-> | ->]]; set_solver.
Qed.

(** The accepted inputs, and what each means. *)
Lemma subscriber_part_iff raw p :
  _subscriber_part raw = Some p ↔
  ∃ s pre, raw = Some s ∧ pre ∈ prefixes ∧ is_subscriber (chars p) = true
           ∧ without_separators s = pre ++ chars p.
Proof.
  unfold _subscriber_part. split.
  - destruct raw as [s|]; [|done]. destruct (without_separators s) as [|c l] eqn:E; [done|].
    intros (l' & H & Hp)%fmap_Some_1.
    apply subscriber_inv in H as (Hl & pre & Hpre & Heq). exists s, pre.
    subst p. rewrite chars_text, <- Heq. split_and!; done.
  - intros (s & pre & -> & Hpre & Hp & ->).
    destruct (pre ++ chars p) as [|c l] eqn:E.
    + apply app_nil in E as [_ E]. by rewrite E in Hp.
    + rewrite <- E, subscriber_spelling by done. cbn. by rewrite text_chars.
Qed.

Lemma prefix_kept pre : pre ∈ prefixes → filter (λ c, is_separator c = false) pre = pre.
Proof. unfold prefixes. rewrite !elem_of_cons, elem_of_nil. naive_solver. Qed.

Lemma spelling_parses pre p :
  pre ∈ prefixes → is_subscriber (chars p) = true → _subscriber_part (Some (text pre +:+ p)) = Some p.
Proof.
  intros Hpre Hp. apply subscriber_part_iff. exists (text pre +:+ p), pre. split_and!; try done.
  unfold without_separators. rewrite chars_app, chars_text, filter_app, (prefix_kept pre) by done.
  by rewrite (proj1 (digits_kept _ (proj1 (subscriber_digits _ Hp)))).
Qed.

Lemma part_valid raw p : _subscriber_part raw = Some p → is_subscriber (chars p) = true.
Proof. intros (s & pre & _ & _ & H & _)%subscriber_part_iff. done. Qed.

Lemma fromkeys_id l : NoDup l → fromkeys l = l.
Proof.
  induction 1 as [|x l Hx _ IH]; [done|]. cbn. rewrite IH. f_equal.
  clear IH. induction l as [|y l IH]; [done|]. apply not_elem_of_cons in Hx as [Hne Hx].
  rewrite filter_cons_True by done. by rewrite IH.
Qed.

Lemma spellings_distinct p :
  is_subscriber (chars p) = true →
  NoDup [COUNTRY_CODE +:+ p; "+" +:+ COUNTRY_CODE +:+ p; "0" +:+ p; p].
Proof.
  intros Hok. destruct (subscriber_head _ Hok) as (c & l' & Hl & Hc).
  destruct p as [|d q]; [done|]. injection Hl as -> _.
  repeat constructor; rewrite ?elem_of_cons, ?elem_of_nil; destruct Hc as [-> | ->]; naive_solver.
Qed.

Lemma variants_of raw p :
  _subscriber_part raw = Some p →
  lookup_variants raw = [COUNTRY_CODE +:+ p; "+" +:+ COUNTRY_CODE +:+ p; "0" +:+ p; p].
Proof.
  intros H. unfold lookup_variants. rewrite H. apply fromkeys_id, spellings_distinct.
  by apply (part_valid raw).
Qed.

Lemma normalize_idemp raw n :
  normalize_ethiopian_phone raw = Some n → normalize_ethiopian_phone (Some n) = Some n.
Proof.
  unfold normalize_ethiopian_phone. intros (p & Hp & ->)%fmap_Some.
  pose proof (spelling_parses (chars COUNTRY_CODE) p) as H. rewrite text_chars in H.
  rewrite H; [done|by do 2 right; left|by apply (part_valid raw)].
Qed.

(** Every spelling of a number means the same subscriber.  A raw value
    is accepted exactly when, white space, dashes and parentheses aside, it is
    nine digits beginning with 9 or 7 behind one of the six prefixes (none,
    [0], [251], each with or without a plus sign).  What is stored, shown or
    looked up -- [normalize_ethiopian_phone], [to_e164], [to_local], each of
    the four distinct [lookup_variants] -- parses back to that subscriber and
    normalises to the stored form, so two raw values share a stored form
    exactly when they name the same subscriber. *)
Theorem phone_roundtrip raw p :
  (_subscriber_part raw = Some p ↔
   ∃ s pre, raw = Some s ∧ pre ∈ prefixes ∧ is_subscriber (chars p) = true
            ∧ without_separators s = pre ++ chars p)
  ∧ (_subscriber_part raw = Some p →
     (∀ v, Some v ∈ [normalize_ethiopian_phone raw; to_e164 raw; to_local raw]
           ∨ v ∈ lookup_variants raw →
           _subscriber_part (Some v) = Some p
           ∧ normalize_ethiopian_phone (Some v) = normalize_ethiopian_phone raw)
     ∧ NoDup (lookup_variants raw) ∧ length (lookup_variants raw) = 4%nat
     ∧ ∀ raw', normalize_ethiopian_phone raw' = normalize_ethiopian_phone raw
               ↔ _subscriber_part raw' = Some p).
Proof.
  split; [apply subscriber_part_iff|]. intros Hp. pose proof (part_valid _ _ Hp) as Hok.
  rewrite (variants_of raw p Hp). unfold normalize_ethiopian_phone, to_e164, to_local. rewrite Hp.
  cbn [fmap option_fmap option_map].
  assert (∀ pre, pre ∈ prefixes → _subscriber_part (Some (text pre +:+ p)) = Some p) as Hpre
    by (intros pre H; by apply spelling_parses).
  split_and!.
  - intros v Hv.
    assert (_subscriber_part (Some v) = Some p) as ->; [|done].
    assert (v ∈ (λ pre, text pre +:+ p) <$> prefixes) as (pre & -> & H)%list_elem_of_fmap; [|by apply Hpre].
    cbn. rewrite !elem_of_cons, !elem_of_nil in *. naive_solver.
  - by apply spellings_distinct.
  - done.
  - intros raw'. split; [|by intros ->]. destruct (_subscriber_part raw') as [q|]; [|done].
    cbn. intros [= H]. exact (f_equal Some H).
Qed.

Lemma phone_roundtrip_witness :
  _subscriber_part (Some "+251 94-436 5493") = Some "944365493"
  ∧ lookup_variants (Some "(0)944365493") = ["251944365493"; "+251944365493"; "0944365493"; "944365493"]
  ∧ normalize_ethiopian_phone (Some "251251944365493") = None
  ∧ normalize_ethiopian_phone (Some "0944365493") = normalize_ethiopian_phone (Some "944365493").
Proof.
  split; [vm_compute; reflexivity|]. split; [vm_compute; reflexivity|]. split; [vm_compute; reflexivity|].
  destruct (phone_roundtrip (Some "944365493") "944365493") as [_ H].
  apply H; vm_compute; reflexivity.
Defined.

End Phone.
