(* ===== verification/Charging.v ===== *)
(** * Charging: a subscriber's airtime, through TIMWE

    Models [src/api/services/timwe_charging.py], the table
    [TimweChargeTransaction] of [src/api/models/timwe.py] with its unique
    constraints, and the validation and classification rules of
    [src/api/integrations/timwe/charge.py] and [errors.py].

    The call to the MA runs outside any transaction, so [request_charge] is
    [request_open] -- up to the committed PENDING row -- and [record_outcome],
    with the MA's answer, an argument, between them.  The table is a list in
    insertion order; a row's primary key is its position. *)

From Stdlib Require Import ZArith Lia.
From S2P Require Import Prelude CoinBalance CoinPricing Phone.

Module Charging.
Import CoinPricing.

(** ** Outcomes *)

Inductive outcome := o_success | o_rejected | o_unreachable | o_timeout | o_unknown.
Inductive cstatus := st_pending | st_success | st_failed | st_timeout | st_unknown.

#[global] Instance outcome_eq_dec : EqDecision outcome.
Proof. solve_decision. Defined.
#[global] Instance cstatus_eq_dec : EqDecision cstatus.
Proof. solve_decision. Defined.

Definition STATUS_FOR_OUTCOME (o : outcome) : cstatus :=
  match o with
  | o_success => st_success
  | o_rejected | o_unreachable => st_failed
  | o_timeout => st_timeout
  | o_unknown => st_unknown
  end.

Definition definitely_not_charged (o : outcome) : bool :=
  match o with o_rejected | o_unreachable => true | _ => false end.

Definition CHARGE_RETRYABLE : list string := ["SVC0001"; "SVC0270"].
Definition CHARGE_PERMANENT : list string := ["SVC0002"; "SVC0901"; "POL0910"].
Definition is_retryable (code : string) : bool := bool_decide (code ∈ CHARGE_RETRYABLE).

(** What [execute] came back with: a classified reply, a refusal because the
    switch went off in between, or an exception of ours. *)
Inductive answer :=
| Answered (o : outcome) (code message : string)
| SwitchedOff
| ClientError.

Definition outcome_of (a : answer) : outcome * string * string :=
  match a with
  | Answered o code m => (o, code, m)
  | SwitchedOff => (o_unreachable, "", "Charging was switched off; nothing was sent.")
  | ClientError => (o_unknown, "", "Internal error while charging.")
  end.

(** ** The table *)

Record charge := Charge {
  ch_user : Z; ch_key : string; ch_ref : string; ch_msisdn : string; ch_amount : Z;
  ch_currency : string; ch_description : string; ch_package : option Z;
  ch_purpose : string; ch_subscription : option Z; ch_period_end : option Z;
  ch_service_id : string; ch_status : cstatus; ch_outcome : option outcome;
  ch_error_code : string; ch_error_message : string; ch_retryable : bool;
  ch_created_at : Z; ch_completed_at : option Z; ch_fulfilled_at : option Z
}.

Definition COIN_PURCHASE : string := "coin_purchase".
Definition SUBSCRIPTION_RENEWAL : string := "subscription_renewal".

Definition is_ambiguous (c : charge) : bool :=
  match ch_status c with
  | st_timeout | st_unknown => true
  | st_pending => bool_decide (ch_completed_at c = None)
  | _ => false
  end.

Definition set_outcome (st : cstatus) (o : outcome) (code message : string) (retryable : bool)
    (now : Z) (c : charge) : charge :=
  Charge (ch_user c) (ch_key c) (ch_ref c) (ch_msisdn c) (ch_amount c) (ch_currency c)
    (ch_description c) (ch_package c) (ch_purpose c) (ch_subscription c) (ch_period_end c)
    (ch_service_id c) st (Some o) code message retryable (ch_created_at c) (Some now)
    (ch_fulfilled_at c).
Definition set_fulfilled (now : Z) (c : charge) : charge :=
  Charge (ch_user c) (ch_key c) (ch_ref c) (ch_msisdn c) (ch_amount c) (ch_currency c)
    (ch_description c) (ch_package c) (ch_purpose c) (ch_subscription c) (ch_period_end c)
    (ch_service_id c) (ch_status c) (ch_outcome c) (ch_error_code c) (ch_error_message c)
    (ch_retryable c) (ch_created_at c) (ch_completed_at c) (Some now).

Notation table := (list charge).

(** [timwe_one_live_renewal_charge_per_period]: its condition, and the period. *)
Definition live_renewal (c : charge) : bool :=
  String.eqb (ch_purpose c) SUBSCRIPTION_RENEWAL && negb (bool_decide (ch_status c = st_failed)).

Definition period_of (c : charge) : option (Z * Z) :=
  match ch_subscription c, ch_period_end c with Some s, Some e => Some (s, e) | _, _ => None end.

Definition same_period (a b : charge) : bool :=
  match period_of a, period_of b with Some p, Some q => bool_decide (p = q) | _, _ => false end.

Definition clash (n c : charge) : bool :=
  String.eqb (ch_key c) (ch_key n) || String.eqb (ch_ref c) (ch_ref n)
  || live_renewal c && live_renewal n && same_period c n.

(** [TimweChargeTransaction.objects.create]: the new row's key. *)
Definition create (n : charge) : M table nat :=
  t ← get;
  if existsb (clash n) t then raise (IntegrityError "timwe_charge_transactions")
  else put (t ++ [n]) ≫= λ _, mret (length t).

(** [filter(...).first()] under the table's ordering, [-created_at]: the
    newest row satisfying [p], with its position. *)
Fixpoint first_row (p : charge → bool) (t : table) (i : nat) : option (nat * charge) :=
  match t with
  | [] => None
  | c :: t' =>
      match first_row p t' (S i) with
      | Some (j, d) =>
          if p c && (ch_created_at d <? ch_created_at c) then Some (i, c) else Some (j, d)
      | None => if p c then Some (i, c) else None
      end
  end.

(** ** Settings and validation *)

(** The settings a charge reads.  Parsing the endpoint's URL is left to
    [cfg_endpoint_problem]. *)
Record settings := Settings {
  cfg_charging_enabled : bool;
  cfg_url : string; cfg_sp_id : string; cfg_password : string;
  cfg_charge_service_id : string; cfg_service_id : string;
  cfg_currency : string; cfg_amount_scale : option Z; cfg_timeout : option Z;
  cfg_endpoint_problem : string
}.

Definition config_error {S A} (m : string) : M S A := raise (TimweError "TimweConfigurationError" m).
Definition timwe_error {S A} (m : string) : M S A := raise (TimweError "TimweError" m).
Definition amount_error {S A} (m : string) : M S A := raise (TimweError "TimweAmountError" m).
Definition refused {S A} (m : string) : M S A := raise (TimweError "ChargeRefused" m).

Definition get_service_id (c : settings) : string := or_str (cfg_charge_service_id c) (cfg_service_id c).

Definition missing_configuration (c : settings) : list string :=
  fst <$> filter (λ nv, nv.2 = "")
    [("TIMWE_CHARGE_URL", cfg_url c); ("TIMWE_SP_ID", cfg_sp_id c); ("TIMWE_SP_PASSWORD", cfg_password c);
     ("TIMWE_SERVICE_ID", get_service_id c); ("TIMWE_CURRENCY", cfg_currency c)].

Definition ensure_configured {S} (c : settings) : M S unit :=
  match missing_configuration c with
  | _ :: _ as missing => config_error ("TIMWE charging is not configured: " +:+ String.concat ", " missing +:+ " unset.")
  | [] =>
      if String.eqb (cfg_endpoint_problem c) "" then
        match cfg_timeout c with
        | Some t => if 0 <? t then mret tt else config_error "TIMWE_CHARGE_TIMEOUT"
        | None => config_error "TIMWE_CHARGE_TIMEOUT"
        end
      else config_error (cfg_endpoint_problem c)
  end.

Definition get_amount_scale {S} (c : settings) : M S Z :=
  match cfg_amount_scale c with
  | Some n => if n <? 1 then config_error "TIMWE_CHARGE_AMOUNT_SCALE" else mret n
  | None => config_error "TIMWE_CHARGE_AMOUNT_SCALE"
  end.

(** [amount] is a two-place price, in cents. *)
Definition etb_to_timwe_amount {S} (c : settings) (amount : Z) : M S Z :=
  if negb (amount mod 100 =? 0) then amount_error "the MA does not accept a decimal point"
  else
    let birr := amount / 100 in
    if birr <=? 0 then amount_error "Amount must be a positive whole number."
    else scale ← get_amount_scale c; mret (birr * scale).

Definition MAX_AMOUNT_DIGITS : nat := 4.

Definition format_amount {S} (c : settings) (amount : Z) : M S string :=
  n ← etb_to_timwe_amount c amount;
  let rendered := str_int n in
  if (MAX_AMOUNT_DIGITS <? String.length rendered)%nat
  then amount_error "exceeds the 4-character limit the MA allows" else mret rendered.

Definition normalize_msisdn {S} (msisdn : string) : M S string :=
  match Phone.normalize_ethiopian_phone (Some msisdn) with
  | Some n => mret n
  | None => timwe_error "The MSISDN is not a valid Ethiopian mobile number."
  end.

Definition validate_description {S} (d : string) : M S string :=
  let text := strip d in
  if String.eqb text "" then timwe_error "A charge description is required (guide p.21)."
  else if (255 <? String.length text)%nat then timwe_error "Charge description exceeds 255 characters"
  else mret text.

Definition is_letter (c : ascii) : bool :=
  let n := nat_of_ascii c in ((65 <=? n) && (n <=? 90) || (97 <=? n) && (n <=? 122))%nat.

Definition validate_currency {S} (c : settings) : M S string :=
  let cur := strip (cfg_currency c) in
  let l := String.list_ascii_of_string cur in
  if forallb is_letter l && (2 <=? length l)%nat && (length l <=? 10)%nat
  then mret cur else config_error "TIMWE_CURRENCY must be letters only".

(** ** [request_charge] *)

(** The arguments; [rq_amount] in cents, as prices are. *)
Record request := Request {
  rq_user : Z; rq_msisdn : string; rq_amount : Z; rq_description : string; rq_key : string;
  rq_package : option Z; rq_purpose : string; rq_subscription : option Z;
  rq_period_end : option Z; rq_service_id : string
}.

(** A validated request: what goes into the row. *)
Record validated := Validated { v_msisdn : string; v_text : string; v_currency : string }.

Definition is_timwe_error (e : exn) : bool := match e with TimweError _ _ => true | _ => false end.

Definition validate (c : settings) (rq : request) : M table validated :=
  if negb (cfg_charging_enabled c) then raise (TimweError "TimweChargingDisabled" "TIMWE charging is switched off")
  else if String.eqb (rq_key rq) "" then refused "An idempotency key is required for every charge."
  else
    ensure_configured c ≫= λ _,
    catch (m ← normalize_msisdn (rq_msisdn rq);
           format_amount c (rq_amount rq) ≫= λ _,
           text ← validate_description (rq_description rq);
           cur ← validate_currency c;
           mret (Validated m text cur))
      (λ e, if is_timwe_error e then Some (refused (exn_str e)) else None).

Definition new_charge (c : settings) (rq : request) (v : validated) (ref : string) (now : Z) : charge :=
  Charge (rq_user rq) (rq_key rq) ref (v_msisdn v) (rq_amount rq / 100) (v_currency v) (v_text v)
    (rq_package rq) (rq_purpose rq) (rq_subscription rq) (rq_period_end rq)
    (or_str (rq_service_id rq) (get_service_id c)) st_pending None "" "" false now None None.

Definition _same_request (e : charge) (msisdn : string) (amount : Z) (currency : string) : bool :=
  String.eqb (ch_msisdn e) msisdn && (ch_amount e =? amount / 100) && String.eqb (ch_currency e) currency.

(** A [ChargeResult]: the charge, and whether the MA is to be called for it. *)
Record result := Result { r_charge : nat; r_created : bool }.

Definition _replay (e : nat * charge) (rq : request) (v : validated) : M table result :=
  if _same_request e.2 (v_msisdn v) (rq_amount rq) (v_currency v)
  then mret (Result e.1 false)
  else refused "This idempotency key was already used for a different charge.".

Definition by_key (key : string) (c : charge) : bool := String.eqb (ch_key c) key.

(** The row that owns the period, when the key itself was free. *)
Definition owns_period (rq : request) (c : charge) : bool :=
  String.eqb (ch_purpose c) (rq_purpose rq)
  && bool_decide (ch_subscription c = rq_subscription rq)
  && bool_decide (ch_period_end c = rq_period_end rq)
  && negb (bool_decide (ch_status c = st_failed)).

(** From the INSERT on, with what its [except IntegrityError] does; [ref] is
    the fresh [uuid4] reference. *)
Definition insert_charge (c : settings) (rq : request) (v : validated) (ref : string) (now : Z)
    : M table result :=
  catch (pk ← atomic (create (new_charge c rq v ref now)); mret (Result pk true))
    (λ e, match e with
          | IntegrityError _ => Some (
              t ← get;
              match first_row (by_key (rq_key rq)) t 0 with
              | Some existing => _replay existing rq v
              | None =>
                  match (if rq_subscription rq then first_row (owns_period rq) t 0 else None) with
                  | Some existing => _replay existing rq v
                  | None => raise e
                  end
              end)
          | _ => None
          end).

Definition request_open (c : settings) (rq : request) (ref : string) (now : Z) : M table result :=
  v ← validate c rq;
  t ← get;
  match first_row (by_key (rq_key rq)) t 0 with
  | Some existing => _replay existing rq v
  | None => insert_charge c rq v ref now
  end.

(** [_record]: one conditional UPDATE. *)
Definition record_outcome (pk : nat) (a : answer) (now : Z) : M table unit :=
  let '(o, code, message) := outcome_of a in
  let retryable := match o with
                   | o_unreachable => true | o_rejected => is_retryable code | _ => false end in
  modify (λ t, match t !! pk with
               | Some row =>
                   if bool_decide (ch_status row = st_pending)
                   then <[pk := set_outcome (STATUS_FOR_OUTCOME o) o (prefix_of 16 code)
                                 (prefix_of 2000 message) retryable now row]> t
                   else t
               | None => t
               end).

(** The claim on a successful, unfulfilled charge, shared by both flows. *)
Definition claim_fulfilment (pk : nat) (now : Z) : M table bool :=
  t ← get;
  match t !! pk with
  | Some row =>
      if bool_decide (ch_status row = st_success) && bool_decide (ch_fulfilled_at row = None)
      then put (<[pk := set_fulfilled now row]> t) ≫= λ _, mret true
      else mret false
  | None => mret false
  end.

(** [ChargeResult.can_retry_with_new_key]. *)
Definition can_retry_with_new_key (c : charge) : bool :=
  match ch_outcome c with
  | Some o => definitely_not_charged o && ch_retryable c
  | None => false
  end.

(** ** Every interleaving

    [w_called], [w_billed] and [w_claims] are not in the code: the charges the
    MA was called for, the charges it took money for, and the charges whose
    fulfilment was claimed. *)

Record world := World {
  w_table : table; w_called : list nat; w_billed : list nat; w_claims : list nat
}.
Definition fresh_world : world := World [] [] [] [].

Inductive event :=
| Open (c : settings) (rq : request) (ref : string) (now : Z)
| Insert (c : settings) (rq : request) (v : validated) (ref : string) (now : Z)
    (** a request whose lookup ran earlier, and found nothing then *)
| Bill (pk : nat)
| Recorded (pk : nat) (a : answer) (now : Z)
| Claim (pk : nat) (now : Z).

Definition opened (r : (exn + result) * table) (w : world) : world :=
  World r.2
    (match r.1 with
     | inr r => if r_created r then w_called w ++ [r_charge r] else w_called w
     | inl _ => w_called w
     end) (w_billed w) (w_claims w).

Definition exec (e : event) (w : world) : world :=
  match e with
  | Open c rq ref now => opened (request_open c rq ref now (w_table w)) w
  | Insert c rq v ref now => opened (insert_charge c rq v ref now (w_table w)) w
  | Bill pk => World (w_table w) (w_called w) (w_billed w ++ [pk]) (w_claims w)
  | Recorded pk a now => World (record_outcome pk a now (w_table w)).2 (w_called w) (w_billed w) (w_claims w)
  | Claim pk now =>
      let r := claim_fulfilment pk now (w_table w) in
      World r.2 (w_called w) (w_billed w)
        (match r.1 with inr true => w_claims w ++ [pk] | _ => w_claims w end)
  end.

(** What the code relies on the MA for: one call takes money at most once;
    a refusal, or a call that never reached it, takes none, then or later; a
    confirmation means money was taken. *)
Definition ma_ok (e : event) (w : world) : bool :=
  match e with
  | Bill pk =>
      bool_decide (pk ∈ w_called w) && bool_decide (pk ∉ w_billed w)
      && match w_table w !! pk with
         | Some c => negb (bool_decide (ch_status c = st_failed)) | None => false end
  | Recorded pk a now =>
      let o := (outcome_of a).1.1 in
      implb (definitely_not_charged o) (bool_decide (pk ∉ w_billed w))
      && implb (bool_decide (o = o_success)) (bool_decide (pk ∈ w_billed w))
  | _ => true
  end.

Fixpoint run (es : list event) (w : world) : world :=
  match es with [] => w | e :: es => run es (exec e w) end.
Fixpoint trusts (es : list event) (w : world) : bool :=
  match es with [] => true | e :: es => ma_ok e w && trusts es (exec e w) end.

(** Two renewal charges of one period that may both take money. *)
Definition rivals (a b : charge) : Prop :=
  live_renewal a = true ∧ live_renewal b = true ∧ same_period a b = true.

Record world_ok (w : world) : Prop := WorldOk {
  ok_keys : NoDup (ch_key <$> w_table w);
  ok_refs : NoDup (ch_ref <$> w_table w);
  ok_live : ∀ i j a b, w_table w !! i = Some a → w_table w !! j = Some b → rivals a b → i = j;
  ok_called : w_called w = seq 0 (length (w_table w));
  ok_once : NoDup (w_billed w);
  ok_billed : ∀ pk, pk ∈ w_billed w → ∃ c, w_table w !! pk = Some c ∧ ch_status c ≠ st_failed;
  ok_success : ∀ pk c, w_table w !! pk = Some c → ch_status c = st_success → pk ∈ w_billed w;
  ok_claimed : NoDup (w_claims w);
  ok_claims : ∀ pk, pk ∈ w_claims w ↔ ∃ c, w_table w !! pk = Some c ∧ ch_fulfilled_at c ≠ None;
  ok_fulfilled : ∀ pk c, w_table w !! pk = Some c → ch_fulfilled_at c ≠ None → ch_status c = st_success
}.

(** The columns no update touches. *)
Definition identity (c : charge) : string * string * string * option (Z * Z) :=
  (ch_key c, ch_ref c, ch_purpose c, period_of c).

Lemma rivals_identity a b a' b' :
  identity a' = identity a → identity b' = identity b →
  (ch_status a = st_failed → ch_status a' = st_failed) →
  (ch_status b = st_failed → ch_status b' = st_failed) → rivals a' b' → rivals a b.
Proof.
  unfold identity, rivals, live_renewal, same_period. intros [= _ _ Hpa Hqa] [= _ _ Hpb Hqb] Ha Hb.
  rewrite Hpa, Hpb, Hqa, Hqb. rewrite !andb_true_iff, !negb_true_iff, !bool_decide_eq_false. naive_solver.
Qed.

Lemma clash_free n t :
  existsb (clash n) t = false →
  ∀ i c, t !! i = Some c → ch_key c ≠ ch_key n ∧ ch_ref c ≠ ch_ref n ∧ ¬ rivals c n.
Proof.
  intros H i c Hc. assert (clash n c = false) as Hn.
  { apply not_true_is_false. intros Ht. apply not_true_iff_false in H. apply H.
    apply existsb_exists. exists c. split; [|done].
    apply list_elem_of_In. by apply list_elem_of_lookup_2 with i. }
  unfold clash in Hn. apply orb_false_iff in Hn as [Hn H3].
  apply orb_false_iff in Hn as [H1%String.eqb_neq H2%String.eqb_neq]. split_and!; [done..|].
  intros (A & B & C). by rewrite A, B, C in H3.
Qed.

(** What an insertion does: nothing, or a row that clashes with none. *)
Lemma insert_cases c rq v ref now (t : table) :
  match insert_charge c rq v ref now t with
  | (inl _, t') => t' = t
  | (inr r, t') =>
      if r_created r
      then r = Result (length t) true ∧ t' = t ++ [new_charge c rq v ref now]
           ∧ existsb (clash (new_charge c rq v ref now)) t = false
      else t' = t
  end.
Proof.
  unfold insert_charge, catch, atomic. rewrite bind_run. unfold create at 1. rewrite bind_run. cbn [get].
  destruct (existsb _ _) eqn:E; [|by cbn]. cbn [raise]. rewrite bind_run. cbn [get].
  unfold _replay, refused.
  destruct (first_row _ t 0) as [e|]; [by destruct (_same_request _ _ _ _)|].
  destruct (if rq_subscription rq then _ else None) as [e|]; [by destruct (_same_request _ _ _ _)|done].
Qed.

Definition claimable (c : charge) : Prop := ch_status c = st_success ∧ ch_fulfilled_at c = None.

#[global] Instance claimable_dec c : Decision (claimable c).
Proof. unfold claimable. apply _. Defined.

Lemma claim_run pk now (t : table) :
  claim_fulfilment pk now t =
  match t !! pk with
  | Some row => if decide (claimable row) then (inr true, <[pk := set_fulfilled now row]> t) else (inr false, t)
  | None => (inr false, t)
  end.
Proof.
  unfold claim_fulfilment. rewrite bind_run. cbn [get]. destruct (t !! pk) as [row|]; [|done].
  unfold claimable. do 2 case_bool_decide; case_decide; cbn; naive_solver.
Qed.

Lemma validate_reads c rq (t : table) : preserves (λ x, x = t) (validate c rq).
Proof.
  unfold validate, refused. repeat case_match; eauto with prog.
  apply preserves_bind.
  - unfold ensure_configured, config_error. repeat case_match; eauto with prog.
  - intros _. apply preserves_catch; [|intros e k; case_match; intros [= <-]; eauto with prog].
    apply preserves_bind; [unfold normalize_msisdn, timwe_error; case_match; eauto with prog|]. intros m.
    apply preserves_bind.
    { apply preserves_bind; [|intros n; unfold amount_error; case_match; eauto with prog].
      unfold etb_to_timwe_amount, get_amount_scale, amount_error, config_error.
      repeat case_match; eauto with prog. }
    intros _. apply preserves_bind.
    { unfold validate_description, timwe_error. repeat case_match; eauto with prog. }
    intros text. apply preserves_bind; [|eauto with prog].
    unfold validate_currency, config_error. case_match; eauto with prog.
Qed.

Lemma validate_clean c rq (t : table) : (validate c rq t).2 = t.
Proof. by apply (validate_reads c rq t). Qed.

Lemma open_cases c rq ref now (t : table) :
  match request_open c rq ref now t with
  | (inl _, t') => t' = t
  | (inr r, t') =>
      if r_created r
      then ∃ v, validate c rq t = (inr v, t) ∧ r = Result (length t) true
           ∧ t' = t ++ [new_charge c rq v ref now]
           ∧ existsb (clash (new_charge c rq v ref now)) t = false
      else t' = t
  end.
Proof.
  unfold request_open. rewrite bind_run. pose proof (validate_clean c rq t) as Hv.
  destruct (validate c rq t) as [[e|v] t1] eqn:Hval; cbn in Hv; subst t1; [done|].
  rewrite bind_run. cbn [get]. unfold _replay, refused.
  destruct (first_row _ t 0) as [e|]; [by destruct (_same_request _ _ _ _)|].
  pose proof (insert_cases c rq v ref now t) as H.
  destruct (insert_charge c rq v ref now t) as [[e|r] t']; [done|]. destruct (r_created r); [|done].
  by exists v.
Qed.

Lemma validate_number c rq v (t t' : table) :
  validate c rq t = (inr v, t') → Phone.normalize_ethiopian_phone (Some (rq_msisdn rq)) = Some (v_msisdn v).
Proof.
  unfold validate. destruct (negb (cfg_charging_enabled c)); [done|]. destruct (String.eqb (rq_key rq) ""); [done|].
  intros (u & t1 & _ & H)%bind_ok. unfold catch in H.
  case_match eqn:E. destruct s as [e|v']; [by destruct (is_timwe_error e)|]. injection H as -> _.
  apply bind_ok in E as (m & t3 & Hm & E). unfold normalize_msisdn, timwe_error in Hm.
  destruct (Phone.normalize_ethiopian_phone _) as [n|]; [|done]. injection Hm as -> _.
  apply bind_ok in E as (? & ? & _ & E). apply bind_ok in E as (? & ? & _ & E).
  apply bind_ok in E as (? & ? & _ & E). by injection E as <- _.
Qed.

Lemma lookup_update (t : table) pk c c' i x :
  t !! pk = Some c → <[pk := c']> t !! i = Some x → i = pk ∧ x = c' ∨ i ≠ pk ∧ t !! i = Some x.
Proof.
  intros Hc H. destruct (decide (i = pk)) as [->|Hne].
  - rewrite list_lookup_insert_eq in H by (by eapply lookup_lt_Some). left. by simplify_eq.
  - rewrite list_lookup_insert_ne in H by done. by right.
Qed.

(** One row is rewritten, and perhaps its claim noted. *)
Lemma ok_update w pk c c' claims :
  world_ok w → w_table w !! pk = Some c → identity c' = identity c →
  (ch_status c = st_failed → ch_status c' = st_failed) →
  (pk ∈ w_billed w → ch_status c' ≠ st_failed) →
  (ch_status c' = st_success → pk ∈ w_billed w) →
  (ch_fulfilled_at c' ≠ None → ch_status c' = st_success) →
  NoDup claims → (∀ i, i ∈ claims ↔ i ≠ pk ∧ i ∈ w_claims w ∨ i = pk ∧ ch_fulfilled_at c' ≠ None) →
  world_ok (World (<[pk := c']> (w_table w)) (w_called w) (w_billed w) claims).
Proof.
  intros [] Hc Hid Hf Hb Hs Hful Hnd Hcl. pose proof Hid as [= Hk Hr _ _].
  assert (∀ (f : charge → string), f c' = f c → f <$> <[pk := c']> (w_table w) = f <$> w_table w) as Hsame.
  { intros f Hfc. rewrite list_fmap_insert, Hfc. apply list_insert_id.
    apply list_lookup_fmap_Some. by exists c. }
  split; cbn.
  - by rewrite Hsame.
  - by rewrite Hsame.
  - intros i j a b Ha Hb' Hriv.
    destruct (lookup_update _ _ _ _ _ _ Hc Ha) as [[-> ->]|[Hi Ha']],
      (lookup_update _ _ _ _ _ _ Hc Hb') as [[-> ->]|[Hj Hb'']]; [done| | |by apply (ok_live0 i j a b)].
    + eapply (ok_live0 pk j c b Hc Hb''), rivals_identity; [..|exact Hriv]; done.
    + eapply (ok_live0 i pk a c Ha' Hc), rivals_identity; [..|exact Hriv]; done.
  - by rewrite length_insert.
  - done.
  - intros i Hi. destruct (ok_billed0 i Hi) as (x & Hx & Hnf). destruct (decide (i = pk)) as [->|Hne].
    + exists c'. split; [|by apply Hb]. apply list_lookup_insert_eq. by eapply lookup_lt_Some.
    + exists x. by rewrite list_lookup_insert_ne.
  - intros i x Hx Hst. destruct (lookup_update _ _ _ _ _ _ Hc Hx) as [[-> ->]|[Hi Hx']]; eauto.
  - done.
  - intros i. rewrite Hcl, (ok_claims0 i). split.
    + intros [(Hi & x & Hx & Hxf)|[-> Hcf]].
      * exists x. by rewrite list_lookup_insert_ne.
      * exists c'. split; [|done]. apply list_lookup_insert_eq. by eapply lookup_lt_Some.
    + intros (x & Hx & Hxf). destruct (lookup_update _ _ _ _ _ _ Hc Hx) as [[-> ->]|[Hi Hx']]; eauto 6.
  - intros i x Hx Hxf. destruct (lookup_update _ _ _ _ _ _ Hc Hx) as [[-> ->]|[Hi Hx']]; eauto.
Qed.

(** A new PENDING row, for which the MA is called. *)
Lemma ok_append w n :
  world_ok w → existsb (clash n) (w_table w) = false → ch_status n = st_pending →
  ch_fulfilled_at n = None →
  world_ok (World (w_table w ++ [n]) (w_called w ++ [length (w_table w)]) (w_billed w) (w_claims w)).
Proof.
  intros [] Hfree Hst Hful. pose proof (clash_free n (w_table w) Hfree) as Hno.
  assert (∀ (f : charge → string), NoDup (f <$> w_table w) → (∀ i c, w_table w !! i = Some c → f c ≠ f n) →
    NoDup (f <$> (w_table w ++ [n]))) as Hnd.
  { intros f H Hf. rewrite fmap_app. apply NoDup_app. split_and!; [done| |apply NoDup_singleton].
    intros x (c & -> & [i Hi]%list_elem_of_lookup)%list_elem_of_fmap Heq%list_elem_of_singleton.
    by apply (Hf i c Hi). }
  assert (∀ i c, (w_table w ++ [n]) !! i = Some c →
    w_table w !! i = Some c ∨ i = length (w_table w) ∧ c = n) as Hlook.
  { intros i c Hi. destruct (decide (i < length (w_table w))%nat) as [Hlt|Hge].
    - left. by rewrite lookup_app_l in Hi.
    - right. rewrite lookup_app_r in Hi by lia. apply list_lookup_singleton_Some in Hi. split; [lia|naive_solver]. }
  assert (∀ a b, rivals a b → rivals b a) as Hsym.
  { unfold rivals, same_period. intros a b (? & ? & H). split_and!; try done.
    destruct (period_of a), (period_of b); try done. by rewrite bool_decide_eq_true in *. }
  assert (∀ pk c, w_table w !! pk = Some c → (w_table w ++ [n]) !! pk = Some c) as Hmono
    by (intros pk c H; by apply lookup_app_l_Some).
  split; cbn.
  - apply Hnd; [done|]. by intros i c (? & ? & ?)%Hno.
  - apply Hnd; [done|]. by intros i c (? & ? & ?)%Hno.
  - intros i j a b [Ha|[-> ->]]%Hlook [Hb|[-> ->]]%Hlook Hr; [by apply (ok_live0 i j a b)| | |done].
    + destruct (Hno i a Ha) as (_ & _ & H). by destruct H.
    + destruct (Hno j b Hb) as (_ & _ & H). by destruct H; apply Hsym.
  - by rewrite ok_called0, length_app, Nat.add_1_r, seq_S.
  - done.
  - intros pk (c & Hc & H)%ok_billed0. eauto.
  - intros pk c [Hc|[-> ->]]%Hlook H; [eauto|congruence].
  - done.
  - intros pk. rewrite ok_claims0. split; [naive_solver|]. intros (c & [Hc|[-> ->]]%Hlook & H); [eauto|done].
  - intros pk c [Hc|[-> ->]]%Hlook H; [eauto|done].
Qed.

Lemma ok_bill w pk :
  world_ok w → ma_ok (Bill pk) w = true → world_ok (exec (Bill pk) w).
Proof.
  intros [] Hma. cbn in Hma. apply andb_true_iff in Hma as [Hma Hc].
  apply andb_true_iff in Hma as [_ Hnew%bool_decide_eq_true].
  destruct (w_table w !! pk) as [c|] eqn:E; [|done]. apply negb_true_iff, bool_decide_eq_false in Hc.
  split; cbn; try done.
  - apply NoDup_app. split_and!; [done| |apply NoDup_singleton].
    by intros x Hx ->%list_elem_of_singleton.
  - intros x [Hx| ->%list_elem_of_singleton]%elem_of_app; eauto.
  - intros x y Hy Hst. apply elem_of_app. eauto.
Qed.

Lemma exec_ok e w : world_ok w → ma_ok e w = true → world_ok (exec e w).
Proof.
  intros Hw Hma. destruct w as [t called billed claims]. destruct e as [c rq ref now|c rq v ref now|pk|pk a now|pk now]; cbn -[ma_ok].
  - pose proof (open_cases c rq ref now t) as H. unfold opened; cbn.
    destruct (request_open c rq ref now t) as [[e|r] t']; cbn; [by subst t'|].
    destruct (r_created r); [|by subst t'].
    destruct H as (v & _ & -> & -> & Hfree). cbn. by apply (ok_append (World t called billed claims)).
  - pose proof (insert_cases c rq v ref now t) as H. unfold opened; cbn.
    destruct (insert_charge c rq v ref now t) as [[e|r] t']; cbn; [by subst t'|].
    destruct (r_created r); [|by subst t'].
    destruct H as (-> & -> & Hfree). cbn. by apply (ok_append (World t called billed claims)).
  - by apply (ok_bill (World t called billed claims)).
  - cbn in Hma. unfold record_outcome. destruct (outcome_of a) as [[o code] message]. cbn in Hma |- *.
    destruct (t !! pk) as [row|] eqn:Hrow; [|done].
    destruct (bool_decide (ch_status row = st_pending)) eqn:Hpend; [|done].
    apply bool_decide_eq_true in Hpend.
    apply andb_true_iff in Hma as [Hneg Hpos]. pose proof Hw as []. cbn in *.
    assert (ch_fulfilled_at row = None) as Hnf.
    { destruct (ch_fulfilled_at row) eqn:E; [|done].
      assert (ch_status row = st_success) by (apply (ok_fulfilled0 pk row Hrow); by rewrite E). congruence. }
    apply (ok_update (World t called billed claims) pk row); cbn; try done.
    + by rewrite Hpend.
    + intros Hin Hbad. destruct o; try done; cbn in Hneg; apply bool_decide_eq_true in Hneg; by apply Hneg.
    + intros Hst. destruct o; try done. by apply bool_decide_eq_true in Hpos.
    + intros i. rewrite Hnf. destruct (decide (i = pk)) as [->|]; [|naive_solver].
      split; [|naive_solver]. rewrite ok_claims0. intros (x & Hx & Hne). simplify_eq.
  - rewrite claim_run. destruct (t !! pk) as [row|] eqn:Hrow; [|done].
    destruct (decide (claimable row)) as [[Hs Hn]|]; [|done]. cbn. pose proof Hw as []. cbn in *.
    assert (pk ∉ claims) as Hfresh by (rewrite ok_claims0; intros (x & Hx & Hne); simplify_eq).
    apply (ok_update (World t called billed claims) pk row); cbn; try done.
    + intros _. rewrite Hs. done.
    + intros _. eauto.
    + apply NoDup_app. split_and!; [done| |apply NoDup_singleton]. by intros x Hx ->%list_elem_of_singleton.
    + intros i. rewrite elem_of_app, list_elem_of_singleton.
      destruct (decide (i = pk)) as [->|]; naive_solver.
Qed.

Lemma fresh_ok : world_ok fresh_world.
Proof. split; cbn; try constructor; try done; set_solver. Qed.

Lemma run_ok es w : world_ok w → trusts es w = true → world_ok (run es w).
Proof.
  revert w. induction es as [|e es IH]; intros w Hw Ht; [done|]. cbn in Ht |- *.
  apply andb_true_iff in Ht as [He Ht]. by apply IH; [apply exec_ok|].
Qed.
(** A row that may have taken the money of a period keeps others out. *)
Lemma live_blocks c rq v ref now (t : table) i a :
  t !! i = Some a → live_renewal a = true → rq_purpose rq = SUBSCRIPTION_RENEWAL →
  period_of a = match rq_subscription rq, rq_period_end rq with Some s, Some e => Some (s, e) | _, _ => None end →
  is_Some (period_of a) → existsb (clash (new_charge c rq v ref now)) t = true.
Proof.
  intros Ha Hlive Hp Hper [p Hs]. apply existsb_exists. exists a.
  split; [apply list_elem_of_In; by eapply list_elem_of_lookup_2|].
  set (n := new_charge c rq v ref now).
  assert (live_renewal n = true) as Hn by (unfold live_renewal; cbn; by rewrite Hp).
  assert (same_period a n = true) as Hsame.
  { unfold same_period. assert (period_of n = period_of a) as -> by done. rewrite Hs. by apply bool_decide_eq_true. }
  unfold clash. by rewrite Hlive, Hn, Hsame, orb_true_r.
Qed.

Definition asks_for (rq : request) (p : Z * Z) : Prop :=
  rq_purpose rq = SUBSCRIPTION_RENEWAL ∧ rq_subscription rq = Some p.1 ∧ rq_period_end rq = Some p.2.

(** A charge whose outcome is recorded keeps it: all that happens to its row
    is that a success is fulfilled. *)
Lemma exec_settled e w pk c : w_table w !! pk = Some c → ch_status c ≠ st_pending →
  ∃ c', w_table (exec e w) !! pk = Some c' ∧ (c' = c ∨ claimable c ∧ ∃ now, c' = set_fulfilled now c).
Proof.
  intros Hc Hst. destruct e as [cf rq ref now|cf rq v ref now|i|i a now|i now]; cbn.
  - pose proof (open_cases cf rq ref now (w_table w)) as H. unfold opened. cbn.
    destruct (request_open cf rq ref now (w_table w)) as [[e|r] t']; cbn; [subst t'; eauto|].
    destruct (r_created r); [|subst t'; eauto]. destruct H as (v & _ & _ & -> & _). exists c. split; [by apply lookup_app_l_Some|by left].
  - pose proof (insert_cases cf rq v ref now (w_table w)) as H. unfold opened. cbn.
    destruct (insert_charge cf rq v ref now (w_table w)) as [[e|r] t']; cbn; [subst t'; eauto|].
    destruct (r_created r); [|subst t'; eauto]. destruct H as (_ & -> & _). exists c. split; [by apply lookup_app_l_Some|by left].
  - eauto.
  - exists c. split; [|by left]. unfold record_outcome. destruct (outcome_of a) as [[o code] message]. cbn.
    destruct (w_table w !! i) as [row|] eqn:Hrow; [|done]. case_bool_decide as Hp; [|done].
    rewrite list_lookup_insert_ne; [done|]. congruence.
  - rewrite claim_run. destruct (w_table w !! i) as [row|] eqn:Hrow; [|eauto]. case_decide as Hcl; [|eauto]. cbn.
    destruct (decide (i = pk)) as [->|Hne]; [|rewrite list_lookup_insert_ne by done; eauto].
    simplify_eq. exists (set_fulfilled now c). split; [apply list_lookup_insert_eq; by eapply lookup_lt_Some|eauto].
Qed.

(** C11.  Nobody is charged twice.  Take any interleaving of requests -- a
    request may act on a lookup made earlier --, of the MA taking money, of
    answers being recorded and of fulfilments being claimed, and rely on the
    MA only for this: one call takes money at most once, a refusal takes none,
    a confirmation took some.  Then the MA is called exactly once for each
    charge; every idempotency key and every reference names one charge; a
    renewal period has at most one charge that did not fail, and at most one
    that took money; an outcome that was recorded is never recorded over,
    whatever comes next; each charge is fulfilled at most once, and only if
    its money was taken; and while a period has a charge that did not fail, no
    request for it creates another. *)
Theorem charges_bill_once es :
  trusts es fresh_world = true →
  let w := run es fresh_world in
  w_called w = seq 0 (length (w_table w)) ∧ NoDup (ch_key <$> w_table w) ∧ NoDup (ch_ref <$> w_table w) ∧ NoDup (w_billed w)
  ∧ (∀ i j a b, w_table w !! i = Some a → w_table w !! j = Some b →
       live_renewal a = true → live_renewal b = true → same_period a b = true → i = j)
  ∧ (∀ i j a b, i ∈ w_billed w → j ∈ w_billed w → w_table w !! i = Some a → w_table w !! j = Some b →
       ch_purpose a = SUBSCRIPTION_RENEWAL → ch_purpose b = SUBSCRIPTION_RENEWAL →
       same_period a b = true → i = j)
  ∧ (∀ e pk a, w_table w !! pk = Some a → ch_status a ≠ st_pending →
       ∃ b, w_table (exec e w) !! pk = Some b ∧ (b = a ∨ claimable a ∧ ∃ now, b = set_fulfilled now a))
  ∧ NoDup (w_claims w) ∧ (∀ pk, pk ∈ w_claims w → pk ∈ w_billed w)
  ∧ ∀ i a p c rq ref now, w_table w !! i = Some a → live_renewal a = true → period_of a = Some p →
      asks_for rq p → w_called (exec (Open c rq ref now) w) = w_called w.
Proof.
  intros Ht w. pose proof (run_ok es fresh_world fresh_ok Ht) as Hok. fold w in Hok.
  pose proof Hok as []. split_and!; try done.
  - intros i j a b Ha Hb Hla Hlb Hsame. by apply (ok_live0 i j a b).
  - intros i j a b Hi Hj Ha Hb Hpa Hpb Hsame. apply (ok_live0 i j a b Ha Hb).
    destruct (ok_billed0 i Hi) as (x & Hx & Hxf), (ok_billed0 j Hj) as (y & Hy & Hyf). simplify_eq.
    unfold rivals, live_renewal. rewrite Hpa, Hpb, !bool_decide_eq_false_2 by done. done.
  - intros e pk a. apply exec_settled.
  - intros pk (c & Hc & Hful)%ok_claims0. eauto.
  - intros i a [s e] c rq ref now Ha Hlive Hper (Hp & Hs & He). cbn in Hs, He. cbn. unfold opened.
    pose proof (open_cases c rq ref now (w_table w)) as H.
    destruct (request_open c rq ref now (w_table w)) as [[x|r] t']; cbn; [done|].
    destruct (r_created r); [|done]. destruct H as (v & _ & _ & _ & Hfree).
    rewrite (live_blocks c rq v ref now _ i a) in Hfree; [done|done|done|done| |by rewrite Hper].
    by rewrite Hs, He.
Qed.

(** ** Coins bought with airtime *)

Record shop := Shop { sh_charges : table; sh_packages : gmap Z package; sh_coins : CoinBalance.wallet }.

Definition in_charges {A} : M table A → M shop A :=
  zoom sh_charges (λ t s, Shop t (sh_packages s) (sh_coins s)).
Definition in_coins {A} : M CoinBalance.wallet A → M shop A :=
  zoom sh_coins (λ w s, Shop (sh_charges s) (sh_packages s) w).

(** [allowed_pay_methods] and [validate_pay_method], for a price in cents. *)
Definition AIRTIME_MAX_ETB : Z := 1000.
Definition airtime_allowed (price : Z) : bool := (0 <? price) && (price <=? AIRTIME_MAX_ETB).

(** [purchase_coins_with_airtime], up to the call; [service] is
    [ondemand_service_id()]. *)
Definition purchase_open (c : settings) (user : Z) (phone : string) (p : package) (key ref service : string)
    (now : Z) : M shop result :=
  if negb (pk_is_active p)
  then raise (TimweError "AirtimePurchaseRefused" "This coin package is not available.")
  else if negb (airtime_allowed (pk_price_etb p))
  then raise (ValidationError "Airtime can only be used for purchases of 10 ETB or less.")
  else if String.eqb phone ""
  then raise (TimweError "AirtimePurchaseRefused" "Add and verify a phone number on your account to pay with airtime.")
  else in_charges (request_open c
         (Request user phone (pk_price_etb p) ("FlipStar " +:+ pk_name p) key (Some (pk_id p))
            COIN_PURCHASE None None service) ref now).

Definition fulfil_coin_purchase (pk : nat) (now : Z) : M shop (option CoinBalance.coin_tx) :=
  s ← get;
  match sh_charges s !! pk with
  | None => mret None
  | Some charge =>
  match ch_package charge with
  | None => raise (TimweError "TimweError" "This charge did not pay for a coin package.")
  | Some id =>
      atomic (
        claimed ← in_charges (claim_fulfilment pk now);
        if negb claimed then mret None
        else match sh_packages s !! id with
        | None => raise (DoesNotExist "CoinPackage")
        | Some p =>
            in_coins (balance ← CoinBalance.get_or_create (ch_user charge) now;
              '(t, _) ← CoinBalance.add_purchased balance (get_total_coins p) "purchase" "airtime"
                (CoinBalance.TxKwargs (Some id) (ch_ref charge) None None 0
                   (prefix_of 255 ("Airtime purchase: " +:+ pk_name p))) now;
              mret (Some t))
        end)
  end end.

Lemma fulfil_err pk now s e s' : fulfil_coin_purchase pk now s = (inl e, s') → s' = s.
Proof.
  unfold fulfil_coin_purchase. rewrite bind_run. cbn [get].
  destruct (sh_charges s !! pk) as [c|]; [|done]. destruct (ch_package c); [apply atomic_err|].
  by intros [= _ <-].
Qed.

Lemma giftable_credited u user now r' t w x :
  CoinBalance.giftable_balance r' = CoinBalance.giftable_balance (CoinBalance.row_of user now w) + x →
  CoinBalance.giftable_of u (CoinBalance.credited user r' t w)
  = CoinBalance.giftable_of u w + if decide (u = user) then x else 0.
Proof.
  intros H. unfold CoinBalance.giftable_of, CoinBalance.credited. cbn. destruct (decide (u = user)) as [->|Hne].
  - rewrite lookup_insert_eq, H. unfold CoinBalance.row_of. destruct (CoinBalance.w_rows w !! user); cbn; lia.
  - rewrite lookup_insert_ne by done. lia.
Qed.

(** What a fulfilled purchase changed. *)
Definition paid_out (pk : nat) (c : charge) (p : package) (now : Z) (s s' : shop) : Prop :=
  sh_charges s' = <[pk := set_fulfilled now c]> (sh_charges s)
  ∧ CoinBalance.wallet_ok (sh_coins s')
  ∧ ∀ u, CoinBalance.total_of u (sh_coins s')
         = CoinBalance.total_of u (sh_coins s) + (if decide (u = ch_user c) then get_total_coins p else 0)
    ∧ CoinBalance.giftable_of u (sh_coins s') = CoinBalance.giftable_of u (sh_coins s).

(** An airtime purchase pays out once.  Fulfilling a charge that
    succeeded and was not fulfilled credits its user, and nobody else, exactly
    the package's coins, none of which can be gifted; fulfilling any other
    charge, or the same one again, does nothing; and whenever the credit
    raises, the claim is rolled back with it, so the charge can be fulfilled
    later. *)
Theorem airtime_coins_paid_once pk now now' s c id p :
  CoinBalance.wallet_ok (sh_coins s) → sh_charges s !! pk = Some c →
  ch_package c = Some id → sh_packages s !! id = Some p → 0 < get_total_coins p →
  let r := fulfil_coin_purchase pk now s in
  (if decide (claimable c)
   then (∃ t, r.1 = inr (Some t) ∧ CoinBalance.ct_coins t = get_total_coins p
              ∧ CoinBalance.ct_payment_reference t = ch_ref c)
        ∧ paid_out pk c p now s r.2
        ∧ fulfil_coin_purchase pk now' r.2 = (inr None, r.2)
   else r = (inr None, s))
  ∧ ∀ i t e s', fulfil_coin_purchase i t s = (inl e, s') → s' = s.
Proof.
  intros Hw Hc Hid Hp Hn r. split; [|intros i t e s'; apply fulfil_err].
  assert (∀ t, t !! pk = Some (set_fulfilled now c) → (claim_fulfilment pk now' t) = (inr false, t)) as Hagain.
  { intros t Ht. rewrite claim_run, Ht. by rewrite decide_False by (intros [_ [=]]). }
  assert (r = (if decide (claimable c)
     then fulfil_coin_purchase pk now s else (inr None, s))) as Hr.
  { case_decide as Hcl; [done|]. unfold r, fulfil_coin_purchase. rewrite bind_run. cbn [get].
    rewrite Hc, Hid. unfold atomic. rewrite bind_run. unfold in_charges at 1. rewrite zoom_run, claim_run, Hc.
    rewrite decide_False by done. cbn. by destruct s. }
  rewrite Hr. case_decide as Hcl; [|done]. clear r Hr.
  set (kw := CoinBalance.TxKwargs (Some id) (ch_ref c) None None 0
               (prefix_of 255 ("Airtime purchase: " +:+ pk_name p))).
  destruct (CoinBalance.add_purchased_credit (ch_user c) (get_total_coins p) "purchase" "airtime" kw now
    (sh_coins s) Hw Hn eq_refl) as (r' & l & Hrun & Hmv & Hg).
  set (t := CoinBalance.new_tx (ch_user c) "purchase" (get_total_coins p) "airtime" kw now) in *.
  assert (fulfil_coin_purchase pk now s
    = (inr (Some t), Shop (<[pk := set_fulfilled now c]> (sh_charges s)) (sh_packages s)
         (CoinBalance.credited (ch_user c) r' t (sh_coins s)))) as ->.
  { unfold fulfil_coin_purchase. rewrite bind_run. cbn [get]. rewrite Hc, Hid. unfold atomic. rewrite bind_run.
    unfold in_charges at 1. rewrite zoom_run, claim_run, Hc, decide_True by done. cbn [fst snd negb sh_packages].
    rewrite Hp. unfold in_coins at 1. rewrite zoom_run. cbn [sh_coins]. fold kw.
    rewrite bind_run. rewrite bind_run in Hrun.
    destruct (CoinBalance.get_or_create _ _ _) as [[e|self] w1]; [done|].
    rewrite bind_run, Hrun. done. }
  cbn [fst snd].
  destruct (CoinBalance.credited_ok (ch_user c) (get_total_coins p) now r' t (sh_coins s) Hw Hmv eq_refl eq_refl)
    as [Hw' Htot].
  split_and!.
  - by exists t.
  - split_and!; [done..|]. intros u. split; [apply Htot|].
    cbn [sh_coins]. rewrite (giftable_credited u (ch_user c) now r' t _ 0 Hg). destruct (decide _); lia.
  - unfold fulfil_coin_purchase. rewrite bind_run. cbn [get sh_charges].
    assert (<[pk := set_fulfilled now c]> (sh_charges s) !! pk = Some (set_fulfilled now c)) as Hl
      by (apply list_lookup_insert_eq; by eapply lookup_lt_Some).
    rewrite Hl. cbn [ch_package set_fulfilled]. rewrite Hid. unfold atomic. rewrite bind_run.
    unfold in_charges at 1. rewrite zoom_run. cbn [sh_charges]. by rewrite Hagain.
Qed.

(** ** A timeout, a second request, and a late charge *)

Definition example_settings : settings :=
  Settings true "https://ma/charge" "sp" "pw" "" "7331" "ETB" (Some 100) (Some 60) "".
Definition renewal_request (attempt : string) : request :=
  Request 1 "0944365493" 2000 "FlipStar weekly renewal" ("sub-renewal:9:" +:+ attempt) None
    SUBSCRIPTION_RENEWAL (Some 9) (Some 1000) "".

Definition example_events : list event :=
  [Open example_settings (renewal_request "1") "FS1" 10; Recorded 0 (Answered o_rejected "SVC0001" "NO_BALANCE") 11;
   Open example_settings (renewal_request "2") "FS2" 4000; Recorded 1 (Answered o_timeout "" "") 4060;
   Open example_settings (renewal_request "3") "FS3" 8000; Bill 1].

Lemma charges_bill_once_witness :
  let w := run example_events fresh_world in
  length (w_table w) = 2%nat ∧ ch_status <$> w_table w = [st_failed; st_timeout]
  ∧ w_billed w = [1%nat] ∧ w_called w = [0%nat; 1%nat] ∧ NoDup (ch_key <$> w_table w)
  ∧ w_called (exec (Open example_settings (renewal_request "4") "FS4" 9000) w) = w_called w.
Proof.
  destruct (charges_bill_once example_events eq_refl) as (Hc & Hk & _ & _ & _ & _ & _ & _ & _ & Hblock).
  split_and!; [vm_compute; reflexivity..| |].
  - exact Hk.
  - eapply (Hblock 1%nat _ (9, 1000)); [vm_compute; reflexivity..|]. by split.
Defined.

Definition example_package : package := Package 3 "Starter" 1000 100 0 false 0 true.
Definition example_shop : shop :=
  Shop [Charge 1 "k" "FS1" "251944365493" 10 "ETB" "FlipStar Starter" (Some 3) COIN_PURCHASE None None ""
          st_success (Some o_success) "" "" false 0 (Some 1) None]
    (<[3 := example_package]> ∅) CoinBalance.no_wallets.

Lemma airtime_coins_paid_once_witness :
  let r := fulfil_coin_purchase 0 50 example_shop in
  CoinBalance.total_of 1 (sh_coins r.2) = 100 ∧ CoinBalance.giftable_of 1 (sh_coins r.2) = 0
  ∧ fulfil_coin_purchase 0 60 r.2 = (inr None, r.2).
Proof.
  split; [vm_compute; reflexivity|]. split; [vm_compute; reflexivity|].
  pose proof (airtime_coins_paid_once 0 50 60 example_shop _ 3 example_package
    CoinBalance.wallet_ok_empty eq_refl eq_refl eq_refl eq_refl) as [H _].
  rewrite decide_True in H by done. apply H.
Defined.

End Charging.
