(* ===== verification/Renewal.v ===== *)
(** * Renewal: charging a lapsed short-code subscription again

    Models [src/api/services/subscription_renewal.py] over the plans of
    [Subscriptions], the charges of [Charging] and the gift signal of
    [SubscriptionGift].

    [check_and_renew_subscription] calls the MA in its middle, so it is
    [renew_begin], which may end with a charge to call the MA for,
    [Charging.record_outcome], and [renew_finish].  The text message a renewal
    queues, and the logs, are left out. *)

From Stdlib Require Import ZArith Lia.
From stdpp Require Import sorting.
From S2P Require Import Prelude CoinBalance Phone Subscriptions SubscriptionGift Charging.

Module Renewal.
Import Subscriptions.

(** ** Data *)

(** The columns of [SubscriptionPlan] billing reads; [b_service_id] is
    [metadata.get('service_id')], stripped. *)
Record billing := Billing {
  b_payment_method : string; b_source : string; b_phone : string; b_service_id : string
}.
(** Those of [SubscriptionTier]; the price in cents. *)
Record pricing := Pricing { pr_price_etb : Z; pr_short_code : string; pr_service_id : string }.

Record settings := Settings {
  rn_charging : Charging.settings; rn_renewal_enabled : bool; rn_short_code : string;
  rn_retry_minutes : Z; rn_window_days : Z
}.

(** A [SubscriptionPayment] with its provider reference, unique in the table,
    and its amount. *)
Record paid := Paid { pd_payment : SubscriptionGift.payment; pd_reference : string; pd_amount : Z }.

Record history := History { h_plan : Z; h_user : option Z; h_action : string; h_reference : string }.

Record store := Store {
  r_subs : Subscriptions.store;
  r_billing : gmap Z billing;
  r_pricing : gmap Z pricing;
  r_phones : gmap Z string;
  r_charges : list Charging.charge;
  r_payments : list paid;
  r_history : list history
}.

Definition in_subs {A} : M Subscriptions.store A → M store A :=
  zoom r_subs (λ x s, Store x (r_billing s) (r_pricing s) (r_phones s) (r_charges s) (r_payments s) (r_history s)).
Definition in_charges {A} : M (list Charging.charge) A → M store A :=
  zoom r_charges (λ x s, Store (r_subs s) (r_billing s) (r_pricing s) (r_phones s) x (r_payments s) (r_history s)).
Definition add_payment (p : paid) : M store unit :=
  s ← get;
  if existsb (λ q, String.eqb (pd_reference q) (pd_reference p)) (r_payments s)
  then raise (IntegrityError "subscription_payments")
  else put (Store (r_subs s) (r_billing s) (r_pricing s) (r_phones s) (r_charges s)
              (r_payments s ++ [p]) (r_history s)).
Definition add_history (h : history) : M store unit :=
  modify (λ s, Store (r_subs s) (r_billing s) (r_pricing s) (r_phones s) (r_charges s)
                 (r_payments s) (r_history s ++ [h])).

(** [RenewalStatus]. *)
Inductive state := ACTIVE | RENEWED | PAYMENT_PENDING | EXPIRED | INACTIVE.
Inductive reason :=
| NO_REASON | REASON_DUE | REASON_DISABLED | REASON_FAILED | REASON_AWAITING | REASON_UNAPPLIED
| REASON_NO_MSISDN | REASON_MSISDN_MISMATCH | REASON_NOT_ATTEMPTED | REASON_WRONG_SERVICE
| REASON_SUPERSEDED.
Record status := Status {
  st_state : state; st_plan : option plan; st_charge : option (nat * Charging.charge); st_reason : reason
}.

#[export] Instance state_eq_dec : EqDecision state.
Proof. solve_decision. Defined.
#[export] Instance reason_eq_dec : EqDecision reason.
Proof. solve_decision. Defined.

Definition renewal_enabled (c : settings) : bool :=
  Charging.cfg_charging_enabled (rn_charging c) && rn_renewal_enabled c.

Definition MIN_RETRY_MINUTES : Z := 10.
Definition retry_interval (c : settings) : Z := Z.max (rn_retry_minutes c) MIN_RETRY_MINUTES * minute.
Definition renewal_window (c : settings) : Z := Z.max (rn_window_days c) 1 * day.
(** [retry_interval() * RETRY_EARLY]: nine tenths of a whole number of minutes. *)
Definition retry_early (c : settings) : Z := retry_interval c * 9 / 10.

(** [SMS_SHORT_CODE], or ['9286']. *)
Definition short_code (c : settings) : string := or_str (rn_short_code c) "9286".

(** ** Which plans lapsed *)

Definition renewable_status (st : pstatus) : bool :=
  match st with active | expired | grace_period => true | _ => false end.

Definition tier_pricing (p : plan) (s : store) : option pricing :=
  match sp_tier p with Some t => r_pricing s !! t | None => None end.

(** The filter of [_renewable_plans]. *)
Definition renewable (c : settings) (now : Z) (s : store) (p : plan) : bool :=
  match r_billing s !! sp_id p, sp_end p, tier_of p (r_subs s), tier_pricing p s with
  | Some b, Some e, Some t, Some pr =>
      String.eqb (b_payment_method b) "timwe" && String.eqb (b_source b) "sms"
      && renewable_status (sp_status p)
      && (e <=? now) && (now - renewal_window c <=? e)
      && String.eqb (pr_short_code pr) (short_code c)
      && match tr_duration_days t with Some d => 0 <? d | None => false end
      && (0 <? pr_price_etb pr)
  | _, _, _, _ => false
  end.

Definition end_or_0 (p : plan) : Z := default 0 (sp_end p).

(** [order_by('-end_date')]. *)
Definition later (p q : plan) : Prop := end_or_0 q <= end_or_0 p.
#[export] Instance later_dec p q : Decision (later p q).
Proof. unfold later. apply _. Defined.

Definition _renewable_plans (c : settings) (now : Z) (s : store) : list plan :=
  merge_sort later (filter (λ p, renewable c now s p = true) (snd <$> map_to_list (s_plans (r_subs s)))).

Definition charging_service_id (p : plan) (s : store) : string :=
  match tier_pricing p s with Some pr => strip (pr_service_id pr) | None => "" end.

Definition _for_this_service (c : settings) (s : store) (p : plan) : bool :=
  let effective := or_str (charging_service_id p s) (Charging.get_service_id (rn_charging c)) in
  let plan_service := match r_billing s !! sp_id p with Some b => b_service_id b | None => "" end in
  String.eqb effective "" || String.eqb plan_service "" || String.eqb plan_service effective.

Definition lapsed_short_code_plan (c : settings) (user now : Z) (s : store) : option plan :=
  head (filter (λ p, sp_user p = Some user ∧ _for_this_service c s p = true) (_renewable_plans c now s)).

(** ** The charges of a period *)

Definition _period_charge (p : plan) (c : Charging.charge) : bool :=
  String.eqb (Charging.ch_purpose c) Charging.SUBSCRIPTION_RENEWAL
  && bool_decide (Charging.ch_subscription c = Some (sp_id p))
  && bool_decide (Charging.ch_period_end c = sp_end p).

Definition existing_renewal_charge (p : plan) (s : store) : option (nat * Charging.charge) :=
  Charging.first_row (_period_charge p) (r_charges s) 0.

Definition next_attempt (p : plan) (s : store) : Z :=
  Z.of_nat (length (filter (λ c, _period_charge p c = true) (r_charges s))) + 1.

(** [datetime.isoformat()] of a UTC instant. *)
Definition iso_instant (t : Z) : string :=
  let x := t mod day in
  let us := x mod second in
  isoformat (t / day) +:+ "T" +:+ pad2 (x / hour) +:+ ":" +:+ pad2 (x mod hour / minute) +:+ ":"
  +:+ pad2 (x mod minute / second)
  +:+ (if us =? 0 then "" else "." +:+ String.substring 1 6 (str_int (1000000 + us))) +:+ "+00:00".

Definition renewal_idempotency_key (p : plan) (attempt : Z) : string :=
  let key := "sub-renewal:" +:+ str_int (sp_id p) +:+ ":" +:+ iso_instant (end_or_0 p) in
  if attempt <=? 1 then key else key +:+ ":" +:+ str_int attempt.

Definition _may_try_again (c : settings) (ch : Charging.charge) (now : Z) : bool :=
  bool_decide (Charging.ch_status ch = Charging.st_failed)
  && (Charging.ch_created_at ch + retry_early c <=? now).

(** The account's own number, which must be the one that subscribed. *)
Definition _charge_number (user : Z) (p : plan) (s : store) : string * reason :=
  match Phone.normalize_ethiopian_phone (Some (default "" (r_phones s !! user))) with
  | None => ("", REASON_NO_MSISDN)
  | Some registered =>
      match Phone.normalize_ethiopian_phone
              (Some (match r_billing s !! sp_id p with Some b => b_phone b | None => "" end)) with
      | Some subscribed => if String.eqb subscribed registered then (registered, NO_REASON)
                           else (registered, REASON_MSISDN_MISMATCH)
      | None => (registered, NO_REASON)
      end
  end.

Definition _status_from_charge (p : plan) (ch : nat * Charging.charge) : status :=
  if bool_decide (Charging.ch_status ch.2 = Charging.st_success)
  then Status PAYMENT_PENDING (Some p) (Some ch) REASON_UNAPPLIED
  else if Charging.is_ambiguous ch.2 then Status PAYMENT_PENDING (Some p) (Some ch) REASON_AWAITING
  else Status EXPIRED (Some p) (Some ch) REASON_FAILED.

Definition subscription_status (c : settings) (user now : Z) (s : store) : status :=
  if has_active_subscription user now (r_subs s) then Status ACTIVE None None NO_REASON
  else match lapsed_short_code_plan c user now s with
  | None => Status INACTIVE None None NO_REASON
  | Some p =>
      let due := Status EXPIRED (Some p) (existing_renewal_charge p s)
                   (if renewal_enabled c then REASON_DUE else REASON_DISABLED) in
      match existing_renewal_charge p s with
      | Some ch => if _may_try_again c ch.2 now then due else _status_from_charge p ch
      | None => due
      end
  end.

(** ** Applying a confirmed charge *)

(** The columns [apply_renewal] saves. *)
Definition renewed (now starts d : Z) (p : plan) : plan :=
  let e := Some (starts + d * day) in
  set_grace active None None (set_period active (Some now) e e p).

(** [starts]: a period that ran out begins now, one still running is extended. *)
Definition renewal_start (p : plan) (now : Z) : Z :=
  match sp_end p with Some e => if now <? e then e else now | None => now end.

(** [payment_id] is the new [SubscriptionPayment]'s key; saving it runs the
    gift signal of [SubscriptionGift]. *)
Definition apply_txn (pk : nat) (ch : Charging.charge) (payment_id : string) (now : Z) : M store bool :=
  atomic (
    claimed ← in_charges (Charging.claim_fulfilment pk now);
    if negb claimed then mret false
    else
      s ← get;
      match (match Charging.ch_subscription ch with Some i => s_plans (r_subs s) !! i | None => None end) with
      | None => raise (DoesNotExist "SubscriptionPlan")
      | Some p =>
          match tier_of p (r_subs s) with
          | None => raise (TypeError "'NoneType' object has no attribute 'duration_days'")
          | Some t =>
              match tr_duration_days t with
              | None => raise (TypeError "unsupported type for timedelta days component: NoneType")
              | Some d =>
                  let columns := renewed now (renewal_start p now) d in
                  in_subs (save_fields columns p) ≫= λ _,
                  let p := columns p in
                  let pay := SubscriptionGift.Payment payment_id (sp_id p) (sp_user p) "completed"
                               (Some now) (end_or_0 p) in
                  add_payment (Paid pay (Charging.ch_ref ch) (Charging.ch_amount ch)) ≫= λ _,
                  in_subs (SubscriptionGift.grant_subscription_gift pay now) ≫= λ _,
                  add_history (History (sp_id p) (sp_user p) "renewed" (Charging.ch_ref ch)) ≫= λ _,
                  mret true
              end
          end
      end).

Definition apply_renewal (pk : nat) (payment_id : string) (now : Z) : M store bool :=
  s ← get;
  match r_charges s !! pk with
  | None => mret false
  | Some ch =>
      if negb (String.eqb (Charging.ch_purpose ch) Charging.SUBSCRIPTION_RENEWAL)
         || bool_decide (Charging.ch_subscription ch = None)
      then raise (ValueError "This charge did not pay for a subscription renewal.")
      else catch (apply_txn pk ch payment_id now) (λ _, Some (mret false))
  end.

Definition _after_apply (c : settings) (user : Z) (p : plan) (ch : nat) (now : Z) : M store status :=
  s ← get;
  match s_plans (r_subs s) !! sp_id p with
  | None => raise (DoesNotExist "SubscriptionPlan")
  | Some p =>
      if is_active now p
      then mret (Status RENEWED (Some p) ((λ x, (ch, x)) <$> r_charges s !! ch) NO_REASON)
      else mret (subscription_status c user now s)
  end.

(** ** [check_and_renew_subscription] *)

(** The request of [_renew]. *)
Definition renewal_request (user : Z) (p : plan) (number : string) (s : store) : Charging.request :=
  Charging.Request user number
    (match tier_pricing p s with Some pr => pr_price_etb pr | None => 0 end)
    ("FlipStar " +:+ (match tier_of p (r_subs s) with Some t => tr_name t | None => "" end) +:+ " renewal")
    (renewal_idempotency_key p (next_attempt p s)) None Charging.SUBSCRIPTION_RENEWAL
    (Some (sp_id p)) (sp_end p) (charging_service_id p s).

Definition not_attempted (e : exn) : bool :=
  match e with
  | TimweError cls _ => bool_decide (cls ∈ ["ChargeRefused"; "TimweConfigurationError"; "TimweChargingDisabled"])
  | _ => false
  end.

(** What [_renew] has when it reaches the call: the final status, when there
    is nothing to call, or the charge the MA is to be called for. *)
Definition finish_with (c : settings) (user : Z) (p : plan) (ch : nat) (payment_id : string) (now : Z)
    : M store status :=
  s ← get;
  match r_charges s !! ch with
  | None => raise (DoesNotExist "TimweChargeTransaction")
  | Some row =>
      if bool_decide (Charging.ch_status row = Charging.st_success)
      then apply_renewal ch payment_id now ≫= λ _, _after_apply c user p ch now
      else mret (_status_from_charge p (ch, row))
  end.

Definition _renew_open (c : settings) (user : Z) (p : plan) (ref payment_id : string) (now : Z)
    : M store (status + plan * nat) :=
  s ← get;
  let '(number, skip) := _charge_number user p s in
  if negb (bool_decide (skip = NO_REASON)) then mret (inl (Status EXPIRED (Some p) None skip))
  else
    r ← catch (r ← in_charges (Charging.request_open (rn_charging c) (renewal_request user p number s) ref now);
               mret (inr r))
          (λ e, if not_attempted e then Some (
                  s ← get;
                  mret (inl (match existing_renewal_charge p s with
                             | Some ch =>
                                 if bool_decide (Charging.ch_status ch.2 = Charging.st_failed)
                                 then Status EXPIRED (Some p) None REASON_NOT_ATTEMPTED
                                 else _status_from_charge p ch
                             | None => Status EXPIRED (Some p) None REASON_NOT_ATTEMPTED
                             end)))
                else None);
    match r with
    | inl st => mret (inl st)
    | inr r =>
        if Charging.r_created r then mret (inr (p, Charging.r_charge r))
        else st ← finish_with c user p (Charging.r_charge r) payment_id now; mret (inl st)
    end.

Definition renew_begin (c : settings) (user : Z) (ref payment_id : string) (now : Z)
    : M store (status + plan * nat) :=
  s ← get;
  let st := subscription_status c user now s in
  match st_plan st, st_charge st with
  | Some p, Some (i, ch) =>
      if bool_decide (Charging.ch_status ch = Charging.st_success)
         && bool_decide (Charging.ch_fulfilled_at ch = None)
      then apply_renewal i payment_id now ≫= λ _, st ← _after_apply c user p i now; mret (inl st)
      else if bool_decide (st_state st = EXPIRED) && bool_decide (st_reason st = REASON_DUE)
      then _renew_open c user p ref payment_id now
      else mret (inl st)
  | Some p, None =>
      if bool_decide (st_state st = EXPIRED) && bool_decide (st_reason st = REASON_DUE)
      then _renew_open c user p ref payment_id now
      else mret (inl st)
  | None, _ => mret (inl st)
  end.

(** After the MA's answer is recorded. *)
Definition renew_finish := finish_with.

(** ** The hourly sweep *)

(** [_charging_not_working], on one row. *)
Definition not_working (ch : Charging.charge) : bool :=
  bool_decide (Charging.ch_status ch = Charging.st_failed)
    && (bool_decide (Charging.ch_outcome ch = Some Charging.o_unreachable)
        || bool_decide (Charging.ch_error_code ch ∈ Charging.CHARGE_PERMANENT)
        || bool_decide (Charging.ch_outcome ch = Some Charging.o_rejected)
           && String.eqb (Charging.ch_error_code ch) "")
  || bool_decide (Charging.ch_status ch ∈ [Charging.st_timeout; Charging.st_unknown]).

Definition recent (c : settings) (now : Z) (ch : Charging.charge) : bool :=
  String.eqb (Charging.ch_purpose ch) Charging.SUBSCRIPTION_RENEWAL
  && match Charging.ch_completed_at ch with Some t => now - retry_interval c <=? t | None => false end.

Definition charging_looks_broken (c : settings) (now : Z) (s : store) : bool :=
  existsb (λ ch, recent c now ch && not_working ch) (r_charges s)
  && negb (existsb (λ ch, recent c now ch && negb (not_working ch)) (r_charges s)).

(** A charge that keeps the sweep from queueing its period. *)
Definition holding (c : settings) (now : Z) (p : plan) (ch : Charging.charge) : bool :=
  _period_charge p ch
  && (bool_decide (Charging.ch_status ch ∈ [Charging.st_pending; Charging.st_timeout; Charging.st_unknown])
      || (now - retry_early c <? Charging.ch_created_at ch)).

Definition has_active (user now : Z) (s : Subscriptions.store) : bool :=
  existsb (λ kp, bool_decide (sp_user kp.2 = Some user) && bool_decide (sp_status kp.2 = active)
                 && match sp_end kp.2 with Some e => now <? e | None => false end)
    (map_to_list (s_plans s))
  || existsb (λ ue, (ue.1 =? user) && unexpired now ue.2) (s_legacy s).

Definition _sweep_candidates (c : settings) (now : Z) (s : store) : list plan :=
  filter (λ p, match sp_user p with
               | Some u => negb (existsb (holding c now p) (r_charges s)) && negb (has_active u now (r_subs s))
               | None => false
               end = true) (_renewable_plans c now s).

Definition user_of (p : plan) : Z := default 0 (sp_user p).

Fixpoint due_from (c : settings) (s : store) (seen : list Z) (ps : list plan) : list (plan * reason) :=
  match ps with
  | [] => []
  | p :: ps =>
      if bool_decide (user_of p ∈ seen) then (p, REASON_SUPERSEDED) :: due_from c s seen ps
      else if negb (_for_this_service c s p) then (p, REASON_WRONG_SERVICE) :: due_from c s seen ps
      else (p, (_charge_number (user_of p) p s).2) :: due_from c s (user_of p :: seen) ps
  end.

Definition due_renewals (c : settings) (now : Z) (s : store) : list (plan * reason) :=
  due_from c s [] (_sweep_candidates c now s).

(** The plans queued; [broker] says whether the task was accepted. *)
Fixpoint sweep_from (broker : plan → bool) (limit : nat) (l : list (plan * reason)) : list plan :=
  match l, limit with
  | [], _ | _, O => []
  | (p, skip) :: l, S limit' =>
      if negb (bool_decide (skip = NO_REASON)) then sweep_from broker limit l
      else if negb (broker p) then []
      else p :: sweep_from broker limit' l
  end.

Definition SWEEP_BATCH : nat := 500.

Definition configured (c : Charging.settings) : bool :=
  match Charging.ensure_configured c tt with (inr _, _) => true | _ => false end.

Definition sweep_due_renewals (c : settings) (broker : plan → bool) (now : Z) (s : store) : list plan :=
  if negb (renewal_enabled c) then []
  else if negb (configured (rn_charging c)) then []
  else sweep_from broker (if charging_looks_broken c now s then 1%nat else SWEEP_BATCH) (due_renewals c now s).

(** ** Facts about runs *)

Lemma apply_false pk pid now (s s' : store) : apply_renewal pk pid now s = (inr false, s') → s' = s.
Proof.
  unfold apply_renewal. rewrite bind_run. cbn [get].
  destruct (r_charges s !! pk) as [ch|]; [|by intros [= <-]]. destruct (_ || _); [done|].
  unfold catch. destruct (apply_txn pk ch pid now s) as [[e|[]] s1] eqn:E; cbn.
  - intros [= <-]. by apply atomic_err in E.
  - done.
  - intros [= <-]. apply atomic_ok in E. apply bind_ok in E as (claimed & s2 & Hc & E).
    destruct claimed; cbn [negb] in E.
    + exfalso. apply bind_ok in E as (s3 & s4 & Hg & E). clear -E.
      repeat case_match; try (unfold raise in E; congruence).
      do 4 (apply bind_ok in E as (? & ? & ? & E)). by injection E.
    + injection E as <-. unfold in_charges in Hc. rewrite zoom_run, Charging.claim_run in Hc.
      destruct (r_charges s !! pk) as [row|]; [destruct (decide _)|]; simplify_eq/=; by destruct s.
Qed.

(** The store after a renewal, but for the coins its signal paid. *)
Definition renewed_store (pk : nat) (ch : Charging.charge) (p : plan) (d : Z) (pid : string) (now : Z)
    (w : CoinBalance.wallet) (s : store) : store :=
  let p' := renewed now (renewal_start p now) d p in
  Store (with_coins w (with_plans (<[sp_id p := p']> (s_plans (r_subs s))) (r_subs s)))
    (r_billing s) (r_pricing s) (r_phones s)
    (<[pk := Charging.set_fulfilled now ch]> (r_charges s))
    (r_payments s ++ [Paid (SubscriptionGift.Payment pid (sp_id p) (sp_user p) "completed" (Some now)
                              (renewal_start p now + d * day)) (Charging.ch_ref ch) (Charging.ch_amount ch)])
    (r_history s ++ [History (sp_id p) (sp_user p) "renewed" (Charging.ch_ref ch)]).

(** A charge that pays for a renewal of the stored plan [p]. *)
Record pays_for (pk : nat) (ch : Charging.charge) (p : plan) (t : tier) (d : Z) (s : store) : Prop := PaysFor {
  pf_charge : r_charges s !! pk = Some ch;
  pf_purpose : Charging.ch_purpose ch = Charging.SUBSCRIPTION_RENEWAL;
  pf_subscription : Charging.ch_subscription ch = Some (sp_id p);
  pf_plan : s_plans (r_subs s) !! sp_id p = Some p;
  pf_tier : tier_of p (r_subs s) = Some t;
  pf_days : tr_duration_days t = Some d;
  pf_new : ∀ q, q ∈ r_payments s → pd_reference q ≠ Charging.ch_ref ch
}.

Lemma apply_run pk ch p t d pid now (s : store) :
  pays_for pk ch p t d s → CoinBalance.wallet_ok (s_coins (r_subs s)) →
  if decide (Charging.claimable ch)
  then ∃ w, CoinBalance.wallet_ok w ∧ apply_renewal pk pid now s = (inr true, renewed_store pk ch p d pid now w s)
  else apply_renewal pk pid now s = (inr false, s).
Proof.
  intros [] Hw. unfold apply_renewal. rewrite bind_run. cbn [get].
  rewrite pf_charge0, pf_purpose0, pf_subscription0. cbn [negb orb].
  rewrite (bool_decide_eq_false_2 (Some _ = None)), orb_false_r, String.eqb_refl by done. cbn [negb].
  unfold catch, apply_txn, atomic. rewrite bind_run. unfold in_charges. rewrite zoom_run, Charging.claim_run, pf_charge0.
  case_decide as Hcl; cbn [fst snd negb]; [|by destruct s].
  rewrite bind_run. cbn [get r_subs]. rewrite pf_subscription0, pf_plan0, pf_tier0, pf_days0.
  rewrite bind_run. unfold in_subs at 1. rewrite zoom_run. cbn [r_subs].
  rewrite bind_run. unfold add_payment. rewrite bind_run. cbn [get r_payments].
  match goal with |- context [existsb ?f ?l] => assert (existsb f l = false) as -> end.
  { apply not_true_is_false. intros (q & Hq & He)%existsb_exists. apply String.eqb_eq in He.
    apply (pf_new0 q); [by apply list_elem_of_In|done]. }
  cbn [put]. rewrite bind_run. unfold in_subs at 1. rewrite zoom_run. cbn [r_subs].
  set (p' := renewed now (renewal_start p now) d p).
  assert (alter (renewed now (renewal_start p now) d) (sp_id p) (s_plans (r_subs s))
          = <[sp_id p := p']> (s_plans (r_subs s))) as Halt.
  { apply map_eq. intros k. destruct (decide (k = sp_id p)) as [->|Hne].
    - by rewrite lookup_alter_eq, lookup_insert_eq, pf_plan0.
    - by rewrite lookup_alter_ne, lookup_insert_ne. }
  unfold save_fields, modify. cbn [fst snd]. rewrite Halt.
  match goal with |- context [SubscriptionGift.grant_subscription_gift ?q now ?x] =>
    destruct (SubscriptionGift.signal_run q now x) as (w & -> & Hw') end; [exact Hw|].
  exists w. split; [done|]. reflexivity.
Qed.

Lemma renewed_active pk ch p d pid now w s u m :
  sp_user p = Some u → m < renewal_start p now + d * day →
  has_active_subscription u m (r_subs (renewed_store pk ch p d pid now w s)) = true.
Proof.
  intros Hu Hm. unfold has_active_subscription. apply orb_true_iff. left. apply existsb_exists.
  exists (sp_id p, renewed now (renewal_start p now) d p). split.
  - apply list_elem_of_In, elem_of_map_to_list. cbn. apply lookup_insert_eq.
  - cbn. rewrite bool_decide_eq_true_2 by done. unfold is_active. cbn. by apply Z.ltb_lt.
Qed.

(** A confirmed charge renews its plan once.  When the charge succeeded
    and was not applied yet, [apply_renewal] marks it fulfilled, makes the
    plan active with a period of the tier's days -- from now, or from the end
    of a period still running, so nothing paid for is lost --, and records
    one payment under the charge's reference; the subscriber has access until
    the new end, and applying it again changes nothing.  When the charge is
    not to be applied, and whenever anything at all fails, the store is left
    as it was, the claim included. *)
Theorem apply_renewal_once pk ch p t d pid pid' now now' (s : store) :
  pays_for pk ch p t d s → CoinBalance.wallet_ok (s_coins (r_subs s)) →
  (if decide (Charging.claimable ch)
   then ∃ w, let s' := renewed_store pk ch p d pid now w s in
     CoinBalance.wallet_ok w ∧ apply_renewal pk pid now s = (inr true, s')
     ∧ apply_renewal pk pid' now' s' = (inr false, s')
     ∧ Z.max (default now (sp_end p)) now = renewal_start p now
     ∧ ∀ u m, sp_user p = Some u → m < renewal_start p now + d * day →
         has_active_subscription u m (r_subs s') = true
   else apply_renewal pk pid now s = (inr false, s))
  ∧ ∀ i q m s', apply_renewal i q m s = (inr false, s') → s' = s.
Proof.
  intros Hpf Hw. split; [|intros i q m s'; apply apply_false].
  pose proof (apply_run pk ch p t d pid now s Hpf Hw) as Hrun. case_decide as Hcl; [|done].
  destruct Hrun as (w & Hw' & Hrun). exists w. cbv zeta. split; [done|]. split; [done|]. split; [|split].
  - destruct Hpf. unfold apply_renewal. rewrite bind_run. cbn [get r_charges renewed_store].
    assert (<[pk := Charging.set_fulfilled now ch]> (r_charges s) !! pk = Some (Charging.set_fulfilled now ch)) as Hl
      by (apply list_lookup_insert_eq; by eapply lookup_lt_Some).
    rewrite Hl. cbn [Charging.ch_purpose Charging.ch_subscription Charging.set_fulfilled].
    rewrite pf_purpose0, pf_subscription0. cbn [negb orb].
    rewrite (bool_decide_eq_false_2 (Some _ = None)), orb_false_r, String.eqb_refl by done. cbn [negb].
    unfold catch, apply_txn, atomic. rewrite bind_run. unfold in_charges. rewrite zoom_run, Charging.claim_run.
    cbn [r_charges renewed_store]. rewrite Hl, decide_False by (intros [_ [=]]). reflexivity.
  - unfold renewal_start. destruct (sp_end p) as [e|]; cbn; [|lia]. destruct (Z.ltb_spec now e); lia.
  - intros u m Hu Hm. by apply renewed_active.
Qed.

(** ** When a charge is made *)

Section Count.
Context (n : nat).
Let I (s : store) : Prop := length (r_charges s) = n.

Lemma count_subs {A} (m : M Subscriptions.store A) : preserves I (in_subs m).
Proof. intros s Hs. unfold in_subs. by rewrite zoom_run. Qed.

Lemma count_claim pk now : preserves I (in_charges (Charging.claim_fulfilment pk now)).
Proof.
  intros s Hs. unfold in_charges, I. rewrite zoom_run, Charging.claim_run.
  destruct (r_charges s !! pk); [case_decide|]; cbn; by rewrite ?length_insert.
Qed.

Lemma count_payment p : preserves I (add_payment p).
Proof. intros s Hs. unfold add_payment. rewrite bind_run. cbn. by destruct (existsb _ _). Qed.

Lemma count_apply pk pid now : preserves I (apply_renewal pk pid now).
Proof.
  apply preserves_bind; [eauto with prog|]. intros s0.
  destruct (r_charges s0 !! pk) as [ch|]; [|eauto with prog]. destruct (_ || _); [eauto with prog|].
  apply preserves_catch; [|intros e k [= <-]; eauto with prog].
  apply preserves_atomic, preserves_bind; [apply count_claim|]. intros [|]; cbn; [|eauto with prog].
  apply preserves_bind; [eauto with prog|]. intros s1.
  repeat case_match; eauto with prog.
  all: apply preserves_bind; [apply count_subs|intros _].
  all: apply preserves_bind; [apply count_payment|intros _].
  all: apply preserves_bind; [apply count_subs|intros _].
  all: apply preserves_bind; [by apply preserves_modify|eauto with prog].
Qed.

Lemma count_after c user p i now : preserves I (_after_apply c user p i now).
Proof.
  apply preserves_bind; [eauto with prog|]. intros s0. repeat case_match; eauto with prog.
Qed.

Lemma count_finish c user p i pid now : preserves I (finish_with c user p i pid now).
Proof.
  apply preserves_bind; [eauto with prog|]. intros s0. repeat case_match; eauto with prog.
  apply preserves_bind; [apply count_apply|intros _; apply count_after].
Qed.
End Count.

Lemma renewable_inv c now s p :
  renewable c now s p = true →
  ∃ e, sp_end p = Some e ∧ e <= now <= e + renewal_window c ∧ sp_status p ≠ cancelled.
Proof.
  unfold renewable. destruct (r_billing s !! sp_id p); [|done]. destruct (sp_end p) as [e|]; [|done].
  destruct (tier_of _ _); [|done]. destruct (tier_pricing _ _); [|done]. intros H.
  repeat (apply andb_true_iff in H as [H ?]). exists e. bool_prop. split_and!; [done|lia|lia|].
  intros Hst. by rewrite Hst in *.
Qed.

Lemma lapsed_inv c user now s p :
  lapsed_short_code_plan c user now s = Some p →
  (∃ i, s_plans (r_subs s) !! i = Some p) ∧ sp_user p = Some user ∧ renewable c now s p = true
  ∧ _for_this_service c s p = true.
Proof.
  unfold lapsed_short_code_plan. intros (l & Hl)%head_Some.
  assert (p ∈ filter (λ p, sp_user p = Some user ∧ _for_this_service c s p = true) (_renewable_plans c now s))
    as [[Hu Hf] Hin]%list_elem_of_filter by (rewrite Hl; left).
  unfold _renewable_plans in Hin. rewrite merge_sort_Permutation in Hin.
  apply list_elem_of_filter in Hin as [Hr ([i q] & -> & Hi%elem_of_map_to_list)%list_elem_of_fmap]. eauto.
Qed.

(** A charge may be opened for [p], and [n] is it. *)
Record may_charge (c : settings) (user : Z) (p : plan) (now : Z) (s : store) (n : Charging.charge) : Prop := MayCharge {
  mc_enabled : renewal_enabled c = true;
  mc_inactive : has_active_subscription user now (r_subs s) = false;
  mc_stored : ∃ i, s_plans (r_subs s) !! i = Some p;
  mc_owner : sp_user p = Some user;
  mc_lapsed : ∃ e, sp_end p = Some e ∧ e <= now <= e + renewal_window c;
  mc_subscribed : sp_status p ≠ cancelled;
  mc_latest : ∀ i ch, existing_renewal_charge p s = Some (i, ch) →
              Charging.ch_status ch = Charging.st_failed ∧ Charging.ch_created_at ch + retry_early c <= now;
  mc_refused : ∀ ch, ch ∈ r_charges s → _period_charge p ch = true → Charging.ch_status ch = Charging.st_failed;
  mc_number : Phone.normalize_ethiopian_phone (Some (default "" (r_phones s !! user)))
              = Some (Charging.ch_msisdn n);
  mc_price : ∃ pr, tier_pricing p s = Some pr ∧ Charging.ch_amount n = pr_price_etb pr / 100;
  mc_period : Charging.ch_purpose n = Charging.SUBSCRIPTION_RENEWAL
              ∧ Charging.ch_subscription n = Some (sp_id p) ∧ Charging.ch_period_end n = sp_end p
}.

Definition with_charges (t : list Charging.charge) (s : store) : store :=
  Store (r_subs s) (r_billing s) (r_pricing s) (r_phones s) t (r_payments s) (r_history s).

Definition opened (p : plan) (number : string) (s s' : store) (pk : nat) : Prop :=
  ∃ n v c0 rq ref now, n = Charging.new_charge c0 rq v ref now ∧ rq = renewal_request (user_of p) p number s
    ∧ pk = length (r_charges s) ∧ s' = with_charges (r_charges s ++ [n]) s
    ∧ Charging.v_msisdn v = number ∧ existsb (Charging.clash n) (r_charges s) = false.

Lemma charge_number_ok user p s number :
  _charge_number user p s = (number, NO_REASON) →
  Phone.normalize_ethiopian_phone (Some (default "" (r_phones s !! user))) = Some number
  ∧ Phone.normalize_ethiopian_phone (Some number) = Some number.
Proof.
  unfold _charge_number. destruct (Phone.normalize_ethiopian_phone _) as [r|] eqn:E; [|done].
  apply Phone.normalize_idemp in E as Hi. intros H. repeat case_match; by simplify_eq.
Qed.

Lemma renew_open_cases c user p ref pid now (s : store) :
  sp_user p = Some user →
  match _renew_open c user p ref pid now s with
  | (inr (inr (q, pk)), s') =>
      q = p ∧ ∃ number, _charge_number user p s = (number, NO_REASON) ∧ opened p number s s' pk
  | (_, s') => length (r_charges s') = length (r_charges s)
  end.
Proof.
  intros Hu. unfold _renew_open. rewrite bind_run. cbn [get].
  destruct (_charge_number user p s) as [number skip] eqn:Hnum.
  destruct (bool_decide (skip = NO_REASON)) eqn:Hskip; [|done]. apply bool_decide_eq_true in Hskip as ->.
  cbn [negb]. rewrite bind_run. unfold catch. rewrite bind_run. unfold in_charges. rewrite zoom_run.
  pose proof (Charging.open_cases (rn_charging c) (renewal_request user p number s) ref now (r_charges s)) as H.
  destruct (Charging.request_open _ _ _ _ _) as [[e|r] t'] eqn:Hopen; cbn [fst snd].
  { subst t'. destruct (not_attempted e); [|done]. rewrite bind_run. cbn. repeat case_match; done. }
  destruct (Charging.r_created r) eqn:Hcr; cbn.
  - destruct H as (v & Hval & -> & -> & Hfree). split; [done|]. exists number. split; [done|].
    exists (Charging.new_charge (rn_charging c) (renewal_request user p number s) v ref now), v,
      (rn_charging c), (renewal_request user p number s), ref, now.
    split_and!; try done.
    + unfold user_of. by rewrite Hu.
    + apply Charging.validate_number in Hval. cbn [Charging.rq_msisdn renewal_request] in Hval.
      destruct (charge_number_ok _ _ _ _ Hnum) as [_ Hi]. congruence.
  - subst t'. rewrite Hcr. rewrite bind_run.
    match goal with |- context [finish_with c user p ?i pid now ?x] =>
      pose proof (count_finish (length (r_charges s)) c user p i pid now x eq_refl) as Hf;
      destruct (finish_with c user p i pid now x) as [[e|st] s1] end; exact Hf.
Qed.

Lemma refused_all (p : plan) number s s' pk :
  sp_end p ≠ None → opened p number s s' pk →
  ∀ ch, ch ∈ r_charges s → _period_charge p ch = true → Charging.ch_status ch = Charging.st_failed.
Proof.
  intros He (n & v & c0 & rq & ref & now & -> & -> & _ & _ & _ & Hfree) ch [i Hi]%list_elem_of_lookup Hp.
  destruct (Charging.clash_free _ _ Hfree i ch Hi) as (_ & _ & Hno).
  unfold _period_charge in Hp. rewrite !andb_true_iff in Hp. destruct Hp as [[Hpu Hs] Hend].
  apply bool_decide_eq_true in Hs, Hend.
  destruct (decide (Charging.ch_status ch = Charging.st_failed)) as [|Hnf]; [done|]. exfalso. apply Hno.
  unfold Charging.rivals, Charging.live_renewal, Charging.same_period, Charging.period_of. cbn.
  rewrite Hpu, Hs, Hend, bool_decide_eq_false_2 by done. split_and!; [done|done|].
  destruct (sp_end p); [by apply bool_decide_eq_true|done].
Qed.

Lemma opened_may_charge c user now (s s' : store) p number pk :
  subscription_status c user now s
  = Status EXPIRED (Some p) (existing_renewal_charge p s) REASON_DUE →
  _charge_number user p s = (number, NO_REASON) → opened p number s s' pk →
  ∃ n, may_charge c user p now s n ∧ pk = length (r_charges s) ∧ s' = with_charges (r_charges s ++ [n]) s
       ∧ Charging.ch_status n = Charging.st_pending.
Proof.
  intros Hst Hnum Ho. pose proof Ho as (n & v & c0 & rq & ref & now0 & Hn & Hrq & Hpk & Hs' & Hv & _).
  exists n. split; [|split_and!; [done..|by rewrite Hn]].
  unfold subscription_status in Hst. destruct (has_active_subscription user now (r_subs s)) eqn:Hact; [done|].
  destruct (lapsed_short_code_plan c user now s) as [q|] eqn:Hlap; [|done].
  assert (q = p ∧ renewal_enabled c = true ∧ ∀ i ch, existing_renewal_charge q s = Some (i, ch) → _may_try_again c ch now = true)
    as (-> & Hen & Hlast).
  { unfold _status_from_charge in Hst. destruct (existing_renewal_charge q s) as [[i ch]|] eqn:E.
    - cbn in Hst. destruct (_may_try_again c ch now) eqn:Hm.
      + injection Hst as -> _ Hr. split; [done|]. split; [by destruct (renewal_enabled c)|].
        intros i' ch' [= <- <-]. done.
      + by repeat case_match.
    - injection Hst as -> Hr. split; [done|]. split; [by destruct (renewal_enabled c)|done]. }
  destruct (lapsed_inv _ _ _ _ _ Hlap) as (Hin & Hu & Hren & _).
  destruct (renewable_inv _ _ _ _ Hren) as (e & He & Hwin & Hnc).
  split; try done.
  - eauto.
  - intros i ch Hex. specialize (Hlast i ch Hex). unfold _may_try_again in Hlast.
    apply andb_true_iff in Hlast as [Hf Ht]. apply bool_decide_eq_true in Hf. bool_prop. done.
  - apply (refused_all p number s s' pk); [by rewrite He|done].
  - destruct (charge_number_ok _ _ _ _ Hnum) as [Hreg _]. rewrite Hn. cbn. by rewrite Hv.
  - rewrite Hn, Hrq. cbn. unfold renewable in Hren.
    destruct (r_billing s !! sp_id p), (sp_end p), (tier_of p (r_subs s)), (tier_pricing p s) as [pr|]; try done.
    by exists pr.
  - by rewrite Hn, Hrq.
Qed.

(** A renewal is charged only when it is due.  If
    [check_and_renew_subscription] reaches the MA, then both switches are on,
    the user has no active subscription, the plan is the user's own, ended
    within the renewal window and was not cancelled; the last attempt for the
    period was refused at least nine tenths of a retry interval ago, and no
    charge for the period is pending, ambiguous or successful; what is charged
    is the tier's price, to the account's registered number, and the only
    change so far is the pending row.  In every other case, errors included,
    no charge is made. *)
Theorem renew_only_when_due c user ref pid now (s : store) :
  match renew_begin c user ref pid now s with
  | (inr (inr (p, pk)), s') =>
      ∃ n, may_charge c user p now s n ∧ pk = length (r_charges s)
           ∧ s' = with_charges (r_charges s ++ [n]) s ∧ Charging.ch_status n = Charging.st_pending
  | (_, s') => length (r_charges s') = length (r_charges s)
  end.
Proof.
  unfold renew_begin. rewrite bind_run. cbn [get]. cbv zeta.
  destruct (subscription_status c user now s) as [st pl chg why] eqn:Hst. cbn [st_plan st_charge st_state st_reason].
  assert (∀ p, pl = Some p → sp_user p = Some user ∧ (st = EXPIRED → why = REASON_DUE → chg = existing_renewal_charge p s)) as Hp.
  { intros p ->. unfold subscription_status, _status_from_charge in Hst.
    destruct (has_active_subscription _ _ _); [done|].
    destruct (lapsed_short_code_plan c user now s) as [q|] eqn:Hl; [|done].
    destruct (lapsed_inv _ _ _ _ _ Hl) as (_ & Hu & _).
    repeat case_match; simplify_eq; split; done. }
  assert (∀ p, pl = Some p → match
      (if bool_decide (st = EXPIRED) && bool_decide (why = REASON_DUE)
       then _renew_open c user p ref pid now else mret (inl (Status st pl chg why))) s with
    | (inr (inr (p, pk)), s') =>
        ∃ n, may_charge c user p now s n ∧ pk = length (r_charges s)
             ∧ s' = with_charges (r_charges s ++ [n]) s ∧ Charging.ch_status n = Charging.st_pending
    | (_, s') => length (r_charges s') = length (r_charges s)
    end) as Hgo.
  { intros p ->. destruct (Hp p eq_refl) as [Hu Hchg].
    destruct (bool_decide (st = EXPIRED)) eqn:H1; [|done]. destruct (bool_decide (why = REASON_DUE)) eqn:H2; [|done].
    apply bool_decide_eq_true in H1 as ->, H2 as ->. rewrite (Hchg eq_refl eq_refl) in Hst. cbn [andb].
    pose proof (renew_open_cases c user p ref pid now s Hu) as H.
    destruct (_renew_open c user p ref pid now s) as [[e|[x|[q pk]]] s']; [done|done|].
    destruct H as (-> & number & Hnum & Ho). by apply (opened_may_charge c user now s s' p number pk). }
  destruct pl as [p|]; [|done]. destruct chg as [[i ch]|]; [|by apply Hgo].
  destruct (bool_decide (Charging.ch_status ch = Charging.st_success)
            && bool_decide (Charging.ch_fulfilled_at ch = None)); [|by apply Hgo].
  pose proof (count_apply (length (r_charges s)) i pid now s eq_refl) as Ha.
  rewrite bind_run. destruct (apply_renewal i pid now s) as [[e|b] s1]; [exact Ha|].
  rewrite bind_run. pose proof (count_after (length (r_charges s)) c user p i now s1 Ha) as Hb.
  by destruct (_after_apply c user p i now s1) as [[e|x] s2].
Qed.

(** What makes a plan one that TIMWE bills, whatever its status and dates. *)
Definition billed_by_timwe (c : settings) (p : plan) (d : Z) (s : store) : Prop :=
  ∃ b pr, r_billing s !! sp_id p = Some b ∧ b_payment_method b = "timwe" ∧ b_source b = "sms"
    ∧ tier_pricing p s = Some pr ∧ pr_short_code pr = short_code c ∧ 0 < pr_price_etb pr ∧ 0 < d.

(** Unsubscribing does not stop a charge in flight.  [apply_renewal]
    never looks at the plan's status: when a subscriber cancelled between the
    charge being sent and its confirmation, applying it makes the cancelled
    plan active again, and once the new period has run out the plan is again
    one that the sweep charges, although a cancelled subscriber must never be
    charged again. *)
Theorem unsubscribed_plan_revived c pk ch p t d pid now (s : store) :
  pays_for pk ch p t d s → CoinBalance.wallet_ok (s_coins (r_subs s)) → Charging.claimable ch →
  sp_status p = cancelled → billed_by_timwe c p d s →
  let r := apply_renewal pk pid now s in
  let p' := renewed now (renewal_start p now) d p in
  r.1 = inr true ∧ s_plans (r_subs r.2) !! sp_id p = Some p' ∧ sp_status p' = active
  ∧ ∀ m, end_or_0 p' <= m <= end_or_0 p' + renewal_window c → renewable c m r.2 p' = true.
Proof.
  intros Hpf Hw Hcl _ (b & pr & Hb & Hm & Hsrc & Hpr & Hsc & Hprice & Hd).
  pose proof (apply_run pk ch p t d pid now s Hpf Hw) as Hrun. rewrite decide_True in Hrun by done.
  destruct Hrun as (w & _ & Hrun). rewrite Hrun. cbv zeta. cbn [fst snd].
  split; [done|]. split; [apply lookup_insert_eq|]. split; [done|].
  intros m Hwin. destruct Hpf. unfold renewable. cbn in Hwin.
  change (r_billing (renewed_store pk ch p d pid now w s) !! sp_id (renewed now (renewal_start p now) d p))
    with (r_billing s !! sp_id p).
  change (tier_of (renewed now (renewal_start p now) d p) (r_subs (renewed_store pk ch p d pid now w s)))
    with (tier_of p (r_subs s)).
  change (tier_pricing (renewed now (renewal_start p now) d p) (renewed_store pk ch p d pid now w s))
    with (tier_pricing p s).
  rewrite Hb, pf_tier0, Hpr, pf_days0, Hm, Hsrc, Hsc. cbn [sp_end renewed set_grace set_period sp_status renewable_status].
  rewrite !String.eqb_refl. cbn [andb].
  rewrite !andb_true_iff, !Z.leb_le, !Z.ltb_lt. lia.
Qed.

(** ** The sweep *)

Lemma due_from_inv c s seen ps p r :
  (p, r) ∈ due_from c s seen ps → p ∈ ps
  ∧ (r = NO_REASON → user_of p ∉ seen ∧ _for_this_service c s p = true ∧ (_charge_number (user_of p) p s).2 = NO_REASON).
Proof.
  revert seen. induction ps as [|q ps IH]; intros seen H; cbn in H; [by apply elem_of_nil in H|].
  destruct (bool_decide (user_of q ∈ seen)) eqn:Hseen; [|destruct (_for_this_service c s q) eqn:Hsvc]; cbn in H;
    apply elem_of_cons in H as [[= -> ->]|H]; try (split; [by left|done]).
  - destruct (IH _ H) as [? Hr]. split; [by right|]. done.
  - split; [by left|]. intros Hn. apply bool_decide_eq_false in Hseen. done.
  - destruct (IH _ H) as [? Hr]. split; [by right|]. intros Hn. destruct (Hr Hn) as (Hns & ? & ?).
    split; [|done]. intros Hin. apply Hns. by right.
  - destruct (IH _ H) as [? Hr]. split; [by right|]. done.
Qed.

(** What is chargeable, in the sweep's order. *)
Definition chargeable (l : list (plan * reason)) : list plan :=
  fst <$> filter (λ pr, pr.2 = NO_REASON) l.

Lemma chargeable_cons p r l :
  chargeable ((p, r) :: l) = if decide (r = NO_REASON) then p :: chargeable l else chargeable l.
Proof. unfold chargeable. rewrite filter_cons. cbn [snd]. by case_decide. Qed.

Lemma elem_of_chargeable p l : p ∈ chargeable l ↔ (p, NO_REASON) ∈ l.
Proof.
  unfold chargeable. rewrite list_elem_of_fmap. setoid_rewrite list_elem_of_filter. split.
  - intros ([q r] & -> & Hr & Hin). cbn in Hr. by subst r.
  - intros Hin. by exists (p, NO_REASON).
Qed.

Lemma due_from_once c s seen ps : NoDup (user_of <$> chargeable (due_from c s seen ps)).
Proof.
  revert seen. induction ps as [|q ps IH]; intros seen; [constructor|]. cbn [due_from].
  destruct (bool_decide (user_of q ∈ seen)); [|destruct (negb (_for_this_service c s q))];
    rewrite chargeable_cons; case_decide as Hr; try done.
  cbn [fmap list_fmap]. constructor; [|by apply IH].
  intros (p & Heq & Hin%elem_of_chargeable)%list_elem_of_fmap.
  destruct (due_from_inv _ _ _ _ _ _ Hin) as [_ H]. destruct (H eq_refl) as (Hns & _).
  apply Hns. rewrite Heq. by left.
Qed.

Lemma sweep_from_prefix broker limit l :
  (length (sweep_from broker limit l) <= limit)%nat ∧ sweep_from broker limit l `prefix_of` chargeable l.
Proof.
  revert limit. induction l as [|[p r] l IH]; intros limit; [split; [cbn; lia|done]|].
  destruct limit as [|limit]; cbn [sweep_from]; [split; [cbn; lia|apply prefix_nil]|].
  rewrite chargeable_cons. case_decide as Hr.
  - rewrite bool_decide_eq_true_2 by done. cbn [negb].
    destruct (broker p); cbn; [|split; [lia|apply prefix_nil]]. destruct (IH limit) as [Hl Hp].
    split; [lia|by apply prefix_cons].
  - rewrite bool_decide_eq_false_2 by done. apply IH.
Qed.

Lemma sweep_elem c broker now s p :
  p ∈ sweep_due_renewals c broker now s →
  p ∈ _sweep_candidates c now s ∧ _for_this_service c s p = true
  ∧ (_charge_number (user_of p) p s).2 = NO_REASON ∧ renewal_enabled c = true.
Proof.
  unfold sweep_due_renewals. destruct (renewal_enabled c); cbn [negb]; [|by intros ?%elem_of_nil].
  destruct (configured _); cbn [negb]; [|by intros ?%elem_of_nil]. intros Hin.
  eapply elem_of_prefix in Hin; [|apply sweep_from_prefix]. apply elem_of_chargeable, due_from_inv in Hin as [Hc H].
  destruct (H eq_refl) as (_ & ? & ?). done.
Qed.

(** The sweep charges nobody twice.  A run queues each subscriber at
    most once and at most five hundred of them, one when every recent attempt
    failed through no fault of a subscriber; and only plans [renew_begin] may
    charge for: both switches on, the end within the window, not cancelled,
    the user without an active plan, nothing pending, ambiguous or tried
    within the retry interval for the period, and a registered number that is
    the subscribed one. *)
Theorem sweep_queues_once c broker now (s : store) :
  let q := sweep_due_renewals c broker now s in
  NoDup (user_of <$> q)
  ∧ (length q <= if charging_looks_broken c now s then 1 else SWEEP_BATCH)%nat
  ∧ ∀ p, p ∈ q → ∃ u number e, sp_user p = Some u ∧ renewal_enabled c = true
      ∧ sp_end p = Some e ∧ e <= now <= e + renewal_window c ∧ sp_status p ≠ cancelled
      ∧ has_active u now (r_subs s) = false ∧ _charge_number u p s = (number, NO_REASON)
      ∧ ∀ ch, ch ∈ r_charges s → _period_charge p ch = true →
          Charging.ch_status ch ∉ [Charging.st_pending; Charging.st_timeout; Charging.st_unknown]
          ∧ Charging.ch_created_at ch <= now - retry_early c.
Proof.
  cbv zeta. split; [|split].
  - unfold sweep_due_renewals. destruct (negb (renewal_enabled c)); [constructor|].
    destruct (negb (configured _)); [constructor|].
    match goal with |- context [sweep_from broker ?n ?l] => destruct (sweep_from_prefix broker n l) as [_ [k Hk]] end.
    pose proof (due_from_once c s [] (_sweep_candidates c now s)) as H. fold (due_renewals c now s) in H.
    rewrite Hk, fmap_app in H. by apply NoDup_app in H as [? _].
  - unfold sweep_due_renewals. destruct (negb (renewal_enabled c)); [cbn; lia|].
    destruct (negb (configured _)); [cbn; lia|]. apply sweep_from_prefix.
  - intros p Hin. apply sweep_elem in Hin as ([Hc Hin]%list_elem_of_filter & _ & Hnum & Hen).
    unfold user_of in Hnum. destruct (sp_user p) as [u|] eqn:Hu; [|done]. change (default 0 (Some u)) with u in Hnum.
    unfold _renewable_plans in Hin. rewrite merge_sort_Permutation in Hin.
    apply list_elem_of_filter in Hin as [Hr _]. destruct (renewable_inv _ _ _ _ Hr) as (e & He & Hwin & Hnc).
    apply andb_true_iff in Hc as [Hh Ha]. apply negb_true_iff in Hh, Ha.
    assert (_charge_number u p s = ((_charge_number u p s).1, NO_REASON)) as Hn
      by (destruct (_charge_number u p s); cbn in *; congruence).
    exists u, (_charge_number u p s).1, e. split_and!; try done; try lia.
    intros ch Hch Hp. assert (holding c now p ch = false) as Hno.
    { apply not_true_is_false. intros Hho. apply not_true_iff_false in Hh. apply Hh, existsb_exists.
      exists ch. split; [by apply list_elem_of_In|done]. }
    unfold holding in Hno. rewrite Hp in Hno. apply orb_false_iff in Hno as [Hs%bool_decide_eq_false Ht].
    apply Z.ltb_ge in Ht. split; [done|lia].
Qed.

(** ** A concrete renewal *)

Definition example_settings : settings := Settings Charging.example_settings true "" 60 30.

(** The weekly plan of [Subscriptions.example_plan], taken out by SMS, ran out
    after a week. *)
Definition lapsed_plan : plan :=
  set_period active (Some 0) (Some (7 * day)) (Some (7 * day)) example_plan.
Definition example_renewals : store :=
  Store (Subscriptions.Store (<[1 := example_tier]> ∅) (<[4 := lapsed_plan]> ∅) [] CoinBalance.no_wallets [])
    (<[4 := Billing "timwe" "sms" "251944365493" ""]> ∅) (<[1 := Pricing 2000 "9286" ""]> ∅)
    (<[9 := "0944365493"]> ∅) [] [] [].

Definition monday : Z := 7 * day + hour.

(** The sweep's task opens a charge and the MA confirms it; before the answer
    is recorded the subscriber unsubscribes. *)
Definition charged : store :=
  (in_charges (Charging.record_outcome 0 (Charging.Answered Charging.o_success "" "") (monday + 2))
    (renew_begin example_settings 9 "FS1" "pay-1" monday example_renewals).2).2.
Definition unsubscribed : store :=
  (in_subs (cancel lapsed_plan "stop" (monday + 1)) charged).2.

Example sweep_queues_the_plan :
  sp_id <$> sweep_due_renewals example_settings (λ _, true) monday example_renewals = [4].
Proof. vm_compute. reflexivity. Qed.

Example renewal_opens_one_charge :
  (Charging.ch_msisdn <$> r_charges charged, Charging.ch_amount <$> r_charges charged)
  = (["251944365493"], [20]).
Proof. vm_compute. reflexivity. Qed.

Definition the_charge : Charging.charge :=
  default (Charging.new_charge Charging.example_settings (Charging.renewal_request "")
             (Charging.Validated "" "" "") "" 0) (r_charges charged !! 0%nat).

Definition stopped_plan : plan := set_cancelled (Some (monday + 1)) "stop" lapsed_plan.

Lemma example_pays_for s p :
  r_charges s !! 0%nat = Some the_charge → s_plans (r_subs s) !! 4 = Some p → sp_id p = 4 →
  tier_of p (r_subs s) = Some example_tier → r_payments s = [] →
  pays_for 0 the_charge p example_tier 7 s.
Proof.
  intros Hc Hp Hid Ht Hn. split; rewrite ?Hid; [done|vm_compute; reflexivity|vm_compute; reflexivity|done|done|done|].
  intros q Hq. rewrite Hn in Hq. by apply elem_of_nil in Hq.
Qed.

Lemma example_claimable : Charging.claimable the_charge.
Proof. split; vm_compute; reflexivity. Qed.

Lemma apply_renewal_once_witness :
  let s' := (apply_renewal 0 "pay-1" (monday + 3) charged).2 in
  sp_end <$> s_plans (r_subs s') !! 4 = Some (Some (monday + 3 + 7 * day))
  ∧ length (r_payments s') = 1%nat ∧ apply_renewal 0 "pay-2" (monday + 4) s' = (inr false, s').
Proof.
  split; [vm_compute; reflexivity|]. split; [vm_compute; reflexivity|].
  destruct (apply_renewal_once 0 the_charge lapsed_plan example_tier 7 "pay-1" "pay-2" (monday + 3) (monday + 4) charged)
    as [H _].
  - by apply example_pays_for.
  - apply CoinBalance.wallet_ok_empty.
  - rewrite decide_True in H by apply example_claimable. destruct H as (w & _ & -> & H & _). exact H.
Defined.

Lemma unsubscribed_plan_revived_witness :
  let s' := (apply_renewal 0 "pay-1" (monday + 3) unsubscribed).2 in
  (sp_status <$> s_plans (r_subs unsubscribed) !! 4) = Some cancelled
  ∧ (sp_status <$> s_plans (r_subs s') !! 4) = Some active
  ∧ length (r_charges (renew_begin example_settings 9 "FS2" "pay-2" (monday + 8 * day) s').2) = 2%nat
  ∧ renewable example_settings (monday + 8 * day) s' (renewed (monday + 3) (monday + 3) 7 stopped_plan) = true.
Proof.
  split; [vm_compute; reflexivity|]. split; [vm_compute; reflexivity|]. split; [vm_compute; reflexivity|].
  destruct (unsubscribed_plan_revived example_settings 0 the_charge stopped_plan example_tier 7 "pay-1" (monday + 3)
              unsubscribed) as (_ & _ & _ & H).
  - by apply example_pays_for.
  - apply CoinBalance.wallet_ok_empty.
  - apply example_claimable.
  - reflexivity.
  - exists (Billing "timwe" "sms" "251944365493" ""), (Pricing 2000 "9286" "").
    split_and!; (reflexivity || done).
  - apply H. vm_compute. split; intros [=].
Defined.

End Renewal.
