(* ===== verification/Prizes.v ===== *)
(** * Prizes: what a competition pays, and paying it once

    Models [src/api/services/prize_structure.py],
    [src/api/services/prize_delivery.py], the prize branch of
    [telebirr_b2c_webhook] in [src/api/views/direct_debit.py], and the
    methods of [WinnerGiftTransaction] ([src/api/models/gift.py]).

    [deliver] calls Ethio Telecom's CRM or Telebirr in its middle, so it is
    [deliver_open], which may end with a call to make, and [deliver_close],
    which takes the answer.  A prize's key is its position in the table. *)

From Stdlib Require Import ZArith Lia.
From S2P Require Import Prelude Decimal Subscriptions.

Module Prizes.

(** ** The prize structure *)

Definition CRM : string := "crm".
Definition TELEBIRR : string := "telebirr_b2c".
Definition ONE_GB_IN_MB : Z := 102400.

(** Amounts are hundredths: of a birr, or of a megabyte. *)
Record prize_tier := PrizeTier {
  pt_tier : string; pt_winner_count : nat; pt_gift_type : string; pt_channel : string;
  pt_amount : Z; pt_description : string; pt_delivery_days : option Z; pt_requires_phone_contact : bool
}.

Definition is_cash (t : prize_tier) : bool := String.eqb (pt_gift_type t) "cash".

Definition deadline_from (t : prize_tier) (closed_at : option Z) : option Z :=
  match pt_delivery_days t, closed_at with Some d, Some c => Some (c + d * day) | _, _ => None end.

Definition PRIZES : list prize_tier :=
  [PrizeTier "daily" 20 "data" CRM ONE_GB_IN_MB "1 GB weekly data package" (Some 1) false;
   PrizeTier "weekly" 10 "cash" TELEBIRR 100000 "1,000 ETB via Telebirr" (Some 10) false;
   PrizeTier "monthly" 5 "cash" TELEBIRR 500000 "5,000 ETB via Telebirr" (Some 10) false;
   PrizeTier "grand" 1 "cash" TELEBIRR 30000000 "300,000 ETB via Telebirr" (Some 20) true].

Definition prize_for {S} (tier : string) : M S prize_tier :=
  match list_find (λ t, pt_tier t = tier) PRIZES with
  | Some (_, t) => mret t
  | None => raise (ValueError ("No prize defined for competition tier: '" +:+ tier +:+ "'"))
  end.

(** ** Rows *)

Inductive pstatus := pending | processing | success | failed | skipped.

#[export] Instance pstatus_eq_dec : EqDecision pstatus.
Proof. solve_decision. Defined.

Definition status_str (st : pstatus) : string :=
  match st with
  | pending => "pending" | processing => "processing" | success => "success" | failed => "failed"
  | skipped => "skipped"
  end.

(** The columns delivery writes. *)
Record delivery := Delivery {
  dv_status : pstatus; dv_error : string; dv_originator : string; dv_conversation : string;
  dv_telebirr_id : string; dv_attempts : Z; dv_delivered_at : option Z; dv_updated_at : Z
}.

(** [WinnerGiftTransaction]. *)
Record prize := Prize {
  pz_winner : Z; pz_type : string; pz_campaign : option Z; pz_amount : Z; pz_method : string;
  pz_msisdn : string; pz_key : option string; pz_deadline : option Z; pz_delivery : delivery
}.
Definition pz_status (p : prize) : pstatus := dv_status (pz_delivery p).
Definition with_delivery (f : delivery → delivery) (p : prize) : prize :=
  Prize (pz_winner p) (pz_type p) (pz_campaign p) (pz_amount p) (pz_method p) (pz_msisdn p) (pz_key p)
    (pz_deadline p) (f (pz_delivery p)).

Definition set_attempt (d : delivery) : delivery :=
  Delivery processing (dv_error d) (dv_originator d) (dv_conversation d) (dv_telebirr_id d)
    (dv_attempts d + 1) (dv_delivered_at d) (dv_updated_at d).
Definition set_closed (st : pstatus) (error : string) (now : Z) (d : delivery) : delivery :=
  Delivery st error (dv_originator d) (dv_conversation d) (dv_telebirr_id d) (dv_attempts d)
    (dv_delivered_at d) now.
Definition set_delivered (id : string) (now : Z) (d : delivery) : delivery :=
  Delivery success (dv_error d) (dv_originator d) (dv_conversation d)
    (if String.eqb id "" then dv_telebirr_id d else id) (dv_attempts d) (Some now) now.
Definition set_payout (originator conversation : string) (now : Z) (d : delivery) : delivery :=
  Delivery processing (dv_error d) originator conversation (dv_telebirr_id d) (dv_attempts d)
    (dv_delivered_at d) now.

(** [WinnerGiftPackage], without its activity columns. *)
Record package := Package { pk_gift_type : string; pk_method : string; pk_amount : Z; pk_active : bool }.

#[export] Instance delivery_eq_dec : EqDecision delivery.
Proof. solve_decision. Defined.
#[export] Instance prize_eq_dec : EqDecision prize.
Proof. solve_decision. Defined.

(** What the code reads of a campaign, and of an operator's [CRMGiftPackage]. *)
Record campaign := Campaign { ca_id : Z; ca_entry_deadline : option Z; ca_start_date : option Z }.
Record crm_package := CrmPackage { cr_offering : string; cr_charge : Z }.

(** A [CRMGiftTransaction]; its transaction id is unique in the table. *)
Record crm_row := CrmRow { crr_id : string; crr_user : Z; crr_phone : string; crr_offering : string;
                           crr_charge : Z; crr_ok : bool }.

(** [z_phones] has the phone column of the users that have a profile,
    [z_telebirr] the users who ever paid by Telebirr. *)
Record store := Store {
  z_rows : list prize;
  z_packages : gmap string package;
  z_phones : gmap Z string;
  z_telebirr : list Z;
  z_crm : list crm_row;
  z_notes : list Subscriptions.note
}.
Definition with_rows (t : list prize) (s : store) : store :=
  Store t (z_packages s) (z_phones s) (z_telebirr s) (z_crm s) (z_notes s).
Definition with_packages (ps : gmap string package) (s : store) : store :=
  Store (z_rows s) ps (z_phones s) (z_telebirr s) (z_crm s) (z_notes s).
Definition notify_system (user : Z) (ty message : string) : M store unit :=
  modify (λ s, Store (z_rows s) (z_packages s) (z_phones s) (z_telebirr s) (z_crm s)
                 (z_notes s ++ [Subscriptions.Note user ty message])).

Definition is_settled (p : prize) : bool := bool_decide (pz_status p ∈ [success; skipped]).

Definition update_row (pk : nat) (f : delivery → delivery) : M store unit :=
  modify (λ s, with_rows (alter (with_delivery f) pk (z_rows s)) s).

Definition mark_failed (pk : nat) (error : string) (now : Z) : M store unit :=
  update_row pk (set_closed failed error now).
Definition mark_skipped (pk : nat) (reason : string) (now : Z) : M store unit :=
  update_row pk (set_closed skipped reason now).
Definition _notify_delivered (self : prize) : M store unit :=
  notify_system (pz_winner self) "prize_delivered"
    (if String.eqb (pz_method self) CRM then "Your data prize has been added to your line."
     else "Your " +:+ money_str (pz_amount self) +:+ " ETB prize has been paid out.").
Definition mark_success (pk : nat) (self : prize) (id : string) (now : Z) : M store unit :=
  update_row pk (set_delivered id now) ≫= λ _,
  when (negb (bool_decide (pz_status self = success))) (_notify_delivered self).

(** ** Awarding *)

Definition idempotency_key (c : option campaign) (winner : Z) (tier : string) : string :=
  (match c with Some c => str_int (ca_id c) | None => "none" end) +:+ ":" +:+ tier +:+ ":" +:+ str_int winner.

Definition package_for (tier : string) (spec : prize_tier) : M store unit :=
  modify (λ s, with_packages
    (<[tier := Package (pt_gift_type spec) (pt_channel spec) (pt_amount spec) true]> (z_packages s)) s).

Definition without (c : ascii) : string → string := on_chars (filter (λ x, x ≠ c)).

Definition _normalize_local_phone (phone : string) : string :=
  let p := without "+" (without "-" (without " " phone)) in
  if String.prefix "251" p then "0" +:+ String.substring 3 (String.length p - 3) p
  else if String.prefix "0" p then p else "0" +:+ p.

Definition _winner_msisdn (winner : Z) (s : store) : string :=
  let phone := default "" (z_phones s !! winner) in
  if String.eqb phone "" then "" else _normalize_local_phone phone.

Definition _campaign_close (c : option campaign) (now : Z) : Z :=
  match c with
  | None => now
  | Some c => match ca_entry_deadline c, ca_start_date c with Some t, _ | None, Some t => t | None, None => now end
  end.

(** [filter(idempotency_key=key).first()]: the column is unique. *)
Definition by_key (key : string) (s : store) : option nat :=
  fst <$> list_find (λ p, pz_key p = Some key) (z_rows s).

Definition create (p : prize) : M store nat :=
  s ← get;
  if match pz_key p with Some k => bool_decide (is_Some (by_key k s)) | None => false end
  then raise (IntegrityError "idempotency_key")
  else put (with_rows (z_rows s ++ [p]) s) ≫= λ _, mret (length (z_rows s)).

Definition _notify_won (p : prize) (spec : prize_tier) : M store unit :=
  notify_system (pz_winner p) "prize_won"
    ("You won " +:+ pt_description spec +:+ "! " +:+
     match pz_deadline p with
     | Some t => "It will be delivered by " +:+ isoformat (utc_date t) +:+ "."
     | None => "It will be delivered shortly."
     end).

Definition new_prize (c : option campaign) (winner : Z) (tier : string) (spec : prize_tier)
    (closed_at : Z) (phone : string) (now : Z) : prize :=
  Prize winner tier (ca_id <$> c) (pt_amount spec) (pt_channel spec) phone
    (Some (idempotency_key c winner tier)) (deadline_from spec (Some closed_at))
    (Delivery pending "" "" "" "" 0 None now).

(** From the insertion on: the caller's lookup found no row, perhaps some time
    ago.  The answer is the row, and whether this call created it. *)
Definition award_insert (c : option campaign) (winner : Z) (tier : string) (spec : prize_tier)
    (closed_at : option Z) (msisdn : string) (now : Z) : M store (nat * bool) :=
  s ← get;
  let phone := or_str msisdn (_winner_msisdn winner s) in
  let closed := match closed_at with Some t => t | None => _campaign_close c now end in
  let p := new_prize c winner tier spec closed phone now in
  r ← catch (atomic (package_for tier spec ≫= λ _, pk ← create p; mret (pk, true)))
        (λ e, match e with
              | IntegrityError _ => Some (
                  s ← get;
                  match by_key (idempotency_key c winner tier) s with
                  | Some pk => mret (pk, false)
                  | None => raise e
                  end)
              | _ => None
              end);
  when r.2 (_notify_won p spec) ≫= λ _, mret r.

Definition award (c : option campaign) (winner : Z) (tier : string) (closed_at : option Z)
    (msisdn : string) (now : Z) : M store (nat * bool) :=
  spec ← prize_for tier;
  s ← get;
  match by_key (idempotency_key c winner tier) s with
  | Some pk => mret (pk, false)
  | None => award_insert c winner tier spec closed_at msisdn now
  end.

Fixpoint award_each (c : option campaign) (winners : list Z) (tier : string) (closed_at : option Z)
    (now : Z) : M store (list nat) :=
  match winners with
  | [] => mret []
  | w :: ws => r ← award c w tier closed_at "" now; l ← award_each c ws tier closed_at now; mret (r.1 :: l)
  end.

Definition award_all (c : option campaign) (winners : list Z) (tier : string) (closed_at : option Z)
    (now : Z) : M store (list nat) :=
  spec ← prize_for tier; award_each c (take (pt_winner_count spec) winners) tier closed_at now.

(** ** Delivering *)

(** [DATA_PRIZE_OFFERING_ID], and its fallback [CRM_OFFERING_ID]. *)
Record settings := Settings { cfg_data_offering : string; cfg_crm_offering : string }.

Definition MAX_DELIVERY_ATTEMPTS : Z := 5.

(** A call to make for a prize. *)
Inductive outgoing :=
| CrmGift (msisdn offering : string) (charge : Z)
| B2CPayout (msisdn : string) (amount : Z).

(** What comes back: the CRM's answer with its transaction id ([""] when
    there is none), Telebirr's, or an exception of the client. *)
Inductive answer :=
| CrmAnswer (ok : bool) (message id : string)
| B2CAccepted (originator conversation : string)
| B2CRefused (error : string)
| Raised (error : string).

(** The outcome of a delivery: [ok] and the message, or a call. *)
Definition step : Type := (bool * string) + (prize * outgoing).

Definition _deliver_data_open (pk : nat) (self : prize) (pkg : option crm_package) (c : settings) (now : Z)
    : M store step :=
  if String.eqb (pz_msisdn self) ""
  then mark_failed pk "No phone number on the winner" now ≫= λ _, mret (inl (false, "No phone number on the winner"))
  else
    let '(offering, charge) := match pkg with
      | Some g => (cr_offering g, cr_charge g)
      | None => (or_str (cfg_data_offering c) (cfg_crm_offering c), 0) end in
    if String.eqb offering ""
    then mark_failed pk "No data package configured (DATA_PRIZE_OFFERING_ID)" now ≫= λ _,
         mret (inl (false, "No data package configured"))
    else mret (inr (self, CrmGift (pz_msisdn self) offering charge)).

Definition _can_receive_telebirr (winner : Z) (s : store) : bool :=
  bool_decide (is_Some (z_phones s !! winner)) && bool_decide (winner ∈ z_telebirr s).

Definition _deliver_cash_open (pk : nat) (self : prize) (now : Z) : M store step :=
  if String.eqb (pz_msisdn self) ""
  then mark_failed pk "No phone number on the winner" now ≫= λ _, mret (inl (false, "No phone number on the winner"))
  else
    s ← get;
    if negb (_can_receive_telebirr (pz_winner self) s)
    then mark_skipped pk "Winner has no Telebirr account; needs paying another way" now ≫= λ _,
         mret (inl (false, "Winner has no Telebirr account; needs paying another way"))
    else mret (inr (self, B2CPayout (pz_msisdn self) (pz_amount self))).

(** [self] is the caller's copy of the row; the update has no condition. *)
Definition deliver_open (pk : nat) (self : prize) (force : bool) (pkg : option crm_package) (c : settings)
    (now : Z) : M store step :=
  if is_settled self && negb force
  then mret (inl (false, "Prize is already " +:+ status_str (pz_status self) +:+ "; not delivering again"))
  else if bool_decide (pz_status self = processing) && negb force
  then mret (inl (false, "Delivery already in progress; awaiting confirmation"))
  else
    update_row pk set_attempt ≫= λ _,
    s ← get;
    match z_rows s !! pk with
    | None => raise (DoesNotExist "WinnerGiftTransaction")
    | Some self =>
        if String.eqb (pz_method self) CRM then _deliver_data_open pk self pkg c now
        else if String.eqb (pz_method self) TELEBIRR then _deliver_cash_open pk self now
        else
          let m := "No delivery channel for '" +:+ pz_method self +:+ "'" in
          mark_failed pk m now ≫= λ _, mret (inl (false, m))
    end.

Definition retry_open (pk : nat) (self : prize) (pkg : option crm_package) (c : settings) (now : Z) : M store step :=
  if is_settled self
  then mret (inl (false, "Prize is already " +:+ status_str (pz_status self) +:+ "; nothing to retry"))
  else if bool_decide (pz_status self = processing)
  then mret (inl (false, "Delivery already in progress; awaiting confirmation"))
  else if MAX_DELIVERY_ATTEMPTS <=? dv_attempts (pz_delivery self)
  then mret (inl (false, "Given up after " +:+ str_int (dv_attempts (pz_delivery self))
                         +:+ " attempts; needs an operator to look at why it keeps failing"))
  else deliver_open pk self false pkg c now.

Definition add_crm (r : crm_row) : M store unit :=
  s ← get;
  if bool_decide (crr_id r ∈ (crr_id <$> z_crm s)) then raise (IntegrityError "transaction_id")
  else put (Store (z_rows s) (z_packages s) (z_phones s) (z_telebirr s) (z_crm s ++ [r]) (z_notes s)).

Definition close_data (pk : nat) (self : prize) (offering : string) (charge : Z) (ok : bool)
    (message id : string) (now : Z) : M store (bool * string) :=
  when (negb (String.eqb id "")) (add_crm (CrmRow id (pz_winner self) (pz_msisdn self) offering charge ok))
  ≫= λ _,
  if ok then mark_success pk self id now ≫= λ _, mret (true, or_str message "Data prize provisioned")
  else mark_failed pk (or_str message "CRM provisioning failed") now ≫= λ _,
       mret (false, or_str message "CRM provisioning failed").

(** The [except Exception] of [deliver]. *)
Definition failing (pk : nat) (error : string) (now : Z) : M store (bool * string) :=
  mark_failed pk error now ≫= λ _, mret (false, error).

(** The rest of [deliver].  An answer of the other channel does not occur. *)
Definition deliver_close (pk : nat) (self : prize) (out : outgoing) (a : answer) (now : Z)
    : M store (bool * string) :=
  match out, a with
  | CrmGift _ offering charge, CrmAnswer ok message id =>
      catch (close_data pk self offering charge ok message id now) (λ e, Some (failing pk (exn_str e) now))
  | B2CPayout _ _, B2CAccepted originator conversation =>
      update_row pk (set_payout originator conversation now) ≫= λ _,
      mret (true, "Payout initiated; awaiting Telebirr confirmation")
  | B2CPayout _ _, B2CRefused error => failing pk error now
  | _, Raised error => failing pk error now
  | _, _ => mret (false, "")
  end.

(** ** The scheduler, and Telebirr's confirmation *)

(** [deliverable]: what a scheduled run loads, before it delivers the first. *)
Definition deliverable (s : store) : list (nat * prize) :=
  filter (λ ip, pz_status ip.2 ∈ [pending; failed] ∧ dv_attempts (pz_delivery ip.2) < MAX_DELIVERY_ATTEMPTS)
    (imap pair (z_rows s)).

(** [filter(originator_conversation_id=o).first()], newest first. *)
Definition by_originator (o : string) (s : store) : option nat :=
  last (fst <$> filter (λ ip, dv_originator (pz_delivery ip.2) = o) (imap pair (z_rows s))).

(** The prize branch of [telebirr_b2c_webhook], in its transaction.  [false]:
    no prize carries the conversation. *)
Definition b2c_webhook (originator : string) (ok : bool) (desc code id : string) (now : Z) : M store bool :=
  s ← get;
  if String.eqb originator "" then mret true
  else match by_originator originator s with
  | None => mret false
  | Some pk =>
      match z_rows s !! pk with
      | None => mret false
      | Some self =>
          if negb (bool_decide (pz_status self = processing)) then mret true
          else (if ok then mark_success pk self id now
                else mark_failed pk (or_str desc ("ResultCode=" +:+ code)) now) ≫= λ _, mret true
      end
  end.

(** ** Awards *)

(** Keys are unique, and every prize under a key pays what its tier pays. *)
Record rows_ok (t : list prize) : Prop := RowsOk {
  ro_keys : ∀ i j p q k, t !! i = Some p → t !! j = Some q → pz_key p = Some k → pz_key q = Some k → i = j;
  ro_amounts : ∀ p, p ∈ t → pz_key p ≠ None →
    ∃ spec, spec ∈ PRIZES ∧ pt_tier spec = pz_type p ∧ pz_amount p = pt_amount spec ∧ pz_method p = pt_channel spec
}.

Lemma by_key_Some key s pk : by_key key s = Some pk → ∃ p, z_rows s !! pk = Some p ∧ pz_key p = Some key.
Proof.
  unfold by_key. intros ([i p] & H & ->)%fmap_Some_1. apply list_find_Some in H as (? & ? & _). eauto.
Qed.

Lemma by_key_None key s p : by_key key s = None → p ∈ z_rows s → pz_key p ≠ Some key.
Proof.
  unfold by_key. intros H%fmap_None Hin. rewrite list_find_None, Forall_forall in H. by apply H.
Qed.

Lemma by_key_at key s pk p :
  rows_ok (z_rows s) → z_rows s !! pk = Some p → pz_key p = Some key → by_key key s = Some pk.
Proof.
  intros Hok Hp Hk. destruct (by_key key s) as [i|] eqn:E.
  - destruct (by_key_Some _ _ _ E) as (q & Hq & Hkq). f_equal. by apply (ro_keys _ Hok i pk q p key).
  - exfalso. by apply (by_key_None _ _ p E); [apply list_elem_of_lookup_2 with pk|].
Qed.

Lemma prize_for_cases {S} tier (s : S) :
  (∃ spec, prize_for tier s = (inr spec, s) ∧ spec ∈ PRIZES ∧ pt_tier spec = tier)
  ∨ prize_for tier s = (inl (ValueError ("No prize defined for competition tier: '" +:+ tier +:+ "'")), s).
Proof.
  unfold prize_for. destruct (list_find _ PRIZES) as [[i t]|] eqn:E; [left|by right].
  apply list_find_Some in E as (Hi & Ht & _). exists t. split; [done|]. split; [|done].
  by apply list_elem_of_lookup_2 with i.
Qed.

(** What an insertion leaves, whether or not the lookup before it is still true. *)
Definition awarded (c : option campaign) (winner : Z) (tier : string) (spec : prize_tier)
    (closed_at : option Z) (msisdn : string) (now : Z) (s : store) : (exn + nat * bool) * store :=
  match by_key (idempotency_key c winner tier) s with
  | Some pk => (inr (pk, false), s)
  | None =>
      let p := new_prize c winner tier spec (match closed_at with Some t => t | None => _campaign_close c now end)
                 (or_str msisdn (_winner_msisdn winner s)) now in
      (inr (length (z_rows s), true), (_notify_won p spec (with_rows (z_rows s ++ [p]) (package_for tier spec s).2)).2)
  end.

Lemma award_insert_run c winner tier spec closed_at msisdn now s :
  award_insert c winner tier spec closed_at msisdn now s = awarded c winner tier spec closed_at msisdn now s.
Proof.
  unfold award_insert, awarded. rewrite bind_run. cbn [get]. cbv zeta. rewrite bind_run.
  unfold catch, atomic. rewrite bind_run. cbn [package_for modify]. rewrite bind_run. unfold create.
  rewrite bind_run. cbn [get pz_key new_prize].
  change (by_key (idempotency_key c winner tier) (with_packages _ s)) with (by_key (idempotency_key c winner tier) s).
  destruct (by_key (idempotency_key c winner tier) s) as [pk|] eqn:E.
  - rewrite bool_decide_eq_true_2 by eauto. cbn [raise]. rewrite bind_run. cbn [get]. by rewrite E.
  - rewrite bool_decide_eq_false_2 by (by intros [? [=]]). reflexivity.
Qed.

Lemma award_run c winner tier closed_at msisdn now s :
  award c winner tier closed_at msisdn now s =
  match prize_for tier s with
  | (inr spec, _) => awarded c winner tier spec closed_at msisdn now s
  | (inl e, _) => (inl e, s)
  end.
Proof.
  unfold award. rewrite bind_run. destruct (prize_for_cases tier s) as [(spec & -> & _)| ->]; [|done].
  rewrite bind_run. cbn [get]. rewrite <- award_insert_run.
  destruct (by_key _ s) as [pk|] eqn:E; [|done]. rewrite award_insert_run. unfold awarded. by rewrite E.
Qed.

(** A win is one prize.  Awarding a tier to a winner -- at once, or by
    an insertion whose lookup is out of date -- either finds the prize of that
    campaign, tier and winner, and changes nothing, or writes one, pending,
    for the amount and the channel of the published structure, tells the
    winner, and leaves keys unique; from then on every award of it, whatever
    its other arguments, finds that row and changes nothing.  A tier the
    structure does not know is refused before anything is written. *)
Theorem award_records_one_prize c winner tier closed_at msisdn now (s : store) :
  rows_ok (z_rows s) →
  match prize_for tier s with
  | (inl e, _) => award c winner tier closed_at msisdn now s = (inl e, s)
  | (inr spec, _) =>
      award c winner tier closed_at msisdn now s = award_insert c winner tier spec closed_at msisdn now s
      ∧ ∃ pk created s' p, award c winner tier closed_at msisdn now s = (inr (pk, created), s')
        ∧ rows_ok (z_rows s') ∧ z_rows s' !! pk = Some p
        ∧ pz_key p = Some (idempotency_key c winner tier)
        ∧ (if created
           then z_rows s' = z_rows s ++ [p] ∧ pz_winner p = winner ∧ pz_amount p = pt_amount spec
                ∧ pz_method p = pt_channel spec ∧ pz_status p = pending
                ∧ length (z_notes s') = S (length (z_notes s))
           else s' = s)
        ∧ ∀ closed m t, award c winner tier closed m t s' = (inr (pk, false), s')
                        ∧ award_insert c winner tier spec closed m t s' = (inr (pk, false), s')
  end.
Proof.
  intros Hok. destruct (prize_for_cases tier s) as [(spec & Hs & Hin & Ht)|Hs]; rewrite Hs;
    [|by rewrite award_run, Hs].
  rewrite award_insert_run, award_run, Hs. split; [done|].
  assert (∀ closed m t s' pk, by_key (idempotency_key c winner tier) s' = Some pk →
    award c winner tier closed m t s' = (inr (pk, false), s')
    ∧ award_insert c winner tier spec closed m t s' = (inr (pk, false), s')) as Hagain.
  { intros closed m t s' pk Hk. rewrite award_insert_run, award_run. unfold awarded. rewrite Hk. split; [|done].
    unfold prize_for in *. by destruct (list_find _ PRIZES) as [[]|]. }
  unfold awarded. destruct (by_key (idempotency_key c winner tier) s) as [pk|] eqn:E.
  { destruct (by_key_Some _ _ _ E) as (p & Hp & Hk). exists pk, false, s, p. split_and!; try done. intros; by apply Hagain. }
  cbv zeta. set (p := new_prize c winner tier spec _ _ now). eexists (length (z_rows s)), true, _, p.
  split; [done|]. cbn [z_rows _notify_won notify_system modify snd with_rows package_for with_packages].
  assert ((z_rows s ++ [p]) !! length (z_rows s) = Some p) as Hl by (rewrite lookup_app_r, Nat.sub_diag by done; done).
  assert (rows_ok (z_rows s ++ [p])) as Hok'.
  { split.
    + assert (∀ i q k, z_rows s !! i = Some q → pz_key q = Some k → pz_key p = Some k → False) as Hnew.
      { intros i q k Hi Hq [= <-]. apply (by_key_None _ _ q E); [by apply list_elem_of_lookup_2 with i|done]. }
      intros i j a b k Hi Hj Ha Hb.
      apply lookup_snoc_Some in Hi as [[_ Hi]|[-> <-]], Hj as [[_ Hj]|[-> <-]]; [|naive_solver..].
      by apply (ro_keys _ Hok i j a b k).
    + intros q [Hq| ->%list_elem_of_singleton]%elem_of_app Hk; [by apply (ro_amounts _ Hok)|].
      exists spec. by cbn. }
  split_and!; try done.
  - cbn [z_notes]. rewrite length_app. cbn. lia.
  - intros closed m t. apply Hagain. by apply (by_key_at _ _ _ p).
Qed.

(** ** Deliveries *)

(** What happened to the instructions sent for prizes: one entry when a call
    goes out, one when it comes back refused or without an answer, or when
    Telebirr reports that it failed. *)
Inductive entry := Sent (pk : nat) | Refused (pk : nat).

(** The table with what is outside it: deliveries waiting for the answer of
    their call, and payouts waiting for Telebirr's confirmation. *)
Record world := World {
  w_store : store; w_flight : list (nat * prize * outgoing); w_awaiting : list (nat * string); w_log : list entry
}.

Inductive event :=
| Award (c : option campaign) (winner : Z) (tier : string) (closed_at : option Z) (msisdn : string) (now : Z)
| Deliver (pk : nat) (self : prize) (force : bool) (pkg : option crm_package) (c : settings) (now : Z)
| Retry (pk : nat) (self : prize) (pkg : option crm_package) (c : settings) (now : Z)
| Answer (pk : nat) (a : answer) (now : Z)
| Confirm (originator : string) (ok : bool) (desc code id : string) (now : Z).

Definition refuses (a : answer) : bool :=
  match a with CrmAnswer ok _ _ => negb ok | B2CAccepted _ _ => false | B2CRefused _ | Raised _ => true end.

(** The payout, if Telebirr accepted one. *)
Definition now_awaiting (pk : nat) (out : outgoing) (a : answer) : list (nat * string) :=
  match out, a with B2CPayout _ _, B2CAccepted o _ => [(pk, o)] | _, _ => [] end.

Definition sent (pk : nat) (r : (exn + step) * store) (w : world) : world :=
  match r with
  | (inr (inr (self, out)), s) => World s (w_flight w ++ [(pk, self, out)]) (w_awaiting w) (w_log w ++ [Sent pk])
  | (_, s) => World s (w_flight w) (w_awaiting w) (w_log w)
  end.

Definition exec (e : event) (w : world) : world :=
  match e with
  | Award c winner tier closed msisdn now =>
      World (award c winner tier closed msisdn now (w_store w)).2 (w_flight w) (w_awaiting w) (w_log w)
  | Deliver pk self force pkg c now => sent pk (deliver_open pk self force pkg c now (w_store w)) w
  | Retry pk self pkg c now => sent pk (retry_open pk self pkg c now (w_store w)) w
  | Answer pk a now =>
      match list_find (λ f, f.1.1 = pk) (w_flight w) with
      | None => w
      | Some (_, (_, self, out)) =>
          World (deliver_close pk self out a now (w_store w)).2
            (filter (λ f, f.1.1 ≠ pk) (w_flight w))
            (w_awaiting w ++ now_awaiting pk out a)
            (w_log w ++ if refuses a then [Refused pk] else [])
      end
  | Confirm o ok desc code id now =>
      World (b2c_webhook o ok desc code id now (w_store w)).2 (w_flight w)
        (filter (λ f, f.2 ≠ o) (w_awaiting w))
        (w_log w ++ if ok then [] else Refused ∘ fst <$> filter (λ f, f.2 = o) (w_awaiting w))
  end.

Definition originator (p : prize) : string := dv_originator (pz_delivery p).

(** The runs in which deliveries do not overlap: each starts from the row as
    it is and without [force]; the providers' ids are fresh, and Telebirr
    confirms a payout once. *)
Definition fair (e : event) (w : world) : Prop :=
  match e with
  | Award _ _ _ _ _ _ => True
  | Deliver pk self force _ _ _ => force = false ∧ z_rows (w_store w) !! pk = Some self
  | Retry pk self _ _ _ => z_rows (w_store w) !! pk = Some self
  | Answer _ (B2CAccepted o _) _ => o ≠ "" ∧ o ∉ originator <$> z_rows (w_store w)
  | Answer _ (CrmAnswer _ _ id) _ => id ∉ crr_id <$> z_crm (w_store w)
  | Answer _ _ _ => True
  | Confirm o _ _ _ _ _ => o ∈ snd <$> w_awaiting w
  end.

Fixpoint run (es : list event) (w : world) : world := match es with [] => w | e :: es => run es (exec e w) end.
Fixpoint all_fair (es : list event) (w : world) : Prop :=
  match es with [] => True | e :: es => fair e w ∧ all_fair es (exec e w) end.

#[export] Instance fair_dec e w : Decision (fair e w).
Proof. destruct e as [| | |? []|]; cbn; apply _. Defined.
#[export] Instance all_fair_dec es w : Decision (all_fair es w).
Proof. revert w. induction es as [|e es IH]; intros w; cbn; apply _. Defined.

(** Instructions for a prize that were sent and not refused. *)
Definition count (pk : nat) (e : entry) : Z :=
  match e with Sent i => if decide (i = pk) then 1 else 0 | Refused i => if decide (i = pk) then -1 else 0 end.
Definition outstanding (pk : nat) (log : list entry) : Z := sumZ (count pk) log.

(** How many there may be. *)
Definition bound (p : option prize) : Z :=
  match p with Some p => if decide (pz_status p ∈ [processing; success]) then 1 else 0 | None => 0 end.

Record inv (w : world) : Prop := Inv {
  i_bound : ∀ pk, outstanding pk (w_log w) <= bound (z_rows (w_store w) !! pk);
  i_nodup : NoDup (fst ∘ fst <$> w_flight w);
  i_flight : ∀ pk, pk ∈ fst ∘ fst <$> w_flight w →
    ∃ p, z_rows (w_store w) !! pk = Some p ∧ pz_status p = processing;
  i_awaiting : ∀ pk o, (pk, o) ∈ w_awaiting w → o ≠ "" ∧ pk ∉ fst ∘ fst <$> w_flight w ∧
    ∃ p, z_rows (w_store w) !! pk = Some p ∧ pz_status p = processing ∧ originator p = o;
  i_originators : ∀ i j p q, z_rows (w_store w) !! i = Some p → z_rows (w_store w) !! j = Some q →
    originator p = originator q → originator p ≠ "" → i = j
}.
(** A step that changes one row. *)
Lemma inv_row w pk p f s1 flight awaiting log :
  let q := with_delivery f p in
  inv w → z_rows (w_store w) !! pk = Some p → z_rows s1 = alter (with_delivery f) pk (z_rows (w_store w)) →
  originator q = originator p ∨ originator q ∉ originator <$> z_rows (w_store w) →
  (∀ i, i ≠ pk → outstanding i log = outstanding i (w_log w)) →
  outstanding pk log <= bound (Some q) →
  NoDup (fst ∘ fst <$> flight) →
  (∀ i, i ∈ fst ∘ fst <$> flight → i ∈ fst ∘ fst <$> w_flight w ∧ i ≠ pk ∨ i = pk ∧ pz_status q = processing) →
  (∀ i o, (i, o) ∈ awaiting → (i, o) ∈ w_awaiting w ∧ i ≠ pk
    ∨ i = pk ∧ o = originator q ∧ o ≠ "" ∧ pz_status q = processing ∧ pk ∉ fst ∘ fst <$> flight) →
  inv (World s1 flight awaiting log).
Proof.
  intros q [Hb Hn Hf Ha Ho] Hp Hrows Horig Hlog Hpk Hn1 Hf1 Ha1.
  assert (z_rows s1 !! pk = Some q) as Hq by (by rewrite Hrows, list_lookup_alter_eq, Hp).
  assert (∀ i, i ≠ pk → z_rows s1 !! i = z_rows (w_store w) !! i) as Hne
    by (intros i Hi; by rewrite Hrows, list_lookup_alter_ne).
  split; cbn [w_store w_flight w_awaiting w_log].
  - intros i. destruct (decide (i = pk)) as [->|Hi]; [by rewrite Hq|]. rewrite Hne, Hlog by done. apply Hb.
  - done.
  - intros i [[Hi ?]|[-> Hst]]%Hf1; [|by eauto]. rewrite Hne by done. by apply Hf.
  - intros i o [[Hi ?]|(-> & -> & Ho1 & Hst & Hfl)]%Ha1; [|by eauto 6].
    destruct (Ha i o Hi) as (H1 & H2 & H3). rewrite Hne by done. split_and!; [done| |done].
    by intros [[? _]|[-> _]]%Hf1.
  - assert (∀ j r, j ≠ pk → z_rows (w_store w) !! j = Some r → originator q = originator r → originator q = "") as Hu.
    { intros j r Hj Hr Heq. destruct (decide (originator q = "")) as [|He]; [done|]. destruct Horig as [Hs|Hs].
      - destruct Hj. apply (Ho j pk r p); congruence.
      - destruct Hs. rewrite Heq. by apply list_elem_of_fmap_2, list_elem_of_lookup_2 with j. }
    intros i j a b Hi Hj Hab He.
    destruct (decide (i = pk)) as [->|Hi1], (decide (j = pk)) as [->|Hj1]; [done| | |].
    + rewrite Hne in Hj by done. rewrite Hq in Hi. injection Hi as <-. by destruct He; apply Hu with j b.
    + rewrite Hne in Hi by done. rewrite Hq in Hj. injection Hj as <-. destruct He. rewrite Hab. by apply Hu with i a.
    + rewrite Hne in Hi, Hj by done. by apply (Ho i j a b).
Qed.

(** What the steps do to the row they are about. *)
Definition closes (st : list pstatus) (f : delivery → delivery) : Prop :=
  ∀ d, dv_status (f d) ∈ st ∧ dv_originator (f d) = dv_originator d.

Ltac row_closed := split; [by apply list_alter_alter_eq|left; split; [by eexists|intros d; split; [set_solver|done]]].

Lemma deliver_open_cases pk self pkg c now s :
  z_rows s !! pk = Some self →
  let r := deliver_open pk self false pkg c now s in
  (∃ m, r = (inr (inl (false, m)), s))
  ∨ pz_status self ∈ [pending; failed] ∧ ∃ f, z_rows r.2 = alter (with_delivery f) pk (z_rows s) ∧
      ((∃ m, r.1 = inr (inl (false, m))) ∧ closes [failed; skipped] f
       ∨ (∃ x, r.1 = inr (inr x)) ∧ closes [processing] f).
Proof.
  intros Hp. cbv zeta. unfold deliver_open. rewrite !andb_true_r.
  destruct (is_settled self) eqn:Hset; [by left; eexists|].
  destruct (bool_decide (pz_status self = processing)) eqn:Hpr; [by left; eexists|].
  assert (pz_status self ∈ [pending; failed]) as Hst.
  { apply bool_decide_eq_false in Hset, Hpr. destruct (pz_status self); set_solver. }
  right. split; [done|]. rewrite bind_run. unfold update_row, modify. rewrite bind_run. cbn [get z_rows with_rows].
  rewrite list_lookup_alter_eq, Hp. cbn [fmap option_fmap option_map].
  assert (closes [processing] set_attempt) as Hatt by (intros d; split; [set_solver|done]).
  destruct (String.eqb _ CRM); [|destruct (String.eqb _ TELEBIRR)].
  - unfold _deliver_data_open. destruct (String.eqb _ ""); [exists (set_closed failed "No phone number on the winner" now ∘ set_attempt); row_closed|].
    destruct pkg as [g|].
    + destruct (String.eqb (cr_offering g) ""); [exists (set_closed failed "No data package configured (DATA_PRIZE_OFFERING_ID)" now ∘ set_attempt); row_closed|].
      exists set_attempt. split; [done|]. right. split; [by eexists|done].
    + destruct (String.eqb (or_str _ _) ""); [exists (set_closed failed "No data package configured (DATA_PRIZE_OFFERING_ID)" now ∘ set_attempt); row_closed|].
      exists set_attempt. split; [done|]. right. split; [by eexists|done].
  - unfold _deliver_cash_open. destruct (String.eqb _ ""); [exists (set_closed failed "No phone number on the winner" now ∘ set_attempt); row_closed|].
    rewrite bind_run. cbn [get]. destruct (negb _).
    + exists (set_closed skipped "Winner has no Telebirr account; needs paying another way" now ∘ set_attempt). row_closed.
    + exists set_attempt. split; [done|]. right. split; [by eexists|done].
  - match goal with |- context [mark_failed pk ?m now] => exists (set_closed failed m now ∘ set_attempt) end. row_closed.
Qed.

Lemma retry_open_cases pk self pkg c now s :
  retry_open pk self pkg c now s = deliver_open pk self false pkg c now s
  ∨ ∃ m, retry_open pk self pkg c now s = (inr (inl (false, m)), s).
Proof.
  unfold retry_open. destruct (is_settled self); [by right; eexists|].
  destruct (bool_decide _); [by right; eexists|]. destruct (_ <=? _); [by right; eexists|by left].
Qed.

Lemma deliver_close_cases pk self out a now s :
  (match a with CrmAnswer _ _ id => id ∉ crr_id <$> z_crm s | _ => True end) →
  ∃ f, z_rows (deliver_close pk self out a now s).2 = alter (with_delivery f) pk (z_rows s) ∧
    (f = id ∧ now_awaiting pk out a = [] ∨ refuses a = true ∧ closes [failed] f ∨ refuses a = false ∧ now_awaiting pk out a = [] ∧ closes [success] f
     ∨ ∃ m n o c, out = B2CPayout m n ∧ a = B2CAccepted o c ∧ f = set_payout o c now).
Proof.
  intros Hid.
  assert (z_rows s = alter (with_delivery id) pk (z_rows s)) as Hsame by (symmetry; apply list_alter_id; by intros []).
  destruct out as [m o ch|m n], a as [ok msg tid|o' c|e|e];
    try (exists id; split; [exact Hsame|by left]);
    try (exists (set_closed failed e now); split; [done|right; left; split; [done|intros d; split; [set_solver|done]]]).
  - cbn [deliver_close]. unfold catch, close_data. rewrite bind_run.
    assert (∃ s1, when (negb (String.eqb tid "")) (add_crm (CrmRow tid (pz_winner self) (pz_msisdn self) o ch ok)) s
                  = (inr (), s1) ∧ z_rows s1 = z_rows s) as (s1 & -> & Hs1).
    { unfold when, add_crm. destruct (negb _); [|by eexists]. rewrite bind_run. cbn [get].
      rewrite bool_decide_eq_false_2 by done. by eexists. }
    destruct ok; rewrite bind_run.
    + exists (set_delivered tid now). unfold mark_success, update_row. rewrite bind_run. cbn [modify].
      unfold when, _notify_delivered, notify_system.
      split; [destruct (negb _); cbn; by rewrite Hs1|]. right. right. left.
      split; [done|]. split; [done|]. intros d. split; [set_solver|done].
    + exists (set_closed failed (or_str msg "CRM provisioning failed") now). cbn. rewrite Hs1. split; [done|].
      right. left. split; [done|]. intros d. split; [set_solver|done].
  - exists (set_payout o' c now). split; [done|]. right. right. right. eauto 10.
Qed.

Lemma by_originator_elem o s i :
  by_originator o s = Some i → ∃ p, z_rows s !! i = Some p ∧ originator p = o.
Proof.
  intros H%last_Some_elem_of. apply list_elem_of_fmap in H as ([j p] & -> & [Ho Hin]%list_elem_of_filter).
  apply elem_of_lookup_imap in Hin as (k & q & [= -> ->] & Hk). eauto.
Qed.

Lemma by_originator_is_Some o s i p :
  z_rows s !! i = Some p → originator p = o → is_Some (by_originator o s).
Proof.
  intros Hp Ho. unfold by_originator. apply last_is_Some. intros Hn.
  apply (elem_of_nil (i : nat)). rewrite <- Hn. apply list_elem_of_fmap. exists (i, p). split; [done|].
  apply list_elem_of_filter. split; [done|]. apply elem_of_lookup_imap. by exists i, p.
Qed.

Lemma webhook_cases o ok desc code id now s i p :
  by_originator o s = Some i → z_rows s !! i = Some p → pz_status p = processing → o ≠ "" →
  ∃ f, z_rows (b2c_webhook o ok desc code id now s).2 = alter (with_delivery f) i (z_rows s) ∧
       closes [if ok then success else failed] f.
Proof.
  intros Hi Hp Hst Ho. unfold b2c_webhook. rewrite bind_run. cbn [get].
  apply String.eqb_neq in Ho. rewrite Ho, Hi, Hp, bool_decide_eq_true_2 by done. cbn [negb]. rewrite bind_run.
  destruct ok.
  - exists (set_delivered id now). unfold mark_success, update_row. rewrite bind_run. cbn [modify].
    unfold when, _notify_delivered, notify_system. split; [by destruct (negb _)|]. intros d. split; [set_solver|done].
  - exists (set_closed failed (or_str desc ("ResultCode=" +:+ code)) now). split; [done|].
    intros d. split; [set_solver|done].
Qed.

(** Awarding only appends a pending row. *)
Lemma award_rows c winner tier closed_at msisdn now s :
  z_rows (award c winner tier closed_at msisdn now s).2 = z_rows s
  ∨ ∃ p, z_rows (award c winner tier closed_at msisdn now s).2 = z_rows s ++ [p] ∧ pz_status p = pending ∧ originator p = "".
Proof.
  rewrite award_run. destruct (prize_for_cases tier s) as [(spec & -> & _)| ->]; [|by left].
  unfold awarded. destruct (by_key _ s); [by left|]. right. by eexists.
Qed.

Lemma inv_award w c winner tier closed_at msisdn now :
  inv w → inv (exec (Award c winner tier closed_at msisdn now) w).
Proof.
  intros [Hb Hn Hf Ha Ho]. cbn [exec].
  destruct (award_rows c winner tier closed_at msisdn now (w_store w)) as [Hr|(p & Hr & Hst & Hor)];
    [by split; cbn [w_store w_flight w_awaiting w_log]; rewrite ?Hr|].
  assert (∀ i q, z_rows (w_store w) !! i = Some q → (z_rows (w_store w) ++ [p]) !! i = Some q) as Happ
    by (intros; by apply lookup_app_l_Some).
  split; cbn [w_store w_flight w_awaiting w_log]; rewrite ?Hr.
  - intros i. specialize (Hb i). destruct (z_rows (w_store w) !! i) as [q|] eqn:E; [by rewrite (Happ i q E)|].
    cbn in Hb. etransitivity; [exact Hb|]. unfold bound. case_match; [|done]. by case_decide.
  - done.
  - intros i (q & Hq & ?)%Hf. eauto.
  - intros i o (? & ? & q & Hq & ?)%Ha. eauto 10.
  - intros i j a b Hi Hj Hab Hne.
    apply lookup_snoc_Some in Hi as [[_ Hi]|[-> <-]]; [|done].
    apply lookup_snoc_Some in Hj as [[_ Hj]|[-> <-]]; [|congruence]. by apply (Ho i j a b).
Qed.

Lemma outstanding_snoc i log e : outstanding i (log ++ [e]) = outstanding i log + count i e.
Proof. unfold outstanding. rewrite sumZ_app, sumZ_cons, sumZ_nil. lia. Qed.

Definition spent (st : pstatus) : Z := match st with processing | success => 1 | _ => 0 end.

Lemma bound_spent p : bound (Some p) = spent (pz_status p).
Proof. unfold bound. destruct (pz_status p); reflexivity. Qed.

Lemma idle_spent st l : st ∈ l → l = [pending; failed] ∨ l = [failed; skipped] → spent st = 0 ∧ st ≠ processing.
Proof. intros H [->| ->]; rewrite !elem_of_cons, elem_of_nil in H; destruct st; naive_solver. Qed.

Lemma idle_sendable p :
  pz_status p ∈ [pending; failed] → is_settled p = false ∧ bool_decide (pz_status p = processing) = false.
Proof.
  unfold is_settled. rewrite !elem_of_cons, elem_of_nil. intros H.
  destruct (pz_status p); (split; reflexivity) || (exfalso; intuition congruence).
Qed.

Lemma closes_status f p st : closes [st] f → pz_status (with_delivery f p) = st.
Proof. intros H. destruct (H (pz_delivery p)) as [Hst%list_elem_of_singleton _]. exact Hst. Qed.

Lemma idle_not_waiting w pk p :
  inv w → z_rows (w_store w) !! pk = Some p → pz_status p ≠ processing →
  pk ∉ fst ∘ fst <$> w_flight w ∧ ∀ o, (pk, o) ∉ w_awaiting w.
Proof.
  intros [Hb Hn Hf Ha Ho] Hp Hst. split.
  - intros (q & Hq & Hs)%Hf. congruence.
  - intros o (_ & _ & q & Hq & Hs & _)%Ha. congruence.
Qed.

Lemma inv_sent w pk self pkg c now :
  inv w → z_rows (w_store w) !! pk = Some self → inv (sent pk (deliver_open pk self false pkg c now (w_store w)) w).
Proof.
  intros Hi Hp. destruct (deliver_open_cases pk self pkg c now (w_store w) Hp) as [[m ->]|[Hst (f & Hrows & Hcase)]];
    [by destruct w|].
  destruct (idle_spent _ _ Hst (or_introl eq_refl)) as [Hsp Hnp].
  assert (outstanding pk (w_log w) <= 0) as Hout by (rewrite <- Hsp, <- bound_spent, <- Hp; apply i_bound, Hi).
  destruct (idle_not_waiting w pk self Hi Hp Hnp) as [Hnf Hna].
  destruct (deliver_open pk self false pkg c now (w_store w)) as [r s1]. cbn [fst snd] in *.
  assert (∀ f, closes [failed; skipped] f ∨ closes [processing] f → originator (with_delivery f self) = originator self) as Hor
    by (intros g [Hg|Hg]; apply (Hg (pz_delivery self))).
  destruct Hcase as [[[m ->] Hcl]|[[[self' out] ->] Hcl]]; cbn [sent].
  - apply (inv_row w pk self f); try done; [by left; apply Hor; left| |by apply i_nodup| |].
    + rewrite bound_spent. unfold spent. case_match; lia.
    + intros i Hin. left. split; [done|]. by intros ->.
    + intros i o Hin. left. split; [done|]. intros ->. by apply (Hna o).
  - apply (inv_row w pk self f); try done.
    + left. apply Hor. by right.
    + intros i Hne. rewrite outstanding_snoc. cbn. rewrite decide_False by done. lia.
    + rewrite bound_spent, (closes_status f self processing Hcl), outstanding_snoc. cbn. rewrite decide_True by done. lia.
    + rewrite fmap_app. apply NoDup_app. split; [by apply i_nodup|]. split; [|apply NoDup_singleton].
      intros i Hin ->%list_elem_of_singleton. done.
    + intros i. rewrite fmap_app. intros [Hin| ->%list_elem_of_singleton]%elem_of_app.
      * left. split; [done|]. by intros ->.
      * right. split; [done|]. by apply closes_status.
    + intros i o Hin. left. split; [done|]. intros ->. by apply (Hna o).
Qed.

Lemma in_flight_other (l : list (nat * prize * outgoing)) pk i :
  i ∈ fst ∘ fst <$> filter (λ f, f.1.1 ≠ pk) l → i ∈ fst ∘ fst <$> l ∧ i ≠ pk.
Proof.
  intros (f & -> & [Hne Hin]%list_elem_of_filter)%list_elem_of_fmap. split; [by apply list_elem_of_fmap_2|done].
Qed.

Lemma inv_answer w pk a now : inv w → fair (Answer pk a now) w → inv (exec (Answer pk a now) w).
Proof.
  intros Hi Hfair. cbn [exec]. destruct (list_find _ (w_flight w)) as [[j [[pk' self] out]]|] eqn:E; [|done].
  apply list_find_Some in E as (Hj & Heq & _). cbn in Heq. subst pk'.
  assert (pk ∈ fst ∘ fst <$> w_flight w) as Hin
    by (apply list_elem_of_fmap; eexists; split; [|by eapply list_elem_of_lookup_2]; done).
  destruct (i_flight w Hi pk Hin) as (p & Hp & Hst).
  assert (outstanding pk (w_log w) <= 1) as Hout
    by (pose proof (i_bound w Hi pk) as Hb; by rewrite Hp, bound_spent, Hst in Hb).
  assert (∀ o, (pk, o) ∉ w_awaiting w) as Hna by (intros o Ho; by apply (i_awaiting w Hi pk o) in Ho as (_ & ? & _)).
  destruct (deliver_close_cases pk self out a now (w_store w)) as (f & Hrows & Hf); [by destruct a|].
  assert (pk ∉ fst ∘ fst <$> filter (λ f, f.1.1 ≠ pk) (w_flight w)) as Hgone by (by intros [_ ?]%in_flight_other).
  apply (inv_row w pk p f); try done.
  - destruct Hf as [[-> _]|[[_ Hf]|[(_ & _ & Hf)|(m & n & o & c & -> & -> & ->)]]];
      [by left|left; apply (Hf (pz_delivery p))..|right; apply Hfair].
  - intros i Hne. unfold outstanding. rewrite sumZ_app. destruct (refuses a); rewrite ?sumZ_cons, sumZ_nil; [|lia].
    cbn. rewrite decide_False by done. lia.
  - destruct Hf as [[-> _]|[[-> Hf]|[(-> & _ & Hf)|(m & n & o & c & -> & -> & ->)]]].
    + assert (outstanding pk (w_log w ++ if refuses a then [Refused pk] else []) <= outstanding pk (w_log w)) as Hle.
      { destruct (refuses a); [|by rewrite app_nil_r]. rewrite outstanding_snoc. cbn. rewrite decide_True by done. lia. }
      etransitivity; [exact Hle|]. etransitivity; [exact Hout|]. rewrite bound_spent. unfold pz_status in *. cbn. by rewrite Hst.
    + rewrite bound_spent, (closes_status f p failed Hf), outstanding_snoc. cbn. rewrite decide_True by done. lia.
    + by rewrite bound_spent, (closes_status f p success Hf), app_nil_r.
    + by rewrite app_nil_r.
  - eapply sublist_NoDup; [apply (i_nodup w Hi)|]. apply fmap_sublist, sublist_filter.
  - intros i [??]%in_flight_other. by left.
  - intros i o [Ho|Ho]%elem_of_app.
    + left. split; [done|]. intros ->. by apply (Hna o).
    + right. destruct Hf as [[_ Hno]|[[Ha _]|[(_ & Hno & _)|(m & n & o1 & c & -> & -> & ->)]]].
      1, 3: rewrite Hno in Ho; by apply elem_of_nil in Ho.
      * destruct out, a; try done; by apply elem_of_nil in Ho.
      * apply list_elem_of_singleton in Ho as [= -> ->]. split_and!; [done|done|apply Hfair|done|done].
Qed.

Lemma outstanding_refused i pk l :
  (∀ x, x ∈ l → x = Refused pk) → outstanding i l = if decide (i = pk) then - Z.of_nat (length l) else 0.
Proof.
  unfold outstanding. induction l as [|e l IH]; intros H; [by rewrite sumZ_nil; case_decide|].
  assert (e = Refused pk) as -> by (apply H; left).
  rewrite sumZ_cons, IH by (intros; apply H; by right). cbn [count length]. do 2 case_decide; try congruence; lia.
Qed.

Lemma inv_confirm w o ok desc code id now :
  inv w → fair (Confirm o ok desc code id now) w → inv (exec (Confirm o ok desc code id now) w).
Proof.
  intros Hi ([pk o'] & Ho & Hin)%list_elem_of_fmap. cbn in Ho. subst o'.
  destruct (i_awaiting w Hi pk o Hin) as (Hne & Hfl & p & Hp & Hst & Hor).
  destruct (by_originator_is_Some o (w_store w) pk p Hp Hor) as [i Hby].
  assert (i = pk) as ->.
  { destruct (by_originator_elem _ _ _ Hby) as (q & Hq & Hoq). apply (i_originators w Hi i pk q p); congruence. }
  assert (∀ j, (j, o) ∈ w_awaiting w → j = pk) as Huniq.
  { intros j (_ & _ & q & Hq & _ & Hoq)%(i_awaiting w Hi). apply (i_originators w Hi j pk q p); congruence. }
  destruct (webhook_cases o ok desc code id now (w_store w) pk p Hby Hp Hst Hne) as (f & Hrows & Hcl).
  set (refused := filter (λ f, f.2 = o) (w_awaiting w)).
  assert (∀ e, e ∈ (Refused ∘ fst <$> refused) → e = Refused pk) as Hall.
  { intros e ([j o'] & -> & [Ho Hj]%list_elem_of_filter)%list_elem_of_fmap. cbn in *. subst o'. by rewrite (Huniq j Hj). }
  assert (refused ≠ []) as Hsome.
  { intros Hnil. apply (elem_of_nil (pk, o)). rewrite <- Hnil. by apply list_elem_of_filter. }
  assert (outstanding pk (w_log w) <= 1) as Hout
    by (pose proof (i_bound w Hi pk) as Hb; by rewrite Hp, bound_spent, Hst in Hb).
  cbn [exec]. fold refused. apply (inv_row w pk p f); try done.
  - left. apply (Hcl (pz_delivery p)).
  - intros j Hj. destruct ok; [by rewrite app_nil_r|]. unfold outstanding at 1. rewrite sumZ_app.
    fold (outstanding j (w_log w)) (outstanding j (Refused ∘ fst <$> refused)).
    rewrite (outstanding_refused j pk _ Hall), decide_False by done. lia.
  - rewrite bound_spent, (closes_status f p _ Hcl). destruct ok; [by rewrite app_nil_r|].
    unfold outstanding. rewrite sumZ_app.
    fold (outstanding pk (w_log w)) (outstanding pk (Refused ∘ fst <$> refused)).
    rewrite (outstanding_refused pk pk _ Hall), decide_True, length_fmap by done.
    destruct refused; [done|]. cbn. lia.
  - apply (i_nodup w Hi).
  - intros j Hj. left. split; [done|]. by intros ->.
  - intros j o' [Hno Hj]%list_elem_of_filter. left. split; [done|]. intros ->. cbn in Hno.
    destruct (i_awaiting w Hi pk o' Hj) as (_ & _ & q & Hq & _ & Hoq). congruence.
Qed.

Lemma inv_exec e w : inv w → fair e w → inv (exec e w).
Proof.
  intros Hi Hf. destruct e.
  - by apply inv_award.
  - destruct Hf as [-> Hp]. by apply inv_sent.
  - cbn [exec]. destruct (retry_open_cases pk self pkg c now (w_store w)) as [->|[m ->]]; [by apply inv_sent|by destruct w].
  - by apply inv_answer.
  - by apply inv_confirm.
Qed.

(** The table before any delivery: no prize was sent yet. *)
Definition undelivered (s : store) : Prop :=
  ∀ p, p ∈ z_rows s → pz_status p ≠ processing ∧ originator p = "".

Definition start (s : store) : world := World s [] [] [].

Lemma inv_start s : undelivered s → inv (start s).
Proof.
  intros H. split; cbn.
  - intros pk. unfold outstanding. rewrite sumZ_nil. unfold bound. repeat case_match; try case_decide; lia.
  - constructor.
  - by intros ? ?%elem_of_nil.
  - by intros ? ? ?%elem_of_nil.
  - intros i j p q Hp _ _ Hne. destruct Hne. by apply H, list_elem_of_lookup_2 with i.
Qed.

Lemma inv_run es w : inv w → all_fair es w → inv (run es w).
Proof.
  revert w. induction es as [|e es IH]; intros w Hi; [done|]. intros [He H]. cbn [run]. apply IH; [|done]. by apply inv_exec.
Qed.

(** C12.  Deliveries that do not overlap pay a prize at most once.  Take any
    awards, deliveries, retries, answers and confirmations, in any order, in
    which a delivery starts from the row as it then is, the providers' ids are
    fresh, and a payout is confirmed once: at every moment the instructions
    for a prize that were sent and have not come back refused are at most one,
    and none while the prize is pending, failed or skipped; and on a prize in
    any state but pending and failed, another delivery or retry does nothing. *)
Theorem deliveries_pay_once es s :
  undelivered s → all_fair es (start s) →
  let w := run es (start s) in
  ∀ pk, outstanding pk (w_log w) <= match z_rows (w_store w) !! pk with Some p => spent (pz_status p) | None => 0 end
  ∧ ∀ p pkg c now, z_rows (w_store w) !! pk = Some p → pz_status p ∉ [pending; failed] →
      exec (Deliver pk p false pkg c now) w = w ∧ exec (Retry pk p pkg c now) w = w.
Proof.
  intros Hs Hf w pk. pose proof (inv_run es _ (inv_start s Hs) Hf) as Hi. fold w in Hi. split.
  - pose proof (i_bound w Hi pk) as Hb. destruct (z_rows (w_store w) !! pk) as [p|]; [|done]. by rewrite bound_spent in Hb.
  - intros p pkg c now Hp Hst. cbn [exec].
    destruct (deliver_open_cases pk p pkg c now (w_store w) Hp) as [[m Hm]|[? _]]; [|by destruct Hst].
    split; [by rewrite Hm; destruct w|].
    destruct (retry_open_cases pk p pkg c now (w_store w)) as [Hr|[m' Hr]]; rewrite Hr, ?Hm; by destruct w.
Qed.

(** Overlapping deliveries pay twice.  [deliver] checks the copy it is
    given and then updates the row without a condition: when two runs, or a
    run and an operator, loaded the same prize before either delivered it,
    both send the payout, although the scheduler's task says that it cannot
    pay anybody twice however many runs overlap. *)
Theorem overlapping_deliveries_pay_twice pk p pkg c now now' (w : world) :
  z_rows (w_store w) !! pk = Some p → pz_status p ∈ [pending; failed] → pz_method p = TELEBIRR →
  pz_msisdn p ≠ "" → _can_receive_telebirr (pz_winner p) (w_store w) = true →
  let w' := exec (Deliver pk p false pkg c now') (exec (Deliver pk p false pkg c now) w) in
  w_log w' = w_log w ++ [Sent pk; Sent pk]
  ∧ outstanding pk (w_log w') = outstanding pk (w_log w) + 2
  ∧ ∃ q, w_flight w' = w_flight w ++ [(pk, with_delivery set_attempt p, B2CPayout (pz_msisdn p) (pz_amount p));
                                      (pk, q, B2CPayout (pz_msisdn p) (pz_amount p))].
Proof.
  intros Hp Hst Hm Hn Hr. cbv zeta.
  assert (∀ q t s, z_rows s !! pk = Some q → pz_winner q = pz_winner p → pz_method q = TELEBIRR →
    pz_msisdn q = pz_msisdn p → pz_amount q = pz_amount p →
    z_phones s = z_phones (w_store w) → z_telebirr s = z_telebirr (w_store w) →
    deliver_open pk p false pkg c t s
    = (inr (inr (with_delivery set_attempt q, B2CPayout (pz_msisdn p) (pz_amount p))),
       with_rows (alter (with_delivery set_attempt) pk (z_rows s)) s)) as Hopen.
  { intros q t s Hq Hwi Hme Hms Ham Hph Hte. unfold deliver_open. rewrite !andb_true_r.
    destruct (idle_sendable p Hst) as [-> ->].
    rewrite bind_run. unfold update_row, modify. rewrite bind_run. cbn [get z_rows with_rows].
    rewrite list_lookup_alter_eq, Hq. cbn [fmap option_fmap option_map pz_method with_delivery]. rewrite Hme. cbn.
    unfold _deliver_cash_open. cbn [pz_msisdn with_delivery]. rewrite Hms. apply String.eqb_neq in Hn. rewrite Hn.
    rewrite bind_run. cbn [get pz_winner with_delivery]. rewrite Hwi. unfold _can_receive_telebirr in *.
    cbn [z_phones z_telebirr with_rows]. rewrite Hph, Hte, Hr. cbn. by rewrite Ham. }
  cbn [exec]. rewrite (Hopen p now (w_store w)) by done. cbn [sent w_store].
  rewrite (Hopen (with_delivery set_attempt p) now') by (try done; cbn; by rewrite list_lookup_alter_eq, Hp).
  cbn [sent w_log w_flight]. rewrite <- !app_assoc. split; [done|]. split; [|by eexists].
  rewrite app_assoc, !outstanding_snoc. cbn. rewrite decide_True by done. lia.
Qed.

(** ** A concrete prize *)

Definition example_settings : settings := Settings "" "".
Definition example_campaign : campaign := Campaign 7 (Some (30 * day)) None.

(** Two winners of the weekly tier; the first has paid by Telebirr before. *)
Definition before_awards : store :=
  Store [] ∅ (<[1 := "251944365493"]> (<[2 := "0911223344"]> ∅)) [1] [] [].
Definition example_prizes : store := (award_all (Some example_campaign) [1; 2] "weekly" None 100 before_awards).2.
Definition row_of (pk : nat) (w : world) : prize :=
  default (new_prize None 0 "" (PrizeTier "" 0 "" "" 0 "" None false) 0 "" 0) (z_rows (w_store w) !! pk).

(** Two attempts at the first prize, the first refused by Telebirr later; and
    one at the second, whose winner has no Telebirr account. *)
Definition deliver_now (pk : nat) (w : world) (now : Z) : event := Deliver pk (row_of pk w) false None example_settings now.
Definition w1 : world := exec (deliver_now 0 (start example_prizes) 200) (start example_prizes).
Definition w2 : world := exec (Confirm "o1" false "no balance" "2001" "" 210) (exec (Answer 0 (B2CAccepted "o1" "c1") 201) w1).
Definition example_run : list event :=
  [deliver_now 0 (start example_prizes) 200; Answer 0 (B2CAccepted "o1" "c1") 201;
   Confirm "o1" false "no balance" "2001" "" 210;
   deliver_now 0 w2 220; Answer 0 (B2CAccepted "o2" "c2") 221; Confirm "o2" true "" "0" "TX9" 230;
   deliver_now 1 w2 240].

Example example_run_pays_one :
  let w := run example_run (start example_prizes) in
  w_log w = [Sent 0; Refused 0; Sent 0]
  ∧ (pz_status <$> z_rows (w_store w)) = [success; skipped] ∧ (pz_amount <$> z_rows (w_store w)) = [100000; 100000]
  ∧ length (z_notes (w_store w)) = 3%nat.
Proof. split_and!; vm_compute; reflexivity. Qed.

Lemma example_undelivered : undelivered example_prizes.
Proof.
  intros p Hp. change (z_rows example_prizes) with [row_of 0 (start example_prizes); row_of 1 (start example_prizes)] in Hp.
  rewrite !elem_of_cons, elem_of_nil in Hp. destruct Hp as [->|[->|[]]]; (split; [intros [=]|reflexivity]).
Qed.

Lemma award_records_one_prize_witness :
  ∃ pk s', award (Some example_campaign) 1 "weekly" None "" 100 before_awards = (inr (pk, true), s')
    ∧ award (Some example_campaign) 1 "weekly" (Some 5) "" 900 s' = (inr (pk, false), s').
Proof.
  pose proof (award_records_one_prize (Some example_campaign) 1 "weekly" None "" 100 before_awards) as H.
  destruct H as [_ (pk & created & s' & p & Hr & _ & _ & _ & Hc & Hag)].
  { split; [done|]. by intros ? ?%elem_of_nil. }
  exists pk, s'. destruct created.
  - split; [exact Hr|]. apply Hag.
  - exfalso. apply (f_equal fst) in Hr. vm_compute in Hr. congruence.
Defined.

Lemma deliveries_pay_once_witness :
  let w := run example_run (start example_prizes) in
  outstanding 0 (w_log w) = 1 ∧ exec (deliver_now 0 w 300) w = w ∧ exec (deliver_now 1 w 300) w = w.
Proof.
  intros w. pose proof (deliveries_pay_once example_run example_prizes example_undelivered) as H.
  destruct H with (pk := 0%nat) as [_ H0]; [|destruct H with (pk := 1%nat) as [_ H1]].
  1, 2: apply (bool_decide_unpack _); vm_compute; exact I.
  split; [vm_compute; reflexivity|]. split.
  - destruct (H0 (row_of 0 w) None example_settings 300) as [Hd _];
      [vm_compute; reflexivity|apply (bool_decide_unpack _); vm_compute; exact I|exact Hd].
  - destruct (H1 (row_of 1 w) None example_settings 300) as [Hd _];
      [vm_compute; reflexivity|apply (bool_decide_unpack _); vm_compute; exact I|exact Hd].
Defined.

Lemma overlapping_deliveries_pay_twice_witness :
  let w := exec (deliver_now 0 (start example_prizes) 201) w1 in
  w_log w = [Sent 0; Sent 0] ∧ outstanding 0 (w_log w) = 2.
Proof.
  destruct (overlapping_deliveries_pay_twice 0 (row_of 0 (start example_prizes)) None example_settings 200 201
              (start example_prizes)) as (H & Ho & _); [vm_compute; reflexivity|apply (bool_decide_unpack _); vm_compute; exact I|vm_compute; reflexivity|by vm_compute|vm_compute; reflexivity|].
  split; [exact H|]. exact Ho.
Defined.

(** Nor may Telebirr repeat a confirmation: a retried prize keeps the previous
    attempt's conversation until Telebirr accepts the new one, so a repeated
    report of the old failure marks it failed with the new payout in flight. *)
Example repeated_report_frees_a_payout :
  let w3 := exec (Confirm "o1" false "no balance" "2001" "" 225) (exec (deliver_now 0 w2 220) w2) in
  let w4 := exec (deliver_now 0 w3 226) w3 in
  pz_status (row_of 0 w3) = failed ∧ outstanding 0 (w_log w4) = 2.
Proof. split; vm_compute; reflexivity. Qed.

End Prizes.
