(* ===== verification/Campaigns.v ===== *)
(** * Campaigns: realms, and the maker/checker workflow

    Models [src/api/services/realms.py], [src/api/services/campaign_workflow.py]
    and the endpoints of [src/api/views/organization_campaigns.py] that write.

    A request loads the campaign and acts on the copy it loaded, so each
    endpoint is split there: [Load] is the scoped lookup, and every other event
    acts on a copy loaded some time before.  A campaign's editable columns are
    a map from their names. *)

From Stdlib Require Import ZArith Lia.
From S2P Require Import Prelude.

Module Campaigns.

(** ** Accounts *)

Definition FLIPSTAR : string := "FLIPSTAR".
Definition MEMBER : string := "MEMBER".
Definition ORGANIZATION : string := "ORGANIZATION".
Definition ADMIN : string := "ADMIN".
Definition MAKER : string := "MAKER".
Definition CHECKER : string := "CHECKER".

Record profile := Profile { pf_realm : string; pf_role : option string; pf_organization : option Z }.
Record account := Account { ac_id : Z; ac_superuser : bool; ac_staff : bool; ac_profile : option profile }.

(** The user of a request: [None] is an anonymous one. *)
Notation user := (option account).

Definition is_superuser (u : user) : bool := match u with Some a => ac_superuser a | None => false end.
Definition is_staff (u : user) : bool := match u with Some a => ac_staff a | None => false end.
Definition user_id (u : user) : option Z := ac_id <$> u.

Definition profile_of (u : user) : option profile := u ≫= ac_profile.
Definition realm_of (u : user) : option string := pf_realm <$> profile_of u.
Definition role_of (u : user) : option string := profile_of u ≫= pf_role.
Definition organization_of (u : user) : option Z := profile_of u ≫= pf_organization.

Definition is_flipstar (u : user) : bool := bool_decide (realm_of u = Some FLIPSTAR).
Definition is_organization_user (u : user) : bool := bool_decide (realm_of u = Some ORGANIZATION).
Definition is_maker (u : user) : bool := bool_decide (role_of u = Some MAKER).
Definition is_checker (u : user) : bool := bool_decide (role_of u = Some CHECKER).
Definition is_org_admin (u : user) : bool := bool_decide (role_of u = Some ADMIN).
Definition can_author (u : user) : bool := is_maker u || is_org_admin u.

Definition REALMS : list string := [FLIPSTAR; MEMBER; ORGANIZATION].
Definition ROLES : list string := [ADMIN; MAKER; CHECKER].

Definition ALLOWED_ROLES (realm : string) : list (option string) :=
  if bool_decide (realm = FLIPSTAR) || bool_decide (realm = ORGANIZATION)
  then [Some ADMIN; Some MAKER; Some CHECKER; None] else [None].

Definition realm_error {S A} (m : string) : M S A := raise (RealmValidationError m).

Definition role_name (r : option string) : string := match r with Some r => r | None => "None" end.

(** [role] may be blank; the organization is its key. *)
Definition validate_profile {S} (realm : string) (role : option string) (organization : option Z) : M S unit :=
  let normalised := match role with Some "" | None => None | r => r end in
  if negb (bool_decide (realm ∈ REALMS)) then realm_error ("Unknown realm '" +:+ realm +:+ "'.")
  else if match normalised with Some r => negb (bool_decide (r ∈ ROLES)) | None => false end
  then realm_error ("Unknown role '" +:+ role_name role +:+ "'.")
  else if negb (bool_decide (normalised ∈ ALLOWED_ROLES realm))
  then realm_error ("A " +:+ realm +:+ " account may not hold the " +:+ role_name normalised
                    +:+ " role. Allowed: "
                    +:+ (if bool_decide (realm = MEMBER) then "no role" else "ADMIN, CHECKER, MAKER") +:+ ".")
  else if bool_decide (realm = ORGANIZATION) && bool_decide (organization = None)
  then realm_error "An ORGANIZATION account must belong to an organization."
  else if negb (bool_decide (realm = ORGANIZATION)) && negb (bool_decide (organization = None))
  then realm_error ("A " +:+ realm +:+ " account must not belong to an organization.")
  else mret tt.

(** ** Campaigns *)

Record campaign := Campaign {
  cg_organization : option Z;
  cg_created_by : option Z;
  cg_status : string;
  cg_submitted_by : option Z; cg_submitted_at : option Z;
  cg_approved_by : option Z; cg_approved_at : option Z;
  cg_rejection_reason : string;
  cg_fields : gmap string string
}.

#[export] Instance campaign_eq_dec : EqDecision campaign.
Proof. solve_decision. Defined.

(** What the workflow writes, and what an edit writes. *)
Definition decide_as (st : string) (submitted_by submitted_at approved_by approved_at : option Z)
    (reason : string) (c : campaign) : campaign :=
  Campaign (cg_organization c) (cg_created_by c) st submitted_by submitted_at approved_by approved_at reason
    (cg_fields c).
Definition with_fields (fs : gmap string string) (c : campaign) : campaign :=
  Campaign (cg_organization c) (cg_created_by c) (cg_status c) (cg_submitted_by c) (cg_submitted_at c)
    (cg_approved_by c) (cg_approved_at c) (cg_rejection_reason c) fs.

Definition submitted (by_ : option Z) (now : Z) (c : campaign) : campaign :=
  decide_as "submitted" by_ (Some now) None None "" c.
Definition approved (by_ : option Z) (now : Z) (c : campaign) : campaign :=
  decide_as "approved" (cg_submitted_by c) (cg_submitted_at c) by_ (Some now) "" c.
Definition rejected (by_ : option Z) (reason : string) (now : Z) (c : campaign) : campaign :=
  decide_as "rejected" (cg_submitted_by c) (cg_submitted_at c) by_ (Some now) (strip reason) c.
Definition activated (c : campaign) : campaign :=
  decide_as "active" (cg_submitted_by c) (cg_submitted_at c) (cg_approved_by c) (cg_approved_at c)
    (cg_rejection_reason c) c.

Notation table := (gmap Z campaign).

Definition can_access_campaign (u : user) (c : campaign) : bool :=
  is_superuser u || is_flipstar u
  || is_organization_user u
     && match organization_of u with Some o => bool_decide (cg_organization c = Some o) | None => false end.

Definition is_own_work (u : user) (c : campaign) : bool :=
  match user_id u with
  | Some i => bool_decide (cg_created_by c = Some i) || bool_decide (cg_submitted_by c = Some i)
  | None => false
  end.

Definition can_review_campaign (u : user) (c : campaign) : bool :=
  is_checker u && can_access_campaign u c && negb (is_own_work u c).

Definition can_modify_campaign (u : user) (c : campaign) : bool :=
  is_superuser u || can_access_campaign u c && (can_author u || is_flipstar u).

Definition can_create_campaign (u : user) : bool :=
  is_superuser u || is_staff u || (is_flipstar u || is_organization_user u) && can_author u.

(** [queryset.filter]. *)
Definition visible_campaigns (u : user) (t : table) : table :=
  if is_superuser u || is_flipstar u then t
  else if is_organization_user u then
    match organization_of u with
    | None => ∅
    | Some o => filter (λ kc, cg_organization kc.2 = Some o) t
    end
  else ∅.

(** [organizations] are the keys that exist; the answer is the owner. *)
Definition organization_for_new_campaign {S} (u : user) (requested : option Z) (organizations : list Z)
    : M S (option Z) :=
  match requested, is_superuser u || is_flipstar u with
  | Some o, true =>
      if bool_decide (o ∈ organizations) then mret (Some o)
      else realm_error "The selected organization does not exist."
  | _, _ =>
      if is_organization_user u then
        match organization_of u with
        | None => realm_error "This account is an organization account but has no organization."
        | Some o => mret (Some o)
        end
      else if is_flipstar u then mret None
      else realm_error "This account may not create campaigns."
  end.

Definition get_campaign_for (u : user) (id : Z) : M table campaign :=
  t ← get;
  match visible_campaigns u t !! id with
  | Some c => mret c
  | None => raise (Http404 "Campaign not found.")
  end.

(** ** Transitions *)

(** [claim_transition] on the status; the row's other columns come with it. *)
Definition claim (id : Z) (expect : list string) (to : campaign → campaign) : M table bool :=
  t ← get;
  match t !! id with
  | Some c => if bool_decide (cg_status c ∈ expect) then put (<[id := to c]> t) ≫= λ _, mret true else mret false
  | None => mret false
  end.

Definition refresh (id : Z) : M table campaign :=
  t ← get;
  match t !! id with Some c => mret c | None => raise (DoesNotExist "Campaign") end.

Definition SUBMITTABLE : list string := ["draft"; "rejected"].
Definition REQUIRED_FOR_SUBMISSION : list string := ["title"; "description"; "prize_title"; "campaign_type"].

Definition attr (c : campaign) (field : string) : string := default "" (cg_fields c !! field).

Definition missing (c : campaign) : list string := filter (λ f, attr c f = "") REQUIRED_FOR_SUBMISSION.

Definition _require_complete (c : campaign) : M table unit :=
  match missing c with
  | [] => mret tt
  | m => raise (WorkflowError ("Cannot submit: " +:+ String.concat ", " m +:+ " must be filled in first.") "incomplete")
  end.

(** The claim, and the refusal when it is lost. *)
Definition transition (id : Z) (expect : list string) (to : campaign → campaign) (refusal : string → exn)
    : M table campaign :=
  atomic (
    claimed ← claim id expect to;
    if negb claimed then refresh id ≫= λ c, (raise (refusal (cg_status c)) : M table unit)
    else mret tt) ≫= λ _,
  refresh id.

(** [self] is the copy the request loaded. *)
Definition submit (id : Z) (self : campaign) (u : user) (now : Z) : M table campaign :=
  if negb (is_maker u) then raise (WorkflowError "Only a maker can submit a campaign for approval." "forbidden")
  else if negb (can_modify_campaign u self) then raise (WorkflowError "You cannot submit this campaign." "forbidden")
  else
    _require_complete self ≫= λ _,
    transition id SUBMITTABLE (submitted (user_id u) now)
      (λ st, WorkflowError ("Campaign is " +:+ st +:+ " and cannot be submitted.") "invalid_transition").

Definition approve (id : Z) (self : campaign) (u : user) (now : Z) : M table campaign :=
  if negb (can_review_campaign u self)
  then raise (WorkflowError "You cannot approve this campaign. Approval requires the checker role, and a campaign cannot be approved by the person who created or submitted it." "forbidden")
  else transition id ["submitted"] (approved (user_id u) now)
         (λ st, WorkflowError ("Campaign is " +:+ st +:+ "; only a submitted campaign can be approved.") "already_decided").

Definition reject (id : Z) (self : campaign) (u : user) (reason : string) (now : Z) : M table campaign :=
  if negb (can_review_campaign u self)
  then raise (WorkflowError "You cannot reject this campaign. Rejection requires the checker role, and a campaign cannot be reviewed by the person who created or submitted it." "forbidden")
  else transition id ["submitted"] (rejected (user_id u) reason now)
         (λ st, WorkflowError ("Campaign is " +:+ st +:+ "; only a submitted campaign can be rejected.") "already_decided").

Definition activate (id : Z) (u : user) : M table campaign :=
  if negb (is_superuser u || is_flipstar u)
  then raise (WorkflowError "Only Flipstar staff can activate a campaign." "forbidden")
  else transition id ["approved"] activated
         (λ st, WorkflowError ("Campaign is " +:+ st +:+ "; only an approved campaign can be activated.") "invalid_transition").

(** ** The endpoints *)

Definition EDITABLE_FIELDS : list string :=
  ["title"; "description"; "prize_title"; "prize_description"; "prize_value"; "campaign_type"; "min_followers";
   "min_level"; "min_votes_per_reel"; "required_hashtags"; "start_date"; "entry_deadline"; "voting_start";
   "voting_end"; "winner_count"].
Definition EDITABLE_STATUSES : list string := ["draft"; "rejected"].
Definition REQUIRED_TEXT_FIELDS : list string := ["description"; "prize_title"; "prize_description"].

(** The columns' defaults in [models/campaign.py], and the request's values
    over them. *)
Definition FIELD_DEFAULTS : gmap string string :=
  list_to_map [("prize_value", "0"); ("campaign_type", "grand"); ("min_followers", "0"); ("min_level", "1");
               ("min_votes_per_reel", "0"); ("required_hashtags", ""); ("winner_count", "1")].

Definition picked (keep : string → string → bool) (data : gmap string string) : gmap string string :=
  filter (λ fv, bool_decide (fv.1 ∈ EDITABLE_FIELDS) && keep fv.1 fv.2 = true) data.

Definition new_fields (title : string) (data : gmap string string) : gmap string string :=
  <["title" := title]> (picked (λ _ v, negb (String.eqb v "")) data)
  ∪ list_to_map ((λ f, (f, "")) <$> REQUIRED_TEXT_FIELDS) ∪ FIELD_DEFAULTS.

(** [id] is the new row's key. *)
Definition organization_campaign_create (u : user) (data : gmap string string) (id : Z) : M table response :=
  if negb (can_create_campaign u) then mret (Resp 403 "You do not have permission to create campaigns.")
  else if negb (is_organization_user u) then mret (Resp 403 "not_an_organization_account")
  else
    catch (
      o ← organization_for_new_campaign u None [];
      let title := strip (default "" (data !! "title")) in
      if String.eqb title "" then mret (bad "title is required.")
      else modify (<[id := Campaign o (user_id u) "draft" None None None None "" (new_fields title data)]>) ≫= λ _,
           mret (Resp 201 ""))
      (λ e, match e with RealmValidationError m => Some (mret (Resp 403 m)) | _ => None end).

(** After the scoped lookup. *)
Definition organization_campaign_update (id : Z) (self : campaign) (u : user) (data : gmap string string)
    : M table response :=
  if negb (can_modify_campaign u self) then mret (Resp 403 "You do not have permission to modify this campaign.")
  else if negb (bool_decide (cg_status self ∈ EDITABLE_STATUSES)) then mret (Resp 409 "not_editable")
  else
    let changed := picked (λ _ _, true) data in
    if bool_decide (changed = ∅) then mret (Resp 200 "")
    else
      t ← get;
      match t !! id with
      | None => raise (DatabaseError "Save with update_fields did not affect any rows.")
      | Some c => put (<[id := with_fields (changed ∪ cg_fields c) c]> t) ≫= λ _, mret (Resp 200 "")
      end.

Definition organization_campaign_delete (id : Z) (self : campaign) (u : user) : M table response :=
  if negb (can_modify_campaign u self) then mret (Resp 403 "You do not have permission to delete this campaign.")
  else if negb (bool_decide (cg_status self ∈ EDITABLE_STATUSES)) then mret (Resp 409 "not_deletable")
  else modify (delete id) ≫= λ _, mret (Resp 204 "").

Definition _workflow_response (m : M table campaign) : M table response :=
  catch (c ← m; mret (Resp 200 (cg_status c)))
    (λ e, match e with
          | WorkflowError _ code => Some (mret (Resp
              (if String.eqb code "forbidden" then 403
               else if bool_decide (code ∈ ["already_decided"; "invalid_transition"]) then 409 else 400) code))
          | _ => None
          end).

Definition organization_campaign_submit (id : Z) (self : campaign) (u : user) (now : Z) : M table response :=
  _workflow_response (submit id self u now).
Definition organization_campaign_approve (id : Z) (self : campaign) (u : user) (now : Z) : M table response :=
  _workflow_response (approve id self u now).
Definition organization_campaign_reject (id : Z) (self : campaign) (u : user) (reason : string) (now : Z)
    : M table response := _workflow_response (reject id self u reason now).

(** ** Profiles and scope *)

Definition blank_role (role : option string) : option string := match role with Some "" | None => None | r => r end.

Lemma blank_role_cases role :
  blank_role role = None ∧ (role = None ∨ role = Some "") ∨ ∃ r, blank_role role = Some r ∧ role = Some r ∧ r ≠ "".
Proof. destruct role as [[|ch r]|]; naive_solver. Qed.

Definition role_allowed (realm : string) (role : option string) : Prop :=
  role = None ∨ role = Some "" ∨ ∃ r, role = Some r ∧ r ∈ ROLES ∧ realm ≠ MEMBER.

Lemma role_checks realm role :
  realm ∈ REALMS →
  (match blank_role role with Some r => negb (bool_decide (r ∈ ROLES)) | None => false end
   || negb (bool_decide (blank_role role ∈ ALLOWED_ROLES realm)) = false ↔ role_allowed realm role).
Proof.
  intros Hr. unfold role_allowed, ALLOWED_ROLES.
  assert (realm = MEMBER ∧ bool_decide (realm = FLIPSTAR) || bool_decide (realm = ORGANIZATION) = false
          ∨ realm ≠ MEMBER ∧ bool_decide (realm = FLIPSTAR) || bool_decide (realm = ORGANIZATION) = true) as Hcase.
  { unfold REALMS in Hr. rewrite !elem_of_cons, elem_of_nil in Hr. destruct Hr as [->|[->|[->|[]]]];
      [right|left|right]; split; (done || reflexivity). }
  destruct (blank_role_cases role) as [[-> Hb]|(r & -> & -> & Hne)].
  - split; [tauto|]. intros _. destruct Hcase as [[_ ->]|[_ ->]]; reflexivity.
  - rewrite orb_false_iff, !negb_false_iff, !bool_decide_eq_true.
    destruct Hcase as [[Hm ->]|[Hm ->]]; split.
    + intros [_ H]. by apply list_elem_of_singleton in H.
    + intros [?|[?|(r' & ? & ? & ?)]]; congruence.
    + intros [Hin _]. right. right. eauto.
    + intros [?|[?|(r' & [= <-] & Hin & _)]]; [congruence..|]. split; [done|].
      unfold ROLES in Hin. rewrite !elem_of_cons, elem_of_nil in Hin. rewrite !elem_of_cons, elem_of_nil. destruct Hin as [->|[->|[->|[]]]]; tauto.
Qed.

(** C13.  A profile is accepted exactly when it is well formed: a known realm,
    no role or a known one, no role for a member, and an organization exactly
    for an organization account.  Anything else raises [RealmValidationError],
    and validation writes nothing. *)
Theorem valid_profiles {S} realm role organization (s : S) :
  (validate_profile realm role organization s = (inr tt, s)
   ↔ realm ∈ REALMS ∧ role_allowed realm role ∧ (organization ≠ None ↔ realm = ORGANIZATION))
  ∧ (validate_profile realm role organization s = (inr tt, s)
     ∨ ∃ m, validate_profile realm role organization s = (inl (RealmValidationError m), s)).
Proof.
  unfold validate_profile. fold (blank_role role).
  destruct (bool_decide_reflect (realm ∈ REALMS)) as [Hr|Hr]; cbn [negb]; [|split; [naive_solver|eauto]].
  pose proof (role_checks realm role Hr) as Hrole.
  destruct (match blank_role role with Some r => negb (bool_decide (r ∈ ROLES)) | None => false end);
    [cbn in Hrole; split; [naive_solver|eauto]|].
  destruct (negb (bool_decide (blank_role role ∈ ALLOWED_ROLES realm))); cbn in Hrole; [split; [naive_solver|eauto]|].
  destruct (bool_decide_reflect (realm = ORGANIZATION)) as [Ho|Ho],
    (bool_decide_reflect (organization = None)) as [Hn|Hn]; cbn [andb negb]; split; eauto; naive_solver.
Qed.

Lemma visible_iff u t id c :
  visible_campaigns u t !! id = Some c ↔ t !! id = Some c ∧ can_access_campaign u c = true.
Proof.
  unfold visible_campaigns, can_access_campaign.
  destruct (is_superuser u || is_flipstar u); cbn [orb]; [naive_solver|].
  destruct (is_organization_user u); cbn [andb]; [|rewrite lookup_empty; naive_solver].
  destruct (organization_of u) as [o|]; [|rewrite lookup_empty; naive_solver].
  by rewrite map_lookup_filter_Some, bool_decide_eq_true.
Qed.

Lemma decide_Some (x y : string) : bool_decide (Some x = Some y) = bool_decide (x = y).
Proof. apply bool_decide_ext. split; congruence. Qed.

Lemma any_access u c :
  is_superuser u = false →
  can_access_campaign u c || can_modify_campaign u c || can_review_campaign u c = true → can_access_campaign u c = true.
Proof.
  intros Hs. unfold can_modify_campaign, can_review_campaign. rewrite Hs.
  by destruct (can_access_campaign u c), (is_checker u).
Qed.

(** C14.  Isolation.  The campaigns a query shows are exactly those the
    per-campaign check allows, and the scoped lookup finds those and answers
    anything else, existing or not, with the same 404.  An organization
    account without superuser rights sees, edits and reviews campaigns of its
    own organization only, and what it creates belongs to that organization
    whatever the request asked for; a member account sees none. *)
Theorem scope_is_access u (t : table) :
  (∀ id c, visible_campaigns u t !! id = Some c ↔ t !! id = Some c ∧ can_access_campaign u c = true)
  ∧ (∀ id, get_campaign_for u id t
           = (match t !! id with
              | Some c => if can_access_campaign u c then inr c else inl (Http404 "Campaign not found.")
              | None => inl (Http404 "Campaign not found.")
              end, t))
  ∧ ∀ a p, u = Some a → ac_profile a = Some p → ac_superuser a = false →
      (pf_realm p = ORGANIZATION →
       (∀ c, can_access_campaign u c || can_modify_campaign u c || can_review_campaign u c = true →
             ∃ o, pf_organization p = Some o ∧ cg_organization c = Some o)
       ∧ ∀ requested known o, organization_for_new_campaign u requested known t = (inr o, t) →
           o ≠ None ∧ o = pf_organization p)
      ∧ (pf_realm p = MEMBER → visible_campaigns u t = ∅
           ∧ ∀ c, can_modify_campaign u c || can_review_campaign u c = false).
Proof.
  split; [intros; apply visible_iff|]. split.
  - intros id. unfold get_campaign_for. rewrite bind_run. cbn [get].
    destruct (visible_campaigns u t !! id) as [c|] eqn:E.
    + apply visible_iff in E as [-> ->]. done.
    + destruct (t !! id) as [c|] eqn:Et; [|done]. destruct (can_access_campaign u c) eqn:Ec; [|done].
      assert (visible_campaigns u t !! id = Some c) by (by apply visible_iff). congruence.
  - intros a p -> Hp Hs.
    assert (∀ c, can_access_campaign (Some a) c =
      (bool_decide (pf_realm p = FLIPSTAR) || bool_decide (pf_realm p = ORGANIZATION)
       && match pf_organization p with Some o => bool_decide (cg_organization c = Some o) | None => false end)) as Hacc.
    { intros c. unfold can_access_campaign, is_superuser, is_flipstar, is_organization_user, realm_of, organization_of, profile_of.
      cbn [mbind option_bind]. rewrite Hp, Hs. cbn. by rewrite !decide_Some. }
    split; intros Hrealm; rewrite Hrealm in Hacc.
    + rewrite (bool_decide_eq_false_2 (ORGANIZATION = FLIPSTAR)), (bool_decide_eq_true_2 (ORGANIZATION = _)) in Hacc by done.
      split.
      * intros c H%any_access; [|done]. rewrite Hacc in H. cbn in H. destruct (pf_organization p) as [o|]; [|done].
        exists o. split; [done|]. by apply bool_decide_eq_true in H.
      * intros requested known o. unfold organization_for_new_campaign, is_superuser, is_flipstar, is_organization_user,
          realm_of, organization_of, profile_of. cbn [mbind option_bind]. rewrite Hp, Hs. cbn. rewrite Hrealm.
        rewrite (bool_decide_eq_false_2 (Some ORGANIZATION = _)), (bool_decide_eq_true_2 (Some ORGANIZATION = _)) by done.
        intros H. destruct requested, (pf_organization p); unfold realm_error, raise in H; injection H as <- || discriminate H; done.
    + rewrite (bool_decide_eq_false_2 (MEMBER = FLIPSTAR)), (bool_decide_eq_false_2 (MEMBER = _)) in Hacc by done.
      split; [apply map_eq; intros id; rewrite lookup_empty|].
      * destruct (visible_campaigns (Some a) t !! id) as [c|] eqn:E; [|done].
        apply visible_iff in E as [_ E]. by rewrite Hacc in E.
      * intros c. unfold can_modify_campaign, can_review_campaign. rewrite Hacc. cbn. by rewrite Hs, andb_false_r.
Qed.

(** ** The approval workflow *)

(** One step of the workflow on a campaign, by a user entitled to it. *)
Inductive wf_step (u : user) : option campaign → option campaign → Prop :=
| wf_created o fs :
    can_create_campaign u = true → is_organization_user u = true → organization_of u = Some o →
    wf_step u None (Some (Campaign (Some o) (user_id u) "draft" None None None None "" fs))
| wf_edited c fs : can_modify_campaign u c = true → wf_step u (Some c) (Some (with_fields fs c))
| wf_deleted c : can_modify_campaign u c = true → wf_step u (Some c) None
| wf_submitted c now :
    is_maker u = true → can_modify_campaign u c = true → cg_status c ∈ SUBMITTABLE →
    wf_step u (Some c) (Some (submitted (user_id u) now c))
| wf_approved c now :
    can_review_campaign u c = true → cg_status c = "submitted" →
    wf_step u (Some c) (Some (approved (user_id u) now c))
| wf_rejected c reason now :
    can_review_campaign u c = true → cg_status c = "submitted" →
    wf_step u (Some c) (Some (rejected (user_id u) reason now c))
| wf_activated c :
    is_superuser u || is_flipstar u = true → cg_status c = "approved" → wf_step u (Some c) (Some (activated c)).

(** The table, and the copies that requests under way have loaded. *)
Record world := World { w_table : table; w_loaded : list (Z * campaign) }.

Inductive action :=
| Create (data : gmap string string)
| Load
| Update (self : campaign) (data : gmap string string)
| Delete (self : campaign)
| Submit (self : campaign) (now : Z)
| Approve (self : campaign) (now : Z)
| Reject (self : campaign) (reason : string) (now : Z)
| Activate.

(** An account acts on a campaign. *)
Record event := Event { ev_account : account; ev_campaign : Z; ev_action : action }.

Definition handle (e : event) (t : table) : table :=
  let u := Some (ev_account e) in
  let id := ev_campaign e in
  match ev_action e with
  | Create data => (organization_campaign_create u data id t).2
  | Load => t
  | Update self data => (organization_campaign_update id self u data t).2
  | Delete self => (organization_campaign_delete id self u t).2
  | Submit self now => (organization_campaign_submit id self u now t).2
  | Approve self now => (organization_campaign_approve id self u now t).2
  | Reject self reason now => (organization_campaign_reject id self u reason now t).2
  | Activate => (activate id u t).2
  end.

Definition exec (e : event) (w : world) : world :=
  World (handle e (w_table w))
    (w_loaded w ++ match ev_action e with
                   | Load => match (get_campaign_for (Some (ev_account e)) (ev_campaign e) (w_table w)).1 with
                             | inr c => [(ev_campaign e, c)] | inl _ => [] end
                   | _ => []
                   end).

Definition copy_of (a : action) : option campaign :=
  match a with
  | Update c _ | Delete c | Submit c _ | Approve c _ | Reject c _ _ => Some c
  | Create _ | Load | Activate => None
  end.

(** The accounts' roles do not change, a request acts on a copy that was
    loaded, and a new campaign has a new key. *)
Definition legal (accounts : gmap Z account) (e : event) (w : world) : Prop :=
  accounts !! ac_id (ev_account e) = Some (ev_account e)
  ∧ match ev_action e with
    | Create _ => w_table w !! ev_campaign e = None ∧ ev_campaign e ∉ fst <$> w_loaded w
    | a => match copy_of a with Some c => (ev_campaign e, c) ∈ w_loaded w | None => True end
    end.

Fixpoint run (es : list event) (w : world) : world := match es with [] => w | e :: es => run es (exec e w) end.
Fixpoint all_legal (accounts : gmap Z account) (es : list event) (w : world) : Prop :=
  match es with [] => True | e :: es => legal accounts e w ∧ all_legal accounts es (exec e w) end.

(** Separation of duties: a campaign past submission was submitted by a maker,
    and decided by a checker in its scope who neither created nor submitted it. *)
Definition submitted_by_maker (accounts : gmap Z account) (c : campaign) : Prop :=
  ∃ m a, cg_submitted_by c = Some m ∧ accounts !! m = Some a ∧ is_maker (Some a) = true.
Definition reviewed (accounts : gmap Z account) (c : campaign) : Prop :=
  ∃ i a, cg_approved_by c = Some i ∧ accounts !! i = Some a ∧ is_checker (Some a) = true
    ∧ can_access_campaign (Some a) c = true ∧ cg_created_by c ≠ Some i ∧ cg_submitted_by c ≠ Some i.

Definition duties_separate (accounts : gmap Z account) (c : campaign) : Prop :=
  cg_status c = "draft"
  ∨ submitted_by_maker accounts c
    ∧ (cg_status c = "submitted" ∧ cg_approved_by c = None
       ∨ cg_status c ∈ ["rejected"; "approved"; "active"] ∧ reviewed accounts c).

Record world_ok (accounts : gmap Z account) (w : world) : Prop := WorldOk {
  wo_rows : ∀ id c, w_table w !! id = Some c → duties_separate accounts c;
  wo_copies : ∀ id c r, (id, c) ∈ w_loaded w → w_table w !! id = Some r →
    cg_organization c = cg_organization r ∧ cg_created_by c = cg_created_by r
}.

(** What a handler does to the table. *)
Lemma refresh_run id (t : table) :
  refresh id t = (match t !! id with Some c => inr c | None => inl (DoesNotExist "Campaign") end, t).
Proof. unfold refresh. rewrite bind_run. cbn [get]. by destruct (t !! id). Qed.

Lemma claim_status_run id expect to (t : table) :
  claim id expect to t =
  match t !! id with
  | Some c => if bool_decide (cg_status c ∈ expect) then (inr true, <[id := to c]> t) else (inr false, t)
  | None => (inr false, t)
  end.
Proof. unfold claim. rewrite bind_run. cbn [get]. destruct (t !! id) as [c|]; [|done]. by destruct (bool_decide _). Qed.

Lemma transition_cases id expect to refusal (t : table) :
  (transition id expect to refusal t).2 = t
  ∨ ∃ c, t !! id = Some c ∧ cg_status c ∈ expect ∧ (transition id expect to refusal t).2 = <[id := to c]> t.
Proof.
  unfold transition, atomic. rewrite bind_run, (bind_run (claim _ _ _)), claim_status_run.
  destruct (t !! id) as [c|] eqn:E.
  - destruct (bool_decide_reflect (cg_status c ∈ expect)) as [Hin|Hin]; cbn [negb].
    + right. exists c. split_and!; [done..|]. cbn [mret M_ret]. by rewrite refresh_run, lookup_insert_eq.
    + left. by rewrite bind_run, refresh_run, E.
  - left. cbn [negb]. by rewrite bind_run, refresh_run, E.
Qed.

Lemma response_table m (t : table) : (_workflow_response m t).2 = (m t).2.
Proof.
  unfold _workflow_response, catch. rewrite bind_run. destruct (m t) as [[e|c] t1]; [|done].
  by destruct e.
Qed.

(** The check on a copy is the check on the row. *)
Lemma access_ext u c r : cg_organization c = cg_organization r → can_access_campaign u c = can_access_campaign u r.
Proof. unfold can_access_campaign. by intros ->. Qed.
Lemma modify_ext u c r : cg_organization c = cg_organization r → can_modify_campaign u c = can_modify_campaign u r.
Proof. unfold can_modify_campaign. by intros ->%(access_ext u). Qed.

Lemma review_of_copy accounts a c r :
  accounts !! ac_id a = Some a → cg_organization c = cg_organization r → cg_created_by c = cg_created_by r →
  submitted_by_maker accounts r → can_review_campaign (Some a) c = true → can_review_campaign (Some a) r = true.
Proof.
  intros Ha Ho Hc (m & b & Hm & Hb & Hmaker). unfold can_review_campaign, is_own_work. cbn [user_id fmap option_fmap option_map].
  rewrite (access_ext _ _ _ Ho), Hc, Hm, !andb_true_iff, !negb_true_iff, !orb_false_iff.
  intros [[Hch ?] [? _]]. split_and!; try done. apply bool_decide_eq_false. intros [= ->].
  rewrite Ha in Hb. injection Hb as <-. apply bool_decide_eq_true in Hch, Hmaker.
  rewrite Hch in Hmaker. by vm_compute in Hmaker.
Qed.

(** Each event takes at most one campaign one step. *)
Lemma handle_step accounts e w :
  world_ok accounts w → legal accounts e w →
  handle e (w_table w) = w_table w
  ∨ ∃ o', wf_step (Some (ev_account e)) (w_table w !! ev_campaign e) o'
          ∧ handle e (w_table w) = partial_alter (λ _, o') (ev_campaign e) (w_table w)
          ∧ (w_table w !! ev_campaign e = None → ∃ data, ev_action e = Create data).
Proof.
  destruct e as [a id act], w as [t loaded]. intros [Hrows Hcopies] [Ha Hact].
  cbn [w_table w_loaded ev_account ev_campaign ev_action] in *.
  assert (∀ self r, (id, self) ∈ loaded → t !! id = Some r →
    can_modify_campaign (Some a) self = can_modify_campaign (Some a) r) as Hmod
    by (intros self r Hs Hr; apply modify_ext; by apply (Hcopies id)).
  assert (∀ self r, (id, self) ∈ loaded → t !! id = Some r → cg_status r ∈ ["submitted"] →
    can_review_campaign (Some a) self = true → can_review_campaign (Some a) r = true) as Hrev.
  { intros self r Hs Hr Hst. destruct (Hcopies id self r Hs Hr). apply (review_of_copy accounts); try done.
    apply list_elem_of_singleton in Hst. destruct (Hrows id r Hr) as [?|[? _]]; [congruence|done]. }
  unfold handle. cbn [ev_account ev_campaign ev_action].
  destruct act as [data| |self data|self|self now|self now|self reason now|]; cbn [copy_of] in Hact.
  - destruct Hact as [Hnew _]. rewrite Hnew. unfold organization_campaign_create.
    destruct (can_create_campaign (Some a)) eqn:Hc; [|by left]. destruct (is_organization_user (Some a)) eqn:Ho; [|by left].
    cbn [negb]. unfold catch, organization_for_new_campaign. rewrite Ho, bind_run.
    destruct (organization_of (Some a)) as [o|] eqn:Eo; [|by left]. cbn [mret M_ret].
    destruct (String.eqb _ ""); [by left|]. right. eexists. split; [by apply wf_created|]. split; [done|by eexists].
  - by left.
  - unfold organization_campaign_update. destruct (can_modify_campaign (Some a) self) eqn:Hc; [|by left].
    destruct (bool_decide (cg_status self ∈ EDITABLE_STATUSES)); [|by left]. cbn [negb].
    destruct (bool_decide (picked _ data = ∅)); [by left|]. rewrite bind_run. cbn [get].
    destruct (t !! id) as [c|] eqn:E; [|by left]. right. eexists. split; [|split; [done|congruence]].
    apply wf_edited. by rewrite <- (Hmod self).
  - unfold organization_campaign_delete. destruct (can_modify_campaign (Some a) self) eqn:Hc; [|by left].
    destruct (bool_decide (cg_status self ∈ EDITABLE_STATUSES)); [|by left]. cbn [negb]. rewrite bind_run. cbn [modify].
    destruct (t !! id) as [c|] eqn:E; [|left; by apply delete_id]. right. exists None. split; [|split; [done|congruence]].
    apply wf_deleted. by rewrite <- (Hmod self).
  - unfold organization_campaign_submit. rewrite response_table. unfold submit.
    destruct (is_maker (Some a)) eqn:Hm; [|by left]. destruct (can_modify_campaign (Some a) self) eqn:Hc; [|by left].
    cbn [negb]. rewrite bind_run. unfold _require_complete. destruct (missing self); [|by left]. cbn [mret M_ret].
    edestruct transition_cases as [H|(c & Hl & Hst & H)]; rewrite H; [by left|]. right. rewrite Hl.
    eexists. split; [by apply wf_submitted; [|rewrite <- (Hmod self)|]|]. split; [done|congruence].
  - unfold organization_campaign_approve. rewrite response_table. unfold approve.
    destruct (can_review_campaign (Some a) self) eqn:Hc; [|by left]. cbn [negb].
    edestruct transition_cases as [H|(c & Hl & Hst & H)]; rewrite H; [by left|]. right. rewrite Hl.
    eexists. split; [|split; [done|congruence]]. apply wf_approved; [by apply (Hrev self)|by apply list_elem_of_singleton in Hst].
  - unfold organization_campaign_reject. rewrite response_table. unfold reject.
    destruct (can_review_campaign (Some a) self) eqn:Hc; [|by left]. cbn [negb].
    edestruct transition_cases as [H|(c & Hl & Hst & H)]; rewrite H; [by left|]. right. rewrite Hl.
    eexists. split; [|split; [done|congruence]]. apply wf_rejected; [by apply (Hrev self)|by apply list_elem_of_singleton in Hst].
  - unfold activate. destruct (is_superuser (Some a) || is_flipstar (Some a)) eqn:Hf; [|by left]. cbn [negb].
    edestruct transition_cases as [H|(c & Hl & Hst & H)]; rewrite H; [by left|]. right. rewrite Hl.
    eexists. split; [|split; [done|congruence]]. apply wf_activated; [done|by apply list_elem_of_singleton in Hst].
Qed.

Lemma can_review_spelled a c :
  can_review_campaign (Some a) c = true →
  is_checker (Some a) = true ∧ can_access_campaign (Some a) c = true
  ∧ cg_created_by c ≠ Some (ac_id a) ∧ cg_submitted_by c ≠ Some (ac_id a).
Proof.
  unfold can_review_campaign, is_own_work. cbn [user_id fmap option_fmap option_map].
  rewrite !andb_true_iff, negb_true_iff, orb_false_iff, !bool_decide_eq_false. tauto.
Qed.

Lemma wf_step_owner u c c' :
  wf_step u (Some c) (Some c') → cg_organization c' = cg_organization c ∧ cg_created_by c' = cg_created_by c.
Proof. by inversion 1. Qed.

Lemma wf_step_duties accounts a o c' :
  accounts !! ac_id a = Some a → wf_step (Some a) o (Some c') →
  (∀ c, o = Some c → duties_separate accounts c) → duties_separate accounts c'.
Proof.
  intros Ha Hstep Hd. inversion Hstep as [|c fs|c|c now Hm _ _|c now Hr Hs|c reason now Hr Hs|c _ Hs]; subst;
    try specialize (Hd c eq_refl).
  - by left.
  - exact Hd.
  - right. split; [by exists (ac_id a), a|by left].
  - destruct Hd as [Hd|[Hsub _]]; [congruence|]. right. split; [exact Hsub|]. right.
    split; [by apply (bool_decide_unpack _)|]. exists (ac_id a), a. destruct (can_review_spelled _ _ Hr) as (? & ? & ? & ?). done.
  - destruct Hd as [Hd|[Hsub _]]; [congruence|]. right. split; [exact Hsub|]. right.
    split; [by apply (bool_decide_unpack _)|]. exists (ac_id a), a. destruct (can_review_spelled _ _ Hr) as (? & ? & ? & ?). done.
  - destruct Hd as [Hd|[Hsub [[Hd _]|[_ Hrev]]]]; [congruence..|]. right. split; [exact Hsub|]. right.
    split; [by apply (bool_decide_unpack _)|exact Hrev].
Qed.

Lemma handle_table accounts e w :
  world_ok accounts w → legal accounts e w →
  (∀ id, id ≠ ev_campaign e → handle e (w_table w) !! id = w_table w !! id)
  ∧ (handle e (w_table w) = w_table w
     ∨ wf_step (Some (ev_account e)) (w_table w !! ev_campaign e) (handle e (w_table w) !! ev_campaign e)
       ∧ (w_table w !! ev_campaign e = None → ∃ data, ev_action e = Create data)).
Proof.
  intros Hw He. destruct (handle_step accounts e w Hw He) as [->|(o' & Hs & -> & Hnew)]; [by split; [|left]|].
  split; [intros id Hid; by rewrite lookup_partial_alter_ne|]. right. by rewrite lookup_partial_alter_eq.
Qed.

Lemma world_ok_exec accounts e w : world_ok accounts w → legal accounts e w → world_ok accounts (exec e w).
Proof.
  intros Hw He. destruct (handle_table accounts e w Hw He) as [Hother Hstep]. pose proof He as [Ha Hact].
  assert (∀ id c r, (id, c) ∈ w_loaded w → handle e (w_table w) !! id = Some r →
    cg_organization c = cg_organization r ∧ cg_created_by c = cg_created_by r) as Hold.
  { intros id c r Hin Hr. destruct (decide (id = ev_campaign e)) as [->|Hne].
    - destruct Hstep as [Hsame|[Hstep Hnew]]; [rewrite Hsame in Hr; by eapply wo_copies|]. rewrite Hr in Hstep.
      destruct (w_table w !! ev_campaign e) as [r0|] eqn:E.
      + destruct (wf_step_owner _ _ _ Hstep) as [-> ->]. by eapply wo_copies.
      + exfalso. destruct (Hnew eq_refl) as [data Eact]. rewrite Eact in Hact. destruct Hact as [_ Hf].
        by apply Hf, (list_elem_of_fmap_2 fst _ _ Hin).
    - rewrite Hother in Hr by done. by eapply wo_copies. }
  split; cbn [w_table w_loaded exec].
  - intros id c Hc. destruct (decide (id = ev_campaign e)) as [->|Hne]; [|rewrite Hother in Hc by done; by eapply wo_rows].
    destruct Hstep as [Hsame|[Hstep Hnew]]; [rewrite Hsame in Hc; by eapply wo_rows|]. rewrite Hc in Hstep.
    eapply wf_step_duties; [done|done|]. intros c0 Hc0. by eapply wo_rows.
  - intros id c r [Hin|Hin]%elem_of_app Hr; [by eapply Hold|].
    destruct e as [a i act]. cbn [ev_action ev_campaign ev_account] in *.
    destruct act; try by apply elem_of_nil in Hin. cbn in Hr.
    destruct (get_campaign_for _ _ _).1 as [ex|c0] eqn:E; [by apply elem_of_nil in Hin|].
    apply list_elem_of_singleton in Hin as [= -> ->]. unfold get_campaign_for in E. rewrite bind_run in E. cbn [get] in E.
    destruct (visible_campaigns _ _ !! i) as [c1|] eqn:Ev; [|done]. injection E as <-.
    apply visible_iff in Ev as [Ev _]. rewrite Ev in Hr. by injection Hr as <-.
Qed.

Lemma world_ok_run accounts es w : world_ok accounts w → all_legal accounts es w → world_ok accounts (run es w).
Proof.
  revert w. induction es as [|e es IH]; intros w Hw; [done|]. intros [He H]. apply IH; [|done]. by apply world_ok_exec.
Qed.

(** C15.  The endpoints implement the workflow.  However the requests of any
    accounts are interleaved, and however stale the copies they act on: each
    changes at most the campaign it names, by one step of the automaton draft
    or rejected, submitted, approved or rejected, active, taken by an account
    entitled to it; and at every moment a campaign past submission was
    submitted by a maker, and one that is rejected, approved or active was
    decided by a checker inside its scope who neither created nor submitted
    it. *)
Theorem campaign_workflow_refines accounts es t e :
  map_Forall (λ _, duties_separate accounts) t → all_legal accounts es (World t []) →
  let w := run es (World t []) in
  legal accounts e w →
  map_Forall (λ _, duties_separate accounts) (w_table w)
  ∧ (∀ id, id ≠ ev_campaign e → w_table (exec e w) !! id = w_table w !! id)
  ∧ (w_table (exec e w) = w_table w
     ∨ wf_step (Some (ev_account e)) (w_table w !! ev_campaign e) (w_table (exec e w) !! ev_campaign e)).
Proof.
  intros Ht Hes w He.
  assert (world_ok accounts w) as Hw.
  { apply world_ok_run; [|done]. split; [exact Ht|]. by intros ? ? ? ?%elem_of_nil. }
  split; [intros id c; by apply wo_rows|]. destruct (handle_table accounts e w Hw He) as [H1 [H2|[H2 _]]]; split; [done|by left|done|by right].
Qed.

(** What was approved may be rewritten.  Editing and deleting check the
    status of the copy they loaded and then write without a condition: a maker
    whose request loaded the campaign as a draft writes any of its fields, and
    deletes it, whatever has been decided since -- submitted, approved or
    active --, and the decision stands, although editing is confined to drafts
    so that what is approved is what was submitted. *)
Theorem maker_rewrites_approved_campaign id self u data (t : table) c :
  can_modify_campaign u self = true → cg_status self ∈ EDITABLE_STATUSES →
  t !! id = Some c → picked (λ _ _, true) data ≠ ∅ →
  organization_campaign_update id self u data t
  = (inr (Resp 200 ""), <[id := with_fields (picked (λ _ _, true) data ∪ cg_fields c) c]> t)
  ∧ (∀ f v, data !! f = Some v → f ∈ EDITABLE_FIELDS →
       cg_fields (with_fields (picked (λ _ _, true) data ∪ cg_fields c) c) !! f = Some v)
  ∧ organization_campaign_delete id self u t = (inr (Resp 204 ""), delete id t).
Proof.
  intros Hm Hst Hc Hd. unfold organization_campaign_update, organization_campaign_delete. rewrite Hm.
  rewrite bool_decide_eq_true_2, bool_decide_eq_false_2 by done. cbn [negb]. rewrite bind_run. cbn [get]. rewrite Hc.
  split; [done|]. split; [|done]. intros f v Hf Hin. cbn [cg_fields with_fields]. apply lookup_union_Some_l.
  unfold picked. apply map_lookup_filter_Some. split; [done|]. cbn. by rewrite andb_true_r, bool_decide_eq_true.
Qed.

(** ** A concrete campaign *)

Definition maker : account := Account 1 false false (Some (Profile ORGANIZATION (Some MAKER) (Some 5))).
Definition checker : account := Account 2 false false (Some (Profile ORGANIZATION (Some CHECKER) (Some 5))).
Definition stranger : account := Account 3 false false (Some (Profile ORGANIZATION (Some CHECKER) (Some 6))).
Definition example_accounts : gmap Z account := <[1 := maker]> (<[2 := checker]> (<[3 := stranger]> ∅)).

Definition example_data : gmap string string :=
  list_to_map [("title", "Spring"); ("description", "d"); ("prize_title", "p"); ("status", "approved")].
Definition draft : campaign := Campaign (Some 5) (Some 1) "draft" None None None None "" (new_fields "Spring" example_data).
Definition awaiting : campaign := submitted (Some 1) 10 draft.

Definition example_run : list event :=
  [Event maker 7 (Create example_data); Event maker 7 Load; Event maker 7 (Submit draft 10); Event checker 7 Load;
   Event checker 7 (Approve awaiting 20)].

#[export] Instance legal_dec accounts e w : Decision (legal accounts e w).
Proof.
  assert (EqDecision account) by (intros ??; unfold Decision; repeat decide equality).
  unfold legal. destruct (ev_action e); cbn; apply _.
Defined.
#[export] Instance all_legal_dec accounts es w : Decision (all_legal accounts es w).
Proof. revert w. induction es as [|e es IH]; intros w; cbn; apply _. Defined.

Example approved_by_the_checker :
  (λ c, (cg_status c, cg_approved_by c)) <$> (w_table (run example_run (World ∅ [])) !! 7) = Some ("approved", Some 2).
Proof. vm_compute. reflexivity. Qed.

Lemma scope_is_access_witness :
  let t := <[7 := draft]> ∅ in
  get_campaign_for (Some stranger) 7 t = (inl (Http404 "Campaign not found."), t)
  ∧ organization_for_new_campaign (Some maker) (Some 6) [5; 6] t = (inr (Some 5), t)
  ∧ ∀ o, organization_for_new_campaign (Some maker) (Some 6) [5; 6] t = (inr o, t) → o = Some 5.
Proof.
  intros t. destruct (scope_is_access (Some stranger) t) as (_ & H & _).
  destruct (scope_is_access (Some maker) t) as (_ & _ & Hm).
  split; [rewrite H; vm_compute; reflexivity|]. split; [reflexivity|].
  destruct (Hm maker (Profile ORGANIZATION (Some MAKER) (Some 5)) eq_refl eq_refl eq_refl) as [[_ Ho] _]; [done|].
  intros o Hr. by apply (Ho (Some 6) [5; 6]).
Defined.

Lemma campaign_workflow_refines_witness :
  let w := run example_run (World ∅ []) in
  (∃ c, w_table w !! 7 = Some c ∧ cg_status c = "approved" ∧ duties_separate example_accounts c)
  ∧ w_table (exec (Event checker 7 (Reject awaiting "late" 30)) w) = w_table w.
Proof.
  intros w. split.
  - destruct (campaign_workflow_refines example_accounts example_run ∅ (Event checker 7 Load)) as (H & _).
    + apply map_Forall_empty.
    + apply (bool_decide_unpack _). vm_compute. exact I.
    + apply (bool_decide_unpack _). vm_compute. exact I.
    + exists (approved (Some 2) 20 awaiting). split; [vm_compute; reflexivity|]. split; [reflexivity|].
      apply (H 7). vm_compute. reflexivity.
  - vm_compute. reflexivity.
Defined.

Lemma maker_rewrites_approved_campaign_witness :
  let t := w_table (run example_run (World ∅ [])) in
  ∃ t', organization_campaign_update 7 draft (Some maker) (<["prize_value" := "1000000"]> ∅) t = (inr (Resp 200 ""), t')
    ∧ (λ c, (cg_status c, attr c "prize_value")) <$> t' !! 7 = Some ("approved", "1000000").
Proof.
  intros t. edestruct (maker_rewrites_approved_campaign 7 draft (Some maker) (<["prize_value" := "1000000"]> ∅) t
    (approved (Some 2) 20 awaiting)) as (H & _).
  - reflexivity.
  - apply (bool_decide_unpack _). vm_compute. exact I.
  - vm_compute. reflexivity.
  - intros E. apply (f_equal (lookup "prize_value")) in E. by vm_compute in E.
  - eexists. split; [exact H|]. vm_compute. reflexivity.
Defined.

End Campaigns.
