(* ===== verification/Calendar.v ===== *)
(** * Calendar: the months of the Gregorian calendar

    [civil] of [Prelude] computes a civil date from a day number by the usual
    era arithmetic.  Here the days of a month are characterised from below and
    above, which shows that computation right and is what the loops over
    months need.  The code's dates are Python's [datetime]; the facts are the
    Standard Library's. *)

From Stdlib Require Import ZArith Lia.
From S2P Require Import Prelude.

Module Calendar.

Ltac div_lia := Z.div_mod_to_equations; lia.

(** The day number of 1 March of year [y], and of the first of a month; years
    are counted from March inside. *)
Definition march (y : Z) : Z := 365 * y + y / 4 - y / 100 + y / 400 - 719468.
Definition month_start (y m : Z) : Z :=
  if m <=? 2 then march (y - 1) + (153 * (m + 9) + 2) / 5 else march y + (153 * (m - 3) + 2) / 5.

(** Months in order: month [m] of year [y] is [12 * y + m - 1]. *)
Definition index (y m : Z) : Z := 12 * y + m - 1.
Definition index_of (d : Z) : Z := let '(y, m, _) := civil d in index y m.
Definition start_of (k : Z) : Z := month_start (k / 12) (k mod 12 + 1).

(** The month after, as [datetime.replace] is asked for it. *)
Definition next_month (y m : Z) : Z * Z := if m =? 12 then (y + 1, 1) else (y, m + 1).

Lemma march_next y : march y + 365 <= march (y + 1) <= march y + 366.
Proof. unfold march. div_lia. Qed.

(** The year of the era: 400 years of 146097 days. *)
Lemma year_of_era doe :
  0 <= doe < 146097 →
  let y := (doe - doe / 1460 + doe / 36524 - doe / 146096) / 365 in
  0 <= y < 400 ∧ 365 * y + y / 4 - y / 100 <= doe < 365 * (y + 1) + (y + 1) / 4 - (y + 1) / 100 + (y + 1) / 400.
Proof.
  intros H y. subst y.
  set (q1 := doe / 1460). set (q2 := doe / 36524). set (q3 := doe / 146096).
  assert (1460 * q1 <= doe < 1460 * q1 + 1460) by (unfold q1; div_lia).
  assert (36524 * q2 <= doe < 36524 * q2 + 36524) by (unfold q2; div_lia).
  assert (146096 * q3 <= doe < 146096 * q3 + 146096) by (unfold q3; div_lia).
  clearbody q1 q2 q3. set (y := (doe - q1 + q2 - q3) / 365).
  assert (365 * y <= doe - q1 + q2 - q3 < 365 * y + 365) by (unfold y; div_lia).
  clearbody y. assert (0 <= q2 <= 4) by lia. assert (0 <= q3 <= 1) by lia.
  assert (q2 = 0 ∨ q2 = 1 ∨ q2 = 2 ∨ q2 = 3 ∨ q2 = 4) as [->|[->|[->|[->| ->]]]] by lia;
    (assert (q3 = 0 ∨ q3 = 1) as [->| ->] by lia); div_lia.
Qed.

(** The year from March, and the day in it. *)
Lemma year_spec d :
  let z := d + 719468 in
  let doe := z mod 146097 in
  let yoe := (doe - doe / 1460 + doe / 36524 - doe / 146096) / 365 in
  let y := yoe + z / 146097 * 400 in
  let doy := doe - (365 * yoe + yoe / 4 - yoe / 100) in
  doy = d - march y ∧ march y <= d < march (y + 1).
Proof.
  intros z doe yoe y doy. assert (0 <= doe < 146097) as Hdoe by (unfold doe; apply Z.mod_pos_bound; lia).
  assert (z = 146097 * (z / 146097) + doe) as Hz by (unfold doe; apply Z.div_mod; lia).
  destruct (year_of_era doe Hdoe) as [Hy Hb]. fold yoe in Hy, Hb. unfold doy, y, march.
  clearbody yoe doe. set (era := z / 146097) in *. clearbody era.
  replace ((yoe + era * 400) / 4) with (yoe / 4 + era * 100) by div_lia.
  replace ((yoe + era * 400) / 100) with (yoe / 100 + era * 4) by div_lia.
  replace ((yoe + era * 400) / 400) with (yoe / 400 + era) by div_lia.
  replace ((yoe + era * 400 + 1) / 4) with ((yoe + 1) / 4 + era * 100) by div_lia.
  replace ((yoe + era * 400 + 1) / 100) with ((yoe + 1) / 100 + era * 4) by div_lia.
  replace ((yoe + era * 400 + 1) / 400) with ((yoe + 1) / 400 + era) by div_lia.
  assert (yoe / 400 = 0) by div_lia. unfold z in Hz. lia.
Qed.

(** A day is in its month. *)
Lemma civil_spec d :
  let '(y, m, dd) := civil d in
  1 <= m <= 12 ∧ 1 <= dd ∧ d = month_start y m + dd - 1
  ∧ d < month_start (next_month y m).1 (next_month y m).2.
Proof.
  pose proof (year_spec d) as H. unfold civil. cbv zeta in *.
  set (z := d + 719468) in *. set (doe := z mod 146097) in *.
  set (yoe := (doe - doe / 1460 + doe / 36524 - doe / 146096) / 365) in *.
  set (doy := doe - (365 * yoe + yoe / 4 - yoe / 100)) in *. set (y := yoe + z / 146097 * 400) in *.
  clearbody doy y. destruct H as [Hdoy Hy]. clear yoe doe z.
  pose proof (march_next y). set (mp := (5 * doy + 2) / 153).
  assert (153 * mp <= 5 * doy + 2 < 153 * mp + 153) as Hmp by (unfold mp; div_lia). clearbody mp.
  assert (0 <= mp <= 11) as Hr by lia.
  destruct (Z.ltb_spec mp 10) as [H10|H10].
  - destruct (Z.leb_spec (mp + 3) 2); [lia|]. unfold next_month, month_start.
    destruct (Z.eqb_spec (mp + 3) 12) as [E|E]; cbn [fst snd].
    + destruct (Z.leb_spec (mp + 3) 2); [lia|]. change (1 <=? 2) with true. cbv iota. replace (y + 0 + 1 - 1) with y by lia.
      replace (y + 0) with y by lia. replace (mp + 3 - 3) with mp by lia. split_and!; try lia; div_lia.
    + destruct (Z.leb_spec (mp + 3) 2); [lia|]. destruct (Z.leb_spec (mp + 3 + 1) 2); [lia|].
      replace (y + 0) with y by lia. replace (mp + 3 - 3) with mp by lia. replace (mp + 3 + 1 - 3) with (mp + 1) by lia.
      split_and!; try lia; div_lia.
  - destruct (Z.leb_spec (mp - 9) 2); [|lia]. unfold next_month, month_start.
    destruct (Z.eqb_spec (mp - 9) 12); [lia|]. cbn [fst snd]. destruct (Z.leb_spec (mp - 9) 2); [|lia].
    replace (y + 1 - 1) with y by lia. replace (mp - 9 + 9) with mp by lia.
    destruct (Z.leb_spec (mp - 9 + 1) 2).
    + replace (mp - 9 + 1 + 9) with (mp + 1) by lia. split_and!; try lia; div_lia.
    + replace (mp - 9 + 1 - 3) with 0 by lia. change ((153 * 0 + 2) / 5) with 0.
      split_and!; try lia; div_lia.
Qed.

Lemma start_of_index y m : 1 <= m <= 12 → start_of (index y m) = month_start y m.
Proof.
  intros Hm. unfold start_of, index. replace ((12 * y + m - 1) / 12) with y by div_lia.
  by replace ((12 * y + m - 1) mod 12 + 1) with m by div_lia.
Qed.

Lemma index_next y m :
  1 <= m <= 12 → index (next_month y m).1 (next_month y m).2 = index y m + 1 ∧ 1 <= (next_month y m).2 <= 12.
Proof. intros Hm. unfold next_month, index. destruct (Z.eqb_spec m 12); cbn; lia. Qed.

Lemma start_of_step k : start_of k < start_of (k + 1).
Proof.
  unfold start_of, month_start. pose proof (march_next (k / 12 - 1)) as Hm. pose proof (march_next (k / 12)) as Hm'.
  assert ((k + 1) / 12 = k / 12 ∧ (k + 1) mod 12 = k mod 12 + 1 ∧ k mod 12 < 11
          ∨ (k + 1) / 12 = k / 12 + 1 ∧ (k + 1) mod 12 = 0 ∧ k mod 12 = 11) as Hk by div_lia.
  assert (0 <= k mod 12 < 12) as Hr by (apply Z.mod_pos_bound; lia).
  replace (k / 12 - 1 + 1) with (k / 12) in Hm by lia.
  destruct Hk as [(-> & -> & Hlt)|(-> & -> & ->)].
  - set (m := k mod 12) in *. clearbody m. destruct (Z.leb_spec (m + 1) 2), (Z.leb_spec (m + 1 + 1) 2); try lia; div_lia.
  - change (11 + 1 <=? 2) with false. change (0 + 1 <=? 2) with true. cbv iota.
    replace (k / 12 + 1 - 1) with (k / 12) by lia. div_lia.
Qed.

Lemma start_of_mono i j : i < j → start_of i < start_of j.
Proof.
  intros H. replace j with (i + Z.of_nat (Z.to_nat (j - i - 1)) + 1) by lia. generalize (Z.to_nat (j - i - 1)) as n.
  induction n as [|n IH]; [rewrite Z.add_0_r; apply start_of_step|].
  replace (i + Z.of_nat (S n) + 1) with (i + Z.of_nat n + 1 + 1) by lia.
  etransitivity; [exact IH|apply start_of_step].
Qed.

(** The month of a day is the one month it lies in. *)
Lemma index_bounds d : start_of (index_of d) <= d < start_of (index_of d + 1).
Proof.
  unfold index_of. pose proof (civil_spec d) as H. destruct (civil d) as [[y m] dd]. destruct H as (Hm & Hd & -> & Hlt).
  rewrite start_of_index by done. split; [lia|]. destruct (index_next y m Hm) as [<- Hm'].
  by rewrite start_of_index.
Qed.

Lemma index_of_unique d k : start_of k <= d < start_of (k + 1) → index_of d = k.
Proof.
  intros Hk. pose proof (index_bounds d) as Hi.
  destruct (Z.lt_trichotomy (index_of d) k) as [Hlt|[->|Hlt]]; [exfalso|done|exfalso].
  - assert (start_of (index_of d + 1) <= start_of k); [|lia].
    destruct (decide (index_of d + 1 = k)) as [->|]; [lia|]. apply Z.lt_le_incl, start_of_mono. lia.
  - assert (start_of (k + 1) <= start_of (index_of d)); [|lia].
    destruct (decide (k + 1 = index_of d)) as [->|]; [lia|]. apply Z.lt_le_incl, start_of_mono. lia.
Qed.

Lemma index_of_mono d d' : d <= d' → index_of d <= index_of d'.
Proof.
  intros H. destruct (Z.le_gt_cases (index_of d) (index_of d')) as [|Hlt]; [done|exfalso].
  pose proof (index_bounds d). pose proof (index_bounds d').
  assert (start_of (index_of d' + 1) <= start_of (index_of d)); [|lia].
  destruct (decide (index_of d' + 1 = index_of d)) as [->|]; [lia|]. apply Z.lt_le_incl, start_of_mono. lia.
Qed.

(** [cursor.replace(year=..., month=..., day=1)]: the first of the next month. *)
Definition first_of_next (d : Z) : Z :=
  let '(y, m, _) := civil d in let '(y, m) := next_month y m in month_start y m.

Lemma first_of_next_spec d : first_of_next d = start_of (index_of d + 1).
Proof.
  unfold first_of_next, index_of. pose proof (civil_spec d) as H. destruct (civil d) as [[y m] dd].
  destruct H as (Hm & _). destruct (index_next y m Hm) as [<- Hm']. destruct (next_month y m) as [y' m'].
  by rewrite start_of_index.
Qed.

Example february : (first_of_next 19782, civil (first_of_next 19782)) = (19783, (2024, 3, 1)).
Proof. reflexivity. Qed.

End Calendar.
