(* ===== verification/Eligibility.v ===== *)
(** * Eligibility: who may compete, and who may enter today

    Models [src/api/services/campaign_eligibility.py].  Instants are
    microseconds UTC; the local day and month are those of Addis Ababa, three
    hours ahead all year.

    The loop of [month_periods] runs on fuel, one unit for each calendar month
    from the first to the last, and [month_periods_partition] shows that it
    always ends before the fuel does. *)

From Stdlib Require Import ZArith Lia.
From stdpp Require Import gmap.
From S2P Require Import Prelude Calendar.

Module Eligibility.
Import Calendar.

(** ** The rules *)

(** Days that must carry a post, and days in the period. *)
Definition REQUIREMENTS (level : string) : option (Z * Z) :=
  if String.eqb level "daily" then Some (1, 1)
  else if String.eqb level "weekly" then Some (5, 7)
  else if String.eqb level "monthly" then Some (20, 30)
  else None.

Definition GRAND_MONTHS_REQUIRED : Z := 4.
Definition GRAND_MONTHS_TOTAL : Z := 6.
Definition MAX_ENTRIES_PER_DAY : Z := 1.

Record eligibility := Eligible {
  el_level : string; el_days_posted : Z; el_days_required : Z; el_days_in_period : Z
}.
Definition eligible (e : eligibility) : bool := el_days_required e <=? el_days_posted e.
Definition days_remaining (e : eligibility) : Z := Z.max 0 (el_days_required e - el_days_posted e).

(** A [PostScore]: an entry accepted into a campaign. *)
Record entry := Entry { en_user : Z; en_campaign : Z; en_moderation : string; en_created : Z }.

#[export] Instance entry_eq_dec : EqDecision entry.
Proof. solve_decision. Defined.

(** ** Local days *)

(** Local midnight of a day, and of the next. *)
Definition day_bounds (d : Z) : Z * Z := (d * day - 3 * hour, d * day - 3 * hour + day).

Definition period_days (start end_ : option Z) : Z :=
  match start, end_ with
  | Some s, Some e => Z.max 0 (local_date e - local_date s + 1)
  | _, _ => 0
  end.

(** ** Participation *)

Definition counts (user : Z) (campaign start end_ : option Z) (e : entry) : bool :=
  (en_user e =? user) && negb (String.eqb (en_moderation e) "rejected")
  && match campaign with Some c => en_campaign e =? c | None => true end
  && match start with Some s => s <=? en_created e | None => true end
  && match end_ with Some t => en_created e <=? t | None => true end.

(** [user] is [None] for an anonymous one. *)
Definition participation_days (user campaign start end_ : option Z) (entries : list entry) : gset Z :=
  match user with
  | None => ∅
  | Some u => list_to_set ((λ e, local_date (en_created e)) <$> filter (λ e, counts u campaign start end_ e = true) entries)
  end.

Definition days_posted (user campaign start end_ : option Z) (entries : list entry) : Z :=
  Z.of_nat (size (participation_days user campaign start end_ entries)).

Definition eligibility_for (user : option Z) (level : string) (start end_ campaign : option Z) (entries : list entry)
    : exn + eligibility :=
  match REQUIREMENTS level with
  | None => inl (ValueError ("Unknown campaign level: '" +:+ level +:+ "'"))
  | Some (required, nominal_days) =>
      let posted := days_posted user campaign start end_ entries in
      let actual := period_days start end_ in
      let days_in_period := if actual =? 0 then nominal_days else Z.min nominal_days actual in
      inr (Eligible level posted (Z.min required days_in_period) days_in_period)
  end.

(** ** Months *)

(** The loop, on local times of the day; [None] is out of fuel. *)
Definition following (cursor : Z) : Z := first_of_next (cursor / day) * day.

Fixpoint month_loop (fuel : nat) (cursor last : Z) : option (list (Z * Z)) :=
  if cursor <=? last then
    match fuel with
    | O => None
    | S fuel => cons (cursor, Z.min (following cursor - 1) last) <$> month_loop fuel (following cursor) last
    end
  else Some [].

(** How many calendar months there are from the first to the last. *)
Definition months (cursor last : Z) : nat := Z.to_nat (index_of (last / day) - index_of (cursor / day) + 1).

Definition to_utc (p : Z * Z) : Z * Z := (p.1 - 3 * hour, p.2 - 3 * hour).

Definition month_periods (start end_ : option Z) : option (list (Z * Z)) :=
  match start, end_ with
  | Some s, Some e =>
      let cursor := s + 3 * hour in
      let last := e + 3 * hour in
      (λ l : list (Z * Z), to_utc <$> l) <$> month_loop (months cursor last) cursor last
  | _, _ => Some []
  end.

(** ** Campaigns *)

Definition qualifies (user : option Z) (entries : list entry) (p : Z * Z) : bool :=
  match eligibility_for user "monthly" (Some p.1) (Some p.2) None entries with
  | inr e => eligible e
  | inl _ => false
  end.

Definition grand_final_eligibility (user : option Z) (periods : list (Z * Z)) (entries : list entry) : eligibility :=
  let n := Z.of_nat (length periods) in
  let m := or_int n GRAND_MONTHS_TOTAL in
  Eligible "grand" (Z.of_nat (length (filter (λ p, qualifies user entries p = true) periods)))
    (Z.min GRAND_MONTHS_REQUIRED m) m.

(** The campaign's key, type, start and entry deadline. *)
Record campaign := Campaign { ca_id : Z; ca_type : string; ca_start : option Z; ca_entry_deadline : option Z }.

Definition campaign_period (c : campaign) : option Z * option Z := (ca_start c, ca_entry_deadline c).

Definition campaign_eligibility (user : option Z) (c : campaign) (entries : list entry) : option (exn + eligibility) :=
  let '(start, end_) := campaign_period c in
  if String.eqb (ca_type c) "grand"
  then (λ ps, inr (grand_final_eligibility user ps entries)) <$> month_periods start end_
  else Some (eligibility_for user (ca_type c) start end_ (Some (ca_id c)) entries).

(** ** One entry a day *)

Definition entries_today (user campaign now : Z) (entries : list entry) : Z :=
  let '(start, end_) := day_bounds (local_date now) in
  Z.of_nat (length (filter (λ e, (en_user e =? user) && (en_campaign e =? campaign) && (start <=? en_created e)
                                 && (en_created e <? end_) && negb (String.eqb (en_moderation e) "rejected") = true) entries)).

Definition can_enter_today (user campaign now : Z) (entries : list entry) : bool :=
  entries_today user campaign now entries <? MAX_ENTRIES_PER_DAY.

(** The refusal carries how many entries were used. *)
Definition daily_entry_refusal (user campaign now : Z) (entries : list entry) : option (string * Z) :=
  let used := entries_today user campaign now entries in
  if used <? MAX_ENTRIES_PER_DAY then None else Some ("daily_entry_used", used).

(** ** The loop over months *)

Definition month_of (t : Z) : Z := index_of (t / day).

Lemma day_pos : 0 < day.
Proof. done. Qed.

Lemma month_index t : month_of t = index_of (t / day).
Proof. reflexivity. Qed.

Lemma month_of_mono t t' : t <= t' → month_of t <= month_of t'.
Proof. intros H. apply index_of_mono. apply Z.div_le_mono; [done|exact H]. Qed.

(** The next cursor is where the next month begins. *)
Lemma before_following c t : c <= t → (t < following c ↔ month_of t = month_of c).
Proof.
  intros H. unfold following, month_of. rewrite first_of_next_spec. split; intros Ht.
  - apply index_of_unique. pose proof (index_bounds (c / day)). split.
    + etransitivity; [apply H0|]. by apply Z.div_le_mono.
    + apply Z.div_lt_upper_bound; [done|]. lia.
  - pose proof (index_bounds (t / day)) as Hb. rewrite Ht in Hb. pose proof (Z.mod_pos_bound t day day_pos).
    pose proof (Z.div_mod t day). nia.
Qed.

Lemma month_of_following c : month_of (following c) = month_of c + 1 ∧ c < following c.
Proof.
  unfold following. rewrite first_of_next_spec. rewrite <- !(month_index c). split.
  - unfold month_of at 1. rewrite Z.div_mul by done. apply index_of_unique. split; [lia|]. apply start_of_step.
  - pose proof (index_bounds (c / day)) as Hb. rewrite <- !(month_index c) in Hb.
    pose proof (Z.mod_pos_bound c day day_pos). pose proof (Z.div_mod c day). nia.
Qed.

(** Period [i] is what lies in the [i]-th month. *)
Definition splits (from to : Z) (l : list (Z * Z)) : Prop :=
  (from <= to → Z.of_nat (length l) = month_of to - month_of from + 1)
  ∧ ∀ i p, l !! i = Some p → p.1 <= p.2
      ∧ ∀ t, p.1 <= t <= p.2 ↔ from <= t <= to ∧ month_of t = month_of from + Z.of_nat i.

Lemma month_loop_spec fuel cursor last :
  (cursor <= last → month_of last - month_of cursor + 1 <= Z.of_nat fuel) →
  ∃ l, month_loop fuel cursor last = Some l ∧ splits cursor last l ∧ (last < cursor → l = []).
Proof.
  revert cursor. induction fuel as [|fuel IH]; intros cursor Hfuel; cbn [month_loop]; destruct (Z.leb_spec cursor last) as [Hle|Hgt].
  - exfalso. pose proof (month_of_mono cursor last Hle). lia.
  - exists []. split; [done|]. split; [|done]. split; [lia|by intros].
  - destruct (month_of_following cursor) as [Hnext Hlt]. destruct (IH (following cursor)) as (l & -> & [Hlen Hl] & Hnil).
    { intros _. rewrite Hnext. specialize (Hfuel Hle). lia. }
    exists ((cursor, Z.min (following cursor - 1) last) :: l). split; [done|]. split; [|lia]. split.
    + intros _. cbn [length]. destruct (Z.le_gt_cases (following cursor) last) as [Hf|Hf]; [specialize (Hlen Hf); lia|].
      rewrite (Hnil Hf). cbn [length]. assert (month_of last = month_of cursor) by (apply before_following; lia). lia.
    + intros [|i] p Hp; cbn in Hp.
      * injection Hp as <-. cbn [fst snd]. split; [lia|]. intros t. rewrite Z.add_0_r. split.
        -- intros Ht. split; [lia|]. apply before_following; lia.
        -- intros [Ht Hm]. apply before_following in Hm; lia.
      * destruct (Hl i p Hp) as [Hp12 Ht]. split; [done|]. intros t. rewrite Ht, Hnext. split.
        -- intros [? ?]. lia.
        -- intros [Hr Hm]. split; [|lia]. split; [|lia].
           destruct (Z.le_gt_cases (following cursor) t) as [|Hn]; [done|].
           apply before_following in Hn; lia.
  - exists []. split; [done|]. split; [|done]. split; [lia|by intros].
Qed.

Lemma months_enough cursor last : month_of last - month_of cursor + 1 <= Z.of_nat (months cursor last).
Proof.
  unfold months. rewrite <- !(month_index last).
  rewrite <- !(month_index cursor). lia.
Qed.

Definition local_month (t : Z) : Z := month_of (t + 3 * hour).

Lemma month_local t : local_month t = month_of (t + 3 * hour).
Proof. reflexivity. Qed.

Lemma periods_are_months start end_ :
  ∃ l, month_periods (Some start) (Some end_) = Some l
  ∧ Z.of_nat (length l) = (if end_ <? start then 0 else local_month end_ - local_month start + 1)
  ∧ ∀ i p, l !! i = Some p → p.1 <= p.2
      ∧ ∀ t, p.1 <= t <= p.2 ↔ start <= t <= end_ ∧ local_month t = local_month start + Z.of_nat i.
Proof.
  destruct (month_loop_spec (months (start + 3 * hour) (end_ + 3 * hour)) (start + 3 * hour) (end_ + 3 * hour))
    as (l & Hl & [Hlen Hp] & Hnil).
  { intros _. apply months_enough. }
  exists (to_utc <$> l). unfold month_periods. rewrite Hl. split; [done|]. rewrite length_fmap. split.
  - destruct (Z.ltb_spec end_ start); [rewrite Hnil by lia; done|]. apply Hlen. lia.
  - intros i p Hi. apply list_lookup_fmap_Some_1 in Hi as (q & -> & Hq). destruct (Hp i q Hq) as [H12 Ht].
    unfold to_utc. cbn [fst snd]. split; [lia|]. intros t. specialize (Ht (t + 3 * hour)). unfold local_month.
    split.
    + intros H. destruct Ht as [Ht _]. destruct Ht; [lia|]. split; [lia|done].
    + intros [H Hm]. destruct Ht as [_ Ht]. destruct Ht; [split; [lia|done]|]. lia.
Qed.

(** C16.  The loop over months ends, and its periods are the campaign's
    calendar months.  For any start and end there are as many periods as
    months from the first to the last (none when the end is before the start),
    and period [i] holds exactly the instants of the campaign in its [i]-th
    local month: the periods do not overlap and miss nothing. *)
Theorem month_periods_partition start end_ :
  ∃ l, month_periods (Some start) (Some end_) = Some l
  ∧ Z.of_nat (length l) = (if end_ <? start then 0 else local_month end_ - local_month start + 1)
  ∧ (∀ i p, l !! i = Some p → p.1 <= p.2
      ∧ ∀ t, p.1 <= t <= p.2 ↔ start <= t <= end_ ∧ local_month t = local_month start + Z.of_nat i)
  ∧ ∀ t, start <= t <= end_ → ∃ i p, l !! i = Some p ∧ p.1 <= t <= p.2
      ∧ ∀ j q, l !! j = Some q → q.1 <= t <= q.2 → j = i.
Proof.
  destruct (periods_are_months start end_) as (l & Hl & Hlen & Hp). exists l. split_and!; [done..|].
  intros t Ht. assert (month_of (start + 3 * hour) <= month_of (t + 3 * hour) <= month_of (end_ + 3 * hour)) as Hm
    by (split; apply month_of_mono; lia).
  rewrite <- !month_local in Hm. destruct (Z.ltb_spec end_ start); [lia|].
  destruct (lookup_lt_is_Some_2 l (Z.to_nat (local_month t - local_month start))) as [p Hi]; [lia|].
  destruct (Hp _ _ Hi) as [_ Hin]. eexists _, p. split; [exact Hi|]. split; [apply Hin; split; [done|lia]|].
  intros j q Hj Hq. destruct (Hp _ _ Hj) as [_ Hjn]. apply Hjn in Hq as [_ Hq]. lia.
Qed.

(** ** Days *)

Lemma days_at_least (X : gset Z) a b : (∀ d, a <= d <= b → d ∈ X) → b - a + 1 <= Z.of_nat (size X).
Proof.
  intros H. destruct (Z.le_gt_cases a b) as [Hab|]; [|lia].
  assert (list_to_set (seqZ a (b - a + 1)) ⊆ X) as Hsub.
  { intros d Hd. apply elem_of_list_to_set, elem_of_seqZ in Hd. apply H. lia. }
  apply subseteq_size in Hsub. rewrite size_list_to_set, length_seqZ in Hsub by apply NoDup_seqZ. lia.
Qed.

Lemma elem_of_days u campaign start end_ entries d :
  d ∈ participation_days (Some u) campaign start end_ entries
  ↔ ∃ e, e ∈ entries ∧ counts u campaign start end_ e = true ∧ local_date (en_created e) = d.
Proof.
  unfold participation_days. rewrite elem_of_list_to_set, list_elem_of_fmap. setoid_rewrite list_elem_of_filter. naive_solver.
Qed.

Lemma local_date_mono t t' : t <= t' → local_date t <= local_date t'.
Proof. intros H. unfold local_date. apply Z.div_le_mono; [done|lia]. Qed.

(** Enough days for the level, when every day of the period has one. *)
Lemma every_day_eligible u level campaign s e entries r :
  s <= e → REQUIREMENTS level = Some r →
  (∀ d, local_date s <= d <= local_date e → d ∈ participation_days (Some u) campaign (Some s) (Some e) entries) →
  ∃ el, eligibility_for (Some u) level (Some s) (Some e) campaign entries = inr el ∧ eligible el = true.
Proof.
  intros Hse Hr H. unfold eligibility_for. rewrite Hr. destruct r as [required nominal]. eexists. split; [done|].
  unfold eligible. cbn [el_days_required el_days_posted]. apply Z.leb_le.
  pose proof (days_at_least _ _ _ H) as Hd. pose proof (local_date_mono s e Hse). unfold days_posted, period_days.
  destruct (Z.eqb_spec (Z.max 0 (local_date e - local_date s + 1)) 0); lia.
Qed.

(** The entries of a season, one for each of its days. *)
Definition posted_daily (u : Z) (campaign : option Z) (s e : Z) (entries : list entry) : Prop :=
  ∀ d, local_date s <= d <= local_date e → ∃ en, en ∈ entries ∧ en_user en = u ∧ en_moderation en ≠ "rejected"
    ∧ (∀ c, campaign = Some c → en_campaign en = c) ∧ s <= en_created en <= e ∧ local_date (en_created en) = d.

Lemma counts_iff u campaign s e en :
  counts u campaign (Some s) (Some e) en = true ↔
  en_user en = u ∧ en_moderation en ≠ "rejected" ∧ (∀ c, campaign = Some c → en_campaign en = c) ∧ s <= en_created en <= e.
Proof.
  unfold counts. rewrite !andb_true_iff, negb_true_iff, String.eqb_neq, Z.eqb_eq, !Z.leb_le.
  destruct campaign as [c|]; [rewrite Z.eqb_eq|]; naive_solver.
Qed.

Lemma posted_daily_days u campaign s e entries d :
  posted_daily u campaign s e entries → local_date s <= d <= local_date e →
  d ∈ participation_days (Some u) campaign (Some s) (Some e) entries.
Proof.
  intros H Hd. destruct (H d Hd) as (en & Hin & Hu & Hm & Hc & Ht & Hl). apply elem_of_days. exists en.
  split; [done|]. split; [|done]. by apply counts_iff.
Qed.

Lemma local_month_date t : local_month t = index_of (local_date t).
Proof. reflexivity. Qed.

(** A month of a season in which every day has an entry qualifies. *)
Lemma posted_daily_month u campaign s e entries i p (l : list (Z * Z)) :
  s <= e → posted_daily u campaign s e entries → l !! i = Some p →
  (∀ t, p.1 <= t <= p.2 ↔ s <= t <= e ∧ local_month t = local_month s + Z.of_nat i) → p.1 <= p.2 →
  qualifies (Some u) entries p = true.
Proof.
  intros Hse H Hi Ht Hp. unfold qualifies.
  assert (∀ d, local_date p.1 <= d <= local_date p.2 →
    d ∈ participation_days (Some u) None (Some p.1) (Some p.2) entries) as Hdays.
  { intros d Hd. assert (s <= p.1 <= e ∧ local_month p.1 = local_month s + Z.of_nat i) as [Hs1 Hm1] by (apply Ht; lia).
    assert (s <= p.2 <= e ∧ local_month p.2 = local_month s + Z.of_nat i) as [Hs2 Hm2] by (apply Ht; lia).
    destruct (H d) as (en & Hin & Hu & Hmod & _ & Htime & Hl).
    { split; [|]; etransitivity; try apply Hd; [|]; apply local_date_mono; lia. }
    apply elem_of_days. exists en. split; [done|]. split; [|done]. apply counts_iff. split_and!; [done|done|done| |];
      (apply Ht; split; [done|]; rewrite local_month_date, Hl;
       pose proof (index_of_mono _ _ (proj1 Hd)); pose proof (index_of_mono _ _ (proj2 Hd));
       rewrite local_month_date in Hm1, Hm2; lia). }
  destruct (every_day_eligible u "monthly" None p.1 p.2 entries (20, 30) Hp eq_refl Hdays) as (el & -> & Hel).
  exact Hel.
Qed.

Lemma filter_all {A} (P : A → Prop) `{∀ x, Decision (P x)} (l : list A) : (∀ i x, l !! i = Some x → P x) → filter P l = l.
Proof.
  intros Hl. induction l as [|x l IH]; [done|]. rewrite filter_cons_True by (by apply (Hl 0%nat)).
  f_equal. apply IH. intros i y Hi. by apply (Hl (S i)).
Qed.

Lemma local_day_bounds t now :
  local_date t = local_date now ↔
  local_date now * day - 3 * hour <= t ∧ t < local_date now * day - 3 * hour + day.
Proof.
  unfold local_date. generalize ((now + 3 * hour) / day) as n. intros n. change day with 86400000000. split.
  - intros <-. Calendar.div_lia.
  - intros H. Calendar.div_lia.
Qed.

(** Eligibility is about days, and can be reached.  Whoever has an
    accepted entry on every local day of a campaign is eligible, at every
    level and however short the campaign is, the grand final with its months
    included.  Entries are counted by their days: a rejected entry, or another
    on a day that counts already, changes nothing.  And a second entry on the
    same local day is refused, the first is not. *)
Theorem posting_daily_qualifies u c s e entries :
  ca_start c = Some s → ca_entry_deadline c = Some e → s <= e →
  ca_type c = "grand" ∨ REQUIREMENTS (ca_type c) ≠ None → posted_daily u (Some (ca_id c)) s e entries →
  (∃ el, campaign_eligibility (Some u) c entries = Some (inr el) ∧ eligible el = true)
  ∧ (∀ en, en_moderation en = "rejected"
           ∨ (∃ e0, e0 ∈ entries ∧ counts u (Some (ca_id c)) (Some s) (Some e) e0 = true
                    ∧ local_date (en_created e0) = local_date (en_created en)) →
       eligibility_for (Some u) (ca_type c) (Some s) (Some e) (Some (ca_id c)) (entries ++ [en])
       = eligibility_for (Some u) (ca_type c) (Some s) (Some e) (Some (ca_id c)) entries)
  ∧ ∀ now, daily_entry_refusal u (ca_id c) now entries = None ↔
      ∀ en, en ∈ entries → en_user en = u → en_campaign en = ca_id c → en_moderation en ≠ "rejected" →
        local_date (en_created en) ≠ local_date now.
Proof.
  intros Hs He Hse Hty Hp. split_and!.
  - unfold campaign_eligibility, campaign_period. rewrite Hs, He. destruct (String.eqb_spec (ca_type c) "grand") as [Hg|Hg].
    + destruct (periods_are_months s e) as (l & Hl & Hlen & Hper). rewrite Hl. eexists. split; [reflexivity|].
      unfold eligible, grand_final_eligibility. cbn [el_days_required el_days_posted].
      rewrite filter_all.
      * unfold or_int. destruct (Z.eqb_spec (Z.of_nat (length l)) 0) as [E|]; [|apply Z.leb_le; lia].
        exfalso. destruct (Z.ltb_spec e s); [lia|]. pose proof (month_of_mono (s + 3 * hour) (e + 3 * hour)).
        unfold local_month in Hlen. lia.
      * intros i p Hi. destruct (Hper i p Hi). by apply (posted_daily_month u (Some (ca_id c)) s e entries i p l).
    + destruct Hty as [?|Hr]; [done|]. destruct (REQUIREMENTS (ca_type c)) as [r|] eqn:Er; [|done].
      edestruct (every_day_eligible u (ca_type c) (Some (ca_id c)) s e entries r Hse Er) as (el & -> & Hel); [|eauto].
      intros d. by apply posted_daily_days.
  - intros en Hen. unfold eligibility_for. destruct (REQUIREMENTS _) as [[required nominal]|]; [|done].
    do 2 f_equal. unfold days_posted. do 2 f_equal. apply set_eq. intros d. rewrite !elem_of_days. split.
    + intros (e0 & [Hin| ->%list_elem_of_singleton]%elem_of_app & Hc & Hd); [eauto|].
      destruct Hen as [Hr|(e0 & ? & ? & ?)]; [|exists e0; split_and!; congruence].
      apply counts_iff in Hc. naive_solver.
    + intros (e0 & Hin & ? & ?). exists e0. split; [|done]. apply elem_of_app. by left.
  - intros now. unfold daily_entry_refusal, entries_today, day_bounds, MAX_ENTRIES_PER_DAY.
    match goal with |- context [filter ?P entries] => destruct (filter P entries) as [|en l] eqn:E end.
    + split; [|done]. intros _ en Hin Hu Hc Hm Hd. apply (elem_of_nil en). rewrite <- E. apply list_elem_of_filter.
      split; [|done]. apply local_day_bounds in Hd.
      rewrite !andb_true_iff, negb_true_iff, String.eqb_neq, !Z.eqb_eq, Z.leb_le, Z.ltb_lt. tauto.
    + split; [cbn [length]; destruct (Z.ltb_spec (Z.of_nat (S (length l))) 1); [lia|done]|]. intros H. exfalso.
      assert (en ∈ en :: l) as Hin by left. rewrite <- E in Hin. apply list_elem_of_filter in Hin as [Hen Hin].
      rewrite !andb_true_iff, negb_true_iff, String.eqb_neq, !Z.eqb_eq, Z.leb_le, Z.ltb_lt in Hen.
      apply (H en); try tauto. apply local_day_bounds. tauto.
Qed.

(** ** A concrete season *)

(** From 30 January to 1 March 2024, local days. *)
Definition jan30 : Z := 19752 * day - 3 * hour.

Example three_months :
  (λ l : list (Z * Z), (λ p, (local_date p.1, local_date p.2)) <$> l) <$> month_periods (Some jan30) (Some (jan30 + 31 * day + 5))
  = Some [(19752, 19753); (19754, 19782); (19783, 19783)].
Proof. vm_compute. reflexivity. Qed.

(** A weekly campaign of three days. *)
Definition example_campaign : campaign := Campaign 4 "weekly" (Some jan30) (Some (jan30 + 2 * day + hour)).
Definition example_entries : list entry :=
  (λ d, Entry 8 4 "approved" (jan30 + d * day)) <$> [0; 1; 2].

Lemma posting_daily_qualifies_witness :
  campaign_eligibility (Some 8) example_campaign example_entries = Some (inr (Eligible "weekly" 3 3 3))
  ∧ (∃ el, campaign_eligibility (Some 8) example_campaign example_entries = Some (inr el) ∧ eligible el = true)
  ∧ daily_entry_refusal 8 4 (jan30 + 3 * day) example_entries = None
  ∧ daily_entry_refusal 8 4 (jan30 + 2 * day + minute) example_entries = Some ("daily_entry_used", 1).
Proof.
  split; [vm_compute; reflexivity|].
  destruct (posting_daily_qualifies 8 example_campaign jan30 (jan30 + 2 * day + hour) example_entries) as (H & _ & Hd).
  - reflexivity.
  - reflexivity.
  - vm_compute. intros [=].
  - right. intros [=].
  - intros d Hd. assert (d = 19752 ∨ d = 19753 ∨ d = 19754) as Hcase by (assert (19752 <= d <= 19754) by exact Hd; lia).
    destruct Hcase as [->|[->| ->]]; [exists (Entry 8 4 "approved" (jan30 + 0 * day))|exists (Entry 8 4 "approved" (jan30 + 1 * day))
      |exists (Entry 8 4 "approved" (jan30 + 2 * day))];
      (split; [apply (bool_decide_unpack _); vm_compute; exact I|]; cbn [en_user en_moderation en_campaign en_created];
       split_and!; [reflexivity|discriminate|by intros ? [= <-]|vm_compute; intros [=]|vm_compute; intros [=]|vm_compute; reflexivity]).
  - split; [exact H|]. split; [apply Hd|vm_compute; reflexivity].
    intros en Hen _ _ _. unfold example_entries in Hen. cbn [fmap list_fmap] in Hen.
    rewrite !elem_of_cons, elem_of_nil in Hen. destruct Hen as [->|[->|[->|[]]]]; vm_compute; intros [=].
Defined.

End Eligibility.
