(* ===== verification/SmsGateway.v ===== *)
(** * SmsGateway: what happens to a text message on its way out

    Models [src/api/services/sms/segments.py] (what a message costs),
    [src/api/integrations/smpp/dlr.py] (reading a delivery receipt) and the
    binding and submission of [src/api/integrations/smpp/client.py] and
    [errors.py], with the choice of gateway in
    [src/api/services/sms/__init__.py].

    [smpplib] is not read here: what it makes of each part of a message, and
    what the reader thread hears back, are arguments. *)

From Stdlib Require Import ZArith Lia.
From S2P Require Import Prelude.

Module SmsGateway.

(** ** Segments

    A text is the list of its code points. *)

Definition GSM_BASIC : list Z :=
  [64; 163; 36; 165; 232; 233; 249; 236; 242; 199; 10; 216; 248; 13; 197; 229;
   916; 95; 934; 915; 923; 937; 928; 936; 931; 920; 926; 198; 230; 223; 201;
   32; 33; 34; 35; 164; 37; 38; 39; 40; 41; 42; 43; 44; 45; 46; 47;
   48; 49; 50; 51; 52; 53; 54; 55; 56; 57; 58; 59; 60; 61; 62; 63; 161]
  ++ (Z.of_nat <$> seq 65 26) ++ [196; 214; 209; 220; 167; 191]
  ++ (Z.of_nat <$> seq 97 26) ++ [228; 246; 241; 252; 224].

Definition GSM_EXTENDED : list Z := [94; 123; 125; 92; 91; 126; 93; 124; 8364].

Definition GSM_SINGLE : Z := 160.
Definition GSM_MULTIPART : Z := 153.
Definition UCS2_SINGLE : Z := 70.
Definition UCS2_MULTIPART : Z := 67.

Definition is_gsm7 (text : list Z) : bool :=
  forallb (λ ch, bool_decide (ch ∈ GSM_BASIC) || bool_decide (ch ∈ GSM_EXTENDED)) text.

Definition septets (text : list Z) : Z :=
  sumZ (λ ch, if bool_decide (ch ∈ GSM_EXTENDED) then 2 else 1) text.

Definition units (text : list Z) : Z :=
  if is_gsm7 text then septets text else Z.of_nat (length text).

Definition segments (text : list Z) : Z :=
  match text with
  | [] => 0
  | _ =>
      let '(single, multi) := if is_gsm7 text then (GSM_SINGLE, GSM_MULTIPART)
                              else (UCS2_SINGLE, UCS2_MULTIPART) in
      let total := units text in
      if total <=? single then 1 else - ((- total) / multi)
  end.

Example segments_gsm : segments (repeat 97 160) = 1 ∧ segments (repeat 97 161) = 2.
Proof. by vm_compute. Qed.
Example segments_extended : segments (repeat 91 81) = 2.
Proof. by vm_compute. Qed.
Example segments_amharic : segments (4768 :: repeat 97 70) = 2.
Proof. by vm_compute. Qed.

(** ** Delivery receipts *)

Notation chars := String.list_ascii_of_string.
Notation text_of := String.string_of_list_ascii.

(** [\w], over ASCII. *)
Definition is_word (c : ascii) : bool :=
  let n := nat_of_ascii c in
  ((48 <=? n) && (n <=? 57) || (65 <=? n) && (n <=? 90) || (97 <=? n) && (n <=? 122)
   || (n =? 95))%nat.

(** [s] after a prefix spelled as [p] (in lower case) in any case. *)
Fixpoint after_ci (p s : list ascii) : option (list ascii) :=
  match p, s with
  | [], _ => Some s
  | c :: p', d :: s' => if Ascii.eqb c (lower_char d) then after_ci p' s' else None
  | _ :: _, [] => None
  end.

Fixpoint take_while {A} (p : A → bool) (l : list A) : list A :=
  match l with
  | [] => []
  | x :: l' => if p x then x :: take_while p l' else []
  end.

Definition FIELD_KEYS : list string := ["id"; "sub"; "dlvrd"; "stat"; "err"].

(** One key of [_FIELD] at the head of [s]: its value, and what is left. *)
Definition match_key (k : string) (s : list ascii) : option (string * list ascii) :=
  s1 ← after_ci (chars k) s;
  match drop_while is_space s1 with
  | c :: s2 =>
      if Ascii.eqb c ":" then
        let s3 := drop_while is_space s2 in
        match take_while (λ c, negb (is_space c)) s3 with
        | [] => None
        | v => Some (text_of v, drop (length v) s3)
        end
      else None
  | [] => None
  end.

(** The first alternative of [_FIELD] that matches at the head of [s]. *)
Fixpoint match_field (keys : list string) (s : list ascii)
    : option (string * string * list ascii) :=
  match keys with
  | [] => None
  | k :: keys' =>
      match match_key k s with
      | Some (v, rest) => Some (k, v, rest)
      | None => match_field keys' s
      end
  end.

(** [_FIELD.findall], with keys lowered: [word] says whether the character
    before [s] is a word character, [skip] how much of [s] the last match
    took. *)
Fixpoint findall (skip : nat) (word : bool) (s : list ascii) : list (string * string) :=
  match s with
  | [] => []
  | c :: s' =>
      match skip with
      | S n => findall n (is_word c) s'
      | O =>
          match (if word then None else match_field FIELD_KEYS s) with
          | Some (k, v, rest) =>
              (k, v) :: findall (length s - length rest - 1) (is_word c) s'
          | None => findall 0 (is_word c) s'
          end
      end
  end.

(** [{key: value for ...}.get(k, '')]: the last value a key was given. *)
Fixpoint dict_get (k : string) (l : list (string * string)) : string :=
  match l with
  | [] => ""
  | (k', v) :: l' =>
      if existsb (λ kv, String.eqb kv.1 k) l' then dict_get k l'
      else if String.eqb k' k then v else ""
  end.

(** Where a message has got to ([SmsStatus]). *)
Inductive sms_status := queued | submitted | delivered | failed | rejected | expired.

#[global] Instance sms_status_eq_dec : EqDecision sms_status.
Proof. solve_decision. Defined.

Definition STAT_TO_STATUS (stat : string) : option sms_status :=
  if String.eqb stat "DELIVRD" then Some delivered
  else if String.eqb stat "EXPIRED" then Some expired
  else if String.eqb stat "DELETED" then Some failed
  else if String.eqb stat "UNDELIV" then Some failed
  else if String.eqb stat "ACCEPTD" then Some submitted
  else if String.eqb stat "UNKNOWN" then Some submitted
  else if String.eqb stat "REJECTD" then Some rejected
  else None.

Record receipt := Receipt { r_message_id : string; r_stat : string; r_error_code : string; r_raw : string }.

Definition receipt_status (r : receipt) : option sms_status :=
  if String.eqb (r_stat r) "" then None else STAT_TO_STATUS (upper (r_stat r)).

Definition parse_receipt_text (text : string) : receipt :=
  if String.eqb text "" then Receipt "" "" "" ""
  else
    let fields := findall 0 false (chars text) in
    Receipt (dict_get "id" fields) (dict_get "stat" fields) (dict_get "err" fields) text.

(** The form SMPP's appendix B gives a receipt, which the module quotes: [text]
    is the start of the message it is about. *)
Definition receipt_text (id sub dlvrd submit done stat err text : string) : string :=
  "id:" +:+ id +:+ " sub:" +:+ sub +:+ " dlvrd:" +:+ dlvrd +:+ " submit date:" +:+ submit
  +:+ " done date:" +:+ done +:+ " stat:" +:+ stat +:+ " err:" +:+ err +:+ " text:" +:+ text.

Example receipt_example :
  parse_receipt_text "id:0123456789 sub:001 dlvrd:001 submit date:2609091200 done date:2609091205 stat:DELIVRD err:000 text:..." =
  Receipt "0123456789" "DELIVRD" "000"
    "id:0123456789 sub:001 dlvrd:001 submit date:2609091200 done date:2609091205 stat:DELIVRD err:000 text:...".
Proof. by vm_compute. Qed.

Example receipt_loose :
  let r := parse_receipt_text "ID : 7 Stat: delivrd xid:9" in
  (r_message_id r, r_stat r, receipt_status r) = ("7", "delivrd", Some delivered).
Proof. by vm_compute. Qed.

(** ** The session and a submission *)

(** The settings [validate] insists on. *)
Record smpp_settings := SmppSettings {
  cf_host : string; cf_port : Z; cf_system_id : string; cf_password : string
}.

(** [SmppClient]: is there a connection object, is it bound, and the two
    counters.  [cl_out], the parts that may have reached the gateway, is not
    in the code. *)
Record client := SmppClient {
  cl_client : bool; cl_bound : bool; cl_connect_attempts : Z; cl_reconnect_count : Z; cl_out : nat
}.

Definition unbound (c : client) : client :=
  SmppClient (cl_client c) false (cl_connect_attempts c) (cl_reconnect_count c) (cl_out c).
Definition one_out (c : client) : client :=
  SmppClient (cl_client c) (cl_bound c) (cl_connect_attempts c) (cl_reconnect_count c) (S (cl_out c)).

Definition missing_settings (cf : smpp_settings) : list string :=
  (if String.eqb (cf_host cf) "" then ["TIMWE_SMPP_HOST"] else [])
  ++ (if cf_port cf =? 0 then ["TIMWE_SMPP_PORT"] else [])
  ++ (if String.eqb (cf_system_id cf) "" then ["TIMWE_SMPP_SYSTEM_ID"] else [])
  ++ (if String.eqb (cf_password cf) "" then ["TIMWE_SMPP_PASSWORD"] else []).

Definition validate (cf : smpp_settings) : M client unit :=
  match missing_settings cf with
  | [] => mret tt
  | missing => raise (SmppError "SmppNotConfigured"
                 ("SMPP is not configured: " +:+ String.concat ", " missing +:+ " unset.") "")
  end.

(** What the network makes of connecting and binding. *)
Inductive link_up := Linked | ConnectFails (exc : string) | BindFails (exc_type : string).

Definition connection_error {S A} (m : string) : M S A := raise (SmppError "SmppConnectionError" m "").
Definition uncertain {S A} (m : string) : M S A := raise (SmppError "SmppSubmitUncertain" m "").

Definition connect (cf : smpp_settings) (up : link_up) : M client unit :=
  c ← get;
  if cl_bound c && cl_client c then mret tt
  else
    validate cf ≫= λ _,
    put (SmppClient false false (cl_connect_attempts c + 1) (cl_reconnect_count c) (cl_out c)) ≫= λ _,
    match up with
    | ConnectFails exc => connection_error ("Could not connect: " +:+ exc)
    | BindFails exc => connection_error ("Bind rejected: " +:+ exc)
    | Linked => modify (λ c, SmppClient true true (cl_connect_attempts c) (cl_reconnect_count c) (cl_out c))
    end.

Definition ensure_bound (cf : smpp_settings) (up : link_up) : M client unit :=
  c ← get;
  if cl_bound c && cl_client c then mret tt
  else
    when (negb (cl_connect_attempts c =? 0))
      (modify (λ c, SmppClient (cl_client c) (cl_bound c) (cl_connect_attempts c)
                      (cl_reconnect_count c + 1) (cl_out c))) ≫= λ _,
    connect cf up.

(** A [command_status] as the code finds it: absent, unreadable, or a number. *)
Inductive status_code := NoStatus | UnreadStatus | Status (n : Z).

(** What sending one part came to. *)
Inductive send_result :=
| Sent (sequence : option Z)
| PDUError (code : status_code) (exc : string)
| SocketBroke (exc : string)
| SendFails (exc : string).

(** What the reader thread hears about the first part before the wait ends. *)
Inductive reply := Unanswered | ErrorReply (status : status_code) | MessageId (id : string).

Definition status_text (code : status_code) : string :=
  match code with NoStatus => "None" | UnreadStatus => "unknown" | Status n => str_int n end.

Section Submit.
(** [smpplib.consts]: the constant that names a command status. *)
Context (status_name : Z → option string).

Definition status_label (code : status_code) : string :=
  match code with
  | NoStatus => "rejected"
  | UnreadStatus => "status unknown"
  | Status n => match status_name n with
                | Some name => name +:+ " (" +:+ str_int n +:+ ")"
                | None => "status " +:+ str_int n
                end
  end.

(** The loop over the parts: the sequence number of the first. *)
Fixpoint send_parts (index total : nat) (first : option Z) (sends : list send_result)
    : M client (option Z) :=
  match sends with
  | [] => mret first
  | r :: sends' =>
      match r with
      | PDUError code exc => raise (SmppError "SmppSubmitRejected" exc (status_label code))
      | SocketBroke exc =>
          modify unbound ≫= λ _,
          if (index =? 0)%nat then connection_error ("Submit failed: " +:+ exc)
          else uncertain ("Connection lost after part " +:+ str_int (Z.of_nat (S index)) +:+ " of "
                          +:+ str_int (Z.of_nat total) +:+ ": " +:+ exc)
      | SendFails exc =>
          modify (λ c, one_out (unbound c)) ≫= λ _,
          uncertain ("Submit outcome unknown (transmitted=unknown): " +:+ exc)
      | Sent sequence =>
          modify one_out ≫= λ _,
          send_parts (S index) total (if (index =? 0)%nat then sequence else first) sends'
      end
  end.

(** [submit]: [sends] holds what each part of the text comes to. *)
Definition submit (cf : smpp_settings) (up : link_up) (sends : list send_result) (answer : reply)
    : M client string :=
  validate cf ≫= λ _,
  ensure_bound cf up ≫= λ _,
  c ← get;
  if negb (cl_client c) || negb (cl_bound c) then connection_error "Not bound."
  else
    first ← send_parts 0 (length sends) None sends;
    match first with
    | None => mret ""
    | Some _ =>
        match answer with
        | Unanswered => uncertain "No submit_sm_resp within 30s (transmitted=yes); the gateway may still have accepted the message."
        | ErrorReply st =>
            raise (SmppError "SmppSubmitRejected"
                     ("Gateway rejected submit_sm (status " +:+ status_text st +:+ ").") (status_label st))
        | MessageId id => mret id
        end
    end.
End Submit.

(** ** Reading receipts *)

(** A value [\S+] takes whole. *)
Definition token (v : string) : Prop :=
  v ≠ "" ∧ forallb (λ c, negb (is_space c)) (chars v) = true.
#[global] Instance token_dec v : Decision (token v).
Proof. unfold token. apply _. Defined.

Definition digits (v : string) : Prop :=
  v ≠ "" ∧ forallb (λ c, bool_decide (48 <= Z.of_nat (nat_of_ascii c) <= 57)) (chars v) = true.
#[global] Instance digits_dec v : Decision (digits v).
Proof. unfold digits. apply _. Defined.

Lemma bytes_app (a b : string) : chars (a +:+ b) = chars a ++ chars b.
Proof. induction a as [|c a IH]; [done|]. exact (f_equal (cons c) IH). Qed.

Lemma token_cons v : token v → ∃ c l, chars v = c :: l ∧ is_space c = false.
Proof.
  intros [Hv Ht]. destruct v as [|c v]; [done|]. exists c, (chars v). cbn in Ht.
  apply andb_true_iff in Ht as [Hc _]. by apply negb_true_iff in Hc.
Qed.

Lemma take_while_token p (l r : list ascii) c :
  forallb p l = true → p c = false → take_while p (l ++ c :: r) = l.
Proof.
  intros Hl Hc. induction l as [|x l IH]; cbn in *; [by rewrite Hc|].
  apply andb_true_iff in Hl as [-> Hl]. by rewrite IH.
Qed.

Lemma after_ci_app p s r : after_ci p s = Some [] → after_ci p (s ++ r) = Some r.
Proof.
  revert s. induction p as [|a p IH]; intros [|b s]; cbn; try done.
  destruct (Ascii.eqb a (lower_char b)); [apply IH|done].
Qed.

Lemma match_key_value k v rest :
  after_ci (chars k) (chars k) = Some [] → token v →
  match_key k (chars k ++ ":"%char :: chars v ++ " "%char :: rest) = Some (v, " "%char :: rest).
Proof.
  intros Hk Hv. unfold match_key. rewrite (after_ci_app _ _ _ Hk).
  cbn [mbind option_bind].
  assert (∀ l, drop_while is_space (":"%char :: l) = ":"%char :: l) as -> by done. cbn beta iota zeta.
  rewrite Ascii.eqb_refl.
  destruct (token_cons v Hv) as (c & l & E & Hc).
  assert (drop_while is_space (chars v ++ " "%char :: rest) = chars v ++ " "%char :: rest) as ->.
  { rewrite E. cbn. by rewrite Hc. }
  rewrite take_while_token by (apply Hv || done). rewrite E.
  change (Some (text_of (c :: l), drop (length (c :: l)) ((c :: l) ++ " "%char :: rest)) = Some (v, " "%char :: rest)).
  by rewrite drop_app_length, <- E, String.string_of_list_ascii_of_string.
Qed.

(** Is the last character of what was read a word character? *)
Definition word_after (w : bool) (p : list ascii) : bool := foldl (λ _ c, is_word c) w p.

Lemma findall_skip w p s : findall (length p) w (p ++ s) = findall 0 (word_after w p) s.
Proof. revert w. induction p as [|c p IH]; intros w; cbn; [by destruct s|apply IH]. Qed.

Lemma findall_blank w c s :
  is_space c = true → findall 0 w (c :: s) = findall 0 false s.
Proof.
  intros Hc. assert (is_word c = false ∧ match_field FIELD_KEYS (c :: s) = None) as [Hw Hf].
  { by destruct c as [[] [] [] [] [] [] [] []]. }
  cbn [findall]. rewrite Hf, Hw. by destruct w.
Qed.

(** A field at a word boundary is read whole. *)
Lemma findall_field k v rest :
  match_field FIELD_KEYS (chars k ++ ":"%char :: chars v ++ " "%char :: rest) = Some (k, v, " "%char :: rest) →
  k ≠ "" →
  findall 0 false (chars k ++ ":"%char :: chars v ++ " "%char :: rest) = (k, v) :: findall 0 false rest.
Proof.
  intros Hm Hk. destruct k as [|c k]; [done|]. cbn [chars app] in *.
  set (p := chars k ++ ":"%char :: chars v).
  assert (chars k ++ ":"%char :: chars v ++ " "%char :: rest = p ++ " "%char :: rest) as E
    by (subst p; by rewrite <- app_assoc).
  rewrite E in *. cbn [findall]. rewrite Hm. f_equal.
  replace (_ - _ - 1)%nat with (length p) by (cbn [length]; rewrite length_app; cbn [length]; lia).
  rewrite findall_skip. by apply findall_blank.
Qed.

Lemma findall_digit c w s :
  bool_decide (48 <= Z.of_nat (nat_of_ascii c) <= 57) = true →
  findall 0 w (c :: s) = findall 0 true s.
Proof.
  intros Hc. assert (is_word c = true ∧ match_field FIELD_KEYS (c :: s) = None) as [Hw Hf].
  { destruct c as [[] [] [] [] [] [] [] []]; try discriminate Hc; done. }
  cbn [findall]. rewrite Hf, Hw. by destruct w.
Qed.

Lemma findall_digits w v s : digits v → findall 0 w (chars v ++ s) = findall 0 true s.
Proof.
  intros [Hv Hd].
  assert (∀ l w, l ≠ [] → forallb (λ c, bool_decide (48 <= Z.of_nat (nat_of_ascii c) <= 57)) l = true →
            findall 0 w (l ++ s) = findall 0 true s) as H.
  { clear. intros l. induction l as [|c l IH]; intros w Hl Hd; [done|].
    cbn [forallb app] in *. apply andb_true_iff in Hd as [Hc Hd]. rewrite findall_digit by done.
    destruct l as [|d l]; [done|]. by apply IH. }
  apply H; [|done]. by destruct v.
Qed.

Lemma read_field k v rest :
  k ∈ FIELD_KEYS → token v →
  findall 0 false (chars k ++ ":"%char :: chars v ++ " "%char :: rest) = (k, v) :: findall 0 false rest.
Proof.
  intros Hk Hv. unfold FIELD_KEYS in Hk. rewrite !elem_of_cons, elem_of_nil in Hk.
  assert (after_ci (chars k) (chars k) = Some [] ∧ k ≠ "") as [Hs Hn] by (by destruct Hk as [->|[->|[->|[->|[->|[]]]]]]).
  apply findall_field; [|done]. pose proof (match_key_value k v rest Hs Hv) as Hm.
  destruct Hk as [->|[->|[->|[->|[->|[]]]]]]; cbn [match_field FIELD_KEYS]; by rewrite Hm.
Qed.

Ltac next_field k H :=
  etransitivity; [refine (read_field k _ _ _ H); apply (bool_decide_unpack _); vm_compute; exact I|f_equal].

(** The last value a text gives a key, if it gives one. *)
Definition quoted (k text : string) : option string :=
  let fields := findall 0 false (chars text) in
  if existsb (λ kv, String.eqb kv.1 k) fields then Some (dict_get k fields) else None.

Lemma dict_get_app k l1 l2 :
  dict_get k (l1 ++ l2) = if existsb (λ kv, String.eqb kv.1 k) l2 then dict_get k l2 else dict_get k l1.
Proof.
  induction l1 as [|[k' v] l1 IH]; cbn [app dict_get].
  - destruct (existsb _ l2) eqn:E; [done|]. induction l2 as [|[k' v] l2 IH]; [done|]. cbn in E |- *. apply orb_false_iff in E as [E1 E2].
    by rewrite E1, E2.
  - rewrite existsb_app, IH. destruct (existsb _ l1); [done|]. cbn. by destruct (existsb _ l2).
Qed.

(** C17.  A receipt in the form the module quotes, about any message, is read
    back field by field: its id, its state and its error code, except where
    the message it quotes spells one of those keys itself -- then the
    message's last value is read in its place.  So a receipt about a message
    that spells none is read back exactly. *)
Theorem receipt_roundtrip id sub dlvrd submit done stat err text :
  token id → token sub → token dlvrd → digits submit → digits done → token stat → token err →
  let raw := receipt_text id sub dlvrd submit done stat err text in
  parse_receipt_text raw
  = Receipt (default id (quoted "id" text)) (default stat (quoted "stat" text)) (default err (quoted "err" text)) raw.
Proof.
  intros Hid Hsub Hdl Hsd Hdd Hst Herr raw. unfold parse_receipt_text.
  assert (String.eqb raw "" = false) as -> by reflexivity.
  assert (findall 0 false (chars raw) = ("id", id) :: ("sub", sub) :: ("dlvrd", dlvrd) :: ("stat", stat) :: ("err", err)
    :: findall 0 false (chars text)) as ->.
  2: { change (?a :: ?b :: ?c :: ?d :: ?e :: ?l) with ([a; b; c; d; e] ++ l). rewrite !dict_get_app. unfold quoted. by destruct (existsb _ _), (existsb _ _), (existsb _ _). }
  assert (∀ S, findall 0 false (chars "submit date:" ++ S) = findall 0 false S) as submit_date by reflexivity.
  assert (∀ S, findall 0 true (chars " done date:" ++ S) = findall 0 false S) as done_date by reflexivity.
  assert (∀ S, findall 0 true (" "%char :: S) = findall 0 false S) as blank by reflexivity.
  subst raw. unfold receipt_text. rewrite !bytes_app.
  next_field "id" Hid. next_field "sub" Hsub. next_field "dlvrd" Hdl.
  etransitivity; [exact (submit_date _)|]. etransitivity; [exact (findall_digits _ _ _ Hsd)|].
  etransitivity; [exact (done_date _)|]. etransitivity; [exact (findall_digits _ _ _ Hdd)|].
  etransitivity; [exact (blank _)|]. next_field "stat" Hst. next_field "err" Herr.
Qed.

Lemma receipt_roundtrip_witness :
  parse_receipt_text (receipt_text "0123456789" "001" "001" "2609091200" "2609091205" "DELIVRD" "000" "Order id:42 is on its way") =
  Receipt "42" "DELIVRD" "000"
    (receipt_text "0123456789" "001" "001" "2609091200" "2609091205" "DELIVRD" "000" "Order id:42 is on its way").
Proof.
  apply (receipt_roundtrip "0123456789" "001" "001" "2609091200" "2609091205" "DELIVRD" "000" "Order id:42 is on its way");
    apply (bool_decide_unpack _); vm_compute; exact I.
Defined.

(** The text of the message is read like the rest of the receipt, and wins. *)
Example receipt_reads_text :
  let r := parse_receipt_text "id:7 stat:DELIVRD err:000 text:Your order id:42 has stat: undeliv" in
  (r_message_id r, receipt_status r) = ("42", Some failed).
Proof. by vm_compute. Qed.

(** ** What a message costs *)

(** What [n] parts hold: one part alone, or parts that carry a header each. *)
Definition capacity (text : list Z) (n : Z) : Z :=
  let '(single, multi) := if is_gsm7 text then (GSM_SINGLE, GSM_MULTIPART)
                          else (UCS2_SINGLE, UCS2_MULTIPART) in
  if n =? 1 then single else n * multi.

(** Segments are the least number of parts that holds the message. *)
Lemma segments_least text n :
  text ≠ [] → 1 <= n → segments text <= n ↔ units text <= capacity text n.
Proof.
  intros Ht Hn. unfold segments, capacity. destruct text as [|ch text]; [done|].
  set (t := ch :: text). clearbody t.
  assert (∃ single multi, (if is_gsm7 t then (GSM_SINGLE, GSM_MULTIPART) else (UCS2_SINGLE, UCS2_MULTIPART))
            = (single, multi) ∧ 0 < multi < single ∧ single < 2 * multi) as (single & multi & -> & Hm & Hs)
    by (destruct (is_gsm7 t); do 2 eexists; (split; [done|]); unfold GSM_SINGLE, GSM_MULTIPART, UCS2_SINGLE, UCS2_MULTIPART; lia).
  set (u := units t). clearbody u.
  pose proof (Z.div_mod (- u) multi ltac:(lia)). pose proof (Z.mod_pos_bound (- u) multi ltac:(lia)).
  destruct (Z.leb_spec u single), (Z.eqb_spec n 1); nia.
Qed.

(** ** What a refused submission did *)

Section SubmitProofs.
Context (status_name : Z → option string).

Definition all_sent (sends : list send_result) : Prop :=
  ∀ r, r ∈ sends → ∃ q, r = Sent q.

Lemma send_parts_spec sends index total first c r c' :
  send_parts status_name index total first sends c = (r, c') →
  match r with
  | inr q => all_sent sends ∧ cl_out c' = (cl_out c + length sends)%nat
             ∧ q = (if (index =? 0)%nat then match sends with Sent q :: _ => q | _ => first end else first)
  | inl (SmppError cls _ _) =>
      cls = "SmppConnectionError" ∧ index = O ∧ cl_out c' = cl_out c
      ∨ cls = "SmppSubmitUncertain" ∨ cls = "SmppSubmitRejected"
  | inl _ => False
  end.
Proof.
  revert index first c. induction sends as [|x sends IH]; intros index first c; cbn [send_parts].
  { intros [= <- <-]. split_and!; [intros r Hr; by apply elem_of_nil in Hr|cbn; lia|by destruct (index =? 0)%nat]. }
  destruct x as [q|code exc|exc|exc].
  - rewrite bind_run. cbn [modify]. intros H. apply IH in H.
    destruct r as [e|q'].
    + destruct e; try done. cbn in H. destruct H as [(_ & [=] & _)|H]; by right.
    + destruct H as (Ha & Hc & ->). split_and!.
      * intros r [->|Hr]%elem_of_cons; [by eexists|by apply Ha].
      * rewrite Hc. cbn. lia.
      * by destruct (index =? 0)%nat.
  - intros [= <- <-]. auto.
  - rewrite bind_run. cbn [modify]. destruct (Nat.eqb_spec index 0) as [->|]; intros [= <- <-]; auto.
  - rewrite bind_run. cbn [modify]. intros [= <- <-]. auto.
Qed.

Lemma smpp_validate_run cf c r c' :
  validate cf c = (r, c') → c' = c ∧ match r with
  | inr _ => missing_settings cf = []
  | inl e => ∃ m, e = SmppError "SmppNotConfigured" m "" end.
Proof.
  unfold validate. destruct (missing_settings cf); intros [= <- <-]; [done|]. split; [done|by eexists].
Qed.

Lemma ensure_bound_run cf up c r c' :
  ensure_bound cf up c = (r, c') → cl_out c' = cl_out c ∧ match r with
  | inr _ => cl_bound c' = true ∧ cl_client c' = true
  | inl e => ∃ cls m, e = SmppError cls m "" ∧ (cls = "SmppNotConfigured" ∨ cls = "SmppConnectionError") end.
Proof.
  unfold ensure_bound. rewrite bind_run. cbn [get].
  destruct (cl_bound c && cl_client c) eqn:Hb.
  { intros [= <- <-]. apply andb_true_iff in Hb as [-> ->]. done. }
  assert (∀ d, cl_out d = cl_out c → cl_bound d && cl_client d = false → connect cf up d = (r, c') →
     cl_out c' = cl_out c ∧ match r with
       | inr _ => cl_bound c' = true ∧ cl_client c' = true
       | inl e => ∃ cls m, e = SmppError cls m "" ∧ (cls = "SmppNotConfigured" ∨ cls = "SmppConnectionError") end)
    as Hconnect.
  { intros d Hd Hbd. unfold connect. rewrite bind_run. cbn [get]. rewrite Hbd, bind_run.
    destruct (validate cf d) as [[e|[]] d1] eqn:E; apply smpp_validate_run in E as [-> E].
    { intros [= <- <-]. destruct E as [m ->]. split; [done|]. do 2 eexists. auto. }
    rewrite bind_run. cbn [put]. destruct up; intros [= <- <-]; cbn; split; try done; do 2 eexists; auto. }
  rewrite bind_run. unfold when. destruct (negb _); cbn [modify mret M_ret]; by apply Hconnect.
Qed.

(** The classes a submission can end in say what happened: a missing
    setting and a connection error left every part unsent; an id means that
    every part was handed over and the gateway acknowledged the first with
    that id (or that the transport gave the first no sequence number); the
    only other ends are a rejection and an uncertain outcome. *)
Lemma submit_ends cf up sends answer c :
  let '(r, c') := submit status_name cf up sends answer c in
  match r with
  | inr id => missing_settings cf = [] ∧ all_sent sends ∧ cl_out c' = (cl_out c + length sends)%nat
              ∧ (answer = MessageId id ∨ id = "" ∧ head sends ∈ [None; Some (Sent None)])
  | inl (SmppError cls _ _) =>
      (cls = "SmppNotConfigured" ∧ cl_out c' = cl_out c
       ∨ cls = "SmppConnectionError" ∧ cl_out c' = cl_out c)
      ∨ cls = "SmppSubmitRejected" ∨ cls = "SmppSubmitUncertain"
  | inl _ => False
  end.
Proof.
  destruct (submit status_name cf up sends answer c) as [r c'] eqn:E. revert E.
  unfold submit. rewrite bind_run. destruct (validate cf c) as [[e|[]] c1] eqn:E1; apply smpp_validate_run in E1 as [-> E1].
  { intros [= <- <-]. destruct E1 as [m ->]. auto. }
  rewrite bind_run. destruct (ensure_bound cf up c) as [[e|[]] c2] eqn:E2; apply ensure_bound_run in E2 as [Ho E2].
  { intros [= <- <-]. destruct E2 as (cls & m & -> & [-> | ->]); auto. }
  destruct E2 as [Hb Hc]. rewrite bind_run. cbn [get]. rewrite Hb, Hc. cbn [negb orb]. rewrite bind_run.
  destruct (send_parts _ _ _ _ _ _) as [[e|q] c3] eqn:E3; apply send_parts_spec in E3.
  { intros [= <- <-]. destruct e; try done. destruct E3 as [(-> & _ & ->)|[-> | ->]]; auto. }
  destruct E3 as (Ha & Hout & Hq). cbn in Hq.
  assert (q = None → head sends ∈ [None; Some (Sent None)]) as Hnone.
  { intros ->. destruct sends as [|x sends]; [by left|].
    destruct (Ha x) as [q ->]; [by left|]. subst q. by right; left. }
  destruct q as [q|].
  - destruct answer; intros [= <- <-]; auto. split_and!; auto; lia.
  - intros [= <- <-]. split_and!; auto; lia.
Qed.

End SubmitProofs.

(** A rejection of a later part leaves the earlier ones with the gateway. *)
Example rejected_half_sent :
  let '(r, c) := submit (λ _, None) (SmppSettings "smpp" 2775 "flip" "pw") Linked
                   [Sent (Some 1); PDUError (Status 1) "no"] Unanswered (SmppClient true true 1 0 0) in
  r = inl (SmppError "SmppSubmitRejected" "no" "status 1") ∧ cl_out c = 1%nat.
Proof. by vm_compute. Qed.

End SmsGateway.
