(* ===== verification/SmsQueue.v ===== *)
(** * SmsQueue: the table of text messages, and delivering from it

    Models [src/api/services/sms/dispatch.py], [src/api/models/sms.py], the
    worker's task in [src/api/tasks/sms.py], and the two gateways of
    [src/api/services/sms/], the production one over [SmsGateway.submit].

    The table is a list in insertion order; a row's primary key is its
    position.  Log lines are left out. *)

From Stdlib Require Import ZArith Lia.
From S2P Require Import Prelude Phone SmsGateway.

Module SmsQueue.
Import SmsGateway.

(** ** The table *)

Record message := SmsMessage {
  m_key : string; m_recipient : string; m_body : string; m_purpose : string;
  m_status : sms_status; m_provider : string; m_provider_message_id : string;
  m_submitted_at : option Z; m_delivered_at : option Z; m_attempts : Z;
  m_error_code : string; m_error_message : string; m_raw_dlr : string; m_created_at : Z
}.

Definition TERMINAL_STATUSES : list sms_status := [delivered; failed; rejected; expired].
Definition is_terminal (m : message) : bool := bool_decide (m_status m ∈ TERMINAL_STATUSES).

Notation table := (list message).

(** [SmsMessage.objects.filter(pk=pk).update(...)]. *)
Definition update_row (pk : nat) (f : message → message) : M table unit := modify (alter f pk).

(** [filter(...).first()] under [-created_at]: the newest row satisfying [p]. *)
Fixpoint newest (p : message → bool) (t : table) (i : nat) : option (nat * message) :=
  match t with
  | [] => None
  | m :: t' =>
      match newest p t' (S i) with
      | Some (j, d) =>
          if p m && (m_created_at d <? m_created_at m) then Some (i, m) else Some (j, d)
      | None => if p m then Some (i, m) else None
      end
  end.

(** ** [queue_sms] *)

Definition new_message (key destination text purpose provider : string) (now : Z) : message :=
  SmsMessage key destination text purpose queued provider "" None None 0 "" "" "" now.

Definition has_key (key : string) (m : message) : bool := String.eqb (m_key m) key.

(** [SmsMessage.objects.create]: the new row's position. *)
Definition create (n : message) : M table nat :=
  t ← get;
  if existsb (has_key (m_key n)) t then raise (IntegrityError "sms idempotency_key")
  else put (t ++ [n]) ≫= λ _, mret (length t).

(** [SmsMessage.objects.get(idempotency_key=key)]. *)
Fixpoint index_of_key (key : string) (t : table) (i : nat) : option nat :=
  match t with
  | [] => None
  | m :: t' => if has_key key m then Some i else index_of_key key t' (S i)
  end.

(** [stamp] is what [now().timestamp()] prints. *)
Definition queue_sms (phone_number text purpose key provider stamp : string) (now : Z) : M table nat :=
  match Phone.normalize_ethiopian_phone (Some phone_number) with
  | None => raise (SmsNotQueued ("Not a usable Ethiopian number: " +:+ phone_number))
  | Some destination =>
      if String.eqb text "" then raise (SmsNotQueued "Refusing to queue an empty message.")
      else
        let key := or_str key (or_str purpose "sms" +:+ ":" +:+ destination +:+ ":" +:+ stamp) in
        catch (atomic (create (new_message key destination text purpose provider now)))
          (λ e, match e with
                | IntegrityError _ => Some (
                    t ← get;
                    match index_of_key key t 0 with
                    | Some pk => mret pk
                    | None => raise (DoesNotExist "SmsMessage")
                    end)
                | _ => None
                end)
  end.

(** ** Gateways *)

Inductive gateway := timwe_smpp | console.

Definition gateway_name (g : gateway) : string :=
  match g with timwe_smpp => "timwe_smpp" | console => "console" end.

Definition _build {S} (name : string) : M S gateway :=
  if String.eqb name "timwe_smpp" then mret timwe_smpp
  else if String.eqb name "console" then mret console
  else raise (UnknownSmsProvider "SMS_PROVIDER is not a known gateway.").

Definition get_gateway {S} (sms_provider name : string) : M S gateway :=
  if negb (String.eqb name "") then _build name
  else if String.eqb sms_provider "" then raise (UnknownSmsProvider "SMS_PROVIDER is not set.")
  else _build sms_provider.

(** The settings the worker runs under. *)
Record settings := Settings { sms_provider : string; smpp : smpp_settings }.

(** What the outside makes of one submission. *)
Record net := Net { n_up : link_up; n_sends : list send_result; n_answer : reply; n_uuid : string }.

Section Delivery.
Context (status_name : Z → option string) (cfg : settings).

Definition gateway_submit (g : gateway) (n : net) : M client string :=
  match g with
  | timwe_smpp => submit status_name (smpp cfg) (n_up n) (n_sends n) (n_answer n)
  | console => mret ("console-" +:+ prefix_of 12 (n_uuid n))
  end.

(** ** [deliver] *)

Definition set_failed (provider code detail : string) (m : message) : message :=
  SmsMessage (m_key m) (m_recipient m) (m_body m) (m_purpose m) failed provider
    (m_provider_message_id m) (m_submitted_at m) (m_delivered_at m) (m_attempts m)
    (prefix_of 64 code) (prefix_of 2000 detail) (m_raw_dlr m) (m_created_at m).
Definition set_status (s : sms_status) (m : message) : message :=
  SmsMessage (m_key m) (m_recipient m) (m_body m) (m_purpose m) s (m_provider m)
    (m_provider_message_id m) (m_submitted_at m) (m_delivered_at m) (m_attempts m)
    (m_error_code m) (m_error_message m) (m_raw_dlr m) (m_created_at m).
Definition set_attempts (n : Z) (m : message) : message :=
  SmsMessage (m_key m) (m_recipient m) (m_body m) (m_purpose m) (m_status m) (m_provider m)
    (m_provider_message_id m) (m_submitted_at m) (m_delivered_at m) n
    (m_error_code m) (m_error_message m) (m_raw_dlr m) (m_created_at m).
Definition set_uncertain (provider detail : string) (now : Z) (m : message) : message :=
  SmsMessage (m_key m) (m_recipient m) (m_body m) (m_purpose m) failed provider
    (m_provider_message_id m) (Some now) (m_delivered_at m) (m_attempts m)
    "uncertain" (prefix_of 2000 detail) (m_raw_dlr m) (m_created_at m).
Definition set_submitted (provider id : string) (now : Z) (m : message) : message :=
  SmsMessage (m_key m) (m_recipient m) (m_body m) (m_purpose m) submitted provider
    id (Some now) (m_delivered_at m) (m_attempts m) "" "" (m_raw_dlr m) (m_created_at m).

Definition _fail (pk : nat) (provider code detail : string) : M table unit :=
  update_row pk (set_failed provider code detail).

(** Up to the submission: either nothing is to be sent, with the status
    reported, or the gateway to send through. *)
Definition deliver_open (pk : nat) : M table (option sms_status + gateway) :=
  t ← get;
  match t !! pk with
  | None => mret (inl None)
  | Some message =>
      if is_terminal message then mret (inl (Some (m_status message)))
      else if m_submitted_at message then mret (inl (Some (m_status message)))
      else
        g ← get_gateway (sms_provider cfg) (m_provider message);
        update_row pk (set_attempts (m_attempts message + 1)) ≫= λ _,
        mret (inr g)
  end.

(** What the gateway answered, or raised, recorded. *)
Definition deliver_finish (pk : nat) (g : gateway) (r : exn + string) (now : Z)
    : M table (option sms_status) :=
  let name := gateway_name g in
  match r with
  | inr id => update_row pk (set_submitted name id now) ≫= λ _, mret (Some submitted)
  | inl (SmppError cls msg label as e) =>
      if String.eqb cls "SmppNotConfigured" then
        _fail pk name "not_configured" msg ≫= λ _, mret (Some queued)
      else if String.eqb cls "SmppSubmitRejected" then
        _fail pk name label msg ≫= λ _, update_row pk (set_status rejected) ≫= λ _, mret (Some queued)
      else if String.eqb cls "SmppSubmitUncertain" then
        update_row pk (set_uncertain name msg now) ≫= λ _, mret (Some failed)
      else if String.eqb cls "SmppConnectionError" then
        _fail pk name "connection" msg ≫= λ _, raise e
      else raise e
  | inl e => raise e
  end.

(** The table and the process's one connection. *)
Record store := Store { s_table : table; s_client : client }.

Definition on_table {A} : M table A → M store A := zoom s_table (λ t s, Store t (s_client s)).
Definition on_client {A} : M client A → M store A := zoom s_client (λ c s, Store (s_table s) c).

(** A call whose exception is a value. *)
Definition attempt {S A} (m : M S A) : M S (exn + A) := λ s, let '(r, s') := m s in (inr r, s').

Definition deliver (pk : nat) (n : net) (now : Z) : M store (option sms_status) :=
  o ← on_table (deliver_open pk);
  match o with
  | inl status => mret status
  | inr g => r ← attempt (on_client (gateway_submit g n)); on_table (deliver_finish pk g r now)
  end.

(** ** [deliver_sms] *)

Definition MAX_RETRIES : Z := 5.
Definition RETRY_BACKOFF_SECONDS : Z := 10.

(** [self.retry] raises again the error it was given once the retries are
    used up. *)
Inductive task_end := Finished (status : option sms_status) | Retry (countdown : Z) | Raised (e : exn).

Definition is_connection_error (e : exn) : bool :=
  match e with SmppError cls _ _ => String.eqb cls "SmppConnectionError" | _ => false end.

Definition deliver_sms (pk : nat) (retries : Z) (n : net) (now : Z) (s : store) : task_end * store :=
  match deliver pk n now s with
  | (inr status, s') => (Finished status, s')
  | (inl e, s') =>
      if is_connection_error e && (retries <? MAX_RETRIES)
      then (Retry (RETRY_BACKOFF_SECONDS * 2 ^ retries), s') else (Raised e, s')
  end.

(** ** Delivery receipts *)

Definition set_raw (raw : string) (m : message) : message :=
  SmsMessage (m_key m) (m_recipient m) (m_body m) (m_purpose m) (m_status m) (m_provider m)
    (m_provider_message_id m) (m_submitted_at m) (m_delivered_at m) (m_attempts m)
    (m_error_code m) (m_error_message m) raw (m_created_at m).
Definition set_receipt (s : sms_status) (raw code : string) (now : Z) (m : message) : message :=
  SmsMessage (m_key m) (m_recipient m) (m_body m) (m_purpose m) s (m_provider m)
    (m_provider_message_id m) (m_submitted_at m)
    (if bool_decide (s = delivered) then Some now else m_delivered_at m) (m_attempts m)
    code (m_error_message m) raw (m_created_at m).

Definition record_delivery_receipt (r : receipt) (now : Z) : M table (option nat) :=
  if String.eqb (r_message_id r) "" then mret None
  else
    t ← get;
    match newest (λ m, String.eqb (m_provider_message_id m) (r_message_id r)) t 0 with
    | None => mret None
    | Some (pk, _) =>
        match receipt_status r with
        | None => update_row pk (set_raw (prefix_of 2000 (r_raw r))) ≫= λ _, mret (Some pk)
        | Some s =>
            update_row pk (set_receipt s (prefix_of 2000 (r_raw r)) (prefix_of 64 (r_error_code r)) now)
            ≫= λ _, mret (Some pk)
        end
    end.

(** ** Whatever the workers do

    [w_out], not in the code, has a message once for every submission that
    may have handed any part of it to the gateway. *)

Record world := World { w_store : store; w_out : list nat }.

Inductive event :=
| Queue (phone text purpose key provider stamp : string) (now : Z)
| Run (pk : nat) (retries : Z) (n : net) (now : Z)
    (** a run of the task, its first or a retry, or a duplicate of either *)
| Dlr (r : receipt) (now : Z)
| Die (pk : nat) (n : net).
    (** the worker is lost between the submission and recording it *)

(** [pk] once more, when parts went out between [c] and [c']. *)
Definition sent_from (pk : nat) (c c' : client) (out : list nat) : list nat :=
  if (cl_out c <? cl_out c')%nat then out ++ [pk] else out.

(** The part of [deliver] that ran when the worker was lost. *)
Definition deliver_cut (pk : nat) (n : net) : M store unit :=
  o ← on_table (deliver_open pk);
  match o with
  | inl _ => mret tt
  | inr g => attempt (on_client (gateway_submit g n)) ≫= λ _, mret tt
  end.

Definition exec (e : event) (w : world) : world :=
  let s := w_store w in
  match e with
  | Queue phone text purpose key provider stamp now =>
      World (on_table (queue_sms phone text purpose key provider stamp now) s).2 (w_out w)
  | Run pk retries n now =>
      let s' := (deliver_sms pk retries n now s).2 in
      World s' (sent_from pk (s_client s) (s_client s') (w_out w))
  | Dlr r now => World (on_table (record_delivery_receipt r now) s).2 (w_out w)
  | Die pk n =>
      let s' := (deliver_cut pk n s).2 in
      World s' (sent_from pk (s_client s) (s_client s') (w_out w))
  end.

Fixpoint run (es : list event) (w : world) : world :=
  match es with [] => w | e :: es' => run es' (exec e w) end.

Definition fresh_world : world := World (Store [] (SmppClient false false 0 0 0)) [].

(** No worker is lost at that moment. *)
Definition survives (e : event) : bool := match e with Die _ _ => false | _ => true end.

(** [deliver] will not submit this row. *)
Definition settled (m : message) : bool := is_terminal m || bool_decide (is_Some (m_submitted_at m)).

(** A receipt may name this row. *)
Definition matched (m : message) : bool := negb (String.eqb (m_provider_message_id m) "").

Record world_ok (w : world) : Prop := WorldOk {
  ok_keys : NoDup (m_key <$> s_table (w_store w));
  ok_matched : ∀ pk m, s_table (w_store w) !! pk = Some m → matched m = true → m_submitted_at m ≠ None;
  ok_once : NoDup (w_out w);
  ok_settled : ∀ pk, pk ∈ w_out w → ∃ m, s_table (w_store w) !! pk = Some m ∧ settled m = true
}.

(** ** Delivering, as a function of the row *)

(** The row after [deliver_finish]. *)
Definition closed (g : gateway) (r : exn + string) (now : Z) (m : message) : message :=
  let name := gateway_name g in
  match r with
  | inr id => set_submitted name id now m
  | inl (SmppError cls msg label) =>
      if String.eqb cls "SmppNotConfigured" then set_failed name "not_configured" msg m
      else if String.eqb cls "SmppSubmitRejected" then set_status rejected (set_failed name label msg m)
      else if String.eqb cls "SmppSubmitUncertain" then set_uncertain name msg now m
      else if String.eqb cls "SmppConnectionError" then set_failed name "connection" msg m
      else m
  | inl _ => m
  end.

Lemma alter_row_id (t : table) pk : alter (λ m, m) pk t = t.
Proof. apply list_eq. intros i. rewrite list_lookup_alter. case_decide; [subst; by destruct (t !! i)|done]. Qed.

Lemma alter_twice {A} (f g : A → A) pk (t : list A) : alter f pk (alter g pk t) = alter (λ m, f (g m)) pk t.
Proof.
  apply list_eq. intros i. rewrite !list_lookup_alter. case_decide as Hi; [|done].
  rewrite decide_True by done. by destruct (t !! pk).
Qed.

(** What [deliver_finish] returns or raises. *)
Definition reported (r : exn + string) : exn + option sms_status :=
  match r with
  | inr _ => inr (Some submitted)
  | inl (SmppError cls _ _ as e) =>
      if String.eqb cls "SmppNotConfigured" then inr (Some queued)
      else if String.eqb cls "SmppSubmitRejected" then inr (Some queued)
      else if String.eqb cls "SmppSubmitUncertain" then inr (Some failed)
      else inl e
  | inl e => inl e
  end.

Lemma finish_run pk g r now t :
  deliver_finish pk g r now t = (reported r, alter (closed g r now) pk t).
Proof.
  unfold deliver_finish, closed, reported, _fail. destruct r as [e|id]; [|done].
  destruct e; try by rewrite alter_row_id.
  repeat case_match; try done; [|by rewrite alter_row_id].
  unfold update_row. rewrite !bind_run. cbn [modify]. rewrite bind_run. cbn [modify mret M_ret].
  by rewrite alter_twice.
Qed.

Lemma get_gateway_reads {S} a b (s : S) : (get_gateway a b s).2 = s.
Proof. unfold get_gateway, _build. by repeat case_match. Qed.

Lemma open_run pk t :
  deliver_open pk t =
  match t !! pk with
  | None => (inr (inl None), t)
  | Some m =>
      if settled m then (inr (inl (Some (m_status m))), t)
      else match (get_gateway (sms_provider cfg) (m_provider m) t).1 with
           | inl e => (inl e, t)
           | inr g => (inr (inr g), alter (set_attempts (m_attempts m + 1)) pk t)
           end
  end.
Proof.
  unfold deliver_open. rewrite bind_run. cbn [get]. destruct (t !! pk) as [m|]; [|done].
  unfold settled. destruct (is_terminal m); [done|]. destruct (m_submitted_at m); [done|].
  rewrite bind_run. pose proof (get_gateway_reads (sms_provider cfg) (m_provider m) t) as Hr.
  destruct (get_gateway _ _ t) as [[e|g] t1]; cbn in *; by subst.
Qed.

(** What a row becomes when it is submitted through [g], the client then
    answering [r]. *)
Definition submitted_row (g : gateway) (r : exn + string) (now : Z) (m : message) : message :=
  closed g r now (set_attempts (m_attempts m + 1) m).

Lemma alter_at {A} (f g : A → A) pk (t : list A) m :
  t !! pk = Some m → f m = g m → alter f pk t = alter g pk t.
Proof.
  intros Hm Hf. apply list_eq. intros i. rewrite !list_lookup_alter.
  case_decide as Hi; [|done]. subst. by rewrite Hm; cbn; rewrite Hf.
Qed.

Lemma deliver_run pk n now t c :
  deliver pk n now (Store t c) =
  match t !! pk with
  | None => (inr None, Store t c)
  | Some m =>
      if settled m then (inr (Some (m_status m)), Store t c)
      else match (get_gateway (sms_provider cfg) (m_provider m) t).1 with
           | inl e => (inl e, Store t c)
           | inr g => let '(r, c') := gateway_submit g n c in
                      (reported r, Store (alter (submitted_row g r now) pk t) c')
           end
  end.
Proof.
  unfold deliver. rewrite bind_run. unfold on_table at 1. rewrite zoom_run, open_run. cbn [s_table s_client].
  destruct (t !! pk) as [m|] eqn:Hm; [|done]. destruct (settled m); [done|].
  destruct (get_gateway _ _ t).1 as [e|g]; [done|]. cbn [fst snd]. rewrite bind_run.
  unfold attempt, on_client. rewrite zoom_run. cbn [s_table s_client].
  destruct (gateway_submit g n c) as [r c']. cbn [fst snd].
  unfold on_table. rewrite zoom_run. cbn [s_table s_client]. rewrite finish_run. cbn [fst snd]. do 2 f_equal.
  rewrite alter_twice. by apply (alter_at _ _ _ _ m).
Qed.

Lemma deliver_sms_store pk retries n now s :
  (deliver_sms pk retries n now s).2 = (deliver pk n now s).2.
Proof. unfold deliver_sms. destruct (deliver pk n now s) as [[e|o] s']; [by case_match|done]. Qed.

(** The gateways raise nothing but the classes of [errors.py]. *)
Lemma gateway_classes g n c :
  match (gateway_submit g n c).1 with
  | inl (SmppError cls _ _) =>
      cls ∈ ["SmppNotConfigured"; "SmppConnectionError"; "SmppSubmitRejected"; "SmppSubmitUncertain"]
  | inl _ => False
  | inr _ => True
  end.
Proof.
  destruct g; [|done]. cbn [gateway_submit].
  pose proof (submit_ends status_name (smpp cfg) (n_up n) (n_sends n) (n_answer n) c) as H.
  destruct (submit _ _ _ _ _ c) as [[e|id] c']; [|done]. destruct e; try done. cbn [fst].
  rewrite !elem_of_cons. tauto.
Qed.

Lemma submitted_row_settled g n c now m :
  settled (submitted_row g (gateway_submit g n c).1 now m) = true.
Proof.
  pose proof (gateway_classes g n c) as H. unfold submitted_row, closed.
  destruct (gateway_submit g n c).1 as [e|id]; [|reflexivity].
  destruct e; try done. rewrite !elem_of_cons, elem_of_nil in H.
  by destruct H as [->|[->|[->|[->|[]]]]].
Qed.

Lemma submitted_row_keeps g r now m :
  m_key (submitted_row g r now m) = m_key m ∧
  (m_submitted_at m ≠ None ∨ matched m = false →
   matched (submitted_row g r now m) = true → m_submitted_at (submitted_row g r now m) ≠ None).
Proof.
  unfold submitted_row, closed, matched. destruct r as [e|id]; [destruct e|]; repeat case_match; cbn;
    (split; [done|]; intros [?|?] ?; congruence).
Qed.

(** ** What every event keeps *)

Lemma queue_cases phone text purpose key provider stamp now t :
  match queue_sms phone text purpose key provider stamp now t with
  | (inl (SmsNotQueued _), t') =>
      t' = t ∧ (Phone.normalize_ethiopian_phone (Some phone) = None ∨ text = "")
  | (inl _, _) => False
  | (inr pk, t') => ∃ destination,
      Phone.normalize_ethiopian_phone (Some phone) = Some destination ∧ text ≠ "" ∧
      let k := or_str key (or_str purpose "sms" +:+ ":" +:+ destination +:+ ":" +:+ stamp) in
      (t' = t ∧ ∃ m, t !! pk = Some m ∧ m_key m = k)
      ∨ pk = length t ∧ t' = t ++ [new_message k destination text purpose provider now] ∧ k ∉ (m_key <$> t)
  end.
Proof.
  unfold queue_sms. destruct (Phone.normalize_ethiopian_phone _) as [d|] eqn:Hd; [|by split; [|left]].
  destruct (String.eqb_spec text ""); [by split; [|right]|].
  set (k := or_str key _). unfold catch, atomic, create. rewrite bind_run. cbn [get m_key new_message].
  destruct (existsb (has_key k) t) eqn:E; cbn [raise].
  - rewrite bind_run. cbn [get].
    assert (∀ i, ∃ j m, index_of_key k t i = Some (i + j)%nat ∧ t !! j = Some m ∧ m_key m = k) as H.
    { clear -E. induction t as [|m t IH]; [done|]. cbn in *. intros i.
      destruct (has_key k m) eqn:Hm.
      - exists 0%nat, m. split_and!; [by rewrite Nat.add_0_r|done|by apply String.eqb_eq].
      - destruct (IH E (S i)) as (j & m' & -> & Hj & Hk). exists (S j), m'. split_and!; [f_equal; lia|done|done]. }
    destruct (H 0%nat) as (j & m & -> & Hj & Hk). exists d. split_and!; [done|done|]. left. eauto.
  - rewrite bind_run. cbn [put mret M_ret]. exists d. split_and!; [done|done|]. right. split_and!; [done|done|].
    intros Hk. apply list_elem_of_fmap in Hk as (m & Hm & Hin). apply not_true_iff_false in E. apply E.
    apply existsb_exists. exists m. split; [by apply list_elem_of_In|]. unfold has_key. rewrite <- Hm. apply String.eqb_refl.
Qed.

Lemma newest_spec p t i pk m : newest p t i = Some (pk, m) → ∃ j, pk = (i + j)%nat ∧ t !! j = Some m ∧ p m = true.
Proof.
  revert i. induction t as [|x t IH]; intros i; [done|]. cbn [newest].
  assert (p x = true → Some (i, x) = Some (pk, m) → ∃ j, pk = (i + j)%nat ∧ (x :: t) !! j = Some m ∧ p m = true) as Hhd.
  { intros Hp [= <- <-]. exists 0%nat. split_and!; [lia|done|done]. }
  destruct (newest p t (S i)) as [[k d]|] eqn:E.
  - destruct (p x && _) eqn:Hx.
    + apply andb_true_iff in Hx as [Hx _]. by apply Hhd.
    + intros [= -> ->]. destruct (IH _ E) as (j & -> & Hj & Hp). exists (S j). split_and!; [lia|done|done].
  - destruct (p x); [by apply Hhd|done].
Qed.

(** A receipt changes one row at most, one that carries the id it names. *)
Lemma dlr_table r now t :
  let t' := (record_delivery_receipt r now t).2 in
  t' = t ∨ ∃ pk m f, t !! pk = Some m ∧ matched m = true ∧ t' = alter f pk t ∧
           m_key (f m) = m_key m ∧ m_submitted_at (f m) = m_submitted_at m
           ∧ m_provider_message_id (f m) = m_provider_message_id m.
Proof.
  cbn. unfold record_delivery_receipt. destruct (String.eqb_spec (r_message_id r) "") as [|Hid]; [by left|].
  rewrite bind_run. cbn [get]. destruct (newest _ t 0) as [[pk m]|] eqn:E; [|by left].
  apply newest_spec in E as (j & -> & Hj & Hp). right. cbn [plus]. apply String.eqb_eq in Hp.
  assert (matched m = true) as Hm by (unfold matched; destruct (String.eqb_spec (m_provider_message_id m) ""); [congruence|done]).
  destruct (receipt_status r); rewrite bind_run; cbn; do 3 eexists; split_and!; eauto; done.
Qed.

(** Changing one row in place, keeping its key, and never forgetting that it
    was submitted. *)
Lemma world_ok_alter w f pk m c out :
  world_ok w → s_table (w_store w) !! pk = Some m →
  m_key (f m) = m_key m →
  (matched (f m) = true → m_submitted_at (f m) ≠ None) →
  (settled m = true → settled (f m) = true) →
  (out = w_out w ∨ out = w_out w ++ [pk] ∧ settled m = false ∧ settled (f m) = true) →
  world_ok (World (Store (alter f pk (s_table (w_store w))) c) out).
Proof.
  intros [Hk Hma Ho Hs] Hm Hkey Hsub Hset Hout.
  assert (∀ i x, alter f pk (s_table (w_store w)) !! i = Some x →
            i = pk ∧ x = f m ∨ i ≠ pk ∧ s_table (w_store w) !! i = Some x) as Hlook.
  { intros i x. rewrite list_lookup_alter. case_decide as Hi; [|naive_solver].
    subst. rewrite Hm. intros [= <-]. by left. }
  assert (alter f pk (s_table (w_store w)) !! pk = Some (f m)) as Hpk
    by (rewrite list_lookup_alter, decide_True, Hm by done; done).
  constructor; cbn [w_store w_out s_table].
  - replace (m_key <$> _) with (m_key <$> s_table (w_store w)); [done|]. apply list_eq. intros i.
    rewrite !list_lookup_fmap, list_lookup_alter. case_decide; [|done]. subst. rewrite Hm. cbn. by rewrite Hkey.
  - intros i x [[-> ->]|[_ Hx]]%Hlook; [done|]. by apply (Hma i).
  - destruct Hout as [->|(-> & Hm' & _)]; [done|]. apply NoDup_app. split_and!; [done| |apply NoDup_singleton].
    intros i Hi ->%list_elem_of_singleton. destruct (Hs pk Hi) as (x & Hx & Hxs). congruence.
  - intros i Hi. assert (i = pk ∧ settled (f m) = true ∨ i ∈ w_out w) as [[-> Hf]|Hin].
    { destruct Hout as [->|(-> & _ & Hf)]; [by right|]. apply elem_of_app in Hi as [Hi|Hi]; [by right|].
      apply list_elem_of_singleton in Hi as ->. by left. }
    { by exists (f m). }
    destruct (Hs i Hin) as (x & Hx & Hxs). destruct (decide (i = pk)) as [->|Hne].
    + exists (f m). split; [done|]. apply Hset. congruence.
    + exists x. split; [|done]. by rewrite list_lookup_alter, decide_False by done.
Qed.

Lemma sent_from_cases pk c c' out :
  sent_from pk c c' out = out ∨ sent_from pk c c' out = out ++ [pk].
Proof. unfold sent_from. case_match; auto. Qed.

Lemma queue_exec_ok e w : survives e = true → world_ok w → world_ok (exec e w).
Proof.
  destruct w as [[t c] out]. intros Hs Hw. destruct e as [phone text purpose key provider stamp now|pk retries n now|r now|];
    [| | |done]; cbn [exec w_store w_out].
  - unfold on_table. rewrite zoom_run. cbn [s_table s_client snd].
    pose proof (queue_cases phone text purpose key provider stamp now t) as H.
    destruct (queue_sms _ _ _ _ _ _ _ t) as [[e|pk] t']; cbn [snd].
    { destruct e; try done. destruct H as [-> _]. exact Hw. }
    destruct H as (d & _ & _ & [[-> _]|(_ & -> & Hk)]); [exact Hw|].
    destruct Hw as [H1 H2 H3 H4]. cbn [w_store w_out s_table] in *. constructor; cbn [w_store w_out s_table].
    + rewrite fmap_app. apply NoDup_app. split_and!; [done| |apply NoDup_singleton].
      intros x Hx ->%list_elem_of_singleton. done.
    + intros pk' m [Hm|(_ & Hm)]%lookup_app_Some; [by apply (H2 pk')|].
      apply list_lookup_singleton_Some in Hm as [_ <-]. done.
    + done.
    + intros pk' Hin. destruct (H4 pk' Hin) as (m & Hm & Hset). exists m. split; [|done]. by apply lookup_app_l_Some.
  - rewrite deliver_sms_store, deliver_run.
    assert (world_ok (World (Store t c) (sent_from pk c c out))) as Hsame.
    { unfold sent_from. by rewrite Nat.ltb_irrefl. }
    destruct (t !! pk) as [m|] eqn:Hm; [|done]. destruct (settled m) eqn:Hset; [done|].
    destruct (get_gateway _ _ t).1 as [e|g]; [done|].
    pose proof (submitted_row_settled g n c now m) as Hrow.
    destruct (gateway_submit g n c) as [r c']. cbn [fst snd s_client] in *.
    pose proof (submitted_row_keeps g r now m) as [Hkey Hsub].
    apply (world_ok_alter _ (submitted_row g r now) pk m c' (sent_from pk c c' out) Hw Hm Hkey).
    + apply Hsub. destruct (matched m) eqn:Hma; [left; by apply (ok_matched _ Hw pk)|by right].
    + congruence.
    + destruct (sent_from_cases pk c c' out) as [->| ->]; auto.
  - unfold on_table. rewrite zoom_run. cbn [s_table s_client snd].
    destruct (dlr_table r now t) as [->|(pk & m & f & Hm & Hma & -> & Hk & Hsa & Hid)]; [exact Hw|].
    pose proof (ok_matched _ Hw pk m Hm Hma) as Hsub.
    apply (world_ok_alter _ f pk m c out Hw Hm Hk); [by rewrite Hsa| |by left].
    intros _. unfold settled. rewrite Hsa, orb_true_iff, bool_decide_eq_true. right.
    destruct (m_submitted_at m); [by eexists|done].
Qed.

Lemma queue_run_ok es w : forallb survives es = true → world_ok w → world_ok (run es w).
Proof.
  revert w. induction es as [|e es IH]; intros w; [done|]. cbn [forallb run].
  intros [He Hes]%andb_true_iff Hw. apply IH; [done|]. by apply queue_exec_ok.
Qed.

Lemma queue_fresh_ok : world_ok fresh_world.
Proof.
  constructor; cbn; [constructor|intros pk m Hm; by rewrite lookup_nil in Hm|constructor|].
  intros pk Hin. by apply elem_of_nil in Hin.
Qed.

(** C18.  Whatever is queued, delivered, run again and reported back, and
    whatever the gateway and the network answer: keys stay unique, and no
    message is handed to the gateway in more than one submission; once any
    part of it went out, its row will not be submitted again.  (No worker is
    lost between the submission and recording it.) *)
Theorem sms_leaves_once es :
  forallb survives es = true →
  let w := run es fresh_world in
  NoDup (m_key <$> s_table (w_store w)) ∧ NoDup (w_out w) ∧
  ∀ pk, pk ∈ w_out w → ∃ m, s_table (w_store w) !! pk = Some m ∧ settled m = true.
Proof. intros H w. destruct (queue_run_ok es _ H queue_fresh_ok) as [H1 H2 H3 H4]. auto. Qed.

(** ** A row that nothing will ever touch again *)

Definition lost (pk : nat) (w : world) : Prop :=
  ∃ m, s_table (w_store w) !! pk = Some m ∧ m_status m = failed ∧ matched m = false.

Lemma failed_settled m : m_status m = failed → settled m = true.
Proof. intros H. unfold settled, is_terminal. by rewrite H. Qed.

Lemma cut_run pk n t c :
  (deliver_cut pk n (Store t c)).2 =
  match t !! pk with
  | None => Store t c
  | Some m =>
      if settled m then Store t c
      else match (get_gateway (sms_provider cfg) (m_provider m) t).1 with
           | inl _ => Store t c
           | inr g => Store (alter (set_attempts (m_attempts m + 1)) pk t) (gateway_submit g n c).2
           end
  end.
Proof.
  unfold deliver_cut. rewrite bind_run. unfold on_table at 1. rewrite zoom_run, open_run. cbn [s_table s_client].
  destruct (t !! pk) as [m|] eqn:Hm; [|done]. destruct (settled m); [done|].
  destruct (get_gateway _ _ t).1 as [e|g]; [done|]. cbn [fst snd]. rewrite bind_run.
  unfold attempt, on_client. rewrite zoom_run. cbn [s_table s_client]. by destruct (gateway_submit g n c).
Qed.

Lemma alter_other {A} (f : A → A) i pk (t : list A) m :
  i ≠ pk → t !! pk = Some m → alter f i t !! pk = Some m.
Proof. intros Hi Hm. by rewrite list_lookup_alter, decide_False by done. Qed.

Lemma sent_from_in pk i c c' out : pk ≠ i → pk ∈ sent_from i c c' out → pk ∈ out.
Proof.
  intros Hi. destruct (sent_from_cases i c c' out) as [->| ->]; [done|].
  intros [H|H]%elem_of_app; [done|]. by apply list_elem_of_singleton in H.
Qed.

Lemma lost_exec e pk w :
  lost pk w → lost pk (exec e w) ∧ (pk ∈ w_out (exec e w) → pk ∈ w_out w).
Proof.
  destruct w as [[t c] out]. intros (m & Hm & Hf & Hma). cbn [w_store s_table] in Hm.
  assert (lost pk (World (Store t c) (sent_from pk c c out)) ∧ (pk ∈ sent_from pk c c out → pk ∈ out)) as Hsame.
  { unfold sent_from. rewrite Nat.ltb_irrefl. split; [by exists m|done]. }
  assert (∀ i f c' o, i ≠ pk → lost pk (World (Store (alter f i t) c') o)) as Hother
    by (intros i f c' o Hi; exists m; split; [by apply alter_other|done]).
  destruct e as [phone text purpose key provider stamp now|i retries n now|r now|i n]; cbn [exec w_store w_out].
  - unfold on_table. rewrite zoom_run. cbn [s_table s_client snd]. split; [|done].
    pose proof (queue_cases phone text purpose key provider stamp now t) as H.
    destruct (queue_sms _ _ _ _ _ _ _ t) as [[e|i] t']; cbn [snd].
    { destruct e; try done. destruct H as [-> _]. by exists m. }
    destruct H as (d & _ & _ & [[-> _]|(_ & -> & _)]); exists m; (split; [|done]); [done|].
    cbn. by apply lookup_app_l_Some.
  - rewrite deliver_sms_store, deliver_run. destruct (decide (i = pk)) as [->|Hi].
    { rewrite Hm, (failed_settled m Hf). exact Hsame. }
    repeat case_match; cbn [snd s_client]; (split; [by apply Hother || by exists m|]); by apply sent_from_in.
  - unfold on_table. rewrite zoom_run. cbn [s_table s_client snd]. split; [|done].
    destruct (dlr_table r now t) as [->|(i & x & f & Hx & Hmx & -> & _)]; [by exists m|].
    apply Hother. intros ->. congruence.
  - rewrite cut_run. destruct (decide (i = pk)) as [->|Hi].
    { rewrite Hm, (failed_settled m Hf). exact Hsame. }
    repeat case_match; cbn [snd s_client]; (split; [by apply Hother || by exists m|]); by apply sent_from_in.
Qed.

Lemma lost_run es pk w : lost pk w → lost pk (run es w) ∧ (pk ∈ w_out (run es w) → pk ∈ w_out w).
Proof.
  revert w. induction es as [|e es IH]; intros w Hw; [done|]. cbn [run].
  destruct (lost_exec e pk w Hw) as [He Ho]. destruct (IH _ He) as [H1 H2]. split; [done|auto].
Qed.

(** Only an unsettled row can raise a connection error, and it leaves with
    its status set to failed and nothing sent. *)
Lemma connection_error_row w pk n now e :
  world_ok w → (deliver pk n now (w_store w)).1 = inl e → is_connection_error e = true →
  ∀ retries, let w' := exec (Run pk retries n now) w in lost pk w' ∧ pk ∉ w_out w'.
Proof.
  destruct w as [[t c] out]. intros Hw He Hc retries. cbn [exec w_store w_out].
  rewrite deliver_sms_store. cbn [w_store] in He. rewrite deliver_run in *.
  destruct (t !! pk) as [m|] eqn:Hm; [|done]. destruct (settled m) eqn:Hset; [done|].
  destruct (get_gateway _ _ t) as [[e0|g] t1] eqn:Hg; cbn [fst] in *.
  { exfalso. injection He as <-. clear -Hg Hc. unfold get_gateway, _build in Hg.
    repeat case_match; unfold raise in Hg; simplify_eq; discriminate. }
  assert (pk ∉ out) as Hout.
  { intros Hin. destruct (ok_settled _ Hw pk Hin) as (x & Hx & Hs). cbn in Hx. congruence. }
  assert (matched m = false) as Hma.
  { apply not_true_is_false. intros Hma. pose proof (ok_matched _ Hw pk m Hm Hma) as Hs.
    unfold settled in Hset. apply orb_false_iff in Hset as [_ Hset%bool_decide_eq_false].
    apply Hset. destruct (m_submitted_at m); [by eexists|done]. }
  destruct (gateway_submit g n c) as [r c'] eqn:Hr. cbn [fst] in He.
  destruct r as [e1|id]; [|done].
  assert (e1 = e ∧ ∃ msg label, e = SmppError "SmppConnectionError" msg label) as (-> & msg & label & ->).
  { assert (reported (inl e1) = inl e → e1 = e) as Heq.
    { unfold reported. destruct e1; try congruence. repeat case_match; congruence. }
    rewrite (Heq He). split; [done|]. destruct e; try done. cbn in Hc. apply String.eqb_eq in Hc as ->. eauto. }
  cbn [snd s_client]. split.
  - eexists. split; [cbn; by rewrite list_lookup_alter, decide_True, Hm by done|]. done.
  - unfold sent_from. destruct (Nat.ltb_spec (cl_out c) (cl_out c')) as [Hlt|]; [|done]. exfalso.
    destruct g; [|done]. cbn [gateway_submit] in Hr.
    pose proof (submit_ends status_name (smpp cfg) (n_up n) (n_sends n) (n_answer n) c) as Hends.
    rewrite Hr in Hends. destruct Hends as [[[[=] _]|[_ ?]]|[[=]|[=]]]; lia.
Qed.

(** A delivery that fails to connect has sent nothing, and the task asks
    to be retried; but the row is now FAILED, which [deliver] takes for final:
    whatever happens afterwards -- the retries included -- the message is
    never handed to the gateway and stays FAILED. *)
Theorem connection_error_is_final es es' pk retries n now e :
  forallb survives es = true →
  let w := run es fresh_world in
  (deliver pk n now (w_store w)).1 = inl e → is_connection_error e = true → retries < MAX_RETRIES →
  (deliver_sms pk retries n now (w_store w)).1 = Retry (RETRY_BACKOFF_SECONDS * 2 ^ retries) ∧
  let w' := run es' (exec (Run pk retries n now) w) in
  pk ∉ w_out w' ∧ ∃ m, s_table (w_store w') !! pk = Some m ∧ m_status m = failed.
Proof.
  intros Hs w He Hc Hr. split.
  - unfold deliver_sms. destruct (deliver pk n now (w_store w)) as [r s'] eqn:E. cbn [fst] in He. subst r.
    rewrite Hc. by assert ((retries <? MAX_RETRIES) = true) as -> by (apply Z.ltb_lt; lia).
  - destruct (connection_error_row w pk n now e (queue_run_ok es _ Hs queue_fresh_ok) He Hc retries) as [Hl Ho].
    destruct (lost_run es' pk _ Hl) as [(m & Hm & Hf & _) Hout]. split; [auto|]. by exists m.
Qed.

End Delivery.

(** ** Concrete runs *)

Definition a_setting : settings := Settings "timwe_smpp" (SmppSettings "smpp.timwe" 2775 "flip" "pw").
Definition no_names : Z → option string := λ _, None.
Definition taken : net := Net Linked [Sent (Some 1)] (MessageId "m-1") "".
Definition silent : net := Net Linked [Sent (Some 1)] Unanswered "".
Definition refused_link : net := Net (ConnectFails "timed out") [Sent (Some 1)] Unanswered "".
Definition one_queued : event := Queue "0912345678" "Your code is 123456" "otp" "otp:1" "" "0" 0.
Definition receipt_for (stat : string) : receipt :=
  parse_receipt_text (receipt_text "m-1" "001" "001" "2609091200" "2609091205" stat "000" "Your code").

Lemma sms_leaves_once_witness :
  let w := run no_names a_setting
             [one_queued; Run 0 0 taken 1; one_queued; Run 0 0 taken 2; Dlr (receipt_for "DELIVRD") 3;
              Queue "0911111111" "Hi" "" "" "" "7" 7; Run 1 0 silent 8; Run 1 0 taken 9] fresh_world in
  w_out w = [0; 1]%nat ∧ (m_status <$> s_table (w_store w)) = [delivered; failed] ∧
  NoDup (m_key <$> s_table (w_store w)) ∧ NoDup (w_out w) ∧
  ∀ pk, pk ∈ w_out w → ∃ m, s_table (w_store w) !! pk = Some m ∧ settled m = true.
Proof.
  intros w. split; [reflexivity|]. split; [vm_compute; reflexivity|].
  apply (sms_leaves_once no_names a_setting). reflexivity.
Defined.

Lemma connection_error_is_final_witness :
  let w := run no_names a_setting [one_queued] fresh_world in
  (deliver_sms no_names a_setting 0 0 refused_link 1 (w_store w)).1 = Retry 10 ∧
  let w' := run no_names a_setting [Run 0 1 taken 11; Run 0 2 taken 31; one_queued; Run 0 0 taken 40]
              (exec no_names a_setting (Run 0 0 refused_link 1) w) in
  0%nat ∉ w_out w' ∧ ∃ m, s_table (w_store w') !! 0%nat = Some m ∧ m_status m = failed.
Proof.
  apply (connection_error_is_final no_names a_setting [one_queued] _ 0 0 refused_link 1
           (SmppError "SmppConnectionError" "Could not connect: timed out" ""));
    vm_compute; reflexivity.
Defined.

(** A worker lost after the gateway took the message: the task runs again and
    the message goes out twice, [submitted_at] being written last. *)
Example lost_worker_sends_twice :
  w_out (run no_names a_setting [one_queued; Die 0 taken; Run 0 0 taken 1] fresh_world) = [0; 0]%nat.
Proof. by vm_compute. Qed.

(** A late or repeated receipt moves a row out of a final status. *)
Example final_is_not_final :
  let statuses es := m_status <$> s_table (w_store (run no_names a_setting (one_queued :: Run 0 0 taken 1 :: es) fresh_world)) in
  statuses [Dlr (receipt_for "DELIVRD") 2] = [delivered] ∧
  statuses [Dlr (receipt_for "DELIVRD") 2; Dlr (receipt_for "ACCEPTD") 3] = [submitted] ∧
  statuses [Dlr (receipt_for "DELIVRD") 2; Dlr (receipt_for "UNDELIV") 3] = [failed].
Proof. by vm_compute. Qed.

End SmsQueue.
