(* ===== verification/Cache.v ===== *)
(** * Cache: what the code expects of [django.core.cache]

    The cache is a service outside the repository.  [Cache] lists the calls
    the services make and [CacheLaws] the documented behaviour they rely on:
    an entry is there until its timeout and not after it; [add] writes only
    when there is none; [incr] changes the number and not the timeout, and
    raises when there is nothing to change.  The map of entries with their
    expiries satisfies them. *)

From Stdlib Require Import ZArith Lia.
From S2P Require Import Prelude.

Module Cache.

(** The values the services keep: a number, a text, and a login code's
    entry. *)
Inductive value :=
| VInt (n : Z)
| VText (s : string)
| VCode (code : string) (expires_at attempts : Z).

Class Cache (C : Type) := {
  cache_get : C → Z → string → option value;
  cache_set : C → Z → string → value → Z → C;
  cache_add : C → Z → string → value → Z → C;
  cache_delete : C → Z → string → C;
  cache_incr : C → Z → string → option C
}.

Class CacheLaws (C : Type) `{Cache C} : Prop := {
  get_set c t k v d t' : t <= t' →
    cache_get (cache_set c t k v d) t' k = if t' <? t + d then Some v else None;
  get_set_ne c t k v d t' k' : k ≠ k' →
    cache_get (cache_set c t k v d) t' k' = cache_get c t' k';
  add_is c t k v d :
    cache_add c t k v d = match cache_get c t k with Some _ => c | None => cache_set c t k v d end;
  get_delete c t k t' : cache_get (cache_delete c t k) t' k = None;
  get_delete_ne c t k t' k' : k ≠ k' → cache_get (cache_delete c t k) t' k' = cache_get c t' k';
  incr_absent c t k : cache_get c t k = None → cache_incr c t k = None;
  incr_present c t k n : cache_get c t k = Some (VInt n) → ∃ c', cache_incr c t k = Some c' ∧
    (∀ t', cache_get c' t' k = match cache_get c t' k with Some _ => Some (VInt (n + 1)) | None => None end) ∧
    (∀ t' k', k ≠ k' → cache_get c' t' k' = cache_get c t' k');
  get_gone c t k t' : t <= t' → cache_get c t k = None → cache_get c t' k = None;
  get_same c t k t' v : cache_get c t' k = Some v → t <= t' → cache_get c t k = Some v
}.

(** Keys that share a prefix differ in the rest. *)
Lemma string_app_inv (a b c : string) : a +:+ b = a +:+ c → b = c.
Proof.
  induction a as [|x a IH]; [done|]. intros E. apply IH. by injection E.
Qed.

(** ** A cache: entries with the instant they expire *)

Notation entries := (gmap string (value * Z)).

Definition live (t : Z) (e : option (value * Z)) : option value :=
  match e with Some (v, x) => if t <? x then Some v else None | None => None end.

#[global] Instance entries_cache : Cache entries := {
  cache_get c t k := live t (c !! k);
  cache_set c t k v d := <[k := (v, t + d)]> c;
  cache_add c t k v d :=
    match live t (c !! k) with Some _ => c | None => <[k := (v, t + d)]> c end;
  cache_delete c t k := delete k c;
  cache_incr c t k :=
    match c !! k with
    | Some (VInt n, x) => if t <? x then Some (<[k := (VInt (n + 1), x)]> c) else None
    | _ => None
    end
}.

#[global] Instance entries_laws : CacheLaws entries.
Proof.
  constructor; unfold cache_get, cache_set, cache_add, cache_delete, cache_incr, entries_cache.
  - intros c t k v d t' _. by rewrite lookup_insert_eq.
  - intros c t k v d t' k' Hk. by rewrite lookup_insert_ne.
  - done.
  - intros c t k t'. by rewrite lookup_delete_eq.
  - intros c t k t' k' Hk. by rewrite lookup_delete_ne.
  - intros c t k. destruct (c !! k) as [[[n| |] x]|]; try done. cbn. by destruct (t <? x).
  - intros c t k n. destruct (c !! k) as [[v x]|] eqn:E; [|done]. cbn. destruct (t <? x) eqn:Hx; [|done].
    intros [= ->]. eexists. split; [done|]. split.
    + intros t'. rewrite lookup_insert_eq. cbn. by destruct (t' <? x).
    + intros t' k' Hk. by rewrite lookup_insert_ne.
  - intros c t k t' Ht. destruct (c !! k) as [[v x]|]; [|done]. cbn.
    destruct (Z.ltb_spec t x), (Z.ltb_spec t' x); try done; lia.
  - intros c t k t' v. destruct (c !! k) as [[w x]|]; [|done]. cbn.
    destruct (Z.ltb_spec t x), (Z.ltb_spec t' x); try done; lia.
Qed.

End Cache.
