(* ===== verification/PaymentOtp.v ===== *)
(** * PaymentOtp: the SMS code that stands before a USSD push

    Models [src/api/services/payment_otp.py] and the table
    [PaymentVerificationSession] of [src/api/models/payment_verification.py],
    with the two endpoints of [src/api/views/payment_verification.py].

    [request_otp] is three steps -- [request_open] reads and refuses,
    [request_save] writes the whole row back, [request_send] queues the
    message -- since nothing holds a lock between them; [request_otp] is their
    composition.  [verify_otp] holds the row's lock and
    [consume_verified_session] is one UPDATE, so each is one step.

    SHA-256 and Django's password hashes are parameters, and so is the cache
    ([Cache]). *)

From Stdlib Require Import ZArith Lia.
From S2P Require Import Prelude Phone SmsGateway SmsQueue Cache.

Module PaymentOtp.
Import Cache.

(** ** The table *)

Inductive vstatus := pending | verified | consumed | blocked.

#[global] Instance vstatus_eq_dec : EqDecision vstatus.
Proof. solve_decision. Defined.

Record session := Session {
  vs_user : option Z; vs_phone : string; vs_purpose : string; vs_fingerprint : string;
  vs_hash : string; vs_otp_expires : Z; vs_attempts : Z; vs_sends : Z; vs_last_sent : option Z;
  vs_status : vstatus; vs_verified_at : option Z; vs_expires : option Z; vs_consumed_at : option Z
}.

Definition PURPOSE_SUBSCRIPTION : string := "subscription".

Definition otp_is_expired (s : session) (now : Z) : bool := vs_otp_expires s <=? now.

Definition OTP_TTL : Z := 5 * 60 * second.
Definition VERIFIED_TTL : Z := 10 * 60 * second.
Definition MAX_ATTEMPTS : Z := 5.
Definition MAX_SENDS_PER_SESSION : Z := 3.
Definition RESEND_COOLDOWN_SECONDS : Z := 60.
Definition MAX_SENDS_PER_PHONE_PER_HOUR : Z := 5.

Definition attempts_remaining (s : session) : Z := Z.max 0 (MAX_ATTEMPTS - vs_attempts s).

(** What a client gives for a session: nothing, something [uuid.UUID] does
    not read, or an id. *)
Inductive session_ref := NoSession | NotUuid | Uuid (u : Z).

#[global] Instance session_ref_eq_dec : EqDecision session_ref.
Proof. solve_decision. Defined.

Definition _uuid_like (r : session_ref) : option Z := match r with Uuid u => Some u | _ => None end.

(** [str] of a UUID. *)
Definition hex_digit (n : Z) : string := String.substring (Z.to_nat n) 1 "0123456789abcdef".
Fixpoint hex (k : nat) (n : Z) : string :=
  match k with O => "" | S k' => hex k' (n / 16) +:+ hex_digit (n mod 16) end.
Definition uuid_str (u : Z) : string :=
  hex 8 (u / 2 ^ 96) +:+ "-" +:+ hex 4 (u / 2 ^ 80) +:+ "-" +:+ hex 4 (u / 2 ^ 64) +:+ "-"
  +:+ hex 4 (u / 2 ^ 48) +:+ "-" +:+ hex 12 u.

Example uuid_example : uuid_str 1 = "00000000-0000-0000-0000-000000000001".
Proof. by vm_compute. Qed.

(** The payment a verification is for. *)
Record payment := Payment { p_purpose : string; p_user : option Z; p_phone : string; p_tier : string }.

#[global] Instance payment_eq_dec : EqDecision payment.
Proof. solve_decision. Defined.

(** [str(user_id or '')]. *)
Definition user_str (u : option Z) : string :=
  match u with Some n => if n =? 0 then "" else str_int n | None => "" end.

Definition fingerprint_parts (p : payment) : string :=
  p_purpose p +:+ "|" +:+ user_str (p_user p) +:+ "|" +:+ p_phone p +:+ "|" +:+ p_tier p.

Definition mask (phone_number : string) : string :=
  if (6 <? String.length phone_number)%nat
  then prefix_of 5 phone_number +:+ "****" +:+ String.substring (String.length phone_number - 3) 3 phone_number
  else phone_number.

Section Otp.
Context (sha256 : string → string).
Context (make_password : string → string → string) (check_password : string → string → bool).
Context {C : Type} `{cache_c : Cache C}.

Definition fingerprint (p : payment) : string := sha256 (fingerprint_parts p).

(** Sessions by id, the messages, and the cache. *)
Record store := Store { s_sessions : gmap Z session; s_messages : list SmsQueue.message; s_cache : C }.

Definition set_sessions (m : gmap Z session) (s : store) : store := Store m (s_messages s) (s_cache s).
Definition set_cache (c : C) (s : store) : store := Store (s_sessions s) (s_messages s) c.
Definition set_messages (t : list SmsQueue.message) (s : store) : store := Store (s_sessions s) t (s_cache s).

(** ** The hourly count *)

Definition _phone_hour_key (phone : string) : string := "payment_otp_sends:" +:+ phone.

Definition _count_send (phone : string) (now : Z) (c : C) : C :=
  let key := _phone_hour_key phone in
  let c := cache_add c now key (VInt 0) hour in
  match cache_incr c now key with
  | Some c' => c'
  | None => cache_set c now key (VInt 1) hour
  end.

Definition sends_this_hour (phone : string) (now : Z) (c : C) : Z :=
  match cache_get c now (_phone_hour_key phone) with Some (VInt n) => n | _ => 0 end.

(** ** [request_otp] *)

Definition request_refused {S A} (msg code : string) (retry_after : option Z) : M S A :=
  raise (OtpRefused "OtpRequestRefused" msg code retry_after).

(** A request between its reads and its write: the id it will save under and
    the row it holds. *)
Record draft := Draft { d_id : Z; d_payment : payment; d_now : Z; d_row : session }.

Definition new_session (p : payment) : session :=
  Session (p_user p) (p_phone p) (p_purpose p) (fingerprint p) "" 0 0 0 None pending None None None.

(** The session a resend is for. *)
Definition find_session (p : payment) (sid : session_ref) : M store (option (Z * session)) :=
  match sid with
  | NoSession => mret None
  | NotUuid => raise (ValidationError "is not a valid UUID.")
  | Uuid u =>
      s ← get;
      match s_sessions s !! u with
      | Some row =>
          if String.eqb (vs_fingerprint row) (fingerprint p) && bool_decide (vs_status row = pending)
             && bool_decide (vs_user row = p_user p)
          then mret (Some (u, row)) else mret None
      | None => mret None
      end
  end.

Definition resend_limits (row : session) (now : Z) : M store unit :=
  match vs_last_sent row with
  | Some last =>
      if now - last <? RESEND_COOLDOWN_SECONDS * second then
        let wait := RESEND_COOLDOWN_SECONDS - Z.quot (now - last) second in
        request_refused ("Please wait " +:+ str_int wait +:+ " seconds before asking for another code.")
          "RESEND_COOLDOWN" (Some wait)
      else mret tt
  | None => mret tt
  end ≫= λ _,
  if MAX_SENDS_PER_SESSION <=? vs_sends row
  then request_refused "Too many codes have been sent for this payment. Start again." "TOO_MANY_SENDS" None
  else mret tt.

(** Up to the new code; [new_id] is the [uuid4] a new row would get. *)
Definition request_open (p : payment) (sid : session_ref) (new_id now : Z) : M store draft :=
  found ← find_session p sid;
  match found with Some (_, row) => resend_limits row now | None => mret tt end ≫= λ _,
  s ← get;
  if MAX_SENDS_PER_PHONE_PER_HOUR <=? sends_this_hour (p_phone p) now (s_cache s)
  then request_refused "Too many verification codes requested. Please try again later." "HOURLY_LIMIT" None
  else mret (match found with
             | Some (u, row) => Draft u p now row
             | None => Draft new_id p now (new_session p)
             end).

(** The columns [request_otp] assigns before [save()]. *)
Definition with_code (code salt : string) (now : Z) (s : session) : session :=
  Session (vs_user s) (vs_phone s) (vs_purpose s) (vs_fingerprint s)
    (make_password code salt) (now + OTP_TTL) 0 (vs_sends s + 1) (Some now)
    pending (vs_verified_at s) (vs_expires s) (vs_consumed_at s).

Definition saved (d : draft) (code salt : string) : session := with_code code salt (d_now d) (d_row d).

Definition request_save (d : draft) (code salt : string) : M store unit :=
  modify (λ s, set_sessions (<[d_id d := saved d code salt]> (s_sessions s)) s).

Definition otp_text (code : string) : string :=
  "FlipStar payment code: " +:+ code +:+ ". Expires in " +:+ str_int (OTP_TTL / second / 60)
  +:+ " min. Do not share.".

Definition _send_code (u : Z) (row : session) (phone code stamp : string) (now : Z) : M store nat :=
  zoom s_messages set_messages
    (SmsQueue.queue_sms phone (otp_text code) "otp_payment_verification"
       ("payment-otp:" +:+ uuid_str u +:+ ":" +:+ str_int (vs_sends row)) "" stamp now).

(** The send, and the count of it; a failure discards the session. *)
Definition request_send (d : draft) (code salt stamp : string) (now : Z) : M store Z :=
  let row := saved d code salt in
  let phone := p_phone (d_payment d) in
  catch (_send_code (d_id d) row phone code stamp now ≫= λ _, mret tt)
    (λ _, Some (modify (λ s, set_sessions (delete (d_id d) (s_sessions s)) s) ≫= λ _,
                request_refused "We could not send the verification code. Please try again." "SMS_FAILED" None))
    ≫= λ _,
  modify (λ s, set_cache (_count_send phone now (s_cache s)) s) ≫= λ _,
  mret (d_id d).

Definition request_otp (p : payment) (sid : session_ref) (new_id now : Z) (code salt stamp : string) : M store Z :=
  d ← request_open p sid new_id now;
  request_save d code salt ≫= λ _,
  request_send d code salt stamp now.

(** ** [verify_otp] *)

Definition verification_failed {S A} (msg code : string) (remaining : option Z) : M S A :=
  raise (OtpRefused "OtpVerificationFailed" msg code remaining).

Definition wrong_code (s : session) : session :=
  let n := vs_attempts s + 1 in
  Session (vs_user s) (vs_phone s) (vs_purpose s) (vs_fingerprint s) (vs_hash s) (vs_otp_expires s)
    n (vs_sends s) (vs_last_sent s)
    (if MAX_ATTEMPTS <=? n then blocked else vs_status s) (vs_verified_at s) (vs_expires s) (vs_consumed_at s).

Definition right_code (now : Z) (s : session) : session :=
  Session (vs_user s) (vs_phone s) (vs_purpose s) (vs_fingerprint s) "" (vs_otp_expires s)
    (vs_attempts s) (vs_sends s) (vs_last_sent s) verified (Some now) (Some (now + VERIFIED_TTL)) (vs_consumed_at s).

(** What the block under the row's lock does: the row it leaves, and the
    refusal, if any. *)
Definition verify_step (code : string) (phone : option string) (user : option Z) (now : Z) (row : session)
    : session * option (string * string * option Z) :=
  if negb (bool_decide (Some (vs_phone row) = phone)) || negb (bool_decide (vs_user row = user)) then
    (row, Some ("This verification does not match this payment.", "SESSION_MISMATCH", None))
  else if bool_decide (vs_status row = blocked) then
    (row, Some ("Too many incorrect codes. Please start again.", "TOO_MANY_ATTEMPTS", Some 0))
  else if negb (bool_decide (vs_status row = pending)) then
    (row, Some ("This verification has already been used.", "ALREADY_USED", None))
  else if otp_is_expired row now then
    (row, Some ("This code has expired. Please ask for a new one.", "OTP_EXPIRED", None))
  else if negb (check_password code (vs_hash row)) then
    let row' := wrong_code row in
    if MAX_ATTEMPTS <=? vs_attempts row'
    then (row', Some ("Too many incorrect codes. Please start again.", "TOO_MANY_ATTEMPTS", Some 0))
    else (row', Some ("That code is not correct.", "OTP_INVALID", Some (attempts_remaining row')))
  else (right_code now row, None).

Definition verify_otp (sid : session_ref) (code : string) (phone : option string) (user : option Z) (now : Z)
    : M store session :=
  s ← get;
  match _uuid_like sid ≫= λ u, (λ row, (u, row)) <$> s_sessions s !! u with
  | None => verification_failed "This verification has expired. Please start again." "SESSION_NOT_FOUND" None
  | Some (u, row) =>
      let '(row', failure) := verify_step code phone user now row in
      put (set_sessions (<[u := row']> (s_sessions s)) s) ≫= λ _,
      match failure with
      | Some (msg, c, remaining) => verification_failed msg c remaining
      | None => mret row'
      end
  end.

(** ** [consume_verified_session] *)

Definition consumed_row (now : Z) (s : session) : session :=
  Session (vs_user s) (vs_phone s) (vs_purpose s) (vs_fingerprint s) (vs_hash s) (vs_otp_expires s)
    (vs_attempts s) (vs_sends s) (vs_last_sent s) consumed (vs_verified_at s) (vs_expires s) (Some now).

(** The filter of the UPDATE that claims. *)
Definition claims (p : payment) (now : Z) (s : session) : bool :=
  bool_decide (vs_status s = verified) && String.eqb (vs_fingerprint s) (fingerprint p)
  && String.eqb (vs_phone s) (p_phone p) && bool_decide (vs_user s = p_user p)
  && match vs_expires s with Some e => now <? e | None => false end.

Definition _explain_refusal (row : option session) (digest : string) (now : Z) : string * string :=
  match row with
  | None => ("Phone verification is required before payment.", "VERIFICATION_REQUIRED")
  | Some s =>
      if bool_decide (vs_status s = consumed) then
        ("This verification has already been used.", "VERIFICATION_ALREADY_USED")
      else if bool_decide (vs_status s = pending) then
        ("Please enter the code we sent by SMS.", "VERIFICATION_REQUIRED")
      else if bool_decide (vs_status s = blocked) then
        ("Too many incorrect codes. Please start again.", "TOO_MANY_ATTEMPTS")
      else if match vs_expires s with Some e => e <=? now | None => false end then
        ("This verification has expired. Please verify again.", "VERIFICATION_EXPIRED")
      else if negb (String.eqb (vs_fingerprint s) digest) then
        ("This verification does not match this payment.", "VERIFICATION_MISMATCH")
      else ("Phone verification is required before payment.", "VERIFICATION_REQUIRED")
  end.

Definition consume_verified_session (sid : session_ref) (p : payment) (now : Z) : M store session :=
  match _uuid_like sid with
  | None => verification_failed "Phone verification is required before payment." "VERIFICATION_REQUIRED" None
  | Some u =>
      s ← get;
      match s_sessions s !! u with
      | Some row =>
          if claims p now row
          then put (set_sessions (<[u := consumed_row now row]> (s_sessions s)) s) ≫= λ _, mret (consumed_row now row)
          else let '(reason, code) := _explain_refusal (Some row) (fingerprint p) now in
               verification_failed reason code None
      | None => let '(reason, code) := _explain_refusal None (fingerprint p) now in
                verification_failed reason code None
      end
  end.

(** ** The endpoints *)

(** [provided] and [profile_phone] as the request and the profile have them,
    the empty string for none. *)
Definition phone_for_payment (user : option Z) (profile_phone provided : string) : option string :=
  let raw := or_str provided (if user then profile_phone else "") in
  if String.eqb raw "" then None
  else Some match Phone.normalize_ethiopian_phone (Some raw) with Some n => n | None => raw end.

Definition PURPOSES : list string := [PURPOSE_SUBSCRIPTION].

Definition request_ussd_push_otp (user : option Z) (profile_phone purpose tier_id provided : string)
    (sid : session_ref) (new_id now : Z) (code salt stamp : string) : M store response :=
  let purpose := strip purpose in
  if negb (bool_decide (purpose ∈ PURPOSES)) then mret (Resp 400 "INVALID_PURPOSE")
  else if String.eqb tier_id "" then mret (Resp 400 "TIER_REQUIRED")
  else match phone_for_payment user profile_phone provided with
  | None => mret (Resp 400 "PHONE_REQUIRED")
  | Some phone =>
      catch (u ← request_otp (Payment purpose user phone tier_id) sid new_id now code salt stamp;
             mret (Resp 200 (uuid_str u)))
        (λ e, match e with
              | OtpRefused "OtpRequestRefused" _ code _ =>
                  Some (mret (Resp (if String.eqb code "SMS_FAILED" then 502 else 429) code))
              | _ => None
              end)
  end.

Definition verify_ussd_push_otp (user : option Z) (profile_phone code provided : string)
    (sid : session_ref) (now : Z) : M store response :=
  if bool_decide (sid = NoSession) || String.eqb code "" then mret (Resp 400 "OTP_REQUIRED")
  else
    catch (verify_otp sid code (phone_for_payment user profile_phone provided) user now ≫= λ _,
           mret (Resp 200 "verified"))
      (λ e, match e with
            | OtpRefused "OtpVerificationFailed" _ code _ => Some (mret (Resp 400 code))
            | _ => None
            end).

(** ** Every interleaving

    Beside the store: the requests that have read and not yet written, and
    those that have written and not yet sent (a request may be taken up from
    either list any number of times, which only adds behaviours).  The other
    lists are not in the code: the payment each session was opened for, the
    codes saved in it, the codes accepted and when, the codes refused, and the
    pushes authorised. *)

Record world := World {
  w_store : store;
  w_unsaved : list draft;
  w_unsent : list (draft * string * string);
  w_opened : list (Z * payment);
  w_codes : list (Z * string);
  w_verified : list (Z * Z * string);
  w_wrong : list Z;
  w_pushes : list (Z * payment * Z)
}.

Definition fresh_world (c : C) : world := World (Store ∅ [] c) [] [] [] [] [] [] [].

Inductive event :=
| Open (p : payment) (sid : session_ref) (new_id now : Z)
| Save (i : nat) (code salt : string)
| Send (i : nat) (stamp : string) (now : Z)
| Verify (sid : session_ref) (code : string) (phone : option string) (user : option Z) (now : Z)
| Push (sid : session_ref) (p : payment) (now : Z).

Definition with_store (s : store) (w : world) : world :=
  World s (w_unsaved w) (w_unsent w) (w_opened w) (w_codes w) (w_verified w) (w_wrong w) (w_pushes w).

Definition opened (d : draft) (new_id : Z) (w : world) : world :=
  World (w_store w) (w_unsaved w ++ [d]) (w_unsent w)
    (if decide (d_id d = new_id) then w_opened w ++ [(new_id, d_payment d)] else w_opened w)
    (w_codes w) (w_verified w) (w_wrong w) (w_pushes w).

Definition saved_code (d : draft) (code salt : string) (w : world) : world :=
  World (w_store w) (w_unsaved w) (w_unsent w ++ [(d, code, salt)]) (w_opened w)
    (w_codes w ++ [(d_id d, code)]) (w_verified w) (w_wrong w) (w_pushes w).

(** Did the row count a wrong code between [s] and [s']? *)
Definition counted (u : Z) (s s' : store) : bool :=
  negb (bool_decide (vs_attempts <$> s_sessions s !! u = vs_attempts <$> s_sessions s' !! u)).

Definition answered (sid : session_ref) (r : exn + session) (code : string) (now : Z) (s : store)
    (w : world) : world :=
  match sid with
  | Uuid u =>
      World (w_store w) (w_unsaved w) (w_unsent w) (w_opened w) (w_codes w)
        (match r with inr _ => w_verified w ++ [(u, now, code)] | inl _ => w_verified w end)
        (if counted u s (w_store w) then w_wrong w ++ [u] else w_wrong w) (w_pushes w)
  | _ => w
  end.

Definition pushed (sid : session_ref) (r : exn + session) (p : payment) (now : Z) (w : world) : world :=
  match sid, r with
  | Uuid u, inr _ =>
      World (w_store w) (w_unsaved w) (w_unsent w) (w_opened w) (w_codes w)
        (w_verified w) (w_wrong w) (w_pushes w ++ [(u, p, now)])
  | _, _ => w
  end.

Definition exec (e : event) (w : world) : world :=
  let s := w_store w in
  match e with
  | Open p sid new_id now =>
      match (request_open p sid new_id now s).1 with
      | inr d => opened d new_id w
      | inl _ => w
      end
  | Save i code salt =>
      match w_unsaved w !! i with
      | Some d => saved_code d code salt (with_store (request_save d code salt s).2 w)
      | None => w
      end
  | Send i stamp now =>
      match w_unsent w !! i with
      | Some (d, code, salt) => with_store (request_send d code salt stamp now s).2 w
      | None => w
      end
  | Verify sid code phone user now =>
      let '(r, s') := verify_otp sid code phone user now s in
      answered sid r code now s (with_store s' w)
  | Push sid p now =>
      let '(r, s') := consume_verified_session sid p now s in
      pushed sid r p now (with_store s' w)
  end.

(** What the callers keep to: the one purpose there is, and a [uuid4] that
    was never drawn before. *)
Definition served (e : event) (w : world) : bool :=
  match e with
  | Open p _ new_id _ =>
      String.eqb (p_purpose p) PURPOSE_SUBSCRIPTION && bool_decide (new_id ∉ (w_opened w).*1)
  | Push _ p _ => String.eqb (p_purpose p) PURPOSE_SUBSCRIPTION
  | _ => true
  end.

Fixpoint run (es : list event) (w : world) : world :=
  match es with [] => w | e :: es' => run es' (exec e w) end.
Fixpoint all_served (es : list event) (w : world) : bool :=
  match es with [] => true | e :: es' => served e w && all_served es' (exec e w) end.

(** ** What every step keeps *)

Definition times (u : Z) (l : list Z) : nat := length (filter (λ v, v = u) l).

Lemma times_app u l l' : times u (l ++ l') = (times u l + times u l')%nat.
Proof. unfold times. by rewrite filter_app, length_app. Qed.

Lemma times_one u v : times u [v] = if decide (v = u) then 1%nat else 0%nat.
Proof. unfold times. rewrite filter_cons. by case_decide. Qed.

(** One when the row of [u] has status [st]. *)
Definition is_in (st : vstatus) (u : Z) (m : gmap Z session) : nat :=
  if decide (vs_status <$> m !! u = Some st) then 1%nat else 0%nat.

Lemma is_in_insert st u v row m :
  is_in st u (<[v := row]> m) =
  if decide (v = u) then (if decide (vs_status row = st) then 1%nat else 0%nat) else is_in st u m.
Proof.
  unfold is_in. destruct (decide (v = u)) as [->|Hv]; [|by rewrite lookup_insert_ne].
  rewrite lookup_insert_eq. cbn. repeat case_decide; naive_solver.
Qed.

Lemma is_in_delete st u v m : (is_in st u (delete v m) <= is_in st u m)%nat.
Proof.
  unfold is_in. destruct (decide (v = u)) as [->|Hv]; [|by rewrite lookup_delete_ne].
  rewrite lookup_delete_eq. cbn. repeat case_decide; try lia. done.
Qed.

Definition describes (p : payment) (row : session) : Prop :=
  vs_user row = p_user p ∧ vs_phone row = p_phone p ∧ vs_purpose row = p_purpose p
  ∧ vs_fingerprint row = fingerprint p.

(** A row of a session that was opened, with the code or the acceptance that
    its status stands for. *)
Definition row_ok (w : world) (u : Z) (row : session) : Prop :=
  ∃ p, (u, p) ∈ w_opened w ∧ describes p row ∧
  (vs_status row = pending → ∃ c salt, vs_hash row = make_password c salt ∧ (u, c) ∈ w_codes w) ∧
  (vs_status row = verified → ∃ tv c, (u, tv, c) ∈ w_verified w ∧ vs_expires row = Some (tv + VERIFIED_TTL)).

Record world_ok (w : world) : Prop := WorldOk {
  ok_rows : ∀ u row, s_sessions (w_store w) !! u = Some row → row_ok w u row;
  ok_drafts : ∀ d, d ∈ w_unsaved w → ∃ p, (d_id d, p) ∈ w_opened w ∧ describes p (d_row d);
  ok_ids : NoDup (w_opened w).*1;
  ok_purpose : ∀ u p, (u, p) ∈ w_opened w → p_purpose p = PURPOSE_SUBSCRIPTION;
  ok_accepted : ∀ u t c, (u, t, c) ∈ w_verified w → (u, c) ∈ w_codes w;
  ok_pushes : ∀ u p t, (u, p, t) ∈ w_pushes w →
    (u, p) ∈ w_opened w ∧ ∃ tv c, (u, tv, c) ∈ w_verified w ∧ t < tv + VERIFIED_TTL;
  ok_counts : ∀ u,
    (times u (w_pushes w).*1.*1 + is_in verified u (s_sessions (w_store w)) <= times u (w_verified w).*1.*1)%nat ∧
    (times u (w_verified w).*1.*1 + is_in pending u (s_sessions (w_store w)) <= times u (w_codes w).*1)%nat
}.

Lemma session_fresh_ok c : world_ok (fresh_world c).
Proof.
  constructor; cbn; try (intros; exfalso; eapply not_elem_of_nil; eassumption).
  - intros u row Hr. by rewrite lookup_empty in Hr.
  - constructor.
  - intros u. unfold is_in. rewrite lookup_empty. cbn. by case_decide.
Qed.

Lemma row_ok_mono w w' u row :
  (∀ x, x ∈ w_opened w → x ∈ w_opened w') → (∀ x, x ∈ w_codes w → x ∈ w_codes w') →
  (∀ x, x ∈ w_verified w → x ∈ w_verified w') → row_ok w u row → row_ok w' u row.
Proof.
  intros Ho Hc Hv (p & Hp & Hd & H1 & H2). exists p. split_and!; [auto|done| |].
  - intros Hs. destruct (H1 Hs) as (c & salt & Hh & Hin). eauto.
  - intros Hs. destruct (H2 Hs) as (tv & c & Hin & He). eauto.
Qed.

(** Requests read; they do not write before the code is generated. *)
Lemma open_draft p sid new_id now s d :
  (request_open p sid new_id now s).1 = inr d →
  d = Draft new_id p now (new_session p)
  ∨ ∃ u row, sid = Uuid u ∧ s_sessions s !! u = Some row ∧ vs_status row = pending
      ∧ vs_sends row < MAX_SENDS_PER_SESSION ∧ d = Draft u p now row.
Proof.
  unfold request_open. rewrite bind_run.
  assert (∀ found, find_session p sid s = (inr found, s) →
    ((match found with Some (_, row) => resend_limits row now | None => mret tt end ≫= λ _,
      s ← get;
      if MAX_SENDS_PER_PHONE_PER_HOUR <=? sends_this_hour (p_phone p) now (s_cache s)
      then request_refused "Too many verification codes requested. Please try again later." "HOURLY_LIMIT" None
      else mret (match found with Some (u, row) => Draft u p now row | None => Draft new_id p now (new_session p) end)) s).1
      = inr d →
    match found with
    | Some (u, row) => d = Draft u p now row ∧ vs_sends row < MAX_SENDS_PER_SESSION
    | None => d = Draft new_id p now (new_session p)
    end) as Hrest.
  { intros found Hf. rewrite bind_run. destruct found as [[u row]|].
    - destruct (resend_limits row now s) as [[e|[]] s1] eqn:E; [done|].
      rewrite bind_run. cbn [get]. destruct (_ <=? _); [done|]. cbn. intros [= <-]. split; [done|].
      unfold resend_limits in E. destruct (Z.leb_spec MAX_SENDS_PER_SESSION (vs_sends row)); [exfalso|lia].
      rewrite bind_run in E. destruct (vs_last_sent row); [destruct (_ <? _)|]; discriminate E.
    - cbn [mret M_ret]. rewrite bind_run. cbn [get]. destruct (_ <=? _); [done|]. cbn. by intros [= <-]. }
  unfold find_session in *. destruct sid as [| |u].
  - intros H. left. by apply (Hrest None).
  - done.
  - rewrite bind_run in *. cbn [get] in *. destruct (s_sessions s !! u) as [row|] eqn:Hrow.
    + destruct (_ && _ && _) eqn:Hc.
      * intros H. destruct (Hrest (Some (u, row)) eq_refl H) as [-> Hs]. right. exists u, row.
        apply andb_true_iff in Hc as [[_ Hp%bool_decide_eq_true]%andb_true_iff _]. done.
      * intros H. left. by apply (Hrest None).
    + intros H. left. by apply (Hrest None).
Qed.

Lemma send_sessions d code salt stamp now s :
  let s' := (request_send d code salt stamp now s).2 in
  s_sessions s' = s_sessions s ∨ s_sessions s' = delete (d_id d) (s_sessions s).
Proof.
  cbn. unfold request_send. rewrite bind_run. unfold catch. rewrite bind_run. unfold _send_code. rewrite zoom_run.
  destruct (SmsQueue.queue_sms _ _ _ _ _ _ _ _).1 as [e|pk]; cbn; auto.
Qed.

Lemma verify_cases code phone user now row :
  let '(row', failure) := verify_step code phone user now row in
  (row' = row ∧ failure ≠ None)
  ∨ vs_status row = pending ∧
    (row' = wrong_code row ∧ failure ≠ None
     ∨ row' = right_code now row ∧ failure = None ∧ check_password code (vs_hash row) = true
       ∧ Some (vs_phone row) = phone ∧ vs_user row = user ∧ now < vs_otp_expires row).
Proof.
  unfold verify_step.
  destruct (bool_decide (Some (vs_phone row) = phone)) eqn:H1; [|by left].
  destruct (bool_decide (vs_user row = user)) eqn:H2; [|by left]. cbn [negb orb].
  destruct (bool_decide (vs_status row = blocked)); [by left|].
  destruct (bool_decide (vs_status row = pending)) eqn:H3; [|by left]. cbn [negb].
  unfold otp_is_expired. destruct (Z.leb_spec (vs_otp_expires row) now) as [|H4]; [by left|].
  apply bool_decide_eq_true in H1, H2, H3.
  destruct (check_password code (vs_hash row)) eqn:H5; cbn [negb].
  - right. split; [done|]. by right.
  - destruct (_ <=? _); right; (split; [done|]); by left.
Qed.

Definition not_found : exn :=
  OtpRefused "OtpVerificationFailed" "This verification has expired. Please start again." "SESSION_NOT_FOUND" None.

Lemma verify_run sid code phone user now s :
  verify_otp sid code phone user now s =
  match sid with
  | Uuid u =>
      match s_sessions s !! u with
      | Some row =>
          let '(row', failure) := verify_step code phone user now row in
          (match failure with
           | Some (msg, c, remaining) => inl (OtpRefused "OtpVerificationFailed" msg c remaining)
           | None => inr row'
           end, set_sessions (<[u := row']> (s_sessions s)) s)
      | None => (inl not_found, s)
      end
  | _ => (inl not_found, s)
  end.
Proof.
  unfold verify_otp. rewrite bind_run. cbn [get]. destruct sid as [| |u]; [done..|]. cbn [_uuid_like mbind option_bind].
  destruct (s_sessions s !! u) as [row|]; [|done]. cbn [fmap option_fmap option_map].
  destruct (verify_step code phone user now row) as [row' [[[msg c] rem]|]]; done.
Qed.

Lemma consume_run sid p now s :
  match sid with
  | Uuid u =>
      match s_sessions s !! u with
      | Some row =>
          if claims p now row
          then consume_verified_session sid p now s
               = (inr (consumed_row now row), set_sessions (<[u := consumed_row now row]> (s_sessions s)) s)
          else ∃ e, consume_verified_session sid p now s = (inl e, s)
      | None => ∃ e, consume_verified_session sid p now s = (inl e, s)
      end
  | _ => ∃ e, consume_verified_session sid p now s = (inl e, s)
  end.
Proof.
  unfold consume_verified_session. destruct sid as [| |u]; cbn [_uuid_like]; [by eexists..|].
  rewrite bind_run. cbn [get]. destruct (s_sessions s !! u) as [row|].
  - destruct (claims p now row); [done|]. destruct (_explain_refusal _ _ _). by eexists.
  - by eexists.
Qed.

(** Two payments of one user and number with one fingerprint are for the
    same tier, since there is one purpose. *)
Section Laws.
Hypothesis sha256_collision_free : ∀ a b, sha256 a = sha256 b → a = b.
Hypothesis check_password_sound : ∀ code code' salt,
  check_password code (make_password code' salt) = true → code = code'.

Lemma fingerprint_binds p q :
  p_purpose p = p_purpose q → p_user p = p_user q → p_phone p = p_phone q →
  fingerprint p = fingerprint q → p = q.
Proof.
  destruct p as [a u f t], q as [a' u' f' t']. cbn. intros -> -> ->.
  unfold fingerprint, fingerprint_parts. cbn. intros E%sha256_collision_free.
  do 6 apply string_app_inv in E. by subst.
Qed.

Lemma open_ok p sid new_id now w :
  served (Open p sid new_id now) w = true → world_ok w → world_ok (exec (Open p sid new_id now) w).
Proof.
  intros Hs Hw. cbn in Hs. apply andb_true_iff in Hs as [Hp%String.eqb_eq Hnew%bool_decide_eq_true].
  cbn [exec]. destruct (request_open p sid new_id now (w_store w)).1 as [e|d] eqn:E; [exact Hw|].
  apply open_draft in E.
  assert (d_payment d = p) as Hdp by (by destruct E as [-> |(u & row & _ & _ & _ & _ & ->)]).
  assert (∀ x, x ∈ w_opened w → x ∈ w_opened (opened d new_id w)) as Hmono.
  { intros x Hx. cbn. case_decide; [|done]. rewrite elem_of_app. by left. }
  destruct Hw as [H1 H2 H3 H4 H5 H6 H7]. constructor; cbn [opened w_store w_unsaved w_codes w_verified w_pushes].
  - intros u row Hrow. eapply row_ok_mono; [exact Hmono| | |by apply H1]; done.
  - intros d' [Hd'| ->%list_elem_of_singleton]%elem_of_app.
    + destruct (H2 d' Hd') as (q & Hq & Hdesc). eauto.
    + destruct E as [-> |(u & row & _ & Hrow & _ & _ & ->)].
      * exists p. split; [|done]. cbn. rewrite decide_True by done. rewrite elem_of_app. right. by left.
      * destruct (H1 u row Hrow) as (q & Hq & Hdesc & _). exists q. split; [by apply Hmono|done].
  - cbn. case_decide as Hd; [|done]. rewrite fmap_app. apply NoDup_app. split_and!; [done| |apply NoDup_singleton].
    intros x Hx ->%list_elem_of_singleton. done.
  - intros u q. cbn. case_decide; [|apply H4]. intros [Hq|Hq]%elem_of_app; [by apply (H4 u)|].
    apply list_elem_of_singleton in Hq. injection Hq as -> ->. congruence.
  - done.
  - intros u q t Hq. destruct (H6 u q t Hq) as [Ho Hv]. split; [by apply Hmono|done].
  - done.
Qed.

Lemma save_ok i code salt w : world_ok w → world_ok (exec (Save i code salt) w).
Proof.
  intros Hw. cbn [exec]. destruct (w_unsaved w !! i) as [d|] eqn:Hd; [|done].
  apply list_elem_of_lookup_2 in Hd. destruct Hw as [H1 H2 H3 H4 H5 H6 H7].
  destruct (H2 d Hd) as (p & Hp & Hdesc).
  constructor; cbn [saved_code with_store request_save modify snd set_sessions s_sessions w_store w_unsaved w_opened w_codes w_verified w_pushes].
  - intros u row. destruct (decide (d_id d = u)) as [<-|Hu].
    + rewrite lookup_insert_eq. intros [= <-]. exists p. split_and!; [done|done| |done].
      intros _. exists code, salt. split; [done|]. cbn. rewrite elem_of_app. right. by left.
    + rewrite lookup_insert_ne by done. intros Hrow. eapply row_ok_mono; [| | |by apply H1]; cbn; try done.
      intros x Hx. rewrite elem_of_app. by left.
  - done.
  - done.
  - done.
  - intros u t c Hv. rewrite elem_of_app. left. by apply (H5 u t).
  - done.
  - intros u. destruct (H7 u) as [Ha Hb]. rewrite !is_in_insert, fmap_app, times_app. cbn [fmap list_fmap fst saved with_code vs_status].
    rewrite times_one.
    rewrite (decide_False (P := pending = verified)), (decide_True (P := pending = pending)) by done.
    destruct (decide (d_id d = u)); lia.
Qed.

Lemma send_ok i stamp now w : world_ok w → world_ok (exec (Send i stamp now) w).
Proof.
  intros Hw. cbn [exec]. destruct (w_unsent w !! i) as [[[d code] salt]|]; [|done].
  destruct Hw as [H1 H2 H3 H4 H5 H6 H7].
  destruct (send_sessions d code salt stamp now (w_store w)) as [Hs|Hs];
    constructor; cbn [with_store w_store w_unsaved w_opened w_codes w_verified w_pushes]; try done; rewrite ?Hs; try done.
  - intros u row Hrow. rewrite lookup_delete_Some in Hrow. destruct Hrow as [_ Hrow]. by apply H1.
  - intros u. destruct (H7 u). pose proof (is_in_delete verified u (d_id d) (s_sessions (w_store w))).
    pose proof (is_in_delete pending u (d_id d) (s_sessions (w_store w))). lia.
Qed.

Lemma set_sessions_same u row s : s_sessions s !! u = Some row → set_sessions (<[u := row]> (s_sessions s)) s = s.
Proof. intros Hr. unfold set_sessions. rewrite insert_id by done. by destruct s. Qed.

Lemma counted_same u s : counted u s s = false.
Proof. unfold counted. by rewrite bool_decide_true. Qed.

Lemma verify_ok sid code phone user now w : world_ok w → world_ok (exec (Verify sid code phone user now) w).
Proof.
  intros Hw. cbn [exec]. rewrite verify_run. destruct sid as [| |u]; [by destruct w..|].
  destruct (s_sessions (w_store w) !! u) as [row|] eqn:Hrow.
  2:{ cbn. rewrite counted_same. by destruct w. }
  pose proof (verify_cases code phone user now row) as Hc.
  destruct (verify_step code phone user now row) as [row' failure].
  destruct Hc as [[-> Hf]|(Hpend & [[-> Hf]|(-> & -> & Hcode & _ & _ & _)])].
  { rewrite set_sessions_same by done. destruct failure as [[[msg c] rem]|]; [|done].
    cbn. rewrite counted_same. by destruct w. }
  - destruct Hw as [H1 H2 H3 H4 H5 H6 H7]. destruct failure as [[[msg c] rem]|]; [|done].
    destruct (H1 u row Hrow) as (p & Hp & Hd & Hc & _).
    constructor; cbn [answered with_store set_sessions s_sessions w_store w_unsaved w_opened w_codes w_verified w_pushes]; try done.
    + intros v row'. destruct (decide (u = v)) as [<-|Hu].
      * rewrite lookup_insert_eq. intros [= <-]. exists p. split_and!; [done|done|auto|].
        unfold wrong_code. cbn [vs_status]. destruct (_ <=? _); congruence.
      * rewrite lookup_insert_ne by done. by apply H1.
    + intros v. destruct (H7 v) as [Ha Hb]. rewrite !is_in_insert. destruct (decide (u = v)) as [->|Hu]; [|done].
      unfold is_in in Ha, Hb. rewrite Hrow in Ha, Hb. cbn in Ha, Hb. rewrite Hpend in *.
      rewrite decide_True in Hb by done.
      assert (vs_status (wrong_code row) ≠ verified) as Hnv by (unfold wrong_code; cbn [vs_status]; destruct (_ <=? _); congruence).
      rewrite (decide_False (P := vs_status (wrong_code row) = verified)) by done. split; [lia|]. destruct (decide (vs_status (wrong_code row) = pending)); lia.
  - destruct Hw as [H1 H2 H3 H4 H5 H6 H7]. destruct (H1 u row Hrow) as (p & Hp & Hd & Hc & _).
    destruct (Hc Hpend) as (c & salt & Hh & Hin). rewrite Hh in Hcode. apply check_password_sound in Hcode as ->.
    assert (∀ x, x ∈ w_verified w → x ∈ w_verified w ++ [(u, now, c)]) as Hmono
      by (intros x Hx; rewrite elem_of_app; by left).
    constructor; cbn [answered with_store set_sessions s_sessions w_store w_unsaved w_opened w_codes w_verified w_pushes]; try done.
    + intros v row'. destruct (decide (u = v)) as [<-|Hu].
      * rewrite lookup_insert_eq. intros [= <-]. exists p. split_and!; [done|done|done|].
        intros _. exists now, c. split; [|done]. cbn. rewrite elem_of_app. right. by left.
      * rewrite lookup_insert_ne by done. intros Hr. eapply row_ok_mono; [| | |by apply H1]; cbn; try done.
    + intros v t c' [Hv|Hv]%elem_of_app; [by apply (H5 v t)|]. apply list_elem_of_singleton in Hv. by injection Hv as -> -> ->.
    + intros v q t Hq. destruct (H6 v q t Hq) as (Ho & tv & c' & Hv & Ht). split; [done|]. eauto.
    + intros v. destruct (H7 v) as [Ha Hb]. rewrite !is_in_insert, !fmap_app, times_app.
      cbn [fmap list_fmap fst right_code vs_status]. rewrite times_one.
      destruct (decide (u = v)) as [->|Hu]; [|lia].
      unfold is_in in Ha, Hb. rewrite Hrow in Ha, Hb. cbn in Ha, Hb. rewrite Hpend in *.
      rewrite decide_True in Hb by done. rewrite (decide_True (P := verified = verified)) by done.
      rewrite (decide_False (P := verified = pending)) by done. lia.
Qed.

Lemma push_ok sid p now w : served (Push sid p now) w = true → world_ok w → world_ok (exec (Push sid p now) w).
Proof.
  intros Hs%String.eqb_eq Hw. cbn [exec]. pose proof (consume_run sid p now (w_store w)) as Hrun.
  destruct sid as [| |u]; [destruct Hrun as [e ->]; by destruct w..|].
  destruct (s_sessions (w_store w) !! u) as [row|] eqn:Hrow; [|destruct Hrun as [e ->]; by destruct w].
  destruct (claims p now row) eqn:Hcl; [|destruct Hrun as [e ->]; by destruct w]. rewrite Hrun.
  unfold claims in Hcl. rewrite !andb_true_iff, !bool_decide_eq_true, !String.eqb_eq in Hcl.
  destruct Hcl as [[[[Hst Hfp] Hph] Hus] Hex].
  destruct Hw as [H1 H2 H3 H4 H5 H6 H7]. destruct (H1 u row Hrow) as (q & Hq & Hd & _ & Hv).
  destruct (Hv Hst) as (tv & c & Hin & He). rewrite He in Hex. apply Z.ltb_lt in Hex.
  destruct Hd as (D1 & D2 & D3 & D4).
  assert (q = p) as ->. { apply fingerprint_binds; [rewrite (H4 u q Hq); done|congruence..]. }
  constructor; cbn [pushed with_store set_sessions s_sessions w_store w_unsaved w_opened w_codes w_verified w_pushes]; try done.
  - intros v row'. destruct (decide (u = v)) as [<-|Hu].
    + rewrite lookup_insert_eq. intros [= <-]. exists p. split_and!; done.
    + rewrite lookup_insert_ne by done. by apply H1.
  - intros v q t [Hin'|Hin']%elem_of_app; [by apply H6|]. apply list_elem_of_singleton in Hin'.
    injection Hin' as -> -> ->. split; [done|]. eauto.
  - intros v. destruct (H7 v) as [Ha Hb]. rewrite !is_in_insert, !fmap_app, times_app.
    cbn [fmap list_fmap fst consumed_row vs_status]. rewrite times_one.
    destruct (decide (u = v)) as [->|Hu]; [|lia].
    unfold is_in in Ha, Hb. rewrite Hrow in Ha, Hb. cbn in Ha, Hb. rewrite Hst in *.
    rewrite decide_True in Ha by done. rewrite !decide_False in * by done. lia.
Qed.

Lemma session_exec_ok e w : served e w = true → world_ok w → world_ok (exec e w).
Proof.
  destruct e; intros Hs Hw; [by apply open_ok|by apply save_ok|by apply send_ok|by apply verify_ok|by apply push_ok].
Qed.

Lemma session_run_ok es w : all_served es w = true → world_ok w → world_ok (run es w).
Proof.
  revert w. induction es as [|e es IH]; intros w; [done|]. cbn [all_served run].
  intros [He Hes]%andb_true_iff Hw. apply IH; [done|]. by apply session_exec_ok.
Qed.

(** However requests, answers and pushes are interleaved, a push is
    authorised only for the payment its session was opened for, within ten
    minutes of the acceptance of a code that was generated for that session;
    and every push spends an acceptance of its own, and every acceptance a
    code of its own.  (SHA-256 is taken not to collide and a password hash to
    accept one password.) *)
Theorem pushes_are_verified es c0 :
  all_served es (fresh_world c0) = true →
  let w := run es (fresh_world c0) in
  (∀ u p t, (u, p, t) ∈ w_pushes w →
    (∀ q, (u, q) ∈ w_opened w ↔ q = p) ∧
    ∃ tv code, (u, tv, code) ∈ w_verified w ∧ (u, code) ∈ w_codes w ∧ t < tv + 10 * minute) ∧
  (∀ u, (times u (w_pushes w).*1.*1 <= times u (w_verified w).*1.*1 <= times u (w_codes w).*1)%nat).
Proof.
  intros Hs w. destruct (session_run_ok es _ Hs (session_fresh_ok c0)) as [H1 H2 H3 H4 H5 H6 H7]. fold w in H1, H2, H3, H4, H5, H6, H7.
  split.
  - intros u p t Hp. destruct (H6 u p t Hp) as (Ho & tv & code & Hv & Ht). split.
    + intros q. split; [|by intros ->]. intros Hq. apply list_elem_of_lookup in Hq as [i Hi], Ho as [j Hj].
      assert (i = j) as ->; [|congruence].
      apply (NoDup_lookup _ i j u H3); by rewrite list_lookup_fmap, ?Hi, ?Hj.
    + exists tv, code. split_and!; [done|by apply (H5 u tv)|done].
  - intros u. destruct (H7 u). lia.
Qed.

End Laws.
(** ** Requests one at a time *)

Inductive call :=
| Request (p : payment) (sid : session_ref) (new_id now : Z) (code salt stamp : string)
| Answer (sid : session_ref) (code : string) (phone : option string) (user : option Z) (now : Z)
| Pay (sid : session_ref) (p : payment) (now : Z).

Definition exec_call (k : call) (w : world) : world :=
  match k with
  | Request p sid new_id now code salt stamp =>
      match (request_open p sid new_id now (w_store w)).1 with
      | inr _ =>
          exec (Send (length (w_unsent w)) stamp now)
            (exec (Save (length (w_unsaved w)) code salt) (exec (Open p sid new_id now) w))
      | inl _ => w
      end
  | Answer sid code phone user now => exec (Verify sid code phone user now) w
  | Pay sid p now => exec (Push sid p now) w
  end.

Definition called (k : call) (w : world) : bool :=
  match k with
  | Request p sid new_id now _ _ _ => served (Open p sid new_id now) w
  | _ => true
  end.

Fixpoint run_calls (ks : list call) (w : world) : world :=
  match ks with [] => w | k :: ks' => run_calls ks' (exec_call k w) end.
Fixpoint all_called (ks : list call) (w : world) : bool :=
  match ks with [] => true | k :: ks' => called k w && all_called ks' (exec_call k w) end.

Lemma find_reads p sid s : (find_session p sid s).2 = s.
Proof.
  unfold find_session. destruct sid as [| |u]; [done..|]. rewrite bind_run. cbn [get].
  destruct (s_sessions s !! u); [|done]. by destruct (_ && _ && _).
Qed.

Lemma limits_read row now s : (resend_limits row now s).2 = s.
Proof.
  unfold resend_limits. rewrite bind_run. destruct (vs_last_sent row); [destruct (_ <? _)|]; cbn; try done;
    by destruct (_ <=? _).
Qed.

Lemma open_reads p sid new_id now s : (request_open p sid new_id now s).2 = s.
Proof.
  unfold request_open. rewrite bind_run. pose proof (find_reads p sid s) as Hf.
  destruct (find_session p sid s) as [[e|found] s1]; cbn [snd] in Hf; subst s1; [done|].
  rewrite bind_run. destruct found as [[u row]|].
  - pose proof (limits_read row now s) as Hl. destruct (resend_limits row now s) as [[e|[]] s1]; cbn [snd] in Hl; subst s1; [done|].
    rewrite bind_run. cbn [get]. by destruct (_ <=? _).
  - cbn [mret M_ret]. rewrite bind_run. cbn [get]. by destruct (_ <=? _).
Qed.

(** Two more lists aside, a request is what [request_otp] does. *)
Lemma request_run p sid new_id now code salt stamp w :
  let w' := exec_call (Request p sid new_id now code salt stamp) w in
  w_store w' = (request_otp p sid new_id now code salt stamp (w_store w)).2 ∧
  match (request_open p sid new_id now (w_store w)).1 with
  | inr d =>
      w_opened w' = w_opened (opened d new_id w) ∧ w_codes w' = w_codes w ++ [(d_id d, code)]
      ∧ w_verified w' = w_verified w ∧ w_wrong w' = w_wrong w ∧ w_pushes w' = w_pushes w
      ∧ (let m := <[d_id d := saved d code salt]> (s_sessions (w_store w)) in
         s_sessions (w_store w') = m ∨ s_sessions (w_store w') = delete (d_id d) m)
  | inl _ => w' = w
  end.
Proof.
  cbn [exec_call]. unfold request_otp. rewrite bind_run. pose proof (open_reads p sid new_id now (w_store w)) as Hr.
  destruct (request_open p sid new_id now (w_store w)) as [[e|d] s1] eqn:E; cbn [snd] in Hr; subst s1; [done|].
  cbn [exec fst]. rewrite E. cbn [fst opened w_unsaved w_store].
  rewrite list_lookup_middle by done. cbn [saved_code with_store w_unsent opened].
  rewrite list_lookup_middle by done. cbn [with_store w_store w_opened w_codes w_verified w_wrong w_pushes].
  split.
  - rewrite bind_run. cbn [request_save modify snd]. done.
  - split_and!; try done. apply (send_sessions d code salt stamp now).
Qed.

(** How many codes, wrong tries, acceptances and pushes a row stands for. *)
Definition row_tally (codes wrong accepted pushes : Z) (row : session) : Prop :=
  codes = vs_sends row ∧ 1 <= vs_sends row <= 3 ∧ 0 <= vs_attempts row ∧
  match vs_status row with
  | pending => vs_attempts row <= 4 ∧ wrong <= 4 * (vs_sends row - 1) + vs_attempts row ∧ accepted = 0 ∧ pushes = 0
  | blocked => wrong <= 4 * (vs_sends row - 1) + 5 ∧ accepted = 0 ∧ pushes = 0
  | verified => wrong <= 4 * vs_sends row ∧ accepted = 1 ∧ pushes = 0
  | consumed => wrong <= 4 * vs_sends row ∧ accepted = 1 ∧ pushes = 1
  end.

Definition n_codes (u : Z) (w : world) : Z := Z.of_nat (times u (w_codes w).*1).
Definition n_wrong (u : Z) (w : world) : Z := Z.of_nat (times u (w_wrong w)).
Definition n_accepted (u : Z) (w : world) : Z := Z.of_nat (times u (w_verified w).*1.*1).
Definition n_pushes (u : Z) (w : world) : Z := Z.of_nat (times u (w_pushes w).*1.*1).

Record calls_ok (w : world) : Prop := CallsOk {
  co_rows : ∀ u row, s_sessions (w_store w) !! u = Some row →
    u ∈ (w_opened w).*1 ∧ row_tally (n_codes u w) (n_wrong u w) (n_accepted u w) (n_pushes u w) row;
  co_fresh : ∀ u, u ∉ (w_opened w).*1 →
    n_codes u w = 0 ∧ n_wrong u w = 0 ∧ n_accepted u w = 0 ∧ n_pushes u w = 0;
  co_bounds : ∀ u, n_codes u w <= 3 ∧ n_wrong u w <= 13 ∧ n_accepted u w <= 1 ∧ n_pushes u w <= 1
}.

Lemma tally_bounds codes wrong accepted pushes row :
  row_tally codes wrong accepted pushes row → codes <= 3 ∧ wrong <= 13 ∧ accepted <= 1 ∧ pushes <= 1.
Proof. unfold row_tally. destruct (vs_status row); lia. Qed.

Lemma request_calls_ok p sid new_id now code salt stamp w :
  called (Request p sid new_id now code salt stamp) w = true → calls_ok w →
  calls_ok (exec_call (Request p sid new_id now code salt stamp) w).
Proof.
  intros Hs Hw. cbn in Hs. apply andb_true_iff in Hs as [_ Hnew%bool_decide_eq_true].
  destruct (request_run p sid new_id now code salt stamp w) as [_ Hrun].
  set (w' := exec_call _ w) in *. destruct (request_open p sid new_id now (w_store w)).1 as [e|d] eqn:E; [by rewrite Hrun|].
  apply open_draft in E. destruct Hrun as (Ho & Hc & Hv & Hwr & Hp & Hrows). destruct Hw as [H1 H2 H3].
  assert (∀ u, n_codes u w' = n_codes u w + (if decide (d_id d = u) then 1 else 0) ∧
               n_wrong u w' = n_wrong u w ∧ n_accepted u w' = n_accepted u w ∧ n_pushes u w' = n_pushes u w) as Hn.
  { intros u. unfold n_codes, n_wrong, n_accepted, n_pushes. rewrite Hc, Hv, Hwr, Hp, fmap_app, times_app.
    cbn [fmap list_fmap fst]. rewrite times_one. case_decide; lia. }
  assert (∀ u, u ∈ (w_opened w').*1 ↔ u ∈ (w_opened w).*1 ∨ u = d_id d) as Hop.
  { intros u. rewrite Ho. cbn. destruct (decide (d_id d = new_id)) as [Hd|Hd].
    - rewrite fmap_app, elem_of_app. cbn [fmap list_fmap fst]. rewrite list_elem_of_singleton, Hd. done.
    - destruct E as [-> |(v & row & _ & Hrow & _ & _ & ->)]; [done|]. cbn. split; [by left|].
      intros [?| ->]; [done|]. by apply (H1 v row). }
  assert (row_tally (n_codes (d_id d) w + 1) (n_wrong (d_id d) w) (n_accepted (d_id d) w) (n_pushes (d_id d) w)
            (saved d code salt)) as Htally.
  { unfold row_tally. cbn [saved with_code vs_sends vs_status vs_attempts].
    destruct E as [-> |(v & row & _ & Hrow & Hpend & Hsend & ->)]; cbn [d_id d_row new_session vs_sends].
    - destruct (H2 new_id Hnew). lia.
    - destruct (H1 v row Hrow) as [_ Ht]. unfold row_tally in Ht. rewrite Hpend in Ht.
      unfold MAX_SENDS_PER_SESSION in Hsend. lia. }
  constructor.
  - intros u row Hrow. destruct (Hn u) as (-> & -> & -> & ->). rewrite Hop.
    assert (u = d_id d ∧ row = saved d code salt ∨ u ≠ d_id d ∧ s_sessions (w_store w) !! u = Some row) as Hcase.
    { destruct Hrows as [Hr|Hr]; rewrite Hr in Hrow.
      - apply lookup_insert_Some in Hrow. naive_solver.
      - apply lookup_delete_Some in Hrow as [Hne Hrow]. rewrite lookup_insert_ne in Hrow by done. auto. }
    destruct Hcase as [[-> ->]|[Hne Hold]].
    + split; [by right|]. by rewrite decide_True by done.
    + destruct (H1 u row Hold) as [Hin Ht]. split; [by left|]. rewrite decide_False by done. by rewrite Z.add_0_r.
  - intros u Hu. destruct (Hn u) as (-> & -> & -> & ->). rewrite Hop in Hu.
    rewrite decide_False by (intros <-; apply Hu; by right). rewrite Z.add_0_r. apply H2. intros Hin. apply Hu. by left.
  - intros u. destruct (Hn u) as (-> & -> & -> & ->). destruct (decide (d_id d = u)) as [<-|Hu].
    + apply (tally_bounds _ _ _ _ _ Htally).
    + rewrite Z.add_0_r. apply H3.
Qed.

Lemma calls_ok_row w w' u row row' :
  calls_ok w → s_sessions (w_store w) !! u = Some row →
  s_sessions (w_store w') = <[u := row']> (s_sessions (w_store w)) → w_opened w' = w_opened w →
  (∀ v, v ≠ u → n_codes v w' = n_codes v w ∧ n_wrong v w' = n_wrong v w
                 ∧ n_accepted v w' = n_accepted v w ∧ n_pushes v w' = n_pushes v w) →
  (row_tally (n_codes u w) (n_wrong u w) (n_accepted u w) (n_pushes u w) row →
   row_tally (n_codes u w') (n_wrong u w') (n_accepted u w') (n_pushes u w') row') →
  calls_ok w'.
Proof.
  intros [H1 H2 H3] Hrow Hs Ho Hn Ht. destruct (H1 u row Hrow) as [Hin Htally]. apply Ht in Htally.
  constructor.
  - intros v r. rewrite Hs, Ho. destruct (decide (u = v)) as [<-|Hv].
    + rewrite lookup_insert_eq. intros [= <-]. done.
    + rewrite lookup_insert_ne by done. intros Hr. destruct (Hn v) as (-> & -> & -> & ->); [done|]. by apply H1.
  - intros v. rewrite Ho. intros Hv. destruct (Hn v) as (-> & -> & -> & ->); [|by apply H2]. intros ->. done.
  - intros v. destruct (decide (v = u)) as [->|Hv]; [apply (tally_bounds _ _ _ _ _ Htally)|].
    destruct (Hn v Hv) as (-> & -> & -> & ->). apply H3.
Qed.

Lemma answer_calls_ok sid code phone user now w :
  calls_ok w → calls_ok (exec_call (Answer sid code phone user now) w).
Proof.
  intros Hw. cbn [exec_call exec]. rewrite verify_run. destruct sid as [| |u]; [by destruct w..|].
  destruct (s_sessions (w_store w) !! u) as [row|] eqn:Hrow.
  2:{ cbn. rewrite counted_same. by destruct w. }
  pose proof (verify_cases code phone user now row) as Hc.
  destruct (verify_step code phone user now row) as [row' failure].
  destruct Hc as [[-> Hf]|(Hpend & [[-> Hf]|(-> & -> & _)])].
  { rewrite set_sessions_same by done. destruct failure as [[[msg c] rem]|]; [|done].
    cbn. rewrite counted_same. by destruct w. }
  - destruct failure as [[[msg c] rem]|]; [|done].
    assert (counted u (w_store w) (set_sessions (<[u := wrong_code row]> (s_sessions (w_store w))) (w_store w)) = true) as Hcount.
    { unfold counted. cbn [set_sessions s_sessions]. rewrite Hrow, lookup_insert_eq. cbn [fmap option_fmap option_map].
      rewrite bool_decide_false; [done|]. unfold wrong_code. cbn [vs_attempts]. intros [= E]. lia. }
    eapply (calls_ok_row _ _ u row (wrong_code row) Hw Hrow); [done|done| |];
      unfold n_codes, n_wrong, n_accepted, n_pushes; cbn [answered with_store w_store w_codes w_wrong w_verified w_pushes];
      rewrite Hcount.
    + intros v Hv. rewrite times_app, times_one, decide_False by done. lia.
    + rewrite times_app, times_one, decide_True by done. unfold row_tally, wrong_code. rewrite Hpend.
      cbn [vs_sends vs_attempts vs_status]. unfold MAX_ATTEMPTS.
      destruct (Z.leb_spec 5 (vs_attempts row + 1)); lia.
  - assert (counted u (w_store w) (set_sessions (<[u := right_code now row]> (s_sessions (w_store w))) (w_store w)) = false) as Hcount.
    { unfold counted. cbn [set_sessions s_sessions]. rewrite Hrow, lookup_insert_eq. by rewrite bool_decide_true. }
    eapply (calls_ok_row _ _ u row (right_code now row) Hw Hrow); [done|done|intros v Hv|];
      unfold n_codes, n_wrong, n_accepted, n_pushes; cbn [answered with_store w_store w_codes w_wrong w_verified w_pushes];
      rewrite Hcount, !fmap_app, times_app; cbn [fmap list_fmap fst]; rewrite times_one.
    + rewrite decide_False by done. lia.
    + rewrite decide_True by done. unfold row_tally. rewrite Hpend. cbn [right_code vs_sends vs_attempts vs_status]. lia.
Qed.

Lemma pay_calls_ok sid p now w : calls_ok w → calls_ok (exec_call (Pay sid p now) w).
Proof.
  intros Hw. cbn [exec_call exec]. pose proof (consume_run sid p now (w_store w)) as Hrun.
  destruct sid as [| |u]; [destruct Hrun as [e ->]; by destruct w..|].
  destruct (s_sessions (w_store w) !! u) as [row|] eqn:Hrow; [|destruct Hrun as [e ->]; by destruct w].
  destruct (claims p now row) eqn:Hcl; [|destruct Hrun as [e ->]; by destruct w]. rewrite Hrun.
  unfold claims in Hcl. rewrite !andb_true_iff, !bool_decide_eq_true in Hcl. destruct Hcl as [[[[Hst _] _] _] _].
  eapply (calls_ok_row _ _ u row (consumed_row now row) Hw Hrow); [done|done|intros v Hv|];
    unfold n_codes, n_wrong, n_accepted, n_pushes; cbn [pushed with_store w_store w_codes w_wrong w_verified w_pushes];
    rewrite !fmap_app, times_app; cbn [fmap list_fmap fst]; rewrite times_one.
  - rewrite decide_False by done. lia.
  - rewrite decide_True by done. unfold row_tally. rewrite Hst. cbn [consumed_row vs_sends vs_attempts vs_status]. lia.
Qed.

Lemma run_calls_ok ks w : all_called ks w = true → calls_ok w → calls_ok (run_calls ks w).
Proof.
  revert w. induction ks as [|k ks IH]; intros w; [done|]. cbn [all_called run_calls].
  intros [Hk Hks]%andb_true_iff Hw. apply IH; [done|]. destruct k.
  - by apply request_calls_ok.
  - by apply answer_calls_ok.
  - by apply pay_calls_ok.
Qed.

(** C19.  As long as no two requests overlap, a session sees at most three
    codes, thirteen wrong tries, one acceptance and one push. *)
Theorem session_limits ks c0 :
  all_called ks (fresh_world c0) = true →
  ∀ u, let w := run_calls ks (fresh_world c0) in
  n_codes u w <= 3 ∧ n_wrong u w <= 13 ∧ n_accepted u w <= 1 ∧ n_pushes u w <= 1.
Proof.
  intros Hs u w. apply (co_bounds w). apply run_calls_ok; [done|]. constructor; cbn; [|done|].
  - intros v row Hr. by rewrite lookup_empty in Hr.
  - intros v. unfold n_codes, n_wrong, n_accepted, n_pushes. cbn. lia.
Qed.

End Otp.

(** ** Concrete runs

    A digest and a hash that satisfy the hypotheses, and the map for a
    cache. *)

Definition plain_digest (s : string) : string := s.
Definition plain_hash (code salt : string) : string := "h" +:+ code.
Definition plain_check (code hash : string) : bool := String.eqb hash ("h" +:+ code).

Notation entries := (gmap string (Cache.value * Z)).

Definition a_payment : payment := Payment "subscription" None "251912345678" "tier-1".

Lemma pushes_are_verified_witness :
  let es := [Open a_payment NoSession 1 0; Save 0 "123456" "s"; Send 0 "0" 0;
             Verify (Uuid 1) "000000" (Some "251912345678") None (10 * second);
             Verify (Uuid 1) "123456" (Some "251912345678") None (20 * second);
             Push (Uuid 1) (Payment "subscription" None "251912345678" "tier-2") (30 * second);
             Push (Uuid 1) a_payment (30 * second); Push (Uuid 1) a_payment (40 * second)] in
  let w := run plain_digest plain_hash plain_check es (fresh_world (∅ : entries)) in
  w_pushes w = [(1, a_payment, 30 * second)] ∧
  (∀ u p t, (u, p, t) ∈ w_pushes w →
    (∀ q, (u, q) ∈ w_opened w ↔ q = p) ∧
    ∃ tv code, (u, tv, code) ∈ w_verified w ∧ (u, code) ∈ w_codes w ∧ t < tv + 10 * minute) ∧
  (∀ u, (times u (w_pushes w).*1.*1 <= times u (w_verified w).*1.*1 <= times u (w_codes w).*1)%nat).
Proof.
  intros es w. split; [vm_compute; reflexivity|].
  apply (pushes_are_verified plain_digest plain_hash plain_check).
  - intros a b H. exact H.
  - intros code code' salt H. apply String.eqb_eq in H. by injection H.
  - vm_compute. reflexivity.
Defined.

Definition guess (now : Z) : call := Answer (Uuid 1) "000000" (Some "251912345678") None now.
Definition ask (now : Z) (code : string) : call := Request a_payment (Uuid 1) 1 now code "s" "0".

(** Asking again before the fifth wrong try starts the count over. *)
Lemma session_limits_witness :
  let ks := Request a_payment NoSession 1 0 "111111" "s" "0" :: repeat (guess second) 4
            ++ Request a_payment (Uuid 1) 2 (60 * second) "222222" "s" "1" :: repeat (guess (61 * second)) 4
            ++ Request a_payment (Uuid 1) 3 (120 * second) "333333" "s" "2" :: repeat (guess (121 * second)) 6 in
  let w := run_calls plain_digest plain_hash plain_check ks (fresh_world (∅ : entries)) in
  (n_codes 1 w, n_wrong 1 w, vs_status <$> s_sessions (w_store w) !! 1) = (3, 13, Some blocked) ∧
  (n_codes 1 w <= 3 ∧ n_wrong 1 w <= 13 ∧ n_accepted 1 w <= 1 ∧ n_pushes 1 w <= 1).
Proof.
  intros ks w. split; [vm_compute; reflexivity|].
  apply (session_limits plain_digest plain_hash plain_check). vm_compute. reflexivity.
Defined.

(** A resend whose row was read before the code was accepted and written
    after the push: the spent session is pending again, and goes on to
    authorise a second push. *)
Example spent_session_revived :
  let w := run plain_digest plain_hash plain_check
    [Open a_payment NoSession 1 0; Save 0 "111111" "s"; Send 0 "0" 0;
     Open a_payment (Uuid 1) 2 (70 * second);
     Verify (Uuid 1) "111111" (Some "251912345678") None (71 * second);
     Push (Uuid 1) a_payment (72 * second);
     Save 1 "222222" "s"; Send 1 "1" (73 * second);
     Verify (Uuid 1) "222222" (Some "251912345678") None (80 * second);
     Push (Uuid 1) a_payment (81 * second)] (fresh_world (∅ : entries)) in
  w_pushes w = [(1, a_payment, 72 * second); (1, a_payment, 81 * second)].
Proof. by vm_compute. Qed.

(** Two requests that overlap take the same key: the second message is
    suppressed as a repeat of the first, while the row keeps the hash of the
    code that was never sent. *)
Example overlapping_requests_lose_the_code :
  let w := run plain_digest plain_hash plain_check
    [Open a_payment NoSession 1 0; Save 0 "111111" "s"; Send 0 "0" 0;
     Open a_payment (Uuid 1) 2 (70 * second); Open a_payment (Uuid 1) 3 (70 * second);
     Save 1 "222222" "s"; Send 1 "1" (70 * second); Save 2 "333333" "s"; Send 2 "2" (71 * second)]
    (fresh_world (∅ : entries)) in
  (SmsQueue.m_body <$> s_messages (w_store w)) = [otp_text "111111"; otp_text "222222"] ∧
  vs_hash <$> s_sessions (w_store w) !! 1 = Some (plain_hash "333333" "s").
Proof. by vm_compute. Qed.

(** A malformed session id reaches the database layer, which raises. *)
Example malformed_session_id_raises :
  (request_ussd_push_otp plain_digest plain_hash None "" "subscription" "tier-1" "0912345678" NotUuid 1 0
     "111111" "s" "0" (Store ∅ [] (∅ : entries))).1 = inl (ValidationError "is not a valid UUID.").
Proof. by vm_compute. Qed.

End PaymentOtp.
