(* ===== verification/LoginOtp.v ===== *)
(** * LoginOtp: the codes that prove a number at login and registration

    Models [src/api/services/otp.py] ([OTPService]), whose whole state is in
    the cache, and the message it queues.  The theorems run its calls one at a
    time, against any cache that keeps [CacheLaws]; the calls read and write
    the cache without a lock, which is what the examples at the end are
    about. *)

From Stdlib Require Import ZArith Lia.
From S2P Require Import Prelude SmsGateway SmsQueue Cache.

Module LoginOtp.
Import Cache.

Definition OTP_EXPIRY : Z := 5 * minute.
Definition MAX_ATTEMPTS : Z := 3.
Definition RATE_LIMIT : Z := 1 * minute.
Definition VERIFIED_TTL : Z := 15 * minute.

Definition get_rate_limit_key (phone : string) : string := "otp_rate_limit:" +:+ phone.
Definition get_otp_cache_key (phone : string) : string := "otp:" +:+ phone.
Definition get_verified_cache_key (phone : string) : string := "phone_verified:" +:+ phone.

#[global] Arguments get_rate_limit_key : simpl never.
#[global] Arguments get_otp_cache_key : simpl never.
#[global] Arguments get_verified_cache_key : simpl never.

Section Service.
Context {C : Type} `{cache_c : Cache C}.

(** The messages and the cache. *)
Record store := Store { s_messages : list SmsQueue.message; s_cache : C }.
Definition set_messages (t : list SmsQueue.message) (s : store) : store := Store t (s_cache s).
Definition on_cache (f : C → C) : M store unit := modify (λ s, Store (s_messages s) (f (s_cache s))).
Definition look (now : Z) (k : string) : M store (option value) := gets (λ s, cache_get (s_cache s) now k).

Definition can_send_otp (phone : string) (now : Z) : M store (bool * string) :=
  last_sent ← look now (get_rate_limit_key phone);
  match last_sent with
  | Some _ => mret (false, "Please wait before requesting another OTP")
  | None => mret (true, "")
  end.

Definition message_for (action code : string) : string :=
  if String.eqb action "password_reset"
  then "Your OTP for password reset is " +:+ code +:+ ". Use this to reset your password. Valid for 5 minutes."
  else "Your verification code is: " +:+ code +:+ ". Valid for 5 minutes.".

(** [code] is what [generate_otp] draws, [stamp] what the clock prints. *)
Definition send_otp (phone action code stamp : string) (now : Z) : M store (bool * string) :=
  r ← can_send_otp phone now;
  match r with
  | (false, error) => mret (false, error)
  | (true, _) =>
      on_cache (λ c, cache_set c now (get_otp_cache_key phone) (VCode code (now + OTP_EXPIRY) 0) OTP_EXPIRY) ≫= λ _,
      on_cache (λ c, cache_set c now (get_rate_limit_key phone) (VText stamp) RATE_LIMIT) ≫= λ _,
      catch (zoom s_messages set_messages
               (SmsQueue.queue_sms phone (message_for action code)
                  (if String.eqb action "" then "otp" else "otp_" +:+ action) "" "" stamp now) ≫= λ _,
             mret (true, "OTP sent to " +:+ phone))
        (λ e, match e with
              | SmsNotQueued m => Some (mret (true, "OTP generated (SMS not queued: " +:+ m +:+ ")"))
              | _ => None
              end)
  end.

Definition mark_verified (phone stamp : string) (now : Z) : M store unit :=
  on_cache (λ c, cache_set c now (get_verified_cache_key phone) (VText stamp) VERIFIED_TTL).

Definition verify_otp (phone code stamp : string) (now : Z) : M store (bool * string) :=
  let key := get_otp_cache_key phone in
  otp_data ← look now key;
  match otp_data with
  | Some (VCode stored expires_at attempts) =>
      if expires_at <? now then
        on_cache (λ c, cache_delete c now key) ≫= λ _, mret (false, "OTP expired")
      else if MAX_ATTEMPTS <=? attempts then
        on_cache (λ c, cache_delete c now key) ≫= λ _, mret (false, "Maximum attempts (3) exceeded")
      else if negb (String.eqb stored code) then
        on_cache (λ c, cache_set c now key (VCode stored expires_at (attempts + 1)) OTP_EXPIRY) ≫= λ _,
        mret (false, "Invalid OTP. " +:+ str_int (MAX_ATTEMPTS - attempts - 1) +:+ " attempts remaining")
      else
        on_cache (λ c, cache_delete c now key) ≫= λ _,
        mark_verified phone stamp now ≫= λ _,
        mret (true, "OTP verified successfully")
  | _ => mret (false, "OTP expired or not found")
  end.

Definition reset_otp (phone : string) (now : Z) : M store unit :=
  on_cache (λ c, cache_delete c now (get_otp_cache_key phone)).

Definition is_verified (phone : string) (now : Z) : M store bool :=
  v ← look now (get_verified_cache_key phone); mret (bool_decide (is_Some v)).

Definition consume_verification (phone : string) (now : Z) : M store bool :=
  let key := get_verified_cache_key phone in
  v ← look now key;
  match v with
  | None => mret false
  | Some _ => on_cache (λ c, cache_delete c now key) ≫= λ _, mret true
  end.

(** ** Calls, one at a time

    Beside the store, what happened to each number, which is not in the code:
    the code sent last, with the instant it was sent and the wrong tries at
    it, until it is accepted; the last acceptance not yet used; and the log. *)

Record number := Number {
  n_code : option (string * Z * Z); n_accepted : option Z;
  n_sent : Z; n_oks : Z; n_used : Z; n_wrong : Z
}.
Definition unknown : number := Number None None 0 0 0 0.

Record world := World { w_store : store; w_clock : Z; w_numbers : gmap string number }.

Definition number_of (phone : string) (w : world) : number := default unknown (w_numbers w !! phone).

Inductive call :=
| SendOtp (phone action code stamp : string) (now : Z)
| VerifyOtp (phone code stamp : string) (now : Z)
| ResetOtp (phone : string) (now : Z)
| Consume (phone : string) (now : Z).

Definition time_of (k : call) : Z :=
  match k with SendOtp _ _ _ _ t | VerifyOtp _ _ _ t | ResetOtp _ t | Consume _ t => t end.

(** The number after a call that answered [ok]. *)
Definition noted (k : call) (ok : bool) (n : number) : number :=
  match k with
  | SendOtp _ _ code _ now =>
      if ok then Number (Some (code, now, 0)) (n_accepted n) (n_sent n + 1) (n_oks n) (n_used n) (n_wrong n) else n
  | VerifyOtp _ code _ now =>
      if ok then Number None (Some now) (n_sent n) (n_oks n + 1) (n_used n) (n_wrong n)
      else match n_code n with
           | Some (c, t, tries) =>
               if (now <=? t + OTP_EXPIRY) && (tries <? MAX_ATTEMPTS) && negb (String.eqb c code)
               then Number (Some (c, t, tries + 1)) (n_accepted n) (n_sent n) (n_oks n) (n_used n) (n_wrong n + 1)
               else n
           | None => n
           end
  | ResetOtp _ _ => n
  | Consume _ _ =>
      if ok then Number (n_code n) None (n_sent n) (n_oks n) (n_used n + 1) (n_wrong n) else n
  end.

Definition phone_of (k : call) : string :=
  match k with SendOtp p _ _ _ _ | VerifyOtp p _ _ _ | ResetOtp p _ | Consume p _ => p end.

Definition perform (k : call) : M store bool :=
  match k with
  | SendOtp p action code stamp now => r ← send_otp p action code stamp now; mret r.1
  | VerifyOtp p code stamp now => r ← verify_otp p code stamp now; mret r.1
  | ResetOtp p now => reset_otp p now ≫= λ _, mret true
  | Consume p now => consume_verification p now
  end.

Definition exec (k : call) (w : world) : world :=
  let '(r, s') := perform k (w_store w) in
  let ok := match r with inr b => b | inl _ => false end in
  World s' (time_of k) (<[phone_of k := noted k ok (number_of (phone_of k) w)]> (w_numbers w)).

Fixpoint run (ks : list call) (w : world) : world :=
  match ks with [] => w | k :: ks' => run ks' (exec k w) end.

(** The clock does not go back. *)
Fixpoint in_order (clock : Z) (ks : list call) : bool :=
  match ks with [] => true | k :: ks' => (clock <=? time_of k) && in_order (time_of k) ks' end.

(** ** Runs of the calls *)

Lemma send_run phone action code stamp now s :
  ∃ msg t',
  send_otp phone action code stamp now s =
  match cache_get (s_cache s) now (get_rate_limit_key phone) with
  | Some _ => (inr (false, "Please wait before requesting another OTP"), s)
  | None => (inr (true, msg),
      Store t' (cache_set (cache_set (s_cache s) now (get_otp_cache_key phone) (VCode code (now + OTP_EXPIRY) 0) OTP_EXPIRY)
                  now (get_rate_limit_key phone) (VText stamp) RATE_LIMIT))
  end.
Proof.
  unfold send_otp, can_send_otp, look. rewrite bind_run, bind_run. unfold gets.
  destruct (cache_get _ _ _); [by exists "", []|]. cbn [mret M_ret]. unfold on_cache. rewrite !bind_run.
  cbn [modify]. rewrite bind_run. cbn [modify s_messages s_cache]. unfold catch. rewrite bind_run, zoom_run.
  cbn [s_messages s_cache set_messages].
  pose proof (SmsQueue.queue_cases phone (message_for action code)
    (if String.eqb action "" then "otp" else "otp_" +:+ action) "" "" stamp now (s_messages s)) as Hq.
  destruct (SmsQueue.queue_sms _ _ _ _ _ _ _ _) as [[e|pk] t'] eqn:E; cbn [fst snd].
  - destruct e; try done. by do 2 eexists.
  - by do 2 eexists.
Qed.

(** [verify_otp] on the entry it finds. *)
Lemma login_verify_run phone code stamp now s :
  ∃ msg,
  verify_otp phone code stamp now s =
  let key := get_otp_cache_key phone in
  let c := s_cache s in
  match cache_get c now key with
  | Some (VCode stored expires_at attempts) =>
      if (expires_at <? now) || (MAX_ATTEMPTS <=? attempts)
      then (inr (false, msg), Store (s_messages s) (cache_delete c now key))
      else if String.eqb stored code
      then (inr (true, msg), Store (s_messages s)
              (cache_set (cache_delete c now key) now (get_verified_cache_key phone) (VText stamp) VERIFIED_TTL))
      else (inr (false, msg), Store (s_messages s) (cache_set c now key (VCode stored expires_at (attempts + 1)) OTP_EXPIRY))
  | _ => (inr (false, msg), s)
  end.
Proof.
  unfold verify_otp, look. rewrite bind_run. unfold gets.
  destruct (cache_get _ _ _) as [[n|x|stored e a]|]; try by eexists.
  destruct (e <? now); [by eexists|]. destruct (MAX_ATTEMPTS <=? a); [by eexists|].
  destruct (String.eqb stored code); by eexists.
Qed.

Lemma perform_reset phone now s :
  perform (ResetOtp phone now) s =
  (inr true, Store (s_messages s) (cache_delete (s_cache s) now (get_otp_cache_key phone))).
Proof. reflexivity. Qed.

Lemma perform_consume phone now s :
  perform (Consume phone now) s =
  match cache_get (s_cache s) now (get_verified_cache_key phone) with
  | None => (inr false, s)
  | Some _ => (inr true, Store (s_messages s) (cache_delete (s_cache s) now (get_verified_cache_key phone)))
  end.
Proof.
  cbn [perform]. unfold consume_verification, look. rewrite bind_run. cbn [gets].
  by destruct (cache_get _ now _).
Qed.

Lemma perform_verify phone code stamp now s :
  perform (VerifyOtp phone code stamp now) s =
  let key := get_otp_cache_key phone in
  let c := s_cache s in
  match cache_get c now key with
  | Some (VCode stored expires_at attempts) =>
      if (expires_at <? now) || (MAX_ATTEMPTS <=? attempts)
      then (inr false, Store (s_messages s) (cache_delete c now key))
      else if String.eqb stored code
      then (inr true, Store (s_messages s)
              (cache_set (cache_delete c now key) now (get_verified_cache_key phone) (VText stamp) VERIFIED_TTL))
      else (inr false, Store (s_messages s) (cache_set c now key (VCode stored expires_at (attempts + 1)) OTP_EXPIRY))
  | _ => (inr false, s)
  end.
Proof.
  cbn [perform]. rewrite bind_run. destruct (login_verify_run phone code stamp now s) as [msg ->]. cbn zeta.
  destruct (cache_get _ now _) as [[n|x|stored e a]|]; try done.
  destruct (_ || _); [done|]. by destruct (String.eqb stored code).
Qed.

Lemma perform_send phone action code stamp now s : ∃ t',
  perform (SendOtp phone action code stamp now) s =
  match cache_get (s_cache s) now (get_rate_limit_key phone) with
  | Some _ => (inr false, s)
  | None => (inr true,
      Store t' (cache_set (cache_set (s_cache s) now (get_otp_cache_key phone) (VCode code (now + OTP_EXPIRY) 0) OTP_EXPIRY)
                  now (get_rate_limit_key phone) (VText stamp) RATE_LIMIT))
  end.
Proof.
  cbn [perform]. rewrite bind_run. destruct (send_run phone action code stamp now s) as (msg & t' & ->).
  exists t'. by destruct (cache_get _ now _).
Qed.

(** ** What every call keeps *)

Context `{laws : !CacheLaws C}.

Definition has {A} (o : option A) : Z := if o then 1 else 0.

(** The cache, from now on, against what happened to the number. *)
Record number_ok (c : C) (clock : Z) (phone : string) (n : number) : Prop := NumberOk {
  no_code : ∀ t v, clock <= t → cache_get c t (get_otp_cache_key phone) = Some v →
    ∃ code sent tries, n_code n = Some (code, sent, tries) ∧ v = VCode code (sent + OTP_EXPIRY) tries;
  no_verified : ∀ t v, clock <= t → cache_get c t (get_verified_cache_key phone) = Some v →
    ∃ at_, n_accepted n = Some at_ ∧ t < at_ + VERIFIED_TTL;
  no_used : n_used n + has (n_accepted n) <= n_oks n;
  no_oks : n_oks n + has (n_code n) <= n_sent n;
  no_wrong : match n_code n with
             | Some (_, _, tries) => 0 <= tries <= MAX_ATTEMPTS ∧ n_wrong n <= MAX_ATTEMPTS * (n_sent n - 1) + tries
             | None => n_wrong n <= MAX_ATTEMPTS * n_sent n
             end
}.

Lemma otp_key_inj p q : get_otp_cache_key p = get_otp_cache_key q → p = q.
Proof. apply (string_app_inv "otp:"). Qed.
Lemma verified_key_inj p q : get_verified_cache_key p = get_verified_cache_key q → p = q.
Proof. apply (string_app_inv "phone_verified:"). Qed.
Lemma keys_differ p q :
  get_otp_cache_key p ≠ get_verified_cache_key q ∧ get_rate_limit_key p ≠ get_otp_cache_key q
  ∧ get_rate_limit_key p ≠ get_verified_cache_key q.
Proof. done. Qed.

Lemma number_ok_later c clock clock' phone n :
  clock <= clock' → number_ok c clock phone n → number_ok c clock' phone n.
Proof. intros Ht [H1 H2 H3 H4 H5]. constructor; try done; intros t v Hc Hg; [apply (H1 t v)|apply (H2 t v)]; (lia || done). Qed.

(** Another cache that agrees on the number's two keys. *)
Lemma number_ok_agree c c' clock phone n :
  (∀ t, clock <= t → cache_get c' t (get_otp_cache_key phone) = cache_get c t (get_otp_cache_key phone)) →
  (∀ t, clock <= t → cache_get c' t (get_verified_cache_key phone) = cache_get c t (get_verified_cache_key phone)) →
  number_ok c clock phone n → number_ok c' clock phone n.
Proof.
  intros Ho Hv [H1 H2 H3 H4 H5]. constructor; try done; intros t v Ht Hg.
  - apply (H1 t v); [done|]. by rewrite <- Ho.
  - apply (H2 t v); [done|]. by rewrite <- Hv.
Qed.

Definition world_ok (w : world) : Prop :=
  ∀ q, number_ok (s_cache (w_store w)) (w_clock w) q (number_of q w).

(** A call touches the keys of its own number only. *)
Lemma perform_others k s q t :
  q ≠ phone_of k →
  let c' := s_cache (perform k s).2 in
  cache_get c' t (get_otp_cache_key q) = cache_get (s_cache s) t (get_otp_cache_key q) ∧
  cache_get c' t (get_verified_cache_key q) = cache_get (s_cache s) t (get_verified_cache_key q).
Proof.
  intros Hq. destruct k as [p action code stamp now|p code stamp now|p now|p now]; cbn [phone_of] in *.
  all: assert (get_otp_cache_key p ≠ get_otp_cache_key q) by (intros E%otp_key_inj; done).
  all: assert (get_verified_cache_key p ≠ get_verified_cache_key q) by (intros E%verified_key_inj; done).
  all: pose proof (keys_differ p q) as (? & ? & ?); pose proof (keys_differ q p) as (? & _ & _); cbn zeta.
  - destruct (perform_send p action code stamp now s) as (t' & ->).
    destruct (cache_get _ now _); [done|]. cbn [snd s_cache]. by rewrite !get_set_ne by done.
  - rewrite perform_verify. cbn zeta. destruct (cache_get _ now _) as [[n|x|stored e a]|]; try done.
    destruct (_ || _); [|destruct (String.eqb stored code)]; cbn [snd s_cache];
      rewrite ?get_set_ne, ?get_delete_ne by done; done.
  - rewrite perform_reset. cbn [snd s_cache]. by rewrite !get_delete_ne by done.
  - rewrite perform_consume. destruct (cache_get _ now _); [|done]. cbn [snd s_cache]. by rewrite !get_delete_ne by done.
Qed.

(** A wrong try at the code of [n]: only the cache's entry is left to
    check. *)
Lemma wrong_try c c' clock phone n code sent tries :
  number_ok c clock phone n → n_code n = Some (code, sent, tries) → tries < MAX_ATTEMPTS →
  (∀ t v, clock <= t → cache_get c' t (get_otp_cache_key phone) = Some v → v = VCode code (sent + OTP_EXPIRY) (tries + 1)) →
  (∀ t, clock <= t → cache_get c' t (get_verified_cache_key phone) = cache_get c t (get_verified_cache_key phone)) →
  number_ok c' clock phone
    (Number (Some (code, sent, tries + 1)) (n_accepted n) (n_sent n) (n_oks n) (n_used n) (n_wrong n + 1)).
Proof.
  intros [H1 H2 H3 H4 H5] En Ht Hc Hv. rewrite En in H4, H5. cbn [has] in H4.
  constructor; cbn [n_code n_accepted n_sent n_oks n_used n_wrong has].
  - intros t v Hle Hg. rewrite (Hc t v Hle Hg). eauto.
  - intros t v Hle. rewrite Hv by done. by apply H2.
  - done.
  - lia.
  - unfold MAX_ATTEMPTS in *. lia.
Qed.

Lemma own_verify p code stamp now s n :
  number_ok (s_cache s) now p n →
  let r := perform (VerifyOtp p code stamp now) s in
  number_ok (s_cache r.2) now p (noted (VerifyOtp p code stamp now) (match r.1 with inr b => b | inl _ => false end) n).
Proof.
  intros Hn. pose proof (keys_differ p p) as (Hk1 & Hk2 & Hk3). rewrite perform_verify. cbn zeta.
  destruct (cache_get (s_cache s) now (get_otp_cache_key p)) as [v|] eqn:Hg.
  - destruct (no_code _ _ _ _ Hn now v (Z.le_refl _) Hg) as (stored & sent & tries & En & ->).
    destruct ((sent + OTP_EXPIRY <? now) || (MAX_ATTEMPTS <=? tries)) eqn:Hdead; cbn [fst snd s_cache noted]; rewrite ?En.
    + assert ((now <=? sent + OTP_EXPIRY) && (tries <? MAX_ATTEMPTS) = false) as ->.
      { apply andb_false_iff. apply orb_true_iff in Hdead as [H%Z.ltb_lt|H%Z.leb_le]; [left|right]; lia. }
      destruct Hn as [H1 H2 H3 H4 H5]. constructor; try done.
      * intros t v _ Hd. by rewrite get_delete in Hd.
      * intros t v Hle. rewrite get_delete_ne by done. by apply H2.
    + apply orb_false_iff in Hdead as [Hexp%Z.ltb_ge Htr%Z.leb_gt].
      destruct (String.eqb_spec stored code) as [->|Hne]; cbn [fst snd s_cache].
      * destruct Hn as [H1 H2 H3 H4 H5]. rewrite En in *. cbn [has] in H4.
        constructor; cbn [n_code n_accepted n_sent n_oks n_used n_wrong has].
        -- intros t v _ Hd. rewrite get_set_ne, get_delete in Hd by done. done.
        -- intros t v Hle. rewrite get_set by done. destruct (Z.ltb_spec t (now + VERIFIED_TTL)); [|done]. eauto.
        -- destruct (n_accepted n); cbn in *; lia.
        -- lia.
        -- unfold MAX_ATTEMPTS in *. lia.
      * rewrite (proj2 (Z.leb_le _ _) Hexp), (proj2 (Z.ltb_lt _ _) Htr). cbn [andb negb].
        apply (wrong_try (s_cache s)); try done.
        -- intros t v Hle. rewrite get_set by done. destruct (t <? _); [|done]. by intros [= <-].
        -- intros t _. by rewrite get_set_ne by done.
  - cbn [fst snd s_cache noted]. destruct (n_code n) as [[[c sent] tries]|] eqn:En; [|done].
    destruct (_ && _ && _) eqn:Hcond; [|done]. rewrite !andb_true_iff, Z.ltb_lt in Hcond. destruct Hcond as [[_ Htr] _].
    apply (wrong_try (s_cache s)); try done.
    intros t v Hle Hd. rewrite (get_gone _ now) in Hd; done.
Qed.

(** The number the call is about. *)
Lemma perform_own k s n :
  number_ok (s_cache s) (time_of k) (phone_of k) n →
  let r := perform k s in
  number_ok (s_cache r.2) (time_of k) (phone_of k) (noted k (match r.1 with inr b => b | inl _ => false end) n).
Proof.
  intros Hn. cbn zeta.
  destruct k as [p action code stamp now|p code stamp now|p now|p now]; cbn [phone_of time_of] in *;
    pose proof (keys_differ p p) as (Hk1 & Hk2 & Hk3).
  - destruct (perform_send p action code stamp now s) as (t' & ->).
    destruct (cache_get _ now (get_rate_limit_key p)); [done|]. cbn [fst snd s_cache noted].
    destruct Hn as [H1 H2 H3 H4 H5]. constructor; cbn [n_code n_accepted n_sent n_oks n_used n_wrong has].
    + intros t v Hnow. rewrite get_set_ne, get_set by done. destruct (t <? _); [|done]. intros [= <-]. eauto.
    + intros t v Hnow. rewrite !get_set_ne by done. by apply H2.
    + done.
    + destruct (n_code n); cbn in *; lia.
    + destruct (n_code n) as [[[c0 t0] tries]|]; unfold MAX_ATTEMPTS in *; lia.
  - by apply own_verify.
  - rewrite perform_reset. cbn [fst snd s_cache noted]. destruct Hn as [H1 H2 H3 H4 H5]. constructor; try done.
    + intros t v _ Hd. by rewrite get_delete in Hd.
    + intros t v Hle. rewrite get_delete_ne by done. by apply H2.
  - rewrite perform_consume. destruct (cache_get _ now _) as [v|] eqn:Hg; cbn [fst snd s_cache noted]; [|done].
    destruct (no_verified _ _ _ _ Hn now v (Z.le_refl _) Hg) as (at_ & Ea & _).
    destruct Hn as [H1 H2 H3 H4 H5]. rewrite Ea in *. cbn [has] in H3.
    constructor; cbn [n_code n_accepted n_sent n_oks n_used n_wrong has]; try done.
    + intros t w Hle. rewrite get_delete_ne by done. by apply H1.
    + intros t w _ Hd. by rewrite get_delete in Hd.
    + lia.
Qed.

Lemma login_exec_ok k w : w_clock w <= time_of k → world_ok w → world_ok (exec k w).
Proof.
  intros Ht Hw q. unfold exec. destruct (perform k (w_store w)) as [r s'] eqn:E.
  unfold number_of. cbn [w_store w_clock w_numbers].
  pose proof (number_ok_later _ _ _ _ _ Ht (Hw q)) as Hq. unfold number_of in Hq.
  destruct (decide (q = phone_of k)) as [->|Hne].
  - rewrite lookup_insert_eq. cbn [default]. apply perform_own in Hq. by rewrite E in Hq.
  - rewrite lookup_insert_ne by done. pose proof (λ t, perform_others k (w_store w) q t Hne) as Ho. rewrite E in Ho.
    eapply number_ok_agree; [| |exact Hq]; intros t _; apply (Ho t).
Qed.

Lemma login_run_ok ks w : in_order (w_clock w) ks = true → world_ok w → world_ok (run ks w).
Proof.
  revert w. induction ks as [|k ks IH]; intros w; [done|]. cbn [in_order run].
  intros [Hk%Z.leb_le Hks]%andb_true_iff Hw. apply IH; [|by apply login_exec_ok].
  unfold exec. by destruct (perform k (w_store w)).
Qed.

(** A cache with nothing in it. *)
Definition empty_cache (c : C) : Prop := ∀ t k, cache_get c t k = None.

Definition fresh_world (c : C) (clock : Z) : world := World (Store [] c) clock ∅.

Lemma login_fresh_ok c clock : empty_cache c → world_ok (fresh_world c clock).
Proof.
  intros Hc q. unfold number_of. cbn. rewrite lookup_empty.
  constructor; cbn; try lia; intros t v _ Hg; by rewrite Hc in Hg.
Qed.

(** C20.  Run one at a time, with a clock that does not go back, the calls accept
    only the code last sent to the number, within five minutes of when it was
    sent and before the third wrong try has been counted; every acceptance uses
    up a code and every registration an acceptance at most fifteen minutes old;
    and at most three wrong tries are counted per code sent. *)
Theorem login_codes ks c clock phone code stamp now :
  empty_cache c → in_order clock ks = true →
  let w := run ks (fresh_world c clock) in
  let n := number_of phone w in
  w_clock w <= now →
  (∀ msg s', verify_otp phone code stamp now (w_store w) = (inr (true, msg), s') →
     ∃ sent tries, n_code n = Some (code, sent, tries) ∧ now <= sent + 5 * minute ∧ tries < 3) ∧
  (∀ s', consume_verification phone now (w_store w) = (inr true, s') →
     ∃ accepted, n_accepted n = Some accepted ∧ now < accepted + 15 * minute) ∧
  n_used n <= n_oks n <= n_sent n ∧ n_wrong n <= 3 * n_sent n.
Proof.
  intros Hc Hks w n Hnow. pose proof (login_run_ok ks (fresh_world c clock) Hks (login_fresh_ok c clock Hc) phone) as Hn.
  fold w n in Hn. apply (number_ok_later _ _ _ _ _ Hnow) in Hn. split_and!.
  - intros msg s' Hv. destruct (login_verify_run phone code stamp now (w_store w)) as [msg' E]. rewrite E in Hv. clear E.
    cbn zeta in Hv. destruct (cache_get _ now _) as [v|] eqn:Hg; [|done].
    destruct (no_code _ _ _ _ Hn now v (Z.le_refl _) Hg) as (stored & sent & tries & En & ->).
    destruct (_ || _) eqn:Hdead; [done|]. apply orb_false_iff in Hdead as [Hexp%Z.ltb_ge Htr%Z.leb_gt].
    destruct (String.eqb_spec stored code) as [->|]; [|done]. exists sent, tries. done.
  - intros s' Hv. pose proof (perform_consume phone now (w_store w)) as E. cbn [perform] in E. rewrite E in Hv.
    destruct (cache_get _ now _) as [v|] eqn:Hg; [|done].
    apply (no_verified _ _ _ _ Hn now v (Z.le_refl _) Hg).
  - pose proof (no_used _ _ _ _ Hn). destruct (n_accepted n); cbn in *; lia.
  - pose proof (no_oks _ _ _ _ Hn). destruct (n_code n); cbn in *; lia.
  - pose proof (no_wrong _ _ _ _ Hn) as Hw. destruct (n_code n) as [[[c0 t0] tries]|]; unfold MAX_ATTEMPTS in *; lia.
Qed.

End Service.

(** ** Concrete runs *)

Notation entries := (gmap string (Cache.value * Z)).

Definition a_number : string := "251912345678".

Lemma login_codes_witness :
  let ks := [SendOtp a_number "login" "123456" "t" 0; SendOtp a_number "login" "654321" "t" (30 * second);
             VerifyOtp a_number "000000" "t" (40 * second); VerifyOtp a_number "111111" "t" (50 * second)] in
  let w := run ks (fresh_world (∅ : entries) 0) in
  let n := number_of a_number w in
  (verify_otp a_number "123456" "t" (60 * second) (w_store w)).1 = inr (true, "OTP verified successfully") ∧
  n_code n = Some ("123456", 0, 2) ∧
  ((∀ msg s', verify_otp a_number "123456" "t" (60 * second) (w_store w) = (inr (true, msg), s') →
     ∃ sent tries, n_code n = Some ("123456", sent, tries) ∧ 60 * second <= sent + 5 * minute ∧ tries < 3) ∧
   (∀ s', consume_verification a_number (60 * second) (w_store w) = (inr true, s') →
     ∃ accepted, n_accepted n = Some accepted ∧ 60 * second < accepted + 15 * minute) ∧
   n_used n <= n_oks n <= n_sent n ∧ n_wrong n <= 3 * n_sent n).
Proof.
  intros ks w n. split; [vm_compute; reflexivity|]. split; [vm_compute; reflexivity|].
  apply (login_codes ks (∅ : entries) 0 a_number "123456" "t" (60 * second)).
  - intros t k. reflexivity.
  - reflexivity.
  - vm_compute. discriminate.
Defined.

(** A code is good for five minutes, and a number may be sent a new one every
    minute, each with three tries of its own. *)
Example three_tries_a_minute :
  let tries t := [SendOtp a_number "login" "123456" "t" t; VerifyOtp a_number "000001" "t" t;
                  VerifyOtp a_number "000002" "t" t; VerifyOtp a_number "000003" "t" t] in
  let w := run (tries 0 ++ tries minute ++ tries (2 * minute)) (fresh_world (∅ : entries) 0) in
  n_wrong (number_of a_number w) = 9.
Proof. by vm_compute. Qed.

(** The two halves of [consume_verification]: two registrations that both
    look before either clears are both let through. *)
Definition consume_look {C} `{Cache C} (phone : string) (now : Z) : M (@store C) bool :=
  v ← look now (get_verified_cache_key phone); mret (bool_decide (is_Some v)).
Definition consume_clear {C} `{Cache C} (phone : string) (now : Z) : M (@store C) bool :=
  on_cache (λ c, cache_delete c now (get_verified_cache_key phone)) ≫= λ _, mret true.

Example one_acceptance_two_registrations :
  let s := (mark_verified a_number "t" 0 (Store [] (∅ : entries))).2 in
  let '(r, s') := (a ← consume_look a_number 1; b ← consume_look a_number 1;
                   a' ← (if a : bool then consume_clear a_number 2 else mret false);
                   b' ← (if b : bool then consume_clear a_number 2 else mret false); mret (a', b')) s in
  r = inr (true, true).
Proof. by vm_compute. Qed.

End LoginOtp.
