(* ===== verification/Engagement.v ===== *)
(** * Engagement: what liking, sharing, commenting and posting cost

    Models [src/api/services/campaign_charges.py] and
    [src/api/services/post_pricing.py], and the handlers that charge with
    them: [ReelViewSet.vote], [share] and [comments] and the transaction of
    [_create_post_from_upload] in [src/api/views/core.py], the entry of
    [src/api/views/campaign_user.py], and the worker's [_charge_long_video] of
    [src/api/tasks/media.py].

    Whether the caller is a subscriber is an argument here; the gate itself is
    [Subscriptions.subscriber_action_refusal].  Uploads and encoding are left
    out. *)

From Stdlib Require Import ZArith QArith Lia.
From S2P Require Import Prelude CoinBalance WalletConfig Points Subscriptions Gifting.

Module Engagement.
Import WalletConfig.
#[local] Open Scope Z_scope.

(** ** Data *)

(** The columns of [Reel] these handlers read and write; [rl_has_video] is
    [original_media or media]. *)
Record reel := Reel {
  rl_user : Z; rl_is_campaign_post : bool; rl_has_video : bool; rl_upload_id : string;
  rl_votes : Z; rl_shares : Z; rl_long_video_charged : Z
}.

Definition set_votes (n : Z) (r : reel) : reel :=
  Reel (rl_user r) (rl_is_campaign_post r) (rl_has_video r) (rl_upload_id r) n (rl_shares r) (rl_long_video_charged r).
Definition set_shares (n : Z) (r : reel) : reel :=
  Reel (rl_user r) (rl_is_campaign_post r) (rl_has_video r) (rl_upload_id r) (rl_votes r) n (rl_long_video_charged r).
Definition set_charged (n : Z) (r : reel) : reel :=
  Reel (rl_user r) (rl_is_campaign_post r) (rl_has_video r) (rl_upload_id r) (rl_votes r) (rl_shares r) n.

Record comment := Comment { cm_user : Z; cm_reel : Z; cm_text : string }.
Record note := Note { nt_recipient : Z; nt_sender : Z; nt_type : string; nt_reel : Z }.

#[global] Instance note_eq_dec : EqDecision note.
Proof. solve_decision. Defined.

(** [Vote] rows are pairs of a user and a reel. *)
Record store := Store {
  s_coins : CoinBalance.wallet; s_config : config_table; s_reels : gmap Z reel;
  s_votes : list (Z * Z); s_comments : list comment; s_notes : list note; s_xp : gmap Z Z
}.

Definition in_coins {A} : M CoinBalance.wallet A → M store A :=
  zoom s_coins (λ w s, Store w (s_config s) (s_reels s) (s_votes s) (s_comments s) (s_notes s) (s_xp s)).
Definition in_config {A} : M config_table A → M store A :=
  zoom s_config (λ c s, Store (s_coins s) c (s_reels s) (s_votes s) (s_comments s) (s_notes s) (s_xp s)).
Definition set_reels (m : gmap Z reel) (s : store) : store :=
  Store (s_coins s) (s_config s) m (s_votes s) (s_comments s) (s_notes s) (s_xp s).
Definition set_all_votes (l : list (Z * Z)) (s : store) : store :=
  Store (s_coins s) (s_config s) (s_reels s) l (s_comments s) (s_notes s) (s_xp s).
Definition add_comment (c : comment) (s : store) : store :=
  Store (s_coins s) (s_config s) (s_reels s) (s_votes s) (s_comments s ++ [c]) (s_notes s) (s_xp s).
Definition set_notes (l : list note) (s : store) : store :=
  Store (s_coins s) (s_config s) (s_reels s) (s_votes s) (s_comments s) l (s_xp s).
Definition set_xp (m : gmap Z Z) (s : store) : store :=
  Store (s_coins s) (s_config s) (s_reels s) (s_votes s) (s_comments s) (s_notes s) m.

Definition update_reel (rid : Z) (f : reel → reel) : M store unit :=
  modify (λ s, set_reels (alter f rid (s_reels s)) s).

(** ** [campaign_charges] *)

(** The price on a campaign post, the price on another, and the ledger's
    type. *)
Definition _ACTIONS (action : string) : option ((config → Z) * (config → Z) * string) :=
  if String.eqb action "like" then Some (cost_like, cost_like_non_campaign, "campaign_like")
  else if String.eqb action "comment" then Some (cost_comment, cost_comment_non_campaign, "campaign_comment")
  else if String.eqb action "share" then Some (cost_share, cost_share_non_campaign, "campaign_share")
  else if String.eqb action "post" then Some (cost_post_create, cost_post_create_non_campaign, "campaign_join")
  else None.

Definition engagement_cost (r : reel) (action : string) (now : Z) : M store Z :=
  match _ACTIONS action with
  | None => raise (ValueError ("Unknown engagement action: '" +:+ action +:+ "'"))
  | Some (campaign_field, ordinary_field, _) =>
      c ← in_config (get_config now);
      mret (or_int ((if rl_is_campaign_post r then campaign_field else ordinary_field) c) 0)
  end.

Definition tx_type (action : string) : string :=
  match _ACTIONS action with Some (_, _, ty) => ty | None => "" end.

(** One successful ledger entry of [user]'s for [action] on the reel. *)
Definition charge_entry (user rid : Z) (action : string) (t : CoinBalance.coin_tx) : bool :=
  (CoinBalance.ct_user t =? user) && bool_decide (CoinBalance.ct_reel t = Some rid)
  && String.eqb (CoinBalance.ct_type t) (tx_type action) && CoinBalance.ct_is_successful t.

Definition already_charged (user rid : Z) (action : string) : M store bool :=
  gets (λ s, existsb (charge_entry user rid action) (CoinBalance.w_txs (s_coins s))).

(** [str.title] of one word. *)
Definition title (s : string) : string :=
  match s with String.String c s' => String.String (upper_char c) (lower s') | _ => s end.

Definition _spend (balance : CoinBalance.ucb) (cost rid : Z) (action description : string) (now : Z)
    : M store Z :=
  catch (in_coins (CoinBalance.spend_coins balance cost (tx_type action) false
           (CoinBalance.TxKwargs None "" None (Some rid) 0
              (or_str description (title action +:+ " on campaign post #" +:+ str_int rid))) now) ≫= λ _, mret cost)
    (λ e, if is_value_error e then Some (raise (InsufficientCoins cost (CoinBalance.u_balance balance) (exn_str e)))
          else None).

(** [user] is [None] for a request that is not signed in. *)
Definition charge_engagement (user : option Z) (rid : Z) (r : reel) (action : string) (once : bool)
    (description : string) (now : Z) : M store Z :=
  match user with
  | None => mret 0
  | Some u =>
      if rl_user r =? u then mret 0
      else
        cost ← engagement_cost r action now;
        if cost <=? 0 then mret 0
        else
          balance ← in_coins (CoinBalance.get_or_create u now);
          atomic (
            in_coins (CoinBalance.get_locked u) ≫= λ _,
            paid ← already_charged u rid action;
            if once && paid then mret 0 else _spend balance cost rid action description now)
  end.

(** For callers without a transaction of their own. *)
Definition charge_for_action (user : option Z) (rid : Z) (r : reel) (action : string) (once : bool)
    (description : string) (now : Z) : M store Z :=
  atomic (charge_engagement user rid r action once description now).

(** ** The handlers *)

Definition get_object (rid : Z) : M store reel :=
  s ← get;
  match s_reels s !! rid with Some r => mret r | None => raise (Http404 "No Reel matches the given query.") end.

(** [try: with transaction.atomic(): m / except InsufficientCoins: ...] of
    every handler. *)
Definition paid_block {A} (m : M store A) : M store (response + A) :=
  catch (a ← atomic m; mret (inr a))
    (λ e, match e with InsufficientCoins _ _ msg => Some (mret (inl (bad msg))) | _ => None end).

Definition refused : response := Resp 403 "subscription_required".

(** [Vote.objects.get_or_create]: was it created? *)
Definition create_vote (user rid : Z) : M store bool :=
  s ← get;
  if decide ((user, rid) ∈ s_votes s) then mret false
  else put (set_all_votes (s_votes s ++ [(user, rid)]) s) ≫= λ _, mret true.

(** The first transaction of [vote]: the like and its price. *)
Definition like_txn (user rid : Z) (r : reel) (now : Z) : M store bool :=
  created ← create_vote user rid;
  when created (charge_engagement (Some user) rid r "like" false "" now ≫= λ _,
                update_reel rid (λ x, set_votes (rl_votes x + 1) x)) ≫= λ _,
  mret created.

Definition unlike_txn (user rid : Z) : M store unit :=
  s ← get;
  when (bool_decide ((user, rid) ∈ s_votes s))
    (put (set_all_votes (filter (λ v, v ≠ (user, rid)) (s_votes s)) s) ≫= λ _,
     update_reel rid (λ x, set_votes (Z.max (rl_votes x - 1) 0) x)).

(** What follows the first transaction of [vote]. *)
Definition vote_tail (user rid : Z) (r : reel) (created : bool) : M store response :=
  let mine := Note (rl_user r) user "like" rid in
  if created then
    when (negb (rl_user r =? user)) (modify (λ s, set_notes (s_notes s ++ [mine]) s)) ≫= λ _,
    mret (Resp 200 "liked")
  else
    atomic (unlike_txn user rid) ≫= λ _,
    when (negb (rl_user r =? user))
      (modify (λ s, set_notes (filter (λ n, n ≠ mine) (s_notes s)) s)) ≫= λ _,
    mret (Resp 200 "unliked").

Definition vote (allowed : bool) (user rid now : Z) : M store response :=
  if negb allowed then mret refused
  else
    r ← get_object rid;
    o ← paid_block (like_txn user rid r now);
    match o with
    | inl resp => mret resp
    | inr created => vote_tail user rid r created
    end.

Definition share_txn (user rid : Z) (r : reel) (now : Z) : M store Z :=
  charged ← charge_engagement (Some user) rid r "share" true "" now;
  update_reel rid (λ x, set_shares (rl_shares x + 1) x) ≫= λ _,
  mret charged.

Definition share (allowed : bool) (user rid now : Z) : M store response :=
  if negb allowed then mret refused
  else
    r ← get_object rid;
    o ← paid_block (share_txn user rid r now);
    match o with
    | inl resp => mret resp
    | inr charged => mret (Resp 200 (str_int charged))
    end.

Definition comment_txn (user rid : Z) (r : reel) (text : string) (now : Z) : M store Z :=
  modify (add_comment (Comment user rid text)) ≫= λ _,
  charge_engagement (Some user) rid r "comment" false "" now.

(** POST of [comments]; the request is signed in. *)
Definition comments (allowed : bool) (user rid : Z) (text : string) (now : Z) : M store response :=
  r ← get_object rid;
  if negb allowed then mret refused
  else
    let text := strip text in
    if String.eqb text "" then mret (bad "Comment text is required")
    else
      o ← paid_block (comment_txn user rid r text now);
      match o with
      | inl resp => mret resp
      | inr _ => mret (Resp 201 text)
      end.

(** ** Posting *)

Definition LONG_VIDEO_SECONDS : Z := 60.

(** A measured duration, in seconds, is an exact fraction. *)
Definition is_long_video (duration : option Q) : bool :=
  match duration with Some d => Qle_bool (inject_Z LONG_VIDEO_SECONDS) d | None => false end.

Definition base_cost (c : config) (is_campaign_post : bool) : Z :=
  Z.max 0 (or_int ((if is_campaign_post then cost_post_create else cost_post_create_non_campaign) c) 0).

Definition long_video_extra (c : config) (is_campaign_post : bool) : Z :=
  Z.max 0 (or_int ((if is_campaign_post then cost_post_create_long_video
                    else cost_post_create_long_video_non_campaign) c) 0).

Definition total_cost (c : config) (is_campaign_post : bool) (duration : option Q) (is_video : bool) : Z :=
  let total := base_cost c is_campaign_post in
  if is_video && is_long_video duration then total + long_video_extra c is_campaign_post else total.

(** The three prices of the list: image, short video, long video. *)
Definition quote (c : config) (is_campaign_post : bool) : Z * Z * Z :=
  let base := base_cost c is_campaign_post in
  (base, base, base + long_video_extra c is_campaign_post).

(** [Reel.objects.create], with one post for each of a user's upload ids. *)
Definition same_upload (n r : reel) : bool :=
  negb (String.eqb (rl_upload_id n) "") && (rl_user r =? rl_user n)
  && String.eqb (rl_upload_id r) (rl_upload_id n).

Definition create_reel (rid : Z) (n : reel) : M store unit :=
  s ← get;
  if existsb (λ kr, same_upload n kr.2) (map_to_list (s_reels s))
  then raise (IntegrityError "reel_one_post_per_client_upload")
  else put (set_reels (<[rid := n]> (s_reels s)) s).

Definition spend_or_refuse (user cost : Z) (ty description : string) (refusal : Z → string → exn) (now : Z)
    : M store unit :=
  balance ← in_coins (CoinBalance.get_or_create user now);
  catch (in_coins (CoinBalance.spend_coins balance cost ty false (CoinBalance.descr description) now) ≫= λ _, mret tt)
    (λ e, if is_value_error e then Some (raise (refusal (CoinBalance.u_balance balance) (exn_str e))) else None).

(** The transaction of [_create_post_from_upload]; [rid] is the key the new
    row gets. *)
Definition create_post_txn (user rid : Z) (is_campaign_post is_video : bool) (upload_id : string) (now : Z)
    : M store Z :=
  c ← in_config (get_config now);
  let cost := base_cost c is_campaign_post in
  atomic (
    when (0 <? cost)
      (spend_or_refuse user cost (if is_campaign_post then "campaign_post_create" else "post_create")
         ("Create " +:+ (if is_campaign_post then "campaign" else "non-campaign") +:+ " post")
         (λ available msg, InsufficientCoins cost available msg) now) ≫= λ _,
    create_reel rid (Reel user is_campaign_post is_video upload_id 0 0 0) ≫= λ _,
    modify (λ s, set_xp (alter (λ x, x + 25) user (s_xp s)) s) ≫= λ _,
    mret rid).

(** The transaction of a campaign entry; its score row, written in between,
    is left out. *)
Definition campaign_entry_txn (user rid : Z) (is_video : bool) (upload_id campaign_title : string) (now : Z)
    : M store Z :=
  let n := Reel user true is_video upload_id 0 0 0 in
  atomic (
    create_reel rid n ≫= λ _,
    charge_engagement (Some user) rid n "post" false
      (prefix_of 255 ("Campaign entry for " +:+ campaign_title)) now).

(** [_charge_long_video], with the reel as the worker read it. *)
Definition _charge_long_video (rid : Z) (r : reel) (duration : option Q) (now : Z) : M store unit :=
  if negb (rl_long_video_charged r =? 0) || negb (is_long_video duration) then mret tt
  else if negb (rl_has_video r) then mret tt
  else
    c ← in_config (get_config now);
    let cost := long_video_extra c (rl_is_campaign_post r) in
    if cost =? 0 then mret tt
    else
      atomic (
        s ← get;
        match s_reels s !! rid with
        | Some row =>
            if rl_long_video_charged row =? 0 then
              update_reel rid (set_charged cost) ≫= λ _,
              spend_or_refuse (rl_user r) cost "post_long_video"
                ("Video 60s or longer (post " +:+ str_int rid +:+ ")")
                (λ _ _, ValidationError "long_video_unpaid") now
            else mret tt
        | None => mret tt
        end).

(** ** What a charge does *)

(** The configuration a request reads. *)
Definition config_at (now : Z) (s : store) : config :=
  match s_config s with Some c => c | None => default_config now end.

Definition price (c : config) (r : reel) (action : string) : Z :=
  match _ACTIONS action with
  | Some (campaign_field, ordinary_field, _) =>
      or_int ((if rl_is_campaign_post r then campaign_field else ordinary_field) c) 0
  | None => 0
  end.

Definition total_of (u : Z) (s : store) : Z := CoinBalance.total_of u (s_coins s).
Definition entries (s : store) : list CoinBalance.coin_tx := CoinBalance.w_txs (s_coins s).

(** [n] coins and no more taken from [user] for [action] on the reel: an
    entry in the ledger when [n] is not zero, and nothing of anybody else. *)
Record took (user rid : Z) (action : string) (n : Z) (s s' : store) : Prop := Took {
  tk_rows : Gifting.rows_ok (s_coins s');
  tk_total : total_of user s' = total_of user s - n;
  tk_others : ∀ v, v ≠ user → total_of v s' = total_of v s;
  tk_entries : if decide (n = 0) then entries s' = entries s
               else ∃ t, entries s' = entries s ++ [t] ∧ charge_entry user rid action t = true
                         ∧ CoinBalance.ct_coins t = - n
}.

(** Only coins and configuration change. *)
Definition same_posts (s s' : store) : Prop :=
  s_reels s' = s_reels s ∧ s_votes s' = s_votes s ∧ s_comments s' = s_comments s
  ∧ s_notes s' = s_notes s ∧ s_xp s' = s_xp s.

Lemma in_config_run now s :
  ∃ t, in_config (get_config now) s =
    (inr (config_at now s), Store (s_coins s) t (s_reels s) (s_votes s) (s_comments s) (s_notes s) (s_xp s))
    ∧ t = Some (config_at now s).
Proof.
  unfold in_config, config_at. rewrite zoom_run. unfold get_config. rewrite bind_run. cbn [get].
  destruct (s_config s); cbn; by eexists.
Qed.

Lemma price_pos c r action : 0 < price c r action → ∃ cf ofd, _ACTIONS action = Some (cf, ofd, tx_type action).
Proof.
  unfold price, tx_type. destruct (_ACTIONS action) as [[[cf ofd] ty]|]; [by do 2 eexists|done].
Qed.

Lemma engagement_types action : CoinBalance.ordinary_type (tx_type action) = true.
Proof. unfold tx_type, _ACTIONS. by repeat case_match; simplify_eq. Qed.

(** Under the lock: nothing when it was paid before, else one spend. *)
Definition charge_locked (u rid : Z) (balance : CoinBalance.ucb) (cost : Z) (action : string) (once : bool)
    (d : string) (now : Z) : M store Z :=
  atomic (
    in_coins (CoinBalance.get_locked u) ≫= λ _,
    paid ← already_charged u rid action;
    if once && paid then mret 0 else _spend balance cost rid action d now).

Lemma charge_locked_cases u rid balance p action once d now s :
  Gifting.rows_ok (s_coins s) → CoinBalance.w_rows (s_coins s) !! u = Some balance →
  CoinBalance.u_user balance = u → 0 < p →
  let '(res, s') := charge_locked u rid balance p action once d now s in
  same_posts s s' ∧ s_config s' = s_config s ∧
  match res with
  | inr n =>
      took u rid action n s s' ∧
      (n = p ∧ (once = true → existsb (charge_entry u rid action) (entries s) = false)
       ∨ n = 0 ∧ once = true ∧ existsb (charge_entry u rid action) (entries s) = true)
  | inl e => ∃ m a, e = InsufficientCoins p a m
  end.
Proof.
  intros Hw Hrow Hu Hp. unfold charge_locked, atomic. rewrite bind_run. unfold in_coins at 1. rewrite zoom_run.
  assert (CoinBalance.get_locked u (s_coins s) = (inr balance, s_coins s)) as ->
    by (unfold CoinBalance.get_locked; rewrite bind_run; cbn [get]; by rewrite Hrow).
  cbn [fst snd]. rewrite bind_run. unfold already_charged, gets.
  match goal with |- context [existsb _ (CoinBalance.w_txs (s_coins ?x))] =>
    assert (x = s) as -> by (by destruct s) end.
  change (CoinBalance.w_txs (s_coins s)) with (entries s).
  destruct (once && existsb (charge_entry u rid action) (entries s)) eqn:Hpaid.
  { cbn. apply andb_true_iff in Hpaid. split_and!; [done..| |by right].
    by constructor; rewrite ?Z.sub_0_r. }
  unfold _spend, catch. rewrite bind_run. unfold in_coins. rewrite zoom_run.
  match goal with |- context [CoinBalance.spend_coins balance p ?ty false ?kw now (s_coins s)] =>
    pose proof (Gifting.spend_run balance p ty false kw now (s_coins s) Hw) as Hrun;
    pose proof (λ x w', Gifting.spend_entry balance p ty kw now (s_coins s) x w') as Hentry;
    destruct (CoinBalance.spend_coins balance p ty false kw now (s_coins s)) as [[e|[t0 b]] w'] end;
    rewrite Hu in *; cbn [fst snd].
  - destruct Hrun as (-> & -> & _); [by eexists|apply engagement_types|]. cbn. split_and!; [done..|by do 2 eexists].
  - destruct Hrun as (_ & Hspent & _ & _); [by eexists|apply engagement_types|].
    specialize (Hentry _ _ eq_refl Hw). destruct (Gifting.total_of_row _ _ _ _ Hw Hspent) as (Hrows & Htot & Hoth).
    cbn [mret M_ret]. split_and!; [done..| |].
    + constructor; try done. cbn [decide]. rewrite decide_False by lia. cbn [entries s_coins].
      eexists. split; [exact Hentry|]. split; [|done]. unfold charge_entry. cbn.
      by rewrite Z.eqb_refl, bool_decide_true, String.eqb_refl by done.
    + left. split; [done|]. intros ->. by destruct (existsb _ _).
Qed.

(** [charge_engagement] takes nothing or exactly the price, or refuses. *)
Lemma charge_cases u rid r action once d now s :
  Gifting.rows_ok (s_coins s) → is_Some (_ACTIONS action) →
  let '(res, s') := charge_engagement (Some u) rid r action once d now s in
  same_posts s s' ∧
  match res with
  | inr n =>
      took u rid action n s s' ∧
      (n = 0 ∨ n = price (config_at now s) r action ∧ 0 < n ∧ rl_user r ≠ u ∧
               (once = true → existsb (charge_entry u rid action) (entries s) = false)) ∧
      (n = 0 → rl_user r = u ∨ price (config_at now s) r action <= 0
               ∨ once = true ∧ existsb (charge_entry u rid action) (entries s) = true)
  | inl e => ∃ m a, e = InsufficientCoins (price (config_at now s) r action) a m
  end.
Proof.
  intros Hw [[[cf ofd] ty] Hact]. unfold charge_engagement.
  destruct (Z.eqb_spec (rl_user r) u) as [Hown|Hown].
  { cbn. split; [done|]. split_and!; [by constructor; rewrite ?Z.sub_0_r|by left|by left]. }
  unfold engagement_cost. rewrite Hact, !bind_run.
  destruct (in_config_run now s) as (t & -> & Ht). cbn [mret M_ret].
  assert (or_int ((if rl_is_campaign_post r then cf else ofd) (config_at now s)) 0 = price (config_at now s) r action) as ->
    by (unfold price; by rewrite Hact).
  set (p := price (config_at now s) r action).
  set (s1 := Store (s_coins s) t _ _ _ _ _).
  destruct (Z.leb_spec p 0) as [Hp|Hp].
  { cbn. split; [done|]. split_and!; [by constructor; rewrite ?Z.sub_0_r|by left|intros _; right; left; lia]. }
  rewrite bind_run. unfold in_coins at 1. rewrite zoom_run. cbn [s1 s_coins].
  destruct (CoinBalance.get_or_create u now (s_coins s)) as [[e|b] w1] eqn:Eb.
  { exfalso. destruct (CoinBalance.get_or_create_spec u now (s_coins s)) as (r0 & w0 & E & _). congruence. }
  destruct (Gifting.opened_row u now _ _ _ Hw Eb) as (Hw1 & Hbu & Hbrow & Htx & Htot). cbn [fst snd].
  set (s2 := Store w1 _ _ _ _ _ _).
  pose proof (charge_locked_cases u rid b p action once d now s2 Hw1 Hbrow Hbu Hp) as Hc.
  fold (charge_locked u rid b p action once d now). destruct (charge_locked u rid b p action once d now s2) as [res s'].
  destruct Hc as (Hsame & _ & Hc). split; [done|]. destruct res as [e|n]; [done|].
  assert (entries s2 = entries s) as He by done.
  destruct Hc as [[T1 T2 T3 T4] Hcases]. rewrite He in *. split_and!.
  - constructor; [done| | |done].
    + rewrite T2. unfold total_of. cbn [s2 s_coins]. by rewrite Htot.
    + intros v Hv. rewrite T3 by done. unfold total_of. cbn [s2 s_coins]. by rewrite Htot.
  - destruct Hcases as [[-> Hpaid]|(-> & _)]; [right; done|by left].
  - intros ->. destruct Hcases as [[? _]|(_ & ? & ?)]; [lia|auto].
Qed.

(** ** The handlers take the price of what they do *)

Lemma paid_block_run {A} (m : M store A) s :
  paid_block m s =
  match m s with
  | (inr a, s') => (inr (inr a), s')
  | (inl (InsufficientCoins _ _ msg), _) => (inr (inl (bad msg)), s)
  | (inl e, _) => (inl e, s)
  end.
Proof.
  unfold paid_block, catch, atomic. rewrite bind_run. destruct (m s) as [[e|a] s1]; [by destruct e|done].
Qed.

Lemma get_object_run rid s :
  get_object rid s = match s_reels s !! rid with
                     | Some r => (inr r, s)
                     | None => (inl (Http404 "No Reel matches the given query."), s) end.
Proof. unfold get_object. rewrite bind_run. cbn [get]. by destruct (s_reels s !! rid). Qed.

Definition succeeded (r : exn + response) : bool :=
  match r with inr resp => r_status resp <? 300 | inl _ => false end.

(** What was taken was nothing -- for one's own post, for an action without a
    price, for a share that was paid for before -- or the price of the action,
    on somebody else's post. *)
Definition fair (user rid : Z) (rl : reel) (action : string) (now n : Z) (s s' : store) : Prop :=
  took user rid action n s s' ∧
  (n = 0 ∧ (rl_user rl = user ∨ price (config_at now s) rl action <= 0
             ∨ action = "share" ∧ existsb (charge_entry user rid action) (entries s) = true)
   ∨ n = price (config_at now s) rl action ∧ 0 < n ∧ rl_user rl ≠ user
     ∧ (action = "share" → existsb (charge_entry user rid action) (entries s) = false)).

Lemma charge_fair user rid rl action once now s :
  Gifting.rows_ok (s_coins s) → is_Some (_ACTIONS action) → (once = true ↔ action = "share") →
  let '(res, s') := charge_engagement (Some user) rid rl action once "" now s in
  same_posts s s' ∧ match res with
  | inr n => fair user rid rl action now n s s'
  | inl e => ∃ m a, e = InsufficientCoins (price (config_at now s) rl action) a m
  end.
Proof.
  intros Hw Ha Honce. pose proof (charge_cases user rid rl action once "" now s Hw Ha) as H.
  destruct (charge_engagement _ _ _ _ _ _ _ s) as [[e|n] s']; [done|].
  destruct H as (Hsame & Ht & Hn & Hz). split; [done|]. split; [done|].
  destruct Hn as [->|(-> & Hpos & Hown & Honly)]; [left|right; split_and!; naive_solver]. split; [done|].
  destruct (Hz eq_refl) as [?|[?|[? ?]]]; naive_solver.
Qed.

Lemma share_run allowed user rid now s :
  Gifting.rows_ok (s_coins s) →
  let '(r, s') := share allowed user rid now s in
  (succeeded r = false ∧ s' = s) ∨
  ∃ rl n, r = inr (Resp 200 (str_int n)) ∧ s_reels s !! rid = Some rl ∧ fair user rid rl "share" now n s s' ∧
    s_reels s' = alter (λ x, set_shares (rl_shares x + 1) x) rid (s_reels s) ∧
    s_votes s' = s_votes s ∧ s_comments s' = s_comments s ∧ s_notes s' = s_notes s.
Proof.
  intros Hw. unfold share. destruct allowed; [|by left]. cbn [negb]. rewrite bind_run, get_object_run.
  destruct (s_reels s !! rid) as [rl|] eqn:Hrl; [|by left].
  rewrite bind_run, paid_block_run. unfold share_txn. rewrite bind_run.
  pose proof (charge_fair user rid rl "share" true now s Hw ltac:(by eexists) ltac:(done)) as H.
  destruct (charge_engagement _ _ _ _ _ _ _ s) as [[e|n] s'].
  - destruct H as (_ & m & a & ->). by left.
  - destruct H as ((Hr & Hv & Hc & Hn & Hx) & Hf). rewrite bind_run. cbn [update_reel modify mret M_ret].
    right. exists rl, n.
    split_and!; try done; [|cbn; by rewrite Hr].
    destruct Hf as [[T1 T2 T3 T4] Hn']. by split.
Qed.

Lemma comments_run allowed user rid text now s :
  Gifting.rows_ok (s_coins s) →
  let '(r, s') := comments allowed user rid text now s in
  (succeeded r = false ∧ s' = s) ∨
  ∃ rl n, r = inr (Resp 201 (strip text)) ∧ s_reels s !! rid = Some rl ∧ fair user rid rl "comment" now n s s' ∧
    s_comments s' = s_comments s ++ [Comment user rid (strip text)] ∧
    s_reels s' = s_reels s ∧ s_votes s' = s_votes s ∧ s_notes s' = s_notes s.
Proof.
  intros Hw. unfold comments. rewrite bind_run, get_object_run.
  destruct (s_reels s !! rid) as [rl|] eqn:Hrl; [|by left]. destruct allowed; [|by left]. cbn [negb].
  destruct (String.eqb (strip text) ""); [by left|].
  rewrite bind_run, paid_block_run. unfold comment_txn. rewrite bind_run. cbn [modify].
  pose proof (charge_fair user rid rl "comment" false now (add_comment (Comment user rid (strip text)) s) Hw ltac:(by eexists) ltac:(done)) as H.
  destruct (charge_engagement _ _ _ _ _ _ _ _) as [[e|n] s'].
  - destruct H as (_ & m & a & ->). by left.
  - destruct H as ((Hr & Hv & Hc & Hn & Hx) & Hf). right. exists rl, n. split_and!; try done.
    destruct Hf as [[T1 T2 T3 T4] Hn']. by split.
Qed.

Lemma filter_absent {A} `{EqDecision A} (x : A) (l : list A) : x ∉ l → filter (λ y, y ≠ x) l = l.
Proof.
  induction l as [|y l IH]; [done|]. rewrite not_elem_of_cons. intros [Hy Hl].
  rewrite filter_cons_True by done. by rewrite IH.
Qed.

Lemma like_txn_run user rid rl now s :
  like_txn user rid rl now s =
  if decide ((user, rid) ∈ s_votes s) then (inr false, s)
  else match charge_engagement (Some user) rid rl "like" false "" now (set_all_votes (s_votes s ++ [(user, rid)]) s) with
       | (inr n, s') => (inr true, set_reels (alter (λ x, set_votes (rl_votes x + 1) x) rid (s_reels s')) s')
       | (inl e, s') => (inl e, s')
       end.
Proof.
  unfold like_txn. rewrite bind_run. unfold create_vote. rewrite bind_run. cbn [get].
  destruct (decide _) as [|Hnew]; [done|]. rewrite bind_run. cbn [put mret M_ret when]. rewrite bind_run, bind_run.
  by destruct (charge_engagement _ _ _ _ _ _ _ _) as [[e|n] s'].
Qed.

Lemma vote_run allowed user rid now s :
  Gifting.rows_ok (s_coins s) →
  let '(r, s') := vote allowed user rid now s in
  (succeeded r = false ∧ s' = s) ∨
  ∃ rl, s_reels s !! rid = Some rl ∧ s_comments s' = s_comments s ∧
   (r = inr (Resp 200 "liked") ∧ (user, rid) ∉ s_votes s ∧ (∃ n, fair user rid rl "like" now n s s') ∧
    s_votes s' = s_votes s ++ [(user, rid)] ∧ s_reels s' = alter (λ x, set_votes (rl_votes x + 1) x) rid (s_reels s)
    ∨ r = inr (Resp 200 "unliked") ∧ (user, rid) ∈ s_votes s ∧ s_coins s' = s_coins s ∧
    s_votes s' = filter (λ v, v ≠ (user, rid)) (s_votes s) ∧
    s_reels s' = alter (λ x, set_votes (Z.max (rl_votes x - 1) 0) x) rid (s_reels s)).
Proof.
  intros Hw. unfold vote. destruct allowed; [|by left]. cbn [negb]. rewrite bind_run, get_object_run.
  destruct (s_reels s !! rid) as [rl|] eqn:Hrl; [|by left].
  rewrite bind_run, paid_block_run, like_txn_run.
  destruct (decide ((user, rid) ∈ s_votes s)) as [Hin|Hin].
  - assert (∃ l, vote_tail user rid rl false s =
      (inr (Resp 200 "unliked"), set_notes l (set_reels (alter (λ x, set_votes (Z.max (rl_votes x - 1) 0) x) rid (s_reels s))
         (set_all_votes (filter (λ v, v ≠ (user, rid)) (s_votes s)) s)))) as [l E].
    { unfold vote_tail. rewrite bind_run. unfold atomic, unlike_txn. rewrite bind_run. cbn [get].
      rewrite bool_decide_true by done. unfold when. cbn [put update_reel modify mret M_ret]. rewrite !bind_run.
      destruct (negb _); cbn; by eexists. }
    rewrite E. right. exists rl. split_and!; [done..|]. right. by split_and!.
  - pose proof (charge_fair user rid rl "like" false now (set_all_votes (s_votes s ++ [(user, rid)]) s) Hw ltac:(by eexists) ltac:(done)) as H.
    destruct (charge_engagement _ _ _ _ _ _ _ _) as [[e|n] s'].
    + destruct H as (_ & m & a & ->). by left.
    + destruct H as ((Hr & Hv & Hc & Hn & Hx) & Hf).
      assert (∃ l, vote_tail user rid rl true (set_reels (alter (λ x, set_votes (rl_votes x + 1) x) rid (s_reels s')) s') =
        (inr (Resp 200 "liked"), set_notes l (set_reels (alter (λ x, set_votes (rl_votes x + 1) x) rid (s_reels s')) s'))) as [l E].
      { unfold vote_tail, when. rewrite bind_run. destruct (negb _); cbn; [by eexists|exists (s_notes s'); by destruct s']. }
      rewrite E.
      right. exists rl. destruct Hf as [[T1 T2 T3 T4] Hn'].
      split_and!; [done|done|]. left. split_and!; [done|done| |done|cbn; by rewrite Hr]. exists n. by split.
Qed.

(** C21.  Liking, sharing and commenting: a request that does not succeed
    changes nothing at all; one that succeeds did exactly its action and took
    from the caller nothing or exactly the configured price, never on the
    caller's own post, with one entry in the ledger, and from nobody else
    anything.  Taking a like back costs nothing. *)
Theorem engagement_all_or_nothing allowed user rid text now s :
  Gifting.rows_ok (s_coins s) →
  (let '(r, s') := share allowed user rid now s in
   succeeded r = false ∧ s' = s ∨
   ∃ rl n, s_reels s !! rid = Some rl ∧ fair user rid rl "share" now n s s' ∧
     s_reels s' = alter (λ x, set_shares (rl_shares x + 1) x) rid (s_reels s)) ∧
  (let '(r, s') := comments allowed user rid text now s in
   succeeded r = false ∧ s' = s ∨
   ∃ rl n, s_reels s !! rid = Some rl ∧ fair user rid rl "comment" now n s s' ∧
     s_comments s' = s_comments s ++ [Comment user rid (strip text)]) ∧
  (let '(r, s') := vote allowed user rid now s in
   succeeded r = false ∧ s' = s ∨
   ∃ rl, s_reels s !! rid = Some rl ∧
    ((user, rid) ∉ s_votes s ∧ (∃ n, fair user rid rl "like" now n s s') ∧ s_votes s' = s_votes s ++ [(user, rid)]
     ∨ (user, rid) ∈ s_votes s ∧ s_coins s' = s_coins s ∧ s_votes s' = filter (λ v, v ≠ (user, rid)) (s_votes s))).
Proof.
  intros Hw. split_and!.
  - pose proof (share_run allowed user rid now s Hw) as H. destruct (share _ _ _ _ s) as [r s'].
    destruct H as [H|(rl & n & _ & Hrl & Hf & Hr & _)]; [by left|right; eauto].
  - pose proof (comments_run allowed user rid text now s Hw) as H. destruct (comments _ _ _ _ _ s) as [r s'].
    destruct H as [H|(rl & n & _ & Hrl & Hf & Hr & _)]; [by left|right; eauto].
  - pose proof (vote_run allowed user rid now s Hw) as H. destruct (vote _ _ _ _ s) as [r s'].
    destruct H as [H|(rl & Hrl & _ & [(_ & ? & ? & ? & _)|(_ & ? & ? & ? & _)])]; [by left|right; eauto 10..].
Qed.

(** ** Sharing the same post again *)

Inductive request :=
| Like (allowed : bool) (user rid now : Z)
| Share (allowed : bool) (user rid now : Z)
| Say (allowed : bool) (user rid : Z) (text : string) (now : Z).

Definition serve (q : request) : M store response :=
  match q with
  | Like allowed user rid now => vote allowed user rid now
  | Share allowed user rid now => share allowed user rid now
  | Say allowed user rid text now => comments allowed user rid text now
  end.

Definition run (s : store) (qs : list request) : store := fold_left (λ s q, (serve q s).2) qs s.

Definition share_entries (u rid : Z) (s : store) : list CoinBalance.coin_tx :=
  filter (λ t, charge_entry u rid "share" t = true) (entries s).

Lemma took_share_entries user rid action n s s' u v :
  action ∈ ["like"; "share"; "comment"] → took user rid action n s s' →
  (action = "share" → n ≠ 0 → existsb (charge_entry user rid action) (entries s) = false) →
  (length (share_entries u v s) <= 1)%nat → (length (share_entries u v s') <= 1)%nat.
Proof.
  intros Ha [_ _ _ He] Honce Hle. unfold share_entries. case_decide as Hn; [by rewrite He|].
  destruct He as (t & -> & Ht & _). rewrite filter_app, length_app.
  destruct (decide (charge_entry u v "share" t = true)) as [Hm|Hm].
  - assert (action = "share" ∧ user = u ∧ rid = v) as (-> & -> & ->).
    { unfold charge_entry in Ht, Hm. rewrite !andb_true_iff, Z.eqb_eq, bool_decide_eq_true, String.eqb_eq in Ht, Hm.
      destruct Ht as [[[T1 T2] T3] _], Hm as [[[M1 M2] M3] _]. rewrite M3 in T3. split_and!; [|congruence..].
      rewrite !elem_of_cons, elem_of_nil in Ha. by destruct Ha as [->|[->|[->|[]]]]. }
    assert (filter (λ t, charge_entry u v "share" t = true) (entries s) = []) as ->.
    { specialize (Honce eq_refl Hn). clear -Honce. induction (entries s) as [|x l IH]; [done|]. cbn in Honce.
      apply orb_false_iff in Honce as [Hx Hl]. rewrite filter_cons_False; [by apply IH|congruence]. }
    rewrite filter_cons_True by done. done.
  - rewrite filter_cons_False by done. cbn. unfold share_entries in Hle. lia.
Qed.

Lemma serve_share_entries q s u v :
  Gifting.rows_ok (s_coins s) → (length (share_entries u v s) <= 1)%nat →
  Gifting.rows_ok (s_coins (serve q s).2) ∧ (length (share_entries u v (serve q s).2) <= 1)%nat.
Proof.
  intros Hw Hle.
  assert (∀ user rid rl action now n s', action ∈ ["like"; "share"; "comment"] → fair user rid rl action now n s s' →
    Gifting.rows_ok (s_coins s') ∧ (length (share_entries u v s') <= 1)%nat) as Hfair.
  { intros user rid rl action now n s' Ha [Ht Hn]. split; [apply Ht|].
    apply (took_share_entries user rid action n s s'); [done|done| |done]. naive_solver. }
  destruct q as [allowed user rid now|allowed user rid now|allowed user rid text now]; cbn [serve].
  - pose proof (vote_run allowed user rid now s Hw) as H. destruct (vote _ _ _ _ s) as [r s'].
    destruct H as [[_ ->]|(rl & _ & _ & [(_ & _ & (n & Hf) & _)|(_ & _ & Hc & _)])]; [done| |].
    + apply (Hfair user rid rl "like" now n s'); [by left|done].
    + unfold share_entries, entries in *. cbn [snd]. by rewrite Hc.
  - pose proof (share_run allowed user rid now s Hw) as H. destruct (share _ _ _ _ s) as [r s'].
    destruct H as [[_ ->]|(rl & n & _ & _ & Hf & _)]; [done|].
    apply (Hfair user rid rl "share" now n s'); [by right; left|done].
  - pose proof (comments_run allowed user rid text now s Hw) as H. destruct (comments _ _ _ _ _ s) as [r s'].
    destruct H as [[_ ->]|(rl & n & _ & _ & Hf & _)]; [done|].
    apply (Hfair user rid rl "comment" now n s'); [by right; right; left|done].
Qed.

(** However often a post is shared, and whatever else is liked and commented
    on in between, a user is charged for sharing it once. *)
Lemma share_charged_once qs s u rid :
  Gifting.rows_ok (s_coins s) → share_entries u rid s = [] →
  (length (share_entries u rid (run s qs)) <= 1)%nat.
Proof.
  intros Hw H0. assert (length (share_entries u rid s) <= 1)%nat as Hle by (rewrite H0; cbn; lia).
  clear H0. revert s Hw Hle. induction qs as [|q qs IH]; intros s Hw Hle; [done|].
  cbn [run fold_left]. destruct (serve_share_entries q s u rid Hw Hle). by apply IH.
Qed.

(** ** Posting *)

(** An entry through the campaign endpoint costs nothing, whatever the
    configured price: the reel it charges for was just created by the caller,
    and [charge_engagement] never charges for one's own post. *)
Theorem campaign_entry_is_free user rid is_video upload_id campaign_title now s :
  let '(r, s') := campaign_entry_txn user rid is_video upload_id campaign_title now s in
  s_coins s' = s_coins s ∧
  (r = inr 0 ∧ s_reels s' = <[rid := Reel user true is_video upload_id 0 0 0]> (s_reels s)
   ∨ (∃ m, r = inl (IntegrityError m)) ∧ s' = s).
Proof.
  unfold campaign_entry_txn, atomic. rewrite bind_run. unfold create_reel. rewrite bind_run. cbn [get].
  destruct (existsb _ _); cbn.
  - split; [done|]. right. split; [by eexists|done].
  - rewrite Z.eqb_refl. cbn. split; [done|]. by left.
Qed.

Lemma spend_or_refuse_run user cost ty d refusal now s :
  Gifting.rows_ok (s_coins s) → CoinBalance.ordinary_type ty = true → 0 < cost →
  match spend_or_refuse user cost ty d refusal now s with
  | (inr _, s') => same_posts s s' ∧ s_config s' = s_config s ∧ Gifting.rows_ok (s_coins s') ∧
                   total_of user s' = total_of user s - cost ∧ ∀ v, v ≠ user → total_of v s' = total_of v s
  | (inl e, _) => ∃ a m, e = refusal a m
  end.
Proof.
  intros Hw Hty Hc. unfold spend_or_refuse. rewrite bind_run. unfold in_coins at 1. rewrite zoom_run.
  destruct (CoinBalance.get_or_create user now (s_coins s)) as [[e|b] w1] eqn:Eb.
  { exfalso. destruct (CoinBalance.get_or_create_spec user now (s_coins s)) as (r0 & w0 & E & _). congruence. }
  destruct (Gifting.opened_row user now _ _ _ Hw Eb) as (Hw1 & Hbu & Hbrow & Htx & Htot). cbn [fst snd].
  unfold catch. rewrite bind_run. unfold in_coins. rewrite zoom_run. cbn [s_coins].
  pose proof (Gifting.spend_run b cost ty false (CoinBalance.descr d) now w1 Hw1) as Hrun. rewrite Hbu in Hrun.
  specialize (Hrun ltac:(by eexists) Hty).
  destruct (CoinBalance.spend_coins b cost ty false (CoinBalance.descr d) now w1) as [[e|[t0 b']] w']; cbn [fst snd].
  - destruct Hrun as (-> & -> & _). cbn. by do 2 eexists.
  - destruct Hrun as (_ & Hspent & _ & _). destruct (Gifting.total_of_row _ _ _ _ Hw1 Hspent) as (Hrows & Ht & Ho).
    cbn [mret M_ret]. split_and!; [done..| |].
    + unfold total_of. cbn [s_coins]. by rewrite Ht, Htot.
    + intros v Hv. unfold total_of. cbn [s_coins]. by rewrite Ho, Htot.
Qed.

(** [n] coins less for [user], the same for everybody else, and the same
    configuration. *)
Record debited (user n : Z) (s s' : store) : Prop := Debited {
  db_rows : Gifting.rows_ok (s_coins s');
  db_total : total_of user s' = total_of user s - n;
  db_others : ∀ v, v ≠ user → total_of v s' = total_of v s;
  db_config : s_config s' = s_config s
}.

Lemma debited_none user s : Gifting.rows_ok (s_coins s) → debited user 0 s s.
Proof. intros Hw. constructor; try done. lia. Qed.

Lemma in_config_present c now s : s_config s = Some c → in_config (get_config now) s = (inr c, s).
Proof.
  intros Hc. destruct (in_config_run now s) as (t & -> & ->).
  assert (config_at now s = c) as -> by (unfold config_at; by rewrite Hc). rewrite <- Hc. by destruct s.
Qed.

Lemma base_cost_nonneg c camp : 0 <= base_cost c camp.
Proof. unfold base_cost. lia. Qed.
Lemma extra_nonneg c camp : 0 <= long_video_extra c camp.
Proof. unfold long_video_extra. lia. Qed.

(** The upload takes the base price and stores the post, or does nothing. *)
Lemma create_post_run c user rid camp video upload now s :
  Gifting.rows_ok (s_coins s) → s_config s = Some c →
  match create_post_txn user rid camp video upload now s with
  | (inr k, s') => k = rid ∧ debited user (base_cost c camp) s s'
      ∧ s_reels s' = <[rid := Reel user camp video upload 0 0 0]> (s_reels s)
  | (inl _, s') => s' = s
  end.
Proof.
  intros Hw Hc. unfold create_post_txn. rewrite bind_run, (in_config_present c) by done.
  unfold atomic. rewrite bind_run.
  assert (∀ s1, debited user (base_cost c camp) s s1 → s_reels s1 = s_reels s →
    match (create_reel rid (Reel user camp video upload 0 0 0) ≫= λ _,
           modify (λ s, set_xp (alter (λ x, x + 25) user (s_xp s)) s) ≫= λ _, mret rid) s1 with
    | (inr k, s') => k = rid ∧ debited user (base_cost c camp) s s'
        ∧ s_reels s' = <[rid := Reel user camp video upload 0 0 0]> (s_reels s)
    | (inl _, _) => True end) as Hrest.
  { intros s1 [D1 D2 D3 D4] Hr. rewrite bind_run. unfold create_reel. rewrite bind_run. cbn [get].
    destruct (existsb _ _); [done|]. cbn. rewrite Hr. by split_and!. }
  unfold when. pose proof (base_cost_nonneg c camp). destruct (Z.ltb_spec 0 (base_cost c camp)) as [Hp|Hp].
  - match goal with |- context [spend_or_refuse user _ ?ty ?d ?ref now s] =>
      pose proof (spend_or_refuse_run user (base_cost c camp) ty d ref now s Hw ltac:(by destruct camp) Hp) as Hs;
      destruct (spend_or_refuse user _ ty d ref now s) as [[e|[]] s1] end; [done|].
    destruct Hs as ((Hr & _) & Hcf & Hrows & Ht & Ho).
    assert (debited user (base_cost c camp) s s1) as Hd by (constructor; [done|done|done|congruence]).
    specialize (Hrest s1 Hd Hr). by destruct ((create_reel _ _ ≫= _) s1) as [[e|k] s2].
  - cbn [mret M_ret]. assert (base_cost c camp = 0) as H0 by lia. 
    specialize (Hrest s ltac:(rewrite H0; by apply debited_none) eq_refl).
    by destruct ((create_reel _ _ ≫= _) s) as [[e|k] s2].
Qed.

(** The worker takes the difference for a long video that was not charged
    yet, and records it, or does nothing. *)
Lemma long_video_run c rid r duration now s :
  Gifting.rows_ok (s_coins s) → s_config s = Some c → s_reels s !! rid = Some r → rl_long_video_charged r = 0 →
  let extra := if rl_has_video r && is_long_video duration then long_video_extra c (rl_is_campaign_post r) else 0 in
  match _charge_long_video rid r duration now s with
  | (inr _, s') => debited (rl_user r) extra s s' ∧ s_reels s' !! rid = Some (set_charged extra r)
  | (inl _, s') => s' = s
  end.
Proof.
  intros Hw Hc Hr H0 extra. unfold _charge_long_video. rewrite H0. cbn [Z.eqb negb orb].
  assert (set_charged 0 r = r) as Hsame by (destruct r; cbn in *; by subst).
  pose proof (debited_none (rl_user r) s Hw) as Hnone. subst extra.
  destruct (is_long_video duration); [|rewrite andb_false_r; cbn; by rewrite Hsame].
  destruct (rl_has_video r); [|cbn; by rewrite Hsame]. cbn [negb andb].
  rewrite bind_run, (in_config_present c) by done.
  set (x := long_video_extra c (rl_is_campaign_post r)).
  destruct (Z.eqb_spec x 0) as [->|Hx]; [cbn; by rewrite Hsame|].
  assert (0 < x) as Hpos by (pose proof (extra_nonneg c (rl_is_campaign_post r)); lia).
  unfold atomic. rewrite bind_run. cbn [get]. rewrite Hr, H0. cbn [Z.eqb]. rewrite bind_run. cbn [update_reel modify].
  set (s1 := set_reels _ s).
  match goal with |- context [spend_or_refuse ?u x ?ty ?d ?ref now s1] =>
    pose proof (spend_or_refuse_run u x ty d ref now s1 Hw eq_refl Hpos) as Hs;
    destruct (spend_or_refuse u x ty d ref now s1) as [[e|[]] s2] end; [done|].
  destruct Hs as ((Hr2 & _) & Hcf & Hrows & Ht & Ho). split.
  - constructor; done.
  - rewrite Hr2. cbn. by rewrite lookup_alter_eq, Hr.
Qed.

(** Running it again with the row as it now is. *)
Lemma long_video_again rid r duration now s :
  rl_long_video_charged r ≠ 0 → _charge_long_video rid r duration now s = (inr tt, s).
Proof. intros H. unfold _charge_long_video. by rewrite (proj2 (Z.eqb_neq _ _) H). Qed.

(** What a post is charged, in its two parts, is the price that is quoted
    for it, [total_cost] being the price list's entry: the upload takes the base price, the worker the difference once
    it has measured a long video, together [total_cost]; a part that cannot be
    paid takes nothing; and a worker that runs again, with the row as it was
    or as it is now, takes nothing more. *)
Theorem charged_is_quoted c user rid camp video upload duration now now' s :
  Gifting.rows_ok (s_coins s) → s_config s = Some c →
  total_cost c camp duration video
    = (let '(image, video_short, video_long) := quote c camp in
       if video then if is_long_video duration then video_long else video_short else image) ∧
  match create_post_txn user rid camp video upload now s with
  | (inl _, s1) => s1 = s
  | (inr _, s1) =>
      debited user (base_cost c camp) s s1 ∧
      ∃ r, s_reels s1 !! rid = Some r ∧
      match _charge_long_video rid r duration now' s1 with
      | (inl _, s2) => s2 = s1
      | (inr _, s2) =>
          debited user (total_cost c camp duration video) s s2 ∧
          ∃ r', s_reels s2 !! rid = Some r' ∧
          ∀ later, (_charge_long_video rid r duration later s2).2 = s2 ∧ (_charge_long_video rid r' duration later s2).2 = s2
      end
  end.
Proof.
  intros Hw Hc. split; [unfold total_cost, quote; destruct video, (is_long_video duration); reflexivity|].
  pose proof (create_post_run c user rid camp video upload now s Hw Hc) as Hp.
  destruct (create_post_txn _ _ _ _ _ _ s) as [[e|k] s1]; [done|]. destruct Hp as (_ & Hd1 & Hr1). split; [done|].
  set (r := Reel user camp video upload 0 0 0) in *. exists r.
  assert (s_reels s1 !! rid = Some r) as Hrow by (by rewrite Hr1, lookup_insert_eq). split; [done|].
  destruct Hd1 as [D1 D2 D3 D4].
  assert (s_config s1 = Some c) as Hc1 by congruence.
  pose proof (long_video_run c rid r duration now' s1 D1 Hc1 Hrow eq_refl) as Hl. cbn zeta in Hl.
  destruct (_charge_long_video rid r duration now' s1) as [[e|[]] s2]; [done|].
  cbn [r rl_has_video rl_is_campaign_post rl_user] in Hl. destruct Hl as [[E1 E2 E3 E4] Hrow2].
  set (extra := if video && is_long_video duration then long_video_extra c camp else 0) in *.
  assert (total_cost c camp duration video = base_cost c camp + extra) as Htc
    by (unfold total_cost, extra; destruct (video && is_long_video duration); lia).
  assert (s_config s2 = Some c) as Hc2 by congruence.
  split; [constructor; [done|rewrite Htc; lia|intros v Hv; rewrite E3 by done; by apply D3|congruence]|].
  exists (set_charged extra r). split; [done|]. intros later.
  assert (extra = 0 → (_charge_long_video rid r duration later s2).2 = s2) as Hzero.
  { intros H0. unfold _charge_long_video. cbn [r rl_long_video_charged rl_has_video rl_is_campaign_post Z.eqb negb orb].
    unfold extra in H0. destruct (is_long_video duration); [|done]. destruct video; [|done]. cbn [negb andb] in *.
    rewrite bind_run, (in_config_present c) by done. by rewrite H0. }
  destruct (decide (extra = 0)) as [H0|H0].
  - rewrite H0. split; [by apply Hzero|]. by apply Hzero.
  - split; [|by rewrite long_video_again].
    unfold _charge_long_video. destruct (_ || _); [done|]. destruct (negb _); [done|].
    rewrite bind_run, (in_config_present c) by done. destruct (_ =? 0); [done|].
    unfold atomic. rewrite bind_run. cbn [get]. rewrite Hrow2. cbn [set_charged rl_long_video_charged].
    by rewrite (proj2 (Z.eqb_neq _ _) H0).
Qed.

(** ** Concrete runs

    User 1 has the coins of [Gifting.example_row]; post 9 is user 2's, in a
    campaign. *)

Definition an_author : Z := 2.
Definition a_store : store :=
  Store (CoinBalance.Wallet (<[1 := Gifting.example_row]> ∅) []) (Some (default_config 0))
    (<[9 := Reel an_author true false "" 0 0 0]> ∅) [] [] [] (<[1 := 0]> ∅).

Lemma a_store_rows : Gifting.rows_ok (s_coins a_store).
Proof.
  intros u r H. cbn in H. apply lookup_insert_Some in H as [[<- <-]|[_ [=]]].
  split; [done|]. unfold CoinBalance.row_ok. cbn. lia.
Qed.

Lemma engagement_all_or_nothing_witness :
  ((share true 1 9 5 a_store).1, (comments true 1 9 " nice " 5 a_store).1, (vote true 1 9 5 a_store).1,
   total_of 1 a_store - total_of 1 (share true 1 9 5 a_store).2)
  = (inr (Resp 200 "5"), inr (Resp 201 "nice"), inr (Resp 200 "liked"), 5) ∧
  (let '(r, s') := share true 1 9 5 a_store in
   succeeded r = false ∧ s' = a_store ∨
   ∃ rl n, s_reels a_store !! 9 = Some rl ∧ fair 1 9 rl "share" 5 n a_store s' ∧
     s_reels s' = alter (λ x, set_shares (rl_shares x + 1) x) 9 (s_reels a_store)).
Proof.
  split; [vm_compute; reflexivity|].
  apply (engagement_all_or_nothing true 1 9 " nice " 5 a_store a_store_rows).
Defined.

Lemma charged_is_quoted_witness :
  let s1 := (create_post_txn 1 20 false true "up-1" 5 a_store).2 in
  let d := Some (601 # 10)%Q in
  (total_of 1 a_store - total_of 1 s1, total_cost (default_config 0) false d true) = (2, 100) ∧
  match create_post_txn 1 20 false true "up-1" 5 a_store with
  | (inl _, s1) => s1 = a_store
  | (inr _, s1) =>
      debited 1 (base_cost (default_config 0) false) a_store s1 ∧
      ∃ r, s_reels s1 !! 20 = Some r ∧
      match _charge_long_video 20 r d 6 s1 with
      | (inl _, s2) => s2 = s1
      | (inr _, s2) =>
          debited 1 (total_cost (default_config 0) false d true) a_store s2 ∧
          ∃ r', s_reels s2 !! 20 = Some r' ∧
          ∀ later, (_charge_long_video 20 r d later s2).2 = s2 ∧ (_charge_long_video 20 r' d later s2).2 = s2
      end
  end.
Proof.
  intros s1 d. split; [vm_compute; reflexivity|].
  exact (proj2 (charged_is_quoted (default_config 0) 1 20 false true "up-1" d 5 6 a_store a_store_rows eq_refl)).
Defined.

(** Liking, taking it back and liking again is charged each time. *)
Example liking_twice_costs_twice :
  total_of 1 (run a_store [Like true 1 9 5; Like true 1 9 6; Like true 1 9 7]) = total_of 1 a_store - 2.
Proof. by vm_compute. Qed.

End Engagement.
