(* ===== verification/BoostPricing.v ===== *)
(** * BoostPricing: what a boost costs and what it buys

    Models [src/api/services/boost_tiers.py] and [BoostConfig] of
    [src/api/models/boost.py]: the three named boosts at fixed prices, and the
    older hourly price with its discounts and surcharges. *)

From Stdlib Require Import ZArith Lia.
From S2P Require Import Prelude Decimal CoinPricing.

Module BoostPricing.

(** ** The tiers *)

Definition TRENDING : string := "trending".
Definition FEED : string := "feed".
Definition EVERYWHERE : string := "everywhere".

Record tier := BoostTier {
  t_key : string; t_label : string; t_coins : Z; t_duration_hours : Z;
  t_placement : string; t_guaranteed_impressions : option Z
}.

Definition has_guarantee (t : tier) : bool :=
  match t_guaranteed_impressions t with Some n => negb (n =? 0) | None => false end.

Definition VIRAL_WINDOW_HOURS : Z := 24.

Definition standard : tier := BoostTier "standard" "Standard" 50 12 TRENDING None.
Definition premium : tier := BoostTier "premium" "Premium" 100 24 FEED None.
Definition viral : tier := BoostTier "viral" "Viral" 1000 VIRAL_WINDOW_HOURS EVERYWHERE (Some 5000).
Definition TIERS : list tier := [standard; premium; viral].

Definition tier_for (key : string) : exn + tier :=
  match List.find (λ t, String.eqb (t_key t) (lower (strip key))) TIERS with
  | Some t => inr t
  | None => inl (ValueError ("Unknown boost type: '" +:+ key +:+ "'"))
  end.

Definition placements_for_feed (feed : string) : list string :=
  if String.eqb feed TRENDING then [TRENDING; EVERYWHERE]
  else if String.eqb feed FEED then [FEED; EVERYWHERE]
  else [TRENDING; FEED; EVERYWHERE].

(** ** The configuration

    [base_hourly_rate] in cents, [pacing_tolerance] in hundredths; the other
    columns are integers. *)

Record boost_config := BoostConfig {
  base_hourly_rate : Z;
  discount_6hr : Z; discount_12hr : Z; discount_24hr : Z; discount_3day : Z; discount_7day : Z;
  base_impression_rate : Z; platform_fee_percent : Z; pacing_tolerance : Z;
  frequency_cap_hours : Z; max_daily_boosts_per_user : Z; max_active_boosts_per_post : Z;
  premium_targeting_surcharge : Z; cancellation_fee_percent : Z
}.

(** [BoostConfig.objects.create()]. *)
Definition default_boost_config : boost_config :=
  BoostConfig 5000 17 33 42 56 71 10 10 120 12 5 3 20 10.

Definition discount (c : boost_config) (hours : Z) : Z :=
  if hours =? 6 then discount_6hr c
  else if hours =? 12 then discount_12hr c
  else if hours =? 24 then discount_24hr c
  else if hours =? 72 then discount_3day c
  else if hours =? 168 then discount_7day c
  else 0.

(** [Decimal(n) / Decimal('100')]. *)
Definition percent (n : Z) : dec := dec_div (of_int n) (of_int 100).

(** In cents. *)
Definition calculate_cost (c : boost_config) (hours : Z) (has_premium_targeting : bool) : exn + Z :=
  let base_cost := dec_mul (of_cents (base_hourly_rate c)) (of_int hours) in
  let cost := dec_mul base_cost (dec_sub (of_int 1) (percent (discount c hours))) in
  let cost := if has_premium_targeting
              then dec_mul cost (dec_add (of_int 1) (percent (premium_targeting_surcharge c))) else cost in
  let cost := dec_mul cost (dec_add (of_int 1) (percent (platform_fee_percent c))) in
  CoinPricing.quantize_amount cost.

Definition get_expected_impressions (c : boost_config) (cost : dec) : Z :=
  to_integral_down (dec_mul cost (of_int (base_impression_rate c))).

(** [cost / n], as Python divides a decimal by an integer of any sign. *)
Definition dec_div_int (a : dec) (n : Z) : exn + dec :=
  if n =? 0 then inl (DecimalError (if coef a =? 0 then "DivisionUndefined" else "DivisionByZero"))
  else if n <? 0 then inr (dec_div (Dec (- coef a) (dexp a)) (of_int (- n)))
  else inr (dec_div a (of_int n)).

(** A value written to a [DecimalField(max_digits=10, decimal_places=2)]:
    PostgreSQL rounds it to two places, halves away from zero, and refuses
    more than ten digits. *)
Definition round_half_up (n d : Z) : Z := Z.sgn n * ((2 * Z.abs n + d) / (2 * d)).

Definition to_cents (d : dec) : Z :=
  if -2 <=? dexp d then coef d * 10 ^ (dexp d + 2) else round_half_up (coef d) (10 ^ (-2 - dexp d)).

Definition money_column (d : dec) : exn + Z :=
  let c := to_cents d in
  if Z.abs c <? 10 ^ 10 then inr c else inl (DatabaseError "numeric field overflow").

(** The prices of the hourly form.  The comments of [BoostConfig] quote 50,
    250, 400, 700, 1500 and 2500, without the platform fee. *)
Example hourly_prices :
  (λ h, calculate_cost default_boost_config h false) <$> [1; 6; 12; 24; 72; 168]
  = [inr 5500; inr 27390; inr 44220; inr 76560; inr 174240; inr 267960].
Proof. vm_compute. reflexivity. Qed.

Example tier_names : tier_for " Viral " = inr viral ∧ (∃ m, tier_for "gold" = inl (ValueError m)).
Proof. split; [vm_compute; reflexivity|]. eexists. vm_compute. reflexivity. Qed.

(** ** Signs and bounds of the amounts *)

(** What a configuration can hold: the admin form has no negative rates. *)
Record config_ok (c : boost_config) : Prop := ConfigOk {
  ok_rate : 0 <= base_hourly_rate c;
  ok_impressions : 0 < base_impression_rate c;
  ok_surcharge : 0 <= premium_targeting_surcharge c;
  ok_platform : 0 <= platform_fee_percent c;
  ok_fee : 0 <= cancellation_fee_percent c <= 100
}.

Lemma default_config_ok : config_ok default_boost_config.
Proof. by split. Qed.

Lemma quantize_amount_nonpos d c : coef d <= 0 → CoinPricing.quantize_amount d = inr c → c <= 0.
Proof.
  intros Hd. unfold CoinPricing.quantize_amount. destruct (_ <=? prec); [|done]. intros [= <-].
  unfold quantize2. destruct (Z.leb_spec (-2) (dexp d)).
  - pose proof (Z.pow_nonneg 10 (dexp d + 2)). nia.
  - apply round_half_even_le; [apply Z.pow_pos_nonneg; lia|lia].
Qed.

Lemma percent_nonneg n : 0 <= n → 0 <= coef (percent n).
Proof. intros H. by apply dec_div_nonneg. Qed.

(** Without hours there is nothing to pay. *)
Lemma no_hours_no_cost c h premium cents :
  config_ok c → h <= 0 → calculate_cost c h premium = inr cents → cents <= 0.
Proof.
  intros Hc Hh. apply quantize_amount_nonpos.
  assert (discount c h = 0) as ->.
  { unfold discount. by rewrite !(proj2 (Z.eqb_neq h _)) by lia. }
  assert (∀ n, 0 <= n → 0 <= coef (dec_add (of_int 1) (percent n))) as Hp
    by (intros n Hn; apply dec_add_nonneg; [done|by apply percent_nonneg]).
  pose proof (ok_rate c Hc). pose proof (ok_platform c Hc). pose proof (ok_surcharge c Hc).
  apply dec_mul_nonpos; [|by apply Hp].
  assert (coef (dec_mul (dec_mul (of_cents (base_hourly_rate c)) (of_int h))
                        (dec_sub (of_int 1) (percent 0))) <= 0) as Hb.
  { apply dec_mul_nonpos; [|by vm_compute]. apply dec_fix_nonpos. cbn. nia. }
  destruct premium; [|done]. apply dec_mul_nonpos; [done|by apply Hp].
Qed.

Lemma round_half_up_nonneg n d : 0 < d → 0 <= n → 0 <= round_half_up n d.
Proof.
  intros Hd Hn. unfold round_half_up. pose proof (Z.div_pos (2 * Z.abs n + d) (2 * d) ltac:(lia) ltac:(lia)).
  destruct n; cbn [Z.sgn]; lia.
Qed.

Lemma to_cents_nonneg d : 0 <= coef d → 0 <= to_cents d.
Proof.
  intros H. unfold to_cents. destruct (Z.leb_spec (-2) (dexp d)).
  - pose proof (Z.pow_nonneg 10 (dexp d + 2)). nia.
  - apply round_half_up_nonneg; [apply Z.pow_pos_nonneg; lia|done].
Qed.

Lemma to_cents_of_cents c : to_cents (of_cents c) = c.
Proof. unfold to_cents, of_cents. cbn. lia. Qed.

Lemma money_column_ok d c : money_column d = inr c → c = to_cents d ∧ Z.abs c < 10 ^ 10.
Proof.
  unfold money_column. destruct (Z.ltb_spec (Z.abs (to_cents d)) (10 ^ 10)); [|done]. by intros [= <-].
Qed.

(** A non-negative decimal of at most [m] cents, with cents or finer places. *)
Definition within (m : Z) (d : dec) : Prop :=
  0 <= coef d ∧ dexp d <= -2 ∧ coef d <= m * 10 ^ (-2 - dexp d).

Lemma within_cents m d : within m d → 0 <= to_cents d <= m.
Proof.
  intros (H0 & He & Hm). split; [by apply to_cents_nonneg|]. unfold to_cents.
  destruct (Z.leb_spec (-2) (dexp d)).
  - assert (dexp d = -2) as E by lia. rewrite E in *. cbn in *. lia.
  - assert (0 < 10 ^ (-2 - dexp d)) by (apply Z.pow_pos_nonneg; lia). unfold round_half_up.
    assert ((2 * Z.abs (coef d) + 10 ^ (-2 - dexp d)) / (2 * 10 ^ (-2 - dexp d)) < m + 1)
      by (apply Z.div_lt_upper_bound; nia).
    destruct (Z.eq_dec (coef d) 0) as [E|]; [rewrite E in *; cbn [Z.sgn]; nia|]. rewrite Z.sgn_pos by lia. lia.
Qed.

(** Rounding to 28 digits keeps an amount within the same cents. *)
Lemma within_fix m d : m < 10 ^ 10 → within m d → within m (dec_fix d).
Proof.
  intros Hm (H0 & He & Hd). unfold dec_fix. destruct (Z.leb_spec (ndigits (coef d) - prec) 0) as [Hk|Hk]; [done|].
  set (k := ndigits (coef d) - prec) in *. cbn zeta.
  assert (coef d ≠ 0) as Hnz by (intros E; subst k; by rewrite E in Hk).
  pose proof (ndigits_lower (coef d) Hnz) as Hlow. rewrite (Z.abs_eq (coef d)) in Hlow by done.
  assert (0 < 10 ^ (-2 - dexp d)) as Hp by (apply Z.pow_pos_nonneg; lia).
  assert (10 ^ (ndigits (coef d) - 1) < 10 ^ (8 - dexp d)) as Hlt.
  { replace (8 - dexp d) with (10 + (-2 - dexp d)) by lia. rewrite Z.pow_add_r by lia. nia. }
  apply Z.pow_lt_mono_r_iff in Hlt; [|lia|lia]. unfold prec in *.
  assert (0 < 10 ^ k) by (apply Z.pow_pos_nonneg; lia).
  assert (0 <= round_half_even (coef d) (10 ^ k)) as Hc0 by (by apply round_half_even_nonneg).
  assert (round_half_even (coef d) (10 ^ k) <= m * 10 ^ (-2 - (dexp d + k))) as Hc.
  { apply round_half_even_le; [done|]. rewrite <- Z.mul_assoc, <- Z.pow_add_r by lia.
    by replace (-2 - (dexp d + k) + k) with (-2 - dexp d) by lia. }
  destruct (_ <? _); unfold within; cbn [coef dexp].
  - split_and!; [by apply Z.div_pos|lia|].
    apply (Z.div_le_mono _ _ 10) in Hc; [|lia]. etransitivity; [exact Hc|].
    replace (-2 - (dexp d + k)) with (1 + (-2 - (dexp d + k + 1))) by lia. rewrite Z.pow_add_r by lia.
    rewrite Z.mul_assoc, (Z.mul_comm m), <- Z.mul_assoc, Z.mul_comm, Z.div_mul by lia. lia.
  - by split_and!; [|lia|].
Qed.

(** Taking an amount off leaves something between nothing and all of it. *)
Lemma sub_within r d :
  0 <= r < 10 ^ 10 → 0 <= coef d → dec_leb d (of_cents r) = true →
  0 <= to_cents (dec_sub (of_cents r) d) <= r.
Proof.
  intros Hr Hd Hle. apply within_cents. unfold dec_sub. apply within_fix; [lia|].
  unfold dec_leb, dec_cmp in Hle. rewrite Z.min_comm in Hle. cbn [of_cents dexp] in *.
  set (e := Z.min (-2) (dexp d)) in *.
  change (of_cents r) with (Dec r (-2)) in *.
  assert (scale_to e d <= scale_to e (Dec r (-2))) as Hcmp
    by (destruct (Z.compare_spec (scale_to e d) (scale_to e (Dec r (-2)))); [lia|lia|done]).
  pose proof (scale_to_nonneg e d Hd). unfold within. cbn [coef dexp]. split_and!; [lia|lia|].
  unfold scale_to at 1. cbn [coef dexp]. lia.
Qed.

(** A refund of an amount less its fee is at most the amount. *)
Lemma refund_at_most r fee :
  0 <= r < 10 ^ 10 → 0 <= fee <= 100 →
  let d := dec_sub (of_cents r) (dec_mul (of_cents r) (percent fee)) in
  to_integral_down d = r * (100 - fee) / 10 ^ 4.
Proof.
  intros Hr Hf d.
  destruct (dec_div_at_scale (of_int fee) (of_int 100) fee 2) as [He Hp]; [by cbn; lia..|cbn; unfold prec; lia|cbn; lia|].
  cbn [of_int dexp] in He, Hp. fold (percent fee) in He, Hp. change (2 + 0 - 0) with 2 in *.
  assert (at_scale 2 (of_cents r) = r) as Hr2 by (unfold at_scale; cbn; lia).
  destruct (dec_mul_exact (of_cents r) (percent fee) 2 2) as [Hme Hm]; [by cbn; lia|done|rewrite Hr2, Hp; unfold prec; nia|].
  rewrite Hr2, Hp in Hm. change (2 + 2) with 4 in *.
  assert (at_scale 4 (of_cents r) = r * 100) as Hr4 by (unfold at_scale; cbn; lia).
  assert (at_scale 4 d = r * (100 - fee)) as Hd.
  { unfold d. rewrite dec_sub_exact; [rewrite Hr4, Hm; lia|cbn; lia|done|rewrite Hr4, Hm; unfold prec; nia]. }
  assert (0 <= dexp d + 4) as Hde.
  { unfold d, dec_sub. cbn [of_cents dexp]. set (m := dec_mul _ _) in *. set (e := Z.min _ _).
    assert (0 <= e + 4) by (subst e; lia). rewrite dec_fix_exact; [cbn; lia|].
    apply (at_scale_bound 4 (Dec (scale_to e (of_cents r) - scale_to e m) e)); [done|].
    assert (at_scale 4 (Dec (scale_to e (of_cents r) - scale_to e m) e) = r * (100 - fee)) as ->.
    { transitivity (at_scale 4 (of_cents r) - at_scale 4 m); [|rewrite Hr4, Hm; lia].
      rewrite <- (scale_to_at 4 e (of_cents r)), <- (scale_to_at 4 e m) by (cbn; lia).
      unfold at_scale. cbn [coef dexp]. lia. }
    unfold prec. nia. }
  apply to_integral_down_at_scale; [lia|done|rewrite Hd; nia|done].
Qed.

End BoostPricing.
