(* ===== verification/Boost.v ===== *)
(** * Boost: paying coins to lift a post

    Models [src/api/views/boost.py], [BoostCampaign], [BoostImpression] and
    [BoostEngagement] of [src/api/models/boost.py], the sweep of
    [src/api/tasks/boost.py] and [boost_post] of [src/api/views/contest.py],
    over [CoinBalance], [Points] (a profile's [coins] column) and
    [BoostPricing].

    Cancelling, pausing, resuming, an impression and an engagement read the
    campaign, decide, and write it back, with no lock in between: each is an
    [_open] step and a [_commit] step, and the handler is their composition.
    [save()] without a list of fields writes every column of the copy. *)

From Stdlib Require Import ZArith Lia.
From S2P Require Import Prelude Decimal CoinBalance Points Gifting BoostPricing.

Module Boost.
Import BoostPricing.

(** ** The tables *)

Inductive bstatus := active | paused | completed | cancelled | exhausted | undelivered.

#[global] Instance bstatus_eq_dec : EqDecision bstatus.
Proof. solve_decision. Defined.

Definition status_name (st : bstatus) : string :=
  match st with
  | active => "active" | paused => "paused" | completed => "completed" | cancelled => "cancelled"
  | exhausted => "exhausted" | undelivered => "undelivered"
  end.

Record targets := Targets {
  tg_gender : option string; tg_age_min : option Z; tg_age_max : option Z; tg_location : string
}.

(** Money columns in cents. *)
Record campaign := BoostCampaign {
  bc_user : Z; bc_reel : Z; bc_type : string; bc_placement : string; bc_guaranteed : option Z;
  bc_duration : Z; bc_spent : Z; bc_remaining : Z; bc_start : Z; bc_end : Z;
  bc_expected : Z; bc_served : Z; bc_engagements : Z; bc_status : bstatus; bc_targets : targets;
  bc_hourly : Z; bc_cancelled_at : option Z; bc_refund : Z; bc_refunded_at : option Z
}.

Definition set_status (st : bstatus) (c : campaign) : campaign :=
  BoostCampaign (bc_user c) (bc_reel c) (bc_type c) (bc_placement c) (bc_guaranteed c) (bc_duration c)
    (bc_spent c) (bc_remaining c) (bc_start c) (bc_end c) (bc_expected c) (bc_served c) (bc_engagements c)
    st (bc_targets c) (bc_hourly c) (bc_cancelled_at c) (bc_refund c) (bc_refunded_at c).
Definition set_engagements (n : Z) (c : campaign) : campaign :=
  BoostCampaign (bc_user c) (bc_reel c) (bc_type c) (bc_placement c) (bc_guaranteed c) (bc_duration c)
    (bc_spent c) (bc_remaining c) (bc_start c) (bc_end c) (bc_expected c) (bc_served c) n
    (bc_status c) (bc_targets c) (bc_hourly c) (bc_cancelled_at c) (bc_refund c) (bc_refunded_at c).
(** One more impression, paid for down to [remaining]. *)
Definition set_served (st : bstatus) (remaining : Z) (c : campaign) : campaign :=
  BoostCampaign (bc_user c) (bc_reel c) (bc_type c) (bc_placement c) (bc_guaranteed c) (bc_duration c)
    (bc_spent c) remaining (bc_start c) (bc_end c) (bc_expected c) (bc_served c + 1) (bc_engagements c)
    st (bc_targets c) (bc_hourly c) (bc_cancelled_at c) (bc_refund c) (bc_refunded_at c).
(** The columns of the UPDATE that cancels. *)
Definition set_cancelled (refund now : Z) (c : campaign) : campaign :=
  BoostCampaign (bc_user c) (bc_reel c) (bc_type c) (bc_placement c) (bc_guaranteed c) (bc_duration c)
    (bc_spent c) 0 (bc_start c) (bc_end c) (bc_expected c) (bc_served c) (bc_engagements c)
    cancelled (bc_targets c) (bc_hourly c) (Some now) refund (Some now).

(** The columns of [Reel] the boost code reads or writes, and its likes, which
    a bare [save()] writes back too. *)
Record reel := Reel {
  rl_user : Z; rl_is_hidden : bool; rl_votes : Z; rl_is_boosted : bool;
  rl_active : option nat; rl_impressions : Z; rl_engagements : Z
}.

Definition set_boost (b : bool) (a : option nat) (r : reel) : reel :=
  Reel (rl_user r) (rl_is_hidden r) (rl_votes r) b a (rl_impressions r) (rl_engagements r).
Definition add_impression (r : reel) : reel :=
  Reel (rl_user r) (rl_is_hidden r) (rl_votes r) (rl_is_boosted r) (rl_active r) (rl_impressions r + 1) (rl_engagements r).
Definition add_engagement (r : reel) : reel :=
  Reel (rl_user r) (rl_is_hidden r) (rl_votes r) (rl_is_boosted r) (rl_active r) (rl_impressions r) (rl_engagements r + 1).

(** A profile as the feed code expects it; [UserProfile] has none of the
    three columns, so reading one raises. *)
Inductive profile_column := gender | age | city.

(** Campaigns are numbered in the order they were created.  An impression is
    a campaign, a viewer and an instant; an engagement a campaign, a user and
    a kind. *)
Record store := Store {
  s_coins : CoinBalance.wallet; s_profiles : Points.points_db; s_config : option boost_config;
  s_reels : gmap Z reel; s_campaigns : list campaign;
  s_impressions : list (nat * Z * Z); s_engagements : list (nat * Z * string);
  s_follows : list (Z * Z)
}.

Definition with_coins (w : CoinBalance.wallet) (s : store) : store :=
  Store w (s_profiles s) (s_config s) (s_reels s) (s_campaigns s) (s_impressions s) (s_engagements s) (s_follows s).
Definition with_profiles (d : Points.points_db) (s : store) : store :=
  Store (s_coins s) d (s_config s) (s_reels s) (s_campaigns s) (s_impressions s) (s_engagements s) (s_follows s).
Definition with_config (c : option boost_config) (s : store) : store :=
  Store (s_coins s) (s_profiles s) c (s_reels s) (s_campaigns s) (s_impressions s) (s_engagements s) (s_follows s).
Definition with_reels (m : gmap Z reel) (s : store) : store :=
  Store (s_coins s) (s_profiles s) (s_config s) m (s_campaigns s) (s_impressions s) (s_engagements s) (s_follows s).
Definition with_campaigns (l : list campaign) (s : store) : store :=
  Store (s_coins s) (s_profiles s) (s_config s) (s_reels s) l (s_impressions s) (s_engagements s) (s_follows s).
Definition with_impressions (l : list (nat * Z * Z)) (s : store) : store :=
  Store (s_coins s) (s_profiles s) (s_config s) (s_reels s) (s_campaigns s) l (s_engagements s) (s_follows s).
Definition with_engagements (l : list (nat * Z * string)) (s : store) : store :=
  Store (s_coins s) (s_profiles s) (s_config s) (s_reels s) (s_campaigns s) (s_impressions s) l (s_follows s).

Definition in_coins {A} : M CoinBalance.wallet A → M store A := zoom s_coins with_coins.
Definition in_profiles {A} : M Points.points_db A → M store A := zoom s_profiles with_profiles.

Definition lift {S A} (r : exn + A) : M S A := match r with inr a => mret a | inl e => raise e end.

(** [BoostConfig.objects.first()], created when there is none. *)
Definition get_config : M store boost_config :=
  s ← get;
  match s_config s with
  | Some c => mret c
  | None => put (with_config (Some default_boost_config) s) ≫= λ _, mret default_boost_config
  end.

(** [except Exception as e: return Response({'error': str(e)}, status=500)]. *)
Definition answered_500 (m : M store response) : M store response :=
  catch m (λ e, Some (mret (Resp 500 (exn_str e)))).

(** ** Writing campaigns and posts *)

(** The constraint [one_active_tier_boost_per_reel]. *)
Definition active_tier (c : campaign) : bool :=
  bool_decide (bc_status c = active) && negb (String.eqb (bc_type c) "custom").

Definition tier_clash (n : campaign) (others : list campaign) : bool :=
  active_tier n && existsb (λ c, active_tier c && (bc_reel c =? bc_reel n)) others.

Definition create_campaign (n : campaign) : M store nat :=
  s ← get;
  if tier_clash n (s_campaigns s) then raise (IntegrityError "one_active_tier_boost_per_reel")
  else put (with_campaigns (s_campaigns s ++ [n]) s) ≫= λ _, mret (length (s_campaigns s)).

(** [campaign.save()]: every column of the copy [n]. *)
Definition save_campaign (pk : nat) (n : campaign) : M store unit :=
  s ← get;
  if tier_clash n (take pk (s_campaigns s) ++ drop (S pk) (s_campaigns s))
  then raise (IntegrityError "one_active_tier_boost_per_reel")
  else put (with_campaigns (<[pk := n]> (s_campaigns s)) s).

Definition update_campaign (pk : nat) (f : campaign → campaign) : M store unit :=
  modify (λ s, with_campaigns (alter f pk (s_campaigns s)) s).

(** [reel.save()], and an UPDATE of some of its columns. *)
Definition save_reel (rid : Z) (r : reel) : M store unit :=
  modify (λ s, with_reels (alter (λ _, r) rid (s_reels s)) s).
Definition update_reel (rid : Z) (f : reel → reel) : M store unit :=
  modify (λ s, with_reels (alter f rid (s_reels s)) s).

(** [campaign.reel]. *)
Definition campaign_reel (c : campaign) : M store reel :=
  s ← get;
  match s_reels s !! bc_reel c with Some r => mret r | None => raise (DoesNotExist "Reel matching query does not exist.") end.

(** [get_object_or_404(BoostCampaign, id=pk, user=user)]. *)
Definition own_campaign (pk : nat) (user : Z) : M store campaign :=
  s ← get;
  match s_campaigns s !! pk with
  | Some c => if bc_user c =? user then mret c else raise (Http404 "No BoostCampaign matches the given query.")
  | None => raise (Http404 "No BoostCampaign matches the given query.")
  end.

(** [.first()] of the campaigns that satisfy [p], newest first. *)
Fixpoint newest (p : campaign → bool) (l : list campaign) (i : nat) : option (nat * campaign) :=
  match l with
  | [] => None
  | c :: l' => match newest p l' (S i) with
               | Some x => Some x
               | None => if p c then Some (i, c) else None
               end
  end.

(** ** Buying *)

Record boost_request := BoostRequest {
  rq_reel : Z; rq_type : option string; rq_duration : option Z; rq_targets : targets
}.

(** A decimal, an integer or a string is falsy when zero or empty. *)
Definition truthy_int (o : option Z) : bool := match o with Some n => negb (n =? 0) | None => false end.
Definition truthy_str (o : option string) : bool := match o with Some s => negb (String.eqb s "") | None => false end.

Definition has_premium_targeting (t : targets) : bool :=
  truthy_str (tg_gender t) && negb (bool_decide (tg_gender t = Some "all"))
  || truthy_int (tg_age_min t) || truthy_int (tg_age_max t) || negb (String.eqb (tg_location t) "").

(** The columns [target_*] get. *)
Definition stored_targets (t : targets) : targets :=
  let age a := if truthy_int a then a else None in
  Targets (if bool_decide (tg_gender t = Some "all") then None else tg_gender t)
    (age (tg_age_min t)) (age (tg_age_max t)) (tg_location t).

Definition running (rid now : Z) (c : campaign) : bool :=
  (bc_reel c =? rid) && bool_decide (bc_status c = active) && (now <? bc_end c).

(** What a purchase holds when it enters its transaction. *)
Record draft := Draft {
  d_user : Z; d_rid : Z; d_reel : reel; d_tier : option tier; d_cost : dec; d_balance : CoinBalance.ucb;
  d_profile : Points.profile; d_hours : Z; d_expected : Z; d_hourly : dec; d_targets : targets
}.

Definition answer {A} (r : response) : M store (response + A) := mret (inl r).

(** The tier asked for, if any, and the hours. *)
Definition read_product (rq : boost_request) : response + option tier * Z :=
  if truthy_str (rq_type rq) then
    match tier_for (default "" (rq_type rq)) with
    | inl e => inl (bad (exn_str e))
    | inr t => inr (Some t, t_duration_hours t)
    end
  else match rq_duration rq with
       | None => inl (bad "boost_type or duration_hours is required")
       | Some h => inr (None, h)
       end.

Definition own_reel (rid user : Z) : M store reel :=
  s ← get;
  match s_reels s !! rid with
  | Some r => if rl_user r =? user then mret r else raise (Http404 "No Reel matches the given query.")
  | None => raise (Http404 "No Reel matches the given query.")
  end.

Definition user_profile (user : Z) : M store Points.profile :=
  s ← get;
  match Points.pd_profiles (s_profiles s) !! user with
  | Some p => mret p
  | None => raise (DoesNotExist "User has no profile.")
  end.

(** The limits; [timezone.now().date()] is a UTC date, [created_at__date] a
    local one. *)
Definition limit_refusal (c : boost_config) (user rid now : Z) (tiered : bool) (l : list campaign) : option response :=
  let boosts_today := length (List.filter (λ b, (bc_user b =? user) && (local_date (bc_start b) =? utc_date now)) l) in
  let active_boosts := length (List.filter (running rid now) l) in
  if max_daily_boosts_per_user c <=? Z.of_nat boosts_today then
    Some (bad ("Daily boost limit reached (" +:+ str_int (max_daily_boosts_per_user c) +:+ " per day)"))
  else if max_active_boosts_per_post c <=? Z.of_nat active_boosts then
    Some (bad ("Maximum active boosts for this post reached (" +:+ str_int (max_active_boosts_per_post c) +:+ ")"))
  else if tiered && existsb (running rid now) l then Some (bad "already_boosted")
  else None.

(** The price, and what it is expected to buy. *)
Definition price (c : boost_config) (t : option tier) (hours : Z) (premium : bool) : exn + dec * Z :=
  match t with
  | Some t =>
      let cost := of_int (t_coins t) in
      inr (cost, if has_guarantee t then default 0 (t_guaranteed_impressions t)
                 else get_expected_impressions c cost)
  | None =>
      match calculate_cost c hours premium with
      | inl e => inl e
      | inr cents => inr (of_cents cents, get_expected_impressions c (of_cents cents))
      end
  end.

Definition create_open (user : Z) (rq : boost_request) (now : Z) : M store (response + draft) :=
  match read_product rq with
  | inl resp => answer resp
  | inr (t, hours) =>
      r ← own_reel (rq_reel rq) user;
      if rl_is_hidden r then answer (bad "reel_not_boostable")
      else
        c ← get_config;
        s ← get;
        match limit_refusal c user (rq_reel rq) now (bool_decide (is_Some t)) (s_campaigns s) with
        | Some resp => answer resp
        | None =>
            '(cost, expected) ← lift (price c t hours (has_premium_targeting (rq_targets rq)));
            p ← user_profile user;
            balance ← in_coins (CoinBalance.get_or_create user now);
            if CoinBalance.u_balance balance <? to_integral_down cost then answer (bad "Insufficient coins")
            else
              hourly ← lift (dec_div_int cost hours);
              mret (inr (Draft user (rq_reel rq) r t cost balance p hours expected hourly (rq_targets rq)))
        end
  end.

(** The new row of [_charge_and_create]; money columns as stored. *)
Definition new_campaign (d : draft) (spent hourly now : Z) : campaign :=
  BoostCampaign (d_user d) (d_rid d) (match d_tier d with Some t => t_key t | None => "custom" end)
    (match d_tier d with Some t => t_placement t | None => TRENDING end)
    (match d_tier d with Some t => t_guaranteed_impressions t | None => None end)
    (d_hours d) spent spent now (now + d_hours d * hour) (d_expected d) 0 0 active
    (stored_targets (d_targets d)) hourly None 0 None.

Definition charged_profile (balance cost : Z) (p : Points.profile) : Points.profile :=
  let p := Points.setp Points.coins balance p in
  Points.setp Points.coins_spent_total (Points.p_coins_spent p + cost) p.

Definition charge_and_create (d : draft) (now : Z) : M store response :=
  let cost_int := to_integral_down (d_cost d) in
  atomic (
    o ← catch ('(_, balance) ← in_coins (CoinBalance.spend_coins (d_balance d) cost_int "boost_campaign" false
                  (CoinBalance.descr ("Boost campaign for reel #" +:+ str_int (d_rid d))) now);
               mret (inr balance))
          (λ e, if is_value_error e then Some (answer (bad "Insufficient coins")) else None);
    match o with
    | inl resp => mret resp
    | inr balance =>
        in_profiles (Points.save_profile [Points.coins; Points.coins_spent_total]
          (charged_profile (CoinBalance.u_balance balance) cost_int (d_profile d))) ≫= λ _,
        spent ← lift (money_column (d_cost d));
        hourly ← lift (money_column (d_hourly d));
        pk ← create_campaign (new_campaign d spent hourly now);
        save_reel (d_rid d) (set_boost true (Some pk) (d_reel d)) ≫= λ _,
        mret (Resp 200 (str_int (Z.of_nat pk)))
    end).

(** The constraint's IntegrityError is answered like the check. *)
Definition create_commit (d : draft) (now : Z) : M store response :=
  catch (charge_and_create d now)
    (λ e, match e with IntegrityError _ => Some (mret (bad "already_boosted")) | _ => None end).

Definition create_boost_campaign (user : Z) (rq : boost_request) (now : Z) : M store response :=
  answered_500 (
    o ← create_open user rq now;
    match o with inl resp => mret resp | inr d => create_commit d now end).

(** ** Cancelling *)

(** The campaign as read, and the fee. *)
Definition cancel_open (user : Z) (pk : nat) : M store (response + campaign * Z) :=
  c ← own_campaign pk user;
  if negb (bool_decide (bc_status c = active)) then answer (bad "Campaign is not active")
  else
    cf ← get_config;
    mret (inr (c, cancellation_fee_percent cf)).

Definition final_refund (c : campaign) (fee_percent : Z) : dec :=
  let refund_amount := of_cents (bc_remaining c) in
  dec_sub refund_amount (dec_mul refund_amount (percent fee_percent)).

(** [claim_transition]: the row is still active. *)
Definition claim_cancel (pk : nat) (refund now : Z) : M store bool :=
  s ← get;
  match s_campaigns s !! pk with
  | Some c =>
      if decide (bc_status c = active)
      then update_campaign pk (set_cancelled refund now) ≫= λ _, mret true
      else mret false
  | None => mret false
  end.

(** [profile.add_coins(n, total_field=None)]. *)
Definition refund_coins (user n now : Z) : M store unit :=
  p ← user_profile user;
  in_profiles (Points.positive_amount n ≫= λ _,
               Points.apply_delta p Points.coins n None None "" now) ≫= λ _, mret tt.

Definition cancel_commit (user : Z) (pk : nat) (c : campaign) (fee_percent now : Z) : M store response :=
  let refund := final_refund c fee_percent in
  atomic (
    stored ← lift (money_column refund);
    claimed ← claim_cancel pk stored now;
    if negb claimed then
      s ← get;
      match s_campaigns s !! pk with
      | Some c' => mret (bad ("Campaign is " +:+ status_name (bc_status c') +:+ ", cannot cancel"))
      | None => raise (DoesNotExist "BoostCampaign matching query does not exist.")
      end
    else
      when (dec_ltb (of_int 0) refund) (refund_coins user (to_integral_down refund) now) ≫= λ _,
      r ← campaign_reel c;
      when (bool_decide (rl_active r = Some pk)) (update_reel (bc_reel c) (set_boost false None)) ≫= λ _,
      mret (Resp 200 "cancelled")).

Definition cancel_boost_campaign (user : Z) (pk : nat) (now : Z) : M store response :=
  answered_500 (
    o ← cancel_open user pk;
    match o with inl resp => mret resp | inr (c, fee) => cancel_commit user pk c fee now end).

(** ** Pausing and resuming *)

Definition pause_open (user : Z) (pk : nat) : M store (response + campaign) :=
  c ← own_campaign pk user;
  if negb (bool_decide (bc_status c = active)) then answer (bad "Campaign is not active") else mret (inr c).

(** Two saves, each on its own. *)
Definition pause_commit (pk : nat) (c : campaign) : M store response :=
  save_campaign pk (set_status paused c) ≫= λ _,
  r ← campaign_reel c;
  save_reel (bc_reel c) (set_boost false (rl_active r) r) ≫= λ _,
  mret (Resp 200 "paused").

Definition pause_boost_campaign (user : Z) (pk : nat) : M store response :=
  answered_500 (
    o ← pause_open user pk;
    match o with inl resp => mret resp | inr c => pause_commit pk c end).

Definition resume_open (user : Z) (pk : nat) (now : Z) : M store (response + campaign) :=
  c ← own_campaign pk user;
  if negb (bool_decide (bc_status c = paused)) then answer (bad "Campaign is not paused")
  else if bc_end c <=? now then answer (bad "Campaign has expired") else mret (inr c).

Definition resume_commit (pk : nat) (c : campaign) : M store response :=
  save_campaign pk (set_status active c) ≫= λ _,
  r ← campaign_reel c;
  save_reel (bc_reel c) (set_boost true (Some pk) r) ≫= λ _,
  mret (Resp 200 "resumed").

Definition resume_boost_campaign (user : Z) (pk : nat) (now : Z) : M store response :=
  answered_500 (
    o ← resume_open user pk now;
    match o with inl resp => mret resp | inr c => resume_commit pk c end).

(** ** Impressions and engagements *)

Definition eligible (now : Z) (c : campaign) : bool :=
  bool_decide (bc_status c = active) && (now <? bc_end c) && (0 <? bc_remaining c).

Definition capped (c : boost_config) (pk : nat) (viewer now : Z) (l : list (nat * Z * Z)) : bool :=
  existsb (λ i, bool_decide (i.1 = (pk, viewer)) && (now - frequency_cap_hours c * hour <=? i.2)) l.

Definition quiet {A} (msg : string) : M store (response + A) := answer (Resp 200 msg).

Definition impression_open (viewer rid now : Z) : M store (response + nat * campaign * option boost_config) :=
  s ← get;
  match newest (λ c, (bc_reel c =? rid) && eligible now c) (s_campaigns s) 0 with
  | None => quiet "No active campaign"
  | Some (pk, c) =>
      match s_config s with
      | Some cf => if capped cf pk viewer now (s_impressions s) then quiet "Frequency cap reached"
                   else mret (inr (pk, c, Some cf))
      | None => mret (inr (pk, c, None))
      end
  end.

(** The status and the coins after one more impression of the copy [c]. *)
Definition after_impression (c : campaign) (cost : dec) : bstatus * dec :=
  let '(st, remaining) :=
    if dec_leb cost (of_cents (bc_remaining c))
    then (bc_status c, dec_sub (of_cents (bc_remaining c)) cost)
    else (exhausted, of_int 0) in
  match bc_guaranteed c with
  | Some g => if negb (g =? 0) && (g <=? bc_served c + 1) then (completed, of_int 0) else (st, remaining)
  | None => (st, remaining)
  end.

Definition impression_commit (viewer : Z) (pk : nat) (c : campaign) (cf : option boost_config) (now : Z)
    : M store response :=
  s ← get;
  (if decide ((pk, viewer) ∈ (s_impressions s).*1) then mret tt
   else
     put (with_impressions (s_impressions s ++ [(pk, viewer, now)]) s) ≫= λ _,
     cost ← match cf with
            | Some cf => lift (dec_div_int (of_cents (bc_hourly c)) (base_impression_rate cf))
            | None => mret (of_int 1)
            end;
     let '(st, remaining) := after_impression c cost in
     cents ← lift (money_column remaining);
     save_campaign pk (set_served st cents c) ≫= λ _,
     r ← campaign_reel c;
     save_reel (bc_reel c) (add_impression r)) ≫= λ _,
  mret (Resp 200 "recorded").

Definition record_boost_impression (viewer rid now : Z) : M store response :=
  answered_500 (
    o ← impression_open viewer rid now;
    match o with inl resp => mret resp | inr (pk, c, cf) => impression_commit viewer pk c cf now end).

Definition engagement_open (rid now : Z) : M store (response + nat * campaign) :=
  s ← get;
  match newest (running rid now) (s_campaigns s) 0 with
  | None => quiet "No active campaign"
  | Some x => mret (inr x)
  end.

Definition engagement_commit (user : Z) (kind : string) (pk : nat) (c : campaign) : M store response :=
  s ← get;
  (if decide ((pk, user, kind) ∈ s_engagements s) then mret tt
   else
     put (with_engagements (s_engagements s ++ [(pk, user, kind)]) s) ≫= λ _,
     save_campaign pk (set_engagements (bc_engagements c + 1) c) ≫= λ _,
     r ← campaign_reel c;
     save_reel (bc_reel c) (add_engagement r)) ≫= λ _,
  mret (Resp 200 "recorded").

Definition record_boost_engagement (user rid : Z) (kind : string) (now : Z) : M store response :=
  answered_500 (
    o ← engagement_open rid now;
    match o with inl resp => mret resp | inr (pk, c) => engagement_commit user kind pk c end).

(** ** Pacing

    [hourly_budget] is a [Decimal] and [hours_elapsed] a [float]: Python does
    not multiply the two. *)

Definition decimal_times_float (_ : dec) : M store dec :=
  raise (TypeError "unsupported operand type(s) for *: 'decimal.Decimal' and 'float'").

Definition pace_campaign (cf : boost_config) (pk : nat) (c : campaign) : M store unit :=
  expected_spend ← decimal_times_float (of_cents (bc_hourly c));
  let actual_spend := of_cents (bc_spent c - bc_remaining c) in
  when (dec_ltb (dec_mul expected_spend (of_cents (pacing_tolerance cf))) actual_spend)
    (save_campaign pk (set_status paused c) ≫= λ _,
     r ← campaign_reel c;
     when (bool_decide (rl_active r = Some pk)) (save_reel (bc_reel c) (set_boost false None r))).

Definition check_pacing_engine (now : Z) : M store response :=
  answered_500 (
    cf ← get_config;
    s ← get;
    for_each (λ '(pk, c), pace_campaign cf pk c)
      (List.filter (λ pc, eligible now pc.2) (imap (λ pk c, (pk, c)) (s_campaigns s))) ≫= λ _,
    mret (Resp 200 "checked")).

(** ** The sweep *)

Definition has_live_campaign (rid now : Z) (l : list campaign) : bool :=
  existsb (λ c, (bc_reel c =? rid) && eligible now c) l.

Definition shortfall (c : campaign) : Z :=
  match bc_guaranteed c with Some g => if g =? 0 then 0 else Z.max 0 (g - bc_served c) | None => 0 end.

(** The post's flags, when they are this campaign's or nobody's. *)
Definition clear_flags (pk : nat) (c : campaign) (now : Z) : M store unit :=
  r ← campaign_reel c;
  s ← get;
  if bool_decide (rl_active r = Some pk) then update_reel (bc_reel c) (set_boost false None)
  else when (rl_is_boosted r && negb (has_live_campaign (bc_reel c) now (s_campaigns s)))
         (update_reel (bc_reel c) (λ x, set_boost false (rl_active x) x)).

Definition expire_one (now : Z) (pk : nat) : M store unit :=
  atomic (
    s ← get;
    match s_campaigns s !! pk with
    | Some c =>
        if decide (bc_status c = active) then
          update_campaign pk (set_status (if shortfall c =? 0 then completed else undelivered)) ≫= λ _,
          clear_flags pk c now
        else mret tt
    | None => mret tt
    end).

Definition due (now : Z) (l : list campaign) : list nat :=
  reverse (List.filter (λ pc, bool_decide (bc_status pc.2 = active) && (bc_end pc.2 <=? now))
             (imap (λ pk c, (pk, c)) l)).*1.

Definition expire_boost_campaigns (now : Z) : M store unit :=
  s ← get;
  for_each (expire_one now) (due now (s_campaigns s)).

(** ** [boost_post], the older product *)

Definition BOOST_POST_COINS : Z := 200.
Definition BOOST_POST_HOURS : Z := 2.

Definition boost_post_txn (user rid : Z) (r : reel) (now : Z) : M store response :=
  atomic (
    s ← get;
    balance ← match CoinBalance.w_rows (s_coins s) !! user with
              | Some b => mret b
              | None => raise (DoesNotExist "User has no coin_balance.")
              end;
    in_coins (CoinBalance.spend_coins balance BOOST_POST_COINS "boost" false
                (CoinBalance.TxKwargs None "" None (Some rid) 0 "Post boost") now) ≫= λ _,
    let expected := match s_config s with
                    | Some cf => get_expected_impressions cf (of_int BOOST_POST_COINS)
                    | None => 0
                    end in
    hourly ← lift (money_column (dec_div (of_int BOOST_POST_COINS) (of_int BOOST_POST_HOURS)));
    pk ← create_campaign (BoostCampaign user rid "custom" TRENDING None BOOST_POST_HOURS
           (100 * BOOST_POST_COINS) (100 * BOOST_POST_COINS) now (now + BOOST_POST_HOURS * hour) expected 0 0 active
           (Targets None None None "") hourly None 0 None);
    update_reel rid (set_boost true (Some pk)) ≫= λ _,
    mret (Resp 200 (str_int (Z.of_nat pk)))).

(** [allowed]: [subscriber_action_refusal] let the request through. *)
Definition boost_post (allowed : bool) (user rid now : Z) : M store response :=
  if negb allowed then mret (Resp 403 "subscription_required")
  else
    s ← get;
    match s_reels s !! rid with
    | Some r =>
        if negb (rl_user r =? user) then mret (Resp 404 "Post not found")
        else if rl_is_hidden r then mret (bad "reel_not_boostable")
        else if existsb (running rid now) (s_campaigns s) then mret (bad "already_boosted")
        else catch (boost_post_txn user rid r now)
               (λ e, match e with
                     | DoesNotExist m => Some (mret (bad m))
                     | _ => if is_value_error e then Some (mret (bad (exn_str e))) else None
                     end)
    | None => mret (Resp 404 "Post not found")
    end.

(** ** Reading *)

Definition is_active (now : Z) (c : campaign) : bool := eligible now c.

Definition get_progress_percent (c : campaign) : Z :=
  let total := dec_add (of_cents (bc_spent c)) (of_cents (bc_remaining c)) in
  if bc_spent c =? 0 then 0
  else if coef total =? 0 then 0
  else to_integral_down (dec_mul (dec_div (of_cents (bc_spent c)) total) (of_int 100)).

(** Reading a column [UserProfile] does not have. *)
Definition profile_attribute {A} (col : profile_column) : M store A :=
  raise (AttributeError ("'UserProfile' object has no attribute '"
    +:+ match col with gender => "gender" | age => "age" | city => "city" end +:+ "'")).

(** Is the campaign shown to this viewer?  An attribute is read only for a
    target that is set. *)
Definition shown_to (viewer now : Z) (pk : nat) (c : campaign) : M store bool :=
  s ← get;
  r ← campaign_reel c;
  if rl_user r =? viewer then mret false
  else if decide ((viewer, rl_user r) ∈ s_follows s) then mret false
  else
    g ← (if truthy_str (tg_gender (bc_targets c)) && negb (bool_decide (tg_gender (bc_targets c) = Some "all"))
         then mine ← profile_attribute gender; mret (bool_decide (Some mine = tg_gender (bc_targets c)))
         else mret true);
    if negb g then mret false else
    lo ← (if truthy_int (tg_age_min (bc_targets c))
          then mine ← profile_attribute age; mret (default 0 (tg_age_min (bc_targets c)) <=? mine) else mret true);
    if negb lo then mret false else
    hi ← (if truthy_int (tg_age_max (bc_targets c))
          then mine ← profile_attribute age; mret (mine <=? default 0 (tg_age_max (bc_targets c))) else mret true);
    if negb hi then mret false else
    l ← (if negb (String.eqb (tg_location (bc_targets c)) "")
         then mine ← profile_attribute city; mret (String.eqb mine (tg_location (bc_targets c))) else mret true);
    if negb l then mret false else
    mret (match s_config s with
          | Some cf => negb (capped cf pk viewer now (s_impressions s))
          | None => true
          end).

Fixpoint shown (viewer now : Z) (l : list (nat * campaign)) : M store (list Z) :=
  match l with
  | [] => mret []
  | (pk, c) :: l' =>
      b ← shown_to viewer now pk c;
      rest ← shown viewer now l';
      mret (if b : bool then bc_reel c :: rest else rest)
  end.

(** The posts offered to a viewer's feed, newest campaign first. *)
Definition get_eligible_boosts (viewer now : Z) : M store (exn + list Z) :=
  catch (
    user_profile viewer ≫= λ _,
    s ← get;
    l ← shown viewer now (reverse (List.filter (λ pc, eligible now pc.2) (imap (λ pk c, (pk, c)) (s_campaigns s))));
    mret (inr l))
    (λ e, Some (mret (inl e))).

(** ** How a row changes

    [row_step]: one write to a campaign that already exists, under the
    configuration [cf]. *)

Section Steps.
Context (cf : boost_config).

Inductive row_step (c : campaign) : campaign → Prop :=
| step_pause : bc_status c = active → row_step c (set_status paused c)
| step_resume : bc_status c = paused → row_step c (set_status active c)
| step_seen cost st remaining cents :
    bc_status c = active → 0 < bc_remaining c →
    dec_div_int (of_cents (bc_hourly c)) (base_impression_rate cf) = inr cost →
    after_impression c cost = (st, remaining) → money_column remaining = inr cents →
    row_step c (set_served st cents c)
| step_engaged n : row_step c (set_engagements n c)
| step_expire : bc_status c = active →
    row_step c (set_status (if shortfall c =? 0 then completed else undelivered) c)
| step_cancel refund now : bc_status c = active → row_step c (set_cancelled refund now c).

Definition rows_step : list campaign → list campaign → Prop := Forall2 (rtc row_step).

(** Nothing but campaigns, posts, impressions and engagements moves. *)
Record turned (s s' : store) : Prop := Turned {
  tn_coins : s_coins s' = s_coins s;
  tn_profiles : s_profiles s' = s_profiles s;
  tn_config : s_config s' = s_config s;
  tn_rows : rows_step (s_campaigns s) (s_campaigns s')
}.

#[export] Instance rows_step_refl : Reflexive rows_step.
Proof. intros l. induction l; constructor; done. Qed.

#[export] Instance turned_preorder : PreOrder turned.
Proof.
  split.
  - intros s. by split.
  - intros s1 s2 s3 [H1 H2 H3 H4] [K1 K2 K3 K4]. split; [congruence..|].
    unfold rows_step in *. by transitivity (s_campaigns s2).
Qed.

Lemma rows_step_insert l pk c c' : l !! pk = Some c → row_step c c' → rows_step l (<[pk := c']> l).
Proof.
  intros Hl Hc. rewrite <- (list_insert_id l pk c Hl) at 1. apply Forall2_insert; [reflexivity|].
  by apply rtc_once.
Qed.

Lemma turned_campaign s s1 pk c c' :
  turned s s1 → s_campaigns s1 !! pk = Some c → row_step c c' →
  turned s (with_campaigns (<[pk := c']> (s_campaigns s1)) s1).
Proof. intros -> Hl Hc. split; [done..|]. by apply (rows_step_insert _ _ c). Qed.

Lemma alter_insert_row {A} (f : A → A) pk (l : list A) c : l !! pk = Some c → alter f pk l = <[pk := f c]> l.
Proof.
  intros Hl. apply list_eq. intros i. rewrite list_lookup_alter, list_lookup_insert.
  repeat case_decide; subst; try naive_solver; [by rewrite Hl|].
  apply lookup_lt_Some in Hl. rewrite lookup_ge_None_2 by naive_solver lia. done.
Qed.

Lemma turned_alter s s1 pk c f :
  turned s s1 → s_campaigns s1 !! pk = Some c → row_step c (f c) →
  turned s (with_campaigns (alter f pk (s_campaigns s1)) s1).
Proof.
  intros Hs Hl Hc. rewrite (alter_insert_row _ _ _ c) by done. by apply (turned_campaign s s1 pk c).
Qed.

Lemma turned_reels m s s1 : turned s s1 → turned s (with_reels m s1).
Proof. intros ->. by split. Qed.
Lemma turned_impressions l s s1 : turned s s1 → turned s (with_impressions l s1).
Proof. intros ->. by split. Qed.
Lemma turned_engagements l s s1 : turned s s1 → turned s (with_engagements l s1).
Proof. intros ->. by split. Qed.

Hint Resolve turned_campaign turned_alter turned_reels turned_impressions turned_engagements : boost.
Hint Constructors row_step : boost.
Hint Extern 0 (turned ?s ?s) => reflexivity : boost.

(** ** What the handlers that only turn rows do *)

Lemma post_save_campaign pk n s Q :
  (∀ m, Q (inl (IntegrityError m)) s) → Q (inr tt) (with_campaigns (<[pk := n]> (s_campaigns s)) s) →
  post (save_campaign pk n) s Q.
Proof. intros H1 H2. unfold save_campaign. by advance. Qed.

Lemma post_own_campaign pk user s Q :
  (∀ m, Q (inl (Http404 m)) s) → (∀ c, s_campaigns s !! pk = Some c → bc_user c = user → Q (inr c) s) →
  post (own_campaign pk user) s Q.
Proof. intros H1 H2. unfold own_campaign. advance; auto. apply H2; [done|lia]. Qed.

Lemma post_campaign_reel c s Q :
  (∀ m, Q (inl (DoesNotExist m)) s) → (∀ r, s_reels s !! bc_reel c = Some r → Q (inr r) s) →
  post (campaign_reel c) s Q.
Proof. intros H1 H2. unfold campaign_reel. advance; auto. Qed.

Lemma post_lift {A} (r : exn + A) s Q :
  (∀ e, r = inl e → Q (inl e) s) → (∀ a, r = inr a → Q (inr a) s) → post (lift (S:=store) r) s Q.
Proof. intros H1 H2. destruct r; [apply post_raise|apply post_ret]; auto. Qed.

Lemma post_get_config s Q : s_config s = Some cf → Q (inr cf) s → post get_config s Q.
Proof. intros Hs HQ. unfold get_config. advance; by simplify_eq. Qed.

Ltac visit := idtac;
  lazymatch goal with
  | |- post (own_campaign _ _) _ _ => apply post_own_campaign; [intros ?|intros ? ? ?]
  | |- post (save_campaign _ _) _ _ => apply post_save_campaign; [intros ?|]
  | |- post (campaign_reel _) _ _ => apply post_campaign_reel; [intros ?|intros ? ?]
  | |- post (lift _) _ _ => apply post_lift; intros ? ?
  | |- post get_config _ _ => apply post_get_config; [done|]
  | |- post (answer _) _ _ => apply post_ret
  | |- post (quiet _) _ _ => apply post_ret
  | |- post (save_reel _ _) _ _ => apply post_modify
  | |- post (update_reel _ _) _ _ => apply post_modify
  | |- post (update_campaign _ _) _ _ => apply post_modify
  end.

Ltac facts :=
  bool_prop;
  repeat match goal with
  | H : bool_decide _ = true |- _ => apply bool_decide_eq_true in H
  | H : bool_decide _ = false |- _ => apply bool_decide_eq_false in H
  end.

Lemma pause_turns user pk s : post (pause_boost_campaign user pk) s (λ _ s', turned s s').
Proof.
  unfold pause_boost_campaign, answered_500, pause_open, pause_commit. advance by visit.
  all: facts; eauto 6 with boost.
Qed.

Lemma resume_turns user pk now s : post (resume_boost_campaign user pk now) s (λ _ s', turned s s').
Proof.
  unfold resume_boost_campaign, answered_500, resume_open, resume_commit. advance by visit.
  all: facts; eauto 6 with boost.
Qed.

Lemma newest_index p l i pk c :
  newest p l i = Some (pk, c) → ∃ j, pk = (i + j)%nat ∧ l !! j = Some c ∧ p c = true.
Proof.
  revert i. induction l as [|x l IH]; intros i; cbn [newest]; [done|].
  destruct (newest p l (S i)) as [y|] eqn:E.
  - intros [= ->]. destruct (IH _ E) as (j & -> & Hj & Hp). exists (S j). split_and!; [lia|done|done].
  - destruct (p x) eqn:Hp; [|done]. intros [= <- <-]. exists 0%nat. split_and!; [lia|done|done].
Qed.

Lemma newest_at p l pk c : newest p l 0 = Some (pk, c) → l !! pk = Some c ∧ p c = true.
Proof. intros (j & -> & H)%newest_index. exact H. Qed.

Lemma engage_turns user rid kind now s : post (record_boost_engagement user rid kind now) s (λ _ s', turned s s').
Proof.
  unfold record_boost_engagement, answered_500, engagement_open, engagement_commit. advance by visit.
  all: simplify_eq; try match goal with H : newest _ _ _ = Some _ |- _ => apply newest_at in H as [? ?] end.
  all: eauto 6 with boost.
Qed.

Lemma see_turns viewer rid now s :
  s_config s = Some cf → post (record_boost_impression viewer rid now) s (λ _ s', turned s s').
Proof.
  intros Hcf. unfold record_boost_impression, answered_500, impression_open, impression_commit. advance by visit.
  all: simplify_eq; try match goal with H : newest _ _ _ = Some _ |- _ => apply newest_at in H as [? ?] end.
  all: unfold eligible in *; facts; eauto 8 with boost.
Qed.

Lemma pace_turns now s : s_config s = Some cf → post (check_pacing_engine now) s (λ _ s', turned s s').
Proof.
  intros Hcf. unfold check_pacing_engine, answered_500. advance by visit.
  eapply post_conseq; [apply (post_for_each _ _ (turned s)); [reflexivity|]|].
  - intros [pk c] s' Hs'. exact Hs'.
  - intros [e|[]] s' Hs'; done.
Qed.

Lemma expire_turns now s : post (expire_boost_campaigns now) s (λ _ s', turned s s').
Proof.
  unfold expire_boost_campaigns. advance. apply (post_for_each _ _ (turned s)); [reflexivity|].
  intros pk s' Hs'. unfold expire_one, clear_flags. advance by visit.
  all: eauto with boost.
Qed.

(** ** What cancelling does *)

(** A profile's row is its user's. *)
Definition keyed (s : store) : Prop :=
  ∀ u p, Points.pd_profiles (s_profiles s) !! u = Some p → Points.p_user p = u.

(** The refund on a profile. *)
Definition paid_back (user n : Z) (s : store) : store :=
  with_profiles (Points.PointsDb
    (alter (λ p, Points.setp Points.coins (Points.p_coins p + n) p) user (Points.pd_profiles (s_profiles s)))
    (Points.pd_ledger (s_profiles s))) s.

Lemma same_profiles s : with_profiles (s_profiles s) s = s.
Proof. by destruct s. Qed.

Lemma post_refund_coins user n now s Q :
  keyed s → (∀ e, Q (inl e) s) →
  (0 < n → is_Some (Points.pd_profiles (s_profiles s) !! user) → Q (inr tt) (paid_back user n s)) →
  post (refund_coins user n now) s Q.
Proof.
  intros Hk Herr Hok. unfold refund_coins, user_profile. advance; [|done].
  rename Heqo into Hp. pose proof (Hk _ _ Hp) as Hu. unfold in_profiles, Points.positive_amount, assert_or. advance.
  2: { rewrite same_profiles. apply Herr. }
  facts. pose proof (Points.apply_delta_run p Points.coins n None None "" now (s_profiles s) p) as Hrun.
  rewrite Hu in Hrun. destruct (Hrun Hp eq_refl) as [H2 H1]. clear Hrun. unfold post.
  rewrite (proj2 (Z.eqb_neq n 0)) in H1, H2 by lia. cbn [orb] in *. rewrite H2.
  destruct (Points.apply_delta _ _ _ _ _ _ _ _) as [[e|x] d']; cbn [fst snd] in *.
  - destruct (_ <? 0); [rewrite same_profiles; apply Herr|]. by destruct (proj2 H1 eq_refl) as [? [=]].
  - destruct (_ <? 0); [discriminate (proj1 H1 (mk_is_Some _ _ eq_refl))|]. cbv beta iota. apply post_ret.
    unfold Points.delta_ledger. rewrite bool_decide_false, app_nil_r by done.
    specialize (Hok ltac:(lia) (mk_is_Some _ _ eq_refl)). unfold paid_back in Hok.
    rewrite (Points.alter_lookup_insert _ _ _ p) in Hok by done.
    replace (Points.applied Points.coins n None p) with (Points.setp Points.coins (Points.p_coins p + n) p); [done|].
    by destruct p.
Qed.

(** A cancellation that went through: [n] coins back on the profile. *)
Record refunded (user : Z) (pk : nat) (now n : Z) (s s' : store) : Prop := Refunded {
  rf_config : s_config s' = s_config s;
  rf_coins : s_coins s' = s_coins s;
  rf_profiles : s_profiles s' = s_profiles (if decide (n = 0) then s else paid_back user n s);
  rf_row : ∃ c stored, s_campaigns s !! pk = Some c ∧ bc_user c = user ∧ bc_status c = active
    ∧ s_campaigns s' = <[pk := set_cancelled stored now c]> (s_campaigns s)
    ∧ (n = 0 ∨ 0 < n ∧ n = to_integral_down (final_refund c (cancellation_fee_percent cf)))
}.

Lemma post_claim_cancel pk refund now c s Q :
  s_campaigns s !! pk = Some c → bc_status c = active →
  Q (inr true) (with_campaigns (<[pk := set_cancelled refund now c]> (s_campaigns s)) s) →
  post (claim_cancel pk refund now) s Q.
Proof.
  intros Hc Hst HQ. unfold claim_cancel. advance; simplify_eq. unfold update_campaign. advance.
  by rewrite (alter_insert_row _ _ _ c).
Qed.

(** Either nothing happened to the campaign, or it is cancelled. *)
Lemma cancel_run user pk now s :
  s_config s = Some cf → keyed s →
  post (cancel_boost_campaign user pk now) s (λ _ s', turned s s' ∨ ∃ n, refunded user pk now n s s').
Proof.
  intros Hcf Hk. unfold cancel_boost_campaign, answered_500, cancel_open, cancel_commit.
  advance by (idtac; lazymatch goal with
              | |- post (refund_coins _ _ _) _ _ => apply post_refund_coins; [done|intros ?|intros ? ?]
              | |- post (claim_cancel _ _ _) _ _ => facts; eapply post_claim_cancel; [done|done|]
              | _ => visit
              end).
  all: try (left; reflexivity); try done; right; facts.
  1,2: exists (to_integral_down (final_refund c (cancellation_fee_percent cf))).
  3,4: exists 0.
  all: split; [done|done|by rewrite ?decide_False by lia|]; exists c; eexists; split_and!; try done; auto.
Qed.

(** ** What buying does *)

Definition total_of (u : Z) (s : store) : Z := CoinBalance.total_of u (s_coins s).
Definition entries (s : store) : list CoinBalance.coin_tx := CoinBalance.w_txs (s_coins s).
Definition rows_ok (s : store) : Prop := Gifting.rows_ok (s_coins s).

(** Nobody's coins moved; a row without coins may have been opened. *)
Record same_coins (w w' : CoinBalance.wallet) : Prop := SameCoins {
  sc_rows : Gifting.rows_ok w';
  sc_totals : ∀ u, CoinBalance.total_of u w' = CoinBalance.total_of u w;
  sc_txs : CoinBalance.w_txs w' = CoinBalance.w_txs w
}.

Lemma same_coins_refl w : Gifting.rows_ok w → same_coins w w.
Proof. by split. Qed.

(** [user] paid [n] coins, with one entry in the ledger. *)
Record paid (user n : Z) (w w' : CoinBalance.wallet) : Prop := Paid {
  pd_positive : 0 < n;
  pd_rows : Gifting.rows_ok w';
  pd_total : CoinBalance.total_of user w' = CoinBalance.total_of user w - n;
  pd_others : ∀ u, u ≠ user → CoinBalance.total_of u w' = CoinBalance.total_of u w;
  pd_entry : ∃ t, CoinBalance.w_txs w' = CoinBalance.w_txs w ++ [t] ∧ CoinBalance.ct_user t = user
               ∧ CoinBalance.ct_coins t = - n
}.

Lemma post_get_or_create user now w (Q : exn + CoinBalance.ucb → CoinBalance.wallet → Prop) :
  Gifting.rows_ok w →
  (∀ b w', same_coins w w' → CoinBalance.u_user b = user → CoinBalance.w_rows w' !! user = Some b → Q (inr b) w') →
  post (CoinBalance.get_or_create user now) w Q.
Proof.
  intros Hw HQ. destruct (CoinBalance.get_or_create_spec user now w) as (r & w' & E & _).
  unfold post. rewrite E. destruct (Gifting.opened_row _ _ _ _ _ Hw E) as (H1 & H2 & H3 & H4 & H5).
  cbn. apply HQ; [by split|done|done].
Qed.

Lemma post_spend self n ty kw now w (Q : exn + CoinBalance.coin_tx * CoinBalance.ucb → CoinBalance.wallet → Prop) :
  Gifting.rows_ok w → is_Some (CoinBalance.w_rows w !! CoinBalance.u_user self) →
  CoinBalance.ordinary_type ty = true →
  (∀ e, is_value_error e = true → Q (inl e) w) →
  (∀ t self' w', paid (CoinBalance.u_user self) n w w' →
     CoinBalance.u_balance self' = CoinBalance.total_of (CoinBalance.u_user self) w' → Q (inr (t, self')) w') →
  post (CoinBalance.spend_coins self n ty false kw now) w Q.
Proof.
  intros Hw Hr Hty Herr Hok. unfold post. pose proof (Gifting.spend_run self n ty false kw now w Hw Hr Hty) as Hrun.
  destruct (CoinBalance.spend_coins _ _ _ _ _ _ w) as [[e|[t self']] w'] eqn:E; cbn.
  - destruct Hrun as (-> & He & _). by apply Herr.
  - destruct Hrun as (Hn & Hs & _). destruct (Gifting.total_of_row _ _ _ _ Hw Hs) as (H1 & H2 & H3).
    apply Hok; [|by apply (Gifting.spend_copy _ _ _ _ _ _ _ _ _ E)]. split; [done..|].
    eexists. split; [by apply (Gifting.spend_entry _ _ _ _ _ _ _ _ E)|done].
Qed.

(** A draft as [create_open] makes it: whose it is, what it costs, and what
    was checked before. *)
Record drafted (user : Z) (rq : boost_request) (now : Z) (s : store) (d : draft) : Prop := Drafted {
  df_user : d_user d = user; df_rid : d_rid d = rq_reel rq; df_targets : d_targets d = rq_targets rq;
  df_product : read_product rq = inr (d_tier d, d_hours d);
  df_reel : s_reels s !! rq_reel rq = Some (d_reel d) ∧ rl_user (d_reel d) = user ∧ rl_is_hidden (d_reel d) = false;
  df_limits : limit_refusal cf user (rq_reel rq) now (bool_decide (is_Some (d_tier d))) (s_campaigns s) = None;
  df_price : price cf (d_tier d) (d_hours d) (has_premium_targeting (rq_targets rq)) = inr (d_cost d, d_expected d);
  df_hourly : dec_div_int (d_cost d) (d_hours d) = inr (d_hourly d);
  df_profile : Points.pd_profiles (s_profiles s) !! user = Some (d_profile d);
  df_balance : CoinBalance.u_user (d_balance d) = user
}.

Lemma create_open_run user rq now s :
  s_config s = Some cf → rows_ok s →
  post (create_open user rq now) s (λ r s', ∃ w, s' = with_coins w s ∧ same_coins (s_coins s) w
    ∧ match r with
      | inl _ => True
      | inr (inl resp) => r_status resp = 400
      | inr (inr d) => drafted user rq now s d ∧ is_Some (CoinBalance.w_rows w !! user)
      end).
Proof.
  intros Hcf Hw. assert (∃ w, s = with_coins w s ∧ same_coins (s_coins s) w) as (w0 & E0 & Hw0)
    by (exists (s_coins s); split; [by destruct s|by apply same_coins_refl]).
  unfold create_open, own_reel, user_profile, in_coins.
  advance by (idtac; lazymatch goal with
              | |- post (CoinBalance.get_or_create _ _) _ _ => apply post_get_or_create; [done|intros ? ? ? ? ?]
              | _ => visit
              end).
  all: eexists; split_and!; try done.
  - unfold read_product in *. by repeat case_match; simplify_eq.
  - unfold limit_refusal in *. by repeat case_match; simplify_eq.
  - facts. split; done.
Qed.

(** A purchase that went through, of what [d] describes, for [n] coins. *)
Record bought (user : Z) (rq : boost_request) (now n : Z) (s s' : store) (d : draft) (spent hourly : Z)
    : Prop := Bought {
  bo_draft : drafted user rq now s d;
  bo_cost : n = to_integral_down (d_cost d) ∧ money_column (d_cost d) = inr spent;
  bo_hourly : money_column (d_hourly d) = inr hourly;
  bo_coins : paid user n (s_coins s) (s_coins s');
  bo_config : s_config s' = s_config s;
  bo_row : s_campaigns s' = s_campaigns s ++ [new_campaign d spent hourly now];
  bo_one : tier_clash (new_campaign d spent hourly now) (s_campaigns s) = false;
  bo_reels : s_reels s' = <[d_rid d := set_boost true (Some (length (s_campaigns s))) (d_reel d)]> (s_reels s);
  bo_profile : ∀ u,
    (λ p, (Points.p_user p, Points.p_coins p)) <$> Points.pd_profiles (s_profiles s') !! u
    = (λ p, (Points.p_user p, if decide (u = user) then total_of user s' else Points.p_coins p))
      <$> Points.pd_profiles (s_profiles s) !! u
}.

(** A request that was turned down left everything but an empty row. *)
Definition untouched (s s' : store) : Prop := ∃ w, s' = with_coins w s ∧ same_coins (s_coins s) w.

Lemma paid_after user n w w1 w2 : same_coins w w1 → paid user n w1 w2 → paid user n w w2.
Proof.
  intros [H1 H2 H3] [K0 K1 K2 K3 K4]. split; [done|done|by rewrite K2, H2|intros u Hu; by rewrite K3, H2|].
  by rewrite <- H3.
Qed.

Lemma charge_run user rq now s w d :
  rows_ok s → keyed s → same_coins (s_coins s) w → is_Some (CoinBalance.w_rows w !! user) → drafted user rq now s d →
  post (charge_and_create d now) (with_coins w s) (λ r s',
    (∃ resp, r = inr resp ∧ r_status resp = 200) ∧ (∃ n spent hourly, bought user rq now n s s' d spent hourly)
    ∨ (∀ resp, r = inr resp → r_status resp = 400) ∧ untouched s s').
Proof.
  intros Hw Hk Hsame Hrow Hd. assert (untouched s (with_coins w s)) as Hu by (by exists w).
  unfold charge_and_create, create_campaign, in_coins, in_profiles.
  advance by (idtac; lazymatch goal with
              | |- post (CoinBalance.spend_coins _ _ _ _ _ _) _ _ =>
                  apply post_spend; [apply Hsame|by rewrite (df_balance _ _ _ _ _ Hd)|done|intros ? He; rewrite He|intros ? ? ? ? ?]
              | |- post (Points.save_profile _ _) _ _ => apply post_modify
              | _ => visit
              end).
  all: try (right; split; [by intros ? [=]|done]).
  - right. split; [by intros ? [= <-]|done].
  - left. split; [by eexists|]. exists (to_integral_down (d_cost d)), a, a0.
    destruct (df_reel _ _ _ _ _ Hd) as (Hr & _). pose proof (df_profile _ _ _ _ _ Hd) as Hp.
    pose proof (Hk _ _ Hp) as Hpu. rewrite (df_balance _ _ _ _ _ Hd) in *. split; try done.
    + by apply (paid_after _ _ _ w).
    + cbn. rewrite (df_rid _ _ _ _ _ Hd). by rewrite (Points.alter_lookup_insert _ _ _ (d_reel d)).
    + assert (Points.p_user (charged_profile (CoinBalance.u_balance self') (to_integral_down (d_cost d)) (d_profile d)) = user)
        as Hcu by (rewrite <- Hpu; by destruct (d_profile d)).
      intros u. cbn [s_profiles with_reels with_campaigns with_profiles Points.pd_profiles].
      rewrite Hcu. destruct (decide (u = user)) as [->|Hne].
      * rewrite lookup_alter_eq. cbn in Hp |- *. rewrite Hp. cbn. unfold total_of. cbn. rewrite <- H0. by destruct (d_profile d).
      * by rewrite lookup_alter_ne by done.
Qed.

Lemma create_run user rq now s :
  s_config s = Some cf → rows_ok s → keyed s →
  post (create_boost_campaign user rq now) s (λ r s', ∃ resp, r = inr resp ∧
    (r_status resp = 200 ∧ (∃ n d spent hourly, bought user rq now n s s' d spent hourly)
     ∨ r_status resp ≠ 200 ∧ untouched s s')).
Proof.
  intros Hcf Hw Hk. unfold create_boost_campaign, answered_500. apply post_catch, post_bind.
  eapply post_conseq; [by apply create_open_run|].
  intros r s1 (w & -> & Hsame & Hr). assert (untouched s (with_coins w s)) as Hu by (by exists w).
  destruct r as [e|[resp|d]]; cbn.
  1,2: eexists; split; [reflexivity|]; right; by rewrite ?Hr.
  destruct Hr as [Hd Hrow]. unfold create_commit. apply post_catch.
  eapply post_conseq; [by apply (charge_run user rq now s w d)|]. intros [e|resp] s' H; cbn in H.
  - destruct H as [[(resp & [=] & _) _]|[_ H]].
    destruct e; cbn; (eexists; split; [reflexivity|right; by split]).
  - eexists. split; [reflexivity|]. destruct H as [[H1 H2]|[H1 H2]].
    + destruct H1 as (resp' & [= <-] & H1). left. split; [done|]. destruct H2 as (n & spent & hourly & H2). by exists n, d, spent, hourly.
    + right. by rewrite (H1 resp).
Qed.

(** ** What the older product does *)

Definition post_campaign (user rid now expected : Z) : campaign :=
  BoostCampaign user rid "custom" TRENDING None BOOST_POST_HOURS
    (100 * BOOST_POST_COINS) (100 * BOOST_POST_COINS) now (now + BOOST_POST_HOURS * hour) expected 0 0 active
    (Targets None None None "") 10000 None 0 None.

(** A sale of [boost_post]. *)
Record post_sold (user rid now : Z) (s s' : store) : Prop := PostSold {
  po_coins : paid user BOOST_POST_COINS (s_coins s) (s_coins s');
  po_profiles : s_profiles s' = s_profiles s;
  po_config : s_config s' = s_config s;
  po_row : s_campaigns s' = s_campaigns s
    ++ [post_campaign user rid now (get_expected_impressions cf (of_int BOOST_POST_COINS))];
  po_reels : s_reels s' = alter (set_boost true (Some (length (s_campaigns s)))) rid (s_reels s)
}.

Lemma boost_post_run allowed user rid now s :
  s_config s = Some cf → rows_ok s →
  post (boost_post allowed user rid now) s (λ r s',
    (∃ resp, r = inr resp ∧ r_status resp = 200) ∧ post_sold user rid now s s'
    ∨ (∀ resp, r = inr resp → r_status resp ≠ 200) ∧ s' = s).
Proof.
  intros Hcf Hw.
  unfold boost_post, boost_post_txn, create_campaign, in_coins.
  advance by (idtac; lazymatch goal with
              | |- post (CoinBalance.spend_coins _ _ _ _ _ _) _ _ =>
                  apply post_spend; [done|match goal with H : CoinBalance.w_rows _ !! _ = Some _ |- _ => destruct (Hw _ _ H) as [-> _]; by eexists end|done|intros ? He; rewrite ?He|intros ? ? ? ? ?]
              | _ => visit
              end).
  all: repeat match goal with
         | H : money_column _ = inr ?h |- _ => vm_compute in H; injection H as [= <-]
         | H : money_column _ = inl _ |- _ => by vm_compute in H
         end.
  all: try (right; split; [by intros ? [= <-]|done]).
  - destruct e; cbn; right; split; try done; by intros ? [= <-].
  - left. split; [by eexists|]. facts. simplify_eq. split; try done; cbn.
    + destruct (Hw _ _ Heqo0) as [Hu _]. by rewrite <- Hu.
    + by rewrite Hcf.
Qed.

End Steps.

End Boost.
