(* ===== verification/BoostRun.v ===== *)
(** * BoostRun: a boost desk in service

    The requests [Boost] answers, one after another, with a log of what
    cancelling put back on the profiles; what such a run keeps true of the
    coins, the campaigns and the refunds. *)

From Stdlib Require Import ZArith Lia.
From S2P Require Import Prelude Decimal CoinBalance Points Gifting BoostPricing Boost.

Module BoostRun.
Import BoostPricing Boost.

(** ** Requests *)

Inductive request :=
| Buy (user : Z) (rq : boost_request) (now : Z)
| BuyOld (allowed : bool) (user rid now : Z)
| Cancel (user : Z) (pk : nat) (now : Z)
| Pause (user : Z) (pk : nat)
| Resume (user : Z) (pk : nat) (now : Z)
| See (viewer rid now : Z)
| Engage (user rid : Z) (kind : string) (now : Z)
| Pace (now : Z)
| Expire (now : Z).

Definition serve (q : request) (s : store) : store :=
  match q with
  | Buy user rq now => (create_boost_campaign user rq now s).2
  | BuyOld allowed user rid now => (boost_post allowed user rid now s).2
  | Cancel user pk now => (cancel_boost_campaign user pk now s).2
  | Pause user pk => (pause_boost_campaign user pk s).2
  | Resume user pk now => (resume_boost_campaign user pk now s).2
  | See viewer rid now => (record_boost_impression viewer rid now s).2
  | Engage user rid kind now => (record_boost_engagement user rid kind now s).2
  | Pace now => (check_pacing_engine now s).2
  | Expire now => (expire_boost_campaigns now s).2
  end.

Definition profile_coins (u : Z) (s : store) : Z :=
  default 0 (Points.p_coins <$> Points.pd_profiles (s_profiles s) !! u).

(** What a cancellation put on its user's profile. *)
Definition refund_of (q : request) (s s' : store) : list (nat * Z) :=
  match q with
  | Cancel user pk _ =>
      let n := profile_coins user s' - profile_coins user s in
      if n =? 0 then [] else [(pk, n)]
  | _ => []
  end.

Definition world : Type := store * list (nat * Z).

Definition turn (w : world) (q : request) : world :=
  let s' := serve q w.1 in (s', w.2 ++ refund_of q w.1 s').

Definition run (qs : list request) (s : store) : world := fold_left turn qs (s, []).

(** The coins a user's campaigns were sold for. *)
Fixpoint sold (u : Z) (l : list campaign) : Z :=
  match l with
  | [] => 0
  | c :: l' => (if bc_user c =? u then bc_spent c `quot` 100 else 0) + sold u l'
  end.

Lemma sold_app u l l' : sold u (l ++ l') = sold u l + sold u l'.
Proof. induction l as [|c l IH]; cbn; lia. Qed.

(** ** One request *)

Section Turns.
Context (cf : boost_config).

(** What a request can do to the store. *)
Inductive moved (q : request) (s s' : store) : Prop :=
| moved_rows : refund_of q s s' = [] → turned cf s s' → moved q s s'
| moved_refund user pk now n : q = Cancel user pk now → refunded cf user pk now n s s' → moved q s s'
| moved_buy user rq now n d spent hourly : q = Buy user rq now → bought cf user rq now n s s' d spent hourly → moved q s s'
| moved_old allowed user rid now : q = BuyOld allowed user rid now → post_sold cf user rid now s s' → moved q s s'
| moved_none : refund_of q s s' = [] → untouched s s' → moved q s s'.

Lemma turned_no_refund q s s' : turned cf s s' → refund_of q s s' = [].
Proof.
  intros [_ H _ _]. destruct q; try done. cbn. unfold profile_coins. rewrite H.
  by rewrite (proj2 (Z.eqb_eq _ 0)) by lia.
Qed.

Lemma post_snd {S A} (m : M S A) s (Q : exn + A → S → Prop) : post m s Q → Q (m s).1 (m s).2.
Proof. unfold post. by destruct (m s). Qed.

Lemma serve_moves q s : s_config s = Some cf → rows_ok s → keyed s → moved q s (serve q s).
Proof.
  intros Hcf Hw Hk. destruct q; cbn [serve].
  - destruct (post_snd _ _ _ (create_run cf user rq now s Hcf Hw Hk))
      as (resp & _ & [(_ & n & d & spent & hourly & H)|[_ H]]); [by eapply moved_buy|by apply moved_none].
  - destruct (post_snd _ _ _ (boost_post_run cf allowed user rid now s Hcf Hw)) as [[_ H]|[_ ->]];
      [by eapply moved_old|]. apply moved_rows; reflexivity.
  - destruct (post_snd _ _ _ (cancel_run cf user pk now s Hcf Hk)) as [H|[n H]].
    + apply moved_rows; [by apply turned_no_refund|done].
    + by eapply moved_refund.
  - apply moved_rows; [done|]. by apply (post_snd _ _ _ (pause_turns cf user pk s)).
  - apply moved_rows; [done|]. by apply (post_snd _ _ _ (resume_turns cf user pk now s)).
  - apply moved_rows; [done|]. by apply (post_snd _ _ _ (see_turns cf viewer rid now s Hcf)).
  - apply moved_rows; [done|]. by apply (post_snd _ _ _ (engage_turns cf user rid kind now s)).
  - apply moved_rows; [done|]. by apply (post_snd _ _ _ (pace_turns cf now s Hcf)).
  - apply moved_rows; [done|]. by apply (post_snd _ _ _ (expire_turns cf now s)).
Qed.

(** ** The rows *)

Record row_ok (c : campaign) : Prop := RowOk {
  ro_remaining : 0 <= bc_remaining c <= bc_spent c;
  ro_spent : bc_spent c < 10 ^ 10;
  ro_hourly : 0 <= bc_hourly c
}.

(** What no later write to a row changes. *)
Record same_row (c c' : campaign) : Prop := SameRow {
  sr_user : bc_user c' = bc_user c;
  sr_spent : bc_spent c' = bc_spent c;
  sr_cancelled : bc_status c = cancelled → bc_status c' = cancelled
}.

#[local] Instance same_row_preorder : PreOrder same_row.
Proof. split; [by split|]. intros c1 c2 c3 [H1 H2 H3] [K1 K2 K3]. split; [congruence..|auto]. Qed.

Lemma row_step_same c c' : row_step cf c c' → same_row c c'.
Proof. destruct 1; split; try done; cbn; congruence. Qed.

Lemma rtc_same c c' : rtc (row_step cf) c c' → same_row c c'.
Proof. induction 1 as [c|c1 c2 c3 H _ IH]; [reflexivity|]. transitivity c2; [by apply row_step_same|done]. Qed.

Lemma rtc_invariant (P : campaign → Prop) :
  (∀ c c', row_step cf c c' → P c → P c') → ∀ c c', rtc (row_step cf) c c' → P c → P c'.
Proof. intros Hstep c c'. induction 1; eauto. Qed.

(** The coins left after an impression of a row. *)
Lemma after_impression_within c cost st remaining cents :
  row_ok c → 0 <= coef cost → after_impression c cost = (st, remaining) → money_column remaining = inr cents →
  0 <= cents <= bc_remaining c.
Proof.
  intros [Hr Hs _] Hcost Ha Hm. destruct (money_column_ok _ _ Hm) as [-> _].
  assert (remaining = of_int 0 ∨ dec_leb cost (of_cents (bc_remaining c)) = true
          ∧ remaining = dec_sub (of_cents (bc_remaining c)) cost) as [->|[Hle ->]].
  { unfold after_impression in Ha. by repeat case_match; simplify_eq; auto. }
  - cbn. lia.
  - apply sub_within; [lia|done|done].
Qed.

Lemma dec_div_int_nonneg a n d : 0 <= coef a → 0 < n → dec_div_int a n = inr d → 0 <= coef d.
Proof.
  intros Ha Hn. unfold dec_div_int. rewrite (proj2 (Z.eqb_neq n 0)), (proj2 (Z.ltb_ge n 0)) by lia.
  intros [= <-]. by apply dec_div_nonneg.
Qed.

Context (Hcf : config_ok cf).

Lemma row_step_ok c c' : row_step cf c c' → row_ok c → row_ok c'.
Proof.
  intros Hstep Hc. pose proof Hc as [Hr Hs Hh]. destruct Hstep; split; try done; cbn; try lia.
  enough (0 <= cents <= bc_remaining c) by lia. eapply after_impression_within; [done| |done|done].
  eapply dec_div_int_nonneg; [|by apply (ok_impressions cf)|done]. done.
Qed.

(** The row of a purchase costs what was paid. *)
Lemma price_paid rq t hours cost expected spent n premium :
  read_product rq = inr (t, hours) → price cf t hours premium = inr (cost, expected) →
  money_column cost = inr spent → n = to_integral_down cost → 0 < n →
  0 <= spent ∧ spent `quot` 100 = n ∧ 0 < hours ∧ 0 <= coef cost.
Proof.
  intros Hrq Hp [-> _]%money_column_ok -> Hn. unfold price in Hp. destruct t as [t|].
  - injection Hp as [= <- _]. unfold read_product in Hrq. destruct (truthy_str _); [|by repeat case_match].
    unfold tier_for in Hrq. destruct (List.find _ TIERS) as [t'|] eqn:E; [|done]. injection Hrq as [= -> <-].
    apply List.find_some in E as [Hin _]. cbn in Hin.
    by destruct Hin as [<-|[<-|[<-|[]]]].
  - destruct (calculate_cost cf hours premium) as [e|cents] eqn:E; [done|]. injection Hp as [= <- _].
    rewrite to_cents_of_cents. assert (to_integral_down (of_cents cents) = cents `quot` 100) as Hq by done.
    rewrite Hq in *. assert (0 < cents).
    { destruct (Z.le_gt_cases cents 0) as [Hle|]; [|lia].
      pose proof (Z.quot_opp_l cents 100 ltac:(lia)). pose proof (Z.quot_pos (- cents) 100 ltac:(lia) ltac:(lia)). lia. }
    split_and!; [lia|done| |cbn; lia]. destruct (Z.le_gt_cases hours 0) as [Hle|]; [|lia].
    pose proof (no_hours_no_cost cf hours premium cents Hcf Hle E). lia.
Qed.

Lemma bought_row user rq now n s s' d spent hourly :
  bought cf user rq now n s s' d spent hourly →
  row_ok (new_campaign d spent hourly now) ∧ spent `quot` 100 = n ∧ d_user d = user.
Proof.
  intros H. destruct H as [Hd [Hn Hspent] Hhourly Hpaid _ _ _ _ _]. destruct Hd as [Hu _ _ Hprod _ _ Hprice Hdiv _ _].
  destruct (price_paid _ _ _ _ _ _ _ _ Hprod Hprice Hspent Hn (pd_positive _ _ _ _ Hpaid)) as (H0 & Hq & Hh & Hc).
  destruct (money_column_ok _ _ Hspent) as [_ Hb]. destruct (money_column_ok _ _ Hhourly) as [-> _].
  split_and!; [split; cbn; [lia|lia|]|done|done].
  apply to_cents_nonneg. eapply dec_div_int_nonneg; [exact Hc|exact Hh|exact Hdiv].
Qed.

(** ** The invariant of a run *)

Record fine (s0 : store) (w : world) : Prop := Fine {
  fn_config : s_config w.1 = Some cf;
  fn_rows : rows_ok w.1;
  fn_keyed : keyed w.1;
  fn_coins : ∀ u, total_of u w.1 + sold u (s_campaigns w.1) = total_of u s0;
  fn_campaigns : Forall row_ok (s_campaigns w.1);
  fn_once : NoDup w.2.*1;
  fn_refunds : ∀ pk n, (pk, n) ∈ w.2 → ∃ c, s_campaigns w.1 !! pk = Some c ∧ bc_status c = cancelled
                 ∧ 0 < n ∧ 100 * n <= bc_spent c
}.

Lemma rows_step_sold u l l' : rows_step cf l l' → sold u l' = sold u l.
Proof.
  induction 1 as [|c c' l l' Hc _ IH]; [done|]. cbn. destruct (rtc_same _ _ Hc) as [-> -> _]. lia.
Qed.

Lemma rows_step_ok l l' : rows_step cf l l' → Forall row_ok l → Forall row_ok l'.
Proof.
  induction 1 as [|c c' l l' Hc _ IH]; [done|]. intros [H1 H2]%Forall_cons. constructor; [|by apply IH].
  by eapply rtc_invariant; [apply row_step_ok|..].
Qed.

(** A refund already made stays a cancelled campaign's. *)
Lemma refunds_kept l l' (log : list (nat * Z)) :
  rows_step cf l l' →
  (∀ pk n, (pk, n) ∈ log → ∃ c, l !! pk = Some c ∧ bc_status c = cancelled ∧ 0 < n ∧ 100 * n <= bc_spent c) →
  ∀ pk n, (pk, n) ∈ log → ∃ c, l' !! pk = Some c ∧ bc_status c = cancelled ∧ 0 < n ∧ 100 * n <= bc_spent c.
Proof.
  intros Hl Hlog pk n (c & Hc & Hst & Hn & Hsp)%Hlog.
  destruct (Forall2_lookup_l _ _ _ _ _ Hl Hc) as (c' & Hc' & Hs). destruct (rtc_same _ _ Hs) as [_ Hsp' Hst'].
  exists c'. rewrite Hsp'. auto.
Qed.

Lemma fine_turned s0 s s' log : turned cf s s' → fine s0 (s, log) → fine s0 (s', log).
Proof.
  intros [Hc Hp Hf Hr] [F1 F2 F3 F4 F5 F6 F7]. cbn in *. unfold rows_ok, keyed, total_of in *.
  split; unfold rows_ok, keyed, total_of; cbn; rewrite ?Hc, ?Hp, ?Hf; try done.
  - intros u. by rewrite (rows_step_sold u _ _ Hr).
  - by eapply rows_step_ok.
  - by eapply refunds_kept.
Qed.

Lemma fine_untouched s0 s s' log : untouched s s' → fine s0 (s, log) → fine s0 (s', log).
Proof.
  intros (w & -> & [Hr Ht _]) [F1 F2 F3 F4 F5 F6 F7]. split; try done.
  intros u. unfold total_of in *. cbn in *. by rewrite Ht.
Qed.

(** A sale: [n] coins and one more row. *)
Lemma fine_sale s0 s s' log user n row :
  paid user n (s_coins s) (s_coins s') → s_config s' = s_config s → s_campaigns s' = s_campaigns s ++ [row] →
  bc_user row = user → bc_spent row `quot` 100 = n → row_ok row → keyed s' →
  fine s0 (s, log) → fine s0 (s', log).
Proof.
  intros Hp Hf Hr Hu Hn Hok Hk [F1 F2 F3 F4 F5 F6 F7]. cbn in *. split; cbn; try done.
  - by rewrite Hf.
  - apply Hp.
  - intros u. rewrite Hr, sold_app. cbn [sold]. rewrite Hu, Hn, <- F4. unfold total_of.
    destruct (Z.eqb_spec user u) as [<-|Hne].
    + rewrite (pd_total _ _ _ _ Hp). lia.
    + rewrite (pd_others _ _ _ _ Hp u) by done. lia.
  - rewrite Hr. apply Forall_app. split; [done|]. by apply Forall_singleton.
  - intros pk m (c & Hc & H)%F7. exists c. split; [|done]. rewrite Hr. by apply lookup_app_l_Some.
Qed.

Lemma refund_logged user pk now n s s' :
  refunded cf user pk now n s s' →
  refund_of (Cancel user pk now) s s' = [] ∨ 0 < n ∧ refund_of (Cancel user pk now) s s' = [(pk, n)].
Proof.
  intros [_ _ Hp (c & st & _ & _ & _ & _ & Hn)]. cbn. unfold profile_coins. rewrite Hp.
  destruct (decide (n = 0)) as [->|Hnz]; [left; by rewrite Z.sub_diag|]. cbn. rewrite lookup_alter_eq.
  destruct (Points.pd_profiles (s_profiles s) !! user) as [p|]; cbn; [|by left].
  right. split; [lia|]. replace (_ - _) with n by (destruct p; cbn; lia). by rewrite (proj2 (Z.eqb_neq n 0)).
Qed.

Lemma keyed_refund user pk now n s s' : refunded cf user pk now n s s' → keyed s → keyed s'.
Proof.
  intros [_ _ Hp _] Hk u p. rewrite Hp. case_decide; [apply Hk|]. cbn.
  destruct (decide (u = user)) as [->|Hne]; [|rewrite lookup_alter_ne by done; apply Hk].
  rewrite lookup_alter_eq. destruct (_ !! user) as [q|] eqn:E; cbn; [|done]. intros [= <-].
  pose proof (Hk _ _ E) as Hu. by destruct q.
Qed.

Lemma refund_bound c : row_ok c → 100 * to_integral_down (final_refund c (cancellation_fee_percent cf)) <= bc_spent c.
Proof.
  intros [Hr Hs _]. unfold final_refund. rewrite refund_at_most; [|lia|apply (ok_fee cf Hcf)].
  pose proof (ok_fee cf Hcf). pose proof (Z.mul_div_le (bc_remaining c * (100 - cancellation_fee_percent cf)) (10 ^ 4) ltac:(lia)).
  nia.
Qed.

Lemma fine_refund s0 user pk now n s s' log :
  refunded cf user pk now n s s' → fine s0 (s, log) →
  fine s0 (s', log ++ refund_of (Cancel user pk now) s s').
Proof.
  intros H [F1 F2 F3 F4 F5 F6 F7]. pose proof (refund_logged _ _ _ _ _ _ H) as Hlog.
  pose proof (keyed_refund _ _ _ _ _ _ H F3) as Hk. cbn [fst snd] in *.
  destruct H as [Hf Hw _ (c & st & Hc & _ & Hst & Hr & Hn)].
  assert (rows_step cf (s_campaigns s) (s_campaigns s')) as Hrows
    by (rewrite Hr; apply (rows_step_insert _ _ _ c); [done|by constructor]).
  assert (s_campaigns s' !! pk = Some (set_cancelled st now c)) as Hpk
    by (rewrite Hr; by apply list_lookup_insert_eq, (lookup_lt_Some _ _ c)).
  pose proof (refunds_kept _ _ _ Hrows F7) as Hkept.
  assert (fine s0 (s', log)) as Hfine.
  { apply (fine_turned s0 (with_profiles (s_profiles s') s)); [by split|]. by split. }
  destruct Hlog as [->|[Hpos ->]]; [by rewrite app_nil_r|]. destruct Hfine as [G1 G2 G3 G4 G5 G6 G7].
  split; try done; cbn.
  - rewrite fmap_app. apply NoDup_app. split_and!; [done| |by apply NoDup_singleton].
    intros k ([k' m] & -> & Hin)%list_elem_of_fmap Hk'%list_elem_of_singleton. cbn in Hk'. subst k'.
    destruct (F7 _ _ Hin) as (c' & Hc' & Hst' & _). simplify_eq. congruence.
  - intros k m [Hin|Hin]%elem_of_app; [by apply Hkept|]. apply list_elem_of_singleton in Hin as [= -> ->].
    eexists. split_and!; [exact Hpk|done|done|]. destruct Hn as [->|[_ ->]]; [lia|].
    apply (refund_bound c). by apply (Forall_lookup_1 _ _ _ _ F5 Hc).
Qed.

Lemma keyed_bought user rq now n s s' d spent hourly :
  bought cf user rq now n s s' d spent hourly → keyed s → keyed s'.
Proof.
  intros H Hk u p Hp. pose proof (bo_profile _ _ _ _ _ _ _ _ _ _ H u) as Hb. rewrite Hp in Hb.
  destruct (Points.pd_profiles (s_profiles s) !! u) as [p0|] eqn:E; [|done]. injection Hb as [= -> _]. by apply Hk.
Qed.

Lemma fine_turn s0 w q : fine s0 w → fine s0 (turn w q).
Proof.
  destruct w as [s log]. intros Hw. unfold turn. cbn [fst snd].
  destruct (serve_moves q s (fn_config _ _ Hw) (fn_rows _ _ Hw) (fn_keyed _ _ Hw))
    as [E H|user pk now n -> H|user rq now n d spent hourly -> H|allowed user rid now -> H| E H].
  - rewrite E, app_nil_r. by apply (fine_turned _ s).
  - by eapply fine_refund.
  - cbn [refund_of]. rewrite app_nil_r. destruct (bought_row _ _ _ _ _ _ _ _ _ H) as (Hok & Hn & Hu).
    eapply (fine_sale s0 s); [apply H..|done|done|done| |done].
    eapply keyed_bought; [exact H|exact (fn_keyed _ _ Hw)].
  - cbn [refund_of]. rewrite app_nil_r. eapply (fine_sale s0 s); [apply H..|done|done| | |done].
    + split; cbn; unfold BOOST_POST_COINS; lia.
    + unfold keyed. rewrite (po_profiles _ _ _ _ _ _ H). exact (fn_keyed _ _ Hw).
  - rewrite E, app_nil_r. by apply (fine_untouched _ s).
Qed.

Lemma fine_run qs s0 w : fine s0 w → fine s0 (fold_left turn qs w).
Proof. revert w. induction qs as [|q qs IH]; intros w Hw; [done|]. apply IH. by apply fine_turn. Qed.

Lemma fine_start s0 :
  s_config s0 = Some cf → rows_ok s0 → keyed s0 → s_campaigns s0 = [] → fine s0 (s0, []).
Proof.
  intros H1 H2 H3 H4. split; cbn; rewrite ?H4; try done; [intros; cbn; lia|constructor|].
  intros ? ? ?%not_elem_of_nil. done.
Qed.

End Turns.

(** ** The guarantee

    [hourly_budget / base_impression_rate] is 4.167 coins an impression, 4.17
    off the stored column: the 240th impression of a viral boost finds 3.37
    coins left and exhausts it. *)

Definition impression_cents : Z := 417.

Record on_offer (c : campaign) : Prop := OnOffer {
  of_guarantee : bc_guaranteed c = Some 5000;
  of_hourly : bc_hourly c = 4167;
  of_served : 0 <= bc_served c;
  of_state :
    (bc_status c = active ∨ bc_status c = paused ∨ bc_status c = undelivered)
      ∧ bc_served c <= 239 ∧ bc_remaining c = 100000 - impression_cents * bc_served c
    ∨ bc_status c = exhausted ∧ bc_served c = 240
    ∨ bc_status c = cancelled ∧ bc_served c <= 239
}.

Definition viral_ok (c : campaign) : Prop := bc_type c = "viral" → on_offer c.

Definition impression_cost : dec := Dec 4167 (-3).

Definition spends (k : Z) : bool :=
  let r := 100000 - impression_cents * k in
  Bool.eqb (dec_leb impression_cost (of_cents r)) (k <? 239)
  && (to_cents (dec_sub (of_cents r) impression_cost) =? r - impression_cents).

Lemma viral_spends k : 0 <= k <= 239 →
  let r := 100000 - impression_cents * k in
  dec_leb impression_cost (of_cents r) = (k <? 239)
  ∧ to_cents (dec_sub (of_cents r) impression_cost) = r - impression_cents.
Proof.
  intros Hk. assert (forallb spends (seqZ 0 240) = true) as H by (by vm_compute).
  rewrite forallb_forall in H. specialize (H k). unfold spends in H.
  apply andb_true_iff in H as [H1 H2]; [|apply list_elem_of_In, elem_of_seqZ; lia].
  split; [by apply Bool.eqb_prop|lia].
Qed.

Lemma unspent c : on_offer c → bc_status c = active ∨ bc_status c = paused →
  bc_served c <= 239 ∧ bc_remaining c = 100000 - impression_cents * bc_served c.
Proof. intros [_ _ _ [(_ & H)|[[H _]|[H _]]]] [E|E]; rewrite ?E in H; done. Qed.

Lemma viral_step c c' : row_step default_boost_config c c' → viral_ok c → viral_ok c'.
Proof.
  intros Hstep Hc Ht. assert (bc_type c = "viral") as Ht0 by (by destruct Hstep).
  pose proof (Hc Ht0) as Hoffer. pose proof (unspent c Hoffer) as Hun. destruct Hoffer as [Hg Hh Hs Hst]. clear Hc Ht.
  destruct Hstep as [Ha|Ha|cost st remaining cents Ha Hr Hcost Himp Hm|n|Ha|refund now Ha];
    try (destruct (Hun ltac:(auto)) as [Hk Hrem]); split; cbn; try done; try lia.
  - left. auto.
  - left. auto.
  - rewrite Hh in Hcost. vm_compute in Hcost. injection Hcost as [= <-]. fold impression_cost in Himp.
    destruct (viral_spends (bc_served c) ltac:(lia)) as [Hle Hsub]. rewrite <- Hrem in Hle, Hsub.
    unfold after_impression in Himp. rewrite Hg, Hle, Ha in Himp. cbn [negb andb Z.eqb] in Himp.
    rewrite (proj2 (Z.leb_gt 5000 _)) in Himp by lia.
    destruct (money_column_ok _ _ Hm) as [-> _].
    destruct (Z.ltb_spec (bc_served c) 239); injection Himp as [= <- <-].
    + left. split_and!; [by left|lia|]. unfold impression_cents in *. lia.
    + right. left. split; [done|lia].
  - left. unfold shortfall. rewrite Hg. cbn [Z.eqb]. rewrite (proj2 (Z.eqb_neq _ 0)) by lia. auto.
  - right. right. auto.
Qed.
(** A new row of the viral kind is the tier's. *)
Lemma viral_bought user rq now n s s' d spent hourly :
  bought default_boost_config user rq now n s s' d spent hourly → viral_ok (new_campaign d spent hourly now).
Proof.
  intros [Hd [_ Hspent] Hhourly _ _ _ _ _ _] Ht. destruct Hd as [_ _ _ Hprod _ _ Hprice Hdiv _ _].
  destruct d as [user' rid r t cost balance p hours expected hd tg]. cbn in *. destruct t as [t|]; [|done]. unfold price in Hprice. injection Hprice as [= Hcost _].
  unfold read_product in Hprod. destruct (truthy_str _); [|by repeat case_match].
  destruct (tier_for _) as [e|t'] eqn:E; [done|]. injection Hprod as [= -> Hh].
  assert (t = viral) as ->.
  { unfold tier_for in E. destruct (List.find _ TIERS) as [t'|] eqn:Ef; [|done]. injection E as [= ->].
    apply List.find_some in Ef as [Hin _]. cbn in Hin. by destruct Hin as [<-|[<-|[<-|[]]]]. }
  rewrite <- Hcost in Hspent, Hdiv. rewrite <- Hh in Hdiv. vm_compute in Hspent, Hdiv.
  injection Hspent as [= <-]. injection Hdiv as [= <-]. vm_compute in Hhourly.
  injection Hhourly as [= <-]. split; cbn; try done. left. split_and!; [by left|lia|lia].
Qed.

Lemma viral_run qs w s0 :
  fine default_boost_config s0 w → Forall viral_ok (s_campaigns w.1) →
  Forall viral_ok (s_campaigns (fold_left turn qs w).1).
Proof.
  revert w. induction qs as [|q qs IH]; intros w Hw Hv; [done|]. apply IH; [by apply fine_turn, Hw; apply default_config_ok|].
  destruct w as [s log]. unfold turn. cbn [fst snd] in *.
  assert (∀ l', rows_step default_boost_config (s_campaigns s) l' → Forall viral_ok l') as Hrows.
  { intros l'. revert Hv. generalize (s_campaigns s). induction 2 as [|c c' l l1 Hc _ IHl]; [done|].
    apply Forall_cons in Hv as [H1 H2]. constructor; [|by apply IHl].
    by eapply (rtc_invariant default_boost_config); [apply viral_step|..]. }
  destruct (serve_moves default_boost_config q s (fn_config _ _ _ Hw) (fn_rows _ _ _ Hw) (fn_keyed _ _ _ Hw))
    as [_ H|user pk now n _ H|user rq now n d spent hourly _ H|allowed user rid now _ H|_ H].
  - apply Hrows, H.
  - destruct (rf_row _ _ _ _ _ _ _ H) as (c & st & Hc & _ & Hst & -> & _). apply Hrows.
    apply (rows_step_insert _ _ _ c); [done|by constructor].
  - rewrite (bo_row _ _ _ _ _ _ _ _ _ _ H). apply Forall_app. split; [done|]. apply Forall_singleton.
    by eapply viral_bought.
  - rewrite (po_row _ _ _ _ _ _ H). apply Forall_app. split; [done|]. by apply Forall_singleton.
  - by destruct H as (w & -> & _).
Qed.

(** ** Properties *)

(** C22.  A boost desk's money.  From a store without campaigns, after any
    sequence of purchases, cancellations, pauses, impressions, engagements,
    pacing checks and sweeps, every coin balance is down by exactly what that
    user's campaigns were sold for: no refund comes back to it.  What
    cancelling put on profiles went out at most once for a campaign, which is
    and stays cancelled, and is no more than it was sold for. *)
Theorem boost_refunds cf qs s0 :
  config_ok cf → s_config s0 = Some cf → rows_ok s0 → keyed s0 → s_campaigns s0 = [] →
  let '(s, refunds) := run qs s0 in
  (∀ u, total_of u s = total_of u s0 - sold u (s_campaigns s))
  ∧ NoDup refunds.*1
  ∧ ∀ pk n, (pk, n) ∈ refunds → ∃ c, s_campaigns s !! pk = Some c ∧ bc_status c = cancelled
      ∧ 0 < n ∧ 100 * n <= bc_spent c.
Proof.
  intros Hcf H1 H2 H3 H4. pose proof (fine_run cf Hcf qs s0 (s0, []) (fine_start cf s0 H1 H2 H3 H4)) as H.
  unfold run. destruct (fold_left turn qs (s0, [])) as [s refunds]. destruct H as [_ _ _ Hc _ Ho Hr].
  split_and!; [|exact Ho|exact Hr]. intros u. specialize (Hc u). cbn in Hc. lia.
Qed.

(** The guarantee of the viral boost is never met.  Under the default
    configuration and from a store without campaigns, whatever is asked for
    afterwards, a viral campaign promises 5000 impressions, has served at most
    240, is exhausted only by the 240th, and is never completed. *)
Theorem viral_never_delivers qs s0 :
  s_config s0 = Some default_boost_config → rows_ok s0 → keyed s0 → s_campaigns s0 = [] →
  Forall (λ c, bc_type c = "viral" → bc_guaranteed c = Some 5000 ∧ bc_served c <= 240
               ∧ (bc_status c = exhausted → bc_served c = 240) ∧ bc_status c ≠ completed)
    (s_campaigns (run qs s0).1).
Proof.
  intros H1 H2 H3 H4. unfold run.
  pose proof (viral_run qs (s0, []) s0 (fine_start _ s0 H1 H2 H3 H4)) as H. cbn [fst] in H. rewrite H4 in H.
  eapply Forall_impl; [by apply H|]. intros c Hc Ht. destruct (Hc Ht) as [Hg _ Hs Hst].
  split; [done|]. destruct Hst as [([E|[E|E]] & H5 & _)|[[E H5]|[E H5]]]; rewrite E; split_and!; done || lia.
Qed.

(** A boost is sold or it is not.  [create_boost_campaign] always
    answers.  With a 200 it took the price, in whole coins, from the buyer's
    balance with one entry in the ledger, added one active campaign of the
    post asked for, marked the post with it, and copied the new balance to the
    buyer's profile; no second named boost of that post is active.  With any
    other answer no balance, profile, campaign or post changed. *)
Theorem boost_sold_or_nothing cf user rq now s :
  config_ok cf → s_config s = Some cf → rows_ok s → keyed s →
  ∃ resp s', create_boost_campaign user rq now s = (inr resp, s') ∧
  (r_status resp = 200
   ∧ (∃ c n, s_campaigns s' = s_campaigns s ++ [c] ∧ bc_user c = user ∧ bc_reel c = rq_reel rq
        ∧ bc_status c = active ∧ row_ok c ∧ n = bc_spent c `quot` 100
        ∧ paid user n (s_coins s) (s_coins s')
        ∧ tier_clash c (s_campaigns s) = false
        ∧ (∃ r, s_reels s !! rq_reel rq = Some r ∧ rl_user r = user ∧ rl_is_hidden r = false
             ∧ s_reels s' = <[rq_reel rq := set_boost true (Some (length (s_campaigns s))) r]> (s_reels s))
        ∧ profile_coins user s' = total_of user s')
   ∨ r_status resp ≠ 200 ∧ untouched s s').
Proof.
  intros Hok Hcf Hw Hk. pose proof (post_snd _ _ _ (create_run cf user rq now s Hcf Hw Hk)) as H.
  destruct (create_boost_campaign user rq now s) as [r s']. cbn [fst snd] in H. destruct H as (resp & -> & H).
  exists resp, s'. split; [done|]. destruct H as [(H200 & n & d & spent & hourly & H)|[Hno H]]; [|right; by split].
  left. split; [done|]. destruct (bought_row cf Hok _ _ _ _ _ _ _ _ _ H) as (Hrow & Hn & Hu).
  pose proof H as [Hd _ _ Hpaid _ Hc Hone Hreels Hprof]. destruct (df_reel _ _ _ _ _ _ Hd) as (Hr & Hru & Hrh).
  rewrite (df_rid _ _ _ _ _ _ Hd) in Hreels.
  eexists _, n. split_and!; [exact Hc|exact Hu|exact (df_rid _ _ _ _ _ _ Hd)|done|done|done|done|done|by eexists|].
  specialize (Hprof user). rewrite (df_profile _ _ _ _ _ _ Hd) in Hprof. unfold profile_coins.
  destruct (Points.pd_profiles (s_profiles s') !! user); [|done]. injection Hprof as [= _ Hcoins]. cbn. rewrite Hcoins.
  by rewrite decide_True.
Qed.

(** ** Concrete runs

    User 1 has 3000 coins, a profile and post 9. *)

Definition desk : store :=
  Store (CoinBalance.Wallet (<[1 := CoinBalance.Ucb 1 3000 0 3000 0 0 3000 0 0 3000 3000 0 0 0 0]> ∅) [])
    (Points.PointsDb (<[1 := Points.new_profile 1]> (<[5 := Points.new_profile 5]> ∅)) [])
    (Some default_boost_config) (<[9 := Reel 1 false 7 false None 0 0]> ∅) [] [] [] [].

Definition asks (key : string) : boost_request := BoostRequest 9 (Some key) None (Targets None None None "").
Definition asks_hours (h : Z) (t : targets) : boost_request := BoostRequest 9 None (Some h) t.

Lemma desk_rows : rows_ok desk.
Proof.
  intros u r H. cbn in H. apply lookup_insert_Some in H as [[<- <-]|[_ [=]]].
  split; [done|]. unfold CoinBalance.row_ok. cbn. lia.
Qed.

Lemma desk_keyed : keyed desk.
Proof.
  intros u p H. cbn in H. apply lookup_insert_Some in H as [[<- <-]|[_ H]]; [done|].
  by apply lookup_insert_Some in H as [[<- <-]|[_ [=]]].
Qed.

Definition a_day : list request :=
  [Buy 1 (asks "viral") 0; See 5 9 10; Cancel 1 0 20; Buy 1 (asks "premium") 30; Cancel 1 0 40].

Lemma boost_refunds_witness :
  (total_of 1 (run a_day desk).1, profile_coins 1 (run a_day desk).1, (run a_day desk).2) = (1900, 1900, [(0%nat, 896)]) ∧
  (let '(s, refunds) := run a_day desk in
   (∀ u, total_of u s = total_of u desk - sold u (s_campaigns s))
   ∧ NoDup refunds.*1
   ∧ ∀ pk n, (pk, n) ∈ refunds → ∃ c, s_campaigns s !! pk = Some c ∧ bc_status c = cancelled
       ∧ 0 < n ∧ 100 * n <= bc_spent c).
Proof.
  split; [vm_compute; reflexivity|].
  exact (boost_refunds default_boost_config a_day desk default_config_ok eq_refl desk_rows desk_keyed eq_refl).
Defined.

(** 240 viewers. *)
Definition views : list request := (λ v, See v 9 10) <$> seqZ 100 250.

Lemma viral_never_delivers_witness :
  ((λ c, (bc_served c, status_name (bc_status c))) <$> s_campaigns (run (Buy 1 (asks "viral") 0 :: views) desk).1)
    = [(240, "exhausted"%string)] ∧
  Forall (λ c, bc_type c = "viral" → bc_guaranteed c = Some 5000 ∧ bc_served c <= 240
               ∧ (bc_status c = exhausted → bc_served c = 240) ∧ bc_status c ≠ completed)
    (s_campaigns (run (Buy 1 (asks "viral") 0 :: views) desk).1).
Proof.
  split; [vm_compute; reflexivity|].
  exact (viral_never_delivers (Buy 1 (asks "viral") 0 :: views) desk eq_refl desk_rows desk_keyed eq_refl).
Defined.

Lemma boost_sold_or_nothing_witness :
  ((create_boost_campaign 1 (asks "premium") 0 desk).1, (create_boost_campaign 1 (asks "gold") 0 desk).1)
    = (inr (Resp 200 "0"), inr (bad "Unknown boost type: 'gold'")) ∧
  ∃ resp s', create_boost_campaign 1 (asks "premium") 0 desk = (inr resp, s') ∧
  (r_status resp = 200
   ∧ (∃ c n, s_campaigns s' = s_campaigns desk ++ [c] ∧ bc_user c = 1 ∧ bc_reel c = rq_reel (asks "premium")
        ∧ bc_status c = active ∧ row_ok c ∧ n = bc_spent c `quot` 100
        ∧ paid 1 n (s_coins desk) (s_coins s')
        ∧ tier_clash c (s_campaigns desk) = false
        ∧ (∃ r, s_reels desk !! rq_reel (asks "premium") = Some r ∧ rl_user r = 1 ∧ rl_is_hidden r = false
             ∧ s_reels s' = <[rq_reel (asks "premium") := set_boost true (Some (length (s_campaigns desk))) r]> (s_reels desk))
        ∧ profile_coins 1 s' = total_of 1 s')
   ∨ r_status resp ≠ 200 ∧ untouched desk s').
Proof.
  split; [vm_compute; reflexivity|].
  exact (boost_sold_or_nothing default_boost_config 1 (asks "premium") 0 desk default_config_ok eq_refl desk_rows desk_keyed).
Defined.

(** ** What interleaving and the edges do *)

(** An impression read before a cancellation and saved after it makes the
    campaign active again, and it is refunded a second time. *)
Example cancelled_boost_revived :
  let s1 := serve (Buy 1 (asks "premium") 0) desk in
  match impression_open 5 9 10 s1 with
  | (inr (inr (pk, c, cf)), s2) =>
      let s3 := serve (Cancel 1 pk 20) s2 in
      let s4 := (impression_commit 5 pk c cf 21 s3).2 in
      let '(r, s5) := cancel_boost_campaign 1 pk 30 s4 in
      (profile_coins 1 s1, profile_coins 1 s3, (λ c, status_name (bc_status c)) <$> s_campaigns s4, r, profile_coins 1 s5)
      = (2900, 2990, ["active"%string], inr (Resp 200 "cancelled"), 3079)
  | _ => False
  end.
Proof. vm_compute. reflexivity. Qed.

(** A pacing check raises as soon as a campaign is eligible, before it looks
    at what was spent. *)
Example pacing_always_raises :
  (check_pacing_engine 10 (serve (Buy 1 (asks "standard") 0) desk)).1
  = inr (Resp 500 "unsupported operand type(s) for *: 'decimal.Decimal' and 'float'").
Proof. vm_compute. reflexivity. Qed.

Definition nearly_spent : store :=
  with_campaigns ((λ c, set_served (bc_status c) 100 c) <$> s_campaigns (serve (Buy 1 (asks "premium") 0) desk))
    (serve (Buy 1 (asks "premium") 0) desk).

(** Less than a coin to give back: the cancellation fails. *)
Example small_refund_stuck :
  let '(r, s) := cancel_boost_campaign 1 0 20 nearly_spent in
  (r, (λ c, status_name (bc_status c)) <$> s_campaigns s)
  = (inr (Resp 500 "Amount must be positive"), ["active"%string]).
Proof. vm_compute. reflexivity. Qed.

(** A paused campaign that is past its end: not swept, not resumed, not
    refunded. *)
Example paused_for_ever :
  let s := (run [Buy 1 (asks "standard") 0; Pause 1 0; Expire (20 * hour)] desk).1 in
  ((λ c, status_name (bc_status c)) <$> s_campaigns s,
   (resume_boost_campaign 1 0 (21 * hour) s).1, (cancel_boost_campaign 1 0 (21 * hour) s).1)
  = (["paused"%string], inr (bad "Campaign has expired"), inr (bad "Campaign is not active")).
Proof. vm_compute. reflexivity. Qed.

(** An exhausted campaign leaves its post marked. *)
Example exhausted_still_marked :
  let s := (run (Buy 1 (asks "viral") 0 :: views ++ [Expire (25 * hour)]) desk).1 in
  ((λ c, status_name (bc_status c)) <$> s_campaigns s, rl_is_boosted <$> s_reels s !! 9) = (["exhausted"%string], Some true).
Proof. vm_compute. reflexivity. Qed.

(** Half-way before the first impression; another's post is a 500; a target
    empties the feed of whoever it is shown to. *)
Example edges :
  (get_progress_percent <$> s_campaigns (serve (Buy 1 (asks "premium") 0) desk),
   (create_boost_campaign 5 (asks "premium") 0 desk).1,
   (get_eligible_boosts 5 10 (serve (Buy 1 (asks_hours 1 (Targets (Some "female") None None "")) 0) desk)).1)
  = ([50], inr (Resp 500 "No Reel matches the given query."),
     inr (inl (AttributeError "'UserProfile' object has no attribute 'gender'"))).
Proof. vm_compute. reflexivity. Qed.

(** Buying writes the post as it was read: a like in between is lost. *)
Example purchase_takes_back_a_like :
  match create_open 1 (asks "premium") 0 desk with
  | (inr (inr d), s1) =>
      let s2 := (update_reel 9 (λ r, Reel (rl_user r) (rl_is_hidden r) (rl_votes r + 1) (rl_is_boosted r)
                                  (rl_active r) (rl_impressions r) (rl_engagements r)) s1).2 in
      (rl_votes <$> s_reels s2 !! 9, rl_votes <$> s_reels (create_commit d 0 s2).2 !! 9) = (Some 8, Some 7)
  | _ => False
  end.
Proof. vm_compute. reflexivity. Qed.

End BoostRun.
