(* ===== verification/StableSort.v ===== *)
(** * StableSort: [list.sort] and [sorted]

    Python's sort is stable, also with [reverse=True]: among elements that
    compare equal the earlier one stays first.  [le x y] says that [x] may
    stand before [y]. *)

From stdpp Require Import list sorting.
From S2P Require Import Prelude.

Module StableSort.

Section Sort.
Context {A : Type} (le : A → A → bool).

Fixpoint insert (x : A) (l : list A) : list A :=
  match l with
  | [] => [x]
  | y :: l' => if le x y then x :: l else y :: insert x l'
  end.

Fixpoint sort_by (l : list A) : list A :=
  match l with
  | [] => []
  | x :: l' => insert x (sort_by l')
  end.

Lemma insert_perm x l : insert x l ≡ₚ x :: l.
Proof. induction l as [|y l IH]; cbn; [done|]. destruct (le x y); [done|]. rewrite IH. apply Permutation_swap. Qed.

Lemma sort_perm l : sort_by l ≡ₚ l.
Proof. induction l as [|x l IH]; cbn; [done|]. by rewrite insert_perm, IH. Qed.

Lemma elem_of_sort x l : x ∈ sort_by l ↔ x ∈ l.
Proof. by rewrite sort_perm. Qed.

Lemma length_sort l : length (sort_by l) = length l.
Proof. by rewrite sort_perm. Qed.

Context (le_total : ∀ x y, le x y = true ∨ le y x = true)
        (le_trans : ∀ x y z, le x y = true → le y z = true → le x z = true).

Lemma insert_sorted x l : StronglySorted le l → StronglySorted le (insert x l).
Proof using le_total le_trans.
  induction 1 as [|y l Hl IH Hy]; cbn; [by repeat constructor|].
  destruct (le x y) eqn:E.
  - constructor; [by constructor|]. constructor; [by rewrite E|].
    eapply Forall_impl; [exact Hy|]. intros z Hz%Is_true_true. apply Is_true_true. by apply (le_trans x y z).
  - constructor; [done|]. rewrite insert_perm. constructor; [|done].
    destruct (le_total x y) as [?|Hyx]; [congruence|]. by rewrite Hyx.
Qed.

Lemma sort_sorted l : StronglySorted le (sort_by l).
Proof using le_total le_trans. induction l as [|x l IH]; cbn; [constructor|]. by apply insert_sorted. Qed.

(** Elements that tie keep their order. *)
Definition ties (x y : A) : bool := le x y && le y x.

Lemma insert_ties k x l :
  List.filter (ties k) (insert x l) = (if ties k x then [x] else []) ++ List.filter (ties k) l.
Proof using le_total le_trans.
  induction l as [|y l IH]; cbn; [by destruct (ties k x)|]. destruct (le x y) eqn:E; cbn.
  - by destruct (ties k x).
  - rewrite IH. destruct (ties k x) eqn:Hx; [|by destruct (ties k y)]. destruct (ties k y) eqn:Hy; [|done].
    exfalso. unfold ties in *. apply andb_true_iff in Hx as [? ?]. apply andb_true_iff in Hy as [? ?].
    rewrite (le_trans x k y) in E; done.
Qed.

Lemma sort_stable k l : List.filter (ties k) (sort_by l) = List.filter (ties k) l.
Proof using le_total le_trans.
  induction l as [|x l IH]; cbn; [done|]. rewrite insert_ties, IH. by destruct (ties k x).
Qed.

(** When no two elements tie, the order of the input is of no account. *)
Lemma sort_unique l l' :
  (∀ x y, x ∈ l → y ∈ l → le x y = true → le y x = true → x = y) →
  l ≡ₚ l' → sort_by l = sort_by l'.
Proof using le_total le_trans.
  intros Hanti Hl. assert (sort_by l ≡ₚ sort_by l') as Hp by (by rewrite !sort_perm).
  pose proof (sort_sorted l) as H1. pose proof (sort_sorted l') as H2.
  assert (∀ x y, x ∈ sort_by l → y ∈ sort_by l → le x y = true → le y x = true → x = y) as Ha
    by (intros x y; rewrite !elem_of_sort; apply Hanti).
  revert Hp H2 Ha. generalize (sort_by l'). induction H1 as [|x m Hm IH Hx]; intros m' Hp H2 Ha.
  - by apply Permutation_nil_l in Hp.
  - destruct H2 as [|y m' Hm' Hy]; [by apply Permutation_nil_r in Hp|].
    assert (x = y) as <-.
    { assert (y ∈ x :: m) as Hin by (rewrite Hp; by left). assert (x ∈ y :: m') as Hin' by (rewrite <- Hp; by left).
      apply elem_of_cons in Hin as [?|Hin]; [done|]. apply elem_of_cons in Hin' as [?|Hin']; [done|].
      rewrite Forall_forall in Hx. rewrite Forall_forall in Hy.
      apply Ha; [by left|by right| |]; apply Is_true_true; [by apply Hx|by apply Hy]. }
    f_equal. apply IH; [by apply Permutation_cons_inv in Hp|done|]. intros a b ? ?. apply Ha; by right.
Qed.

(** What is taken off the top is at least as good as what is left. *)
Lemma sort_best n l x y : x ∈ take n (sort_by l) → y ∈ drop n (sort_by l) → le x y = true.
Proof using le_total le_trans.
  pose proof (sort_sorted l) as H. revert n. induction H as [|z m Hm IH Hz]; intros n; [by rewrite take_nil; intros ?%elem_of_nil|].
  destruct n as [|n]; cbn; [by intros ?%elem_of_nil|]. intros [->|Hin]%elem_of_cons Hy; [|by apply (IH n)].
  rewrite Forall_forall in Hz. apply Is_true_true, Hz. rewrite <- (take_drop n m). apply elem_of_app. by right.
Qed.

End Sort.

(** Only the comparisons made matter. *)
Lemma insert_ext {A} (le le' : A → A → bool) x l :
  (∀ y, y ∈ l → le x y = le' x y) → insert le x l = insert le' x l.
Proof.
  induction l as [|y l IH]; intros H; cbn; [done|]. rewrite (H y) by left. destruct (le' x y); [done|].
  rewrite IH; [done|]. intros z Hz. apply H. by right.
Qed.

Lemma sort_ext {A} (le le' : A → A → bool) l :
  (∀ x y, x ∈ l → y ∈ l → le x y = le' x y) → sort_by le l = sort_by le' l.
Proof.
  induction l as [|x l IH]; intros H; cbn; [done|]. rewrite IH; [|intros; apply H; by right].
  apply insert_ext. intros y Hy%elem_of_sort. apply H; [by left|by right].
Qed.

(** [l[:n]], also for a negative [n]. *)
Definition upto {A} (n : Z) (l : list A) : list A :=
  if n <? 0 then take (Z.to_nat (Z.of_nat (length l) + n)) l else take (Z.to_nat n) l.

Lemma upto_take {A} n (l : list A) : ∃ k, upto n l = take k l.
Proof. unfold upto. destruct (n <? 0); eauto. Qed.

Example best_two : upto 2 (sort_by (λ x y, y.1 <=? x.1) [(3, 1); (5, 2); (3, 3); (5, 4)]) = [(5, 2); (5, 4)].
Proof. reflexivity. Qed.

End StableSort.
