(* ===== verification/Binary64.v ===== *)
(** * Binary64: Python's [float]

    IEEE 754 doubles, rounded to nearest even, by the executable
    specification of the Standard Library ([SpecFloat]); nothing is assumed of
    them. *)

From Stdlib Require Import ZArith Lia SpecFloat.
From S2P Require Import Prelude Decimal.

Module Binary64.

Definition float : Type := spec_float.

Definition fprec : Z := 53.
Definition femax : Z := 1024.

Definition fadd : float → float → float := SFadd fprec femax.
Definition fsub : float → float → float := SFsub fprec femax.
Definition fmul : float → float → float := SFmul fprec femax.
Definition fdiv : float → float → float := SFdiv fprec femax.

(** [float(n)]. *)
Definition of_int (n : Z) : float := binary_normalize fprec femax n 0 false.

(** The double nearest to [n / d], for [0 < d]. *)
Definition of_ratio (n d : Z) : float :=
  match n, d with
  | Zpos p, Zpos q => fdiv (S754_finite false p 0) (S754_finite false q 0)
  | Zneg p, Zpos q => fdiv (S754_finite true p 0) (S754_finite false q 0)
  | _, _ => S754_zero false
  end.

(** [float(d)] of a decimal, and of a column with two places. *)
Definition of_dec (d : dec) : float :=
  if 0 <=? dexp d then of_int (coef d * 10 ^ dexp d) else of_ratio (coef d) (10 ^ (- dexp d)).
Definition of_cents (c : Z) : float := of_ratio c 100.

(** [int(f)]: towards zero. *)
Definition trunc (f : float) : Z :=
  match f with
  | S754_finite s m e =>
      let n := if 0 <=? e then Zpos m * 2 ^ e else Zpos m / 2 ^ (- e) in if s then - n else n
  | _ => 0
  end.

Definition fcmp (x y : float) : option comparison := SFcompare x y.
Definition fltb (x y : float) : bool := match fcmp x y with Some Lt => true | _ => false end.
Definition fleb (x y : float) : bool := match fcmp x y with Some Lt | Some Eq => true | _ => false end.
Definition feqb (x y : float) : bool := match fcmp x y with Some Eq => true | _ => false end.

(** [min] and [max] keep their first argument unless the second is better. *)
Definition fmin (x y : float) : float := if fltb y x then y else x.
Definition fmax (x y : float) : float := if fltb x y then y else x.

Definition is_nan (f : float) : bool := match f with S754_nan => true | _ => false end.

(** Twenty-nine percent of a hundred. *)
Example int_of_product :
  (trunc (fmul (of_int 100) (fdiv (of_int 29) (of_int 100))), trunc (fmul (of_int 100) (fdiv (of_int 20) (of_int 100))))
  = (28, 20).
Proof. vm_compute. reflexivity. Qed.

(** ** The order *)

(** Doubles in order are triples in order. *)
Definition code (f : float) : Z * Z * Z :=
  match f with
  | S754_zero _ => (0, 0, 0)
  | S754_infinity s => (if s then -2 else 2, 0, 0)
  | S754_finite s m e => if s then (-1, - e, Zneg m) else (1, e, Zpos m)
  | S754_nan => (3, 0, 0)
  end.

Definition code_lt (a b : Z * Z * Z) : Prop :=
  a.1.1 < b.1.1 ∨ a.1.1 = b.1.1 ∧ (a.1.2 < b.1.2 ∨ a.1.2 = b.1.2 ∧ a.2 < b.2).

Lemma fcmp_code x y : is_nan x = false → is_nan y = false →
  fcmp x y = Some Eq ∧ code x = code y ∨ fcmp x y = Some Lt ∧ code_lt (code x) (code y)
  ∨ fcmp x y = Some Gt ∧ code_lt (code y) (code x).
Proof.
  unfold fcmp, SFcompare, code_lt, code, is_nan. intros Hx Hy.
  destruct x as [[]|[]| |[] m1 e1]; destruct y as [[]|[]| |[] m2 e2]; try discriminate; cbn.
  all: try (left; done); try (right; left; split; [done|lia]); try (right; right; split; [done|lia]).
  all: destruct (Z.compare_spec e1 e2) as [->|He|He];
    try (right; left; split; [done|lia]); try (right; right; split; [done|lia]).
  all: change (PosDef.Pos.compare_cont Eq m1 m2) with (Pos.compare m1 m2).
  all: destruct (Pos.compare_spec m1 m2) as [->|Hm|Hm]; cbn;
    first [left; done|right; left; split; [done|lia]|right; right; split; [done|lia]].
Qed.

(** ** Conversions give numbers *)

Lemma shr_1_nonneg r : 0 <= shr_m r → 0 <= shr_m (shr_1 r).
Proof. destruct r as [[|[p|p|]|[p|p|]] b1 b2]; cbn; lia. Qed.

Lemma shr_iter_nonneg p r : 0 <= shr_m r → 0 <= shr_m (SpecFloat.iter_pos shr_1 p r).
Proof. revert r. induction p as [p IH|p IH|]; intros r H; cbn; auto using shr_1_nonneg. Qed.

Lemma shr_nonneg r e n : 0 <= shr_m r → 0 <= shr_m (shr r e n).1.
Proof.
  intros H. unfold shr. destruct n as [|p|p]; [done| |done]. by apply shr_iter_nonneg.
Qed.

Lemma shr_fexp_nonneg m e l : 0 <= m → 0 <= shr_m (shr_fexp fprec femax m e l).1.
Proof.
  intros H. apply shr_nonneg. by destruct l as [|[]].
Qed.

Lemma rounded_number sx mx ex lx : 0 <= mx → is_nan (binary_round_aux fprec femax sx mx ex lx) = false.
Proof.
  intros H. unfold binary_round_aux. pose proof (shr_fexp_nonneg mx ex lx H) as H1.
  destruct (shr_fexp fprec femax mx ex lx) as [r e1]. cbn [fst] in H1.
  assert (0 <= round_nearest_even (shr_m r) (loc_of_shr_record r)) as H2.
  { unfold round_nearest_even. repeat case_match; lia. }
  pose proof (shr_fexp_nonneg _ e1 loc_Exact H2) as H3. destruct (shr_fexp _ _ _ e1 loc_Exact) as [r2 e2]. cbn [fst] in H3.
  destruct (shr_m r2); [done|by destruct (_ <=? _)|lia].
Qed.

Lemma of_int_number n : is_nan (of_int n) = false.
Proof.
  unfold of_int, binary_normalize. destruct n as [|p|p]; [done|..]; unfold binary_round;
    destruct (shl_align _ _ _) as [m e]; apply rounded_number; lia.
Qed.

Lemma quotient_number sx sy p q : is_nan (fdiv (S754_finite sx p 0) (S754_finite sy q 0)) = false.
Proof.
  unfold fdiv, SFdiv. destruct (SFdiv_core_binary _ _ _ _ _ _) as [[m e] l] eqn:E. apply rounded_number.
  unfold SFdiv_core_binary in E. revert E. set (k := 0 - 0 - _). set (m' := match k with 0 => _ | Zpos _ => _ | Zneg _ => _ end).
  assert (0 <= m') as Hm by (subst m'; destruct k; [lia|by apply Z.shiftl_nonneg|lia]).
  pose proof (Z.div_pos m' (Zpos q) Hm ltac:(lia)) as Hd. unfold Z.div in Hd.
  change (IntDef.Z.div_eucl m' (Zpos q)) with (Z.div_eucl m' (Zpos q)).
  destruct (Z.div_eucl m' (Zpos q)) as [a b]. by intros [= <- _ _].
Qed.

Lemma of_ratio_number n d : is_nan (of_ratio n d) = false.
Proof. destruct n, d; try done; apply quotient_number. Qed.

Lemma of_dec_number d : is_nan (of_dec d) = false.
Proof. unfold of_dec. destruct (0 <=? dexp d); [apply of_int_number|apply of_ratio_number]. Qed.

End Binary64.
