(* ===== verification/Winners.v ===== *)
(** * Winners: leaderboards, selections, and how often one may win

    Models the selection half of [src/api/services/scoring/engine.py],
    [WinnerFrequencyRecord] of [src/api/models/campaign_extended.py] and
    [src/api/tasks/leaderboards.py], over [Eligibility], [Points],
    [WalletConfig] and [Prizes].

    Scores are in hundredths: [LeaderboardEntry.score] has two places.  A
    selection holds the lock of its campaign from its first read to its last
    write, so it is one step. *)

From Stdlib Require Import ZArith Lia.
From stdpp Require Import gmap sorting.
From S2P Require Import Prelude Calendar WalletConfig Points Prizes Eligibility StableSort Binary64.

Module Winners.
Import StableSort.

(** ** The tables *)

(** The columns of [CampaignScoringConfig] read here. *)
Record scoring_config := ScoringConfig {
  daily_win_limit_per_month : Z; weekly_win_limit_per_month : Z; monthly_win_limit_per_period : Z;
  grand_win_limit_per_campaign : Z; daily_win_cooldown_days : Z; grand_qualification_percentage : Z
}.

Definition default_scoring_config : scoring_config := ScoringConfig 1 1 1 1 7 20.

Record campaign := Campaign {
  ca_type : string; ca_status : string; ca_start : option Z; ca_entry_deadline : option Z;
  ca_winner_count : Z; ca_winners_announced : bool
}.

Definition complete (c : campaign) : campaign :=
  Campaign (ca_type c) "completed" (ca_start c) (ca_entry_deadline c) (ca_winner_count c) true.

(** [UserCampaignStats], by user and campaign. *)
Record stat := Stat {
  us_total_score : Z; us_approved_posts : Z; us_has_won : bool; us_last_win : option Z;
  us_daily_rank : option Z; us_weekly_rank : option Z; us_monthly_rank : option Z
}.

Definition new_stat : stat := Stat 0 0 false None None None None.
Definition set_won (now : Z) (x : stat) : stat :=
  Stat (us_total_score x) (us_approved_posts x) true (Some now) (us_daily_rank x) (us_weekly_rank x) (us_monthly_rank x).

Inductive rank_field := daily_rank | weekly_rank | monthly_rank.

Definition set_rank (f : rank_field) (n : Z) (x : stat) : stat :=
  let r g := if match f, g with daily_rank, daily_rank | weekly_rank, weekly_rank | monthly_rank, monthly_rank => true | _, _ => false end
             then Some n
             else match g with daily_rank => us_daily_rank x | weekly_rank => us_weekly_rank x | monthly_rank => us_monthly_rank x end in
  Stat (us_total_score x) (us_approved_posts x) (us_has_won x) (us_last_win x) (r daily_rank) (r weekly_rank) (r monthly_rank).

(** [WinnerFrequencyRecord]. *)
Record win := Win {
  fr_user : Z; fr_campaign : option Z; fr_type : string; fr_won_at : Z; fr_period_start : Z; fr_period_end : Z
}.

Record board := Board { lb_campaign : Z; lb_period : string; lb_start : Z; lb_end : Z; lb_current : bool }.
Record board_entry := BoardEntry { le_board : nat; le_user : Z; le_rank : Z; le_score : Z; le_posts : Z }.
Record selection := Selection { sl_campaign : Z; sl_type : string; sl_board : nat; sl_at : Z }.
Record selected := Selected { sw_selection : nat; sw_user : Z; sw_rank : Z; sw_score : Z; sw_method : string; sw_at : Z }.

(** Boards and selections are numbered as they were created. *)
Record store := Store {
  w_campaigns : gmap Z campaign; w_configs : gmap Z scoring_config; w_posts : list Eligibility.entry;
  w_stats : gmap (Z * Z) stat; w_wins : list win; w_boards : list board; w_entries : list board_entry;
  w_selections : list selection; w_selected : list selected;
  w_points : Points.points_db; w_wallet : option WalletConfig.config; w_prizes : Prizes.store
}.

Definition with_campaigns (m : gmap Z campaign) (s : store) : store :=
  Store m (w_configs s) (w_posts s) (w_stats s) (w_wins s) (w_boards s) (w_entries s) (w_selections s) (w_selected s) (w_points s) (w_wallet s) (w_prizes s).
Definition with_configs (m : gmap Z scoring_config) (s : store) : store :=
  Store (w_campaigns s) m (w_posts s) (w_stats s) (w_wins s) (w_boards s) (w_entries s) (w_selections s) (w_selected s) (w_points s) (w_wallet s) (w_prizes s).
Definition with_stats (m : gmap (Z * Z) stat) (s : store) : store :=
  Store (w_campaigns s) (w_configs s) (w_posts s) m (w_wins s) (w_boards s) (w_entries s) (w_selections s) (w_selected s) (w_points s) (w_wallet s) (w_prizes s).
Definition with_wins (l : list win) (s : store) : store :=
  Store (w_campaigns s) (w_configs s) (w_posts s) (w_stats s) l (w_boards s) (w_entries s) (w_selections s) (w_selected s) (w_points s) (w_wallet s) (w_prizes s).
Definition with_boards (b : list board) (e : list board_entry) (s : store) : store :=
  Store (w_campaigns s) (w_configs s) (w_posts s) (w_stats s) (w_wins s) b e (w_selections s) (w_selected s) (w_points s) (w_wallet s) (w_prizes s).
Definition with_selections (l : list selection) (r : list selected) (s : store) : store :=
  Store (w_campaigns s) (w_configs s) (w_posts s) (w_stats s) (w_wins s) (w_boards s) (w_entries s) l r (w_points s) (w_wallet s) (w_prizes s).
Definition with_points (d : Points.points_db) (s : store) : store :=
  Store (w_campaigns s) (w_configs s) (w_posts s) (w_stats s) (w_wins s) (w_boards s) (w_entries s) (w_selections s) (w_selected s) d (w_wallet s) (w_prizes s).
Definition with_wallet (c : option WalletConfig.config) (s : store) : store :=
  Store (w_campaigns s) (w_configs s) (w_posts s) (w_stats s) (w_wins s) (w_boards s) (w_entries s) (w_selections s) (w_selected s) (w_points s) c (w_prizes s).
Definition with_prizes (p : Prizes.store) (s : store) : store :=
  Store (w_campaigns s) (w_configs s) (w_posts s) (w_stats s) (w_wins s) (w_boards s) (w_entries s) (w_selections s) (w_selected s) (w_points s) (w_wallet s) p.

Definition in_points {A} : M Points.points_db A → M store A := zoom w_points with_points.
Definition in_wallet {A} : M (option WalletConfig.config) A → M store A := zoom w_wallet with_wallet.
Definition in_prizes {A} : M Prizes.store A → M store A := zoom w_prizes with_prizes.

(** ** How often one may win *)

Definition RESTRICTION_DAYS : Z := 30.

Definition wins_of (user : Z) (winner_type : string) (l : list win) : list win :=
  List.filter (λ r, (fr_user r =? user) && String.eqb (fr_type r) winner_type) l.

(** The newest by [won_at]. *)
Fixpoint latest (l : list win) : option Z :=
  match l with
  | [] => None
  | r :: l' => match latest l' with Some t => Some (Z.max t (fr_won_at r)) | None => Some (fr_won_at r) end
  end.

(** Whether [user] may win, the wins counted, and the limit. *)
Definition check_frequency_eligibility (user : Z) (winner_type : string) (cid : option Z) (now : Z) (s : store)
    : bool * Z * Z :=
  let config := cid ≫= λ i, w_configs s !! i in
  if String.eqb winner_type "grand" then
    let l := List.filter (λ r, match cid with Some _ => bool_decide (fr_campaign r = cid) | None => true end)
               (wins_of user "grand" (w_wins s)) in
    let limit := match config with Some c => grand_win_limit_per_campaign c | None => 1 end in
    (Z.of_nat (length l) <? limit, Z.of_nat (length l), limit)
  else
    let limit_of := if String.eqb winner_type "daily" then Some daily_win_limit_per_month
                    else if String.eqb winner_type "weekly" then Some weekly_win_limit_per_month
                    else if String.eqb winner_type "monthly" then Some monthly_win_limit_per_period else None in
    match limit_of with
    | None => (true, 0, 1)
    | Some f =>
        let limit := match config with Some c => f c | None => 1 end in
        let recent := List.filter (λ r, now - RESTRICTION_DAYS * day <=? fr_won_at r) (wins_of user winner_type (w_wins s)) in
        let count := Z.of_nat (length recent) in
        if limit <=? count then (false, count, limit)
        else
          let cooldown := match config with Some c => daily_win_cooldown_days c | None => 0 end in
          if String.eqb winner_type "daily" && negb (cooldown =? 0) then
            match latest (wins_of user "daily" (w_wins s)) with
            | Some t => if now - cooldown * day <? t then (false, count, limit) else (true, count, limit)
            | None => (true, count, limit)
            end
          else (true, count, limit)
    end.

(** [now.replace(hour=0, ...)] of a UTC instant; Monday is 0. *)
Definition midnight (t : Z) : Z := utc_date t * day.
Definition weekday (t : Z) : Z := (utc_date t + 3) mod 7.
Definition first_of_month (t : Z) : Z := Calendar.start_of (Calendar.index_of (utc_date t)) * day.

(** The period a win at [now] belongs to. *)
Definition win_period (winner_type : string) (now : Z) : option (Z * Z) :=
  if String.eqb winner_type "daily" then Some (midnight now, midnight now + day)
  else if String.eqb winner_type "weekly" then
    let start := midnight (now - weekday now * day) in Some (start, start + 7 * day)
  else if String.eqb winner_type "monthly" then
    let start := first_of_month now in Some (start, first_of_month (start + 32 * day))
  else if String.eqb winner_type "grand" then Some (midnight now, now + 365 * day)
  else None.

(** [record_win]: one row for each user, type and start of period. *)
Definition record_win (user : Z) (winner_type : string) (cid : option Z) (now : Z) : M store unit :=
  match win_period winner_type now with
  | None => raise (IntegrityError "period_start")
  | Some (start, end_) =>
      s ← get;
      if existsb (λ r, fr_period_start r =? start) (wins_of user winner_type (w_wins s)) then mret tt
      else put (with_wins (w_wins s ++ [Win user cid winner_type now start end_]) s)
  end.

(** ** The engine *)

(** What a selector is given, and what it answers. *)
Record contender := Contender { co_user : Z; co_score : Z }.
Record winner := Winner { wn_rank : Z; wn_user : Z; wn_score : Z; wn_method : string; wn_points : Z }.

(** [CampaignScoringEngine(campaign)]. *)
Definition engine (cid : Z) : M store scoring_config :=
  s ← get;
  match w_configs s !! cid with
  | Some c => mret c
  | None => put (with_configs (<[cid := default_scoring_config]> (w_configs s)) s) ≫= λ _, mret default_scoring_config
  end.

Definition _documented_winner_count (c : campaign) : Z :=
  match list_find (λ t, Prizes.pt_tier t = ca_type c) Prizes.PRIZES with
  | Some (_, t) => Z.of_nat (Prizes.pt_winner_count t)
  | None => ca_winner_count c
  end.

(** [campaign_eligibility] cannot run out of fuel; see [Eligibility]. *)
Definition _qualifies (user : Z) (winner_type : string) (cid : Z) (c : campaign) (now : Z) (s : store) : exn + bool :=
  match Eligibility.campaign_eligibility (Some user)
          (Eligibility.Campaign cid (ca_type c) (ca_start c) (ca_entry_deadline c)) (w_posts s) with
  | None => inr false
  | Some (inl e) => inl e
  | Some (inr e) => inr (Eligibility.eligible e && (check_frequency_eligibility user winner_type (Some cid) now s).1.1)
  end.

(** The loops that build [eligible_entries]: [skip] is the check made first. *)
Fixpoint eligible_entries (skip : Z → bool) (q : Z → exn + bool) (l : list contender) : exn + list contender :=
  match l with
  | [] => inr []
  | x :: l' =>
      if skip (co_user x) then eligible_entries skip q l'
      else match q (co_user x) with
           | inl e => inl e
           | inr b => match eligible_entries skip q l' with
                      | inl e => inl e
                      | inr r => inr (if b then x :: r else r)
                      end
           end
  end.

(** [key=lambda x: x.score, reverse=True]. *)
Definition best_first (x y : contender) : bool := co_score y <=? co_score x.

Definition recent_win (user cid cutoff : Z) (s : store) : bool :=
  existsb (λ r, (sw_user r =? user) && (cutoff <=? sw_at r)
                && match w_selections s !! sw_selection r with Some l => sl_campaign l =? cid | None => false end)
    (w_selected s).

Definition already_won (user cid : Z) (s : store) : bool :=
  match w_stats s !! (user, cid) with Some x => us_has_won x | None => false end.

(** [entry.user.profile.add_points(...)]. *)
Definition reward (user points now : Z) : M store unit :=
  s ← get;
  match Points.pd_profiles (w_points s) !! user with
  | None => raise (DoesNotExist "User has no profile.")
  | Some p => in_points (Points.add_points p points (Some Points.points_earned_total) (Some "campaign_reward") "" now) ≫= λ _, mret tt
  end.

Definition mark_won (user cid now : Z) : M store unit :=
  modify (λ s, with_stats (<[(user, cid) := set_won now (default new_stat (w_stats s !! (user, cid)))]> (w_stats s)) s).

(** The loop over those chosen; [mark] where the cycle is recorded. *)
Fixpoint award_each (winner_type method : string) (mark : bool) (cid points now : Z) (l : list contender) (rank : Z)
    : M store (list winner) :=
  match l with
  | [] => mret []
  | x :: l' =>
      reward (co_user x) points now ≫= λ _,
      record_win (co_user x) winner_type (Some cid) now ≫= λ _,
      when mark (mark_won (co_user x) cid now) ≫= λ _,
      r ← award_each winner_type method mark cid points now l' (rank + 1);
      mret (Winner rank (co_user x) (co_score x) method points :: r)
  end.

Definition lift {A} (r : exn + A) : M store A := match r with inr a => mret a | inl e => raise e end.

(** [locked(Campaign, pk)]. *)
Definition lock_campaign (cid : Z) : M store unit :=
  s ← get;
  match w_campaigns s !! cid with Some _ => mret tt | None => raise (DoesNotExist "Campaign matching query does not exist.") end.

(** The common shape of the selectors, under the lock. *)
Definition select (winner_type method : string) (mark : bool) (points : WalletConfig.config → Z)
    (skip : store → Z → bool) (cid : Z) (c : campaign) (entries : list contender) (count : option Z) (now : Z)
    : M store (list winner) :=
  let n := match count with Some n => n | None => _documented_winner_count c end in
  atomic (
    lock_campaign cid ≫= λ _,
    s ← get;
    l ← lift (eligible_entries (skip s) (λ u, _qualifies u winner_type cid c now s) entries);
    wallet ← in_wallet (WalletConfig.get_config now);
    award_each winner_type method mark cid (points wallet) now (upto n (sort_by best_first l)) 1).

Definition select_daily_winners (sc : scoring_config) (cid : Z) :=
  λ c entries count now, select "daily" "top_scorer" false WalletConfig.daily_winner_points
    (λ s u, recent_win u cid (now - daily_win_cooldown_days sc * day) s) cid c entries count now.

Definition select_weekly_winners (cid : Z) :=
  select "weekly" "top_scorer" true WalletConfig.weekly_winner_points (λ s u, already_won u cid s) cid.

Definition select_monthly_winners (cid : Z) :=
  select "monthly" "top_scorer" true WalletConfig.monthly_winner_points (λ s u, already_won u cid s) cid.

Definition select_grand_winners (cid : Z) :=
  select "grand" "final_score" false WalletConfig.grand_winner_points (λ _ _, false) cid.

(** Not under the lock, and nothing is recorded. *)
Fixpoint reward_all (points now : Z) (l : list contender) (rank : Z) : M store (list winner) :=
  match l with
  | [] => mret []
  | x :: l' =>
      reward (co_user x) points now ≫= λ _,
      r ← reward_all points now l' (rank + 1);
      mret (Winner rank (co_user x) (co_score x) "" points :: r)
  end.

Definition finalists_count (sc : scoring_config) (total : nat) : Z :=
  let qualification_pct := Binary64.fdiv (Binary64.of_int (grand_qualification_percentage sc)) (Binary64.of_int 100) in
  Z.max 1 (Binary64.trunc (Binary64.fmul (Binary64.of_int (Z.of_nat total)) qualification_pct)).

Definition select_grand_finalists (sc : scoring_config) (entries : list contender) (now : Z) : M store (list winner) :=
  let n := finalists_count sc (length entries) in
  wallet ← in_wallet (WalletConfig.get_config now);
  reward_all (WalletConfig.grand_finalist_points wallet) now (upto n (sort_by best_first entries)) 1.

(** [select_winners]; [phase] defaults to the finals, and no caller gives a
    number of winners. *)
Definition select_winners (sc : scoring_config) (cid : Z) (c : campaign) (entries : list contender) (phase : string)
    (now : Z) : M store (list winner) :=
  if String.eqb (ca_type c) "daily" then select_daily_winners sc cid c entries None now
  else if String.eqb (ca_type c) "weekly" then select_weekly_winners cid c entries None now
  else if String.eqb (ca_type c) "monthly" then select_monthly_winners cid c entries None now
  else if String.eqb (ca_type c) "grand" then
    if String.eqb phase "qualification" then select_grand_finalists sc entries now
    else select_grand_winners cid c entries None now
  else raise (ValueError ("Unknown campaign type: " +:+ ca_type c)).

(** ** Leaderboards *)

Section Generate.
(** [order_by('-total_score')] on the rows of a campaign: the order of ties is
    the database's. *)
Context (order : list (Z * stat) → list (Z * stat)).

Definition _period_bounds (period_type : string) (now : Z) : Z * Z :=
  if String.eqb period_type "daily" then let start := midnight (now - day) in (start, start + day)
  else if String.eqb period_type "weekly" then
    let start := midnight (now - weekday now * day) in (start, start + 7 * day)
  else let start := first_of_month now in (start, first_of_month (start + 32 * day)).

Definition stats_of (cid : Z) (s : store) : list (Z * stat) :=
  (λ kv : Z * Z * stat, (kv.1.1, kv.2)) <$> List.filter (λ kv : Z * Z * stat, kv.1.2 =? cid) (map_to_list (w_stats s)).

(** One row of the board, and the rank on the participant's stats. *)
Definition place (pk : nat) (cid : Z) (field : rank_field) (rank : Z) (us : Z * stat) : M store unit :=
  modify (λ s, with_boards (w_boards s) (w_entries s ++ [BoardEntry pk us.1 rank (us_total_score us.2) (us_approved_posts us.2)]) s) ≫= λ _,
  modify (λ s, with_stats (alter (set_rank field rank) (us.1, cid) (w_stats s)) s).

Fixpoint place_all (pk : nat) (cid : Z) (field : rank_field) (rank : Z) (l : list (Z * stat)) : M store unit :=
  match l with
  | [] => mret tt
  | us :: l' => place pk cid field rank us ≫= λ _, place_all pk cid field (rank + 1) l'
  end.

Definition has_board (cid start : Z) (period_type : string) (s : store) : bool :=
  existsb (λ b, (lb_campaign b =? cid) && String.eqb (lb_period b) period_type && (lb_start b =? start)) (w_boards s).

Definition retire (cid : Z) (period_type : string) (b : board) : board :=
  if (lb_campaign b =? cid) && String.eqb (lb_period b) period_type
  then Board (lb_campaign b) (lb_period b) (lb_start b) (lb_end b) false else b.

Definition generate_board (period_type : string) (field : rank_field) (now cid : Z) : M store unit :=
  let '(start, end_) := _period_bounds period_type now in
  s ← get;
  if has_board cid start period_type s then mret tt
  else
    put (with_boards ((retire cid period_type <$> w_boards s) ++ [Board cid period_type start end_ true]) (w_entries s) s) ≫= λ _,
    place_all (length (w_boards s)) cid field 1 (order (stats_of cid s)).

Definition _generate_period_leaderboard (period_type : string) (types : list string) (field : rank_field) (now : Z)
    : M store unit :=
  s ← get;
  for_each (generate_board period_type field now)
    (List.filter (λ kc : Z * campaign, String.eqb (ca_status kc.2) "active" && bool_decide (ca_type kc.2 ∈ types))
       (map_to_list (w_campaigns s))).*1.

Definition generate_daily_leaderboards := _generate_period_leaderboard "daily" ["daily"; "weekly"; "monthly"; "grand"] daily_rank.
Definition generate_weekly_leaderboards := _generate_period_leaderboard "weekly" ["weekly"; "monthly"; "grand"] weekly_rank.
Definition generate_monthly_leaderboards := _generate_period_leaderboard "monthly" ["monthly"; "grand"] monthly_rank.

End Generate.

(** ** The task that ends campaigns *)

(** [.order_by('-period_start').first()] of the boards that satisfy [p]. *)
Fixpoint newest_board (p : board → bool) (l : list board) (i : nat) : option (nat * board) :=
  match l with
  | [] => None
  | b :: l' => let r := newest_board p l' (S i) in
               if p b then match r with
                           | Some (j, b') => if lb_start b <? lb_start b' then Some (j, b') else Some (i, b)
                           | None => Some (i, b)
                           end
               else r
  end.

Definition of_period (cid : Z) (period_type : string) (b : board) : bool :=
  (lb_campaign b =? cid) && String.eqb (lb_period b) period_type.

Definition own_period (c : campaign) : bool := bool_decide (ca_type c ∈ ["daily"; "weekly"; "monthly"]%string).

Definition _leaderboard_for (cid : Z) (c : campaign) (s : store) : option nat :=
  let find p := fst <$> newest_board p (w_boards s) 0 in
  match (if own_period c then find (of_period cid (ca_type c)) else None) with
  | Some b => Some b
  | None => match find (of_period cid "overall") with
            | Some b => Some b
            | None => find (λ b, lb_campaign b =? cid)
            end
  end.

(** [leaderboard.entries.order_by('rank')]. *)
Definition entries_of (b : nat) (s : store) : list contender :=
  (λ e, Contender (le_user e) (le_score e)) <$>
    sort_by (λ x y, le_rank x <=? le_rank y) (List.filter (λ e, Nat.eqb (le_board e) b) (w_entries s)).

Definition ended (now : Z) (s : store) (kc : Z * campaign) : bool :=
  String.eqb (ca_status kc.2) "active"
  && match ca_entry_deadline kc.2 with Some t => t <? now | None => false end
  && negb (existsb (λ l, sl_campaign l =? kc.1) (w_selections s)).

(** [claim_transition(expect='active', to='completed', winners_announced=True)]. *)
Definition claim_completed (cid : Z) : M store bool :=
  s ← get;
  match w_campaigns s !! cid with
  | Some c => if String.eqb (ca_status c) "active"
              then put (with_campaigns (<[cid := complete c]> (w_campaigns s)) s) ≫= λ _, mret true
              else mret false
  | None => mret false
  end.

Definition save_selected (sel : nat) (now : Z) (w : winner) : M store unit :=
  modify (λ s, with_selections (w_selections s)
    (w_selected s ++ [Selected sel (wn_user w) (wn_rank w) (wn_score w) (wn_method w) now]) s).

(** One campaign of [auto_select_campaign_winners]; nothing undoes the claim
    when a later step raises. *)
Definition end_campaign (now : Z) (kc : Z * campaign) : M store unit :=
  let '(cid, c) := kc in
  s ← get;
  match _leaderboard_for cid c s with
  | None => mret tt
  | Some b =>
      let selection_type := if own_period c then ca_type c else "grand" in
      claimed ← claim_completed cid;
      if negb claimed then mret tt
      else
        s ← get;
        let entries := entries_of b s in
        sc ← engine cid;
        winners ← select_winners sc cid c entries "finals" now;
        s ← get;
        let sel := length (w_selections s) in
        put (with_selections (w_selections s ++ [Selection cid selection_type b now]) (w_selected s) s) ≫= λ _,
        for_each (save_selected sel now) winners ≫= λ _,
        in_prizes (Prizes.award_all (Some (Prizes.Campaign cid (ca_entry_deadline c) (ca_start c)))
          (wn_user <$> winners) selection_type (ca_entry_deadline c) now) ≫= λ _, mret tt
  end.

(** [except Exception]: the answer is a text, and the rest of the campaigns
    are left. *)
Definition auto_select_campaign_winners (now : Z) : M store (exn + unit) :=
  catch (
    s ← get;
    for_each (end_campaign now) (List.filter (ended now s) (map_to_list (w_campaigns s))) ≫= λ _, mret (inr tt))
    (λ e, Some (mret (inl e))).

End Winners.
