(* ===== verification/Selection.v ===== *)
(** * Selection: what choosing winners does

    One selection over the tables of [Winners], and sequences of them: who is
    chosen, what is paid, and how far apart the wins of a user are. *)

From Stdlib Require Import ZArith Lia.
From stdpp Require Import gmap sorting.
From S2P Require Import Prelude Calendar WalletConfig Points Prizes Eligibility StableSort Winners.

Module Selection.
Import StableSort Winners.

(** ** Single steps *)

Definition keyed (s : store) : Prop :=
  ∀ u p, Points.pd_profiles (w_points s) !! u = Some p → Points.p_user p = u.

Definition points_of (u : Z) (s : store) : Z :=
  default 0 (Points.p_points <$> Points.pd_profiles (w_points s) !! u).

(** Nothing a selection does not write. *)
Record same_rest (s s' : store) : Prop := SameRest {
  sm_campaigns : w_campaigns s' = w_campaigns s; sm_configs : w_configs s' = w_configs s;
  sm_posts : w_posts s' = w_posts s; sm_boards : w_boards s' = w_boards s; sm_entries : w_entries s' = w_entries s;
  sm_selections : w_selections s' = w_selections s; sm_selected : w_selected s' = w_selected s;
  sm_prizes : w_prizes s' = w_prizes s
}.

#[export] Instance same_rest_preorder : PreOrder same_rest.
Proof. split; [by split|]. intros s1 s2 s3 [] []. split; congruence. Qed.

Definition recorded (winner_type : string) (cid : option Z) (now : Z) (l : list win) (user : Z) : list win :=
  match win_period winner_type now with
  | Some (start, end_) =>
      if existsb (λ r, fr_period_start r =? start) (wins_of user winner_type l) then l
      else l ++ [Win user cid winner_type now start end_]
  | None => l
  end.

Lemma post_record_win user winner_type cid now s Q :
  (∀ e, Q (inl e) s) → Q (inr tt) (with_wins (recorded winner_type cid now (w_wins s) user) s) →
  post (record_win user winner_type cid now) s Q.
Proof.
  intros Herr Hok. unfold record_win. unfold recorded in Hok. advance; [by destruct s|done|apply Herr].
Qed.

(** One chosen user: paid, recorded, and marked where the selector marks. *)
Record honoured (winner_type : string) (mark : bool) (cid points now : Z) (u : Z) (s s' : store) : Prop := Honoured {
  hn_rest : same_rest s s'; hn_wallet : w_wallet s' = w_wallet s; hn_keyed : keyed s';
  hn_positive : 0 < points;
  hn_points : ∀ v, points_of v s' = points_of v s + (if v =? u then points else 0);
  hn_wins : w_wins s' = recorded winner_type (Some cid) now (w_wins s) u;
  hn_won : ∀ v, already_won v cid s' = already_won v cid s || (mark && (v =? u))
}.

Lemma post_reward u points now s Q :
  keyed s → (∀ e, Q (inl e) s) →
  (∀ d, 0 < points → keyed (with_points d s) →
     (∀ v, points_of v (with_points d s) = points_of v s + (if v =? u then points else 0)) →
     Q (inr tt) (with_points d s)) →
  post (reward u points now) s Q.
Proof.
  intros Hk Herr Hok. unfold reward, in_points. advance; [|apply Herr].
  pose proof (Hk _ _ Heqo) as Hu. apply (Points.post_add_points _ _ _ _ _ _ _ p); rewrite ?Hu; [done|done| |].
  - intros e. cbv beta iota. replace (with_points (w_points s) s) with s by (by destruct s). apply Herr.
  - intros _ Hpos. advance. apply Hok; [done| |].
    + intros v q. cbn. intros [[<- <-]|[_ Hq]]%lookup_insert_Some; [by destruct p|by apply Hk].
    + intros v. unfold points_of. cbn. destruct (Z.eqb_spec v u) as [->|Hne].
      * rewrite lookup_insert_eq, Heqo. by destruct p.
      * rewrite lookup_insert_ne by done. lia.
Qed.

Lemma post_honour winner_type mark cid points now u s Q :
  keyed s → (∀ e s', Q (inl e) s') → (∀ s', honoured winner_type mark cid points now u s s' → Q (inr tt) s') →
  post (reward u points now ≫= λ _, record_win u winner_type (Some cid) now ≫= λ _, when mark (mark_won u cid now)) s Q.
Proof.
  intros Hk Herr Hok.
  advance by (idtac; lazymatch goal with
              | |- post (reward _ _ _) _ _ => apply post_reward; [done|by intros|intros d Hpos Hkd Hpts]
              | |- post (record_win _ _ _ _) _ _ => apply post_record_win; [by intros|]
              | |- post (mark_won _ _ _) _ _ => apply post_modify
              end); apply Hok; (split; [by split|done|done|done|done|done|]); intros v; subst mark; unfold already_won; cbn.
  - destruct (Z.eqb_spec v u) as [->|Hne].
    + by rewrite lookup_insert_eq, orb_true_r.
    + rewrite lookup_insert_ne by congruence. by rewrite orb_false_r.
  - by rewrite orb_false_r.
Qed.

(** ** The loop over those chosen *)

Definition ranked (method : string) (points : Z) (l : list contender) (rank : Z) : list winner :=
  imap (λ i x, Winner (rank + Z.of_nat i) (co_user x) (co_score x) method points) l.

Lemma ranked_cons method points x l rank :
  ranked method points (x :: l) rank = Winner rank (co_user x) (co_score x) method points :: ranked method points l (rank + 1).
Proof.
  unfold ranked. rewrite imap_cons. rewrite Z.add_0_r. f_equal. apply imap_ext. intros i y _. cbn. f_equal. lia.
Qed.

(** How often [u] is among them. *)
Definition chosen (u : Z) (l : list contender) : Z := Z.of_nat (length (List.filter (λ x, co_user x =? u) l)).

Record honoured_all (winner_type : string) (mark : bool) (cid points now : Z) (l : list contender) (s s' : store)
    : Prop := HonouredAll {
  ha_rest : same_rest s s'; ha_wallet : w_wallet s' = w_wallet s; ha_keyed : keyed s';
  ha_points : ∀ v, points_of v s' = points_of v s + points * chosen v l;
  ha_wins : w_wins s' = fold_left (recorded winner_type (Some cid) now) (co_user <$> l) (w_wins s);
  ha_won : ∀ v, already_won v cid s' = already_won v cid s || (mark && existsb (λ x, v =? co_user x) l)
}.

Lemma post_award_each winner_type method mark cid points now l rank s (Q : exn + list winner → store → Prop) :
  keyed s → (∀ e s', Q (inl e) s') →
  (∀ s', honoured_all winner_type mark cid points now l s s' → Q (inr (ranked method points l rank)) s') →
  post (award_each winner_type method mark cid points now l rank) s Q.
Proof.
  revert rank s Q. induction l as [|x l IH]; intros rank s Q Hk Herr Hok; cbn [award_each].
  - apply post_ret, Hok. split; try done; intros v; [unfold chosen; cbn; lia|by rewrite andb_false_r, orb_false_r].
  - pose proof (post_honour winner_type mark cid points now (co_user x) s
      (λ r s', match r with inl e => Q (inl e) s'
               | inr _ => post (r ← award_each winner_type method mark cid points now l (rank + 1);
                                mret (Winner rank (co_user x) (co_score x) method points :: r)) s' Q end) Hk) as H.
    assert (post (reward (co_user x) points now ≫= λ _, record_win (co_user x) winner_type (Some cid) now ≫= λ _,
              when mark (mark_won (co_user x) cid now)) s
      (λ r s', match r with inl e => Q (inl e) s'
               | inr _ => post (r ← award_each winner_type method mark cid points now l (rank + 1);
                                mret (Winner rank (co_user x) (co_score x) method points :: r)) s' Q end)) as H'.
    { apply H; [by intros|]. intros s1 H1. apply post_bind, IH; [apply H1|by intros|]. intros s2 H2. apply post_ret.
      rewrite <- ranked_cons. apply Hok. destruct H1 as [A1 A2 A3 A4 A5 A6 A7], H2 as [B1 B2 B3 B4 B5 B6]. split.
      - by transitivity s1.
      - congruence.
      - done.
      - intros v. rewrite B4, A5. unfold chosen. cbn. rewrite (Z.eqb_sym (co_user x) v). destruct (v =? co_user x); cbn [length]; lia.
      - cbn. by rewrite B5, A6.
      - intros v. rewrite B6, A7. cbn. destruct (already_won v cid s), mark, (v =? co_user x); done. }
    clear H. revert H'. unfold post. rewrite !bind_run. destruct (reward _ _ _ s) as [[e|[]] s1]; [done|]. rewrite !bind_run.
    destruct (record_win _ _ _ _ s1) as [[e|[]] s2]; [done|]. rewrite !bind_run. by destruct (when _ _ s2) as [[e|[]] s3].
Qed.

(** ** One selection *)

(** May [u] win, in the eyes of a selector? *)
Definition may_win (skip : Z → bool) (q : Z → exn + bool) (u : Z) : bool :=
  negb (skip u) && match q u with inr b => b | inl _ => false end.

Lemma eligible_entries_filter skip q l r :
  eligible_entries skip q l = inr r → r = List.filter (λ x, may_win skip q (co_user x)) l.
Proof.
  revert r. induction l as [|x l IH]; intros r; cbn [eligible_entries List.filter]; [by intros [= <-]|]. unfold may_win at 1.
  destruct (skip (co_user x)); cbn [negb andb]; [apply IH|]. destruct (q (co_user x)) as [e|b]; [done|].
  destruct (eligible_entries skip q l) as [e|m]; [done|]. intros [= <-]. rewrite (IH m eq_refl). by destruct b.
Qed.

(** The stored settings, or the defaults. *)
Definition settings (now : Z) (s : store) : WalletConfig.config := default (WalletConfig.default_config now) (w_wallet s).

(** What a selection that went through did: [l] are those chosen. *)
Record selection_of (winner_type method : string) (mark : bool) (points : WalletConfig.config → Z) (skip : store → Z → bool)
    (cid : Z) (c : campaign) (entries : list contender) (n now : Z) (s : store) (ws : list winner) (s' : store)
    (l : list contender) : Prop := SelectionOf {
  so_top : l = upto n (sort_by best_first (List.filter (λ x, may_win (skip s) (λ u, _qualifies u winner_type cid c now s) (co_user x)) entries));
  so_wallet : ∃ wallet, w_wallet s' = Some wallet ∧ wallet = settings now s
              ∧ ws = ranked method (points wallet) l 1
              ∧ honoured_all winner_type mark cid (points wallet) now l (with_wallet (Some wallet) s) s'
}.

Lemma post_select winner_type method mark points skip cid c entries count now s :
  keyed s →
  post (select winner_type method mark points skip cid c entries count now) s (λ r s',
    match r with
    | inl _ => s' = s
    | inr ws => ∃ l, selection_of winner_type method mark points skip cid c entries
                  (match count with Some n => n | None => _documented_winner_count c end) now s ws s' l
    end).
Proof.
  intros Hk. unfold select. apply post_atomic. unfold lock_campaign. advance; [|done].
  rename Heqo into Hc. unfold lift. destruct (eligible_entries _ _ _) as [e|l] eqn:El; [done|]. advance.
  apply eligible_entries_filter in El. unfold in_wallet. apply post_zoom. unfold WalletConfig.get_config. advance.
  - apply post_award_each; [done|done|]. intros s' Hs'. eexists. split; [by rewrite <- El|].
    exists c1. split_and!; [apply Hs'| |done|done]. unfold settings. by rewrite Heqo.
  - apply post_award_each; [done|done|]. intros s' Hs'. eexists. split; [by rewrite <- El|].
    eexists. split_and!; [apply Hs'| |done|done]. unfold settings. by rewrite Heqo.
Qed.

(** ** By type of campaign *)

(** Has [u] won too recently, in the eyes of the selector of this type? *)
Definition barred (sc : scoring_config) (cid : Z) (c : campaign) (now : Z) (s : store) (u : Z) : bool :=
  if String.eqb (ca_type c) "daily" then recent_win u cid (now - daily_win_cooldown_days sc * day) s
  else if String.eqb (ca_type c) "grand" then false else already_won u cid s.

(** Not barred, posted on enough days, and not restricted. *)
Definition passes (sc : scoring_config) (cid : Z) (c : campaign) (now : Z) (s : store) (x : contender) : bool :=
  may_win (barred sc cid c now s) (λ u, _qualifies u (ca_type c) cid c now s) (co_user x).

Definition winner_points (c : campaign) (w : WalletConfig.config) : Z :=
  if String.eqb (ca_type c) "daily" then WalletConfig.daily_winner_points w
  else if String.eqb (ca_type c) "weekly" then WalletConfig.weekly_winner_points w
  else if String.eqb (ca_type c) "monthly" then WalletConfig.monthly_winner_points w
  else WalletConfig.grand_winner_points w.

Definition method_of (c : campaign) : string := if String.eqb (ca_type c) "grand" then "final_score" else "top_scorer".
Definition marks (c : campaign) : bool := bool_decide (ca_type c ∈ ["weekly"; "monthly"]%string).
Definition documented (c : campaign) : nat :=
  if String.eqb (ca_type c) "daily" then 20 else if String.eqb (ca_type c) "weekly" then 10
  else if String.eqb (ca_type c) "monthly" then 5 else 1.
Definition typed (c : campaign) : Prop := ca_type c ∈ ["daily"; "weekly"; "monthly"; "grand"]%string.

(** A selection that went through, whatever the type. *)
Record selected_from (sc : scoring_config) (cid : Z) (c : campaign) (entries : list contender) (now : Z) (s : store)
    (ws : list winner) (s' : store) (l : list contender) : Prop := SelectedFrom {
  sf_top : l = take (documented c) (sort_by best_first (List.filter (passes sc cid c now s) entries));
  sf_points : ∃ method wallet, w_wallet s' = Some wallet ∧ (wallet = settings now s ∧ method = method_of c)
              ∧ ws = ranked method (winner_points c wallet) l 1
              ∧ honoured_all (ca_type c) (marks c) cid (winner_points c wallet) now l (with_wallet (Some wallet) s) s'
}.

Lemma typed_cases c (P : string → Prop) :
  typed c → P "daily"%string → P "weekly"%string → P "monthly"%string → P "grand"%string → P (ca_type c).
Proof. unfold typed. intros H. by repeat (apply elem_of_cons in H as [->|H]; [done|]); apply elem_of_nil in H. Qed.

Lemma upto_nat {A} n (l : list A) : upto (Z.of_nat n) l = take n l.
Proof. unfold upto. rewrite (proj2 (Z.ltb_ge _ 0)) by lia. by rewrite Nat2Z.id. Qed.

Lemma post_select_winners sc cid c entries now s :
  keyed s → typed c →
  post (select_winners sc cid c entries "finals" now) s (λ r s',
    match r with inl _ => s' = s | inr ws => ∃ l, selected_from sc cid c entries now s ws s' l end).
Proof.
  intros Hk Ht. destruct c as [ty st start dl wc ann]. unfold typed in Ht. cbn in Ht.
  repeat (apply elem_of_cons in Ht as [->|Ht]); [..|by apply elem_of_nil in Ht].
  all: unfold select_winners; cbn [ca_type String.eqb Ascii.eqb Bool.eqb].
  all: eapply post_conseq; [by apply post_select|]; intros [e|ws] s' H; [done|].
  all: destruct H as (l & [-> (wallet & H1 & H2 & H3 & H4)]); eexists; split; [|eexists _, wallet; by split_and!].
  all: unfold documented, passes, barred, _documented_winner_count; cbn; by rewrite ?(upto_nat 20), ?(upto_nat 10), ?(upto_nat 5), ?(upto_nat 1).
Qed.

(** ** Sequences of selections *)

(** One selection, by the task or by hand: of a campaign, among contenders,
    at an instant. *)
Record event := Event { ev_campaign : Z; ev_entries : list contender; ev_now : Z }.

(** A win: whose, of what type, when. *)
Definition award_log : Type := list (Z * string * Z).

Definition run_engine (ev : event) (c : campaign) : M store (list winner) :=
  sc ← engine (ev_campaign ev); select_winners sc (ev_campaign ev) c (ev_entries ev) "finals" (ev_now ev).

Definition step (w : store * award_log) (ev : event) : store * award_log :=
  match w_campaigns w.1 !! ev_campaign ev with
  | None => w
  | Some c =>
      let '(r, s') := run_engine ev c w.1 in
      (s', w.2 ++ match r with inr ws => (λ x, (wn_user x, ca_type c, ev_now ev)) <$> ws | inl _ => [] end)
  end.

Definition run (evs : list event) (s : store) : store * award_log := fold_left step evs (s, []).

(** Types whose period is shorter than the restriction. *)
Definition short (ty : string) : Prop := ty = "daily"%string ∨ ty = "weekly"%string.

(** At most one win of the short types in the restriction window. *)
Definition single_wins (s : store) : Prop :=
  ∀ cid sc, w_configs s !! cid = Some sc → daily_win_limit_per_month sc <= 1 ∧ weekly_win_limit_per_month sc <= 1.

Lemma short_period ty t start end_ : short ty → win_period ty t = Some (start, end_) → start <= t < start + 7 * day.
Proof.
  assert (∀ z, midnight z <= z < midnight z + day) as Hm.
  { intros z. unfold midnight, utc_date. pose proof (Z.div_mod z day ltac:(done)). pose proof (Z.mod_pos_bound z day ltac:(done)). lia. }
  intros [-> | ->] [= <- <-].
  - pose proof (Hm t). unfold day, hour, minute, second in *. lia.
  - pose proof (Hm (t - weekday t * day)). unfold weekday in *. pose proof (Z.mod_pos_bound (utc_date t + 3) 7 ltac:(done)).
    unfold day, hour, minute, second in *. lia.
Qed.

(** A restricted user does not pass. *)
Lemma passes_restricted sc cid c now s x r :
  short (ca_type c) → single_wins s → passes sc cid c now s x = true →
  r ∈ w_wins s → fr_user r = co_user x → fr_type r = ca_type c → fr_won_at r < now - RESTRICTION_DAYS * day.
Proof.
  intros Hty Hs Hp Hr Hu Ht. destruct (Z.lt_ge_cases (fr_won_at r) (now - RESTRICTION_DAYS * day)) as [|Hge]; [done|exfalso].
  unfold passes, may_win in Hp. apply andb_true_iff in Hp as [_ Hp]. unfold _qualifies in Hp.
  destruct (Eligibility.campaign_eligibility _ _ _) as [[e|e]|]; [done| |done]. apply andb_true_iff in Hp as [_ Hp].
  set (recent := List.filter (λ r, now - RESTRICTION_DAYS * day <=? fr_won_at r) (wins_of (co_user x) (ca_type c) (w_wins s))) in *.
  assert (1 <= Z.of_nat (length recent)) as Hn.
  { assert (r ∈ recent) as Hin.
    { apply list_elem_of_In, List.filter_In. split; [apply List.filter_In; split; [by apply list_elem_of_In|]|lia].
      rewrite Hu, Ht, Z.eqb_refl. by rewrite String.eqb_refl. }
    destruct recent; [by apply elem_of_nil in Hin|cbn; lia]. }
  unfold check_frequency_eligibility in Hp. cbn [mbind option_bind] in Hp.
  subst recent. destruct Hty as [Ety|Ety]; rewrite Ety in Hp, Hn; cbn [String.eqb Ascii.eqb Bool.eqb andb] in Hp.
  all: destruct (w_configs s !! cid) as [k|] eqn:Ek; [pose proof (Hs _ _ Ek)|].
  all: match type of Hp with context [?a <=? Z.of_nat ?b] => destruct (Z.leb_spec a (Z.of_nat b)); [done|lia] end.
Qed.

(** ** What is recorded *)

(** Rows of the short types carry the period they were won in. *)
Definition wins_ok (T : Z) (l : list win) : Prop :=
  ∀ r, r ∈ l → short (fr_type r) →
    win_period (fr_type r) (fr_won_at r) = Some (fr_period_start r, fr_period_end r) ∧ fr_won_at r <= T.

Lemma elem_of_wins_of r u ty l : r ∈ wins_of u ty l ↔ r ∈ l ∧ fr_user r = u ∧ fr_type r = ty.
Proof.
  unfold wins_of. rewrite !list_elem_of_In, List.filter_In, andb_true_iff, Z.eqb_eq, String.eqb_eq. tauto.
Qed.

Lemma recorded_fresh ty cid now l u start end_ :
  short ty → wins_ok now l → win_period ty now = Some (start, end_) →
  (∀ r, r ∈ l → fr_user r = u → fr_type r = ty → fr_won_at r < now - RESTRICTION_DAYS * day) →
  recorded ty cid now l u = l ++ [Win u cid ty now start end_].
Proof.
  intros Hty Hl Hp Hold. unfold recorded. rewrite Hp. destruct (existsb _ _) eqn:E; [|done]. exfalso.
  apply existsb_exists in E as (r & Hin & Hs). apply list_elem_of_In, elem_of_wins_of in Hin as (Hin & Hu & Ht).
  pose proof (Hold r Hin Hu Ht). rewrite <- Ht in Hty. destruct (Hl r Hin Hty) as [Hr _]. rewrite <- Ht in Hp.
  pose proof (short_period _ _ _ _ Hty Hr). pose proof (short_period _ _ _ _ Hty Hp).
  unfold RESTRICTION_DAYS, day, hour, minute, second in *. lia.
Qed.

Lemma wins_ok_app T l l' : wins_ok T l → wins_ok T l' → wins_ok T (l ++ l').
Proof. intros H1 H2 r [Hr|Hr]%elem_of_app; auto. Qed.

Lemma recorded_all ty cid now us l start end_ :
  short ty → wins_ok now l → win_period ty now = Some (start, end_) → NoDup us →
  (∀ u r, u ∈ us → r ∈ l → fr_user r = u → fr_type r = ty → fr_won_at r < now - RESTRICTION_DAYS * day) →
  fold_left (recorded ty cid now) us l = l ++ ((λ u, Win u cid ty now start end_) <$> us).
Proof.
  intros Hty Hl Hp Hd. revert l Hl. induction Hd as [|u us Hu Hd IH]; intros l Hl Hold; cbn; [by rewrite app_nil_r|].
  rewrite (recorded_fresh _ _ _ _ _ start end_); [|done|done|done|intros r; apply Hold; by left].
  rewrite IH; [by rewrite <- app_assoc| |].
  - apply wins_ok_app; [done|]. intros r ->%list_elem_of_singleton _. cbn. split; [done|lia].
  - intros v r Hv [Hr| ->%list_elem_of_singleton]%elem_of_app; [apply Hold; [by right|done]|]. cbn. congruence.
Qed.

(** Whatever the type, rows are only added. *)
Lemma recorded_adds ty cid now us l :
  ∃ rows, fold_left (recorded ty cid now) us l = l ++ rows ∧ ∀ r, r ∈ rows → fr_type r = ty.
Proof.
  revert l. induction us as [|u us IH]; intros l; cbn; [exists []; rewrite app_nil_r; split; [done|intros ? ?%elem_of_nil; done]|].
  destruct (IH (recorded ty cid now l u)) as (rows & -> & Hrows). unfold recorded.
  destruct (win_period ty now) as [[start end_]|]; [|by eauto]. destruct (existsb _ _); [by eauto|].
  eexists. rewrite <- app_assoc. split; [reflexivity|]. intros r [->%list_elem_of_singleton|Hr]%elem_of_app; [done|by apply Hrows].
Qed.

(** ** The invariant *)

Definition spaced (log : award_log) : Prop :=
  ∀ i j u ty t t', (i < j)%nat → log !! i = Some (u, ty, t) → log !! j = Some (u, ty, t') → short ty →
    t + RESTRICTION_DAYS * day < t'.

Record sound (T : Z) (w : store * award_log) : Prop := Sound {
  sd_keyed : keyed w.1; sd_single : single_wins w.1; sd_wins : wins_ok T (w_wins w.1);
  sd_log : ∀ u ty t, (u, ty, t) ∈ w.2 → short ty →
    ∃ r, r ∈ w_wins w.1 ∧ fr_user r = u ∧ fr_type r = ty ∧ fr_won_at r = t;
  sd_spaced : spaced w.2;
  sd_typed : ∀ cid c, w_campaigns w.1 !! cid = Some c → typed c
}.

Lemma spaced_app log new :
  spaced log →
  (∀ i j u ty t t', (i < j)%nat → new !! i = Some (u, ty, t) → new !! j = Some (u, ty, t') → ¬ short ty) →
  (∀ u ty t t', (u, ty, t) ∈ log → (u, ty, t') ∈ new → short ty → t + RESTRICTION_DAYS * day < t') →
  spaced (log ++ new).
Proof.
  intros H1 H2 H3 i j u ty t t' Hij Hi Hj Hty. apply lookup_app_Some in Hi as [Hi|[Hi' Hi]]; apply lookup_app_Some in Hj as [Hj|[Hj' Hj]].
  - by apply (H1 i j u ty).
  - apply (H3 u ty); [by eapply list_elem_of_lookup_2|by eapply list_elem_of_lookup_2|done].
  - apply lookup_lt_Some in Hj. lia.
  - exfalso. by eapply (H2 (i - length log)%nat (j - length log)%nat); [lia|..].
Qed.

(** The row of configuration an engine may have to create. *)
Definition configured (cid : Z) (s : store) : store :=
  match w_configs s !! cid with
  | Some _ => s
  | None => with_configs (<[cid := default_scoring_config]> (w_configs s)) s
  end.

Lemma post_engine cid s (Q : exn + scoring_config → store → Prop) :
  (∀ sc, w_configs (configured cid s) !! cid = Some sc → Q (inr sc) (configured cid s)) → post (engine cid) s Q.
Proof.
  intros HQ. unfold configured in *. unfold engine. advance; apply HQ; [done|by cbn; rewrite lookup_insert_eq].
Qed.

Lemma configured_single cid s : single_wins s → single_wins (configured cid s).
Proof.
  intros H. unfold configured. destruct (w_configs s !! cid); [done|]. intros i sc. cbn.
  intros [[<- <-]|[_ Hi]]%lookup_insert_Some; [done|by eapply H].
Qed.

Lemma configured_same cid s :
  w_points (configured cid s) = w_points s ∧ w_wins (configured cid s) = w_wins s
  ∧ w_campaigns (configured cid s) = w_campaigns s.
Proof. unfold configured. by destruct (w_configs s !! cid). Qed.

Lemma sound_configured T s log cid : sound T (s, log) → sound T (configured cid s, log).
Proof.
  intros [H1 H2 H3 H4 H5 H6]. destruct (configured_same cid s) as (E1 & E2 & E3). cbn in *.
  split; cbn; [|by apply configured_single|by rewrite E2|by rewrite E2|done|by rewrite E3].
  unfold keyed. by rewrite E1.
Qed.

Lemma sound_later T T' w : T <= T' → sound T w → sound T' w.
Proof. intros H [H1 H2 H3 H4 H5 H6]. split; try done. intros r Hr Hty. destruct (H3 r Hr Hty). split; [done|lia]. Qed.

Lemma ranked_users method points l rank (ty : string) (now : Z) :
  (λ x, (wn_user x, ty, now)) <$> ranked method points l rank = (λ x, (co_user x, ty, now)) <$> l.
Proof. revert rank. induction l as [|x l IH]; intros rank; [done|]. rewrite ranked_cons. cbn. by rewrite IH. Qed.

Lemma taken n (f : contender → bool) l x : x ∈ take n (sort_by best_first (List.filter f l)) → x ∈ l ∧ f x = true.
Proof.
  intros H.
  assert (x ∈ sort_by best_first (List.filter f l)) as Hx
    by (rewrite <- (take_drop n (sort_by best_first (List.filter f l))); apply elem_of_app; by left).
  apply elem_of_sort, list_elem_of_In, List.filter_In in Hx as [Hx ?]. by rewrite list_elem_of_In.
Qed.

Lemma taken_users n (f : contender → bool) l :
  NoDup (co_user <$> l) → NoDup (co_user <$> take n (sort_by best_first (List.filter f l))).
Proof.
  intros H. rewrite fmap_take. apply (sublist_NoDup _ (co_user <$> sort_by best_first (List.filter f l))); [|apply sublist_take].
  rewrite (sort_perm best_first). induction l as [|x l IH]; [done|]. cbn in *. apply NoDup_cons in H as [Hx Hl].
  destruct (f x); [|by apply IH]. cbn. apply NoDup_cons. split; [|by apply IH].
  intros (y & Hy & Hin)%list_elem_of_fmap. apply Hx. rewrite Hy. apply list_elem_of_fmap. exists y.
  apply list_elem_of_In, List.filter_In in Hin as [Hin _]. by rewrite list_elem_of_In.
Qed.

(** What the wins of the short types look like after a selection. *)
Lemma honoured_wins sc cid c entries now s ws s' l :
  single_wins s → wins_ok now (w_wins s) → NoDup (co_user <$> entries) → selected_from sc cid c entries now s ws s' l →
  short (ca_type c) →
  (∀ u, u ∈ co_user <$> l → ∃ r, r ∈ w_wins s' ∧ fr_user r = u ∧ fr_type r = ca_type c ∧ fr_won_at r = now)
  ∧ wins_ok now (w_wins s')
  ∧ (∀ u r, u ∈ co_user <$> l → r ∈ w_wins s → fr_user r = u → fr_type r = ca_type c →
       fr_won_at r < now - RESTRICTION_DAYS * day).
Proof.
  intros Hs Hw Hd [-> (method & wallet & _ & _ & _ & Hh)] Hty.
  set (l := take _ _) in *. assert (∀ u r, u ∈ co_user <$> l → r ∈ w_wins s → fr_user r = u → fr_type r = ca_type c →
       fr_won_at r < now - RESTRICTION_DAYS * day) as Hold.
  { intros u r (x & -> & Hx)%list_elem_of_fmap Hr Hu Ht. apply taken in Hx as [_ Hx].
    by eapply passes_restricted. }
  destruct (win_period (ca_type c) now) as [[start end_]|] eqn:Hp; [|by destruct Hty as [E|E]; rewrite E in Hp].
  pose proof (ha_wins _ _ _ _ _ _ _ _ Hh) as Hwins. cbn [w_wins with_wallet] in Hwins.
  rewrite (recorded_all _ _ _ _ _ start end_) in Hwins; [|done|done|done|by apply taken_users|done].
  rewrite Hwins. split_and!; [|apply wins_ok_app; [done|]|done].
  - intros u Hu. eexists. split; [apply elem_of_app; right; apply list_elem_of_fmap; by exists u|done].
  - intros r (u & -> & _)%list_elem_of_fmap _. cbn. split; [done|lia].
Qed.

(** The other types only add rows that are not of the short ones. *)
Lemma honoured_others sc cid c entries now s ws s' l :
  wins_ok now (w_wins s) → selected_from sc cid c entries now s ws s' l →
  (∀ r, r ∈ w_wins s → r ∈ w_wins s') ∧ (¬ short (ca_type c) → wins_ok now (w_wins s')).
Proof.
  intros Hw [_ (method & wallet & _ & _ & _ & Hh)]. pose proof (ha_wins _ _ _ _ _ _ _ _ Hh) as Hwins.
  destruct (recorded_adds (ca_type c) (Some cid) now (co_user <$> l) (w_wins (with_wallet (Some wallet) s))) as (rows & E & Ht).
  rewrite Hwins, E. split; [intros r Hr; apply elem_of_app; by left|].
  intros Hno. apply wins_ok_app; [done|]. intros r Hr Hty. by rewrite (Ht r Hr) in Hty.
Qed.

Lemma sound_step T w ev :
  sound T w → T <= ev_now ev → NoDup (co_user <$> ev_entries ev) → sound (ev_now ev) (step w ev).
Proof.
  intros Hs HT Hd. apply (sound_later T (ev_now ev)) in Hs; [|done]. clear HT T. destruct w as [s log].
  unfold step. cbn [fst snd]. destruct (w_campaigns s !! ev_campaign ev) as [c|] eqn:Hc; [|done].
  pose proof (sd_typed _ _ Hs _ _ Hc) as Hty.
  assert (post (run_engine ev c) s (λ r s', sound (ev_now ev) (s', log ++ match r with
            | inr ws => (λ x, (wn_user x, ca_type c, ev_now ev)) <$> ws | inl _ => [] end))) as H.
  2: { unfold post in H. by destruct (run_engine ev c s) as [r s']. }
  unfold run_engine. apply post_bind, post_engine. intros sc _.
  apply (sound_configured _ _ _ (ev_campaign ev)) in Hs. revert Hs. generalize (configured (ev_campaign ev) s). clear s Hc.
  intros s Hs. eapply post_conseq; [apply post_select_winners; [apply (sd_keyed _ _ Hs)|done]|].
  intros [e|ws] s'; [intros ->; by rewrite app_nil_r|]. intros (l & Hsel).
  pose proof (sd_single _ _ Hs) as Hsingle. pose proof (sd_wins _ _ Hs) as Hwins. cbn [fst snd] in *.
  pose proof (honoured_others _ _ _ _ _ _ _ _ _ Hwins Hsel) as [Hkeep Hother].
  pose proof (honoured_wins _ _ _ _ _ _ _ _ _ Hsingle Hwins Hd Hsel) as Hshort.
  destruct Hsel as [El (method & wallet & _ & _ & -> & Hh)]. rewrite ranked_users. pose proof (ha_rest _ _ _ _ _ _ _ _ Hh) as Hrest.
  split; cbn [fst snd].
  - apply Hh.
  - intros i k. rewrite (sm_configs _ _ Hrest). apply Hsingle.
  - destruct (decide (ca_type c = "daily" ∨ ca_type c = "weekly")%string) as [Hd'|Hd']; [by apply Hshort|by apply Hother].
  - intros u ty t [Hin|Hin]%elem_of_app Hty'.
    + destruct (sd_log _ _ Hs u ty t Hin Hty') as (r & Hr & H). exists r. split; [by apply Hkeep|done].
    + apply list_elem_of_fmap in Hin as (x & [= -> -> ->] & Hx). apply Hshort; [done|]. apply list_elem_of_fmap. by exists x.
  - apply spaced_app; [apply (sd_spaced _ _ Hs)| |].
    + intros i j u ty t t' Hij Hi Hj _. rewrite list_lookup_fmap in Hi, Hj.
      destruct (l !! i) as [x|] eqn:Ei; [|done]. destruct (l !! j) as [y|] eqn:Ej; [|done].
      injection Hi as [= <- _ _]. injection Hj as [= Hxy _ _].
      assert (NoDup (co_user <$> l)) as Hnd by (rewrite El; by apply taken_users).
      assert (i = j); [|lia]. eapply (NoDup_lookup _ _ _ (co_user x) Hnd); rewrite list_lookup_fmap; [by rewrite Ei|by rewrite Ej, <- Hxy].
    + intros u ty t t' Hin Hnew Hty'. apply list_elem_of_fmap in Hnew as (x & [= -> -> ->] & Hx).
      destruct (sd_log _ _ Hs _ _ _ Hin Hty') as (r & Hr & Hu & Ht & <-).
      destruct (Hshort Hty') as (_ & _ & Hold). assert (co_user x ∈ co_user <$> l) as Hxl by (apply list_elem_of_fmap; by exists x).
      pose proof (Hold _ r Hxl Hr Hu Ht). lia.
  - intros i k. rewrite (sm_campaigns _ _ Hrest). apply (sd_typed _ _ Hs).
Qed.

(** ** Properties *)

(** Has the user a win of this type in the period that starts there? *)
Definition has_win (u : Z) (ty : string) (start : Z) (l : list win) : bool :=
  existsb (λ r, fr_period_start r =? start) (wins_of u ty l).

Lemma has_win_app u ty start l m : has_win u ty start (l ++ m) = has_win u ty start l || has_win u ty start m.
Proof. unfold has_win, wins_of. by rewrite List.filter_app, existsb_app. Qed.
Lemma has_win_one u v cid ty now start end_ : has_win u ty start [Win v cid ty now start end_] = (v =? u).
Proof. unfold has_win, wins_of. cbn. rewrite String.eqb_refl, andb_true_r. destruct (v =? u); cbn; by rewrite ?Z.eqb_refl. Qed.

(** Recording the wins of some users: a row for each who has none in the
    period, and nothing else. *)
Lemma recorded_rows ty cid now start end_ us l : win_period ty now = Some (start, end_) →
  ∃ rows, fold_left (recorded ty cid now) us l = l ++ rows
    ∧ NoDup (fr_user <$> rows)
    ∧ (∀ r, r ∈ rows → r = Win (fr_user r) cid ty now start end_ ∧ fr_user r ∈ us ∧ has_win (fr_user r) ty start l = false)
    ∧ ∀ u, u ∈ us → has_win u ty start (l ++ rows) = true.
Proof.
  intros Hp. revert l. induction us as [|u us IH]; intros l; cbn [fold_left].
  { exists []. rewrite app_nil_r. split_and!; [done|constructor|by intros r ?%elem_of_nil|by intros u ?%elem_of_nil]. }
  unfold recorded at 2. rewrite Hp. fold (has_win u ty start l). destruct (has_win u ty start l) eqn:Hu.
  - destruct (IH l) as (rows & E & Hnd & Hr & Hus). exists rows. split_and!; [done|done|set_solver|].
    intros v [->|Hv]%elem_of_cons; [by rewrite has_win_app, Hu|auto].
  - set (x := Win u cid ty now start end_). destruct (IH (l ++ [x])) as (rows & E & Hnd & Hr & Hus).
    rewrite <- app_assoc in E, Hus. cbn in E, Hus. exists (x :: rows).
    assert (∀ r, r ∈ rows → has_win (fr_user r) ty start l = false ∧ u ≠ fr_user r) as Hnew.
    { intros r (_ & _ & H)%Hr. rewrite has_win_app in H. apply orb_false_iff in H as [H1 H2]. split; [done|].
      subst x. rewrite has_win_one in H2. by apply Z.eqb_neq. }
    split_and!; [done| | |].
    + rewrite fmap_cons. apply NoDup_cons. split; [|done]. intros (r & Er & [_ Hne]%Hnew)%list_elem_of_fmap. done.
    + intros r [->|Hin]%elem_of_cons; [split_and!; [done|left|done]|]. destruct (Hr r Hin) as (? & ? & _). destruct (Hnew r Hin).
      split_and!; [done|by right|done].
    + intros v [->|Hv]%elem_of_cons; [|by apply Hus]. rewrite (has_win_app _ _ _ l (x :: rows)), (has_win_app _ _ _ [x] rows). subst x.
      by rewrite has_win_one, Z.eqb_refl, orb_true_l, orb_true_r.
Qed.

Lemma typed_period c now : typed c → ∃ start end_, win_period (ca_type c) now = Some (start, end_).
Proof.
  intros Ht. apply (typed_cases c (λ ty, ∃ start end_, win_period ty now = Some (start, end_))); [done|by do 2 eexists..].
Qed.

(** C23.  What a selection decides, pays and records.  For a campaign of one
    of the four types, either it raises and leaves the tables as they were, or
    the winners are the best scores among the entries that pass -- not barred
    by an earlier win, posted on enough days, not restricted -- twenty, ten,
    five or one of them, ranked from 1; nobody who passed and was left out
    scored more than a winner; each is answered with the tier's method and
    points, as the stored settings have them; every account's points grow by
    that for each time it was chosen; in the period of the win every winner
    ends with a win of the type, rows are added for those who had none, one
    each, and for nobody else; and the winners of weekly and monthly campaigns
    are marked as having won the cycle. *)
Theorem selection_takes_the_best sc cid c entries now s :
  keyed s → typed c →
  let '(r, s') := select_winners sc cid c entries "finals" now s in
  match r with
  | inl _ => s' = s
  | inr ws => let points := winner_points c (settings now s) in ∃ top rest start end_ rows,
      List.filter (passes sc cid c now s) entries ≡ₚ top ++ rest
      ∧ (length top = documented c ∨ (length top < documented c)%nat ∧ rest = [])
      ∧ ws = ranked (method_of c) points top 1
      ∧ StronglySorted best_first top
      ∧ (∀ x y, x ∈ top → y ∈ rest → co_score y <= co_score x)
      ∧ (∀ u, points_of u s' = points_of u s + points * chosen u top)
      ∧ win_period (ca_type c) now = Some (start, end_) ∧ w_wins s' = w_wins s ++ rows ∧ NoDup (fr_user <$> rows)
      ∧ (∀ r, r ∈ rows → r = Win (fr_user r) (Some cid) (ca_type c) now start end_ ∧ fr_user r ∈ co_user <$> top
                         ∧ has_win (fr_user r) (ca_type c) start (w_wins s) = false)
      ∧ (∀ x, x ∈ top → has_win (co_user x) (ca_type c) start (w_wins s') = true)
      ∧ ∀ u, already_won u cid s' = already_won u cid s || (marks c && existsb (λ x, u =? co_user x) top)
  end.
Proof.
  intros Hk Ht. pose proof (post_select_winners sc cid c entries now s Hk Ht) as H. unfold post in H.
  destruct (select_winners _ _ _ _ _ _ s) as [[e|ws] s']; cbn [fst snd] in H; [done|].
  destruct H as (l & [-> (method & wallet & _ & [-> ->] & -> & Hh)]).
  set (passed := List.filter (passes sc cid c now s) entries) in *.
  assert (∀ x y, best_first x y = true ∨ best_first y x = true) as Htot by (intros x y; unfold best_first; lia).
  assert (∀ x y z, best_first x y = true → best_first y z = true → best_first x z = true) as Htr
    by (intros x y z; unfold best_first; lia).
  destruct (typed_period c now Ht) as (start & end_ & Hp). set (top := take (documented c) (sort_by best_first passed)) in *.
  pose proof (ha_wins _ _ _ _ _ _ _ _ Hh) as Hwins. cbn [w_wins with_wallet] in Hwins.
  destruct (recorded_rows (ca_type c) (Some cid) now start end_ (co_user <$> top) (w_wins s) Hp) as (rows & E & Hnd & Hrows & Hall).
  rewrite E in Hwins. exists top, (drop (documented c) (sort_by best_first passed)), start, end_, rows. split_and!; try done.
  - subst top. by rewrite take_drop, sort_perm.
  - subst top. rewrite length_take. destruct (Nat.le_gt_cases (documented c) (length (sort_by best_first passed))); [left; lia|right].
    split; [lia|]. apply drop_ge. lia.
  - pose proof (sort_sorted best_first Htot Htr passed) as Hsort.
    rewrite <- (take_drop (documented c) (sort_by best_first passed)) in Hsort. by eapply StronglySorted_app_1_l.
  - intros x y Hx Hy. pose proof (sort_best best_first Htot Htr _ _ x y Hx Hy) as H. unfold best_first in H. lia.
  - intros u. apply (ha_points _ _ _ _ _ _ _ _ Hh).
  - intros x Hx. rewrite Hwins. apply Hall. by apply list_elem_of_fmap_2.
  - intros u. apply (ha_won _ _ _ _ _ _ _ _ Hh).
Qed.

(** The thirty days between daily and weekly wins.  Where every campaign
    allows one win in the window, which is the default, then after any
    sequence of selections of any campaigns in the order of time, two daily or
    two weekly wins of one user are more than thirty days apart. *)
Theorem wins_are_spaced evs s0 :
  keyed s0 → single_wins s0 → w_wins s0 = [] → (∀ cid c, w_campaigns s0 !! cid = Some c → typed c) →
  StronglySorted Z.le (ev_now <$> evs) → Forall (λ ev, NoDup (co_user <$> ev_entries ev)) evs →
  spaced (run evs s0).2.
Proof.
  intros H1 H2 H3 H4 Ht Hd. unfold run.
  assert (∀ T w, sound T w → Forall (λ t, T <= t) (ev_now <$> evs) → ∃ T', sound T' (fold_left step evs w)) as H.
  { revert Ht Hd. induction evs as [|ev evs IH]; intros Ht Hd T w Hw HT; [by exists T|]. cbn in *.
    apply StronglySorted_inv in Ht as [Ht Hev]. apply Forall_cons in Hd as [Hd1 Hd]. apply Forall_cons in HT as [HT1 HT].
    by apply (IH Ht Hd (ev_now ev)); [eapply sound_step|]. }
  destruct evs as [|ev evs]; [by intros ? ? ? ? ? ? ? []|].
  destruct (H (ev_now ev) (s0, [])) as [T' HT']; [|cbn in *; apply StronglySorted_inv in Ht as [_ Ht]; by constructor|apply HT'].
  split; cbn; try done.
  - rewrite H3. by intros r Hr%not_elem_of_nil.
  - by intros u ty t Hin%not_elem_of_nil.
Qed.

(** ** Concrete runs

    Users 1, 2 and 3 posted every day of December 2023 and January 2024 in
    campaign 4, a weekly one, and in campaigns 5, 6 and 7. *)

Definition january : Z := 19723 * day.

Definition posts : list Eligibility.entry :=
  u ← [1; 2; 3]; cid ← [4; 5; 6; 7]; (λ d, Eligibility.Entry u cid "approved" (january + d * day + 12 * hour)) <$> seqZ (-31) 62.

Definition held (ty : string) (start : Z) : campaign :=
  Campaign ty "active" (Some start) (Some (start + 25 * day)) 1 false.

Definition no_prizes : Prizes.store := Prizes.Store [] ∅ ∅ [] [] [].

Definition season_of (ty : string) (cfg : gmap Z scoring_config) : store :=
  Store (<[4 := held "weekly" january]> (<[5 := held ty (january - 31 * day)]> (<[6 := held ty january]> (<[7 := held ty january]> ∅))))
    cfg posts ∅ [] [] [] [] []
    (Points.PointsDb (<[1 := Points.new_profile 1]> (<[2 := Points.new_profile 2]> (<[3 := Points.new_profile 3]> ∅))) [])
    None no_prizes.

Definition season : gmap Z scoring_config → store := season_of "monthly".

Definition field : list contender := [Contender 1 500; Contender 2 900; Contender 3 500].

Lemma season_keyed cfg : keyed (season cfg).
Proof.
  intros u p H. cbn in H. apply lookup_insert_Some in H as [[<- <-]|[_ H]]; [done|].
  apply lookup_insert_Some in H as [[<- <-]|[_ H]]; [done|]. by apply lookup_insert_Some in H as [[<- <-]|[_ [=]]].
Qed.

Lemma season_typed cfg cid c : w_campaigns (season cfg) !! cid = Some c → typed c.
Proof.
  intros H. cbn in H. repeat (apply lookup_insert_Some in H as [[<- <-]|[_ H]]; [by apply (bool_decide_unpack _); vm_compute|]). done.
Qed.

Lemma season_single : single_wins (season ∅).
Proof. intros cid sc H. done. Qed.

Definition answered (r : exn + list winner) : list (Z * Z * Z) :=
  match r with inr ws => (λ w, (wn_rank w, wn_user w, wn_points w)) <$> ws | inl _ => [] end.

Lemma selection_takes_the_best_witness :
  let '(r, s') := select_winners default_scoring_config 4 (held "weekly" january) field "finals" (january + 30 * day) (season ∅) in
  answered r = [(1, 2, 2000); (2, 1, 2000); (3, 3, 2000)]
  ∧ fr_user <$> w_wins s' = [2; 1; 3]
  ∧ match r with
    | inl _ => s' = season ∅
    | inr ws => ∃ top rest, length top = 3%nat
        ∧ ws = ranked "top_scorer" 2000 top 1
        ∧ List.filter (passes default_scoring_config 4 (held "weekly" january) (january + 30 * day) (season ∅)) field ≡ₚ top ++ rest
        ∧ ∀ u, points_of u s' = points_of u (season ∅) + 2000 * chosen u top
    end.
Proof.
  pose proof (selection_takes_the_best default_scoring_config 4 (held "weekly" january) field (january + 30 * day) (season ∅)
    (season_keyed ∅) (season_typed ∅ 4 _ eq_refl)) as H.
  destruct (select_winners _ _ _ _ _ _ _) as [r s'] eqn:E. pose proof (f_equal fst E) as E1. pose proof (f_equal snd E) as E2.
  cbn [fst snd] in E1, E2. split; [rewrite <- E1; vm_compute; reflexivity|]. split; [rewrite <- E2; vm_compute; reflexivity|].
  destruct r as [e|ws]; [done|]. destruct H as (top & rest & start & end_ & rows & H1 & H2 & H3 & H4 & H5 & H6 & _).
  exists top, rest. assert (length ws = 3%nat) as Hl.
  { assert (length (answered (inr ws)) = 3%nat) as Hl by (rewrite <- E1; vm_compute; reflexivity). cbn in Hl. by rewrite length_fmap in Hl. }
  split; [by rewrite H3 in Hl; unfold ranked in Hl; rewrite length_imap in Hl|].
  split; [rewrite H3; f_equal|]. split; [exact H1|exact H6].
Defined.

Definition two_weeks : list event :=
  [Event 4 field (january + 30 * day); Event 4 field (january + 37 * day)].

Lemma wins_are_spaced_witness :
  length (run two_weeks (season ∅)).2 = 3%nat
  ∧ spaced (run two_weeks (season ∅)).2.
Proof.
  split; [vm_compute; reflexivity|]. apply (wins_are_spaced two_weeks (season ∅)).
  - apply season_keyed.
  - apply season_single.
  - reflexivity.
  - apply season_typed.
  - repeat constructor; vm_compute; discriminate.
  - repeat constructor; vm_compute; set_solver.
Defined.

(** A month of 31 days: a win on its first morning and one on its last share
    the row of the month, so the second is not recorded and a third follows
    an hour later. *)
Example january_pays_three_times :
  (run [Event 5 field (january + hour); Event 6 field (january + 30 * day + 2 * hour); Event 7 field (january + 30 * day + 3 * hour)]
     (season ∅)).2
  = (u ← [january + hour; january + 30 * day + 2 * hour; january + 30 * day + 3 * hour]; (λ w, (w, "monthly"%string, u)) <$> [2; 1; 3]).
Proof. vm_compute. reflexivity. Qed.

(** With two wins allowed, the second of a week is paid and not recorded, so
    the count never reaches two. *)
Definition two_a_month : gmap Z scoring_config :=
  let c := ScoringConfig 1 2 1 1 7 20 in <[5 := c]> (<[6 := c]> (<[7 := c]> ∅)).

Example a_limit_of_two_pays_three_times :
  let '(s, log) := run [Event 5 field (january + 29 * day); Event 6 field (january + 29 * day + hour); Event 7 field (january + 29 * day + 2 * hour)]
                     (season_of "weekly" two_a_month) in
  (length log, points_of 2 s, (check_frequency_eligibility 2 "weekly" (Some 7) (january + 30 * day) s)) = (9%nat, 6000, (true, 1, 2)).
Proof. vm_compute. reflexivity. Qed.

(** The lock is the campaign's and the restriction the user's: two selections
    that read before either writes both pay. *)
Example two_campaigns_at_once :
  let s := season_of "weekly" ∅ in let now := january + 29 * day in
  let pass cid := List.filter (passes default_scoring_config cid (held "weekly" january) now s) field in
  match (award_each "weekly" "top_scorer" true 6 2000 now (pass 6) 1 ≫= λ _,
         award_each "weekly" "top_scorer" true 7 2000 now (pass 7) 1) s with
  | (inr _, s') => (points_of 2 s', length (w_wins s')) = (4000, 3%nat)
  | _ => False
  end.
Proof. vm_compute. reflexivity. Qed.

(** Whoever the engine chose has a recorded win, and the check that the award
    of the data prize makes first now refuses. *)
Example chosen_is_refused_the_prize :
  let s := (run [Event 4 field (january + 30 * day)] (season ∅)).1 in
  check_frequency_eligibility 2 "weekly" (Some 4) (january + 30 * day + hour) s = (false, 1, 1).
Proof. vm_compute. reflexivity. Qed.

(** ** The task *)

(** A board for campaign 4, and one of its entries has no profile: the
    campaign is completed, nobody has won, and it will not be tried again. *)
Definition with_board (s : store) : store :=
  with_boards [Board 4 "weekly" january (january + 7 * day) true]
    [BoardEntry 0 2 1 900 5; BoardEntry 0 1 2 500 5; BoardEntry 0 3 3 500 5] s.

Definition without_profile (u : Z) (s : store) : store :=
  with_points (Points.PointsDb (delete u (Points.pd_profiles (w_points s))) (Points.pd_ledger (w_points s))) s.

Definition now_ended : Z := january + 26 * day.

Example task_selects :
  let '(r, s) := auto_select_campaign_winners now_ended (with_board (season ∅)) in
  (r, ca_status <$> w_campaigns s !! 4, (λ x, (sw_rank x, sw_user x)) <$> w_selected s,
   Prizes.pz_winner <$> Prizes.z_rows (w_prizes s))
  = (inr (inr tt), Some "completed"%string, [(1, 2); (2, 1); (3, 3)], [2; 1; 3]).
Proof. vm_compute. reflexivity. Qed.

Example failed_selection_is_final :
  let '(r, s) := auto_select_campaign_winners now_ended (without_profile 3 (with_board (season ∅))) in
  let '(r', s') := auto_select_campaign_winners (now_ended + day) s in
  (r, ca_status <$> w_campaigns s !! 4, w_selected s, points_of 2 s, r', w_selected s')
  = (inr (inl (DoesNotExist "User has no profile.")), Some "completed"%string, [], 0, inr (inr tt), []).
Proof. vm_compute. reflexivity. Qed.

End Selection.
