(* ===== verification/Leaderboard.v ===== *)
(** * Leaderboard: counting engagement and ranking participants

    Models [src/api/services/scoring/leaderboard.py] over the rows of votes,
    comments and gifts, with the engagement weights of
    [CampaignScoringConfig].  Weights are decimals of two places; a score is a
    decimal, and a row of the board carries it as a [float]. *)

From Stdlib Require Import ZArith Lia.
From stdpp Require Import gmap sorting.
From S2P Require Import Prelude Decimal Binary64 StableSort.

Module Leaderboard.
Import StableSort.

(** ** Rows *)

Record vote := Vote { vo_reel : Z; vo_user : Z }.
Record comment := Comment { cm_reel : Z; cm_is_deleted : bool }.
Record gift := Gift { gt_reel : option Z; gt_sender : Z }.

(** [s_shares] has the counter of every post there is; a [PostScore] links a
    post to its author and campaign, at most one for a post. *)
Record store := Store { s_votes : list vote; s_comments : list comment; s_gifts : list gift; s_shares : gmap Z Z }.

Record counts := Counts { likes : Z; comments : Z; shares : Z; gifts : Z }.

Definition no_counts : counts := Counts 0 0 0 0.

(** ** Weights *)

Record weights := Weights { likes_weight : dec; comments_weight : dec; shares_weight : dec; gifts_weight : dec }.

Definition DEFAULT_WEIGHTS : weights := Weights (of_int 1) (of_int 2) (of_int 5) (of_int 10).

(** The weights of a campaign's type, in hundredths; [None] where the
    configuration cannot be built.  [type_config] holds them as floats, and
    [Decimal(str(value))] gives back the two places that were stored. *)
Definition resolve_weights (configured : option (Z * Z * Z * Z)) : weights :=
  match configured with
  | None => DEFAULT_WEIGHTS
  | Some (l, c, s, g) => Weights (of_cents l) (of_cents c) (of_cents s) (of_cents g)
  end.

(** ** The score *)

Definition compute_score (c : counts) (w : weights) : dec :=
  let add total n weight := dec_add total (dec_mul (of_int n) weight) in
  add (add (add (add (of_int 0) (likes c) (likes_weight w)) (comments c) (comments_weight w))
         (shares c) (shares_weight w)) (gifts c) (gifts_weight w).

(** ** One post *)

Definition count {A} (p : A → bool) (l : list A) : Z := Z.of_nat (length (List.filter p l)).

Definition votes_of (reel : Z) (s : store) : Z := count (λ v, vo_reel v =? reel) (s_votes s).
Definition comments_of (reel : Z) (s : store) : Z :=
  count (λ c, (cm_reel c =? reel) && negb (cm_is_deleted c)) (s_comments s).
Definition gifts_of (reel : Z) (s : store) : Z := count (λ g, bool_decide (gt_reel g = Some reel)) (s_gifts s).
Definition shares_of (reel : Z) (s : store) : Z := Z.max 0 (default 0 (s_shares s !! reel)).

Definition reel_engagement (reel : Z) (s : store) : counts :=
  Counts (votes_of reel s) (comments_of reel s) (shares_of reel s) (gifts_of reel s).

(** ** A campaign's participants

    [reel_to_user] is the dictionary of the posts of the queryset. *)

Record row := Row { r_user : Z; r_counts : counts; r_posts : Z }.

(** What [GROUP BY reel_id] answers: a count for each post that has one. *)
Definition grouped (reels : list Z) (n : Z → Z) : list (Z * Z) :=
  List.filter (λ rn : Z * Z, negb (rn.2 =? 0)) ((λ r, (r, n r)) <$> reels).

Definition set_posts (f : Z → Z) (r : row) : row := Row (r_user r) (r_counts r) (f (r_posts r)).

Definition start_totals (reel_to_user : gmap Z Z) : gmap Z row :=
  set_to_map (λ u, (u, Row u no_counts 0)) (list_to_set ((map_to_list reel_to_user).*2) : gset Z).

Definition count_posts (reel_to_user : gmap Z Z) (t : gmap Z row) : gmap Z row :=
  foldl (λ t (ru : Z * Z), alter (set_posts (λ n, n + 1)) ru.2 t) t (map_to_list reel_to_user).

Inductive field := Likes | Comments | Shares | Gifts.

Definition bump (f : field) (n : Z) (r : row) : row :=
  let c := r_counts r in
  Row (r_user r)
    (match f with
     | Likes => Counts (likes c + n) (comments c) (shares c) (gifts c)
     | Comments => Counts (likes c) (comments c + n) (shares c) (gifts c)
     | Shares => Counts (likes c) (comments c) (shares c + n) (gifts c)
     | Gifts => Counts (likes c) (comments c) (shares c) (gifts c + n)
     end) (r_posts r).

(** [add(field, rows)]. *)
Definition add (reel_to_user : gmap Z Z) (f : field) (rows : list (Z * Z)) (t : gmap Z row) : gmap Z row :=
  foldl (λ t (rn : Z * Z), match reel_to_user !! rn.1 with
                 | Some owner => alter (bump f rn.2) owner t
                 | None => t
                 end) t rows.

Definition tally (reel_to_user : gmap Z Z) (s : store) : gmap Z row :=
  let reels := (map_to_list reel_to_user).*1 in
  let t := count_posts reel_to_user (start_totals reel_to_user) in
  let t := add reel_to_user Likes (grouped reels (λ r, votes_of r s)) t in
  let t := add reel_to_user Comments (grouped reels (λ r, comments_of r s)) t in
  let t := add reel_to_user Gifts (grouped reels (λ r, gifts_of r s)) t in
  add reel_to_user Shares
    ((λ rn : Z * Z, (rn.1, Z.max 0 rn.2)) <$> List.filter (λ rn : Z * Z, bool_decide (rn.1 ∈ reels)) (map_to_list (s_shares s))) t.

(** ** Ranking *)

Record entry := Entry { e_row : row; e_score : Binary64.float; e_rank : Z }.

Definition actions (c : counts) : Z := likes c + comments c + shares c + gifts c.

(** The key [(-score, -actions, user)]. *)
Definition before (x y : row * Binary64.float) : bool :=
  if Binary64.feqb x.2 y.2 then
    if actions (r_counts x.1) =? actions (r_counts y.1) then r_user x.1 <=? r_user y.1
    else actions (r_counts y.1) <? actions (r_counts x.1)
  else Binary64.fltb y.2 x.2.

Definition rank (rows : list (row * Binary64.float)) : list entry :=
  imap (λ i x, Entry x.1 x.2 (Z.of_nat i + 1)) (sort_by before rows).

Definition scored (w : weights) (r : row) : row * Binary64.float := (r, Binary64.of_dec (compute_score (r_counts r) w)).

Definition campaign_participant_totals (reel_to_user : gmap Z Z) (configured : option (Z * Z * Z * Z)) (s : store) : list entry :=
  rank (scored (resolve_weights configured) <$> (map_to_list (tally reel_to_user s)).*2).

(** ** The reference: post by post *)

Definition plus (a b : counts) : counts :=
  Counts (likes a + likes b) (comments a + comments b) (shares a + shares b) (gifts a + gifts b).

(** A participant's posts, and what they gathered by [reel_engagement]. *)
Definition posts_of (u : Z) (reel_to_user : gmap Z Z) : list Z :=
  (List.filter (λ ru : Z * Z, ru.2 =? u) (map_to_list reel_to_user)).*1.

Definition gathered (u : Z) (reel_to_user : gmap Z Z) (s : store) : counts :=
  foldr (λ r c, plus (reel_engagement r s) c) no_counts (posts_of u reel_to_user).

(** ** Folds over a map of rows *)

Definition sum_if {A} (p : A → bool) (f : A → Z) (l : list A) : Z := sumZ (λ x, if p x then f x else 0) l.

Lemma foldl_alter {A} (g : A → row → row) (k : A → option Z) (l : list A) (t : gmap Z row) u :
  foldl (λ t x, match k x with Some o => alter (g x) o t | None => t end) t l !! u
  = (λ r, foldl (λ r x, if bool_decide (k x = Some u) then g x r else r) r l) <$> t !! u.
Proof.
  revert t. induction l as [|x l IH]; intros t; cbn; [by destruct (t !! u)|]. rewrite IH. clear IH.
  destruct (k x) as [o|]; [|by rewrite bool_decide_false].
  destruct (decide (o = u)) as [->|Hne].
  - rewrite lookup_alter_eq, bool_decide_true by done. by destruct (t !! u).
  - rewrite lookup_alter_ne by done. by rewrite bool_decide_false by congruence.
Qed.

Lemma bump_bump f m n r : bump f m (bump f n r) = bump f (n + m) r.
Proof. destruct r as [u [] p], f; unfold bump; cbn; do 2 f_equal; lia. Qed.

Lemma bump_zero f r : bump f 0 r = r.
Proof. destruct r as [u [] p], f; unfold bump; cbn; by rewrite Z.add_0_r. Qed.

Lemma foldl_bump {A} f (p : A → bool) (n : A → Z) l r :
  foldl (λ r x, if p x then bump f (n x) r else r) r l = bump f (sum_if p n l) r.
Proof.
  revert r. induction l as [|x l IH]; intros r; cbn; [by rewrite bump_zero|]. rewrite IH. unfold sum_if. rewrite sumZ_cons.
  destruct (p x); [by rewrite bump_bump|]. by rewrite Z.add_0_l.
Qed.

Lemma add_lookup reel_to_user f rows t u :
  add reel_to_user f rows t !! u
  = bump f (sum_if (λ rn : Z * Z, bool_decide (reel_to_user !! rn.1 = Some u)) snd rows) <$> t !! u.
Proof.
  unfold add. rewrite (foldl_alter (λ rn : Z * Z, bump f rn.2) (λ rn : Z * Z, reel_to_user !! rn.1)).
  destruct (t !! u) as [r|]; cbn; [|done]. by rewrite (foldl_bump f (λ rn : Z * Z, bool_decide (reel_to_user !! rn.1 = Some u)) snd).
Qed.

Lemma count_posts_lookup reel_to_user t u :
  count_posts reel_to_user t !! u
  = set_posts (λ n, n + Z.of_nat (length (posts_of u reel_to_user))) <$> t !! u.
Proof.
  unfold count_posts, posts_of. rewrite length_fmap. revert t. induction (map_to_list reel_to_user) as [|[r o] l IH]; intros t; cbn.
  - destruct (t !! u) as [[]|]; cbn; [|done]. unfold set_posts. cbn. by rewrite Z.add_0_r.
  - rewrite IH. cbn. destruct (Z.eqb_spec o u) as [->|Hne].
    + rewrite lookup_alter_eq. destruct (t !! u) as [[]|]; cbn [fmap option_fmap option_map length]; [|done].
      unfold set_posts. cbn [r_user r_counts r_posts]. do 2 f_equal. lia.
    + by rewrite lookup_alter_ne.
Qed.

(** ** The sums the database answers *)

Lemma sum_grouped (p : Z → bool) reels n :
  sum_if (λ rn : Z * Z, p rn.1) snd (grouped reels n) = sum_if p n reels.
Proof.
  unfold sum_if, grouped. induction reels as [|r reels IH]; cbn; [done|]. rewrite sumZ_cons, <- IH.
  destruct (Z.eqb_spec (n r) 0) as [E|E]; cbn; [by rewrite E; destruct (p r)|by rewrite sumZ_cons].
Qed.

Lemma sum_owner (reel_to_user : gmap Z Z) u n :
  sum_if (λ r, bool_decide (reel_to_user !! r = Some u)) n (map_to_list reel_to_user).*1 = sumZ n (posts_of u reel_to_user).
Proof.
  unfold posts_of, sum_if.
  assert (∀ l, (∀ r o, (r, o) ∈ l → reel_to_user !! r = Some o) →
    sumZ (λ r, if bool_decide (reel_to_user !! r = Some u) then n r else 0) l.*1
    = sumZ n (List.filter (λ ru : Z * Z, ru.2 =? u) l).*1) as H.
  { induction l as [|[r o] l IH]; intros Hl; [done|]. cbn. rewrite sumZ_cons, IH by (intros; apply Hl; by right).
    rewrite (Hl r o) by left. destruct (Z.eqb_spec o u) as [->|Hne]; cbn.
    - by rewrite bool_decide_true, sumZ_cons.
    - by rewrite bool_decide_false by congruence. }
  apply H. by intros r o Hin%elem_of_map_to_list.
Qed.

(** The sum over the posts that exist, and the one over the posts asked for,
    meet in the map. *)
Lemma sum_at (m : gmap Z Z) (g : Z → Z) r0 :
  sumZ (λ rn : Z * Z, if rn.1 =? r0 then g rn.2 else 0) (map_to_list m) = match m !! r0 with Some n => g n | None => 0 end.
Proof.
  induction m as [|r n m Hr IH] using map_ind; [by rewrite map_to_list_empty|].
  rewrite (sumZ_perm _ _ _ (map_to_list_insert m r n Hr)), sumZ_cons, IH. cbn. destruct (Z.eqb_spec r r0) as [->|Hne].
  - rewrite Hr, lookup_insert_eq. lia.
  - by rewrite lookup_insert_ne.
Qed.

Lemma sumZ_plus {A} (f g : A → Z) l : sumZ (λ x, f x + g x) l = sumZ f l + sumZ g l.
Proof. induction l as [|x l IH]; [done|]. rewrite !sumZ_cons, IH. lia. Qed.

Lemma sumZ_ext {A} (f g : A → Z) l : (∀ x, x ∈ l → f x = g x) → sumZ f l = sumZ g l.
Proof. induction l as [|x l IH]; intros H; [done|]. rewrite !sumZ_cons, (H x), IH; [done| |by left]. intros; apply H; by right. Qed.

Lemma posts_of_perm u (m m' : list (Z * Z)) : m ≡ₚ m' →
  (List.filter (λ ru : Z * Z, ru.2 =? u) m).*1 ≡ₚ (List.filter (λ ru : Z * Z, ru.2 =? u) m').*1.
Proof.
  intros H. apply fmap_Permutation. induction H as [|x l l' _ IH|x y l|l1 l2 l3 _ IH1 _ IH2]; cbn; [done|..].
  - by destruct (x.2 =? u); [apply perm_skip|].
  - destruct (y.2 =? u), (x.2 =? u); try done. apply Permutation_swap.
  - by rewrite IH1.
Qed.

Lemma sum_shares (reel_to_user m : gmap Z Z) u :
  sumZ (λ rn : Z * Z, if bool_decide (reel_to_user !! rn.1 = Some u) then Z.max 0 rn.2 else 0) (map_to_list m)
  = sumZ (λ r, Z.max 0 (default 0 (m !! r))) (posts_of u reel_to_user).
Proof.
  unfold posts_of. induction reel_to_user as [|r o reel_to_user Hr IH] using map_ind.
  - rewrite map_to_list_empty. apply sumZ_zero. intros x _. by rewrite bool_decide_false by (by rewrite lookup_empty).
  - rewrite (sumZ_perm _ _ _ (posts_of_perm u _ _ (map_to_list_insert reel_to_user r o Hr))). cbn.
    transitivity (sumZ (λ rn : Z * Z, (if rn.1 =? r then (if o =? u then Z.max 0 rn.2 else 0) else 0)
      + (if bool_decide (reel_to_user !! rn.1 = Some u) then Z.max 0 rn.2 else 0)) (map_to_list m)).
    + apply sumZ_ext. intros [r' n] _. cbn. destruct (Z.eqb_spec r' r) as [->|Hne].
      * rewrite lookup_insert_eq, Hr. rewrite (bool_decide_false (None = Some u)) by done.
        destruct (Z.eqb_spec o u) as [->|Hou]; [by rewrite bool_decide_true, Z.add_0_r|by rewrite bool_decide_false by congruence].
      * by rewrite lookup_insert_ne by done.
    + rewrite sumZ_plus, IH, (sum_at m (λ n, if o =? u then Z.max 0 n else 0)). destruct (o =? u); cbn.
      * rewrite sumZ_cons. destruct (m !! r); cbn; lia.
      * by destruct (m !! r).
Qed.

Lemma sum_share_rows (reel_to_user m : gmap Z Z) u :
  sum_if (λ rn : Z * Z, bool_decide (reel_to_user !! rn.1 = Some u)) snd
    ((λ rn : Z * Z, (rn.1, Z.max 0 rn.2)) <$> List.filter (λ rn : Z * Z, bool_decide (rn.1 ∈ (map_to_list reel_to_user).*1)) (map_to_list m))
  = sumZ (λ r, Z.max 0 (default 0 (m !! r))) (posts_of u reel_to_user).
Proof.
  rewrite <- sum_shares. unfold sum_if. induction (map_to_list m) as [|[r n] l IH]; cbn; [done|]. rewrite sumZ_cons, <- IH. cbn.
  destruct (decide (r ∈ (map_to_list reel_to_user).*1)) as [Hin|Hno].
  - rewrite bool_decide_true by done. by rewrite fmap_cons, sumZ_cons.
  - rewrite bool_decide_false by done. rewrite bool_decide_false; [lia|]. intros E. apply Hno.
    apply list_elem_of_fmap. exists (r, u). split; [done|]. by apply elem_of_map_to_list.
Qed.

Lemma start_lookup reel_to_user u :
  start_totals reel_to_user !! u = if bool_decide (posts_of u reel_to_user = []) then None else Some (Row u no_counts 0).
Proof.
  assert (u ∈ (list_to_set (map_to_list reel_to_user).*2 : gset Z) ↔ posts_of u reel_to_user ≠ []) as Hu.
  { rewrite elem_of_list_to_set. unfold posts_of. induction (map_to_list reel_to_user) as [|[r o] l IH]; cbn.
    - by rewrite elem_of_nil.
    - rewrite elem_of_cons, IH. destruct (Z.eqb_spec o u); naive_solver. }
  unfold start_totals. case_bool_decide as E.
  - apply eq_None_not_Some. intros [r Hr]. apply lookup_set_to_map in Hr as (v & Hv & [= -> _]); [by apply Hu|].
    intros x y _ _ [=]. done.
  - apply lookup_set_to_map; [intros x y _ _ [=]; done|]. exists u. split; [by apply Hu|done].
Qed.

Lemma gathered_sums u reel_to_user s :
  gathered u reel_to_user s
  = Counts (sumZ (λ r, votes_of r s) (posts_of u reel_to_user)) (sumZ (λ r, comments_of r s) (posts_of u reel_to_user))
      (sumZ (λ r, shares_of r s) (posts_of u reel_to_user)) (sumZ (λ r, gifts_of r s) (posts_of u reel_to_user)).
Proof.
  unfold gathered. induction (posts_of u reel_to_user) as [|r l IH]; [done|]. cbn [foldr]. rewrite IH, !sumZ_cons. done.
Qed.

(** The four passes together. *)
Lemma tally_lookup reel_to_user s u :
  tally reel_to_user s !! u
  = if bool_decide (posts_of u reel_to_user = []) then None
    else Some (Row u (gathered u reel_to_user s) (Z.of_nat (length (posts_of u reel_to_user)))).
Proof.
  unfold tally. cbv zeta. rewrite !add_lookup, count_posts_lookup, start_lookup.
  destruct (bool_decide (posts_of u reel_to_user = [])); [done|]. cbn [fmap option_fmap option_map]. f_equal.
  assert (∀ reels n, sum_if (λ rn : Z * Z, bool_decide (reel_to_user !! rn.1 = Some u)) snd (grouped reels n)
                     = sum_if (λ r, bool_decide (reel_to_user !! r = Some u)) n reels) as Hg
    by (intros reels n; exact (sum_grouped (λ r, bool_decide (reel_to_user !! r = Some u)) reels n)).
  by rewrite !Hg, !sum_owner, sum_share_rows, gathered_sums.
Qed.

(** ** The order of the board *)

Definition numeric (x : row * Binary64.float) : Prop := Binary64.is_nan x.2 = false.

(** What the comparison of the keys comes to. *)
Definition beats (x y : row * Binary64.float) : Prop :=
  Binary64.code_lt (Binary64.code y.2) (Binary64.code x.2)
  ∨ Binary64.code x.2 = Binary64.code y.2
    ∧ (actions (r_counts y.1) < actions (r_counts x.1)
       ∨ actions (r_counts y.1) = actions (r_counts x.1) ∧ r_user x.1 <= r_user y.1).

Lemma before_beats x y : numeric x → numeric y → before x y = true ↔ beats x y.
Proof.
  unfold numeric, before, beats, Binary64.feqb, Binary64.fltb. intros Hx Hy.
  assert (∀ a b, Binary64.code_lt a b → ¬ Binary64.code_lt b a ∧ a ≠ b) as Hirr.
  { unfold Binary64.code_lt. intros a b H. split; [lia|]. intros ->. lia. }
  destruct (Binary64.fcmp_code _ _ Hx Hy) as [[-> E]|[[-> E]|[-> E]]].
  - rewrite E. assert (¬ Binary64.code_lt (Binary64.code y.2) (Binary64.code y.2)) as Hno
      by (intros H; by destruct (Hirr _ _ H)).
    destruct (Z.eqb_spec (actions (r_counts x.1)) (actions (r_counts y.1))); split; intros H; lia || naive_solver lia.
  - destruct (Hirr _ _ E) as [? ?]. destruct (Binary64.fcmp_code _ _ Hy Hx) as [[-> E']|[[-> E']|[-> E']]]; naive_solver.
  - destruct (Hirr _ _ E) as [? ?]. destruct (Binary64.fcmp_code _ _ Hy Hx) as [[-> E']|[[-> E']|[-> E']]]; naive_solver.
Qed.

#[local] Instance beats_dec x y : Decision (beats x y).
Proof. unfold beats, Binary64.code_lt. apply _. Defined.

Definition beatsb (x y : row * Binary64.float) : bool := bool_decide (beats x y).

Lemma beatsb_total x y : beatsb x y = true ∨ beatsb y x = true.
Proof.
  unfold beatsb. rewrite !bool_decide_eq_true. unfold beats, Binary64.code_lt.
  destruct (Binary64.code x.2) as [[a1 a2] a3], (Binary64.code y.2) as [[b1 b2] b3]. cbn.
  destruct (decide (a1 = b1 ∧ a2 = b2 ∧ a3 = b3)) as [(-> & -> & ->)|].
  { assert ((actions (r_counts y.1) < actions (r_counts x.1) ∨ actions (r_counts y.1) = actions (r_counts x.1) ∧ r_user x.1 <= r_user y.1)
            ∨ (actions (r_counts x.1) < actions (r_counts y.1) ∨ actions (r_counts x.1) = actions (r_counts y.1) ∧ r_user y.1 <= r_user x.1)) as [H|H] by lia.
    - left. by right.
    - right. by right. }
  assert (b1 < a1 ∨ b1 = a1 ∧ (b2 < a2 ∨ b2 = a2 ∧ b3 < a3) ∨ a1 < b1 ∨ a1 = b1 ∧ (a2 < b2 ∨ a2 = b2 ∧ a3 < b3)) by lia.
  tauto.
Qed.

Lemma beatsb_trans x y z : beatsb x y = true → beatsb y z = true → beatsb x z = true.
Proof.
  unfold beatsb. rewrite !bool_decide_eq_true. unfold beats, Binary64.code_lt.
  destruct (Binary64.code x.2) as [[a1 a2] a3], (Binary64.code y.2) as [[b1 b2] b3], (Binary64.code z.2) as [[c1 c2] c3]. cbn.
  intros [H|[E H]] [K|[E' K]]; try injection E as [= -> -> ->]; try injection E' as [= -> -> ->];
    [left; lia|left; lia|left; lia|right; split; [done|lia]].
Qed.

Lemma rank_order rows : Forall numeric rows → sort_by before rows = sort_by beatsb rows.
Proof.
  rewrite Forall_forall. intros H. apply sort_ext. intros x y Hx Hy. apply eq_true_iff_eq. unfold beatsb.
  rewrite bool_decide_eq_true. by apply before_beats; apply H.
Qed.

Lemma scored_numeric w rows : Forall numeric (scored w <$> rows).
Proof. apply Forall_fmap, Forall_true. intros r. apply Binary64.of_dec_number. Qed.

Lemma rank_lookup rows i e :
  rank rows !! i = Some e ↔ ∃ x, sort_by before rows !! i = Some x ∧ e = Entry x.1 x.2 (Z.of_nat i + 1).
Proof. unfold rank. rewrite list_lookup_imap. destruct (sort_by before rows !! i); cbn; naive_solver. Qed.

Lemma elem_of_tally reel_to_user s r :
  r ∈ (map_to_list (tally reel_to_user s)).*2 ↔
  posts_of (r_user r) reel_to_user ≠ []
  ∧ r = Row (r_user r) (gathered (r_user r) reel_to_user s) (Z.of_nat (length (posts_of (r_user r) reel_to_user))).
Proof.
  rewrite list_elem_of_fmap. split.
  - intros ([u r'] & -> & H%elem_of_map_to_list). cbn. rewrite tally_lookup in H. case_bool_decide; [done|]. by injection H as [= <-].
  - intros [H E]. exists (r_user r, r). split; [done|]. apply elem_of_map_to_list. rewrite tally_lookup.
    rewrite bool_decide_false by done. by rewrite E at 4.
Qed.

Lemma tally_users reel_to_user s : NoDup (r_user <$> (map_to_list (tally reel_to_user s)).*2).
Proof.
  assert (r_user <$> (map_to_list (tally reel_to_user s)).*2 = (map_to_list (tally reel_to_user s)).*1) as ->; [|apply NoDup_fst_map_to_list].
  rewrite <- list_fmap_compose. apply list_fmap_ext. intros i [u r] H%list_elem_of_lookup_2%elem_of_map_to_list. cbn.
  rewrite tally_lookup in H. case_bool_decide; [done|]. by injection H as [= <-].
Qed.

Lemma rank_rows rows : e_row <$> rank rows = (sort_by before rows).*1.
Proof. unfold rank. rewrite fmap_imap. change (λ (i : nat) (x : row * Binary64.float), _) with (λ (_ : nat) (x : row * Binary64.float), x.1). apply imap_const. Qed.

(** ** Properties *)

(** C24.  The board agrees with counting post by post.  Whatever the posts of
    the campaign, the row at each place is that of an author: its counts are
    the sums of [reel_engagement] over that author's posts, its score the
    formula on them, its rank the place; and every author has one row. *)
Theorem board_counts_every_post reel_to_user configured s :
  let board := campaign_participant_totals reel_to_user configured s in
  (∀ i e, board !! i = Some e →
     let u := r_user (e_row e) in
     posts_of u reel_to_user ≠ [] ∧ r_counts (e_row e) = gathered u reel_to_user s
     ∧ r_posts (e_row e) = Z.of_nat (length (posts_of u reel_to_user))
     ∧ e_score e = Binary64.of_dec (compute_score (gathered u reel_to_user s) (resolve_weights configured))
     ∧ e_rank e = Z.of_nat i + 1)
  ∧ (∀ u, posts_of u reel_to_user ≠ [] → ∃ e, e ∈ board ∧ r_user (e_row e) = u)
  ∧ NoDup ((λ e, r_user (e_row e)) <$> board).
Proof.
  intros board. split_and!.
  - intros i e (x & Hx & ->)%rank_lookup. apply list_elem_of_lookup_2, elem_of_sort, list_elem_of_fmap in Hx as (r & -> & Hr).
    apply elem_of_tally in Hr as [Hp Hr]. cbn. rewrite Hr. cbn. by split_and!.
  - intros u Hu. set (r := Row u (gathered u reel_to_user s) (Z.of_nat (length (posts_of u reel_to_user)))).
    assert (scored (resolve_weights configured) r ∈ scored (resolve_weights configured) <$> (map_to_list (tally reel_to_user s)).*2) as Hin
      by (apply list_elem_of_fmap_2, elem_of_tally; done).
    rewrite <- (elem_of_sort before), list_elem_of_lookup in Hin. destruct Hin as [i Hi].
    exists (Entry r (scored (resolve_weights configured) r).2 (Z.of_nat i + 1)). split; [|done].
    apply (list_elem_of_lookup_2 _ i), rank_lookup. by eexists.
  - subst board. unfold campaign_participant_totals. change (λ e : entry, r_user (e_row e)) with (r_user ∘ e_row).
    rewrite list_fmap_compose, rank_rows, (sort_perm before), <- !list_fmap_compose.
    pose proof (tally_users reel_to_user s) as H. by rewrite <- list_fmap_compose in H.
Qed.

(** A rank does not depend on the order the rows come in.  For
    participants that are all different, any two orders of the same rows give
    the same board; whoever stands before another has a higher score, or the
    same with more actions, or the same with a lower number. *)
Theorem rank_is_canonical w rows rows' :
  NoDup (r_user <$> rows) → rows ≡ₚ rows' →
  rank (scored w <$> rows) = rank (scored w <$> rows')
  ∧ ∀ i j e f, (i < j)%nat → rank (scored w <$> rows) !! i = Some e → rank (scored w <$> rows) !! j = Some f →
      beats (e_row e, e_score e) (e_row f, e_score f).
Proof.
  intros Hd Hp. split.
  - unfold rank. f_equal. rewrite !rank_order by apply scored_numeric.
    apply (sort_unique beatsb beatsb_total beatsb_trans); [|by rewrite Hp].
    intros x y (a & -> & Ha)%list_elem_of_fmap (b & -> & Hb)%list_elem_of_fmap. unfold beatsb. rewrite !bool_decide_eq_true.
    unfold beats, Binary64.code_lt. cbn. intros H1 H2. assert (r_user a = r_user b) as Hab.
    { destruct H1 as [H1|[E1 H1]], H2 as [H2|[E2 H2]]; try rewrite E1 in *; try rewrite E2 in *; lia. }
    apply list_elem_of_lookup in Ha as [i Hi], Hb as [j Hj].
    assert (i = j) as <-; [|congruence]. apply (NoDup_lookup _ _ _ (r_user a) Hd); rewrite list_lookup_fmap; [by rewrite Hi|by rewrite Hj, Hab].
  - intros i j e f Hij (x & Hx & ->)%rank_lookup (y & Hy & ->)%rank_lookup. cbn. rewrite <- !surjective_pairing.
    rewrite rank_order in Hx, Hy by apply scored_numeric. apply (bool_decide_eq_true_1 (beats x y)).
    apply (sort_best beatsb beatsb_total beatsb_trans (S i) (scored w <$> rows)).
    + apply (list_elem_of_lookup_2 _ i). rewrite lookup_take_lt by lia. done.
    + apply (list_elem_of_lookup_2 _ (j - S i)). rewrite lookup_drop. replace (S i + (j - S i))%nat with j by lia. done.
Qed.

(** ** A concrete board

    Posts 10 and 11 are user 1's, 20 is user 2's, 30 user 3's. *)

Definition a_campaign : gmap Z Z := <[10 := 1]> (<[11 := 1]> (<[20 := 2]> (<[30 := 3]> ∅))).

Definition some_engagement : store :=
  Store [Vote 10 7; Vote 10 8; Vote 20 7; Vote 99 7]
    [Comment 11 false; Comment 11 true; Comment 20 false; Comment 20 false]
    [Gift (Some 30) 7; Gift (Some 30) 7; Gift None 8] (<[10 := 1]> (<[20 := 1]> (<[30 := -4]> ∅))).

Example board_of_three :
  (λ e, (e_rank e, r_user (e_row e), Binary64.trunc (e_score e), r_posts (e_row e))) <$>
    campaign_participant_totals a_campaign None some_engagement
  = [(1, 3, 20, 1); (2, 2, 10, 1); (3, 1, 9, 2)].
Proof. vm_compute. reflexivity. Qed.

Definition three_rows : list row := [Row 5 (Counts 2 0 0 0) 1; Row 4 (Counts 0 1 0 0) 1; Row 3 (Counts 2 0 0 0) 1].

Lemma rank_is_canonical_witness :
  (λ e, r_user (e_row e)) <$> rank (scored DEFAULT_WEIGHTS <$> three_rows) = [3; 5; 4] ∧
  (rank (scored DEFAULT_WEIGHTS <$> three_rows) = rank (scored DEFAULT_WEIGHTS <$> reverse three_rows)
   ∧ ∀ i j e f, (i < j)%nat → rank (scored DEFAULT_WEIGHTS <$> three_rows) !! i = Some e →
       rank (scored DEFAULT_WEIGHTS <$> three_rows) !! j = Some f → beats (e_row e, e_score e) (e_row f, e_score f)).
Proof.
  split; [vm_compute; reflexivity|]. apply (rank_is_canonical DEFAULT_WEIGHTS three_rows (reverse three_rows)).
  - vm_compute. repeat constructor; set_solver.
  - symmetry. apply reverse_Permutation.
Defined.

End Leaderboard.
