(* ===== verification/Scoring.v ===== *)
(** * Scoring: what the campaign engine computes

    Models the calculators of [src/api/services/scoring/engine.py] over the
    rows of [Leaderboard], in [Binary64] as the code computes them, and the
    weights [get_config_for_type] hands them ([src/api/models/campaign_extended.py],
    columns of two places, in hundredths). *)

From Stdlib Require Import ZArith Lia.
From stdpp Require Import gmap sorting.
From S2P Require Import Prelude Calendar Binary64 StableSort Leaderboard.

Module Scoring.
Import Binary64 StableSort.

(** ** Configuration and rows *)

Record engagement := Engagement { g_likes : Z; g_comments : Z; g_shares : Z; g_gifts : Z }.

Record daily_config := DailyConfig {
  dc_engagement : engagement; dc_spin_reward : Z; dc_coin_gift : Z; dc_login_bonus : Z; dc_daily_post_points : Z
}.
Record weekly_config := WeeklyConfig {
  wc_engagement : engagement; wc_spin_reward : Z; wc_coin_gift : Z; wc_consistency_boost : Z;
  wc_streak_3 : Z; wc_streak_5 : Z; wc_streak_7 : Z; wc_decay_per_missed_day : Z; wc_decay_max_days : Z
}.
Record monthly_config := MonthlyConfig {
  mc_engagement : engagement; mc_spin_reward : Z; mc_coin_gift : Z; mc_consistency_multiplier : Z;
  mc_weekly_winner_bonus : Z; mc_streak_7 : Z; mc_streak_14 : Z; mc_streak_21 : Z;
  mc_high_threshold : Z; mc_high_bonus : Z
}.
Record grand_config := GrandConfig {
  gc_engagement : engagement; gc_judging_weight : Z; gc_voting_weight : Z;
  gc_creativity_max : Z; gc_quality_max : Z; gc_theme_max : Z; gc_impact_max : Z
}.

Definition platform_formula : engagement := Engagement 100 200 500 1000.
Definition default_daily : daily_config := DailyConfig platform_formula 500 200 300 1000.
Definition default_weekly : weekly_config := WeeklyConfig platform_formula 300 150 500 1000 2500 5000 500 3.
Definition default_monthly : monthly_config := MonthlyConfig platform_formula 200 100 150 2000 120 150 200 100 1500.
Definition default_grand : grand_config := GrandConfig platform_formula 70 30 3000 2500 2000 2500.

(** A [PostScore]. *)
Record post_score := PostScore { ps_reel : Z; ps_user : Z; ps_campaign : Z; ps_status : string; ps_created : Z }.

(** The approved posts of a user in a campaign between two instants, both
    included. *)
Definition user_posts (user campaign from to : Z) (l : list post_score) : list post_score :=
  List.filter (λ p, (ps_user p =? user) && (ps_campaign p =? campaign) && String.eqb (ps_status p) "approved"
                    && (from <=? ps_created p) && (ps_created p <=? to)) l.

(** ** Counting *)

(** [values('sender').distinct().count()]. *)
Definition gifters_of (reel : Z) (s : Leaderboard.store) : Z :=
  Z.of_nat (size (list_to_set (Leaderboard.gt_sender <$>
    List.filter (λ g, bool_decide (Leaderboard.gt_reel g = Some reel)) (Leaderboard.s_gifts s)) : gset Z)).

Definition post_counts (s : Leaderboard.store) (p : post_score) : Leaderboard.counts :=
  Leaderboard.Counts (Leaderboard.votes_of (ps_reel p) s) (Leaderboard.comments_of (ps_reel p) s)
    (Leaderboard.shares_of (ps_reel p) s) (gifters_of (ps_reel p) s).

Definition total_counts (s : Leaderboard.store) (l : list post_score) : Leaderboard.counts :=
  foldl (λ c p, Leaderboard.plus c (post_counts s p)) Leaderboard.no_counts l.

(** [n * weight], an integer by a float. *)
Definition times (n cents : Z) : float := fmul (of_int n) (of_cents cents).

Definition engagement_score (e : engagement) (c : Leaderboard.counts) : float :=
  fadd (fadd (fadd (times (Leaderboard.likes c) (g_likes e)) (times (Leaderboard.comments c) (g_comments e)))
          (times (Leaderboard.shares c) (g_shares e)))
    (times (Leaderboard.gifts c) (g_gifts e)).

(** [_get_daily_gamification]: nothing is tracked yet. *)
Record gamification := Gamification { gm_spin_rewards : Z; gm_coin_gifts : Z; gm_login_bonus : Z; gm_posted_today : bool }.
Definition _get_daily_gamification (user date : Z) : gamification := Gamification 0 0 0 false.

(** Local midnight of a date. *)
Definition local_midnight (date : Z) : Z := date * day - 3 * hour.

(** ** Daily *)

Definition calculate_daily_score (c : daily_config) (user campaign date : Z) (posts : list post_score)
    (s : Leaderboard.store) : float :=
  let mine := user_posts user campaign (local_midnight date) (local_midnight date + day) posts in
  let g := _get_daily_gamification user date in
  let gamification_score := fadd (fadd (times (gm_spin_rewards g) (dc_spin_reward c)) (times (gm_coin_gifts g) (dc_coin_gift c)))
                              (times (gm_login_bonus g) (dc_login_bonus c)) in
  let score := fadd (fadd (of_int 0) (engagement_score (dc_engagement c) (total_counts s mine))) gamification_score in
  match mine with [] => score | _ => fadd score (of_cents (dc_daily_post_points c)) end.

(** ** Weekly *)

Definition days_participated (user week_start : Z) : Z :=
  Z.of_nat (length (List.filter (λ d, gm_posted_today (_get_daily_gamification user d)) (seqZ week_start 7))).

Definition weekly_gamification (c : weekly_config) (user week_start : Z) : float :=
  fadd (foldl (λ acc d,
          let g := _get_daily_gamification user d in
          fadd acc (fadd (times (gm_spin_rewards g) (wc_spin_reward c)) (times (gm_coin_gifts g) (wc_coin_gift c))))
          (of_int 0) (seqZ week_start 7))
    (times (days_participated user week_start) (wc_consistency_boost c)).

Definition streak_bonus (c : weekly_config) (days : Z) : float :=
  if 7 <=? days then of_cents (wc_streak_7 c)
  else if 5 <=? days then of_cents (wc_streak_5 c)
  else if 3 <=? days then of_cents (wc_streak_3 c)
  else of_int 0.

Definition decay_penalty (c : weekly_config) (days : Z) : float :=
  times (Z.min (7 - days) (wc_decay_max_days c)) (wc_decay_per_missed_day c).

Definition calculate_weekly_score (c : weekly_config) (user campaign week_start : Z) (posts : list post_score)
    (s : Leaderboard.store) : float :=
  let mine := user_posts user campaign (local_midnight week_start) (local_midnight (week_start + 7)) posts in
  let days := days_participated user week_start in
  let score := fadd (of_int 0) (engagement_score (wc_engagement c) (total_counts s mine)) in
  let score := fadd score (weekly_gamification c user week_start) in
  let score := fadd score (streak_bonus c days) in
  fmax (of_int 0) (fsub score (decay_penalty c days)).

(** ** Monthly *)

(** [_calculate_longest_streak]: the loop over sorted dates. *)
Fixpoint streak_loop (prev current longest : Z) (l : list Z) : Z :=
  match l with
  | [] => longest
  | d :: l' => if d - prev =? 1 then streak_loop d (current + 1) (Z.max longest (current + 1)) l'
               else streak_loop d 1 longest l'
  end.

Definition longest_run (dates : list Z) : Z :=
  match dates with [] => 0 | d :: l => streak_loop d 1 1 l end.

(** [sorted(set(...))]. *)
Definition sorted_set (l : list Z) : list Z := sort_by Z.leb (remove_dups l).

Definition _calculate_longest_streak (user campaign first last : Z) (posts : list post_score) : Z :=
  longest_run (sorted_set (List.filter (λ d, (first <=? d) && (d <=? last))
    ((λ p, local_date (ps_created p)) <$>
       List.filter (λ p, (ps_user p =? user) && (ps_campaign p =? campaign) && String.eqb (ps_status p) "approved") posts))).

Definition streak_multiplier (c : monthly_config) (longest : Z) : float :=
  if 21 <=? longest then of_cents (mc_streak_21 c)
  else if 14 <=? longest then of_cents (mc_streak_14 c)
  else if 7 <=? longest then of_cents (mc_streak_7 c)
  else of_int 1.

(** First and last day of the month of a date. *)
Definition month_days (date : Z) : Z * Z :=
  let k := Calendar.index_of date in (Calendar.start_of k, Calendar.start_of (k + 1) - 1).

(** [weekly_wins] counts the user's wins of weekly campaigns in the month. *)
Definition calculate_monthly_score (c : monthly_config) (user campaign date weekly_wins : Z) (posts : list post_score)
    (s : Leaderboard.store) : float :=
  let '(first, last) := month_days date in
  let mine := user_posts user campaign (local_midnight first) (local_midnight last + day - 1) posts in
  let high := Z.of_nat (length (List.filter (λ p, mc_high_threshold c <=? Leaderboard.votes_of (ps_reel p) s) mine)) in
  let active_days := remove_dups ((λ p, utc_date (ps_created p)) <$> mine) in
  let score := fadd (of_int 0) (engagement_score (mc_engagement c) (total_counts s mine)) in
  let score := fadd score (times high (mc_high_bonus c)) in
  let gamification_score := foldl (λ acc d,
      let g := _get_daily_gamification user d in
      fadd acc (fadd (times (gm_spin_rewards g) (mc_spin_reward c)) (times (gm_coin_gifts g) (mc_coin_gift c))))
      (of_int 0) active_days in
  let gamification_score := if 7 <=? Z.of_nat (length active_days)
                            then fmul gamification_score (of_cents (mc_consistency_multiplier c)) else gamification_score in
  let score := fadd score gamification_score in
  let score := fmul score (streak_multiplier c (_calculate_longest_streak user campaign first last posts)) in
  fadd score (times weekly_wins (mc_weekly_winner_bonus c)).

(** ** Grand *)

(** The period is that of the campaign where it has both dates. *)
Definition calculate_grand_qualification_score (c : grand_config) (user campaign : Z) (start voting : option Z) (now : Z)
    (posts : list post_score) (s : Leaderboard.store) : float :=
  let '(from, to) := match start, voting with
                     | Some a, Some b => (a, b)
                     | _, _ => (match start with Some a => a | None => now - 30 * day end, now)
                     end in
  engagement_score (gc_engagement c) (total_counts s (user_posts user campaign from to posts)).

(** The four marks are floats. *)
Definition calculate_grand_final_score (c : grand_config) (creativity quality theme impact : float) (vote_count : Z) : float :=
  let max_judge_score := fadd (fadd (fadd (of_cents (gc_creativity_max c)) (of_cents (gc_quality_max c))) (of_cents (gc_theme_max c)))
                           (of_cents (gc_impact_max c)) in
  let total_judge_score := fadd (fadd (fadd (fadd (of_int 0) creativity) quality) theme) impact in
  let judge_normalized := if fltb (of_int 0) max_judge_score
                          then fmul (fdiv total_judge_score max_judge_score) (of_int 100) else of_int 0 in
  let vote_normalized := fmin (of_int 100) (fmul (fdiv (of_int vote_count) (of_int 1000)) (of_int 100)) in
  fadd (fmul judge_normalized (of_cents (gc_judging_weight c))) (fmul vote_normalized (of_cents (gc_voting_weight c))).

(** ** The longest streak *)

(** The days a user posted on, as the streak counts them. *)
Definition posted_on (user campaign first last : Z) (posts : list post_score) (d : Z) : Prop :=
  first <= d <= last /\ exists p, p ∈ posts /\ ps_user p = user /\ ps_campaign p = campaign
    /\ ps_status p = "approved"%string /\ local_date (ps_created p) = d.

Lemma streak_loop_spec l : forall prev current longest,
  StronglySorted Z.lt (prev :: l) -> 1 <= current <= longest ->
  let r := streak_loop prev current longest l in
  let inside m := m ∈ l \/ prev - current < m <= prev in
  longest <= r
  /\ (r = longest \/ exists d, forall m, d <= m < d + r -> inside m)
  /\ (forall d n, (forall m, d <= m < d + n -> inside m) -> n <= r).
Proof.
  induction l as [|d l IH]; intros prev current longest Hs Hc; cbn.
  { split_and!; [lia | by left |]. intros d n Hrun.
    destruct (decide (n <= longest)); [done|].
    destruct (Hrun d) as [[]%not_elem_of_nil|?]; [lia|].
    destruct (Hrun (d + n - 1)) as [[]%not_elem_of_nil|?]; lia. }
  apply StronglySorted_inv in Hs as [Hs Hprev].
  apply Forall_cons in Hprev as [Hd Hprev].
  destruct (Z.eqb_spec (d - prev) 1) as [Hnext|Hgap].
  - destruct (IH d (current + 1) (Z.max longest (current + 1)) Hs ltac:(lia)) as (Hle & Hex & Hub).
    split_and!; [lia | |].
    + destruct Hex as [->|[e He]].
      * destruct (decide (longest <= current)); [|left; lia].
        right. exists (prev - current + 1). intros m Hm.
        destruct (decide (m = d)) as [->|]; [left; by constructor|]. right. lia.
      * right. exists e. intros m Hm. destruct (He m Hm) as [?|?]; [left; by constructor|].
        destruct (decide (m = d)) as [->|]; [left; by constructor|]. right. lia.
    + intros e n Hrun. apply (Hub e). intros m Hm.
      destruct (Hrun m Hm) as [[->|?]%elem_of_cons|?]; [right; lia | by left | right; lia].
  - destruct (IH d 1 longest Hs ltac:(lia)) as (Hle & Hex & Hub).
    split_and!; [lia | |].
    + destruct Hex as [?|[e He]]; [by left|]. right. exists e. intros m Hm.
      destruct (He m Hm) as [?|?]; left; [by constructor|].
      assert (m = d) as -> by lia. constructor.
    + intros e n Hrun. rewrite Forall_forall in Hprev.
      destruct (decide (e + n <= prev + 1)) as [Hbelow|Habove].
      { destruct (decide (n <= longest)); [lia|]. exfalso.
        assert (Hlow : forall m, e <= m < e + n -> prev - current < m).
        { intros m Hm. destruct (Hrun m Hm) as [[->|Hm']%elem_of_cons|?]; [lia| |lia].
          specialize (Hprev m Hm'). lia. }
        specialize (Hlow e). lia. }
      apply (Hub e). intros m Hm.
      assert (Hgt : prev < e).
      { destruct (decide (prev < e)); [done|].
        destruct (Hrun (prev + 1) ltac:(lia)) as [[?|Hin]%elem_of_cons|?]; [lia| |lia].
        apply StronglySorted_inv in Hs as [_ Hs]. rewrite Forall_forall in Hs.
        specialize (Hs _ Hin). lia. }
      destruct (Hrun m Hm) as [[->|?]%elem_of_cons|?]; [right; lia | by left | lia].
Qed.

Lemma longest_run_spec l : StronglySorted Z.lt l ->
  (exists d, forall m, d <= m < d + longest_run l -> m ∈ l)
  /\ (forall d n, 0 <= n -> (forall m, d <= m < d + n -> m ∈ l) -> n <= longest_run l).
Proof.
  destruct l as [|a l]; intros Hs; cbn [longest_run].
  { split; [exists 0; intros m; lia|]. intros d n Hn Hrun.
    destruct (decide (n = 0)); [lia|]. destruct (not_elem_of_nil d). apply Hrun. lia. }
  assert (Hin : forall m, m ∈ l \/ a - 1 < m <= a <-> m ∈ a :: l).
  { intros m. rewrite elem_of_cons. assert (a - 1 < m <= a <-> m = a) by lia. tauto. }
  destruct (streak_loop_spec l a 1 1 Hs ltac:(lia)) as (Hle & Hex & Hub). split.
  - destruct Hex as [->|[d Hd]].
    + exists a. intros m Hm. apply Hin. right. lia.
    + exists d. intros m Hm. apply Hin, Hd, Hm.
  - intros d n _ Hrun. apply (Hub d). intros m Hm. apply Hin, Hrun, Hm.
Qed.

Lemma sorted_set_strict l : StronglySorted Z.lt (sorted_set l).
Proof.
  assert (Hnd : NoDup (sorted_set l)).
  { unfold sorted_set. rewrite sort_perm. apply NoDup_remove_dups. }
  assert (Hs : StronglySorted Z.leb (sorted_set l)) by (apply sort_sorted; intros; lia).
  clear -Hnd Hs. induction Hs as [|x m Hs IH Hx]; [constructor|].
  apply NoDup_cons in Hnd as [Hni Hnd]. constructor; [auto|].
  rewrite Forall_forall in Hx |- *. intros y Hy. specialize (Hx y Hy). apply Is_true_true, Z.leb_le in Hx.
  assert (x <> y) by (intros ->; done). lia.
Qed.

(** The streak that multiplies a monthly score is the length of the longest
    run of consecutive days of the month on which the user has an approved post
    in the campaign, however many posts each day has and in whatever order they
    are read: such a run exists, and none is longer. *)
Theorem longest_streak_exact user campaign first last posts :
  let streak := _calculate_longest_streak user campaign first last posts in
  let posted := posted_on user campaign first last posts in
  (exists d, forall m, d <= m < d + streak -> posted m)
  /\ (forall d n, 0 <= n -> (forall m, d <= m < d + n -> posted m) -> n <= streak).
Proof.
  cbn zeta. unfold _calculate_longest_streak. set (days := List.filter _ (_ <$> _)).
  assert (Hin : forall m, m ∈ sorted_set days <-> posted_on user campaign first last posts m).
  { intros m. unfold sorted_set, posted_on. rewrite elem_of_sort, elem_of_remove_dups. subst days.
    rewrite list_elem_of_In, List.filter_In, <- list_elem_of_In, list_elem_of_fmap, andb_true_iff, !Z.leb_le.
    setoid_rewrite list_elem_of_In. setoid_rewrite List.filter_In.
    repeat setoid_rewrite andb_true_iff. setoid_rewrite Z.eqb_eq. setoid_rewrite String.eqb_eq.
    naive_solver. }
  destruct (longest_run_spec _ (sorted_set_strict days)) as ([d Hd] & Hub). split.
  - exists d. intros m Hm. by apply Hin, Hd.
  - intros e n Hn Hrun. apply (Hub e n Hn). intros m Hm. by apply Hin, Hrun.
Qed.

(** Nothing a user posts counts as taking part in a week: no streak is ever
    reached and the decay is always the whole of it. *)
Lemma no_participation user week_start : days_participated user week_start = 0.
Proof. unfold days_participated. cbn. induction (seqZ _ _) as [|d l IH]; cbn; [done|exact IH]. Qed.

Lemma weekly_decay_is_full c user campaign week_start posts s :
  let mine := user_posts user campaign (local_midnight week_start) (local_midnight (week_start + 7)) posts in
  exists gamification_score,
    calculate_weekly_score c user campaign week_start posts s
    = fmax (of_int 0) (fsub (fadd (fadd (fadd (of_int 0) (engagement_score (wc_engagement c) (total_counts s mine)))
        gamification_score) (of_int 0)) (times (Z.min 7 (wc_decay_max_days c)) (wc_decay_per_missed_day c))).
Proof.
  cbn zeta. exists (weekly_gamification c user week_start).
  unfold calculate_weekly_score. cbn zeta. by rewrite no_participation.
Qed.

(** ** Small runs *)

Definition week_of_posts : list post_score :=
  (fun k => PostScore (10 + k) 1 7 "approved" (local_midnight (19723 + k) + 9 * hour)) <$> seqZ 0 7.
Definition twenty_votes : Leaderboard.store :=
  Leaderboard.Store (Leaderboard.Vote 10 <$> seqZ 100 20) [] [] ∅.

(** A post on each day of the week, and a streak of seven for the month; the
    weekly score is its twenty votes less fifteen points of decay. *)
Example a_full_week_is_no_streak :
  trunc (calculate_weekly_score default_weekly 1 7 19723 week_of_posts twenty_votes) = 5
  /\ _calculate_longest_streak 1 7 19723 19753 week_of_posts = 7.
Proof. split; vm_compute; reflexivity. Qed.

(** [created_at__range] has both ends: a post of midnight counts on two days. *)
Definition midnight_post : list post_score := [PostScore 10 1 7 "approved" (local_midnight 19724)].

Example midnight_counts_twice :
  (fun d => trunc (calculate_daily_score default_daily 1 7 d midnight_post twenty_votes)) <$> [19722; 19723; 19724; 19725]
  = [0; 30; 30; 0].
Proof. vm_compute. reflexivity. Qed.

(** Three gifts of one sender are one gift to the engine, and three to the
    leaderboard. *)
Definition three_gifts : Leaderboard.store :=
  Leaderboard.Store [] [] (replicate 3 (Leaderboard.Gift (Some 10) 5)) ∅.

Example gifts_counted_apart :
  (gifters_of 10 three_gifts, Leaderboard.gifts_of 10 three_gifts) = (1, 3).
Proof. vm_compute. reflexivity. Qed.

End Scoring.
