(* ===== verification/SyncOrder.v ===== *)
(** * SyncOrder: what a notification of the master aggregator says

    Models [src/api/integrations/timwe/datasync.py], from the XML tree of a
    request to a [SyncOrderRelation] or the reason it is refused, and
    [src/api/services/subscription_tiers.py], from its identifiers to a tier.

    [ET.fromstring] is an argument: a tree, or the parser's message. *)

From Stdlib Require Import ZArith Lia.
From stdpp Require Import gmap strings.
From S2P Require Import Prelude Calendar Subscriptions.

Module SyncOrder.

(** ** Trees *)

Inductive element := Element (tag : string) (text : option string) (children : list element).

Definition tag_of (e : element) : string := let 'Element t _ _ := e in t.
Definition text_of (e : element) : option string := let 'Element _ x _ := e in x.
Definition children_of (e : element) : list element := let 'Element _ _ l := e in l.

(** [element.iter()]: the element and all below it, in document order. *)
Fixpoint iter (e : element) : list element :=
  let 'Element _ _ l := e in e :: flat_map iter l.

(** What follows the last [c], or all of it. *)
Fixpoint after_last (c : ascii) (l acc : list ascii) : list ascii :=
  match l with
  | [] => acc
  | x :: l' => if Ascii.eqb x c then after_last c l' l' else after_last c l' acc
  end.
Definition _localname (e : element) : string := on_chars (λ l, after_last "}" l l) (tag_of e).

Definition _find (parent : element) (name : string) : option element :=
  List.find (λ e, String.eqb (_localname e) name) (iter parent).

Definition _text (parent : element) (name : string) : string :=
  match _find parent name with
  | Some e => match text_of e with Some t => strip t | None => "" end
  | None => ""
  end.

(** ** Integers and instants *)

Definition digit_of (c : ascii) : option Z :=
  let n := Z.of_nat (nat_of_ascii c) in if (48 <=? n) && (n <=? 57) then Some (n - 48) else None.

Fixpoint int_digits (seen : bool) (acc : Z) (l : list ascii) : option Z :=
  match l with
  | [] => if seen then Some acc else None
  | c :: l' => match digit_of c with
               | Some d => int_digits true (acc * 10 + d) l'
               | None => if Ascii.eqb c "_" && seen then int_digits false acc l' else None
               end
  end.

(** [int(text)], of at most 4300 digits. *)
Definition py_int (s : string) : option Z :=
  let digits l := if Nat.leb (length (List.filter (λ c, bool_decide (is_Some (digit_of c))) l)) 4300
                  then int_digits false 0 l else None in
  match String.list_ascii_of_string (strip s) with
  | "-"%char :: l => Z.opp <$> digits l
  | "+"%char :: l => digits l
  | l => digits l
  end.

(** A field of [strptime]; [%d] may have a space for its first digit. *)
Definition field (space : bool) (l : list ascii) : option Z :=
  match l with
  | [a; b] => match digit_of a, digit_of b with
              | Some x, Some y => Some (x * 10 + y)
              | None, Some y => if space && Ascii.eqb a " " && negb (y =? 0) then Some y else None
              | _, _ => None
              end
  | _ => None
  end.

Definition within (a b : Z) (o : option Z) : option Z :=
  match o with Some n => if (a <=? n) && (n <=? b) then Some n else None | None => None end.

(** [parse_ma_timestamp]: [%Y%m%d%H%M%S], in UTC. *)
Definition parse_ma_timestamp (value : string) : option Z :=
  match String.list_ascii_of_string (strip value) with
  | [y1; y2; y3; y4; m1; m2; d1; d2; h1; h2; i1; i2; s1; s2] =>
      century ← field false [y1; y2];
      year ← (λ n, century * 100 + n) <$> field false [y3; y4];
      _ ← within 1 9999 (Some year);
      month ← within 1 12 (field false [m1; m2]);
      let first := Calendar.month_start year month in
      let '(y', m') := Calendar.next_month year month in
      dd ← within 1 (Calendar.month_start y' m' - first) (field true [d1; d2]);
      hh ← within 0 23 (field false [h1; h2]);
      mi ← within 0 59 (field false [i1; i2]);
      ss ← within 0 59 (field false [s1; s2]);
      Some ((first + dd - 1) * day + hh * hour + mi * minute + ss * second)
  | _ => None
  end.

(** ** One notification *)

Definition UPDATE_TYPE_ADD : Z := 1.
Definition UPDATE_TYPE_DELETE : Z := 2.
Definition UPDATE_TYPE_UPDATE : Z := 3.
Definition UPDATE_TYPE_LABELS (t : Z) : option string :=
  if t =? UPDATE_TYPE_ADD then Some "subscription"
  else if t =? UPDATE_TYPE_DELETE then Some "unsubscription"
  else if t =? UPDATE_TYPE_UPDATE then Some "update" else None.
Definition USER_TYPE_MOBILE : Z := 0.
Definition USER_TYPE_EMAIL : Z := 11.
Definition MAX_PAYLOAD_BYTES : nat := 64 * 1024.

Record relation := SyncOrderRelation {
  user_id : string; user_type : Z; sp_id : string; product_id : string; service_id : string;
  update_type : Z; update_time : string; service_list : string; update_desc : string;
  effective_time : string; expiry_time : string; extensions : gmap string string
}.

Definition is_subscribe (r : relation) : bool := update_type r =? UPDATE_TYPE_ADD.
Definition is_unsubscribe (r : relation) : bool := update_type r =? UPDATE_TYPE_DELETE.
Definition event_label (r : relation) : string := default "unknown" (UPDATE_TYPE_LABELS (update_type r)).
Definition msisdn (r : relation) : string := if user_type r =? USER_TYPE_MOBILE then user_id r else "".
Definition extension (key : string) (r : relation) : string := default "" (extensions r !! key).
Definition transaction_id : relation → string := extension "transactionID".
Definition order_key : relation → string := extension "orderKey".
Definition keyword : relation → string := extension "keyword".
Definition update_reason : relation → string := extension "updateReason".
Definition is_free_period (r : relation) : bool := String.eqb (lower (strip (extension "isFreePeriod" r))) "true".

(** [split('|')] without the empty parts. *)
Fixpoint parts_of (word : list ascii) (l : list ascii) : list string :=
  let here := match word with [] => [] | _ => [String.string_of_list_ascii (reverse word)] end in
  match l with
  | [] => here
  | c :: l' => if Ascii.eqb c "|" then here ++ parts_of [] l' else parts_of (c :: word) l'
  end.
Definition split_ids (s : string) : list string := parts_of [] (String.list_ascii_of_string s).
Definition service_ids (r : relation) : list string := split_ids (or_str (service_list r) (service_id r)).

Fixpoint starts (p l : list ascii) : bool :=
  match p, l with
  | [], _ => true
  | x :: p', y :: l' => Ascii.eqb x y && starts p' l'
  | _, [] => false
  end.
Fixpoint occurs (p l : list ascii) : bool :=
  starts p l || match l with [] => false | _ :: l' => occurs p l' end.
Definition contains (sub s : string) : bool :=
  occurs (String.list_ascii_of_string sub) (String.list_ascii_of_string s).

(** The loop over [extensionInfo]: a later item of the same key wins. *)
Definition read_item (m : gmap string string) (item : element) : gmap string string :=
  if String.eqb (_localname item) "item" then
    let key := _text item "key" in
    if String.eqb key "" then m else <[key := _text item "value"]> m
  else m.

Definition read_extensions (body : element) : gmap string string :=
  match _find body "extensionInfo" with
  | Some root => foldl read_item ∅ (children_of root)
  | None => ∅
  end.

(** What follows [ET.fromstring]. *)
Definition relation_of (root : element) : string + relation :=
  match _find root "syncOrderRelation" with
  | None => inl "No syncOrderRelation element in the request body."
  | Some body =>
  match _find body "userID" with
  | None => inl "userID is mandatory."
  | Some user_element =>
  let uid := _text user_element "ID" in
  if String.eqb uid "" then inl "userID/ID is mandatory."
  else match py_int (_text user_element "type") with
  | None => inl "userID/type must be an integer."
  | Some ut =>
  match py_int (_text body "updateType") with
  | None => inl "updateType must be an integer."
  | Some up =>
  match UPDATE_TYPE_LABELS up with
  | None => inl ("updateType " +:+ str_int up +:+ " is not one of 1 (Add), 2 (Delete) or 3 (Update).")
  | Some _ =>
  if String.eqb (_text body "spID") "" then inl "spID is mandatory."
  else if String.eqb (_text body "updateTime") "" then inl "updateTime is mandatory."
  else
    let services := split_ids (or_str (_text body "serviceList") (_text body "serviceID")) in
    if String.eqb (_text body "productID") "" && match services with [] => true | _ => false end
    then inl "productID is mandatory unless serviceID or serviceList names a service."
    else inr (SyncOrderRelation uid ut (_text body "spID") (_text body "productID") (_text body "serviceID") up
           (_text body "updateTime") (_text body "serviceList") (_text body "updateDesc")
           (_text body "effectiveTime") (_text body "expiryTime") (read_extensions body))
  end end end end end.

(** White space in [bytes]. *)
Definition is_blank (c : ascii) : bool :=
  let n := nat_of_ascii c in ((9 <=? n) && (n <=? 13) || (n =? 32))%nat.

Section Parse.
Context (fromstring : string → string + element).

Definition parse_sync_order_relation (raw : string) : string + relation :=
  if forallb is_blank (String.list_ascii_of_string raw) then inl "Empty request body."
  else if Nat.ltb MAX_PAYLOAD_BYTES (String.length raw) then inl "Request body is larger than the permitted size."
  else
    let head := lower (on_chars (drop_while is_blank) (prefix_of 2048 raw)) in
    if contains "<!doctype" head || contains "<!entity" head
    then inl "Document type declarations are not accepted."
    else match fromstring raw with
         | inl e => inl ("Request is not well-formed XML: " +:+ e)
         | inr root => relation_of root
         end.

End Parse.

(** ** The tier *)

(** The columns of [SubscriptionTier] that name it; the price in cents. The
    table is in the order of [Meta.ordering]. *)
Record product := Product {
  pd_tier : Z; pd_product_id : string; pd_service_id : string; pd_duration_type : string;
  pd_is_active : bool; pd_price_etb : Z; pd_short_code : string
}.

Definition SMS_CODE_TO_DURATION (code : string) : option string :=
  if String.eqb code "1" then Some "daily" else if String.eqb code "2" then Some "weekly"
  else if String.eqb code "3" then Some "monthly" else if String.eqb code "4" then Some "ondemand" else None.

Definition duration_for_keyword (k : string) : option string :=
  if String.eqb k "" then None
  else
    let digits := on_chars (List.filter (λ c, bool_decide (is_Some (digit_of c)))) k in
    if String.eqb digits "" then None else SMS_CODE_TO_DURATION digits.

Definition resolve_tier (by_id by_service k : string) (l : list product) : option product :=
  let first p := List.find p l in
  match (if String.eqb by_id "" then None else first (λ t, String.eqb (pd_product_id t) by_id)) with
  | Some t => Some t
  | None =>
  match (if String.eqb by_service "" then None else first (λ t, String.eqb (pd_service_id t) by_service)) with
  | Some t => Some t
  | None =>
  match duration_for_keyword k with
  | Some d => first (λ t, String.eqb (pd_duration_type t) d && pd_is_active t)
  | None => None
  end end end.

Definition tier_for (r : relation) (l : list product) : option product :=
  resolve_tier (product_id r) (or_str (service_id r) (default "" (head (service_ids r)))) (keyword r) l.

(** [ondemand_service_id]. *)
Definition ondemand_service_id (l : list product) : string :=
  match List.find (λ t, String.eqb (pd_duration_type t) "ondemand") l with
  | Some t => strip (pd_service_id t)
  | None => ""
  end.

(** ** Reading back *)

(** A local name. *)
Definition local (name : string) : bool := forallb (λ c, negb (Ascii.eqb c "}")) (String.list_ascii_of_string name).

(** The layout of a request, under any prefixes: [ns] adds one to a name. *)
Section Layout.
Context (ns : string → string).

Definition leaf (name value : string) : element := Element (ns name) (Some value) [].

Definition item_of (kv : string * string) : element :=
  Element (ns "item") None [leaf "key" kv.1; leaf "value" kv.2].

Definition body_of (r : relation) (user_type_text update_type_text : string) : element :=
  Element (ns "syncOrderRelation") None
    [Element (ns "userID") None [leaf "ID" (user_id r); leaf "type" user_type_text];
     leaf "spID" (sp_id r); leaf "productID" (product_id r); leaf "serviceID" (service_id r);
     leaf "serviceList" (service_list r); leaf "updateType" update_type_text; leaf "updateTime" (update_time r);
     leaf "updateDesc" (update_desc r); leaf "effectiveTime" (effective_time r); leaf "expiryTime" (expiry_time r);
     Element (ns "extensionInfo") None (item_of <$> map_to_list (extensions r))].

Definition envelope_of (r : relation) (ut up : string) : element :=
  Element (ns "Envelope") None [Element (ns "Body") None [body_of r ut up]].

Context (Hns : ∀ name text l, local name = true → _localname (Element (ns name) text l) = name).

Lemma read_items l : ∀ m,
  (∀ k v, (k, v) ∈ l → k ≠ "" ∧ strip k = k ∧ strip v = v) →
  foldl read_item m (item_of <$> l) = foldl (λ m kv, <[kv.1 := kv.2]> m) m l.
Proof using Hns.
  induction l as [|[k v] l IH]; intros m Hl; [done|]. cbn -[read_item].
  destruct (Hl k v ltac:(by left)) as (Hk & Hk' & Hv).
  unfold read_item at 2. unfold _text, _find, item_of, leaf. cbn -[_localname strip]. rewrite !Hns by reflexivity.
  cbn -[_localname strip]. rewrite Hk', Hv.
  rewrite (proj2 (String.eqb_neq k "") Hk). apply IH. intros ?? ?. apply Hl. by right.
Qed.

End Layout.

(** What the mandatory elements of a request hold. *)
Record well_formed (r : relation) (ut up : string) : Prop := WellFormed {
  wf_user : user_id r ≠ "" ∧ strip (user_id r) = user_id r;
  wf_user_type : py_int (strip ut) = Some (user_type r);
  wf_update_type : py_int (strip up) = Some (update_type r) ∧ is_Some (UPDATE_TYPE_LABELS (update_type r));
  wf_sp : sp_id r ≠ "" ∧ strip (sp_id r) = sp_id r;
  wf_time : update_time r ≠ "" ∧ strip (update_time r) = update_time r;
  wf_named : product_id r ≠ "" ∨ service_ids r ≠ [];
  wf_stripped : Forall (λ s, strip s = s) [product_id r; service_id r; service_list r; update_desc r; effective_time r; expiry_time r];
  wf_extensions : ∀ k v, extensions r !! k = Some v → k ≠ "" ∧ strip k = k ∧ strip v = v
}.

Lemma insert_back (m : gmap string string) :
  foldl (λ m (kv : string * string), <[kv.1 := kv.2]> m) ∅ (map_to_list m) = m.
Proof.
  assert (∀ l (m' : gmap string string), NoDup l.*1 → (∀ k, k ∈ l.*1 → m' !! k = None) →
    foldl (λ m (kv : string * string), <[kv.1 := kv.2]> m) m' l = list_to_map l ∪ m') as H.
  { induction l as [|[k v] l IH]; intros m' Hnd Hm'; cbn; [by rewrite (left_id_L ∅ _)|].
    apply NoDup_cons in Hnd as [Hk Hnd]. rewrite IH; [|done|].
    - rewrite <- insert_union_l, <- insert_union_r; [done|]. by apply not_elem_of_list_to_map_1.
    - intros k' Hk'. rewrite lookup_insert_ne by (intros ->; done). apply Hm'. by right. }
  rewrite H; [|apply NoDup_fst_map_to_list|done]. by rewrite (right_id_L ∅ _), list_to_map_to_list.
Qed.

(** C25.  A request is read back as the notification it was written from, under
    any namespace prefixes: what the aggregator announces is what is applied. *)
Theorem notification_roundtrip ns r ut up :
  (∀ name text l, local name = true → _localname (Element (ns name) text l) = name) →
  well_formed r ut up →
  relation_of (envelope_of ns r ut up) = inr r.
Proof.
  intros Hns [[Hu Hu'] Hut [Hup [label Hl]] [Hsp Hsp'] [Ht Ht'] Hnamed Hstr Hext].
  rewrite !Forall_cons in Hstr. destruct Hstr as (Hp & Hsv & Hsl & Hd & He & Hx & _).
  assert (Hids : String.eqb (product_id r) "" && match service_ids r with [] => true | _ => false end = false).
  { apply andb_false_iff. rewrite String.eqb_neq. destruct Hnamed; [by left|right; by destruct (service_ids r)]. }
  unfold relation_of, envelope_of, body_of, leaf, _find. cbn -[_localname strip _text].
  repeat (rewrite Hns by reflexivity; cbn -[_localname strip _text read_extensions]).
  unfold _text, _find. cbn -[_localname strip read_extensions].
  repeat (rewrite Hns by reflexivity; cbn -[_localname strip read_extensions]).
  rewrite Hu', Hut, Hup, Hl, Hsp', Ht', Hsl, Hsv, Hp, Hd, He, Hx.
  rewrite (proj2 (String.eqb_neq _ _) Hu), (proj2 (String.eqb_neq _ _) Hsp), (proj2 (String.eqb_neq _ _) Ht).
  unfold service_ids in Hids. rewrite Hids. f_equal.
  assert (read_extensions (body_of ns r ut up) = extensions r) as Hread.
  { unfold read_extensions, _find, body_of, leaf. cbn -[_localname read_item].
    repeat (rewrite Hns by reflexivity; cbn -[_localname read_item]).
    rewrite read_items, insert_back; [done|done|]. intros k v Hkv%elem_of_map_to_list. by apply Hext. }
  unfold body_of, leaf in Hread. rewrite Hread. by destruct r.
Qed.

(** The guide's subscription request, with a prefix. *)
Definition prefixed (name : string) : string := "{http://www.csapi.org/schema/parlayx/data/sync/v1_0/local}" +:+ name.

Definition keyword_one : relation :=
  SyncOrderRelation "251911223344" 0 "001100" "1000030022" "30026300007331" 1 "20240115083000" "" "" "" ""
    (list_to_map [("transactionID", "TX-1"); ("keyword", "1")]).

Lemma localname_prefixed p name text l :
  local name = true → _localname (Element (p +:+ String "}" name) text l) = name.
Proof.
  intros Hname. unfold _localname, on_chars. cbn [tag_of]. unfold local in Hname.
  assert (∀ m acc, forallb (λ c, negb (Ascii.eqb c "}")) m = true → after_last "}" m acc = acc) as Hnone.
  { induction m as [|x m IH]; intros acc; cbn; [done|]. destruct (Ascii.eqb x "}"); [done|apply IH]. }
  assert (∀ q acc, after_last "}" (q ++ "}"%char :: String.list_ascii_of_string name) acc
                   = String.list_ascii_of_string name) as Hlast.
  { induction q as [|x q IH]; intros acc; cbn; [by rewrite Hnone|]. destruct (Ascii.eqb x "}"); apply IH. }
  assert (String.list_ascii_of_string (p +:+ String "}" name)
          = String.list_ascii_of_string p ++ "}"%char :: String.list_ascii_of_string name) as ->.
  { clear. induction p as [|c p IH]; [done|].
    change (c :: String.list_ascii_of_string (p +:+ String "}" name)
            = c :: String.list_ascii_of_string p ++ "}"%char :: String.list_ascii_of_string name). by rewrite IH. }
  rewrite Hlast. apply String.string_of_list_ascii_of_string.
Qed.

Lemma notification_roundtrip_witness :
  well_formed keyword_one " 0" "1" ∧ relation_of (envelope_of prefixed keyword_one " 0" "1") = inr keyword_one.
Proof.
  assert (well_formed keyword_one " 0" "1") as Hwf.
  { split; try (split; [discriminate|reflexivity]); try reflexivity.
    - split; [reflexivity|by eexists].
    - by left.
    - repeat (apply Forall_cons; split; [reflexivity|]). apply Forall_nil_2.
    - change (extensions keyword_one) with (<["transactionID" := "TX-1"]> (<["keyword" := "1"]> (∅ : gmap string string))).
      intros k v [[<- <-]|[_ [[<- <-]|[_ []%lookup_empty_Some]]%lookup_insert_Some]]%lookup_insert_Some;
        by split_and!. }
  split; [done|]. apply (notification_roundtrip prefixed); [|done].
  intros name text l Hname. unfold prefixed.
  exact (localname_prefixed "{http://www.csapi.org/schema/parlayx/data/sync/v1_0/local" name text l Hname).
Defined.

(** ** What is refused, and what is not *)

Definition no_xml (raw : string) : string + element := inr (envelope_of id keyword_one "0" "1").

(** Each mandatory element, missing in turn; and the service pair standing in
    for the product, as deletions have it. *)
Example refused :
  let says r ut up := match relation_of (envelope_of prefixed r ut up) with inl e => e | inr _ => "" end in
  let with_ids p s l := SyncOrderRelation "251911223344" 0 "001100" p s 2 "20240115083000" l "" "" "" ∅ in
  says keyword_one "mobile" "1" = "userID/type must be an integer."
  ∧ says keyword_one "0" "4" = "updateType 4 is not one of 1 (Add), 2 (Delete) or 3 (Update)."
  ∧ says (with_ids "" "" "|||") "0" "2" = "productID is mandatory unless serviceID or serviceList names a service."
  ∧ says (with_ids "" "30026300007332" "") "0" "2" = "".
Proof. vm_compute. done. Qed.

(** A document type is looked for in the first 2048 bytes only. *)
Definition spaces (n : nat) : string := String.string_of_list_ascii (replicate n " "%char).
Definition doctype : string := "<!DOCTYPE r [<!ENTITY a 'aaaa'>]><r/>".

Example late_doctype_is_parsed :
  parse_sync_order_relation no_xml doctype = inl "Document type declarations are not accepted."
  ∧ parse_sync_order_relation no_xml (spaces 2048 +:+ doctype) = inr keyword_one.
Proof. split; vm_compute; reflexivity. Qed.

Example timestamps :
  (parse_ma_timestamp "20240115083000", parse_ma_timestamp " 20240229000000 ", parse_ma_timestamp "20230229000000",
   parse_ma_timestamp "2024-01-15", parse_ma_timestamp "202401 5083000")
  = (Some (19737 * day + 8 * hour + 30 * minute), Some (19782 * day), None, None, Some (19727 * day + 8 * hour + 30 * minute)).
Proof. vm_compute. reflexivity. Qed.

(** The service named goes before the keyword; a keyword alone picks a tier on
    sale. *)
Definition catalogue : list product :=
  [Product 1 "P1" "S1" "daily" true 300 "9286"; Product 2 "P2" "S2" "weekly" true 2000 "9286";
   Product 3 "P3" "S3" "monthly" false 7000 "9286"].

Example which_tier :
  (pd_tier <$> resolve_tier "P9" "S2" "1" catalogue, pd_tier <$> resolve_tier "P9" "" "Ok1" catalogue,
   pd_tier <$> resolve_tier "" "" "3" catalogue, pd_tier <$> resolve_tier "P3" "" "" catalogue,
   pd_tier <$> resolve_tier "" "" "11" catalogue)
  = (Some 2, Some 1, None, Some 3, None).
Proof. vm_compute. reflexivity. Qed.

End SyncOrder.
