(* ===== verification/SmsSubscription.v ===== *)
(** * SmsSubscription: a subscription announced by the aggregator

    Models [src/api/services/sms_subscription.py] over the plans of
    [Subscriptions], the gift a payment triggers ([SubscriptionGift]) and the
    message queue ([SmsQueue]).

    A plan's columns that only this channel reads are a [line] beside the
    [Subscriptions.plan] of the same key.  [subscribe] and [unsubscribe] are
    transactions, and one step here; [now] is read once for each. *)

From Stdlib Require Import ZArith Lia.
From stdpp Require Import gmap strings sorting.
From S2P Require Import Prelude Decimal StableSort CoinBalance Phone Subscriptions SubscriptionGift SmsQueue SyncOrder.

Module SmsSubscription.
Import Subscriptions StableSort.

(** ** Tables *)

Record line := Line {
  ln_phone : option string; ln_source : string; ln_payment_method : string;
  ln_setup_otp : option string; ln_setup_otp_expires_at : option Z; ln_created_at : Z
}.

Record paid := Paid { pd_payment : SubscriptionGift.payment; pd_amount : Z; pd_method : string; pd_duration : string }.
Record history := History {
  h_plan : Z; h_user : option Z; h_tier : option Z; h_action : string; h_reason : string; h_transaction : string
}.

(** Profiles, with their phone numbers, in the order of their keys; passwords
    as they are stored. *)
Record store := Store {
  m_subs : Subscriptions.store; m_lines : gmap Z line; m_profiles : list (Z * option string);
  m_passwords : gmap Z string; m_payments : list paid; m_history : list history; m_sms : SmsQueue.table
}.

Definition with_subs (x : Subscriptions.store) (s : store) : store :=
  Store x (m_lines s) (m_profiles s) (m_passwords s) (m_payments s) (m_history s) (m_sms s).
Definition with_lines (x : gmap Z line) (s : store) : store :=
  Store (m_subs s) x (m_profiles s) (m_passwords s) (m_payments s) (m_history s) (m_sms s).
Definition with_profiles (x : list (Z * option string)) (s : store) : store :=
  Store (m_subs s) (m_lines s) x (m_passwords s) (m_payments s) (m_history s) (m_sms s).
Definition with_payments (x : list paid) (s : store) : store :=
  Store (m_subs s) (m_lines s) (m_profiles s) (m_passwords s) x (m_history s) (m_sms s).
Definition with_history (x : list history) (s : store) : store :=
  Store (m_subs s) (m_lines s) (m_profiles s) (m_passwords s) (m_payments s) x (m_sms s).
Definition with_sms (x : SmsQueue.table) (s : store) : store :=
  Store (m_subs s) (m_lines s) (m_profiles s) (m_passwords s) (m_payments s) (m_history s) x.

Definition in_subs {A} : M Subscriptions.store A → M store A := zoom m_subs with_subs.
Definition in_sms {A} : M SmsQueue.table A → M store A := zoom m_sms with_sms.
Definition add_history (h : history) : M store unit := modify (λ s, with_history (m_history s ++ [h]) s).

(** ** Keywords *)

Definition STOP_KEYWORDS (d : string) : option string :=
  if String.eqb d "daily" then Some "STOP1" else if String.eqb d "weekly" then Some "STOP2"
  else if String.eqb d "monthly" then Some "STOP3" else if String.eqb d "ondemand" then Some "STOP" else None.
Definition SUBSCRIBE_KEYWORDS (d : string) : option string :=
  if String.eqb d "daily" then Some "1" else if String.eqb d "weekly" then Some "2"
  else if String.eqb d "monthly" then Some "3" else None.
Definition PRICE_PERIODS (d : string) : option string :=
  if String.eqb d "daily" then Some "day" else if String.eqb d "weekly" then Some "week"
  else if String.eqb d "monthly" then Some "month" else if String.eqb d "ondemand" then Some "use" else None.
Definition STOP_KEYWORD_DURATIONS (k : string) : option string :=
  if String.eqb k "STOP" then Some "daily" else if String.eqb k "STOP1" then Some "daily"
  else if String.eqb k "STOP2" then Some "weekly" else if String.eqb k "STOP3" then Some "monthly" else None.
Definition FIRST_TIME_FREE_TRIAL_DAYS : Z := 1.

(** ** The subscriber *)

Definition line_of (p : plan) (s : store) : option line := m_lines s !! sp_id p.
Definition phone_is (phone : string) (s : store) (p : plan) : bool :=
  bool_decide (line_of p s ≫= ln_phone = Some phone).
Definition created_at (s : store) (p : plan) : Z := match line_of p s with Some l => ln_created_at l | None => 0 end.

(** [Meta.ordering]: the newest first. *)
Definition newest_first (s : store) : list plan :=
  sort_by (λ p q, created_at s q <=? created_at s p) (map_to_list (s_plans (m_subs s))).*2.

Definition profile_of (user : Z) (s : store) : option (option string) :=
  snd <$> List.find (λ up : Z * option string, up.1 =? user) (m_profiles s).

Definition resolve_subscriber (phone : string) : M store (option Z) :=
  s ← get;
  if String.eqb phone "" then mret None
  else match List.find (λ up : Z * option string, bool_decide (up.2 = Some phone)) (m_profiles s) with
  | Some (u, _) => mret (Some u)
  | None =>
  match List.find (phone_is phone s) (newest_first s) with
  | None => mret None
  | Some p =>
  match sp_user p with
  | None => mret None
  | Some u =>
  match profile_of u s with
  | None => raise (DoesNotExist "User has no profile.")
  | Some number =>
      when (String.eqb (default "" number) "")
        (put (with_profiles ((λ up : Z * option string, if up.1 =? u then (up.1, Some phone) else up) <$> m_profiles s) s)) ≫= λ _,
      mret (Some u)
  end end end end.

(** [has_usable_password] is that the text does not begin with a [!]. *)
Definition has_usable_password (password : string) : bool := negb (String.prefix "!" password).

Definition can_sign_in_with_pin (user : option Z) (s : store) : bool :=
  match user with
  | None => false
  | Some u => let password := default "" (m_passwords s !! u) in
              negb (String.eqb password "") && has_usable_password password
  end.

(** ** Subscribing *)

(** A subscriber: an account, or a number without one. *)
Definition held_by (user : option Z) (phone : string) (s : store) (p : plan) : bool :=
  match user with
  | Some u => bool_decide (sp_user p = Some u)
  | None => phone_is phone s p && bool_decide (sp_user p = None)
  end.

Definition active_plan (p : plan) : bool := bool_decide (sp_status p = active).

Definition cancel_plan (reason transaction : string) (now : Z) (p : plan) : M store unit :=
  in_subs (cancel p reason now) ≫= λ p',
  add_history (History (sp_id p) (sp_user p) (sp_tier p) "cancelled" reason transaction).

Definition _cancel_conflicting_plans (user : option Z) (phone duration_type reason transaction : string) (now : Z)
    : M store unit :=
  s ← get;
  for_each (cancel_plan reason transaction now)
    (List.filter (λ p, active_plan p && held_by user phone s p && negb (String.eqb (sp_duration_type p) duration_type))
       (newest_first s)).

(** The payment, and its [post_save] receiver. *)
Definition _record_payment (pk : string) (p : plan) (t : tier) (price : Z) (method : string) (now : Z) : M store unit :=
  let pay := SubscriptionGift.Payment pk (sp_id p) (sp_user p) "completed" (sp_start p)
    (match sp_end p with Some e => e | None => now + or_int (default 0 (tr_duration_days t)) 30 * day end) in
  modify (λ s, with_payments (m_payments s ++ [Paid pay price method (tr_duration_type t)]) s) ≫= λ _,
  in_subs (SubscriptionGift.grant_subscription_gift pay now).

Definition set_tier (t : tier) (p : plan) : plan :=
  Plan (sp_id p) (sp_user p) (Some (tr_id t)) (sp_status p) (tr_duration_type t) (sp_start p) (sp_end p)
    (sp_next_renewal p) (sp_auto_renew p) (sp_free_trial_days p) (sp_cancelled_at p) (sp_cancellation_reason p)
    (sp_grace_started p) (sp_grace_expires p) (sp_bonus_granted_at p) (sp_token p) (sp_token_expires p).
Definition set_otp (otp : option string) (expires : option Z) (l : line) : line :=
  Line (ln_phone l) (ln_source l) (ln_payment_method l) otp expires (ln_created_at l).

Record result := SubscribeResult {
  action : string; rs_plan : plan; rs_otp : option string; free_trial_days : Z; existing_user : bool; can_sign_in : bool
}.

(** What is drawn: the code, and the keys of the plan and of the payment. *)
Record draw := Draw { d_otp : string; d_plan : Z; d_payment : string }.

Definition existing_plan (user : option Z) (phone duration_type : string) (s : store) : option plan :=
  List.find (λ p, active_plan p && String.eqb (sp_duration_type p) duration_type && held_by user phone s p) (newest_first s).

Definition renew (p : plan) (t : tier) (price : Z) (method transaction : string) (otp : option string)
    (expires : option Z) (pk : string) (now : Z) : M store plan :=
  in_subs (save_fields (set_tier t) p) ≫= λ _,
  modify (λ s, with_lines (alter (set_otp otp expires) (sp_id p) (m_lines s)) s) ≫= λ _,
  p ← in_subs (activate (set_tier t p) now);
  _record_payment pk p t price method now ≫= λ _,
  add_history (History (sp_id p) (sp_user p) (Some (tr_id t)) "renewed" ("Subscription renewed via " +:+ method) transaction) ≫= λ _,
  mret p.

Definition has_history (phone : string) (s : store) : bool := existsb (phone_is phone s) (newest_first s).

Definition new_plan (pk : Z) (user : option Z) (t : tier) (trial : Z) : plan :=
  Plan pk user (Some (tr_id t)) pending (tr_duration_type t) None None None false trial None "" None None None None None.

Definition create (user : option Z) (phone : string) (t : tier) (price : Z) (method transaction : string)
    (otp : option string) (expires : option Z) (d : draw) (now : Z) : M store plan :=
  s ← get;
  let trial := if has_history phone s then 0 else FIRST_TIME_FREE_TRIAL_DAYS in
  let p := new_plan (d_plan d) user t trial in
  assert_or (bool_decide (s_plans (m_subs s) !! d_plan d = None)) (IntegrityError "subscription_plans") ≫= λ _,
  in_subs (save p) ≫= λ _,
  modify (λ s, with_lines (<[d_plan d := Line (Some phone) "sms" method otp expires now]> (m_lines s)) s) ≫= λ _,
  p ← in_subs (activate p now);
  _record_payment (d_payment d) p t price method now ≫= λ _,
  add_history (History (sp_id p) user (Some (tr_id t)) "created" ("Subscription created via " +:+ method +:+ " SMS") transaction) ≫= λ _,
  mret p.

Definition subscribe (phone : string) (t : tier) (price : Z) (method transaction : string) (user : option Z)
    (d : draw) (now : Z) : M store result :=
  atomic (
    user ← (match user with Some u => mret (Some u) | None => resolve_subscriber phone end);
    s ← get;
    let signs_in := can_sign_in_with_pin user s in
    let otp := if signs_in then None else Some (d_otp d) in
    let expires := if signs_in then None else Some (now + 30 * minute) in
    _cancel_conflicting_plans user phone (tr_duration_type t)
      "Cancelled due to new subscription of different duration type" transaction now ≫= λ _,
    s ← get;
    match existing_plan user phone (tr_duration_type t) s with
    | Some p =>
        p ← renew p t price method transaction otp expires (d_payment d) now;
        mret (SubscribeResult "renewed" p otp (sp_free_trial_days p) (bool_decide (is_Some user)) signs_in)
    | None =>
        p ← create user phone t price method transaction otp expires d now;
        mret (SubscribeResult "created" p otp (sp_free_trial_days p) (bool_decide (is_Some user)) signs_in)
    end).

(** ** Unsubscribing *)

Definition unsubscribe (phone duration_type reason transaction : string) (user : option Z) (now : Z) : M store (list plan) :=
  atomic (
    user ← (match user with Some u => mret (Some u) | None => resolve_subscriber phone end);
    s ← get;
    let mine p := match user with Some u => bool_decide (sp_user p = Some u) | None => phone_is phone s p end in
    let cancelled := List.filter (λ p, active_plan p && mine p
      && (String.eqb duration_type "" || String.eqb (sp_duration_type p) duration_type)) (newest_first s) in
    for_each (cancel_plan reason transaction now) cancelled ≫= λ _, mret cancelled).

(** ** Messages *)

(** [strftime('%Y-%m-%d %H:%M')] of a UTC instant. *)
Definition stamp (t : Z) : string :=
  isoformat (utc_date t) +:+ " " +:+ pad2 (t mod day / hour) +:+ ":" +:+ pad2 (t mod hour / minute).

Definition access_link (base_url phone : string) (existing : bool) : string :=
  base_url +:+ "?subscription_tp=true&phone=" +:+ phone +:+ (if existing then "&existing_user=true" else "").

(** [scheme] and [netloc] of [urlsplit]. *)
Fixpoint upto_any (stop : list ascii) (l : list ascii) : list ascii :=
  match l with [] => [] | c :: l' => if bool_decide (c ∈ stop) then [] else c :: upto_any stop l' end.
Fixpoint split_scheme (seen : list ascii) (l : list ascii) : option (list ascii * list ascii) :=
  match l with
  | ":"%char :: l' => Some (reverse seen, l')
  | c :: l' => split_scheme (c :: seen) l'
  | [] => None
  end.
Definition is_alpha (c : ascii) : bool := let n := nat_of_ascii (lower_char c) in ((97 <=? n) && (n <=? 122))%nat.
Definition scheme_char (c : ascii) : bool :=
  is_alpha c || bool_decide (is_Some (SyncOrder.digit_of c)) || bool_decide (c ∈ ["+"; "-"; "."]%char).
Definition origin_of (base_url : string) : string :=
  match split_scheme [] (String.list_ascii_of_string base_url) with
  | Some (s, rest) =>
      match s, rest with
      | a :: _, "/"%char :: "/"%char :: rest =>
          let netloc := upto_any ["/"; "?"; "#"]%char rest in
          if is_alpha a && forallb scheme_char s && match netloc with [] => false | _ => true end
          then lower (String.string_of_list_ascii s) +:+ "://" +:+ String.string_of_list_ascii netloc else ""
      | _, _ => ""
      end
  | None => ""
  end.

Definition login_link (base_url phone : string) : string := origin_of base_url +:+ "/login?phone=" +:+ phone.

Definition build_welcome_message (t : tier) (price : Z) (short_code : string) (r : result) (phone base_url : string) : string :=
  let stop_keyword := default "STOP" (STOP_KEYWORDS (tr_duration_type t)) in
  let price_period := default "day" (PRICE_PERIODS (tr_duration_type t)) in
  let price_etb := money_str price in
  let trial := if 0 <? free_trial_days r
    then "You have " +:+ str_int (free_trial_days r) +:+ " day(s) of complimentary free trial. "
         +:+ "After your free trial concludes, the subscription price will be " +:+ price_etb +:+ " ETB per " +:+ price_period +:+ "."
    else "The subscription price is " +:+ price_etb +:+ " ETB per " +:+ price_period +:+ "." in
  let started := stamp (default 0 (sp_start (rs_plan r))) in
  let opening := "Dear valued customer, you have successfully subscribed to the " +:+ tr_name t
    +:+ " Flipstar service, effective from " +:+ started +:+ ". " +:+ trial in
  if can_sign_in r
  then opening +:+ " You already have a Flipstar account. To sign in, open " +:+ login_link base_url phone
    +:+ " and enter your phone number and PIN. Forgot your PIN? Tap Forgot PIN on that page. "
    +:+ "To cancel, send " +:+ stop_keyword +:+ " to " +:+ short_code +:+ "."
  else opening +:+ " To access your premium service, please click on " +:+ access_link base_url phone (existing_user r)
    +:+ " and enter your OTP: " +:+ default "None" (rs_otp r) +:+ ". To cancel your subscription at any time, please send "
    +:+ stop_keyword +:+ " to " +:+ short_code +:+ ".".

Definition build_renewal_message (t : tier) (price : Z) (short_code : string) (p : plan) (phone base_url : string)
    (otp : option string) (s : store) : string :=
  let stop_keyword := default "STOP" (STOP_KEYWORDS (tr_duration_type t)) in
  let price_period := default "day" (PRICE_PERIODS (tr_duration_type t)) in
  let valid := match sp_end p with Some e => ", valid until " +:+ stamp e | None => "" end in
  let access :=
    if String.eqb base_url "" || String.eqb phone "" then ""
    else if can_sign_in_with_pin (sp_user p) s
    then " Sign in at " +:+ login_link base_url phone +:+ " with your phone number and PIN."
    else " Open " +:+ access_link base_url phone (bool_decide (is_Some (sp_user p)))
         +:+ (if String.eqb (default "" otp) "" then "." else " and enter OTP " +:+ default "" otp +:+ ".") in
  "Your " +:+ tr_name t +:+ " Flipstar subscription is renewed for " +:+ money_str price +:+ " ETB per " +:+ price_period
  +:+ valid +:+ "." +:+ access +:+ " To cancel, send " +:+ stop_keyword +:+ " to " +:+ short_code +:+ ".".

Definition subscribe_keyword_for (t : tier) : string := default "" (SUBSCRIBE_KEYWORDS (tr_duration_type t)).

Definition build_cancellation_message (t : tier) (short_code subscribe_keyword : string) : string :=
  let again := if String.eqb subscribe_keyword "" then ""
    else " To subscribe again, send " +:+ subscribe_keyword +:+ " to " +:+ short_code +:+ "." in
  "Dear valued customer, your " +:+ tr_name t +:+ " Flipstar subscription has been cancelled and you will not be charged again."
  +:+ again +:+ " Thank you for using Flipstar.".

(** [provider] is the configured gateway, [clock] what [now().timestamp()]
    prints. *)
Definition send_subscription_sms (phone message purpose key provider clock : string) (now : Z) : M store bool :=
  catch (in_sms (SmsQueue.queue_sms phone message (or_str purpose "subscription_welcome") key provider clock now) ≫= λ _, mret true)
    (λ e, match e with SmsNotQueued _ => Some (mret false) | _ => None end).

(** ** Rows *)

Definition store_ok (s : store) : Prop := Subscriptions.store_ok (m_subs s).

Lemma in_newest s p : store_ok s → p ∈ newest_first s ↔ s_plans (m_subs s) !! sp_id p = Some p.
Proof.
  intros [_ _ Hids]. unfold newest_first. rewrite elem_of_sort, list_elem_of_fmap. split.
  - intros ([id q] & -> & Hq%elem_of_map_to_list). cbn. by rewrite (Hids _ _ Hq).
  - intros Hp. exists (sp_id p, p). split; [done|]. by apply elem_of_map_to_list.
Qed.

Lemma newest_ids s : store_ok s → NoDup (sp_id <$> newest_first s).
Proof.
  intros [_ _ Hids]. unfold newest_first. rewrite (fmap_Permutation _ _ _ (sort_perm _ _)).
  rewrite <- list_fmap_compose. erewrite list_fmap_ext; [apply (NoDup_fst_map_to_list (s_plans (m_subs s)))|].
  intros i [id p] Hp. cbn. apply Hids, elem_of_map_to_list. by eapply list_elem_of_lookup_2.
Qed.

Definition chosen_ids (f : plan → bool) (s : store) : Prop := NoDup (sp_id <$> List.filter f (newest_first s)).

Lemma filter_ids f s : store_ok s → chosen_ids f s.
Proof.
  intros Hs. unfold chosen_ids. pose proof (newest_ids s Hs) as Hnd.
  induction (newest_first s) as [|p l IH]; [constructor|]. cbn in Hnd |- *. apply NoDup_cons in Hnd as [Hp Hnd].
  destruct (f p); [|by apply IH]. cbn. apply NoDup_cons. split; [|by apply IH].
  intros (q & Hq & Hin)%list_elem_of_fmap. apply Hp. rewrite Hq. apply list_elem_of_fmap_2.
  apply list_elem_of_In, List.filter_In in Hin as [Hin _]. by apply list_elem_of_In.
Qed.

(** Cancelling a list of plans: their rows, and a line of history each. *)
Definition cancel_rows (f : plan → bool) (reason : string) (now : Z) (m : gmap Z plan) : gmap Z plan :=
  (λ p, if f p then set_cancelled (Some now) reason p else p) <$> m.

Definition cancelled_row (reason transaction : string) (p : plan) : history :=
  History (sp_id p) (sp_user p) (sp_tier p) "cancelled" reason transaction.

Lemma cancel_plan_run reason tx now p s :
  cancel_plan reason tx now p s
  = (inr tt, with_history (m_history s ++ [cancelled_row reason tx p])
      (with_subs (with_plans (<[sp_id p := set_cancelled (Some now) reason p]> (s_plans (m_subs s))) (m_subs s)) s)).
Proof. unfold cancel_plan. rewrite bind_run. unfold in_subs. rewrite zoom_run. reflexivity. Qed.

Lemma cancel_loop reason tx now l : ∀ s,
  for_each (cancel_plan reason tx now) l s
  = (inr tt, with_history (m_history s ++ (cancelled_row reason tx <$> l))
      (with_subs (with_plans (foldl (λ m p, <[sp_id p := set_cancelled (Some now) reason p]> m) (s_plans (m_subs s)) l)
        (m_subs s)) s)).
Proof.
  induction l as [|p l IH]; intros s; cbn [for_each].
  - cbn. rewrite app_nil_r. by destruct s as [[]].
  - rewrite bind_run, cancel_plan_run, IH. cbn. by rewrite <- app_assoc.
Qed.

Lemma cancel_fold reason now f l : ∀ m,
  NoDup (sp_id <$> l) → (∀ id p, m !! id = Some p → sp_id p = id) → (∀ p, p ∈ l → m !! sp_id p = Some p ∧ f p = true) →
  (∀ id p, m !! id = Some p → f p = true → p ∈ l ∨ p = set_cancelled (Some now) reason p) →
  foldl (λ m p, <[sp_id p := set_cancelled (Some now) reason p]> m) m l = cancel_rows f reason now m.
Proof.
  induction l as [|p l IH]; intros m Hnd Hids Hin Hall; cbn.
  - apply map_eq. intros id. unfold cancel_rows. rewrite lookup_fmap. destruct (m !! id) as [q|] eqn:Hq; [|done].
    cbn. f_equal. destruct (f q) eqn:Hf; [|done]. by destruct (Hall _ _ Hq Hf) as [[]%not_elem_of_nil|?].
  - cbn in Hnd. apply NoDup_cons in Hnd as [Hp Hnd]. destruct (Hin p) as [Hmp Hfp]; [by left|].
    assert (Hne : ∀ q, q ∈ l → sp_id q ≠ sp_id p).
    { intros q Hq He. apply Hp. rewrite <- He. by apply list_elem_of_fmap_2. }
    rewrite IH; [|done| | |].
    + apply map_eq. intros id. unfold cancel_rows. rewrite !lookup_fmap.
      destruct (decide (id = sp_id p)) as [->|Hid].
      * rewrite lookup_insert_eq, Hmp. cbn. rewrite Hfp. by destruct (f (set_cancelled (Some now) reason p)).
      * by rewrite lookup_insert_ne.
    + intros id q. destruct (decide (id = sp_id p)) as [->|Hid].
      * rewrite lookup_insert_eq. by intros [= <-].
      * rewrite lookup_insert_ne by done. apply Hids.
    + intros q Hq. rewrite lookup_insert_ne; [apply Hin; by right|]. intros He. by apply (Hne q).
    + intros id q. destruct (decide (id = sp_id p)) as [->|Hid].
      * rewrite lookup_insert_eq. intros [= <-] _. by right.
      * rewrite lookup_insert_ne by done. intros Hq Hf. destruct (Hall _ _ Hq Hf) as [[->|?]%elem_of_cons|?]; [|by left|by right].
        by rewrite (Hids _ _ Hq) in Hid.
Qed.

(** The plans a filter picks are all cancelled, and only those. *)
Lemma cancel_all_run f reason tx now s : store_ok s →
  for_each (cancel_plan reason tx now) (List.filter f (newest_first s)) s
  = (inr tt, with_history (m_history s ++ (cancelled_row reason tx <$> List.filter f (newest_first s)))
      (with_subs (with_plans (cancel_rows f reason now (s_plans (m_subs s))) (m_subs s)) s)).
Proof.
  intros Hs. rewrite cancel_loop. do 4 f_equal. destruct Hs as [Ht Hw Hids]. apply cancel_fold.
  - by apply filter_ids.
  - done.
  - intros p Hp. apply list_elem_of_In, List.filter_In in Hp as [Hp%list_elem_of_In Hf]. by apply in_newest in Hp.
  - intros id p Hp Hf. left. apply list_elem_of_In, List.filter_In. split; [|done].
    apply list_elem_of_In, in_newest; [done|]. by rewrite (Hids _ _ Hp).
Qed.

(** ** A period *)

(** The payment [_record_payment] writes. *)
Definition payment_of (pk : string) (p : plan) (t : tier) (price : Z) (method : string) (now : Z) : paid :=
  Paid (SubscriptionGift.Payment pk (sp_id p) (sp_user p) "completed" (sp_start p)
          (match sp_end p with Some e => e | None => now + or_int (default 0 (tr_duration_days t)) 30 * day end))
    price method (tr_duration_type t).

(** What the common end of both branches leaves: the plan active from now, one
    payment and one line of history. *)
Record period_begun (self : plan) (t : tier) (now : Z) (p : plan) (x x' : Subscriptions.store) : Prop := PeriodBegun {
  pb_ok : Subscriptions.store_ok x';
  pb_plans : s_plans x' = <[sp_id self := p]> (s_plans x);
  pb_tiers : s_tiers x' = s_tiers x;
  pb_keys : sp_id p = sp_id self ∧ sp_user p = sp_user self ∧ sp_tier p = sp_tier self
            ∧ sp_duration_type p = sp_duration_type self ∧ sp_free_trial_days p = sp_free_trial_days self;
  pb_active : sp_status p = active ∧ sp_start p = Some now;
  pb_end : sp_end p = match tr_duration_days t with
                      | Some d => if d =? 0 then sp_end self else Some (now + (d + sp_free_trial_days self) * day)
                      | None => sp_end self
                      end
}.

Lemma activate_begins self t now x :
  Subscriptions.store_ok x → tier_of self x = Some t →
  ∃ p x', activate self now x = (inr p, x') ∧ period_begun self t now p x x'.
Proof.
  intros Hx Ht. destruct (activate_run self now x Hx) as (w & ns & Hrun & Hok & _).
  rewrite Ht in Hrun, Hok. eexists _, _. split; [exact Hrun|].
  split; [exact Hok|reflexivity|reflexivity|..]; cbn; unfold started; repeat case_match; done.
Qed.

(** The end of [renew] and of [create]. *)
Definition begin_period (self : plan) (t : tier) (price : Z) (method pk act reason transaction : string)
    (user : plan → option Z) (now : Z) : M store plan :=
  p ← in_subs (activate self now);
  _record_payment pk p t price method now ≫= λ _,
  add_history (History (sp_id p) (user p) (Some (tr_id t)) act reason transaction) ≫= λ _,
  mret p.

Lemma begin_run self t price method pk act reason tx user now s :
  store_ok s → tier_of self (m_subs s) = Some t →
  ∃ p x, begin_period self t price method pk act reason tx user now s
    = (inr p, with_history (m_history s ++ [History (sp_id p) (user p) (Some (tr_id t)) act reason tx])
        (with_payments (m_payments s ++ [payment_of pk p t price method now]) (with_subs x s)))
    ∧ period_begun self t now p (m_subs s) x.
Proof.
  intros Hs Ht. destruct (activate_begins self t now (m_subs s) Hs Ht) as (p & x & Hact & Hx).
  destruct (SubscriptionGift.signal_run (pd_payment (payment_of pk p t price method now)) now x) as (w & Hsig & Hw).
  { apply Hx. }
  exists p, (with_coins w x). split.
  - unfold begin_period. rewrite bind_run. unfold in_subs at 1. rewrite zoom_run, Hact. cbn [fst snd].
    rewrite bind_run. unfold _record_payment. rewrite bind_run. unfold modify at 1. unfold in_subs. rewrite zoom_run.
    cbn [m_subs with_payments with_subs]. unfold payment_of in Hsig. cbn [pd_payment] in Hsig. rewrite Hsig. reflexivity.
  - destruct Hx as [[Htr Hwo Hid] ? ? ? ? ?]. split; [split; [exact Htr|exact Hw|exact Hid]|done..].
Qed.

Lemma renew_begins p t price method tx otp expires pk now s :
  renew p t price method tx otp expires pk now s
  = begin_period (set_tier t p) t price method pk "renewed" ("Subscription renewed via " +:+ method) tx sp_user now
      (with_lines (alter (set_otp otp expires) (sp_id p) (m_lines s))
        (with_subs (with_plans (alter (set_tier t) (sp_id p) (s_plans (m_subs s))) (m_subs s)) s)).
Proof. unfold renew, in_subs. rewrite bind_run, zoom_run. reflexivity. Qed.

Lemma create_begins user phone t price method tx otp expires d now s :
  s_plans (m_subs s) !! d_plan d = None →
  create user phone t price method tx otp expires d now s
  = begin_period (new_plan (d_plan d) user t (if has_history phone s then 0 else FIRST_TIME_FREE_TRIAL_DAYS)) t price method
      (d_payment d) "created" ("Subscription created via " +:+ method +:+ " SMS") tx (λ _, user) now
      (with_lines (<[d_plan d := Line (Some phone) "sms" method otp expires now]> (m_lines s))
        (with_subs (with_plans (<[d_plan d := new_plan (d_plan d) user t (if has_history phone s then 0 else FIRST_TIME_FREE_TRIAL_DAYS)]>
           (s_plans (m_subs s))) (m_subs s)) s)).
Proof.
  intros Hd. unfold create. rewrite bind_run. cbn [get]. rewrite Hd, bool_decide_true by done.
  rewrite bind_run. cbn [assert_or mret M_ret]. rewrite bind_run. unfold in_subs at 1. rewrite zoom_run. reflexivity.
Qed.

(** ** What [subscribe] does *)

Definition conflicting (user : option Z) (phone duration_type : string) (s : store) (p : plan) : bool :=
  active_plan p && held_by user phone s p && negb (String.eqb (sp_duration_type p) duration_type).

Definition switched : string := "Cancelled due to new subscription of different duration type".

(** The code given out, unless the subscriber signs in with a PIN. *)
Definition code_for (user : option Z) (d : draw) (s : store) : option string :=
  if can_sign_in_with_pin user s then None else Some (d_otp d).
Definition code_expiry (user : option Z) (now : Z) (s : store) : option Z :=
  if can_sign_in_with_pin user s then None else Some (now + 30 * minute).

Record subscribed (user : option Z) (phone : string) (t : tier) (price : Z) (method tx : string) (d : draw) (now : Z)
    (s : store) (x : result) (s' : store) : Prop := Subscribed {
  sb_ok : store_ok s';
  sb_tiers : s_tiers (m_subs s') = s_tiers (m_subs s);
  sb_plan : sp_user (rs_plan x) = user ∧ sp_tier (rs_plan x) = Some (tr_id t)
            ∧ sp_duration_type (rs_plan x) = tr_duration_type t;
  sb_period : sp_status (rs_plan x) = active ∧ sp_start (rs_plan x) = Some now
              ∧ (∀ n, tr_duration_days t = Some n → n ≠ 0 →
                   sp_end (rs_plan x) = Some (now + (n + sp_free_trial_days (rs_plan x)) * day));
  sb_plans : s_plans (m_subs s') = <[sp_id (rs_plan x) := rs_plan x]>
               (cancel_rows (conflicting user phone (tr_duration_type t) s) switched now (s_plans (m_subs s)));
  sb_line : ∃ l, m_lines s' !! sp_id (rs_plan x) = Some l ∧ ln_setup_otp l = code_for user d s
                 ∧ ln_setup_otp_expires_at l = code_expiry user now s ∧ (user = None → ln_phone l = Some phone)
                 ∧ m_lines s' = <[sp_id (rs_plan x) := l]> (m_lines s);
  sb_which : (action x = "renewed" ∧ ∃ q, s_plans (m_subs s) !! sp_id (rs_plan x) = Some q ∧ active_plan q = true
                ∧ held_by user phone s q = true ∧ sp_duration_type q = tr_duration_type t
                ∧ sp_free_trial_days (rs_plan x) = sp_free_trial_days q)
             ∨ (action x = "created" ∧ s_plans (m_subs s) !! sp_id (rs_plan x) = None
                ∧ sp_free_trial_days (rs_plan x) = (if has_history phone s then 0 else FIRST_TIME_FREE_TRIAL_DAYS)
                ∧ ∀ id q, s_plans (m_subs s) !! id = Some q → active_plan q = true → held_by user phone s q = true →
                    sp_duration_type q ≠ tr_duration_type t);
  sb_payments : m_payments s' = m_payments s ++ [payment_of (d_payment d) (rs_plan x) t price method now];
  sb_history : m_history s' = m_history s
    ++ (cancelled_row switched tx <$> List.filter (conflicting user phone (tr_duration_type t) s) (newest_first s))
    ++ [History (sp_id (rs_plan x)) user (Some (tr_id t)) (action x)
          (if String.eqb (action x) "renewed" then "Subscription renewed via " +:+ method
           else "Subscription created via " +:+ method +:+ " SMS") tx];
  sb_rest : m_profiles s' = m_profiles s ∧ m_passwords s' = m_passwords s ∧ m_sms s' = m_sms s;
  sb_code : rs_otp x = code_for user d s ∧ can_sign_in x = can_sign_in_with_pin user s
            ∧ existing_user x = bool_decide (is_Some user)
}.

Lemma cancel_rows_none f reason now m id : cancel_rows f reason now m !! id = None ↔ m !! id = None.
Proof. unfold cancel_rows. rewrite lookup_fmap. by destruct (m !! id). Qed.

Lemma cancel_rows_active f reason now m id p :
  cancel_rows f reason now m !! id = Some p → active_plan p = true → m !! id = Some p ∧ f p = false.
Proof.
  unfold cancel_rows. rewrite lookup_fmap. destruct (m !! id) as [q|]; [|done]. cbn. intros [= <-].
  destruct (f q) eqn:Hf; [by unfold active_plan; rewrite bool_decide_false|done].
Qed.

Lemma cancelled_ok f reason now s x :
  store_ok s → x = with_plans (cancel_rows f reason now (s_plans (m_subs s))) (m_subs s) → Subscriptions.store_ok x.
Proof.
  intros [Ht Hw Hids] ->. split; [exact Ht|exact Hw|]. cbn. intros id p. unfold cancel_rows. rewrite lookup_fmap.
  destruct (s_plans (m_subs s) !! id) as [q|] eqn:Hq; [|done]. cbn. intros [= <-]. specialize (Hids _ _ Hq).
  by destruct (f q).
Qed.

(** The holder of a plan, read off its row and its line. *)
Lemma held_user user phone s p : held_by user phone s p = true → sp_user p = user.
Proof.
  unfold held_by. destruct user; [by intros ?%bool_decide_eq_true|].
  by intros [_ ?%bool_decide_eq_true]%andb_true_iff.
Qed.

Lemma has_history_spec phone s :
  store_ok s → has_history phone s = true ↔
  ∃ id l, is_Some (s_plans (m_subs s) !! id) ∧ m_lines s !! id = Some l ∧ ln_phone l = Some phone.
Proof.
  intros Hs. unfold has_history. rewrite existsb_exists. split.
  - intros (p & Hp%list_elem_of_In & Hph%bool_decide_eq_true). apply in_newest in Hp; [|done].
    unfold line_of in Hph. destruct (m_lines s !! sp_id p) as [l|] eqn:Hl; [|done]. by exists (sp_id p), l.
  - intros (id & l & [p Hp] & Hl & Hph). exists p. pose proof (ok_ids _ Hs _ _ Hp) as Hid. split.
    + apply list_elem_of_In, in_newest; [done|]. by rewrite Hid.
    + unfold phone_is, line_of. rewrite Hid, Hl. by apply bool_decide_eq_true.
Qed.

Lemma has_history_ext phone s s' :
  store_ok s → store_ok s' → m_lines s' = m_lines s →
  (∀ id, is_Some (s_plans (m_subs s') !! id) ↔ is_Some (s_plans (m_subs s) !! id)) →
  has_history phone s' = has_history phone s.
Proof.
  intros Hs Hs' Hl Hp. apply eq_bool_prop_intro. rewrite !Is_true_true, !has_history_spec by done.
  rewrite Hl. by setoid_rewrite Hp.
Qed.

(** The store when the other plans have been cancelled. *)
Definition after_cancel (user : option Z) (phone : string) (t : tier) (tx : string) (now : Z) (s : store) : store :=
  let f := conflicting user phone (tr_duration_type t) s in
  with_history (m_history s ++ (cancelled_row switched tx <$> List.filter f (newest_first s)))
    (with_subs (with_plans (cancel_rows f switched now (s_plans (m_subs s))) (m_subs s)) s).

Section Branches.
Context (user : option Z) (phone : string) (t : tier) (price : Z) (method tx : string) (d : draw) (now : Z) (s : store).
Context (Hs : store_ok s) (Ht : s_tiers (m_subs s) !! tr_id t = Some t).

Let f := conflicting user phone (tr_duration_type t) s.
Let s1 := after_cancel user phone t tx now s.
Let answer act p := SubscribeResult act p (code_for user d s) (sp_free_trial_days p) (bool_decide (is_Some user)) (can_sign_in_with_pin user s).

Lemma after_cancel_ok : store_ok s1.
Proof using Hs. by eapply (cancelled_ok f switched now s). Qed.

Lemma subscribe_renews q :
  (∀ id p, s_plans (m_subs s) !! id = Some p → is_Some (m_lines s !! id)) →
  existing_plan user phone (tr_duration_type t) s1 = Some q →
  ∃ p s', renew q t price method tx (code_for user d s) (code_expiry user now s) (d_payment d) now s1 = (inr p, s')
    ∧ subscribed user phone t price method tx d now s (answer "renewed" p) s'.
Proof using Hs Ht.
  intros Hlines Hex. pose proof after_cancel_ok as Hs1.
  unfold existing_plan in Hex. apply List.find_some in Hex as [Hq Hf].
  apply list_elem_of_In, (in_newest s1 q Hs1) in Hq.
  apply andb_true_iff in Hf as [[Hact Hdur%String.eqb_eq]%andb_true_iff Hheld].
  assert (Hq0 : s_plans (m_subs s) !! sp_id q = Some q) by (by apply (cancel_rows_active f switched now)).
  destruct (Hlines _ _ Hq0) as [l Hl].
  rewrite renew_begins.
  match goal with |- context [begin_period ?a ?b ?c ?e ?g ?h ?i ?j ?k ?o ?st] =>
    destruct (begin_run a b c e g h i j k o st) as (p & x & Hrun & Hp) end.
  { destruct Hs1 as [Htr Hw Hid]. split; [exact Htr|exact Hw|]. cbn. intros id p.
    rewrite lookup_alter_Some. intros [(<- & r & Hr & ->)|[_ Hp]]; [by apply (Hid _ _ Hr)|by apply (Hid _ _ Hp)]. }
  { exact Ht. }
  rewrite Hrun. eexists _, _. split; [reflexivity|].
  destruct Hp as [Hok Hpl Htr (Hid & Hu & Hti & Hdu & Htrial) [Ha Hst] Hend]. cbn in Hpl, Htr, Hid, Hu, Hti, Hdu, Htrial, Hend.
  assert (Hpu : sp_user p = user) by (rewrite Hu; by apply (held_user user phone s1)).
  split; cbn.
  + exact Hok.
  + exact Htr.
  + done.
  + split; [done|]. split; [done|]. intros n Hn Hnz. by rewrite Hend, Hn, (proj2 (Z.eqb_neq n 0)), Htrial.
  + rewrite Hpl, Hid, insert_alter_eq. done.
  + exists (set_otp (code_for user d s) (code_expiry user now s) l). rewrite Hid, lookup_alter_eq, Hl. split_and!; try done.
    * intros ->. unfold held_by in Hheld. apply andb_true_iff in Hheld as [Hph%bool_decide_eq_true _].
      unfold line_of in Hph. cbn in Hph. rewrite Hl in Hph. exact Hph.
    * apply map_eq. intros id. destruct (decide (id = sp_id q)) as [->|Hne].
      -- by rewrite lookup_alter_eq, lookup_insert_eq, Hl.
      -- by rewrite lookup_alter_ne, lookup_insert_ne.
  + left. split; [done|]. exists q. rewrite Hid. done.
  + done.
  + rewrite <- app_assoc, Hpu. done.
  + done.
  + done.
Qed.

Lemma subscribe_creates :
  s_plans (m_subs s) !! d_plan d = None →
  existing_plan user phone (tr_duration_type t) s1 = None →
  ∃ p s', create user phone t price method tx (code_for user d s) (code_expiry user now s) d now s1 = (inr p, s')
    ∧ subscribed user phone t price method tx d now s (answer "created" p) s'.
Proof using Hs Ht.
  intros Hd Hex. pose proof after_cancel_ok as Hs1.
  assert (Hd1 : s_plans (m_subs s1) !! d_plan d = None) by (by apply cancel_rows_none).
  rewrite create_begins by done.
  match goal with |- context [begin_period ?a ?b ?c ?e ?g ?h ?i ?j ?k ?o ?st] =>
    destruct (begin_run a b c e g h i j k o st) as (p & x & Hrun & Hp) end.
  { destruct Hs1 as [Htr Hw Hid]. split; [exact Htr|exact Hw|]. cbn. intros id p.
    rewrite lookup_insert_Some. intros [[<- <-]|[_ Hp]]; [done|by apply (Hid _ _ Hp)]. }
  { exact Ht. }
  rewrite Hrun. eexists _, _. split; [reflexivity|].
  destruct Hp as [Hok Hpl Htr (Hid & Hu & Hti & Hdu & Htrial) [Ha Hst] Hend]. cbn in Hpl, Htr, Hid, Hu, Hti, Hdu, Htrial, Hend.
  split; cbn.
  + exact Hok.
  + exact Htr.
  + done.
  + split; [done|]. split; [done|]. intros n Hn Hnz. by rewrite Hend, Hn, (proj2 (Z.eqb_neq n 0)), Htrial.
  + rewrite Hpl, Hid, insert_insert_eq. reflexivity.
  + eexists. rewrite Hid, lookup_insert_eq. split; [reflexivity|]. by split_and!.
  + right. rewrite Hid, Htrial. split; [done|]. split; [done|]. split.
    { rewrite (has_history_ext phone s s1); [done..|]. intros id. cbn. unfold cancel_rows. by rewrite lookup_fmap, fmap_is_Some. }
    intros id q' Hq' Hact Hheld Hdur. unfold existing_plan in Hex.
    assert (Hin : q' ∈ newest_first s1).
    { apply in_newest; [done|]. rewrite (ok_ids _ Hs _ _ Hq'). cbn. unfold cancel_rows. rewrite lookup_fmap, Hq'. cbn.
      unfold conflicting. by rewrite Hact, Hheld, Hdur, String.eqb_refl. }
    apply list_elem_of_In in Hin. pose proof (List.find_none _ _ Hex _ Hin) as Hno. cbn in Hno.
    rewrite Hact, Hdur, String.eqb_refl in Hno. cbn in Hno. unfold held_by, phone_is, line_of in Hheld, Hno. cbn in Hno. congruence.
  + done.
  + rewrite <- app_assoc. done.
  + done.
  + done.
Qed.

End Branches.

(** The subscriber a call of [subscribe] is about. *)
Definition identify (user : option Z) (phone : string) : M store (option Z) :=
  match user with Some u => mret (Some u) | None => resolve_subscriber phone end.

(** Every plan has its line. *)
Definition lined (s : store) : Prop := ∀ id p, s_plans (m_subs s) !! id = Some p → is_Some (m_lines s !! id).

(** Either the whole change is made, or nothing is: the latter only when a key
    drawn for a new plan is taken. *)
Lemma subscribe_cases user0 user phone t price method tx d now s0 s :
  identify user0 phone s0 = (inr user, s) →
  store_ok s → s_tiers (m_subs s) !! tr_id t = Some t → lined s →
  (∃ x s', subscribe phone t price method tx user0 d now s0 = (inr x, s') ∧ subscribed user phone t price method tx d now s x s')
  ∨ (∃ e, subscribe phone t price method tx user0 d now s0 = (inl e, s0) ∧ is_Some (s_plans (m_subs s) !! d_plan d)).
Proof.
  intros Hres Hs Ht Hlines. unfold subscribe, atomic. fold (identify user0 phone).
  rewrite bind_run, Hres. rewrite bind_run. cbn [get].
  rewrite bind_run. unfold _cancel_conflicting_plans. rewrite bind_run. cbn [get].
  fold (conflicting user phone (tr_duration_type t) s). fold switched.
  rewrite (cancel_all_run (conflicting user phone (tr_duration_type t) s)) by done.
  rewrite bind_run. cbn [get]. fold (after_cancel user phone t tx now s).
  fold (code_for user d s) (code_expiry user now s).
  destruct (existing_plan user phone (tr_duration_type t) (after_cancel user phone t tx now s)) as [q|] eqn:Hex.
  - left. destruct (subscribe_renews user phone t price method tx d now s Hs Ht q Hlines Hex) as (p & s' & Hrun & Hx).
    rewrite bind_run, Hrun. by eexists _, _.
  - destruct (s_plans (m_subs s) !! d_plan d) as [r|] eqn:Hd; [right|left].
    + rewrite bind_run. unfold create. rewrite bind_run. cbn [get after_cancel m_subs with_history with_subs with_plans s_plans].
      rewrite bool_decide_false by (unfold cancel_rows; by rewrite lookup_fmap, Hd). rewrite bind_run. cbn. by eexists.
    + destruct (subscribe_creates user phone t price method tx d now s Hs Ht Hd Hex) as (p & s' & Hrun & Hx).
      rewrite bind_run, Hrun. by eexists _, _.
Qed.

(** ** One plan for a subscriber *)

(** Two plans of one account, or of one number without an account. *)
Definition same_holder (s : store) (i j : Z) (p q : plan) : Prop :=
  match sp_user p, sp_user q with
  | Some u, Some v => u = v
  | None, None => ∃ phone, (m_lines s !! i ≫= ln_phone) = Some phone ∧ (m_lines s !! j ≫= ln_phone) = Some phone
  | _, _ => False
  end.

Definition single (s : store) : Prop :=
  ∀ i j p q, s_plans (m_subs s) !! i = Some p → s_plans (m_subs s) !! j = Some q →
    active_plan p = true → active_plan q = true → same_holder s i j p q → i = j.

Lemma same_holder_sym s i j p q : same_holder s i j p q → same_holder s j i q p.
Proof. unfold same_holder. destruct (sp_user p), (sp_user q); try done. intros (ph & ? & ?). by exists ph. Qed.

(** A plan with the holder of one that [user] and [phone] hold. *)
Lemma held_same s s' i j p q user phone :
  sp_user p = user → (user = None → (m_lines s' !! i ≫= ln_phone) = Some phone) →
  sp_id q = j → m_lines s' !! j = m_lines s !! j → same_holder s' i j p q → held_by user phone s q = true.
Proof.
  intros Hu Hph Hj Hl. unfold same_holder, held_by, phone_is, line_of. rewrite Hu, Hj.
  destruct user as [u|], (sp_user q) as [v|]; try done.
  - intros ->. by apply bool_decide_eq_true.
  - intros (ph & Hi & Hq). rewrite (Hph eq_refl) in Hi. injection Hi as <-. rewrite Hl in Hq.
    apply andb_true_iff. by rewrite !bool_decide_eq_true.
Qed.

Lemma held_by_same s i j p q user phone :
  sp_id p = i → sp_id q = j → held_by user phone s p = true → held_by user phone s q = true → same_holder s i j p q.
Proof.
  unfold held_by, same_holder, phone_is, line_of. intros <- <-. destruct user as [u|].
  - rewrite !bool_decide_eq_true. intros -> ->. done.
  - rewrite !andb_true_iff, !bool_decide_eq_true. intros [Hp ->] [Hq ->]. by exists phone.
Qed.

Lemma subscribed_single user phone t price method tx d now s x s' :
  store_ok s → single s → subscribed user phone t price method tx d now s x s' → single s'.
Proof.
  intros Hs H1 Hx. destruct Hx as [Hok _ (Hu & _ & _) _ Hplans (l & Hl & _ & _ & Hph & Hlines) Hwhich _ _ _ _].
  set (k := sp_id (rs_plan x)) in *. set (f := conflicting user phone (tr_duration_type t) s) in *.
  assert (Hother : ∀ j q, j ≠ k → s_plans (m_subs s') !! j = Some q → active_plan q = true →
    s_plans (m_subs s) !! j = Some q ∧ f q = false ∧ m_lines s' !! j = m_lines s !! j).
  { intros j q Hne. rewrite Hplans, Hlines, !lookup_insert_ne by done. intros Hq Ha.
    by destruct (cancel_rows_active _ _ _ _ _ _ Hq Ha). }
  assert (Hnew : ∀ j q, j ≠ k → s_plans (m_subs s') !! j = Some q → active_plan q = true → ¬ same_holder s' k j (rs_plan x) q).
  { intros j q Hne Hq Ha Hsame. destruct (Hother j q Hne Hq Ha) as (Hq0 & Hf & Hlj).
    pose proof (ok_ids _ Hs _ _ Hq0) as Hj.
    assert (Hheld : held_by user phone s q = true).
    { apply (held_same s s' k j (rs_plan x)); try done. intros Hn. rewrite Hl. cbn. by apply Hph. }
    assert (Hdur : sp_duration_type q = tr_duration_type t).
    { unfold f, conflicting in Hf. rewrite Ha, Hheld in Hf. cbn in Hf. by apply negb_false_iff, String.eqb_eq in Hf. }
    destruct Hwhich as [(_ & q0 & Hq0' & Ha0 & Hheld0 & _ & _)|(_ & _ & _ & Hnone)].
    - apply Hne. apply (H1 j k q q0); try done. apply (held_by_same _ _ _ _ _ user phone); try done. by apply (ok_ids _ Hs).
    - by apply (Hnone j q). }
  intros i j p q Hp Hq Ha Hb Hsame.
  destruct (decide (i = k)) as [->|Hi], (decide (j = k)) as [->|Hj]; try done.
  - exfalso. assert (p = rs_plan x) as -> by (rewrite Hplans, lookup_insert_eq in Hp; congruence). by apply (Hnew j q).
  - exfalso. assert (q = rs_plan x) as -> by (rewrite Hplans, lookup_insert_eq in Hq; congruence).
    by apply (Hnew i p), same_holder_sym.
  - destruct (Hother i p Hi Hp Ha) as (Hp0 & _ & Hli), (Hother j q Hj Hq Hb) as (Hq0 & _ & Hlj).
    apply (H1 i j p q); try done. unfold same_holder in *. by rewrite <- Hli, <- Hlj.
Qed.

Lemma subscribed_lined user phone t price method tx d now s x s' :
  lined s → subscribed user phone t price method tx d now s x s' → lined s'.
Proof.
  intros Hs Hx id p. destruct Hx as [_ _ _ _ Hplans (l & Hl & _ & _ & _ & Hlines) _ _ _ _ _].
  rewrite Hplans, Hlines, lookup_insert_Some. intros [[<- _]|[Hne Hp]]; [by rewrite lookup_insert_eq|].
  rewrite lookup_insert_ne by done. unfold cancel_rows in Hp. rewrite lookup_fmap in Hp.
  destruct (s_plans (m_subs s) !! id) as [q|] eqn:Hq; [|done]. by apply (Hs id q).
Qed.

(** Finding the subscriber writes nothing but a profile's number. *)
Lemma resolve_run phone s :
  ∃ r ps, resolve_subscriber phone s = (r, with_profiles ps s) ∧ (r = inr None ∨ (∃ e, r = inl e) → ps = m_profiles s).
Proof.
  assert (∀ (r : exn + option Z), ∃ r' ps, (r, s) = (r', with_profiles ps s) ∧ (r' = inr None ∨ (∃ e, r' = inl e) → ps = m_profiles s)) as Hsame.
  { intros r. exists r, (m_profiles s). split; [by destruct s|done]. }
  unfold resolve_subscriber. rewrite bind_run. cbn [get]. destruct (String.eqb phone ""); [apply Hsame|].
  destruct (List.find _ (m_profiles s)) as [[u ?]|]; [apply Hsame|].
  destruct (List.find (phone_is phone s) _) as [p|]; [|apply Hsame].
  destruct (sp_user p) as [u|]; [|apply Hsame]. destruct (profile_of u s) as [number|]; [|apply Hsame].
  unfold when. destruct (String.eqb _ ""); rewrite bind_run; cbn; [|apply Hsame].
  eexists _, _. split; [reflexivity|]. intros [?|[? ?]]; done.
Qed.

(** ** What [unsubscribe] does *)

Definition mine (user : option Z) (phone : string) (s : store) (p : plan) : bool :=
  match user with Some u => bool_decide (sp_user p = Some u) | None => phone_is phone s p end.
Definition stopped (user : option Z) (phone duration_type : string) (s : store) (p : plan) : bool :=
  active_plan p && mine user phone s p && (String.eqb duration_type "" || String.eqb (sp_duration_type p) duration_type).

Definition unsubscribed (user : option Z) (phone duration_type reason tx : string) (now : Z) (s : store) : store :=
  let f := stopped user phone duration_type s in
  with_history (m_history s ++ (cancelled_row reason tx <$> List.filter f (newest_first s)))
    (with_subs (with_plans (cancel_rows f reason now (s_plans (m_subs s))) (m_subs s)) s).

Lemma unsubscribe_run user0 user phone duration_type reason tx now s0 s :
  identify user0 phone s0 = (inr user, s) → store_ok s →
  unsubscribe phone duration_type reason tx user0 now s0
  = (inr (List.filter (stopped user phone duration_type s) (newest_first s)), unsubscribed user phone duration_type reason tx now s).
Proof.
  intros Hres Hs. unfold unsubscribe, atomic. fold (identify user0 phone). rewrite bind_run, Hres.
  rewrite bind_run. cbn [get]. rewrite bind_run. fold (mine user phone s). fold (stopped user phone duration_type s).
  rewrite (cancel_all_run (stopped user phone duration_type s)) by done. reflexivity.
Qed.

Lemma unsubscribed_keeps user phone duration_type reason tx now s :
  store_ok s → lined s → single s →
  let s' := unsubscribed user phone duration_type reason tx now s in store_ok s' ∧ lined s' ∧ single s'.
Proof.
  intros Hs Hl H1 s'. split_and!.
  - by eapply (cancelled_ok (stopped user phone duration_type s)).
  - intros id p. cbn. unfold cancel_rows. rewrite lookup_fmap.
    destruct (s_plans (m_subs s) !! id) as [q|] eqn:Hq; [|done]. intros _. by apply (Hl id q).
  - intros i j p q Hp Hq Ha Hb Hsame. cbn in Hp, Hq. apply cancel_rows_active in Hp as [Hp _]; [|done].
    apply cancel_rows_active in Hq as [Hq _]; [|done]. by apply (H1 i j p q).
Qed.

(** An announced subscription starts exactly one period.  When the number
    is that of [user] (or of nobody) and the tier exists, [subscribe] always
    returns: the subscriber's plan of the tier's duration is renewed, or a new
    one made, active from now for the tier's days and the plan's trial days;
    their active plans of other durations are cancelled, and no other plan is
    touched; one payment at the tier's price covers the new period, and one
    line of history says so after those of the cancellations; the code for
    setting a PIN replaces the old one and dies in half an hour, and is
    withheld from who can sign in. *)
Theorem subscribe_starts_one_period user0 user phone t price method tx d now s0 s :
  identify user0 phone s0 = (inr user, s) →
  store_ok s → s_tiers (m_subs s) !! tr_id t = Some t → lined s → s_plans (m_subs s) !! d_plan d = None →
  ∃ x s', subscribe phone t price method tx user0 d now s0 = (inr x, s')
    ∧ subscribed user phone t price method tx d now s x s'.
Proof.
  intros Hres Hs Ht Hl Hd.
  destruct (subscribe_cases user0 user phone t price method tx d now s0 s Hres Hs Ht Hl) as [?|(e & _ & [q Hq])]; [done|congruence].
Qed.

(** ** Small runs *)

Definition daily_tier : tier := Tier 1 "Daily" "daily" (Some 1) 0 5 None.
Definition weekly_tier : tier := Tier 2 "Weekly" "weekly" (Some 7) 0 35 None.
Definition empty_store : store :=
  Store (Subscriptions.Store (<[1 := daily_tier]> (<[2 := weekly_tier]> ∅)) ∅ [] (CoinBalance.Wallet ∅ []) [])
    ∅ [(7, Some "251911000007"%string); (8, None)] (<[7 := "pbkdf2$x"%string]> ∅) [] [] [].

Definition told (x : exn + result) : string * option string * Z :=
  match x with inr r => (action r, rs_otp r, default 0 (sp_end (rs_plan r)) / day) | inl _ => (""%string, None, 0) end.

(** The day of trial is on the plan, and is given again with each renewal. *)
Example every_renewal_has_a_trial_day :
  let day_of k := subscribe "251911223344" daily_tier 300 "timwe" "" None (Draw "123456" 1 "p") (k * day) in
  let '(a, s1) := day_of 100 empty_store in
  let '(b, s2) := day_of 101 s1 in
  let '(c, _) := day_of 102 s2 in
  (told a, told b, told c)
  = (("created"%string, Some "123456"%string, 102), ("renewed"%string, Some "123456"%string, 103), ("renewed"%string, Some "123456"%string, 104)).
Proof. vm_compute. reflexivity. Qed.

(** A number that subscribed before its owner registered has two plans after
    the next subscription, and a STOP ends only one. *)
Example two_plans_for_one_number :
  let '(_, s1) := subscribe "251911000008" daily_tier 300 "timwe" "" None (Draw "123456" 1 "p") (100 * day) empty_store in
  let s2 := with_profiles [(7, Some "251911000007"%string); (8, Some "251911000008"%string)] s1 in
  let '(_, s3) := subscribe "251911000008" daily_tier 300 "timwe" "" None (Draw "123457" 2 "q") (101 * day) s2 in
  let '(l, s4) := unsubscribe "251911000008" "daily" "STOP1" "" None (101 * day) s3 in
  let live s := (λ p, (sp_id p, sp_user p)) <$> List.filter active_plan (newest_first s) in
  (live s3, live s4) = ([(2, Some 8); (1, None)], [(1, None)]).
Proof. vm_compute. reflexivity. Qed.

Lemma subscribe_starts_one_period_witness :
  let d := Draw "123456" 1 "p" in
  ∃ x s', subscribe "251911000007" daily_tier 300 "timwe" "TX" None d (100 * day) empty_store = (inr x, s')
    ∧ subscribed (Some 7) "251911000007" daily_tier 300 "timwe" "TX" d (100 * day) empty_store x s'.
Proof.
  cbv zeta. apply (subscribe_starts_one_period None (Some 7)).
  - reflexivity.
  - split.
    + intros id t. cbn. intros [[<- <-]|[_ [[<- <-]|[_ []%lookup_empty_Some]]%lookup_insert_Some]]%lookup_insert_Some; cbn; lia.
    + apply CoinBalance.wallet_ok_empty.
    + done.
  - reflexivity.
  - done.
  - reflexivity.
Defined.

End SmsSubscription.
