(* ===== verification/SyncEndpoint.v ===== *)
(** * SyncEndpoint: notifications applied to subscriptions

    Models [src/api/views/timwe.py]: what one notification does, from the
    bytes of the request to the code answered, over [SyncOrder] and
    [SmsSubscription].

    The endpoint looks for an applied row of the same transaction, changes the
    subscription in a transaction of its own, queues the text message, and
    marks its row applied at the end.  [sync_open] is what comes before the
    change, [sync_apply] the rest; requests can interleave between them. *)

From Stdlib Require Import ZArith Lia.
From stdpp Require Import gmap strings.
From S2P Require Import Prelude CoinBalance Subscriptions SubscriptionGift SmsQueue SyncOrder SmsSubscription.

Module SyncEndpoint.
Import SyncOrder SmsSubscription.

(** ** The log *)

(** [TimweSyncOrderLog]. *)
Record sync_log := TimweSyncOrderLog {
  lg_event_type : string; lg_update_type : option Z; lg_msisdn : string; lg_transaction_id : string;
  lg_update_time : option Z; lg_expiry_time : option Z; lg_relation : option relation;
  lg_applied : bool; lg_result_code : string; lg_result_description : string; lg_error_message : string;
  lg_user : option Z
}.

Record store := Store { t_sms : SmsSubscription.store; t_log : list sync_log }.

Definition in_sms_subscription {A} : M SmsSubscription.store A → M store A :=
  zoom t_sms (λ x s, Store x (t_log s)).

Definition add_log (l : sync_log) : M store nat :=
  s ← get; put (Store (t_sms s) (t_log s ++ [l])) ≫= λ _, mret (length (t_log s)).
Definition save_log (i : nat) (f : sync_log → sync_log) : M store unit :=
  modify (λ s, Store (t_sms s) (alter f i (t_log s))).

Definition SYNC_OK : string := "0".
Definition SYNC_INVALID_FORMAT : string := "1211".
Definition SYNC_SERVICE_NOT_FOUND : string := "2032".
Definition SYNC_INTERNAL_ERROR : string := "2500".
Definition SYNC_ORDER_RELATION_ERRORS (code : string) : string :=
  if String.eqb code SYNC_OK then "Success"
  else if String.eqb code SYNC_INVALID_FORMAT then "The field format is incorrect or the value is invalid."
  else if String.eqb code SYNC_SERVICE_NOT_FOUND then "The service does not exist."
  else if String.eqb code SYNC_INTERNAL_ERROR then "An internal system error occurred."
  else "Request failed.".

Definition closed (code description error : string) (l : sync_log) : sync_log :=
  TimweSyncOrderLog (lg_event_type l) (lg_update_type l) (lg_msisdn l) (lg_transaction_id l) (lg_update_time l)
    (lg_expiry_time l) (lg_relation l) (lg_applied l) code description error (lg_user l).
Definition attributed (user : option Z) (l : sync_log) : sync_log :=
  TimweSyncOrderLog (lg_event_type l) (lg_update_type l) (lg_msisdn l) (lg_transaction_id l) (lg_update_time l)
    (lg_expiry_time l) (lg_relation l) (lg_applied l) (lg_result_code l) (lg_result_description l) (lg_error_message l) user.
Definition set_applied (applied : bool) (l : sync_log) : sync_log :=
  TimweSyncOrderLog (lg_event_type l) (lg_update_type l) (lg_msisdn l) (lg_transaction_id l) (lg_update_time l)
    (lg_expiry_time l) (lg_relation l) applied (lg_result_code l) (lg_result_description l) (lg_error_message l) (lg_user l).

(** The row of a request that could not be parsed, and that of one that was. *)
Definition unparsed (error : string) : sync_log :=
  TimweSyncOrderLog "unknown" None "" "" None None None false SYNC_INVALID_FORMAT
    (SYNC_ORDER_RELATION_ERRORS SYNC_INVALID_FORMAT) error None.
Definition received (r : relation) : sync_log :=
  TimweSyncOrderLog (event_label r) (Some (update_type r)) (msisdn r) (transaction_id r)
    (parse_ma_timestamp (update_time r)) (parse_ma_timestamp (expiry_time r)) (Some r) false "" "" "" None.

(** The widths of the columns. *)
Definition fits (r : relation) : bool :=
  forallb (λ wv : nat * string, Nat.leb (String.length wv.2) wv.1)
    [(30%nat, msisdn r); (21%nat, sp_id r); (21%nat, product_id r); (21%nat, service_id r); (128%nat, transaction_id r);
     (128%nat, order_key r); (32%nat, keyword r); (16%nat, update_reason r)].

(** ** The endpoint *)

Record settings := Settings {
  cf_enabled : bool; cf_link_base : string; cf_provider : string; cf_products : list product;
  cf_allowed : list string; cf_fromstring : string → string + element
}.

(** [cf_fromstring] is [ET.fromstring], [cf_allowed] is [TIMWE_ALLOWED_IPS]. *)

(** A code and its description, under an HTTP status. *)
Record answer := Answer { an_status : Z; an_code : string; an_description : string }.
Definition build_response (code description : string) : answer := Answer 200 code description.
Definition build_error_response (code description : string) : answer :=
  Answer 200 code (or_str description (SYNC_ORDER_RELATION_ERRORS code)).

(** A notification about to be applied: its row, what it says, and for whom. *)
Record pending := Pending { pn_log : nat; pn_relation : relation; pn_product : product; pn_tier : Subscriptions.tier; pn_user : option Z }.

(** [ip] is what [get_client_ip] answers. *)
Definition _source_allowed (cf : settings) (ip : string) : bool :=
  match List.filter (λ a, negb (String.eqb a "")) (strip <$> cf_allowed cf) with
  | [] => true
  | allowed => bool_decide (ip ∈ allowed)
  end.

Definition already_applied (r : relation) (s : store) : bool :=
  negb (String.eqb (transaction_id r) "")
  && existsb (λ l, lg_applied l && String.eqb (lg_transaction_id l) (transaction_id r)) (t_log s).

Definition finish (i : nat) (applied : bool) (description : string) : M store answer :=
  save_log i (λ l, closed SYNC_OK description (lg_error_message l) (set_applied applied l)) ≫= λ _,
  mret (build_response SYNC_OK description).

(** Up to the change: an answer, or what is left to apply. *)
Definition sync_open (cf : settings) (ip raw : string) : M store (answer + pending) :=
  if negb (_source_allowed cf ip)
  then mret (inl (Answer 403 SYNC_INTERNAL_ERROR "Request rejected."))
  else match parse_sync_order_relation (cf_fromstring cf) raw with
  | inl e => add_log (unparsed e) ≫= λ _, mret (inl (build_error_response SYNC_INVALID_FORMAT e))
  | inr r =>
      assert_or (fits r) (DatabaseError "value too long for type character varying") ≫= λ _,
      i ← add_log (received r);
      s ← get;
      match (p ← tier_for r (cf_products cf);
             t ← Subscriptions.s_tiers (m_subs (t_sms s)) !! pd_tier p; Some (p, t)) with
      | None =>
          save_log i (closed SYNC_SERVICE_NOT_FOUND (SYNC_ORDER_RELATION_ERRORS SYNC_SERVICE_NOT_FOUND)
            ("No SubscriptionTier maps to productID " +:+ product_id r +:+ " or keyword '" +:+ keyword r +:+ "'.")) ≫= λ _,
          mret (inl (build_error_response SYNC_SERVICE_NOT_FOUND ""))
      | Some (p, t) =>
          user ← in_sms_subscription (resolve_subscriber (msisdn r));
          if negb (cf_enabled cf) then
            save_log i (λ l, closed SYNC_OK "Recorded; TIMWE integration not yet enabled." (lg_error_message l) (attributed user l)) ≫= λ _,
            mret (inl (build_response SYNC_OK "Accepted."))
          else
            s ← get;
            if already_applied r s then
              save_log i (attributed user) ≫= λ _,
              a ← finish i false "Already applied; duplicate transactionID."; mret (inl a)
            else mret (inr (Pending i r p t user))
      end
  end.

(** The message, whose failure is only logged. *)
Definition text (cf : settings) (r : relation) (prefix message purpose clock : string) (now : Z) : M SmsSubscription.store unit :=
  catch (send_subscription_sms (msisdn r) message purpose
           (if String.eqb (transaction_id r) "" then "" else prefix +:+ transaction_id r) (cf_provider cf) clock now
         ≫= λ _, mret tt)
    (λ _, Some (mret tt)).

Definition apply_subscribe (cf : settings) (pn : pending) (d : draw) (clock : string) (now : Z)
    : M SmsSubscription.store (bool * string) :=
  let r := pn_relation pn in let t := pn_tier pn in let p := pn_product pn in
  if String.eqb (msisdn r) "" then mret (false, "No MSISDN on the notification; nothing to subscribe.")
  else
    x ← subscribe (msisdn r) t (pd_price_etb p) "timwe" (transaction_id r) (pn_user pn) d now;
    s ← get;
    let renewed := String.eqb (action x) "renewed" in
    let message := if renewed
      then build_renewal_message t (pd_price_etb p) (pd_short_code p) (rs_plan x) (msisdn r) (cf_link_base cf) (rs_otp x) s
      else build_welcome_message t (pd_price_etb p) (pd_short_code p) x (msisdn r) (cf_link_base cf) in
    text cf r "timwe-sub:" message (if renewed then "subscription_renewal" else "subscription_welcome") clock now ≫= λ _,
    mret (true, "Subscription " +:+ action x +:+ ".").

Definition apply_unsubscribe (cf : settings) (pn : pending) (clock : string) (now : Z)
    : M SmsSubscription.store (bool * string) :=
  let r := pn_relation pn in let t := pn_tier pn in
  cancelled ← unsubscribe (msisdn r) (Subscriptions.tr_duration_type t) "Unsubscribed via TIMWE" (transaction_id r) (pn_user pn) now;
  match cancelled with
  | [] => mret (false, "No active subscription to cancel.")
  | _ =>
      text cf r "timwe-unsub:" (build_cancellation_message t (pd_short_code (pn_product pn)) (subscribe_keyword_for t))
        "subscription_cancelled" clock now ≫= λ _,
      mret (true, "Subscription cancelled.")
  end.

(** [_apply_relation] after its check for a duplicate. *)
Definition _apply_relation (cf : settings) (pn : pending) (d : draw) (clock : string) (now : Z)
    : M SmsSubscription.store (bool * string) :=
  if is_subscribe (pn_relation pn) then apply_subscribe cf pn d clock now
  else if is_unsubscribe (pn_relation pn) then apply_unsubscribe cf pn clock now
  else mret (false, "Update recorded; no subscription change required.").

Definition sync_apply (cf : settings) (pn : pending) (d : draw) (clock : string) (now : Z) : M store answer :=
  save_log (pn_log pn) (attributed (pn_user pn)) ≫= λ _,
  o ← catch (x ← in_sms_subscription (_apply_relation cf pn d clock now); mret (Some x)) (λ _, Some (mret None));
  match o with
  | None =>
      save_log (pn_log pn) (λ l, closed SYNC_INTERNAL_ERROR (SYNC_ORDER_RELATION_ERRORS SYNC_INTERNAL_ERROR) (lg_error_message l) l) ≫= λ _,
      mret (build_error_response SYNC_INTERNAL_ERROR "")
  | Some (applied, description) => finish (pn_log pn) applied description
  end.

Definition timwe_sync_order_relation (cf : settings) (ip raw : string) (d : draw) (clock : string) (now : Z) : M store answer :=
  o ← sync_open cf ip raw;
  match o with
  | inl a => mret a
  | inr pn => sync_apply cf pn d clock now
  end.

(** ** Counting what was applied *)

(** The periods the history says a transaction started, and the rows of the
    log it was applied under. *)
Definition begins (h : history) : bool := String.eqb (h_action h) "created" || String.eqb (h_action h) "renewed".
Definition started (tx : string) (s : SmsSubscription.store) : nat :=
  length (List.filter (λ h, begins h && String.eqb (h_transaction h) tx) (m_history s)).
Definition periods (s : SmsSubscription.store) : nat := length (List.filter begins (m_history s)).
Definition applied_rows (tx : string) (s : store) : nat :=
  length (List.filter (λ l, lg_applied l && String.eqb (lg_transaction_id l) tx) (t_log s)).

Record sound (s : SmsSubscription.store) : Prop := Sound {
  so_ok : store_ok s; so_lined : lined s; so_single : single s;
  so_tiers : ∀ id t, Subscriptions.s_tiers (m_subs s) !! id = Some t → Subscriptions.tr_id t = id
}.

(** A change that starts [n] periods, under the transaction [tx]. *)
Record effect (tx : string) (n : nat) (s s' : SmsSubscription.store) : Prop := Effect {
  ef_sound : sound s';
  ef_tiers : Subscriptions.s_tiers (m_subs s') = Subscriptions.s_tiers (m_subs s);
  ef_started : ∀ x, started x s' = (started x s + if String.eqb x tx then n else 0)%nat;
  ef_periods : periods s' = (periods s + n)%nat;
  ef_payments : length (m_payments s') = (length (m_payments s) + n)%nat
}.

Lemma effect_none tx s : sound s → effect tx 0 s s.
Proof. intros Hs. split; [done|done|..]; [intros x; by destruct (String.eqb x tx)| |]; lia. Qed.

Lemma effect_trans tx n m s1 s2 s3 : effect tx n s1 s2 → effect tx m s2 s3 → effect tx (n + m) s1 s3.
Proof.
  intros [Ha Hat Hb Hc Hd] [Ha' Hat' Hb' Hc' Hd']. split; [done|congruence| | |]; [|lia|lia].
  intros x. rewrite Hb', Hb. destruct (String.eqb x tx); lia.
Qed.

(** Queueing a message, or a number saved on a profile, starts nothing. *)
Lemma effect_sms tx n s s' x : effect tx n s s' → effect tx n s (with_sms x s').
Proof. intros [[Ho Hl H1 H2] Hb Hc Hd He]. split; [by split|done..]. Qed.
Lemma effect_profiles tx x s : sound s → effect tx 0 s (with_profiles x s).
Proof. intros [Ho Hl H1 H2]. split; [by split|done|..]; cbn; [intros y; destruct (String.eqb y tx)| |]; unfold started, periods; cbn; lia. Qed.

Lemma cancelled_begin_none reason tx l : List.filter begins (cancelled_row reason tx <$> l) = [].
Proof. induction l as [|p l IH]; [done|]. cbn. exact IH. Qed.
Lemma cancelled_started_none reason tx x l :
  List.filter (λ h, begins h && String.eqb (h_transaction h) x) (cancelled_row reason tx <$> l) = [].
Proof. induction l as [|p l IH]; [done|]. cbn. exact IH. Qed.

Lemma subscribed_effect user phone t price method tx d now s x s' :
  sound s → subscribed user phone t price method tx d now s x s' → effect tx 1 s s'.
Proof.
  intros [Hs Hl H1 H2] Hx. pose proof (subscribed_lined _ _ _ _ _ _ _ _ _ _ _ Hl Hx) as Hl'.
  pose proof (subscribed_single _ _ _ _ _ _ _ _ _ _ _ Hs H1 Hx) as H1'.
  destruct Hx as [Hok Ht _ _ _ _ Hwhich Hpay Hhist _ _].
  assert (Hbegin : String.eqb (action x) "created" || String.eqb (action x) "renewed" = true)
    by (destruct Hwhich as [(-> & _)|(-> & _)]; done).
  split; [split; [done..|by rewrite Ht]|done| | |].
  - intros y. unfold started. rewrite Hhist, !List.filter_app, cancelled_started_none. cbn. unfold begins at 2. cbn.
    rewrite Hbegin. cbn. rewrite length_app, (String.eqb_sym y tx). by destruct (String.eqb tx y).
  - unfold periods. rewrite Hhist, !List.filter_app, cancelled_begin_none. cbn. unfold begins at 2. cbn.
    rewrite Hbegin. by rewrite length_app.
  - by rewrite Hpay, length_app.
Qed.

Lemma unsubscribed_effect user phone ty reason tx now s :
  sound s → effect tx 0 s (unsubscribed user phone ty reason tx now s).
Proof.
  intros [Hs Hl H1 H2]. destruct (unsubscribed_keeps user phone ty reason tx now s Hs Hl H1) as (Ho & Hl' & H1').
  split; [by split|done| | |]; cbn; [|unfold periods; cbn|lia].
  - intros y. unfold started. cbn. rewrite List.filter_app, cancelled_started_none, app_nil_r.
    destruct (String.eqb y tx); lia.
  - rewrite List.filter_app, cancelled_begin_none, app_nil_r. lia.
Qed.

Lemma text_run cf r prefix message purpose clock now s :
  ∃ x, text cf r prefix message purpose clock now s = (inr tt, with_sms x s).
Proof.
  unfold text, send_subscription_sms, in_sms, catch. rewrite bind_run, bind_run, zoom_run.
  destruct (SmsQueue.queue_sms _ _ _ _ _ _ _ (m_sms s)) as [[e|a] x]; cbn; [destruct e|]; eauto.
Qed.

Lemma identify_sound user0 phone s tx :
  sound s → ∃ r s1, identify user0 phone s = (r, s1) ∧ effect tx 0 s s1 ∧ ((∃ e, r = inl e) → s1 = s).
Proof.
  intros Hs. destruct user0 as [u|]; cbn.
  { exists (inr (Some u)), s. split; [done|]. split; [by apply effect_none|done]. }
  destruct (resolve_run phone s) as (r & ps & -> & Hps). exists r, (with_profiles ps s).
  split; [done|]. split; [by apply effect_profiles|]. intros He. rewrite Hps by (by right). by destruct s.
Qed.

(** What [_apply_relation] does to the subscriptions. *)
Definition outcome (tx : string) (s : SmsSubscription.store) (r : exn + bool * string) (s' : SmsSubscription.store) : Prop :=
  match r with
  | inl _ => s' = s
  | inr (b, _) => ∃ n, (n <= 1)%nat ∧ (b = false → n = 0%nat) ∧ effect tx n s s'
  end.

Lemma apply_effect cf pn d clock now s :
  sound s → Subscriptions.s_tiers (m_subs s) !! Subscriptions.tr_id (pn_tier pn) = Some (pn_tier pn) →
  post (_apply_relation cf pn d clock now) s (outcome (transaction_id (pn_relation pn)) s).
Proof.
  intros Hs Ht. unfold _apply_relation. set (r := pn_relation pn). set (tx := transaction_id r).
  destruct (is_subscribe r).
  { unfold apply_subscribe. fold r. fold tx. destruct (String.eqb (msisdn r) "").
    { exists 0%nat. split; [lia|]. split; [done|]. by apply effect_none. }
    destruct (identify_sound (pn_user pn) (msisdn r) s tx Hs) as (u & s1 & Hid & Hef & Herr).
    unfold post. rewrite bind_run. destruct u as [e|u].
    { assert (Hsub : subscribe (msisdn r) (pn_tier pn) (pd_price_etb (pn_product pn)) "timwe" tx (pn_user pn) d now s = (inl e, s)).
      { unfold subscribe, atomic. fold (identify (pn_user pn) (msisdn r)). by rewrite bind_run, Hid. }
      by rewrite Hsub. }
    destruct Hef as [Hs1 Htr Ha Hb Hc].
    destruct (subscribe_cases (pn_user pn) u (msisdn r) (pn_tier pn) (pd_price_etb (pn_product pn)) "timwe" tx d now s s1)
      as [(x & s' & -> & Hx)|(e & -> & _)]; [done|by apply Hs1|congruence|by apply Hs1| |done].
    rewrite bind_run. cbn [get]. rewrite bind_run.
    match goal with |- context [text ?a ?b ?c ?e ?f ?g ?h ?i] => destruct (text_run a b c e f g h i) as [y ->] end.
    cbn. exists 1%nat. split; [done|]. split; [done|]. apply effect_sms.
    apply (effect_trans tx 0 1 s s1); [by split|]. by eapply subscribed_effect. }
  destruct (is_unsubscribe r).
  { unfold apply_unsubscribe. fold r. fold tx.
    destruct (identify_sound (pn_user pn) (msisdn r) s tx Hs) as (u & s1 & Hid & Hef & Herr).
    unfold post. rewrite bind_run. destruct u as [e|u].
    { match goal with |- context [unsubscribe ?a1 ?a2 ?a3 ?a4 ?a5 ?a6 s] =>
        assert (Hsub : unsubscribe a1 a2 a3 a4 a5 a6 s = (inl e, s)) by
          (unfold unsubscribe, atomic; fold (identify (pn_user pn) (msisdn r)); by rewrite bind_run, Hid) end.
      by rewrite Hsub. }
    assert (Hok1 : store_ok s1) by apply Hef.
    rewrite (unsubscribe_run (pn_user pn) u (msisdn r) _ _ _ _ s s1 Hid Hok1).
    assert (Hef' : effect tx 0 s (unsubscribed u (msisdn r) (Subscriptions.tr_duration_type (pn_tier pn)) "Unsubscribed via TIMWE" tx now s1)).
    { apply (effect_trans tx 0 0 s s1); [done|]. apply unsubscribed_effect. by destruct Hef. }
    destruct (List.filter _ _) as [|p l]; [cbn; exists 0%nat; split; [lia|by split]|]. rewrite bind_run.
    match goal with |- context [text ?a ?b ?c ?e ?f ?g ?h ?i] => destruct (text_run a b c e f g h i) as [y ->] end.
    cbn. exists 0%nat. split; [lia|]. split; [done|]. by apply effect_sms. }
  exists 0%nat. split; [lia|]. split; [done|]. by apply effect_none.
Qed.

(** ** The rows of the log *)

Lemma count_alter {A} (p : A → bool) (f : A → A) l : ∀ i,
  (length (List.filter p (alter f i l)) + match l !! i with Some y => Nat.b2n (p y) | None => 0 end
  = length (List.filter p l) + match l !! i with Some y => Nat.b2n (p (f y)) | None => 0 end)%nat.
Proof.
  induction l as [|y l IH]; intros i; [by destruct i|]. destruct i as [|i].
  - change (alter f 0%nat (y :: l)) with (f y :: l). cbn. destruct (p y), (p (f y)); cbn; lia.
  - change (alter f (S i) (y :: l)) with (y :: alter f i l). specialize (IH i). change ((y :: l) !! S i) with (l !! i). cbn [List.filter]. destruct (p y); cbn [length]; destruct (l !! i); lia.
Qed.

Lemma applied_save i f s x :
  (∀ l, t_log s !! i = Some l → lg_applied (f l) = lg_applied l ∧ lg_transaction_id (f l) = lg_transaction_id l) →
  applied_rows x (save_log i f s).2 = applied_rows x s.
Proof.
  intros Hf. unfold applied_rows. cbn.
  pose proof (count_alter (λ l, lg_applied l && String.eqb (lg_transaction_id l) x) f (t_log s) i) as H.
  destruct (t_log s !! i) as [y|]; [|lia]. destruct (Hf y eq_refl) as [Ha Hb]. rewrite Ha, Hb in H. lia.
Qed.

(** The row marked applied. *)
Lemma applied_mark i f s x y :
  t_log s !! i = Some y → lg_applied y = false → lg_applied (f y) = true → lg_transaction_id (f y) = lg_transaction_id y →
  applied_rows x (save_log i f s).2 = (applied_rows x s + if String.eqb x (lg_transaction_id y) then 1 else 0)%nat.
Proof.
  intros Hy Ha Hfa Hft. unfold applied_rows. cbn.
  pose proof (count_alter (λ l, lg_applied l && String.eqb (lg_transaction_id l) x) f (t_log s) i) as H.
  rewrite Hy, Ha, Hfa, Hft, (String.eqb_sym _ x) in H. destruct (String.eqb x (lg_transaction_id y)); cbn in H; lia.
Qed.

Lemma applied_snoc m l y x : lg_applied y = false → applied_rows x (Store m (l ++ [y])) = applied_rows x (Store m l).
Proof. intros Ha. unfold applied_rows. cbn. rewrite List.filter_app. cbn. by rewrite Ha, app_nil_r. Qed.

Lemma applied_sms m m' l x : applied_rows x (Store m l) = applied_rows x (Store m' l).
Proof. done. Qed.

Lemma not_applied r s : transaction_id r ≠ "" → already_applied r s = false → applied_rows (transaction_id r) s = 0%nat.
Proof.
  intros Hne. unfold already_applied, applied_rows. rewrite (proj2 (String.eqb_neq _ _) Hne). cbn.
  induction (t_log s) as [|l ls IH]; [done|]. cbn. intros [Hl Hls]%orb_false_iff. by rewrite Hl, IH.
Qed.

(** Before the change: the same subscriptions, and nothing marked applied. *)
Definition opened (s : store) (o : exn + (answer + pending)) (s' : store) : Prop :=
  (∀ tx, effect tx 0 (t_sms s) (t_sms s'))
  ∧ (∀ x, applied_rows x s' = applied_rows x s)
  ∧ match o with
    | inr (inr pn) =>
        t_log s' !! pn_log pn = Some (received (pn_relation pn))
        ∧ already_applied (pn_relation pn) s' = false
        ∧ Subscriptions.s_tiers (m_subs (t_sms s')) !! Subscriptions.tr_id (pn_tier pn) = Some (pn_tier pn)
    | _ => True
    end.

Lemma opened_same s o : sound (t_sms s) → match o with inr (inr _) => False | _ => True end → opened s o s.
Proof. intros Hs Ho. split; [intros tx; by apply effect_none|]. split; [done|]. by destruct o as [?|[?|?]]. Qed.

Lemma opened_log s o m l : (∀ tx, effect tx 0 (t_sms s) m) → (∀ x, applied_rows x (Store m l) = applied_rows x s) →
  match o with inr (inr _) => False | _ => True end → opened s o (Store m l).
Proof. intros Hm Hl Ho. split; [done|]. split; [done|]. by destruct o as [?|[?|?]]. Qed.

Lemma sync_open_post cf ip raw s : sound (t_sms s) → post (sync_open cf ip raw) s (opened s).
Proof.
  intros Hs. unfold sync_open. destruct (negb _); [by apply opened_same|].
  destruct (parse_sync_order_relation _ raw) as [e|r].
  { apply opened_log; [intros tx; by apply effect_none|intros x; by apply applied_snoc|done]. }
  destruct (fits r); [|by apply opened_same]. unfold post. rewrite bind_run. cbn [assert_or mret M_ret].
  rewrite bind_run. unfold add_log. rewrite bind_run. cbn [get]. rewrite bind_run. cbn [put mret M_ret].
  rewrite bind_run. cbn [get]. set (row := received r). set (s1 := Store (t_sms s) (t_log s ++ [row])).
  assert (Hrow : ∀ x, applied_rows x s1 = applied_rows x s) by (intros x; by apply applied_snoc).
  destruct (tier_for r (cf_products cf)) as [p|] eqn:Hp; cbn [mbind option_bind];
    [destruct (Subscriptions.s_tiers _ !! pd_tier p) as [t|] eqn:Ht; cbn [mbind option_bind]|]; cycle 1.
  1, 2: rewrite bind_run; apply opened_log; [intros tx; by apply effect_none| |done];
    intros x; etrans; [|apply Hrow]; by refine (applied_save (length (t_log s)) _ s1 x _).
  rewrite bind_run. unfold in_sms_subscription. rewrite zoom_run.
  destruct (identify_sound None (msisdn r) (t_sms s) "" Hs) as (u & m & Hid & _ & Herr). cbn in Hid.
  assert (Hef : ∀ tx, effect tx 0 (t_sms s) m).
  { intros tx. destruct (identify_sound None (msisdn r) (t_sms s) tx Hs) as (u' & m' & Hid' & Hef & _). cbn in Hid'. congruence. }
  cbn [t_sms s1]. rewrite Hid. cbn [fst snd]. destruct u as [e|user].
  { apply opened_log; [done|exact Hrow|done]. }
  set (s2 := Store m (t_log s1)).
  assert (Hrow2 : ∀ x, applied_rows x s2 = applied_rows x s) by exact Hrow.
  destruct (negb _).
  { rewrite bind_run. apply opened_log; [done| |done]. intros x. etrans; [|apply Hrow2].
    by refine (applied_save (length (t_log s)) _ s2 x _). }
  rewrite bind_run. cbn [get]. fold s2. destruct (already_applied r s2) eqn:Hdup.
  { rewrite bind_run. cbn [fst snd save_log modify]. rewrite bind_run. unfold finish. rewrite bind_run.
    cbn [fst snd save_log modify mret M_ret t_sms t_log]. apply opened_log; [done| |done].
    intros x. etrans; [|apply Hrow2].
    etrans; [|exact (applied_save (length (t_log s)) (attributed user) s2 x (λ l _, conj eq_refl eq_refl))].
    set (s3 := (save_log (length (t_log s)) (attributed user) s2).2).
    refine (applied_save (length (t_log s)) _ s3 x _). intros l Hl. split; [|done]. cbn in Hl |- *.
    rewrite list_lookup_alter_eq, list_lookup_middle in Hl by done. by injection Hl as <-. }
  cbn. split; [exact Hef|]. split; [exact Hrow2|]. split_and!.
  - cbn. by rewrite list_lookup_middle.
  - done.
  - destruct (Hef "") as [[_ _ _ Hk] Htr _ _ _]. cbn. rewrite Htr. by rewrite (so_tiers _ Hs _ _ Ht).
Qed.

(** ** The change, and the whole request *)

(** At most one period started, and only under a row marked applied. *)
Definition counted (tx : string) (s s' : store) : Prop :=
  ∃ n b, (n <= Nat.b2n b)%nat ∧ effect tx n (t_sms s) (t_sms s')
    ∧ ∀ x, applied_rows x s' = (applied_rows x s + if String.eqb x tx then Nat.b2n b else 0)%nat.

Lemma sync_apply_post cf pn d clock now s y :
  sound (t_sms s) → Subscriptions.s_tiers (m_subs (t_sms s)) !! Subscriptions.tr_id (pn_tier pn) = Some (pn_tier pn) →
  t_log s !! pn_log pn = Some y → lg_applied y = false → lg_transaction_id y = transaction_id (pn_relation pn) →
  post (sync_apply cf pn d clock now) s (λ r s', (∃ a, r = inr a) ∧ counted (transaction_id (pn_relation pn)) s s').
Proof.
  intros Hs Ht Hy Ha Htx. set (tx := transaction_id (pn_relation pn)) in *.
  pose proof (apply_effect cf pn d clock now (t_sms s) Hs Ht) as Happ. fold tx in Happ.
  unfold post in Happ |- *. unfold sync_apply. rewrite bind_run. cbn [save_log modify].
  set (l1 := alter (attributed (pn_user pn)) (pn_log pn) (t_log s)).
  assert (Hl1 : ∀ x m, applied_rows x (Store m l1) = applied_rows x s).
  { intros x m. refine (applied_save (pn_log pn) (attributed (pn_user pn)) s x _). intros l _. by split. }
  assert (Hy1 : l1 !! pn_log pn = Some (attributed (pn_user pn) y)) by (unfold l1; by rewrite list_lookup_alter_eq, Hy).
  rewrite bind_run. unfold catch. rewrite bind_run. unfold in_sms_subscription. rewrite zoom_run. cbn [t_sms t_log].
  destruct (_apply_relation cf pn d clock now (t_sms s)) as [[e|[b description]] m]; cbn [fst snd outcome] in Happ |- *.
  - subst m. cbn [mret M_ret]. rewrite bind_run. cbn. split; [by eexists|]. exists 0%nat, false.
    split; [done|]. split; [by apply effect_none|]. intros x. rewrite <- (Hl1 x (t_sms s)).
    transitivity (applied_rows x (Store (t_sms s) l1)); [|by destruct (String.eqb x tx); cbn; lia].
    refine (applied_save (pn_log pn) _ (Store (t_sms s) l1) x _). intros l _. by split.
  - destruct Happ as (n & Hn & Hb & Hef). cbn [mret M_ret]. unfold finish. rewrite bind_run. cbn [fst snd mret M_ret].
    split; [by eexists|]. exists n, b. split; [destruct b; cbn; [lia|by rewrite Hb]|]. split; [exact Hef|].
    intros x. rewrite <- (Hl1 x m). destruct b; cbn [Nat.b2n].
    + rewrite <- Htx. refine (applied_mark (pn_log pn) _ (Store m l1) x (attributed (pn_user pn) y) Hy1 Ha _ _); done.
    + transitivity (applied_rows x (Store m l1)); [|by destruct (String.eqb x tx); lia].
      refine (applied_save (pn_log pn) _ (Store m l1) x _). intros l Hl. cbn in Hl. rewrite Hy1 in Hl. by injection Hl as <-.
Qed.

Lemma request_post cf ip raw d clock now s :
  sound (t_sms s) →
  post (timwe_sync_order_relation cf ip raw d clock now) s (λ _ s',
    ∃ tx, counted tx s s' ∧ (tx ≠ "" → (applied_rows tx s <= 0)%nat ∨ applied_rows tx s' = applied_rows tx s ∧ started tx (t_sms s') = started tx (t_sms s))).
Proof.
  intros Hs. unfold timwe_sync_order_relation. apply post_bind.
  eapply post_conseq; [by apply sync_open_post|]. intros o s1 (Hef & Hrows & Ho).
  assert (Hno : ∃ tx, counted tx s s1 ∧ (tx ≠ "" → (applied_rows tx s <= 0)%nat ∨ applied_rows tx s1 = applied_rows tx s ∧ started tx (t_sms s1) = started tx (t_sms s))).
  { exists "". split; [|done]. exists 0%nat, false. split; [done|]. split; [done|]. intros x. rewrite Hrows.
    destruct (String.eqb x ""); cbn; lia. }
  destruct o as [e|[a|pn]]; [exact Hno|exact Hno|].
  destruct Ho as (Hrow & Hdup & Ht). set (tx := transaction_id (pn_relation pn)).
  assert (Hs1 : sound (t_sms s1)) by apply (Hef tx).
  eapply post_conseq; [by apply (sync_apply_post cf pn d clock now s1 (received (pn_relation pn)))|].
  intros r s2 [_ (n & b & Hn & Hef2 & Hrows2)]. exists tx. split.
  - exists n, b. split; [done|]. split; [exact (effect_trans tx 0 n _ _ _ (Hef tx) Hef2)|].
    intros x. by rewrite Hrows2, Hrows.
  - intros Hne. left. pose proof (not_applied _ _ Hne Hdup) as H0. fold tx in H0. rewrite <- Hrows. lia.
Qed.

(** ** Requests one after another *)

Record delivery := Delivery { dl_ip : string; dl_raw : string; dl_draw : draw; dl_clock : string; dl_now : Z }.
Definition serve (cf : settings) (s : store) (dl : delivery) : store :=
  (timwe_sync_order_relation cf (dl_ip dl) (dl_raw dl) (dl_draw dl) (dl_clock dl) (dl_now dl) s).2.
Definition serve_all (cf : settings) (l : list delivery) (s : store) : store := foldl (serve cf) s l.

Definition once (s : store) : Prop :=
  ∀ x, x ≠ "" → (started x (t_sms s) <= applied_rows x s)%nat ∧ (applied_rows x s <= 1)%nat.

Lemma serve_keeps cf dl s :
  sound (t_sms s) → let s' := serve cf s dl in
  sound (t_sms s') ∧ (once s → once s')
  ∧ (length (m_payments (t_sms s')) + periods (t_sms s) = length (m_payments (t_sms s)) + periods (t_sms s'))%nat.
Proof.
  intros Hs s'. destruct (request_post cf (dl_ip dl) (dl_raw dl) (dl_draw dl) (dl_clock dl) (dl_now dl) s Hs)
    as (tx & (n & b & Hn & [Hso _ Hst Hpe Hpa] & Hrows) & Hfresh).
  fold (serve cf s dl) in Hso, Hst, Hpe, Hpa, Hrows, Hfresh. fold s' in Hso, Hst, Hpe, Hpa, Hrows, Hfresh.
  split; [done|]. split; [|lia]. intros Honce x Hx. specialize (Honce x Hx). specialize (Hst x). specialize (Hrows x).
  destruct (String.eqb_spec x tx) as [E|E]; [|lia]. rewrite <- E in Hfresh. destruct (Hfresh Hx) as [H0|[H0 H1]]; [|lia].
  destruct b; cbn in Hn, Hrows; lia.
Qed.

Lemma serve_all_keeps cf l : ∀ s,
  sound (t_sms s) → let s' := serve_all cf l s in
  sound (t_sms s') ∧ (once s → once s')
  ∧ (length (m_payments (t_sms s')) + periods (t_sms s) = length (m_payments (t_sms s)) + periods (t_sms s'))%nat.
Proof.
  induction l as [|dl l IH]; intros s Hs; cbn; [done|].
  destruct (serve_keeps cf dl s Hs) as (H1 & H2 & H3). destruct (IH (serve cf s dl) H1) as (H4 & H5 & H6).
  split; [done|]. split; [auto|]. cbn in H6. fold (serve_all cf l (serve cf s dl)). unfold serve_all in *. lia.
Qed.

(** C26.  A retried notification is applied once.  However often the aggregator
    repeats its requests, and whatever comes between, the requests of one
    transaction id start at most one period and are marked applied at most
    once; and over any requests, with or without an id, a payment is recorded
    for exactly each period started. *)
Theorem notifications_apply_once cf l s x :
  sound (t_sms s) → once s → x ≠ "" →
  let s' := serve_all cf l s in
  (started x (t_sms s') <= applied_rows x s' <= 1)%nat
  ∧ Z.of_nat (length (m_payments (t_sms s'))) - Z.of_nat (length (m_payments (t_sms s)))
    = Z.of_nat (periods (t_sms s')) - Z.of_nat (periods (t_sms s)).
Proof.
  intros Hs Honce Hx s'. destruct (serve_all_keeps cf l s Hs) as (_ & H1 & H2). fold s' in H1, H2.
  destruct (H1 Honce x Hx). split; [done|]. unfold s' in *. lia.
Qed.

(** C27.  One subscriber has one plan.  If no account holds two active plans,
    and no number without an account does, then that is so after any requests:
    changing from daily to weekly never leaves both to be billed. *)
Theorem one_plan_per_subscriber cf l s :
  sound (t_sms s) →
  let s' := t_sms (serve_all cf l s) in
  ∀ i j p q, Subscriptions.s_plans (m_subs s') !! i = Some p → Subscriptions.s_plans (m_subs s') !! j = Some q →
    active_plan p = true → active_plan q = true → same_holder s' i j p q → i = j.
Proof. intros Hs. destruct (serve_all_keeps cf l s Hs) as ([_ _ H1 _] & _). exact H1. Qed.

(** ** Small runs *)

(** An aggregator whose requests are their transaction ids: user 7 subscribes
    to the daily plan. *)
Definition announced (raw : string) : relation :=
  SyncOrderRelation "251911000007" 0 "001100" "P1" "" 1 "20240115083000" "" "" "" "" {[ "transactionID" := raw ]}.
Definition sample : settings :=
  Settings true "https://flipstar.et/register" "console" [Product 1 "P1" "S1" "daily" true 300 "9286"]
    [] (λ raw, inr (envelope_of id (announced raw) "0" "1")).
Definition at_day (raw : string) (plan n : Z) : delivery :=
  Delivery "10.0.0.1" raw (Draw "123456" plan (str_int plan)) "0" (n * day).
Definition fresh : store := Store empty_store [].

Definition summary (s : store) : nat * nat * Z * list bool :=
  (length (m_payments (t_sms s)), periods (t_sms s), CoinBalance.total_of 7 (Subscriptions.s_coins (m_subs (t_sms s))),
   lg_applied <$> t_log s).

Lemma empty_sound : sound empty_store.
Proof.
  assert (∀ id t, Subscriptions.s_tiers (m_subs empty_store) !! id = Some t →
    Subscriptions.tr_id t = id ∧ 0 <= Subscriptions.tr_bonus_coins t) as Ht.
  { intros id t. cbn. intros [[<- <-]|[_ [[<- <-]|[_ []%lookup_empty_Some]]%lookup_insert_Some]]%lookup_insert_Some; by split. }
  split; [split; [|apply CoinBalance.wallet_ok_empty|done]|done|done|]; intros id t H; by apply (Ht id).
Qed.

(** The same announcement twice, and the next day's. *)
Example a_retry_changes_nothing :
  summary (serve_all sample [at_day "TX1" 1 100; at_day "TX1" 2 100; at_day "TX2" 3 101] fresh)
  = (2%nat, 2%nat, 10, [true; false; true]).
Proof. vm_compute. reflexivity. Qed.

(** Two copies that overlap both find no applied row: the period is paid for
    twice and its coins are given twice. *)
Example overlapping_copies_apply_twice :
  match sync_open sample "10.0.0.1" "TX1" fresh with
  | (inr (inr a), s1) =>
      match sync_open sample "10.0.0.1" "TX1" s1 with
      | (inr (inr b), s2) =>
          let s3 := (sync_apply sample a (Draw "111111" 1 "p") "0" (100 * day) s2).2 in
          summary (sync_apply sample b (Draw "222222" 2 "q") "0" (100 * day) s3).2
      | _ => (0%nat, 0%nat, 0, [])
      end
  | _ => (0%nat, 0%nat, 0, [])
  end = (2%nat, 2%nat, 10, [true; true]).
Proof. vm_compute. reflexivity. Qed.

(** A transaction id too long for its column leaves no row behind. *)
Example a_long_id_leaves_no_trace :
  let raw := spaces 100 +:+ String.string_of_list_ascii (replicate 129 "x"%char) in
  summary (serve_all sample [at_day raw 1 100] fresh) = (0%nat, 0%nat, 0, []).
Proof. vm_compute. reflexivity. Qed.

Lemma notifications_apply_once_witness :
  let s' := serve_all sample [at_day "TX1" 1 100; at_day "TX1" 2 100] fresh in
  started "TX1" (t_sms s') = 1%nat
  ∧ ((started "TX1" (t_sms s') <= applied_rows "TX1" s' <= 1)%nat
     ∧ Z.of_nat (length (m_payments (t_sms s'))) - Z.of_nat (length (m_payments (t_sms fresh)))
       = Z.of_nat (periods (t_sms s')) - Z.of_nat (periods (t_sms fresh))).
Proof.
  cbv zeta. split; [vm_compute; reflexivity|]. apply (notifications_apply_once sample _ fresh "TX1").
  - apply empty_sound.
  - intros x _. split; cbn; lia.
  - discriminate.
Defined.

Lemma one_plan_per_subscriber_witness :
  let s' := t_sms (serve_all sample [at_day "TX1" 1 100; at_day "TX2" 2 101] fresh) in
  length (List.filter active_plan (newest_first s')) = 1%nat
  ∧ ∀ i j p q, Subscriptions.s_plans (m_subs s') !! i = Some p → Subscriptions.s_plans (m_subs s') !! j = Some q →
    active_plan p = true → active_plan q = true → same_holder s' i j p q → i = j.
Proof.
  cbv zeta. split; [vm_compute; reflexivity|]. apply (one_plan_per_subscriber sample _ fresh), empty_sound.
Defined.

End SyncEndpoint.
