(* ===== verification/Accounts.v ===== *)
(** * Accounts: users, their profiles, and the names and PINs they choose

    Models the receivers of [src/api/signals.py] that run when a user is
    created, [src/api/services/usernames.py], [src/common/security/pin_policy.py]
    and the columns of [User] and [UserProfile] that sign-in reads.

    Profiles, passwords and plans are those of [SmsSubscription]; the hashing
    of a password is an argument.  Text is ASCII, so that the case folding of
    [iexact] is that of the letters. *)

From Stdlib Require Import ZArith Lia.
From stdpp Require Import gmap strings.
From S2P Require Import Prelude CoinBalance WalletConfig Subscriptions SyncOrder SmsSubscription.

Module Accounts.

(** ** PINs *)

Definition EXPLICIT_BLOCKLIST : list string :=
  ["123456"; "654321"; "111111"; "000000"; "121212"; "112233"; "123123"; "159753"; "789456"; "147258"; "987654";
   "246810"; "135790"; "102030"; "123321"; "456789"; "987456"].

Definition digits (pin : string) : option (list Z) := mapM SyncOrder.digit_of (String.list_ascii_of_string pin).

(** [digits[i + 1] - digits[i]]. *)
Fixpoint diffs (l : list Z) : list Z :=
  match l with x :: (y :: _) as l' => (y - x) :: diffs l' | _ => [] end.

Definition is_pin_too_weak (pin : string) : bool * string :=
  match digits pin with
  | None => (true, "PIN must be exactly 6 digits.")
  | Some ds =>
      if negb (Nat.eqb (length ds) 6) then (true, "PIN must be exactly 6 digits.")
      else if bool_decide (pin ∈ EXPLICIT_BLOCKLIST)
      then (true, "This PIN is too common. Please choose a less predictable PIN.")
      else if bool_decide (length (remove_dups ds) = 1%nat) then (true, "PIN cannot be all the same digit.")
      else if forallb (Z.eqb 1) (diffs ds) || forallb (Z.eqb (-1)) (diffs ds)
      then (true, "PIN cannot be a sequential run of digits.")
      else if bool_decide (ds = reverse ds) then (true, "PIN cannot be a palindrome.")
      else (false, "")
  end.

Example pins :
  is_pin_too_weak "12345" = (true, "PIN must be exactly 6 digits.")
  ∧ (is_pin_too_weak "222222").2 = "PIN cannot be all the same digit."
  ∧ (is_pin_too_weak "345678").2 = "PIN cannot be a sequential run of digits."
  ∧ (is_pin_too_weak "204402").2 = "PIN cannot be a palindrome."
  ∧ is_pin_too_weak "204403" = (false, "").
Proof. by vm_compute. Qed.

(** ** Tables *)

Record account := Account { ac_username : string; ac_email : string }.

(** [a_telebirr] is the column [telebirr_phone_number] of the plans. *)
Record store := Store {
  a_users : gmap Z account; a_tokens : gmap Z string; a_sms : SmsSubscription.store; a_telebirr : gmap Z string;
  a_config : WalletConfig.config_table
}.

Definition with_users (x : gmap Z account) (s : store) : store :=
  Store x (a_tokens s) (a_sms s) (a_telebirr s) (a_config s).
Definition with_tokens (x : gmap Z string) (s : store) : store :=
  Store (a_users s) x (a_sms s) (a_telebirr s) (a_config s).
Definition with_sms (x : SmsSubscription.store) (s : store) : store :=
  Store (a_users s) (a_tokens s) x (a_telebirr s) (a_config s).
Definition with_telebirr (x : gmap Z string) (s : store) : store :=
  Store (a_users s) (a_tokens s) (a_sms s) x (a_config s).
Definition with_config (x : WalletConfig.config_table) (s : store) : store :=
  Store (a_users s) (a_tokens s) (a_sms s) (a_telebirr s) x.

Definition profiles (s : store) : list (Z * option string) := SmsSubscription.m_profiles (a_sms s).
Definition passwords (s : store) : gmap Z string := SmsSubscription.m_passwords (a_sms s).
Definition plans (s : store) : Subscriptions.store := SmsSubscription.m_subs (a_sms s).

Definition with_profiles (x : list (Z * option string)) (s : store) : store :=
  with_sms (SmsSubscription.with_profiles x (a_sms s)) s.
Definition with_passwords (x : gmap Z string) (s : store) : store :=
  let m := a_sms s in
  with_sms (SmsSubscription.Store (SmsSubscription.m_subs m) (SmsSubscription.m_lines m) (SmsSubscription.m_profiles m) x
              (SmsSubscription.m_payments m) (SmsSubscription.m_history m) (SmsSubscription.m_sms m)) s.
Definition with_plans (x : Subscriptions.store) (s : store) : store := with_sms (SmsSubscription.with_subs x (a_sms s)) s.

Definition in_sms {A} : M SmsSubscription.store A → M store A := zoom a_sms with_sms.
Definition in_plans {A} : M Subscriptions.store A → M store A := zoom plans with_plans.
Definition in_coins {A} (m : M CoinBalance.wallet A) : M store A := in_plans (Subscriptions.in_coins m).
Definition in_config {A} : M WalletConfig.config_table A → M store A := zoom a_config with_config.

(** ** Usernames *)

Definition iexact (a b : string) : bool := String.eqb (lower a) (lower b).

Definition is_taken (username : string) (exclude_user_id : option Z) (s : store) : bool :=
  let name := strip username in
  if String.eqb name "" then false
  else existsb (λ ua, iexact name (ac_username ua.2) && negb (bool_decide (Some ua.1 = exclude_user_id)))
         (map_to_list (a_users s)).

(** The numbers [secrets.randbelow] draws, and the last resort of
    [secrets.token_hex]. *)
Fixpoint generate_unique (prefix : string) (draws : list Z) (token : string) (s : store) : string :=
  match draws with
  | [] => prefix +:+ token
  | n :: draws' =>
      let candidate := prefix +:+ str_int (n + 10000000) in
      if existsb (λ ua, iexact candidate (ac_username ua.2)) (map_to_list (a_users s))
      then generate_unique prefix draws' token s else candidate
  end.

Definition is_duplicate_username_error (e : exn) : bool :=
  let text := lower (exn_str e) in
  SyncOrder.contains "username" text && (SyncOrder.contains "unique" text || SyncOrder.contains "duplicate" text).

(** ** Profiles *)

(** What PostgreSQL says of a duplicate, before the detail. *)
Definition duplicate_key (constraint : string) : exn :=
  let quote := String.String (ascii_of_nat 34) String.EmptyString in
  IntegrityError ("duplicate key value violates unique constraint " +:+ quote +:+ constraint +:+ quote).
Definition duplicate_username : exn := duplicate_key "auth_user_username_key".
Definition duplicate_phone : exn := duplicate_key "api_userprofile_phone_number_key".

Definition owner_of (phone : string) (s : store) : option Z :=
  fst <$> List.find (λ up : Z * option string, bool_decide (up.2 = Some phone)) (profiles s).

Definition phone_of (user : Z) (s : store) : option string :=
  SmsSubscription.profile_of user (a_sms s) ≫= id.

Definition set_phone (user : Z) (phone : string) : M store unit :=
  s ← get;
  if existsb (λ up : Z * option string, bool_decide (up.2 = Some phone) && negb (up.1 =? user)) (profiles s)
  then raise duplicate_phone
  else put (with_profiles ((λ up : Z * option string, if up.1 =? user then (up.1, Some phone) else up) <$> profiles s) s).

(** ** Creating a user *)

Section Passwords.
Context (make_password : string → string → string).

(** The key, the salt of the password (or the suffix of an unusable one) and
    the token a new account gets. *)
Record draw := Draw { dr_user : Z; dr_salt : string; dr_token : string }.

(** [make_password(None)]: no password matches it. *)
Definition hashed (password : option string) (salt : string) : string :=
  match password with Some p => make_password p salt | None => "!" +:+ salt end.

Definition set_password (user : Z) (password salt : string) : M store unit :=
  modify (λ s, with_passwords (<[user := make_password password salt]> (passwords s)) s).

(** The domain part in lower case: what follows the last [@]. *)
Definition normalize_email (email : string) : string :=
  let l := reverse (String.list_ascii_of_string (strip email)) in
  match list_find (λ c, c = "@"%char) l with
  | Some (i, _) => String.string_of_list_ascii (reverse (drop i l))
                   +:+ lower (String.string_of_list_ascii (reverse (take i l)))
  | None => email
  end.

(** The welcome coins: the row is read and saved whole. *)
Definition sync_earned (n : Z) (r : CoinBalance.ucb) : CoinBalance.ucb :=
  CoinBalance.sync_balance
    (CoinBalance.setc CoinBalance.total_earned (or_int (CoinBalance.u_total_earned r) 0 + n)
      (CoinBalance.setc CoinBalance.earned_balance (or_int (CoinBalance.u_earned r) 0 + n) r)).

Definition credit_welcome (user n now : Z) : M CoinBalance.wallet unit :=
  balance ← CoinBalance.get_or_create user now;
  CoinBalance.save_row CoinBalance.copied_cols (sync_earned n balance) now ≫= λ _,
  CoinBalance.create_tx (CoinBalance.new_tx user "welcome_bonus" n ""
    (CoinBalance.descr ("Welcome bonus: " +:+ str_int n +:+ " coins")) now) ≫= λ _, mret tt.

Definition give_welcome_bonus (user now : Z) : M store unit :=
  catch (
    config ← in_config (WalletConfig.get_config now);
    let amount := WalletConfig.welcome_bonus config in
    when (0 <? amount) (in_coins (credit_welcome user amount now)))
  (λ _, Some (mret tt)).

(** [create_user_profile]: the rows that come with a new user. *)
Definition create_user_profile (d : draw) (now : Z) : M store unit :=
  modify (λ s, with_profiles (profiles s ++ [(dr_user d, None)]) s) ≫= λ _,
  in_plans (modify (λ x, Subscriptions.Store (Subscriptions.s_tiers x) (Subscriptions.s_plans x)
    (Subscriptions.s_legacy x ++ [(dr_user d, None)]) (Subscriptions.s_coins x) (Subscriptions.s_notes x))) ≫= λ _,
  modify (λ s, with_tokens (<[dr_user d := dr_token d]> (a_tokens s)) s) ≫= λ _,
  give_welcome_bonus (dr_user d) now.

Definition create_user (username : string) (password : option string) (email : string) (d : draw) (now : Z) : M store Z :=
  if String.eqb username "" then raise (ValueError "The given username must be set")
  else
    s ← get;
    assert_or (negb (existsb (λ ua, String.eqb (ac_username ua.2) username) (map_to_list (a_users s)))) duplicate_username ≫= λ _,
    assert_or (bool_decide (a_users s !! dr_user d = None)) (duplicate_key "auth_user_pkey") ≫= λ _,
    modify (λ s, with_users (<[dr_user d := Account username (normalize_email email)]> (a_users s)) s) ≫= λ _,
    modify (λ s, with_passwords (<[dr_user d := hashed password (dr_salt d)]> (passwords s)) s) ≫= λ _,
    create_user_profile d now ≫= λ _,
    mret (dr_user d).

(** ** What a new account is *)

Record accounts_ok (s : store) : Prop := AccountsOk {
  ok_sms : SmsSubscription.store_ok (a_sms s);
  ok_names : ∀ u v a b, a_users s !! u = Some a → a_users s !! v = Some b → ac_username a = ac_username b → u = v;
  ok_profiles : NoDup (profiles s).*1 ∧ ∀ u, u ∈ (profiles s).*1 ↔ is_Some (a_users s !! u);
  ok_phones : ∀ u v p, (u, Some p) ∈ profiles s → (v, Some p) ∈ profiles s → u = v;
  ok_passwords : ∀ u, is_Some (passwords s !! u) ↔ is_Some (a_users s !! u)
}.

Definition welcome (s : store) : Z :=
  Z.max 0 (WalletConfig.welcome_bonus (default (WalletConfig.default_config 0) (a_config s))).

(** The wallets after the welcome coins. *)
Record welcomed (user n : Z) (w w' : CoinBalance.wallet) : Prop := Welcomed {
  wc_ok : CoinBalance.wallet_ok w';
  wc_total : ∀ v, CoinBalance.total_of v w' = CoinBalance.total_of v w + if decide (v = user) then n else 0;
  wc_giftable : ∀ v, CoinBalance.giftable_of v w' = CoinBalance.giftable_of v w
}.

Lemma give_coins_run user n now w :
  CoinBalance.wallet_ok w → 0 < n →
  ∃ w', credit_welcome user n now w = (inr tt, w')
  ∧ welcomed user n w w'.
Proof.
  intros Hw Hn. set (t := CoinBalance.new_tx user "welcome_bonus" n ""
    (CoinBalance.descr ("Welcome bonus: " +:+ str_int n +:+ " coins")) now). set (r := CoinBalance.row_of user now w).
  destruct (CoinBalance.row_of_ok user now w Hw) as [Hu _]. fold r in Hu.
  exists (CoinBalance.credited user (CoinBalance.save_fields CoinBalance.copied_cols (sync_earned n r) now r) t w). split.
  - unfold credit_welcome. rewrite bind_run, CoinBalance.with_row_of. fold r. rewrite bind_run. unfold CoinBalance.save_row, modify. rewrite bind_run.
    unfold CoinBalance.create_tx. rewrite bind_run. cbn [get CoinBalance.w_txs CoinBalance.w_rows].
    unfold t. rewrite CoinBalance.clash_ordinary by done. cbn. unfold CoinBalance.credited.
    assert (CoinBalance.u_user (sync_earned n r) = user) as -> by (by destruct r).
    do 3 f_equal. apply map_eq. intros v. destruct (decide (v = user)) as [->|Hv].
    + by rewrite lookup_alter_eq, !lookup_insert_eq.
    + by rewrite lookup_alter_ne, !lookup_insert_ne.
  - destruct (CoinBalance.credited_ok user n now
      (CoinBalance.save_fields CoinBalance.copied_cols (sync_earned n r) now r) t w Hw) as [Hok Htot]; [|done|done|].
    { fold r. generalize r. clear - Hn. intros r. unfold sync_earned. CoinBalance.row_solve. }
    split; [done|done|]. intros v. unfold CoinBalance.giftable_of at 1. cbn. destruct (decide (v = user)) as [->|Hv].
    + rewrite lookup_insert_eq. unfold CoinBalance.giftable_of, r, CoinBalance.row_of.
      destruct (CoinBalance.w_rows w !! user) as [q|]; [|done]. cbn [default]. clear. by destruct q.
    + by rewrite lookup_insert_ne.
Qed.

(** A user, with what the signals create beside it. *)
Record opened (u : Z) (a : account) (password token : string) (now : Z) (s s' : store) : Prop := Opened {
  op_users : a_users s' = <[u := a]> (a_users s);
  op_profiles : profiles s' = profiles s ++ [(u, None)];
  op_passwords : passwords s' = <[u := password]> (passwords s);
  op_tokens : a_tokens s' = <[u := token]> (a_tokens s);
  op_telebirr : a_telebirr s' = a_telebirr s;
  op_config : a_config s' = Some (default (WalletConfig.default_config now) (a_config s));
  op_rows : SmsSubscription.m_lines (a_sms s') = SmsSubscription.m_lines (a_sms s)
            ∧ SmsSubscription.m_payments (a_sms s') = SmsSubscription.m_payments (a_sms s)
            ∧ SmsSubscription.m_history (a_sms s') = SmsSubscription.m_history (a_sms s)
            ∧ SmsSubscription.m_sms (a_sms s') = SmsSubscription.m_sms (a_sms s);
  op_plans : Subscriptions.s_plans (plans s') = Subscriptions.s_plans (plans s)
             ∧ Subscriptions.s_tiers (plans s') = Subscriptions.s_tiers (plans s)
             ∧ Subscriptions.s_notes (plans s') = Subscriptions.s_notes (plans s)
             ∧ Subscriptions.s_legacy (plans s') = Subscriptions.s_legacy (plans s) ++ [(u, None)];
  op_coins : welcomed u (welcome s) (Subscriptions.s_coins (plans s)) (Subscriptions.s_coins (plans s'))
}.

Lemma with_coins_same (x : Subscriptions.store) : Subscriptions.with_coins (Subscriptions.s_coins x) x = x.
Proof. by destruct x. Qed.
Lemma with_plans_same (s : store) : with_plans (plans s) s = s.
Proof. by destruct s as [? ? [] ? ?]. Qed.

Lemma bonus_run u now (s : store) :
  CoinBalance.wallet_ok (Subscriptions.s_coins (plans s)) →
  ∃ w, give_welcome_bonus u now s
    = (inr tt, with_config (Some (default (WalletConfig.default_config now) (a_config s)))
                 (with_plans (Subscriptions.with_coins w (plans s)) s))
  ∧ welcomed u (welcome s) (Subscriptions.s_coins (plans s)) w.
Proof.
  intros Hw. unfold give_welcome_bonus, catch. rewrite bind_run. unfold in_config at 1. rewrite zoom_run.
  assert (∃ c, WalletConfig.get_config now (a_config s) = (inr c, Some (default (WalletConfig.default_config now) (a_config s)))
               ∧ c = default (WalletConfig.default_config now) (a_config s)) as (c & -> & ->).
  { unfold WalletConfig.get_config. rewrite bind_run. cbn. destruct (a_config s); eauto. }
  cbn [fst snd]. set (c := default (WalletConfig.default_config now) (a_config s)).
  assert (welcome s = Z.max 0 (WalletConfig.welcome_bonus c)) as Hwel.
  { unfold welcome, c. by destruct (a_config s). }
  destruct (Z.ltb_spec 0 (WalletConfig.welcome_bonus c)) as [Hn|Hn]; cbn [when].
  - destruct (give_coins_run u (WalletConfig.welcome_bonus c) now _ Hw Hn) as (w & Hrun & Hwd).
    exists w. unfold in_coins, in_plans, Subscriptions.in_coins. rewrite !zoom_run.
    change (plans (with_config _ s)) with (plans s). rewrite Hrun.
    split; [done|]. replace (welcome s) with (WalletConfig.welcome_bonus c) by lia. done.
  - exists (Subscriptions.s_coins (plans s)). rewrite with_coins_same, with_plans_same. split; [done|].
    replace (welcome s) with 0 by lia. split; [done| |done]. intros v. case_decide; lia.
Qed.

(** The store before the welcome coins. *)
Definition with_rows (d : draw) (s : store) : store :=
  let x := plans s in
  with_tokens (<[dr_user d := dr_token d]> (a_tokens s))
    (with_plans (Subscriptions.Store (Subscriptions.s_tiers x) (Subscriptions.s_plans x)
       (Subscriptions.s_legacy x ++ [(dr_user d, None)]) (Subscriptions.s_coins x) (Subscriptions.s_notes x))
       (with_profiles (profiles s ++ [(dr_user d, None)]) s)).

Lemma profile_run d now s : create_user_profile d now s = give_welcome_bonus (dr_user d) now (with_rows d s).
Proof. reflexivity. Qed.

Definition name_used (username : string) (s : store) : bool :=
  existsb (λ ua, String.eqb (ac_username ua.2) username) (map_to_list (a_users s)).

Lemma name_unused username s :
  name_used username s = false ↔ ∀ u a, a_users s !! u = Some a → ac_username a ≠ username.
Proof.
  unfold name_used. split.
  - intros H u a Ha E. apply not_true_iff_false in H. apply H, existsb_exists. exists (u, a). split.
    + by apply list_elem_of_In, elem_of_map_to_list. + cbn. by apply String.eqb_eq.
  - intros H. apply not_true_iff_false. intros ([u a] & Hin & E)%existsb_exists. cbn in E. apply String.eqb_eq in E.
    apply list_elem_of_In, elem_of_map_to_list in Hin. by eapply H.
Qed.

Lemma create_user_run username password email d now s :
  SmsSubscription.store_ok (a_sms s) →
  let r := create_user username password email d now s in
  if String.eqb username "" then r = (inl (ValueError "The given username must be set"), s)
  else if name_used username s then r = (inl duplicate_username, s)
  else match a_users s !! dr_user d with
  | Some _ => r = (inl (duplicate_key "auth_user_pkey"), s)
  | None => ∃ s', r = (inr (dr_user d), s')
      ∧ opened (dr_user d) (Account username (normalize_email email)) (hashed password (dr_salt d)) (dr_token d) now s s'
  end.
Proof.
  intros Hs. cbv zeta. unfold create_user. destruct (String.eqb username ""); [done|]. rewrite bind_run. cbn [get].
  fold (name_used username s). destruct (name_used username s); [done|]. cbn [negb assert_or]. rewrite bind_run. cbn [mret M_ret].
  destruct (a_users s !! dr_user d) eqn:Hd; [done|]. rewrite bool_decide_true by done. cbn [assert_or]. rewrite bind_run.
  cbn [mret M_ret]. rewrite bind_run. unfold modify at 1. rewrite bind_run. unfold modify at 1. rewrite bind_run.
  rewrite profile_run. set (s1 := with_rows _ _).
  assert (∃ w, give_welcome_bonus (dr_user d) now s1
    = (inr tt, with_config (Some (default (WalletConfig.default_config now) (a_config s1)))
                 (with_plans (Subscriptions.with_coins w (plans s1)) s1))
    ∧ welcomed (dr_user d) (welcome s1) (Subscriptions.s_coins (plans s1)) w) as (w & -> & Hw).
  { apply bonus_run. cbn. by destruct Hs. }
  eexists. split; [reflexivity|]. by constructor.
Qed.

Lemma opened_ok u a h token now s s' :
  accounts_ok s → a_users s !! u = None → name_used (ac_username a) s = false →
  opened u a h token now s s' → accounts_ok s'.
Proof.
  intros [[Ht Hw Hid] Hn [Hnd Hp] Hph Hpw] Hu Hname Ho. pose proof (op_plans _ _ _ _ _ _ _ Ho) as (Hsp & Hst & _ & _).
  destruct (op_coins _ _ _ _ _ _ _ Ho) as [Hw' _ _].
  assert (u ∉ (profiles s).*1) as Hnew. { rewrite Hp, Hu. by intros []. }
  split.
  - split; [|done|].
    + intros id t. unfold plans in Hst. rewrite Hst. apply Ht.
    + intros id p. unfold plans in Hsp. rewrite Hsp. apply Hid.
  - rewrite (op_users _ _ _ _ _ _ _ Ho). intros v w x y.
    destruct (decide (v = u)) as [->|Hv], (decide (w = u)) as [->|Hw2];
      rewrite ?lookup_insert_eq, ?lookup_insert_ne by done; [done|..].
    + intros [= <-] Hy E. symmetry in E. by destruct (proj1 (name_unused _ _) Hname _ _ Hy).
    + intros Hx [= <-] E. by destruct (proj1 (name_unused _ _) Hname _ _ Hx).
    + apply Hn.
  - rewrite (op_profiles _ _ _ _ _ _ _ Ho), (op_users _ _ _ _ _ _ _ Ho), fmap_app. split.
    + apply NoDup_app. split; [done|]. split; [|by apply NoDup_singleton].
      intros v Hv ->%list_elem_of_singleton. done.
    + intros v. rewrite elem_of_app, Hp. cbn. rewrite list_elem_of_singleton. destruct (decide (v = u)) as [->|Hv].
      * rewrite lookup_insert_eq. split; [eauto|by right].
      * rewrite lookup_insert_ne by done. split; [by intros [?|?]|by left].
  - rewrite (op_profiles _ _ _ _ _ _ _ Ho). intros v w p. rewrite !elem_of_app, !list_elem_of_singleton.
    intros [?|[= ? ?]] [?|[= ? ?]]. by eapply Hph.
  - intros v. rewrite (op_passwords _ _ _ _ _ _ _ Ho), (op_users _ _ _ _ _ _ _ Ho).
    destruct (decide (v = u)) as [->|Hv].
    + rewrite !lookup_insert_eq. split; eauto.
    + rewrite !lookup_insert_ne by done. apply Hpw.
Qed.

Lemma profile_phone u p s : accounts_ok s → (u, p) ∈ profiles s ↔ SmsSubscription.profile_of u (a_sms s) = Some p.
Proof.
  intros [_ _ [Hnd _] _ _]. unfold SmsSubscription.profile_of. fold (profiles s).
  induction (profiles s) as [|[v q] l IH]; cbn.
  { split; [by intros ?%elem_of_nil|done]. }
  cbn in Hnd. apply NoDup_cons in Hnd as [Hv Hnd]. rewrite elem_of_cons. destruct (Z.eqb_spec v u) as [->|Hne]; cbn.
  - split; [intros [[= ->]|Hin]; [done|]|intros [= ->]; by left].
    destruct Hv. by apply (list_elem_of_fmap_2 fst) in Hin.
  - rewrite <- IH by done. split; [intros [[= -> ->]|?]; done|by right].
Qed.

Lemma owner_is u phone s : accounts_ok s → owner_of phone s = Some u ↔ phone_of u s = Some phone.
Proof.
  intros Hs. unfold owner_of, phone_of. split.
  - intros ([v q] & E & ->)%fmap_Some. apply List.find_some in E as [Hin E]. cbn in E. apply bool_decide_eq_true in E. subst q.
    apply list_elem_of_In in Hin. cbn. apply profile_phone in Hin; [|done]. by rewrite Hin.
  - intros (q & Hq & E)%bind_Some. cbn in E. subst q. apply profile_phone in Hq; [|done].
    destruct (List.find _ _) as [[v q]|] eqn:E.
    + apply List.find_some in E as [Hin E]. cbn in E. apply bool_decide_eq_true in E. subst q. cbn. f_equal.
      apply list_elem_of_In in Hin. by eapply (ok_phones _ Hs).
    + eapply List.find_none in E; [|by apply list_elem_of_In]. cbn in E. by rewrite bool_decide_true in E.
Qed.

Lemma accounts_frame s s' :
  accounts_ok s → a_users s' = a_users s → profiles s' = profiles s →
  (∀ u, is_Some (passwords s' !! u) ↔ is_Some (passwords s !! u)) → SmsSubscription.store_ok (a_sms s') → accounts_ok s'.
Proof.
  intros [Hs Hn Hp Hph Hpw] Hu Hpr Hpws Hs'. split; rewrite ?Hu, ?Hpr; try done. intros u. by rewrite Hpws.
Qed.

Lemma set_password_run u password salt s :
  set_password u password salt s = (inr tt, with_passwords (<[u := make_password password salt]> (passwords s)) s).
Proof. reflexivity. Qed.

Lemma set_password_ok u h s : accounts_ok s → is_Some (a_users s !! u) → accounts_ok (with_passwords (<[u := h]> (passwords s)) s).
Proof.
  intros Hs Hu. apply (accounts_frame s); try done; [|by destruct Hs as [[]]]. intros v. cbn.
  destruct (decide (v = u)) as [->|Hv].
  - rewrite lookup_insert_eq, (ok_passwords _ Hs). split; eauto.
  - by rewrite lookup_insert_ne.
Qed.

(** Whether another profile has the number. *)
Definition phone_used (user : Z) (phone : string) (s : store) : bool :=
  existsb (λ up : Z * option string, bool_decide (up.2 = Some phone) && negb (up.1 =? user)) (profiles s).

Lemma phone_unused u phone s :
  phone_used u phone s = false ↔ ∀ v, (v, Some phone) ∈ profiles s → v = u.
Proof.
  unfold phone_used. split.
  - intros H v Hv. destruct (Z.eqb_spec v u) as [|Hne]; [done|]. apply not_true_iff_false in H. destruct H.
    apply existsb_exists. exists (v, Some phone). split; [by apply list_elem_of_In|]. cbn.
    rewrite bool_decide_true by done. by apply Z.eqb_neq in Hne as ->.
  - intros H. apply not_true_iff_false. intros ([v q] & Hin & [E%bool_decide_eq_true Hne]%andb_true_iff)%existsb_exists.
    cbn in *. subst q. apply list_elem_of_In in Hin. rewrite (H v), Z.eqb_refl in Hne by done. done.
Qed.

Definition phone_set (user : Z) (phone : string) (s : store) : store :=
  with_profiles ((λ up : Z * option string, if up.1 =? user then (up.1, Some phone) else up) <$> profiles s) s.

Lemma set_phone_run u phone s :
  set_phone u phone s = if phone_used u phone s then (inl duplicate_phone, s) else (inr tt, phone_set u phone s).
Proof.
  unfold set_phone. rewrite bind_run. cbn [get]. fold (phone_used u phone s). by destruct (phone_used u phone s).
Qed.

Lemma phone_set_in u phone s v q :
  (v, q) ∈ profiles (phone_set u phone s) ↔
  (v = u ∧ q = Some phone ∧ u ∈ (profiles s).*1) ∨ (v ≠ u ∧ (v, q) ∈ profiles s).
Proof.
  change (profiles (phone_set u phone s))
    with ((λ up : Z * option string, if up.1 =? u then (up.1, Some phone) else up) <$> profiles s).
  rewrite list_elem_of_fmap. split.
  - intros ([w r] & E & Hin). cbn in E. destruct (Z.eqb_spec w u) as [->|Hne]; injection E as -> ->.
    + left. split_and!; [done..|]. apply list_elem_of_fmap. by exists (u, r).
    + right. done.
  - intros [(-> & -> & ([w r] & -> & Hin)%list_elem_of_fmap)|[Hne Hin]].
    + exists (w, r). cbn. by rewrite Z.eqb_refl.
    + exists (v, q). cbn. by apply Z.eqb_neq in Hne as ->.
Qed.

Lemma phone_set_ok u phone s : accounts_ok s → phone_used u phone s = false → accounts_ok (phone_set u phone s).
Proof.
  intros [Hs Hn [Hnd Hp] Hph Hpw] Hu. split; [by destruct Hs|done| | |done].
  - change (profiles (phone_set u phone s))
      with ((λ up : Z * option string, if up.1 =? u then (up.1, Some phone) else up) <$> profiles s).
    assert ((((λ up : Z * option string, if up.1 =? u then (up.1, Some phone) else up) <$> profiles s).*1) = (profiles s).*1) as ->.
    { rewrite <- list_fmap_compose. apply list_fmap_ext. intros i [v q] _. cbn. by destruct (v =? u). }
    done.
  - intros v w p. rewrite !phone_set_in. pose proof (proj1 (phone_unused _ _ _) Hu) as Hno.
    intros [(-> & E1 & _)|[Hv Hin]] [(-> & E2 & _)|[Hw Hin']]; simplify_eq.
    + done. + symmetry. by apply Hno. + by apply Hno. + by eapply Hph.
Qed.

Lemma phone_set_of u phone s :
  accounts_ok s → is_Some (a_users s !! u) → phone_used u phone s = false →
  phone_of u (phone_set u phone s) = Some phone ∧ ∀ v, v ≠ u → phone_of v (phone_set u phone s) = phone_of v s.
Proof.
  intros Hs Hu Hno. pose proof (phone_set_ok _ _ _ Hs Hno) as Hs'. unfold phone_of. split.
  - assert ((u, Some phone) ∈ profiles (phone_set u phone s)) as Hin.
    { apply phone_set_in. left. split_and!; [done..|]. by apply (ok_profiles _ Hs). }
    apply profile_phone in Hin; [|done]. by rewrite Hin.
  - intros v Hv. f_equal. apply option_eq. intros q. rewrite <- !profile_phone by done.
    rewrite phone_set_in. split; [by intros [(? & _)|[_ ?]]|by right].
Qed.

Lemma untaken name s :
  is_taken name None s = false → strip name = name → name ≠ "" →
  ∀ u a, a_users s !! u = Some a → lower (ac_username a) ≠ lower name.
Proof.
  unfold is_taken. intros H Hst Hne u a Ha E. rewrite Hst in H. apply String.eqb_neq in Hne. rewrite Hne in H.
  apply not_true_iff_false in H. destruct H. apply existsb_exists. exists (u, a). split.
  - by apply list_elem_of_In, elem_of_map_to_list.
  - cbn. rewrite bool_decide_false by done. rewrite andb_true_r. apply String.eqb_eq. done.
Qed.

Lemma untaken_unused name s :
  is_taken name None s = false → strip name = name → name ≠ "" → name_used name s = false.
Proof. intros H Hs Hn. apply name_unused. intros u a Ha E. eapply untaken; [exact H|done|done|exact Ha|by rewrite E]. Qed.

(** A generated name is nobody's, whatever its case, as soon as one of the
    numbers drawn makes one. *)
Lemma generate_unique_free prefix draws token s n :
  n ∈ draws → (∀ u a, a_users s !! u = Some a → lower (ac_username a) ≠ lower (prefix +:+ str_int (n + 10000000))) →
  ∀ u a, a_users s !! u = Some a → lower (ac_username a) ≠ lower (generate_unique prefix draws token s).
Proof.
  intros Hn Hfree. induction draws as [|m draws IH]; [by apply elem_of_nil in Hn|]. cbn [generate_unique].
  destruct (existsb _ _) eqn:E.
  - apply IH. apply elem_of_cons in Hn as [<-|]; [|done]. exfalso.
    apply existsb_exists in E as ([u a] & Hin & E). apply String.eqb_eq in E. cbn in E.
    apply list_elem_of_In, elem_of_map_to_list in Hin. by apply (Hfree u a).
  - intros u a Ha Heq. apply not_true_iff_false in E. destruct E. apply existsb_exists. exists (u, a). split.
    + by apply list_elem_of_In, elem_of_map_to_list.
    + cbn. by apply String.eqb_eq.
Qed.

(** Creating a user is all or nothing.  It fails exactly when the name is
    empty or is, to the letter, another user's (or the key is taken), and then
    nothing was written.  Otherwise the new user has that name, one profile
    without a number, the password given or none that can be used, and the
    welcome coins of the configuration, once, none of them giftable; nobody
    else's coins move, no plan changes, and so nobody gains access by it.  The
    new user also counts at once as having subscribed before.  Names, numbers
    and profiles stay one to one. *)
Theorem new_account username password email d now s :
  accounts_ok s →
  let '(r, s') := create_user username password email d now s in
  let coins x := Subscriptions.s_coins (plans x) in
  accounts_ok s' ∧
  match r with
  | inl _ => s' = s ∧ (username = "" ∨ (∃ u a, a_users s !! u = Some a ∧ ac_username a = username)
                       ∨ is_Some (a_users s !! dr_user d))
  | inr u => u = dr_user d ∧ a_users s !! u = None
      ∧ a_users s' = <[u := Account username (normalize_email email)]> (a_users s)
      ∧ phone_of u s' = None ∧ passwords s' = <[u := hashed password (dr_salt d)]> (passwords s)
      ∧ (∀ v, CoinBalance.total_of v (coins s') = CoinBalance.total_of v (coins s) + if decide (v = u) then welcome s else 0)
      ∧ (∀ v, CoinBalance.giftable_of v (coins s') = CoinBalance.giftable_of v (coins s))
      ∧ Subscriptions.s_plans (plans s') = Subscriptions.s_plans (plans s)
      ∧ (∀ v t, Subscriptions.has_active_subscription v t (plans s') = Subscriptions.has_active_subscription v t (plans s))
      ∧ Subscriptions.has_ever_subscribed u (plans s') = true
  end.
Proof.
  intros Hs. pose proof (create_user_run username password email d now s (ok_sms _ Hs)) as Hrun. cbv zeta in Hrun.
  destruct (String.eqb_spec username "") as [->|Hne]; [rewrite Hrun; split; [done|]; split; [done|]; by left|].
  destruct (name_used username s) eqn:Hname.
  { rewrite Hrun. split; [done|]. split; [done|]. right. left.
    apply existsb_exists in Hname as ([u a] & Hin & E%String.eqb_eq). exists u, a. split; [|done].
    by apply elem_of_map_to_list, list_elem_of_In. }
  destruct (a_users s !! dr_user d) eqn:Hd; [rewrite Hrun; split; [done|]; split; [done|]; right; right; eauto|].
  destruct Hrun as (s' & -> & Ho). assert (accounts_ok s') as Hs' by exact (opened_ok _ (Account username _) _ _ _ _ _ Hs Hd Hname Ho).
  pose proof (op_plans _ _ _ _ _ _ _ Ho) as (Hsp & _ & _ & Hleg). pose proof (op_coins _ _ _ _ _ _ _ Ho) as [_ Htot Hgift].
  split; [done|]. split_and!; try done; try by destruct Ho.
  - unfold phone_of. assert ((dr_user d, None) ∈ profiles s') as Hin.
    { rewrite (op_profiles _ _ _ _ _ _ _ Ho). apply elem_of_app. right. by left. }
    apply profile_phone in Hin; [|done]. by rewrite Hin.
  - intros v t. unfold Subscriptions.has_active_subscription. rewrite Hsp, Hleg, existsb_app. cbn.
    by rewrite andb_false_r, !orb_false_r.
  - unfold Subscriptions.has_ever_subscribed. rewrite Hleg, existsb_app. cbn. rewrite Z.eqb_refl.
    by rewrite !orb_true_r.
Qed.

End Passwords.

(** ** Examples *)

Definition plain_hash (password salt : string) : string := "plain$" +:+ salt +:+ "$" +:+ password.
Definition no_accounts : store :=
  Store ∅ ∅ (SmsSubscription.Store (Subscriptions.Store ∅ ∅ [] CoinBalance.no_wallets []) ∅ [] ∅ [] [] []) ∅ None.

Lemma no_accounts_ok : accounts_ok no_accounts.
Proof.
  split; cbn; [..|by intros u; rewrite !lookup_empty; split; intros []].
  - split; [|apply CoinBalance.wallet_ok_empty|]; intros ? ? Hid; cbn in Hid; by rewrite lookup_empty in Hid.
  - intros u v a b Ha. by rewrite lookup_empty in Ha.
  - split; [constructor|]. intros u. rewrite lookup_empty. split; [by intros ?%elem_of_nil|by intros []].
  - intros u v p Hin. by apply elem_of_nil in Hin.
Qed.

Definition one_account : store :=
  (create_user plain_hash "Ammen" (Some "204403") "" (Draw 7 "s" "t7") 0 no_accounts).2.

Lemma new_account_witness :
  let d := Draw 8 "s" "t8" in
  let '(r, s') := create_user plain_hash "ammen" (Some "204403") "" d 0 one_account in
  (accounts_ok one_account ∧ r = inr 8
   ∧ CoinBalance.total_of 8 (Subscriptions.s_coins (plans s')) = 100) ∧ accounts_ok s'.
Proof.
  assert (accounts_ok one_account) as Hs.
  { pose proof (create_user_run plain_hash "Ammen" (Some "204403") "" (Draw 7 "s" "t7") 0 no_accounts (ok_sms _ no_accounts_ok))
      as (s' & E & Ho). unfold one_account. rewrite E. by eapply opened_ok; [apply no_accounts_ok|..|exact Ho]. }
  pose proof (new_account plain_hash "ammen" (Some "204403") "" (Draw 8 "s" "t8") 0 one_account Hs) as H.
  cbv zeta. destruct (create_user _ _ _ _ _ _ _) as [r s'] eqn:E. cbv zeta in H. destruct H as [Hs' _].
  split; [|exact Hs']. split; [exact Hs|]. vm_compute in E. injection E as <- <-. by vm_compute.
Defined.

(** The database lets through what [is_taken] refuses: two names that differ
    in case; [generate_unique] avoids both. *)
Example names :
  is_taken " AMMEN " None one_account = true ∧ is_taken "ammen" (Some 7) one_account = false
  ∧ name_used "ammen" one_account = false
  ∧ generate_unique "star" [5; 6] "ab" one_account = "star10000005"
  ∧ is_duplicate_username_error duplicate_username = true ∧ is_duplicate_username_error duplicate_phone = false
  ∧ normalize_email " Abe@Flip@STAR.Et " = "Abe@Flip@star.et".
Proof. by vm_compute. Qed.

End Accounts.
