(* ===== verification/SignIn.v ===== *)
(** * SignIn: registration, sign-in and the ways a PIN is set

    Models the account endpoints of [src/api/views/core.py], from [register]
    to [forgot_password_phone_verify], the failure counter of
    [src/common/throttling.py] and [login_subscription_state] of
    [src/api/services/subscription_access.py], over [Accounts], the login codes
    of [LoginOtp] and the plans of [SmsSubscription].

    Arguments: the password hashing, the field checks of the serializer, the
    cache, and what is drawn.  Not modelled: the rate limits of the framework,
    the audit rows of [login], the columns of a profile that sign-in does not
    read, and [download_data].  [delete_account] is in [AccountRun]. *)

From Stdlib Require Import ZArith Lia.
From stdpp Require Import gmap strings sorting.
From S2P Require Import Prelude StableSort Phone Subscriptions SubscriptionGift SmsQueue Cache LoginOtp SyncOrder SmsSubscription Accounts.

Module SignIn.
Import Subscriptions StableSort Cache.

(** ** Answers *)

(** [SignedIn]: the status, the user, the token and, where the endpoint adds
    it, [login_subscription_state]: whether a plan is required and, if so,
    whether there was one before. *)
Inductive answer :=
| Refused (status : Z) (error : string)
| SignedIn (status user : Z) (token : string) (state : option (bool * bool))
| Done (message : string).

Definition login_subscription_state (user now : Z) (x : Subscriptions.store) : bool * bool :=
  if has_active_subscription user now x then (false, false) else (true, has_ever_subscribed user x).

(** ** Plans *)

Definition set_user (user : Z) (p : plan) : plan :=
  Plan (sp_id p) (Some user) (sp_tier p) (sp_status p) (sp_duration_type p) (sp_start p) (sp_end p) (sp_next_renewal p)
    (sp_auto_renew p) (sp_free_trial_days p) (sp_cancelled_at p) (sp_cancellation_reason p) (sp_grace_started p)
    (sp_grace_expires p) (sp_bonus_granted_at p) (sp_token p) (sp_token_expires p).

(** The columns beside a plan, with the defaults of the model. *)
Definition line_of (p : plan) (s : Accounts.store) : SmsSubscription.line :=
  default (SmsSubscription.Line None "app" "onevas" None None 0) (SmsSubscription.line_of p (Accounts.a_sms s)).
Definition with_number (phone : string) (l : SmsSubscription.line) : SmsSubscription.line :=
  SmsSubscription.Line (Some phone) (SmsSubscription.ln_source l) (SmsSubscription.ln_payment_method l)
    (SmsSubscription.ln_setup_otp l) (SmsSubscription.ln_setup_otp_expires_at l) (SmsSubscription.ln_created_at l).

(** [subscription.save()]: the plan's columns and those beside it. *)
Definition save_plan (p : plan) (l : SmsSubscription.line) : M Accounts.store unit :=
  Accounts.in_plans (Subscriptions.save p) ≫= λ _,
  modify (λ s, Accounts.with_sms
    (SmsSubscription.with_lines (<[sp_id p := l]> (SmsSubscription.m_lines (Accounts.a_sms s))) (Accounts.a_sms s)) s).

Definition newest_first (s : Accounts.store) : list plan := SmsSubscription.newest_first (Accounts.a_sms s).

(** [order_by('-start_date')]: PostgreSQL puts the missing dates first. *)
Definition starts_later (p q : plan) : bool :=
  match sp_start p, sp_start q with
  | None, _ => true
  | Some _, None => false
  | Some a, Some b => b <=? a
  end.
Definition latest_first (l : list plan) : list plan := sort_by starts_later l.

Definition airtime_phone (p : plan) (s : Accounts.store) : option string := SmsSubscription.ln_phone (line_of p s).
Definition telebirr_phone (p : plan) (s : Accounts.store) : option string := Accounts.a_telebirr s !! sp_id p.
Definition among (phones : list string) (phone : option string) : bool :=
  match phone with Some p => bool_decide (p ∈ phones) | None => false end.

(** An active plan announced by text message. *)
Definition by_sms (phone : string) (s : Accounts.store) (p : plan) : bool :=
  bool_decide (airtime_phone p s = Some phone) && bool_decide (sp_status p = active)
  && String.eqb (SmsSubscription.ln_source (line_of p s)) "sms".
Definition unowned (p : plan) : bool := bool_decide (sp_user p = None).

(** ** The store *)

Section Service.
Context {C : Type} `{cache_c : Cache C}.
Context (make_password : string → string → string) (check_password : string → string → bool).
Context (invalid_fields : string → string → bool).

Record reset_token := ResetToken { rt_code : string; rt_expires_at : Z; rt_used : bool }.

(** [g_mails]: the codes sent, with the address. *)
Record store := Store {
  g_accounts : Accounts.store; g_resets : gmap Z reset_token; g_mails : list (string * string); g_cache : C
}.

Definition with_accounts (x : Accounts.store) (s : store) : store := Store x (g_resets s) (g_mails s) (g_cache s).
Definition with_resets (x : gmap Z reset_token) (s : store) : store := Store (g_accounts s) x (g_mails s) (g_cache s).
Definition with_cache (c : C) (s : store) : store := Store (g_accounts s) (g_resets s) (g_mails s) c.
Definition in_accounts {A} : M Accounts.store A → M store A := zoom g_accounts with_accounts.

Definition otp_view (s : store) : LoginOtp.store :=
  LoginOtp.Store (SmsSubscription.m_sms (Accounts.a_sms (g_accounts s))) (g_cache s).
Definition otp_upd (o : @LoginOtp.store C) (s : store) : store :=
  let a := g_accounts s in
  Store (Accounts.with_sms (SmsSubscription.with_sms (LoginOtp.s_messages o) (Accounts.a_sms a)) a)
    (g_resets s) (g_mails s) (LoginOtp.s_cache o).
Definition in_otp {A} : M (@LoginOtp.store C) A → M store A := zoom otp_view otp_upd.

(** ** Users *)

Definition users (s : store) : list (Z * Accounts.account) := map_to_list (Accounts.a_users (g_accounts s)).

(** [User.objects.get]. *)
Definition get_user (f : Accounts.account → bool) : M store Z :=
  s ← get;
  match List.filter (λ ua, f ua.2) (users s) with
  | [] => raise (DoesNotExist "User")
  | [(u, _)] => mret u
  | _ => raise (MultipleObjectsReturned "User")
  end.
Definition if_found {A} (m : M store A) (otherwise : M store A) : M store A :=
  catch m (λ e, match e with DoesNotExist _ => Some otherwise | _ => None end).

Definition stored_password (user : Z) (s : store) : string := default "" (Accounts.passwords (g_accounts s) !! user).
Definition has_usable_password (user : Z) (s : store) : bool :=
  SmsSubscription.has_usable_password (stored_password user s).
Definition password_matches (password : string) (user : Z) (s : store) : bool :=
  has_usable_password user s && check_password password (stored_password user s).

Definition set_password (user : Z) (password salt : string) : M store unit :=
  in_accounts (Accounts.set_password make_password user password salt).

(** [Token.objects.get_or_create]. *)
Definition get_token (user : Z) (new : string) : M store string :=
  s ← get;
  let tokens := Accounts.a_tokens (g_accounts s) in
  match tokens !! user with
  | Some t => mret t
  | None => put (with_accounts (Accounts.with_tokens (<[user := new]> tokens) (g_accounts s)) s) ≫= λ _, mret new
  end.
Definition delete_token (user : Z) : M store unit :=
  in_accounts (modify (λ a, Accounts.with_tokens (delete user (Accounts.a_tokens a)) a)).

(** What is drawn: the account's columns, a salt, a token, a code, the numbers
    and the last resort of a generated name, and what the clock prints. *)
Record draw := Draw {
  dw_user : Accounts.draw; dw_salt : string; dw_token : string; dw_code : string;
  dw_numbers : list Z; dw_hex : string; dw_stamp : string
}.

Definition sign_in (status user : Z) (d : draw) (now : Z) : M store answer :=
  token ← get_token user (dw_token d);
  s ← get;
  mret (SignedIn status user token (Some (login_subscription_state user now (Accounts.plans (g_accounts s))))).
Definition sign_in_plain (status user : Z) (d : draw) : M store answer :=
  token ← get_token user (dw_token d); mret (SignedIn status user token None).

(** ** The failure counter *)

Record request := Request {
  rq_caller : option Z; rq_username : string; rq_email : string; rq_phone : string; rq_password : string; rq_ip : string
}.

Definition _get_throttle_ident (r : request) : string :=
  match rq_caller r with
  | Some u => "user_" +:+ str_int u
  | None =>
      if negb (String.eqb (strip (rq_username r)) "") then "username_" +:+ strip (rq_username r)
      else if negb (String.eqb (strip (rq_email r)) "") then "email_" +:+ strip (rq_email r)
      else if negb (String.eqb (strip (rq_phone r)) "") then "phone_" +:+ strip (rq_phone r)
      else "ip_" +:+ rq_ip r
  end.

Definition failures_key (r : request) (scope : string) : string :=
  "failed_attempts_" +:+ scope +:+ "_" +:+ _get_throttle_ident r.

Definition failures (r : request) (scope : string) (now : Z) (s : store) : Z :=
  match cache_get (g_cache s) now (failures_key r scope) with Some (VInt n) => n | _ => 0 end.

Definition check_and_increment_failure (r : request) (scope : string) (max_attempts window_seconds now : Z) : M store Z :=
  s ← get;
  let attempts := failures r scope now s + 1 in
  put (with_cache (cache_set (g_cache s) now (failures_key r scope) (VInt attempts) (window_seconds * second)) s) ≫= λ _,
  mret (Z.max 0 (max_attempts - attempts)).

Definition is_blocked (r : request) (scope : string) (max_attempts now : Z) (s : store) : bool :=
  max_attempts <=? failures r scope now s.

Definition clear_failures (r : request) (scope : string) (now : Z) : M store unit :=
  modify (λ s, with_cache (cache_delete (g_cache s) now (failures_key r scope)) s).

(** ** Username and password *)

Definition locked_out : answer := Refused 429 "Too many failed login attempts. Please try again in 10 minutes.".

Definition login_failed (r : request) (now : Z) : M store answer :=
  remaining ← check_and_increment_failure r "login" 6 600 now;
  mret (if remaining =? 0 then locked_out else Refused 401 "Invalid credentials").

Definition login (r : request) (d : draw) (now : Z) : M store answer :=
  s ← get;
  if is_blocked r "login" 6 now s then mret locked_out
  else if String.eqb (rq_username r) "" || String.eqb (rq_password r) "" then mret (Refused 400 "Username and password required")
  else
    user ← if_found (u ← get_user (λ a, String.eqb (Accounts.ac_username a) (rq_username r)); mret (Some u))
             (if_found (u ← get_user (λ a, String.eqb (Accounts.ac_email a) (rq_username r)); mret (Some u)) (mret None));
    s ← get;
    match user with
    | Some u =>
        if password_matches (rq_password r) u s
        then clear_failures r "login" now ≫= λ _, sign_in 200 u d now
        else login_failed r now
    | None => login_failed r now
    end.

Definition username_taken : answer := Refused 409 "USERNAME_TAKEN".

(** A duplicate the database caught: [is_duplicate_username_error]. *)
Definition duplicate_as_taken {A} (m : M store A) (f : A → M store answer) : M store answer :=
  r ← catch (a ← m; mret (Some a))
        (λ e, match e with
              | IntegrityError _ => if Accounts.is_duplicate_username_error e then Some (mret None) else None
              | _ => None
              end);
  match r with Some a => f a | None => mret username_taken end.

Definition register (username email password : string) (d : draw) (now : Z) : M store answer :=
  s ← get;
  if Accounts.is_taken username None (g_accounts s) then mret username_taken
  else
    let username := strip username in
    let email := strip email in
    let password := strip password in
    if String.eqb username "" || invalid_fields username email || Accounts.name_used username (g_accounts s)
       || (Accounts.is_pin_too_weak password).1
    then mret (Refused 400 "invalid")
    else duplicate_as_taken (in_accounts (Accounts.create_user make_password username (Some password) email (dw_user d) now))
           (λ u, sign_in_plain 201 u d).

Definition reset_password (email new_password : string) (d : draw) : M store answer :=
  if String.eqb email "" || String.eqb new_password "" then mret (Refused 400 "Email and new_password required")
  else let '(too_weak, reason) := Accounts.is_pin_too_weak new_password in
  if too_weak then mret (Refused 400 reason)
  else if_found (u ← get_user (λ a, String.eqb (Accounts.ac_email a) email);
                 set_password u new_password (dw_salt d) ≫= λ _,
                 delete_token u ≫= λ _,
                 mret (Done "Password reset successful. You can now login."))
         (mret (Refused 404 "User not found")).

(** [IsAuthenticated] first. *)
Definition change_password (user : Z) (current_password new_password : string) (d : draw) : M store answer :=
  s ← get;
  if negb (bool_decide (is_Some (Accounts.a_users (g_accounts s) !! user)))
  then mret (Refused 401 "Authentication credentials were not provided.")
  else if String.eqb current_password "" || String.eqb new_password ""
  then mret (Refused 400 "current_password and new_password required")
  else let '(too_weak, reason) := Accounts.is_pin_too_weak new_password in
  if too_weak then mret (Refused 400 reason)
  else
    if negb (password_matches current_password user s) then mret (Refused 400 "Current password is incorrect")
    else set_password user new_password (dw_salt d) ≫= λ _,
         delete_token user ≫= λ _,
         mret (Done "Password changed successfully. Please login again.").

(** ** A number and a PIN *)

Definition invalid_phone : answer := Refused 400 "Invalid Ethiopian phone number".

(** A PIN for an account found by its number. *)
Definition sign_in_with_pin (user : Z) (password : string) (d : draw) (now : Z) : M store answer :=
  s ← get;
  if password_matches password user s then sign_in 200 user d now
  else if negb (has_usable_password user s) then mret (Refused 403 "pin_not_set")
  else mret (Refused 401 "Invalid password").

Definition login_with_phone (phone password : string) (d : draw) (now : Z) : M store answer :=
  let phone := strip phone in
  let password := strip password in
  if String.eqb phone "" || String.eqb password "" then mret (Refused 400 "Phone and password required")
  else match Phone.normalize_ethiopian_phone (Some phone) with
  | None => mret invalid_phone
  | Some phone =>
      s ← get;
      match List.find (by_sms phone (g_accounts s)) (newest_first (g_accounts s)) with
      | Some p =>
          match sp_user p with
          | Some u => sign_in_with_pin u password d now
          | None => mret (Refused 400 "User account not created yet")
          end
      | None =>
          match Accounts.owner_of phone (g_accounts s) with
          | Some u => sign_in_with_pin u password d now
          | None => mret (Refused 400 "No account found for this phone number. Please subscribe and register first.")
          end
      end
  end.

Definition check_phone_account (phone : string) : M store (Z * bool) :=
  match Phone.normalize_ethiopian_phone (Some (strip phone)) with
  | None => mret (400, false)
  | Some phone => s ← get; mret (200, bool_decide (is_Some (Accounts.owner_of phone (g_accounts s))))
  end.

(** ** Login codes *)

Definition code_sent (r : bool * string) : answer := if r.1 then Done r.2 else Refused 429 r.2.
Definition code_checked (r : bool * string) : answer := if r.1 then Done r.2 else Refused 400 r.2.

Definition send_phone_otp (phone : string) (d : draw) (now : Z) : M store answer :=
  let phone := strip phone in
  if String.eqb phone "" then mret (Refused 400 "Phone number required")
  else match Phone.normalize_ethiopian_phone (Some phone) with
  | None => mret (Refused 400 "Invalid Ethiopian phone number. Use format 09XXXXXXXX or +251XXXXXXXXX")
  | Some phone =>
      s ← get;
      if bool_decide (is_Some (Accounts.owner_of phone (g_accounts s)))
      then mret (Refused 400 "This phone number is already registered")
      else r ← in_otp (LoginOtp.send_otp phone "verification" (dw_code d) (dw_stamp d) now); mret (code_sent r)
  end.

Definition verify_phone_otp (phone code : string) (d : draw) (now : Z) : M store answer :=
  let phone := strip phone in
  let code := strip code in
  if String.eqb phone "" || String.eqb code "" then mret (Refused 400 "Phone and code required")
  else match Phone.normalize_ethiopian_phone (Some phone) with
  | None => mret invalid_phone
  | Some phone => r ← in_otp (LoginOtp.verify_otp phone code (dw_stamp d) now); mret (code_checked r)
  end.

Definition send_login_otp (phone : string) (d : draw) (now : Z) : M store answer :=
  let phone := strip phone in
  if String.eqb phone "" then mret (Refused 400 "Phone number required")
  else match Phone.normalize_ethiopian_phone (Some phone) with
  | None => mret (Refused 400 "Invalid Ethiopian phone number. Use format 09XXXXXXXX or +251XXXXXXXXX")
  | Some phone => r ← in_otp (LoginOtp.send_otp phone "login" (dw_code d) (dw_stamp d) now); mret (code_sent r)
  end.

(** The plan paid for by Telebirr that a number without a profile has. *)
Definition telebirr_plan (phone : string) (now : Z) (s : Accounts.store) : option plan :=
  List.find (λ p, among (Phone.lookup_variants (Some phone)) (telebirr_phone p s)
                  && String.eqb (SmsSubscription.ln_payment_method (line_of p s)) "telebirr"
                  && is_active now p)
    (newest_first s).

Definition login_with_otp (phone code : string) (d : draw) (now : Z) : M store answer :=
  let phone := strip phone in
  let code := strip code in
  if String.eqb phone "" || String.eqb code "" then mret (Refused 400 "Phone and code required")
  else match Phone.normalize_ethiopian_phone (Some phone) with
  | None => mret (Refused 400 "Invalid phone number")
  | Some phone =>
      r ← in_otp (LoginOtp.verify_otp phone code (dw_stamp d) now);
      if negb r.1 then mret (Refused 400 r.2)
      else
        s ← get;
        match Accounts.owner_of phone (g_accounts s) with
        | Some u => sign_in 200 u d now
        | None =>
            match telebirr_plan phone now (g_accounts s) ≫= sp_user with
            | Some u => sign_in 200 u d now
            | None => mret (Refused 400 "No account found. Please register first.")
            end
        end
  end.

(** ** Registration with a number *)

Definition take_over (user : Z) (p : plan) : M Accounts.store unit :=
  s ← get;
  save_plan (set_user user p) (line_of p s) ≫= λ _,
  modify (λ s,
    let m := Accounts.a_sms s in
    let payments := (λ x : SmsSubscription.paid,
      let pay := SmsSubscription.pd_payment x in
      if (SubscriptionGift.pay_plan pay =? sp_id p) && bool_decide (SubscriptionGift.pay_user pay = None)
      then SmsSubscription.Paid (SubscriptionGift.Payment (SubscriptionGift.pay_id pay) (SubscriptionGift.pay_plan pay) (Some user)
             (SubscriptionGift.pay_status pay) (SubscriptionGift.pay_start pay) (SubscriptionGift.pay_end pay))
             (SmsSubscription.pd_amount x) (SmsSubscription.pd_method x) (SmsSubscription.pd_duration x)
      else x) <$> SmsSubscription.m_payments m in
    let history := (λ h : SmsSubscription.history,
      if (SmsSubscription.h_plan h =? sp_id p) && bool_decide (SmsSubscription.h_user h = None)
      then SmsSubscription.History (SmsSubscription.h_plan h) (Some user) (SmsSubscription.h_tier h)
             (SmsSubscription.h_action h) (SmsSubscription.h_reason h) (SmsSubscription.h_transaction h)
      else h) <$> SmsSubscription.m_history m in
    Accounts.with_sms (SmsSubscription.with_history history (SmsSubscription.with_payments payments m)) s).

Definition link_plans (user : Z) (phone : string) : M Accounts.store unit :=
  atomic (
    s ← get;
    for_each (take_over user) (List.filter (λ p, by_sms phone s p && unowned p) (newest_first s))).

Definition not_created : answer := Refused 400 "We could not create your account. Please try again.".

(** [except Exception]. *)
Definition or_not_created (m : M store answer) : M store answer :=
  catch m (λ e, Some (mret (if Accounts.is_duplicate_username_error e then username_taken else not_created))).

(** The number of [sms_subscription]: whether one without an owner is there. *)
Definition subscribed_unowned (phone : string) (s : Accounts.store) : bool :=
  existsb (λ p, by_sms phone s p && unowned p) (newest_first s).

Definition register_with_phone (phone username password email : string) (skip_otp : bool) (d : draw) (now : Z) : M store answer :=
  let phone := strip phone in
  let username := strip username in
  let password := strip password in
  let email := strip email in
  if String.eqb phone "" || String.eqb username "" || String.eqb password ""
  then mret (Refused 400 "phone, username, and password are required")
  else let '(too_weak, reason) := Accounts.is_pin_too_weak password in
  if too_weak then mret (Refused 400 reason)
  else match Phone.normalize_ethiopian_phone (Some phone) with
  | None => mret (Refused 400 "Invalid Ethiopian phone number. Use format 09XXXXXXXX or +251XXXXXXXXX")
  | Some phone =>
      s ← get;
      let skip_otp := if subscribed_unowned phone (g_accounts s) then true else skip_otp in
      verified ← (if skip_otp then mret true else in_otp (LoginOtp.is_verified phone now));
      if negb verified then mret (Refused 400 "Phone not verified. Please complete OTP step first.")
      else if Accounts.is_taken username None (g_accounts s) then mret username_taken
      else if bool_decide (is_Some (Accounts.owner_of phone (g_accounts s))) then mret (Refused 400 "Phone number already registered")
      else or_not_created (
        user ← in_accounts (Accounts.create_user make_password username (Some password) email (dw_user d) now);
        in_accounts (Accounts.set_phone user phone) ≫= λ _,
        when (negb skip_otp) (in_otp (LoginOtp.consume_verification phone now) ≫= λ _, mret tt) ≫= λ _,
        in_accounts (link_plans user phone) ≫= λ _,
        sign_in_plain 201 user d)
  end.

(** ** The setup code of a subscription *)

Definition code_is_live (otp : string) (now : Z) (l : SmsSubscription.line) : bool :=
  bool_decide (SmsSubscription.ln_setup_otp l = Some otp)
  && match SmsSubscription.ln_setup_otp_expires_at l with Some e => now <? e | None => false end.

Definition plan_of_code (phone otp : string) (now : Z) (s : Accounts.store) : option plan :=
  let phones := Phone.lookup_variants (Some phone) in
  head (latest_first (List.filter
    (λ p, (among phones (airtime_phone p s) || among phones (telebirr_phone p s))
          && code_is_live otp now (line_of p s) && bool_decide (sp_status p = active))
    (newest_first s))).

Definition without_code (l : SmsSubscription.line) : SmsSubscription.line :=
  SmsSubscription.set_otp None (SmsSubscription.ln_setup_otp_expires_at l) l.

(** The account the plan already has: its PIN is set. *)
Definition enter_with_code (p : plan) (user : Z) (phone password : string) (d : draw) (now : Z) : M store answer :=
  s ← get;
  assert_or (bool_decide (is_Some (Accounts.a_users (g_accounts s) !! user))) (DoesNotExist "User") ≫= λ _,
  set_password user password (dw_salt d) ≫= λ _,
  s ← get;
  when (String.eqb (default "" (Accounts.phone_of user (g_accounts s))) "") (in_accounts (Accounts.set_phone user phone)) ≫= λ _,
  in_accounts (save_plan p (without_code (line_of p (g_accounts s)))) ≫= λ _,
  sign_in 200 user d now.

(** A new account for it. *)
Definition open_with_code (p : plan) (username phone password : string) (d : draw) (now : Z) : M store answer :=
  or_not_created (
    user ← atomic (
      user ← in_accounts (Accounts.create_user make_password username (Some password) (username +:+ "@flipstar.app") (dw_user d) now);
      in_accounts (Accounts.set_phone user phone) ≫= λ _,
      s ← get;
      in_accounts (save_plan (set_user user p) (without_code (line_of p (g_accounts s)))) ≫= λ _,
      mret user);
    sign_in_plain 201 user d).

Definition login_with_subscription_otp (phone username otp password : string) (d : draw) (now : Z) : M store answer :=
  let phone := strip phone in
  let username := strip username in
  let otp := strip otp in
  let password := strip password in
  if String.eqb phone "" || String.eqb otp "" || String.eqb password ""
  then mret (Refused 400 "phone, otp, and password are required")
  else let '(too_weak, reason) := Accounts.is_pin_too_weak password in
  if too_weak then mret (Refused 400 reason)
  else match Phone.normalize_ethiopian_phone (Some phone) with
  | None => mret invalid_phone
  | Some phone =>
      s ← get;
      match plan_of_code phone otp now (g_accounts s) with
      | None => mret (Refused 400 "Invalid OTP or no active subscription found")
      | Some p =>
          match sp_user p with
          | Some u => enter_with_code p u phone password d now
          | None =>
              if String.eqb username ""
              then open_with_code p (Accounts.generate_unique "star" (dw_numbers d) (dw_hex d) (g_accounts s)) phone password d now
              else if Accounts.is_taken username None (g_accounts s) then mret username_taken
              else open_with_code p username phone password d now
          end
      end
  end.

(** ** A fresh setup code *)

Definition resend_key (phone : string) : string := "resend_sub_otp:" +:+ phone.

Definition plan_to_resend (phone : string) (now : Z) (s : Accounts.store) : option plan :=
  head (latest_first (List.filter
    (λ p, (bool_decide (airtime_phone p s = Some phone) || bool_decide (telebirr_phone p s = Some phone))
          && bool_decide (sp_status p = active) && match sp_end p with Some e => now <? e | None => false end)
    (newest_first s))).

Definition safe_response : answer := Done "If an active subscription exists, a new OTP has been sent via SMS.".

Definition resend_message (t : tier) (short_code otp_code register_url token : string) (existing_user : bool) : string :=
  "Dear valued customer, here is your new OTP for your " +:+ tr_name t +:+ " Flipstar subscription: " +:+ otp_code
  +:+ ". To access your premium service, please click on " +:+ register_url +:+ "?subscription_tp=true&token=" +:+ token
  +:+ (if existing_user then "&existing_user=true" else "") +:+ " and enter this OTP. "
  +:+ "To cancel your subscription at any time, please send "
  +:+ default "STOP" (SmsSubscription.STOP_KEYWORDS (tr_duration_type t)) +:+ " to " +:+ short_code +:+ ".".

(** [short_code] of the tier; [register_url], [web_app_register_url()]. *)
Definition resend_subscription_otp (short_code : tier → string) (register_url phone : string) (d : draw) (now : Z) : M store answer :=
  let phone := strip phone in
  if String.eqb phone "" then mret (Refused 400 "Phone number required")
  else match Phone.normalize_ethiopian_phone (Some phone) with
  | None => mret invalid_phone
  | Some phone =>
      s ← get;
      if bool_decide (is_Some (cache_get (g_cache s) now (resend_key phone)))
      then mret (Refused 429 "Please wait before requesting another OTP.")
      else
        let a := g_accounts s in
        match plan_to_resend phone now a with
        | None => mret safe_response
        | Some p =>
        match tier_of p (Accounts.plans a) with
        | None => mret safe_response
        | Some t =>
            let l := SmsSubscription.set_otp (Some (dw_code d)) (Some (now + 30 * minute)) (line_of p a) in
            let l := if String.eqb (default "" (SmsSubscription.ln_phone l)) "" then with_number phone l else l in
            in_accounts (save_plan p l) ≫= λ _,
            p ← in_accounts (Accounts.in_plans (generate_subscription_token p (dw_token d) 24 now));
            queued ← catch (in_accounts (Accounts.in_sms (SmsSubscription.in_sms (SmsQueue.queue_sms phone
                       (resend_message t (short_code t) (dw_code d) register_url (dw_token d) (bool_decide (is_Some (sp_user p))))
                       "otp_subscription_resend" "" "" (dw_stamp d) now))) ≫= λ _, mret true)
                     (λ e, match e with SmsNotQueued _ => Some (mret false) | _ => None end);
            if negb queued then mret (Refused 502 "Failed to send OTP SMS. Please try again.")
            else modify (λ s, with_cache (cache_set (g_cache s) now (resend_key phone) (VText "True") minute) s) ≫= λ _,
                 mret safe_response
        end end
  end.

(** ** Forgotten PINs *)

Definition reset_mailed : answer := Done "If an account with that email exists, a reset code has been sent.".

Definition forgot_password_request (email : string) (d : draw) (now : Z) : M store answer :=
  let email := strip email in
  if String.eqb email "" then mret (Refused 400 "Email required")
  else if_found (u ← get_user (λ a, String.eqb (Accounts.ac_email a) email);
                 modify (λ s, Store (g_accounts s) (<[u := ResetToken (dw_code d) (now + 15 * minute) false]> (g_resets s))
                                (g_mails s ++ [(email, dw_code d)]) (g_cache s)) ≫= λ _,
                 mret reset_mailed)
         (mret reset_mailed).

Definition forgot_password_confirm (email code new_password : string) (d : draw) (now : Z) : M store answer :=
  let email := strip email in
  let code := strip code in
  let new_password := strip new_password in
  if String.eqb email "" || String.eqb code "" || String.eqb new_password ""
  then mret (Refused 400 "email, code, and new_password required")
  else let '(too_weak, reason) := Accounts.is_pin_too_weak new_password in
  if too_weak then mret (Refused 400 reason)
  else
    found ← if_found (
      u ← get_user (λ a, String.eqb (Accounts.ac_email a) email);
      s ← get;
      match g_resets s !! u with
      | Some t => if String.eqb (rt_code t) code && negb (rt_used t) then mret (Some (u, t)) else mret None
      | None => mret None
      end) (mret None);
    match found with
    | None => mret (Refused 400 "Invalid or expired reset code")
    | Some (u, t) =>
        if rt_expires_at t <? now
        then modify (λ s, with_resets (delete u (g_resets s)) s) ≫= λ _,
             mret (Refused 400 "Code expired. Please request a new one.")
        else set_password u new_password (dw_salt d) ≫= λ _,
             modify (λ s, with_resets (<[u := ResetToken (rt_code t) (rt_expires_at t) true]> (g_resets s)) s) ≫= λ _,
             mret (Done "Password reset successful. You can now log in.")
    end.

(** [_pin_reset_account]: the account, or why there is none. *)
Definition _pin_reset_account (phone : string) (now : Z) (s : Accounts.store) : answer + Z :=
  match Accounts.owner_of phone s with
  | None => inl (Refused 404 "USER_NOT_FOUND")
  | Some u => if has_active_subscription u now (Accounts.plans s) then inr u else inl (Refused 403 "SUBSCRIPTION_REQUIRED")
  end.

Definition forgot_password_phone_request (phone : string) (d : draw) (now : Z) : M store answer :=
  match Phone.normalize_ethiopian_phone (Some (strip phone)) with
  | None => mret invalid_phone
  | Some phone =>
      s ← get;
      match _pin_reset_account phone now (g_accounts s) with
      | inl refusal => mret refusal
      | inr _ => r ← in_otp (LoginOtp.send_otp phone "password_reset" (dw_code d) (dw_stamp d) now); mret (code_sent r)
      end
  end.

Definition forgot_password_phone_verify (phone code new_password : string) (d : draw) (now : Z) : M store answer :=
  let phone := strip phone in
  let code := strip code in
  let new_password := strip new_password in
  if String.eqb phone "" || String.eqb code "" || String.eqb new_password ""
  then mret (Refused 400 "phone, code, and new_password required")
  else let '(too_weak, reason) := Accounts.is_pin_too_weak new_password in
  if too_weak then mret (Refused 400 reason)
  else match Phone.normalize_ethiopian_phone (Some phone) with
  | None => mret invalid_phone
  | Some phone =>
      s ← get;
      match _pin_reset_account phone now (g_accounts s) with
      | inl refusal => mret refusal
      | inr user =>
          r ← in_otp (LoginOtp.verify_otp phone code (dw_stamp d) now);
          if negb r.1 then mret (Refused 400 r.2)
          else set_password user new_password (dw_salt d) ≫= λ _,
               mret (Done "Password reset successful. You can now log in.")
      end
  end.

End Service.
End SignIn.
