(* ===== verification/SignInRun.v ===== *)
(** * SignInRun: what a sequence of account requests can change

    The endpoints of [SignIn] as the steps of a run, served one after another
    in any order and with any arguments.  What each may change is shown here: a
    PIN that is there changes only by a request that proves something, and the
    theorem says what; a number is attached to an account only by one that
    proves the number, with the exception the code makes.  [AccountRun] serves
    the requests with those that edit and delete accounts. *)

From Stdlib Require Import ZArith Lia.
From stdpp Require Import gmap strings sorting.
From S2P Require Import Prelude StableSort Phone CoinBalance Subscriptions SmsQueue Cache LoginOtp SmsSubscription Accounts SignIn.

Module SignInRun.
Import Subscriptions Cache SignIn.

Inductive call :=
| Register (username email password : string)
| Login (r : request)
| ResetPassword (email new_password : string)
| ChangePassword (user : Z) (current_password new_password : string)
| LoginWithPhone (phone password : string)
| CheckPhone (phone : string)
| SendPhoneOtp (phone : string)
| VerifyPhoneOtp (phone code : string)
| SendLoginOtp (phone : string)
| LoginWithOtp (phone code : string)
| RegisterWithPhone (phone username password email : string) (skip_otp : bool)
| LoginWithSubscriptionOtp (phone username otp password : string)
| ResendSubscriptionOtp (phone : string)
| ForgotPasswordRequest (email : string)
| ForgotPasswordConfirm (email code new_password : string)
| ForgotPasswordPhoneRequest (phone : string)
| ForgotPasswordPhoneVerify (phone code new_password : string).

Section Service.
Context {C : Type} `{cache_c : Cache C}.
Context (make_password : string → string → string) (check_password : string → string → bool).
Context (invalid_fields : string → string → bool) (short_code : tier → string) (register_url : string).

#[local] Notation store := (@SignIn.store C).

Definition serve (k : call) (d : draw) (now : Z) : M store answer :=
  match k with
  | Register username email password => register make_password invalid_fields username email password d now
  | Login r => login check_password r d now
  | ResetPassword email new_password => reset_password make_password email new_password d
  | ChangePassword user current_password new_password =>
      change_password make_password check_password user current_password new_password d
  | LoginWithPhone phone password => login_with_phone check_password phone password d now
  | CheckPhone phone => '(code, _) ← check_phone_account phone; mret (Refused code "")
  | SendPhoneOtp phone => send_phone_otp phone d now
  | VerifyPhoneOtp phone code => verify_phone_otp phone code d now
  | SendLoginOtp phone => send_login_otp phone d now
  | LoginWithOtp phone code => login_with_otp phone code d now
  | RegisterWithPhone phone username password email skip_otp =>
      register_with_phone make_password phone username password email skip_otp d now
  | LoginWithSubscriptionOtp phone username otp password =>
      login_with_subscription_otp make_password phone username otp password d now
  | ResendSubscriptionOtp phone => resend_subscription_otp short_code register_url phone d now
  | ForgotPasswordRequest email => forgot_password_request email d now
  | ForgotPasswordConfirm email code new_password => forgot_password_confirm make_password email code new_password d now
  | ForgotPasswordPhoneRequest phone => forgot_password_phone_request phone d now
  | ForgotPasswordPhoneVerify phone code new_password =>
      forgot_password_phone_verify make_password phone code new_password d now
  end.

Record event := Event { ev_call : call; ev_draw : draw; ev_now : Z }.
Definition step (s : store) (e : event) : store := (serve (ev_call e) (ev_draw e) (ev_now e) s).2.
Definition run (es : list event) (s : store) : store := foldl step s es.

(** ** Proofs a request carries *)

Definition acc (s : store) : Accounts.store := g_accounts s.

(** A login code that would be accepted. *)
Definition code_accepted (phone code : string) (now : Z) (s : store) : Prop :=
  ∃ expires attempts, cache_get (g_cache s) now (LoginOtp.get_otp_cache_key phone) = Some (VCode code expires attempts)
    ∧ now <= expires ∧ attempts < LoginOtp.MAX_ATTEMPTS.

(** A plan's setup code, not expired, on a plan that has the number. *)
Definition setup_code (phone otp : string) (now : Z) (s : store) (p : plan) : Prop :=
  s_plans (Accounts.plans (acc s)) !! sp_id p = Some p ∧ sp_status p = active
  ∧ code_is_live otp now (line_of p (acc s)) = true
  ∧ ∃ n, Phone.normalize_ethiopian_phone (Some (strip phone)) = Some n
    ∧ (among (Phone.lookup_variants (Some n)) (airtime_phone p (acc s)) = true
       ∨ among (Phone.lookup_variants (Some n)) (telebirr_phone p (acc s)) = true).

Definition has_email (u : Z) (email : string) (s : store) : Prop :=
  ∃ a, Accounts.a_users (acc s) !! u = Some a ∧ Accounts.ac_email a = email.

(** What a request that sets the PIN of [u] shows. *)
Definition authorised (k : call) (now : Z) (s : store) (u : Z) : Prop :=
  match k with
  | ChangePassword v current _ => v = u ∧ password_matches check_password current u s = true
  | ResetPassword email _ => has_email u email s
  | ForgotPasswordConfirm email code _ => has_email u (strip email) s
      ∧ ∃ t, g_resets s !! u = Some t ∧ rt_code t = strip code ∧ rt_used t = false ∧ now <= rt_expires_at t
  | ForgotPasswordPhoneVerify phone code _ => ∃ n, Phone.normalize_ethiopian_phone (Some (strip phone)) = Some n
      ∧ Accounts.phone_of u (acc s) = Some n ∧ has_active_subscription u now (Accounts.plans (acc s)) = true
      ∧ code_accepted n (strip code) now s
  | LoginWithSubscriptionOtp phone _ otp _ => ∃ p, setup_code phone (strip otp) now s p ∧ sp_user p = Some u
  | _ => False
  end.

(** What one that attaches the number [n] to an account shows. *)
Definition number_shown (k : call) (now : Z) (s : store) (n : string) : Prop :=
  match k with
  | RegisterWithPhone phone _ _ _ skip_otp => Phone.normalize_ethiopian_phone (Some (strip phone)) = Some n
      ∧ (is_Some (cache_get (g_cache s) now (LoginOtp.get_verified_cache_key n))
         ∨ subscribed_unowned n (acc s) = true ∨ skip_otp = true)
  | LoginWithSubscriptionOtp phone _ otp _ => Phone.normalize_ethiopian_phone (Some (strip phone)) = Some n
      ∧ ∃ p, setup_code phone (strip otp) now s p
  | _ => False
  end.

(** ** What one request may do *)

(** [A] are the accounts whose PIN may change, [B] the numbers that may be
    attached. *)
Record changed (A : Z → Prop) (B : string → Prop) (s s' : store) : Prop := Changed {
  ch_ok : Accounts.accounts_ok (acc s');
  ch_users : ∀ u a, Accounts.a_users (acc s) !! u = Some a → Accounts.a_users (acc s') !! u = Some a;
  ch_pins : ∀ u, is_Some (Accounts.a_users (acc s) !! u) →
    Accounts.passwords (acc s') !! u = Accounts.passwords (acc s) !! u ∨ A u;
  ch_kept : ∀ u n, Accounts.phone_of u (acc s) = Some n → n ≠ "" → Accounts.phone_of u (acc s') = Some n;
  ch_numbers : ∀ u n, Accounts.phone_of u (acc s') = Some n → Accounts.phone_of u (acc s) = Some n ∨ B n
}.

Definition served (k : call) (now : Z) (s s' : store) : Prop := changed (authorised k now s) (number_shown k now s) s s'.

(** Most of what is called changes none of it. *)
Record quiet (s s' : store) : Prop := Quiet {
  qt_users : Accounts.a_users (acc s') = Accounts.a_users (acc s);
  qt_profiles : Accounts.profiles (acc s') = Accounts.profiles (acc s);
  qt_passwords : Accounts.passwords (acc s') = Accounts.passwords (acc s);
  qt_sound : SmsSubscription.store_ok (Accounts.a_sms (acc s)) → SmsSubscription.store_ok (Accounts.a_sms (acc s'))
}.

#[local] Instance quiet_pre : PreOrder quiet.
Proof.
  split; [by intros s; split|]. intros s1 s2 s3 [H1 H2 H3 H4] [K1 K2 K3 K4]. split; [congruence..|auto].
Qed.

Definition quietly {A} (m : M store A) : Prop := ∀ s0, preserves (quiet s0) m.

Lemma quiet_ok s s' : quiet s s' → Accounts.accounts_ok (acc s) → Accounts.accounts_ok (acc s').
Proof.
  intros [Hu Hp Hpw Hs] Hok. eapply Accounts.accounts_frame; [exact Hok|done|done| |].
  - intros u. by rewrite Hpw. - by apply Hs, Hok.
Qed.

Lemma quiet_phone s s' u : quiet s s' → Accounts.phone_of u (acc s') = Accounts.phone_of u (acc s).
Proof.
  intros [_ Hp _ _]. unfold Accounts.phone_of, SmsSubscription.profile_of. unfold Accounts.profiles in Hp. by rewrite Hp.
Qed.

Lemma quiet_changed A B s s' : Accounts.accounts_ok (acc s) → quiet s s' → changed A B s s'.
Proof.
  intros Hok Hq. split.
  - by eapply quiet_ok. - intros u a. by rewrite (qt_users _ _ Hq). - intros u _. left. by rewrite (qt_passwords _ _ Hq).
  - intros u n. by rewrite (quiet_phone _ _ _ Hq). - intros u n. rewrite (quiet_phone _ _ _ Hq). by left.
Qed.

Lemma changed_trans A B s1 s2 s3 : changed A B s1 s2 → changed A B s2 s3 → changed A B s1 s3.
Proof.
  intros [_ U1 P1 K1 N1] [O2 U2 P2 K2 N2]. split; [done|auto|..].
  - intros u Hu. destruct (P1 u Hu) as [E1|]; [|by right]. destruct (P2 u) as [E2|]; [|left; congruence|by right].
    destruct Hu as [a Ha]. exists a. auto.
  - auto. - intros u n Hn. destruct (N2 _ _ Hn); [|by right]. auto.
Qed.

Lemma changed_then A B s s1 s2 : changed A B s s1 → quiet s1 s2 → changed A B s s2.
Proof. intros H Hq. eapply changed_trans; [exact H|]. apply quiet_changed; [apply H|done]. Qed.

Lemma quietly_steps {A} (m : M store A) : (∀ s, quiet s (m s).2) → quietly m.
Proof. intros H s0 s Hq. etrans; [exact Hq|apply H]. Qed.
Lemma quietly_modify f : (∀ s, quiet s (f s)) → quietly (modify f).
Proof. intros H. by apply quietly_steps. Qed.
Lemma otp_quietly {A} (m : M (@LoginOtp.store C) A) : quietly (in_otp m).
Proof. apply quietly_steps. intros s. unfold in_otp. rewrite zoom_run. by split. Qed.
Lemma sms_quietly {A} (m : M SmsQueue.table A) : quietly (in_accounts (Accounts.in_sms (SmsSubscription.in_sms m))).
Proof. apply quietly_steps. intros s. unfold in_accounts, Accounts.in_sms, SmsSubscription.in_sms. rewrite !zoom_run. by split. Qed.
Lemma token_quietly u t : quietly (get_token u t : M store string).
Proof.
  apply quietly_steps. intros s. unfold get_token. rewrite bind_run. cbn [get]. destruct (_ !! u); [done|]. by split.
Qed.
Lemma delete_token_quietly u : quietly (delete_token u : M store unit).
Proof. apply quietly_steps. intros s. unfold delete_token, in_accounts. rewrite zoom_run. by split. Qed.
Lemma failure_quietly r scope n w now : quietly (check_and_increment_failure r scope n w now : M store Z).
Proof. apply quietly_steps. intros s. by split. Qed.
Lemma clear_quietly r scope now : quietly (clear_failures r scope now : M store unit).
Proof. apply quietly_steps. intros s. by split. Qed.

Definition saved (p : plan) (l : SmsSubscription.line) (a : Accounts.store) : Accounts.store :=
  let m := Accounts.a_sms a in
  Accounts.with_sms (SmsSubscription.with_lines (<[sp_id p := l]> (SmsSubscription.m_lines m))
    (SmsSubscription.with_subs (Subscriptions.with_plans (<[sp_id p := p]> (s_plans (SmsSubscription.m_subs m)))
       (SmsSubscription.m_subs m)) m)) a.

Lemma save_plan_run p l a : save_plan p l a = (inr tt, saved p l a).
Proof. reflexivity. Qed.

Lemma saved_ok p l a : SmsSubscription.store_ok (Accounts.a_sms a) → SmsSubscription.store_ok (Accounts.a_sms (saved p l a)).
Proof.
  intros [Ht Hw Hid]. split; [exact Ht|exact Hw|]. intros id q. cbn. destruct (decide (id = sp_id p)) as [->|Hne].
  - rewrite lookup_insert_eq. by intros [= <-]. - rewrite lookup_insert_ne by done. apply Hid.
Qed.

Lemma save_plan_quietly p l : quietly (in_accounts (save_plan p l)).
Proof.
  apply quietly_steps. intros s. unfold in_accounts. rewrite zoom_run, save_plan_run. split; [done..|]. apply saved_ok.
Qed.

Lemma link_token_run p t h now x :
  (generate_subscription_token p t h now x).2
  = Subscriptions.with_plans (alter (set_token (Some t) (Some (now + h * hour))) (sp_id p) (s_plans x)) x.
Proof. reflexivity. Qed.

Lemma link_token_quietly p t h now : quietly (in_accounts (Accounts.in_plans (generate_subscription_token p t h now))).
Proof.
  apply quietly_steps. intros s. unfold in_accounts, Accounts.in_plans. rewrite !zoom_run, link_token_run. split; [done..|].
  intros [Ht Hw Hid]. split; [exact Ht|exact Hw|]. intros id q. cbn. destruct (decide (id = sp_id p)) as [->|Hne].
  - rewrite lookup_alter_eq, fmap_Some. intros (x & Hx & ->). cbn. by apply Hid.
  - rewrite lookup_alter_ne by done. apply Hid.
Qed.

Lemma get_user_quietly f : quietly (get_user f : M store Z).
Proof. apply quietly_steps. intros s. unfold get_user. rewrite bind_run. cbn [get]. by repeat case_match. Qed.

Lemma bind_quietly {A B} (m : M store A) (k : A → M store B) : quietly m → (∀ a, quietly (k a)) → quietly (m ≫= k).
Proof. intros Hm Hk s0. apply preserves_bind; [apply Hm|intros a; apply Hk]. Qed.
Lemma catch_quietly {A} (m : M store A) h : quietly m → (∀ e k, h e = Some k → quietly k) → quietly (catch m h).
Proof. intros Hm Hh s0. apply preserves_catch; [apply Hm|]. intros e k He. by apply (Hh e). Qed.
Lemma when_quietly b (m : M store unit) : quietly m → quietly (when b m).
Proof. intros Hm s0. by apply preserves_when. Qed.
Lemma ret_quietly {A} (a : A) : quietly (mret a : M store A).
Proof. intros s0. apply preserves_ret. Qed.
Lemma get_quietly : quietly (get : M store store).
Proof. intros s0. apply preserves_get. Qed.
Lemma raise_quietly {A} e : quietly (raise e : M store A).
Proof. intros s0. apply preserves_raise. Qed.

#[local] Hint Resolve otp_quietly sms_quietly token_quietly delete_token_quietly failure_quietly clear_quietly
  save_plan_quietly link_token_quietly get_user_quietly ret_quietly get_quietly raise_quietly : quiet.

Ltac hush :=
  repeat first
    [ solve [auto with quiet]
    | apply bind_quietly; [|intros ?]
    | apply when_quietly
    | apply catch_quietly; [|intros ? ? ?; repeat case_match; simplify_eq]
    | apply quietly_modify; intros ?; by split
    | case_match ].

Lemma sign_in_quietly st u d now : quietly (sign_in st u d now : M store answer).
Proof. unfold sign_in. hush. Qed.
Lemma sign_in_plain_quietly st u d : quietly (sign_in_plain st u d : M store answer).
Proof. unfold sign_in_plain. hush. Qed.
#[local] Hint Resolve sign_in_quietly sign_in_plain_quietly : quiet.

Lemma login_quietly r d now : quietly (login check_password r d now : M store answer).
Proof. unfold login, login_failed, if_found. hush. Qed.
Lemma pin_quietly u p d now : quietly (sign_in_with_pin check_password u p d now : M store answer).
Proof. unfold sign_in_with_pin. hush. Qed.
#[local] Hint Resolve login_quietly pin_quietly : quiet.

(** The requests that change no PIN and attach no number. *)
Definition reads_only (k : call) : bool :=
  match k with
  | Register _ _ _ | ResetPassword _ _ | ChangePassword _ _ _ | RegisterWithPhone _ _ _ _ _
  | LoginWithSubscriptionOtp _ _ _ _ | ForgotPasswordConfirm _ _ _ | ForgotPasswordPhoneVerify _ _ _ => false
  | _ => true
  end.

Lemma serve_quietly k d now : reads_only k = true → quietly (serve k d now).
Proof.
  destruct k; try done; intros _; cbn [serve]; [auto with quiet|..];
    unfold login_with_phone, check_phone_account, send_phone_otp, verify_phone_otp, send_login_otp, login_with_otp,
      resend_subscription_otp, forgot_password_request, forgot_password_phone_request, if_found; cbv zeta; hush.
Qed.

(** ** The requests that change something *)

Lemma password_changed (A : Z → Prop) B u password salt s :
  Accounts.accounts_ok (acc s) → is_Some (Accounts.a_users (acc s) !! u) → A u →
  post (set_password make_password u password salt) s (λ r s', r = inr tt ∧ changed A B s s').
Proof.
  intros Hok Hu HA. apply post_zoom. unfold post. rewrite Accounts.set_password_run. split; [done|]. split.
  - by apply Accounts.set_password_ok. - done. - intros v _. cbn. destruct (decide (v = u)) as [->|Hv]; [by right|].
    left. by rewrite lookup_insert_ne. - done. - by left.
Qed.

Lemma number_changed A (B : string → Prop) u n s :
  Accounts.accounts_ok (acc s) → is_Some (Accounts.a_users (acc s) !! u) → B n →
  default "" (Accounts.phone_of u (acc s)) = "" →
  post (in_accounts (Accounts.set_phone u n)) s (λ _ s', changed A B s s').
Proof.
  intros Hok Hu HB Hnone. apply post_zoom. unfold post. rewrite Accounts.set_phone_run.
  destruct (Accounts.phone_used u n (g_accounts s)) eqn:Hused; cbn [fst snd].
  { apply quiet_changed; [done|by split]. }
  pose proof (Accounts.phone_set_ok _ _ _ Hok Hused) as Hok'.
  destruct (Accounts.phone_set_of _ _ _ Hok Hu Hused) as [Hnew Hother].
  change (Accounts.phone_set u n (acc s)) with (acc (with_accounts (Accounts.phone_set u n (g_accounts s)) s)) in Hok', Hnew, Hother.
  split; [exact Hok'|done|by left|..].
  - intros v m Hm Hne. destruct (decide (v = u)) as [->|Hv]; [by rewrite Hm in Hnone|]. by rewrite Hother.
  - intros v m. destruct (decide (v = u)) as [->|Hv].
    + rewrite Hnew. intros [= <-]. by right. + rewrite Hother by done. by left.
Qed.

(** A new user, whose PIN and number are its own business. *)
Lemma user_changed (A : Z → Prop) B username password email d now s :
  Accounts.accounts_ok (acc s) →
  post (in_accounts (Accounts.create_user make_password username password email d now)) s
    (λ r s', changed A B s s' ∧ ∀ u, r = inr u → Accounts.a_users (acc s) !! u = None
       ∧ is_Some (Accounts.a_users (acc s') !! u) ∧ Accounts.phone_of u (acc s') = None).
Proof.
  intros Hok. apply post_zoom. unfold post.
  pose proof (Accounts.create_user_run make_password username password email d now (g_accounts s) (Accounts.ok_sms _ Hok)) as H.
  assert (∀ (P : Z → Prop) (e : exn) (r : (exn + Z) * Accounts.store), r = (inl e, g_accounts s) →
    changed A B s (with_accounts r.2 s) ∧ ∀ u, r.1 = inr u → P u) as Hno.
  { intros P e r ->. split; [apply quiet_changed; [done|by split]|]. intros u [=]. }
  cbv zeta in H. destruct (String.eqb username ""); [by eapply Hno|].
  destruct (Accounts.name_used username (g_accounts s)) eqn:Hname; [by eapply Hno|].
  destruct (Accounts.a_users (g_accounts s) !! Accounts.dr_user d) eqn:Hd; [by eapply Hno|].
  clear Hno. destruct H as (a' & -> & Ho). cbn [fst snd].
  pose proof (Accounts.opened_ok _ (Accounts.Account username _) _ _ _ _ _ Hok Hd Hname Ho) as Hok'.
  assert (∀ u q, u ≠ Accounts.dr_user d → (u, q) ∈ Accounts.profiles a' ↔ (u, q) ∈ Accounts.profiles (g_accounts s)) as Hpr.
  { intros u q Hne. rewrite (Accounts.op_profiles _ _ _ _ _ _ _ Ho), elem_of_app, list_elem_of_singleton. naive_solver. }
  assert (∀ u, u ≠ Accounts.dr_user d → Accounts.phone_of u a' = Accounts.phone_of u (g_accounts s)) as Hph.
  { intros u Hne. unfold Accounts.phone_of. f_equal. apply option_eq. intros q. rewrite <- !Accounts.profile_phone by done. by apply Hpr. }
  assert (Accounts.phone_of (Accounts.dr_user d) a' = None) as Hnew.
  { assert ((Accounts.dr_user d, None) ∈ Accounts.profiles a') as Hin.
    { rewrite (Accounts.op_profiles _ _ _ _ _ _ _ Ho). apply elem_of_app. right. by left. }
    unfold Accounts.phone_of. apply Accounts.profile_phone in Hin; [|done]. by rewrite Hin. }
  assert (∀ u n, Accounts.phone_of u (g_accounts s) = Some n → u ≠ Accounts.dr_user d) as Hold.
  { intros u n Hn ->. assert (is_Some (Accounts.a_users (g_accounts s) !! Accounts.dr_user d)) as [? ?]; [|congruence].
    apply (Accounts.ok_profiles _ Hok). unfold Accounts.phone_of in Hn. apply bind_Some in Hn as (q & Hq & _).
    apply Accounts.profile_phone in Hq; [|done]. by apply (list_elem_of_fmap_2 fst) in Hq. }
  split.
  - split; [exact Hok'|..]; unfold acc; cbn [g_accounts with_accounts].
    + intros u a Ha. rewrite (Accounts.op_users _ _ _ _ _ _ _ Ho), lookup_insert_ne; [done|]. intros <-. congruence.
    + intros u [a Ha]. left. rewrite (Accounts.op_passwords _ _ _ _ _ _ _ Ho), lookup_insert_ne; [done|]. intros <-. congruence.
    + intros u n Hn _. rewrite Hph; [done|]. by eapply Hold.
    + intros u n Hn. left. destruct (decide (u = Accounts.dr_user d)) as [->|Hne]; [congruence|]. by rewrite <- Hph.
  - intros u [= <-]. split; [done|]. split; [|done]. cbn. rewrite (Accounts.op_users _ _ _ _ _ _ _ Ho), lookup_insert_eq. eauto.
Qed.

Lemma then_quietly {A'} (A : Z → Prop) B s0 s (m : M store A') :
  quietly m → changed A B s0 s → post m s (λ _ s', changed A B s0 s').
Proof. intros Hm Hc. eapply changed_then; [exact Hc|]. by apply Hm. Qed.

Lemma unchanged A B s : Accounts.accounts_ok (acc s) → changed A B s s.
Proof. intros Hok. by apply quiet_changed. Qed.

Lemma get_user_post f s :
  post (get_user f) s (λ r s', s' = s ∧ ∀ u, r = inr u → ∃ a, Accounts.a_users (acc s) !! u = Some a ∧ f a = true).
Proof.
  unfold get_user. advance; (split; [done|]); intros v Hv; try discriminate Hv. injection Hv as <-.
  match goal with E : List.filter _ _ = _ |- _ => rename E into Hf end.
  match type of Hf with List.filter _ _ = [(?u, ?a)] =>
    assert ((u, a) ∈ List.filter (λ ua : Z * Accounts.account, f ua.2) (users s)) as Hin by (rewrite Hf; by left) end.
  apply list_elem_of_In, List.filter_In in Hin as [Hin Ha]. apply list_elem_of_In, elem_of_map_to_list in Hin. eauto.
Qed.

(** A lookup by address, then what is done for the account found. *)
Lemma found_served k now f (m : Z → M store answer) otherwise s :
  Accounts.accounts_ok (acc s) →
  (∀ u a, Accounts.a_users (acc s) !! u = Some a → f a = true → post (m u) s (λ _ s', served k now s s')) →
  quietly otherwise →
  (∀ u, Accounts.a_users (acc s) !! u ≠ None → ∀ e s', m u s = (inl e, s') → is_Some (match e with DoesNotExist _ => None | _ => Some tt end)) →
  post (if_found (u ← get_user f; m u) otherwise) s (λ _ s', served k now s s').
Proof.
  intros Hok Hm Ho Hcl. unfold if_found. apply post_catch, post_bind. eapply post_conseq; [apply get_user_post|].
  intros [e|u] s' [-> Hu].
  - destruct e; try (by apply unchanged). apply then_quietly; [done|by apply unchanged].
  - destruct (Hu u eq_refl) as (a & Ha & Hf). specialize (Hm u a Ha Hf). unfold post in *.
    destruct (m u s) as [[e|x] s'] eqn:E; [|done]. specialize (Hcl u). rewrite Ha in Hcl.
    specialize (Hcl ltac:(done) e s' E) as [[] Hcl]. by destruct e.
Qed.

Lemma reset_served email new_password d now s :
  Accounts.accounts_ok (acc s) →
  post (reset_password make_password email new_password d) s (λ _ s', served (ResetPassword email new_password) now s s').
Proof.
  intros Hok. unfold reset_password. advance; [by apply unchanged..|]. apply found_served; [done| |apply ret_quietly|].
  - intros u a Ha Hf%String.eqb_eq. apply post_bind.
    eapply post_conseq; [eapply (password_changed (authorised (ResetPassword email new_password) now s)); [done|eauto|by exists a]|].
    intros r s' [-> Hc]. apply then_quietly; [|exact Hc]. hush.
  - intros u _ e s' He. unfold set_password, delete_token, in_accounts in He. rewrite !bind_run, !zoom_run in He. done.
Qed.

Lemma change_served u current new_password d now s :
  Accounts.accounts_ok (acc s) →
  post (change_password make_password check_password u current new_password d) s
    (λ _ s', served (ChangePassword u current new_password) now s s').
Proof.
  intros Hok. unfold change_password. advance by idtac; try (by apply unchanged).
  match goal with H : negb _ = false |- _ => apply negb_false_iff, bool_decide_eq_true in H as Hu end.
  match goal with H : negb (password_matches _ _ _ _) = false |- _ => apply negb_false_iff in H as Hm end.
  eapply post_conseq; [eapply (password_changed (authorised (ChangePassword u current new_password) now s)); [done|done|done]|].
  intros r s' [-> Hc]. apply then_quietly; [|exact Hc]. hush.
Qed.

Lemma confirm_served email code new_password d now s :
  Accounts.accounts_ok (acc s) →
  post (forgot_password_confirm make_password email code new_password d now) s
    (λ _ s', served (ForgotPasswordConfirm email code new_password) now s s').
Proof.
  intros Hok. unfold forgot_password_confirm, if_found. advance by idtac; try (by apply unchanged).
  eapply post_conseq; [apply get_user_post|]. intros [e|u] s' [-> Hu]; cbn.
  { destruct e; cbn; by apply unchanged. }
  destruct (Hu u eq_refl) as (a & Ha & Hf%String.eqb_eq). advance by idtac; try (by apply unchanged).
  - apply quiet_changed; [done|by split].
  - eapply post_conseq; [eapply (password_changed (authorised (ForgotPasswordConfirm email code new_password) now s)); [done|eauto|]|].
    + split; [by exists a|]. bool_prop. eexists. split_and!; [done..|]. lia.
    + intros ? s' [-> Hc]. apply then_quietly; [|exact Hc]. hush.
Qed.

(** A login code that is accepted was there, and in time. *)
Lemma otp_accepted phone code stamp now (o : @LoginOtp.store C) message o' :
  LoginOtp.verify_otp phone code stamp now o = (inr (true, message), o') →
  ∃ expires attempts, cache_get (LoginOtp.s_cache o) now (LoginOtp.get_otp_cache_key phone) = Some (VCode code expires attempts)
    ∧ now <= expires ∧ attempts < LoginOtp.MAX_ATTEMPTS.
Proof.
  unfold LoginOtp.verify_otp. rewrite bind_run. unfold LoginOtp.look, gets.
  destruct (cache_get _ _ _) as [[| |stored expires attempts]|]; try discriminate.
  destruct (Z.ltb_spec expires now); [discriminate|]. destruct (Z.leb_spec LoginOtp.MAX_ATTEMPTS attempts); [discriminate|].
  destruct (String.eqb_spec stored code) as [->|]; [|discriminate]. intros _. eauto.
Qed.

Lemma phone_verify_served phone code new_password d now s :
  Accounts.accounts_ok (acc s) →
  post (forgot_password_phone_verify make_password phone code new_password d now) s
    (λ _ s', served (ForgotPasswordPhoneVerify phone code new_password) now s s').
Proof.
  intros Hok. unfold forgot_password_phone_verify. advance by idtac; try (by apply unchanged).
  match goal with H : _pin_reset_account ?n _ _ = inr ?v |- _ => rename H into Hres; rename n into number; rename v into u end.
  unfold _pin_reset_account in Hres. destruct (Accounts.owner_of number (g_accounts s)) as [v|] eqn:Hv; [|discriminate].
  destruct (has_active_subscription v now _) eqn:Hact; [|discriminate]. injection Hres as ->.
  apply Accounts.owner_is in Hv; [|done].
  unfold post. unfold in_otp. rewrite zoom_run.
  destruct (LoginOtp.verify_otp number (strip code) (dw_stamp d) now (otp_view s)) as [[e|[ok message]] o'] eqn:Hcode; cbn [fst snd].
  { apply quiet_changed; [done|by split]. }
  set (s1 := otp_upd o' s). assert (quiet s s1) as Hq by (by split).
  destruct ok; cbn [negb].
  - apply otp_accepted in Hcode.
    match goal with |- served ?k ?n ?s (?m ?t).2 => change (post m t (λ _ s', served k n s s')) end. apply post_bind.
    eapply post_conseq; [eapply (password_changed (authorised (ForgotPasswordPhoneVerify phone code new_password) now s))|].
    + by eapply quiet_ok.
    + rewrite (qt_users _ _ Hq). apply (Accounts.ok_profiles _ Hok). unfold Accounts.phone_of in Hv.
      apply bind_Some in Hv as (q & Hq' & _). apply Accounts.profile_phone in Hq'; [|done].
      by apply (list_elem_of_fmap_2 fst) in Hq'.
    + exists number. done.
    + intros r s' [-> Hc]. apply post_ret. eapply changed_trans; [|exact Hc]. by apply quiet_changed.
  - by apply quiet_changed.
Qed.

Lemma register_served username email password d now s :
  Accounts.accounts_ok (acc s) →
  post (register make_password invalid_fields username email password d now) s
    (λ _ s', served (Register username email password) now s s').
Proof.
  intros Hok. unfold register, duplicate_as_taken. advance by idtac; try (by apply unchanged).
  eapply post_conseq; [apply user_changed; exact Hok|]. intros [e|u] s' [Hc _]; cbn.
  - destruct e; try exact Hc. destruct (Accounts.is_duplicate_username_error _); [|exact Hc]. exact Hc.
  - apply then_quietly; [apply sign_in_plain_quietly|exact Hc].
Qed.

Lemma link_quietly u phone : quietly (in_accounts (link_plans u phone)).
Proof.
  intros s0 s Hq. unfold in_accounts. rewrite zoom_run.
  assert (∀ a, quiet s (with_accounts a s) → quiet s (with_accounts (link_plans u phone a).2 s)) as H; [|].
  { intros a Ha. unfold link_plans.
    apply (post_atomic _ _ (λ _ a', quiet s (with_accounts a' s))). apply post_bind, post_get. cbv beta iota.
    eapply post_conseq; [apply (post_for_each (take_over u) _ (λ a', quiet s (with_accounts a' s))); [exact Ha|]|].
    - intros p b Hb. unfold take_over. apply post_bind, post_get. cbv beta iota. apply post_bind. unfold post at 1.
      rewrite save_plan_run. cbn [fst snd]. apply post_modify. etrans; [exact Hb|].
      split; [done..|]. apply saved_ok.
    - intros [e|[]] b Hb; [exact Ha|exact Hb]. }
  etrans; [exact Hq|]. apply H. destruct s. by split.
Qed.
#[local] Hint Resolve link_quietly : quiet.

Lemma otp_same (s : store) : otp_upd (otp_view s) s = s.
Proof. by destruct s as [[? ? [] ? ?] ? ? ?]. Qed.

Lemma verified_run n now s :
  in_otp (LoginOtp.is_verified n now) s
  = (inr (bool_decide (is_Some (cache_get (g_cache s) now (LoginOtp.get_verified_cache_key n)))), s).
Proof.
  unfold in_otp. rewrite zoom_run. change (LoginOtp.is_verified n now (otp_view s))
    with (inr (A := exn) (bool_decide (is_Some (cache_get (g_cache s) now (LoginOtp.get_verified_cache_key n)))), otp_view s).
  cbn [fst snd]. by rewrite otp_same.
Qed.

Lemma or_not_created_post m s (Q : store → Prop) : post m s (λ _ s', Q s') → post (or_not_created m) s (λ _ s', Q s').
Proof. intros H. apply post_catch. eapply post_conseq; [exact H|]. by intros [e|a] s' Hs'. Qed.

(** A new account with a number that is shown to be its own. *)
Lemma account_with_number {A'} A (B : string → Prop) username password email n d now s (rest : Z → M store A') :
  Accounts.accounts_ok (acc s) → B n → (∀ u, quietly (rest u)) →
  post (user ← in_accounts (Accounts.create_user make_password username password email d now);
        in_accounts (Accounts.set_phone user n) ≫= λ _, rest user) s (λ _ s', changed A B s s').
Proof.
  intros Hok HB Hrest. apply post_bind. eapply post_conseq; [apply (user_changed A B); exact Hok|].
  intros [e|u] s1 [Hc Hu]; [exact Hc|]. destruct (Hu u eq_refl) as (_ & Hex & Hnone). apply post_bind.
  eapply post_conseq; [apply (number_changed A B u n s1); [apply Hc|done|done|by rewrite Hnone]|].
  intros [e|[]] s2 Hc2; [by eapply changed_trans|]. apply then_quietly; [apply Hrest|]. by eapply changed_trans.
Qed.

Lemma register_phone_served phone username password email skip_otp d now s :
  Accounts.accounts_ok (acc s) →
  post (register_with_phone make_password phone username password email skip_otp d now) s
    (λ _ s', served (RegisterWithPhone phone username password email skip_otp) now s s').
Proof.
  intros Hok. unfold register_with_phone. cbv zeta.
  destruct (_ || _ || _); [by apply unchanged|]. destruct (Accounts.is_pin_too_weak _) as [[] reason]; [by apply unchanged|].
  destruct (Phone.normalize_ethiopian_phone _) as [n|] eqn:Hn; [|by apply unchanged]. apply post_bind, post_get. cbv beta iota.
  set (skip := if subscribed_unowned n (g_accounts s) then true else skip_otp).
  assert (post (if skip then mret true else in_otp (LoginOtp.is_verified n now)) s
    (λ r s', s' = s ∧ ∀ b : bool, r = inr b → b = true →
       number_shown (RegisterWithPhone phone username password email skip_otp) now s n)) as Hver.
  { destruct skip eqn:Hskip.
    - apply post_ret. split; [done|]. intros _ _ _. split; [done|]. right. subst skip.
      destruct (subscribed_unowned n (g_accounts s)) eqn:E; [by left|by right].
    - unfold post. rewrite verified_run. cbn. split; [done|]. intros b [= <-] Hb%bool_decide_eq_true.
      split; [done|]. by left. }
  apply post_bind. eapply post_conseq; [exact Hver|]. intros [e|verified] s1 [-> Hshown]; [by apply unchanged|].
  destruct verified; [|by apply unchanged]. specialize (Hshown true eq_refl eq_refl). cbn [negb].
  destruct (Accounts.is_taken _ _ _); [by apply unchanged|]. case_bool_decide; [by apply unchanged|].
  apply or_not_created_post. eapply account_with_number; [exact Hok|exact Hshown|]. intros u. hush.
Qed.

Lemma plan_of_code_shown phone n otp now s p :
  Phone.normalize_ethiopian_phone (Some (strip phone)) = Some n → Accounts.accounts_ok (acc s) →
  plan_of_code n otp now (acc s) = Some p → setup_code phone otp now s p.
Proof.
  intros Hn Hok Hp. unfold plan_of_code, latest_first in Hp. apply head_Some_elem_of in Hp.
  apply StableSort.elem_of_sort, list_elem_of_In, List.filter_In in Hp as [Hin Hf]. apply list_elem_of_In in Hin.
  unfold newest_first in Hin. apply SmsSubscription.in_newest in Hin; [|apply Hok].
  apply andb_true_iff in Hf as [[Hph Hlive]%andb_true_iff Hact%bool_decide_eq_true]. split_and!; [done..|].
  exists n. split; [done|]. by apply orb_true_iff in Hph.
Qed.

Lemma enter_served phone username otp password n p u d now s :
  Accounts.accounts_ok (acc s) → setup_code phone (strip otp) now s p → sp_user p = Some u →
  Phone.normalize_ethiopian_phone (Some (strip phone)) = Some n →
  post (enter_with_code make_password p u n (strip password) d now) s
    (λ _ s', served (LoginWithSubscriptionOtp phone username otp password) now s s').
Proof.
  intros Hok Hcode Hu Hn. unfold enter_with_code. apply post_bind, post_get. cbv beta iota. case_bool_decide as Hex;
    [cbn [assert_or]; apply post_bind, post_ret; cbv beta iota|by apply unchanged]. apply post_bind.
  eapply post_conseq; [apply (password_changed (authorised (LoginWithSubscriptionOtp phone username otp password) now s)
    (number_shown (LoginWithSubscriptionOtp phone username otp password) now s)); [done|done|by exists p]|].
  intros r s1 [-> Hc]. apply post_bind, post_get. cbv beta iota. apply post_bind.
  eapply post_conseq with (P := λ _ s', served (LoginWithSubscriptionOtp phone username otp password) now s s').
  { apply post_when; [|by intros _].
    intros Hnone%String.eqb_eq. eapply post_conseq; [apply (number_changed (authorised (LoginWithSubscriptionOtp phone username otp password) now s)
      (number_shown (LoginWithSubscriptionOtp phone username otp password) now s)); [apply Hc| | |exact Hnone]|].
    - destruct Hex as [a Ha]. exists a. by apply (ch_users _ _ _ _ Hc).
    - split; [exact Hn|]. by exists p.
    - intros r s2 Hc2. by eapply changed_trans. }
  intros [e|[]] s2 Hc2; [exact Hc2|]. apply then_quietly; [|exact Hc2]. hush.
Qed.

Lemma setup_served phone username otp password d now s :
  Accounts.accounts_ok (acc s) →
  post (login_with_subscription_otp make_password phone username otp password d now) s
    (λ _ s', served (LoginWithSubscriptionOtp phone username otp password) now s s').
Proof.
  intros Hok. unfold login_with_subscription_otp. cbv zeta.
  destruct (_ || _ || _); [by apply unchanged|]. destruct (Accounts.is_pin_too_weak _) as [[] reason]; [by apply unchanged|].
  destruct (Phone.normalize_ethiopian_phone _) as [n|] eqn:Hn; [|by apply unchanged]. apply post_bind, post_get. cbv beta iota.
  destruct (plan_of_code n (strip otp) now (g_accounts s)) as [p|] eqn:Hp; [|by apply unchanged].
  pose proof (plan_of_code_shown _ _ _ _ _ _ Hn Hok Hp) as Hcode.
  destruct (sp_user p) as [u|] eqn:Hu.
  { by eapply enter_served. }
  assert (∀ name, post (open_with_code make_password p name n (strip password) d now) s
    (λ _ s', served (LoginWithSubscriptionOtp phone username otp password) now s s')) as Hopen.
  { intros name. unfold open_with_code. apply or_not_created_post, post_bind, post_atomic.
    set (Q := λ (r : exn + Z) s', changed (authorised (LoginWithSubscriptionOtp phone username otp password) now s)
      (number_shown (LoginWithSubscriptionOtp phone username otp password) now s) s s').
    eapply (post_conseq _ _ Q).
    { eapply account_with_number; [exact Hok|split; [exact Hn|by exists p]|]. intros u. hush. }
    intros [e|u] s1 Hc; [by apply unchanged|]. apply then_quietly; [apply sign_in_plain_quietly|exact Hc]. }
  destruct (String.eqb (strip username) ""); [apply Hopen|]. destruct (Accounts.is_taken _ _ _); [by apply unchanged|apply Hopen].
Qed.

Lemma serve_served k d now s : Accounts.accounts_ok (acc s) → served k now s (serve k d now s).2.
Proof.
  intros Hok. destruct (reads_only k) eqn:Hk.
  { apply quiet_changed; [done|]. by apply (serve_quietly k d now Hk s s). }
  destruct k; try discriminate Hk; cbn [serve].
  - by apply register_served.
  - by apply reset_served.
  - by apply change_served.
  - by apply register_phone_served.
  - by apply setup_served.
  - by apply confirm_served.
  - by apply phone_verify_served.
Qed.

Lemma run_snoc es e s : run (es ++ [e]) s = step (run es s) e.
Proof. unfold run. by rewrite foldl_app. Qed.

Lemma accounts_run_ok es s : Accounts.accounts_ok (acc s) → Accounts.accounts_ok (acc (run es s)).
Proof.
  revert s. induction es as [|e es IH] using rev_ind; intros s Hok; [done|]. rewrite run_snoc.
  eapply ch_ok, serve_served. by apply IH.
Qed.

(** An event, with the state it was served in. *)
Definition occurs (es : list event) (s : store) (P : event → store → Prop) : Prop :=
  ∃ es1 e es2, es = es1 ++ e :: es2 ∧ P e (run es1 s).

Lemma occurs_snoc es e s P : occurs (es ++ [e]) s P ↔ occurs es s P ∨ P e (run es s).
Proof.
  split.
  - intros (es1 & x & es2 & E & H). destruct (decide (es2 = [])) as [->|Hne].
    + apply app_inj_tail in E as [-> ->]. by right.
    + destruct (exists_last Hne) as (l & y & ->). rewrite app_comm_cons, app_assoc in E.
      apply app_inj_tail in E as [-> ->]. left. by exists es1, x, l.
  - intros [(es1 & x & es2 & -> & H)|H].
    + exists es1, x, (es2 ++ [e]). by rewrite <- app_assoc.
    + by exists es, e, [].
Qed.

(** C28.  Over any sequence of requests, the PIN of an account changes only if
    one of them, in the state it was served in, gave: the current PIN, signed
    in; the address of the account and nothing more ([reset_password]); that
    address with the code mailed to it, unused and not fifteen minutes old;
    the account's number with the login code sent to it, while the account
    holds a plan; or a number and the setup code, not expired, of an active
    plan that has both the number and that account. *)
Theorem pins_change_only_with_proof es s u :
  Accounts.accounts_ok (acc s) → is_Some (Accounts.a_users (acc s) !! u) →
  Accounts.passwords (acc (run es s)) !! u ≠ Accounts.passwords (acc s) !! u →
  occurs es s (λ e x, authorised (ev_call e) (ev_now e) x u).
Proof.
  intros Hok Hu. induction es as [|e es IH] using rev_ind; [done|]. rewrite run_snoc, occurs_snoc. intros Hne.
  pose proof (serve_served (ev_call e) (ev_draw e) (ev_now e) _ (accounts_run_ok es s Hok)) as [_ _ Hp _ _].
  destruct (Hp u) as [E|]; [|left; apply IH; unfold step in Hne; congruence|by right].
  clear -Hok Hu. destruct Hu as [a Ha]. exists a. revert Ha. induction es as [|e es IH] using rev_ind; [done|].
  intros Ha. rewrite run_snoc. apply (serve_served (ev_call e) (ev_draw e) (ev_now e)); [by apply accounts_run_ok|auto].
Qed.

(** ** The failure counter *)

Section Laws.
Context `{laws : !CacheLaws C}.

(** [n] failures from now on, for ten minutes. *)
Definition counts (r : request) (n now : Z) (s : store) : Prop :=
  ∀ t, now <= t → failures r "login" t s = if t <? now + 600 * second then n else 0.

Lemma sign_in_run u d now (s : store) :
  ∃ token st s', sign_in 200 u d now s = (inr (SignedIn 200 u token st), s') ∧ g_cache s' = g_cache s.
Proof.
  unfold sign_in. rewrite bind_run. unfold get_token. rewrite bind_run. cbn [get].
  destruct (_ !! u); cbn; eauto 10.
Qed.

(** The failure counter of [login].  After six failures the answer is 429
    and nothing is looked at, the right password included.  Before that, a
    wrong password or an unknown name counts one more, for ten minutes from
    then, the sixth being answered 429 already; the right password signs in
    the account with that name, or failing that the one with that address, and
    clears the count.  The counts kept under other names do not move, and a
    request that is refused otherwise changes nothing. *)
Theorem login_counts_failures r d now s :
  let n := failures r "login" now s in
  let '(x, s') := login check_password r d now s in
  (∀ r' t, failures_key r' "login" ≠ failures_key r "login" → failures r' "login" t s' = failures r' "login" t s) ∧
  match x with
  | inr (SignedIn status u _ _) => status = 200 ∧ n < 6 ∧ password_matches check_password (rq_password r) u s = true
      ∧ (∃ a, Accounts.a_users (acc s) !! u = Some a ∧ (Accounts.ac_username a = rq_username r ∨ Accounts.ac_email a = rq_username r))
      ∧ ∀ t, failures r "login" t s' = 0
  | inr (Refused status _) =>
      (status = 429 ∧ 6 <= n ∧ s' = s) ∨ (status = 400 ∧ n < 6 ∧ s' = s)
      ∨ (status = (if n =? 5 then 429 else 401) ∧ n < 6 ∧ counts r (n + 1) now s' ∧ acc s' = acc s)
  | inr (Done _) => False
  | inl _ => n < 6 ∧ s' = s
  end.
Proof.
  intros n. unfold login. rewrite bind_run. cbn [get]. unfold is_blocked. fold n.
  destruct (Z.leb_spec 6 n) as [Hn|Hn]; [cbn; split; [done|]; by left|].
  destruct (_ || _); [cbn; split; [done|]; by right; left|].
  set (find := if_found _ _).
  assert (∃ y, find s = (y, s) ∧ ∀ u, y = inr (Some u) → ∃ a, Accounts.a_users (acc s) !! u = Some a
    ∧ (Accounts.ac_username a = rq_username r ∨ Accounts.ac_email a = rq_username r)) as (y & Hfind & Hy).
  { subst find. unfold if_found, catch. rewrite !bind_run.
    pose proof (get_user_post (λ a, String.eqb (Accounts.ac_username a) (rq_username r)) s) as [E1 F1].
    pose proof (get_user_post (λ a, String.eqb (Accounts.ac_email a) (rq_username r)) s) as [E2 F2].
    destruct (get_user (λ a, String.eqb (Accounts.ac_username a) (rq_username r)) s) as [[e1|u1] s1]; cbn in E1, F1; subst s1.
    - destruct e1; try (eexists; split; [reflexivity|by intros]). rewrite bind_run.
      destruct (get_user (λ a, String.eqb (Accounts.ac_email a) (rq_username r)) s) as [[e2|u2] s2]; cbn in E2, F2; subst s2.
      + destruct e2; eexists; (split; [reflexivity|by intros]).
      + eexists. split; [reflexivity|]. intros v [= <-]. destruct (F2 u2 eq_refl) as (a & Ha & Hf%String.eqb_eq). eauto.
    - eexists. split; [reflexivity|]. intros v [= <-]. destruct (F1 u1 eq_refl) as (a & Ha & Hf%String.eqb_eq). eauto. }
  rewrite bind_run, Hfind. destruct y as [e|user]; [by cbn|]. rewrite bind_run. cbn [get].
  assert (let '(x, s') := login_failed r now s in
    (∀ r' t, failures_key r' "login" ≠ failures_key r "login" → failures r' "login" t s' = failures r' "login" t s) ∧
    ∃ m, x = inr (Refused (if n =? 5 then 429 else 401) m) ∧ counts r (n + 1) now s' ∧ acc s' = acc s) as Hfail.
  { unfold login_failed. rewrite bind_run. unfold check_and_increment_failure. rewrite bind_run. cbn [get]. rewrite bind_run. fold n.
    cbn [put]. cbn [mret M_ret]. split.
    - intros r' t Hk. unfold failures. cbn [g_cache with_cache]. by rewrite get_set_ne.
    - exists (if n =? 5 then "Too many failed login attempts. Please try again in 10 minutes." else "Invalid credentials").
      split; [|split; [|done]].
      + assert ((Z.max 0 (6 - (n + 1)) =? 0) = (n =? 5)) as ->; [|by destruct (n =? 5)].
        destruct (Z.eqb_spec n 5), (Z.eqb_spec (Z.max 0 (6 - (n + 1))) 0); lia || done.
      + intros t Ht. unfold failures. cbn [g_cache with_cache]. rewrite get_set by done. by destruct (t <? _). }
  destruct user as [u|]; [destruct (password_matches check_password (rq_password r) u s) eqn:Hm|].
  - rewrite bind_run. unfold clear_failures at 1, modify. set (s1 := with_cache _ s).
    destruct (sign_in_run u d now s1) as (token & st & s2 & -> & Hc). subst s1.
    assert (∀ r' t, failures r' "login" t s2 = failures r' "login" t (with_cache (cache_delete (g_cache s) now (failures_key r "login")) s))
      as Hsame by (intros; unfold failures; by rewrite Hc).
    split; [|split_and!; [done|done|done|by apply Hy|]].
    + intros r' t Hk. rewrite Hsame. unfold failures. cbn [g_cache with_cache]. by rewrite get_delete_ne.
    + intros t. rewrite Hsame. unfold failures. cbn [g_cache with_cache]. by rewrite get_delete.
  - destruct (login_failed r now s) as [x s']. destruct Hfail as [Hk (m & -> & Hcnt & Hacc)].
    split; [done|]. right; right. done.
  - destruct (login_failed r now s) as [x s']. destruct Hfail as [Hk (m & -> & Hcnt & Hacc)].
    split; [done|]. right; right. done.
Qed.
End Laws.

End Service.

(** ** Examples *)

Definition plain_check (password encoded : string) : bool := String.eqb encoded (Accounts.plain_hash password "s").
Definition any_fields (_ _ : string) : bool := false.
Definition drawn (u : Z) (code : string) : draw := Draw (Accounts.Draw u "s" ("token" +:+ str_int u)) "s" "new-token" code [] "ab" "0".

#[local] Notation serves := (run Accounts.plain_hash plain_check any_fields (λ _, "9286") "https://star.et/register").
#[local] Notation answers := (λ e s, (serve Accounts.plain_hash plain_check any_fields (λ _, "9286") "https://star.et/register"
  (ev_call e) (ev_draw e) (ev_now e) s).1).

Definition empty : @SignIn.store entries := SignIn.Store Accounts.no_accounts ∅ [] ∅.
Definition opening : list event :=
  [Event (Register "Ammen" "abe@Star.et" "204403") (drawn 7 "") 0;
   Event (SendPhoneOtp "0911000008") (drawn 0 "111111") 0;
   Event (VerifyPhoneOtp "+251911000008" "111111") (drawn 0 "") minute;
   Event (RegisterWithPhone "0911000008" "Sara" "204404" "" false) (drawn 8 "") (2 * minute)].
Definition two_accounts : @SignIn.store entries := serves opening empty.

Definition names (s : @SignIn.store entries) : list (Z * string * option string) :=
  (λ ua : Z * Accounts.account, (ua.1, Accounts.ac_username ua.2, Accounts.phone_of ua.1 (acc s))) <$> map_to_list (Accounts.a_users (acc s)).

Example opened_two : names two_accounts = [(7, "Ammen", None); (8, "Sara", Some "251911000008")].
Proof. by vm_compute. Qed.

Lemma two_accounts_ok : Accounts.accounts_ok (acc two_accounts).
Proof. apply accounts_run_ok, Accounts.no_accounts_ok. Qed.

(** [reset_password] takes the address for the person: a new PIN, and in. *)
Definition takeover : list event := [Event (ResetPassword "abe@star.et" "975313") (drawn 0 "") hour].
Definition with_pin (name pin : string) : request := Request None name "" "" pin "10.0.0.1".
Example reset_needs_only_the_address :
  (answers (Event (Login (with_pin "Ammen" "975313")) (drawn 0 "") hour) (serves takeover two_accounts)
   = inr (SignedIn 200 7 "new-token" (Some (true, true)))) ∧
  (answers (Event (Login (with_pin "Ammen" "204403")) (drawn 0 "") hour) (serves takeover two_accounts)
   = inr (Refused 401 "Invalid credentials")).
Proof. by vm_compute. Qed.

(** A number nobody has shown, claimed by asking for no check. *)
Example check_skipped :
  let s := serves [Event (RegisterWithPhone "0911000009" "Abel" "204404" "" true) (drawn 9 "") hour] two_accounts in
  Accounts.phone_of 9 (acc s) = Some "251911000009".
Proof. by vm_compute. Qed.

(** The account is new and never had a plan; it is told its plan has ended. *)
Example never_subscribed :
  login_subscription_state 7 0 (Accounts.plans (acc two_accounts)) = (true, true)
  ∧ s_plans (Accounts.plans (acc two_accounts)) = ∅.
Proof. by vm_compute. Qed.

(** A subscriber by text message, without an account. *)
Definition subscribed_by_text (s : @SignIn.store entries) : @SignIn.store entries :=
  let t := Tier 1 "Daily" "daily" (Some 1) 0 0 None in
  let a := acc s in
  let m := Accounts.a_sms a in
  let m := SmsSubscription.with_subs (Subscriptions.Store {[ 1 := t ]} ∅ [] (s_coins (SmsSubscription.m_subs m)) []) m in
  with_accounts (Accounts.with_sms
    (SmsSubscription.subscribe "251911000009" t 300 "timwe" "tx-1" None (SmsSubscription.Draw "654321" 5 "pay") hour m).2 a) s.
Definition subscriber_waiting : @SignIn.store entries := subscribed_by_text two_accounts.

(** Whoever registers the number first has the plan, without its code. *)
Example plan_taken_without_its_code :
  let s := serves [Event (RegisterWithPhone "0911000009" "Abel" "204404" "" false) (drawn 9 "") (2 * hour)] subscriber_waiting in
  Accounts.phone_of 9 (acc s) = Some "251911000009"
  ∧ has_active_subscription 9 (2 * hour) (Accounts.plans (acc s)) = true.
Proof. by vm_compute. Qed.

(** With the code, the name is made up; the code works once. *)
Example entered_with_the_code :
  let e := Event (LoginWithSubscriptionOtp "911000009" "" "654321" "204404") (drawn 9 "") (hour + minute) in
  let s := serves [e] subscriber_waiting in
  Accounts.ac_username <$> Accounts.a_users (acc s) !! 9 = Some "starab" ∧ Accounts.phone_of 9 (acc s) = Some "251911000009"
  ∧ answers e s = inr (Refused 400 "Invalid OTP or no active subscription found").
Proof. by vm_compute. Qed.

(** A plan of account 7, which has no number, while account 8 has the number
    the plan was subscribed from: the PIN is set, the number is refused by the
    database, and the request fails with the code still good. *)
Definition plan_of_another : @SignIn.store entries :=
  let s := subscribed_by_text two_accounts in
  with_accounts (Accounts.with_sms (SmsSubscription.with_subs
    (Subscriptions.with_plans ((λ p, set_user 7 p) <$> s_plans (Accounts.plans (acc s))) (Accounts.plans (acc s)))
    (SmsSubscription.with_lines ((λ l, with_number "251911000008" l) <$> SmsSubscription.m_lines (Accounts.a_sms (acc s)))
       (Accounts.a_sms (acc s)))) (acc s)) s.
Example pin_set_and_code_kept :
  let e := Event (LoginWithSubscriptionOtp "0911000008" "" "654321" "975313") (drawn 9 "") (hour + minute) in
  let s := serves [e] plan_of_another in
  answers e plan_of_another = inl Accounts.duplicate_phone
  ∧ Accounts.passwords (acc s) !! 7 = Some (Accounts.plain_hash "975313" "s")
  ∧ (answers e s = inl Accounts.duplicate_phone).
Proof. by vm_compute. Qed.

(** A wrong PIN and a wrong code change nothing; the right PIN does. *)
Lemma pins_change_only_with_proof_witness :
  let es := [Event (ChangePassword 8 "204405" "975313") (drawn 0 "") hour;
             Event (ForgotPasswordConfirm "abe@star.et" "123456" "975313") (drawn 0 "") hour;
             Event (ChangePassword 8 "204404" "975313") (drawn 0 "") hour] in
  let s := serves es two_accounts in
  (Accounts.passwords (acc s) !! 7 = Accounts.passwords (acc two_accounts) !! 7
   ∧ Accounts.passwords (acc s) !! 8 = Some (Accounts.plain_hash "975313" "s"))
  ∧ occurs Accounts.plain_hash plain_check any_fields (λ _, "9286") "https://star.et/register" es two_accounts
      (λ e x, authorised plain_check (ev_call e) (ev_now e) x 8).
Proof.
  intros es s. split; [by vm_compute|].
  apply (pins_change_only_with_proof Accounts.plain_hash plain_check any_fields (λ _, "9286") "https://star.et/register" es two_accounts 8).
  - apply two_accounts_ok.
  - by eexists; vm_compute.
  - by vm_compute.
Defined.

Lemma login_counts_failures_witness :
  let r := with_pin "Ammen" "000000" in
  let wrong (n : Z) := Event (Login r) (drawn 0 "") (n * minute) in
  let s := serves (wrong <$> [1; 2; 3; 4; 5; 6]) two_accounts in
  let right := with_pin "Ammen" "204403" in
  (answers (wrong 6) (serves (wrong <$> [1; 2; 3; 4; 5]) two_accounts) = inr locked_out
   ∧ login plain_check right (drawn 0 "") (7 * minute) s = (inr locked_out, s)
   ∧ (login plain_check right (drawn 0 "") (16 * minute) s).1 = inr (SignedIn 200 7 "token7" (Some (true, true)))) ∧
  let '(x, s') := login plain_check right (drawn 0 "") (16 * minute) s in
  ∀ r' t, failures_key r' "login" ≠ failures_key right "login" → failures r' "login" t s' = failures r' "login" t s.
Proof.
  intros r wrong s right. split; [by vm_compute|].
  pose proof (login_counts_failures plain_check right (drawn 0 "") (16 * minute) s) as H.
  cbv zeta in H. destruct (login plain_check right (drawn 0 "") (16 * minute) s) as [x s']. exact (proj1 H).
Defined.

End SignInRun.
