(* ===== verification/AccountRun.v ===== *)
(** * AccountRun: accounts that are edited and deleted

    Models, of [src/api/views/core.py], [delete_account], with what deleting a
    user takes along in the tables of [Accounts], and the edits of
    [UserProfileViewSet]: [update_profile], and the [update] and [destroy] that
    the view set brings with it.  They are then served between the requests of
    [SignInRun], in any order.

    Of a profile only the number is kept, and of what is deleted with an
    account only the rows of [Accounts]; files, posts and messages are not
    modelled.  Widths of columns are checked where the serializer does. *)

From Stdlib Require Import ZArith Lia.
From stdpp Require Import gmap strings.
From S2P Require Import Prelude CoinBalance Subscriptions SubscriptionGift SmsQueue Cache SmsSubscription Accounts SignIn SignInRun.

Module AccountRun.
Import Subscriptions Cache SignIn SignInRun.

(** ** Deleting *)

(** The recipient of a transaction is set to null; its user takes it along. *)
Definition forget_recipient (user : Z) (t : CoinBalance.coin_tx) : CoinBalance.coin_tx :=
  CoinBalance.CoinTx (CoinBalance.ct_user t) (CoinBalance.ct_type t) (CoinBalance.ct_coins t) (CoinBalance.ct_package t)
    (CoinBalance.ct_payment_method t) (CoinBalance.ct_payment_reference t)
    (if bool_decide (CoinBalance.ct_recipient t = Some user) then None else CoinBalance.ct_recipient t) (CoinBalance.ct_reel t)
    (CoinBalance.ct_fee_amount t) (CoinBalance.ct_quoted_coins t) (CoinBalance.ct_amount_etb t) (CoinBalance.ct_description t)
    (CoinBalance.ct_is_successful t) (CoinBalance.ct_payment_state t) (CoinBalance.ct_payment_reason t)
    (CoinBalance.ct_provider_conversation_id t) (CoinBalance.ct_created_at t).

Definition wallet_without (user : Z) (w : CoinBalance.wallet) : CoinBalance.wallet :=
  CoinBalance.Wallet (delete user (CoinBalance.w_rows w))
    (forget_recipient user <$> filter (λ t, CoinBalance.ct_user t ≠ user) (CoinBalance.w_txs w)).

(** The plans that go, by key. *)
Definition plan_gone (user : Z) (x : Subscriptions.store) (id : Z) : bool :=
  match s_plans x !! id with Some p => bool_decide (sp_user p = Some user) | None => false end.

Definition plans_without (user : Z) (x : Subscriptions.store) : Subscriptions.store :=
  Subscriptions.Store (s_tiers x) (filter (λ ip, sp_user ip.2 ≠ Some user) (s_plans x))
    (filter (λ l, l.1 ≠ user) (s_legacy x)) (wallet_without user (s_coins x)) (filter (λ n, n_recipient n ≠ user) (s_notes x)).

Definition payment_gone (user : Z) (x : Subscriptions.store) (p : SmsSubscription.paid) : bool :=
  bool_decide (SubscriptionGift.pay_user (SmsSubscription.pd_payment p) = Some user)
  || plan_gone user x (SubscriptionGift.pay_plan (SmsSubscription.pd_payment p)).

(** A line of history of somebody else keeps no plan: 0 stands for the null. *)
Definition forget_plan (user : Z) (x : Subscriptions.store) (h : SmsSubscription.history) : SmsSubscription.history :=
  SmsSubscription.History (if plan_gone user x (SmsSubscription.h_plan h) then 0 else SmsSubscription.h_plan h)
    (SmsSubscription.h_user h) (SmsSubscription.h_tier h) (SmsSubscription.h_action h) (SmsSubscription.h_reason h)
    (SmsSubscription.h_transaction h).

(** [user.delete()]: the row, and what cascades. *)
Definition user_deleted (user : Z) (a : Accounts.store) : Accounts.store :=
  let m := Accounts.a_sms a in
  let x := SmsSubscription.m_subs m in
  let kept {V} (c : gmap Z V) := filter (λ iv, plan_gone user x iv.1 = false) c in
  Accounts.Store (delete user (Accounts.a_users a)) (delete user (Accounts.a_tokens a))
    (SmsSubscription.Store (plans_without user x) (kept (SmsSubscription.m_lines m))
       (filter (λ up, up.1 ≠ user) (SmsSubscription.m_profiles m)) (delete user (SmsSubscription.m_passwords m))
       (filter (λ p, payment_gone user x p = false) (SmsSubscription.m_payments m))
       (forget_plan user x <$> filter (λ h, SmsSubscription.h_user h ≠ Some user) (SmsSubscription.m_history m))
       (SmsSubscription.m_sms m))
    (kept (Accounts.a_telebirr a)) (Accounts.a_config a).

Section Service.
Context {C : Type} `{cache_c : Cache C}.
#[local] Notation store := (@SignIn.store C).

Definition unauthenticated : answer := Refused 401 "Authentication credentials were not provided.".

(** The reset code goes with its account. *)
Definition delete_user (user : Z) : M store unit :=
  modify (λ s, with_resets (delete user (g_resets s)) (with_accounts (user_deleted user (g_accounts s)) s)).

Definition delete_account (user : Z) : M store answer :=
  s ← get;
  match Accounts.a_users (g_accounts s) !! user with
  | None => mret unauthenticated
  | Some row =>
      delete_token user ≫= λ _,
      delete_user user ≫= λ _,
      mret (Done ("Account " +:+ Accounts.ac_username row +:+ " has been deleted successfully."))
  end.

(** ** Editing *)

Definition has_profile (user : Z) (s : store) : bool :=
  existsb (λ up : Z * option string, up.1 =? user) (Accounts.profiles (g_accounts s)).

(** [user.save()]: names are unique. *)
Definition save_user (user : Z) (row : Accounts.account) : M store unit :=
  in_accounts (
    a ← get;
    assert_or (negb (existsb (λ ua, String.eqb (Accounts.ac_username ua.2) (Accounts.ac_username row) && negb (ua.1 =? user))
                 (map_to_list (Accounts.a_users a)))) Accounts.duplicate_username ≫= λ _,
    put (Accounts.with_users (<[user := row]> (Accounts.a_users a)) a)).

(** Neither the name nor the address is checked. *)
Definition update_profile (user : Z) (username email : option string) : M store answer :=
  s ← get;
  match Accounts.a_users (g_accounts s) !! user with
  | None => mret unauthenticated
  | Some row =>
      assert_or (has_profile user s) (DoesNotExist "User has no profile.") ≫= λ _,
      let row := Accounts.Account (default (Accounts.ac_username row) username) (default (Accounts.ac_email row) email) in
      save_user user row ≫= λ _,
      mret (Done (Accounts.ac_username row))
  end.

Definition no_profile : answer := Refused 404 "No UserProfile matches the given query.".

(** [UserProfileViewSet.update]: any caller, any profile.  Of the body, the
    number: [None] is null.  The validators of the serializer do not look at an
    empty text; the column does. *)
Definition clear_phone (user : Z) : M store unit :=
  in_accounts (modify (λ a, Accounts.with_profiles
    ((λ up : Z * option string, if up.1 =? user then (up.1, None) else up) <$> Accounts.profiles a) a)).

Definition valid_phone (user : Z) (n : string) (s : store) : option string :=
  if String.eqb n "" then None
  else if (20 <? String.length n)%nat then Some "Ensure this field has no more than 20 characters."
  else if Accounts.phone_used user n (g_accounts s) then Some "user profile with this phone number already exists."
  else None.

Definition edit_profile (caller user : Z) (phone : option string) : M store answer :=
  s ← get;
  if negb (bool_decide (is_Some (Accounts.a_users (g_accounts s) !! caller))) then mret unauthenticated
  else if negb (has_profile user s) then mret no_profile
  else match strip <$> phone with
  | Some n =>
      match valid_phone user n s with
      | Some refusal => mret (Refused 400 refusal)
      | None => in_accounts (Accounts.set_phone user n) ≫= λ _, mret (Done "")
      end
  | None => clear_phone user ≫= λ _, mret (Done "")
  end.

(** [UserProfileViewSet.destroy]: the same; the account is left. *)
Definition remove_profile (caller user : Z) : M store answer :=
  s ← get;
  if negb (bool_decide (is_Some (Accounts.a_users (g_accounts s) !! caller))) then mret unauthenticated
  else if negb (has_profile user s) then mret no_profile
  else in_accounts (modify (λ a, Accounts.with_profiles (filter (λ up, up.1 ≠ user) (Accounts.profiles a)) a)) ≫= λ _, mret (Done "").

(** ** Requests in any order *)

Context (make_password : string → string → string) (check_password : string → string → bool).
Context (invalid_fields : string → string → bool) (short_code : tier → string) (register_url : string).

Inductive event :=
| Asks (e : SignInRun.event)
| DeletesAccount (user : Z)
| UpdatesProfile (user : Z) (username email : option string)
| EditsProfile (caller user : Z) (phone : option string).

Definition serve (e : event) : M store answer :=
  match e with
  | Asks e => SignInRun.serve make_password check_password invalid_fields short_code register_url (ev_call e) (ev_draw e) (ev_now e)
  | DeletesAccount user => delete_account user
  | UpdatesProfile user username email => update_profile user username email
  | EditsProfile caller user phone => edit_profile caller user phone
  end.

Definition step (s : store) (e : event) : store := (serve e s).2.
Definition run (es : list event) (s : store) : store := foldl step s es.

(** An event, with the state it was served in. *)
Definition occurs (es : list event) (s : store) (P : event → store → Prop) : Prop :=
  ∃ es1 e es2, es = es1 ++ e :: es2 ∧ P e (run es1 s).

(** ** What each may do *)

(** What changes or removes the row of an account, and what may take its
    number away. *)
Definition rewrites (u : Z) (e : event) : Prop :=
  match e with DeletesAccount v => v = u | UpdatesProfile v _ _ => v = u | _ => False end.
Definition takes_number (u : Z) (e : event) : Prop :=
  match e with DeletesAccount v => v = u | EditsProfile _ v _ => v = u | _ => False end.

(** What attaches the number [n] to the account [u] shows: what [SignInRun]
    asks, or an account, any account, and the number. *)
Definition shows (u : Z) (n : string) (e : event) (s : store) : Prop :=
  match e with
  | Asks e => number_shown (ev_call e) (ev_now e) s n
  | EditsProfile caller v phone => v = u ∧ is_Some (Accounts.a_users (acc s) !! caller) ∧ strip <$> phone = Some n
  | _ => False
  end.

(** What is left of an account. *)
Definition coins (u : Z) (w : CoinBalance.wallet) : option CoinBalance.ucb * list Z :=
  (CoinBalance.w_rows w !! u, CoinBalance.ct_coins <$> CoinBalance.ledger_of u (CoinBalance.w_txs w)).
Definition plans_of (u : Z) (s : store) : gmap Z plan :=
  filter (λ ip, sp_user ip.2 = Some u) (s_plans (Accounts.plans (acc s))).

Record holdings := Holdings {
  hd_row : option Accounts.account; hd_password : option string; hd_token : option string; hd_number : option string;
  hd_plans : gmap Z plan; hd_coins : option CoinBalance.ucb * list Z
}.
Definition held (u : Z) (s : store) : holdings :=
  Holdings (Accounts.a_users (acc s) !! u) (Accounts.passwords (acc s) !! u) (Accounts.a_tokens (acc s) !! u)
    (Accounts.phone_of u (acc s)) (plans_of u s) (coins u (s_coins (Accounts.plans (acc s)))).
Definition nothing : holdings := Holdings None None None None ∅ (None, []).

Record did (e : event) (s s' : store) : Prop := Did {
  did_ok : Accounts.accounts_ok (acc s');
  did_users : ∀ u a, Accounts.a_users (acc s) !! u = Some a → Accounts.a_users (acc s') !! u = Some a ∨ rewrites u e;
  did_lose : ∀ u, is_Some (Accounts.a_users (acc s) !! u) → is_Some (Accounts.a_users (acc s') !! u) ∨ e = DeletesAccount u;
  did_keep : ∀ u n, Accounts.phone_of u (acc s) = Some n → n ≠ "" → Accounts.phone_of u (acc s') = Some n ∨ takes_number u e;
  did_show : ∀ u n, Accounts.phone_of u (acc s') = Some n → Accounts.phone_of u (acc s) = Some n ∨ shows u n e s;
  did_delete : ∀ u, e = DeletesAccount u → is_Some (Accounts.a_users (acc s) !! u) →
    held u s' = nothing ∧ ∀ v, v ≠ u → held v s' = held v s
}.

(** An event that deletes nothing, and leaves the rows and the numbers. *)
Lemma did_nothing e s : Accounts.accounts_ok (acc s) →
  (∀ u, e = DeletesAccount u → Accounts.a_users (acc s) !! u = None) → did e s s.
Proof. intros Hok Hd. split; [done|by left..|]. intros u E [a Ha]. by rewrite (Hd u E) in Ha. Qed.

(** *** Deleting *)

Lemma coins_without u w v :
  coins v (wallet_without u w) = if decide (v = u) then (None, []) else coins v w.
Proof.
  unfold coins. cbn. assert (CoinBalance.ct_coins <$> CoinBalance.ledger_of v (forget_recipient u <$>
      filter (λ t, CoinBalance.ct_user t ≠ u) (CoinBalance.w_txs w))
    = if decide (v = u) then [] else CoinBalance.ct_coins <$> CoinBalance.ledger_of v (CoinBalance.w_txs w)) as ->.
  { unfold CoinBalance.ledger_of. induction (CoinBalance.w_txs w) as [|t ts IH]; [by case_decide|].
    rewrite !filter_cons. destruct (decide (CoinBalance.ct_user t = u)) as [E|E].
    - destruct (decide (CoinBalance.ct_user t ≠ u)); [done|]. rewrite IH. destruct (decide (v = u)) as [|Hv]; [done|].
      destruct (decide (CoinBalance.ct_user t = v)); [congruence|done].
    - destruct (decide (CoinBalance.ct_user t ≠ u)); [|done]. rewrite fmap_cons, filter_cons. cbn [CoinBalance.ct_user forget_recipient].
      destruct (decide (CoinBalance.ct_user t = v)) as [Ev|Ev]; [|done]. rewrite fmap_cons, IH.
      destruct (decide (v = u)); [congruence|done]. }
  destruct (decide (v = u)) as [->|Hv]; [by rewrite lookup_delete_eq|by rewrite lookup_delete_ne].
Qed.

Lemma wallet_by_coins w : CoinBalance.wallet_ok w ↔
  ∀ u, match coins u w with
       | (Some r, l) => CoinBalance.u_user r = u ∧ CoinBalance.row_ok r ∧ CoinBalance.u_balance r = sumZ id l
       | (None, l) => sumZ id l = 0
       end.
Proof.
  assert (∀ l : list CoinBalance.coin_tx, sumZ id (CoinBalance.ct_coins <$> l) = sumZ CoinBalance.ct_coins l) as Hs.
  { intros l. unfold sumZ. induction l as [|t l IH]; cbn; [done|]. f_equal; exact IH. }
  unfold CoinBalance.wallet_ok, coins. split.
  - intros [H1 H2] u. destruct (CoinBalance.w_rows w !! u) eqn:E; rewrite Hs; auto.
  - intros H. split; intros u; [intros r Hr|intros Hr]; specialize (H u); rewrite Hr, Hs in H; exact H.
Qed.

Lemma wallet_without_ok u w : CoinBalance.wallet_ok w → CoinBalance.wallet_ok (wallet_without u w).
Proof.
  rewrite !wallet_by_coins. intros H v. rewrite coins_without. destruct (decide (v = u)); [done|apply H].
Qed.

Lemma fst_filtered {V} (P : Z → Prop) `{∀ up : Z * V, Decision (P up.1)} (l : list (Z * V)) u :
  u ∈ (filter (λ up, P up.1) l).*1 ↔ P u ∧ u ∈ l.*1.
Proof.
  rewrite !list_elem_of_fmap. split.
  - intros ([v q] & -> & [Hp Hin]%list_elem_of_filter). eauto.
  - intros (Hp & [v q] & -> & Hin). exists (v, q). by rewrite list_elem_of_filter.
Qed.

Lemma fst_filtered_nodup {V} (P : Z → Prop) `{∀ up : Z * V, Decision (P up.1)} (l : list (Z * V)) :
  NoDup l.*1 → NoDup (filter (λ up, P up.1) l).*1.
Proof.
  induction l as [|[v q] l IH]; [done|]. rewrite filter_cons. intros [Hv Hnd]%NoDup_cons.
  case_decide; [|auto]. rewrite fmap_cons. apply NoDup_cons. split; [|auto]. by intros [_ ?]%fst_filtered.
Qed.

Lemma user_deleted_ok u a : Accounts.accounts_ok a → Accounts.accounts_ok (user_deleted u a).
Proof.
  intros [[Ht Hw Hid] Hn [Hnd Hp] Hph Hpw]. split.
  - split; [exact Ht|by apply wallet_without_ok|]. intros id p [Hip _]%map_lookup_filter_Some. auto.
  - cbn. intros v w x y [_ Hx]%lookup_delete_Some [_ Hy]%lookup_delete_Some. by apply Hn.
  - change (Accounts.profiles (user_deleted u a)) with (filter (λ up : Z * option string, up.1 ≠ u) (Accounts.profiles a)).
    split; [by apply (fst_filtered_nodup (λ v, v ≠ u))|]. intros v. rewrite (fst_filtered (λ v, v ≠ u)), Hp. cbn.
    destruct (decide (v = u)) as [->|Hv].
    + rewrite lookup_delete_eq. split; [by intros [[] _]|by intros [??]].
    + rewrite lookup_delete_ne by done. tauto.
  - intros v w p [_ Hv]%list_elem_of_filter [_ Hw']%list_elem_of_filter. by eapply Hph.
  - intros v. cbn. destruct (decide (v = u)) as [->|Hv]; [rewrite !lookup_delete_eq|rewrite !lookup_delete_ne by done; apply Hpw].
    split; by intros [??].
Qed.

Lemma profile_without u a v : SmsSubscription.profile_of v (Accounts.a_sms (user_deleted u a))
  = if decide (v = u) then None else SmsSubscription.profile_of v (Accounts.a_sms a).
Proof.
  unfold SmsSubscription.profile_of. cbn. induction (SmsSubscription.m_profiles (Accounts.a_sms a)) as [|[w q] l IH];
    [by case_decide|].
  rewrite filter_cons. cbn [fst snd List.find]. destruct (decide (w ≠ u)) as [Hw|Hw%dec_stable]; cbn [fst snd List.find].
  - destruct (Z.eqb_spec w v) as [->|Hv]; [|exact IH]. by destruct (decide (v = u)).
  - subst w. destruct (Z.eqb_spec u v) as [->|Hv]; [|exact IH]. rewrite decide_True by done. by rewrite decide_True in IH.
Qed.

Definition deleted (u : Z) (s : store) : store :=
  with_resets (delete u (g_resets s)) (with_accounts (user_deleted u (acc s)) s).

Lemma plans_without_of u x v :
  filter (λ ip, sp_user ip.2 = Some v) (s_plans (plans_without u x))
  = if decide (v = u) then ∅ else filter (λ ip, sp_user ip.2 = Some v) (s_plans x).
Proof.
  cbn. case_decide as Hv; [subst v; apply map_empty; intros id|apply map_eq; intros id; apply option_eq; intros p].
  - apply map_lookup_filter_None. right. by intros p [_ Hp]%map_lookup_filter_Some.
  - rewrite !map_lookup_filter_Some. cbn. split; [by intros [[Hp _] He]|]. intros [Hp He]. split_and!; [done| |done]. congruence.
Qed.

Lemma deleted_held u s v : held v (deleted u s) = if decide (v = u) then nothing else held v s.
Proof.
  unfold held, plans_of. change (acc (deleted u s)) with (user_deleted u (acc s)).
  unfold Accounts.phone_of. rewrite profile_without.
  change (Accounts.plans (user_deleted u (acc s))) with (plans_without u (Accounts.plans (acc s))).
  rewrite plans_without_of. change (s_coins (plans_without u ?x)) with (wallet_without u (s_coins x)). rewrite coins_without.
  cbn. destruct (decide (v = u)) as [->|Hv]; [by rewrite !lookup_delete_eq|by rewrite !lookup_delete_ne by done].
Qed.

Lemma delete_account_run u row s : Accounts.a_users (acc s) !! u = Some row →
  delete_account u s = (inr (Done ("Account " +:+ Accounts.ac_username row +:+ " has been deleted successfully.")),
    deleted u (delete_token u s).2).
Proof.
  intros Hu. unfold delete_account. rewrite bind_run. cbn [get]. unfold acc in Hu. rewrite Hu. reflexivity.
Qed.

Lemma delete_did u s : Accounts.accounts_ok (acc s) → did (DeletesAccount u) s (delete_account u s).2.
Proof.
  intros Hok. destruct (Accounts.a_users (acc s) !! u) as [row|] eqn:Hu.
  - rewrite (delete_account_run u row s Hu). cbn [snd].
    assert (∀ v, held v (deleted u (delete_token u s).2) = if decide (v = u) then nothing else held v s) as Hheld.
    { intros v. rewrite deleted_held. destruct (decide (v = u)) as [|Hv]; [done|]. unfold held. cbn.
      by rewrite lookup_delete_ne by done. }
    assert (∀ v, v ≠ u → held v (deleted u (delete_token u s).2) = held v s) as Hothers
      by (intros v Hv; by rewrite Hheld, decide_False).
    split.
    + cbn. apply (user_deleted_ok u (g_accounts (delete_token u s).2)).
      eapply quiet_ok; [by apply (delete_token_quietly u s s)|done].
    + intros v a Ha. destruct (decide (v = u)) as [|Hv]; [by right|left]. rewrite <- Ha. exact (f_equal hd_row (Hothers v Hv)).
    + intros v [a Ha]. destruct (decide (v = u)) as [->|Hv]; [by right|left]. exists a. rewrite <- Ha. exact (f_equal hd_row (Hothers v Hv)).
    + intros v n Hn _. destruct (decide (v = u)) as [|Hv]; [by right|left]. rewrite <- Hn. exact (f_equal hd_number (Hothers v Hv)).
    + intros v n Hn. left. destruct (decide (v = u)) as [->|Hv].
      * specialize (Hheld u). rewrite decide_True in Hheld by done. apply (f_equal hd_number) in Hheld.
        change (Accounts.phone_of u (acc (deleted u (delete_token u s).2)) = None) in Hheld. congruence.
      * rewrite <- Hn. symmetry. exact (f_equal hd_number (Hothers v Hv)).
    + intros v [= ->] _. split; [by rewrite Hheld, decide_True|done].
  - assert ((delete_account u s).2 = s) as ->.
    { unfold delete_account. rewrite bind_run. cbn [get]. unfold acc in Hu. by rewrite Hu. }
    apply did_nothing; [done|]. by intros v [= ->].
Qed.

(** *** Editing *)

Lemma save_user_ok u row s : Accounts.accounts_ok (acc s) → is_Some (Accounts.a_users (acc s) !! u) →
  let s' := (save_user u row s).2 in
  Accounts.accounts_ok (acc s') ∧ Accounts.profiles (acc s') = Accounts.profiles (acc s)
  ∧ (∀ v, v ≠ u → Accounts.a_users (acc s') !! v = Accounts.a_users (acc s) !! v)
  ∧ ∀ v, is_Some (Accounts.a_users (acc s') !! v) ↔ is_Some (Accounts.a_users (acc s) !! v).
Proof.
  intros Hok Hu. unfold save_user, in_accounts. rewrite zoom_run, bind_run. cbn [get]. fold (acc s).
  destruct (existsb _ _) eqn:Hb; cbn [negb assert_or]; rewrite bind_run; cbn; [done|].
  assert (∀ v, is_Some (<[u := row]> (Accounts.a_users (acc s)) !! v) ↔ is_Some (Accounts.a_users (acc s) !! v)) as Hsame.
  { intros v. destruct (decide (v = u)) as [->|Hv]; [rewrite lookup_insert_eq|by rewrite lookup_insert_ne]. split; eauto. }
  split_and!; [|done|intros v Hv; by rewrite lookup_insert_ne|exact Hsame].
  destruct Hok as [Hs Hn [Hnd Hp] Hph Hpw].
  assert (∀ v a, v ≠ u → Accounts.a_users (acc s) !! v = Some a → Accounts.ac_username a ≠ Accounts.ac_username row) as Hfree.
  { intros v a Hv Ha E. apply not_true_iff_false in Hb. apply Hb, existsb_exists. exists (v, a). split.
    - by apply list_elem_of_In, elem_of_map_to_list.
    - cbn. rewrite E, String.eqb_refl. by apply Z.eqb_neq in Hv as ->. }
  split; [by destruct Hs| |split; [exact Hnd|]|exact Hph|].
  - cbn. intros v w a b. destruct (decide (v = u)) as [->|Hv], (decide (w = u)) as [->|Hw];
      rewrite ?lookup_insert_eq, ?lookup_insert_ne by done; [done|..].
    + intros [= <-] Hb' E. by destruct (Hfree w b Hw Hb').
    + intros Ha [= <-] E. by destruct (Hfree v a Hv Ha).
    + apply Hn.
  - intros v. cbn. rewrite Hsame. apply Hp.
  - intros v. cbn. rewrite Hsame. apply Hpw.
Qed.

Lemma update_did u n m s : Accounts.accounts_ok (acc s) → did (UpdatesProfile u n m) s (update_profile u n m s).2.
Proof.
  intros Hok. unfold update_profile. rewrite bind_run. cbn [get]. fold (acc s).
  destruct (Accounts.a_users (acc s) !! u) as [row|] eqn:Hu; [|by apply did_nothing].
  rewrite bind_run. destruct (has_profile u s); cbn [assert_or]; [|by apply did_nothing]. cbn [mret M_ret]. rewrite bind_run.
  match goal with |- context [save_user u ?r s] => pose proof (save_user_ok u r s Hok (mk_is_Some _ _ Hu)) as (Hs & Hp & Hv & Hsome);
    destruct (save_user u r s) as [[e|[]] s'] end; cbn [fst snd] in *.
  1, 2: assert (∀ v, Accounts.phone_of v (acc s') = Accounts.phone_of v (acc s)) as Hph
    by (intros v; unfold Accounts.phone_of, SmsSubscription.profile_of; unfold Accounts.profiles in Hp; by rewrite Hp).
  1, 2: split; [done| |by intros v; rewrite Hsome; left|intros v k; rewrite Hph; by left|intros v k; rewrite Hph; by left|done];
    intros v a Ha; (destruct (decide (v = u)) as [->|Hne]; [by right|left; by rewrite Hv]).
Qed.

Lemma cleared_in (u : Z) (l : list (Z * option string)) v q :
  (v, q) ∈ ((λ up : Z * option string, if up.1 =? u then (up.1, None) else up) <$> l)
  ↔ (v = u ∧ q = None ∧ u ∈ l.*1) ∨ (v ≠ u ∧ (v, q) ∈ l).
Proof.
  rewrite list_elem_of_fmap. split.
  - intros ([w r] & E & Hin). cbn in E. destruct (Z.eqb_spec w u) as [->|Hne]; injection E as -> ->; [left|by right].
    split_and!; [done..|]. apply list_elem_of_fmap. by exists (u, r).
  - intros [(-> & -> & ([w r] & -> & Hin)%list_elem_of_fmap)|[Hne Hin]].
    + exists (w, r). cbn. by rewrite Z.eqb_refl.
    + exists (v, q). cbn. by apply Z.eqb_neq in Hne as ->.
Qed.

Lemma cleared_ok u (s : store) : Accounts.accounts_ok (acc s) → Accounts.accounts_ok (acc (clear_phone u s).2).
Proof.
  intros [Hs Hn [Hnd Hp] Hph Hpw]. split; [by destruct Hs|exact Hn| | |exact Hpw].
  - change (Accounts.profiles (acc (clear_phone u s).2))
      with ((λ up : Z * option string, if up.1 =? u then (up.1, None) else up) <$> Accounts.profiles (acc s)).
    rewrite <- list_fmap_compose, (list_fmap_ext _ fst); [done|]. intros i [v q] _. cbn. by destruct (v =? u).
  - intros v w p. change (Accounts.profiles (acc (clear_phone u s).2))
      with ((λ up : Z * option string, if up.1 =? u then (up.1, None) else up) <$> Accounts.profiles (acc s)).
    rewrite !cleared_in. intros [(_ & ? & _)|[_ Hv]] [(_ & ? & _)|[_ Hw]]; try done. by eapply Hph.
Qed.

Lemma cleared_phone u (s : store) v : Accounts.accounts_ok (acc s) →
  Accounts.phone_of v (acc (clear_phone u s).2) = if decide (v = u) then None else Accounts.phone_of v (acc s).
Proof.
  intros Hok. pose proof (cleared_ok u s Hok) as Hok'. unfold Accounts.phone_of.
  apply option_eq. intros n. destruct (decide (v = u)) as [->|Hv].
  - split; [|done]. intros ([q|] & E & [= ->])%bind_Some. apply Accounts.profile_phone in E; [|done].
    by apply cleared_in in E as [(_ & ? & _)|[? _]].
  - rewrite !bind_Some. f_equiv. intros q. rewrite <- !Accounts.profile_phone by done.
    split; intros [E ?]; (split; [|done]); [apply cleared_in in E as [(? & _)|[_ E]]|apply cleared_in]; [done|done|by right].
Qed.

Lemma edit_did c u phone s : Accounts.accounts_ok (acc s) → did (EditsProfile c u phone) s (edit_profile c u phone s).2.
Proof.
  intros Hok. unfold edit_profile. rewrite bind_run. cbn [get]. fold (acc s).
  assert (did (EditsProfile c u phone) s s) as Hsame by by apply did_nothing.
  destruct (bool_decide _) eqn:Hc; cbn [negb]; [|exact Hsame]. apply bool_decide_eq_true in Hc.
  destruct (has_profile u s); cbn [negb]; [|exact Hsame].
  destruct (strip <$> phone) as [n|] eqn:Hn.
  - destruct (valid_phone u n s); [exact Hsame|]. rewrite bind_run. unfold in_accounts. rewrite zoom_run, Accounts.set_phone_run.
    fold (acc s). destruct (Accounts.phone_used u n (acc s)) eqn:Hused; cbn [fst snd]; [by destruct s|]. cbn.
    pose proof (Accounts.phone_set_ok u n (acc s) Hok Hused) as Hok'.
    assert (∀ v, v ≠ u → Accounts.phone_of v (Accounts.phone_set u n (acc s)) = Accounts.phone_of v (acc s)) as Hv.
    { intros v Hv. unfold Accounts.phone_of. f_equal. apply option_eq. intros q. rewrite <- !Accounts.profile_phone by done.
      rewrite Accounts.phone_set_in. split; [by intros [(? & _)|[_ ?]]|by right]. }
    match goal with |- did _ _ ?x => assert (acc x = Accounts.phone_set u n (acc s)) as Hacc by reflexivity; revert Hacc; generalize x end.
    intros s' Hacc. split; rewrite ?Hacc; [exact Hok'|by left|by left| | |done].
    + intros v k Hk _. destruct (decide (v = u)) as [->|Hne]; [by right|left]. by rewrite Hv.
    + intros v k. destruct (decide (v = u)) as [->|Hne]; [|rewrite Hv by done; by left]. intros H. right.
      split_and!; [done|done|]. rewrite Hn. unfold Accounts.phone_of in H. apply bind_Some in H as (q & Hq & E). cbn in E. subst q.
      apply Accounts.profile_phone in Hq; [|done]. apply Accounts.phone_set_in in Hq as [(_ & E & _)|[? _]]; congruence.
  - rewrite bind_run. pose proof (cleared_ok u s Hok) as Hok'. pose proof (λ v, cleared_phone u s v Hok) as Hv. revert Hok' Hv.
    assert (∃ s', clear_phone u s = (inr tt, s') ∧ Accounts.a_users (acc s') = Accounts.a_users (acc s)) as (s' & -> & Hu)
      by (eexists; split; reflexivity).
    cbn [fst snd mret M_ret]. intros Hok' Hv. split; [done|intros v a; rewrite Hu; by left|intros v; rewrite Hu; by left| | |done].
    + intros v k Hk _. destruct (decide (v = u)) as [->|Hne]; [by right|left]. by rewrite Hv, decide_False.
    + intros v k. rewrite Hv. case_decide; [done|by left].
Qed.

Lemma step_did e s : Accounts.accounts_ok (acc s) → did e s (step s e).
Proof.
  intros Hok. destruct e; cbn [step serve].
  - pose proof (serve_served make_password check_password invalid_fields short_code register_url (ev_call e) (ev_draw e) (ev_now e) s Hok)
      as [Hok' Hu _ Hk Hn]. split; [done|by left; apply Hu|intros u [a Ha]; left; eauto|by left; apply Hk|done|done].
  - by apply delete_did.
  - by apply update_did.
  - by apply edit_did.
Qed.

Lemma events_snoc es e s : run (es ++ [e]) s = step (run es s) e.
Proof. unfold run. by rewrite foldl_app. Qed.

Lemma events_ok es s : Accounts.accounts_ok (acc s) → Accounts.accounts_ok (acc (run es s)).
Proof.
  intros Hok. induction es as [|e es IH] using rev_ind; [done|]. rewrite events_snoc. by apply (step_did e).
Qed.

(** What turns from false to true on the way, some event made true. *)
Lemma turned (P : store → Prop) (Q : event → store → Prop) es s :
  (∀ e x, Accounts.accounts_ok (acc x) → P (step x e) → P x ∨ Q e x) →
  Accounts.accounts_ok (acc s) → P (run es s) → P s ∨ occurs es s Q.
Proof.
  intros Hstep Hok. induction es as [|e es IH] using rev_ind; [by left|]. rewrite events_snoc. intros HP.
  destruct (Hstep e (run es s) (events_ok es s Hok) HP) as [Hb|HQ].
  - destruct (IH Hb) as [|(es1 & x & es2 & -> & H)]; [by left|right]. exists es1, x, (es2 ++ [e]). by rewrite <- app_assoc.
  - right. by exists es, e, [].
Qed.

(** What holds at the start holds at the end, or some event ended it. *)
Lemma kept (P : store → Prop) (Q : event → Prop) es s :
  (∀ e x, Accounts.accounts_ok (acc x) → P x → P (step x e) ∨ Q e) →
  Accounts.accounts_ok (acc s) → P s → P (run es s) ∨ occurs es s (λ e _, Q e).
Proof.
  intros Hstep Hok HP. induction es as [|e es IH] using rev_ind; [by left|]. rewrite events_snoc.
  destruct IH as [Hb|(es1 & x & es2 & -> & H)].
  - destruct (Hstep e (run es s) (events_ok es s Hok) Hb) as [|HQ]; [by left|right]. by exists es, e, [].
  - right. exists es1, x, (es2 ++ [e]). by rewrite <- app_assoc.
Qed.


(** C30.  Over any sequence of the same requests, a number is attached to an
    account only by one of them that showed it: a registration, when a login
    code sent to the number was accepted in the last fifteen minutes, or an
    active plan without an owner was subscribed to by text from it, or the
    caller asked for the check to be skipped; the setup code of an active plan
    of that number; or an edit of the profile of that account, by any account,
    naming the number. *)
Theorem numbers_are_shown es s u n :
  Accounts.accounts_ok (acc s) → Accounts.phone_of u (acc (run es s)) = Some n →
  Accounts.phone_of u (acc s) = Some n ∨ occurs es s (shows u n).
Proof.
  intros Hok. apply (turned (λ x, Accounts.phone_of u (acc x) = Some n)); [|done].
  intros e x Hx. apply (did_show _ _ _ (step_did e x Hx)).
Qed.

End Service.

(** ** Examples *)

#[local] Notation serves := (run Accounts.plain_hash plain_check any_fields (λ _, "9286") "https://star.et/register").

(** Accounts 7 and 8, of [SignInRun], and what 7 may do to 8. *)
Definition opened : list event := Asks <$> opening.
Example opened_the_same : serves opened empty = two_accounts.
Proof. by vm_compute. Qed.

Example number_of_another :
  let s := serves [EditsProfile 7 8 (Some " 251911000077 ")] two_accounts in
  Accounts.phone_of 8 (acc s) = Some "251911000077"
  ∧ (edit_profile 7 7 (Some "251911000077") s).1 = inr (Refused 400 "user profile with this phone number already exists.").
Proof. by vm_compute. Qed.

(** An empty number is not seen to be there already; the database refuses it. *)
Example two_empty_numbers :
  let s := serves [EditsProfile 7 7 (Some " ")] two_accounts in
  Accounts.phone_of 7 (acc s) = Some "" ∧ (edit_profile 8 8 (Some "") s).1 = inl Accounts.duplicate_phone.
Proof. by vm_compute. Qed.

(** Registration refuses this name; the edit compares its letters exactly. *)
Example name_of_another :
  let s := serves [UpdatesProfile 7 (Some "SARA") None] two_accounts in
  names s = [(7, "SARA", None); (8, "Sara", Some "251911000008")]
  ∧ Accounts.is_taken "SARA" (Some 7) (acc two_accounts) = true
  ∧ (update_profile 7 (Some "Sara") None two_accounts).1 = inl Accounts.duplicate_username.
Proof. by vm_compute. Qed.

(** Anyone removes the profile of another, whose account then has none. *)
Example profile_of_another_removed :
  let '(r, s) := remove_profile 7 8 two_accounts in
  r = inr (Done "") ∧ (update_profile 8 None None s).1 = inl (DoesNotExist "User has no profile.")
  ∧ ¬ Accounts.accounts_ok (acc s).
Proof.
  destruct (remove_profile 7 8 two_accounts) as [r s] eqn:E. vm_compute in E. injection E as <- <-.
  split_and!; [done|done|]. intros [_ _ [_ Hp] _ _]. specialize (Hp 8). revert Hp. vm_compute. intros [_ Hp].
  assert (8 ∈ [7]) as Hin by (apply Hp; by eexists). by apply list_elem_of_singleton in Hin.
Qed.

Definition ending : list event :=
  [UpdatesProfile 7 (Some "Abebe") (Some "abe@star.et"); EditsProfile 7 8 (Some "251911000077"); DeletesAccount 8;
   Asks (Event (RegisterWithPhone "251911000077" "Sara" "204404" "" true) (drawn 9 "") hour)].

Example ended : names (serves ending two_accounts) = [(7, "Abebe", None); (9, "Sara", Some "251911000077")].
Proof. by vm_compute. Qed.


Lemma numbers_are_shown_witness :
  let es := opened ++ [EditsProfile 7 8 (Some "251911000077")] in
  Accounts.phone_of 8 (acc (serves es empty)) = Some "251911000077" ∧
  (Accounts.phone_of 8 (acc empty) = Some "251911000077"
   ∨ occurs Accounts.plain_hash plain_check any_fields (λ _, "9286") "https://star.et/register" es empty
       (shows 8 "251911000077")).
Proof.
  intros es. split; [by vm_compute|].
  apply (numbers_are_shown Accounts.plain_hash plain_check any_fields (λ _, "9286") "https://star.et/register" es empty 8).
  - apply Accounts.no_accounts_ok.
  - by vm_compute.
Defined.

End AccountRun.
