(* ===== verification/UssdSubscription.v ===== *)
(** * UssdSubscription: a plan bought by a push to the handset

    Models the end of [src/api/views/subscription.py]: the request that sends
    the push, the account it sets up, the activation a confirmation brings and
    its webhook; the other webhook that activates, at the end of
    [telebirr_ussd_webhook] in [src/api/views/wallet.py]; and what they rely on
    in [src/api/services/subscription_access.py] and
    [src/api/services/telebirr_subscription_sms.py].

    A request is two steps around the push, which is an argument; a delivery of
    the subscription webhook is one transaction and one step, and one of the
    other webhook can be cut between its read and its writes.  The reading of
    a UUID, the hash of the verification and that of the passwords are
    arguments.  The XML is given by the three elements that are read. *)

From Stdlib Require Import ZArith Lia.
From stdpp Require Import gmap strings sorting.
From S2P Require Import Prelude Decimal StableSort Phone CoinBalance Subscriptions SubscriptionGift SmsQueue PaymentOtp SyncOrder SmsSubscription Accounts SignIn.

Module UssdSubscription.
Import Subscriptions.

(** ** Tables *)

(** [SubscriptionPayment]; of its metadata, the number and whether the account
    is new. *)
Record payment := Payment {
  py_id : string; py_plan : Z; py_user : option Z; py_reference : option string; py_amount : Z; py_status : string;
  py_method : string; py_duration_type : string; py_start : option Z; py_end : Z; py_phone : option string;
  py_is_new_user : option bool; py_created_at : Z
}.

(** The columns of a tier that are read here: its key, price in cents and
    whether it is offered, in the order of [Meta.ordering]. *)
Record offer := Offer { of_tier : Z; of_price_etb : Z; of_is_active : bool }.

Section Flow.
Context {C : Type}.
Context (sha256 : string → string) (make_password : string → string → string) (to_uuid : string → option Z).

Record store := Store {
  x_accounts : Accounts.store; x_payments : list payment; x_offers : list offer;
  x_sessions : gmap Z PaymentOtp.session; x_cache : C
}.

Definition with_accounts (a : Accounts.store) (s : store) : store :=
  Store a (x_payments s) (x_offers s) (x_sessions s) (x_cache s).
Definition with_payments (l : list payment) (s : store) : store :=
  Store (x_accounts s) l (x_offers s) (x_sessions s) (x_cache s).
Definition in_accounts {A} : M Accounts.store A → M store A := zoom x_accounts with_accounts.

Definition otp_view (s : store) : PaymentOtp.store :=
  PaymentOtp.Store (x_sessions s) (SmsSubscription.m_sms (Accounts.a_sms (x_accounts s))) (x_cache s).
Definition otp_upd (o : @PaymentOtp.store C) (s : store) : store :=
  let a := x_accounts s in
  Store (Accounts.with_sms (SmsSubscription.with_sms (PaymentOtp.s_messages o) (Accounts.a_sms a)) a)
    (x_payments s) (x_offers s) (PaymentOtp.s_sessions o) (PaymentOtp.s_cache o).
Definition in_otp {A} : M (@PaymentOtp.store C) A → M store A := zoom otp_view otp_upd.

Definition tiers (s : store) : gmap Z tier := s_tiers (Accounts.plans (x_accounts s)).
Definition plans_of (s : store) : gmap Z plan := s_plans (Accounts.plans (x_accounts s)).

(** ** Payments *)

(** What the receiver of a saved payment sees of it. *)
Definition gift_of (p : payment) : SubscriptionGift.payment :=
  SubscriptionGift.Payment (py_id p) (py_plan p) (py_user p) (py_status p) (py_start p) (py_end p).

Definition gift_for (p : payment) (now : Z) : M store unit :=
  in_accounts (Accounts.in_plans (SubscriptionGift.grant_subscription_gift (gift_of p) now)).

(** [payment.save()], with its receiver. *)
Definition save_payment (p : payment) (now : Z) : M store unit :=
  modify (λ s, with_payments ((λ q, if String.eqb (py_id q) (py_id p) then p else q) <$> x_payments s) s) ≫= λ _,
  gift_for p now.

(** [payment.save(update_fields=['user', 'metadata'])]. *)
Definition owned_as (p q : payment) : payment :=
  Payment (py_id q) (py_plan q) (py_user p) (py_reference q) (py_amount q) (py_status q) (py_method q) (py_duration_type q)
    (py_start q) (py_end q) (py_phone p) (py_is_new_user p) (py_created_at q).
Definition save_owner (p : payment) (now : Z) : M store unit :=
  modify (λ s, with_payments ((λ q, if String.eqb (py_id q) (py_id p) then owned_as p q else q) <$> x_payments s) s) ≫= λ _,
  gift_for p now.

(** [onevas_transaction_id] is unique where it is not null. *)
Definition create_payment (p : payment) (now : Z) : M store unit :=
  s ← get;
  assert_or (negb (existsb (λ q, String.eqb (py_id q) (py_id p)) (x_payments s)))
    (Accounts.duplicate_key "subscription_payments_pkey") ≫= λ _,
  assert_or (negb (existsb (λ q, bool_decide (is_Some (py_reference q)) && bool_decide (py_reference q = py_reference p)) (x_payments s)))
    (Accounts.duplicate_key "subscription_payments_onevas_transaction_id_key") ≫= λ _,
  put (with_payments (x_payments s ++ [p]) s) ≫= λ _,
  gift_for p now.

Definition set_state (state : string) (p : payment) : payment :=
  Payment (py_id p) (py_plan p) (py_user p) (py_reference p) (py_amount p) state (py_method p) (py_duration_type p)
    (py_start p) (py_end p) (py_phone p) (py_is_new_user p) (py_created_at p).
Definition set_owner (user : Z) (is_new : bool) (p : payment) : payment :=
  Payment (py_id p) (py_plan p) (Some user) (py_reference p) (py_amount p) (py_status p) (py_method p) (py_duration_type p)
    (py_start p) (py_end p) (py_phone p) (Some is_new) (py_created_at p).
Definition set_plan (plan : Z) (state : string) (p : payment) : payment :=
  Payment (py_id p) plan (py_user p) (py_reference p) (py_amount p) state (py_method p) (py_duration_type p)
    (py_start p) (py_end p) (py_phone p) (py_is_new_user p) (py_created_at p).

(** ** Who has a plan already *)

Definition active_subscription_for (user : option Z) (phone_number : string) (now : Z) (a : Accounts.store) : option plan :=
  let first f := head (SignIn.latest_first (List.filter (λ p, is_active now p && f p) (SignIn.newest_first a))) in
  match user with
  | Some u => first (λ p, bool_decide (sp_user p = Some u))
  | None =>
      if String.eqb phone_number "" then None
      else
        let phones := Phone.lookup_variants (Some phone_number) in
        match List.find (λ up : Z * option string, SignIn.among phones up.2) (Accounts.profiles a) with
        | Some (u, _) => first (λ p, bool_decide (sp_user p = Some u))
        | None => first (λ p, SignIn.among phones (SignIn.telebirr_phone p a) || SignIn.among phones (SignIn.airtime_phone p a))
        end
  end.

Definition PENDING_PAYMENT_WINDOW_SECONDS : Z := 10 * 60.

Definition pending_subscription_payment (user : option Z) (phone_number : string) (now : Z) (s : store) : option payment :=
  let since := now - PENDING_PAYMENT_WINDOW_SECONDS * second in
  let newest f := head (StableSort.sort_by (λ p q, py_created_at q <=? py_created_at p)
    (List.filter (λ p, String.eqb (py_status p) "pending" && (since <=? py_created_at p) && f p) (x_payments s))) in
  match (match user with Some u => newest (λ p, bool_decide (py_user p = Some u)) | None => None end) with
  | Some p => Some p
  | None => if String.eqb phone_number "" then None else newest (λ p, bool_decide (py_phone p = Some phone_number))
  end.

(** ** The request *)

Record request := Request {
  rq_user : option Z; rq_tier_id : string; rq_phone_number : string; rq_username : string; rq_pin : string;
  rq_session : PaymentOtp.session_ref
}.

(** What the request holds when the push is sent. *)
Record pushing := Pushing { pu_tier : tier; pu_price : Z; pu_phone : string; pu_user : option Z }.

(** What is drawn. *)
Record draw := Draw {
  dw_account : Accounts.draw; dw_salt : string; dw_plan : Z; dw_payment : string; dw_code : string; dw_clock : string
}.

Definition username_char (c : ascii) : bool :=
  SmsSubscription.is_alpha c || bool_decide (is_Some (SyncOrder.digit_of c)) || Ascii.eqb c "_".
Definition well_named (username : string) : bool :=
  let l := String.list_ascii_of_string username in
  (3 <=? length l)%nat && (length l <=? 30)%nat && forallb username_char l.

Definition offered (tier_id : string) (s : store) : M store (option (tier * Z)) :=
  match to_uuid tier_id with
  | None => raise (ValidationError "is not a valid UUID.")
  | Some id =>
      mret (match List.find (λ o, (of_tier o =? id) && of_is_active o) (x_offers s) with
            | Some o => (λ t, (t, of_price_etb o)) <$> tiers s !! id
            | None => None
            end)
  end.

Definition set_username (user : Z) (username : string) : M Accounts.store unit :=
  a ← get;
  match Accounts.a_users a !! user with
  | None => raise (DoesNotExist "User")
  | Some row =>
      assert_or (negb (existsb (λ ua, String.eqb (Accounts.ac_username ua.2) username && negb (ua.1 =? user))
                   (map_to_list (Accounts.a_users a)))) Accounts.duplicate_username ≫= λ _,
      put (Accounts.with_users (<[user := Accounts.Account username (Accounts.ac_email row)]> (Accounts.a_users a)) a)
  end.

Definition _apply_subscriber_account (phone_number username pin : string) (d : draw) (now : Z) : M Accounts.store unit :=
  a ← get;
  match Accounts.owner_of phone_number a with
  | Some u => set_username u username ≫= λ _, Accounts.set_password make_password u pin (dw_salt d)
  | None =>
      u ← Accounts.create_user make_password username (Some pin) "" (dw_account d) now;
      Accounts.set_phone u phone_number
  end.

(** The refusals of the details given for the account. *)
Definition account_refusal (phone_number username pin : string) (a : Accounts.store) : option response :=
  if negb (well_named username) then Some (Resp 400 "Username must be 3-30 letters, numbers or underscores.")
  else let '(too_weak, reason) := Accounts.is_pin_too_weak pin in
  if too_weak then Some (Resp 400 reason)
  else if Accounts.is_taken username (Accounts.owner_of phone_number a) a then Some (Resp 409 "USERNAME_TAKEN")
  else None.

(** The number of the request, or that of the account signed in. *)
Definition phone_of_request (r : request) (a : Accounts.store) : response + string :=
  match (if String.eqb (rq_phone_number r) ""
         then match rq_user r with Some u => inr (default "" (Accounts.phone_of u a)) | None => inl (bad "Phone number is required") end
         else inr (rq_phone_number r)) with
  | inl e => inl e
  | inr phone =>
      if String.eqb phone "" then inl (bad "Phone number not found")
      else inr (default phone (Phone.normalize_ethiopian_phone (Some phone)))
  end.

(** Up to the push. *)
Definition initiate_open (r : request) (d : draw) (now : Z) : M store (response + pushing) :=
  if String.eqb (rq_tier_id r) "" then mret (inl (bad "tier_id is required"))
  else
    s ← get;
    found ← offered (rq_tier_id r) s;
    match found with
    | None => mret (inl (Resp 404 "Tier not found or inactive"))
    | Some (t, price) =>
    match phone_of_request r (x_accounts s) with
    | inl refusal => mret (inl refusal)
    | inr phone =>
        let username := strip (rq_username r) in
        let pin := strip (rq_pin r) in
        let wants_account_setup := negb (String.eqb username "") || negb (String.eqb pin "") in
        match (if wants_account_setup then account_refusal phone username pin (x_accounts s) else None) with
        | Some refusal => mret (inl refusal)
        | None =>
            if bool_decide (is_Some (active_subscription_for (rq_user r) phone now (x_accounts s)))
            then mret (inl (Resp 409 "ALREADY_SUBSCRIBED"))
            else if bool_decide (is_Some (pending_subscription_payment (rq_user r) phone now s))
            then mret (inl (Resp 409 "PAYMENT_PENDING"))
            else
              refused ← catch (in_otp (PaymentOtp.consume_verified_session sha256 (rq_session r)
                                 (PaymentOtp.Payment PaymentOtp.PURPOSE_SUBSCRIPTION (rq_user r) phone (rq_tier_id r)) now) ≫= λ _,
                               mret None)
                          (λ e, match e with
                                | OtpRefused "OtpVerificationFailed" _ code _ => Some (mret (Some code))
                                | _ => None
                                end);
              match refused with
              | Some code => mret (inl (Resp 403 code))
              | None =>
                  when wants_account_setup (in_accounts (_apply_subscriber_account phone username pin d now)) ≫= λ _,
                  mret (inr (Pushing t price phone (rq_user r)))
              end
        end
    end end.

Definition set_telebirr_phone (plan : Z) (phone : option string) : M store unit :=
  in_accounts (modify (λ a, Accounts.with_telebirr
    (match phone with Some n => <[plan := n]> (Accounts.a_telebirr a) | None => delete plan (Accounts.a_telebirr a) end) a)).

(** A new plan of this channel. *)
Definition create_plan (p : plan) (phone : option string) (now : Z) : M store unit :=
  s ← get;
  assert_or (bool_decide (s_plans (Accounts.plans (x_accounts s)) !! sp_id p = None))
    (Accounts.duplicate_key "subscription_plans_pkey") ≫= λ _,
  in_accounts (SignIn.save_plan p (SmsSubscription.Line None "app" "telebirr" None None now)) ≫= λ _,
  set_telebirr_phone (sp_id p) phone.

(** After the push: [reference] is its conversation. *)
Definition initiate_close (pu : pushing) (reference : option string) (d : draw) (now : Z) : M store response :=
  s ← get;
  let t := pu_tier pu in
  let user := match pu_user pu with Some u => Some u | None => Accounts.owner_of (pu_phone pu) (x_accounts s) end in
  let end_date := now + or_int (default 0 (tr_duration_days t)) 30 * day in
  create_plan (Plan (dw_plan d) user (Some (tr_id t)) pending (tr_duration_type t) (Some now) (Some end_date) None false 0
                 None "" None None None None None) (Some (pu_phone pu)) now ≫= λ _,
  create_payment (Payment (dw_payment d) (dw_plan d) user reference (pu_price pu) "pending" "telebirr" (tr_duration_type t)
                    (Some now) end_date (Some (pu_phone pu)) None now) now ≫= λ _,
  mret (Resp 200 (default "None" reference)).

Definition telebirr_ussd_subscription_initiate (push : string → string → string + option string) (r : request) (d : draw) (now : Z)
    : M store response :=
  opened ← initiate_open r d now;
  match opened with
  | inl refusal => mret refusal
  | inr pu =>
      match push (money_str (pu_price pu)) (pu_phone pu) with
      | inl error => mret (Resp 500 error)
      | inr reference => initiate_close pu reference d now
      end
  end.

(** ** Activation *)

Definition last_chars (n : nat) (s : string) : string := String.substring (String.length s - n) n s.

(** The account of a number: its profile's, or a new one without a password. *)
Definition account_for (phone : string) (d : draw) (now : Z) : M store (Z * bool) :=
  s ← get;
  match Accounts.owner_of phone (x_accounts s) with
  | Some u => mret (u, false)
  | None =>
      u ← in_accounts (Accounts.create_user make_password ("user_" +:+ last_chars 8 phone) None "" (dw_account d) now);
      in_accounts (Accounts.set_phone u phone) ≫= λ _, mret (u, true)
  end.

Definition normalized (phone : string) : string := default phone (Phone.normalize_ethiopian_phone (Some phone)).

(** [payment.user or _resolve_payment_user(payment)]. *)
Definition resolve_payment_user (p : payment) (d : draw) (now : Z) : M store payment :=
  match py_user p with
  | Some _ => mret p
  | None =>
      match py_phone p with
      | None => mret p
      | Some raw =>
          if String.eqb raw "" then mret p
          else
            '(u, is_new) ← account_for (normalized raw) d now;
            let p := set_owner u is_new p in
            save_owner p now ≫= λ _, mret p
      end
  end.

Definition paid_plan (user : option Z) (t : tier) (p : plan) : plan :=
  Plan (sp_id p) (match sp_user p with Some u => Some u | None => user end) (Some (tr_id t)) (sp_status p) (tr_duration_type t)
    (sp_start p) (sp_end p) (sp_next_renewal p) (sp_auto_renew p) (sp_free_trial_days p) (sp_cancelled_at p)
    (sp_cancellation_reason p) (sp_grace_started p) (sp_grace_expires p) (sp_bonus_granted_at p) (sp_token p) (sp_token_expires p).

Definition restarted (t : tier) (now : Z) (p : plan) : plan :=
  let days := default 0 (tr_duration_days t) in
  Plan (sp_id p) (sp_user p) (Some (tr_id t)) (sp_status p) (tr_duration_type t) (Some now)
    (if days =? 0 then sp_end p else Some (now + days * day)) (sp_next_renewal p) (sp_auto_renew p) (sp_free_trial_days p)
    (sp_cancelled_at p) (sp_cancellation_reason p) (sp_grace_started p) (sp_grace_expires p) (sp_bonus_granted_at p)
    (sp_token p) (sp_token_expires p).

Definition by_telebirr (l : SmsSubscription.line) : SmsSubscription.line :=
  SmsSubscription.Line (SmsSubscription.ln_phone l) (SmsSubscription.ln_source l) "telebirr" (SmsSubscription.ln_setup_otp l)
    (SmsSubscription.ln_setup_otp_expires_at l) (SmsSubscription.ln_created_at l).

Definition activate_plan (p : plan) (now : Z) : M store plan := in_accounts (Accounts.in_plans (activate p now)).

(** [payment.subscription]: the plan's row as it was read, with the columns
    [Subscriptions] does not have. *)
Record copy := Copy { cp_plan : plan; cp_line : SmsSubscription.line; cp_telebirr : option string }.
Definition copy_of (p : payment) (s : store) : option copy :=
  (λ q, Copy q (SignIn.line_of q (x_accounts s)) (SignIn.telebirr_phone q (x_accounts s)))
    <$> s_plans (Accounts.plans (x_accounts s)) !! py_plan p.

(** The plan the request made, still pending in the copy held. *)
Definition activate_pending (pay : payment) (c : copy) (t : tier) (now : Z) : M store plan :=
  let p := paid_plan (py_user pay) t (cp_plan c) in
  in_accounts (SignIn.save_plan p (by_telebirr (cp_line c))) ≫= λ _,
  set_telebirr_phone (sp_id p) (if String.eqb (default "" (cp_telebirr c)) "" then py_phone pay else cp_telebirr c) ≫= λ _,
  activate_plan p now.

(** Otherwise the owner's active plan, or a new one. *)
Definition activate_other (pay : payment) (t : tier) (d : draw) (now : Z) : M store plan :=
  s ← get;
  match List.find (λ p, bool_decide (sp_user p = py_user pay) && bool_decide (sp_status p = active)) (SignIn.newest_first (x_accounts s)) with
  | Some p =>
      let p := restarted t now p in
      in_accounts (SignIn.save_plan p (by_telebirr (SignIn.line_of p (x_accounts s)))) ≫= λ _,
      activate_plan p now
  | None =>
      let days := default 0 (tr_duration_days t) in
      let p := Plan (dw_plan d) (py_user pay) (Some (tr_id t)) active (tr_duration_type t) (Some now)
                 (if days =? 0 then None else Some (now + days * day)) None false 0 None "" None None None None None in
      create_plan p None now ≫= λ _,
      activate_plan p now
  end.

(** [notify_activated]: never raises. *)
Definition build_activation_message (p : plan) (x : Subscriptions.store) : string :=
  let name := match tier_of p x with Some t => tr_name t | None => "" end in
  (if String.eqb name "" then "Your Flipstar subscription has been activated successfully."
   else "Dear valued customer, your Flipstar " +:+ name +:+ " subscription has been activated successfully.")
  +:+ match sp_end p with Some e => " It is valid until " +:+ isoformat (utc_date e) +:+ "." | None => "" end.

Definition _recipient (p : plan) (a : Accounts.store) : string :=
  or_str (default "" (SignIn.telebirr_phone p a))
    (match sp_user p with Some u => default "" (Accounts.phone_of u a) | None => "" end).

Definition notify_activated (p : plan) (pay : payment) (now : Z) : M store unit :=
  s ← get;
  let number := _recipient p (x_accounts s) in
  if String.eqb number "" then mret tt
  else catch (in_accounts (Accounts.in_sms (SmsSubscription.in_sms (SmsQueue.queue_sms number
                (build_activation_message p (Accounts.plans (x_accounts s))) "telebirr_subscription_activated"
                ("telebirr-sub-active:ussd:" +:+ py_id pay) "" "" now))) ≫= λ _, mret tt)
             (λ _, Some (mret tt)).

(** [tier] is [None] when the tier of the plan was deleted; [held] is the copy
    of the plan. *)
Definition _activate_ussd_subscription_payment (p : payment) (held : option copy) (tier : option Subscriptions.tier) (d : draw) (now : Z)
    : M store (payment * plan) :=
  p ← resolve_payment_user p d now;
  match tier with
  | None => raise (AttributeError "'NoneType' object has no attribute 'duration_type'")
  | Some t =>
      subscription ← (match held with
                      | Some c => if bool_decide (sp_status (cp_plan c) = pending) then activate_pending p c t now else activate_other p t d now
                      | None => activate_other p t d now
                      end);
      let p := set_plan (sp_id subscription) "completed" p in
      save_payment p now ≫= λ _,
      in_accounts (Accounts.in_sms (SmsSubscription.add_history (SmsSubscription.History (sp_id subscription) (py_user p)
        (Some (tr_id t)) "created" ("USSD Push payment: " +:+ tr_name t +:+ " subscription") ""))) ≫= λ _,
      notify_activated subscription p now ≫= λ _,
      mret (p, subscription)
  end.

(** ** The subscription webhook *)

(** A body that is not XML, or lacks one of the elements, raises. *)
Inductive callback := Unreadable | Callback (originator_conversation_id result_type result_code : option string).

Definition waiting (reference : string) (p : payment) : bool :=
  bool_decide (py_reference p = Some reference) && String.eqb (py_method p) "telebirr" && String.eqb (py_status p) "pending".

(** The tier of that price. *)
Definition tier_of_amount (amount : Z) (s : store) : option tier :=
  match List.find (λ o, of_is_active o && (of_price_etb o =? amount)) (x_offers s) with
  | Some o => tiers s !! of_tier o
  | None => None
  end.

Definition webhook_user (p : payment) (d : draw) (now : Z) : M store payment :=
  match py_user p with
  | Some u => let p := set_owner u false p in save_payment p now ≫= λ _, mret p
  | None =>
      match py_phone p with
      | None => mret p
      | Some raw =>
          if String.eqb raw "" then mret p
          else
            '(u, is_new) ← account_for (normalized raw) d now;
            let p := set_owner u is_new p in
            save_payment p now ≫= λ _, mret p
      end
  end.

Definition confirm (reference : string) (is_success : bool) (d : draw) (now : Z) : M store (response + payment * plan * tier * Z) :=
  atomic (
    s ← get;
    match List.find (waiting reference) (x_payments s) with
    | None => mret (inl (Resp 200 "no pending payment found"))
    | Some p =>
        if negb is_success then save_payment (set_state "failed" p) now ≫= λ _, mret (inl (Resp 200 "received"))
        else
          p ← webhook_user p d now;
          match py_user p with
          | None => save_payment (set_state "failed" p) now ≫= λ _, mret (inl (Resp 200 "no user found"))
          | Some u =>
              s ← get;
              match tier_of_amount (py_amount p) s with
              | None => save_payment (set_state "failed" p) now ≫= λ _, mret (inl (Resp 200 "tier not found"))
              | Some t =>
                  '(p, q) ← _activate_ussd_subscription_payment p (copy_of p s) (Some t) d now;
                  mret (inr (p, q, t, u))
              end
          end
    end).

(** [base_url] and [provider] as in [SmsSubscription]. *)
Definition _send_ussd_access_sms (short_code : tier → string) (base_url provider : string) (p : payment) (q : plan) (t : tier)
    (phone : string) (d : draw) (now : Z) : M store unit :=
  in_accounts (
    a ← get;
    modify (λ a, Accounts.with_sms (SmsSubscription.with_lines
      (<[sp_id q := SmsSubscription.set_otp (Some (dw_code d)) (Some (now + 30 * minute)) (SignIn.line_of q a)]>
         (SmsSubscription.m_lines (Accounts.a_sms a))) (Accounts.a_sms a)) a) ≫= λ _,
    Accounts.in_sms (SmsSubscription.send_subscription_sms phone
      (SmsSubscription.build_renewal_message t (py_amount p) (short_code t) q phone base_url (Some (dw_code d)) (Accounts.a_sms a))
      "subscription_ussd_access" ("ussd-access:" +:+ py_id p) provider (dw_clock d) now) ≫= λ _,
    mret tt).

Definition telebirr_ussd_subscription_webhook (short_code : tier → string) (base_url provider : string) (cb : callback) (d : draw) (now : Z)
    : M store response :=
  catch (
    match cb with
    | Unreadable => raise (ValueError "not a result envelope")
    | Callback None _ _ => mret (Resp 200 "no originator_conversation_id")
    | Callback (Some reference) result_type result_code =>
        if String.eqb reference "" then mret (Resp 200 "no originator_conversation_id")
        else
          activated ← confirm reference (bool_decide (result_code = Some "0") && bool_decide (result_type = Some "0")) d now;
          match activated with
          | inl answer => mret answer
          | inr (p, q, t, u) =>
              s ← get;
              let phone := default "" (Accounts.phone_of u (x_accounts s)) in
              when (negb (String.eqb phone ""))
                (catch (_send_ussd_access_sms short_code base_url provider p q t phone d now) (λ _, Some (mret tt))) ≫= λ _,
              mret (Resp 200 "subscription activated")
          end
    end)
  (λ _, Some (mret (Resp 200 "error processed"))).

(** ** The other webhook

    The end of [telebirr_ussd_webhook], for a conversation that is no coin
    purchase: no transaction, and no lock between the read,
    which takes the plan and its tier with it, and the writes. *)

Definition coin_webhook_read (reference : string) (s : store) : option (payment * option copy * option tier) :=
  match List.find (waiting reference) (x_payments s) with
  | Some p => Some (p, copy_of p s, match copy_of p s with
                                    | Some c => tier_of (cp_plan c) (Accounts.plans (x_accounts s))
                                    | None => None
                                    end)
  | None => None
  end.

Definition coin_webhook_write (found : option (payment * option copy * option tier)) (d : draw) (now : Z) : M store response :=
  match found with
  | Some (p, held, t) => _activate_ussd_subscription_payment p held t d now ≫= λ _, mret (Resp 200 "subscription activated")
  | None => mret (Resp 200 "transaction not found or already processed")
  end.

Definition telebirr_ussd_webhook_subscription (reference : string) (d : draw) (now : Z) : M store response :=
  s ← get; coin_webhook_write (coin_webhook_read reference s) d now.

(** ** What the steps keep *)

Definition lines (a : Accounts.store) : list SmsSubscription.history := SmsSubscription.m_history (Accounts.a_sms a).

(** Accounts, plans, coins and messages: sound again, and no line of history. *)
Definition gentle {A} (m : M Accounts.store A) : Prop :=
  ∀ a, Accounts.accounts_ok a → Accounts.accounts_ok (m a).2 ∧ lines (m a).2 = lines a.

Lemma gentle_bind {A B} (m : M Accounts.store A) (k : A → M Accounts.store B) : gentle m → (∀ x, gentle (k x)) → gentle (m ≫= k).
Proof.
  intros Hm Hk a Ha. rewrite bind_run. destruct (Hm a Ha) as [H1 H2]. destruct (m a) as [[e|x] b]; cbn in H1, H2; [done|].
  destruct (Hk x b H1) as [K1 K2]. split; [done|congruence].
Qed.
Lemma gentle_ret {A} (x : A) : gentle (mret x).
Proof. done. Qed.
Lemma gentle_get : gentle get.
Proof. done. Qed.
Lemma gentle_raise {A} e : gentle (raise e : M Accounts.store A).
Proof. done. Qed.
Lemma gentle_assert b e : gentle (assert_or b e).
Proof. by destruct b. Qed.

Lemma gentle_frame a a' :
  Accounts.accounts_ok a → Accounts.a_users a' = Accounts.a_users a → Accounts.profiles a' = Accounts.profiles a →
  Accounts.passwords a' = Accounts.passwords a → SmsSubscription.store_ok (Accounts.a_sms a') → Accounts.accounts_ok a'.
Proof. intros Ha Hu Hp Hpw Hs. apply (Accounts.accounts_frame a); try done. intros u. by rewrite Hpw. Qed.

Lemma gentle_create username password email d now : gentle (Accounts.create_user make_password username password email d now).
Proof.
  intros a Ha. pose proof (Accounts.create_user_run make_password username password email d now a (Accounts.ok_sms _ Ha)) as H.
  cbv zeta in H. destruct (String.eqb username ""); [by rewrite H|].
  destruct (Accounts.name_used username a) eqn:Hn; [by rewrite H|].
  destruct (Accounts.a_users a !! Accounts.dr_user d) eqn:Hd; [by rewrite H|].
  destruct H as (a' & -> & Ho). split.
  - exact (Accounts.opened_ok _ (Accounts.Account username _) _ _ _ _ _ Ha Hd Hn Ho).
  - by destruct (Accounts.op_rows _ _ _ _ _ _ _ Ho) as (_ & _ & Hh & _).
Qed.

Lemma gentle_phone u n : gentle (Accounts.set_phone u n).
Proof.
  intros a Ha. rewrite Accounts.set_phone_run. destruct (Accounts.phone_used u n a) eqn:E; [done|].
  split; [by apply Accounts.phone_set_ok|done].
Qed.

Lemma gentle_password u p salt : ∀ a, Accounts.accounts_ok a → is_Some (Accounts.a_users a !! u) →
  Accounts.accounts_ok (Accounts.set_password make_password u p salt a).2 ∧ lines (Accounts.set_password make_password u p salt a).2 = lines a.
Proof. intros a Ha Hu. rewrite Accounts.set_password_run. split; [by apply Accounts.set_password_ok|done]. Qed.

Lemma set_username_run u name a :
  Accounts.accounts_ok a →
  Accounts.accounts_ok (set_username u name a).2 ∧ lines (set_username u name a).2 = lines a
  ∧ ((set_username u name a).1 = inr tt → is_Some (Accounts.a_users (set_username u name a).2 !! u)).
Proof.
  intros Ha. unfold set_username. rewrite bind_run. cbn [get]. destruct (Accounts.a_users a !! u) as [row|] eqn:Hu; [|done].
  destruct (existsb _ _) eqn:E; cbn [negb assert_or]; [done|]. rewrite bind_run. cbn [mret M_ret put fst snd].
  assert (∀ v x, v ≠ u → Accounts.a_users a !! v = Some x → Accounts.ac_username x ≠ name) as Hfree.
  { intros v x Hv Hx Heq. apply not_true_iff_false in E. destruct E. apply existsb_exists. exists (v, x). split.
    - by apply list_elem_of_In, elem_of_map_to_list.
    - cbn. apply String.eqb_eq in Heq as ->. by apply Z.eqb_neq in Hv as ->. }
  split; [|split; [done|intros _; cbn; rewrite lookup_insert_eq; eauto]].
  destruct Ha as [Hs Hn [Hnd Hp] Hph Hpw]. split; [exact Hs| |split; [exact Hnd|]|exact Hph|].
  - cbn. intros v w x y. destruct (decide (v = u)) as [->|Hv], (decide (w = u)) as [->|Hw];
      rewrite ?lookup_insert_eq, ?lookup_insert_ne by done; [done|..].
    + intros [= <-] Hy Heq. by destruct (Hfree w y Hw Hy).
    + intros Hx [= <-] Heq. by destruct (Hfree v x Hv Hx).
    + apply Hn.
  - cbn. intros v. change (Accounts.profiles _) with (Accounts.profiles a). rewrite Hp. destruct (decide (v = u)) as [->|Hv].
    + rewrite lookup_insert_eq, Hu. split; eauto. + by rewrite lookup_insert_ne.
  - cbn. intros v. change (Accounts.passwords _) with (Accounts.passwords a). rewrite Hpw. destruct (decide (v = u)) as [->|Hv].
    + rewrite lookup_insert_eq, Hu. split; eauto. + by rewrite lookup_insert_ne.
Qed.

Lemma gentle_account phone username pin d now : gentle (_apply_subscriber_account phone username pin d now).
Proof.
  unfold _apply_subscriber_account. apply gentle_bind; [apply gentle_get|]. intros a0. destruct (Accounts.owner_of phone a0) as [u|].
  - intros a Ha. rewrite bind_run. destruct (set_username_run u username a Ha) as (H1 & H2 & H3).
    destruct (set_username u username a) as [[e|[]] b]; cbn in H1, H2, H3; [done|].
    destruct (gentle_password u pin (dw_salt d) b H1 (H3 eq_refl)) as [K1 K2]. split; [done|congruence].
  - apply gentle_bind; [apply gentle_create|intros u; apply gentle_phone].
Qed.

Lemma gentle_save_plan p l : gentle (SignIn.save_plan p l).
Proof.
  intros a Ha. split; [|done]. eapply gentle_frame; [exact Ha|done..|]. destruct (Accounts.ok_sms _ Ha) as [Ht Hw Hid].
  split; [exact Ht|exact Hw|]. intros id q.
  change (s_plans (SmsSubscription.m_subs (Accounts.a_sms (SignIn.save_plan p l a).2)))
    with (<[sp_id p := p]> (s_plans (SmsSubscription.m_subs (Accounts.a_sms a)))).
  destruct (decide (id = sp_id p)) as [->|Hne].
  - rewrite lookup_insert_eq. by intros [= <-]. - rewrite lookup_insert_ne by done. apply Hid.
Qed.

Lemma in_plans_ok {A} (m : M Subscriptions.store A) :
  (∀ x, Subscriptions.store_ok x → Subscriptions.store_ok (m x).2) → gentle (Accounts.in_plans m).
Proof.
  intros Hm a Ha. unfold Accounts.in_plans. rewrite zoom_run. split; [|done]. eapply gentle_frame; [exact Ha|done..|].
  apply Hm, (Accounts.ok_sms _ Ha).
Qed.

Lemma gentle_activate p now : gentle (Accounts.in_plans (activate p now)).
Proof.
  apply in_plans_ok. intros x Hx. by destruct (activate_run p now x Hx) as (w & ns & -> & Hok & _).
Qed.

Lemma gentle_gift p now : gentle (Accounts.in_plans (SubscriptionGift.grant_subscription_gift p now)).
Proof.
  apply in_plans_ok. intros x [Ht Hw Hid]. by destruct (SubscriptionGift.signal_run p now x Hw) as (w & -> & Hw').
Qed.

Lemma gentle_sms {A} (m : M SmsQueue.table A) : gentle (Accounts.in_sms (SmsSubscription.in_sms m)).
Proof.
  intros a Ha. unfold Accounts.in_sms, SmsSubscription.in_sms. rewrite !zoom_run. split; [|done].
  eapply gentle_frame; [exact Ha|done..|]. exact (Accounts.ok_sms _ Ha).
Qed.

Definition completed (s : store) : nat := length (List.filter (λ p, String.eqb (py_status p) "completed") (x_payments s)).
Definition activations (s : store) : nat := length (lines (x_accounts s)).

(** [n] payments completed, [m] lines of history written. *)
Record moved (n m : nat) (s s' : store) : Prop := Moved {
  mv_ok : Accounts.accounts_ok (x_accounts s');
  mv_ids : py_id <$> x_payments s' = py_id <$> x_payments s;
  mv_settled : ∀ p, p ∈ x_payments s → py_status p ≠ "pending" → p ∈ x_payments s';
  mv_terms : ∀ p', p' ∈ x_payments s' → ∃ p, p ∈ x_payments s ∧ py_id p = py_id p' ∧ py_reference p = py_reference p'
    ∧ py_amount p = py_amount p' ∧ (py_status p ≠ "pending" → p = p');
  mv_completed : completed s' = (completed s + n)%nat;
  mv_history : activations s' = (activations s + m)%nat;
  mv_sessions : x_sessions s' = x_sessions s
}.

Lemma moved_refl s : Accounts.accounts_ok (x_accounts s) → moved 0 0 s s.
Proof. intros Hs. split; try done; try lia. intros p Hp. by exists p. Qed.

Lemma moved_trans n m n' m' s1 s2 s3 : moved n m s1 s2 → moved n' m' s2 s3 → moved (n + n') (m + m') s1 s3.
Proof.
  intros [_ I1 S1 T1 C1 H1 N1] [O2 I2 S2 T2 C2 H2 N2]. split; [done|congruence|auto| |lia|lia|congruence].
  intros p3 Hp3. destruct (T2 p3 Hp3) as (p2 & Hp2 & ? & ? & ? & E2). destruct (T1 p2 Hp2) as (p1 & Hp1 & ? & ? & ? & E1).
  exists p1. split_and!; [done|congruence..|]. intros Hs. pose proof (E1 Hs) as ->. by apply E2.
Qed.

Lemma gentle_moved {A} (m : M Accounts.store A) s :
  gentle m → Accounts.accounts_ok (x_accounts s) → moved 0 0 s (in_accounts m s).2 ∧ x_payments (in_accounts m s).2 = x_payments s.
Proof.
  intros Hm Hs. unfold in_accounts. rewrite zoom_run. cbn [fst snd]. split; [|done]. destruct (Hm _ Hs) as [H1 H2].
  split; [exact H1|done|done| |unfold completed; cbn; lia| |done].
  - intros p Hp. by exists p.
  - unfold activations. cbn. rewrite H2. by rewrite Nat.add_0_r.
Qed.

(** *** Saving one payment *)

Definition replace (p : payment) (l : list payment) : list payment :=
  (λ q, if String.eqb (py_id q) (py_id p) then p else q) <$> l.

Lemma replace_ids p l : py_id <$> replace p l = py_id <$> l.
Proof.
  unfold replace. rewrite <- list_fmap_compose. apply list_fmap_ext. intros i q _. cbn.
  by destruct (String.eqb_spec (py_id q) (py_id p)).
Qed.

Lemma elem_replace p l x : x ∈ replace p l ↔ (x = p ∧ py_id p ∈ py_id <$> l) ∨ (py_id x ≠ py_id p ∧ x ∈ l).
Proof.
  unfold replace. rewrite list_elem_of_fmap. split.
  - intros (q & -> & Hq). destruct (String.eqb_spec (py_id q) (py_id p)) as [E|E]; [left|by right].
    split; [done|]. rewrite <- E. by apply list_elem_of_fmap_2.
  - intros [[-> (q & E & Hq)%list_elem_of_fmap]|[Hne Hx]].
    + exists q. by rewrite E, String.eqb_refl. + exists x. by apply String.eqb_neq in Hne as ->.
Qed.

Lemma same_payment l p q : NoDup (py_id <$> l) → p ∈ l → q ∈ l → py_id p = py_id q → p = q.
Proof.
  induction l as [|x l IH]; [by intros _ ?%elem_of_nil|]. cbn. intros [Hx Hnd]%NoDup_cons. rewrite !elem_of_cons.
  intros [->|Hp] [->|Hq] E; [done| | |by apply IH].
  - destruct Hx. rewrite E. by apply list_elem_of_fmap_2. - destruct Hx. rewrite <- E. by apply list_elem_of_fmap_2.
Qed.

Lemma replace_completed p q l :
  NoDup (py_id <$> l) → q ∈ l → py_id q = py_id p → py_status q = "pending" →
  length (List.filter (λ p, String.eqb (py_status p) "completed") (replace p l))
  = (length (List.filter (λ p, String.eqb (py_status p) "completed") l) + if String.eqb (py_status p) "completed" then 1 else 0)%nat.
Proof.
  induction l as [|x l IH]; [by intros _ ?%elem_of_nil|]. cbn [fmap list_fmap]. intros [Hx Hnd]%NoDup_cons Hq E Hs.
  apply elem_of_cons in Hq as [->|Hq].
  - assert (replace p l = l) as Hl.
    { unfold replace. rewrite <- (list_fmap_id l) at 2. apply list_fmap_ext. intros i y Hy. destruct (String.eqb_spec (py_id y) (py_id p)) as [Ey|]; [|done].
      destruct Hx. rewrite E, <- Ey. apply list_elem_of_fmap_2. by eapply list_elem_of_lookup_2. }
    unfold replace in *. cbn. rewrite Hl, E, String.eqb_refl, Hs. cbn. destruct (String.eqb (py_status p) "completed"); cbn; lia.
  - unfold replace in *. cbn. destruct (String.eqb_spec (py_id x) (py_id p)) as [Ex|].
    { destruct Hx. rewrite Ex, <- E. by apply list_elem_of_fmap_2. }
    destruct (String.eqb (py_status x) "completed"); cbn; rewrite IH by done; lia.
Qed.

(** The payment in hand: the row it was read from is still waiting. *)
Record held (p : payment) (s0 s : store) : Prop := Held {
  hd_moved : moved 0 0 s0 s;
  hd_ids : NoDup (py_id <$> x_payments s);
  hd_row : p ∈ x_payments s;
  hd_pending : py_status p = "pending"
}.

Lemma held_gentle {A} (m : M Accounts.store A) p s0 s : gentle m → held p s0 s → held p s0 (in_accounts m s).2.
Proof.
  intros Hm [Hmv Hnd Hp Hs]. destruct (gentle_moved m s Hm (mv_ok _ _ _ _ Hmv)) as [H1 H2].
  split; rewrite ?H2; try done. by apply (moved_trans 0 0 0 0 _ s).
Qed.

Lemma save_moved p' p s0 s now :
  held p s0 s → py_id p' = py_id p → py_reference p' = py_reference p → py_amount p' = py_amount p →
  moved (if String.eqb (py_status p') "completed" then 1 else 0) 0 s0 (save_payment p' now s).2
  ∧ (save_payment p' now s).1 = inr tt
  ∧ (py_status p' = "pending" → held p' s0 (save_payment p' now s).2).
Proof.
  intros [Hmv Hnd Hp Hs] Eid Eref Eam. unfold save_payment. rewrite bind_run. unfold modify at 1 2 3.
  fold (replace p' (x_payments s)). set (s1 := with_payments (replace p' (x_payments s)) s).
  assert (moved (if String.eqb (py_status p') "completed" then 1 else 0) 0 s0 s1) as H1.
  { eapply (moved_trans 0 0 _ 0 s0 s); [exact Hmv|]. split; cbn.
    - exact (mv_ok _ _ _ _ Hmv).
    - apply replace_ids.
    - intros r Hr Hsr. apply elem_replace. right. split; [|done]. intros E. destruct Hsr.
      rewrite (same_payment _ r p Hnd Hr Hp); [done|congruence].
    - intros r [[-> _]|[Hne Hr]]%elem_replace.
      + exists p. by rewrite Hs.
      + by exists r.
    - unfold completed. cbn. by apply replace_completed with p.
    - by rewrite Nat.add_0_r.
    - done. }
  unfold gift_for. destruct (gentle_moved (Accounts.in_plans (SubscriptionGift.grant_subscription_gift (gift_of p') now)) s1
    (gentle_gift _ _) (mv_ok _ _ _ _ H1)) as [H2 H3].
  pose proof (moved_trans _ _ _ _ _ _ _ H1 H2) as H12. rewrite Nat.add_0_r in H12. split; [exact H12|]. split.
  - unfold in_accounts, Accounts.in_plans. rewrite !zoom_run. cbn [fst].
    destruct (SubscriptionGift.signal_run (gift_of p') now (Accounts.plans (x_accounts s1))) as (w & -> & _); [|done].
    apply (Accounts.ok_sms _ (mv_ok _ _ _ _ H1)).
  - intros Hpend. rewrite Hpend in H12. split; [exact H12| | |done]; rewrite H3; cbn.
    + by rewrite replace_ids. + apply elem_replace. left. split; [done|]. rewrite Eid. by apply list_elem_of_fmap_2.
Qed.

Lemma held_post {A} (m : M Accounts.store A) p s0 s :
  gentle m → held p s0 s → post (in_accounts m) s (λ _ s', held p s0 s').
Proof. intros Hm Hh. by apply held_gentle. Qed.

(** *** The pieces of an activation *)

(** [p] with another owner. *)
Definition same_terms (p p' : payment) : Prop :=
  py_id p' = py_id p ∧ py_reference p' = py_reference p ∧ py_amount p' = py_amount p.

Definition resolved (p : payment) (s0 : store) (r : exn + payment) (s : store) : Prop :=
  match r with inl _ => moved 0 0 s0 s | inr p' => held p' s0 s ∧ same_terms p p' end.

Lemma account_held phone d now p s0 s : held p s0 s → post (account_for phone d now) s (λ _ s', held p s0 s').
Proof.
  intros Hh. unfold account_for. apply post_bind, post_get. cbv beta iota. destruct (Accounts.owner_of _ _); [exact Hh|].
  apply post_bind. eapply post_conseq; [apply held_post; [apply gentle_create|exact Hh]|]. intros [e|u] s1 H1; [done|].
  apply post_bind. eapply post_conseq; [apply held_post; [apply gentle_phone|exact H1]|]. by intros [e|[]] s2 H2.
Qed.

Lemma owned_resolved p u is_new s0 s now :
  held p s0 s → post (let p := set_owner u is_new p in save_payment p now ≫= λ _, mret p) s (resolved p s0).
Proof.
  intros Hh. cbv zeta. apply post_bind. unfold post at 1.
  destruct (save_moved (set_owner u is_new p) p s0 s now Hh eq_refl eq_refl eq_refl) as (Hmv & -> & Hheld).
  apply post_ret. split; [|done]. apply Hheld. exact (hd_pending _ _ _ Hh).
Qed.

(** The two columns alone are the whole payment, when the row is the one read. *)
Lemma save_owner_same p u is_new s0 s now :
  held p s0 s → save_owner (set_owner u is_new p) now s = save_payment (set_owner u is_new p) now s.
Proof.
  intros [_ Hnd Hp _]. unfold save_owner, save_payment. rewrite !bind_run. unfold modify.
  assert (∀ i q, x_payments s !! i = Some q →
    (if String.eqb (py_id q) (py_id (set_owner u is_new p)) then owned_as (set_owner u is_new p) q else q)
    = (if String.eqb (py_id q) (py_id (set_owner u is_new p)) then set_owner u is_new p else q)) as Hext.
  { intros i q Hq. destruct (String.eqb_spec (py_id q) (py_id (set_owner u is_new p))) as [E|]; [|done].
    rewrite (same_payment _ q p Hnd (list_elem_of_lookup_2 _ _ _ Hq) Hp E). by destruct p. }
  by rewrite (list_fmap_ext _ _ _ Hext).
Qed.

Lemma by_number_resolved save p raw s0 s d now :
  (∀ u is_new s', held p s0 s' → save (set_owner u is_new p) now s' = save_payment (set_owner u is_new p) now s') →
  held p s0 s →
  post (if String.eqb raw "" then mret p
        else '(u, is_new) ← account_for (normalized raw) d now;
             let p := set_owner u is_new p in save p now ≫= λ _, mret p) s (resolved p s0).
Proof.
  intros Hsave Hh. destruct (String.eqb raw ""); [by split|]. apply post_bind. eapply post_conseq; [by apply account_held|].
  intros [e|[u is_new]] s1 H1; [exact (hd_moved _ _ _ H1)|].
  pose proof (owned_resolved p u is_new s0 s1 now H1) as H. cbv zeta. unfold post in *. rewrite !bind_run in *. by rewrite Hsave.
Qed.

Lemma resolve_held p d now s0 s : held p s0 s → post (resolve_payment_user p d now) s (resolved p s0).
Proof.
  intros Hh. unfold resolve_payment_user. destruct (py_user p); [by split|].
  destruct (py_phone p); [|by split].
  apply by_number_resolved; [intros; by eapply save_owner_same|done].
Qed.

Lemma webhook_user_held p d now s0 s : held p s0 s → post (webhook_user p d now) s (resolved p s0).
Proof.
  intros Hh. unfold webhook_user. destruct (py_user p); [by apply owned_resolved|].
  destruct (py_phone p); [by apply (by_number_resolved save_payment)|by split].
Qed.

Lemma gentle_telebirr f : gentle (modify (λ a, Accounts.with_telebirr (f a) a)).
Proof. intros a Ha. split; [|done]. eapply gentle_frame; [exact Ha|done..|]. exact (Accounts.ok_sms _ Ha). Qed.

Lemma telebirr_held q n p s0 s : held p s0 s → post (set_telebirr_phone q n) s (λ _ s', held p s0 s').
Proof. intros Hh. apply held_post; [apply gentle_telebirr|done]. Qed.

Lemma create_plan_held q n now p s0 s : held p s0 s → post (create_plan q n now) s (λ _ s', held p s0 s').
Proof.
  intros Hh. unfold create_plan. apply post_bind, post_get. cbv beta iota. apply post_bind.
  case_bool_decide; [apply post_ret|exact Hh]. apply post_bind.
  eapply post_conseq; [apply held_post; [apply gentle_save_plan|exact Hh]|]. intros [e|[]] s1 H1; [done|by apply telebirr_held].
Qed.

Lemma pending_held pay c t now p s0 s : held p s0 s → post (activate_pending pay c t now) s (λ _ s', held p s0 s').
Proof.
  intros Hh. unfold activate_pending. cbv zeta. apply post_bind.
  eapply post_conseq; [apply held_post; [apply gentle_save_plan|exact Hh]|]. intros [e|[]] s1 H1; [done|]. apply post_bind.
  eapply post_conseq; [apply telebirr_held, H1|]. intros [e|[]] s2 H2; [done|]. apply held_post; [apply gentle_activate|done].
Qed.

Lemma other_held pay t d now p s0 s : held p s0 s → post (activate_other pay t d now) s (λ _ s', held p s0 s').
Proof.
  intros Hh. unfold activate_other. apply post_bind, post_get. cbv beta iota zeta. destruct (List.find _ _) as [q|].
  - apply post_bind. eapply post_conseq; [apply held_post; [apply gentle_save_plan|exact Hh]|]. intros [e|[]] s1 H1; [done|].
    apply held_post; [apply gentle_activate|done].
  - apply post_bind. eapply post_conseq; [by apply create_plan_held|]. intros [e|[]] s1 H1; [done|].
    apply held_post; [apply gentle_activate|done].
Qed.

Lemma history_added h s :
  Accounts.accounts_ok (x_accounts s) →
  ∃ s', in_accounts (Accounts.in_sms (SmsSubscription.add_history h)) s = (inr tt, s') ∧ moved 0 1 s s'.
Proof.
  intros Hok. eexists. split; [reflexivity|]. split; [|done|done| | | |done].
  - eapply gentle_frame; [exact Hok|done..|]. exact (Accounts.ok_sms _ Hok).
  - intros r Hr. by exists r.
  - unfold completed. cbn. lia.
  - unfold activations, lines. cbn. by rewrite length_app.
Qed.

(** One activation: one payment completed, one line of history. *)
Lemma activate_moved p c tier d now s0 s :
  held p s0 s →
  post (_activate_ussd_subscription_payment p c tier d now) s
    (λ r s', match r with inl _ => moved 0 0 s0 s' | inr _ => moved 1 1 s0 s' end).
Proof.
  intros Hh. unfold _activate_ussd_subscription_payment. apply post_bind. eapply post_conseq; [by apply resolve_held|].
  intros [e|p1] s1 H1; [exact H1|]. destruct H1 as [H1 _].
  destruct tier as [t|]; [|exact (hd_moved _ _ _ H1)]. apply post_bind.
  eapply (post_conseq _ _ (λ _ s', held p1 s0 s')).
  { destruct c as [c|]; [case_bool_decide|]; by first [apply pending_held|apply other_held]. }
  intros [e|q] s2 H2; [exact (hd_moved _ _ _ H2)|]. cbv zeta. apply post_bind. unfold post at 1.
  destruct (save_moved (set_plan (sp_id q) "completed" p1) p1 s0 s2 now H2 eq_refl eq_refl eq_refl) as (Hmv & -> & _).
  set (s3 := (save_payment _ now s2).2) in *. apply post_bind. unfold post at 1.
  match goal with |- context [SmsSubscription.add_history ?h] =>
    destruct (history_added h s3 (mv_ok _ _ _ _ Hmv)) as (s4 & -> & H34) end.
  cbn [fst snd]. pose proof (moved_trans _ _ _ _ _ _ _ Hmv H34) as H4. cbn [py_status set_plan Nat.add] in H4.
  unfold notify_activated. apply post_bind. apply post_bind, post_get. cbv beta iota zeta.
  destruct (String.eqb _ ""); [exact H4|]. apply post_catch, post_bind. unfold post at 1.
  destruct (gentle_moved (Accounts.in_sms (SmsSubscription.in_sms (SmsQueue.queue_sms (_recipient q (x_accounts s4))
    (build_activation_message q (Accounts.plans (x_accounts s4))) "telebirr_subscription_activated"
    ("telebirr-sub-active:ussd:" +:+ py_id (set_plan (sp_id q) "completed" p1)) "" "" now))) s4 (gentle_sms _) (mv_ok _ _ _ _ H4)) as [H5 _].
  pose proof (moved_trans _ _ _ _ _ _ _ H4 H5) as H45. destruct (_.1); exact H45.
Qed.

Lemma find_waiting reference s p :
  List.find (waiting reference) (x_payments s) = Some p →
  p ∈ x_payments s ∧ py_status p = "pending" ∧ py_reference p = Some reference.
Proof.
  intros [Hin Hw]%List.find_some. apply list_elem_of_In in Hin. unfold waiting in Hw.
  apply andb_true_iff in Hw as [[Hr%bool_decide_eq_true _]%andb_true_iff Hs%String.eqb_eq]. done.
Qed.

Definition sound (s : store) : Prop := Accounts.accounts_ok (x_accounts s) ∧ NoDup (py_id <$> x_payments s).

Lemma moved_sound n m s s' : moved n m s s' → sound s → sound s'.
Proof. intros H [_ Hnd]. split; [apply H|]. by rewrite (mv_ids _ _ _ _ H). Qed.

Lemma read_held reference s p : sound s → List.find (waiting reference) (x_payments s) = Some p → held p s s.
Proof. intros [Hok Hnd] (Hp & Hs & _)%find_waiting. split; [by apply moved_refl|done..]. Qed.

Lemma failed_moved p s0 s now : held p s0 s → post (save_payment (set_state "failed" p) now) s (λ _ s', moved 0 0 s0 s').
Proof.
  intros Hh. by destruct (save_moved (set_state "failed" p) p s0 s now Hh eq_refl eq_refl eq_refl) as [Hmv _].
Qed.

Lemma confirm_moved reference ok d now s :
  sound s →
  post (confirm reference ok d now) s (λ r s', match r with inr (inr _) => moved 1 1 s s' | _ => moved 0 0 s s' end).
Proof.
  intros Hs. pose proof (moved_refl s (proj1 Hs)) as H0. unfold confirm. apply post_atomic, post_bind, post_get. cbv beta iota.
  destruct (List.find _ _) as [p|] eqn:Hf; [|exact H0]. apply (read_held _ _ _ Hs) in Hf. destruct ok; cbn [negb].
  2: { apply post_bind. eapply post_conseq; [by apply failed_moved|]. by intros [e|[]] s1 H1. }
  apply post_bind. eapply post_conseq; [by apply webhook_user_held|]. intros [e|p1] s1 H1; [exact H0|]. destruct H1 as [H1 _].
  destruct (py_user p1) as [u|].
  2: { apply post_bind. eapply post_conseq; [by apply failed_moved|]. by intros [e|[]] s2 H2. }
  apply post_bind, post_get. cbv beta iota. destruct (tier_of_amount _ _) as [t|].
  2: { apply post_bind. eapply post_conseq; [by apply failed_moved|]. by intros [e|[]] s2 H2. }
  apply post_bind. eapply post_conseq; [by apply activate_moved|]. by intros [e|[p2 q]] s2 H2.
Qed.

Lemma gentle_text phone message purpose key provider clock now :
  gentle (Accounts.in_sms (SmsSubscription.send_subscription_sms phone message purpose key provider clock now)).
Proof.
  intros a Ha. unfold Accounts.in_sms. rewrite zoom_run. unfold SmsSubscription.send_subscription_sms, catch.
  rewrite bind_run. unfold SmsSubscription.in_sms. rewrite zoom_run.
  destruct (SmsQueue.queue_sms _ _ _ _ _ _ _ _).1 as [e|n]; [destruct e|]; cbn; (split; [|done]);
    (eapply gentle_frame; [exact Ha|done..|exact (Accounts.ok_sms _ Ha)]).
Qed.

Lemma access_moved short_code base_url provider p q t phone d now s :
  Accounts.accounts_ok (x_accounts s) → moved 0 0 s (_send_ussd_access_sms short_code base_url provider p q t phone d now s).2.
Proof.
  intros Hs. unfold _send_ussd_access_sms. eapply gentle_moved; [|exact Hs]. apply gentle_bind; [apply gentle_get|]. intros a0.
  apply gentle_bind; [|intros _; apply gentle_bind; [apply gentle_text|done]].
  intros a Ha. split; [|done]. eapply gentle_frame; [exact Ha|done..|]. exact (Accounts.ok_sms _ Ha).
Qed.

(** A delivery of the subscription webhook: at most one payment completed, and
    a line of history with it. *)
Lemma ussd_webhook_moved short_code base_url provider cb d now s :
  sound s →
  ∃ n, moved n n s (telebirr_ussd_subscription_webhook short_code base_url provider cb d now s).2.
Proof.
  intros Hs. pose proof (moved_refl s (proj1 Hs)) as H0.
  assert (∀ m : M store response, post m s (λ _ s', ∃ n, moved n n s s') →
    ∃ n, moved n n s (catch m (λ _, Some (mret (Resp 200 "error processed"))) s).2) as Hcatch.
  { intros m Hm. unfold catch. unfold post in Hm. destruct (m s) as [[e|x] s']; exact Hm. }
  apply Hcatch. destruct cb as [|[reference|] rt rc]; [by exists 0%nat| |by exists 0%nat].
  destruct (String.eqb reference ""); [by exists 0%nat|]. apply post_bind.
  eapply post_conseq; [by apply confirm_moved|]. intros [e|[answer|[[[p q] t] u]]] s1 H1; [by exists 0%nat..|].
  apply (post_conseq _ _ (λ _ s', moved 1 1 s s')); [|by intros; exists 1%nat].
  apply post_bind, post_get. cbv beta iota zeta. apply post_bind.
  eapply (post_conseq _ _ (λ _ s', moved 1 1 s s')).
  - apply post_when; intros _; [|exact H1]. apply post_catch. unfold post.
    pose proof (access_moved short_code base_url provider p q t (default "" (Accounts.phone_of u (x_accounts s1))) d now s1 (mv_ok _ _ _ _ H1)) as H2.
    pose proof (moved_trans _ _ _ _ _ _ _ H1 H2) as H12.
    destruct (_send_ussd_access_sms _ _ _ _ _ _ _ _ _ _) as [[e|[]] s2]; exact H12.
  - by intros [e|[]] s2 H2.
Qed.

Lemma coin_webhook_moved reference d now s :
  sound s → ∃ n, moved n n s (telebirr_ussd_webhook_subscription reference d now s).2.
Proof.
  intros Hs. unfold telebirr_ussd_webhook_subscription. rewrite bind_run. cbn [get]. unfold coin_webhook_read, coin_webhook_write.
  destruct (List.find _ _) as [p|] eqn:Hf; [|exists 0%nat; by apply moved_refl, Hs]. apply (read_held _ _ _ Hs) in Hf.
  match goal with |- context [_activate_ussd_subscription_payment p ?c ?t d now] => pose proof (activate_moved p c t d now s s Hf) as H end.
  unfold post in H. rewrite bind_run. destruct (_activate_ussd_subscription_payment _ _ _ _ _ _) as [[e|x] s1]; cbn in H |- *; eauto.
Qed.

(** *** The plan a payment activates *)

(** No plan, tier or line of history is touched. *)
Definition planless {A} (m : M Accounts.store A) : Prop :=
  ∀ a, Accounts.accounts_ok a → s_plans (Accounts.plans (m a).2) = s_plans (Accounts.plans a)
    ∧ s_tiers (Accounts.plans (m a).2) = s_tiers (Accounts.plans a).

(** Neither is any by the step, which completes no payment either. *)
Record kept (s s' : store) : Prop := Kept {
  kp_plans : plans_of s' = plans_of s;
  kp_tiers : tiers s' = tiers s;
  kp_lines : lines (x_accounts s') = lines (x_accounts s);
  kp_completed : ∀ p, p ∈ x_payments s' → py_status p = "completed" → p ∈ x_payments s
}.

#[local] Instance kept_refl : Reflexive kept.
Proof. done. Qed.
#[local] Instance kept_trans : Transitive kept.
Proof. intros s1 s2 s3 [P1 T1 L1 C1] [P2 T2 L2 C2]. split; [congruence..|auto]. Qed.

Lemma planless_gift p now : planless (Accounts.in_plans (SubscriptionGift.grant_subscription_gift p now)).
Proof.
  intros a Ha. unfold Accounts.in_plans. rewrite zoom_run.
  destruct (SubscriptionGift.signal_run p now (Accounts.plans a)) as (w & -> & _); [apply (Accounts.ok_sms _ Ha)|done].
Qed.

Lemma planless_bind {A B} (m : M Accounts.store A) (k : A → M Accounts.store B) :
  gentle m → planless m → (∀ x, planless (k x)) → planless (m ≫= k).
Proof.
  intros Hg Hm Hk a Ha. rewrite bind_run. pose proof (Hm a Ha) as [H1 T1]. destruct (Hg a Ha) as [H2 _].
  destruct (m a) as [[e|x] b]; [done|]. cbn in H1, T1, H2. destruct (Hk x b H2) as [H3 T3]. split; congruence.
Qed.

Lemma planless_create username password email d now : planless (Accounts.create_user make_password username password email d now).
Proof.
  intros a Ha. pose proof (Accounts.create_user_run make_password username password email d now a (Accounts.ok_sms _ Ha)) as H.
  cbv zeta in H. destruct (String.eqb username ""); [by rewrite H|]. destruct (Accounts.name_used username a); [by rewrite H|].
  destruct (Accounts.a_users a !! Accounts.dr_user d); [by rewrite H|]. destruct H as (a' & -> & Ho).
  by destruct (Accounts.op_plans _ _ _ _ _ _ _ Ho) as (H1 & H2 & _).
Qed.

Lemma planless_phone u n : planless (Accounts.set_phone u n).
Proof. intros a Ha. rewrite Accounts.set_phone_run. by destruct (Accounts.phone_used u n a). Qed.

Lemma planless_account phone username pin d now : planless (_apply_subscriber_account phone username pin d now).
Proof.
  apply planless_bind; [apply gentle_get|done|]. intros a0. destruct (Accounts.owner_of phone a0) as [u|].
  - apply planless_bind; [|intros a Ha|done].
    + intros a Ha. by destruct (set_username_run u username a Ha) as (H1 & H2 & _).
    + unfold set_username. rewrite bind_run. cbn [get]. destruct (Accounts.a_users a !! u); [|done].
      by destruct (existsb _ _).
  - apply planless_bind; [apply gentle_create|apply planless_create|intros u; apply planless_phone].
Qed.

Lemma planless_sms {A} (m : M SmsQueue.table A) : planless (Accounts.in_sms (SmsSubscription.in_sms m)).
Proof. intros a Ha. unfold Accounts.in_sms, SmsSubscription.in_sms. by rewrite !zoom_run. Qed.

Lemma kept_accounts {A} (m : M Accounts.store A) s :
  gentle m → planless m → Accounts.accounts_ok (x_accounts s) → kept s (in_accounts m s).2.
Proof.
  intros Hg Hm Hs. unfold in_accounts. rewrite zoom_run. destruct (Hm _ Hs) as [H1 H2]. destruct (Hg _ Hs) as [_ H3].
  by split.
Qed.

Lemma kept_save p now s :
  Accounts.accounts_ok (x_accounts s) → py_status p ≠ "completed" → kept s (save_payment p now s).2.
Proof.
  intros Hs Hp. unfold save_payment. rewrite bind_run. unfold modify. cbv beta iota. fold (replace p (x_payments s)). etransitivity.
  2: { apply kept_accounts; [apply gentle_gift|apply planless_gift|exact Hs]. }
  split; [done..|]. cbn. intros x [[-> _]|[_ Hx]]%elem_replace Hc; done.
Qed.

Lemma save_plans p now s : Accounts.accounts_ok (x_accounts s) →
  plans_of (save_payment p now s).2 = plans_of s ∧ tiers (save_payment p now s).2 = tiers s
  ∧ lines (x_accounts (save_payment p now s).2) = lines (x_accounts s)
  ∧ x_payments (save_payment p now s).2 = replace p (x_payments s).
Proof.
  intros Hs. unfold save_payment. rewrite bind_run. unfold modify. cbv beta iota. fold (replace p (x_payments s)).
  set (s1 := with_payments _ s). destruct (kept_accounts _ s1 (gentle_gift (gift_of p) now) (planless_gift (gift_of p) now) Hs) as [H1 H2 H3 _].
  unfold gift_for. split_and!; [exact H1|exact H2|exact H3|]. unfold in_accounts. by rewrite zoom_run.
Qed.

Lemma notify_kept q p now s : Accounts.accounts_ok (x_accounts s) →
  kept s (notify_activated q p now s).2 ∧ x_payments (notify_activated q p now s).2 = x_payments s.
Proof.
  intros Hs. unfold notify_activated. rewrite bind_run. cbn [get]. cbv zeta. destruct (String.eqb _ ""); [done|].
  unfold catch. rewrite bind_run. match goal with |- context [in_accounts ?m s] =>
    pose proof (kept_accounts m s (gentle_sms _) (planless_sms _) Hs) as H; destruct (gentle_moved m s (gentle_sms _) Hs) as [_ Hx];
    destruct (in_accounts m s) as [[e|n] s1] end; done.
Qed.

Lemma access_kept short_code base_url provider p q t phone d now s :
  Accounts.accounts_ok (x_accounts s) →
  kept s (_send_ussd_access_sms short_code base_url provider p q t phone d now s).2
  ∧ x_payments (_send_ussd_access_sms short_code base_url provider p q t phone d now s).2 = x_payments s.
Proof.
  intros Hs. unfold _send_ussd_access_sms. split; [|unfold in_accounts; by rewrite zoom_run].
  assert (gentle (modify (λ a, Accounts.with_sms (SmsSubscription.with_lines
      (<[sp_id q := SmsSubscription.set_otp (Some (dw_code d)) (Some (now + 30 * minute)) (SignIn.line_of q a)]>
         (SmsSubscription.m_lines (Accounts.a_sms a))) (Accounts.a_sms a)) a))) as Hline.
  { intros a Ha. split; [|done]. eapply gentle_frame; [exact Ha|done..|]. exact (Accounts.ok_sms _ Ha). }
  apply kept_accounts; [| |exact Hs].
  - apply gentle_bind; [apply gentle_get|]. intros a0. apply gentle_bind; [exact Hline|intros _; apply gentle_bind; [apply gentle_text|done]].
  - apply planless_bind; [apply gentle_get|done|]. intros a0. eapply planless_bind; [exact Hline|done|intros _; apply planless_bind; [apply gentle_text| |done]].
    intros a Ha. unfold Accounts.in_sms. rewrite zoom_run. unfold SmsSubscription.send_subscription_sms, catch.
    rewrite bind_run. unfold SmsSubscription.in_sms. rewrite zoom_run.
    by destruct (SmsQueue.queue_sms _ _ _ _ _ _ _ _).1 as [e|n]; [destruct e|].
Qed.

Lemma notify_run q p now s : Accounts.accounts_ok (x_accounts s) →
  ∃ s', notify_activated q p now s = (inr tt, s') ∧ moved 0 0 s s' ∧ x_payments s' = x_payments s.
Proof.
  intros Hs. unfold notify_activated. rewrite bind_run. cbn [get]. cbv zeta.
  destruct (String.eqb _ ""); [exists s; split; [done|split; [by apply moved_refl|done]]|]. unfold catch. rewrite bind_run.
  match goal with |- context [in_accounts ?m s] => pose proof (gentle_moved m s (gentle_sms _) Hs) as [H1 H2]; destruct (in_accounts m s) as [[e|n] s1] end;
    exists s1; done.
Qed.

Lemma account_kept phone d now s :
  Accounts.accounts_ok (x_accounts s) →
  post (account_for phone d now) s (λ _ s', kept s s' ∧ Accounts.accounts_ok (x_accounts s')).
Proof.
  intros Hs. unfold account_for. apply post_bind, post_get. cbv beta iota. destruct (Accounts.owner_of _ _); [done|]. apply post_bind.
  match goal with |- context [Accounts.create_user ?h ?a ?b ?c ?x now] => pose proof (gentle_create a b c x now) as Hg; pose proof (planless_create a b c x now) as Hp end.
  unfold post at 1. pose proof (kept_accounts _ s Hg Hp Hs) as H1. destruct (gentle_moved _ s Hg Hs) as [M1 _].
  destruct (in_accounts _ s) as [[e|u] s1]; [split; [done|by apply M1]|]. cbn [fst snd] in *. apply post_bind. unfold post at 1.
  pose proof (mv_ok _ _ _ _ M1) as Hs1. pose proof (kept_accounts _ s1 (gentle_phone u phone) (planless_phone u phone) Hs1) as H2.
  destruct (gentle_moved _ s1 (gentle_phone u phone) Hs1) as [M2 _].
  destruct (in_accounts (Accounts.set_phone u phone) s1) as [[e|[]] s2]; (split; [by etransitivity|by apply M2]).
Qed.

Lemma started_start t now q : sp_start (started t now q) = Some now.
Proof. unfold started. destruct t as [t|]; [destruct (tr_duration_days t) as [n|]; [destruct (n =? 0)|]|]; done. Qed.

(** The plan [q] is active from [now], for the days of its tier. *)
Definition runs_from (now : Z) (s : store) (q : plan) : Prop :=
  sp_status q = active ∧ sp_start q = Some now
  ∧ ∃ i, sp_tier q = Some i ∧ ∀ t n, tiers s !! i = Some t → tr_duration_days t = Some n → n ≠ 0 →
      sp_end q = Some (now + (n + sp_free_trial_days q) * day).

(** The plan's row alone is written. *)
Record planned (q : plan) (s s' : store) : Prop := Planned {
  pn_ok : Accounts.accounts_ok (x_accounts s');
  pn_plans : plans_of s' = <[sp_id q := q]> (plans_of s);
  pn_tiers : tiers s' = tiers s;
  pn_lines : lines (x_accounts s') = lines (x_accounts s);
  pn_payments : x_payments s' = x_payments s
}.

Lemma planned_twice q q' s s1 s2 : sp_id q' = sp_id q → planned q s s1 → planned q' s1 s2 → planned q' s s2.
Proof. intros E [_ P1 T1 L1 Y1] [Hok P2 T2 L2 Y2]. split; [done| |congruence..]. by rewrite P2, P1, E, insert_insert_eq. Qed.

Lemma activate_plan_run p i now s :
  Accounts.accounts_ok (x_accounts s) → sp_tier p = Some i →
  ∃ q s', activate_plan p now s = (inr q, s') ∧ runs_from now s q ∧ sp_id q = sp_id p ∧ sp_user q = sp_user p ∧ sp_tier q = Some i
    ∧ sp_free_trial_days q = sp_free_trial_days p ∧ planned q s s'.
Proof.
  intros Hs Ht. pose proof (gentle_moved _ s (gentle_activate p now) Hs) as [Hok%mv_ok _]. revert Hok.
  unfold activate_plan, in_accounts, Accounts.in_plans. rewrite !zoom_run.
  destruct (activate_run p now (Accounts.plans (x_accounts s)) (Accounts.ok_sms _ Hs)) as (w & ns & -> & _).
  destruct (started_keeps (tier_of p (Accounts.plans (x_accounts s))) now p) as (H1 & H2 & H3 & H4 & H5).
  assert (tier_of p (Accounts.plans (x_accounts s)) = tiers s !! i) as Hof by (unfold tier_of; by rewrite Ht).
  cbn [fst snd]. intros Hok. eexists _, _. split; [reflexivity|]. rewrite Ht in H3.
  split_and!; [|exact H1|exact H2|exact H3|unfold started; by repeat case_match|split; [exact Hok|by cbn; rewrite H1|done..]].
  split; [exact H5|]. split; [apply started_start|]. exists i. split; [exact H3|]. intros t n Hti Hn Hz.
  rewrite Hof, Hti. unfold started. rewrite Hn. by apply Z.eqb_neq in Hz as ->.
Qed.

Lemma save_plan_planned q l s :
  Accounts.accounts_ok (x_accounts s) → ∃ s', in_accounts (SignIn.save_plan q l) s = (inr tt, s') ∧ planned q s s'.
Proof.
  intros Hs. pose proof (gentle_moved _ s (gentle_save_plan q l) Hs) as [Hok%mv_ok _]. eexists. split; [reflexivity|]. by split.
Qed.

Lemma telebirr_planned q i n s s' : planned q s s' → ∃ s2, set_telebirr_phone i n s' = (inr tt, s2) ∧ planned q s s2.
Proof.
  intros [Hs P T L Y]. set (f := λ a, match n with Some n => <[i := n]> (Accounts.a_telebirr a) | None => delete i (Accounts.a_telebirr a) end).
  pose proof (gentle_moved _ s' (gentle_telebirr f) Hs) as [Hok%mv_ok _]. eexists. split; [reflexivity|]. by split.
Qed.

(** *** What an activation does *)

(** It is in the hands of who had it before, or of [owner]. *)
Definition starts_now (owner : option Z) (now : Z) (s : store) (q : plan) : Prop :=
  runs_from now s q ∧ sp_user q = match plans_of s !! sp_id q ≫= sp_user with Some u => Some u | None => owner end.

(** A waiting payment is completed and, with it, the plan that it names, and no
    other, starts now; the history tells it in one more line. *)
Definition activates (now : Z) (s s' : store) : Prop :=
  ∃ p p' q, p ∈ x_payments s ∧ py_status p = "pending" ∧ p' ∈ x_payments s' ∧ py_status p' = "completed" ∧ same_terms p p'
    ∧ (∀ x, x ∈ x_payments s' → py_status x = "completed" → x = p' ∨ x ∈ x_payments s)
    ∧ py_plan p' = sp_id q ∧ plans_of s' = <[sp_id q := q]> (plans_of s)
    ∧ starts_now (py_user p') now s q
    ∧ ∃ h, lines (x_accounts s') = lines (x_accounts s) ++ [h] ∧ SmsSubscription.h_plan h = sp_id q.

(** No payment is completed, no plan becomes active or stops being so, and no
    line is written. *)
Record unactivated (s s' : store) : Prop := Unactivated {
  un_completed : ∀ p, p ∈ x_payments s' → py_status p = "completed" → p ∈ x_payments s;
  un_plans : ∀ id q, sp_status q = active → plans_of s' !! id = Some q ↔ plans_of s !! id = Some q;
  un_lines : lines (x_accounts s') = lines (x_accounts s)
}.

Definition settles (now : Z) (s s' : store) : Prop := unactivated s s' ∨ activates now s s'.

Lemma kept_unactivated s s' : kept s s' → unactivated s s'.
Proof. intros [P T L K]. split; [done| |done]. intros id q _. by rewrite P. Qed.

Lemma activates_after now s s1 s2 : activates now s s1 → kept s1 s2 → x_payments s2 = x_payments s1 → activates now s s2.
Proof.
  intros (p & p' & q & H) [P T L K] Hx. exists p, p', q. by rewrite P, L, Hx.
Qed.

Lemma by_number_kept (save : payment → Z → M store unit) p raw s d now :
  (∀ u is_new s', kept s s' → Accounts.accounts_ok (x_accounts s') → x_payments s' = x_payments s → kept s' (save (set_owner u is_new p) now s').2) →
  Accounts.accounts_ok (x_accounts s) →
  post (if String.eqb raw "" then mret p
        else '(u, is_new) ← account_for (normalized raw) d now;
             let p := set_owner u is_new p in save p now ≫= λ _, mret p) s (λ _ s', kept s s').
Proof.
  intros Hsave Hs. destruct (String.eqb raw ""); [done|]. apply post_bind.
  assert (x_payments (account_for (normalized raw) d now s).2 = x_payments s) as Hx.
  { unfold account_for. rewrite bind_run. cbn [get]. destruct (Accounts.owner_of _ _); [done|]. rewrite bind_run.
    unfold in_accounts. rewrite zoom_run. destruct (Accounts.create_user _ _ _ _ _ _ _) as [[e|u] a]; [done|]. cbn [fst snd].
    rewrite bind_run, zoom_run. by destruct (Accounts.set_phone _ _ _) as [[e|[]] b]. }
  pose proof (account_kept (normalized raw) d now s Hs) as [Hk Hok].
  unfold post. destruct (account_for (normalized raw) d now s) as [[e|[u is_new]] s1]; [done|]. cbn [fst snd] in *. cbv zeta.
  rewrite bind_run. pose proof (Hsave u is_new s1 Hk Hok Hx) as H. destruct (save _ now s1) as [[e|[]] s2]; (etransitivity; [exact Hk|exact H]).
Qed.

Lemma resolve_kept p d now s0 s : held p s0 s → post (resolve_payment_user p d now) s (λ _ s', kept s s').
Proof.
  intros Hh. pose proof (mv_ok _ _ _ _ (hd_moved _ _ _ Hh)) as Hs. unfold resolve_payment_user. destruct (py_user p); [done|].
  destruct (py_phone p) as [raw|]; [|done]. apply (by_number_kept save_owner); [|done]. intros u is_new s1 _ Hok Hx. destruct Hh as [_ Hnd Hp Hpe].
  assert (held p s1 s1) as Hh1 by (split; [by apply moved_refl|by rewrite Hx..|done]).
  rewrite (save_owner_same p u is_new s1 s1) by done. apply kept_save; [done|]. cbn. by rewrite Hpe.
Qed.

Lemma webhook_user_kept p d now s0 s : held p s0 s → post (webhook_user p d now) s (λ _ s', kept s s').
Proof.
  intros Hh. pose proof (mv_ok _ _ _ _ (hd_moved _ _ _ Hh)) as Hs. pose proof (hd_pending _ _ _ Hh) as Hpe.
  assert (∀ u is_new s', Accounts.accounts_ok (x_accounts s') → kept s' (save_payment (set_owner u is_new p) now s').2) as Hsave.
  { intros u is_new s' Hs'. apply kept_save; [done|]. cbn. by rewrite Hpe. }
  unfold webhook_user. destruct (py_user p) as [u|].
  - cbv zeta. unfold post. rewrite bind_run. pose proof (Hsave u false s Hs) as H. by destruct (save_payment _ now s) as [[e|[]] s1].
  - destruct (py_phone p) as [raw|]; [|done]. apply (by_number_kept save_payment); [|done]. intros; by apply Hsave.
Qed.

(** A plan written and then activated. *)
Lemma written_activates p i now s s1 :
  planned p s s1 → sp_tier p = Some i →
  ∃ q s', activate_plan p now s1 = (inr q, s') ∧ runs_from now s q ∧ sp_id q = sp_id p ∧ sp_user q = sp_user p
    ∧ sp_tier q = Some i ∧ sp_free_trial_days q = sp_free_trial_days p ∧ planned q s s'.
Proof.
  intros P1 Ht. destruct (activate_plan_run p i now s1 (pn_ok _ _ _ P1) Ht) as (q & s' & E & (H1 & H2 & j & H3 & H4) & Hi & Hu & Hj & Hf & P2).
  exists q, s'. split; [done|]. split; [|split_and!; [done..|by eapply planned_twice]].
  split; [done|]. split; [done|]. exists j. split; [done|]. by rewrite <- (pn_tiers _ _ _ P1).
Qed.

Lemma pending_run pay c t now s :
  Accounts.accounts_ok (x_accounts s) →
  ∃ q s', activate_pending pay c t now s = (inr q, s') ∧ runs_from now s q ∧ sp_id q = sp_id (cp_plan c)
    ∧ sp_user q = match sp_user (cp_plan c) with Some u => Some u | None => py_user pay end
    ∧ sp_tier q = Some (tr_id t) ∧ sp_free_trial_days q = sp_free_trial_days (cp_plan c) ∧ planned q s s'.
Proof.
  intros Hs. unfold activate_pending. cbv zeta. rewrite bind_run. set (p := paid_plan (py_user pay) t (cp_plan c)).
  destruct (save_plan_planned p (by_telebirr (cp_line c)) s Hs) as (s1 & -> & P1). rewrite bind_run.
  match goal with |- context [set_telebirr_phone ?i ?n s1] => destruct (telebirr_planned p i n s s1 P1) as (s2 & -> & P2) end.
  by apply (written_activates p (tr_id t)).
Qed.

Lemma create_plan_planned q n now s :
  Accounts.accounts_ok (x_accounts s) →
  (∃ e, create_plan q n now s = (inl e, s))
  ∨ plans_of s !! sp_id q = None ∧ ∃ s', create_plan q n now s = (inr tt, s') ∧ planned q s s'.
Proof.
  intros Hs. unfold create_plan. rewrite bind_run. cbn [get]. rewrite bind_run. case_bool_decide as E; [right|left; by eexists].
  split; [exact E|]. cbn [assert_or mret M_ret]. rewrite bind_run.
  destruct (save_plan_planned q (SmsSubscription.Line None "app" "telebirr" None None now) s Hs) as (s1 & -> & P1).
  by apply telebirr_planned.
Qed.

Lemma other_activates pay t d now s :
  Accounts.accounts_ok (x_accounts s) →
  (∃ e, activate_other pay t d now s = (inl e, s))
  ∨ ∃ q s', activate_other pay t d now s = (inr q, s') ∧ starts_now (py_user pay) now s q ∧ planned q s s'.
Proof.
  intros Hs. unfold activate_other. rewrite bind_run. cbn [get]. destruct (List.find _ _) as [p|] eqn:Hf; cbv zeta.
  - right. apply List.find_some in Hf as [Hin%list_elem_of_In [Hu%bool_decide_eq_true _]%andb_true_iff].
    apply StableSort.elem_of_sort, list_elem_of_fmap in Hin as ([id p'] & -> & Hin%elem_of_map_to_list).
    pose proof (Subscriptions.ok_ids _ (Accounts.ok_sms _ Hs) _ _ Hin) as Hid. cbn [snd] in *. rewrite bind_run.
    match goal with |- context [SignIn.save_plan ?p ?l] => destruct (save_plan_planned p l s Hs) as (s1 & -> & P1) end.
    destruct (written_activates _ (tr_id t) now s s1 P1 eq_refl) as (q & s2 & E & Hq & Hi & Ho & _ & _ & P2).
    exists q, s2. split; [exact E|]. split; [|exact P2]. split; [done|]. rewrite Hi, Ho. cbn.
    assert (plans_of s !! sp_id p' = Some p') as -> by (by rewrite Hid). cbn. rewrite Hu. by destruct (py_user pay).
  - rewrite bind_run. match goal with |- context [create_plan ?p None now s] =>
      destruct (create_plan_planned p None now s Hs) as [[e ->]|[Hn (s1 & -> & P1)]]; [left; eauto|] end.
    right. destruct (written_activates _ (tr_id t) now s s1 P1 eq_refl) as (q & s2 & E & Hq & Hi & Ho & _ & _ & P2).
    exists q, s2. split; [exact E|]. split; [|exact P2]. split; [done|]. by rewrite Hi, Ho, Hn.
Qed.

(** The plan of the payment, as it is held, is the row. *)
Definition current (c : option copy) (s : store) : Prop :=
  ∀ x, c = Some x → plans_of s !! sp_id (cp_plan x) = Some (cp_plan x).

Lemma copy_current p s : Accounts.accounts_ok (x_accounts s) → current (copy_of p s) s.
Proof.
  intros Hs x Hx. unfold copy_of in Hx. fold (plans_of s) in Hx. destruct (plans_of s !! py_plan p) as [q|] eqn:E; [|done]. injection Hx as <-.
  cbn. by rewrite (Subscriptions.ok_ids _ (Accounts.ok_sms _ Hs) _ _ E).
Qed.

(** The two ways to a plan. *)
Lemma plan_activates pay c t d now s :
  Accounts.accounts_ok (x_accounts s) → current c s →
  let m := match c with
           | Some c => if bool_decide (sp_status (cp_plan c) = pending) then activate_pending pay c t now else activate_other pay t d now
           | None => activate_other pay t d now
           end in
  (∃ e, m s = (inl e, s)) ∨ ∃ q s', m s = (inr q, s') ∧ starts_now (py_user pay) now s q ∧ planned q s s'.
Proof.
  intros Hs Hc m. unfold m. destruct c as [c|]; [case_bool_decide|]; [|by apply other_activates..]. right.
  destruct (pending_run pay c t now s Hs) as (q & s' & E & Hq & Hi & Hu & _ & _ & P).
  exists q, s'. split; [exact E|]. split; [|exact P]. split; [done|]. by rewrite Hi, Hu, (Hc c eq_refl).
Qed.

Lemma completes_payment p p' q now s0 s s2 s3 h :
  held p s0 s → kept s0 s → same_terms p p' → py_status p' = "completed" → py_plan p' = sp_id q →
  starts_now (py_user p') now s q → planned q s s2 →
  plans_of s3 = plans_of s2 → lines (x_accounts s3) = lines (x_accounts s2) ++ [h] → SmsSubscription.h_plan h = sp_id q →
  x_payments s3 = replace p' (x_payments s2) →
  activates now s0 s3.
Proof.
  intros [Hmv Hnd Hp Hpe] [K1 K2 K3 K4] Hterms Hst Hpl Hq [_ P1 P2 P3 P4] Hp3 Hl3 Hh Hx3.
  destruct (mv_terms _ _ _ _ Hmv p Hp) as (p0 & Hp0 & E1 & E2 & E3 & E4). destruct Hterms as (T1 & T2 & T3).
  assert (py_status p0 = "pending") as Hp0s.
  { destruct (String.eqb_spec (py_status p0) "pending") as [|Hne]; [done|]. by rewrite (E4 Hne) in Hne. }
  exists p0, p', q. split_and!; try done.
  - rewrite Hx3, P4. apply elem_replace. left. split; [done|]. rewrite T1. by apply list_elem_of_fmap_2.
  - unfold same_terms. split_and!; congruence.
  - intros x Hx Hc. rewrite Hx3, P4 in Hx. apply elem_replace in Hx as [[-> _]|[_ Hx]]; [by left|right]. by apply K4.
  - congruence.
  - destruct Hq as ((H1 & H2 & i & H3 & H4) & H5). rewrite K1 in H5. rewrite K2 in H4. split; [|done]. split_and!; [done..|by exists i].
  - exists h. split; [|done]. congruence.
Qed.

Lemma activate_settles p c tier d now s0 s :
  held p s0 s → kept s0 s → current c s →
  post (_activate_ussd_subscription_payment p c tier d now) s
    (λ r s', match r with inl _ => kept s0 s' | inr _ => activates now s0 s' end).
Proof.
  intros Hh Hk Hc. unfold _activate_ussd_subscription_payment. apply post_bind. unfold post at 1.
  pose proof (resolve_held p d now s0 s Hh) as H1. pose proof (resolve_kept p d now s0 s Hh) as K1. unfold post in H1, K1.
  destruct (resolve_payment_user p d now s) as [[e|p1] s1]; cbn [fst snd resolved] in *; [by etransitivity|].
  destruct H1 as [H1 _]. assert (kept s0 s1) as K01 by (by etransitivity). destruct tier as [t|]; [|exact K01].
  assert (current c s1) as Hc1 by (intros x Hx; rewrite (kp_plans _ _ K1); by apply Hc).
  pose proof (mv_ok _ _ _ _ (hd_moved _ _ _ H1)) as Hs1.
  apply post_bind. unfold post at 1. destruct (plan_activates p1 c t d now s1 Hs1 Hc1) as [[e ->]|(q & s2 & -> & Hq & P2)]; [exact K01|].
  cbv zeta. apply post_bind. unfold post at 1. set (p2 := set_plan (sp_id q) "completed" p1) in *.
  destruct (save_plans p2 now s2 (pn_ok _ _ _ P2)) as (S1 & S2 & S3 & S4).
  assert (Accounts.accounts_ok (x_accounts (save_payment p2 now s2).2) ∧ ∃ v, (save_payment p2 now s2).1 = inr v) as [Hs3 [[] Hr]].
  { unfold save_payment. rewrite bind_run. unfold modify. cbv beta iota.
    unfold gift_for, in_accounts, Accounts.in_plans. rewrite !zoom_run.
    destruct (gentle_gift (gift_of p2) now _ (pn_ok _ _ _ P2)) as [G _]. unfold Accounts.in_plans in G. rewrite zoom_run in G.
    split; [exact G|]. cbn [fst snd x_accounts with_payments].
    destruct (SubscriptionGift.signal_run (gift_of p2) now (Accounts.plans (x_accounts s2))) as (w & -> & _); [|by exists tt].
    apply (Accounts.ok_sms _ (pn_ok _ _ _ P2)). }
  destruct (save_payment p2 now s2) as [r s3] eqn:Esave. cbn [fst snd] in *. subst r. rewrite Esave. cbn [fst snd].
  apply post_bind. unfold post at 1.
  match goal with |- context [SmsSubscription.add_history ?h] =>
    destruct (history_added h s3 Hs3) as (s4 & E4 & H34); pose proof E4 as E4'; rewrite E4; set (line := h) in * end.
  assert (activates now s0 s4) as H4.
  { injection E4' as <-. eapply (completes_payment p1 p2 q now s0 s1 s2 _ line); try done.
    by rewrite <- S3. }
  cbn [fst snd]. apply post_bind. unfold post at 1.
  destruct (notify_kept q p2 now s4 (mv_ok _ _ _ _ H34)) as [K45 Y45].
  destruct (notify_run q p2 now s4 (mv_ok _ _ _ _ H34)) as (s5 & E5 & _). rewrite E5 in *. by eapply activates_after.
Qed.

Lemma confirm_settles reference ok d now s :
  sound s →
  post (confirm reference ok d now) s (λ r s', match r with inr (inr _) => activates now s s' | _ => kept s s' end).
Proof.
  intros Hs. unfold confirm. apply post_atomic, post_bind, post_get. cbv beta iota.
  destruct (List.find _ _) as [p|] eqn:Hf; [|done]. apply (read_held _ _ _ Hs) in Hf.
  assert (∀ q s1, held q s s1 → kept s s1 → kept s (save_payment (set_state "failed" q) now s1).2) as Hfail.
  { intros q s1 H1 K1. etransitivity; [exact K1|]. by apply kept_save; [apply (hd_moved _ _ _ H1)|]. }
  assert (∀ q s1 answer, held q s s1 → kept s s1 →
    post (save_payment (set_state "failed" q) now ≫= λ _, mret (inl answer : response + payment * plan * tier * Z)) s1
      (λ r s', match r with inr (inr _) => activates now s s' | inl _ => kept s s | _ => kept s s' end)) as Hpost.
  { intros q s1 answer H1 K1. specialize (Hfail q s1 H1 K1). unfold post. rewrite bind_run.
    by destruct (save_payment _ now s1) as [[e|[]] s2]. }
  destruct ok; cbn [negb]; [|by apply Hpost].
  apply post_bind. unfold post at 1. pose proof (webhook_user_held p d now s s Hf) as H1. pose proof (webhook_user_kept p d now s s Hf) as K1.
  unfold post in H1, K1. destruct (webhook_user p d now s) as [[e|p1] s1]; cbn [fst snd resolved] in *; [done|]. destruct H1 as [H1 _].
  destruct (py_user p1) as [u|]; [|by apply Hpost]. apply post_bind, post_get. cbv beta iota.
  destruct (tier_of_amount _ _) as [t|]; [|by apply Hpost]. apply post_bind.
  eapply post_conseq; [apply (activate_settles p1 _ (Some t) d now s s1 H1 K1)|].
  - apply copy_current, (hd_moved _ _ _ H1).
  - by intros [e|[p2 q]] s2 H2.
Qed.

(** ** A sequence of requests and deliveries *)

Inductive event :=
| Opens (r : request) (d : draw) (now : Z)
| Closes (k : nat) (sent : string + option string) (d : draw) (now : Z)
| Delivers (cb : callback) (d : draw) (now : Z)
| DeliversOther (reference : string) (d : draw) (now : Z).

(** The pushes sent and not answered yet are held by their requests. *)
Record world := World { wd_store : store; wd_open : list pushing }.

Section Run.
Context (short_code : tier → string) (base_url provider : string).

Definition step (w : world) (e : event) : world :=
  match e with
  | Opens r d now =>
      let '(opened, s) := initiate_open r d now (wd_store w) in
      World s (match opened with inr (inr pu) => wd_open w ++ [pu] | _ => wd_open w end)
  | Closes k sent d now =>
      match wd_open w !! k with
      | None => w
      | Some pu =>
          World (match sent with
                 | inl _ => wd_store w
                 | inr reference => (initiate_close pu reference d now (wd_store w)).2
                 end) (delete k (wd_open w))
      end
  | Delivers cb d now =>
      World (telebirr_ussd_subscription_webhook short_code base_url provider cb d now (wd_store w)).2 (wd_open w)
  | DeliversOther reference d now => World (telebirr_ussd_webhook_subscription reference d now (wd_store w)).2 (wd_open w)
  end.

Definition run (es : list event) (w : world) : world := foldl step w es.

(** What a run keeps of the payments. *)
Record progressed (s s' : store) : Prop := Progressed {
  pr_sound : sound s';
  pr_settled : ∀ p, p ∈ x_payments s → py_status p ≠ "pending" → p ∈ x_payments s';
  pr_terms : ∀ p, p ∈ x_payments s → ∃ p', p' ∈ x_payments s' ∧ py_id p' = py_id p ∧ py_reference p' = py_reference p
    ∧ py_amount p' = py_amount p;
  pr_matched : (completed s' + activations s = completed s + activations s')%nat
}.

#[local] Instance progressed_trans : Transitive progressed.
Proof.
  intros s1 s2 s3 [_ S1 T1 M1] [O2 S2 T2 M2]. split; [done|auto| |lia].
  intros p (p2 & Hp2 & ? & ? & ?)%T1. destruct (T2 p2 Hp2) as (p3 & Hp3 & ? & ? & ?). exists p3. split_and!; [done|congruence..].
Qed.

Lemma progressed_refl s : sound s → progressed s s.
Proof. intros Hs. split; [done..| |done]. intros p Hp. by exists p. Qed.

Lemma moved_progressed n s s' : sound s → moved n n s s' → progressed s s'.
Proof.
  intros Hs Hm. split; [by eapply moved_sound|apply Hm| |rewrite (mv_completed _ _ _ _ Hm), (mv_history _ _ _ _ Hm); lia].
  intros p Hp. assert (py_id p ∈ py_id <$> x_payments s') as (p' & Hid & Hp')%list_elem_of_fmap.
  { rewrite (mv_ids _ _ _ _ Hm). by apply list_elem_of_fmap_2. }
  destruct (mv_terms _ _ _ _ Hm p' Hp') as (q & Hq & E1 & E2 & E3 & _).
  pose proof (same_payment _ p q (proj2 Hs) Hp Hq ltac:(congruence)) as ->. exists p'. split_and!; congruence.
Qed.

(** *** The request *)

Definition consumed_sessions (s : store) : nat := size (filter (λ kv, PaymentOtp.vs_status kv.2 = PaymentOtp.consumed) (x_sessions s)).

(** The plan gives access at [now]. *)
Definition runs_at (now : Z) (q : plan) : Prop := sp_status q = active ∧ ∀ e, sp_end q = Some e → now < e.

(** No plan runs: of the caller, when one is signed in, whatever the number;
    otherwise of an account with the number or, when no account has it, none
    that the number is written on. *)
Definition nothing_runs (user : option Z) (phone : string) (now : Z) (s : store) : Prop :=
  let variants := Phone.lookup_variants (Some phone) in
  let idle u := ∀ id q, plans_of s !! id = Some q → sp_user q = Some u → ¬ runs_at now q in
  match user with
  | Some u => idle u
  | None =>
      (∃ u n, (u, Some n) ∈ Accounts.profiles (x_accounts s) ∧ n ∈ variants ∧ idle u)
      ∨ (∀ u n, (u, Some n) ∈ Accounts.profiles (x_accounts s) → n ∉ variants)
        ∧ ∀ id q n, plans_of s !! id = Some q →
            SignIn.telebirr_phone q (x_accounts s) = Some n ∨ SignIn.airtime_phone q (x_accounts s) = Some n →
            n ∈ variants → ¬ runs_at now q
  end.

(** No payment made in the last ten minutes waits, neither the caller's nor
    one of the number. *)
Definition nothing_waits (user : option Z) (phone : string) (now : Z) (s : store) : Prop :=
  ∀ p, p ∈ x_payments s → py_status p = "pending" → now - 10 * minute <= py_created_at p →
    (∀ u, user = Some u → py_user p ≠ Some u) ∧ py_phone p ≠ Some phone.

Lemma no_head {A} (le : A → A → bool) l : head (StableSort.sort_by le l) = None → l = [].
Proof. intros H. pose proof (StableSort.length_sort le l) as Hl. by destruct (StableSort.sort_by le l), l. Qed.

Lemma filter_nil {A} (f : A → bool) l x : List.filter f l = [] → x ∈ l → f x = false.
Proof.
  intros Hf Hx. apply not_true_iff_false. intros E.
  assert (x ∈ List.filter f l) as H by (by apply list_elem_of_In, List.filter_In; split; [apply list_elem_of_In|]).
  rewrite Hf in H. by apply elem_of_nil in H.
Qed.

Lemma runs_active now q : runs_at now q ↔ is_active now q = true.
Proof.
  unfold runs_at, is_active. rewrite andb_true_iff, bool_decide_eq_true. destruct (sp_end q) as [e|]; [|naive_solver].
  rewrite Z.ltb_lt. naive_solver.
Qed.

(** None found among the plans that [f] selects. *)
Lemma none_first f now s id q :
  head (SignIn.latest_first (List.filter (λ p, is_active now p && f p) (SignIn.newest_first (x_accounts s)))) = None →
  plans_of s !! id = Some q → f q = true → ¬ runs_at now q.
Proof.
  intros Hn%no_head Hq Hf Hr%runs_active.
  assert (q ∈ SignIn.newest_first (x_accounts s)) as Hin.
  { apply StableSort.elem_of_sort, list_elem_of_fmap. exists (id, q). split; [done|]. by apply elem_of_map_to_list. }
  pose proof (filter_nil _ _ _ Hn Hin) as E. cbn in E. by rewrite Hr, Hf in E.
Qed.

Lemma among_spec l n : SignIn.among l n = true ↔ ∃ x, n = Some x ∧ x ∈ l.
Proof. destruct n as [x|]; cbn; [rewrite bool_decide_eq_true|]; naive_solver. Qed.

Lemma none_active user phone now s :
  phone ≠ "" → active_subscription_for user phone now (x_accounts s) = None → nothing_runs user phone now s.
Proof.
  intros Hph%String.eqb_neq. unfold active_subscription_for, nothing_runs. cbv zeta. destruct user as [u|].
  { intros Hn id q Hq Hu. eapply none_first; [exact Hn|exact Hq|]. by apply bool_decide_eq_true. }
  rewrite Hph. destruct (List.find _ _) as [[u n]|] eqn:Hf.
  - apply List.find_some in Hf as [Hin%list_elem_of_In (x & E & Hx)%among_spec]. cbn in E. subst n. intros Hn. left. exists u, x. split; [done|]. split; [done|].
    intros id q Hq Hu. eapply none_first; [exact Hn|exact Hq|]. by apply bool_decide_eq_true.
  - intros Hn. right. split.
    + intros u n Hin%list_elem_of_In Hx. pose proof (List.find_none _ _ Hf _ Hin) as E.
      apply not_true_iff_false in E. apply E, among_spec. by exists n.
    + intros id q n Hq Hn' Hx. eapply none_first; [exact Hn|exact Hq|]. apply orb_true_iff.
      destruct Hn' as [H|H]; [left|right]; apply among_spec; eauto.
Qed.

Lemma none_pending user phone now s :
  phone ≠ "" → pending_subscription_payment user phone now s = None → nothing_waits user phone now s.
Proof.
  intros Hph%String.eqb_neq Hn p Hp Hs Ht. unfold pending_subscription_payment in Hn. rewrite Hph in Hn.
  assert (∀ f, head (StableSort.sort_by (λ p q, py_created_at q <=? py_created_at p)
      (List.filter (λ p, String.eqb (py_status p) "pending" && (now - PENDING_PAYMENT_WINDOW_SECONDS * second <=? py_created_at p) && f p) (x_payments s)))
    = None → f p = false) as Hf.
  { intros f E%no_head. pose proof (filter_nil _ _ _ E Hp) as H. cbn in H. rewrite Hs in H. cbn in H.
    assert (now - PENDING_PAYMENT_WINDOW_SECONDS * second <=? py_created_at p = true) as Hle
      by (apply Z.leb_le; unfold PENDING_PAYMENT_WINDOW_SECONDS, minute in *; lia).
    by rewrite Hle in H. }
  destruct user as [u|].
  - destruct (head _) eqn:E1 in Hn; [done|]. apply Hf, bool_decide_eq_false in E1, Hn. split; [|done]. by intros ? [= <-].
  - apply Hf, bool_decide_eq_false in Hn. done.
Qed.

Lemma some_number r a phone : phone_of_request r a = inr phone → phone ≠ "".
Proof.
  unfold phone_of_request. destruct (if String.eqb _ _ then _ else _) as [e|n]; [done|].
  destruct (String.eqb_spec n ""); [done|]. intros [= <-]. unfold Phone.normalize_ethiopian_phone.
  by destruct (Phone._subscriber_part _).
Qed.

(** What the push shows: offered at that price, nothing that runs or waits,
    and a verification of this number and tier for this caller, unspent and
    unexpired, which it spends. *)
Definition verified_push (r : request) (now : Z) (s s' : store) (pu : pushing) : Prop :=
  (∃ o, o ∈ x_offers s ∧ to_uuid (rq_tier_id r) = Some (of_tier o) ∧ of_is_active o = true ∧ of_price_etb o = pu_price pu
    ∧ tiers s !! of_tier o = Some (pu_tier pu))
  ∧ phone_of_request r (x_accounts s) = inr (pu_phone pu) ∧ pu_user pu = rq_user r
  ∧ nothing_runs (rq_user r) (pu_phone pu) now s
  ∧ nothing_waits (rq_user r) (pu_phone pu) now s
  ∧ ∃ u row e, rq_session r = PaymentOtp.Uuid u ∧ x_sessions s !! u = Some row
    ∧ PaymentOtp.vs_status row = PaymentOtp.verified ∧ PaymentOtp.vs_phone row = pu_phone pu ∧ PaymentOtp.vs_user row = rq_user r
    ∧ PaymentOtp.vs_fingerprint row
      = PaymentOtp.fingerprint sha256 (PaymentOtp.Payment PaymentOtp.PURPOSE_SUBSCRIPTION (rq_user r) (pu_phone pu) (rq_tier_id r))
    ∧ PaymentOtp.vs_expires row = Some e ∧ now < e
    ∧ x_sessions s' = <[u := PaymentOtp.consumed_row now row]> (x_sessions s).

Lemma claims_spec p now row :
  PaymentOtp.claims sha256 p now row = true →
  PaymentOtp.vs_status row = PaymentOtp.verified ∧ PaymentOtp.vs_phone row = PaymentOtp.p_phone p
  ∧ PaymentOtp.vs_user row = PaymentOtp.p_user p ∧ PaymentOtp.vs_fingerprint row = PaymentOtp.fingerprint sha256 p
  ∧ ∃ e, PaymentOtp.vs_expires row = Some e ∧ now < e.
Proof.
  unfold PaymentOtp.claims. rewrite !andb_true_iff, !bool_decide_eq_true, !String.eqb_eq.
  intros [[[[H1 H2] H3] H4] H5]. split_and!; [done..|]. destruct (PaymentOtp.vs_expires row) as [e|]; [|done].
  exists e. by apply Z.ltb_lt in H5.
Qed.

(** It either spends a verification or changes nothing. *)
Record asked (s s' : store) : Prop := Asked {
  as_ok : Accounts.accounts_ok (x_accounts s');
  as_kept : kept s s';
  as_payments : x_payments s' = x_payments s;
  as_sessions : x_sessions s' = x_sessions s
    ∨ ∃ u row now, x_sessions s !! u = Some row ∧ PaymentOtp.vs_status row = PaymentOtp.verified
      ∧ x_sessions s' = <[u := PaymentOtp.consumed_row now row]> (x_sessions s)
}.

Lemma asked_refl s : Accounts.accounts_ok (x_accounts s) → asked s s.
Proof. intros Hs. split; [done..|by left]. Qed.

Lemma asked_gentle {A} (m : M Accounts.store A) s s' : gentle m → planless m → asked s s' → asked s (in_accounts m s').2.
Proof.
  intros Hm Hp [H1 H2 H3 H4]. pose proof (kept_accounts m s' Hm Hp H1) as Hk. destruct (gentle_moved m s' Hm H1) as [Hmv Hx].
  split; [apply Hmv|by etransitivity|by rewrite Hx|]. by rewrite (mv_sessions _ _ _ _ Hmv).
Qed.

Lemma offered_spec id s s0 :
  offered id s s0 = (inl (ValidationError "is not a valid UUID."), s0)
  ∨ ∃ found, offered id s s0 = (inr found, s0) ∧ ∀ t price, found = Some (t, price) →
      ∃ o, o ∈ x_offers s ∧ to_uuid id = Some (of_tier o) ∧ of_is_active o = true ∧ of_price_etb o = price ∧ tiers s !! of_tier o = Some t.
Proof.
  unfold offered. destruct (to_uuid id) as [i|]; [right|by left]. eexists. split; [reflexivity|]. intros t price.
  destruct (List.find _ _) as [o|] eqn:Hf; [|done].
  apply List.find_some in Hf as [Hin [Hi%Z.eqb_eq Hact]%andb_true_iff]. apply list_elem_of_In in Hin.
  destruct (tiers s !! i) as [t0|] eqn:Ht; [|done]. cbn. intros [= <- <-]. exists o. subst i. done.
Qed.

(** The claim, with its refusals caught. *)
Lemma claim_spec sid p now s (Q : exn + option string → store → Prop) :
  (∀ code, Q (inr (Some code)) s) → (∀ e, Q (inl e) s) →
  (∀ u row, sid = PaymentOtp.Uuid u → x_sessions s !! u = Some row → PaymentOtp.claims sha256 p now row = true →
     Q (inr None) (Store (x_accounts s) (x_payments s) (x_offers s) (<[u := PaymentOtp.consumed_row now row]> (x_sessions s)) (x_cache s))) →
  post (catch (in_otp (PaymentOtp.consume_verified_session sha256 sid p now) ≫= λ _, mret None)
          (λ e, match e with OtpRefused "OtpVerificationFailed" _ code _ => Some (mret (Some code)) | _ => None end)) s Q.
Proof.
  intros Hrefused Hraised Hdone. apply post_catch, post_bind. unfold in_otp. apply post_zoom.
  assert (otp_upd (otp_view s) s = s) as Hsame by (by destruct s as [[? ? [] ? ?] ? ? ? ?]).
  unfold PaymentOtp.consume_verified_session. destruct (PaymentOtp._uuid_like sid) as [u|] eqn:Hu.
  2: { apply post_raise. cbv beta iota. rewrite Hsame. apply Hrefused. }
  assert (sid = PaymentOtp.Uuid u) as -> by (by destruct sid; simplify_eq/=).
  apply post_bind, post_get. cbv beta iota. change (PaymentOtp.s_sessions (otp_view s)) with (x_sessions s).
  destruct (x_sessions s !! u) as [row|] eqn:Hrow; [destruct (PaymentOtp.claims _ _ _ _) eqn:Hc|].
  - apply post_bind, post_put. cbv beta iota. apply post_ret. cbv beta iota. apply post_ret.
    pose proof (Hdone u row eq_refl Hrow Hc) as H. by destruct s as [[? ? [] ? ?] ? ? ? ?].
  - destruct (PaymentOtp._explain_refusal _ _ _). apply post_raise. cbv beta iota. rewrite Hsame. apply Hrefused.
  - destruct (PaymentOtp._explain_refusal _ _ _). apply post_raise. cbv beta iota. rewrite Hsame. apply Hrefused.
Qed.

Lemma open_asked r d now s :
  Accounts.accounts_ok (x_accounts s) →
  post (initiate_open r d now) s (λ res s', asked s s'
    ∧ ∀ pu, res = inr (inr pu) → verified_push r now s s' pu).
Proof.
  intros Hok. pose proof (asked_refl s Hok) as H0. unfold initiate_open.
  destruct (String.eqb (rq_tier_id r) ""); [done|]. apply post_bind, post_get. cbv beta iota. apply post_bind. unfold post at 1.
  destruct (offered_spec (rq_tier_id r) s s) as [->|(found & -> & Hoffer)]; [done|]. cbn [fst snd].
  destruct found as [[t price]|]; [|done]. specialize (Hoffer t price eq_refl).
  destruct (phone_of_request r (x_accounts s)) as [refusal|phone] eqn:Hphone; [done|]. cbv zeta.
  destruct (if _ : bool then account_refusal _ _ _ _ else None); [done|].
  case_bool_decide as Hactive; [done|]. case_bool_decide as Hpending; [done|].
  apply eq_None_not_Some in Hactive, Hpending. apply some_number in Hphone as Hne.
  apply none_active in Hactive; [|done]. apply none_pending in Hpending; [|done].
  apply post_bind. apply claim_spec; [done|done|].
  intros u row Hsid Hrow (Hv & Hn & Hu & Hfp & e & He & Hlt)%claims_spec. set (s1 := Store _ _ _ _ _).
  assert (asked s s1) as H1 by (split; [done..|]; right; by exists u, row, now).
  cbv beta iota. apply post_bind, post_when; intros _.
  - unfold post. pose proof (asked_gentle _ s s1 (gentle_account phone (strip (rq_username r)) (strip (rq_pin r)) d now)
      (planless_account phone (strip (rq_username r)) (strip (rq_pin r)) d now) H1) as H2.
    assert (x_sessions (in_accounts (_apply_subscriber_account phone (strip (rq_username r)) (strip (rq_pin r)) d now) s1).2 = x_sessions s1) as Hses
      by (unfold in_accounts; by rewrite zoom_run).
    destruct (in_accounts _ s1) as [[err|[]] s2]; cbn in H2, Hses |- *; [done|]. split; [done|]. intros pu [= <-].
    unfold verified_push. cbn. rewrite Hses. split_and!; try done. by exists u, row, e.
  - split; [done|]. intros pu [= <-]. unfold verified_push. cbn. split_and!; try done. by exists u, row, e.
Qed.

(** *** The push answered *)

Lemma completed_app s p : py_status p = "pending" → completed (with_payments (x_payments s ++ [p]) s) = completed s.
Proof. intros Hs. unfold completed. cbn [with_payments x_payments]. rewrite List.filter_app, length_app. cbn. rewrite Hs. cbn. lia. Qed.

(** At most one payment more, waiting, and nothing else of what is counted. *)
Record charged (s s' : store) : Prop := Charged {
  cg_progress : progressed s s';
  cg_sessions : x_sessions s' = x_sessions s;
  cg_payments : (length (x_payments s') <= S (length (x_payments s)))%nat
}.

Lemma moved_charged s s' : sound s → moved 0 0 s s' → charged s s'.
Proof.
  intros Hs Hm. split; [by eapply moved_progressed|apply Hm|].
  rewrite <- (length_fmap py_id (x_payments s')), (mv_ids _ _ _ _ Hm), length_fmap. lia.
Qed.

Lemma create_payment_charged p now s :
  sound s → py_status p = "pending" → post (create_payment p now) s (λ _ s', charged s s').
Proof.
  intros Hs Hp. assert (charged s s) as H0 by (apply moved_charged, moved_refl, Hs; done).
  unfold create_payment. apply post_bind, post_get. cbv beta iota. apply post_bind.
  destruct (existsb _ _) eqn:Hid; [exact H0|]. cbn [negb assert_or]. apply post_ret. cbv beta iota. apply post_bind.
  assert (py_id p ∉ py_id <$> x_payments s) as Hfresh.
  { intros (q & Hq & Hin)%list_elem_of_fmap. apply not_true_iff_false in Hid. apply Hid, existsb_exists. exists q.
    split; [by apply list_elem_of_In|]. by apply String.eqb_eq. }
  clear Hid. destruct (existsb _ _); [exact H0|]. cbn [negb assert_or]. apply post_ret. cbv beta iota. apply post_bind, post_put. cbv beta iota.
  set (s1 := with_payments (x_payments s ++ [p]) s). destruct Hs as [Hok Hnd].
  assert (sound s1) as Hs1.
  { split; [exact Hok|]. unfold s1. cbn. rewrite fmap_app. apply NoDup_app. split; [done|]. split; [|apply NoDup_singleton].
    intros x Hx ->%list_elem_of_singleton. done. }
  assert (progressed s s1) as H1.
  { split; [done|..].
    - intros q Hq _. unfold s1. cbn. apply elem_of_app. by left.
    - intros q Hq. exists q. split; [unfold s1; cbn; apply elem_of_app; by left|done].
    - unfold s1. by rewrite completed_app. }
  pose proof (gentle_moved (Accounts.in_plans (SubscriptionGift.grant_subscription_gift (gift_of p) now)) s1 (gentle_gift _ _) Hok) as [H2 E2].
  unfold post. fold (gift_for p now) in H2, E2. split.
  - etransitivity; [exact H1|]. by eapply moved_progressed.
  - exact (mv_sessions _ _ _ _ H2).
  - rewrite E2. unfold s1. cbn. rewrite length_app. cbn. lia.
Qed.

Lemma create_plan_moved q n now s : Accounts.accounts_ok (x_accounts s) → post (create_plan q n now) s (λ _ s', moved 0 0 s s').
Proof.
  intros Hok. pose proof (moved_refl s Hok) as H0. unfold create_plan. apply post_bind, post_get. cbv beta iota. apply post_bind.
  case_bool_decide; [apply post_ret|exact H0]. apply post_bind. unfold post.
  destruct (gentle_moved _ s (gentle_save_plan q (SmsSubscription.Line None "app" "telebirr" None None now)) Hok) as [H1 _].
  destruct (in_accounts _ s) as [[e|[]] s1]; [exact H1|]. cbn [fst snd] in *. unfold set_telebirr_phone.
  destruct (gentle_moved _ s1 (gentle_telebirr (λ a, match n with Some n => <[sp_id q := n]> (Accounts.a_telebirr a) | None => delete (sp_id q) (Accounts.a_telebirr a) end))
    (mv_ok _ _ _ _ H1)) as [H2 _].
  exact (moved_trans _ _ _ _ _ _ _ H1 H2).
Qed.

Lemma close_charged pu reference d now s : sound s → charged s (initiate_close pu reference d now s).2.
Proof.
  intros Hs. assert (post (initiate_close pu reference d now) s (λ _ s', charged s s')) as H; [|exact H].
  unfold initiate_close. apply post_bind, post_get. cbv beta iota zeta. apply post_bind.
  eapply post_conseq; [apply create_plan_moved, Hs|]. intros [e|[]] s1 H1; [by apply moved_charged|].
  apply post_bind. pose proof (moved_charged _ _ Hs H1) as [P1 N1 L1]. pose proof (moved_sound _ _ _ _ H1 Hs) as Hs1.
  eapply post_conseq; [apply create_payment_charged; [exact Hs1|done]|].
  assert (length (x_payments s1) = length (x_payments s)) as Hlen
    by (by rewrite <- (length_fmap py_id), (mv_ids _ _ _ _ H1), length_fmap).
  assert (∀ s2, charged s1 s2 → charged s s2) as Hboth by (intros s2 [P2 N2 L2]; split; [by etransitivity|congruence|lia]).
  intros [e|[]] s2 H2; exact (Hboth s2 H2).
Qed.

Lemma close_unactivated pu reference d now s : sound s → unactivated s (initiate_close pu reference d now s).2.
Proof.
  intros [Hs _]. unfold initiate_close. rewrite bind_run. cbn [get]. cbv zeta. rewrite bind_run.
  match goal with |- context [create_plan ?p ?n now s] =>
    destruct (create_plan_planned p n now s Hs) as [[e ->]|[Hn (s1 & -> & P1)]]; [by apply kept_unactivated|] end.
  rewrite bind_run. match goal with |- context [create_payment ?p now s1] => set (pay := p) end.
  assert (kept s1 (create_payment pay now s1).2) as K.
  { assert (post (create_payment pay now) s1 (λ _ s2, kept s1 s2)) as H; [|exact H]. unfold create_payment.
    apply post_bind, post_get. cbv beta iota. apply post_bind. destruct (existsb _ _); [done|]. apply post_ret. cbv beta iota.
    apply post_bind. destruct (existsb _ _); [done|]. apply post_ret. cbv beta iota. apply post_bind, post_put. cbv beta iota.
    unfold post. etransitivity; [|apply kept_accounts; [apply gentle_gift|apply planless_gift|apply P1]].
    split; [done..|]. cbn. intros x [Hx| ->%list_elem_of_singleton]%elem_of_app; [done|]. by intros. }
  destruct P1 as [_ P T L X], K as [P2 T2 L2 X2].
  assert (unactivated s (create_payment pay now s1).2) as H.
  { split; [intros x Hx Hc; rewrite <- X; by apply X2| |congruence]. intros id q Hq. rewrite P2, P.
    match goal with |- <[?i := ?p]> _ !! _ = _ ↔ _ => destruct (decide (id = i)) as [->|Hne] end.
    - rewrite lookup_insert_eq, Hn. split; [|done]. by intros [= <-].
    - by rewrite lookup_insert_ne. }
  by destruct (create_payment pay now s1) as [[e|[]] s2].
Qed.

Lemma ussd_webhook_settles cb d now s :
  sound s → settles now s (telebirr_ussd_subscription_webhook short_code base_url provider cb d now s).2.
Proof.
  intros Hs. assert (settles now s s) as H0 by (left; by apply kept_unactivated).
  assert (∀ m : M store response, post m s (λ _ s', settles now s s') →
    settles now s (catch m (λ _, Some (mret (Resp 200 "error processed"))) s).2) as Hcatch.
  { intros m Hm. unfold catch. unfold post in Hm. destruct (m s) as [[e|x] s']; exact Hm. }
  apply Hcatch. destruct cb as [|[reference|] rt rc]; [done| |done].
  destruct (String.eqb reference ""); [done|]. apply post_bind. unfold post at 1.
  match goal with |- context [confirm reference ?ok d now s] =>
    pose proof (confirm_settles reference ok d now s Hs) as H1; pose proof (confirm_moved reference ok d now s Hs) as M1;
    unfold post in H1, M1; destruct (confirm reference ok d now s) as [[e|[answer|[[[p q] t] u]]] s1] end; cbn [fst snd] in *.
  1,2: by left; apply kept_unactivated.
  apply post_bind, post_get. cbv beta iota zeta. apply post_bind. apply (post_conseq _ _ (λ _ s', activates now s s')).
  - apply post_when; intros _; [|exact H1]. apply post_catch. unfold post.
    destruct (access_kept short_code base_url provider p q t (default "" (Accounts.phone_of u (x_accounts s1))) d now s1 (mv_ok _ _ _ _ M1)) as [K X].
    pose proof (activates_after _ _ _ _ H1 K X) as H2. destruct (_send_ussd_access_sms _ _ _ _ _ _ _ _ _ _) as [[e|[]] s2]; exact H2.
  - intros [e|[]] s2 H2; by right.
Qed.

Lemma coin_webhook_settles reference d now s :
  sound s → settles now s (telebirr_ussd_webhook_subscription reference d now s).2.
Proof.
  intros Hs. unfold telebirr_ussd_webhook_subscription. rewrite bind_run. cbn [get]. unfold coin_webhook_read, coin_webhook_write.
  destruct (List.find _ _) as [p|] eqn:Hf; [|left; by apply kept_unactivated]. apply (read_held _ _ _ Hs) in Hf.
  match goal with |- context [_activate_ussd_subscription_payment p ?c ?t d now] =>
    pose proof (activate_settles p c t d now s s Hf ltac:(done) (copy_current p s (proj1 Hs))) as H end.
  unfold post in H. rewrite bind_run. destruct (_activate_ussd_subscription_payment _ _ _ _ _ _) as [[e|x] s1]; cbn in H |- *.
  - left. by apply kept_unactivated. - by right.
Qed.

Definition at_time (e : event) : Z :=
  match e with Opens _ _ now | Closes _ _ _ now | Delivers _ _ now | DeliversOther _ _ now => now end.

Lemma step_settles w e : sound (wd_store w) → settles (at_time e) (wd_store w) (wd_store (step w e)).
Proof.
  intros Hs. destruct e as [r d now|k sent d now|cb d now|reference d now]; cbn [step at_time].
  - left. apply kept_unactivated. destruct (open_asked r d now (wd_store w) (proj1 Hs)) as [H _].
    destruct (initiate_open r d now (wd_store w)) as [res s']. apply H.
  - left. destruct (wd_open w !! k) as [pu|]; [|by apply kept_unactivated].
    destruct sent as [error|reference]; [by apply kept_unactivated|by apply close_unactivated].
  - by apply ussd_webhook_settles.
  - by apply coin_webhook_settles.
Qed.

(** *** The runs *)

Lemma asked_progressed s s' : sound s → asked s s' → progressed s s'.
Proof.
  intros [Hok Hnd] [H1 H2 H3 _]. split; rewrite ?H3; [by split; rewrite ?H3|done| |].
  - intros p Hp. exists p. by rewrite ?H3.
  - unfold completed, activations. rewrite (kp_lines _ _ H2), H3. lia.
Qed.

(** A verification that is there is spent once. *)
Lemma spent_once u row now s s' :
  x_sessions s !! u = Some row → PaymentOtp.vs_status row = PaymentOtp.verified →
  x_sessions s' = <[u := PaymentOtp.consumed_row now row]> (x_sessions s) →
  consumed_sessions s' = S (consumed_sessions s).
Proof.
  intros Hrow Hv Hs'. unfold consumed_sessions. rewrite Hs', map_filter_insert_True by done.
  apply map_size_insert_None. rewrite map_lookup_filter_None. right. intros row' E. cbn.
  assert (row' = row) as -> by congruence. by rewrite Hv.
Qed.

(** Payments made and pushes sent, against verifications spent. *)
Definition spent_for (w w' : world) : Prop :=
  (length (x_payments (wd_store w')) + length (wd_open w') + consumed_sessions (wd_store w)
   <= length (x_payments (wd_store w)) + length (wd_open w) + consumed_sessions (wd_store w'))%nat.

Lemma same_spent w w' :
  length (x_payments (wd_store w')) = length (x_payments (wd_store w)) → wd_open w' = wd_open w →
  x_sessions (wd_store w') = x_sessions (wd_store w) → spent_for w w'.
Proof. intros H1 H2 H3. unfold spent_for, consumed_sessions. rewrite H1, H2, H3. lia. Qed.

Lemma moved_spent n s s' l : moved n n s s' → spent_for (World s l) (World s' l).
Proof.
  intros Hm. apply same_spent; [|done|exact (mv_sessions _ _ _ _ Hm)]. cbn.
  by rewrite <- (length_fmap py_id (x_payments s')), (mv_ids _ _ _ _ Hm), length_fmap.
Qed.

Lemma step_spec w e : sound (wd_store w) → progressed (wd_store w) (wd_store (step w e)) ∧ spent_for w (step w e).
Proof.
  intros Hs. destruct w as [s l]. cbn [wd_store] in Hs. destruct e as [r d now|k sent d now|cb d now|reference d now]; cbn [step wd_store wd_open].
  - destruct (open_asked r d now s (proj1 Hs)) as [H1 H2]. destruct (initiate_open r d now s) as [res s'] eqn:E. cbn [fst snd] in *.
    split; [by apply asked_progressed|]. unfold spent_for. cbn [wd_store wd_open]. rewrite (as_payments _ _ H1).
    assert (consumed_sessions s <= consumed_sessions s')%nat as Hle.
    { destruct (as_sessions _ _ H1) as [E'|(u & row & now' & Hrow & Hv & E')]; [unfold consumed_sessions; by rewrite E'|].
      rewrite (spent_once u row now' s s'); [lia|done..]. }
    destruct res as [e|[refusal|pu]]; [lia..|]. destruct (H2 pu eq_refl) as (_ & _ & _ & _ & _ & u & row & e & _ & Hrow & Hv & _ & _ & _ & _ & _ & E').
    rewrite (spent_once u row now s s'); [|done..]. rewrite length_app. cbn. lia.
  - destruct (l !! k) as [pu|] eqn:Hk; [|split; [by apply progressed_refl|unfold spent_for; lia]].
    apply lookup_lt_Some in Hk as Hlt. pose proof (length_delete l k ltac:(eauto)) as Hlen. cbn [wd_store].
    destruct sent as [error|reference]; [split; [by apply progressed_refl|unfold spent_for; cbn; lia]|].
    destruct (close_charged pu reference d now s Hs) as [P N L]. split; [done|]. unfold spent_for, consumed_sessions. cbn. rewrite N. lia.
  - destruct (ussd_webhook_moved short_code base_url provider cb d now s Hs) as [n Hn]. split; [by eapply moved_progressed|by eapply moved_spent].
  - destruct (coin_webhook_moved reference d now s Hs) as [n Hn]. split; [by eapply moved_progressed|by eapply moved_spent].
Qed.

Lemma run_spec es w : sound (wd_store w) → progressed (wd_store w) (wd_store (run es w)) ∧ spent_for w (run es w).
Proof.
  revert w. induction es as [|e es IH]; intros w Hs; [split; [by apply progressed_refl|unfold spent_for; cbn; lia]|].
  destruct (step_spec w e Hs) as [P1 S1]. destruct (IH (step w e) (pr_sound _ _ P1)) as [P2 S2].
  split; [by etransitivity|]. unfold spent_for in *. cbn [run foldl] in *. unfold run in *. lia.
Qed.

Lemma run_sound es w : sound (wd_store w) → sound (wd_store (run es w)).
Proof. intros Hs. apply (pr_sound _ _ (proj1 (run_spec es w Hs))). Qed.

(** C31.  Over any sequence of requests, answers of the gateway and deliveries
    of either webhook, each served whole, a payment that was settled stays as
    it is and one that waits keeps its conversation and its amount.  Each step
    either completes one waiting payment and makes the plan that it then names
    active -- from that moment, for the days of its tier, in the hands of who
    had it or of who paid, with one line of history -- or completes no payment,
    makes no plan active, changes no active plan and writes no line. *)
Theorem purchases_settle_once es w :
  sound (wd_store w) →
  let s := wd_store w in let s' := wd_store (run es w) in
  (∀ p, p ∈ x_payments s → py_status p ≠ "pending" → p ∈ x_payments s')
  ∧ (∀ p, p ∈ x_payments s → ∃ p', p' ∈ x_payments s' ∧ py_id p' = py_id p ∧ py_reference p' = py_reference p ∧ py_amount p' = py_amount p)
  ∧ NoDup (py_id <$> x_payments s')
  ∧ (completed s' + activations s = completed s + activations s')%nat
  ∧ ∀ before e after, es = before ++ e :: after →
      settles (at_time e) (wd_store (run before w)) (wd_store (run (before ++ [e]) w)).
Proof.
  intros Hs s s'. destruct (run_spec es w Hs) as [[[_ Hnd] H1 H2 H3] _]. split_and!; [done..|].
  intros before e after _. unfold run. rewrite foldl_app. cbn [foldl]. by apply step_settles, run_sound.
Qed.

(** C32.  A push is sent only for a tier on offer, at its price, and against a
    verification of exactly that number and tier made for that caller, unspent
    and unexpired, which it spends.  When it is sent the caller who is signed in
    has no plan that runs, whosever the number is; for a visitor, the account
    with the number has none or, without such an account, no plan written on
    the number runs; and no payment of the caller or of the number made in the
    last ten minutes waits.  However requests, answers and deliveries are
    ordered, pushes sent and payments made never exceed the verifications
    spent. *)
Theorem every_push_is_verified es w :
  sound (wd_store w) →
  (length (x_payments (wd_store (run es w))) + length (wd_open (run es w)) + consumed_sessions (wd_store w)
   <= length (x_payments (wd_store w)) + length (wd_open w) + consumed_sessions (wd_store (run es w)))%nat
  ∧ ∀ r d now pu s', initiate_open r d now (wd_store (run es w)) = (inr (inr pu), s') →
      verified_push r now (wd_store (run es w)) s' pu.
Proof.
  intros Hs. destruct (run_spec es w Hs) as [P Hle]. split; [exact Hle|]. intros r d now pu s' E.
  destruct (open_asked r d now _ (proj1 (pr_sound _ _ P))) as [_ H]. rewrite E in H. by apply H.
Qed.

End Run.

(** *** A payment confirmed *)

Lemma save_run p' p s0 s now :
  held p s0 s → py_id p' = py_id p → py_reference p' = py_reference p → py_amount p' = py_amount p →
  ∃ s', save_payment p' now s = (inr tt, s') ∧ p' ∈ x_payments s' ∧ plans_of s' = plans_of s ∧ tiers s' = tiers s ∧ x_offers s' = x_offers s
    ∧ moved (if String.eqb (py_status p') "completed" then 1 else 0) 0 s0 s'
    ∧ (py_status p' = "pending" → held p' s0 s').
Proof.
  intros Hh E1 E2 E3. destruct (save_moved p' p s0 s now Hh E1 E2 E3) as (Hmv & Hr & Hheld).
  destruct (save_payment p' now s) as [r s'] eqn:E. cbn in *. subst r. exists s'. split; [done|].
  destruct Hh as [Hm Hnd Hp Hs]. unfold save_payment in E. rewrite bind_run in E. unfold modify in E. fold (replace p' (x_payments s)) in E.
  unfold gift_for, in_accounts, Accounts.in_plans in E. rewrite !zoom_run in E.
  destruct (SubscriptionGift.signal_run (gift_of p') now (Accounts.plans (x_accounts s))) as (w & Hw & _); [apply (Accounts.ok_sms _ (mv_ok _ _ _ _ Hm))|].
  cbn [x_accounts with_payments] in E. rewrite Hw in E. injection E as <-. split; [|done]. cbn. apply elem_replace. left.
  split; [done|]. rewrite E1. by apply list_elem_of_fmap_2.
Qed.

(** [q'] is [q] as paid for: [u] has it unless somebody had it. *)
Definition paid_for (u : Z) (t : tier) (now : Z) (q q' : plan) : Prop :=
  sp_id q' = sp_id q ∧ sp_status q' = active ∧ sp_start q' = Some now ∧ sp_tier q' = Some (tr_id t)
  ∧ sp_user q' = Some (default u (sp_user q))
  ∧ ∀ n, tr_duration_days t = Some n → n ≠ 0 → sp_end q' = Some (now + (n + sp_free_trial_days q) * day).

Lemma activation_done p c t u q d now s0 s :
  held p s0 s → py_user p = Some u → cp_plan c = q → sp_status q = pending → tiers s !! tr_id t = Some t →
  ∃ p' q' s', _activate_ussd_subscription_payment p (Some c) (Some t) d now s = (inr (p', q'), s')
    ∧ p' ∈ x_payments s' ∧ py_id p' = py_id p ∧ py_status p' = "completed" ∧ py_plan p' = sp_id q ∧ py_user p' = Some u
    ∧ paid_for u t now q q' ∧ plans_of s' = <[sp_id q := q']> (plans_of s) ∧ moved 1 1 s0 s'.
Proof.
  intros Hh Hu Hq Hst Ht. unfold _activate_ussd_subscription_payment, resolve_payment_user. rewrite bind_run, Hu.
  cbn [mret M_ret]. rewrite bind_run, Hq, bool_decide_true by done.
  destruct (pending_run p c t now s (mv_ok _ _ _ _ (hd_moved _ _ _ Hh))) as (q' & s1 & E & (R1 & R2 & i & R3 & R4) & Hi & Ho & Hti & Hf & P1).
  pose proof (pending_held p c t now p s0 s Hh) as H1. unfold post in H1. rewrite E in H1 |- *. cbn [fst snd] in H1. rewrite Hq in Hi, Ho, Hf.
  assert (paid_for u t now q q') as Hpaid.
  { split_and!; [done..| |]; [rewrite Ho, Hu; by destruct (sp_user q)|]. intros n Hn Hz. rewrite <- Hf.
    assert (i = tr_id t) as -> by congruence. by apply (R4 t). }
  cbv zeta. rewrite bind_run.
  destruct (save_run (set_plan (sp_id q') "completed" p) p s0 s1 now H1) as (s2 & -> & Hin & Hpl & _ & _ & Hmv & _); [done..|].
  rewrite bind_run. match goal with |- context [SmsSubscription.add_history ?h] =>
    destruct (history_added h s2 (mv_ok _ _ _ _ Hmv)) as (s3 & E3 & H23); pose proof E3 as E3'; rewrite E3 end.
  assert (plans_of s3 = plans_of s2 ∧ x_payments s3 = x_payments s2) as [Hp3 Hx3] by (by injection E3' as <-).
  pose proof (moved_trans _ _ _ _ _ _ _ Hmv H23) as H3. rewrite bind_run.
  destruct (notify_kept q' (set_plan (sp_id q') "completed" p) now s3 (mv_ok _ _ _ _ H3)) as [[Hp4 _ _ _] _].
  destruct (notify_run q' (set_plan (sp_id q') "completed" p) now s3 (mv_ok _ _ _ _ H3)) as (s4 & E4 & H34 & Hx4). rewrite E4 in *.
  exists (set_plan (sp_id q') "completed" p), q', s4. split; [done|]. split_and!; try done.
  - by rewrite Hx4, Hx3. - cbn in Hp4. rewrite Hp4, Hp3, Hpl, (pn_plans _ _ _ P1). by rewrite Hi. - exact (moved_trans _ _ _ _ _ _ _ H3 H34).
Qed.

(** C33.  A payment that waits with its owner and its pending plan, and whose
    amount is the price of a tier on offer, is never lost when the gateway
    confirms it: the webhook answers that the plan is active, the payment is
    completed, and its plan runs from now for the tier's days, in the hands of
    its owner, who has access until it ends; no other plan changes. *)
Theorem confirmed_payment_activates short_code base_url provider reference p u q t d now s :
  sound s → reference ≠ "" → List.find (waiting reference) (x_payments s) = Some p → py_user p = Some u →
  plans_of s !! py_plan p = Some q → sp_status q = pending →
  tier_of_amount (py_amount p) s = Some t → tiers s !! tr_id t = Some t →
  ∃ p' q' s', telebirr_ussd_subscription_webhook short_code base_url provider (Callback (Some reference) (Some "0") (Some "0")) d now s
      = (inr (Resp 200 "subscription activated"), s')
    ∧ p' ∈ x_payments s' ∧ py_id p' = py_id p ∧ py_status p' = "completed" ∧ py_plan p' = py_plan p
    ∧ plans_of s' = <[py_plan p := q']> (plans_of s) ∧ paid_for u t now q q' ∧ activations s' = S (activations s)
    ∧ ∀ later, (∀ e, sp_end q' = Some e → later < e) →
        has_active_subscription (default u (sp_user q)) later (Accounts.plans (x_accounts s')) = true.
Proof.
  intros Hs Href Hf Hu Hq Hst Ham Ht. apply String.eqb_neq in Href. pose proof (read_held _ _ _ Hs Hf) as Hh.
  assert (sp_id q = py_plan p) as Hid by (by apply (Subscriptions.ok_ids _ (Accounts.ok_sms _ (proj1 Hs)))).
  assert (∃ p' q' s1, confirm reference true d now s = (inr (inr (p', q', t, u)), s1)
    ∧ p' ∈ x_payments s1 ∧ py_id p' = py_id p ∧ py_status p' = "completed" ∧ py_plan p' = py_plan p
    ∧ paid_for u t now q q' ∧ plans_of s1 = <[py_plan p := q']> (plans_of s) ∧ moved 1 1 s s1) as (p' & q' & s1 & Hc & H1 & H2 & H3 & H4 & H5 & H6 & H7).
  { unfold confirm, atomic. rewrite bind_run. cbn [get]. rewrite Hf. cbn [negb]. rewrite bind_run. unfold webhook_user. rewrite Hu. cbv zeta.
    rewrite bind_run. destruct (save_run (set_owner u false p) p s s now Hh) as (s0 & -> & _ & Hpl & Htr & Hof & _ & Hheld); [done..|].
    specialize (Hheld (hd_pending _ _ _ Hh)). cbn [mret M_ret py_user set_owner py_amount]. rewrite bind_run. cbn [get].
    assert (tier_of_amount (py_amount p) s0 = Some t) as -> by (unfold tier_of_amount; rewrite Hof, Htr; exact Ham). rewrite bind_run.
    unfold copy_of. cbn [py_plan set_owner]. fold (plans_of s0). rewrite Hpl, Hq. cbn [fmap option_fmap option_map].
    destruct (activation_done (set_owner u false p) (Copy q (SignIn.line_of q (x_accounts s0)) (SignIn.telebirr_phone q (x_accounts s0))) t u q d now s s0 Hheld eq_refl eq_refl) as (p' & q' & s1 & -> & ? & ? & ? & ? & ? & ? & Hp & ?);
      [done|by rewrite Htr|]. exists p', q', s1. rewrite Hid, Hpl in *. done. }
  assert (∃ s2, telebirr_ussd_subscription_webhook short_code base_url provider (Callback (Some reference) (Some "0") (Some "0")) d now s
      = (inr (Resp 200 "subscription activated"), s2) ∧ moved 0 0 s1 s2 ∧ plans_of s2 = plans_of s1 ∧ x_payments s2 = x_payments s1) as (s2 & E & Hm & Hp2 & Hx2).
  { unfold telebirr_ussd_subscription_webhook. unfold catch at 1. rewrite Href, bind_run. rewrite !bool_decide_true by done. cbn [andb].
    rewrite Hc, bind_run. cbn [get]. cbv zeta. rewrite bind_run. pose proof (mv_ok _ _ _ _ H7) as Hok1.
    destruct (negb _); cbn [when]; [|exists s1; split; [done|split; [by apply moved_refl|done]]].
    pose proof (kp_plans _ _ (proj1 (access_kept short_code base_url provider p' q' t (default "" (Accounts.phone_of u (x_accounts s1))) d now s1 Hok1))) as Ha.
    pose proof (access_moved short_code base_url provider p' q' t (default "" (Accounts.phone_of u (x_accounts s1))) d now s1 Hok1) as Hb.
    assert (x_payments (_send_ussd_access_sms short_code base_url provider p' q' t (default "" (Accounts.phone_of u (x_accounts s1))) d now s1).2 = x_payments s1) as Hx
      by (unfold _send_ussd_access_sms, in_accounts; by rewrite zoom_run).
    unfold catch. destruct (_send_ussd_access_sms _ _ _ _ _ _ _ _ _ _) as [[e|[]] s2]; exists s2; done. }
  exists p', q', s2. rewrite E, Hp2, Hx2. split_and!; try done.
  - rewrite (mv_history _ _ _ _ Hm), (mv_history _ _ _ _ H7). lia.
  - intros later Hl. apply has_active_spec. left. exists (py_plan p), q'. fold (plans_of s2). rewrite Hp2, H6, lookup_insert_eq.
    destruct H5 as (_ & Hact & _ & _ & Hown & _). split; [done|]. split; [done|]. unfold is_active. rewrite bool_decide_true by done.
    destruct (sp_end q') as [e|]; [|done]. by apply Z.ltb_lt, Hl.
Qed.

End Flow.
(** ** Examples *)

Definition reads_tier (text : string) : option Z :=
  if String.eqb text "t1" then Some 1 else if String.eqb text "t2" then Some 2 else None.
Definition daily : tier := Tier 1 "Daily" "daily" (Some 1) 5 0 None.
Definition gold : tier := Tier 2 "Gold" "monthly" (Some 30) 50 0 None.
Definition verified_for (phone tier_id : string) : PaymentOtp.session :=
  PaymentOtp.Session None phone "subscription" ("subscription||" +:+ phone +:+ "|" +:+ tier_id) "" 0 0 1 None PaymentOtp.verified
    (Some 0) (Some (10 * minute)) None.
Definition shop (gold_price : Z) : @store unit :=
  Store (Accounts.with_plans (Subscriptions.Store {[ 1 := daily; 2 := gold ]} ∅ [] CoinBalance.no_wallets []) Accounts.no_accounts)
    [] [Offer 1 300 true; Offer 2 gold_price true]
    {[ 1 := verified_for "251911000001" "t1"; 2 := verified_for "251911000001" "t2"; 3 := verified_for "251711000001" "t1" ]} tt.
Definition drawn (n : Z) : draw := Draw (Accounts.Draw (10 + n) "s" "tok") "s" (100 + n) ("pay" +:+ str_int n) "123456" "0".

Definition asks (phone tier_id : string) (session : Z) : request := Request None tier_id phone "" "" (PaymentOtp.Uuid session).
Definition accepts (reference : string) : string → string → string + option string := λ _ _, inr (Some reference).
Definition buy (phone tier_id : string) (session n now : Z) (s : @store unit) : response * @store unit :=
  match telebirr_ussd_subscription_initiate (λ x, x) Accounts.plain_hash reads_tier (accepts ("conv" +:+ str_int n)) (asks phone tier_id session) (drawn n) now s with
  | (inr r, s') => (r, s') | (inl e, s') => (bad (exn_str e), s') end.
Definition deliver (n m now : Z) (s : @store unit) : response * @store unit :=
  match telebirr_ussd_subscription_webhook Accounts.plain_hash (λ _, "9286") "https://star.et/s" "" (Callback (Some ("conv" +:+ str_int n)) (Some "0") (Some "0")) (drawn m) now s with
  | (inr r, s') => (r, s') | (inl e, s') => (bad (exn_str e), s') end.
Definition view (s : @store unit) :=
  ((λ p, (py_id p, py_plan p, py_user p, py_status p)) <$> x_payments s,
   (λ kp, (kp.1, sp_user kp.2, sp_tier kp.2, sp_status kp.2, sp_end kp.2)) <$> map_to_list (s_plans (Accounts.plans (x_accounts s))),
   length (SmsSubscription.m_history (Accounts.a_sms (x_accounts s)))).

(** What the numbers are told. *)
Definition texts (s : @store unit) : list string :=
  SmsQueue.m_body <$> SmsSubscription.m_sms (Accounts.a_sms (x_accounts s)).

Lemma shop_sound gold_price : sound (shop gold_price).
Proof.
  split; [|constructor]. unfold shop. cbn [x_accounts].
  apply (gentle_frame Accounts.no_accounts); try done; [apply Accounts.no_accounts_ok|].
  split; cbn.
  - intros id t. cbn. rewrite lookup_insert_Some, lookup_singleton_Some. intros [[_ <-]|[_ [_ <-]]]; done.
  - apply CoinBalance.wallet_ok_empty.
  - intros id p. cbn. by rewrite lookup_empty.
Qed.

(** A day bought and confirmed.  The number is told that its plan "has been
    renewed", although it never had one: the request gave the plan its end,
    and [activate] takes a plan with an end for one that ran before. *)
Example bought_and_confirmed :
  let '(asked, s) := buy "251911000001" "t1" 1 1 0 (shop 5000) in
  let '(answer, s') := deliver 1 1 minute s in
  asked = Resp 200 "conv1" ∧ answer = Resp 200 "subscription activated"
  ∧ view s' = ([("pay1", 101, Some 11, "completed")], [(101, Some 11, Some 1, active, Some (day + minute))], 1%nat)
  ∧ n_message <$> s_notes (Accounts.plans (x_accounts s')) = ["Your Daily subscription has been renewed. It runs until 1970-01-02."].
Proof. by vm_compute. Qed.

(** Two tiers of one price: the confirmation activates the first, whatever
    was bought. *)
Example thirty_days_become_one :
  let '(_, s) := buy "251911000001" "t2" 2 1 0 (shop 300) in
  let '(answer, s') := deliver 1 1 minute s in
  (sp_tier <$> plans_of s !! 101 = Some (Some 2)) ∧ (sp_end <$> plans_of s !! 101 = Some (Some (30 * day)))
  ∧ answer = Resp 200 "subscription activated"
  ∧ view s' = ([("pay1", 101, Some 11, "completed")], [(101, Some 11, Some 1, active, Some (day + minute))], 1%nat).
Proof. by vm_compute. Qed.

(** A price changed while the handset asks for the PIN: the payment is taken
    and nothing is given for it. *)
Definition repriced (price : Z) (s : @store unit) : @store unit :=
  Store (x_accounts s) (x_payments s) [Offer 1 price true; Offer 2 5000 true] (x_sessions s) (x_cache s).
Example paid_at_the_old_price :
  let '(_, s) := buy "251911000001" "t1" 1 1 0 (shop 5000) in
  let '(answer, s') := deliver 1 1 minute (repriced 400 s) in
  answer = Resp 200 "tier not found"
  ∧ view s' = ([("pay1", 101, Some 11, "failed")], [(101, None, Some 1, pending, Some day)], 0%nat).
Proof. by vm_compute. Qed.

(** The account made for a number is named after its last eight digits, which
    an Ethio telecom and a Safaricom number can share: the second to pay gets
    an error at each delivery, and its payment waits for ever. *)
Example same_last_digits :
  let '(_, s1) := deliver 1 1 minute (buy "251911000001" "t1" 1 1 0 (shop 5000)).2 in
  let '(asked, s2) := buy "251711000001" "t1" 3 2 (2 * minute) s1 in
  let '(answer, s3) := deliver 2 2 (3 * minute) s2 in
  let '(again, s4) := deliver 2 3 hour s3 in
  asked = Resp 200 "conv2" ∧ answer = Resp 200 "error processed" ∧ again = answer
  ∧ view s4 = ([("pay1", 101, Some 11, "completed"); ("pay2", 102, None, "pending")],
               [(101, Some 11, Some 1, active, Some (day + minute)); (102, None, Some 1, pending, Some (day + 2 * minute))], 1%nat).
Proof. by vm_compute. Qed.

(** A caller who is signed in is asked about: a number that has an active plan
    already gets a push, and pays for a second one. *)
Definition signed_in_push (s : @store unit) : (exn + (response + pushing)) :=
  (initiate_open (λ x, x) Accounts.plain_hash reads_tier (Request (Some 12) "t1" "251911000001" "" "" (PaymentOtp.Uuid 4)) (drawn 2) (2 * minute)
     (Store (x_accounts s) (x_payments s) (x_offers s)
        {[ 4 := PaymentOtp.Session (Some 12) "251911000001" "subscription" "subscription|12|251911000001|t1" "" 0 0 1 None PaymentOtp.verified
                  (Some 0) (Some (10 * minute)) None ]} (x_cache s))).1.
Example subscribed_number_pushed_again :
  let s := (deliver 1 1 minute (buy "251911000001" "t1" 1 1 0 (shop 5000)).2).2 in
  has_active_subscription 11 (2 * minute) (Accounts.plans (x_accounts s)) = true
  ∧ Accounts.phone_of 11 (x_accounts s) = Some "251911000001"
  ∧ signed_in_push s = inr (inr (Pushing daily 300 "251911000001" (Some 12))).
Proof. by vm_compute. Qed.

(** The other webhook holds no lock between its read and its writes, and the
    plan it read goes back whole, without the mark of the bonus: two deliveries
    that overlap activate twice for one payment, with the bonus coins twice. *)
Definition write_found (found : option (payment * option copy * option tier)) (n now : Z) (s : @store unit) : @store unit :=
  (coin_webhook_write Accounts.plain_hash found (drawn n) now s).2.
Definition coins_of (u : Z) (s : @store unit) : Z := CoinBalance.total_of u (s_coins (Accounts.plans (x_accounts s))).
Example overlapping_deliveries_activate_twice :
  let s := (buy "251911000001" "t1" 1 1 0 (shop 5000)).2 in
  let first := coin_webhook_read "conv1" s in
  let second := coin_webhook_read "conv1" s in
  let s1 := write_found first 1 minute s in
  let s2 := write_found second 1 (2 * minute) s1 in
  completed s1 = 1%nat ∧ activations s1 = 1%nat ∧ coins_of 11 s1 = 105
  ∧ completed s2 = 1%nat ∧ activations s2 = 2%nat ∧ coins_of 11 s2 = 110.
Proof. by vm_compute. Qed.

(** *** Witnesses *)

#[local] Notation runs := (run (λ x, x) Accounts.plain_hash reads_tier (λ _, "9286") "https://star.et/s" "").

Definition signs_up (phone tier_id username pin : string) (session : Z) : request :=
  Request None tier_id phone username pin (PaymentOtp.Uuid session).
Definition purchase : list event :=
  [Opens (signs_up "0911000001" "t1" "abebe" "846273" 1) (drawn 1) 0; Closes 0 (inr (Some "conv1")) (drawn 1) second].
Definition confirmed : event := Delivers (Callback (Some "conv1") (Some "0") (Some "0")) (drawn 1) minute.
Definition sold : world := runs purchase (World (shop 5000) []).
Definition bought : @store unit := wd_store sold.

Lemma bought_sound : sound bought.
Proof. apply (run_sound _ _ _ _ _ _ purchase (World (shop 5000) [])), shop_sound. Qed.

Lemma purchases_settle_once_witness :
  completed bought = 0%nat ∧ completed (wd_store (runs [confirmed; confirmed] sold)) = 1%nat
  ∧ (sp_status <$> plans_of bought !! 101 = Some pending) ∧ (sp_status <$> plans_of (wd_store (runs [confirmed] sold)) !! 101 = Some active)
  ∧ (completed (wd_store (runs [confirmed; confirmed] sold)) + activations bought
     = completed bought + activations (wd_store (runs [confirmed; confirmed] sold)))%nat
  ∧ settles (at_time confirmed) (wd_store (runs [] sold)) (wd_store (runs ([] ++ [confirmed]) sold))
  ∧ settles (at_time confirmed) (wd_store (runs [confirmed] sold)) (wd_store (runs ([confirmed] ++ [confirmed]) sold)).
Proof.
  split; [by vm_compute|]. split; [by vm_compute|]. split; [by vm_compute|]. split; [by vm_compute|].
  destruct (purchases_settle_once (λ x, x) Accounts.plain_hash reads_tier (λ _, "9286") "https://star.et/s" "" [confirmed; confirmed] sold bought_sound)
    as (_ & _ & _ & Hcount & Hsteps).
  split; [exact Hcount|]. split; [exact (Hsteps [] confirmed [confirmed] eq_refl)|exact (Hsteps [confirmed] confirmed [] eq_refl)].
Defined.

Definition second_push := initiate_open (λ x, x) Accounts.plain_hash reads_tier (asks "251711000001" "t1" 3) (drawn 2) minute bought.
Lemma every_push_is_verified_witness :
  length (x_payments bought) = 1%nat ∧ consumed_sessions bought = 1%nat
  ∧ (length (x_payments bought) + length (wd_open sold) + consumed_sessions (shop 5000)
     <= length (x_payments (shop 5000)) + 0 + consumed_sessions bought)%nat
  ∧ ∃ pu, second_push.1 = inr (inr pu) ∧ pu_phone pu = "251711000001"
      ∧ verified_push (λ x, x) reads_tier (asks "251711000001" "t1" 3) minute bought second_push.2 pu.
Proof.
  split; [by vm_compute|]. split; [by vm_compute|].
  destruct (every_push_is_verified (λ x, x) Accounts.plain_hash reads_tier (λ _, "9286") "https://star.et/s" "" purchase (World (shop 5000) []) (shop_sound 5000))
    as [Hcount Hpush].
  split; [exact Hcount|]. exists (Pushing daily 300 "251711000001" None).
  assert (second_push.1 = inr (inr (Pushing daily 300 "251711000001" None))) as E by (by vm_compute).
  split; [exact E|]. split; [reflexivity|]. apply (Hpush _ (drawn 2)). unfold second_push in E |- *.
  destruct (initiate_open _ _ _ _ _ _ _) as [r s']. cbn [fst snd] in E |- *. by rewrite E.
Defined.

Definition waiting_payment : payment :=
  Payment "pay1" 101 (Some 11) (Some "conv1") 300 "pending" "telebirr" "daily" (Some second) (second + day) (Some "251911000001") None second.
Definition waiting_plan : plan :=
  Plan 101 (Some 11) (Some 1) pending "daily" (Some second) (Some (second + day)) None false 0 None "" None None None None None.

Lemma confirmed_payment_activates_witness :
  ∃ p' q' s', telebirr_ussd_subscription_webhook Accounts.plain_hash (λ _, "9286") "https://star.et/s" ""
       (Callback (Some "conv1") (Some "0") (Some "0")) (drawn 1) minute bought = (inr (Resp 200 "subscription activated"), s')
     ∧ p' ∈ x_payments s' ∧ py_id p' = "pay1" ∧ py_status p' = "completed" ∧ py_plan p' = 101
     ∧ plans_of s' = <[101 := q']> (plans_of bought) ∧ paid_for 11 daily minute waiting_plan q' ∧ activations s' = S (activations bought)
     ∧ ∀ later, (∀ e, sp_end q' = Some e → later < e) →
         has_active_subscription 11 later (Accounts.plans (x_accounts s')) = true.
Proof.
  apply (confirmed_payment_activates Accounts.plain_hash (λ _, "9286") "https://star.et/s" "" "conv1" waiting_payment 11 waiting_plan daily (drawn 1) minute bought bought_sound);
    by vm_compute.
Defined.

End UssdSubscription.
