(* ===== verification/SuperApp.v ===== *)
(** * SuperApp: a plan bought by one H5 order

    Models the middle of [src/api/views/subscription.py]: the order a SuperApp
    visitor places for a plan, the notification that it was paid, and the query
    by which the page asks for its state and repairs a notification that did
    not come; with the text message of [src/api/services/superapp_sms_service.py].

    An order is two steps around the request to Telebirr, and so is a query;
    the answers of both are arguments, and so is the verification of a
    notification's signature.  The store is that of [UssdSubscription] with two
    more columns of a plan, which this flow is alone in using. *)

From Stdlib Require Import ZArith Lia.
From stdpp Require Import gmap strings sorting.
From S2P Require Import Prelude Decimal StableSort Phone CoinBalance PaymentStatus Subscriptions SubscriptionGift SmsQueue SyncOrder SmsSubscription Accounts SignIn UssdSubscription.

Module SuperApp.
Import Subscriptions.

Section Flow.
Context {C : Type}.

#[local] Notation shop := (@UssdSubscription.store C).

(** [h_references] and [h_orders]: [payment_reference], [payment_order_id]. *)
Record store := Store { h_shop : shop; h_references : gmap Z string; h_orders : gmap Z string }.

Definition with_shop (x : shop) (s : store) : store := Store x (h_references s) (h_orders s).
Definition in_shop {A} : M shop A → M store A := zoom h_shop with_shop.
Definition accounts (s : store) : Accounts.store := UssdSubscription.x_accounts (h_shop s).
Definition plans (s : store) : Subscriptions.store := Accounts.plans (accounts s).

(** ** The order *)

Record request := Request { rq_user : option Z; rq_plan_type : string; rq_phone_number : string }.

Definition ALLOWED_PLAN_TYPES : list string := ["daily"; "weekly"; "monthly"].

Definition tier_of_type (plan_type : string) (s : store) : option tier :=
  let tiers := UssdSubscription.tiers (h_shop s) in
  let of_type o := match tiers !! UssdSubscription.of_tier o with Some t => String.eqb (tr_duration_type t) plan_type | None => false end in
  match List.find (λ o, UssdSubscription.of_is_active o && of_type o) (UssdSubscription.x_offers (h_shop s)) with
  | Some o => tiers !! UssdSubscription.of_tier o
  | None => None
  end.

Definition price_of (t : Z) (s : store) : option Z :=
  UssdSubscription.of_price_etb <$> List.find (λ o, UssdSubscription.of_tier o =? t) (UssdSubscription.x_offers (h_shop s)).

(** What the request holds while the order is placed; [clock] is what
    [strftime] prints. *)
Record ordering := Ordering { og_request : request; og_tier : tier; og_merch_order_id : string }.

Definition one_time_open (r : request) (clock : string) (s : store) : response + ordering :=
  let plan_type := rq_plan_type r in
  if String.eqb plan_type "" then inl (bad "plan_type is required")
  else if String.eqb plan_type "ondemand" then inl (bad "On-demand purchases are not available through this endpoint.")
  else if negb (bool_decide (plan_type ∈ ALLOWED_PLAN_TYPES)) then inl (bad "Invalid plan_type")
  else match tier_of_type plan_type s with
  | None => inl (bad "No active subscription tier found for plan type")
  | Some t =>
      if bool_decide (rq_user r = None) && String.eqb (rq_phone_number r) ""
      then inl (bad "phone_number is required for unauthenticated users")
      else
        let user_id := match rq_user r with
                       | Some u => str_int u
                       | None => UssdSubscription.last_chars 8 (rq_phone_number r)
                       end in
        inr (Ordering r t ("SUB" +:+ clock +:+ user_id))
  end.

(** An active plan that has an end, and has not reached it. *)
Definition running (user now : Z) (p : plan) : bool :=
  bool_decide (sp_user p = Some user) && bool_decide (sp_status p = active)
  && match sp_end p with Some e => now <? e | None => false end.

(** [filter(str.isdigit, phone_number)], of ASCII. *)
Definition cleaned (phone : string) : string :=
  String.string_of_list_ascii (List.filter (λ c, bool_decide (is_Some (SyncOrder.digit_of c))) (String.list_ascii_of_string phone)).
Definition after (n : nat) (s : string) : string := String.substring n (String.length s - n) s.
Definition phone_variants (phone : string) : list string :=
  let c := cleaned phone in
  if String.prefix "251" c then [c; "0" +:+ after 3 c]
  else if String.prefix "0" c then [c; "251" +:+ after 1 c]
  else [c].

Definition existing_active (r : request) (now : Z) (s : store) : option plan :=
  let of_user u := List.find (running u now) (SignIn.newest_first (accounts s)) in
  match rq_user r with
  | Some u => of_user u
  | None =>
      match List.find (λ up : Z * option string, SignIn.among (phone_variants (rq_phone_number r)) up.2) (Accounts.profiles (accounts s)) with
      | Some (u, _) => of_user u
      | None => None
      end
  end.

(** After the order; the body is one [try]. *)
Definition one_time_close (og : ordering) (ordered : string + string) (plan_id now : Z) : M store response :=
  match ordered with
  | inl error => mret (Resp 500 "Failed to create Telebirr order")
  | inr raw_request =>
      catch (
        s ← get;
        let r := og_request og in
        let t := og_tier og in
        let days := default 0 (tr_duration_days t) in
        match existing_active r now s with
        | Some p =>
            match tier_of p (plans s) with
            | Some _ => mret (bad "You already have an active subscription. Please cancel it first or wait for it to expire.")
            | None => raise (AttributeError "'NoneType' object has no attribute 'name'")
            end
        | None =>
            let phone := match rq_user r with Some u => Accounts.phone_of u (accounts s) | None => Some (rq_phone_number r) end in
            in_shop (UssdSubscription.create_plan
              (Plan plan_id (rq_user r) (Some (tr_id t)) pending (rq_plan_type r) (Some now)
                 (if days =? 0 then None else Some (now + days * day)) None false 0 None "" None None None None None) phone now) ≫= λ _,
            modify (λ s, Store (h_shop s) (<[plan_id := og_merch_order_id og]> (h_references s)) (h_orders s)) ≫= λ _,
            mret (Resp 200 raw_request)
        end)
      (λ e, Some (mret (Resp 500 (exn_str e))))
  end.

(** ** The text message *)

Definition duration_text (duration_type : string) : string :=
  if String.eqb duration_type "daily" then "24 hours"
  else if String.eqb duration_type "weekly" then "7 days"
  else if String.eqb duration_type "monthly" then "30 days" else "unknown period".

(** [strftime('%d-%m-%Y %H:%M')]. *)
Definition day_first (t : Z) : string :=
  let '(y, m, d) := civil (utc_date t) in
  pad2 d +:+ "-" +:+ pad2 m +:+ "-" +:+ str_int y +:+ " " +:+ pad2 (t mod day / hour) +:+ ":" +:+ pad2 (t mod hour / minute).

Definition success_message (plan_name : string) (amount : Z) (duration_type : string) (end_date : option Z) : string :=
  "Thank you for subscribing to the " +:+ plan_name +:+ " plan. Amount: " +:+ money_str amount +:+ " ETB. Duration: "
  +:+ duration_text duration_type +:+ ". Valid until: " +:+ match end_date with Some e => day_first e | None => "N/A" end
  +:+ ". To renew, open the Telebirr SuperApp and subscribe again.".

(** The number of the plan, or that of its owner. *)
Definition number_of (p : plan) (s : store) : string :=
  or_str (default "" (SignIn.telebirr_phone p (accounts s)))
    (match sp_user p with Some u => default "" (Accounts.phone_of u (accounts s)) | None => "" end).

(** [send_subscription_success]; whatever it raises is caught. *)
Definition send_success (p : plan) (now : Z) : M store unit :=
  catch (
    s ← get;
    let number := number_of p s in
    if String.eqb number "" then mret tt
    else match tier_of p (plans s), sp_tier p ≫= λ t, price_of t s with
    | Some t, Some price =>
        in_shop (UssdSubscription.in_accounts (Accounts.in_sms (SmsSubscription.in_sms (
          SmsQueue.queue_sms number (success_message (tr_name t) price (sp_duration_type p) (sp_end p)) "superapp"
            ("telebirr-sub-active:superapp:" +:+ str_int (sp_id p)) "" "" now)))) ≫= λ _, mret tt
    | _, _ => raise (AttributeError "'NoneType' object has no attribute 'name'")
    end)
  (λ _, Some (mret tt)).

(** ** The notification *)

(** What [verify_notify] makes of the body. *)
Record notification := Notification {
  nt_verified : bool; nt_merch_order_id : string; nt_trade_status : option string; nt_payment_order_id : string
}.

(** The plans that wait under a reference. *)
Definition waits (reference : string) (s : store) (p : plan) : bool :=
  bool_decide (h_references s !! sp_id p = Some reference) && bool_decide (sp_status p = pending).

Definition paid_status (trade_status : option string) : bool :=
  bool_decide (trade_status = Some "Completed") || bool_decide (trade_status = Some "SUCCESS").

(** The owner, or an account of the name this flow gives; [None] when there is
    no number.  [create_user] is given a column that [User] does not have. *)
Definition owner_for (p : plan) (s : store) : M store (option plan) :=
  match sp_user p with
  | Some _ => mret (Some p)
  | None =>
      let raw := default "" (SignIn.telebirr_phone p (accounts s)) in
      if String.eqb raw "" then mret None
      else
        let username := "telebirr_" +:+ UssdSubscription.normalized raw in
        match List.find (λ ua, String.eqb (Accounts.ac_username ua.2) username) (map_to_list (Accounts.a_users (accounts s))) with
        | Some (u, _) => mret (Some (SignIn.set_user u p))
        | None => raise (TypeError "User() got unexpected keyword arguments: 'phone_number'")
        end
  end.

Definition save_columns (p : plan) (payment_order_id : string) : M store unit :=
  s ← get;
  in_shop (UssdSubscription.in_accounts (SignIn.save_plan p (SignIn.line_of p (accounts s)))) ≫= λ _,
  modify (λ s, Store (h_shop s) (h_references s) (<[sp_id p := payment_order_id]> (h_orders s))).

Definition add_history (h : SmsSubscription.history) : M store unit :=
  in_shop (UssdSubscription.in_accounts (Accounts.in_sms (SmsSubscription.add_history h))).

(** The payment of an activated plan: [period_end] is not null. *)
Definition record_payment (p : plan) (reference payment_id : string) (now : Z) : M store unit :=
  s ← get;
  match sp_tier p ≫= λ t, price_of t s with
  | None => raise (AttributeError "'NoneType' object has no attribute 'price_etb'")
  | Some price =>
      match sp_end p with
      | None => raise (IntegrityError "null value in column period_end")
      | Some period_end =>
          in_shop (UssdSubscription.create_payment (UssdSubscription.Payment payment_id (sp_id p) (sp_user p) (Some reference) price
            "completed" "telebirr" (sp_duration_type p) (sp_start p) period_end None None now) now)
      end
  end.

Definition set_status (st : pstatus) (p : plan) : plan := set_grace st (sp_grace_started p) (sp_grace_expires p) p.

(** Draws the key of the payment. *)
Definition settle (nt : notification) (payment_id : string) (now : Z) : M store (response + option plan) :=
  atomic (
    s ← get;
    match List.find (waits (nt_merch_order_id nt) s) (SignIn.newest_first (accounts s)) with
    | None => mret (inl (Resp 200 "no subscription found"))
    | Some p =>
        if paid_status (nt_trade_status nt) then
          owned ← owner_for p s;
          match owned with
          | None => mret (inl (Resp 200 "payment received but user creation failed"))
          | Some p =>
              save_columns p (nt_payment_order_id nt) ≫= λ _,
              p ← in_shop (UssdSubscription.activate_plan p now);
              record_payment p (or_str (nt_payment_order_id nt) (nt_merch_order_id nt)) payment_id now ≫= λ _,
              add_history (SmsSubscription.History (sp_id p) (sp_user p) (sp_tier p) "activated" "One-time Telebirr payment completed" "") ≫= λ _,
              mret (inr (Some p))
          end
        else if PaymentStatus.is_terminal (PaymentStatus.from_h5_order None (nt_trade_status nt) None).1
        then in_shop (UssdSubscription.in_accounts (SignIn.save_plan (set_status failed p) (SignIn.line_of p (accounts s)))) ≫= λ _,
             mret (inr None)
        else mret (inr None)
    end).

Definition telebirr_one_time_callback (nt : notification) (payment_id : string) (now : Z) : M store response :=
  if negb (nt_verified nt) then mret (Resp 200 "received (signature not verified)")
  else if String.eqb (nt_merch_order_id nt) "" then mret (bad "Missing merch_order_id")
  else catch (
    settled ← settle nt payment_id now;
    match settled with
    | inl answer => mret answer
    | inr activated =>
        match activated with Some p => send_success p now | None => mret tt end ≫= λ _,
        mret (Resp 200 "success")
    end)
  (λ _, Some (mret (Resp 200 "error processed"))).

(** ** The query *)

(** What [query_order] answers, if it does. *)
Inductive queried := Unanswered | Unsuccessful | Paid (payment_order_id : string) | Unpaid (order_status trade_status : option string).

(** The plan of a reference, the caller's when there is one. *)
Definition query_open (user : option Z) (reference : string) (s : store) : response + plan :=
  if String.eqb reference "" then inl (bad "merch_order_id is required")
  else match List.find (λ p, bool_decide (h_references s !! sp_id p = Some reference)
                             && match user with Some u => bool_decide (sp_user p = Some u) | None => true end)
               (SignIn.newest_first (accounts s)) with
  | None => inl (Resp 404 "Subscription not found")
  | Some p => inr p
  end.

(** The row, locked, if it still waits. *)
Definition locked (id : Z) (s : store) : option plan :=
  match s_plans (plans s) !! id with Some p => if bool_decide (sp_status p = pending) then Some p else None | None => None end.

Definition heal (id : Z) (payment_order_id : string) (now : Z) : M store (option plan) :=
  atomic (
    s ← get;
    match locked id s with
    | None => mret None
    | Some p =>
        let p := set_status active p in
        save_columns p payment_order_id ≫= λ _,
        add_history (SmsSubscription.History (sp_id p) (sp_user p) (sp_tier p) "activated"
          "Self-healed via active queryOrder (webhook was delayed/missing)" "") ≫= λ _,
        send_success p now ≫= λ _,
        mret (Some p)
    end).

Definition lose_order (id : Z) : M store (option plan) :=
  atomic (
    s ← get;
    match locked id s with
    | None => mret None
    | Some p =>
        let p := set_status failed p in
        in_shop (UssdSubscription.in_accounts (SignIn.save_plan p (SignIn.line_of p (accounts s)))) ≫= λ _, mret (Some p)
    end).

Definition SUBSCRIPTION_STATES (st : pstatus) : string :=
  match st with
  | active | expired | grace_period => PaymentStatus.SUCCESS
  | pending => PaymentStatus.PENDING
  | failed => PaymentStatus.FAILED
  | cancelled => PaymentStatus.CANCELLED
  end.

(** The state answered, and the reason of a failure. *)
Definition answer_of (p : plan) (reason : option string) : string * bool * option string * option string :=
  let state := SUBSCRIPTION_STATES (sp_status p) in
  PaymentStatus.payload state (if String.eqb state PaymentStatus.SUCCESS then None else reason).

Definition query_close (p : plan) (q : queried) (now : Z) : M store (string * bool * option string * option string) :=
  '(p, reason) ← (
    if negb (bool_decide (sp_status p = pending)) then mret (p, None)
    else catch (
      match q with
      | Unanswered => raise (DatabaseError "query_order")
      | Unsuccessful => mret (p, None)
      | Paid payment_order_id => healed ← heal (sp_id p) payment_order_id now; mret (default p healed, None)
      | Unpaid order_status trade_status =>
          let '(state, reason) := PaymentStatus.from_h5_order order_status trade_status None in
          if PaymentStatus.is_terminal state then
            failed ← lose_order (sp_id p);
            mret (default p failed, match failed with Some _ => reason | None => None end)
          else mret (p, None)
      end)
    (λ _, Some (mret (p, None))));
  mret (answer_of p reason).

(** ** What the pieces keep *)

Definition ok (s : store) : Prop := Accounts.accounts_ok (accounts s).
Definition rows (s : store) : gmap Z plan := s_plans (plans s).
Definition lines (s : store) : list SmsSubscription.history := SmsSubscription.m_history (Accounts.a_sms (accounts s)).

(** [rows'] and [added]: the plans after, and the lines of history written. *)
Record leaves (rows' : gmap Z plan) (added : list SmsSubscription.history) (s s' : store) : Prop := Leaves {
  lv_ok : ok s'; lv_rows : rows s' = rows'; lv_lines : lines s' = lines s ++ added
}.

Lemma leaves_same s : ok s → leaves (rows s) [] s s.
Proof. intros Hs. split; [done..|by rewrite app_nil_r]. Qed.

Lemma leaves_then m1 a1 m2 a2 s1 s2 s3 : leaves m1 a1 s1 s2 → leaves m2 a2 s2 s3 → leaves m2 (a1 ++ a2) s1 s3.
Proof. intros [_ _ L1] [O2 R2 L2]. split; [done..|]. by rewrite L2, L1, app_assoc. Qed.

(** An operation on the accounts that keeps them sound and adds no line. *)
Lemma gentle_leaves {A} (m : M Accounts.store A) m' s :
  UssdSubscription.gentle m → ok s → s_plans (Accounts.plans (m (accounts s)).2) = m' →
  post (in_shop (UssdSubscription.in_accounts m)) s (λ _ s', leaves m' [] s s').
Proof.
  intros Hm Hs <-. unfold in_shop, UssdSubscription.in_accounts. apply post_zoom, post_zoom. unfold post.
  destruct (Hm _ Hs) as [H1 H2]. split; [exact H1|done|]. unfold lines. rewrite app_nil_r. exact H2.
Qed.

Lemma saved_leaves p l s : ok s → post (in_shop (UssdSubscription.in_accounts (SignIn.save_plan p l))) s (λ _ s', leaves (<[sp_id p := p]> (rows s)) [] s s').
Proof. intros Hs. by apply gentle_leaves; [apply UssdSubscription.gentle_save_plan|..]. Qed.

Lemma columns_leaves p order s : ok s → post (save_columns p order) s (λ r s', r = inr tt ∧ leaves (<[sp_id p := p]> (rows s)) [] s s').
Proof.
  intros Hs. unfold save_columns. apply post_bind, post_get. cbv beta iota. apply post_bind. unfold post.
  pose proof (saved_leaves p (SignIn.line_of p (accounts s)) s Hs) as H. unfold post in H.
  assert ((in_shop (UssdSubscription.in_accounts (SignIn.save_plan p (SignIn.line_of p (accounts s)))) s).1 = inr tt) as E by done.
  destruct (in_shop _ s) as [r s1]. cbn in E, H |- *. subst r. cbn. split; [done|]. destruct H as [H1 H2 H3]. by split.
Qed.

Lemma activated_leaves p now s : ok s →
  post (in_shop (UssdSubscription.activate_plan p now)) s (λ r s', ∃ p', r = inr p' ∧ sp_id p' = sp_id p ∧ sp_status p' = active
    ∧ sp_user p' = sp_user p ∧ sp_tier p' = sp_tier p ∧ leaves (<[sp_id p := p']> (rows s)) [] s s').
Proof.
  intros Hs. destruct (activate_run p now (plans s) (Accounts.ok_sms _ Hs)) as (w & ns & E & Hok & _).
  destruct (started_keeps (tier_of p (plans s)) now p) as (H1 & H2 & H3 & _ & H5).
  set (p' := set_bonus_granted _ _) in E, Hok. exists p'.
  assert ((Accounts.in_plans (activate p now) (accounts s)).1 = inr p'
    ∧ s_plans (Accounts.plans (Accounts.in_plans (activate p now) (accounts s)).2) = <[sp_id p := p']> (rows s)) as [E1 E2].
  { unfold Accounts.in_plans. rewrite zoom_run. fold (plans s). by rewrite E. }
  unfold UssdSubscription.activate_plan.
  pose proof (gentle_leaves (Accounts.in_plans (activate p now)) _ s (UssdSubscription.gentle_activate p now) Hs E2) as H.
  unfold post in H. split_and!; try done. unfold in_shop, UssdSubscription.in_accounts. rewrite !zoom_run. exact E1.
Qed.

Lemma planned_leaves q n now s : ok s →
  post (in_shop (UssdSubscription.create_plan q n now)) s (λ r s', match r with
    | inl _ => leaves (rows s) [] s s'
    | inr _ => rows s !! sp_id q = None ∧ leaves (<[sp_id q := q]> (rows s)) [] s s' end).
Proof.
  intros Hs. unfold in_shop. apply post_zoom. unfold UssdSubscription.create_plan. apply post_bind, post_get. cbv beta iota.
  apply post_bind. destruct (decide (rows s !! sp_id q = None)) as [Hn|Hn].
  - rewrite bool_decide_true by exact Hn. apply post_ret. cbv beta iota. apply post_bind. unfold UssdSubscription.in_accounts.
    apply post_zoom. unfold post.
    destruct (UssdSubscription.gentle_save_plan q (SmsSubscription.Line None "app" "telebirr" None None now) _ Hs) as [H1 H2].
    cbn [SignIn.save_plan] in *. split; [exact Hn|]. split; [|done|].
    + eapply UssdSubscription.gentle_frame; [exact H1|done..|]. exact (Accounts.ok_sms _ H1).
    + rewrite app_nil_r. exact H2.
  - rewrite bool_decide_false by exact Hn. apply post_raise. destruct (leaves_same s Hs) as [? ? ?]. by split.
Qed.

Lemma paid_leaves py now s : ok s → post (in_shop (UssdSubscription.create_payment py now)) s (λ _ s', leaves (rows s) [] s s').
Proof.
  intros Hs. pose proof (leaves_same s Hs) as H0. unfold in_shop. apply post_zoom. unfold UssdSubscription.create_payment.
  apply post_bind, post_get. cbv beta iota. apply post_bind.
  destruct (negb _); [apply post_ret|apply post_raise; destruct H0; by split]. cbv beta iota. apply post_bind.
  destruct (negb _); [apply post_ret|apply post_raise; destruct H0; by split]. cbv beta iota. apply post_bind, post_put. cbv beta iota.
  unfold UssdSubscription.gift_for, UssdSubscription.in_accounts. apply post_zoom. unfold post.
  destruct (UssdSubscription.gentle_gift (UssdSubscription.gift_of py) now _ Hs) as [H1 H2].
  destruct (UssdSubscription.planless_gift (UssdSubscription.gift_of py) now _ Hs) as [H3 _].
  split; [exact H1|exact H3|]. unfold lines. rewrite app_nil_r. exact H2.
Qed.

Lemma line_leaves h s : ok s → post (add_history h) s (λ r s', r = inr tt ∧ leaves (rows s) [h] s s').
Proof.
  intros Hs. split; [done|]. split; [|done|done]. eapply UssdSubscription.gentle_frame; [exact Hs|done..|].
  exact (Accounts.ok_sms _ Hs).
Qed.

Lemma texted_leaves p now s : ok s → post (send_success p now) s (λ r s', r = inr tt ∧ leaves (rows s) [] s s').
Proof.
  intros Hs. pose proof (leaves_same s Hs) as H0. unfold send_success. apply post_catch, post_bind, post_get. cbv beta iota zeta.
  destruct (String.eqb _ ""); [done|]. destruct (tier_of p (plans s)); [|done]. destruct (sp_tier p ≫= _); [|done].
  apply post_bind. eapply post_conseq.
  { apply (gentle_leaves _ (rows s)); [apply UssdSubscription.gentle_sms|exact Hs|]. unfold Accounts.in_sms, SmsSubscription.in_sms. by rewrite !zoom_run. }
  intros [e|n] s' H; exact (conj eq_refl H).
Qed.

(** ** A sequence of requests, notifications and queries *)

Inductive event :=
| Orders (r : request) (clock : string)
| Ordered (k : nat) (answer : string + string) (plan_id now : Z)
| Notifies (nt : notification) (payment_id : string) (now : Z)
| Queries (user : option Z) (reference : string)
| Answers (k : nat) (q : queried) (now : Z).

(** The orders and the queries that Telebirr has not answered yet. *)
Record world := World { wd_store : store; wd_orders : list ordering; wd_queries : list plan }.

Definition step (w : world) (e : event) : world :=
  let s := wd_store w in
  match e with
  | Orders r clock =>
      World s (match one_time_open r clock s with inr og => wd_orders w ++ [og] | inl _ => wd_orders w end) (wd_queries w)
  | Ordered k answer plan_id now =>
      match wd_orders w !! k with
      | Some og => World (one_time_close og answer plan_id now s).2 (delete k (wd_orders w)) (wd_queries w)
      | None => w
      end
  | Notifies nt payment_id now => World (telebirr_one_time_callback nt payment_id now s).2 (wd_orders w) (wd_queries w)
  | Queries user reference =>
      World s (wd_orders w) (match query_open user reference s with inr p => wd_queries w ++ [p] | inl _ => wd_queries w end)
  | Answers k q now =>
      match wd_queries w !! k with
      | Some p => World (query_close p q now s).2 (wd_orders w) (delete k (wd_queries w))
      | None => w
      end
  end.

Definition run (es : list event) (w : world) : world := foldl step w es.

(** *** One plan *)

(** How often [id] was activated by this flow. *)
Definition activation (id : Z) (h : SmsSubscription.history) : bool :=
  (SmsSubscription.h_plan h =? id) && String.eqb (SmsSubscription.h_action h) "activated".
Definition times (id : Z) (s : store) : nat := length (List.filter (activation id) (lines s)).

(** What may happen to an order: it is placed, it is activated with a line of
    history, or it is lost; and then nothing more. *)
Inductive order_step : option plan * nat → option plan * nat → Prop :=
| Placed p n : sp_status p = pending → order_step (None, n) (Some p, n)
| Activated p p' n : sp_status p = pending → sp_status p' = active → order_step (Some p, n) (Some p', S n)
| Lost p p' n : sp_status p = pending → sp_status p' = failed → order_step (Some p, n) (Some p', n).

Definition order_of (id : Z) (s : store) : option plan * nat := (rows s !! id, times id s).
Definition follows (s s' : store) : Prop := ok s' ∧ ∀ id, rtc order_step (order_of id s) (order_of id s').

Lemma times_added id added s s' : lines s' = lines s ++ added → times id s' = (times id s + length (List.filter (activation id) added))%nat.
Proof. unfold times. intros ->. by rewrite List.filter_app, length_app. Qed.

Lemma follows_same s s' : leaves (rows s) [] s s' → follows s s'.
Proof.
  intros [H1 H2 H3]. split; [done|]. intros id. unfold order_of. rewrite (times_added id _ _ _ H3), H2. cbn.
  by rewrite Nat.add_0_r.
Qed.

Lemma follows_refl s : ok s → follows s s.
Proof. by split. Qed.

(** One row changes, by one step of its order. *)
Lemma follows_row id row added s s' :
  leaves (<[id := row]> (rows s)) added s s' → (∀ h, h ∈ added → SmsSubscription.h_plan h = id) →
  order_step (order_of id s) (Some row, (times id s + length (List.filter (activation id) added))%nat) → follows s s'.
Proof.
  intros [H1 H2 H3] Hplan Hstep. split; [done|]. intros v. destruct (decide (v = id)) as [->|Hv].
  - apply rtc_once. unfold order_of at 2. by rewrite (times_added id _ _ _ H3), H2, lookup_insert_eq.
  - unfold order_of. rewrite (times_added v _ _ _ H3), H2, lookup_insert_ne by done.
    replace (List.filter (activation v) added) with (@nil SmsSubscription.history); [cbn; by rewrite Nat.add_0_r|]. symmetry. clear Hstep H3. induction added as [|h l IH]; [done|].
    cbn. unfold activation at 1. rewrite (Hplan h) by (by left). apply Z.eqb_neq in Hv. rewrite Z.eqb_sym, Hv. cbn.
    apply IH. intros h' Hh'. apply Hplan. by right.
Qed.

Lemma waiting_row reference s p :
  ok s → List.find (waits reference s) (SignIn.newest_first (accounts s)) = Some p → rows s !! sp_id p = Some p ∧ sp_status p = pending.
Proof.
  intros Hs [Hin Hw]%List.find_some. apply list_elem_of_In in Hin. unfold waits in Hw.
  apply andb_true_iff in Hw as [_ Hp%bool_decide_eq_true]. split; [|done].
  by apply (SmsSubscription.in_newest (Accounts.a_sms (accounts s)) p (Accounts.ok_sms _ Hs)).
Qed.

Lemma owned_same p s s0 :
  post (owner_for p s) s0 (λ r s', s' = s0 ∧ ∀ q, r = inr (Some q) → sp_id q = sp_id p ∧ sp_status q = sp_status p).
Proof.
  unfold owner_for. destruct (sp_user p); [split; [done|]; by intros q [= <-]|]. cbv zeta. destruct (String.eqb _ ""); [done|].
  destruct (List.find _ _) as [[u a]|]; split; try done. by intros q [= <-].
Qed.

(** A notification settles one order, all of it or nothing. *)
Lemma settle_follows nt payment_id now s : ok s →
  post (settle nt payment_id now) s (λ _ s', follows s s').
Proof.
  intros Hs. pose proof (follows_refl s Hs) as H0. unfold settle. apply post_atomic, post_bind, post_get. cbv beta iota.
  destruct (List.find _ _) as [p|] eqn:Hf; [|exact H0]. apply (waiting_row _ _ _ Hs) in Hf as [Hp Hst].
  destruct (paid_status _).
  - apply post_bind. eapply post_conseq; [apply owned_same|]. intros [e|o] s0 [-> Ho]; [exact H0|].
    destruct o as [q|]; [|exact H0]. destruct (Ho q eq_refl) as [Hid Hqs]. clear Ho.
    apply post_bind. eapply post_conseq; [by apply columns_leaves|]. intros r1 s1 [-> L1].
    apply post_bind. eapply post_conseq; [apply activated_leaves, L1|]. intros r2 s2 (q' & -> & Hid' & Hact & _ & _ & L2).
    pose proof (leaves_then _ _ _ _ _ _ _ L1 L2) as L12. unfold record_payment. apply post_bind, post_bind, post_get. cbv beta iota.
    destruct (sp_tier q' ≫= _) as [price|]; [|exact H0]. destruct (sp_end q') as [e|]; [|exact H0].
    eapply post_conseq; [apply paid_leaves, L12|]. intros r3 s3 L3. pose proof (leaves_then _ _ _ _ _ _ _ L12 L3) as L13.
    destruct r3 as [e3|[]]; [exact H0|]. apply post_bind. eapply post_conseq; [apply line_leaves, L13|]. intros r4 s4 [-> L4].
    pose proof (leaves_then _ _ _ _ _ _ _ L13 L4) as L14. rewrite (lv_rows _ _ _ _ L3), (lv_rows _ _ _ _ L2), (lv_rows _ _ _ _ L1), Hid, insert_insert_eq in L14.
    apply post_ret. eapply follows_row; [exact L14| |].
    + cbn. intros h ->%list_elem_of_singleton. cbn. congruence.
    + cbn. unfold activation. cbn. rewrite Hid', Hid, Z.eqb_refl. cbn. rewrite Nat.add_1_r. unfold order_of. rewrite Hp. by constructor.
  - destruct (PaymentStatus.is_terminal _); [|exact H0]. apply post_bind.
    eapply post_conseq; [by apply saved_leaves|]. intros [e|[]] s1 L1; [exact H0|]. apply post_ret.
    eapply follows_row; [exact L1|by intros h ?%elem_of_nil|]. cbn. rewrite Nat.add_0_r. unfold order_of. rewrite Hp. by constructor.
Qed.

#[local] Instance follows_trans : Transitive follows.
Proof. intros s1 s2 s3 [_ H1] [H2 H3]. split; [done|]. intros id. etrans; eauto. Qed.

Lemma caught {A} (m : M store A) (a : exn → A) s (P : store → Prop) :
  post m s (λ _ s', P s') → P (catch m (λ e, Some (mret (a e))) s).2.
Proof. unfold post, catch. by destruct (m s) as [[e|x] s']. Qed.

Lemma callback_follows nt payment_id now s : ok s → follows s (telebirr_one_time_callback nt payment_id now s).2.
Proof.
  intros Hs. pose proof (follows_refl s Hs) as H0. unfold telebirr_one_time_callback.
  destruct (negb _); [exact H0|]. destruct (String.eqb _ ""); [exact H0|].
  apply (caught _ (λ _, _)).
  apply post_bind. eapply post_conseq; [by apply settle_follows|]. intros [e|[answer|activated]] s1 H1; [exact H1|exact H1|].
  apply post_bind. destruct activated as [p|]; [|exact H1].
  eapply post_conseq; [apply texted_leaves, H1|]. intros r s2 [-> L]. apply post_ret. etrans; [exact H1|by apply follows_same].
Qed.

Lemma close_follows og answer plan_id now s : ok s → follows s (one_time_close og answer plan_id now s).2.
Proof.
  intros Hs. pose proof (follows_refl s Hs) as H0. unfold one_time_close. destruct answer as [error|raw]; [exact H0|].
  apply (caught _ (λ e, Resp 500 (exn_str e))).
  apply post_bind, post_get. cbv beta iota zeta. destruct (existing_active _ _ _) as [p|]; [by destruct (tier_of _ _)|].
  apply post_bind. eapply post_conseq; [by apply planned_leaves|]. intros [e|[]] s1 H1; [by apply follows_same|].
  destruct H1 as [Hn L]. cbn [sp_id] in Hn, L. apply post_bind, post_modify. cbv beta iota. apply post_ret.
  set (row := Plan _ _ _ _ _ _ _ _ _ _ _ _ _ _ _ _ _) in L.
  apply (follows_row plan_id row []); [by destruct L; split|by intros h ?%elem_of_nil|]. cbn. rewrite Nat.add_0_r.
  unfold order_of. rewrite Hn. by constructor.
Qed.

Lemma locked_row id s p : ok s → locked id s = Some p → rows s !! id = Some p ∧ sp_id p = id ∧ sp_status p = pending.
Proof.
  intros Hs. unfold locked. fold (rows s). destruct (rows s !! id) as [q|] eqn:E; [|done]. case_bool_decide; [|done].
  intros [= <-]. split; [done|]. split; [|done]. by apply (ok_ids _ (Accounts.ok_sms _ Hs)).
Qed.

Lemma heal_follows id order now s : ok s → follows s (heal id order now s).2.
Proof.
  intros Hs. pose proof (follows_refl s Hs) as H0. assert (post (heal id order now) s (λ _ s', follows s s')) as H; [|exact H].
  unfold heal. apply post_atomic, post_bind, post_get. cbv beta iota. destruct (locked id s) as [p|] eqn:Hp; [|exact H0].
  apply (locked_row _ _ _ Hs) in Hp as (Hp & Hid & Hst). cbv zeta. apply post_bind. eapply post_conseq; [by apply columns_leaves|].
  intros r1 s1 [-> L1]. apply post_bind. eapply post_conseq; [apply line_leaves, L1|]. intros r2 s2 [-> L2].
  pose proof (leaves_then _ _ _ _ _ _ _ L1 L2) as L12. apply post_bind. eapply post_conseq; [apply texted_leaves, L12|].
  intros r3 s3 [-> L3]. pose proof (leaves_then _ _ _ _ _ _ _ L12 L3) as L13.
  rewrite (lv_rows _ _ _ _ L2), (lv_rows _ _ _ _ L1) in L13. change (sp_id (set_status active p)) with (sp_id p) in L13. rewrite Hid in L13.
  apply post_ret. eapply follows_row; [exact L13| |].
  - cbn. intros h ->%list_elem_of_singleton. done.
  - cbn. unfold activation. cbn. rewrite Z.eqb_refl. cbn. rewrite Nat.add_1_r. unfold order_of. rewrite Hp. by constructor.
Qed.

Lemma lose_order_follows id s : ok s → follows s (lose_order id s).2.
Proof.
  intros Hs. pose proof (follows_refl s Hs) as H0. assert (post (lose_order id) s (λ _ s', follows s s')) as H; [|exact H].
  unfold lose_order. apply post_atomic, post_bind, post_get. cbv beta iota. destruct (locked id s) as [p|] eqn:Hp; [|exact H0].
  apply (locked_row _ _ _ Hs) in Hp as (Hp & Hid & Hst). cbv zeta. apply post_bind. eapply post_conseq; [by apply saved_leaves|].
  intros [e|[]] s1 L1; [exact H0|]. apply post_ret. change (sp_id (set_status failed p)) with (sp_id p) in L1. rewrite Hid in L1.
  eapply follows_row; [exact L1|by intros h ?%elem_of_nil|]. cbn. rewrite Nat.add_0_r. unfold order_of. rewrite Hp. by constructor.
Qed.

Lemma query_follows p q now s : ok s → follows s (query_close p q now s).2.
Proof.
  intros Hs. pose proof (follows_refl s Hs) as H0. unfold query_close. rewrite bind_run.
  match goal with |- context [match ?x with pair _ _ => _ end] => enough (follows s x.2) as H; [by destruct x as [[e|[p' reason]] s']|] end.
  destruct (negb _); [exact H0|].
  apply (caught _ (λ _, (p, None))).
  destruct q as [| |order|order_status trade_status]; [exact H0|exact H0| |].
  - apply post_bind. unfold post. pose proof (heal_follows (sp_id p) order now s Hs) as H. by destruct (heal _ _ _ s) as [[e|o] s'].
  - destruct (PaymentStatus.from_h5_order _ _ _) as [state reason]. destruct (PaymentStatus.is_terminal state); [|exact H0].
    apply post_bind. unfold post. pose proof (lose_order_follows (sp_id p) s Hs) as H. by destruct (lose_order _ s) as [[e|o] s'].
Qed.

Lemma step_follows w e : ok (wd_store w) → follows (wd_store w) (wd_store (step w e)).
Proof.
  intros Hs. pose proof (follows_refl _ Hs) as H0. destruct e as [r clock|k answer plan_id now|nt payment_id now|user reference|k q now]; cbn [step].
  - exact H0. - destruct (wd_orders w !! k) as [og|]; [by apply close_follows|exact H0]. - by apply callback_follows.
  - exact H0. - destruct (wd_queries w !! k) as [p|]; [by apply query_follows|exact H0].
Qed.

Lemma run_follows es w : ok (wd_store w) → follows (wd_store w) (wd_store (run es w)).
Proof.
  revert w. induction es as [|e es IH]; intros w Hs; [by apply follows_refl|]. pose proof (step_follows w e Hs) as H1.
  etrans; [exact H1|]. apply (IH (step w e)), H1.
Qed.

(** An order that is settled makes no step. *)
Lemma settled_order p n o : sp_status p ≠ pending → rtc order_step (Some p, n) o → o = (Some p, n).
Proof. intros Hp H. inversion H as [|? y ? Hstep]; subst; [done|]. by inversion Hstep. Qed.

Lemma once_activated o o' : rtc order_step o o' → (o'.2 <= S o.2)%nat ∧ (o'.2 = S o.2 → ∃ p, o'.1 = Some p ∧ sp_status p = active).
Proof.
  induction 1 as [o|o o1 o2 Hstep Hrest IH]; [split; [lia|lia]|].
  destruct Hstep as [p n Hp|p p' n Hp Hp'|p p' n Hp Hp']; cbn in *.
  - exact IH.
  - apply settled_order in Hrest as ->; [|by rewrite Hp']. cbn. split; [lia|]. intros _. by exists p'.
  - apply settled_order in Hrest as ->; [|by rewrite Hp']. cbn. split; lia.
Qed.

(** C34.  Whatever orders, notifications and queries come, in any order and
    with any answers of Telebirr, repeated and overlapping, every order does
    what the automaton of an order allows: it is placed, then activated with
    one line of history or lost.  It is activated at most once, by whichever
    of the notification and the query is first, and once settled its plan is
    never touched again. *)
Theorem orders_refine es w :
  ok (wd_store w) →
  let s := wd_store w in let s' := wd_store (run es w) in
  ∀ id, rtc order_step (order_of id s) (order_of id s')
    ∧ (times id s' <= S (times id s))%nat
    ∧ (times id s' = S (times id s) → ∃ p, rows s' !! id = Some p ∧ sp_status p = active)
    ∧ ∀ p, rows s !! id = Some p → sp_status p ≠ pending → rows s' !! id = Some p ∧ times id s' = times id s.
Proof.
  intros Hs s s' id. destruct (run_follows es w Hs) as [_ H]. specialize (H id). fold s s' in H.
  destruct (once_activated _ _ H) as [H1 H2]. split_and!; [exact H|exact H1|exact H2|].
  intros p Hp Hst. unfold order_of in H. rewrite Hp in H. apply settled_order in H; [|done]. by simplify_eq/=.
Qed.

(** An order placed without an account is never served: once it is paid,
    every notification of it, however often it comes, is answered "error
    processed" and changes nothing, unless an account of the name this flow
    would give was there already. *)
Theorem new_customer_never_served nt payment_id now s p :
  nt_verified nt = true → nt_merch_order_id nt ≠ "" → paid_status (nt_trade_status nt) = true →
  List.find (waits (nt_merch_order_id nt) s) (SignIn.newest_first (accounts s)) = Some p →
  sp_user p = None → default "" (SignIn.telebirr_phone p (accounts s)) ≠ "" →
  (∀ u a, Accounts.a_users (accounts s) !! u = Some a →
     Accounts.ac_username a ≠ "telebirr_" +:+ UssdSubscription.normalized (default "" (SignIn.telebirr_phone p (accounts s)))) →
  telebirr_one_time_callback nt payment_id now s = (inr (Resp 200 "error processed"), s).
Proof.
  intros Hv Href%String.eqb_neq Hpaid Hf Hu Hn%String.eqb_neq Hnobody. unfold telebirr_one_time_callback. rewrite Hv, Href. cbn [negb].
  unfold catch. rewrite bind_run. unfold settle, atomic. rewrite bind_run. cbn [get]. rewrite Hf, Hpaid, bind_run.
  unfold owner_for. rewrite Hu. cbv zeta. rewrite Hn.
  destruct (List.find _ (map_to_list _)) as [[u a]|] eqn:E; [exfalso|done].
  apply List.find_some in E as [Hin Hname%String.eqb_eq]. apply list_elem_of_In, elem_of_map_to_list in Hin.
  exact (Hnobody u a Hin Hname).
Qed.

(** *** A paid order *)

(** The payment a served order leaves. *)
Definition paid_as (p : plan) (nt : notification) (payment_id : string) (price now end_ : Z) : UssdSubscription.payment :=
  UssdSubscription.Payment payment_id (sp_id p) (sp_user p) (Some (or_str (nt_payment_order_id nt) (nt_merch_order_id nt))) price
    "completed" "telebirr" (sp_duration_type p) (Some now) end_ None None now.

Definition payments (s : store) : list UssdSubscription.payment := UssdSubscription.x_payments (h_shop s).

Lemma in_accounts_payments {A} (m : M Accounts.store A) s : payments (in_shop (UssdSubscription.in_accounts m) s).2 = payments s.
Proof. unfold in_shop, UssdSubscription.in_accounts. by rewrite !zoom_run. Qed.

Lemma in_accounts_offers {A} (m : M Accounts.store A) s :
  UssdSubscription.x_offers (h_shop (in_shop (UssdSubscription.in_accounts m) s).2) = UssdSubscription.x_offers (h_shop s).
Proof. unfold in_shop, UssdSubscription.in_accounts. by rewrite !zoom_run. Qed.

Lemma texted_payments p now s : payments (send_success p now s).2 = payments s.
Proof.
  unfold send_success, catch. rewrite bind_run. cbn [get]. cbv zeta. destruct (String.eqb _ ""); [done|].
  destruct (tier_of p (plans s)); [|done]. destruct (sp_tier p ≫= _); [|done]. rewrite bind_run.
  match goal with |- context [in_shop ?m s] => pose proof (in_accounts_payments (Accounts.in_sms (SmsSubscription.in_sms
    (SmsQueue.queue_sms (number_of p s) (success_message (tr_name t) z (sp_duration_type p) (sp_end p)) "superapp"
       ("telebirr-sub-active:superapp:" +:+ str_int (sp_id p)) "" "" now))) s) as H; destruct (in_shop m s) as [[e|n] s1] end; exact H.
Qed.

(** The payment is written when its key and its reference are new. *)
Lemma payment_written py now s :
  ok s → (∀ q, q ∈ payments s → UssdSubscription.py_id q ≠ UssdSubscription.py_id py
    ∧ UssdSubscription.py_reference q ≠ UssdSubscription.py_reference py) →
  ∃ s', in_shop (UssdSubscription.create_payment py now) s = (inr tt, s') ∧ payments s' = payments s ++ [py].
Proof.
  intros Hs Hnew. unfold in_shop. rewrite zoom_run. unfold UssdSubscription.create_payment. rewrite bind_run. cbn [get]. rewrite bind_run.
  assert (∀ f, (∀ q, q ∈ payments s → f q = false) → existsb f (payments s) = false) as Hex.
  { intros f Hf. apply not_true_iff_false. intros (q & Hq & Hfq)%existsb_exists. apply list_elem_of_In in Hq. by rewrite (Hf q Hq) in Hfq. }
  fold (payments s). rewrite (Hex (λ q, _)). 2: { intros q Hq. apply String.eqb_neq, Hnew, Hq. }
  cbn [negb assert_or mret M_ret]. rewrite bind_run, (Hex (λ q, _)).
  2: { intros q Hq. rewrite (bool_decide_false (_ = _)); [by rewrite andb_false_r|apply Hnew, Hq]. }
  cbn [negb assert_or mret M_ret]. rewrite bind_run. cbn [put].
  unfold UssdSubscription.gift_for, UssdSubscription.in_accounts, Accounts.in_plans. rewrite !zoom_run. cbn [fst snd].
  destruct (SubscriptionGift.signal_run (UssdSubscription.gift_of py) now (plans s)) as (w & E & _); [apply (Accounts.ok_sms _ Hs)|].
  match goal with |- context [SubscriptionGift.grant_subscription_gift (UssdSubscription.gift_of py) now ?x] =>
    assert (SubscriptionGift.grant_subscription_gift (UssdSubscription.gift_of py) now x = (inr tt, with_coins w (plans s))) as -> by exact E end.
  by eexists.
Qed.

(** The purchases of a store: what operations on accounts do not touch. *)
Definition trade (s : store) : list UssdSubscription.payment * list UssdSubscription.offer := (payments s, UssdSubscription.x_offers (h_shop s)).

Lemma trade_price s s' t : trade s' = trade s → price_of t s' = price_of t s.
Proof. unfold trade, price_of. by intros [= _ ->]. Qed.

Lemma columns_run p order s : ok s →
  ∃ s', save_columns p order s = (inr tt, s') ∧ leaves (<[sp_id p := p]> (rows s)) [] s s' ∧ trade s' = trade s ∧ s_tiers (plans s') = s_tiers (plans s).
Proof.
  intros Hs. pose proof (columns_leaves p order s Hs) as [E L]. destruct (save_columns p order s) as [r s'] eqn:Es. cbn in E, L. subst r.
  exists s'. split; [done|]. split; [exact L|]. by injection Es as <-.
Qed.

Lemma activate_one p now s t d :
  ok s → tier_of p (plans s) = Some t → tr_duration_days t = Some d → d ≠ 0 →
  ∃ p' s', in_shop (UssdSubscription.activate_plan p now) s = (inr p', s') ∧ leaves (<[sp_id p := p']> (rows s)) [] s s' ∧ trade s' = trade s
    ∧ sp_id p' = sp_id p ∧ sp_status p' = active ∧ sp_user p' = sp_user p ∧ sp_tier p' = sp_tier p ∧ sp_start p' = Some now
    ∧ sp_end p' = Some (now + (d + sp_free_trial_days p) * day).
Proof.
  intros Hs Ht Hd Hz. destruct (activated_leaves p now s Hs) as (p' & E & H1 & H2 & H3 & H4 & L).
  destruct (activate_run p now (plans s) (Accounts.ok_sms _ Hs)) as (w & ns & E2 & _). set (q := set_bonus_granted _ _) in E2.
  assert (p' = q) as ->.
  { unfold in_shop, UssdSubscription.activate_plan, UssdSubscription.in_accounts, Accounts.in_plans in E. rewrite !zoom_run in E. cbn [fst] in E.
    change (Accounts.plans (UssdSubscription.x_accounts (h_shop s))) with (plans s) in E. rewrite E2 in E. by injection E. }
  exists q, (in_shop (UssdSubscription.activate_plan p now) s).2. split; [by rewrite <- E; destruct (in_shop _ s)|]. split; [exact L|].
  split. { unfold trade. unfold UssdSubscription.activate_plan. by rewrite in_accounts_payments, in_accounts_offers. }
  split_and!; [done..| |].
  - unfold q. cbn. apply UssdSubscription.started_start.
  - unfold q. cbn. rewrite Ht. unfold started. rewrite Hd. apply Z.eqb_neq in Hz. by rewrite Hz.
Qed.

(** C35.  An order of an account that waits is served as soon as a notification
    of its payment comes that is verified and says Completed or SUCCESS, when
    its tier has days and a price and no payment has the key drawn or the
    reference told: its plan runs from now for the days of its tier, a payment
    of the tier's price is recorded as completed, the owner has access until
    the end, and no other plan changes. *)
Theorem paid_order_served nt payment_id now s p u t d price :
  ok s → nt_verified nt = true → nt_merch_order_id nt ≠ "" → paid_status (nt_trade_status nt) = true →
  List.find (waits (nt_merch_order_id nt) s) (SignIn.newest_first (accounts s)) = Some p → sp_user p = Some u →
  tier_of p (plans s) = Some t → tr_duration_days t = Some d → d ≠ 0 → sp_tier p ≫= (λ t, price_of t s) = Some price →
  (∀ q, q ∈ payments s → UssdSubscription.py_id q ≠ payment_id
     ∧ UssdSubscription.py_reference q ≠ Some (or_str (nt_payment_order_id nt) (nt_merch_order_id nt))) →
  let end_ := now + (d + sp_free_trial_days p) * day in
  ∃ p' s', telebirr_one_time_callback nt payment_id now s = (inr (Resp 200 "success"), s')
    ∧ rows s' = <[sp_id p := p']> (rows s) ∧ sp_status p' = active ∧ sp_user p' = Some u ∧ sp_end p' = Some end_
    ∧ payments s' = payments s ++ [paid_as p' nt payment_id price now end_] ∧ times (sp_id p) s' = S (times (sp_id p) s)
    ∧ ∀ later, later < end_ → has_active_subscription u later (plans s') = true.
Proof.
  intros Hs Hv Href%String.eqb_neq Hpaid Hf Hu Ht Hd Hz Hprice Hnew end_.
  destruct (columns_run p (nt_payment_order_id nt) s Hs) as (s1 & E1 & L1 & T1 & Htiers).
  destruct (activate_one p now s1 t d (lv_ok _ _ _ _ L1)) as (p' & s2 & E2 & L2 & T2 & Hid & Hact & Hu' & Htier & Hstart & Hend);
    [unfold tier_of in *; by rewrite Htiers|done..|]. pose proof (leaves_then _ _ _ _ _ _ _ L1 L2) as L12. rewrite T1 in T2.
  set (py := paid_as p' nt payment_id price now end_).
  destruct (payment_written py now s2 (lv_ok _ _ _ _ L2)) as (s3 & E3 & P3).
  { injection T2 as -> _. exact Hnew. }
  pose proof (paid_leaves py now s2 (lv_ok _ _ _ _ L2)) as L3. unfold post in L3. rewrite E3 in L3. cbn [snd] in L3.
  pose proof (leaves_then _ _ _ _ _ _ _ L12 L3) as L13.
  set (h := SmsSubscription.History (sp_id p') (sp_user p') (sp_tier p') "activated" "One-time Telebirr payment completed" "").
  destruct (line_leaves h s3 (lv_ok _ _ _ _ L3)) as [E4 L4]. destruct (add_history h s3) as [r4 s4] eqn:Es4. cbn in E4, L4. subst r4.
  pose proof (leaves_then _ _ _ _ _ _ _ L13 L4) as L14.
  assert (settle nt payment_id now s = (inr (inr (Some p')), s4)) as Hsettle.
  { unfold settle, atomic. rewrite bind_run. cbn [get]. rewrite Hf, Hpaid, bind_run. unfold owner_for. rewrite Hu. cbn [mret M_ret].
    rewrite bind_run, E1, bind_run, E2, bind_run. unfold record_payment. rewrite bind_run. cbn [get].
    assert (sp_tier p' ≫= (λ t, price_of t s2) = Some price) as ->.
    { rewrite Htier, <- Hprice. destruct (sp_tier p); [cbn; by apply trade_price|done]. }
    rewrite Hend, Hstart. change (UssdSubscription.Payment _ _ _ _ _ _ _ _ _ _ _ _ _) with py. rewrite E3, bind_run.
    fold h. by rewrite Es4. }
  destruct (texted_leaves p' now s4 (lv_ok _ _ _ _ L4)) as [E5 L5]. pose proof (texted_payments p' now s4) as P5.
  destruct (send_success p' now s4) as [r5 s5] eqn:Es5. cbn in E5, L5, P5. subst r5.
  pose proof (leaves_then _ _ _ _ _ _ _ L14 L5) as L15.
  rewrite (lv_rows _ _ _ _ L4), (lv_rows _ _ _ _ L3), (lv_rows _ _ _ _ L2), (lv_rows _ _ _ _ L1), insert_insert_eq in L15.
  exists p', s5. split.
  { unfold telebirr_one_time_callback. rewrite Hv, Href. cbn [negb]. unfold catch. by rewrite bind_run, Hsettle, bind_run, Es5. }
  split; [apply L15|]. split; [done|]. split; [congruence|]. split; [done|].
  split. { rewrite P5. replace (payments s4) with (payments s3) by (by injection Es4 as <-). rewrite P3. by injection T2 as -> _. }
  split. { rewrite (times_added (sp_id p) _ _ _ (lv_lines _ _ _ _ L15)). cbn. unfold activation. cbn. rewrite Hid, Z.eqb_refl. cbn. lia. }
  intros later Hl. apply has_active_spec. left. exists (sp_id p), p'. fold (rows s5). rewrite (lv_rows _ _ _ _ L15), lookup_insert_eq.
  split; [done|]. split; [congruence|]. unfold is_active. rewrite bool_decide_true, Hend by done. by apply Z.ltb_lt.
Qed.

End Flow.

(** ** Examples *)

(** One account, 7, with the number 251911000001, and the shop of
    [UssdSubscription]; or nobody. *)
Definition opened (a : Accounts.store) : @store unit :=
  Store (UssdSubscription.Store (Accounts.with_plans
      (Subscriptions.Store {[ 1 := UssdSubscription.daily; 2 := UssdSubscription.gold ]} ∅ [] (s_coins (Accounts.plans a)) []) a)
    [] [UssdSubscription.Offer 1 300 true; UssdSubscription.Offer 2 5000 true] ∅ tt) ∅ ∅.
Definition customer : @store unit := opened (Accounts.set_phone 7 "251911000001" Accounts.one_account).2.
Definition stranger : @store unit := opened Accounts.no_accounts.

Definition orders (user : option Z) (phone plan_type clock : string) (plan_id now : Z) (s : @store unit) : response * @store unit :=
  match one_time_open (Request user plan_type phone) clock s with
  | inl refusal => (refusal, s)
  | inr og => match one_time_close og (inr "raw") plan_id now s with (inr r, s') => (r, s') | (inl e, s') => (bad (exn_str e), s') end
  end.
Definition told (trade_status : string) (reference : string) : notification := Notification true reference (Some trade_status) "po1".
Definition notified (nt : notification) (now : Z) (s : @store unit) : response * @store unit :=
  match telebirr_one_time_callback nt "pay1" now s with (inr r, s') => (r, s') | (inl e, s') => (bad (exn_str e), s') end.
Definition asked (q : queried) (reference : string) (now : Z) (s : @store unit) : option string * @store unit :=
  match query_open None reference s with
  | inl _ => (None, s)
  | inr p => match query_close p q now s with (inr (state, _, _, _), s') => (Some state, s') | (inl _, s') => (None, s') end
  end.

Definition row_of (id : Z) (s : @store unit) : option (option Z * pstatus * option Z) := (λ p, (sp_user p, sp_status p, sp_end p)) <$> rows s !! id.
Definition coins_of (u : Z) (s : @store unit) : Z := CoinBalance.total_of u (s_coins (plans s)).
Definition texts (s : @store unit) : list string := SmsQueue.m_body <$> SmsSubscription.m_sms (Accounts.a_sms (accounts s)).

Definition ref7 : string := "SUB202601010000007".
Definition ordered_day : @store unit := (orders (Some 7) "" "daily" "20260101000000" 50 0 customer).2.

(** Ordered and paid; the second notification finds nothing. *)
Example ordered_and_paid :
  let '(answer, s) := notified (told "Completed" ref7) hour ordered_day in
  let '(again, s') := notified (told "Completed" ref7) (2 * hour) s in
  answer = Resp 200 "success" ∧ row_of 50 s = Some (Some 7, active, Some (day + hour)) ∧ length (payments s) = 1%nat
  ∧ coins_of 7 s = coins_of 7 customer + 5
  ∧ texts s = ["Thank you for subscribing to the Daily plan. Amount: 3.00 ETB. Duration: 24 hours. Valid until: 02-01-1970 01:00. To renew, open the Telebirr SuperApp and subscribe again."]
  ∧ again = Resp 200 "no subscription found" ∧ row_of 50 s' = row_of 50 s ∧ length (payments s') = 1%nat.
Proof. by vm_compute. Qed.

(** The query repairs a lost notification by the status alone: the bonus and
    the payment, with the coins it gives back, never come, and the period is
    the one given when the order was placed, so that a day healed the day
    after is over when it starts. *)
Example healed_and_over :
  let '(state, s) := asked (Paid "po1") ref7 (25 * hour) ordered_day in
  let '(answer, s') := notified (told "Completed" ref7) (26 * hour) s in
  state = Some PaymentStatus.SUCCESS ∧ row_of 50 s = Some (Some 7, active, Some day)
  ∧ has_active_subscription 7 (25 * hour) (plans s) = false ∧ coins_of 7 s' = coins_of 7 customer ∧ payments s' = []
  ∧ answer = Resp 200 "no subscription found".
Proof. by vm_compute. Qed.

(** [payment_status] knows more spellings of success than this view: the
    order of a payment reported with another of them is lost. *)
Example success_spelled_otherwise :
  PaymentStatus.from_h5_order None (Some "TRADE_SUCCESS") None = (PaymentStatus.SUCCESS, None)
  ∧ row_of 50 (notified (told "TRADE_SUCCESS" ref7) hour ordered_day).2 = Some (Some 7, failed, Some day)
  ∧ row_of 50 (notified (told "COMPLETED" ref7) hour ordered_day).2 = Some (Some 7, failed, Some day).
Proof. by vm_compute. Qed.

(** Somebody without an account. *)
Definition ref_stranger : string := "SUB2026010100000011000002".
Definition ordered_by_stranger : @store unit := (orders None "251911000002" "daily" "20260101000000" 51 0 stranger).2.
Example stranger_pays_for_nothing :
  notified (told "Completed" ref_stranger) hour ordered_by_stranger = (Resp 200 "error processed", ordered_by_stranger)
  ∧ row_of 51 (asked (Paid "po1") ref_stranger hour ordered_by_stranger).2 = Some (None, active, Some day).
Proof. by vm_compute. Qed.

(** *** Witnesses *)

Lemma opened_shop_ok a : Accounts.accounts_ok a → ok (opened a).
Proof.
  intros Ha. apply (UssdSubscription.gentle_frame a); try done. split; cbn.
  - intros id t. cbn. rewrite lookup_insert_Some, lookup_singleton_Some. intros [[_ <-]|[_ [_ <-]]]; done.
  - apply (Accounts.ok_sms _ Ha).
  - intros id p. cbn. by rewrite lookup_empty.
Qed.

Lemma customer_ok : ok customer.
Proof.
  apply opened_shop_ok. rewrite Accounts.set_phone_run. destruct (Accounts.phone_used 7 "251911000001" Accounts.one_account) eqn:E.
  - by vm_compute in E.
  - apply Accounts.phone_set_ok; [|exact E].
    pose proof (UssdSubscription.gentle_create Accounts.plain_hash "Ammen" (Some "204403") "" (Accounts.Draw 7 "s" "t7") 0 _ Accounts.no_accounts_ok) as [H _].
    exact H.
Qed.

Definition placing : list event := [Orders (Request (Some 7) "daily" "") "20260101000000"; Ordered 0 (inr "raw") 50 0].
Definition placed : @world unit := run placing (World customer [] []).

Lemma placed_ok : ok (wd_store placed).
Proof. apply (run_follows placing (World customer [] []) customer_ok). Qed.

Lemma orders_refine_witness :
  let later := run [Notifies (told "Completed" ref7) "pay1" hour; Queries None ref7; Answers 0 (Paid "po1") (2 * hour)] placed in
  times 50 (wd_store placed) = 0%nat ∧ times 50 (wd_store later) = 1%nat
  ∧ rtc order_step (order_of 50 (wd_store placed)) (order_of 50 (wd_store later)).
Proof.
  cbv zeta. split; [by vm_compute|]. split; [by vm_compute|].
  apply (orders_refine [Notifies (told "Completed" ref7) "pay1" hour; Queries None ref7; Answers 0 (Paid "po1") (2 * hour)] placed placed_ok 50).
Defined.

Definition stranger_plan : plan :=
  Plan 51 None (Some 1) pending "daily" (Some 0) (Some day) None false 0 None "" None None None None None.
Lemma new_customer_never_served_witness :
  telebirr_one_time_callback (told "Completed" ref_stranger) "pay1" hour ordered_by_stranger
  = (inr (Resp 200 "error processed"), ordered_by_stranger).
Proof.
  apply (new_customer_never_served _ _ _ _ stranger_plan); try by vm_compute.
Defined.

Definition waiting_plan : plan :=
  Plan 50 (Some 7) (Some 1) pending "daily" (Some 0) (Some day) None false 0 None "" None None None None None.
Lemma paid_order_served_witness :
  ∃ p' s', telebirr_one_time_callback (told "Completed" ref7) "pay1" hour (wd_store placed) = (inr (Resp 200 "success"), s')
    ∧ rows s' = <[50 := p']> (rows (wd_store placed)) ∧ sp_status p' = active ∧ sp_user p' = Some 7 ∧ sp_end p' = Some (hour + (1 + 0) * day)
    ∧ payments s' = payments (wd_store placed) ++ [paid_as p' (told "Completed" ref7) "pay1" 300 hour (hour + (1 + 0) * day)]
    ∧ times 50 s' = S (times 50 (wd_store placed))
    ∧ ∀ later, later < hour + (1 + 0) * day → has_active_subscription 7 later (plans s') = true.
Proof.
  apply (paid_order_served (told "Completed" ref7) "pay1" hour (wd_store placed) waiting_plan 7 UssdSubscription.daily 1 300 placed_ok);
    try by vm_compute.
  intros q Hq. vm_compute in Hq. by apply elem_of_nil in Hq.
Defined.

End SuperApp.
