(* ===== verification/TelebirrSoap.v ===== *)
(** * TelebirrSoap: the requests to Telebirr and what is read of the answers

    Models [src/api/integrations/telebirr/direct_debit.py], which writes every
    request as text and reads every answer with regular expressions, and
    [_parse_telebirr_soap_result] of [src/api/views/direct_debit.py], which
    reads the results that come later.

    Arguments: the settings, the post itself (which may raise), and what is
    drawn for one request -- the clock as it is printed and two random numbers.
    Text is ASCII.  [debug] only prints, [payee_account_name] is computed and
    not used, and [process_callback] has no caller. *)

From Stdlib Require Import ZArith Lia.
From stdpp Require Import gmap strings.
From S2P Require Import Prelude Decimal SyncOrder SmsSubscription.

Module TelebirrSoap.

(** ** Patterns *)

(** The longest beginning in a class of characters, and the rest. *)
Fixpoint span (cls : ascii → bool) (s : string) : string * string :=
  match s with
  | String c s' => if cls c then (String c (span cls s').1, (span cls s').2) else ("", s)
  | EmptyString => ("", "")
  end.

Fixpoint after_prefix (p s : string) : option string :=
  match p, s with
  | EmptyString, _ => Some s
  | String a p', String b s' => if Ascii.eqb a b then after_prefix p' s' else None
  | String _ _, EmptyString => None
  end.

(** [re.search]: the first place where a pattern matches. *)
Fixpoint search {A} (m : string → option A) (s : string) : option A :=
  match m s with
  | Some a => Some a
  | None => match s with String _ s' => search m s' | EmptyString => None end
  end.

Definition contains (w s : string) : bool := bool_decide (is_Some (search (after_prefix w) s)).

Definition is_digit (c : ascii) : bool := bool_decide (is_Some (SyncOrder.digit_of c)).
Definition not_lt (c : ascii) : bool := negb (Ascii.eqb c "<").

(** [<tag>(cls+)</tag>]: no class holds [<], so the longest match is the only
    one. *)
Definition element (cls : ascii → bool) (tag s : string) : option string :=
  rest ← after_prefix ("<" +:+ tag +:+ ">") s;
  let '(v, rest) := span cls rest in
  if String.eqb v "" then None
  else _ ← after_prefix ("</" +:+ tag +:+ ">") rest; Some v.

(** [.*?close]: the text up to the first [close], and what follows it. *)
Fixpoint until (close s : string) : option (string * string) :=
  match after_prefix close s with
  | Some rest => Some ("", rest)
  | None => match s with
            | String c s' => '(a, rest) ← until close s'; Some (String c a, rest)
            | EmptyString => None
            end
  end.

(** [re.findall(open.*?close)]; every match is longer than nothing. *)
Fixpoint findall (fuel : nat) (open close s : string) : list string :=
  match fuel with
  | O => []
  | S n =>
      match search (λ t, rest ← after_prefix open t; until close rest) s with
      | Some (a, rest) => (open +:+ a +:+ close) :: findall n open close rest
      | None => []
      end
  end.

(** ** Results *)

(** [(?:[a-zA-Z]+:)?tag>], and what follows it. *)
Definition named (tag s : string) : option string :=
  let '(letters, colon) := span SmsSubscription.is_alpha s in
  match (if String.eqb letters "" then None else after_prefix (":" +:+ tag +:+ ">") colon) with
  | Some t => Some t
  | None => after_prefix (tag +:+ ">") s
  end.

(** An element of that name, in any name space, that holds text only. *)
Definition field (tag s : string) : option string :=
  rest ← after_prefix "<" s ≫= named tag;
  let '(v, rest) := span not_lt rest in
  _ ← after_prefix "</" rest ≫= named tag; Some v.

Definition _find (tag text : string) : option string := strip <$> search (field tag) text.

Record soap_result := SoapResult {
  rs_type : option string; rs_code : option string; rs_desc : option string; rs_conversation : option string;
  rs_originator : option string; rs_transaction_id : option string; rs_mandate_id : option string
}.

Definition _parse_telebirr_soap_result (text : string) : soap_result :=
  SoapResult (_find "ResultType" text) (_find "ResultCode" text) (_find "ResultDesc" text) (_find "ConversationID" text)
    (_find "OriginatorConversationID" text) (_find "TransactionID" text) (_find "MandateID" text).

(** ** Settings *)

Record operator := Operator { op_id : string; op_credential : string }.
(** Where a request goes, and who is calling. *)
Record caller := Caller { cl_soap_url : string; cl_third_party_id : string; cl_third_party_password : string }.

Record settings := Settings {
  t_caller : caller; t_shortcode : string; t_result_url : string; t_caller_type : string; t_sp : operator; t_org : operator;
  t_b2c_shortcode : string; t_b2c_service_code : string; t_b2c_result_url : string; t_b2c_org : operator; t_b2c : caller;
  t_ussd_merchant_shortcode : string; t_ussd_result_url : string; t_ussd : caller; t_ussd_org : operator;
  t_subscription_shortcode : string; t_subscription : caller; t_subscription_sp : operator; t_subscription_org : operator;
  t_subscription_ussd_merchant_shortcode : string; t_subscription_ussd : caller; t_subscription_ussd_org : operator
}.

Definition b2c_shortcode (c : settings) : string := or_str (t_b2c_shortcode c) (t_shortcode c).
Definition subscription_ussd_merchant_shortcode (c : settings) : string :=
  or_str (t_subscription_ussd_merchant_shortcode c) (t_subscription_shortcode c).

Definition or_operator (a b : operator) : operator := Operator (or_str (op_id a) (op_id b)) (or_str (op_credential a) (op_credential b)).
Definition or_caller (a b : caller) : caller :=
  Caller (or_str (cl_soap_url a) (cl_soap_url b)) (or_str (cl_third_party_id a) (cl_third_party_id b))
    (or_str (cl_third_party_password a) (cl_third_party_password b)).

(** ** Which account a subscription is billed to *)

Definition subscription_routing_enabled (c : settings) : bool := negb (String.eqb (t_subscription_shortcode c) "").

Definition mandate_is_on_subscription_account (c : settings) (payee_identifier_value : string) : bool :=
  subscription_routing_enabled c && String.eqb (strip payee_identifier_value) (t_subscription_shortcode c).

Inductive role := sp | org | ussd.

Definition _SUBSCRIPTION_ROLES (r : role) (c : settings) : string * string * operator :=
  match r with
  | sp => ("TELEBIRR_SUBSCRIPTION_SP_OPERATOR_ID", "TELEBIRR_SUBSCRIPTION_SP_OPERATOR_CREDENTIAL", t_subscription_sp c)
  | org => ("TELEBIRR_SUBSCRIPTION_ORG_OPERATOR_ID", "TELEBIRR_SUBSCRIPTION_ORG_OPERATOR_CREDENTIAL", t_subscription_org c)
  | ussd => ("TELEBIRR_SUBSCRIPTION_USSD_ORG_OPERATOR_ID", "TELEBIRR_SUBSCRIPTION_USSD_ORG_OPERATOR_CREDENTIAL", t_subscription_ussd_org c)
  end.
Definition role_name (r : role) : string := match r with sp => "sp" | org => "org" | ussd => "ussd" end.

Record identity := Identity { id_shortcode : string; id_ussd_merchant_shortcode : string; id_operator : operator; id_caller : caller }.

(** [inl] is the text of a [TelebirrSubscriptionRoutingError]; [current] is
    the caller of the current account, for what the other has none of. *)
Definition _subscription_identity (c : settings) (r : role) (current : caller) : string + option identity :=
  if negb (subscription_routing_enabled c) then inr None
  else
    let '(id_key, credential_key, o) := _SUBSCRIPTION_ROLES r c in
    let missing := List.filter (λ kv : string * string, String.eqb kv.2 "") [(id_key, op_id o); (credential_key, op_credential o)] in
    match missing with
    | _ :: _ => inl ("Subscription telebirr account is configured (short code is set) but the " +:+ role_name r
                     +:+ " operator identity is incomplete. Unset: " +:+ String.concat ", " (fst <$> missing) +:+ ".")
    | [] =>
        let own := match r with ussd => t_subscription_ussd c | _ => t_subscription c end in
        inr (Some (Identity (t_subscription_shortcode c) (subscription_ussd_merchant_shortcode c) o (or_caller own current)))
    end.

(** The routing of a command: none for what is not a subscription. *)
Definition routing (c : settings) (r : role) (current : caller) (for_subscription : bool) : string + option identity :=
  if for_subscription then _subscription_identity c r current else inr None.

(** ** Envelopes *)

(** What is drawn: [%Y%m%d%H%M%S] and [%Y%m%d] of the clock, two UUIDs in
    hexadecimal. *)
Record draw := Draw { dw_stamp : string; dw_date : string; dw_hex : string; dw_hex2 : string }.

Definition _generate_originator_conversation_id (d : draw) : string := "S_X" +:+ dw_stamp d +:+ upper (prefix_of 8 (dw_hex d)).
Definition _generate_conversation_id (d : draw) : string := "AG_" +:+ dw_date d +:+ "_" +:+ prefix_of 12 (dw_hex2 d).
Definition _generate_timestamp (d : draw) : string := dw_stamp d.

(** [in_shortcode] is empty when the dictionary has none. *)
Record initiator := Initiator { in_type : Z; in_operator : operator; in_shortcode : string }.
Record party := Party { pt_type : Z; pt_identifier : string }.

Record request := Request { rq_url : string; rq_soap_action : string; rq_envelope : string }.

Definition quoted (s : string) : string := String "034"%char (s +:+ String "034"%char "").

Definition prologue : string :=
  "<?xml version=" +:+ quoted "1.0" +:+ " encoding=" +:+ quoted "UTF-8" +:+ "?>
<soapenv:Envelope xmlns:soapenv=" +:+ quoted "http://schemas.xmlsoap.org/soap/envelope/".
Definition ns_api : string := " xmlns:api=" +:+ quoted "http://cps.huawei.com/cpsinterface/api_requestmgr".
Definition ns_req : string := " xmlns:req=" +:+ quoted "http://cps.huawei.com/cpsinterface/request".
Definition ns_com : string := " xmlns:com=" +:+ quoted "http://cps.huawei.com/cpsinterface/common".

(** [own] is the caller given, which may be empty. *)
Definition _build_soap_envelope (c : settings) (command_id : string) (i : initiator) (receiver_party : party)
    (body_xml : string) (own : caller) (d : draw) : string :=
  prologue +:+ ns_api +:+ ns_req +:+ ns_com +:+ ">
  <soapenv:Header/>
  <soapenv:Body>
    <api:Request>
      <req:Header>
        <req:Version>1.0</req:Version>
        <req:CommandID>" +:+ command_id +:+ "</req:CommandID>
        <req:OriginatorConversationID>" +:+ _generate_originator_conversation_id d +:+ "</req:OriginatorConversationID>
        <req:ConversationID>" +:+ _generate_conversation_id d +:+ "</req:ConversationID>
        <req:Caller>
          <req:CallerType>" +:+ t_caller_type c +:+ "</req:CallerType>
          <req:ThirdPartyID>" +:+ or_str (cl_third_party_id own) (cl_third_party_id (t_caller c)) +:+ "</req:ThirdPartyID>
          <req:Password>" +:+ or_str (cl_third_party_password own) (cl_third_party_password (t_caller c)) +:+ "</req:Password>
          <req:ResultURL>" +:+ t_result_url c +:+ "</req:ResultURL>
        </req:Caller>
        <req:KeyOwner>1</req:KeyOwner>
        <req:Timestamp>" +:+ _generate_timestamp d +:+ "</req:Timestamp>
      </req:Header>
      <req:Body>
        <req:Identity>
          <req:Initiator>
            <req:IdentifierType>" +:+ str_int (in_type i) +:+ "</req:IdentifierType>
            <req:Identifier>" +:+ op_id (in_operator i) +:+ "</req:Identifier>
            <req:SecurityCredential>" +:+ op_credential (in_operator i) +:+ "</req:SecurityCredential>"
  +:+ (if String.eqb (in_shortcode i) "" then "" else "
            <req:ShortCode>" +:+ in_shortcode i +:+ "</req:ShortCode>") +:+ "
          </req:Initiator>
          <req:ReceiverParty>
            <req:IdentifierType>" +:+ str_int (pt_type receiver_party) +:+ "</req:IdentifierType>
            <req:Identifier>" +:+ pt_identifier receiver_party +:+ "</req:Identifier>
          </req:ReceiverParty>
        </req:Identity>
        " +:+ body_xml +:+ "
      </req:Body>
    </api:Request>
  </soapenv:Body>
</soapenv:Envelope>".

(** ** Answers *)

(** Of an acceptance: the two conversations, the description and what the
    command adds; of a refusal: the error and the response code. *)
Inductive result (A : Type) :=
| Accepted (originator conversation message : string) (extra : A)
| Refused (error : string) (response_code : option string).
Arguments Accepted {A}.
Arguments Refused {A}.

(** What a post comes to: the text of an exception, or a status and a text. *)
Definition answer : Type := string + Z * string.

Definition response_code (text : string) : option string := search (element is_digit "res:ResponseCode") text.
Definition response_desc (text : string) : option string := search (element not_lt "res:ResponseDesc") text.

Definition read_answer {A} (d : draw) (extra : string → A) (status : Z) (text : string) : result A :=
  if status =? 200 then
    if contains "soapenv:Fault" text then Refused "SOAP Fault returned" None
    else
      let code := default "1" (response_code text) in
      let desc := default "Unknown error" (response_desc text) in
      if String.eqb code "0"
      then Accepted (_generate_originator_conversation_id d) (_generate_conversation_id d) desc (extra text)
      else Refused desc (Some code)
  else Refused ("HTTP " +:+ str_int status +:+ ": " +:+ prefix_of 200 text) None.

(** The body of a command is one [try]: [label] is how its errors begin. *)
Definition submit {A} (label : string) (post : request → answer) (d : draw) (built : string + request * (string → A)) : result A :=
  match built with
  | inl e => Refused (label +:+ ": " +:+ e) None
  | inr (rq, extra) =>
      match post rq with
      | inl e => Refused (label +:+ ": " +:+ e) None
      | inr (status, text) => read_answer d extra status text
      end
  end.

(** ** Commands *)

(** A date as it may be given. *)
Inductive date := Text (s : string) | Day (d : Z) | Moment (t : Z).

Definition yyyymmdd (d : Z) : string := let '(y, m, d) := civil d in str_int y +:+ pad2 m +:+ pad2 d.

(** [create_mandate] formats a [datetime], and prints what else it is given. *)
Definition mandate_day (d : date) : string :=
  match d with Text s => s | Day d => isoformat d | Moment t => yyyymmdd (utc_date t) end.

Definition own_caller (r : option identity) : caller := match r with Some i => id_caller i | None => Caller "" "" "" end.
Definition url_of (c : settings) (r : option identity) : string := or_str (cl_soap_url (own_caller r)) (cl_soap_url (t_caller c)).

(** The operators of the current account. *)
Definition third_party (c : settings) : operator := Operator (cl_third_party_id (t_caller c)) (cl_third_party_password (t_caller c)).
Definition sp_operator (c : settings) : initiator := Initiator 14 (or_operator (t_sp c) (third_party c)) "".
Definition org_operator (c : settings) (shortcode : string) : initiator := Initiator 11 (or_operator (t_org c) (third_party c)) shortcode.

Definition mandate_body (payee_shortcode payer_reference_number first frequency : string) (start_range_of_days end_range_of_days : Z)
    (expiry : string) : string :=
  "<req:CreateDirectDebitMandateByPayerRequest>
          <req:Payee>
            <com:IdentifierType>4</com:IdentifierType>
            <com:IdentifierValue>" +:+ payee_shortcode +:+ "</com:IdentifierValue>
          </req:Payee>
          <req:DirectDebitMandateInfo>
            <com:PayerReferenceNumber>" +:+ payer_reference_number +:+ "</com:PayerReferenceNumber>
            <com:AgreedTC>1</com:AgreedTC>
            <com:FirstPaymentDate>" +:+ first +:+ "</com:FirstPaymentDate>
            <com:Frequency>" +:+ frequency +:+ "</com:Frequency>
            <com:StartRangeOfDays>" +:+ str_int start_range_of_days +:+ "</com:StartRangeOfDays>
            <com:EndRangeOfDays>" +:+ str_int end_range_of_days +:+ "</com:EndRangeOfDays>
            <com:ExpiryDate>" +:+ expiry +:+ "</com:ExpiryDate>
          </req:DirectDebitMandateInfo>
        </req:CreateDirectDebitMandateByPayerRequest>".

(** The request, and the short code the mandate is created against. *)
Definition create_mandate_request (c : settings) (payer_msisdn payer_reference_number frequency : string)
    (first_payment_date expiry_date : date) (payee_shortcode : option string) (start_range_of_days end_range_of_days : Z)
    (for_subscription : bool) (d : draw) : string + request * (string → string) :=
  match routing c sp (t_caller c) for_subscription with
  | inl e => inl e
  | inr r =>
      let payee := default (match r with Some i => id_shortcode i | None => t_shortcode c end) payee_shortcode in
      let i := match r with Some i => Initiator 14 (id_operator i) "" | None => sp_operator c end in
      inr (Request (url_of c r) "CreateDirectDebitMandateByCustomer"
             (_build_soap_envelope c "CreateDirectDebitMandateByCustomer" i (Party 1 payer_msisdn)
                (mandate_body payee payer_reference_number (mandate_day first_payment_date) frequency
                   start_range_of_days end_range_of_days (mandate_day expiry_date)) (own_caller r) d),
           λ _, payee)
  end.

Definition create_mandate (post : request → answer) (c : settings) (payer_msisdn payer_reference_number frequency : string)
    (first_payment_date expiry_date : date) (payee_shortcode : option string) (start_range_of_days end_range_of_days : Z)
    (for_subscription : bool) (d : draw) : result string :=
  submit "Mandate creation failed" post d
    (create_mandate_request c payer_msisdn payer_reference_number frequency first_payment_date expiry_date payee_shortcode
       start_range_of_days end_range_of_days for_subscription d).

Definition activate_mandate_request (c : settings) (mandate_id payer_msisdn : string) (agreed_tc : bool) (d : draw) : request :=
  Request (cl_soap_url (t_caller c)) "ActivateCustomerDirectDebitMandate"
    (_build_soap_envelope c "ActivateCustomerDirectDebitMandate" (sp_operator c) (Party 1 payer_msisdn)
       ("<req:ActivateDirectDebitMandateRequest>
          <req:MandateID>" +:+ mandate_id +:+ "</req:MandateID>
          <req:AgreedTC>" +:+ (if agreed_tc then "1" else "0") +:+ "</req:AgreedTC>
        </req:ActivateDirectDebitMandateRequest>") (Caller "" "" "") d).

Definition activate_mandate (post : request → answer) (c : settings) (mandate_id payer_msisdn : string) (agreed_tc : bool) (d : draw)
    : result unit :=
  submit "Mandate activation failed" post d (inr (activate_mandate_request c mandate_id payer_msisdn agreed_tc d, λ _, tt)).

(** [amount] is written as it is given. *)
Definition initiate_debit_request (c : settings) (payer_reference_number amount currency : string) (shortcode mandate_id : option string)
    (for_subscription : bool) (d : draw) : string + request :=
  match routing c org (t_caller c) for_subscription with
  | inl e => inl e
  | inr r =>
      let code := default (match r with Some i => id_shortcode i | None => t_shortcode c end) shortcode in
      let i := match r with Some i => Initiator 11 (id_operator i) code | None => org_operator c code end in
      let mandate_param :=
        if String.eqb (default "" mandate_id) "" then ""
        else "
            <req:Parameter>
              <com:Key>MandateID</com:Key>
              <com:Value>" +:+ default "" mandate_id +:+ "</com:Value>
            </req:Parameter>" in
      inr (Request (url_of c r) "InitTrans_Initiate Direct Debit Transaction"
             (_build_soap_envelope c "InitTrans_Initiate Direct Debit Transaction" i (Party 53 payer_reference_number)
                ("<req:TransactionRequest>
          <req:Parameters>" +:+ mandate_param +:+ "
            <req:Parameter>
              <com:Key>Amount</com:Key>
              <com:Value>" +:+ amount +:+ "</com:Value>
            </req:Parameter>
            <req:Parameter>
              <com:Key>Currency</com:Key>
              <com:Value>" +:+ currency +:+ "</com:Value>
            </req:Parameter>
          </req:Parameters>
        </req:TransactionRequest>
        <req:Remark>Direct debit for " +:+ payer_reference_number +:+ "</req:Remark>") (own_caller r) d))
  end.

(** Adds the transaction. *)
Definition initiate_debit (post : request → answer) (c : settings) (payer_reference_number amount currency : string)
    (shortcode mandate_id : option string) (for_subscription : bool) (d : draw) : result (option string) :=
  submit "Direct debit initiation failed" post d
    (match initiate_debit_request c payer_reference_number amount currency shortcode mandate_id for_subscription d with
     | inl e => inl e
     | inr rq => inr (rq, search (element not_lt "res:TransactionID"))
     end).

(** What [create_one_off_payment] makes of a date: today when there is none. *)
Definition one_off_day (today : string) (d : option date) : string :=
  match d with
  | None => today
  | Some (Text s) => s
  | Some (Day d) => yyyymmdd d
  | Some (Moment t) => yyyymmdd (utc_date t)
  end.

Definition create_one_off_payment_request (c : settings) (payer_msisdn payer_reference_number frequency : string)
    (first_payment_date expiry_date : option date) (payee_shortcode : option string) (start_range_of_days end_range_of_days : Z)
    (for_subscription : bool) (d : draw) : string + request * (string → string) :=
  match routing c sp (t_caller c) for_subscription with
  | inl e => inl e
  | inr r =>
      let first := one_off_day (dw_date d) first_payment_date in
      let expiry := one_off_day first expiry_date in
      let payee := default (match r with Some i => id_shortcode i | None => t_shortcode c end) payee_shortcode in
      let i := match r with Some i => Initiator 14 (id_operator i) "" | None => sp_operator c end in
      inr (Request (url_of c r) "CreateDirectDebitMandateByCustomer"
             (_build_soap_envelope c "CreateDirectDebitMandateByCustomer" i (Party 1 payer_msisdn)
                (mandate_body payee payer_reference_number first (or_str frequency "01") start_range_of_days end_range_of_days expiry)
                (own_caller r) d),
           λ _, payee)
  end.

Definition create_one_off_payment (post : request → answer) (c : settings) (payer_msisdn payer_reference_number frequency : string)
    (first_payment_date expiry_date : option date) (payee_shortcode : option string) (start_range_of_days end_range_of_days : Z)
    (for_subscription : bool) (d : draw) : result string :=
  submit "One-off payment request failed" post d
    (create_one_off_payment_request c payer_msisdn payer_reference_number frequency first_payment_date expiry_date payee_shortcode
       start_range_of_days end_range_of_days for_subscription d).

Definition cancel_mandate_request (c : settings) (mandate_id payer_msisdn : string) (d : draw) : request :=
  Request (cl_soap_url (t_caller c)) "CancelCustomerDirectDebitMandateByPayer"
    (_build_soap_envelope c "CancelCustomerDirectDebitMandateByPayer" (sp_operator c) (Party 1 payer_msisdn)
       ("<req:CancelDirectDebitMandateByPayerRequest>
               <req:MandateID>" +:+ mandate_id +:+ "</req:MandateID>
            </req:CancelDirectDebitMandateByPayerRequest>") (Caller "" "" "") d).

Definition cancel_mandate (post : request → answer) (c : settings) (mandate_id payer_msisdn : string) (d : draw) : result unit :=
  submit "Mandate cancellation failed" post d (inr (cancel_mandate_request c mandate_id payer_msisdn d, λ _, tt)).

(** ** The mandates of a payer *)

Record listed := Listed { ls_mandate_id : string; ls_payer_reference_number : option string; ls_mandate_status : option string }.
Record query := Query {
  qy_text : string; qy_mandate_id : option string; qy_mandate_status : option string; qy_payer_reference_number : option string;
  qy_mandates : list listed
}.

Definition blocks (prefix text : string) : list string :=
  findall (S (String.length text)) ("<" +:+ prefix +:+ ":DirectDebitMandateInfo>") ("</" +:+ prefix +:+ ":DirectDebitMandateInfo>") text.

Definition mandate_blocks (text : string) : list string :=
  match blocks "res" text with [] => blocks "com" text | l => l end.

Definition read_block (block : string) : option listed :=
  id ← search (element not_lt "com:MandateID") block;
  Some (Listed id (search (element not_lt "com:PayerReferenceNumber") block) (search (element not_lt "com:MandateStatus") block)).

Definition read_query (text : string) : query :=
  Query text (search (element not_lt "com:MandateID") text) (search (element not_lt "com:MandateStatus") text)
    (search (element not_lt "com:PayerReferenceNumber") text) (omap read_block (mandate_blocks text)).

Definition newline : string := String "010"%char "".

Definition query_mandate_by_payer_request (c : settings) (payer_msisdn : string) (mandate_statuses : list string) (for_subscription : bool)
    (d : draw) : string + request :=
  match routing c org (t_caller c) for_subscription with
  | inl e => inl e
  | inr r =>
      let i := match r with Some i => Initiator 11 (id_operator i) (id_shortcode i) | None => org_operator c (t_shortcode c) end in
      let status_xml := String.concat newline
        ((λ s, "          <req:MandateStatus>" +:+ s +:+ "</req:MandateStatus>") <$> mandate_statuses) in
      inr (Request (url_of c r) "QueryDirectDebitMandateByPayer"
             (_build_soap_envelope c "QueryDirectDebitMandateByPayer" i (Party 1 payer_msisdn)
                ("<req:QueryDirectDebitMandateByPayerRequest>
" +:+ status_xml +:+ "
        </req:QueryDirectDebitMandateByPayerRequest>") (own_caller r) d))
  end.

Definition query_mandate_by_payer (post : request → answer) (c : settings) (payer_msisdn : string) (mandate_statuses : list string)
    (for_subscription : bool) (d : draw) : result query :=
  submit "Mandate query failed" post d
    (match query_mandate_by_payer_request c payer_msisdn mandate_statuses for_subscription d with
     | inl e => inl e
     | inr rq => inr (rq, read_query)
     end).

(** ** Payouts *)

(** [None] when there is no short code to pay from; [amount] is printed with
    two places. *)
Definition b2c_request (c : settings) (receiver_msisdn : string) (amount : dec) (currency remark initiator_type : string) (d : draw)
    : option request :=
  if String.eqb (b2c_shortcode c) "" then None
  else
    let i := if String.eqb initiator_type "sp_operator" then Initiator 14 (t_sp c) ""
             else Initiator 12 (or_operator (t_b2c_org c) (t_org c)) (b2c_shortcode c) in
    let from := or_caller (t_b2c c) (t_caller c) in
    let command_id := "InitTrans_" +:+ t_b2c_service_code c in
    let reference_data :=
      if String.eqb remark "" then ""
      else "
            <req:ReferenceData>
               <req:ReferenceItem>
                  <com:Key>Remarks</com:Key>
                  <com:Value>" +:+ remark +:+ "</com:Value>
               </req:ReferenceItem>
            </req:ReferenceData>" in
    Some (Request (cl_soap_url from) command_id
      (prologue +:+ ns_com +:+ ns_api +:+ ns_req +:+ ">
   <soapenv:Header/>
   <soapenv:Body>
      <api:Request>
         <req:Header>
            <req:Version>1.0</req:Version>
            <req:CommandID>" +:+ command_id +:+ "</req:CommandID>
            <req:OriginatorConversationID>" +:+ _generate_originator_conversation_id d +:+ "</req:OriginatorConversationID>
            <req:Caller>
               <req:CallerType>" +:+ t_caller_type c +:+ "</req:CallerType>
               <req:ThirdPartyID>" +:+ cl_third_party_id from +:+ "</req:ThirdPartyID>
               <req:Password>" +:+ cl_third_party_password from +:+ "</req:Password>
               <req:ResultURL>" +:+ or_str (t_b2c_result_url c) (t_result_url c) +:+ "</req:ResultURL>
            </req:Caller>
            <req:KeyOwner>1</req:KeyOwner>
            <req:Timestamp>" +:+ _generate_timestamp d +:+ "</req:Timestamp>
         </req:Header>
         <req:Body>
            <req:Identity>
               <req:Initiator>
                  <req:IdentifierType>" +:+ str_int (in_type i) +:+ "</req:IdentifierType>
                  <req:Identifier>" +:+ op_id (in_operator i) +:+ "</req:Identifier>
                  <req:SecurityCredential>" +:+ op_credential (in_operator i) +:+ "</req:SecurityCredential>
                  <req:ShortCode>" +:+ in_shortcode i +:+ "</req:ShortCode>
               </req:Initiator>
               <req:ReceiverParty>
                  <req:IdentifierType>1</req:IdentifierType>
                  <req:Identifier>" +:+ receiver_msisdn +:+ "</req:Identifier>
               </req:ReceiverParty>
            </req:Identity>
            <req:TransactionRequest>
               <req:Parameters>
                  <req:Amount>" +:+ money_str (quantize2 amount) +:+ "</req:Amount>
                  <req:Currency>" +:+ currency +:+ "</req:Currency>
               </req:Parameters>
            </req:TransactionRequest>" +:+ reference_data +:+ "
         </req:Body>
      </api:Request>
   </soapenv:Body>
</soapenv:Envelope>")).

Definition read_b2c (d : draw) (status : Z) (text : string) : result unit :=
  if negb (status =? 200) then Refused ("HTTP " +:+ str_int status +:+ ": " +:+ prefix_of 500 text) None
  else read_answer d (λ _, tt) status text.

Definition initiate_b2c_payment (post : request → answer) (c : settings) (receiver_msisdn : string) (amount : dec)
    (currency remark initiator_type : string) (d : draw) : result unit :=
  match b2c_request c receiver_msisdn amount currency remark initiator_type d with
  | None => Refused "Payouts are not configured. Please contact support." None
  | Some rq =>
      match post rq with
      | inl e => Refused ("B2C payment initiation failed: " +:+ e) None
      | inr (status, text) => read_b2c d status text
      end
  end.

(** ** Pushes *)

(** The account of coin purchases. *)
Definition ussd_caller (c : settings) : caller := or_caller (t_ussd c) (t_caller c).
Definition ussd_operator (c : settings) : operator := or_operator (t_ussd_org c) (t_sp c).
Definition ussd_merchant_shortcode (c : settings) : string := or_str (t_ussd_merchant_shortcode c) (t_shortcode c).

Definition ussd_request (c : settings) (amount phone_number : string) (result_url : option string) (for_subscription : bool) (d : draw)
    : string + request :=
  match routing c ussd (ussd_caller c) for_subscription with
  | inl e => inl e
  | inr r =>
      let from := match r with Some i => id_caller i | None => ussd_caller c end in
      let o := match r with Some i => id_operator i | None => ussd_operator c end in
      let merchant := match r with Some i => id_ussd_merchant_shortcode i | None => ussd_merchant_shortcode c end in
      inr (Request (cl_soap_url from) "InitTrans_BuyGoodsForCustomer"
        (prologue +:+ ns_api +:+ ns_req +:+ ns_com +:+ ">
  <soapenv:Header/>
  <soapenv:Body>
    <api:Request>
      <req:Header>
        <req:Version>1.0</req:Version>
        <req:CommandID>InitTrans_BuyGoodsForCustomer</req:CommandID>
        <req:OriginatorConversationID>" +:+ _generate_originator_conversation_id d +:+ "</req:OriginatorConversationID>
        <req:ConversationID>" +:+ _generate_conversation_id d +:+ "</req:ConversationID>
        <req:Caller>
          <req:CallerType>" +:+ t_caller_type c +:+ "</req:CallerType>
          <req:ThirdPartyID>" +:+ cl_third_party_id from +:+ "</req:ThirdPartyID>
          <req:Password>" +:+ cl_third_party_password from +:+ "</req:Password>
          <req:ResultURL>" +:+ or_str (default "" result_url) (or_str (t_ussd_result_url c) (t_result_url c)) +:+ "</req:ResultURL>
        </req:Caller>
        <req:KeyOwner>1</req:KeyOwner>
        <req:Timestamp>" +:+ _generate_timestamp d +:+ "</req:Timestamp>
      </req:Header>
      <req:Body>
        <req:Identity>
          <req:Initiator>
            <req:IdentifierType>12</req:IdentifierType>
            <req:Identifier>" +:+ op_id o +:+ "</req:Identifier>
            <req:SecurityCredential>" +:+ op_credential o +:+ "</req:SecurityCredential>
            <req:ShortCode>" +:+ merchant +:+ "</req:ShortCode>
          </req:Initiator>
          <req:PrimaryParty>
            <req:IdentifierType>1</req:IdentifierType>
            <req:Identifier>" +:+ phone_number +:+ "</req:Identifier>
          </req:PrimaryParty>
          <req:ReceiverParty>
            <req:IdentifierType>4</req:IdentifierType>
            <req:Identifier>" +:+ merchant +:+ "</req:Identifier>
          </req:ReceiverParty>
        </req:Identity>
        <req:TransactionRequest>
          <req:Parameters>
            <req:Amount>" +:+ amount +:+ "</req:Amount>
            <req:Currency>ETB</req:Currency>
          </req:Parameters>
        </req:TransactionRequest>
      </req:Body>
    </api:Request>
  </soapenv:Body>
</soapenv:Envelope>"))
  end.

(** A fault is not looked for: it has no code. *)
Definition read_push (d : draw) (status : Z) (text : string) : result unit :=
  if negb (status =? 200) then Refused ("HTTP " +:+ str_int status +:+ ": " +:+ prefix_of 200 text) None
  else
    let desc := default "Unknown" (response_desc text) in
    if bool_decide (response_code text = Some "0")
    then Accepted (_generate_originator_conversation_id d)
           (default (_generate_conversation_id d) (search (element not_lt "res:ConversationID") text)) desc tt
    else Refused desc (response_code text).

Definition initiate_ussd_push_payment (post : request → answer) (c : settings) (amount phone_number : string) (result_url : option string)
    (for_subscription : bool) (d : draw) : result unit :=
  match ussd_request c amount phone_number result_url for_subscription d with
  | inl e => Refused ("USSD Push payment failed: " +:+ e) None
  | inr rq =>
      match post rq with
      | inl e => Refused ("USSD Push payment failed: " +:+ e) None
      | inr (status, text) => read_push d status text
      end
  end.

(** ** Reading a text by its markup *)

Fixpoint all_in (cls : ascii → bool) (s : string) : bool :=
  match s with String c s' => cls c && all_in cls s' | EmptyString => true end.
Notation no_lt := (all_in not_lt).

(** The text before the first [<], and what follows each [<]. *)
Fixpoint chunks (s : string) : string * list string :=
  match s with
  | EmptyString => ("", [])
  | String c s' => let '(h, t) := chunks s' in if not_lt c then (String c h, t) else ("", h :: t)
  end.

Definition closes (tag c : string) : bool :=
  match c with String "/" r => bool_decide (is_Some (named tag r)) | _ => false end.

(** The first element of a name that holds text only. *)
Fixpoint first_field (tag : string) (l : list string) : option string :=
  match l with
  | c :: ((c' :: _) as l') =>
      match named tag c with
      | Some t => if closes tag c' then Some t else first_field tag l'
      | None => first_field tag l'
      end
  | _ => None
  end.

(** [append] does not reduce by itself. *)
Lemma text_nil s : "" +:+ s = s.
Proof. done. Qed.
Lemma text_cons c a b : String c a +:+ b = String c (a +:+ b).
Proof. done. Qed.

Lemma text_assoc a b c : a +:+ b +:+ c = (a +:+ b) +:+ c.
Proof. induction a as [|x a IH]; [done|]. rewrite !text_cons. by f_equal. Qed.

(** A text that is empty or begins with [<]. *)
Definition marked (s : string) : Prop := s = "" ∨ ∃ r, s = String "<" r.
Definition markup (l : list string) : string := foldr (λ c acc, String "<" (c +:+ acc)) "" l.

Lemma markup_marked l : marked (markup l).
Proof. destruct l; [by left|right; by eexists]. Qed.

Lemma not_lt_spec c : not_lt c = true ↔ c ≠ "<"%char.
Proof. unfold not_lt. rewrite negb_true_iff. destruct (Ascii.eqb_spec c "<"); split; congruence. Qed.

Lemma chunks_print s : let '(h, l) := chunks s in s = h +:+ markup l ∧ no_lt h = true ∧ Forall (λ c, no_lt c = true) l.
Proof.
  induction s as [|c s IH]; [done|]. cbn [chunks]. destruct (chunks s) as [h l]. destruct IH as (-> & Hh & Hl).
  destruct (not_lt c) eqn:E; cbn.
  - by rewrite E, Hh.
  - split; [|by auto]. unfold not_lt in E. apply negb_false_iff, Ascii.eqb_eq in E. by subst c.
Qed.

Lemma span_app cls v rest : all_in cls v = true → (rest = "" ∨ ∃ c r, rest = String c r ∧ cls c = false) → span cls (v +:+ rest) = (v, rest).
Proof.
  intros Hv Hr. induction v as [|c v IH]; cbn in *.
  - rewrite text_nil. destruct Hr as [->|(c & r & -> & E)]; [done|]. cbn. by rewrite E.
  - apply andb_true_iff in Hv as [Hc Hv]. rewrite text_cons. cbn. by rewrite Hc, (IH Hv).
Qed.

Lemma span_text v rest : no_lt v = true → marked rest → span not_lt (v +:+ rest) = (v, rest).
Proof. intros Hv [->|[r ->]]; apply span_app; try done; [by left|right; by eexists _, _]. Qed.

(** What is looked for in a text ends before its next [<]. *)
Lemma prefix_app p c rest : no_lt p = true → marked rest → after_prefix p (c +:+ rest) = (λ t, t +:+ rest) <$> after_prefix p c.
Proof.
  intros Hp Hr. revert c. induction p as [|a p IH]; intros c; [done|]. cbn in Hp. apply andb_true_iff in Hp as [Ha Hp].
  destruct c as [|b c].
  - rewrite text_nil. destruct Hr as [->|[r ->]]; [done|]. cbn. apply not_lt_spec in Ha. by destruct (Ascii.eqb_spec a "<").
  - rewrite text_cons. cbn. destruct (Ascii.eqb a b); [by apply IH|done].
Qed.

Lemma span_chunk c rest : marked rest →
  span SmsSubscription.is_alpha (c +:+ rest) = ((span SmsSubscription.is_alpha c).1, (span SmsSubscription.is_alpha c).2 +:+ rest).
Proof.
  intros Hr. induction c as [|a c IH].
  - rewrite text_nil. by destruct Hr as [->|[r ->]].
  - rewrite text_cons. cbn. destruct (SmsSubscription.is_alpha a); [by rewrite IH|done].
Qed.

Definition tag_name (tag : string) : Prop := all_in SmsSubscription.is_alpha tag = true ∧ tag ≠ "".

Lemma no_lt_app a b : no_lt (a +:+ b) = no_lt a && no_lt b.
Proof. induction a as [|c a IH]; [done|]. rewrite text_cons. cbn. by rewrite IH, andb_assoc. Qed.

Lemma alpha_no_lt s : all_in SmsSubscription.is_alpha s = true → no_lt s = true.
Proof.
  induction s as [|c s IH]; [done|]. cbn. intros [Hc Hs]%andb_true_iff. apply andb_true_iff. split; [|by apply IH].
  apply not_lt_spec. by intros ->.
Qed.

Lemma named_chunk tag c rest : tag_name tag → marked rest → named tag (c +:+ rest) = (λ t, t +:+ rest) <$> named tag c.
Proof.
  intros [Ht _] Hr. apply alpha_no_lt in Ht. unfold named. rewrite span_chunk by done. destruct (span _ c) as [letters colon]. cbn [fst snd].
  rewrite !prefix_app; [|by rewrite ?no_lt_app, Ht|done|by rewrite !no_lt_app, Ht|done].
  by destruct (String.eqb letters ""); [|destruct (after_prefix _ colon)].
Qed.

Lemma prefix_split p s r : after_prefix p s = Some r → s = p +:+ r.
Proof.
  revert s. induction p as [|a p IH]; intros s; cbn.
  - intros [= ->]. done.
  - destruct s as [|b s]; [done|]. destruct (Ascii.eqb_spec a b) as [->|]; [|done]. intros H. by rewrite text_cons, <- (IH s H).
Qed.

Lemma span_split cls s : s = (span cls s).1 +:+ (span cls s).2.
Proof.
  induction s as [|c s IH]; [done|]. cbn. destruct (cls c); [|by rewrite text_nil]. cbn. by rewrite text_cons, <- IH.
Qed.

Lemma named_no_lt tag c t : named tag c = Some t → no_lt c = true → no_lt t = true.
Proof.
  unfold named. pose proof (span_split SmsSubscription.is_alpha c) as E. destruct (span _ c) as [letters colon]. cbn in E.
  intros H Hc.
  assert (∃ a, c = a +:+ t) as [a ->]; [|by rewrite no_lt_app in Hc; apply andb_true_iff in Hc as [_ Hc]].
  assert (after_prefix (tag +:+ ">") c = Some t → ∃ a, c = a +:+ t) as Hp by (intros ->%prefix_split; by eexists).
  destruct (String.eqb letters ""); [by apply Hp|].
  destruct (after_prefix (":" +:+ tag +:+ ">") colon) as [r|] eqn:Er; [|by apply Hp].
  injection H as ->. apply prefix_split in Er as ->. subst c. exists (letters +:+ ":" +:+ tag +:+ ">").
  by rewrite !text_assoc.
Qed.

Lemma field_chunk tag c l : tag_name tag → no_lt c = true →
  field tag (String "<" (c +:+ markup l)) = match named tag c, l with
    | Some t, c' :: _ => if closes tag c' then Some t else None
    | _, _ => None
    end.
Proof.
  intros Ht Hc. unfold field. change (after_prefix "<" (String "<" (c +:+ markup l))) with (Some (c +:+ markup l)).
  cbn [mbind option_bind]. rewrite named_chunk by (done || apply markup_marked).
  destruct (named tag c) as [t|] eqn:E; [|done]. cbn [mbind option_bind fmap option_fmap option_map]. rewrite span_text by (by eauto using named_no_lt || apply markup_marked).
  destruct l as [|c' l]; [done|].
  change (after_prefix "</" (markup (c' :: l))) with (after_prefix "/" (c' +:+ markup l)).
  rewrite (prefix_app "/" c' (markup l)) by (done || apply markup_marked).
  destruct c' as [|a r]; [done|]. cbn [after_prefix]. destruct (Ascii.eqb_spec "/" a) as [<-|Hne]; cbn [fmap option_fmap option_map mbind option_bind].
  - rewrite named_chunk by (done || apply markup_marked). cbn [closes]. by destruct (named tag r).
  - destruct (closes tag (String a r)) eqn:Ec; [|done]. exfalso. apply Hne. by destruct a as [[] [] [] [] [] [] [] []].
Qed.

Lemma field_other tag c s : c ≠ "<"%char → field tag (String c s) = None.
Proof.
  intros Hc. unfold field. change (after_prefix "<" (String c s)) with (if Ascii.eqb "<" c then Some s else None).
  by destruct (Ascii.eqb_spec "<" c).
Qed.

Lemma search_cons {A} (m : string → option A) c s :
  search m (String c s) = match m (String c s) with Some a => Some a | None => search m s end.
Proof. done. Qed.

Lemma search_text tag h s : no_lt h = true → search (field tag) (h +:+ s) = search (field tag) s.
Proof.
  induction h as [|c h IH]; [done|]. cbn [all_in]. intros [Hc%not_lt_spec Hh]%andb_true_iff.
  by rewrite text_cons, search_cons, field_other, IH.
Qed.

Lemma search_markup tag l : tag_name tag → Forall (λ c, no_lt c = true) l → search (field tag) (markup l) = first_field tag l.
Proof.
  intros Ht. induction 1 as [|c l Hc _ IH]; [done|]. change (markup (c :: l)) with (String "<" (c +:+ markup l)).
  rewrite search_cons, field_chunk, search_text, IH by done. cbn [first_field].
  destruct l as [|c' l]; [by destruct (named tag c)|]. destruct (named tag c); [|done]. by destruct (closes tag c').
Qed.

(** Reading by pattern is reading chunk by chunk, whatever the text. *)
Lemma find_spec tag s : tag_name tag → _find tag s = strip <$> first_field tag (chunks s).2.
Proof.
  intros Ht. unfold _find. pose proof (chunks_print s) as H. destruct (chunks s) as [h l]. destruct H as (-> & Hh & Hl).
  by rewrite search_text, search_markup.
Qed.

(** *** The result of a command *)

(** One element on a line; [ns] is the name space, [indent] what follows it. *)
Definition leaf (ns indent : string) (kv : string * string) (rest : string) : string :=
  String "<" ((ns +:+ ":" +:+ kv.1 +:+ ">" +:+ kv.2) +:+ String "<" (("/" +:+ ns +:+ ":" +:+ kv.1 +:+ ">" +:+ indent) +:+ rest)).

Definition fields (r : soap_result) : list (string * string) :=
  omap (λ kv : string * option string, pair kv.1 <$> kv.2)
    [("ResultType", rs_type r); ("ResultCode", rs_code r); ("ResultDesc", rs_desc r); ("ConversationID", rs_conversation r);
     ("OriginatorConversationID", rs_originator r); ("TransactionID", rs_transaction_id r); ("MandateID", rs_mandate_id r)].
Definition TAGS : list string :=
  ["ResultType"; "ResultCode"; "ResultDesc"; "ConversationID"; "OriginatorConversationID"; "TransactionID"; "MandateID"].

Definition result_xml (before after ns indent : string) (r : soap_result) : string :=
  before +:+ foldr (leaf ns indent) after (fields r).

(** No element of [s] has one of the names. *)
Definition silent (s : string) : bool := forallb (λ tag, forallb (λ c, negb (bool_decide (is_Some (named tag c)))) (chunks s).2) TAGS.

(** A value as it is written: no markup, no space around it. *)
Definition plain (v : string) : bool := no_lt v && String.eqb (strip v) v.

Lemma chunks_app a b : marked b → chunks (a +:+ b) = ((chunks a).1, (chunks a).2 ++ (chunks b).2).
Proof.
  intros Hb. induction a as [|c a IH].
  - rewrite text_nil. destruct Hb as [->|[r ->]]; [done|]. cbn. by destruct (chunks r).
  - rewrite text_cons. cbn [chunks]. rewrite IH. destruct (chunks a). by destruct (not_lt c).
Qed.

Lemma chunks_text v : no_lt v = true → chunks v = (v, []).
Proof. induction v as [|c v IH]; [done|]. cbn. intros [-> Hv]%andb_true_iff. by rewrite IH. Qed.

Lemma chunks_lt c s : no_lt c = true → marked s → chunks (String "<" (c +:+ s)) = ("", c :: (chunks s).2).
Proof. intros Hc Hs. cbn [chunks]. by rewrite chunks_app, chunks_text. Qed.

Lemma prefix_word tag w y r : all_in SmsSubscription.is_alpha tag = true → all_in SmsSubscription.is_alpha w = true →
  SmsSubscription.is_alpha y = false →
  after_prefix (tag +:+ ">") (w +:+ String y r) = if String.eqb tag w && Ascii.eqb ">" y then Some r else None.
Proof.
  intros Ht Hw Hy. revert w Hw. induction tag as [|a tag IH]; intros [|b w] Hw; rewrite ?text_nil, ?text_cons; cbn [after_prefix String.eqb andb].
  - done.
  - cbn [all_in] in Hw. apply andb_true_iff in Hw as [Hb _]. by destruct (Ascii.eqb_spec ">" b) as [<-|].
  - cbn [all_in] in Ht. apply andb_true_iff in Ht as [Ha _]. destruct (Ascii.eqb_spec a y); [congruence|done].
  - cbn [all_in] in Ht, Hw. apply andb_true_iff in Ht as [_ Ht]. apply andb_true_iff in Hw as [_ Hw].
    destruct (Ascii.eqb a b); [by apply IH|done].
Qed.

Lemma named_leaf tag ns tag' v : tag_name tag → tag_name ns → tag_name tag' →
  named tag (ns +:+ ":" +:+ tag' +:+ ">" +:+ v) = if String.eqb tag tag' then Some v else None.
Proof.
  intros [Ht _] [Hn Hne] [Ht' _]. unfold named. rewrite span_app; [|done|right; by eexists _, _].
  apply String.eqb_neq in Hne as ->.
  change (after_prefix (":" +:+ tag +:+ ">") (":" +:+ tag' +:+ ">" +:+ v)) with (after_prefix (tag +:+ ">") (tag' +:+ String ">" v)).
  rewrite prefix_word by done. destruct (String.eqb tag tag'); [done|].
  change (ns +:+ ":" +:+ tag' +:+ ">" +:+ v) with (ns +:+ String ":" (tag' +:+ ">" +:+ v)). rewrite prefix_word by done.
  by rewrite andb_false_r.
Qed.

Lemma named_slash tag s : tag_name tag → named tag ("/" +:+ s) = None.
Proof.
  intros [Ht Hne]. destruct tag as [|a tag]; [done|]. cbn in Ht. apply andb_true_iff in Ht as [Ha _].
  change (named (String a tag) (String "/" s) = None). unfold named. cbn [span SmsSubscription.is_alpha].
  change (after_prefix (String a tag +:+ ">") (String "/" s)) with (if Ascii.eqb a "/" then after_prefix (tag +:+ ">") s else None).
  by destruct (Ascii.eqb_spec a "/") as [->|].
Qed.

Lemma first_leaf tag ns indent kv l : tag_name tag → tag_name ns → tag_name kv.1 →
  first_field tag ((ns +:+ ":" +:+ kv.1 +:+ ">" +:+ kv.2) :: ("/" +:+ ns +:+ ":" +:+ kv.1 +:+ ">" +:+ indent) :: l)
  = if String.eqb tag kv.1 then Some kv.2 else first_field tag l.
Proof.
  intros Ht Hn Hk. cbn [first_field]. rewrite named_leaf, named_slash by done.
  change (closes tag ("/" +:+ ns +:+ ":" +:+ kv.1 +:+ ">" +:+ indent)) with (bool_decide (is_Some (named tag (ns +:+ ":" +:+ kv.1 +:+ ">" +:+ indent)))).
  rewrite named_leaf by done. destruct (String.eqb tag kv.1); [by rewrite bool_decide_true|]. by destruct l.
Qed.

Lemma first_silent tag a l : Forall (λ c, named tag c = None) a → first_field tag (a ++ l) = first_field tag l.
Proof.
  induction 1 as [|c a Hc _ IH]; [done|]. cbn [app first_field]. destruct (a ++ l) as [|c' l'] eqn:E; [|by rewrite Hc, <- IH].
  by apply app_eq_nil in E as [_ ->].
Qed.

Definition lookup_field (tag : string) (l : list (string * string)) : option string :=
  snd <$> List.find (λ kv, String.eqb tag kv.1) l.

Lemma leaf_marked ns indent kv rest : marked (leaf ns indent kv rest).
Proof. right. by eexists. Qed.

Lemma leaves_marked ns indent after l : marked after → marked (foldr (leaf ns indent) after l).
Proof. destruct l; [done|]. intros _. apply leaf_marked. Qed.

Lemma chunks_leaf ns indent kv rest :
  tag_name ns → tag_name kv.1 → no_lt kv.2 = true → no_lt indent = true → marked rest →
  (chunks (leaf ns indent kv rest)).2
  = (ns +:+ ":" +:+ kv.1 +:+ ">" +:+ kv.2) :: ("/" +:+ ns +:+ ":" +:+ kv.1 +:+ ">" +:+ indent) :: (chunks rest).2.
Proof.
  intros [Hn%alpha_no_lt _] [Hk%alpha_no_lt _] Hv Hi Hm. unfold leaf.
  rewrite chunks_lt; [|by rewrite !no_lt_app, Hn, Hk, Hv|right; by eexists]. cbn [snd].
  by rewrite chunks_lt; [|by rewrite !no_lt_app, Hn, Hk, Hi|].
Qed.

Lemma leaves_field tag ns indent after l :
  tag_name tag → tag_name ns → no_lt indent = true → marked after → Forall (λ c, named tag c = None) (chunks after).2 →
  Forall (λ kv, tag_name kv.1 ∧ no_lt kv.2 = true) l →
  first_field tag (chunks (foldr (leaf ns indent) after l)).2 = lookup_field tag l.
Proof.
  intros Ht Hn Hi Hm Ha. induction 1 as [|kv l [Hk Hv] _ IH]; cbn [foldr].
  - rewrite <- (app_nil_r (chunks after).2). by rewrite first_silent.
  - rewrite chunks_leaf, first_leaf, IH by (done || by apply leaves_marked).
    unfold lookup_field. cbn [List.find]. by destruct (String.eqb tag kv.1).
Qed.

Lemma silent_named s tag : silent s = true → tag ∈ TAGS → Forall (λ c, named tag c = None) (chunks s).2.
Proof.
  intros H Ht. unfold silent in H. rewrite List.forallb_forall in H. specialize (H tag (proj1 (list_elem_of_In _ _) Ht)).
  apply Forall_forall. intros c Hc. rewrite List.forallb_forall in H. specialize (H c (proj1 (list_elem_of_In _ _) Hc)).
  apply negb_true_iff, bool_decide_eq_false in H. by apply eq_None_not_Some.
Qed.

Lemma fields_in r kv : kv ∈ fields r → kv.1 ∈ TAGS.
Proof.
  unfold fields. rewrite list_elem_of_omap. intros ((t & o) & Hin & H). cbn in H. destruct o as [v|]; [|done]. injection H as <-. cbn.
  unfold TAGS. repeat (apply elem_of_cons in Hin as [Hin|Hin]; [injection Hin as -> _; set_solver|]). by apply elem_of_nil in Hin.
Qed.

Lemma tags_named tag : tag ∈ TAGS → tag_name tag.
Proof. unfold TAGS. intros H. repeat (apply elem_of_cons in H as [->|H]; [by vm_compute|]). by apply elem_of_nil in H. Qed.

(** A result is read as it was written: in any name space, on any number
    of lines, whatever other elements come before and after, with the fields
    that are there and none that are not. *)
Theorem result_roundtrip before after ns indent r :
  silent before = true → silent after = true → marked after → tag_name ns → no_lt indent = true →
  Forall (λ kv, plain kv.2 = true) (fields r) →
  _parse_telebirr_soap_result (result_xml before after ns indent r) = r.
Proof.
  intros Hb Ha Hm Hn Hi Hf.
  assert (∀ tag, tag ∈ TAGS → _find tag (result_xml before after ns indent r) = lookup_field tag (fields r)) as H.
  { intros tag Htag. pose proof (tags_named _ Htag) as Ht. rewrite find_spec by done. unfold result_xml.
    rewrite chunks_app by (by apply leaves_marked). cbn [snd]. rewrite first_silent by (by apply silent_named).
    rewrite leaves_field; try done; [| by apply silent_named |].
    - unfold lookup_field. destruct (List.find _ (fields r)) as [kv|] eqn:E; [|done]. cbn. f_equal.
      apply List.find_some in E as [Hin _]. apply list_elem_of_In in Hin. rewrite Forall_forall in Hf. specialize (Hf _ Hin).
      unfold plain in Hf. by apply andb_true_iff in Hf as [_ Hs%String.eqb_eq].
    - rewrite Forall_forall in Hf |- *. intros kv Hin. split; [by apply tags_named, (fields_in r)|].
      specialize (Hf _ Hin). unfold plain in Hf. by apply andb_true_iff in Hf as [? _]. }
  unfold _parse_telebirr_soap_result. rewrite !H by (unfold TAGS; set_solver).
  destruct r as [[] [] [] [] [] [] []]; reflexivity.
Qed.

(** *** The blocks of an answer *)

Lemma text_length a b : String.length (a +:+ b) = (String.length a + String.length b)%nat.
Proof. induction a as [|c a IH]; [done|]. rewrite text_cons. cbn. by rewrite IH. Qed.

Lemma search_some {A} (m : string → option A) s x : search m s = Some x → ∃ t, m t = Some x ∧ (String.length t <= String.length s)%nat.
Proof.
  induction s as [|c s IH]; cbn [search].
  - destruct (m "") eqn:E; [|done]. intros [= <-]. by exists "".
  - destruct (m (String c s)) eqn:E; [intros [= <-]; by exists (String c s)|].
    intros (t & Ht & Hl)%IH. exists t. cbn. split; [done|lia].
Qed.

Lemma until_split close s a rest : until close s = Some (a, rest) → s = a +:+ close +:+ rest.
Proof.
  revert a. induction s as [|c s IH]; intros a; cbn [until]; destruct (after_prefix close _) as [r|] eqn:E.
  - intros [= <- <-]. by apply prefix_split in E.
  - done.
  - intros [= <- <-]. by apply prefix_split in E.
  - destruct (until close s) as [[b r]|]; [|done]. intros [= <- <-]. rewrite text_cons. by rewrite <- (IH b eq_refl).
Qed.

(** The fuel of [blocks] is enough: more finds nothing else. *)
Lemma findall_enough n m open close s : close ≠ "" → (String.length s < n)%nat → (n <= m)%nat →
  findall n open close s = findall m open close s.
Proof.
  intros Hc. revert m s. induction n as [|n IH]; intros m s Hl Hm; [lia|]. destruct m as [|m]; [lia|]. cbn [findall].
  destruct (search _ s) as [[a rest]|] eqn:E; [|done]. f_equal. apply IH; [|lia].
  apply search_some in E as (t & Ht & Hle). destruct (after_prefix open t) as [u|] eqn:Eu; [|done]. cbn in Ht.
  apply prefix_split in Eu as ->. apply until_split in Ht as ->. rewrite !text_length in Hle.
  destruct close; [done|]. cbn in Hle. lia.
Qed.

(** *** Accounts *)

(** A command of either account, as the views give them. *)
Inductive command :=
| CreateMandate (payer_msisdn payer_reference_number frequency : string) (first expiry : date)
| OneOffPayment (payer_msisdn payer_reference_number frequency : string) (first expiry : option date)
| Debit (payer_reference_number amount : string) (shortcode mandate_id : option string)
| QueryMandates (payer_msisdn : string) (mandate_statuses : list string)
| Push (amount phone_number : string) (result_url : option string).

Definition role_of (k : command) : role :=
  match k with CreateMandate _ _ _ _ _ | OneOffPayment _ _ _ _ _ => sp | Debit _ _ _ _ | QueryMandates _ _ => org | Push _ _ _ => ussd end.

(** What is sent for it, if anything. *)
Definition sent (c : settings) (k : command) (for_subscription : bool) (d : draw) : string + request :=
  let first {A B C} (x : A + B * C) : A + B := match x with inl e => inl e | inr (b, _) => inr b end in
  match k with
  | CreateMandate m n f a b => first (create_mandate_request c m n f a b None 1 31 for_subscription d)
  | OneOffPayment m n f a b => first (create_one_off_payment_request c m n f a b None 1 31 for_subscription d)
  | Debit n a code id => initiate_debit_request c n a "ETB" code id for_subscription d
  | QueryMandates m l => query_mandate_by_payer_request c m l for_subscription d
  | Push a m u => ussd_request c a m u for_subscription d
  end.

(** The settings of the account of subscriptions, and the merchants of the
    current one: short codes and operators. *)
Record subscription_account := SubscriptionAccount {
  sa_shortcode : string; sa_caller : caller; sa_sp : operator; sa_org : operator; sa_ussd_shortcode : string; sa_ussd : caller;
  sa_ussd_org : operator
}.
Definition with_subscription_account (a : subscription_account) (c : settings) : settings :=
  Settings (t_caller c) (t_shortcode c) (t_result_url c) (t_caller_type c) (t_sp c) (t_org c) (t_b2c_shortcode c) (t_b2c_service_code c)
    (t_b2c_result_url c) (t_b2c_org c) (t_b2c c) (t_ussd_merchant_shortcode c) (t_ussd_result_url c) (t_ussd c) (t_ussd_org c)
    (sa_shortcode a) (sa_caller a) (sa_sp a) (sa_org a) (sa_ussd_shortcode a) (sa_ussd a) (sa_ussd_org a).
Record merchant := Merchant { me_shortcode : string; me_sp : operator; me_org : operator; me_ussd_shortcode : string; me_ussd_org : operator }.
Definition with_merchant (m : merchant) (c : settings) : settings :=
  Settings (t_caller c) (me_shortcode m) (t_result_url c) (t_caller_type c) (me_sp m) (me_org m) (t_b2c_shortcode c) (t_b2c_service_code c)
    (t_b2c_result_url c) (t_b2c_org c) (t_b2c c) (me_ussd_shortcode m) (t_ussd_result_url c) (t_ussd c) (me_ussd_org m)
    (t_subscription_shortcode c) (t_subscription c) (t_subscription_sp c) (t_subscription_org c)
    (t_subscription_ussd_merchant_shortcode c) (t_subscription_ussd c) (t_subscription_ussd_org c).

(** The operator a subscription's command needs. *)
Definition operator_missing (c : settings) (r : role) : bool :=
  let o := (_SUBSCRIPTION_ROLES r c).2 in String.eqb (op_id o) "" || String.eqb (op_credential o) "".

Lemma identity_off c r current : subscription_routing_enabled c = false → _subscription_identity c r current = inr None.
Proof. unfold _subscription_identity. by intros ->. Qed.

Lemma identity_on c r current : subscription_routing_enabled c = true →
  (operator_missing c r = true ∧ ∃ e, _subscription_identity c r current = inl e)
  ∨ (operator_missing c r = false ∧ _subscription_identity c r current
       = inr (Some (Identity (t_subscription_shortcode c) (subscription_ussd_merchant_shortcode c) (_SUBSCRIPTION_ROLES r c).2
                      (or_caller (match r with ussd => t_subscription_ussd c | _ => t_subscription c end) current)))).
Proof.
  unfold _subscription_identity, operator_missing. intros ->. cbn [negb]. destruct (_SUBSCRIPTION_ROLES r c) as [[k1 k2] o]. cbn.
  destruct (String.eqb (op_id o) ""); [left; split; [done|by eexists]|]. cbn.
  destruct (String.eqb (op_credential o) ""); [left; split; [done|by eexists]|by right].
Qed.

Lemma identity_merchant m c r current : _subscription_identity (with_merchant m c) r current = _subscription_identity c r current.
Proof. by destruct r. Qed.

(** *** What a request names *)

Definition within (w s : string) : Prop := ∃ a b, s = a +:+ w +:+ b.

(** One of the two accounts, for a kind of command. *)
Record account := MerchantAccount { ac_operator : operator; ac_shortcode : string; ac_caller : caller }.

Definition coins_account (c : settings) (r : role) : account :=
  match r with
  | sp => MerchantAccount (or_operator (t_sp c) (third_party c)) (t_shortcode c) (t_caller c)
  | org => MerchantAccount (or_operator (t_org c) (third_party c)) (t_shortcode c) (t_caller c)
  | ussd => MerchantAccount (or_operator (t_ussd_org c) (t_sp c)) (or_str (t_ussd_merchant_shortcode c) (t_shortcode c))
              (or_caller (t_ussd c) (t_caller c))
  end.
Definition subscriptions_account (c : settings) (r : role) : account :=
  match r with
  | sp => MerchantAccount (t_subscription_sp c) (t_subscription_shortcode c) (or_caller (t_subscription c) (t_caller c))
  | org => MerchantAccount (t_subscription_org c) (t_subscription_shortcode c) (or_caller (t_subscription c) (t_caller c))
  | ussd => MerchantAccount (t_subscription_ussd_org c)
              (or_str (t_subscription_ussd_merchant_shortcode c) (t_subscription_shortcode c))
              (or_caller (t_subscription_ussd c) (or_caller (t_ussd c) (t_caller c)))
  end.
Definition billed (c : settings) (r : role) (for_subscription : bool) : account :=
  if for_subscription && negb (String.eqb (t_subscription_shortcode c) "") then subscriptions_account c r else coins_account c r.

(** The elements of an envelope that say who asks and who is paid. *)
Definition caller_xml (u : caller) : string :=
  "<req:ThirdPartyID>" +:+ cl_third_party_id u +:+ "</req:ThirdPartyID>
          <req:Password>" +:+ cl_third_party_password u +:+ "</req:Password>".
Definition initiator_xml (type : Z) (o : operator) (shortcode : option string) : string :=
  "<req:Initiator>
            <req:IdentifierType>" +:+ str_int type +:+ "</req:IdentifierType>
            <req:Identifier>" +:+ op_id o +:+ "</req:Identifier>
            <req:SecurityCredential>" +:+ op_credential o +:+ "</req:SecurityCredential>"
  +:+ match shortcode with
      | None => ""
      | Some code => "
            <req:ShortCode>" +:+ code +:+ "</req:ShortCode>"
      end +:+ "
          </req:Initiator>".
Definition payee_xml (shortcode : string) : string :=
  "<req:Payee>
            <com:IdentifierType>4</com:IdentifierType>
            <com:IdentifierValue>" +:+ shortcode +:+ "</com:IdentifierValue>
          </req:Payee>".
Definition receiver_xml (shortcode : string) : string :=
  "<req:ReceiverParty>
            <req:IdentifierType>4</req:IdentifierType>
            <req:Identifier>" +:+ shortcode +:+ "</req:Identifier>
          </req:ReceiverParty>".

Definition shown (shortcode : string) : option string := if String.eqb shortcode "" then None else Some shortcode.

(** The request goes to the account's address, asked for by its caller and
    its operator, and pays its short code; a debit, the one that is given. *)
Definition names (a : account) (k : command) (rq : request) : Prop :=
  rq_url rq = cl_soap_url (ac_caller a) ∧ within (caller_xml (ac_caller a)) (rq_envelope rq)
  ∧ match k with
    | CreateMandate _ _ _ _ _ | OneOffPayment _ _ _ _ _ =>
        within (initiator_xml 14 (ac_operator a) None) (rq_envelope rq) ∧ within (payee_xml (ac_shortcode a)) (rq_envelope rq)
    | Debit _ _ code _ => within (initiator_xml 11 (ac_operator a) (shown (default (ac_shortcode a) code))) (rq_envelope rq)
    | QueryMandates _ _ => within (initiator_xml 11 (ac_operator a) (shown (ac_shortcode a))) (rq_envelope rq)
    | Push _ _ _ =>
        within (initiator_xml 12 (ac_operator a) (Some (ac_shortcode a))) (rq_envelope rq) ∧ within (receiver_xml (ac_shortcode a)) (rq_envelope rq)
    end.

Lemma within_skip w a s : within w s → within w (a +:+ s).
Proof. intros (x & y & ->). exists (a +:+ x), y. by rewrite text_assoc. Qed.
Lemma within_head w s b : s = w +:+ b → within w s.
Proof. intros ->. by exists "", b. Qed.
Lemma within_left w s b : within w s → within w (s +:+ b).
Proof. intros (x & y & ->). exists x, (y +:+ b). by rewrite <- !text_assoc. Qed.

(** An envelope shows its caller, its initiator and all of its body. *)
Ltac within_here := eapply within_head; rewrite <- !text_assoc; reflexivity.
Lemma envelope_shows c command_id i p body own d :
  let s := _build_soap_envelope c command_id i p body own d in
  within (caller_xml (Caller "" (or_str (cl_third_party_id own) (cl_third_party_id (t_caller c)))
                       (or_str (cl_third_party_password own) (cl_third_party_password (t_caller c))))) s
  ∧ within (initiator_xml (in_type i) (in_operator i) (shown (in_shortcode i))) s
  ∧ within body s.
Proof.
  cbv zeta. unfold _build_soap_envelope, caller_xml, initiator_xml. cbn [cl_third_party_id cl_third_party_password]. split_and!.
  - change ("</req:CallerType>
          <req:ThirdPartyID>") with ("</req:CallerType>
          " +:+ "<req:ThirdPartyID>").
    change ("</req:Password>
          <req:ResultURL>") with ("</req:Password>" +:+ "
          <req:ResultURL>"). rewrite <- !text_assoc. do 13 apply within_skip. within_here.
  - change ("</req:Timestamp>
      </req:Header>
      <req:Body>
        <req:Identity>
          <req:Initiator>
            <req:IdentifierType>") with ("</req:Timestamp>
      </req:Header>
      <req:Body>
        <req:Identity>
          " +:+ "<req:Initiator>
            <req:IdentifierType>").
    change ("
          </req:Initiator>
          <req:ReceiverParty>
            <req:IdentifierType>") with ("
          </req:Initiator>" +:+ "
          <req:ReceiverParty>
            <req:IdentifierType>"). rewrite <- !text_assoc. do 21 apply within_skip.
    unfold shown. destruct (String.eqb (in_shortcode i) ""); within_here.
  - do 33 apply within_skip. by eapply within_head.
Qed.

Lemma mandate_names_payee payee n first f x y expiry : within (payee_xml payee) (mandate_body payee n first f x y expiry).
Proof.
  unfold mandate_body, payee_xml.
  change ("<req:CreateDirectDebitMandateByPayerRequest>
          <req:Payee>
            <com:IdentifierType>4</com:IdentifierType>
            <com:IdentifierValue>") with ("<req:CreateDirectDebitMandateByPayerRequest>
          " +:+ "<req:Payee>
            <com:IdentifierType>4</com:IdentifierType>
            <com:IdentifierValue>").
  change ("</com:IdentifierValue>
          </req:Payee>
          <req:DirectDebitMandateInfo>
            <com:PayerReferenceNumber>") with ("</com:IdentifierValue>
          </req:Payee>" +:+ "
          <req:DirectDebitMandateInfo>
            <com:PayerReferenceNumber>"). rewrite <- !text_assoc. apply within_skip. within_here.
Qed.

Lemma within_trans u v w : within u v → within v w → within u w.
Proof.
  intros (a & b & ->) (x & y & ->). exists (x +:+ a), (b +:+ y). by rewrite <- !text_assoc.
Qed.

Lemma or_str_twice a b : or_str (or_str a b) b = or_str a b.
Proof. unfold or_str. by destruct (String.eqb_spec a "") as [->|Ha%String.eqb_neq]; [destruct (String.eqb b "")|rewrite Ha]. Qed.

(** The requests that go through the envelope. *)
Lemma envelope_names c command_id i p body r d :
  let s := _build_soap_envelope c command_id i p body (own_caller r) d in
  (∀ o, r = Some o → ∃ own, id_caller o = or_caller own (t_caller c)) →
  let from := match r with Some o => id_caller o | None => t_caller c end in
  url_of c r = cl_soap_url from ∧ within (caller_xml from) s
  ∧ within (initiator_xml (in_type i) (in_operator i) (shown (in_shortcode i))) s ∧ within body s.
Proof.
  intros s Hr from. destruct (envelope_shows c command_id i p body (own_caller r) d) as (H1 & H2 & H3).
  unfold url_of. split_and!; [|revert H1|exact H2|exact H3]; fold s; unfold from, own_caller; destruct r as [o|]; try done;
    destruct (Hr o eq_refl) as [own ->]; cbn [or_caller cl_soap_url cl_third_party_id cl_third_party_password];
    rewrite ?or_str_twice; done.
Qed.

(** A push has an envelope of its own. *)
Lemma push_names c amount phone_number result_url for_subscription d rq :
  ussd_request c amount phone_number result_url for_subscription d = inr rq →
  names (billed c ussd for_subscription) (Push amount phone_number result_url) rq.
Proof.
  unfold ussd_request. destruct (routing _ _ _ _) as [e|r] eqn:Hr; [done|]. cbv zeta. intros [= <-]. cbn [rq_url rq_envelope names].
  set (from := match r with Some i => id_caller i | None => ussd_caller c end).
  set (o := match r with Some i => id_operator i | None => ussd_operator c end).
  set (merchant := match r with Some i => id_ussd_merchant_shortcode i | None => ussd_merchant_shortcode c end).
  assert (billed c ussd for_subscription = MerchantAccount o merchant from) as ->.
  { unfold routing in Hr. unfold billed. destruct for_subscription; [|by injection Hr as <-]. cbn [andb].
    destruct (subscription_routing_enabled c) eqn:Hon.
    - destruct (identity_on c ussd (ussd_caller c) Hon) as [[_ [e E]]|[_ E]]; [by rewrite E in Hr|].
      rewrite E in Hr. injection Hr as <-. unfold subscription_routing_enabled in Hon. by rewrite Hon.
    - rewrite identity_off in Hr by done. injection Hr as <-. unfold subscription_routing_enabled in Hon. by rewrite Hon. }
  clearbody from o merchant. cbn [ac_operator ac_shortcode ac_caller]. split; [done|]. unfold caller_xml, initiator_xml, receiver_xml. split_and!.
  - change ("</req:CallerType>
          <req:ThirdPartyID>") with ("</req:CallerType>
          " +:+ "<req:ThirdPartyID>").
    change ("</req:Password>
          <req:ResultURL>") with ("</req:Password>" +:+ "
          <req:ResultURL>"). rewrite <- !text_assoc. do 11 apply within_skip. within_here.
  - change (str_int 12) with "12". change ("</req:Timestamp>
      </req:Header>
      <req:Body>
        <req:Identity>
          <req:Initiator>
            <req:IdentifierType>12</req:IdentifierType>
            <req:Identifier>") with ("</req:Timestamp>
      </req:Header>
      <req:Body>
        <req:Identity>
          " +:+ "<req:Initiator>
            <req:IdentifierType>" +:+ "12" +:+ "</req:IdentifierType>
            <req:Identifier>").
    change ("</req:SecurityCredential>
            <req:ShortCode>") with ("</req:SecurityCredential>" +:+ "
            <req:ShortCode>").
    change ("</req:ShortCode>
          </req:Initiator>
          <req:PrimaryParty>
            <req:IdentifierType>1</req:IdentifierType>
            <req:Identifier>") with ("</req:ShortCode>" +:+ "
          </req:Initiator>" +:+ "
          <req:PrimaryParty>
            <req:IdentifierType>1</req:IdentifierType>
            <req:Identifier>"). rewrite <- !text_assoc. do 19 apply within_skip. within_here.
  - change ("</req:Identifier>
          </req:PrimaryParty>
          <req:ReceiverParty>
            <req:IdentifierType>4</req:IdentifierType>
            <req:Identifier>") with ("</req:Identifier>
          </req:PrimaryParty>
          " +:+ "<req:ReceiverParty>
            <req:IdentifierType>4</req:IdentifierType>
            <req:Identifier>").
    change ("</req:Identifier>
          </req:ReceiverParty>
        </req:Identity>
        <req:TransactionRequest>
          <req:Parameters>
            <req:Amount>") with ("</req:Identifier>
          </req:ReceiverParty>" +:+ "
        </req:Identity>
        <req:TransactionRequest>
          <req:Parameters>
            <req:Amount>"). rewrite <- !text_assoc. do 27 apply within_skip. within_here.
Qed.

(** The routing is the account that is billed. *)
Lemma routing_billed c r for_subscription o :
  r ≠ ussd → routing c r (t_caller c) for_subscription = inr o →
  (∀ i, o = Some i → ∃ own, id_caller i = or_caller own (t_caller c))
  ∧ billed c r for_subscription
    = match o with
      | Some i => MerchantAccount (id_operator i) (id_shortcode i) (id_caller i)
      | None => coins_account c r
      end.
Proof.
  intros Hu. unfold routing, billed. destruct for_subscription; [|intros [= <-]; done]. cbn [andb].
  destruct (subscription_routing_enabled c) eqn:Hon.
  - destruct (identity_on c r (t_caller c) Hon) as [[_ [e ->]]|[_ ->]]; [done|]. intros [= <-].
    unfold subscription_routing_enabled in Hon. rewrite Hon. split; [intros ? [= <-]; cbn; eauto|]. by destruct r.
  - rewrite identity_off by done. intros [= <-]. unfold subscription_routing_enabled in Hon. by rewrite Hon.
Qed.

Lemma sent_names c k for_subscription d rq :
  sent c k for_subscription d = inr rq → names (billed c (role_of k) for_subscription) k rq.
Proof.
  intros H. destruct k as [m n f a b|m n f a b|n a code id|m l|a m u]; [| | | |by apply (push_names _ _ _ _ _ d)];
    cbn [role_of]; revert H; unfold sent, create_mandate_request, create_one_off_payment_request, initiate_debit_request, query_mandate_by_payer_request;
    (destruct (routing _ _ _ _) as [e|r] eqn:Hr; [done|]); cbv zeta; intros [= <-];
    (match type of Hr with routing _ ?ro _ _ = _ => destruct (routing_billed c ro for_subscription r ltac:(discriminate) Hr) as [Hown ->] end); cbn [names rq_url rq_envelope];
    match goal with |- context [_build_soap_envelope c ?cmd ?i ?p ?body (own_caller r) d] =>
      destruct (envelope_names c cmd i p body r d Hown) as (H1 & H2 & H3 & H4) end;
    (split; [by rewrite H1; destruct r|]); (split; [by destruct r|]).
  1,2: split; [by destruct r|]; eapply within_trans; [|exact H4]; destruct r; apply mandate_names_payee.
  all: by destruct r.
Qed.

Lemma sent_ordinary c k d : ∃ rq, sent c k false d = inr rq.
Proof. destruct k; cbn; by eexists. Qed.

(** Down to the identity a command is sent with. *)
Ltac to_identity := unfold sent, create_mandate_request, create_one_off_payment_request, initiate_debit_request,
  query_mandate_by_payer_request, ussd_request, routing.
Ltac by_identity H := match goal with |- context [_subscription_identity ?c ?r ?cur] =>
  let e := fresh "e" in let E := fresh "E" in
  destruct (identity_on c r cur H) as [[E [e ->]]|[E ->]]; rewrite ?E end.

(** C36.  The two merchant accounts do not mix.  A request that is sent goes to
    the address of the account it bills, under that account's caller and
    operator, and pays its short code (a debit, the short code it is given):
    the subscriptions' account for a subscription while its short code is set,
    the current one otherwise.  A command that is not a subscription's, an
    activation, a cancellation and a payout read nothing of the subscriptions'
    account, and the first three ask by the current operator; with routing off
    a subscription's command is the ordinary one; with it on it reads no short
    code and no operator of the other account, and nothing is sent without an
    operator of its own. *)
Theorem accounts_never_mix c k d :
  (∀ for_subscription rq, sent c k for_subscription d = inr rq → names (billed c (role_of k) for_subscription) k rq)
  ∧ (∃ rq, sent c k false d = inr rq)
  ∧ (∀ a, sent (with_subscription_account a c) k false d = sent c k false d)
  ∧ (∀ a id m agreed, activate_mandate_request (with_subscription_account a c) id m agreed d = activate_mandate_request c id m agreed d
       ∧ cancel_mandate_request (with_subscription_account a c) id m d = cancel_mandate_request c id m d)
  ∧ (∀ id m agreed rq, rq = activate_mandate_request c id m agreed d ∨ rq = cancel_mandate_request c id m d →
       rq_url rq = cl_soap_url (t_caller c) ∧ within (caller_xml (t_caller c)) (rq_envelope rq)
       ∧ within (initiator_xml 14 (ac_operator (coins_account c sp)) None) (rq_envelope rq))
  ∧ (∀ a m n cur rem ty, b2c_request (with_subscription_account a c) m n cur rem ty d = b2c_request c m n cur rem ty d)
  ∧ (subscription_routing_enabled c = false → sent c k true d = sent c k false d)
  ∧ (subscription_routing_enabled c = true →
       (∀ m, sent (with_merchant m c) k true d = sent c k true d)
       ∧ if operator_missing c (role_of k) then ∃ e, sent c k true d = inl e else ∃ rq, sent c k true d = inr rq).
Proof.
  split_and!; [intros b rq; apply sent_names|apply sent_ordinary|by destruct k|done| |done|..].
  - intros id m agreed rq [->| ->]; cbn [rq_url rq_envelope]; unfold activate_mandate_request, cancel_mandate_request; cbn [rq_url rq_envelope];
      match goal with |- context [_build_soap_envelope c ?cmd ?i ?p ?body _ d] =>
        destruct (envelope_names c cmd i p body None d ltac:(done)) as (_ & H2 & H3 & _) end; done.
  - intros Hr. by destruct k; to_identity; rewrite identity_off.
  - intros Hr. split.
    + intros m. destruct k; to_identity; rewrite identity_merchant; change (t_caller (with_merchant m c)) with (t_caller c);
        change (ussd_caller (with_merchant m c)) with (ussd_caller c); by_identity Hr; done.
    + destruct k; to_identity; cbn [role_of]; by_identity Hr; by eexists.
Qed.

(** ** Examples *)

Definition gateway (name : string) : caller := Caller ("https://" +:+ name) (name +:+ "-id") (name +:+ "-pw").
Definition two_accounts : settings :=
  let none := Caller "" "" "" in let nobody := Operator "" "" in
  Settings (gateway "coins") "553559" "https://us/result" "2" (Operator "coin-sp" "c1") (Operator "coin-org" "c2") "" "2003" "" nobody none
    "" "" none nobody "9286" (gateway "plans") (Operator "plan-sp" "p1") (Operator "plan-org" "p2") "" none nobody.
Definition drawn : draw := Draw "20260101120000" "20260101" "deadbeefcafe" "0123456789abcdef".

Definition operator_named (name : string) (x : string + request) : bool :=
  match x with inr rq => contains ("<req:Identifier>" +:+ name +:+ "</req:Identifier>") (rq_envelope rq) | inl _ => false end.

(** A mandate of a subscription is created on the subscriptions' account, and
    activated and cancelled on the other one. *)
Example activated_on_the_other_account :
  let created := sent two_accounts (CreateMandate "251911000001" "FLP71" "02" (Text "20260101") (Text "20270101")) true drawn in
  let activated := activate_mandate_request two_accounts "MND1" "251911000001" true drawn in
  let cancelled := cancel_mandate_request two_accounts "MND1" "251911000001" drawn in
  operator_named "plan-sp" created = true ∧ (rq_url <$> (match created with inr r => Some r | _ => None end)) = Some "https://plans"
  ∧ operator_named "coin-sp" (inr activated) = true ∧ rq_url activated = "https://coins"
  ∧ operator_named "coin-sp" (inr cancelled) = true ∧ rq_url cancelled = "https://coins"
  ∧ operator_named "plan-org" (sent two_accounts (Debit "FLP71" "10" (Some "9286") (Some "MND1")) true drawn) = true.
Proof. by vm_compute. Qed.

(** How often a text occurs. *)
Definition occurrences (w s : string) : nat :=
  let fix go (s : string) : nat :=
    match s with
    | EmptyString => 0%nat
    | String _ s' => ((if bool_decide (is_Some (after_prefix w s)) then 1 else 0) + go s')%nat
    end in go s.

(** Nothing is escaped: an amount can bring a parameter of its own. *)
Example amount_with_a_parameter :
  let amount := "1</com:Value></req:Parameter><req:Parameter><com:Key>Currency</com:Key><com:Value>USD" in
  match sent two_accounts (Debit "COIN_7_20260101120000" amount None None) false drawn with
  | inr rq => occurrences "<com:Key>Currency</com:Key>" (rq_envelope rq) = 2%nat
              ∧ contains "<com:Value>USD</com:Value>" (rq_envelope rq) = true
  | inl _ => False
  end.
Proof. by vm_compute. Qed.

(** Only [create_one_off_payment] formats a day. *)
Example days_of_a_mandate :
  mandate_day (Day 20454) = "2026-01-01" ∧ one_off_day "20260101" (Some (Day 20454)) = "20260101".
Proof. by vm_compute. Qed.

(** Two mandates of a payer, each with its own state. *)
Example two_mandates :
  read_query ("<res:ResponseCode>0</res:ResponseCode><res:DirectDebitMandateInfo><com:MandateID>A</com:MandateID><com:MandateStatus>03</com:MandateStatus></res:DirectDebitMandateInfo>"
    +:+ newline +:+ "<res:DirectDebitMandateInfo><com:MandateID>B</com:MandateID></res:DirectDebitMandateInfo>")
  = Query ("<res:ResponseCode>0</res:ResponseCode><res:DirectDebitMandateInfo><com:MandateID>A</com:MandateID><com:MandateStatus>03</com:MandateStatus></res:DirectDebitMandateInfo>"
    +:+ newline +:+ "<res:DirectDebitMandateInfo><com:MandateID>B</com:MandateID></res:DirectDebitMandateInfo>")
      (Some "A") (Some "03") None [Listed "A" None (Some "03"); Listed "B" None None].
Proof. by vm_compute. Qed.

(** *** Witnesses *)

Definition paid_result : soap_result :=
  SoapResult (Some "0") (Some "0") (Some "Process service request successfully.") (Some "AG_20260101_1") (Some "S_X20260101DEADBEEF")
    (Some "CI12345") None.
Lemma result_roundtrip_witness :
  _parse_telebirr_soap_result
    (result_xml "<soapenv:Envelope><soapenv:Body><api:Result>" "</api:Result></soapenv:Body></soapenv:Envelope>" "res" newline paid_result)
  = paid_result.
Proof. by apply result_roundtrip; first [by vm_compute | by right; eexists | by repeat constructor]. Defined.

Lemma accounts_never_mix_witness :
  subscription_routing_enabled two_accounts = true
  ∧ sent (with_merchant (Merchant "1" (Operator "" "") (Operator "" "") "" (Operator "" "")) two_accounts) (Debit "FLP71" "10" None None) true drawn
    = sent two_accounts (Debit "FLP71" "10" None None) true drawn
  ∧ ∃ rq, sent two_accounts (Debit "FLP71" "10" None None) true drawn = inr rq ∧ rq_url rq = "https://plans"
      ∧ within (initiator_xml 11 (Operator "plan-org" "p2") (Some "9286")) (rq_envelope rq).
Proof.
  split; [by vm_compute|].
  destruct (accounts_never_mix two_accounts (Debit "FLP71" "10" None None) drawn) as (Hn & _ & _ & _ & _ & _ & _ & H).
  split; [apply (H eq_refl)|]. destruct (H eq_refl) as [_ [rq E]]. exists rq. destruct (Hn true rq E) as (H1 & _ & H2). done.
Defined.

End TelebirrSoap.
