(* ===== verification/DirectDebit.v ===== *)
(** * DirectDebit: mandates to debit a payer, and what they pay for

    Models [src/api/models/direct_debit.py] and, of
    [src/api/views/direct_debit.py], the requests that create, activate, cancel
    and debit a mandate, the payments of one debit for coins or for a plan, and
    the webhook that all the results come to, over the commands of
    [TelebirrSoap].

    A request is two steps around its command; an activation and a
    cancellation claim the mandate in the first.  A delivery of the webhook is
    one transaction and one step, with the command it sends inside.  Arguments:
    the posting of a request, the settings, the reading of a UUID and of a JSON body, and what
    is drawn.

    [mandate.user] is never null, so the branches for a mandate without an
    account cannot run and are left out.  Of a mandate, the columns that are
    constant or never read are left out; widths of columns are not checked. *)

From Stdlib Require Import ZArith Lia.
From stdpp Require Import gmap strings sorting.
From S2P Require Import Prelude Decimal StableSort Phone CoinBalance Subscriptions SubscriptionGift SmsQueue SyncOrder SmsSubscription Accounts SignIn UssdSubscription SuperApp TelebirrSoap.

Module DirectDebit.
Import Subscriptions.

(** ** Tables *)

Inductive mstatus := PendingCreated | PendingActive | Activating | Active | Cancelling | Cancelled | Expired | Failed.
#[export] Instance mstatus_eq_dec : EqDecision mstatus.
Proof. solve_decision. Defined.

Definition status_str (st : mstatus) : string :=
  match st with
  | PendingCreated => "pending_created" | PendingActive => "pending_active" | Activating => "activating" | Active => "active"
  | Cancelling => "cancelling" | Cancelled => "cancelled" | Expired => "expired" | Failed => "failed"
  end.

Inductive payment_type := recurring | one_off.
#[export] Instance payment_type_eq_dec : EqDecision payment_type.
Proof. solve_decision. Defined.

(** [metadata]: nothing, a purchase of coins, or of a period of a plan.
    Amounts are kept as they are printed; coins are whole. *)
Inductive metadata :=
| NoMetadata
| ForCoins (coins : Z) (amount : string)
| ForPlan (duration_type : string) (duration_days : option Z) (amount : string).

Definition is_subscription (x : metadata) : bool := match x with ForPlan _ _ _ => true | _ => false end.
Definition coins_of (x : metadata) : Z := match x with ForCoins n _ => n | _ => 100 end.
Definition amount_of (x : metadata) : string := match x with NoMetadata => "10" | ForCoins _ a => a | ForPlan _ _ a => a end.

(** Dates are days, times are microseconds; an empty text is a null or blank
    column. *)
Record mandate := Mandate {
  md_id : Z; md_user : Z; md_payer_msisdn : string; md_payer_reference : string; md_account_name : string; md_payee : string;
  md_mandate_id : string; md_status : mstatus; md_type : payment_type; md_frequency : string; md_expiry : Z;
  md_originator : string; md_conversation : string; md_debit_conversation : string; md_tier : option Z; md_plan : option Z;
  md_metadata : metadata; md_error : string; md_activated_at : option Z; md_cancelled_at : option Z
}.

Definition set_status (st : mstatus) (activated_at cancelled_at : option Z) (error : string) (m : mandate) : mandate :=
  Mandate (md_id m) (md_user m) (md_payer_msisdn m) (md_payer_reference m) (md_account_name m) (md_payee m) (md_mandate_id m) st
    (md_type m) (md_frequency m) (md_expiry m) (md_originator m) (md_conversation m) (md_debit_conversation m) (md_tier m) (md_plan m)
    (md_metadata m) error activated_at cancelled_at.
Definition to_status (st : mstatus) (m : mandate) : mandate := set_status st (md_activated_at m) (md_cancelled_at m) (md_error m) m.

Definition set_telebirr (mandate_id originator conversation debit_conversation account_name : string) (m : mandate) : mandate :=
  Mandate (md_id m) (md_user m) (md_payer_msisdn m) (md_payer_reference m) account_name (md_payee m) mandate_id (md_status m)
    (md_type m) (md_frequency m) (md_expiry m) originator conversation debit_conversation (md_tier m) (md_plan m)
    (md_metadata m) (md_error m) (md_activated_at m) (md_cancelled_at m).
Definition set_mandate_id (id : string) (m : mandate) : mandate :=
  set_telebirr id (md_originator m) (md_conversation m) (md_debit_conversation m) (md_account_name m) m.
Definition set_debit (conversation : string) (m : mandate) : mandate :=
  set_telebirr (md_mandate_id m) (md_originator m) (md_conversation m) conversation (md_account_name m) m.
Definition set_answer (account_name originator conversation : string) (m : mandate) : mandate :=
  set_telebirr (md_mandate_id m) originator conversation (md_debit_conversation m) account_name m.

Definition set_subscription_plan (plan : Z) (m : mandate) : mandate :=
  Mandate (md_id m) (md_user m) (md_payer_msisdn m) (md_payer_reference m) (md_account_name m) (md_payee m) (md_mandate_id m) (md_status m)
    (md_type m) (md_frequency m) (md_expiry m) (md_originator m) (md_conversation m) (md_debit_conversation m) (md_tier m) (Some plan)
    (md_metadata m) (md_error m) (md_activated_at m) (md_cancelled_at m).

(** [DirectDebitTransaction]; amounts in cents. *)
Record debit := Debit {
  dt_id : Z; dt_mandate : Z; dt_amount : Z; dt_status : string; dt_reference : string; dt_originator : string;
  dt_conversation : string; dt_error : string; dt_retry_count : Z; dt_completed_at : option Z
}.

(** ** The methods of a mandate *)

Definition activated (now : Z) (m : mandate) : mandate := set_status Active (Some now) (md_cancelled_at m) (md_error m) m.
Definition cancelled_at (now : Z) (m : mandate) : mandate := set_status Cancelled (md_activated_at m) (Some now) (md_error m) m.
Definition failed_with (error : string) (m : mandate) : mandate := set_status Failed (md_activated_at m) (md_cancelled_at m) error m.

Definition is_active (now : Z) (m : mandate) : bool := bool_decide (md_status m = Active) && (utc_date now <=? md_expiry m).

(** [transaction.mark_failed]. *)
Definition debit_failed (error : string) (now : Z) (t : debit) : debit :=
  Debit (dt_id t) (dt_mandate t) (dt_amount t) "failed" (dt_reference t) (dt_originator t) (dt_conversation t) error
    (dt_retry_count t + 1) (Some now).
Definition debit_sent (originator conversation reference : string) (t : debit) : debit :=
  Debit (dt_id t) (dt_mandate t) (dt_amount t) (dt_status t) reference originator conversation (dt_error t) (dt_retry_count t) (dt_completed_at t).

Section Flow.
Context {C : Type}.
Context (to_uuid : string → option Z) (send : TelebirrSoap.request → TelebirrSoap.answer) (settings : TelebirrSoap.settings).

#[local] Notation shop := (@UssdSubscription.store C).

(** [g_profile_coins] is [UserProfile.coins]; mandates come newest first, as
    [Meta.ordering] has them. *)
Record store := Store { g_shop : shop; g_profile_coins : gmap Z Z; g_mandates : list mandate; g_debits : list debit }.

Definition with_shop (x : shop) (s : store) : store := Store x (g_profile_coins s) (g_mandates s) (g_debits s).
Definition with_mandates (l : list mandate) (s : store) : store := Store (g_shop s) (g_profile_coins s) l (g_debits s).
Definition in_accounts {A} (m : M Accounts.store A) : M store A := zoom g_shop with_shop (UssdSubscription.in_accounts m).
Definition in_shop {A} : M shop A → M store A := zoom g_shop with_shop.
Definition accounts (s : store) : Accounts.store := UssdSubscription.x_accounts (g_shop s).
Definition plans (s : store) : Subscriptions.store := Accounts.plans (accounts s).

Definition find_mandate (id : Z) (s : store) : option mandate := List.find (λ m, md_id m =? id) (g_mandates s).
Definition replace (m : mandate) (l : list mandate) : list mandate := (λ x, if md_id x =? md_id m then m else x) <$> l.

(** The constraint on the originator's conversation, where it is not empty. *)
Definition clashes (m : mandate) (l : list mandate) : bool :=
  negb (String.eqb (md_originator m) "")
  && existsb (λ x, negb (md_id x =? md_id m) && String.eqb (md_originator x) (md_originator m)) l.
Definition duplicate_originator : exn := Accounts.duplicate_key "uniq_mandate_originator_conversation_id".

Definition save_mandate (m : mandate) : M store unit :=
  s ← get;
  assert_or (negb (clashes m (g_mandates s))) duplicate_originator ≫= λ _,
  put (with_mandates (replace m (g_mandates s)) s).

Definition create_mandate_row (m : mandate) : M store unit :=
  s ← get;
  assert_or (bool_decide (find_mandate (md_id m) s = None)) (Accounts.duplicate_key "api_directdebitmandate_pkey") ≫= λ _,
  assert_or (negb (clashes m (g_mandates s))) duplicate_originator ≫= λ _,
  put (with_mandates (m :: g_mandates s) s).

(** One conditional UPDATE. *)
Definition update_where (id : Z) (from : mstatus) (f : mandate → mandate) : M store bool :=
  s ← get;
  match find_mandate id s with
  | Some m => if bool_decide (md_status m = from) then put (with_mandates (replace (f m) (g_mandates s)) s) ≫= λ _, mret true else mret false
  | None => mret false
  end.

(** The answer to what a handler raises. *)
Definition or_failed {A} (what : string) (m : M store (response + A)) : M store (response + A) :=
  catch m (λ e, Some (mret (inl (Resp 500 ("Failed to " +:+ what +:+ ": " +:+ exn_str e))))).
Definition or_error (what : string) (m : M store response) : M store response :=
  catch m (λ e, Some (mret (Resp 500 ("Failed to " +:+ what +:+ ": " +:+ exn_str e)))).

(** ** Creating *)

(** What a request holds while its command is sent: the row but for what the
    answer gives, and what its payee is when the answer has none; [None] keeps
    the payee of the row.  [cg_user] is the account the row will have, if any. *)
Record creating := Creating { cg_user : option Z; cg_row : Z → mandate; cg_payee : option string }.

Definition frequency_of (duration_type : string) : option string :=
  if String.eqb duration_type "daily" then Some "02"
  else if String.eqb duration_type "weekly" then Some "03"
  else if String.eqb duration_type "monthly" then Some "05" else None.

Record create_request := CreateRequest { cr_user : Z; cr_tier_id : string; cr_payer_msisdn : string; cr_frequency : string }.

(** [short_code]: the column of a tier. *)
Definition create_open (short_code : Z → string) (r : create_request) (now : Z) : M store (response + creating) :=
  or_failed "create mandate" (
    if String.eqb (cr_tier_id r) "" || String.eqb (cr_payer_msisdn r) "" || String.eqb (cr_frequency r) ""
    then mret (inl (bad "tier_id, payer_msisdn, and frequency are required"))
    else
      s ← get;
      found ← in_shop (UssdSubscription.offered to_uuid (cr_tier_id r) (g_shop s));
      match found with
      | None => mret (inl (bad "Invalid subscription tier"))
      | Some (t, _) =>
          match frequency_of (tr_duration_type t) with
          | None => mret (inl (bad "This tier does not support direct debit (only tier-based subscriptions)"))
          | Some expected =>
              if negb (String.eqb (cr_frequency r) expected)
              then mret (inl (bad ("Frequency must be " +:+ expected +:+ " for " +:+ tr_duration_type t +:+ " tier")))
              else
                let reference := "FLP" +:+ str_int (cr_user r) +:+ str_int (now / second) in
                mret (inr (Creating (Some (cr_user r))
                  (λ id, Mandate id (cr_user r) (cr_payer_msisdn r) reference "" "" "" PendingCreated recurring (cr_frequency r)
                           (utc_date now + 365) "" "" "" (Some (tr_id t)) None NoMetadata "" None None)
                  (Some (short_code (tr_id t)))))
          end
      end).

(** The row of an accepted command. *)
Definition accepted_row (cg : creating) (id : Z) (originator conversation payee : string) : mandate :=
  let m := cg_row cg id in
  let payee := match cg_payee cg with Some other => or_str payee other | None => md_payee m end in
  Mandate id (md_user m) (md_payer_msisdn m) (md_payer_reference m) (md_account_name m) payee (md_mandate_id m) (md_status m)
    (md_type m) (md_frequency m) (md_expiry m) originator conversation (md_debit_conversation m) (md_tier m) (md_plan m)
    (md_metadata m) (md_error m) (md_activated_at m) (md_cancelled_at m).

Definition create_close (what : string) (cg : creating) (r : TelebirrSoap.result string) (id ok_status : Z) : M store response :=
  or_error what (
    match r with
    | TelebirrSoap.Refused error _ => mret (Resp 500 error)
    | TelebirrSoap.Accepted originator conversation _ payee =>
        assert_or (bool_decide (is_Some (cg_user cg))) (IntegrityError "null value in column user_id") ≫= λ _,
        create_mandate_row (accepted_row cg id originator conversation payee) ≫= λ _, mret (Resp ok_status (str_int id))
    end).

(** The command of a recurring mandate, and the handler. *)
Definition create_command (cg : creating) (now : Z) (d : TelebirrSoap.draw) : TelebirrSoap.result string :=
  let m := cg_row cg 0 in
  TelebirrSoap.create_mandate send settings (md_payer_msisdn m) (md_payer_reference m) (md_frequency m)
    (TelebirrSoap.Text (TelebirrSoap.yyyymmdd (utc_date now))) (TelebirrSoap.Text (TelebirrSoap.yyyymmdd (md_expiry m))) None 1 31 true d.

Definition create_direct_debit_mandate (short_code : Z → string) (r : create_request) (d : TelebirrSoap.draw) (id now : Z) : M store response :=
  opened ← create_open short_code r now;
  match opened with
  | inl refusal => mret refusal
  | inr cg => create_close "create mandate" cg (create_command cg now d) id 201
  end.

(** ** Payments of one debit *)

(** [amount] is as it is printed, [None] when it is missing or nothing. *)
Record coin_request := CoinRequest { cn_user : Z; cn_amount : option string; cn_coins : option Z }.

Definition one_off_row (user : Z) (msisdn reference payee : string) (t : option Z) (x : metadata) (now : Z) (id : Z) : mandate :=
  Mandate id user msisdn reference "" payee "" PendingCreated one_off "01" (local_date now) "" "" "" t None x "" None None.

Definition coin_open (r : coin_request) (d : TelebirrSoap.draw) (now : Z) (s : store) : response + creating :=
  match cn_amount r with
  | None => inl (bad "amount is required")
  | Some amount =>
      match List.find (λ up : Z * option string, up.1 =? cn_user r) (Accounts.profiles (accounts s)) with
      | None => inl (Resp 404 "User profile not found")
      | Some (_, phone) =>
          if String.eqb (default "" phone) "" then inl (bad "Phone number not found in profile")
          else
            let reference := "COIN_" +:+ str_int (cn_user r) +:+ "_" +:+ TelebirrSoap.dw_stamp d in
            inr (Creating (Some (cn_user r))
                   (one_off_row (cn_user r) (default "" phone) reference (TelebirrSoap.t_shortcode settings) None
                      (ForCoins (default 100 (cn_coins r)) amount) now) None)
      end
  end.

(** [subscription]: whether it pays for a plan. *)
Definition one_off_command (cg : creating) (subscription : bool) (now : Z) (d : TelebirrSoap.draw) : TelebirrSoap.result string :=
  let m := cg_row cg 0 in
  let today := Some (TelebirrSoap.Day (local_date now)) in
  TelebirrSoap.create_one_off_payment send settings (md_payer_msisdn m) (md_payer_reference m) "01" today today None 1 31 subscription d.

Definition create_one_off_coin_purchase (r : coin_request) (d d' : TelebirrSoap.draw) (id now : Z) : M store response :=
  s ← get;
  match coin_open r d now s with
  | inl refusal => mret refusal
  | inr cg => create_close "create one-off payment" cg (one_off_command cg false now d') id 200
  end.

(** A tier as it may be named: [UUIDField] reads a number as the key itself. *)
Inductive tier_ref := TierNumber (n : Z) | TierText (s : string).
Record plan_request := PlanRequest { pr_user : option Z; pr_tier_id : tier_ref; pr_payer_msisdn : string }.

Definition missing_tier (t : tier_ref) : bool := match t with TierNumber n => n =? 0 | TierText s => String.eqb s "" end.
Definition tier_key (t : tier_ref) : option Z :=
  match t with TierNumber n => if (0 <=? n) && (n <? 2 ^ 128) then Some n else None | TierText s => to_uuid s end.
Definition tier_text (t : tier_ref) : string := match t with TierNumber n => str_int n | TierText s => s end.

(** [int(s)] when [s.isdigit()]. *)
Definition number_of (s : string) : option Z :=
  if String.eqb s "" then None
  else (λ l, foldl (λ n d, 10 * n + d) 0 l) <$> mapM SyncOrder.digit_of (String.list_ascii_of_string s).
Definition duration_of_number (n : option Z) : option string :=
  match n with Some 1 => Some "daily" | Some 2 => Some "weekly" | Some 3 => Some "monthly" | _ => None end.

Definition offers (s : store) : list UssdSubscription.offer := UssdSubscription.x_offers (g_shop s).
Definition tier_at (o : UssdSubscription.offer) (s : store) : option tier := UssdSubscription.tiers (g_shop s) !! UssdSubscription.of_tier o.
Definition price_of (t : Z) (s : store) : option Z :=
  UssdSubscription.of_price_etb <$> List.find (λ o, UssdSubscription.of_tier o =? t) (offers s).

Definition tier_of_type (duration_type : string) (s : store) : option tier :=
  List.find (λ o, UssdSubscription.of_is_active o
                  && match tier_at o s with Some t => String.eqb (tr_duration_type t) duration_type | None => false end) (offers s)
  ≫= λ o, tier_at o s.

(** By key, by code, or by the number of a duration; [code] is a column of a
    tier. *)
Definition resolve_tier (code : Z → string) (t : tier_ref) (s : store) : M store (response + tier) :=
  match tier_key t with
  | None => raise (ValidationError "is not a valid UUID.")
  | Some key =>
      mret (match UssdSubscription.tiers (g_shop s) !! key with
      | Some x => inr x
      | None =>
          match List.find (λ o, String.eqb (code (UssdSubscription.of_tier o)) (tier_text t)) (offers s) ≫= λ o, tier_at o s with
          | Some x => inr x
          | None =>
              match duration_of_number (number_of (tier_text t)) with
              | None => inl (bad "Invalid subscription tier")
              | Some ty => match tier_of_type ty s with
                           | Some x => inr x
                           | None => inl (bad ("No active subscription tier found for " +:+ ty))
                           end
              end
          end
      end)
  end.

Definition plan_open (code : Z → string) (r : plan_request) (d : TelebirrSoap.draw) (now : Z) : M store (response + creating) :=
  or_failed "create subscription payment" (
    s ← get;
    if missing_tier (pr_tier_id r) then mret (inl (bad "tier_id is required"))
    else
      let phone := or_str (pr_payer_msisdn r)
        (match pr_user r with Some u => default "" (Accounts.phone_of u (accounts s)) | None => "" end) in
      if String.eqb phone "" then mret (inl (bad "Phone number not found. Please provide payer_msisdn."))
      else
        found ← resolve_tier code (pr_tier_id r) s;
        match found with
        | inl refusal => mret (inl refusal)
        | inr t =>
            match frequency_of (tr_duration_type t) with
            | None => mret (inl (bad "This tier does not support Telebirr subscription"))
            | Some _ =>
                let reference := "SUB_" +:+ match pr_user r with Some u => str_int u | None => "ANON" end +:+ "_" +:+ TelebirrSoap.dw_stamp d in
                mret (inr (Creating (pr_user r)
                  (one_off_row (default 0 (pr_user r)) phone reference "" (Some (tr_id t))
                     (ForPlan (tr_duration_type t) (tr_duration_days t) (money_str (default 0 (price_of (tr_id t) s)))) now)
                  (Some (TelebirrSoap.t_shortcode settings))))
            end
        end).

Definition create_one_off_subscription (code : Z → string) (r : plan_request) (d d' : TelebirrSoap.draw) (id now : Z) : M store response :=
  opened ← plan_open code r d now;
  match opened with
  | inl refusal => mret refusal
  | inr cg => create_close "create subscription payment" cg (one_off_command cg true now d') id 200
  end.

(** ** Activating *)

(** [DirectDebitMandate.objects.get(id=mandate_id, user=user)]. *)
Definition get_mandate (mandate_id : string) (user : Z) : M store (option mandate) :=
  match to_uuid mandate_id with
  | None => raise (ValidationError "is not a valid UUID.")
  | Some id => gets (λ s, List.find (λ m, (md_id m =? id) && (md_user m =? user)) (g_mandates s))
  end.

Definition get_locked (id : Z) : M store mandate :=
  s ← get;
  match find_mandate id s with Some m => mret m | None => raise (DoesNotExist "DirectDebitMandate") end.

(** Up to the claim. *)
Definition activate_open (user : Z) (mandate_id : string) : M store (response + mandate) :=
  or_failed "activate mandate" (
    if String.eqb mandate_id "" then mret (inl (bad "mandate_id is required"))
    else
      found ← get_mandate mandate_id user;
      match found with
      | None => mret (inl (Resp 404 "Mandate not found"))
      | Some m =>
          if String.eqb (md_mandate_id m) ""
          then mret (inl (Resp 409 "Mandate is not yet ready for activation. Telebirr has not returned the MandateID. Please retry shortly."))
          else
            claimed ← update_where (md_id m) PendingActive (to_status Activating);
            if (claimed : bool) then mret (inr m)
            else
              m ← get_locked (md_id m);
              mret (inl (bad ("Mandate is in " +:+ status_str (md_status m) +:+ " status, cannot activate")))
      end).

(** A new plan, with its columns of this channel. *)
Definition create_plan (p : plan) (payment_method : string) (phone : option string) (now : Z) : M store unit :=
  s ← get;
  assert_or (bool_decide (s_plans (plans s) !! sp_id p = None)) (Accounts.duplicate_key "subscription_plans_pkey") ≫= λ _,
  in_accounts (SignIn.save_plan p (SmsSubscription.Line None "app" payment_method None None now)) ≫= λ _,
  in_shop (UssdSubscription.set_telebirr_phone (sp_id p) phone).

(** The plan of an activated mandate, linked, with a payment to come. *)
Definition subscribe (m : mandate) (t : tier) (plan_id : Z) (payment_id : string) (now : Z) : M store mandate :=
  s ← get;
  let days := default 0 (tr_duration_days t) in
  let end_date := if days =? 0 then None else Some (now + days * day) in
  create_plan (Plan plan_id (Some (md_user m)) (Some (tr_id t)) active (tr_duration_type t) (Some now) end_date end_date true 0
                 None "" None None None None None) "telebirr_direct_debit" None now ≫= λ _,
  let m := set_subscription_plan plan_id m in
  save_mandate m ≫= λ _,
  in_shop (UssdSubscription.create_payment
    (UssdSubscription.Payment payment_id plan_id (Some (md_user m)) None (default 0 (price_of (tr_id t) s)) "pending"
       "telebirr_direct_debit" (tr_duration_type t) (Some now) (default (now + 30 * day) end_date) None None now) now) ≫= λ _,
  mret m.

(** What a call comes to: an answer, unless it raises. *)
Definition called (A : Type) : Type := option (TelebirrSoap.result A).

Definition activate_close (m0 : mandate) (account_name : string) (answer : called unit) (plan_id : Z) (payment_id : string) (now : Z)
    : M store response :=
  match answer with
  | None => mret (Resp 502 "Activation request could not be confirmed. Please check mandate status shortly.")
  | Some (TelebirrSoap.Refused error _) =>
      or_error "activate mandate" (update_where (md_id m0) Activating (failed_with error) ≫= λ _, mret (Resp 500 error))
  | Some (TelebirrSoap.Accepted originator conversation _ _) =>
      or_error "activate mandate" (
        m ← atomic (
          m ← get_locked (md_id m0);
          if bool_decide (md_status m = Activating) then
            let m := activated now (set_answer account_name originator conversation m) in
            save_mandate m ≫= λ _,
            s ← get;
            match md_tier m ≫= λ t, UssdSubscription.tiers (g_shop s) !! t with
            | Some t => subscribe m t plan_id payment_id now
            | None => mret m
            end
          else mret m);
        mret (Resp 200 (status_str (md_status m))))
  end.

Definition activation (m : mandate) (d : TelebirrSoap.draw) : called unit :=
  Some (TelebirrSoap.activate_mandate send settings (md_mandate_id m) (md_payer_msisdn m) true d).

Definition activate_direct_debit_mandate (user : Z) (mandate_id account_name : string) (d : TelebirrSoap.draw) (plan_id : Z)
    (payment_id : string) (now : Z) : M store response :=
  opened ← activate_open user mandate_id;
  match opened with
  | inl refusal => mret refusal
  | inr m => activate_close m account_name (activation m d) plan_id payment_id now
  end.

(** ** Cancelling *)

Definition cancel_open (user : Z) (mandate_id : string) (now : Z) : M store (response + mandate) :=
  or_failed "cancel mandate" (
    if String.eqb mandate_id "" then mret (inl (bad "mandate_id is required"))
    else
      found ← get_mandate mandate_id user;
      match found with
      | None => mret (inl (Resp 404 "Mandate not found"))
      | Some m =>
          if negb (is_active now m) then mret (inl (bad ("Mandate is " +:+ status_str (md_status m) +:+ ", cannot cancel")))
          else if String.eqb (md_mandate_id m) "" then mret (inl (Resp 409 "Mandate has no Telebirr MandateID yet, cannot cancel."))
          else
            claimed ← update_where (md_id m) Active (to_status Cancelling);
            if (claimed : bool) then mret (inr m)
            else
              m ← get_locked (md_id m);
              mret (inl (bad ("Mandate is " +:+ status_str (md_status m) +:+ ", cannot cancel")))
      end).

Definition no_renewal (p : plan) : plan :=
  Plan (sp_id p) (sp_user p) (sp_tier p) (sp_status p) (sp_duration_type p) (sp_start p) (sp_end p) (sp_next_renewal p) false
    (sp_free_trial_days p) (sp_cancelled_at p) (sp_cancellation_reason p) (sp_grace_started p) (sp_grace_expires p)
    (sp_bonus_granted_at p) (sp_token p) (sp_token_expires p).

(** The plan of a mandate renews no more. *)
Definition stop_renewal (m : mandate) : M store unit :=
  s ← get;
  match md_plan m ≫= λ id, s_plans (plans s) !! id with
  | Some p => when (sp_auto_renew p) (in_accounts (SignIn.save_plan (no_renewal p) (SignIn.line_of p (accounts s))))
  | None => mret tt
  end.

Definition cancel_close (m0 : mandate) (answer : called unit) (now : Z) : M store response :=
  match answer with
  | None => mret (Resp 502 "Cancellation request could not be confirmed. Please check mandate status shortly.")
  | Some (TelebirrSoap.Refused error _) =>
      or_error "cancel mandate" (update_where (md_id m0) Cancelling (to_status Active) ≫= λ _, mret (Resp 500 error))
  | Some (TelebirrSoap.Accepted _ _ _ _) =>
      or_error "cancel mandate" (
        m ← atomic (
          m ← get_locked (md_id m0);
          m ← (if bool_decide (md_status m = Cancelling)
               then let m := cancelled_at now m in save_mandate m ≫= λ _, mret m
               else mret m);
          stop_renewal m ≫= λ _, mret m);
        mret (Resp 200 (status_str (md_status m))))
  end.

Definition cancellation (m : mandate) (d : TelebirrSoap.draw) : called unit :=
  Some (TelebirrSoap.cancel_mandate send settings (md_mandate_id m) (md_payer_msisdn m) d).

Definition cancel_direct_debit_mandate (user : Z) (mandate_id : string) (d : TelebirrSoap.draw) (now : Z) : M store response :=
  opened ← cancel_open user mandate_id now;
  match opened with
  | inl refusal => mret refusal
  | inr m => cancel_close m (cancellation m d) now
  end.

(** ** What one debit pays for *)

Definition credit_description (m : mandate) : string := "One-off Direct Debit payment " +:+ str_int (md_id m).

Definition set_profile_coins (user coins : Z) : M store unit :=
  modify (λ s, Store (g_shop s) (<[user := coins]> (g_profile_coins s)) (g_mandates s) (g_debits s)).

Definition has_profile (user : Z) (s : store) : bool := existsb (λ up : Z * option string, up.1 =? user) (Accounts.profiles (accounts s)).

Definition _credit_one_off_coins (m : mandate) (now : Z) : M store unit :=
  s ← get;
  if negb (has_profile (md_user m) s) then save_mandate (failed_with "UserProfile not found" m)
  else
    '(_, balance) ← in_accounts (Accounts.in_coins (
      balance ← CoinBalance.get_or_create (md_user m) now;
      CoinBalance.add_purchased balance (coins_of (md_metadata m)) "purchase" "telebirr" (CoinBalance.descr (credit_description m)) now));
    set_profile_coins (md_user m) (CoinBalance.u_balance balance) ≫= λ _,
    save_mandate (to_status Active m).

(** Whatever it raises is caught. *)
Definition _rollback_one_off_coins (m : mandate) (now : Z) : M store unit :=
  catch (
    s ← get;
    match CoinBalance.w_rows (s_coins (plans s)) !! md_user m with
    | None => mret tt
    | Some balance =>
        '(_, balance) ← in_accounts (Accounts.in_coins (
          CoinBalance.spend_coins balance (coins_of (md_metadata m)) "rollback" false
            (CoinBalance.descr ("Rollback failed payment " +:+ str_int (md_id m))) now));
        if has_profile (md_user m) s then set_profile_coins (md_user m) (CoinBalance.u_balance balance)
        else raise (DoesNotExist "UserProfile")
    end)
  (λ _, Some (mret tt)).

Definition expire_plans (user : Z) : M store unit :=
  in_accounts (Accounts.in_plans (modify (λ x, Subscriptions.with_plans
    ((λ p, if bool_decide (sp_user p = Some user) && bool_decide (sp_status p = active) then set_grace expired (sp_grace_started p) (sp_grace_expires p) p else p)
       <$> s_plans x) x))).

Definition days_of (x : metadata) : option Z := match x with ForPlan _ d _ => d | _ => None end.
Definition type_of (x : metadata) : string := match x with ForPlan ty _ _ => ty | _ => "daily" end.

(** What it raises is written on the mandate, unless the database raised it:
    then the transaction takes no more. *)
Definition _activate_one_off_subscription (m : mandate) (plan_id now : Z) : M store unit :=
  catch (
    match md_plan m with
    | Some _ => save_mandate (to_status Active m)
    | None =>
        s ← get;
        let t := md_tier m ≫= λ t, UssdSubscription.tiers (g_shop s) !! t in
        let duration_days :=
          or_int (default 0 (days_of (md_metadata m))) (match t with Some t => default 0 (tr_duration_days t) | None => 0 end) in
        let duration_type := match t with Some t => tr_duration_type t | None => type_of (md_metadata m) end in
        expire_plans (md_user m) ≫= λ _,
        create_plan (Plan plan_id (Some (md_user m)) (tr_id <$> t) active duration_type (Some now)
                       (if duration_days =? 0 then None else Some (now + duration_days * day)) None false 0
                       None "" None None None None None) "telebirr" (Some (md_payer_msisdn m)) now ≫= λ _,
        let m := set_subscription_plan plan_id m in
        save_mandate m ≫= λ _,
        save_mandate (to_status Active m)
    end)
  (λ e, match e with
        | IntegrityError _ => None
        | _ => Some (save_mandate (failed_with ("Subscription activation failed: " +:+ exn_str e) m))
        end).

Definition _rollback_one_off_subscription (m : mandate) : M store unit :=
  s ← get;
  match md_plan m ≫= λ id, s_plans (plans s) !! id with
  | Some p =>
      when (bool_decide (sp_status p = active))
        (in_accounts (Accounts.in_plans (Subscriptions.save_fields (λ q, set_grace cancelled (sp_grace_started q) (sp_grace_expires q) q) p)))
  | None => mret tt
  end.

(** ** The results *)

(** The debit an acceptance asks for. *)
Definition debit_of (m : mandate) (d : TelebirrSoap.draw) : TelebirrSoap.result (option string) :=
  TelebirrSoap.initiate_debit send settings (md_payer_reference m) (amount_of (md_metadata m)) "ETB" None
    (if String.eqb (md_mandate_id m) "" then None else Some (md_mandate_id m))
    (TelebirrSoap.mandate_is_on_subscription_account settings (md_payee m)) d.

Definition request_debit (m : mandate) (d : TelebirrSoap.draw) : M store unit :=
  match debit_of m d with
  | TelebirrSoap.Accepted originator _ _ _ => save_mandate (set_debit originator m)
  | TelebirrSoap.Refused error _ => save_mandate (failed_with ("Debit initiation failed: " +:+ error) m)
  end.

(** By the conversation of the mandate's command, or by that of its debit. *)
Definition correlate (originator : string) (s : store) : option mandate :=
  match List.find (λ m, String.eqb (md_originator m) originator) (g_mandates s) with
  | Some m => Some m
  | None => List.find (λ m, String.eqb (md_debit_conversation m) originator) (g_mandates s)
  end.

Definition given (x : option string) : string := default "" x.

Definition succeeded (r : TelebirrSoap.soap_result) : bool :=
  bool_decide (TelebirrSoap.rs_code r = Some "0")
  && (bool_decide (TelebirrSoap.rs_type r = Some "0") || bool_decide (TelebirrSoap.rs_type r = None)).

(** What a success does next, by the state of the mandate; [d] and [plan_id]
    are drawn. *)
Definition settle (new_mandate_id : string) (m : mandate) (d : TelebirrSoap.draw) (plan_id now : Z) : M store unit :=
  match md_type m with
  | one_off =>
      if negb (String.eqb new_mandate_id "") && bool_decide (md_status m = PendingCreated) then
        if is_subscription (md_metadata m) then _activate_one_off_subscription m plan_id now else _credit_one_off_coins m now
      else if bool_decide (md_status m = Active) then mret tt
      else request_debit m d
  | recurring =>
      match md_status m with
      | Cancelling => save_mandate (cancelled_at now m) ≫= λ _, stop_renewal m
      | PendingCreated => save_mandate (to_status PendingActive m)
      | PendingActive | Activating => save_mandate (activated now m)
      | _ => mret tt
      end
  end.

Definition on_success (new_mandate_id : string) (m : mandate) (d : TelebirrSoap.draw) (plan_id now : Z) : M store unit :=
  m ← (if negb (String.eqb new_mandate_id "") && String.eqb (md_mandate_id m) ""
       then let m := set_mandate_id (prefix_of 18 new_mandate_id) m in save_mandate m ≫= λ _, mret m
       else mret m);
  settle new_mandate_id m d plan_id now.

Definition on_failure (r : TelebirrSoap.soap_result) (m : mandate) (now : Z) : M store unit :=
  when (bool_decide (md_type m = one_off) && bool_decide (md_status m = Active))
    (if is_subscription (md_metadata m) then _rollback_one_off_subscription m else _rollback_one_off_coins m now) ≫= λ _,
  if bool_decide (md_status m = Cancelling) then save_mandate (to_status Active m)
  else save_mandate (failed_with (or_str (given (TelebirrSoap.rs_desc r))
                                    ("ResultCode=" +:+ default "None" (TelebirrSoap.rs_code r))) m).

(** The body as SOAP, or the fields of a JSON body. *)
Definition parsed (body : string) (json : option TelebirrSoap.soap_result) : option TelebirrSoap.soap_result :=
  let r := TelebirrSoap._parse_telebirr_soap_result body in
  if String.eqb (given (TelebirrSoap.rs_originator r)) "" then json else Some r.

(** [allowed]: what [webhook_refuse] makes of the address. *)
Definition telebirr_direct_debit_webhook (allowed : bool) (body : string) (json : option TelebirrSoap.soap_result)
    (d : TelebirrSoap.draw) (plan_id now : Z) : M store response :=
  if negb allowed then mret (Resp 403 "Forbidden")
  else catch (
    match parsed body json with
    | None => mret (Resp 200 "success")
    | Some r =>
        let originator := given (TelebirrSoap.rs_originator r) in
        if String.eqb originator "" then mret (Resp 200 "success")
        else
          let new_mandate_id := or_str (given (TelebirrSoap.rs_mandate_id r)) (given (TelebirrSoap.rs_transaction_id r)) in
          atomic (
            s ← get;
            match correlate originator s with
            | None => mret tt
            | Some m => if succeeded r then on_success new_mandate_id m d plan_id now else on_failure r m now
            end) ≫= λ _,
          mret (Resp 200 "success")
    end)
  (λ _, Some (mret (Resp 200 "success"))).

(** ** A debit by hand *)

(** The row of the attempt; [amount] as it is printed and as it is read. *)
Definition debit_open (user : Z) (mandate_id : string) (amount : option (string * option dec)) (id now : Z) : M store (response + mandate * string) :=
  or_failed "initiate direct debit" (
    match amount with
    | None => mret (inl (bad "mandate_id and amount are required"))
    | Some (text, value) =>
        if String.eqb mandate_id "" then mret (inl (bad "mandate_id and amount are required"))
        else
          found ← get_mandate mandate_id user;
          match found with
          | None => mret (inl (Resp 404 "Mandate not found"))
          | Some m =>
              if negb (is_active now m) then mret (inl (bad ("Mandate is " +:+ status_str (md_status m) +:+ ", cannot initiate debit")))
              else if String.eqb (md_mandate_id m) "" then mret (inl (Resp 409 "Mandate has no Telebirr MandateID yet, cannot initiate debit."))
              else match value with
              | None => raise InvalidOperation
              | Some v =>
                  assert_or (Z.abs (quantize2 v) <? 10 ^ 10) InvalidOperation ≫= λ _,
                  modify (λ s, Store (g_shop s) (g_profile_coins s) (g_mandates s)
                    (g_debits s ++ [Debit id (md_id m) (quantize2 v) "pending" "" "" "" "" 0 None])) ≫= λ _,
                  mret (inr (m, text))
              end
          end
    end).

Definition set_debit_row (id : Z) (f : debit → debit) : M store unit :=
  modify (λ s, Store (g_shop s) (g_profile_coins s) (g_mandates s) ((λ t, if dt_id t =? id then f t else t) <$> g_debits s)).

Definition debit_close (id : Z) (answer : TelebirrSoap.result (option string)) (now : Z) : M store response :=
  or_error "initiate direct debit" (
    match answer with
    | TelebirrSoap.Refused error _ => set_debit_row id (debit_failed error now) ≫= λ _, mret (Resp 500 error)
    | TelebirrSoap.Accepted originator conversation _ reference =>
        match reference with
        | None => raise (IntegrityError "null value in column telebirr_transaction_id")
        | Some reference => set_debit_row id (debit_sent originator conversation reference) ≫= λ _, mret (Resp 200 (str_int id))
        end
    end).

Definition debit_by_hand (m : mandate) (amount : string) (d : TelebirrSoap.draw) : TelebirrSoap.result (option string) :=
  TelebirrSoap.initiate_debit send settings (md_payer_reference m) amount "ETB" (Some (md_payee m)) (Some (md_mandate_id m))
    (TelebirrSoap.mandate_is_on_subscription_account settings (md_payee m)) d.

Definition initiate_direct_debit (user : Z) (mandate_id : string) (amount : option (string * option dec)) (d : TelebirrSoap.draw) (id now : Z)
    : M store response :=
  opened ← debit_open user mandate_id amount id now;
  match opened with
  | inl refusal => mret refusal
  | inr (m, text) => debit_close id (debit_by_hand m text d) now
  end.

(** ** What the pieces keep *)

Definition rows (s : store) : gmap Z plan := s_plans (plans s).
Definition txs (s : store) : list CoinBalance.coin_tx := CoinBalance.w_txs (s_coins (plans s)).

(** Not yet activated. *)
Definition early (st : mstatus) : bool := match st with PendingCreated | PendingActive | Activating => true | _ => false end.

Record ok (s : store) : Prop := Ok {
  sound_accounts : Accounts.accounts_ok (accounts s); sound_ids : NoDup (md_id <$> g_mandates s);
  sound_plans : ∀ m, m ∈ g_mandates s → early (md_status m) = true → md_plan m = None
}.

(** [l], [added], [created]: the mandates after, the coin transactions and the
    keys of the plans that are new. *)
Record leaves (l : list mandate) (added : list CoinBalance.coin_tx) (created : list Z) (s s' : store) : Prop := Leaves {
  lv_accounts : Accounts.accounts_ok (accounts s'); lv_mandates : g_mandates s' = l; lv_txs : txs s' = txs s ++ added;
  lv_rows : ∀ id, is_Some (rows s' !! id) ↔ is_Some (rows s !! id) ∨ id ∈ created
}.

Lemma nothing_left s : Accounts.accounts_ok (accounts s) → leaves (g_mandates s) [] [] s s.
Proof. intros Hs. split; [done|done|by rewrite app_nil_r|]. intros id. set_solver. Qed.

Lemma left_then l1 a1 c1 l2 a2 c2 s1 s2 s3 : leaves l1 a1 c1 s1 s2 → leaves l2 a2 c2 s2 s3 → leaves l2 (a1 ++ a2) (c1 ++ c2) s1 s3.
Proof.
  intros [_ _ T1 R1] [A2 M2 T2 R2]. split; [done|done|by rewrite T2, T1, app_assoc|]. intros id. rewrite R2, R1, elem_of_app. tauto.
Qed.

(** An operation on the accounts. *)
Lemma accounts_leave {A} (m : M Accounts.store A) added created s :
  Accounts.accounts_ok (m (accounts s)).2 →
  CoinBalance.w_txs (s_coins (Accounts.plans (m (accounts s)).2)) = txs s ++ added →
  (∀ id, is_Some (s_plans (Accounts.plans (m (accounts s)).2) !! id) ↔ is_Some (rows s !! id) ∨ id ∈ created) →
  post (in_accounts m) s (λ r s', r = (m (accounts s)).1 ∧ leaves (g_mandates s) added created s s').
Proof.
  intros Ha Ht Hr. unfold in_accounts, UssdSubscription.in_accounts. apply post_zoom, post_zoom. unfold post. split; [done|].
  split; [exact Ha|done|exact Ht|exact Hr].
Qed.

Lemma mandate_saved_leaves m s : Accounts.accounts_ok (accounts s) →
  post (save_mandate m) s (λ r s', match r with inl _ => s' = s | inr _ => leaves (replace m (g_mandates s)) [] [] s s' end).
Proof.
  intros Hs. unfold save_mandate. apply post_bind, post_get. cbv beta iota. apply post_bind.
  destruct (negb _); [apply post_ret|by apply post_raise]. cbv beta iota. apply post_put.
  destruct (nothing_left s Hs) as [A M T R]. by split.
Qed.

Lemma inserted_leaves m s : Accounts.accounts_ok (accounts s) →
  post (create_mandate_row m) s (λ r s', match r with
    | inl _ => s' = s
    | inr _ => find_mandate (md_id m) s = None ∧ leaves (m :: g_mandates s) [] [] s s'
    end).
Proof.
  intros Hs. unfold create_mandate_row. apply post_bind, post_get. cbv beta iota. apply post_bind.
  destruct (decide (find_mandate (md_id m) s = None)) as [Hn|Hn];
    [rewrite bool_decide_true by exact Hn; apply post_ret|rewrite bool_decide_false by exact Hn; by apply post_raise].
  cbv beta iota. apply post_bind. destruct (negb _); [apply post_ret|by apply post_raise]. cbv beta iota. apply post_put.
  destruct (nothing_left s Hs) as [A M T R]. split; [exact Hn|by split].
Qed.

Lemma updated_leaves id from f s : Accounts.accounts_ok (accounts s) →
  post (update_where id from f) s (λ r s', match r with
    | inr true => ∃ m, find_mandate id s = Some m ∧ md_status m = from ∧ leaves (replace (f m) (g_mandates s)) [] [] s s'
    | _ => s' = s
    end).
Proof.
  intros Hs. unfold update_where. apply post_bind, post_get. cbv beta iota. destruct (find_mandate id s) as [m|] eqn:E; [|by apply post_ret].
  destruct (decide (md_status m = from)) as [Hf|Hf];
    [rewrite bool_decide_true by exact Hf|rewrite bool_decide_false by exact Hf; by apply post_ret].
  apply post_bind, post_put. cbv beta iota. apply post_ret. exists m. split; [done|]. split; [done|].
  destruct (nothing_left s Hs) as [A M T R]. by split.
Qed.

(** A plan's row written: a new one, or one that is there. *)
Lemma plan_saved_leaves p l s : Accounts.accounts_ok (accounts s) →
  post (in_accounts (SignIn.save_plan p l)) s (λ r s', r = inr tt ∧ leaves (g_mandates s) [] [sp_id p] s s').
Proof.
  intros Hs. eapply post_conseq.
  { apply (accounts_leave (SignIn.save_plan p l) [] [sp_id p]).
    - by apply UssdSubscription.gentle_save_plan.
    - by rewrite app_nil_r.
    - intros id. change (s_plans (Accounts.plans (SignIn.save_plan p l (accounts s)).2)) with (<[sp_id p := p]> (rows s)).
      destruct (decide (id = sp_id p)) as [->|Hne]; [rewrite lookup_insert_eq; set_solver|rewrite lookup_insert_ne by done; set_solver]. }
  intros r s' [-> H]. by split.
Qed.

Lemma phone_leaves id n s : Accounts.accounts_ok (accounts s) →
  post (in_shop (UssdSubscription.set_telebirr_phone id n)) s (λ r s', r = inr tt ∧ leaves (g_mandates s) [] [] s s').
Proof.
  intros Hs. eapply post_conseq.
  { apply (accounts_leave (modify (λ a, Accounts.with_telebirr (match n with Some n => <[id := n]> (Accounts.a_telebirr a)
      | None => delete id (Accounts.a_telebirr a) end) a)) [] []).
    - by apply (UssdSubscription.gentle_telebirr (λ a, match n with Some n => <[id := n]> (Accounts.a_telebirr a) | None => delete id (Accounts.a_telebirr a) end)).
    - by rewrite app_nil_r.
    - intros i. cbn. set_solver. }
  intros r s' [-> H]. by split.
Qed.

Lemma new_plan_leaves p method phone now s : Accounts.accounts_ok (accounts s) →
  post (create_plan p method phone now) s (λ r s', match r with
    | inl _ => s' = s
    | inr _ => rows s !! sp_id p = None ∧ leaves (g_mandates s) [] [sp_id p] s s'
    end).
Proof.
  intros Hs. unfold create_plan. apply post_bind, post_get. cbv beta iota. apply post_bind.
  destruct (decide (rows s !! sp_id p = None)) as [Hn|Hn];
    [rewrite bool_decide_true by exact Hn; apply post_ret|rewrite bool_decide_false by exact Hn; by apply post_raise].
  cbv beta iota. apply post_bind. eapply post_conseq; [by apply plan_saved_leaves|]. cbv beta. intros r s1 [-> L1].
  eapply post_conseq; [apply phone_leaves, (lv_accounts _ _ _ _ _ L1)|]. cbv beta. intros r s2 [-> L2].
  split; [exact Hn|]. rewrite (lv_mandates _ _ _ _ _ L1) in L2. pose proof (left_then _ _ _ _ _ _ _ _ _ L1 L2) as L. by rewrite app_nil_r in L.
Qed.

Lemma pending_leaves py now s : Accounts.accounts_ok (accounts s) → UssdSubscription.py_status py = "pending" →
  post (in_shop (UssdSubscription.create_payment py now)) s (λ r s', match r with inl _ => s' = s | inr _ => leaves (g_mandates s) [] [] s s' end).
Proof.
  intros Hs Hp. assert (with_shop (g_shop s) s = s) as Hsame by (by destruct s). unfold in_shop. apply post_zoom.
  unfold UssdSubscription.create_payment. apply post_bind, post_get. cbv beta iota. apply post_bind.
  destruct (negb _); [apply post_ret|by apply post_raise]. cbv beta iota. apply post_bind.
  destruct (negb _); [apply post_ret|by apply post_raise]. cbv beta iota. apply post_bind, post_put. cbv beta iota.
  unfold UssdSubscription.gift_for, UssdSubscription.in_accounts. apply post_zoom. unfold post.
  destruct (UssdSubscription.gentle_gift (UssdSubscription.gift_of py) now _ Hs) as [H1 _].
  assert (SubscriptionGift.grant_subscription_gift (UssdSubscription.gift_of py) now = mret tt) as E.
  { unfold SubscriptionGift.grant_subscription_gift. cbn [SubscriptionGift.pay_status UssdSubscription.gift_of]. by rewrite Hp. }
  rewrite E in H1 |- *. cbn. split; [exact H1|done|by rewrite app_nil_r|]. intros id. cbn. set_solver.
Qed.

(** *** Coins *)

Lemma gentle_coins {A} (m : M CoinBalance.wallet A) : preserves CoinBalance.wallet_ok m → UssdSubscription.gentle (Accounts.in_coins m).
Proof.
  intros Hm. apply UssdSubscription.in_plans_ok. intros x [Ht Hw Hid]. unfold Subscriptions.in_coins. rewrite zoom_run. split; [exact Ht| |exact Hid].
  by apply Hm.
Qed.

Lemma coins_leave {A} (m : M CoinBalance.wallet A) added s :
  Accounts.accounts_ok (accounts s) → preserves CoinBalance.wallet_ok m →
  CoinBalance.w_txs (m (s_coins (plans s))).2 = txs s ++ added →
  post (in_accounts (Accounts.in_coins m)) s (λ r s', r = (m (s_coins (plans s))).1 ∧ leaves (g_mandates s) added [] s s').
Proof.
  intros Hs Hm Ht. eapply post_conseq.
  { apply (accounts_leave (Accounts.in_coins m) added []).
    - by apply gentle_coins.
    - unfold Accounts.in_coins, Accounts.in_plans, Subscriptions.in_coins. by rewrite !zoom_run.
    - intros id. unfold Accounts.in_coins, Accounts.in_plans, Subscriptions.in_coins. rewrite !zoom_run. cbn. set_solver. }
  intros r s' [-> H]. split; [|done]. unfold Accounts.in_coins, Accounts.in_plans, Subscriptions.in_coins. by rewrite !zoom_run.
Qed.

Definition credit (id : Z) (t : CoinBalance.coin_tx) : bool :=
  String.eqb (CoinBalance.ct_type t) "purchase" && String.eqb (CoinBalance.ct_description t) ("One-off Direct Debit payment " +:+ str_int id).

(** What a debit for coins adds to the ledger. *)
Definition credit_tx (m : mandate) (now : Z) : CoinBalance.coin_tx :=
  CoinBalance.new_tx (md_user m) "purchase" (coins_of (md_metadata m)) "telebirr" (CoinBalance.descr (credit_description m)) now.

Lemma credit_own m now id : credit id (credit_tx m now) = (md_id m =? id).
Proof.
  unfold credit, credit_tx, credit_description. cbn. destruct (Z.eqb_spec (md_id m) id) as [->|Hne]; [by rewrite String.eqb_refl|].
  apply String.eqb_neq. intros H. apply Hne. unfold str_int in H. by simplify_eq.
Qed.

Lemma credited_leaves m now s : Accounts.accounts_ok (accounts s) →
  post (in_accounts (Accounts.in_coins (
    balance ← CoinBalance.get_or_create (md_user m) now;
    CoinBalance.add_purchased balance (coins_of (md_metadata m)) "purchase" "telebirr" (CoinBalance.descr (credit_description m)) now))) s
  (λ r s', match r with inl _ => True | inr _ => 0 < coins_of (md_metadata m) ∧ leaves (g_mandates s) [credit_tx m now] [] s s' end).
Proof.
  intros Hs. pose proof (Subscriptions.ok_coins _ (Accounts.ok_sms _ Hs)) as Hw.
  destruct (Z.ltb_spec 0 (coins_of (md_metadata m))) as [Hp|Hp].
  - eapply post_conseq.
    { apply (coins_leave _ [credit_tx m now]); [done|apply preserves_bind; [apply CoinBalance.wallet_ok_get_or_create|intros ?; apply CoinBalance.purchased_preserves]|].
      destruct (CoinBalance.add_purchased_credit (md_user m) (coins_of (md_metadata m)) "purchase" "telebirr"
        (CoinBalance.descr (credit_description m)) now (s_coins (plans s)) Hw Hp eq_refl) as (r' & l & E & _). by rewrite E. }
    intros r s' [-> H]. destruct (_ (s_coins (plans s))).1; [done|]. by split.
  - unfold post, in_accounts, UssdSubscription.in_accounts, Accounts.in_coins, Accounts.in_plans, Subscriptions.in_coins. rewrite !zoom_run. cbn [fst snd].
    destruct (CoinBalance.get_or_create_spec (md_user m) now (s_coins (plans s))) as (r & w & E & _).
    unfold plans, accounts in E. rewrite bind_run, E. unfold CoinBalance.add_purchased. rewrite bind_run. unfold CoinBalance.positive_amount.
    apply Z.leb_le in Hp. by rewrite Hp.
Qed.

Definition is_rollback (t : CoinBalance.coin_tx) : Prop := CoinBalance.ct_type t = "rollback".

Lemma rollback_no_credit id t : is_rollback t → credit id t = false.
Proof. unfold is_rollback, credit. by intros ->. Qed.

Lemma spent_leaves balance n kw now s : Accounts.accounts_ok (accounts s) →
  post (in_accounts (Accounts.in_coins (CoinBalance.spend_coins balance n "rollback" false kw now))) s
  (λ _ s', ∃ added, Forall is_rollback added ∧ leaves (g_mandates s) added [] s s').
Proof.
  intros Hs. set (m := CoinBalance.spend_coins balance n "rollback" false kw now).
  assert (∃ added, Forall is_rollback added ∧ CoinBalance.w_txs (m (s_coins (plans s))).2 = txs s ++ added) as (added & Hr & Ht).
  { unfold m. rewrite CoinBalance.spend_coins_eq. unfold CoinBalance.spend_method.
    destruct (CoinBalance.locked_method _ _ _ _ _ _ _) as [[e|x] w] eqn:E.
    - apply CoinBalance.locked_method_err in E as ->. exists []. split; [done|by rewrite app_nil_r].
    - apply CoinBalance.locked_method_ok in E as (_ & r & l & _ & _ & _ & _ & ->); [|apply CoinBalance.reads_spend].
      eexists [_]. split; [|reflexivity]. by repeat constructor. }
  eapply post_conseq; [apply (coins_leave m added); [done|apply CoinBalance.spend_preserves|done]|]. intros r s' [_ H]. by exists added.
Qed.

Lemma profile_leaves u n s : Accounts.accounts_ok (accounts s) →
  post (set_profile_coins u n) s (λ r s', r = inr tt ∧ leaves (g_mandates s) [] [] s s').
Proof. intros Hs. split; [done|]. destruct (nothing_left s Hs) as [A M T R]. by split. Qed.

Lemma rolled_leaves m now s : Accounts.accounts_ok (accounts s) →
  post (_rollback_one_off_coins m now) s (λ r s', r = inr tt ∧ ∃ added, Forall is_rollback added ∧ leaves (g_mandates s) added [] s s').
Proof.
  intros Hs. assert (∃ added, Forall is_rollback added ∧ leaves (g_mandates s) added [] s s) as Hsame
    by (exists []; split; [done|by apply nothing_left]).
  unfold _rollback_one_off_coins. apply post_catch, post_bind, post_get. cbv beta iota. destruct (_ !! _) as [balance|]; [|by apply post_ret].
  apply post_bind. eapply post_conseq; [by apply spent_leaves|]. cbv beta. intros [e|[t l]] s1 (a1 & Hr & L1); [by split; [|exists a1]|].
  destruct (has_profile _ s); [|by split; [|exists a1]].
  eapply post_conseq; [apply profile_leaves, (lv_accounts _ _ _ _ _ L1)|]. cbv beta. intros r s2 [-> L2]. split; [done|].
  exists a1. split; [done|]. rewrite (lv_mandates _ _ _ _ _ L1) in L2. pose proof (left_then _ _ _ _ _ _ _ _ _ L1 L2) as L. by rewrite app_nil_r in L.
Qed.

(** *** Plans that are there *)

Lemma plans_leave {A} (m : M Subscriptions.store A) s :
  Accounts.accounts_ok (accounts s) → (∀ x, Subscriptions.store_ok x → Subscriptions.store_ok (m x).2) →
  s_coins (m (plans s)).2 = s_coins (plans s) → (∀ id, is_Some (s_plans (m (plans s)).2 !! id) ↔ is_Some (rows s !! id)) →
  post (in_accounts (Accounts.in_plans m)) s (λ r s', r = (m (plans s)).1 ∧ leaves (g_mandates s) [] [] s s').
Proof.
  intros Hs Hm Hc Hr. eapply post_conseq.
  { apply (accounts_leave (Accounts.in_plans m) [] []).
    - by apply UssdSubscription.in_plans_ok.
    - unfold Accounts.in_plans. rewrite zoom_run, app_nil_r. cbn. unfold txs. by rewrite <- Hc.
    - intros id. unfold Accounts.in_plans. rewrite zoom_run. cbn. rewrite Hr. set_solver. }
  intros r s' [-> H]. split; [|done]. unfold Accounts.in_plans. by rewrite zoom_run.
Qed.

Lemma expired_leaves user s : Accounts.accounts_ok (accounts s) →
  post (expire_plans user) s (λ r s', r = inr tt ∧ leaves (g_mandates s) [] [] s s').
Proof.
  intros Hs. unfold expire_plans. eapply post_conseq.
  { apply plans_leave; [done|..|done|].
    - intros x [Ht Hw Hid]. split; [exact Ht|exact Hw|]. intros id p. cbn. rewrite lookup_fmap_Some. intros (q & <- & Hq).
      specialize (Hid _ _ Hq). by destruct (_ && _).
    - intros id. cbn. by rewrite lookup_fmap, fmap_is_Some. }
  intros r s' [-> H]. by split.
Qed.

Lemma ended_leaves m s : Accounts.accounts_ok (accounts s) →
  post (_rollback_one_off_subscription m) s (λ r s', r = inr tt ∧ leaves (g_mandates s) [] [] s s').
Proof.
  intros Hs. pose proof (conj eq_refl (nothing_left s Hs) : inr tt = inr tt :> exn + unit ∧ _) as Hsame.
  unfold _rollback_one_off_subscription. apply post_bind, post_get. cbv beta iota. destruct (_ ≫= _) as [p|] eqn:E; [|by apply post_ret].
  apply post_when; [|done]. intros _. eapply post_conseq.
  { apply plans_leave; [done|..|done|].
    - intros x [Ht Hw Hid]. split; [exact Ht|exact Hw|]. intros id q. cbn. intros H.
      destruct (decide (id = sp_id p)) as [->|Hne];
        [rewrite lookup_alter_eq in H; destruct (s_plans x !! sp_id p) as [q'|] eqn:Eq; [|done]; injection H as <-; by apply Hid in Eq
        |rewrite lookup_alter_ne in H by done; by apply Hid].
    - intros id. cbn. destruct (decide (id = sp_id p)) as [->|Hne]; [by rewrite lookup_alter_eq, fmap_is_Some|by rewrite lookup_alter_ne]. }
  intros r s' [-> H]. by split.
Qed.

Lemma stopped_leaves m s : Accounts.accounts_ok (accounts s) →
  post (stop_renewal m) s (λ r s', r = inr tt ∧ leaves (g_mandates s) [] [] s s').
Proof.
  intros Hs. pose proof (conj eq_refl (nothing_left s Hs) : inr tt = inr tt :> exn + unit ∧ _) as Hsame.
  unfold stop_renewal. apply post_bind, post_get. cbv beta iota. destruct (_ ≫= _) as [p|] eqn:E; [|by apply post_ret].
  apply post_when; [|done]. intros _. eapply post_conseq; [by apply plan_saved_leaves|]. cbv beta. intros r s' [-> [A M T R]]. split; [done|].
  split; [done..|]. intros id. rewrite R. destruct (md_plan m) as [k|]; [|done]. cbn in E.
  apply (Subscriptions.ok_ids _ (Accounts.ok_sms _ Hs)) in E as Hid.
  assert (sp_id (no_renewal p) = k) as -> by (by rewrite <- Hid). split; [|set_solver]. intros [H|H]; [by left|].
  left. apply list_elem_of_singleton in H as ->. by eexists.
Qed.

(** ** One mandate *)

(** What a mandate is for never changes. *)
Definition purpose (m : mandate) :=
  (md_id m, md_user m, md_payer_msisdn m, md_payer_reference m, md_payee m, md_type m, md_tier m, md_metadata m).

(** How its state may move without anything given for it. *)
Definition moves (m m' : mandate) : bool :=
  let a := md_status m in let b := md_status m' in
  bool_decide (a = b)
  || match a, b with
     | PendingCreated, PendingActive => bool_decide (md_type m = recurring)
     | PendingActive, Activating | PendingActive, Active | Activating, Active => true
     | Active, Cancelling | Cancelling, Active | Cancelling, Cancelled => true
     | Cancelling, Failed => bool_decide (md_type m = one_off)
     | _, Failed => true
     | _, _ => false
     end.

(** The life of a mandate, with who was given coins for it and how many: it is
    requested, it moves, it is linked to a plan once, or its account is given
    the coins it is for. *)
Inductive mandate_step : option mandate * list (Z * Z) → option mandate * list (Z * Z) → Prop :=
| Requested m n : md_status m = PendingCreated → md_plan m = None → mandate_step (None, n) (Some m, n)
| Moved m m' n : purpose m' = purpose m → moves m m' = true → md_plan m' = md_plan m → mandate_step (Some m, n) (Some m', n)
| Linked m m' n p : purpose m' = purpose m → md_plan m = None → md_plan m' = Some p → md_status m' = Active →
    (md_status m = Activating ∨ md_status m = PendingCreated ∧ md_type m = one_off ∧ is_subscription (md_metadata m) = true) →
    mandate_step (Some m, n) (Some m', n)
| Credited m m' n : purpose m' = purpose m → md_plan m' = md_plan m → md_status m' = Active →
    md_status m = PendingCreated → md_type m = one_off → is_subscription (md_metadata m) = false → 0 < coins_of (md_metadata m) →
    mandate_step (Some m, n) (Some m', n ++ [(md_user m, coins_of (md_metadata m))]).

Definition given_to (t : CoinBalance.coin_tx) : Z * Z := (CoinBalance.ct_user t, CoinBalance.ct_coins t).
Definition credits (id : Z) (s : store) : list (Z * Z) := given_to <$> List.filter (credit id) (txs s).
Definition order_of (id : Z) (s : store) : option mandate * list (Z * Z) := (find_mandate id s, credits id s).

(** Every plan a mandate names is there, and one mandate names it. *)
Definition linked (s : store) : Prop :=
  (∀ m p, m ∈ g_mandates s → md_plan m = Some p → is_Some (rows s !! p))
  ∧ ∀ m m' p, m ∈ g_mandates s → m' ∈ g_mandates s → md_plan m = Some p → md_plan m' = Some p → md_id m = md_id m'.

Record follows (s s' : store) : Prop := Follows {
  fw_ok : ok s'; fw_steps : ∀ id, rtc mandate_step (order_of id s) (order_of id s');
  fw_linked : linked s → linked s';
  fw_new : ∀ p, is_Some (rows s' !! p) → is_Some (rows s !! p) ∨ ∃ m, m ∈ g_mandates s' ∧ md_plan m = Some p
}.

Lemma find_in id s m : find_mandate id s = Some m → m ∈ g_mandates s ∧ md_id m = id.
Proof. unfold find_mandate. intros [H1 H2%Z.eqb_eq]%List.find_some. split; [by apply list_elem_of_In|done]. Qed.

Lemma find_unique (l : list mandate) m : NoDup (md_id <$> l) → m ∈ l → List.find (λ x, md_id x =? md_id m) l = Some m.
Proof.
  induction l as [|x l IH]; cbn; [by intros _ ?%elem_of_nil|]. intros [Hx Hl]%NoDup_cons [->|Hm]%elem_of_cons; [by rewrite Z.eqb_refl|].
  destruct (Z.eqb_spec (md_id x) (md_id m)) as [E|]; [|by apply IH]. exfalso. apply Hx. rewrite E. by apply list_elem_of_fmap_2.
Qed.

Lemma in_find s m : ok s → m ∈ g_mandates s → find_mandate (md_id m) s = Some m.
Proof. intros [_ H _]. by apply find_unique. Qed.

Lemma replace_cons m x l : replace m (x :: l) = (if md_id x =? md_id m then m else x) :: replace m l.
Proof. done. Qed.

Lemma replaced_ids m l : md_id <$> replace m l = md_id <$> l.
Proof.
  induction l as [|x l IH]; [done|]. rewrite replace_cons, !fmap_cons, IH. destruct (Z.eqb_spec (md_id x) (md_id m)); [by f_equal|done].
Qed.

Lemma elem_replaced m l x : x ∈ replace m l → x = m ∨ x ∈ l ∧ md_id x ≠ md_id m.
Proof. intros (y & -> & Hy)%list_elem_of_fmap. destruct (Z.eqb_spec (md_id y) (md_id m)); [by left|by right]. Qed.

Lemma replaced_elem m l x : x ∈ l → md_id x = md_id m → m ∈ replace m l.
Proof. intros Hx E. apply list_elem_of_fmap. exists x. split; [|done]. by rewrite E, Z.eqb_refl. Qed.

Lemma kept_elem m l x : x ∈ l → md_id x ≠ md_id m → x ∈ replace m l.
Proof. intros Hx E. apply list_elem_of_fmap. exists x. split; [|done]. by apply Z.eqb_neq in E as ->. Qed.

Lemma replace_same m l : NoDup (md_id <$> l) → m ∈ l → replace m l = l.
Proof.
  intros Hl Hm. rewrite <- (list_fmap_id l) at 2. apply list_fmap_ext. intros i x Hx%list_elem_of_lookup_2.
  destruct (Z.eqb_spec (md_id x) (md_id m)) as [E|]; [|done]. pose proof (find_unique l m Hl Hm) as H1. pose proof (find_unique l x Hl Hx) as H2.
  rewrite E, H1 in H2. by injection H2 as ->.
Qed.

Lemma replace_twice m1 m2 l : md_id m1 = md_id m2 → replace m2 (replace m1 l) = replace m2 l.
Proof.
  intros E. unfold replace. rewrite <- list_fmap_compose. apply list_fmap_ext. intros i x _. cbn.
  destruct (Z.eqb_spec (md_id x) (md_id m1)) as [Hx|Hx]; [by rewrite E, Z.eqb_refl, <- E, Hx, Z.eqb_refl|done].
Qed.

Lemma find_replaced m l id : md_id m ∈ md_id <$> l →
  List.find (λ x, md_id x =? id) (replace m l) = if md_id m =? id then Some m else List.find (λ x, md_id x =? id) l.
Proof.
  induction l as [|x l IH]; [by intros ?%elem_of_nil|]. rewrite replace_cons, fmap_cons. intros H. cbn [List.find].
  destruct (Z.eqb_spec (md_id x) (md_id m)) as [E|Hne]; cbn [List.find].
  - rewrite E. destruct (Z.eqb_spec (md_id m) id) as [_|Hid]; [done|].
    destruct (decide (md_id m ∈ md_id <$> l)) as [Hin|Hout]; [by apply IH|].
    f_equal. clear -Hout. induction l as [|y l IH]; [done|]. rewrite replace_cons. rewrite fmap_cons, not_elem_of_cons in Hout.
    destruct Hout as [H1 H2]. rewrite IH by done. destruct (Z.eqb_spec (md_id y) (md_id m)); congruence.
  - apply elem_of_cons in H as [?|H]; [congruence|]. rewrite IH by done.
    destruct (Z.eqb_spec (md_id x) id) as [Ex|]; [|done]. destruct (Z.eqb_spec (md_id m) id); [congruence|done].
Qed.

Lemma credits_added id l added created s s' : leaves l added created s s' →
  credits id s' = credits id s ++ (given_to <$> List.filter (credit id) added).
Proof. intros [_ _ T _]. unfold credits. by rewrite T, List.filter_app, fmap_app. Qed.

Lemma step_purpose m n x n' : mandate_step (Some m, n) (x, n') → ∃ m', x = Some m' ∧ purpose m' = purpose m.
Proof. inversion 1; subst; by eexists. Qed.

(** No step takes a plan before the activation. *)
Lemma step_early m n m' n' : mandate_step (Some m, n) (Some m', n') → (early (md_status m) = true → md_plan m = None) →
  early (md_status m') = true → md_plan m' = None.
Proof.
  inversion 1 as [|? ? ? _ H1 H2|? ? ? ? _ _ _ H1|? ? ? _ _ H1]; subst; [|by rewrite H1..]. intros Hm He. rewrite H2. apply Hm.
  unfold moves in H1. apply orb_true_iff in H1 as [H1|H1]; [by apply bool_decide_eq_true in H1 as ->|].
  by destruct (md_status m), (md_status m').
Qed.

Lemma step_plan m n m' n' p : mandate_step (Some m, n) (Some m', n') → md_plan m = Some p → md_plan m' = Some p.
Proof. inversion 1; subst; congruence. Qed.

Lemma steps_plan x y m p : rtc mandate_step x y → x.1 = Some m → md_plan m = Some p → ∃ m', y.1 = Some m' ∧ md_plan m' = Some p.
Proof.
  intros H. revert m. induction H as [x|x [z n] y H _ IH]; intros m Hx Hp; [by exists m|]. destruct x as [x k]. cbn in Hx. subst x.
  destruct (step_purpose _ _ _ _ H) as (m' & -> & _). apply (IH m'); [done|]. by eapply step_plan.
Qed.

Lemma follows_trans s1 s2 s3 : ok s1 → follows s1 s2 → follows s2 s3 → follows s1 s3.
Proof.
  intros H1 [O2 S2 L2 N2] [O3 S3 L3 N3]. split; [done|intros id; by trans (order_of id s2)|auto|]. intros p Hp.
  destruct (N3 p Hp) as [Hp2|?]; [|by right]. destruct (N2 p Hp2) as [?|(m & Hm & Hl)]; [by left|right].
  destruct (steps_plan _ _ m p (S3 (md_id m))) as (m' & Hf & Hl'); [by apply in_find|done|]. exists m'. split; [|done].
  by apply find_in in Hf as [].
Qed.

(** Nothing but what is not about mandates. *)
Lemma follows_rest added s s' : ok s → leaves (g_mandates s) added [] s s' → (∀ id, List.filter (credit id) added = []) → follows s s'.
Proof.
  intros [Ha Hi He] L Hc. pose proof L as [A M T R]. split.
  - split; [done|by rewrite M|by rewrite M].
  - intros id. unfold order_of. rewrite (credits_added id _ _ _ _ _ L), Hc, app_nil_r. unfold find_mandate. by rewrite M.
  - intros [H1 H2]. split; rewrite M; [|done]. intros m p Hm Hp. apply R. left. by eapply H1.
  - intros p Hp%R. left. set_solver.
Qed.

Lemma mandates_stay s : ok s → follows s s.
Proof. intros Hs. apply (follows_rest [] s s Hs); [by apply nothing_left; destruct Hs|done]. Qed.

(** The plan a step links, if it links one. *)
Definition made (m m' : mandate) : list Z := match md_plan m, md_plan m' with None, Some p => [p] | _, _ => [] end.

(** What a row that is written, and a ledger that grew, must satisfy. *)
Record outcome (m m' : mandate) (added : list CoinBalance.coin_tx) : Prop := Outcome {
  oc_step : ∀ n, mandate_step (Some m, n) (Some m', n ++ (given_to <$> List.filter (credit (md_id m)) added));
  oc_other : ∀ id, id ≠ md_id m → List.filter (credit id) added = []
}.

Lemma outcome_id m m' added : outcome m m' added → md_id m' = md_id m.
Proof. intros [H _]. destruct (step_purpose _ _ _ _ (H [])) as (? & [= <-] & E). unfold purpose in E. congruence. Qed.

Lemma moved_outcome m m' added : purpose m' = purpose m → moves m m' = true → md_plan m' = md_plan m →
  (∀ id, List.filter (credit id) added = []) → outcome m m' added.
Proof. intros H1 H2 H3 H4. split; [|by intros]. intros n. rewrite H4, app_nil_r. by constructor. Qed.

Lemma step_from m m1 n x : purpose m1 = purpose m → md_status m1 = md_status m → md_plan m1 = md_plan m →
  mandate_step (Some m1, n) x → mandate_step (Some m, n) x.
Proof.
  intros Hp Hs Hl H. pose proof Hp as [= _ Eu _ _ _ Et _ Em].
  inversion H as [|? m' ? H1 H2 H3|? m' ? p H1 H2 H3 H4 H5|? m' ? H1 H2 H3 H4 H5 H6 H7]; subst.
  - apply Moved; [congruence| |congruence]. unfold moves in H2. by rewrite Hs, Et in H2.
  - rewrite Hs, Et, Em in H5. apply (Linked _ _ _ p); congruence.
  - rewrite Eu, Em. apply Credited; congruence.
Qed.

Lemma outcome_from m m1 m' added : purpose m1 = purpose m → md_status m1 = md_status m → md_plan m1 = md_plan m →
  outcome m1 m' added → outcome m m' added.
Proof.
  intros Hp Hs Hl [H1 H2]. assert (md_id m1 = md_id m) as Hid by (by injection Hp). rewrite Hid in H1, H2.
  split; [|done]. intros n. by apply (step_from m m1).
Qed.

(** What a handler of one mandate gives when it returns. *)
Definition served {A} (m : mandate) (s : store) (r : exn + A) (s' : store) : Prop :=
  match r with
  | inl _ => True
  | inr _ => ∃ m' added, leaves (replace m' (g_mandates s)) added (made m m') s s' ∧ outcome m m' added ∧ ∀ p, p ∈ made m m' → rows s !! p = None
  end.

Lemma served_follows {A} m s (a : A) s' : ok s → find_mandate (md_id m) s = Some m → served m s (inr a) s' → follows s s'.
Proof.
  intros [Ha Hi He] Hf (m' & added & L & Ho & Hn).
  pose proof (outcome_id _ _ _ Ho) as Hid. destruct (find_in _ _ _ Hf) as [Hin _]. pose proof L as [A' M T R].
  assert (md_id m' ∈ md_id <$> g_mandates s) as Hmem by (rewrite Hid; by apply list_elem_of_fmap_2).
  assert (m' ∈ g_mandates s') as Hin' by (rewrite M; by apply (replaced_elem m' _ m)).
  destruct Ho as [Ho1 Ho2]. split.
  - split; [done|by rewrite M, replaced_ids|]. rewrite M. intros x [->|[Hx _]]%elem_replaced; [|by apply He].
    by apply (step_early _ _ _ _ (Ho1 [])), He.
  - intros id. unfold order_of. rewrite (credits_added id _ _ _ _ _ L). unfold find_mandate. rewrite M, find_replaced, Hid by done.
    destruct (Z.eqb_spec (md_id m) id) as [<-|Hne].
    + unfold find_mandate in Hf. rewrite Hf. apply rtc_once, Ho1.
    + by rewrite Ho2, app_nil_r by done.
  - intros [H1 H2]. assert (∀ x p, x ∈ g_mandates s' → md_plan x = Some p →
      (∃ y, y ∈ g_mandates s ∧ md_id y = md_id x ∧ md_plan y = Some p) ∨ md_id x = md_id m ∧ rows s !! p = None ∧ p ∈ made m m') as Hfrom.
    { rewrite M. intros x p [->|[Hx Hne]]%elem_replaced Hp; [|left; by exists x]. destruct (md_plan m) as [q|] eqn:Eq.
      - left. exists m. split; [done|]. split; [done|]. rewrite (step_plan _ _ _ _ _ (Ho1 []) Eq) in Hp. congruence.
      - right. assert (p ∈ made m m') as Hmade by (unfold made; rewrite Eq, Hp; set_solver). auto. }
    split.
    + intros x p Hx Hp. apply R. destruct (Hfrom x p Hx Hp) as [(y & Hy & _ & Hyp)|(_ & _ & ?)]; [left; by eapply H1|by right].
    + intros x y p Hx Hy Hxp Hyp.
      destruct (Hfrom x p Hx Hxp) as [(x' & Hx' & <- & Hxp')|(Ex & Nx & _)], (Hfrom y p Hy Hyp) as [(y' & Hy' & <- & Hyp')|(Ey & Ny & _)].
      * by eapply H2.
      * destruct (H1 x' p Hx' Hxp') as [? E]. congruence.
      * destruct (H1 y' p Hy' Hyp') as [? E]. congruence.
      * congruence.
  - intros p [Hp|Hp]%R; [by left|]. right. exists m'. split; [done|]. unfold made in Hp. destruct (md_plan m); [by apply elem_of_nil in Hp|].
    destruct (md_plan m'); [|by apply elem_of_nil in Hp]. by apply list_elem_of_singleton in Hp as ->.
Qed.

(** After a row of the same mandate, its plan unchanged. *)
Lemma served_after {A} m m1 s s1 (r : exn + A) s' : purpose m1 = purpose m → md_status m1 = md_status m → md_plan m1 = md_plan m →
  leaves (replace m1 (g_mandates s)) [] [] s s1 → served m1 s1 r s' → served m s r s'.
Proof.
  intros Hp Hs Hl L. destruct r as [e|a]; [done|]. intros (m' & added & L2 & Ho & Hn). exists m', added.
  assert (made m m' = made m1 m') as E by (unfold made; by rewrite Hl). rewrite E. pose proof L as [_ M _ R]. split; [|split].
  - pose proof (left_then _ _ _ _ _ _ _ _ _ L L2) as H. rewrite M, replace_twice in H; [done|].
    rewrite (outcome_id _ _ _ Ho). done.
  - by apply (outcome_from m m1).
  - intros p Hin. apply Hn in Hin. destruct (rows s !! p) as [q|] eqn:Eq; [|done].
    assert (is_Some (rows s1 !! p)) as [? ?] by (apply R; left; by eexists). congruence.
Qed.

Lemma saved_served m m' s : Accounts.accounts_ok (accounts s) → outcome m m' [] → md_plan m' = md_plan m → post (save_mandate m') s (served m s).
Proof.
  intros Hs Ho Hl. eapply post_conseq; [by apply mandate_saved_leaves|]. cbv beta. intros [e|a] s'; [done|]. intros L. exists m', [].
  assert (made m m' = []) as -> by (unfold made; rewrite Hl; by destruct (md_plan m)). split; [done|]. split; [done|]. by intros p ?%elem_of_nil.
Qed.

Lemma filter_credit m now id : List.filter (credit id) [credit_tx m now] = if md_id m =? id then [credit_tx m now] else [].
Proof. unfold List.filter. by rewrite credit_own. Qed.

(** A row saved after what it was given for. *)
Lemma given_served m m' added created s s1 : leaves (g_mandates s) added created s s1 → outcome m m' added → created = made m m' →
  (∀ p, p ∈ created → rows s !! p = None) → post (save_mandate m') s1 (served m s).
Proof.
  intros L Ho -> Hn. eapply post_conseq; [apply mandate_saved_leaves, (lv_accounts _ _ _ _ _ L)|]. cbv beta. intros [e|a] s'; [done|]. intros L2.
  exists m', added. rewrite (lv_mandates _ _ _ _ _ L) in L2. pose proof (left_then _ _ _ _ _ _ _ _ _ L L2) as H. rewrite !app_nil_r in H. by split.
Qed.

Lemma credited_served m now s : Accounts.accounts_ok (accounts s) → md_status m = PendingCreated → md_type m = one_off →
  is_subscription (md_metadata m) = false → post (_credit_one_off_coins m now) s (served m s).
Proof.
  intros Hs Hst Hty Hsub. unfold _credit_one_off_coins. apply post_bind, post_get. cbv beta iota. destruct (negb _).
  - apply saved_served; [done| |done]. apply moved_outcome; [done| |done|done]. unfold moves. by rewrite Hst.
  - apply post_bind. eapply post_conseq; [by apply credited_leaves|]. cbv beta. intros [e|[t b]] s1; [done|]. intros [Hc L1].
    apply post_bind. eapply post_conseq; [apply profile_leaves, (lv_accounts _ _ _ _ _ L1)|]. cbv beta. intros r s2 [-> L2].
    rewrite (lv_mandates _ _ _ _ _ L1) in L2. eapply (given_served m (to_status Active m) [credit_tx m now] []).
    + pose proof (left_then _ _ _ _ _ _ _ _ _ L1 L2) as L. exact L.
    + split; [|intros id Hne; rewrite filter_credit; by apply not_eq_sym, Z.eqb_neq in Hne as ->].
      intros n. rewrite filter_credit, Z.eqb_refl. by constructor.
    + unfold made. cbn. by destruct (md_plan m).
    + by intros p ?%elem_of_nil.
Qed.

Lemma linked_outcome m m' p : purpose m' = purpose m → md_plan m = None → md_plan m' = Some p → md_status m' = Active →
  (md_status m = Activating ∨ md_status m = PendingCreated ∧ md_type m = one_off ∧ is_subscription (md_metadata m) = true) → outcome m m' [].
Proof. intros H1 H2 H3 H4 H5. split; [|done]. intros n. cbn. rewrite app_nil_r. by apply (Linked _ _ _ p). Qed.

(** What saving a row raises is the database's. *)
Lemma saved_raises m s : post (save_mandate m) s (λ r _, match r with inl e => ∃ x, e = IntegrityError x | inr _ => True end).
Proof.
  unfold save_mandate. apply post_bind, post_get. cbv beta iota. apply post_bind.
  destruct (negb _); [apply post_ret; cbv beta iota; by apply post_put|apply post_raise; by eexists].
Qed.

Lemma post_and {A} (m : M store A) s (P Q : exn + A → store → Prop) : post m s P → post m s Q → post m s (λ r s', P r s' ∧ Q r s').
Proof. by split. Qed.

Lemma subscribed_served m plan_id now s : Accounts.accounts_ok (accounts s) → md_status m = PendingCreated → md_type m = one_off →
  is_subscription (md_metadata m) = true → md_plan m = None → post (_activate_one_off_subscription m plan_id now) s (served m s).
Proof.
  intros Hs Hst Hty Hsub Hl. unfold _activate_one_off_subscription. apply post_catch.
  assert (∀ e s1, leaves (g_mandates s) [] [] s s1 →
    post (save_mandate (failed_with ("Subscription activation failed: " +:+ exn_str e) m)) s1 (served m s)) as Hfail.
  { intros e s1 L. apply (given_served m _ [] []); [done| | |by intros p ?%elem_of_nil].
    - apply moved_outcome; [done| |done|done]. unfold moves. by rewrite Hst.
    - unfold made. cbn. by destruct (md_plan m). }
  set (Q := λ (r : exn + unit) s1, match r with inr _ => served m s r s1 | inl e => (∃ x, e = IntegrityError x) ∨ leaves (g_mandates s) [] [] s s1 end).
  eapply (post_conseq _ _ Q).
  2:{ intros [e|a] s1; [|done]. unfold Q. intros [(x & ->)|L]; [done|]. destruct e; first [done|by apply Hfail]. }
  rewrite Hl. apply post_bind, post_get. cbv beta iota zeta. apply post_bind. eapply post_conseq; [by apply expired_leaves|]. cbv beta. intros r s1 [-> L1].
  apply post_bind. eapply post_conseq; [apply new_plan_leaves, (lv_accounts _ _ _ _ _ L1)|]. cbv beta. intros [e|[]] s2; [intros ->; by right|].
  intros [Hn L2]. cbn [sp_id] in Hn, L2. rewrite (lv_mandates _ _ _ _ _ L1) in L2. pose proof (left_then _ _ _ _ _ _ _ _ _ L1 L2) as L.
  apply post_bind. eapply post_conseq; [apply post_and; [apply saved_raises|apply mandate_saved_leaves, (lv_accounts _ _ _ _ _ L)]|].
  cbv beta. intros [e|[]] s3 [He L3]; [by left|]. clear He.
  eapply post_conseq; [apply post_and; [apply saved_raises|apply mandate_saved_leaves, (lv_accounts _ _ _ _ _ L3)]|].
  cbv beta. intros [e|[]] s4 [He L4]; [by left|]. clear He. unfold Q, served.
  exists (to_status Active (set_subscription_plan plan_id m)), [].
  assert (made m (to_status Active (set_subscription_plan plan_id m)) = [plan_id]) as -> by (unfold made; by rewrite Hl).
  split; [|split].
  - pose proof (left_then _ _ _ _ _ _ _ _ _ (left_then _ _ _ _ _ _ _ _ _ L L3) L4) as H. cbn [app] in H.
    rewrite (lv_mandates _ _ _ _ _ L3), (lv_mandates _ _ _ _ _ L), replace_twice in H by done. exact H.
  - eapply linked_outcome; [done|done|done|done|by right].
  - intros p ->%list_elem_of_singleton. destruct (rows s !! plan_id) eqn:E; [|done].
    assert (is_Some (rows s1 !! plan_id)) as [? ?] by (apply (lv_rows _ _ _ _ _ L1); left; by eexists). congruence.
Qed.

Lemma rollbacks_no_credit id added : Forall is_rollback added → List.filter (credit id) added = [].
Proof. induction 1 as [|t l Ht _ IH]; [done|]. cbn [List.filter]. by rewrite rollback_no_credit. Qed.

Lemma failed_move error m : (md_status m = Cancelling → md_type m = one_off) → moves m (failed_with error m) = true.
Proof. intros H. unfold moves. cbn. destruct (md_status m); try done. by rewrite H. Qed.

Lemma moved_served m m' s : Accounts.accounts_ok (accounts s) → purpose m' = purpose m → moves m m' = true → md_plan m' = md_plan m →
  post (save_mandate m') s (served m s).
Proof. intros Hs H1 H2 H3. apply saved_served; [done| |done]. by apply moved_outcome. Qed.

Lemma same_move m m' : md_status m' = md_status m → moves m m' = true.
Proof. intros E. unfold moves. by rewrite E, bool_decide_true. Qed.

Lemma nothing_served {A} m (a : A) s : ok s → find_mandate (md_id m) s = Some m → served m s (inr a) s.
Proof.
  intros [Ha Hi He] Hf. destruct (find_in _ _ _ Hf) as [Hin _]. exists m, []. assert (made m m = []) as -> by (unfold made; by destruct (md_plan m)).
  split; [|split].
  - rewrite replace_same by done. by apply nothing_left.
  - apply moved_outcome; [done|by apply same_move|done|done].
  - by intros p ?%elem_of_nil.
Qed.

Lemma debit_served m d s : Accounts.accounts_ok (accounts s) → md_type m = one_off → post (request_debit m d) s (served m s).
Proof.
  intros Hs Ht. unfold request_debit. destruct (debit_of m d).
  - apply moved_served; [done|done| |done]. by apply same_move.
  - apply moved_served; [done|done| |done]. by apply failed_move.
Qed.

(** Further writes that are not about mandates. *)
Lemma served_then {A B} m s (a : A) s1 (b : exn + B) s' : served m s (inr a) s1 → leaves (g_mandates s1) [] [] s1 s' → served m s b s'.
Proof.
  destruct b as [e|b]; [done|]. intros (m' & added & L & Ho & Hn) L2. exists m', added. split; [|done].
  rewrite (lv_mandates _ _ _ _ _ L) in L2. pose proof (left_then _ _ _ _ _ _ _ _ _ L L2) as H. by rewrite !app_nil_r in H.
Qed.

Lemma served_accounts {A} m s (a : A) s' : served m s (inr a) s' → Accounts.accounts_ok (accounts s').
Proof. intros (? & ? & L & _). exact (lv_accounts _ _ _ _ _ L). Qed.

Lemma cancelled_served m0 m now s : Accounts.accounts_ok (accounts s) → md_status m = Cancelling →
  post (save_mandate (cancelled_at now m) ≫= λ _, stop_renewal m0) s (served m s).
Proof.
  intros Hs Hst. apply post_bind. eapply post_conseq.
  - apply moved_served; [exact Hs|exact (eq_refl : purpose (cancelled_at now m) = purpose m)| |done]. unfold moves. by rewrite Hst.
  - intros [e|a] s1; [done|]. intros Hv. eapply post_conseq; [apply stopped_leaves, (served_accounts _ _ _ _ Hv)|].
    cbv beta. intros r s2 [-> L]. by eapply served_then.
Qed.

Lemma settled_served nid m d plan_id now s : ok s → find_mandate (md_id m) s = Some m → post (settle nid m d plan_id now) s (served m s).
Proof.
  intros Hs Hf. pose proof Hs as [Ha Hi He]. assert (served m s (inr tt) s) as Hnone by (by apply nothing_served).
  unfold settle. destruct (md_type m) eqn:Ht.
  - destruct (md_status m) eqn:E; try (by apply post_ret).
    + apply moved_served; [done|done| |done]. unfold moves. by rewrite E, Ht.
    + apply moved_served; [done|done| |done]. unfold moves. by rewrite E.
    + apply moved_served; [done|done| |done]. unfold moves. by rewrite E.
    + by apply cancelled_served.
  - destruct (_ && _) eqn:E.
    + apply andb_true_iff in E as [_ E%bool_decide_eq_true]. destruct (is_subscription _) eqn:Es; [|by apply credited_served].
      apply subscribed_served; [done..|]. apply He; [apply (find_in _ _ _ Hf)|by rewrite E].
    + destruct (bool_decide (md_status m = Active)); [by apply post_ret|by apply debit_served].
Qed.

Lemma replaced_ok m1 added created s s1 : ok s → (early (md_status m1) = true → md_plan m1 = None) →
  leaves (replace m1 (g_mandates s)) added created s s1 → ok s1.
Proof.
  intros [_ Hi He] Hm [A M _ _]. split; [done|by rewrite M, replaced_ids|]. rewrite M. intros x [->|[Hx _]]%elem_replaced; [done|by apply He].
Qed.

Lemma replaced_find m m1 added created s s1 : find_mandate (md_id m) s = Some m → md_id m1 = md_id m →
  leaves (replace m1 (g_mandates s)) added created s s1 → find_mandate (md_id m1) s1 = Some m1.
Proof.
  intros Hf E L. destruct (find_in _ _ _ Hf) as [Hin _]. unfold find_mandate. rewrite (lv_mandates _ _ _ _ _ L), find_replaced, Z.eqb_refl; [done|].
  rewrite E. by apply list_elem_of_fmap_2.
Qed.

Lemma success_served nid m d plan_id now s : ok s → find_mandate (md_id m) s = Some m → post (on_success nid m d plan_id now) s (served m s).
Proof.
  intros Hs Hf. pose proof Hs as [Ha Hi He]. unfold on_success. apply post_bind. destruct (_ && _).
  - apply post_bind. eapply post_conseq; [by apply mandate_saved_leaves|]. cbv beta. intros [e|a] s1; [done|]. intros L. apply post_ret.
    eapply post_conseq; [apply settled_served; [by apply (replaced_ok (set_mandate_id (prefix_of 18 nid) m) [] [] s); [|exact (He m (proj1 (find_in _ _ _ Hf)))|]|by eapply replaced_find]|]. intros r s'. by apply served_after.
  - apply post_ret. by apply settled_served.
Qed.

Lemma failure_served r m now s : ok s → find_mandate (md_id m) s = Some m → post (on_failure r m now) s (served m s).
Proof.
  intros Hs Hf. pose proof Hs as [Ha Hi He]. unfold on_failure. apply post_bind.
  assert (∀ added s1, leaves (g_mandates s) added [] s s1 → Forall is_rollback added → post (
    if bool_decide (md_status m = Cancelling) then save_mandate (to_status Active m)
    else save_mandate (failed_with (or_str (given (TelebirrSoap.rs_desc r)) ("ResultCode=" +:+ default "None" (TelebirrSoap.rs_code r))) m)) s1
    (served m s)) as Hsave.
  { intros added s1 L Hr. assert (∀ id, List.filter (credit id) added = []) as Hc by (intros id; by apply rollbacks_no_credit).
    destruct (bool_decide _) eqn:E; [apply bool_decide_eq_true in E|apply bool_decide_eq_false in E].
    - apply (given_served m _ added []); [done| | |by intros p ?%elem_of_nil].
      + apply moved_outcome; [done| |done|done]. unfold moves. by rewrite E.
      + unfold made. cbn. by destruct (md_plan m).
    - apply (given_served m _ added []); [done| | |by intros p ?%elem_of_nil].
      + apply moved_outcome; [done| |done|done]. by apply failed_move.
      + unfold made. cbn. by destruct (md_plan m). }
  apply post_when.
  - intros _. destruct (is_subscription _).
    + eapply post_conseq; [by apply ended_leaves|]. cbv beta. intros x s1 [-> L]. by apply (Hsave [] s1).
    + eapply post_conseq; [by apply rolled_leaves|]. cbv beta. intros x s1 [-> (added & Hr & L)]. by apply (Hsave added s1).
  - intros _. apply (Hsave [] s); [by apply nothing_left|done].
Qed.

(** *** The handlers *)

Lemma correlate_in o s m : correlate o s = Some m → m ∈ g_mandates s.
Proof.
  unfold correlate. destruct (List.find _ (g_mandates s)) as [x|] eqn:E; [intros [= <-]|clear E; intros E]; apply List.find_some in E as [H _];
    by apply list_elem_of_In.
Qed.

Lemma webhook_follows allowed body json d plan_id now s : ok s →
  post (telebirr_direct_debit_webhook allowed body json d plan_id now) s (λ _, follows s).
Proof.
  intros Hs. pose proof (mandates_stay s Hs) as Hsame. unfold telebirr_direct_debit_webhook. destruct (negb _); [by apply post_ret|].
  apply post_catch. destruct (parsed body json) as [r|]; [|by apply post_ret]. destruct (String.eqb _ _); [by apply post_ret|].
  apply post_bind, post_atomic, post_bind, post_get. cbv beta iota. destruct (correlate _ s) as [m|] eqn:E; [|by apply post_ret].
  apply correlate_in, (in_find _ _ Hs) in E. destruct (succeeded r).
  - eapply post_conseq; [by apply success_served|]. intros [e|[]] s' Hv; [by apply post_ret|]. apply post_ret. by apply (served_follows m _ tt).
  - eapply post_conseq; [by apply failure_served|]. intros [e|[]] s' Hv; [by apply post_ret|]. apply post_ret. by apply (served_follows m _ tt).
Qed.

(** What the answer to a handler keeps. *)
Lemma or_failed_post {A} what (m : M store (response + A)) s (P : store → Prop) : post m s (λ _, P) → post (or_failed what m) s (λ _, P).
Proof. intros H. unfold or_failed. apply post_catch. eapply post_conseq; [exact H|]. cbv beta. intros [e|a] s' Hp; [by apply post_ret|done]. Qed.

Lemma or_error_post what (m : M store response) s (P : store → Prop) : post m s (λ _, P) → post (or_error what m) s (λ _, P).
Proof. intros H. unfold or_error. apply post_catch. eapply post_conseq; [exact H|]. cbv beta. intros [e|a] s' Hp; [by apply post_ret|done]. Qed.

(** A row that is asked for: of its key, requested, with no plan. *)
Definition unborn (cg : creating) : Prop := ∀ id, let m := cg_row cg id in md_id m = id ∧ md_status m = PendingCreated ∧ md_plan m = None.

Lemma inserted_follows m s s' : ok s → md_status m = PendingCreated → md_plan m = None → find_mandate (md_id m) s = None →
  leaves (m :: g_mandates s) [] [] s s' → follows s s'.
Proof.
  intros [Ha Hi He] Hst Hl Hf L. pose proof L as [A M T R].
  assert (md_id m ∉ md_id <$> g_mandates s) as Hnew.
  { intros (x & E & Hx)%list_elem_of_fmap. unfold find_mandate in Hf. rewrite E, find_unique in Hf by done. done. }
  split.
  - split; [done| |].
    + rewrite M, fmap_cons. by apply NoDup_cons.
    + rewrite M. by intros x [->|Hx]%elem_of_cons; [|apply He].
  - intros id. unfold order_of. rewrite (credits_added id _ _ _ _ _ L), app_nil_r. unfold find_mandate in *. rewrite M. cbn [List.find].
    destruct (Z.eqb_spec (md_id m) id) as [<-|_]; [|done]. rewrite Hf. by apply rtc_once, Requested.
  - intros [H1 H2]. assert (∀ x p, x ∈ g_mandates s' → md_plan x = Some p → x ∈ g_mandates s) as Hold
      by (intros x p Hx Hp; rewrite M in Hx; apply elem_of_cons in Hx as [->|?]; [congruence|done]).
    split; [intros x p Hx Hp; apply R; left; eauto|intros x y p Hx Hy Hxp Hyp; eauto].
  - intros p [Hp|Hp]%R; [by left|by apply elem_of_nil in Hp].
Qed.

Lemma create_close_follows what cg r id ok_status s : unborn cg → ok s → post (create_close what cg r id ok_status) s (λ _, follows s).
Proof.
  intros Hc Hs. pose proof (mandates_stay s Hs) as Hsame. destruct (Hc id) as (Hid & Hst & Hl). pose proof Hs as [Ha _ _].
  unfold create_close. apply or_error_post. destruct r as [originator conversation message payee|]; [|by apply post_ret].
  apply post_bind. destruct (bool_decide _); [apply post_ret|by apply post_raise]. apply post_bind.
  eapply post_conseq; [by apply inserted_leaves|]. cbv beta. intros [e|a] s'; [by intros ->|]. intros [Hf L]. apply post_ret.
  by apply (inserted_follows (accepted_row cg id originator conversation payee)).
Qed.

Lemma get_mandate_post mandate_id user s (Q : exn + option mandate → store → Prop) :
  (∀ e, Q (inl e) s) → Q (inr None) s → (∀ m, m ∈ g_mandates s → md_user m = user → Q (inr (Some m)) s) → post (get_mandate mandate_id user) s Q.
Proof.
  intros H1 H2 H3. unfold get_mandate. destruct (to_uuid mandate_id) as [id|]; [|by apply post_raise]. unfold gets, post. cbn.
  destruct (List.find _ _) as [m|] eqn:E; [|done]. apply List.find_some in E as [Hin [_ Hu]%andb_true_iff].
  apply H3; [by apply list_elem_of_In|by apply Z.eqb_eq].
Qed.

Lemma get_locked_post id s (Q : exn + mandate → store → Prop) :
  (∀ e, Q (inl e) s) → (∀ m, find_mandate id s = Some m → Q (inr m) s) → post (get_locked id) s Q.
Proof. intros H1 H2. unfold get_locked. apply post_bind, post_get. cbv beta iota. destruct (find_mandate id s); [by apply post_ret; auto|by apply post_raise]. Qed.

(** One conditional UPDATE moves one mandate. *)
Lemma updated_follows id from f s : ok s → (∀ m, md_status m = from → purpose (f m) = purpose m ∧ moves m (f m) = true ∧ md_plan (f m) = md_plan m) →
  post (update_where id from f) s (λ r s', follows s s' ∧ match r with
    | inr true => ∃ m, find_mandate id s = Some m ∧ md_status m = from ∧ find_mandate id s' = Some (f m)
    | _ => s' = s
    end).
Proof.
  intros Hs Hm. pose proof (mandates_stay s Hs) as Hsame. pose proof Hs as [Ha _ _]. eapply post_conseq; [by apply updated_leaves|]. cbv beta.
  intros [e|[]] s'; [by intros ->| |by intros ->]. intros (m & Hf & Hst & L). destruct (Hm m Hst) as (Hp & Hmv & Hl).
  destruct (find_in _ _ _ Hf) as [Hin Hid]. assert (md_id (f m) = md_id m) as Hid' by (by injection Hp). split.
  - apply (served_follows m s tt s' Hs); [by rewrite Hid|]. exists (f m), [].
    assert (made m (f m) = []) as -> by (unfold made; rewrite Hl; by destruct (md_plan m)).
    split; [done|]. split; [by apply moved_outcome|]. by intros p ?%elem_of_nil.
  - exists m. split; [done|]. split; [done|]. rewrite <- Hid in Hf |- *. rewrite <- Hid'. by eapply replaced_find.
Qed.

Lemma claim_move m from to : md_status m = from → (∀ x, md_status x = from → moves x (to_status to x) = true) →
  purpose (to_status to m) = purpose m ∧ moves m (to_status to m) = true ∧ md_plan (to_status to m) = md_plan m.
Proof. auto. Qed.

Lemma activate_open_follows user mandate_id s : ok s → post (activate_open user mandate_id) s (λ _, follows s).
Proof.
  intros Hs. pose proof (mandates_stay s Hs) as Hsame. unfold activate_open. apply or_failed_post.
  destruct (String.eqb _ _); [by apply post_ret|]. apply post_bind, get_mandate_post; [done|by apply post_ret|]. intros m _ _.
  destruct (String.eqb _ _); [by apply post_ret|]. apply post_bind. eapply post_conseq.
  { apply updated_follows; [done|]. intros x Hx. apply (claim_move x _ _ Hx). intros y Hy. unfold moves. by rewrite Hy. }
  cbv beta. intros [e|[]] s' [Hf Hst]; [done|by apply post_ret|]. subst s'. apply post_bind, get_locked_post; [done|].
  intros x _. by apply post_ret.
Qed.

Lemma cancel_open_follows user mandate_id now s : ok s → post (cancel_open user mandate_id now) s (λ _, follows s).
Proof.
  intros Hs. pose proof (mandates_stay s Hs) as Hsame. unfold cancel_open. apply or_failed_post.
  destruct (String.eqb _ _); [by apply post_ret|]. apply post_bind, get_mandate_post; [done|by apply post_ret|]. intros m _ _.
  destruct (negb _); [by apply post_ret|]. destruct (String.eqb _ _); [by apply post_ret|]. apply post_bind. eapply post_conseq.
  { apply updated_follows; [done|]. intros x Hx. apply (claim_move x _ _ Hx). intros y Hy. unfold moves. by rewrite Hy. }
  cbv beta. intros [e|[]] s' [Hf Hst]; [done|by apply post_ret|]. subst s'. apply post_bind, get_locked_post; [done|].
  intros x _. by apply post_ret.
Qed.

Lemma subscribed_leaves m t plan_id payment_id now s : Accounts.accounts_ok (accounts s) →
  post (subscribe m t plan_id payment_id now) s (λ r s', match r with
    | inl _ => True
    | inr m' => m' = set_subscription_plan plan_id m ∧ rows s !! plan_id = None ∧ leaves (replace m' (g_mandates s)) [] [plan_id] s s'
    end).
Proof.
  intros Hs. unfold subscribe. apply post_bind, post_get. cbv beta iota zeta. apply post_bind.
  eapply post_conseq; [by apply new_plan_leaves|]. cbv beta. intros [e|[]] s1; [done|]. intros [Hn L1]. cbn [sp_id] in Hn, L1.
  apply post_bind. eapply post_conseq; [apply mandate_saved_leaves, (lv_accounts _ _ _ _ _ L1)|]. cbv beta. intros [e|[]] s2; [done|]. intros L2.
  apply post_bind. eapply post_conseq; [apply pending_leaves; [apply (lv_accounts _ _ _ _ _ L2)|done]|]. cbv beta.
  intros [e|py] s3; [done|]. intros L3. apply post_ret. split; [done|]. split; [done|].
  pose proof (left_then _ _ _ _ _ _ _ _ _ (left_then _ _ _ _ _ _ _ _ _ L1 L2) L3) as L.
  rewrite (lv_mandates _ _ _ _ _ L2), (lv_mandates _ _ _ _ _ L1) in L. exact L.
Qed.

Lemma activated_served m account_name originator conversation plan_id payment_id now s : ok s → find_mandate (md_id m) s = Some m →
  post (if bool_decide (md_status m = Activating) then
          let m := activated now (set_answer account_name originator conversation m) in
          save_mandate m ≫= λ _,
          s ← get;
          match md_tier m ≫= λ t, UssdSubscription.tiers (g_shop s) !! t with
          | Some t => subscribe m t plan_id payment_id now
          | None => mret m
          end
        else mret m) s (served m s).
Proof.
  intros Hs Hf. pose proof Hs as [Ha Hi He]. destruct (bool_decide _) eqn:Hst; [apply bool_decide_eq_true in Hst|by apply post_ret, nothing_served].
  cbv zeta. set (m1 := activated now _). apply post_bind. eapply post_conseq; [by apply mandate_saved_leaves|]. cbv beta. intros [e|[]] s1; [done|]. intros L1.
  assert (md_id m1 = md_id m) as Hid by done. apply post_bind, post_get. cbv beta iota. destruct (_ ≫= _) as [t|].
  - eapply post_conseq; [apply subscribed_leaves, (lv_accounts _ _ _ _ _ L1)|]. cbv beta. intros [e|m2] s2; [done|]. intros (-> & Hn & L2).
    rewrite (lv_mandates _ _ _ _ _ L1), replace_twice in L2 by done. exists (set_subscription_plan plan_id m1), [].
    assert (rows s !! plan_id = None) as Hn'.
    { destruct (rows s !! plan_id) eqn:E; [|done].
      assert (is_Some (rows s1 !! plan_id)) as [? ?] by (apply (lv_rows _ _ _ _ _ L1); left; by eexists). congruence. }
    pose proof (left_then _ _ _ _ _ _ _ _ _ L1 L2) as L. cbn [app] in L.
    assert (md_plan m = None) as Hl by (apply He; [apply (find_in _ _ _ Hf)|by rewrite Hst]).
    assert (made m (set_subscription_plan plan_id m1) = [plan_id]) as -> by (unfold made; by rewrite Hl).
    split; [exact L|]. split; [|by intros p ->%list_elem_of_singleton].
    apply (linked_outcome _ _ plan_id); [done|done|done|done|by left].
  - apply post_ret. exists m1, []. assert (made m m1 = []) as -> by (unfold made; cbn; by destruct (md_plan m)).
    split; [done|]. split; [|by intros p ?%elem_of_nil]. apply moved_outcome; [done| |done|done]. unfold moves. by rewrite Hst.
Qed.

Lemma activate_close_follows m0 account_name answer plan_id payment_id now s : ok s →
  post (activate_close m0 account_name answer plan_id payment_id now) s (λ _, follows s).
Proof.
  intros Hs. pose proof (mandates_stay s Hs) as Hsame. unfold activate_close. destruct answer as [[originator conversation message u|error code]|];
    [apply or_error_post|apply or_error_post|by apply post_ret].
  - apply post_bind, post_atomic, post_bind, get_locked_post; [done|]. intros m Hf.
    assert (find_mandate (md_id m) s = Some m) as Hf' by (destruct (find_in _ _ _ Hf) as [_ E]; by rewrite E).
    eapply post_conseq; [by apply activated_served|]. intros [e|m'] s' Hv; [done|]. apply post_ret. by apply (served_follows m _ m').
  - apply post_bind. eapply post_conseq.
    { apply updated_follows; [done|]. intros x Hx. split; [done|]. split; [|done]. apply failed_move. by rewrite Hx. }
    cbv beta. intros [e|b] s' [Hf _]; [done|by apply post_ret].
Qed.

Lemma cancel_close_follows m0 answer now s : ok s → post (cancel_close m0 answer now) s (λ _, follows s).
Proof.
  intros Hs. pose proof (mandates_stay s Hs) as Hsame. pose proof Hs as [Ha _ _]. unfold cancel_close.
  destruct answer as [[originator conversation message u|error code]|]; [apply or_error_post|apply or_error_post|by apply post_ret].
  - apply post_bind, post_atomic, post_bind, get_locked_post; [done|]. intros m Hf.
    assert (find_mandate (md_id m) s = Some m) as Hf' by (destruct (find_in _ _ _ Hf) as [_ E]; by rewrite E).
    destruct (bool_decide _) eqn:Hst; [apply bool_decide_eq_true in Hst|].
    + cbv zeta. apply post_bind, post_bind. eapply post_conseq.
      { apply moved_served; [exact Ha|exact (eq_refl : purpose (cancelled_at now m) = purpose m)| |done]. unfold moves. by rewrite Hst. }
      intros [e|[]] s1 Hv; [done|]. apply post_ret. cbv beta iota. apply post_bind.
      eapply post_conseq; [apply stopped_leaves, (served_accounts _ _ _ _ Hv)|]. cbv beta. intros x s2 [-> L]. apply post_ret, post_ret.
      apply (served_follows m _ tt); [done|done|]. by eapply served_then.
    + apply post_bind, post_ret. cbv beta iota. apply post_bind. eapply post_conseq; [by apply stopped_leaves|]. cbv beta. intros x s2 [-> L].
      apply post_ret, post_ret. by apply (follows_rest [] s s2 Hs).
  - apply post_bind. eapply post_conseq.
    { apply updated_follows; [done|]. intros x Hx. apply (claim_move x _ _ Hx). intros y Hy. unfold moves. by rewrite Hy. }
    cbv beta. intros [e|b] s' [Hf _]; [done|by apply post_ret].
Qed.

Lemma debits_follow l s : ok s → follows s (Store (g_shop s) (g_profile_coins s) (g_mandates s) l).
Proof.
  intros Hs. pose proof Hs as [Ha _ _]. apply (follows_rest [] s _ Hs); [|done]. destruct (nothing_left s Ha) as [A M T R]. by split.
Qed.

Lemma debit_open_follows user mandate_id amount id now s : ok s → post (debit_open user mandate_id amount id now) s (λ _, follows s).
Proof.
  intros Hs. pose proof (mandates_stay s Hs) as Hsame. unfold debit_open. apply or_failed_post. destruct amount as [[text value]|]; [|by apply post_ret].
  destruct (String.eqb _ _); [by apply post_ret|]. apply post_bind, get_mandate_post; [done|by apply post_ret|]. intros m _ _.
  destruct (negb _); [by apply post_ret|]. destruct (String.eqb _ _); [by apply post_ret|]. destruct value as [v|]; [|by apply post_raise].
  apply post_bind. destruct (Z.abs _ <? _); [apply post_ret|by apply post_raise]. apply post_bind, post_modify. apply post_ret. by apply debits_follow.
Qed.

Lemma debit_close_follows id answer now s : ok s → post (debit_close id answer now) s (λ _, follows s).
Proof.
  intros Hs. pose proof (mandates_stay s Hs) as Hsame. unfold debit_close. apply or_error_post.
  destruct answer as [originator conversation message [reference|]|error code]; [|by apply post_raise|];
    apply post_bind, post_modify; apply post_ret; by apply debits_follow.
Qed.

(** The reading that precedes a creation. *)
Definition opening (s : store) (r : exn + (response + creating)) (s' : store) : Prop :=
  s' = s ∧ ∀ cg, r = inr (inr cg) → unborn cg.

Lemma opening_failed what (m : M store (response + creating)) s : post m s (opening s) → post (or_failed what m) s (opening s).
Proof.
  intros H. unfold or_failed. apply post_catch. eapply post_conseq; [exact H|]. intros [e|x] s' [-> Hc]; [|done]. apply post_ret. by split.
Qed.

Lemma offered_same tier_id s : post (in_shop (UssdSubscription.offered to_uuid tier_id (g_shop s))) s (λ _ s', s' = s).
Proof.
  unfold in_shop. apply post_zoom. unfold UssdSubscription.offered, post. destruct (to_uuid tier_id); by destruct s.
Qed.

Lemma create_open_reads short_code r now s : post (create_open short_code r now) s (opening s).
Proof.
  assert (∀ x, opening s (inr (inl x)) s) as Hno by (by split). unfold create_open. apply opening_failed.
  destruct (_ || _ || _); [by apply post_ret|]. apply post_bind, post_get. cbv beta iota. apply post_bind.
  eapply post_conseq; [apply offered_same|]. cbv beta. intros [e|o] s' ->; [by split|]. destruct o as [[t price]|]; [|by apply post_ret].
  destruct (frequency_of _); [|by apply post_ret]. destruct (negb _); [by apply post_ret|]. apply post_ret. split; [done|]. by intros cg [= <-] id.
Qed.

Lemma coin_open_unborn r d now s cg : coin_open r d now s = inr cg → unborn cg.
Proof.
  unfold coin_open. destruct (cn_amount r); [|done]. destruct (List.find _ _) as [[u phone]|]; [|done]. destruct (String.eqb _ _); [done|].
  by intros [= <-] id.
Qed.

Lemma plan_open_reads code r d now s : post (plan_open code r d now) s (opening s).
Proof.
  assert (∀ x, opening s (inr (inl x)) s) as Hno by (by split). unfold plan_open. apply opening_failed.
  apply post_bind, post_get. cbv beta iota. destruct (missing_tier _); [by apply post_ret|]. cbv zeta. destruct (String.eqb _ _); [by apply post_ret|].
  apply post_bind. unfold resolve_tier. destruct (tier_key _) as [key|]; [apply post_ret|by apply post_raise].
  destruct (_ !! key) as [t|]; [|destruct (List.find _ _ ≫= _) as [t|]; [|destruct (duration_of_number _); [destruct (tier_of_type _ _) as [t|]|]]];
    try (by apply post_ret); destruct (frequency_of _); try (by apply post_ret); apply post_ret; (split; [done|]); by intros cg [= <-] id.
Qed.

(** ** Requests that overlap *)

(** A request between its two steps. *)
Inductive inflight :=
| InCreation (cg : creating) (asked : Z)
| InOneOff (cg : creating) (subscription : bool) (asked : Z)
| InActivation (m : mandate) (account_name : string)
| InCancellation (m : mandate)
| InDebit (m : mandate) (amount : string) (id : Z).

(** Its command is sent, and its answer taken. *)
Definition answered (x : inflight) (d : TelebirrSoap.draw) (id plan_id : Z) (payment_id : string) (now : Z) : M store response :=
  match x with
  | InCreation cg asked => create_close "create mandate" cg (create_command cg asked d) id 201
  | InOneOff cg subscription asked =>
      create_close (if subscription then "create subscription payment" else "create one-off payment") cg (one_off_command cg subscription asked d) id 200
  | InActivation m account_name => activate_close m account_name (activation m d) plan_id payment_id now
  | InCancellation m => cancel_close m (cancellation m d) now
  | InDebit m amount id => debit_close id (debit_by_hand m amount d) now
  end.

Inductive event :=
| AsksMandate (r : create_request) (now : Z)
| AsksCoins (r : coin_request) (d : TelebirrSoap.draw) (now : Z)
| AsksPlan (r : plan_request) (d : TelebirrSoap.draw) (now : Z)
| AsksActivation (user : Z) (mandate_id account_name : string)
| AsksCancellation (user : Z) (mandate_id : string) (now : Z)
| AsksDebit (user : Z) (mandate_id : string) (amount : option (string * option dec)) (id now : Z)
| Answers (k : nat) (d : TelebirrSoap.draw) (id plan_id : Z) (payment_id : string) (now : Z)
| Delivers (allowed : bool) (body : string) (json : option TelebirrSoap.soap_result) (d : TelebirrSoap.draw) (plan_id now : Z).

Record world := World { wd_store : store; wd_waiting : list inflight }.

(** A first step: the store it leaves, and the request if it is not refused. *)
Definition opens {A} (x : (exn + (response + A)) * store) (wait : A → inflight) (l : list inflight) : world :=
  World x.2 (match x.1 with inr (inr a) => l ++ [wait a] | _ => l end).

(** [short_code] and [code]: columns of a tier. *)
Definition step (short_code : Z → string) (code : Z → string) (w : world) (e : event) : world :=
  let s := wd_store w in
  let l := wd_waiting w in
  match e with
  | AsksMandate r now => opens (create_open short_code r now s) (λ cg, InCreation cg now) l
  | AsksCoins r d now => opens (inr (coin_open r d now s), s) (λ cg, InOneOff cg false now) l
  | AsksPlan r d now => opens (plan_open code r d now s) (λ cg, InOneOff cg true now) l
  | AsksActivation user mandate_id account_name => opens (activate_open user mandate_id s) (λ m, InActivation m account_name) l
  | AsksCancellation user mandate_id now => opens (cancel_open user mandate_id now s) InCancellation l
  | AsksDebit user mandate_id amount id now => opens (debit_open user mandate_id amount id now s) (λ x, InDebit x.1 x.2 id) l
  | Answers k d id plan_id payment_id now =>
      match l !! k with
      | Some x => World (answered x d id plan_id payment_id now s).2 (delete k l)
      | None => w
      end
  | Delivers allowed body json d plan_id now => World (telebirr_direct_debit_webhook allowed body json d plan_id now s).2 l
  end.
Definition run (short_code : Z → string) (code : Z → string) (es : list event) (w : world) : world := foldl (step short_code code) w es.

Definition sound_request (x : inflight) : Prop := match x with InCreation cg _ | InOneOff cg _ _ => unborn cg | _ => True end.

Lemma answered_follows x d id plan_id payment_id now s : sound_request x → ok s → follows s (answered x d id plan_id payment_id now s).2.
Proof.
  intros Hx Hs. destruct x as [cg asked|cg subscription asked|m account_name|m|m amount i]; cbn [answered].
  - by apply create_close_follows.
  - by apply create_close_follows.
  - by apply activate_close_follows.
  - by apply cancel_close_follows.
  - by apply debit_close_follows.
Qed.

Lemma opens_follows {A} (x : (exn + (response + A)) * store) wait l s : follows s x.2 → Forall sound_request l →
  (∀ a, x.1 = inr (inr a) → sound_request (wait a)) → follows s (wd_store (opens x wait l)) ∧ Forall sound_request (wd_waiting (opens x wait l)).
Proof.
  intros Hf Hl Ha. split; [done|]. cbn. destruct x.1 as [e|[refusal|a]]; [done..|]. apply Forall_app. split; [done|]. apply Forall_singleton. by apply Ha.
Qed.

Lemma opening_follows s (x : (exn + (response + creating)) * store) : ok s → opening s x.1 x.2 → follows s x.2 ∧ ∀ cg, x.1 = inr (inr cg) → unborn cg.
Proof. intros Hs [-> H]. split; [by apply mandates_stay|done]. Qed.

Lemma event_follows short_code code w e : ok (wd_store w) → Forall sound_request (wd_waiting w) →
  follows (wd_store w) (wd_store (step short_code code w e)) ∧ Forall sound_request (wd_waiting (step short_code code w e)).
Proof.
  intros Hs Hl. destruct w as [s l]. cbn in Hs, Hl. destruct e; cbn [step wd_store wd_waiting].
  - destruct (opening_follows s _ Hs (create_open_reads short_code r now s)). by apply opens_follows.
  - apply opens_follows; [by apply mandates_stay|done|]. intros cg [= H]. by eapply coin_open_unborn.
  - destruct (opening_follows s _ Hs (plan_open_reads code r d now s)). by apply opens_follows.
  - apply opens_follows; [by apply activate_open_follows|done|done].
  - apply opens_follows; [by apply cancel_open_follows|done|done].
  - apply opens_follows; [by apply debit_open_follows|done|done].
  - destruct (l !! k) as [x|] eqn:E; [|split; [by apply mandates_stay|done]]. cbn. split.
    + apply answered_follows; [by eapply Forall_lookup_1|done].
    + by apply Forall_delete.
  - split; [by apply webhook_follows|done].
Qed.

Lemma all_follow short_code code es w : ok (wd_store w) → Forall sound_request (wd_waiting w) →
  follows (wd_store w) (wd_store (run short_code code es w)).
Proof.
  revert w. induction es as [|e es IH]; intros w Hs Hl; [by apply mandates_stay|].
  destruct (event_follows short_code code w e Hs Hl) as [H1 H2]. eapply follows_trans; [done|exact H1|]. apply IH; [by destruct H1|done].
Qed.

(** *** What follows from the steps *)

(** A mandate that is not requested any more is given nothing more. *)
Lemma settled_credits m n o : md_status m ≠ PendingCreated → rtc mandate_step (Some m, n) o →
  ∃ m', o = (Some m', n) ∧ purpose m' = purpose m ∧ md_status m' ≠ PendingCreated.
Proof.
  intros Hm H. remember (Some m, n) as x eqn:E. revert m Hm E. induction H as [x|x y o H _ IH]; intros m Hm ->; [by exists m|].
  assert (∃ m1, y = (Some m1, n) ∧ purpose m1 = purpose m ∧ md_status m1 ≠ PendingCreated) as (m1 & Ey & Hp & Hm1).
  { inversion H as [|? m1 ? H1 H2|? m1 ? p H1 H2 H3 H4|? m1 ? H1 H2 H3 H4]; subst.
    - exists m1. split; [done|]. split; [done|]. unfold moves in H2. apply orb_true_iff in H2 as [H2|H2]; [apply bool_decide_eq_true in H2; congruence|].
      by destruct (md_status m), (md_status m1).
    - exists m1. by rewrite H4.
    - done. }
  destruct (IH m1 Hm1 Ey) as (m' & -> & Hp' & Hm'). exists m'. by rewrite Hp'.
Qed.

Definition paid (m : mandate) (l : list (Z * Z)) : Prop :=
  md_type m = one_off ∧ is_subscription (md_metadata m) = false ∧ md_status m ≠ PendingCreated ∧ 0 < coins_of (md_metadata m)
  ∧ l = [(md_user m, coins_of (md_metadata m))].

Lemma steps_paid x o : rtc mandate_step x o → x.2 = [] → o.2 = [] ∨ ∃ m, o.1 = Some m ∧ paid m o.2.
Proof.
  induction 1 as [x|x y o H Ho IH]; [by left|]. intros Hx. inversion H; subst; cbn in Hx; subst; try (by apply IH).
  right. apply settled_credits in Ho as (m1 & -> & Hp & Hst); [|congruence]. exists m1. split; [done|]. unfold paid, purpose in *.
  cbn. simplify_eq. naive_solver congruence.
Qed.

(** *** What gives coins *)

(** The ledger is left alone. *)
Definition coinless {A} (m : M store A) : Prop := ∀ s, txs (m s).2 = txs s.

Lemma coinless_bind {A B} (m : M store A) (k : A → M store B) : coinless m → (∀ a, coinless (k a)) → coinless (m ≫= k).
Proof.
  intros Hm Hk s. rewrite bind_run. pose proof (Hm s) as H. destruct (m s) as [[e|a] s1]; cbn in H |- *; [done|]. by rewrite (Hk a s1).
Qed.
Lemma coinless_get {A} (k : store → M store A) : (∀ x, coinless (k x)) → coinless (get ≫= k).
Proof. intros Hk s. rewrite bind_run. apply Hk. Qed.
Lemma coinless_ret {A} (a : A) : coinless (mret a).
Proof. done. Qed.
Lemma coinless_raise {A} e : coinless (raise e : M store A).
Proof. done. Qed.
Lemma coinless_assert b e : coinless (assert_or b e).
Proof. by destruct b. Qed.
Lemma coinless_when (b : bool) m : coinless m → coinless (when b m).
Proof. by destruct b. Qed.
Lemma coinless_atomic {A} (m : M store A) : coinless m → coinless (atomic m).
Proof. intros Hm s. unfold atomic. pose proof (Hm s). by destruct (m s) as [[e|a] s']. Qed.
Lemma coinless_catch {A} (m : M store A) h : coinless m → (∀ e k, h e = Some k → coinless k) → coinless (catch m h).
Proof.
  intros Hm Hh s. unfold catch. pose proof (Hm s) as H. destruct (m s) as [[e|a] s']; [|done].
  destruct (h e) as [k|] eqn:E; [|done]. cbn in H. by rewrite (Hh e k E).
Qed.
Lemma coinless_failed {A} what (m : M store (response + A)) : coinless m → coinless (or_failed what m).
Proof. intros Hm. apply coinless_catch; [done|]. by intros e k [= <-]. Qed.
Lemma coinless_error what (m : M store response) : coinless m → coinless (or_error what m).
Proof. intros Hm. apply coinless_catch; [done|]. by intros e k [= <-]. Qed.

Lemma coinless_save m : coinless (save_mandate m).
Proof. intros s. unfold save_mandate. rewrite bind_run. cbn [get]. by destruct (clashes _ _). Qed.
Lemma coinless_row m : coinless (create_mandate_row m).
Proof. intros s. unfold create_mandate_row. rewrite bind_run. cbn [get]. rewrite bind_run. destruct (bool_decide _); [|done]. by destruct (clashes _ _). Qed.
Lemma coinless_update id from f : coinless (update_where id from f).
Proof. intros s. unfold update_where. rewrite bind_run. cbn [get]. destruct (find_mandate id s) as [m|]; [|done]. by destruct (bool_decide _). Qed.
Lemma coinless_found mandate_id user : coinless (get_mandate mandate_id user).
Proof. intros s. unfold get_mandate. by destruct (to_uuid mandate_id). Qed.
Lemma coinless_locked id : coinless (get_locked id).
Proof. intros s. unfold get_locked. rewrite bind_run. cbn [get]. by destruct (find_mandate id s). Qed.
Lemma coinless_plan p l : coinless (in_accounts (SignIn.save_plan p l)).
Proof. done. Qed.
Lemma coinless_create p method phone now : coinless (create_plan p method phone now).
Proof.
  apply coinless_get. intros x. apply coinless_bind; [apply coinless_assert|]. intros _. apply coinless_bind; [apply coinless_plan|]. by intros _ s.
Qed.
Lemma coinless_payment py now : UssdSubscription.py_status py = "pending" → coinless (in_shop (UssdSubscription.create_payment py now)).
Proof.
  intros Hp s. unfold in_shop. rewrite zoom_run. unfold UssdSubscription.create_payment. rewrite bind_run. cbn [get].
  rewrite bind_run. destruct (existsb _ _); [done|]. cbn [negb assert_or mret M_ret].
  rewrite bind_run. destruct (existsb _ _); [done|]. cbn [negb assert_or mret M_ret]. rewrite bind_run. cbn [put].
  unfold UssdSubscription.gift_for, UssdSubscription.in_accounts, Accounts.in_plans. rewrite !zoom_run.
  assert (SubscriptionGift.grant_subscription_gift (UssdSubscription.gift_of py) now = mret tt) as ->; [|done].
  unfold SubscriptionGift.grant_subscription_gift. cbn [SubscriptionGift.pay_status UssdSubscription.gift_of]. by rewrite Hp.
Qed.
Lemma coinless_stop m : coinless (stop_renewal m).
Proof. apply coinless_get. intros x. destruct (_ ≫= _); [|done]. by apply coinless_when, coinless_plan. Qed.

#[local] Ltac coinless := repeat
  match goal with
  | |- coinless (mret _) => apply coinless_ret
  | |- coinless (raise _) => apply coinless_raise
  | |- coinless (get ≫= _) => apply coinless_get; intros ?
  | |- coinless (_ ≫= _) => apply coinless_bind; [|intros ?]
  | |- coinless (assert_or _ _) => apply coinless_assert
  | |- coinless (save_mandate _) => apply coinless_save
  | |- coinless (create_mandate_row _) => apply coinless_row
  | |- coinless (update_where _ _ _) => apply coinless_update
  | |- coinless (get_mandate _ _) => apply coinless_found
  | |- coinless (get_locked _) => apply coinless_locked
  | |- coinless (create_plan _ _ _ _) => apply coinless_create
  | |- coinless (stop_renewal _) => apply coinless_stop
  | |- coinless (in_shop (UssdSubscription.create_payment _ _)) => apply coinless_payment; reflexivity
  | |- coinless (or_failed _ _) => apply coinless_failed
  | |- coinless (or_error _ _) => apply coinless_error
  | |- coinless (atomic _) => apply coinless_atomic
  | |- coinless (match ?x with _ => _ end) => destruct x
  | |- coinless (modify _) => intros ?; reflexivity
  | |- coinless (let _ := _ in _) => cbv zeta
  end.

Lemma activate_open_coinless user mandate_id : coinless (activate_open user mandate_id).
Proof. unfold activate_open. coinless. Qed.
Lemma cancel_open_coinless user mandate_id now : coinless (cancel_open user mandate_id now).
Proof. unfold cancel_open. coinless. Qed.
Lemma debit_open_coinless user mandate_id amount id now : coinless (debit_open user mandate_id amount id now).
Proof. unfold debit_open. coinless. Qed.
Lemma create_close_coinless what cg r id ok_status : coinless (create_close what cg r id ok_status).
Proof. unfold create_close. coinless. Qed.
Lemma activate_close_coinless m0 account_name answer plan_id payment_id now : coinless (activate_close m0 account_name answer plan_id payment_id now).
Proof. unfold activate_close, subscribe. coinless. Qed.
Lemma cancel_close_coinless m0 answer now : coinless (cancel_close m0 answer now).
Proof. unfold cancel_close. coinless. Qed.
Lemma debit_close_coinless id answer now : coinless (debit_close id answer now).
Proof. unfold debit_close, set_debit_row. coinless. Qed.

(** A delivery that reports a success for the mandate: it is let in, its codes
    are those of a success, it has the conversation of the mandate's command or
    of its debit, and it names a mandate or a transaction. *)
Definition reported (e : event) (m : mandate) : Prop :=
  ∃ body json d plan_id now r, e = Delivers true body json d plan_id now ∧ parsed body json = Some r
    ∧ TelebirrSoap.rs_code r = Some "0" ∧ (TelebirrSoap.rs_type r = Some "0" ∨ TelebirrSoap.rs_type r = None)
    ∧ (∃ originator, TelebirrSoap.rs_originator r = Some originator ∧ originator ≠ ""
         ∧ (md_originator m = originator ∨ md_debit_conversation m = originator))
    ∧ ∃ reference, reference ≠ "" ∧ (TelebirrSoap.rs_mandate_id r = Some reference ∨ TelebirrSoap.rs_transaction_id r = Some reference).

(** The coins that the mandate is for go to its account, and it is active. *)
Definition credited (e : event) (id : Z) (s s' : store) : Prop :=
  ∃ m m', find_mandate id s = Some m ∧ md_status m = PendingCreated ∧ md_type m = one_off ∧ is_subscription (md_metadata m) = false
    ∧ reported e m ∧ find_mandate id s' = Some m' ∧ md_status m' = Active
    ∧ credits id s' = credits id s ++ [(md_user m, coins_of (md_metadata m))].

Lemma coinless_credits {A} (m : M store A) id s : coinless m → credits id (m s).2 = credits id s.
Proof. intros Hm. unfold credits. by rewrite Hm. Qed.

Lemma failure_credits r m now id s : Accounts.accounts_ok (accounts s) → post (on_failure r m now) s (λ _ s', credits id s' = credits id s).
Proof.
  intros Hs. unfold on_failure. apply post_bind.
  assert (∀ s1, credits id s1 = credits id s → post (
    if bool_decide (md_status m = Cancelling) then save_mandate (to_status Active m)
    else save_mandate (failed_with (or_str (given (TelebirrSoap.rs_desc r)) ("ResultCode=" +:+ default "None" (TelebirrSoap.rs_code r))) m)) s1
    (λ _ s', credits id s' = credits id s)) as Hsave.
  { intros s1 H1. unfold post. case_bool_decide; by rewrite coinless_credits by apply coinless_save. }
  apply post_when.
  - intros _. destruct (is_subscription _).
    + eapply post_conseq; [by apply ended_leaves|]. cbv beta. intros x s1 [-> L]. apply Hsave. by rewrite (credits_added _ _ _ _ _ _ L), app_nil_r.
    + eapply post_conseq; [by apply rolled_leaves|]. cbv beta. intros x s1 [-> (added & Hr & L)]. apply Hsave.
      by rewrite (credits_added _ _ _ _ _ _ L), rollbacks_no_credit, app_nil_r.
  - intros _. by apply Hsave.
Qed.

Lemma nameless_success m d plan_id now : coinless (on_success "" m d plan_id now).
Proof.
  unfold on_success. cbn [String.eqb negb andb]. apply coinless_bind; [apply coinless_ret|intros m1]. unfold settle, request_debit.
  cbn [String.eqb negb andb]. coinless.
Qed.

(** A mandate served: given nothing, or its coins. *)
Lemma served_credits m s s' id : ok s → find_mandate (md_id m) s = Some m → served m s (inr tt : exn + unit) s' →
  credits id s' = credits id s
  ∨ md_id m = id ∧ md_status m = PendingCreated ∧ md_type m = one_off ∧ is_subscription (md_metadata m) = false
    ∧ ∃ m', find_mandate id s' = Some m' ∧ md_status m' = Active ∧ credits id s' = credits id s ++ [(md_user m, coins_of (md_metadata m))].
Proof.
  intros [Ha Hi He] Hf (m' & added & L & Ho & _). rewrite (credits_added id _ _ _ _ _ L). pose proof (outcome_id _ _ _ Ho) as Hid. destruct Ho as [H1 H2].
  destruct (decide (id = md_id m)) as [->|Hne]; [|left; by rewrite H2, app_nil_r].
  specialize (H1 []). inversion H1 as [|? ? ? Hp Hm Hl Ex|? ? ? p Hp Hl Hl' Hst Hor Ex|? ? ? Hp Hl Hst Hpc Hty Hsub Hc Ex]; subst; cbn [app] in *.
  - left. by rewrite app_nil_r.
  - left. by rewrite app_nil_r.
  - right. split_and!; [done..|]. exists m'. split; [|done].
    unfold find_mandate. rewrite (lv_mandates _ _ _ _ _ L), find_replaced, Hid, Z.eqb_refl; [done|].
    rewrite Hid. apply list_elem_of_fmap_2, (find_in _ _ _ Hf).
Qed.

Lemma webhook_credits allowed body json d plan_id now id s : ok s →
  let s' := (telebirr_direct_debit_webhook allowed body json d plan_id now s).2 in
  credits id s' = credits id s ∨ credited (Delivers allowed body json d plan_id now) id s s'.
Proof.
  intros Hs. enough (post (telebirr_direct_debit_webhook allowed body json d plan_id now) s
    (λ _ s', credits id s' = credits id s ∨ credited (Delivers allowed body json d plan_id now) id s s')) as H by exact H.
  unfold telebirr_direct_debit_webhook. destruct allowed; cbn [negb]; [|by apply post_ret; left].
  apply post_catch. destruct (parsed body json) as [r|] eqn:Hr; [|by apply post_ret; left]. destruct (String.eqb_spec (given (TelebirrSoap.rs_originator r)) "") as [|Ho]; [by apply post_ret; left|].
  apply post_bind, post_atomic, post_bind, post_get. cbv beta iota. destruct (correlate _ s) as [m|] eqn:E; [|by apply post_ret; left].
  pose proof (in_find _ _ Hs (correlate_in _ _ _ E)) as Hf. destruct (succeeded r) eqn:Hok.
  - destruct (String.eqb_spec (or_str (given (TelebirrSoap.rs_mandate_id r)) (given (TelebirrSoap.rs_transaction_id r))) "") as [En|Hn].
    { rewrite En. unfold post at 1. pose proof (coinless_credits (on_success "" m d plan_id now) id s (nameless_success m d plan_id now)) as H.
      destruct (on_success "" m d plan_id now s) as [[e|[]] s']; [by apply post_ret; left|]. apply post_ret. by left. }
    eapply post_conseq; [by apply success_served|]. intros [e|[]] s' Hv; [by apply post_ret; left|]. apply post_ret.
    destruct (served_credits m s s' id Hs Hf Hv) as [H|(<- & H1 & H2 & H3 & m' & H4 & H5 & H6)]; [by left|right].
    exists m, m'. split_and!; try done. exists body, json, d, plan_id, now, r. unfold succeeded in Hok.
    apply andb_true_iff in Hok as [Hc%bool_decide_eq_true Ht%orb_true_iff]. rewrite !bool_decide_eq_true in Ht. split_and!; try done.
    + destruct (TelebirrSoap.rs_originator r) as [o|]; [|done]. exists o. split; [done|]. split; [exact Ho|]. unfold correlate in E. cbn [given default] in E.
      destruct (List.find _ (g_mandates s)) as [x|] eqn:E1; [injection E as ->; left|right].
      * by apply List.find_some in E1 as [_ ?%String.eqb_eq].
      * by apply List.find_some in E as [_ ?%String.eqb_eq].
    + unfold or_str, given in Hn. destruct (TelebirrSoap.rs_mandate_id r) as [i|]; cbn [default] in Hn.
      * destruct (String.eqb_spec i "") as [->|Hi]; [|exists i; by split; [|left]].
        destruct (TelebirrSoap.rs_transaction_id r) as [t|]; [|done]. exists t. split; [done|by right].
      * destruct (TelebirrSoap.rs_transaction_id r) as [t|]; [|done]. exists t. split; [done|by right].
  - eapply post_conseq; [apply (failure_credits r m now id s), Hs|]. intros [e|[]] s' H; apply post_ret; by left.
Qed.

Lemma world_snoc short_code code es e w : run short_code code (es ++ [e]) w = step short_code code (run short_code code es w) e.
Proof. unfold run. by rewrite foldl_app. Qed.

Lemma event_credits short_code code e id w : ok (wd_store w) →
  credits id (wd_store (step short_code code w e)) = credits id (wd_store w) ∨ credited e id (wd_store w) (wd_store (step short_code code w e)).
Proof.
  intros Hs. destruct w as [s l]. cbn [wd_store] in Hs |- *.
  destruct e as [r now|r d now|r d now|user i name|user i now|user i amount k now|k d i plan_id payment_id now|allowed body json d plan_id now];
    cbn [step wd_store wd_waiting]; try (left; by unfold opens; cbn [wd_store]; apply coinless_credits; first
      [apply activate_open_coinless|apply cancel_open_coinless|apply debit_open_coinless]).
  - left. destruct (create_open_reads short_code r now s) as [H _]. unfold opens. cbn [wd_store]. by rewrite H.
  - by left.
  - left. destruct (plan_open_reads code r d now s) as [H _]. unfold opens. cbn [wd_store]. by rewrite H.
  - left. destruct (l !! k) as [x|]; [|done]. cbn [wd_store]. apply coinless_credits. destruct x; cbn [answered];
      [apply create_close_coinless|apply create_close_coinless|apply activate_close_coinless|apply cancel_close_coinless|apply debit_close_coinless].
  - by apply webhook_credits.
Qed.

(** C37.  Mandates, whatever requests, answers and callbacks come, in any order:
    the store stays sound; every mandate goes through the steps of its
    abstract life and keeps what it is for; every plan that was not there
    belongs to a mandate, and to one only. *)
Theorem mandates_refine short_code code es s : ok s → follows s (wd_store (run short_code code es (World s []))).
Proof. intros Hs. by apply (all_follow short_code code es (World s [])). Qed.

(** C38.  A mandate that is not there yet is given coins at most once over any
    run: its account gets the coins of the mandate, which is of one debit for
    coins.  They are given by the delivery, and only by one, of a result that
    reports success (both codes zero, or the first absent), names a mandate or
    a transaction, and has the conversation of the mandate's command or of its
    debit, while the mandate still waits; no other request, answer or callback,
    and no failure, gives any. *)
Theorem coins_given_once short_code code es s id : ok s → find_mandate id s = None → credits id s = [] →
  let s' := wd_store (run short_code code es (World s [])) in
  (credits id s' = [] ∨ ∃ m, find_mandate id s' = Some m ∧ paid m (credits id s'))
  ∧ ∀ before e after, es = before ++ e :: after →
      let s0 := wd_store (run short_code code before (World s [])) in
      let s1 := wd_store (run short_code code (before ++ [e]) (World s [])) in
      credits id s1 = credits id s0 ∨ credits id s0 = [] ∧ credited e id s0 s1.
Proof.
  intros Hs Hf Hc. cbv zeta.
  assert (∀ es, credits id (wd_store (run short_code code es (World s []))) = []
    ∨ ∃ m, find_mandate id (wd_store (run short_code code es (World s []))) = Some m ∧ paid m (credits id (wd_store (run short_code code es (World s []))))) as Hall.
  { intros l. pose proof (all_follow short_code code l (World s []) Hs (Forall_nil_2 _)) as [_ H _ _]. apply (steps_paid _ _ (H id)). by cbn. }
  split; [apply Hall|]. intros before e after _. rewrite world_snoc.
  destruct (event_credits short_code code e id (run short_code code before (World s []))) as [H|H]; [by destruct (all_follow short_code code before (World s []) Hs (Forall_nil_2 _))|by left|].
  right. split; [|exact H]. destruct (Hall before) as [?|(m & Hm & _ & _ & Hst & _)]; [done|]. destruct H as (m0 & _ & Hm0 & Hst0 & _). congruence.
Qed.

(** ** An activation that is accepted *)

Lemma find_and (l : list mandate) f g m : List.find f l = Some m → g m = true → List.find (λ x, f x && g x) l = Some m.
Proof.
  induction l as [|x l IH]; [done|]. cbn. destruct (f x); [intros [= ->] ->; done|]. by apply IH.
Qed.

Lemma get_mandate_run mandate_id m s : to_uuid mandate_id = Some (md_id m) → find_mandate (md_id m) s = Some m →
  get_mandate mandate_id (md_user m) s = (inr (Some m), s).
Proof.
  intros Hu Hf. unfold get_mandate. rewrite Hu. unfold gets. cbn. unfold find_mandate in Hf. by rewrite (find_and _ _ _ _ Hf (Z.eqb_refl _)).
Qed.

Lemma update_run m from f s : find_mandate (md_id m) s = Some m → md_status m = from →
  update_where (md_id m) from f s = (inr true, with_mandates (replace (f m) (g_mandates s)) s).
Proof. intros Hf Hst. unfold update_where. rewrite bind_run. cbn [get]. by rewrite Hf, bool_decide_true. Qed.

Lemma update_missed id m from f s : find_mandate id s = Some m → md_status m ≠ from → update_where id from f s = (inr false, s).
Proof. intros Hf Hst. unfold update_where. rewrite bind_run. cbn [get]. by rewrite Hf, bool_decide_false. Qed.

Lemma save_mandate_run m s : clashes m (g_mandates s) = false → save_mandate m s = (inr tt, with_mandates (replace m (g_mandates s)) s).
Proof. intros H. unfold save_mandate. rewrite bind_run. cbn [get]. by rewrite H. Qed.

Lemma create_plan_run p method phone now s : rows s !! sp_id p = None →
  ∃ s', create_plan p method phone now s = (inr tt, s') ∧ rows s' = <[sp_id p := p]> (rows s) ∧ g_mandates s' = g_mandates s
    ∧ txs s' = txs s ∧ UssdSubscription.x_payments (g_shop s') = UssdSubscription.x_payments (g_shop s)
    ∧ UssdSubscription.tiers (g_shop s') = UssdSubscription.tiers (g_shop s) ∧ offers s' = offers s.
Proof.
  intros Hn. unfold create_plan. rewrite bind_run. cbn [get]. unfold rows in Hn. rewrite Hn. eexists. split; [reflexivity|]. by destruct phone.
Qed.

Lemma pending_payment_run py now s : UssdSubscription.py_status py = "pending" → UssdSubscription.py_reference py = None →
  (∀ q, q ∈ UssdSubscription.x_payments (g_shop s) → UssdSubscription.py_id q ≠ UssdSubscription.py_id py) →
  in_shop (UssdSubscription.create_payment py now) s
  = (inr tt, with_shop (UssdSubscription.with_payments (UssdSubscription.x_payments (g_shop s) ++ [py]) (g_shop s)) s).
Proof.
  intros Hp Href Hnew. unfold in_shop. rewrite zoom_run. unfold UssdSubscription.create_payment. rewrite bind_run. cbn [get]. rewrite bind_run.
  assert (∀ f, (∀ q, q ∈ UssdSubscription.x_payments (g_shop s) → f q = false) → existsb f (UssdSubscription.x_payments (g_shop s)) = false) as Hex.
  { intros f Hf. apply not_true_iff_false. intros (q & Hq & Hfq)%existsb_exists. apply list_elem_of_In in Hq. by rewrite (Hf q Hq) in Hfq. }
  rewrite (Hex (λ q, String.eqb _ _)). 2: { intros q Hq. apply String.eqb_neq, Hnew, Hq. }
  cbn [negb assert_or mret M_ret]. rewrite bind_run, (Hex (λ q, _)). 2: { intros q Hq. rewrite Href. by destruct (UssdSubscription.py_reference q). }
  cbn [negb assert_or mret M_ret]. rewrite bind_run. cbn [put].
  unfold UssdSubscription.gift_for, UssdSubscription.in_accounts, Accounts.in_plans. rewrite !zoom_run.
  assert (SubscriptionGift.grant_subscription_gift (UssdSubscription.gift_of py) now = mret tt) as ->
    by (unfold SubscriptionGift.grant_subscription_gift; cbn [SubscriptionGift.pay_status UssdSubscription.gift_of]; by rewrite Hp).
  by destruct s as [[[? ? [] ? ?] ? ? ? ?] ? ? ?].
Qed.

Lemma no_clash m l originator : md_originator m = originator → (∀ x, x ∈ l → md_id x ≠ md_id m → md_originator x ≠ originator) → clashes m l = false.
Proof.
  intros <- H. unfold clashes. apply andb_false_iff. right. apply not_true_iff_false. intros (x & Hx & [H1 H2]%andb_true_iff)%existsb_exists.
  apply list_elem_of_In in Hx. apply (H x Hx); [by apply Z.eqb_neq, negb_true_iff|by apply String.eqb_eq].
Qed.

(** The plan of a mandate, and the payment that waits. *)
Definition mandate_plan (m : mandate) (t : tier) (plan_id now : Z) : plan :=
  let end_date := if default 0 (tr_duration_days t) =? 0 then None else Some (now + default 0 (tr_duration_days t) * day) in
  Plan plan_id (Some (md_user m)) (Some (tr_id t)) active (tr_duration_type t) (Some now) end_date end_date true 0 None "" None None None None None.
Definition mandate_payment (m : mandate) (t : tier) (plan_id : Z) (payment_id : string) (price now : Z) : UssdSubscription.payment :=
  UssdSubscription.Payment payment_id plan_id (Some (md_user m)) None price "pending" "telebirr_direct_debit" (tr_duration_type t) (Some now)
    (default (now + 30 * day) (sp_end (mandate_plan m t plan_id now))) None None now.

Lemma subscribe_run m t plan_id payment_id now s :
  rows s !! plan_id = None → clashes (set_subscription_plan plan_id m) (g_mandates s) = false →
  (∀ q, q ∈ UssdSubscription.x_payments (g_shop s) → UssdSubscription.py_id q ≠ payment_id) →
  ∃ s', subscribe m t plan_id payment_id now s = (inr (set_subscription_plan plan_id m), s')
    ∧ rows s' = <[plan_id := mandate_plan m t plan_id now]> (rows s) ∧ g_mandates s' = replace (set_subscription_plan plan_id m) (g_mandates s)
    ∧ txs s' = txs s ∧ UssdSubscription.x_payments (g_shop s')
        = UssdSubscription.x_payments (g_shop s) ++ [mandate_payment m t plan_id payment_id (default 0 (price_of (tr_id t) s)) now].
Proof.
  intros Hn Hc Hp. unfold subscribe. rewrite bind_run. cbn [get]. cbv zeta. rewrite bind_run.
  change (Plan plan_id (Some (md_user m)) _ _ _ _ _ _ _ _ _ _ _ _ _ _ _) with (mandate_plan m t plan_id now).
  destruct (create_plan_run (mandate_plan m t plan_id now) "telebirr_direct_debit" None now s Hn) as (s1 & -> & R1 & M1 & T1 & P1 & _).
  rewrite bind_run, save_mandate_run by (by rewrite M1). rewrite bind_run.
  change (UssdSubscription.Payment _ _ _ _ _ _ _ _ _ _ _ _ _) with (mandate_payment m t plan_id payment_id (default 0 (price_of (tr_id t) s)) now).
  rewrite pending_payment_run; [|done|done|cbn [g_shop with_mandates]; by rewrite P1].
  eexists. split; [reflexivity|]. split; [exact R1|]. cbn [g_mandates with_shop with_mandates]. rewrite M1. split; [done|]. split; [exact T1|].
  cbn [g_shop with_shop with_mandates]. unfold UssdSubscription.with_payments. cbn. by rewrite P1.
Qed.

Lemma activate_open_run mandate_id m s : to_uuid mandate_id = Some (md_id m) → mandate_id ≠ "" → find_mandate (md_id m) s = Some m →
  md_mandate_id m ≠ "" → md_status m = PendingActive →
  activate_open (md_user m) mandate_id s = (inr (inr m), with_mandates (replace (to_status Activating m) (g_mandates s)) s).
Proof.
  intros Hu Hne%String.eqb_neq Hf Hm%String.eqb_neq Hst. unfold activate_open, or_failed, catch.
  by rewrite Hne, bind_run, (get_mandate_run _ m), Hm, bind_run, update_run.
Qed.

Lemma found_claimed m s : find_mandate (md_id m) s = Some m →
  find_mandate (md_id m) (with_mandates (replace (to_status Activating m) (g_mandates s)) s) = Some (to_status Activating m).
Proof.
  intros Hf. unfold find_mandate. cbn [g_mandates with_mandates]. rewrite find_replaced; [by rewrite Z.eqb_refl|].
  apply (list_elem_of_fmap_2 md_id (g_mandates s) m), (find_in _ _ _ Hf).
Qed.

(** C39.  A mandate that waits for its activation, and whose command is
    accepted, subscribes its account, when nothing comes between the claim of
    the mandate and the end of the request: the mandate is active and linked to
    a new plan, which runs for the days of its tier, a payment that waits is
    recorded, and the account has access until the end.  No coins are given,
    the bonus coins of the tier included. *)
Theorem activated_mandate_subscribes mandate_id account_name d plan_id payment_id now s m t originator conversation message :
  ok s → to_uuid mandate_id = Some (md_id m) → mandate_id ≠ "" → find_mandate (md_id m) s = Some m → md_mandate_id m ≠ "" →
  md_status m = PendingActive → activation m d = Some (TelebirrSoap.Accepted originator conversation message tt) →
  (∀ x, x ∈ g_mandates s → md_originator x ≠ originator) → md_tier m ≫= (λ t, UssdSubscription.tiers (g_shop s) !! t) = Some t →
  rows s !! plan_id = None → (∀ q, q ∈ UssdSubscription.x_payments (g_shop s) → UssdSubscription.py_id q ≠ payment_id) →
  let m' := set_subscription_plan plan_id (activated now (set_answer account_name originator conversation m)) in
  ∃ s', activate_direct_debit_mandate (md_user m) mandate_id account_name d plan_id payment_id now s = (inr (Resp 200 "active"), s')
    ∧ g_mandates s' = replace m' (g_mandates s) ∧ rows s' = <[plan_id := mandate_plan m t plan_id now]> (rows s) ∧ txs s' = txs s
    ∧ UssdSubscription.x_payments (g_shop s')
        = UssdSubscription.x_payments (g_shop s) ++ [mandate_payment m t plan_id payment_id (default 0 (price_of (tr_id t) s)) now]
    ∧ ∀ later, later < default (later + 1) (sp_end (mandate_plan m t plan_id now)) → has_active_subscription (md_user m) later (plans s') = true.
Proof.
  intros Hs Hu Hne Hf Hm Hst Ha Ho Ht Hn Hp m'. set (s1 := with_mandates (replace (to_status Activating m) (g_mandates s)) s).
  set (m1 := activated now (set_answer account_name originator conversation (to_status Activating m))).
  set (s2 := with_mandates (replace m1 (g_mandates s)) s).
  assert (∀ x l, l = g_mandates s ∨ l = g_mandates s1 ∨ l = g_mandates s2 → md_id x = md_id m → md_originator x = originator → clashes x l = false) as Hc.
  { intros x l Hl Hid Hx. apply (no_clash x l originator Hx). rewrite Hid. intros y Hy Hneq. apply Ho.
    destruct Hl as [->|[->| ->]]; [done|..]; apply elem_replaced in Hy as [->|[? _]]; done. }
  destruct (subscribe_run m1 t plan_id payment_id now s2) as (s3 & E & R3 & M3 & T3 & P3); [exact Hn|by apply Hc; [right; right|..]|exact Hp|].
  exists s3. split.
  { unfold activate_direct_debit_mandate. rewrite bind_run, activate_open_run by done. fold s1. unfold activate_close. rewrite Ha.
    unfold or_error, catch. rewrite bind_run. unfold atomic. rewrite bind_run. unfold get_locked. rewrite bind_run. cbn [get].
    unfold s1 at 1. rewrite found_claimed by done. cbn [mret M_ret]. rewrite bool_decide_true by done. cbv zeta. fold m1.
    rewrite bind_run, save_mandate_run by (by apply Hc; [right; left|..]). rewrite bind_run. cbn [get].
    assert (with_mandates (replace m1 (g_mandates s1)) s1 = s2) as -> by (unfold s1, s2, with_mandates; cbn [g_mandates g_shop g_profile_coins g_debits]; by rewrite replace_twice).
    change (md_tier m1) with (md_tier m). change (g_shop s2) with (g_shop s). rewrite Ht. by rewrite E. }
  split. { rewrite M3. unfold s2. cbn [g_mandates with_mandates]. by rewrite replace_twice. }
  split; [exact R3|]. split; [exact T3|]. split; [exact P3|].
  intros later Hl. apply has_active_spec. left. exists plan_id, (mandate_plan m t plan_id now). fold (rows s3). rewrite R3, lookup_insert_eq.
  split; [done|]. split; [done|]. unfold Subscriptions.is_active. rewrite bool_decide_true by done. destruct (sp_end _); [|done]. cbn in Hl. by apply Z.ltb_lt.
Qed.

(** ** A command without an answer *)

Definition unmatched (originator : string) (s : store) : Prop :=
  ∀ x, x ∈ g_mandates s → md_originator x ≠ originator ∧ md_debit_conversation x ≠ originator.

Lemma unmatched_ignored allowed body json r d plan_id now s : parsed body json = Some r → unmatched (given (TelebirrSoap.rs_originator r)) s →
  (telebirr_direct_debit_webhook allowed body json d plan_id now s).2 = s.
Proof.
  intros Hr Hun. unfold telebirr_direct_debit_webhook. destruct (negb allowed); [done|]. rewrite Hr. unfold catch. destruct (String.eqb _ _); [done|].
  assert (correlate (given (TelebirrSoap.rs_originator r)) s = None) as Hc.
  { unfold correlate. destruct (List.find _ (g_mandates s)) as [x|] eqn:E.
    - apply List.find_some in E as [Hx%list_elem_of_In Hx'%String.eqb_eq]. by destruct (Hun x Hx).
    - destruct (List.find (λ m, String.eqb (md_debit_conversation m) _) _) as [x|] eqn:E'; [|done].
      apply List.find_some in E' as [Hx%list_elem_of_In Hx'%String.eqb_eq]. by destruct (Hun x Hx). }
  rewrite bind_run. unfold atomic. rewrite bind_run. cbn [get]. by rewrite Hc.
Qed.

Lemma replaced_unmatched m originator s : unmatched originator s → md_originator m ≠ originator → md_debit_conversation m ≠ originator →
  unmatched originator (with_mandates (replace m (g_mandates s)) s).
Proof. intros Hun H1 H2 x. cbn [g_mandates with_mandates]. intros [->|[Hx _]]%elem_replaced; [done|by apply Hun]. Qed.

Lemma store_same s : with_mandates (g_mandates s) s = s.
Proof. by destruct s. Qed.

(** A result under the conversation that was drawn changes nothing. *)
Definition deaf (d : TelebirrSoap.draw) (s : store) : Prop := ∀ allowed body json r d' plan_id now,
  parsed body json = Some r → given (TelebirrSoap.rs_originator r) = TelebirrSoap._generate_originator_conversation_id d →
  (telebirr_direct_debit_webhook allowed body json d' plan_id now s).2 = s.

Lemma unmatched_deaf d s : unmatched (TelebirrSoap._generate_originator_conversation_id d) s → deaf d s.
Proof. intros H allowed body json r d' plan_id now Hr Ho. apply (unmatched_ignored _ _ _ r); [done|by rewrite Ho]. Qed.

(** C40.  A command whose post raises is taken for one that was refused.  The
    mandate to activate is failed; the one to cancel is active again, and the
    store is as it was.  The result that comes later, under the conversation of
    the command, finds no mandate and changes nothing. *)
Theorem timeouts_are_rejections mandate_id account_name d plan_id payment_id now s m e :
  ok s → (∀ rq, send rq = inl e) → to_uuid mandate_id = Some (md_id m) → mandate_id ≠ "" → find_mandate (md_id m) s = Some m → md_mandate_id m ≠ "" →
  unmatched (TelebirrSoap._generate_originator_conversation_id d) s →
  let error := "Mandate activation failed: " +:+ e in
  let failed := with_mandates (replace (failed_with error m) (g_mandates s)) s in
  (md_status m = PendingActive →
     activate_direct_debit_mandate (md_user m) mandate_id account_name d plan_id payment_id now s = (inr (Resp 500 error), failed) ∧ deaf d failed)
  ∧ (is_active now m = true →
     cancel_direct_debit_mandate (md_user m) mandate_id d now s = (inr (Resp 500 ("Mandate cancellation failed: " +:+ e)), s) ∧ deaf d s).
Proof.
  intros [Ha Hi _] Hsend Hu Hne Hf Hm Hun error failed. pose proof (find_in _ _ _ Hf) as [Hin _]. split.
  - intros Hst. split; [|apply unmatched_deaf, replaced_unmatched; [done|apply (Hun m Hin)..]].
    unfold activate_direct_debit_mandate. rewrite bind_run, activate_open_run by done.
    unfold activate_close, activation, TelebirrSoap.activate_mandate, TelebirrSoap.submit. rewrite Hsend. fold error.
    unfold or_error, catch. rewrite bind_run.
    change (update_where (md_id m)) with (update_where (md_id (to_status Activating m))). rewrite (update_run (to_status Activating m)); [|by apply (found_claimed m)|done].
    cbn [mret M_ret g_mandates with_mandates]. by rewrite replace_twice.
  - intros Hact. split; [|by apply unmatched_deaf]. pose proof Hact as [Hst%bool_decide_eq_true _]%andb_true_iff.
    apply String.eqb_neq in Hne, Hm. unfold cancel_direct_debit_mandate. rewrite bind_run. unfold cancel_open, or_failed, catch.
    rewrite Hne, bind_run, (get_mandate_run _ m), Hact by done. cbn [negb]. rewrite Hm, bind_run, update_run by done.
    cbn [mret M_ret]. unfold cancel_close, cancellation, TelebirrSoap.cancel_mandate, TelebirrSoap.submit. rewrite Hsend.
    unfold or_error, catch. rewrite bind_run.
    rewrite (update_run (to_status Cancelling m)); [|unfold find_mandate; cbn [g_mandates with_mandates]; rewrite find_replaced;
      [by rewrite Z.eqb_refl|apply (list_elem_of_fmap_2 md_id (g_mandates s) m), Hin]|done].
    cbn [mret M_ret g_mandates with_mandates]. rewrite replace_twice by done.
    assert (to_status Active (to_status Cancelling m) = m) as -> by (destruct m; cbn in *; by subst). rewrite replace_same by done.
    by destruct s.
Qed.

End Flow.

(** ** Examples *)

(** The account 7 of [SuperApp]; a gateway that accepts everything, and one
    that never answers. *)
Definition payer : @store unit := Store (SuperApp.h_shop SuperApp.customer) ∅ [] [].
Definition accepting (rq : TelebirrSoap.request) : TelebirrSoap.answer :=
  inr (200, "<res:ResponseCode>0</res:ResponseCode><res:ResponseDesc>Accepted</res:ResponseDesc>").
Definition silent (rq : TelebirrSoap.request) : TelebirrSoap.answer := inl "Read timed out.".

(** The [n]-th conversation, and its result. *)
Definition drawn (n : Z) : TelebirrSoap.draw := TelebirrSoap.Draw ("2026010112000" +:+ str_int n) "20260101" "deadbeefcafe" "0123456789abcdef".
Definition result_of (n : Z) (code : string) (mandate_id transaction_id : option string) : option TelebirrSoap.soap_result :=
  Some (TelebirrSoap.SoapResult (Some "0") (Some code) (Some "done") None (Some (TelebirrSoap._generate_originator_conversation_id (drawn n)))
    transaction_id mandate_id).
Definition comes (n : Z) (code : string) (mandate_id transaction_id : option string) (d plan_id : Z) : event :=
  Delivers true "{}" (result_of n code mandate_id transaction_id) (drawn d) plan_id 0.

Definition plays (gateway : TelebirrSoap.request → TelebirrSoap.answer) (es : list event) : @world unit :=
  run number_of gateway TelebirrSoap.two_accounts (λ _, "9286") (λ _, "") es (World payer []).
Definition row_of (id : Z) (w : @world unit) : option (mstatus * option Z * string) :=
  (λ m, (md_status m, md_plan m, md_error m)) <$> find_mandate id (wd_store w).
Definition coins (w : @world unit) : Z := CoinBalance.total_of 7 (s_coins (plans (wd_store w))) - CoinBalance.total_of 7 (s_coins (plans payer)).

Definition asks_daily : event := AsksMandate (CreateRequest 7 "1" "251911000001" "02") 0.
Definition daily_accepted : list event := [asks_daily; Answers 0 (drawn 1) 1 0 "" 0; comes 1 "0" (Some "MND1") None 2 0].

(** Asked for, accepted and activated. *)
Example mandate_to_plan :
  let w := plays accepting (daily_accepted ++ [AsksActivation 7 "1" "Ammen"; Answers 0 (drawn 3) 0 50 "pay1" 0]) in
  row_of 1 (plays accepting daily_accepted) = Some (PendingActive, None, "") ∧ row_of 1 w = Some (Active, Some 50, "")
  ∧ has_active_subscription 7 (day - 1) (plans (wd_store w)) = true
  ∧ (UssdSubscription.py_status <$> UssdSubscription.x_payments (g_shop (wd_store w))) = ["pending"] ∧ coins w = 0.
Proof. by vm_compute. Qed.

(** The result of the creation comes again while the command of the activation
    is out: the request finds the mandate active, answers that the
    subscription was created, and there is none. *)
Example activated_without_a_plan :
  let w := plays accepting (daily_accepted ++ [AsksActivation 7 "1" "Ammen"; comes 1 "0" (Some "MND1") None 4 0; Answers 0 (drawn 3) 0 50 "pay1" 0]) in
  row_of 1 w = Some (Active, None, "") ∧ has_active_subscription 7 0 (plans (wd_store w)) = false
  ∧ UssdSubscription.x_payments (g_shop (wd_store w)) = [].
Proof. by vm_compute. Qed.

(** The number of coins is the client's, whatever is paid, and the id of the
    mandate in the acceptance is taken for the result of the debit: no debit
    was asked for. *)
Definition asks_coins : list event := [AsksCoins (CoinRequest 7 (Some "1") (Some 5000)) (drawn 1) 0; Answers 0 (drawn 2) 1 0 "" 0].
Example coins_before_the_debit :
  let w := plays accepting (asks_coins ++ [comes 2 "0" (Some "MND1") None 3 0]) in
  coins w = 5000 ∧ row_of 1 w = Some (Active, None, "") ∧ (md_debit_conversation <$> g_mandates (wd_store w)) = [""].
Proof. by vm_compute. Qed.

(** An acceptance without an id asks for the debit; delivered twice, for two,
    and the result of the first is not recognised. *)
Example debited_twice :
  let twice := asks_coins ++ [comes 2 "0" None None 3 0; comes 2 "0" None None 4 0] in
  (md_debit_conversation <$> g_mandates (wd_store (plays accepting twice))) = [TelebirrSoap._generate_originator_conversation_id (drawn 4)]
  ∧ coins (plays accepting (twice ++ [comes 3 "0" None (Some "TX1") 5 0])) = 0
  ∧ coins (plays accepting (twice ++ [comes 4 "0" None (Some "TX2") 5 0])) = 5000.
Proof. by vm_compute. Qed.

(** A debit that failed and is reported as done after all asks for another
    debit, and credits nothing. *)
Example failed_then_paid :
  let w := plays accepting (asks_coins ++ [comes 2 "0" None None 3 0; comes 3 "1" None None 4 0; comes 3 "0" None (Some "TX1") 5 0]) in
  row_of 1 w = Some (Failed, None, "done") ∧ coins w = 0
  ∧ (md_debit_conversation <$> g_mandates (wd_store w)) = [TelebirrSoap._generate_originator_conversation_id (drawn 5)].
Proof. by vm_compute. Qed.

(** A payment for a plan without an account: the order is accepted, and
    cannot be kept. *)
Example nobody_pays :
  let asks u := AsksPlan (PlanRequest u (TierNumber 1) "251911000002") (drawn 1) 0 in
  row_of 1 (plays accepting [asks None; Answers 0 (drawn 2) 1 0 "" 0]) = None
  ∧ row_of 1 (plays accepting [asks (Some 7); Answers 0 (drawn 2) 1 0 "" 0]) = Some (PendingCreated, None, "").
Proof. by vm_compute. Qed.

(** A failure reported for a cancelled mandate fails it. *)
Example cancelled_then_failed :
  let cancels := daily_accepted ++ [comes 1 "0" (Some "MND1") None 4 0; AsksCancellation 7 "1" 0; Answers 0 (drawn 3) 0 0 "" 0] in
  row_of 1 (plays accepting cancels) = Some (Cancelled, None, "")
  ∧ row_of 1 (plays accepting (cancels ++ [comes 1 "1" None None 4 0])) = Some (Failed, None, "done").
Proof. by vm_compute. Qed.

(** A debit by hand whose answer has no reference is accepted, and answered as
    an error; its row says nothing of it. *)
Example debit_without_a_reference :
  let w := plays accepting (daily_accepted ++ [comes 1 "0" (Some "MND1") None 4 0]) in
  let '(r, s) := initiate_direct_debit number_of accepting TelebirrSoap.two_accounts 7 "1" (Some ("3", Some (Dec 3 0))) (drawn 5) 9 0 (wd_store w) in
  (r_status <$> match r with inr x => Some x | inl _ => None end) = Some 500
  ∧ ((λ t, (dt_amount t, dt_status t, dt_originator t)) <$> g_debits s) = [(300, "pending", "")].
Proof. by vm_compute. Qed.


(** *** Witnesses *)

Lemma payer_ok : ok payer.
Proof. split; [exact SuperApp.customer_ok|constructor|]. by intros m ?%elem_of_nil. Qed.

Definition coin_story : list event := asks_coins ++ [comes 2 "0" None None 3 0; comes 3 "0" None (Some "TX1") 5 0].

Lemma mandates_refine_witness :
  order_of 1 (wd_store (plays accepting coin_story)) = (find_mandate 1 (wd_store (plays accepting coin_story)), [(7, 5000)])
  ∧ follows payer (wd_store (plays accepting coin_story)).
Proof. split; [by vm_compute|]. apply (mandates_refine number_of accepting TelebirrSoap.two_accounts (λ _, "9286") (λ _, "") coin_story payer payer_ok). Defined.

Lemma coins_given_once_witness :
  let s' := wd_store (plays accepting coin_story) in
  credits 1 (wd_store (plays accepting (asks_coins ++ [comes 2 "0" None None 3 0]))) = [] ∧ credits 1 s' = [(7, 5000)]
  ∧ (credits 1 s' = [] ∨ ∃ m, find_mandate 1 s' = Some m ∧ paid m (credits 1 s'))
  ∧ credited (comes 3 "0" None (Some "TX1") 5 0) 1 (wd_store (plays accepting (asks_coins ++ [comes 2 "0" None None 3 0]))) s'.
Proof.
  cbv zeta. split; [by vm_compute|]. split; [by vm_compute|].
  destruct (coins_given_once number_of accepting TelebirrSoap.two_accounts (λ _, "9286") (λ _, "") coin_story payer 1 payer_ok) as [H K]; [by vm_compute..|].
  split; [exact H|].
  destruct (K (asks_coins ++ [comes 2 "0" None None 3 0]) (comes 3 "0" None (Some "TX1") 5 0) [] eq_refl) as [E|[_ E]]; [|exact E].
  exfalso. revert E. by vm_compute.
Defined.

(** A mandate that waits for its activation. *)
Definition waiting_store : @store unit := wd_store (plays accepting daily_accepted).
Definition waiting_mandate : mandate :=
  Mandate 1 7 "251911000001" "FLP70" "" "9286" "MND1" PendingActive recurring "02" 365 "S_X20260101120001DEADBEEF" "AG_20260101_0123456789ab" ""
    (Some 1) None NoMetadata "" None None.

Lemma waiting_ok : ok waiting_store.
Proof.
  apply (all_follow number_of accepting TelebirrSoap.two_accounts (λ _, "9286") (λ _, "") daily_accepted (World payer []) payer_ok (Forall_nil_2 _)).
Qed.

Lemma activated_mandate_subscribes_witness :
  let d := drawn 3 in
  let originator := TelebirrSoap._generate_originator_conversation_id d in
  let m' := set_subscription_plan 50 (activated 0 (set_answer "Ammen" originator (TelebirrSoap._generate_conversation_id d) waiting_mandate)) in
  ∃ s', activate_direct_debit_mandate number_of accepting TelebirrSoap.two_accounts 7 "1" "Ammen" d 50 "pay1" 0 waiting_store = (inr (Resp 200 "active"), s')
    ∧ g_mandates s' = replace m' (g_mandates waiting_store)
    ∧ rows s' = <[50 := mandate_plan waiting_mandate UssdSubscription.daily 50 0]> (rows waiting_store) ∧ txs s' = txs waiting_store
    ∧ UssdSubscription.x_payments (g_shop s') = UssdSubscription.x_payments (g_shop waiting_store)
        ++ [mandate_payment waiting_mandate UssdSubscription.daily 50 "pay1" (default 0 (price_of 1 waiting_store)) 0]
    ∧ ∀ later, later < default (later + 1) (sp_end (mandate_plan waiting_mandate UssdSubscription.daily 50 0)) →
        has_active_subscription 7 later (plans s') = true.
Proof.
  apply (activated_mandate_subscribes number_of accepting TelebirrSoap.two_accounts "1" "Ammen" (drawn 3) 50 "pay1" 0 waiting_store waiting_mandate
    UssdSubscription.daily (TelebirrSoap._generate_originator_conversation_id (drawn 3)) (TelebirrSoap._generate_conversation_id (drawn 3)) "Accepted"
    waiting_ok); try by vm_compute.
  - intros x Hx. assert (g_mandates waiting_store = [waiting_mandate]) as E by (by vm_compute). rewrite E in Hx.
    apply list_elem_of_singleton in Hx as ->. by vm_compute.
  - intros q Hq. vm_compute in Hq. by apply elem_of_nil in Hq.
Defined.

Lemma timeouts_are_rejections_witness :
  let error := "Mandate activation failed: " +:+ "Read timed out." in
  let failed := with_mandates (replace (failed_with error waiting_mandate) (g_mandates waiting_store)) waiting_store in
  activate_direct_debit_mandate number_of silent TelebirrSoap.two_accounts 7 "1" "Ammen" (drawn 3) 50 "pay1" 0 waiting_store = (inr (Resp 500 error), failed)
  ∧ deaf silent TelebirrSoap.two_accounts (drawn 3) failed.
Proof.
  refine (proj1 (timeouts_are_rejections number_of silent TelebirrSoap.two_accounts "1" "Ammen" (drawn 3) 50 "pay1" 0 waiting_store waiting_mandate
    "Read timed out." waiting_ok _ _ _ _ _ _) _); try by vm_compute.
  intros x Hx. assert (g_mandates waiting_store = [waiting_mandate]) as E by (by vm_compute). rewrite E in Hx.
  apply list_elem_of_singleton in Hx as ->. by vm_compute.
Defined.

End DirectDebit.
